(* ===== verification/_CoqProject ===== *)
-Q . S2P
Prelude.v
GoStrings.v
AliasGraph.v
FwTelemetry.v
Incidents.v
GoNet.v
SiteOperation.v
Model.v
CsConfig.v
Bifrost.v
SiteRules.v
SiteValidate.v
SiteNormalize.v
DnsPlan.v
GwPlan.v
PxGuest.v
AirVpn.v
AirClient.v
PxHost.v
PxLxc.v
PxSafe.v
PxTrunk.v
PxSim.v
PxCalls.v
PxVolumes.v
PxQemu.v
PxVm.v
PxNic.v
PxAudit.v
SiteConfig.v
ModRegistry.v
ModResolve.v
ModCompose.v
StPlan.v
UsbPlan.v
PxPlan.v
Deploy.v
Authority.v
CsNames.v
CsDhcp.v
CsVpn.v
CsDns.v
CsValidate.v
FwSection.v
FwSafety.v
FwServices.v
FwDesired.v
FwCompose.v
FwReconcile.v
FwStage.v
FwAppliance.v
SvcCommands.v
