(* ===== verification/Prelude.v ===== *)
(** * Boetticher: a verified model of the core decision logic

    Boetticher is a command line tool that plans, installs and maintains a small
    laboratory site: one Proxmox host, an OpenWrt firewall appliance, a handful
    of guests and the services on them.  An operator writes a site file; the
    program validates it, resolves the modules it turns on, composes the
    complete site from it, derives the configuration of each appliance and
    guest, compares that with what is there, and changes the difference in a
    safe order.  This library models those decisions as executable functions and
    proves what they promise.  Nothing in it is assumed: what the program takes
    from outside its sources is an argument.

    ** The parts and where they are

    Shared ground.
    - [Prelude]: results ([result]: Go's value-or-error), loops with early
      return ([foldM], [eachM]), the state and error monad [M], int64
      arithmetic, sorting, the automation ([bools], hint database [go]).
    - [GoStrings]: Go's [strings], [strconv] and [utf8] on bytes; [GoNet]:
      [net] and [netip] (address and prefix parsing, ranges, hardware
      addresses); [AliasGraph]: chains of aliases, shared by two validators.

    The site ([src/internal/model]).
    - [Model]: the data of model.go and config.go, identity predicates, the seed
      site.  [SiteRules]: reservations, DNS records and firewall rules that an
      operator writes.  [SiteValidate]: [Site.Validate] with everything it
      calls.  [SiteNormalize]: [Normalize], the canonical JSON and the revision.
      [SiteConfig]: the site file, to a site ([BaseSite]) and back
      ([ConfigFromSite]).

    Modules ([src/internal/modules], [src/internal/artifacts/catalog.go]).
    - [ModRegistry]: the first-party modules, registry validation, bring-up
      order ([topologicalOrder]).  [ModResolve]: [Registry.Resolve], which
      modules a site file turns on.  [ModCompose]: [Compose], the complete site
      with guests, declarations and monitoring intents.

    Plans of a composed site.
    - [DnsPlan] ([src/internal/dns]): static records, lease updates.  [GwPlan]
      ([src/internal/firewall/plan.go]): interfaces, policy and NAT of the
      gateway.  [StPlan] ([src/internal/storage]): where volumes are kept;
      [UsbPlan] ([src/internal/usbexport]): USB slots; [PxPlan]
      ([src/internal/proxmox/plan.go]): the guests, in order of deployment.

    Proxmox ([src/internal/proxmox]).
    - [PxGuest]: what an observed guest must say before it is changed.  [PxLxc]:
      the programs that create, adopt, migrate, replace, recover and discard
      containers; [PxSafe], [PxSim], [PxCalls], [PxVolumes]: their protocol,
      the Proxmox they run against, and what happens to volumes.  [PxQemu],
      [PxVm], [PxNic]: the firewall's machine, its protocol and its interfaces.
      [PxAudit]: the removal of a module.  [PxHost], [PxTrunk]: discovery of the
      host's network, and the bridge with its physical port.

    Deployments ([src/internal/site/operation.go], [src/internal/cli/converge.go]).
    - [SiteOperation]: the journal of a running deployment; [Deploy]: the
      temporary root key, its installation, removal and recovery; [Authority]:
      where the key can be, over whole histories with kills.

    Client services ([src/internal/clientservices/config.go]).
    - [CsConfig]: data, defaults, normalisation; [CsNames]: names, addresses,
      errors; [CsDhcp], [CsVpn], [CsDns]: the three section validators;
      [CsValidate]: [Validate] as a whole.

    The firewall module ([src/internal/firewallmodule]).
    - [FwSection]: native sections and their escaped names; [FwSafety]: the
      permanent safety sets; [FwServices]: DNS, DHCP and time sections;
      [FwDesired]: zones, forwardings and rules; [FwCompose]: the composition of
      all of these; [FwReconcile]: the minimal owned change; [FwStage]: writing
      a change to a provider; [FwAppliance]: the ordered change of five packages.
    - [SvcCommands] ([src/internal/cli/client_services.go],
      [src/internal/controller/host]): the commands that plan, apply and take
      down DNS and DHCP and edit their records and reservations.

    Services.
    - [AirVpn], [AirClient] ([src/internal/airvpn/profile.go]): profiles of the
      VPN provider and the client that generates them.
    - [Bifrost] ([src/internal/bifrost/router.go]): the model router.
    - [Incidents] ([src/internal/observability/incidents/store.go]): the
      incident queue and its budgeted investigations.
    - [FwTelemetry] ([src/internal/firewalltelemetry/store.go]): the counters of
      the firewall over time.

    ** How they interact

    [SiteConfig.BaseSite] makes a site of the file, [ModCompose.Compose] resolves
    ([ModResolve]), orders ([ModRegistry]), projects and validates
    ([SiteValidate], which calls [SiteRules]).  The composed site is planned by
    [DnsPlan], [GwPlan] and [PxPlan] (with [StPlan] and [UsbPlan]); the guests of
    the plan are ensured one by one by the programs of [PxLxc] and [PxQemu],
    after [PxTrunk] prepared the network, and [Deploy] surrounds this with the
    temporary key and its journal.  [FwCompose.ComposeAppliance] takes a
    composed site and validated client services ([CsValidate]) to the five
    packages of the appliance; [FwAppliance.ReconcileAppliance] computes the
    changes with [FwReconcile.DiffOwned] and writes them with
    [FwStage.StageOwned] through a provider; [SvcCommands] asks the operator,
    saves the lab configuration and calls it.  The other services run on their
    own.

    ** Conventions

    Definitions keep the names of the sources; record fields carry a prefix.  A
    loop of the source is [foldM] of a [.._step] with the loop's locals as the
    accumulator; an early return is [fail_if] or a failing result, and error
    values name the branch.  Strings are bytes, pointers are options, float64 is
    [spec_float], Go integers are [Z] with [wrap64] where a sum can leave the
    range.  Where Go ranges over a map and the order matters, the order is an
    argument ([range], [first]) and the theorems hold for all admissible ones.

    The outside world appears in one of three ways.  A provider class
    ([UciWriter], [ApplianceProvider], [ClientProvider]) has operations on an
    abstract state, and its laws are another class.  A program that talks to
    Proxmox or to the VPN provider is a tree of calls: a request together with
    the wait for its task is one call, the answer is the argument of the rest,
    and a theorem holds for all answers or for a world that obeys stated laws.
    And where processes run concurrently or are killed ([Incidents],
    [Authority], [FwTelemetry]), statements or calls are steps that interleave,
    fail, lose their answers or stop taking effect; a kill is a run whose
    remaining calls fail without effect.  A cancelled context shows as failing
    calls.  Nobody else changes the host while a program runs.

    ** What the theorems show

    - Validators are sound: what passes has the properties its consumers rely on
      (distinct names, addresses and hardware addresses, ranges that do not
      overlap, alias chains that end, rules that stay off the platform), on the
      site, the client services, the safety sets and the router configuration.
    - Round trips: a site file written from a composed site composes to the same
      site; normalisation changes no verdict, is idempotent and keeps every field;
      the normal form of a VPN profile parses back to itself on exactly the stated
      conditions.
    - Ordering: the bring-up order is a topological order exactly when there is
      one, and the deployment plan follows it; the appliance change follows its
      gates on every run, failed ones included.
    - Refinement: the computed change reconciles a package, staging it leaves the
      package as specified, the whole run leaves all five as specified, and a
      command of an operator does all this only with consent and after saving a
      validated intent; what a plan reports and what apply counts differ by the
      network package exactly.
    - Proxmox: whatever it answers, containers and machines are stopped, moved or
      destroyed only after their identity was read; no declared volume is lost;
      a module is purged only of its own guests; the port of the laboratory's
      bridge is verified after it was attached.
    - Deployments: every machine with a temporary key is in the journal next to
      the key, one undisturbed recovery removes it, the order of the removals
      does not matter, and the machine that is forgotten is named.
    - Safety of what is derived: the appliance's firewall and the gateway's policy
      drop by default, and every section and rule that opens something is one of
      the kinds listed as an inductive type ([FwDesired.section_safe],
      [GwPlan.opened], [GwPlan.opens]) with its zones, ends, protocol and ports;
      leases change only their own zone's names; the router sends at most one
      request, along the route and with the key of the alias that was asked for;
      the VPN account changes only for a reason.
    - Stores: the incident store keeps its invariants and its budget under every
      interleaving, and an undisturbed investigation is described on every
      branch; the samples of the firewall account for its traffic exactly.
    - Termination: alias chains, module recursion and retry loops end.

    ** Bounds and fuel

    Recursions that are not structural take fuel, and a lemma shows the amount
    used to be enough: following aliases ([CsDns.walk], [SiteRules.follow]) one
    more than the number of entries; [ModRegistry.visit] one more than the
    number of active modules; completing dependencies ([ModResolve.complete])
    the active keys and all dependencies, and one; string scanning the length of
    the string.  The retry loop of [Incidents.reserveBudget] is bounded by a
    number of retries chosen by the caller of the model: all theorems hold for
    every number, and [Investigate_alone] shows that one is enough for a request
    that is not disturbed.  The waits of the sources keep their own bounds: the
    polls for a guest's disappearance, the attempts of the SSH sessions of a
    deployment, the ticks of a wait for a VPN device and the three answers of a
    prompt.  Ensuring a container starts over
    after a replacement, a recovery and a discarded guest, as often as Proxmox
    answers so; its fuel is an argument, running out of it is an error of its
    own, and its theorems hold for every amount.

    ** Parameters

    [GoUnicode] (the case table outside ASCII), [GoURL], [GoJSON], [AirJSON] and
    [ProviderJSON] (the standard parsers), [GoFormat] (formatted text of errors),
    [DeepEqual] ([reflect.DeepEqual]), [IncidentLib] (SHA-256, label JSON, UTC
    days, float conversions out of range), digests of sites, plans and embedded
    files, the provider classes, [Files], and [Bifrost.World] (upstream HTTP).
    Each property that assumes a law of a parameter is applied in its witness to
    a concrete instance.

    ** Not modelled

    Input and output around the modelled decisions: terminal output and most
    argument parsing, SSH, HTTP transports and their JSON, files and their
    encryption, artifact building, signing and releases, Ansible, the commands
    on block devices, the scripts run on the host at bootstrap and when its
    network is configured.  The meaning of rendered nftables text and the
    parsing of counters from nft, the differences of gateway plans and the
    isolation contract; the HTTP handlers of the incident and telemetry stores;
    module secret projections; the companion display; the arr stack's runtime;
    the disposable test of client services and the tailnet guest's commands;
    the steps of a deployment other than its authority.  They are listed with
    their reasons in the manifest of components. *)

From Stdlib Require Export ZArith Lia.
From stdpp Require Export sorting option.
From stdpp Require Export base gmap sets list strings.

(** ** Results: Go's [(value, error)] returns *)

Inductive result (E A : Type) : Type :=
| Ok (a : A)
| Err (e : E).
Arguments Ok {E A} _.
Arguments Err {E A} _.

#[export] Instance result_ret (E : Type) : MRet (result E) := fun _ a => Ok a.
#[export] Instance result_bind (E : Type) : MBind (result E) :=
  fun _ _ f m => match m with Ok a => f a | Err e => Err e end.
#[export] Instance result_fmap (E : Type) : FMap (result E) :=
  fun _ _ f m => match m with Ok a => Ok (f a) | Err e => Err e end.
#[export] Instance result_eq_dec {E A : Type} `{EqDecision E, EqDecision A} :
  EqDecision (result E A).
Proof. solve_decision. Defined.

(** [if bad { return err }]: the guard every validator of the program is made of. *)
Definition fail_if {E : Type} (bad : bool) (e : E) : result E unit :=
  if bad then Err e else Ok tt.

Definition is_ok {E A : Type} (r : result E A) : bool :=
  match r with Ok _ => true | Err _ => false end.

(** [for _, x := range xs { ...; if bad { return err } }] with the loop's
    mutable locals as the accumulator. *)
Fixpoint foldM {E S A : Type} (f : S → A → result E S) (s : S) (xs : list A) : result E S :=
  match xs with
  | [] => Ok s
  | x :: xs => s' ← f s x; foldM f s' xs
  end.

(** A loop without locals. *)
Definition eachM {E A : Type} (f : A → result E unit) (xs : list A) : result E unit :=
  foldM (fun _ x => f x) tt xs.

(** ** Stateful code that may fail

    A failure keeps the state reached so far, as Go code that returns early does. *)
Definition M (S E A : Type) : Type := S → S * result E A.
#[export] Instance M_ret S E : MRet (M S E) := fun _ a s => (s, Ok a).
#[export] Instance M_bind S E : MBind (M S E) := fun _ _ f m s =>
  match m s with (s', Ok a) => f a s' | (s', Err e) => (s', Err e) end.

Definition fail {S E A : Type} (e : E) : M S E A := fun s => (s, Err e).
(** Wraps the error of a call, as [fmt.Errorf] with [%w] does. *)
Definition wrap_err {S E1 E2 A : Type} (f : E1 → E2) (m : M S E1 A) : M S E2 A := fun s =>
  let '(s', r) := m s in (s', match r with Ok a => Ok a | Err e => Err (f e) end).
Definition of_result {S E1 E2 A : Type} (f : E1 → E2) (r : result E1 A) : M S E2 A :=
  match r with Ok a => mret a | Err e => fail (f e) end.

(** [for _, x := range xs { if err := f(x); err != nil { return err } }] *)
Fixpoint forM_ {S E A : Type} (f : A → M S E unit) (xs : list A) : M S E unit :=
  match xs with [] => mret tt | x :: xs => _ ← f x; forM_ f xs end.

(** The same with locals that the body updates. *)
Fixpoint foldS {S E B A : Type} (f : B → A → M S E B) (b : B) (xs : list A) : M S E B :=
  match xs with [] => mret b | x :: xs => b' ← f b x; foldS f b' xs end.

Lemma M_bind_ok {S E A B : Type} (m : M S E A) (f : A → M S E B) s s' b : (m ≫= f) s = (s', Ok b) →
  ∃ s1 a, m s = (s1, Ok a) ∧ f a s1 = (s', Ok b).
Proof. unfold mbind, M_bind. destruct (m s) as [s1 [a|]]; [|done]. eauto. Qed.

Lemma forM_inv {S E A : Type} (f : A → M S E unit) (I : S → Prop) xs s s' :
  I s → (∀ x s1 s2, x ∈ xs → I s1 → f x s1 = (s2, Ok tt) → I s2) → forM_ f xs s = (s', Ok tt) → I s'.
Proof.
  revert s. induction xs as [|x xs IH]; intros s Hs Hf; cbn; [by intros [= <-]|].
  intros (s1&[]&H1&H2)%M_bind_ok. eapply (IH s1); [|intros; eapply Hf; eauto; by right|done].
  eapply Hf; [|done..]. by left.
Qed.

Lemma foldS_inv {S E B A : Type} (f : B → A → M S E B) (I : list A → B → S → Prop) xs b s b' s' :
  I [] b s →
  (∀ done x b1 s1 b2 s2, I done b1 s1 → x ∈ xs → f b1 x s1 = (s2, Ok b2) → I (done ++ [x]) b2 s2) →
  foldS f b xs s = (s', Ok b') → I xs b' s'.
Proof.
  assert (∀ done, I done b s → (∀ dn x b1 s1 b2 s2, I dn b1 s1 → x ∈ xs → f b1 x s1 = (s2, Ok b2) → I (dn ++ [x]) b2 s2) →
    foldS f b xs s = (s', Ok b') → I (done ++ xs) b' s') as Hgen; [|by apply (Hgen [])].
  revert b s. induction xs as [|x xs IH]; intros b s dn H0 Hstep; cbn.
  - intros [= <- <-]. by rewrite app_nil_r.
  - intros (s1&b1&H1&H2)%M_bind_ok. change (dn ++ x :: xs) with (dn ++ [x] ++ xs). rewrite app_assoc.
    apply (IH b1 s1); [|intros; eapply Hstep; eauto; by right|done].
    eapply Hstep; [done| |done]. by left.
Qed.

Lemma wrap_err_ok {S E1 E2 A : Type} (f : E1 → E2) (m : M S E1 A) s s' a :
  wrap_err f m s = (s', Ok a) → m s = (s', Ok a).
Proof. unfold wrap_err. destruct (m s) as [s1 [b|]]; [|done]. by intros [= -> ->]. Qed.

Declare Scope go_scope.
Delimit Scope go_scope with go.
(** Go's [==] on comparable values. *)
Notation "x == y" := (bool_decide (x = y)) (at level 70, no associativity) : go_scope.
Notation "x != y" := (negb (bool_decide (x = y))) (at level 70, no associativity) : go_scope.
Open Scope go_scope.

(** ** Tactics *)

Lemma bind_ok {E A B : Type} (m : result E A) (f : A → result E B) b :
  (m ≫= f) = Ok b ↔ ∃ a, m = Ok a ∧ f a = Ok b.
Proof. destruct m; cbn; naive_solver. Qed.

Lemma fmap_ok {E A B : Type} (m : result E A) (f : A → B) b :
  (f <$> m) = Ok b ↔ ∃ a, m = Ok a ∧ f a = b.
Proof. destruct m; cbn; naive_solver. Qed.

Lemma fail_if_ok {E : Type} b (e : E) u : fail_if b e = Ok u ↔ b = false.
Proof. destruct b, u; done. Qed.

Lemma fail_if_err {E : Type} b (e e' : E) : fail_if b e = Err e' ↔ b = true ∧ e = e'.
Proof. destruct b; cbn; naive_solver. Qed.

(** Splits one monadic success hypothesis into the successes it is made of. *)
Ltac inv_ok :=
  repeat match goal with
  | H : Ok _ = Ok _ |- _ => injection H as H; try subst
  | H : Err _ = Ok _ |- _ => discriminate H
  | H : Ok _ = Err _ |- _ => discriminate H
  | H : Err _ = Err _ |- _ => injection H as H; try subst
  | H : mret _ = Ok _ |- _ => injection H as H; try subst
  | H : fail_if _ _ = Ok _ |- _ => apply fail_if_ok in H
  | H : (_ ≫= _) = Ok _ |- _ =>
      let a := fresh "r" in let E := fresh "E" in
      apply bind_ok in H as (a & E & H);
      try match type of a with unit => destruct a end
  | H : (_ <$> _) = Ok _ |- _ =>
      let a := fresh "r" in let E := fresh "E" in
      apply fmap_ok in H as (a & E & H); try subst
  end.

(** Turns boolean tests written the way the code writes them into facts. *)
Ltac bools :=
  repeat match goal with
  | H : _ && _ = true |- _ => apply andb_true_iff in H as [? ?]
  | H : _ || _ = false |- _ => apply orb_false_iff in H as [? ?]
  | H : negb _ = true |- _ => apply negb_true_iff in H
  | H : negb _ = false |- _ => apply negb_false_iff in H
  | H : bool_decide _ = true |- _ => apply bool_decide_eq_true_1 in H
  | H : bool_decide _ = false |- _ => apply bool_decide_eq_false_1 in H
  | H : (_ <? _)%Z = true |- _ => apply Z.ltb_lt in H
  | H : (_ <? _)%Z = false |- _ => apply Z.ltb_ge in H
  | H : (_ <=? _)%Z = true |- _ => apply Z.leb_le in H
  | H : (_ <=? _)%Z = false |- _ => apply Z.leb_gt in H
  | H : (_ =? _)%Z = true |- _ => apply Z.eqb_eq in H
  | H : (_ =? _)%Z = false |- _ => apply Z.eqb_neq in H
  | H : (_ >? _)%Z = _ |- _ => rewrite Z.gtb_ltb in H
  | H : (_ >=? _)%Z = _ |- _ => rewrite Z.geb_leb in H
  end.

Create HintDb go.
Create Rewrite HintDb go.

(** ** Loop lemmas *)

Section loops.
Context {E S A : Type}.
Implicit Types (f : S → A → result E S) (P : S → Prop).

Lemma foldM_app f s xs ys :
  foldM f s (xs ++ ys) = (s' ← foldM f s xs; foldM f s' ys).
Proof.
  revert s. induction xs as [|x xs IH]; intros s; [done|]. cbn.
  destruct (f s x); cbn; [apply IH|done].
Qed.

Lemma foldM_snoc f s xs x s2 :
  foldM f s (xs ++ [x]) = Ok s2 ↔ ∃ s1, foldM f s xs = Ok s1 ∧ f s1 x = Ok s2.
Proof.
  rewrite foldM_app. destruct (foldM f s xs) as [s1|e]; cbn.
  - destruct (f s1 x) as [s3|] eqn:E1; cbn; split.
    + intros [= ->]; eauto.
    + intros (?&[= <-]&?). congruence.
    + done.
    + intros (?&[= <-]&?). congruence.
  - split; [done|]. intros (?&?&?); congruence.
Qed.

(** Invariant rule of a loop that ran to its end. *)
Lemma foldM_inv f (I : list A → S → Prop) xs s0 s :
  I [] s0 →
  (∀ done x s1 s2, I done s1 → x ∈ xs → f s1 x = Ok s2 → I (done ++ [x]) s2) →
  foldM f s0 xs = Ok s → I xs s.
Proof.
  intros H0 Hstep. revert s.
  induction xs as [|x xs IH] using rev_ind; intros s Hok.
  - by injection Hok as <-.
  - apply foldM_snoc in Hok as (s1&H1&H2). eapply Hstep; [|set_solver|exact H2].
    apply IH; [|done]. intros; eapply Hstep; [done|set_solver|done].
Qed.

(** The same for both outcomes of the loop. *)
Lemma foldM_cases f (I : list A → S → Prop) (B : Prop) xs s0 :
  I [] s0 →
  (∀ dn x s1, I dn s1 → (∃ rest, xs = dn ++ x :: rest) → match f s1 x with Ok s2 => I (dn ++ [x]) s2 | Err _ => B end) →
  match foldM f s0 xs with Ok s => I xs s | Err _ => B end.
Proof.
  intros H0 Hstep. assert (∀ dn rest s, xs = dn ++ rest → I dn s → match foldM f s rest with Ok s => I xs s | Err _ => B end) as Hall.
  { intros dn rest. revert dn. induction rest as [|x rest IH]; intros dn s Hxs Hs; cbn; [by rewrite Hxs, app_nil_r|].
    specialize (Hstep dn x s Hs (ex_intro _ rest Hxs)). destruct (f s x) as [s2|e]; cbn; [|done].
    apply (IH (dn ++ [x])); [by rewrite <- app_assoc|done]. }
  by apply (Hall []).
Qed.

(** A loop whose body never fails runs to its end. *)
Lemma foldM_total f (P : S → Prop) xs s :
  P s → (∀ s1 x, P s1 → x ∈ xs → ∃ s2, f s1 x = Ok s2 ∧ P s2) →
  ∃ s', foldM f s xs = Ok s' ∧ P s'.
Proof.
  intros HP Hf. revert s HP. induction xs as [|x xs IH]; intros s HP; [by eexists|].
  destruct (Hf s x HP) as (s2&E2&P2); [set_solver|].
  destruct (IH) with (s := s2) as (s3&E3&P3); [set_solver|done|].
  exists s3. cbn. by rewrite E2.
Qed.
End loops.

(** A loop that appends one result for each element. *)
Fixpoint collect {E A B : Type} (f : A → result E B) (xs : list A) : result E (list B) :=
  match xs with
  | [] => Ok []
  | x :: xs => y ← f x; ys ← collect f xs; Ok (y :: ys)
  end.

Lemma collect_ok {E A B : Type} (f : A → result E B) xs ys :
  collect f xs = Ok ys ↔ Forall2 (fun x y => f x = Ok y) xs ys.
Proof.
  revert ys. induction xs as [|x xs IH]; intros ys; cbn.
  - split; [by intros [= <-]|]. by inversion 1.
  - rewrite bind_ok. split.
    + intros (y & Hy & (zs & Hz & [= <-])%bind_ok). constructor; [done|]. by apply IH.
    + inversion 1 as [|? y ? zs Hy Hz]; subst. exists y. split; [done|]. apply bind_ok. exists zs. split; [by apply IH|done].
Qed.

Lemma eachM_ok {E A : Type} (f : A → result E unit) xs u :
  eachM f xs = Ok u ↔ Forall (fun x => f x = Ok tt) xs.
Proof.
  unfold eachM. destruct u. induction xs as [|x xs IH]; cbn; [split; auto|].
  rewrite Forall_cons_iff, <- IH. destruct (f x) as [[]|] eqn:Ex; cbn; naive_solver.
Qed.

Lemma eachM_err {E A} (f : A → result E unit) xs e :
  eachM f xs = Err e → ∃ x, x ∈ xs ∧ f x = Err e.
Proof.
  unfold eachM. induction xs as [|x xs IH]; cbn; [done|].
  destruct (f x) as [[]|e'] eqn:Ex; cbn.
  - intros (y&?&?)%IH. exists y. set_solver.
  - intros [= ->]. exists x. set_solver.
Qed.

(** The [seen] idiom: a loop that rejects a repeated key and otherwise checks
    the element on its own leaves the keys pairwise distinct. *)
Definition seen_step {E A K : Type} `{Countable K} (key : A → K) (dup : A → E)
    (body : A → result E unit) (seen : gset K) (x : A) : result E (gset K) :=
  _ ← fail_if (bool_decide (key x ∈ seen)) (dup x);
  _ ← body x;
  Ok ({[key x]} ∪ seen).

Lemma seen_loop {E A K : Type} `{Countable K} (key : A → K) (dup : A → E) body xs s :
  foldM (seen_step key dup body) (∅ : gset K) xs = Ok s →
  NoDup (key <$> xs) ∧ Forall (fun x => body x = Ok tt) xs ∧ s = list_to_set (key <$> xs).
Proof.
  apply (foldM_inv _ (fun done s =>
    NoDup (key <$> done) ∧ Forall (fun x => body x = Ok tt) done ∧
    s = list_to_set (key <$> done))).
  - repeat split; constructor.
  - intros dn x s1 s2 (Hnd&Hall&->) _ Hf. unfold seen_step in Hf. inv_ok. bools.
    rewrite fmap_app, list_to_set_app_L. split_and!.
    + apply NoDup_app; split_and!; [done| |apply NoDup_singleton].
      intros k Hk. rewrite elem_of_list_to_set in E0. cbn. set_solver.
    + apply Forall_app; split; [done|by constructor].
    + cbn. set_solver.
Qed.

(** A map filled by a loop: the last element with a key wins. *)
Section fold_insert.
Context {K A B : Type} `{Countable K} (k : A → K) (v : A → B).
Definition fold_insert (m : gmap K B) (l : list A) : gmap K B := foldl (fun m x => <[k x := v x]> m) m l.

Lemma fold_insert_inv m l i y : fold_insert m l !! i = Some y →
  (∃ x, x ∈ l ∧ k x = i ∧ y = v x) ∨ m !! i = Some y.
Proof.
  unfold fold_insert. revert m. induction l as [|x l IH]; intros m; cbn; [auto|].
  intros [(z&?&?&?)|Hl]%IH; [left; exists z; set_solver|].
  destruct (decide (k x = i)) as [<-|].
  - rewrite lookup_insert_eq in Hl. left. exists x. set_solver.
  - rewrite lookup_insert_ne in Hl by done. auto.
Qed.

Lemma fold_insert_other m l i : (∀ x, x ∈ l → k x ≠ i) → fold_insert m l !! i = m !! i.
Proof.
  unfold fold_insert. revert m. induction l as [|x l IH]; intros m Hl; cbn; [done|].
  rewrite IH by set_solver. apply lookup_insert_ne. set_solver.
Qed.

Lemma fold_insert_lookup m l x : NoDup (map k l) → x ∈ l → fold_insert m l !! k x = Some (v x).
Proof.
  unfold fold_insert. revert m. induction l as [|y l IH]; intros m; cbn; [set_solver|].
  rewrite NoDup_cons. intros [Hy Hnd] [->|Hx]%elem_of_cons; [|by apply IH].
  fold (fold_insert (<[k y := v y]> m) l). rewrite fold_insert_other; [by apply lookup_insert_eq|].
  intros z Hz E. apply Hy. rewrite <- E. apply list_elem_of_fmap. eauto.
Qed.
End fold_insert.

(** Distinctness survives a change of key that separates at least as much. *)
Lemma NoDup_map_weaken {A B C : Type} (f : A → B) (g : A → C) l :
  (∀ x y, x ∈ l → y ∈ l → g x = g y → f x = f y) → NoDup (map f l) → NoDup (map g l).
Proof.
  induction l as [|x l IH]; intros Hfg; cbn; [constructor|].
  rewrite !NoDup_cons. intros [Hx Hl]. split.
  - intros (y & Hy & Hin)%list_elem_of_fmap. apply Hx. apply list_elem_of_fmap. exists y.
    split; [|done]. apply Hfg; set_solver.
  - apply IH; [|done]. intros; apply Hfg; set_solver.
Qed.

Lemma NoDup_map_inj {A B : Type} (f : A → B) l x y :
  NoDup (map f l) → x ∈ l → y ∈ l → f x = f y → x = y.
Proof.
  induction l as [|z l IH]; cbn; [set_solver|]. rewrite NoDup_cons. intros [Hz Hl].
  assert (∀ w, w ∈ l → f z ≠ f w) as Hw by (intros w Hin E; apply Hz; rewrite E; apply list_elem_of_fmap; eauto).
  rewrite !elem_of_cons. intros [->|Hx] [->|Hy] E; [done| | |by apply IH].
  - by destruct (Hw y Hy).
  - by destruct (Hw x Hx).
Qed.

Lemma NoDup_snoc {A} (l : list A) x : NoDup l → x ∉ l → NoDup (l ++ [x]).
Proof. intros. apply NoDup_app. split_and!; [done|set_solver|apply NoDup_singleton]. Qed.

Lemma elem_snoc {A} (x y : A) l : x ∈ l ++ [y] ↔ x ∈ l ∨ x = y.
Proof. by rewrite elem_of_app, list_elem_of_singleton. Qed.

Lemma Forall_flat_map_2 {A B : Type} (P : B → Prop) (f : A → list B) l :
  (∀ x, x ∈ l → Forall P (f x)) → Forall P (flat_map f l).
Proof.
  induction l as [|x l IH]; intros Hf; cbn; [constructor|].
  apply Forall_app. split; [apply Hf|apply IH; intros; apply Hf]; set_solver.
Qed.

Lemma existsb_false {A} (f : A → bool) l : existsb f l = false → Forall (fun x => f x = false) l.
Proof. induction l; cbn; [constructor|]. intros [? ?]%orb_false_iff. constructor; auto. Qed.

Lemma size_list_to_set_le {K} `{Countable K} (l : list K) :
  (size (list_to_set l : gset K) ≤ length l)%nat.
Proof.
  induction l as [|x l IH]; cbn [list_to_set length]; [by rewrite size_empty|].
  destruct (decide (x ∈ (list_to_set l : gset K))) as [Hx|Hx].
  - rewrite (subseteq_union_1_L {[x]} (list_to_set l)) by set_solver. lia.
  - rewrite size_union, size_singleton by set_solver. lia.
Qed.

(** ** Machine integers *)

Open Scope Z_scope.

Definition int64_min : Z := - 2 ^ 63.
Definition int64_max : Z := 2 ^ 63 - 1.
(** Two's complement wrap-around of Go's [int64] (and [int] on the 64-bit targets). *)
Definition wrap64 (z : Z) : Z := (z + 2 ^ 63) mod 2 ^ 64 - 2 ^ 63.
(** Wrap-around of [uint64] and [uint32]. *)
Definition wrapu64 (z : Z) : Z := z mod 2 ^ 64.
Definition in_int64 (z : Z) : Prop := int64_min ≤ z ≤ int64_max.
Definition in_uint64 (z : Z) : Prop := 0 ≤ z < 2 ^ 64.

Lemma wrap64_id z : in_int64 z → wrap64 z = z.
Proof. unfold in_int64, int64_min, int64_max, wrap64. intros. rewrite Z.mod_small; lia. Qed.

Lemma wrap64_range z : in_int64 (wrap64 z).
Proof.
  unfold in_int64, int64_min, int64_max, wrap64.
  pose proof (Z.mod_pos_bound (z + 2 ^ 63) (2 ^ 64)). lia.
Qed.

Lemma wrapu64_id z : in_uint64 z → wrapu64 z = z.
Proof. unfold in_uint64, wrapu64. intros. rewrite Z.mod_small; lia. Qed.

#[export] Hint Resolve wrap64_range : go.

(** ** Sorting: [sort.Strings] and [sort.Slice] by a string key *)

(** Go compares strings bytewise, which is [String.le]. *)
Definition sort_strings (l : list string) : list string := merge_sort String.le l.

Definition key_le {A : Type} (key : A → string) (x y : A) : Prop := String.le (key x) (key y).
#[export] Instance key_le_dec {A : Type} (key : A → string) : RelDecision (key_le key).
Proof. intros x y. unfold key_le. apply _. Defined.
#[export] Instance key_le_total {A : Type} (key : A → string) : Total (key_le key).
Proof. intros x y. unfold key_le. apply (total String.le). Qed.
#[export] Instance key_le_trans {A : Type} (key : A → string) : Transitive (key_le key).
Proof. intros x y z. unfold key_le. apply transitivity. Qed.

(** A stable sort, like the insertion sort behind [sort.Slice] for lists of up
    to twelve elements; beyond that Go leaves the order of equal keys open. *)
Section stable_sort.
Context {A : Type} (R : relation A) `{!RelDecision R}.

Fixpoint insert_sorted (x : A) (l : list A) : list A :=
  match l with
  | [] => [x]
  | y :: l => if decide (R x y) then x :: y :: l else y :: insert_sorted x l
  end.
Definition stable_sort (l : list A) : list A := foldr insert_sorted [] l.

Lemma insert_sorted_perm x l : insert_sorted x l ≡ₚ x :: l.
Proof. induction l as [|y l IH]; cbn; [done|]. case_decide; [done|]. by rewrite IH, Permutation_swap. Qed.

Lemma stable_sort_cons x l : stable_sort (x :: l) = insert_sorted x (stable_sort l).
Proof. done. Qed.

Lemma stable_sort_perm l : stable_sort l ≡ₚ l.
Proof. induction l as [|x l IH]; [done|]. by rewrite stable_sort_cons, insert_sorted_perm, IH. Qed.

Lemma stable_sort_fixed l : Sorted R l → stable_sort l = l.
Proof.
  induction 1 as [|x l _ IH Hx]; [done|]. rewrite stable_sort_cons, IH. destruct Hx as [|y l Hxy]; [done|]. cbn. by rewrite decide_True.
Qed.

Lemma insert_sorted_hd `{!Total R} x y l : HdRel R y l → R y x → HdRel R y (insert_sorted x l).
Proof. intros Hl Hyx. destruct Hl; cbn; [by constructor|]. case_decide; by constructor. Qed.

Lemma stable_sort_sorted `{!Total R} l : Sorted R (stable_sort l).
Proof.
  induction l as [|x l IH]; [constructor|]. rewrite stable_sort_cons. induction IH as [|y k Hk IHk Hy]; cbn; [by constructor|].
  case_decide as Hxy; [by repeat constructor|]. destruct (total R x y); [done|]. constructor; [done|]. by apply insert_sorted_hd.
Qed.
End stable_sort.

Definition sort_by {A : Type} (key : A → string) (l : list A) : list A := stable_sort (key_le key) l.

Lemma sort_strings_perm l : sort_strings l ≡ₚ l.
Proof. apply merge_sort_Permutation. Qed.
Lemma sort_strings_sorted l : Sorted String.le (sort_strings l).
Proof. apply Sorted_merge_sort. apply _. Qed.
Lemma sort_by_perm {A} (key : A → string) l : sort_by key l ≡ₚ l.
Proof. apply stable_sort_perm. Qed.
Lemma sort_by_sorted {A} (key : A → string) l : Sorted (key_le key) (sort_by key l).
Proof. apply stable_sort_sorted. apply _. Qed.
Lemma sort_by_fixed {A} (key : A → string) l : Sorted (key_le key) l → sort_by key l = l.
Proof. apply stable_sort_fixed. Qed.
Lemma sort_by_idemp {A} (key : A → string) l : sort_by key (sort_by key l) = sort_by key l.
Proof. apply sort_by_fixed, sort_by_sorted. Qed.

Lemma elem_of_sort_strings x l : x ∈ sort_strings l ↔ x ∈ l.
Proof. by rewrite sort_strings_perm. Qed.
Lemma elem_of_sort_by {A} (key : A → string) x l : x ∈ sort_by key l ↔ x ∈ l.
Proof. by rewrite sort_by_perm. Qed.

(** ** Sets *)

Lemma size_difference_new {A : Type} `{Countable A} (X Y : gset A) (x : A) : x ∈ X → x ∉ Y →
  (S (size (X ∖ ({[x]} ∪ Y))) ≤ size (X ∖ Y))%nat.
Proof.
  intros HX HY. assert (X ∖ Y = {[x]} ∪ (X ∖ ({[x]} ∪ Y))) as ->.
  { apply set_eq. intros y. destruct (decide (y = x)); set_solver. }
  rewrite (size_union {[x]} (X ∖ ({[x]} ∪ Y))), size_singleton by set_solver. lia.
Qed.
