(* ===== verification/GoStrings.v ===== *)
(** * Go's [strings], [strconv] and [unicode/utf8], as the program uses them

    A Go string is a sequence of bytes, so it is Rocq's [string] (a list of
    8-bit [ascii]).  Everything is defined on bytes.  The only part of the
    standard library left as a parameter is its Unicode case table
    ([GoUnicode]): [strings.ToLower] and friends consult it only for strings
    with a byte outside ASCII, which take the [non_ascii] branch below. *)

From S2P Require Import Prelude.
From stdpp Require Export pretty.
From Stdlib Require Export Ascii.

Open Scope Z_scope.

Class GoUnicode := {
  lower_non_ascii : string → string;
  upper_non_ascii : string → string;
  fold_non_ascii : string → string → bool;
}.

(** ** Bytes *)

Definition byte_val (c : ascii) : Z := Z.of_N (N_of_ascii c).
Definition byte_of (z : Z) : ascii := ascii_of_N (Z.to_N z).

Definition in_range (lo hi c : ascii) : bool :=
  (byte_val lo <=? byte_val c) && (byte_val c <=? byte_val hi).
Definition is_digit (c : ascii) : bool := in_range "0" "9" c.
Definition is_lower (c : ascii) : bool := in_range "a" "z" c.
Definition is_upper (c : ascii) : bool := in_range "A" "Z" c.
Definition digit_val (c : ascii) : Z := byte_val c - byte_val "0".
Definition is_ascii_byte (c : ascii) : bool := byte_val c <? 128.

Definition lower_byte (c : ascii) : ascii := if is_upper c then byte_of (byte_val c + 32) else c.
Definition upper_byte (c : ascii) : ascii := if is_lower c then byte_of (byte_val c - 32) else c.

Fixpoint smap (f : ascii → ascii) (s : string) : string :=
  match s with EmptyString => EmptyString | String c s => String (f c) (smap f s) end.

Fixpoint sall (p : ascii → bool) (s : string) : bool :=
  match s with EmptyString => true | String c s => p c && sall p s end.

Fixpoint sany (p : ascii → bool) (s : string) : bool :=
  match s with EmptyString => false | String c s => p c || sany p s end.

Definition len (s : string) : Z := Z.of_nat (String.length s).

(** ** Prefixes, suffixes, containment *)

Fixpoint strip_prefix (p s : string) : option string :=
  match p, s with
  | EmptyString, _ => Some s
  | String a p, String b s => if Ascii.eqb a b then strip_prefix p s else None
  | _, _ => None
  end.

Definition has_prefix (s p : string) : bool :=
  match strip_prefix p s with Some _ => true | None => false end.
Definition trim_prefix (s p : string) : string :=
  match strip_prefix p s with Some r => r | None => s end.

Definition strip_suffix (p s : string) : option string :=
  String.rev <$> strip_prefix (String.rev p) (String.rev s).
Definition has_suffix (s p : string) : bool :=
  match strip_suffix p s with Some _ => true | None => false end.
Definition trim_suffix (s p : string) : string :=
  match strip_suffix p s with Some r => r | None => s end.

Fixpoint contains (s sub : string) : bool :=
  has_prefix s sub || match s with EmptyString => false | String _ s => contains s sub end.

Definition contains_byte (s : string) (c : ascii) : bool := sany (Ascii.eqb c) s.
(** [strings.ContainsAny] with an ASCII set of characters. *)
Definition contains_any (s chars : string) : bool := sany (contains_byte chars) s.

(** ** Splitting and joining *)

(** [strings.Split] on a one-byte separator: never empty. *)
Fixpoint split (s : string) (sep : ascii) : list string :=
  match s with
  | EmptyString => [EmptyString]
  | String c s =>
      if Ascii.eqb c sep then EmptyString :: split s sep
      else match split s sep with
           | [] => [String c EmptyString]
           | w :: ws => String c w :: ws
           end
  end.

Fixpoint join (ws : list string) (sep : string) : string :=
  match ws with
  | [] => EmptyString
  | [w] => w
  | w :: ws => w +:+ sep +:+ join ws sep
  end.

(** [strings.ReplaceAll] of a one-byte pattern. *)
Fixpoint replace_all (s : string) (old : ascii) (new : string) : string :=
  match s with
  | EmptyString => EmptyString
  | String c s => (if Ascii.eqb c old then new else String c EmptyString) +:+ replace_all s old new
  end.

(** [strings.ReplaceAll] of a non-empty text; [skip] counts the bytes already replaced. *)
Fixpoint replace_text (skip : nat) (s old new : string) : string :=
  match s with
  | EmptyString => EmptyString
  | String c r =>
      match skip with
      | S skip => replace_text skip r old new
      | O => if has_prefix s old then new +:+ replace_text (String.length old - 1) r old new
             else String c (replace_text O r old new)
      end
  end.

Fixpoint trim_right_rev (c : ascii) (s : string) : string :=
  match s with
  | String d s' => if Ascii.eqb c d then trim_right_rev c s' else s
  | EmptyString => EmptyString
  end.
(** [strings.TrimRight] with a one-byte cutset. *)
Definition trim_right (s : string) (c : ascii) : string :=
  String.rev (trim_right_rev c (String.rev s)).

(** ** Case *)

Section case.
Context `{GoUnicode}.

Definition to_lower (s : string) : string :=
  if sall is_ascii_byte s then smap lower_byte s else lower_non_ascii s.
Definition to_upper (s : string) : string :=
  if sall is_ascii_byte s then smap upper_byte s else upper_non_ascii s.
Definition equal_fold (s t : string) : bool :=
  if sall is_ascii_byte s && sall is_ascii_byte t
  then String.eqb (smap lower_byte s) (smap lower_byte t)
  else fold_non_ascii s t.
End case.

(** What the Unicode tables promise: [strings.ToLower] maps rune by rune, so it
    goes through an ASCII dot, mapping twice changes nothing more, and no other
    rune's lower case is the dot. *)
Class GoUnicodeLaws `{GoUnicode} := {
  to_lower_idemp s : to_lower (to_lower s) = to_lower s;
  to_lower_dot s t : to_lower (s +:+ String "." t) = to_lower s +:+ String "." (to_lower t);
  to_lower_no_dot s : contains_byte s "." = false → contains_byte (to_lower s) "." = false;
}.

(** A Unicode table that maps ASCII letters only: enough to evaluate the
    definitions on ASCII inputs. *)
Definition ascii_only : GoUnicode := {|
  lower_non_ascii := smap lower_byte;
  upper_non_ascii := smap upper_byte;
  fold_non_ascii s t := String.eqb (smap lower_byte s) (smap lower_byte t);
|}.

(** ** White space: [unicode.IsSpace] on UTF-8 *)

Definition is_ascii_space (c : ascii) : bool :=
  in_range "009" "013" c || Ascii.eqb c " ".

(** The UTF-8 encodings of the white space runes outside ASCII: U+0085, U+00A0,
    U+1680, U+2000 to U+200A, U+2028, U+2029, U+202F, U+205F and U+3000. *)
Definition space_encodings : list (list Z) :=
  [[194; 133]; [194; 160]; [225; 154; 128]]
  ++ ((fun k => [226; 128; k]) <$> [128; 129; 130; 131; 132; 133; 134; 135; 136; 137; 138; 168; 169; 175])
  ++ [[226; 129; 159]; [227; 128; 128]].

Definition string_of_vals (zs : list Z) : string :=
  foldr (fun z s => String (byte_of z) s) EmptyString zs.

Definition first_some {A B : Type} (f : A → option B) (l : list A) : option B :=
  foldr (fun a r => match f a with Some b => Some b | None => r end) None l.

(** Drops one leading space; [encs] are the non-ASCII spaces, read forwards or
    backwards. *)
Definition strip_space (encs : list string) (s : string) : option string :=
  match s with
  | EmptyString => None
  | String c s' =>
      if is_ascii_space c then Some s'
      else if is_ascii_byte c then None
      else first_some (fun e => strip_prefix e s) encs
  end.

Definition encs_forward : list string :=
  Eval vm_compute in string_of_vals <$> space_encodings.
Definition encs_backward : list string :=
  Eval vm_compute in (fun e => string_of_vals (reverse e)) <$> space_encodings.

Fixpoint trim_left_fuel (fuel : nat) (encs : list string) (s : string) : string :=
  match fuel with
  | O => s
  | S fuel =>
      match strip_space encs s with
      | Some s' => trim_left_fuel fuel encs s'
      | None => s
      end
  end.

(** [strings.TrimSpace].  Every step drops a byte, so the length is enough fuel. *)
Definition trim_space (s : string) : string :=
  let l := trim_left_fuel (String.length s) encs_forward s in
  String.rev (trim_left_fuel (String.length l) encs_backward (String.rev l)).

(** [strings.Fields]; every step drops a byte. *)
Fixpoint fields_fuel (fuel : nat) (word s : string) : list string :=
  let flush := if String.eqb word "" then [] else [String.rev word] in
  match fuel with
  | O => flush
  | S fuel =>
      match strip_space encs_forward s, s with
      | Some s', _ => flush ++ fields_fuel fuel "" s'
      | None, String c s' => fields_fuel fuel (String c word) s'
      | None, EmptyString => flush
      end
  end.
Definition fields (s : string) : list string := fields_fuel (S (String.length s)) "" s.

(** ** Runes *)

Definition rune_error : Z := 65533.

Definition cont (c : ascii) (lo hi : Z) : bool :=
  (lo <=? byte_val c) && (byte_val c <=? hi).

(** [utf8.DecodeRuneInString] on a non-empty string: the rune and its width. *)
Definition decode_rune (c : ascii) (s : string) : Z * nat :=
  let x := byte_val c in
  let bad := (rune_error, 1%nat) in
  if x <? 128 then (x, 1%nat)
  else if (194 <=? x) && (x <=? 223) then
    match s with
    | String c1 _ => if cont c1 128 191
        then (Z.lor (Z.shiftl (Z.land x 31) 6) (Z.land (byte_val c1) 63), 2%nat) else bad
    | _ => bad
    end
  else if (224 <=? x) && (x <=? 239) then
    match s with
    | String c1 (String c2 _) =>
        if cont c1 (if x =? 224 then 160 else 128) (if x =? 237 then 159 else 191) && cont c2 128 191
        then (Z.lor (Z.shiftl (Z.land x 15) 12)
               (Z.lor (Z.shiftl (Z.land (byte_val c1) 63) 6) (Z.land (byte_val c2) 63)), 3%nat)
        else bad
    | _ => bad
    end
  else if (240 <=? x) && (x <=? 244) then
    match s with
    | String c1 (String c2 (String c3 _)) =>
        if cont c1 (if x =? 240 then 144 else 128) (if x =? 244 then 143 else 191)
           && cont c2 128 191 && cont c3 128 191
        then (Z.lor (Z.shiftl (Z.land x 7) 18)
               (Z.lor (Z.shiftl (Z.land (byte_val c1) 63) 12)
                 (Z.lor (Z.shiftl (Z.land (byte_val c2) 63) 6) (Z.land (byte_val c3) 63))), 4%nat)
        else bad
    | _ => bad
    end
  else bad.

(** [for _, r := range s]: [skip] counts the bytes of the current rune still
    to be passed over. *)
Fixpoint runes_from (skip : nat) (s : string) : list Z :=
  match s with
  | EmptyString => []
  | String c s =>
      match skip with
      | S k => runes_from k s
      | O => let '(r, w) := decode_rune c s in r :: runes_from (pred w) s
      end
  end.
Definition runes (s : string) : list Z := runes_from 0 s.

(** ** Decimal numbers: [strconv] *)

Definition digit_char (d : Z) : ascii := byte_of (48 + d).

Fixpoint udec_fuel (fuel : nat) (n : Z) : string :=
  match fuel with
  | O => EmptyString
  | S fuel =>
      if n <? 10 then String (digit_char n) EmptyString
      else udec_fuel fuel (n / 10) +:+ String (digit_char (n mod 10)) EmptyString
  end.
(** [strconv.FormatUint(n, 10)]; a quotient by ten halves at least. *)
Definition format_uint (n : Z) : string := udec_fuel (S (Z.to_nat (Z.log2 n))) n.
(** [strconv.Itoa] and [strconv.FormatInt(n, 10)]. *)
Definition itoa (n : Z) : string :=
  if n <? 0 then "-" +:+ format_uint (- n) else format_uint n.

Fixpoint scan_digits (acc : Z) (s : string) : option Z :=
  match s with
  | EmptyString => Some acc
  | String c s => if is_digit c then scan_digits (acc * 10 + digit_val c) s else None
  end.

(** [strconv.ParseUint(s, 10, 64)]: [None] for a syntax or a range error. *)
Definition parse_uint (s : string) : option Z :=
  match s with
  | EmptyString => None
  | _ => v ← scan_digits 0 s; if v <? 2 ^ 64 then Some v else None
  end.

(** [strconv.ParseInt(s, 10, 64)]. *)
Definition parse_int (s : string) : option Z :=
  match s with
  | String c s' =>
      if Ascii.eqb c "-" then
        match s' with
        | EmptyString => None
        | _ => v ← scan_digits 0 s'; if v <=? 2 ^ 63 then Some (- v) else None
        end
      else
        let t := if Ascii.eqb c "+" then s' else s in
        match t with
        | EmptyString => None
        | _ => v ← scan_digits 0 t; if v <? 2 ^ 63 then Some v else None
        end
  | EmptyString => None
  end.

(** ** Lemmas *)

Lemma byte_val_range c : 0 ≤ byte_val c < 256.
Proof. unfold byte_val. pose proof (N_ascii_bounded c). lia. Qed.

Lemma byte_of_val c : byte_of (byte_val c) = c.
Proof. unfold byte_of, byte_val. by rewrite N2Z.id, ascii_N_embedding. Qed.

Lemma byte_val_of z : 0 ≤ z < 256 → byte_val (byte_of z) = z.
Proof. intros. unfold byte_of, byte_val. rewrite N_ascii_embedding; lia. Qed.

Lemma byte_val_inj c d : byte_val c = byte_val d → c = d.
Proof. intros E. by rewrite <- (byte_of_val c), E, byte_of_val. Qed.

Lemma app_assoc_s (s t u : string) : (s +:+ t) +:+ u = s +:+ (t +:+ u).
Proof. unfold String.app. induction s; cbn; congruence. Qed.

Lemma app_nil_r_s (s : string) : s +:+ "" = s.
Proof. unfold String.app. induction s; cbn; congruence. Qed.

Lemma app_nil_l_s (s : string) : "" +:+ s = s.
Proof. done. Qed.

Lemma app_cons_s c (s t : string) : String c s +:+ t = String c (s +:+ t).
Proof. done. Qed.

Lemma length_app_s (s t : string) :
  String.length (s +:+ t) = (String.length s + String.length t)%nat.
Proof. unfold String.app. induction s; cbn; lia. Qed.

Lemma digit_char_digit d : 0 ≤ d < 10 → is_digit (digit_char d) = true ∧ digit_val (digit_char d) = d.
Proof.
  intros Hd. unfold is_digit, in_range, digit_val, digit_char.
  rewrite byte_val_of by lia. change (byte_val "0") with 48. change (byte_val "9") with 57.
  split; [|lia]. apply andb_true_iff. split; apply Z.leb_le; lia.
Qed.

Lemma scan_digits_app acc s t :
  scan_digits acc (s +:+ t) = (a ← scan_digits acc s; scan_digits a t).
Proof.
  unfold String.app. revert acc. induction s as [|c s IH]; intros acc; [done|]. cbn.
  destruct (is_digit c); [apply IH|done].
Qed.

Lemma scan_udec fuel n : 0 ≤ n < 10 ^ Z.of_nat fuel → (0 < fuel)%nat →
  scan_digits 0 (udec_fuel fuel n) = Some n.
Proof.
  revert n. induction fuel as [|fuel IH]; intros n Hn Hf; [lia|]. cbn [udec_fuel].
  destruct (Z.ltb_spec n 10) as [Hlt|Hge].
  - destruct (digit_char_digit n) as [E1 E2]; [lia|]. cbn. rewrite E1, E2. done.
  - rewrite scan_digits_app.
    assert (10 ^ Z.of_nat (S fuel) = 10 * 10 ^ Z.of_nat fuel) as Hp.
    { rewrite Nat2Z.inj_succ, Z.pow_succ_r by lia. done. }
    destruct fuel as [|fuel].
    { cbn in Hp. lia. }
    rewrite IH; [|split; [apply Z.div_pos; lia|apply Z.div_lt_upper_bound; lia]|lia].
    cbn. destruct (digit_char_digit (n mod 10)) as [E1 E2]; [apply Z.mod_pos_bound; lia|].
    rewrite E1, E2. f_equal. pose proof (Z.div_mod n 10). lia.
Qed.

Lemma log2_fuel n : 0 ≤ n → n < 10 ^ Z.of_nat (S (Z.to_nat (Z.log2 n))).
Proof.
  intros Hn. rewrite Nat2Z.inj_succ, Z2Nat.id by apply Z.log2_nonneg.
  destruct (Z.eq_dec n 0) as [->|]; [done|].
  pose proof (Z.log2_spec n ltac:(lia)) as [_ Hl].
  eapply Z.lt_le_trans; [exact Hl|]. apply Z.pow_le_mono_l. lia.
Qed.

Lemma scan_format_uint n : 0 ≤ n → scan_digits 0 (format_uint n) = Some n.
Proof. intros. apply scan_udec; [|lia]. split; [done|by apply log2_fuel]. Qed.

Lemma udec_not_nil fuel n : (0 < fuel)%nat → udec_fuel fuel n ≠ "".
Proof.
  destruct fuel as [|f]; [lia|]. intros _. cbn. destruct (n <? 10); [done|].
  intros E. apply (f_equal String.length) in E. rewrite length_app_s in E. cbn in E. lia.
Qed.

(** A counter written with [strconv.FormatUint] is read back unchanged. *)
Lemma parse_format_uint n : in_uint64 n → parse_uint (format_uint n) = Some n.
Proof.
  intros [H0 H1]. unfold parse_uint.
  destruct (format_uint n) as [|c s] eqn:E.
  { exfalso. revert E. apply udec_not_nil. lia. }
  rewrite <- E, scan_format_uint by done. cbn.
  destruct (Z.ltb_spec n (2 ^ 64)); [done|lia].
Qed.

Lemma format_uint_inj n m : 0 ≤ n → 0 ≤ m → format_uint n = format_uint m → n = m.
Proof.
  intros Hn Hm E. pose proof (scan_format_uint n Hn) as E1.
  rewrite E, scan_format_uint in E1 by done. congruence.
Qed.

Lemma strip_prefix_spec p s r : strip_prefix p s = Some r ↔ s = p +:+ r.
Proof.
  unfold String.app. revert s. induction p as [|a p IH]; intros [|b s]; cbn; try naive_solver.
  destruct (Ascii.eqb_spec a b) as [->|]; [rewrite IH|]; naive_solver.
Qed.

Lemma has_prefix_spec s p : has_prefix s p = true ↔ ∃ r, s = p +:+ r.
Proof.
  unfold has_prefix. destruct (strip_prefix p s) as [r|] eqn:E.
  - apply strip_prefix_spec in E. split; eauto.
  - split; [done|]. intros [r Hr]. apply strip_prefix_spec in Hr. congruence.
Qed.

Lemma has_prefix_app p r : has_prefix (p +:+ r) p = true.
Proof. apply has_prefix_spec. eauto. Qed.

Lemma trim_prefix_app p r : trim_prefix (p +:+ r) p = r.
Proof. unfold trim_prefix. by rewrite (proj2 (strip_prefix_spec _ _ _) eq_refl). Qed.

Lemma rev_app_spec s t : String.rev_app s t = String.rev s +:+ t.
Proof.
  unfold String.rev. revert t. induction s as [|c s IH]; intros t; [done|]. cbn.
  rewrite IH, (IH (String c "")), app_assoc_s. done.
Qed.

Lemma rev_cons c s : String.rev (String c s) = String.rev s +:+ String c "".
Proof. unfold String.rev at 1. cbn. apply rev_app_spec. Qed.

Lemma rev_app s t : String.rev (s +:+ t) = String.rev t +:+ String.rev s.
Proof.
  induction s as [|c s IH]; [by rewrite app_nil_r_s|].
  by rewrite app_cons_s, !rev_cons, IH, app_assoc_s.
Qed.

Lemma rev_involutive s : String.rev (String.rev s) = s.
Proof. induction s as [|c s IH]; [done|]. by rewrite rev_cons, rev_app, IH. Qed.

Lemma strip_suffix_spec p s r : strip_suffix p s = Some r ↔ s = r +:+ p.
Proof.
  unfold strip_suffix. rewrite fmap_Some. split.
  - intros (x & E & ->). apply strip_prefix_spec in E.
    by rewrite <- (rev_involutive s), E, rev_app, rev_involutive.
  - intros ->. exists (String.rev r). split; [|by rewrite rev_involutive].
    apply strip_prefix_spec. by rewrite rev_app.
Qed.

Lemma has_suffix_spec s p : has_suffix s p = true ↔ ∃ r, s = r +:+ p.
Proof.
  unfold has_suffix. destruct (strip_suffix p s) as [r|] eqn:E.
  - apply strip_suffix_spec in E. split; eauto.
  - split; [done|]. intros [r Hr]. apply strip_suffix_spec in Hr. congruence.
Qed.

Lemma has_suffix_app r p : has_suffix (r +:+ p) p = true.
Proof. apply has_suffix_spec. eauto. Qed.

Lemma trim_suffix_app r p : trim_suffix (r +:+ p) p = r.
Proof. unfold trim_suffix. by rewrite (proj2 (strip_suffix_spec _ _ _) eq_refl). Qed.

Lemma trim_suffix_id s p : has_suffix s p = false → trim_suffix s p = s.
Proof. unfold has_suffix, trim_suffix. by destruct (strip_suffix p s). Qed.

Lemma sall_app f s t : sall f (s +:+ t) = sall f s && sall f t.
Proof. unfold String.app. induction s; cbn; [done|]. rewrite IHs. by destruct (f a). Qed.

Lemma sall_mono (f g : ascii → bool) s :
  (∀ c, f c = true → g c = true) → sall f s = true → sall g s = true.
Proof. intros Hfg. induction s; cbn; [done|]. intros [? ?]%andb_true_iff. rewrite Hfg; auto. Qed.

Lemma smap_id f s : sall (fun c => Ascii.eqb (f c) c) s = true → smap f s = s.
Proof.
  induction s as [|c s IH]; cbn; [done|]. intros [E ?]%andb_true_iff.
  apply Ascii.eqb_eq in E. rewrite E, IH; done.
Qed.

Lemma to_lower_id `{GoUnicode} s :
  sall (fun c => is_ascii_byte c && negb (is_upper c)) s = true → to_lower s = s.
Proof.
  intros Hs. unfold to_lower.
  assert (sall is_ascii_byte s = true) as ->.
  { eapply sall_mono; [|exact Hs]. by intros c [? _]%andb_true_iff. }
  apply smap_id. eapply sall_mono; [|exact Hs]. intros c [_ Hu]%andb_true_iff.
  unfold lower_byte. apply negb_true_iff in Hu. rewrite Hu. apply Ascii.eqb_refl.
Qed.

#[export] Hint Rewrite app_assoc_s app_nil_r_s trim_prefix_app trim_suffix_app : go.
#[export] Hint Resolve has_prefix_app has_suffix_app : go.

(** Evaluations on concrete inputs. *)
Example split_ex : split "a.b..c" "." = ["a"; "b"; ""; "c"].
Proof. reflexivity. Qed.
Example trim_ex : trim_space "  a b	" = "a b".
Proof. reflexivity. Qed.
Example itoa_ex : itoa (-4094) = "-4094" ∧ parse_int "-4094" = Some (-4094).
Proof. split; reflexivity. Qed.
Example contains_ex : contains "lab.home.arpa" "home" = true ∧ contains "lab" "home" = false.
Proof. split; reflexivity. Qed.

Lemma udec_fuel_irrel f g n :
  0 ≤ n → n < 10 ^ Z.of_nat (S f) → n < 10 ^ Z.of_nat (S g) → udec_fuel (S f) n = udec_fuel (S g) n.
Proof.
  revert g n. induction f as [|f IH]; intros [|g] n Hn Hf Hg; [done|..].
  1,2: cbn in Hf, Hg; cbn; destruct (Z.ltb_spec n 10); [done|lia].
  rewrite Nat2Z.inj_succ, Z.pow_succ_r in Hf, Hg by lia.
  cbn [udec_fuel]. destruct (Z.ltb_spec n 10); [done|]. f_equal.
  apply IH; [apply Z.div_pos; lia| |]; apply Z.div_lt_upper_bound; lia.
Qed.

Lemma format_uint_digit d : 0 ≤ d < 10 → format_uint d = String (digit_char d) "".
Proof. intros. unfold format_uint. cbn. destruct (Z.ltb_spec d 10); [done|lia]. Qed.

Lemma format_uint_step n d : 1 ≤ n → 0 ≤ d < 10 →
  format_uint (n * 10 + d) = format_uint n +:+ String (digit_char d) "".
Proof.
  intros Hn Hd. unfold format_uint.
  pose proof (log2_fuel (n * 10 + d) ltac:(lia)) as Hl.
  assert (0 < Z.log2 (n * 10 + d)) as Hpos by (apply Z.log2_pos; lia).
  destruct (Z.to_nat (Z.log2 (n * 10 + d))) as [|f] eqn:Ef; [lia|].
  cbn [udec_fuel]. destruct (Z.ltb_spec (n * 10 + d) 10); [lia|].
  replace ((n * 10 + d) / 10) with n by (apply Z.div_unique with d; lia).
  replace ((n * 10 + d) mod 10) with d by (apply Z.mod_unique with n; lia).
  f_equal. apply (udec_fuel_irrel f); [lia| |apply log2_fuel; lia].
  rewrite Nat2Z.inj_succ, Z.pow_succ_r in Hl by lia. lia.
Qed.

Lemma digit_char_val c : is_digit c = true → digit_char (digit_val c) = c ∧ 0 ≤ digit_val c < 10.
Proof.
  unfold is_digit, in_range, digit_val, digit_char. intros [H0 H9]%andb_true_iff.
  apply Z.leb_le in H0, H9. change (byte_val "9") with 57 in H9. change (byte_val "0") with 48 in *.
  split; [|lia]. replace (48 + (byte_val c - 48)) with (byte_val c) by lia. apply byte_of_val.
Qed.

Lemma itoa_nonneg n : 0 ≤ n → itoa n = format_uint n.
Proof. intros. unfold itoa. destruct (Z.ltb_spec n 0); [lia|done]. Qed.

Lemma scan_digits_sound acc s v : 1 ≤ acc → scan_digits acc s = Some v →
  format_uint v = format_uint acc +:+ s ∧ acc ≤ v.
Proof.
  revert acc. induction s as [|c s IH]; intros acc Ha Hs; cbn in Hs.
  - injection Hs as ->. by rewrite app_nil_r_s.
  - destruct (is_digit c) eqn:Hc; [|done]. pose proof (digit_char_val c Hc) as [Ec Hd].
    apply IH in Hs as [E Hle]; [|lia]. split; [|lia].
    by rewrite E, format_uint_step, Ec, app_assoc_s by lia.
Qed.

Lemma digit_range_19 c : in_range "1" "9" c = true → is_digit c = true ∧ 1 ≤ digit_val c.
Proof.
  unfold is_digit, in_range, digit_val. change (byte_val "1") with 49. change (byte_val "9") with 57.
  change (byte_val "0") with 48. intros [?%Z.leb_le ?%Z.leb_le]%andb_true_iff.
  split; [|lia]. apply andb_true_iff. split; apply Z.leb_le; lia.
Qed.

(** ** Splitting, trimming and reversing *)

Lemma split_sep s t sep : split (s +:+ String sep t) sep = split s sep ++ split t sep.
Proof.
  induction s as [|c s IH]; [rewrite app_nil_l_s|rewrite app_cons_s]; cbn.
  - by rewrite Ascii.eqb_refl.
  - rewrite IH. destruct (Ascii.eqb c sep); [done|].
    destruct (split s sep) eqn:E; [|done]. exfalso. destruct s; cbn in E; [done|].
    destruct (Ascii.eqb _ _); [done|]. by destruct (split s sep).
Qed.

Lemma split_nonempty s sep : split s sep ≠ [].
Proof. destruct s as [|c s]; cbn; [done|]. destruct (Ascii.eqb c sep); [done|]. by destruct (split s sep). Qed.

Lemma sall_split p s sep :
  Forall (fun w => sall p w = true) (split s sep) → sall (fun c => p c || Ascii.eqb c sep) s = true.
Proof.
  induction s as [|c s IH]; cbn; [done|]. destruct (Ascii.eqb c sep) eqn:E.
  - rewrite Forall_cons_iff. intros [_ H]. rewrite orb_true_r. by apply IH.
  - destruct (split s sep) as [|w ws] eqn:Es; [by apply split_nonempty in Es|].
    rewrite Forall_cons_iff. cbn. intros [[Hc Hw]%andb_true_iff Hws]. rewrite Hc. cbn.
    apply IH. by constructor.
Qed.

Lemma sall_rev p s : sall p (String.rev s) = sall p s.
Proof.
  induction s as [|c s IH]; [done|]. rewrite rev_cons, sall_app, IH. cbn.
  rewrite andb_true_r. apply andb_comm.
Qed.

Definition plain_byte (c : ascii) : bool := is_ascii_byte c && negb (is_ascii_space c).

Lemma trim_left_id fuel encs s : sall plain_byte s = true → trim_left_fuel fuel encs s = s.
Proof.
  destruct fuel, s as [|c s]; cbn; try done. unfold plain_byte.
  intros [[-> Hc]%andb_true_iff _]%andb_true_iff. apply negb_true_iff in Hc. by rewrite Hc.
Qed.

Lemma trim_space_id s : sall plain_byte s = true → trim_space s = s.
Proof.
  intros Hs. unfold trim_space. rewrite (trim_left_id _ _ s) by done.
  rewrite trim_left_id by (by rewrite sall_rev). apply rev_involutive.
Qed.

Lemma smap_app f s t : smap f (s +:+ t) = smap f s +:+ smap f t.
Proof. induction s; [done|]. rewrite !app_cons_s. cbn. by rewrite IHs, app_cons_s. Qed.

Lemma byte_cases (p : ascii → bool) :
  forallb (fun n => p (byte_of n)) (Z.of_nat <$> seq 0 256) = true → ∀ c, p c = true.
Proof.
  intros Hall c. rewrite forallb_forall in Hall. rewrite <- (byte_of_val c). apply Hall.
  apply list_elem_of_In, list_elem_of_fmap. pose proof (byte_val_range c).
  exists (Z.to_nat (byte_val c)). split; [lia|]. apply elem_of_seq. lia.
Qed.

Lemma lower_byte_idemp c : lower_byte (lower_byte c) = lower_byte c.
Proof. apply Ascii.eqb_eq. revert c. apply byte_cases. by vm_compute. Qed.
Lemma lower_byte_dot c : Ascii.eqb "." (lower_byte c) = Ascii.eqb "." c.
Proof. apply eqb_true_iff. revert c. apply byte_cases. by vm_compute. Qed.

Lemma smap_smap f g s : smap f (smap g s) = smap (fun c => f (g c)) s.
Proof. induction s; cbn; congruence. Qed.
Lemma smap_ext (f g : ascii → ascii) s : (∀ c, f c = g c) → smap f s = smap g s.
Proof. intros E. induction s; cbn; congruence. Qed.

Lemma ascii_only_lower s : @to_lower ascii_only s = smap lower_byte s.
Proof. unfold to_lower. by destruct (sall is_ascii_byte s). Qed.

#[export] Instance ascii_only_laws : @GoUnicodeLaws ascii_only.
Proof.
  split; intros; rewrite !ascii_only_lower.
  - rewrite smap_smap. apply smap_ext, lower_byte_idemp.
  - by rewrite smap_app.
  - revert H. unfold contains_byte. induction s as [|c s IH]; cbn [smap sany]; [done|].
    rewrite lower_byte_dot. by destruct (Ascii.eqb "." c).
Qed.

Lemma app_inj_s s t u : s +:+ t = s +:+ u → t = u.
Proof. unfold String.app. induction s; cbn; [done|]. intros [= ?]. auto. Qed.

Lemma split_none s sep : contains_byte s sep = false → split s sep = [s].
Proof.
  unfold contains_byte. induction s as [|c s IH]; cbn; [done|].
  rewrite Ascii.eqb_sym. destruct (Ascii.eqb c sep); [done|]. intros H. by rewrite IH.
Qed.

Lemma split_first s sep : contains_byte s sep = true →
  ∃ a b, s = a +:+ String sep b ∧ contains_byte a sep = false ∧ split s sep = a :: split b sep.
Proof.
  unfold contains_byte. induction s as [|c s IH]; cbn; [done|].
  rewrite Ascii.eqb_sym. destruct (Ascii.eqb_spec c sep) as [->|Hne].
  - intros _. by exists "", s.
  - intros (a&b&->&Ha&->)%IH. exists (String c a), b. rewrite app_cons_s. split_and!; try done.
    cbn. rewrite Ascii.eqb_sym. destruct (Ascii.eqb_spec c sep); done.
Qed.

Lemma sall_no_byte p s c : sall p s = true → p c = false → contains_byte s c = false.
Proof.
  unfold contains_byte. intros Hs Hc. induction s as [|d s IH]; cbn in *; [done|].
  apply andb_true_iff in Hs as [Hd Hs]. destruct (Ascii.eqb_spec c d) as [->|]; [congruence|]. by apply IH.
Qed.

(** The pieces of a lower-case name are lower-case. *)
Lemma to_lower_split `{GoUnicodeLaws} s :
  to_lower s = s → Forall (fun w => to_lower w = w) (split s ".").
Proof.
  remember (String.length s) as n eqn:Hn. revert s Hn.
  induction (lt_wf n) as [n _ IH]. intros s -> Hs.
  destruct (contains_byte s ".") eqn:Hc.
  - destruct (split_first _ _ Hc) as (a&b&->&Ha&Hsp). rewrite Hsp.
    rewrite to_lower_dot in Hs. pose proof (f_equal (fun s => split s ".") Hs) as Hss. cbn in Hss.
    rewrite !split_sep, (split_none a), (split_none (to_lower a)) in Hss by auto using to_lower_no_dot.
    injection Hss as Ha' _. rewrite Ha' in Hs. apply app_inj_s in Hs as [= Hb].
    constructor; [done|]. eapply IH; [|reflexivity|done]. rewrite length_app_s. cbn. lia.
  - rewrite split_none by done. by repeat constructor.
Qed.

Lemma to_upper_id `{GoUnicode} s :
  sall (fun c => is_ascii_byte c && negb (is_lower c)) s = true → to_upper s = s.
Proof.
  intros Hs. unfold to_upper.
  assert (sall is_ascii_byte s = true) as ->.
  { eapply sall_mono; [|exact Hs]. by intros c [? _]%andb_true_iff. }
  apply smap_id. eapply sall_mono; [|exact Hs]. intros c [_ Hu]%andb_true_iff.
  unfold upper_byte. apply negb_true_iff in Hu. rewrite Hu. apply Ascii.eqb_refl.
Qed.

(** Bytes that neither trimming nor upper-casing touches. *)
Definition inert_byte (c : ascii) : bool := plain_byte c && negb (is_lower c).

Lemma upper_trim_id `{GoUnicode} s : sall inert_byte s = true → to_upper (trim_space s) = s.
Proof.
  intros Hs. rewrite trim_space_id.
  - apply to_upper_id. eapply sall_mono; [|exact Hs]. unfold inert_byte, plain_byte.
    intros c Hc. bools. by apply andb_true_iff; rewrite negb_true_iff.
  - eapply sall_mono; [|exact Hs]. by intros c [? _]%andb_true_iff.
Qed.

Lemma digit_inert c : is_digit c = true → inert_byte c = true.
Proof.
  intros Hc. assert (negb (is_digit c) || inert_byte c = true) as Hi by (revert c Hc; intros c _; revert c; apply byte_cases; by vm_compute).
  by rewrite Hc in Hi.
Qed.

Lemma digit_plain c : is_digit c = true → plain_byte c = true.
Proof. by intros [? _]%digit_inert%andb_true_iff. Qed.

Lemma format_uint_digits n : 0 ≤ n → sall is_digit (format_uint n) = true.
Proof.
  intros Hn. unfold format_uint. generalize (S (Z.to_nat (Z.log2 n))) as f. intros f.
  revert n Hn. induction f as [|f IH]; intros n Hn; [done|]. cbn [udec_fuel].
  destruct (Z.ltb_spec n 10).
  - cbn. by destruct (digit_char_digit n) as [-> _]; [lia|].
  - rewrite sall_app, IH by (apply Z.div_pos; lia). cbn.
    by destruct (digit_char_digit (n mod 10)) as [-> _]; [apply Z.mod_pos_bound; lia|].
Qed.

Lemma scan_digits_nonneg s : ∀ acc v, 0 ≤ acc → scan_digits acc s = Some v → 0 ≤ v.
Proof.
  induction s as [|c s IH]; cbn; intros acc v Ha Hs; [by simplify_eq|].
  destruct (is_digit c) eqn:Hc; [|done]. pose proof (digit_char_val c Hc) as [_ ?].
  eapply IH; [|exact Hs]. lia.
Qed.

Lemma parse_int_format n : 0 ≤ n < 2 ^ 63 → parse_int (format_uint n) = Some n.
Proof.
  intros Hn. pose proof (format_uint_digits n ltac:(lia)) as Hd.
  pose proof (scan_format_uint n ltac:(lia)) as Hs. unfold parse_int.
  destruct (format_uint n) as [|c s] eqn:E; [exfalso; revert E; apply udec_not_nil; lia|].
  cbn [sall] in Hd. apply andb_true_iff in Hd as [Hc _].
  destruct (Ascii.eqb_spec c "-") as [->|]; [done|]. destruct (Ascii.eqb_spec c "+") as [->|]; [done|].
  rewrite Hs. cbn. destruct (Z.ltb_spec n (2 ^ 63)); [done|lia].
Qed.
