(* ===== verification/AliasGraph.v ===== *)
(** * Alias tables: chains of CNAMEs

    Both validators of DNS records (client services and site) keep the aliases
    in a map from name to target and follow chains in it.  What a chain is,
    and that a chain with an end has no cycle, is shared here. *)

From S2P Require Export Prelude GoStrings.

(** [m] is the target of the alias [n]. *)
Definition alias_step (targets : gmap string string) (n m : string) : Prop := targets !! n = Some m.

(** The chain from [n] reaches the name [m], which is not an alias. *)
Definition chain_end (targets : gmap string string) (n m : string) : Prop :=
  rtc (alias_step targets) n m ∧ targets !! m = None.

Lemma chain_end_here targets n : targets !! n = None → chain_end targets n n.
Proof. by split. Qed.
Lemma chain_end_step targets n t m : targets !! n = Some t → chain_end targets t m → chain_end targets n m.
Proof. intros ? [? ?]. split; [|done]. by eapply rtc_l. Qed.

(** A chain that reaches a non-alias never comes back. *)
Lemma chain_end_acyclic targets n m : chain_end targets n m → ¬ tc (alias_step targets) n n.
Proof.
  intros [Hr Hm]. induction Hr as [n|n n' m Hn Hr IH]; intros Ht.
  - inversion Ht; unfold alias_step in *; congruence.
  - apply IH; [done|].
    assert (rtc (alias_step targets) n' n) as Hback.
    { inversion Ht as [? ? Hx|? x ? Hx Hy]; subst; unfold alias_step in Hn, Hx.
      - assert (n = n') as -> by congruence. done.
      - assert (x = n') as -> by congruence. by apply tc_rtc. }
    eapply tc_rtc_l; [exact Hback|]. by apply tc_once.
Qed.

(** A path of distinct aliases is no longer than the table. *)
Lemma path_bound (targets : gmap string string) (path : gset string) :
  path ⊆ dom targets → (size path ≤ size targets)%nat.
Proof. intros Hs%subseteq_size. by rewrite size_dom in Hs. Qed.

Lemma path_extend (targets : gmap string string) (path : gset string) n t :
  path ⊆ dom targets → n ∉ path → targets !! n = Some t →
  {[n]} ∪ path ⊆ dom targets ∧ size ({[n]} ∪ path) = S (size path).
Proof.
  intros Hs Hn Ht. split; [apply elem_of_dom_2 in Ht; set_solver|].
  rewrite size_union, size_singleton by set_solver. done.
Qed.
