(* ===== verification/FwTelemetry.v ===== *)
(** * The firewall telemetry store ([internal/firewalltelemetry/store.go];
    internal/firewall/counters.go: its data)

    Samples of the firewall's counters in an SQLite database.  A sample is one
    transaction: every statement of it may fail, and then nothing of it remains;
    an error from the commit leaves open whether it took effect.  Counters are
    64-bit and stored as decimal text, times are nanoseconds.  The connection is
    used by one operation at a time.  Loops over Go maps run in a fixed order:
    they set different keys or delete from different tables. *)

From S2P Require Export Prelude GoStrings.

Open Scope Z_scope.

Module FwTelemetry.

(** ** Data *)

Record Counter := mkCounter {
  cn_Rule : string;
  cn_ID : string;
  cn_Kind : string;
  cn_Family : string;
  cn_Table : string;
  cn_Chain : string;
  cn_Packets : Z;
  cn_Bytes : Z;
}.
Record NFTSnapshot := mkSnapshot { sn_Counters : list Counter; sn_Fingerprint : string; sn_OwnedObjectCount : Z }.

Definition second : Z := 1000000000.
Definition retention : Z := 7 * 24 * 3600 * second.
Definition SampleStaleAfter : Z := 45 * second.
Definition EventRetention : Z := 30 * 24 * 3600 * second.
Definition MaxRuleResults : Z := 256.
Definition MaxActivityResults : Z := 256.
Definition MaxEventResults : Z := 200.
Definition MaxSecurityResults : Z := 32.

(** The tables.  A rule is found by its id, an epoch by its rule and number. *)
Record RuleRow := mkRule {
  ru_kind : string; ru_comment : string; ru_family : string; ru_table : string; ru_chain : string;
  ru_first_seen : Z; ru_last_seen : Z;
  ru_packets : string; ru_bytes : string; ru_packet_delta : string; ru_byte_delta : string;
  ru_reset : Z; ru_epoch : Z; ru_sample_at : Z; ru_active : Z;
}.
Record SampleRow := mkSample {
  sa_rule : string; sa_at : Z;
  sa_packets : string; sa_bytes : string; sa_packet_delta : string; sa_byte_delta : string;
  sa_epoch : Z; sa_reset : Z;
}.
Record EpochRow := mkEpoch { ep_started : Z; ep_reason : string; ep_packets : string; ep_bytes : string }.
Record EventRow := mkEvent {
  ev_ID : Z; ev_at : Z; ev_kind : string; ev_rule : string; ev_fingerprint : string; ev_previous : string; ev_detail : string;
}.
Record DB := mkDB {
  db_rules : gmap string RuleRow;
  db_samples : list SampleRow;
  db_epochs : gmap (string * Z) EpochRow;
  db_events : list EventRow;
  db_event_seq : Z;
  db_health : gmap string string;
}.
Definition empty_db : DB := mkDB ∅ [] ∅ [] 0 ∅.

Inductive TelError :=
| NoTimestamp | DuplicateRule (id : string) | CommentChanged (id before after : string)
| BeginFailed | CommitFailed | StatementFailed (what : string) | Constraint (what : string) | BadCounter (id : string)
| NoCollectorError | NotExist | NegativeDelta | Overflow.

Definition decimal (value : Z) : string := format_uint value.
Definition parseDecimal (value : string) : option Z := parse_uint value.

#[local] Arguments decimal : simpl never.
#[local] Arguments parseDecimal : simpl never.

(** ** Transactions *)

(** The tables as the transaction sees them, and how many statements it has run. *)
Record Tx := mkTx { tx_db : DB; tx_count : nat }.
(** What may go wrong: the statements that fail, and the commit. *)
Inductive Commit := Committed | CommitLost | CommitUnseen.
Record Faults := mkFaults { fl_begin : bool; fl_statement : nat → bool; fl_commit : Commit }.
Definition no_faults : Faults := mkFaults false (fun _ => false) Committed.

Section transaction.
Context (faults : Faults).

Definition exec (what : string) (f : DB → option DB) (t : Tx) : result TelError Tx :=
  if fl_statement faults (tx_count t) then Err (StatementFailed what)
  else match f (tx_db t) with Some db => Ok (mkTx db (S (tx_count t))) | None => Err (Constraint what) end.

(** A transaction: its changes, or none of them. *)
Definition transact (db : DB) (body : Tx → result TelError Tx) : result TelError unit * DB :=
  if fl_begin faults then (Err BeginFailed, db)
  else
    match body (mkTx db 0) with
    | Err e => (Err e, db)
    | Ok t =>
        match fl_commit faults with
        | Committed => (Ok tt, tx_db t)
        | CommitLost => (Err CommitFailed, db)
        | CommitUnseen => (Err CommitFailed, tx_db t)
        end
    end.

(** *** Statements *)

Definition with_rules (f : gmap string RuleRow → gmap string RuleRow) (db : DB) : DB :=
  mkDB (f (db_rules db)) (db_samples db) (db_epochs db) (db_events db) (db_event_seq db) (db_health db).
Definition with_samples (f : list SampleRow → list SampleRow) (db : DB) : DB :=
  mkDB (db_rules db) (f (db_samples db)) (db_epochs db) (db_events db) (db_event_seq db) (db_health db).
Definition with_epochs (f : gmap (string * Z) EpochRow → gmap (string * Z) EpochRow) (db : DB) : DB :=
  mkDB (db_rules db) (db_samples db) (f (db_epochs db)) (db_events db) (db_event_seq db) (db_health db).
Definition with_events (f : list EventRow → list EventRow) (db : DB) : DB :=
  mkDB (db_rules db) (db_samples db) (db_epochs db) (f (db_events db)) (db_event_seq db) (db_health db).
Definition with_health (f : gmap string string → gmap string string) (db : DB) : DB :=
  mkDB (db_rules db) (db_samples db) (db_epochs db) (db_events db) (db_event_seq db) (f (db_health db)).

Definition insert_event (now : Z) (kind fingerprint previous detail : string) (db : DB) : option DB :=
  let id := db_event_seq db + 1 in
  Some (mkDB (db_rules db) (db_samples db) (db_epochs db) (db_events db ++ [mkEvent id now kind "" fingerprint previous detail]) id (db_health db)).

(** The comment of a rule is unique. *)
Definition comment_free (id comment : string) (db : DB) : bool :=
  forallb (fun entry : string * RuleRow => (entry.1 == id) || (ru_comment entry.2 != comment)) (map_to_list (db_rules db)).
Definition insert_rule (id : string) (row : RuleRow) (db : DB) : option DB :=
  match db_rules db !! id with
  | Some _ => None
  | None => if comment_free id (ru_comment row) db then Some (with_rules <[id := row]> db) else None
  end.
(** [first_seen_at] stays. *)
Definition update_rule (id : string) (row : RuleRow) (db : DB) : option DB :=
  match db_rules db !! id with
  | None => Some db
  | Some old =>
      if comment_free id (ru_comment row) db
      then Some (with_rules <[id := mkRule (ru_kind row) (ru_comment row) (ru_family row) (ru_table row) (ru_chain row) (ru_first_seen old)
             (ru_last_seen row) (ru_packets row) (ru_bytes row) (ru_packet_delta row) (ru_byte_delta row) (ru_reset row) (ru_epoch row)
             (ru_sample_at row) (ru_active row)]> db)
      else None
  end.
(** Samples and epochs refer to a rule. *)
Definition insert_sample (row : SampleRow) (db : DB) : option DB :=
  match db_rules db !! sa_rule row with Some _ => Some (with_samples (fun l => l ++ [row]) db) | None => None end.
Definition insert_epoch (id : string) (epoch : Z) (row : EpochRow) (db : DB) : option DB :=
  match db_rules db !! id, db_epochs db !! (id, epoch) with
  | Some _, None => Some (with_epochs <[(id, epoch) := row]> db)
  | _, _ => None
  end.
Definition deactivate (id : string) (db : DB) : option DB :=
  Some (with_rules (alter (fun r => mkRule (ru_kind r) (ru_comment r) (ru_family r) (ru_table r) (ru_chain r) (ru_first_seen r) (ru_last_seen r)
    (ru_packets r) (ru_bytes r) (ru_packet_delta r) (ru_byte_delta r) (ru_reset r) (ru_epoch r) (ru_sample_at r) 0) id) db).

(** ** Writing *)

(** A failing read counts as no value. *)
Definition healthTx (key : string) (t : Tx) : string * Tx :=
  (if fl_statement faults (tx_count t) then "" else default "" (db_health (tx_db t) !! key), mkTx (tx_db t) (S (tx_count t))).
Definition setHealthTx (key value : string) : Tx → result TelError Tx :=
  exec "health" (fun db => Some (with_health <[key := value]> db)).

Record previousRule := mkPrevious { pr_active : bool; pr_comment : string; pr_packets : Z; pr_bytes : Z; pr_epoch : Z }.
Definition previousRuleTx (id : string) (t : Tx) : result TelError (option previousRule * Tx) :=
  if fl_statement faults (tx_count t) then Err (StatementFailed "previous rule")
  else
    let t' := mkTx (tx_db t) (S (tx_count t)) in
    match db_rules (tx_db t) !! id with
    | None => Ok (None, t')
    | Some r =>
        match parseDecimal (ru_packets r), parseDecimal (ru_bytes r) with
        | Some packets, Some bytes => Ok (Some (mkPrevious (negb (ru_active r =? 0)) (ru_comment r) packets bytes (ru_epoch r)), t')
        | _, _ => Err (BadCounter id)
        end
    end.

Definition rule_row (counter : Counter) (at_ packetDelta byteDelta reset epoch : Z) : RuleRow :=
  mkRule (cn_Kind counter) (cn_Rule counter) (cn_Family counter) (cn_Table counter) (cn_Chain counter) at_ at_
    (decimal (cn_Packets counter)) (decimal (cn_Bytes counter)) (decimal packetDelta) (decimal byteDelta) reset epoch at_ 1.
Definition upsertRuleTx (counter : Counter) (at_ packetDelta byteDelta reset epoch : Z) (exists_ : bool) : Tx → result TelError Tx :=
  let row := rule_row counter at_ packetDelta byteDelta reset epoch in
  if exists_ then exec "update rule" (update_rule (cn_ID counter) row) else exec "insert rule" (insert_rule (cn_ID counter) row).

Definition new_epoch (id : string) (epoch now : Z) (reason : string) (previous : previousRule) : Tx → result TelError Tx :=
  exec "epoch" (insert_epoch id epoch (mkEpoch now reason (decimal (pr_packets previous)) (decimal (pr_bytes previous)))).

(** What a reading adds to the previous one: packets, bytes, whether the
    counting starts again, and the epoch. *)
Record Progress := mkProgress { pg_packets : Z; pg_bytes : Z; pg_reset : Z; pg_epoch : Z }.
Definition progress (counter : Counter) (previous : option previousRule) : Progress * option string :=
  match previous with
  | None => (mkProgress 0 0 0 0, None)
  | Some p =>
      if negb (pr_active p) then (mkProgress 0 0 1 (wrap64 (pr_epoch p + 1)), Some "rule_reappeared"%string)
      else if (cn_Packets counter <? pr_packets p) || (cn_Bytes counter <? pr_bytes p)
      then (mkProgress 0 0 1 (wrap64 (pr_epoch p + 1)), Some "counter_reset"%string)
      else (mkProgress (wrapu64 (cn_Packets counter - pr_packets p)) (wrapu64 (cn_Bytes counter - pr_bytes p)) 0 (pr_epoch p), None)
  end.

Definition record_counter (now : Z) (t : Tx) (counter : Counter) : result TelError Tx :=
  let id := cn_ID counter in
  '(previous, t) ← previousRuleTx id t;
  _ ← fail_if match previous with Some p => pr_comment p != cn_Rule counter | None => false end
        (CommentChanged id (match previous with Some p => pr_comment p | None => "" end) (cn_Rule counter));
  let '(pg, reason) := progress counter previous in
  t ← match previous, reason with Some p, Some reason => new_epoch id (pg_epoch pg) now reason p t | _, _ => Ok t end;
  t ← upsertRuleTx counter now (pg_packets pg) (pg_bytes pg) (pg_reset pg) (pg_epoch pg)
        match previous with Some _ => true | None => false end t;
  exec "sample" (insert_sample (mkSample id now (decimal (cn_Packets counter)) (decimal (cn_Bytes counter)) (decimal (pg_packets pg))
                  (decimal (pg_bytes pg)) (pg_epoch pg) (pg_reset pg))) t.

Definition missing_rules (seen : gset string) (db : DB) : list string :=
  map fst (List.filter (fun entry : string * RuleRow => (ru_active entry.2 =? 1) && negb (bool_decide (entry.1 ∈ seen))) (map_to_list (db_rules db))).
Definition retireMissingRulesTx (seen : gset string) (t : Tx) : result TelError Tx :=
  if fl_statement faults (tx_count t) then Err (StatementFailed "active rules")
  else foldM (fun t id => exec "retire" (deactivate id) t) (mkTx (tx_db t) (S (tx_count t))) (missing_rules seen (tx_db t)).

Definition pruneTx (at_ : Z) (t : Tx) : result TelError Tx :=
  let sampleCutoff := wrap64 (at_ - retention) in
  let eventCutoff := wrap64 (at_ - EventRetention) in
  t ← exec "prune samples" (fun db => Some (with_samples (List.filter (fun s => sampleCutoff <=? sa_at s)) db)) t;
  t ← exec "prune epochs" (fun db => Some (with_epochs (filter (fun e => sampleCutoff ≤ ep_started e.2)) db)) t;
  exec "prune events" (fun db => Some (with_events (List.filter (fun e => eventCutoff <=? ev_at e)) db)) t.

Definition set_all (entries : list (string * string)) (t : Tx) : result TelError Tx :=
  foldM (fun t (entry : string * string) => setHealthTx entry.1 entry.2 t) t entries.

(** A changed ruleset is an event. *)
Definition note_change (now : Z) (snapshot : NFTSnapshot) (t : Tx) : result TelError Tx :=
  let '(previousFingerprint, t) := healthTx "last_fingerprint" t in
  if (previousFingerprint != "") && (previousFingerprint != sn_Fingerprint snapshot) then
    t ← exec "event" (insert_event now "ruleset_change" (sn_Fingerprint snapshot) previousFingerprint
          ("owned objects changed: " +:+ itoa (sn_OwnedObjectCount snapshot))) t;
    setHealthTx "last_structural_change_at" (itoa now) t
  else Ok t.

(** The zero time of Go in nanoseconds since 1970. *)
Definition zero_time : Z := -62135596800 * second.

Definition first_duplicate (counters : list Counter) : result TelError (gset string) :=
  foldM (fun (seen : gset string) c => _ ← fail_if (bool_decide (cn_ID c ∈ seen)) (DuplicateRule (cn_ID c)); Ok ({[cn_ID c]} ∪ seen)) ∅ counters.

Definition record_body (at_ : Z) (snapshot : NFTSnapshot) (seen : gset string) (t : Tx) : result TelError Tx :=
  let now := wrap64 at_ in
  t ← note_change now snapshot t;
  t ← foldM (record_counter now) t (sn_Counters snapshot);
  t ← retireMissingRulesTx seen t;
  t ← set_all [("status", "healthy"); ("last_attempt_at", itoa now); ("last_success_at", itoa now); ("last_error", "");
               ("last_fingerprint", sn_Fingerprint snapshot)]%string t;
  pruneTx at_ t.

Definition RecordSnapshot (at_ : Z) (snapshot : NFTSnapshot) (db : DB) : result TelError unit * DB :=
  if (at_ =? zero_time) || (sn_Fingerprint snapshot == "") then (Err NoTimestamp, db)
  else
    match first_duplicate (sn_Counters snapshot) with
    | Err e => (Err e, db)
    | Ok seen => transact db (record_body at_ snapshot seen)
    end.

Definition RecordHealthError (at_ : Z) (collectorErr : option string) (db : DB) : result TelError unit * DB :=
  match collectorErr with
  | None => (Err NoCollectorError, db)
  | Some text =>
      let message := String.substring 0 512 (join (fields text) " ") in
      transact db (set_all [("status", "degraded"); ("last_attempt_at", itoa (wrap64 at_)); ("last_error", message)]%string)
  end.
End transaction.

(** ** Reading *)

Record CollectorHealth := mkCollectorHealth {
  ch_Status : string;
  ch_LastAttemptAt : option Z;
  ch_LastSuccessAt : option Z;
  ch_LastStructuralChangeAt : option Z;
  ch_LastFingerprint : string;
  ch_LastError : string;
}.

Definition parseTimestamp (value : string) : option Z :=
  match parse_int value with Some nanos => if nanos =? 0 then None else Some nanos | None => None end.

(** The age is compared in nanoseconds; Go compares the float64 of the seconds,
    which agrees. *)
Definition Health (at_ : Z) (db : DB) : CollectorHealth :=
  let value key := default "" (db_health db !! key) in
  let time key := parseTimestamp (value key) in
  let status := if value "status" == "" then "starting" else value "status" in
  let stale := match time "last_success_at" with Some t => SampleStaleAfter <? at_ - t | None => false end in
  mkCollectorHealth (if stale then "degraded" else status) (time "last_attempt_at") (time "last_success_at") (time "last_structural_change_at")
    (value "last_fingerprint")
    (if stale && (value "last_error" == "") then "last telemetry sample is stale" else value "last_error").

Record RuleView := mkRuleView {
  rv_ID : string; rv_Kind : string; rv_Comment : string; rv_Family : string; rv_Table : string; rv_Chain : string;
  rv_FirstSeenAt : Z; rv_LastSeenAt : Z; rv_LastPackets : Z; rv_LastBytes : Z; rv_LastPacketDelta : Z; rv_LastByteDelta : Z;
  rv_LastReset : bool; rv_Epoch : Z; rv_Active : bool;
}.

Definition decimal_column (id : string) (text : string) : result TelError Z :=
  match parseDecimal text with Some n => Ok n | None => Err (BadCounter id) end.

Definition scanRule (entry : string * RuleRow) : result TelError RuleView :=
  let '(id, r) := entry in
  packets ← decimal_column id (ru_packets r);
  bytes ← decimal_column id (ru_bytes r);
  packetDelta ← decimal_column id (ru_packet_delta r);
  byteDelta ← decimal_column id (ru_byte_delta r);
  Ok (mkRuleView id (ru_kind r) (ru_comment r) (ru_family r) (ru_table r) (ru_chain r) (ru_first_seen r) (ru_last_seen r)
        packets bytes packetDelta byteDelta (negb (ru_reset r =? 0)) (ru_epoch r) (negb (ru_active r =? 0))).

Definition boundLimit (value maximum : Z) : Z := if (value <=? 0) || (value >? maximum) then maximum else value.

Definition Rules (limit : Z) (db : DB) : result TelError (list RuleView) :=
  collect scanRule (take (Z.to_nat (boundLimit limit MaxRuleResults)) (sort_by fst (map_to_list (db_rules db)))).
Definition Rule (id : string) (db : DB) : result TelError RuleView :=
  match db_rules db !! id with Some r => scanRule (id, r) | None => Err NotExist end.

Record ActivitySample := mkActivity {
  as_At : Z; as_Packets : Z; as_Bytes : Z; as_PacketDelta : Z; as_ByteDelta : Z; as_Epoch : Z; as_CounterReset : bool;
}.
Definition scan_sample (s : SampleRow) : result TelError ActivitySample :=
  packets ← decimal_column (sa_rule s) (sa_packets s);
  bytes ← decimal_column (sa_rule s) (sa_bytes s);
  packetDelta ← decimal_column (sa_rule s) (sa_packet_delta s);
  byteDelta ← decimal_column (sa_rule s) (sa_byte_delta s);
  Ok (mkActivity (sa_at s) packets bytes packetDelta byteDelta (sa_epoch s) (negb (sa_reset s =? 0))).

(** The samples of a rule, in the order they were recorded. *)
Definition samples_of (id : string) (db : DB) : list SampleRow := List.filter (fun s => sa_rule s == id) (db_samples db).

(** Newest first; samples of the same time stay in the reverse order they were
    recorded. *)
Definition later_sample (a b : SampleRow) : Prop := sa_at b ≤ sa_at a.
#[export] Instance later_sample_dec a b : Decision (later_sample a b).
Proof. unfold later_sample. apply _. Defined.
Definition Activity (id : string) (since limit : Z) (db : DB) : result TelError (list ActivitySample) :=
  let newest := merge_sort later_sample (reverse (List.filter (fun s => since <=? sa_at s) (samples_of id db))) in
  samples ← collect scan_sample (take (Z.to_nat (boundLimit limit MaxActivityResults)) newest);
  Ok (reverse samples).

(** [CAST(... AS INTEGER)] of a decimal text stops at the largest integer, and a
    sum of integers beyond it is an error. *)
Definition cast_integer (text : string) : Z := Z.min (default 0 (parseDecimal text)) int64_max.
Definition zsum (xs : list Z) : Z := foldr Z.add 0 xs.
Definition sql_sum (xs : list Z) : result TelError Z := if zsum xs >? int64_max then Err Overflow else Ok (zsum xs).

Definition joined (since : Z) (db : DB) : list (SampleRow * RuleRow) :=
  omap (fun s => if since <=? sa_at s then r ← db_rules db !! sa_rule s; Some (s, r) else None) (db_samples db).

Record WindowSummary_ := mkWindow {
  ws_Window : string; ws_AcceptedPackets : Z; ws_AcceptedBytes : Z; ws_DroppedPackets : Z; ws_DroppedBytes : Z;
}.
Definition packets_of (rows : list (SampleRow * RuleRow)) : result TelError Z := sql_sum (map (fun e => cast_integer (sa_packet_delta e.1)) rows).
Definition bytes_of (rows : list (SampleRow * RuleRow)) : result TelError Z := sql_sum (map (fun e => cast_integer (sa_byte_delta e.1)) rows).

Definition window_step (rows : list (SampleRow * RuleRow)) (w : WindowSummary_) (kind : string) : result TelError WindowSummary_ :=
  let group := List.filter (fun e : SampleRow * RuleRow => ru_kind e.2 == kind) rows in
  packets ← packets_of group;
  bytes ← bytes_of group;
  _ ← fail_if ((packets <? 0) || (bytes <? 0)) NegativeDelta;
  Ok (if kind == "allow" then
        mkWindow (ws_Window w) (wrapu64 (ws_AcceptedPackets w + packets)) (wrapu64 (ws_AcceptedBytes w + bytes)) (ws_DroppedPackets w) (ws_DroppedBytes w)
      else if (kind == "deny") || (kind == "drop") then
        mkWindow (ws_Window w) (ws_AcceptedPackets w) (ws_AcceptedBytes w) (wrapu64 (ws_DroppedPackets w + packets)) (wrapu64 (ws_DroppedBytes w + bytes))
      else w).
Definition WindowSummary (window : string) (since : Z) (db : DB) : result TelError WindowSummary_ :=
  let rows := joined since db in
  foldM (window_step rows) (mkWindow window 0 0 0 0) (sort_strings (remove_dups (map (fun e => ru_kind e.2) rows))).

Record SecurityActivity_ := mkSecurity { sy_ID : string; sy_Kind : string; sy_Comment : string; sy_PacketDelta : Z; sy_ByteDelta : Z }.
Definition security_group (rows : list (SampleRow * RuleRow)) (entry : string * RuleRow) : result TelError (list SecurityActivity_) :=
  let group := List.filter (fun e : SampleRow * RuleRow => sa_rule e.1 == entry.1) rows in
  packets ← packets_of group;
  bytes ← bytes_of group;
  _ ← fail_if ((packets <? 0) || (bytes <? 0)) NegativeDelta;
  Ok (if (packets >? 0) || (bytes >? 0) then [mkSecurity entry.1 (ru_kind entry.2) (ru_comment entry.2) packets bytes] else []).
Definition busier (a b : SecurityActivity_) : Prop :=
  sy_PacketDelta b < sy_PacketDelta a ∨ sy_PacketDelta a = sy_PacketDelta b ∧ String.le (sy_ID a) (sy_ID b).
#[export] Instance busier_dec a b : Decision (busier a b).
Proof. unfold busier. apply _. Defined.
Definition SecurityActivity (since : Z) (db : DB) : result TelError (list SecurityActivity_) :=
  let refusing := List.filter (fun entry : string * RuleRow => (ru_kind entry.2 == "deny") || (ru_kind entry.2 == "drop")) (map_to_list (db_rules db)) in
  groups ← collect (security_group (joined since db)) refusing;
  Ok (take (Z.to_nat MaxSecurityResults) (merge_sort busier (concat groups))).

Definition earlier_event (a b : EventRow) : Prop := ev_at a < ev_at b ∨ ev_at a = ev_at b ∧ ev_ID a ≤ ev_ID b.
#[export] Instance earlier_event_dec a b : Decision (earlier_event a b).
Proof. unfold earlier_event. apply _. Defined.
Definition Events (since limit : Z) (db : DB) : list EventRow :=
  take (Z.to_nat (boundLimit limit MaxEventResults)) (merge_sort earlier_event (List.filter (fun e => since <=? ev_at e) (db_events db))).

(** ** The tables as the store keeps them *)

Definition number (text : string) : Z := default 0 (parseDecimal text).
(** A text that the store wrote. *)
Definition written (text : string) : Prop := ∃ n, in_uint64 n ∧ text = decimal n.

Lemma number_decimal n : in_uint64 n → number (decimal n) = n.
Proof. intros Hn. unfold number, parseDecimal, decimal. by rewrite parse_format_uint. Qed.
Lemma parse_decimal n : in_uint64 n → parseDecimal (decimal n) = Some n.
Proof. apply parse_format_uint. Qed.
Lemma written_decimal n : in_uint64 n → written (decimal n).
Proof. intros Hn. by exists n. Qed.
Lemma written_parse text : written text → parseDecimal text = Some (number text) ∧ in_uint64 (number text) ∧ decimal (number text) = text.
Proof. intros (n & Hn & ->). by rewrite number_decimal, parse_decimal. Qed.

(** The next sample of a rule continues the counting, or starts it again. *)
Definition continues (a b : SampleRow) : Prop :=
  sa_epoch b = sa_epoch a ∧ sa_reset b = 0
    ∧ number (sa_packets b) = number (sa_packets a) + number (sa_packet_delta b)
    ∧ number (sa_bytes b) = number (sa_bytes a) + number (sa_byte_delta b)
  ∨ sa_epoch b = sa_epoch a + 1 ∧ sa_reset b = 1 ∧ number (sa_packet_delta b) = 0 ∧ number (sa_byte_delta b) = 0.
Fixpoint chain (l : list SampleRow) : Prop :=
  match l with a :: (b :: _) as l' => continues a b ∧ chain l' | _ => True end.

Lemma chain_app_r l1 l2 : chain (l1 ++ l2) → chain l2.
Proof. induction l1 as [|a [|b l1] IH]; cbn; [done| |]; [destruct l2; [done|]; by intros [_ ?]|]. intros [_ Hc]. by apply IH. Qed.

Lemma chain_snoc l x : chain l → (∀ s, last l = Some s → continues s x) → chain (l ++ [x]).
Proof.
  induction l as [|a [|b l] IH]; cbn; [done|by intros _ Hx; split; [apply Hx|]|]. intros [Hab Hc] Hx. split; [done|]. by apply IH.
Qed.

Record rule_ok (N : Z) (r : RuleRow) : Prop := {
  rk_packets : written (ru_packets r);
  rk_bytes : written (ru_bytes r);
  rk_deltas : written (ru_packet_delta r) ∧ written (ru_byte_delta r);
  rk_active : ru_active r = 0 ∨ ru_active r = 1;
  rk_epoch : 0 ≤ ru_epoch r ≤ N;
}.
Record sample_ok (s : SampleRow) : Prop := {
  sk_packets : written (sa_packets s);
  sk_bytes : written (sa_bytes s);
  sk_deltas : written (sa_packet_delta s) ∧ written (sa_byte_delta s);
}.

(** After [N] counters in all, the last at the time [t]. *)
Record Inv (N t : Z) (db : DB) : Prop := {
  inv_rule id r : db_rules db !! id = Some r → rule_ok N r;
  inv_comment id1 id2 r1 r2 : db_rules db !! id1 = Some r1 → db_rules db !! id2 = Some r2 → ru_comment r1 = ru_comment r2 → id1 = id2;
  inv_epoch id e row : db_epochs db !! (id, e) = Some row → ∃ r, db_rules db !! id = Some r ∧ e ≤ ru_epoch r;
  inv_sample s : s ∈ db_samples db → sample_ok s ∧ sa_at s ≤ t ∧ is_Some (db_rules db !! sa_rule s);
  inv_sorted : StronglySorted Z.le (map sa_at (db_samples db));
  inv_chain id : chain (samples_of id db);
  inv_last id s r : last (samples_of id db) = Some s → db_rules db !! id = Some r →
    ru_packets r = sa_packets s ∧ ru_bytes r = sa_bytes s ∧ ru_epoch r = sa_epoch s;
}.

Lemma Inv_empty t : Inv 0 t empty_db.
Proof.
  constructor; cbn; try (intros *; rewrite ?lookup_empty; discriminate).
  - by intros s ?%not_elem_of_nil.
  - constructor.
  - done.
Qed.

Lemma rule_ok_mono N N' r : N ≤ N' → rule_ok N r → rule_ok N' r.
Proof. intros HN [? ? ? ? [? ?]]. constructor; [done..|lia]. Qed.

Lemma Inv_mono N N' t t' db : N ≤ N' → t ≤ t' → Inv N t db → Inv N' t' db.
Proof.
  intros HN Ht [Hr Hc He Hs Hso Hch Hl]. constructor; try done.
  - intros id r Hid. eapply rule_ok_mono; eauto.
  - intros s Hin. destruct (Hs s Hin) as (?&?&?). split_and!; [done|lia|done].
Qed.

(** Health and events are not looked at. *)
Lemma Inv_same N t db db' : db_rules db' = db_rules db → db_samples db' = db_samples db → db_epochs db' = db_epochs db → Inv N t db → Inv N t db'.
Proof.
  intros Er Es Ee [Hr Hc He Hs Hso Hch Hl]. unfold samples_of in *. constructor; unfold samples_of; rewrite ?Er, ?Es, ?Ee; done.
Qed.

(** *** One counter *)

Definition previous_of (r : RuleRow) : previousRule :=
  mkPrevious (negb (ru_active r =? 0)) (ru_comment r) (number (ru_packets r)) (number (ru_bytes r)) (ru_epoch r).
Definition previous_in (db : DB) (id : string) : option previousRule := previous_of <$> (db_rules db !! id).

(** What a counter leaves in the tables. *)
Definition counted (now : Z) (counter : Counter) (db : DB) : DB :=
  let id := cn_ID counter in
  let previous := previous_in db id in
  let '(pg, reason) := progress counter previous in
  let row := rule_row counter now (pg_packets pg) (pg_bytes pg) (pg_reset pg) (pg_epoch pg) in
  mkDB (<[id := match db_rules db !! id with
                | Some old => mkRule (ru_kind row) (ru_comment row) (ru_family row) (ru_table row) (ru_chain row) (ru_first_seen old)
                    (ru_last_seen row) (ru_packets row) (ru_bytes row) (ru_packet_delta row) (ru_byte_delta row) (ru_reset row) (ru_epoch row)
                    (ru_sample_at row) (ru_active row)
                | None => row
                end]> (db_rules db))
    (db_samples db ++ [mkSample id now (decimal (cn_Packets counter)) (decimal (cn_Bytes counter)) (decimal (pg_packets pg))
                         (decimal (pg_bytes pg)) (pg_epoch pg) (pg_reset pg)])
    (match previous, reason with
     | Some p, Some reason => <[(id, pg_epoch pg) := mkEpoch now reason (decimal (pr_packets p)) (decimal (pr_bytes p))]> (db_epochs db)
     | _, _ => db_epochs db
     end)
    (db_events db) (db_event_seq db) (db_health db).

Definition counter_ok (c : Counter) : Prop := in_uint64 (cn_Packets c) ∧ in_uint64 (cn_Bytes c).
Definition same_comment (c : Counter) (db : DB) : Prop := ∀ r, db_rules db !! cn_ID c = Some r → ru_comment r = cn_Rule c.

Lemma statement_ok faults what f t t' : exec faults what f t = Ok t' → fl_statement faults (tx_count t) = false ∧ f (tx_db t) = Some (tx_db t') ∧ tx_count t' = S (tx_count t).
Proof. unfold exec. destruct (fl_statement _ _); [done|]. destruct (f _); [|done]. by intros [= <-]. Qed.

Lemma previous_ok faults N t0 t id prev t' : Inv N t0 (tx_db t) → previousRuleTx faults id t = Ok (prev, t') → tx_db t' = tx_db t ∧ prev = previous_in (tx_db t) id.
Proof.
  intros HI. unfold previousRuleTx, previous_in. destruct (fl_statement _ _); [done|]. destruct (db_rules (tx_db t) !! id) as [r|] eqn:Er; [|by intros [= <- <-]].
  destruct (inv_rule _ _ _ HI id r Er) as [(Hp & _)%written_parse (Hb & _)%written_parse _ _ _]. rewrite Hp, Hb. by intros [= <- <-].
Qed.

Lemma comment_free_true id comment db : comment_free id comment db = true ↔ ∀ id' r, db_rules db !! id' = Some r → ru_comment r = comment → id' = id.
Proof.
  unfold comment_free. rewrite forallb_forall. split.
  - intros Hall id' r Hr Hc. specialize (Hall (id', r)). rewrite <- list_elem_of_In, elem_of_map_to_list in Hall. specialize (Hall Hr).
    apply orb_true_iff in Hall as [E|E]; cbn in E; bools; [done|]. congruence.
  - intros Hall [id' r] Hin%list_elem_of_In%elem_of_map_to_list. apply orb_true_iff. cbn.
    destruct (decide (ru_comment r = comment)) as [Hc|Hc]; [left; by rewrite (bool_decide_true _ (Hall _ _ Hin Hc))|right; by rewrite (bool_decide_false _ Hc)].
Qed.

Lemma db_eta db : db = mkDB (db_rules db) (db_samples db) (db_epochs db) (db_events db) (db_event_seq db) (db_health db).
Proof. by destruct db. Qed.

Lemma upsert_counted faults now c pg (b : bool) t t' :
  upsertRuleTx faults c now (pg_packets pg) (pg_bytes pg) (pg_reset pg) (pg_epoch pg) b t = Ok t' → b = bool_decide (is_Some (db_rules (tx_db t) !! cn_ID c)) →
  let row := rule_row c now (pg_packets pg) (pg_bytes pg) (pg_reset pg) (pg_epoch pg) in
  comment_free (cn_ID c) (cn_Rule c) (tx_db t) = true
  ∧ tx_db t' = with_rules <[cn_ID c := match db_rules (tx_db t) !! cn_ID c with
                | Some old => mkRule (ru_kind row) (ru_comment row) (ru_family row) (ru_table row) (ru_chain row) (ru_first_seen old)
                    (ru_last_seen row) (ru_packets row) (ru_bytes row) (ru_packet_delta row) (ru_byte_delta row) (ru_reset row) (ru_epoch row)
                    (ru_sample_at row) (ru_active row)
                | None => row
                end]> (tx_db t).
Proof.
  intros Hu Hb. unfold upsertRuleTx in Hu. destruct (db_rules (tx_db t) !! cn_ID c) as [old|] eqn:Eo; subst b.
  - rewrite (bool_decide_true (is_Some (Some old))) in Hu by eauto. apply statement_ok in Hu as (_ & Hu & _). unfold update_rule in Hu. rewrite Eo in Hu.
    cbn [ru_comment rule_row] in Hu. destruct (comment_free _ _ _); [|done]. split; [done|]. apply (inj Some) in Hu. by rewrite <- Hu.
  - rewrite (bool_decide_false (is_Some None)) in Hu by apply is_Some_None. apply statement_ok in Hu as (_ & Hu & _). unfold insert_rule in Hu. rewrite Eo in Hu.
    cbn [ru_comment rule_row] in Hu. destruct (comment_free _ _ _); [|done]. split; [done|]. apply (inj Some) in Hu. by rewrite <- Hu.
Qed.

Lemma record_counter_ok faults now N t0 c t t' : Inv N t0 (tx_db t) → record_counter faults now t c = Ok t' →
  tx_db t' = counted now c (tx_db t) ∧ same_comment c (tx_db t) ∧ comment_free (cn_ID c) (cn_Rule c) (tx_db t) = true.
Proof.
  intros HI Hr. unfold record_counter in Hr. apply bind_ok in Hr as ([prev t1] & H1 & Hr). eapply previous_ok in H1 as [E1 ->]; [|done].
  apply bind_ok in Hr as ([] & Hc%fail_if_ok & Hr).
  assert (same_comment c (tx_db t)) as Hsame.
  { intros r Er. unfold previous_in in Hc. rewrite Er in Hc. cbn in Hc. by bools. }
  unfold counted. destruct (progress c (previous_in (tx_db t) (cn_ID c))) as [pg reason] eqn:Ep.
  apply bind_ok in Hr as (t2 & H2 & Hr). apply bind_ok in Hr as (t3 & H3 & Hr).
  assert (tx_db t2 = with_epochs (fun m => match previous_in (tx_db t) (cn_ID c), reason with
     | Some p, Some reason => <[(cn_ID c, pg_epoch pg) := mkEpoch now reason (decimal (pr_packets p)) (decimal (pr_bytes p))]> m | _, _ => m end) (tx_db t)) as E2.
  { destruct (previous_in (tx_db t) (cn_ID c)) as [p|], reason as [why|]; try (injection H2 as <-; rewrite E1; apply db_eta).
    apply statement_ok in H2 as (_ & H2 & _). unfold insert_epoch in H2. rewrite E1 in H2.
    destruct (db_rules (tx_db t) !! cn_ID c), (db_epochs (tx_db t) !! (cn_ID c, pg_epoch pg)); try discriminate H2.
    apply (inj Some) in H2. by rewrite <- H2. }
  assert (db_rules (tx_db t2) = db_rules (tx_db t)) as Er2 by by rewrite E2.
  apply upsert_counted in H3 as [Hfree E3].
  2: { rewrite Er2. unfold previous_in. destruct (db_rules (tx_db t) !! cn_ID c); [by rewrite bool_decide_true by eauto|by rewrite bool_decide_false by apply is_Some_None]. }
  apply statement_ok in Hr as (_ & Hr & _). unfold insert_sample in Hr. cbn [sa_rule] in Hr. destruct (db_rules (tx_db t3) !! cn_ID c); [|done]. apply (inj Some) in Hr. rewrite <- Hr.
  rewrite E3, Er2, E2. split_and!; [|done|].
  - unfold with_samples, with_rules, with_epochs. cbn. by destruct (previous_in (tx_db t) (cn_ID c)), reason.
  - unfold comment_free in *. by rewrite Er2 in Hfree.
Qed.

(** A reading goes on from the previous one, or counting starts again. *)
Lemma progress_facts N c r pg reason : rule_ok N r → N < int64_max → counter_ok c → progress c (Some (previous_of r)) = (pg, reason) →
  in_uint64 (pg_packets pg) ∧ in_uint64 (pg_bytes pg)
  ∧ (reason = None ∧ pg_epoch pg = ru_epoch r ∧ pg_reset pg = 0
       ∧ cn_Packets c = number (ru_packets r) + pg_packets pg ∧ cn_Bytes c = number (ru_bytes r) + pg_bytes pg
     ∨ is_Some reason ∧ pg_epoch pg = ru_epoch r + 1 ∧ pg_reset pg = 1 ∧ pg_packets pg = 0 ∧ pg_bytes pg = 0).
Proof.
  intros [(_ & Hp & _)%written_parse (_ & Hb & _)%written_parse _ _ He] HN [Hcp Hcb]. unfold progress, previous_of. cbn.
  assert (in_uint64 0) as H0 by (unfold in_uint64; lia).
  assert (wrap64 (ru_epoch r + 1) = ru_epoch r + 1) as Hw by (apply wrap64_id; unfold in_int64, int64_min, int64_max in *; lia).
  rewrite Hw. destruct (negb (negb _)); [intros [= <- <-]; cbn; split_and!; try done; right; eauto|].
  destruct (_ || _) eqn:E; [intros [= <- <-]; cbn; split_and!; try done; right; eauto|]. apply orb_false_iff in E as [E1%Z.ltb_ge E2%Z.ltb_ge].
  unfold in_uint64 in *. rewrite !wrapu64_id by (unfold in_uint64; lia). intros [= <- <-]; cbn. split_and!; [lia..|]. left. split_and!; (done || lia).
Qed.

Lemma samples_of_app id l1 l2 db : db_samples db = l1 ++ l2 →
  samples_of id db = List.filter (fun s => sa_rule s == id) l1 ++ List.filter (fun s => sa_rule s == id) l2.
Proof. intros E. unfold samples_of. by rewrite E, List.filter_app. Qed.

(** The tables after a counter, as far as its rule goes. *)
Lemma counted_spec N t0 now c db : Inv N t0 db → 0 ≤ N < int64_max → counter_ok c → ∃ row s,
  db_rules (counted now c db) = <[cn_ID c := row]> (db_rules db)
  ∧ db_samples (counted now c db) = db_samples db ++ [s]
  ∧ (∀ id e, is_Some (db_epochs (counted now c db) !! (id, e)) → is_Some (db_epochs db !! (id, e)) ∨ id = cn_ID c ∧ e = ru_epoch row)
  ∧ rule_ok (N + 1) row ∧ sample_ok s ∧ sa_rule s = cn_ID c ∧ sa_at s = now
  ∧ ru_comment row = cn_Rule c ∧ ru_active row = 1
  ∧ ru_packets row = decimal (cn_Packets c) ∧ ru_bytes row = decimal (cn_Bytes c)
  ∧ ru_packets row = sa_packets s ∧ ru_bytes row = sa_bytes s ∧ ru_epoch row = sa_epoch s
  ∧ ∀ old, db_rules db !! cn_ID c = Some old → ru_epoch old ≤ ru_epoch row
      ∧ ∀ s', ru_packets old = sa_packets s' → ru_bytes old = sa_bytes s' → ru_epoch old = sa_epoch s' → continues s' s.
Proof.
  intros HI HN Hc. destruct Hc as [Hcp Hcb]. unfold counted, previous_in.
  assert (in_uint64 0) as H0 by (unfold in_uint64; lia).
  destruct (db_rules db !! cn_ID c) as [r|] eqn:Er; cbn [fmap option_fmap option_map].
  - pose proof (inv_rule _ _ _ HI _ _ Er) as Hr. destruct (progress c (Some (previous_of r))) as [pg reason] eqn:Ep.
    destruct (progress_facts N c r pg reason Hr ltac:(lia) (conj Hcp Hcb) Ep) as (Hpp & Hpb & Hcases). pose proof (rk_epoch _ _ Hr) as He.
    assert (0 ≤ pg_epoch pg ≤ N + 1 ∧ ru_epoch r ≤ pg_epoch pg) as [Hpe Hle] by (destruct Hcases as [(_ & -> & _)|(_ & -> & _)]; lia).
    eexists _, _. cbn. split_and!; try reflexivity.
    + intros id e. destruct reason as [why|]; [|by left]. destruct (decide ((cn_ID c, pg_epoch pg) = (id, e))) as [[= <- <-]|Hne]; [by right|].
      rewrite lookup_insert_ne by done. by left.
    + constructor; cbn; auto using written_decimal.
    + constructor; cbn; auto using written_decimal.
    + intros old [= <-]. split; [done|]. intros s' E1 E2 E3. unfold continues. cbn. rewrite <- E1, <- E2, <- E3.
      rewrite !number_decimal by done. destruct Hcases as [(_ & -> & -> & -> & ->)|(_ & -> & -> & -> & ->)]; [left|right]; done.
  - eexists _, _. cbn. split_and!; try reflexivity.
    + intros id e ?. by left.
    + constructor; cbn; auto using written_decimal. lia.
    + constructor; cbn; auto using written_decimal.
    + done.
Qed.

Lemma Inv_counted N now c db : Inv N now db → 0 ≤ N < int64_max → counter_ok c → same_comment c db → comment_free (cn_ID c) (cn_Rule c) db = true →
  Inv (N + 1) now (counted now c db).
Proof.
  intros HI HN Hc Hsame Hfree. rewrite comment_free_true in Hfree.
  destruct (counted_spec N now now c db HI HN Hc) as (row & s & Er & Es & Ee & Hrow & Hs & Hid & Hat & Hcom & _ & _ & _ & Ep & Eb & Eep & Hold).
  destruct HI as [Ir Ic Ie Is Iso Ich Il]. constructor; rewrite ?Er, ?Es.
  - intros id r [[<- <-]|[_ Hr]]%lookup_insert_Some; [done|]. eapply rule_ok_mono; [|by eapply Ir]. lia.
  - intros id1 id2 r1 r2 [[<- <-]|[Hn1 H1]]%lookup_insert_Some [[<- <-]|[Hn2 H2]]%lookup_insert_Some Hcc; [done| | |by eapply Ic].
    + symmetry. eapply Hfree; [done|]. congruence.
    + eapply Hfree; [done|]. congruence.
  - intros id e x Hx. destruct (Ee id e ltac:(eauto)) as [[x' Hx']|[-> ->]].
    + apply Ie in Hx' as (r & Hr & Hle). destruct (decide (id = cn_ID c)) as [->|Hne].
      * exists row. split; [apply lookup_insert_eq|]. apply Hold in Hr as [? _]. lia.
      * exists r. by rewrite lookup_insert_ne.
    + exists row. split; [apply lookup_insert_eq|done].
  - intros s' [Hin| ->%list_elem_of_singleton]%elem_of_app.
    + destruct (Is s' Hin) as (?&?&?). split_and!; [done..|]. apply lookup_insert_is_Some. destruct (decide (cn_ID c = sa_rule s')); auto.
    + split_and!; [done|lia|]. rewrite Hid, lookup_insert_eq. eauto.
  - rewrite map_app. apply StronglySorted_app_2; [|done|repeat constructor]. intros x y (s1 & -> & H1)%list_elem_of_fmap ->%list_elem_of_singleton. cbn.
    rewrite Hat. by apply Is.
  - intros id. rewrite (samples_of_app id _ _ _ Es). cbn [List.filter]. fold (samples_of id db). case_bool_decide as Ei; [|by rewrite app_nil_r].
    apply chain_snoc; [done|]. intros s1 Hl. rewrite Hid in Ei. subst id.
    assert (s1 ∈ samples_of (cn_ID c) db) as (H1 & H2)%list_elem_of_In%filter_In by (apply last_Some in Hl as (l' & ->); apply elem_of_app; right; by left).
    apply list_elem_of_In in H1. destruct (Is s1 H1) as (_ & _ & [r Hr]). bools. rewrite H2 in Hr.
    destruct (Il (cn_ID c) s1 r Hl Hr) as (?&?&?). apply (Hold r Hr); done.
  - intros id s1 r Hl. rewrite (samples_of_app id _ _ _ Es) in Hl. cbn [List.filter] in Hl. fold (samples_of id db) in Hl. case_bool_decide as Ei.
    + rewrite last_snoc in Hl. injection Hl as <-. rewrite Hid in Ei. subst id. rewrite lookup_insert_eq. by intros [= <-].
    + rewrite app_nil_r in Hl. rewrite lookup_insert_ne by congruence. by apply Il.
Qed.

(** *** The other statements *)

Lemma Inv_deactivate N t id db : Inv N t db → Inv N t (default db (deactivate id db)).
Proof.
  set (f := fun r => mkRule (ru_kind r) (ru_comment r) (ru_family r) (ru_table r) (ru_chain r) (ru_first_seen r) (ru_last_seen r)
    (ru_packets r) (ru_bytes r) (ru_packet_delta r) (ru_byte_delta r) (ru_reset r) (ru_epoch r) (ru_sample_at r) 0).
  assert (∀ i r, alter f id (db_rules db) !! i = Some r → ∃ r0, db_rules db !! i = Some r0 ∧ (r = r0 ∨ r = f r0)) as Hback.
  { intros i r. destruct (decide (id = i)) as [->|Hne]; [rewrite lookup_alter_eq|rewrite lookup_alter_ne by done; eauto].
    intros (r0 & -> & ?)%fmap_Some. eauto. }
  assert (∀ i, is_Some (db_rules db !! i) → is_Some (alter f id (db_rules db) !! i)) as Hthere.
  { intros i. destruct (decide (id = i)) as [->|Hne]; [rewrite lookup_alter_eq|by rewrite lookup_alter_ne]. by rewrite fmap_is_Some. }
  intros [Ir Ic Ie Is Iso Ich Il]. unfold deactivate. fold f. cbn. constructor; cbn; try done.
  - intros i r (r0 & Hr & [->| ->])%Hback; [by eapply Ir|]. destruct (Ir i r0 Hr). constructor; cbn; auto.
  - intros i1 i2 r1 r2 (r3 & H1 & E1)%Hback (r4 & H2 & E2)%Hback Hcc. apply (Ic i1 i2 r3 r4 H1 H2). destruct E1 as [->| ->], E2 as [->| ->]; exact Hcc.
  - intros i e row (r & Hr & Hle)%Ie. destruct (Hthere i ltac:(eauto)) as [r' Hr']. exists r'. split; [done|].
    apply Hback in Hr' as (r0 & Hr0 & [->| ->]); replace r0 with r by congruence; done.
  - intros s Hs. destruct (Is s Hs) as (?&?&?). split_and!; [done..|]. by apply Hthere.
  - intros i s r Hl (r0 & Hr & [->| ->])%Hback; exact (Il i s r0 Hl Hr).
Qed.

Lemma filter_comm {A} (p q : A → bool) l : List.filter p (List.filter q l) = List.filter q (List.filter p l).
Proof. induction l as [|x l IH]; [done|]. cbn. destruct (p x) eqn:Ep, (q x) eqn:Eq; cbn; rewrite ?Ep, ?Eq, IH; done. Qed.

Lemma sorted_filter (p : SampleRow → bool) l : StronglySorted Z.le (map sa_at l) → StronglySorted Z.le (map sa_at (List.filter p l)).
Proof.
  induction l as [|x l IH]; cbn; [done|]. intros [Hs Hx]%StronglySorted_inv. destruct (p x); [|by apply IH]. cbn. constructor; [by apply IH|].
  rewrite Forall_forall in Hx |- *. intros y (s & -> & Hin)%list_elem_of_fmap. apply Hx. apply list_elem_of_fmap. exists s. split; [done|].
  by apply list_elem_of_In, filter_In in Hin as [?%list_elem_of_In _].
Qed.

(** Among samples in the order of time, those that are kept come last. *)
Lemma kept_suffix cutoff l : StronglySorted Z.le (map sa_at l) → ∃ old, l = old ++ List.filter (fun s => cutoff <=? sa_at s) l.
Proof.
  induction l as [|x l IH]; cbn; [by exists []|]. intros [Hs Hx]%StronglySorted_inv. destruct (cutoff <=? sa_at x) eqn:E.
  - exists []. cbn. f_equal. apply Z.leb_le in E. clear IH Hs. induction l as [|y l IH]; [done|]. inversion Hx as [|? ? Hy Hx']; subst.
    cbn. replace (cutoff <=? sa_at y) with true by (symmetry; apply Z.leb_le; lia). f_equal. by apply IH.
  - destruct (IH Hs) as [old Hold]. exists (x :: old). cbn. by f_equal.
Qed.

Definition pruned (at_ : Z) (db : DB) : DB :=
  with_events (List.filter (fun e => wrap64 (at_ - EventRetention) <=? ev_at e))
    (with_epochs (filter (fun e => wrap64 (at_ - retention) ≤ ep_started e.2))
      (with_samples (List.filter (fun s => wrap64 (at_ - retention) <=? sa_at s)) db)).

Lemma Inv_pruned N t at_ db : Inv N t db → Inv N t (pruned at_ db).
Proof.
  intros [Ir Ic Ie Is Iso Ich Il]. set (cut := wrap64 (at_ - retention)).
  assert (∀ id, samples_of id (pruned at_ db) = List.filter (fun s => cut <=? sa_at s) (samples_of id db)) as Es by (intros id; apply filter_comm).
  assert (∀ id, ∃ old, samples_of id db = old ++ samples_of id (pruned at_ db)) as Hsuf.
  { intros id. rewrite Es. by apply kept_suffix, sorted_filter. }
  constructor; try done.
  - intros id e row Hx. cbn in Hx. apply map_lookup_filter_Some in Hx as [Hx _]. by eapply Ie.
  - intros s [Hs _]%list_elem_of_In%filter_In. apply list_elem_of_In in Hs. by apply Is.
  - by apply sorted_filter.
  - intros id. destruct (Hsuf id) as [old Hold]. apply (chain_app_r old). rewrite <- Hold. apply Ich.
  - intros id s r Hl. apply Il. destruct (Hsuf id) as [old ->]. destruct (samples_of id (pruned at_ db)) as [|x l] eqn:E using rev_ind; [done|].
    rewrite last_snoc in Hl. by rewrite app_assoc, last_snoc.
Qed.

Lemma pruneTx_ok faults at_ t t' : pruneTx faults at_ t = Ok t' → tx_db t' = pruned at_ (tx_db t).
Proof.
  intros (t1 & (_ & H1 & _)%statement_ok & (t2 & (_ & H2 & _)%statement_ok & (_ & H3 & _)%statement_ok)%bind_ok)%bind_ok.
  apply (inj Some) in H1, H2, H3. by rewrite <- H3, <- H2, <- H1.
Qed.

Lemma setHealthTx_ok faults k v t t' : setHealthTx faults k v t = Ok t' → tx_db t' = with_health <[k := v]> (tx_db t).
Proof. intros (_ & E & _)%statement_ok. apply (inj Some) in E. by rewrite <- E. Qed.

Definition health_all (entries : list (string * string)) (db : DB) : DB := with_health (fun m => foldl (fun m e => <[e.1 := e.2]> m) m entries) db.
Lemma set_all_ok faults entries t t' : set_all faults entries t = Ok t' → tx_db t' = health_all entries (tx_db t).
Proof.
  revert t. induction entries as [|e entries IH]; intros t; [intros [= <-]; apply db_eta|]. intros (t1 & H1%setHealthTx_ok & H2%IH)%bind_ok.
  by rewrite H2, H1.
Qed.

Lemma note_change_ok faults now snapshot t t' : note_change faults now snapshot t = Ok t' →
  db_rules (tx_db t') = db_rules (tx_db t) ∧ db_samples (tx_db t') = db_samples (tx_db t) ∧ db_epochs (tx_db t') = db_epochs (tx_db t).
Proof.
  unfold note_change. destruct (healthTx faults "last_fingerprint" t) as [previous t1] eqn:E1. injection E1 as <- <-. cbn [tx_db].
  destruct (_ && _); [|by intros [= <-]]. intros (t2 & (_ & H2 & _)%statement_ok & H3%setHealthTx_ok)%bind_ok. apply (inj Some) in H2. by rewrite H3, <- H2.
Qed.

Lemma retire_ok faults seen t t' : retireMissingRulesTx faults seen t = Ok t' →
  tx_db t' = foldl (fun db id => default db (deactivate id db)) (tx_db t) (missing_rules seen (tx_db t)).
Proof.
  unfold retireMissingRulesTx. destruct (fl_statement _ _); [done|]. generalize (missing_rules seen (tx_db t)) as ids. intros ids.
  change (tx_db t) with (tx_db (mkTx (tx_db t) (S (tx_count t)))) at 2. generalize (mkTx (tx_db t) (S (tx_count t))) as u.
  induction ids as [|id ids IH]; intros u; [by intros [= <-]|]. intros (u1 & (_ & H1 & _)%statement_ok & H2%IH)%bind_ok. rewrite H2. cbn [foldl]. f_equal.
  apply (inj Some) in H1. by rewrite <- H1.
Qed.

Lemma Inv_retired N t ids db : Inv N t db → Inv N t (foldl (fun db id => default db (deactivate id db)) db ids).
Proof. revert db. induction ids as [|id ids IH]; intros db HI; [done|]. by apply IH, Inv_deactivate. Qed.

(** ** Every run of the collector *)

(** The databases that recording can produce, with the number of counters in all
    samples asked for and the time of the last one.  Statements and commits fail
    as they like; the clock does not go back. *)
Inductive reach : Z → Z → DB → Prop :=
| reach_start t : reach 0 t empty_db
| reach_sample N t db faults at_ snapshot : reach N t db → t ≤ at_ → in_int64 at_ → Forall counter_ok (sn_Counters snapshot) →
    reach (N + Z.of_nat (length (sn_Counters snapshot))) at_ (RecordSnapshot faults at_ snapshot db).2
| reach_error N t db faults at_ collectorErr : reach N t db → reach N t (RecordHealthError faults at_ collectorErr db).2.

Lemma transact_cases faults db body : (transact faults db body).2 = db
  ∨ ∃ t, body (mkTx db 0) = Ok t ∧ (transact faults db body).2 = tx_db t.
Proof.
  unfold transact. destruct (fl_begin faults); [by left|]. destruct (body _) as [t|e]; [|by left]. destruct (fl_commit faults); cbn; eauto.
Qed.

Lemma counters_recorded faults now N cs t t' : foldM (record_counter faults now) t cs = Ok t' →
  Inv N now (tx_db t) → 0 ≤ N → N + Z.of_nat (length cs) ≤ int64_max → Forall counter_ok cs →
  Inv (N + Z.of_nat (length cs)) now (tx_db t') ∧ tx_db t' = foldl (fun db c => counted now c db) (tx_db t) cs.
Proof.
  revert N t. induction cs as [|c cs IH]; intros N t; cbn [foldM length].
  - intros [= <-] HI _ _ _. by rewrite Z.add_0_r.
  - intros (t1 & H1 & H2)%bind_ok HI HN Hlen [Hc Hcs]%Forall_cons. destruct (record_counter_ok faults now N now c t t1 HI H1) as (E1 & Hs & Hf).
    replace (N + Z.of_nat (S (length cs))) with (N + 1 + Z.of_nat (length cs)) by lia. cbn [foldl]. rewrite <- E1.
    apply IH; [done| |lia..|done]. rewrite E1. apply Inv_counted; [done|lia|done..].
Qed.

Lemma record_body_inv faults N t at_ snapshot seen u u' : record_body faults at_ snapshot seen u = Ok u' →
  Inv N t (tx_db u) → 0 ≤ N → t ≤ at_ → in_int64 at_ → Forall counter_ok (sn_Counters snapshot) → N + Z.of_nat (length (sn_Counters snapshot)) ≤ int64_max →
  Inv (N + Z.of_nat (length (sn_Counters snapshot))) at_ (tx_db u').
Proof.
  intros Hb HI HN Ht Hat Hcs Hlen. unfold record_body in Hb. rewrite (wrap64_id at_ Hat) in Hb.
  apply bind_ok in Hb as (u1 & (Er & Es & Ee)%note_change_ok & Hb). apply bind_ok in Hb as (u2 & H2 & Hb).
  apply bind_ok in Hb as (u3 & H3%retire_ok & Hb). apply bind_ok in Hb as (u4 & H4%set_all_ok & Hb%pruneTx_ok).
  destruct (counters_recorded faults at_ N _ u1 u2 H2) as [HI2 _]; [|lia..|done|].
  { eapply Inv_same; [done..|]. eapply Inv_mono; [| |exact HI]; lia. }
  rewrite Hb, H4, H3. apply Inv_pruned. eapply Inv_same; [..|by apply Inv_retired]; done.
Qed.

Lemma reach_Inv N t db : reach N t db → 0 ≤ N ∧ (N ≤ int64_max → Inv N t db).
Proof.
  induction 1 as [t|N t db faults at_ snapshot Hr [HN IH] Ht Hat Hcs|N t db faults at_ err Hr [HN IH]].
  - split; [lia|]. intros _. apply Inv_empty.
  - split; [lia|]. intros Hlen. specialize (IH ltac:(lia)). assert (Inv (N + Z.of_nat (length (sn_Counters snapshot))) at_ db) as Hsame by (eapply Inv_mono; [..|done]; lia).
    unfold RecordSnapshot. destruct (_ || _); [done|]. destruct (first_duplicate _) as [seen|e]; [|done].
    destruct (transact_cases faults db (record_body faults at_ snapshot seen)) as [->|(u & Hu & ->)]; [done|]. by eapply record_body_inv.
  - split; [done|]. intros Hlen. specialize (IH Hlen). unfold RecordHealthError. destruct err as [text|]; [|done].
    match goal with |- context [transact faults db ?b] => destruct (transact_cases faults db b) as [->|(u & Hu & ->)]; [done|] end.
    apply set_all_ok in Hu. rewrite Hu. eapply Inv_same; [..|done]; done.
Qed.

(** ** Properties *)

Definition packets_counted (l : list SampleRow) : Z := zsum (map (fun s => number (sa_packet_delta s)) l).
Definition bytes_counted (l : list SampleRow) : Z := zsum (map (fun s => number (sa_byte_delta s)) l).

Lemma chain_counts l a b : chain (a :: l ++ [b]) → sa_epoch a ≤ sa_epoch b
  ∧ (sa_epoch a = sa_epoch b → number (sa_packets b) = number (sa_packets a) + packets_counted (l ++ [b])
                               ∧ number (sa_bytes b) = number (sa_bytes a) + bytes_counted (l ++ [b])).
Proof.
  unfold packets_counted, bytes_counted. revert a. induction l as [|x l IH]; intros a.
  - intros [[(E & _ & Hp & Hb)|(E & _)] _]; cbn; (split; [lia|]); lia.
  - intros [Hax Hc]. apply IH in Hc as [Hle Hsum]. cbn [app map zsum foldr] in *. unfold zsum in Hsum.
    destruct Hax as [(E & _ & Hp & Hb)|(E & _)]; (split; [lia|]); intros Hab; [|lia]. destruct Hsum as [-> ->]; [lia|]. split; lia.
Qed.

Lemma collect_readable {A B E} (f : A → result E B) xs : (∀ x, x ∈ xs → ∃ y, f x = Ok y) → ∃ ys, collect f xs = Ok ys.
Proof.
  induction xs as [|x xs IH]; intros Hf; [by eexists|]. destruct (Hf x) as [y Hy]; [by left|]. destruct IH as [ys Hys]; [intros z Hz; apply Hf; by right|].
  exists (y :: ys). cbn. by rewrite Hy, Hys.
Qed.

Lemma decimal_column_written id text : written text → decimal_column id text = Ok (number text).
Proof. intros (E & _)%written_parse. unfold decimal_column. by rewrite E. Qed.

Lemma rule_readable N id r : rule_ok N r → ∃ v, scanRule (id, r) = Ok v.
Proof. intros [Hp Hb [Hpd Hbd] _ _]. eexists. unfold scanRule. rewrite !decimal_column_written by done. reflexivity. Qed.
Lemma sample_readable s : sample_ok s → ∃ v, scan_sample s = Ok v.
Proof. intros [Hp Hb [Hpd Hbd]]. eexists. unfold scan_sample. rewrite !decimal_column_written by done. reflexivity. Qed.

(** C10. Whatever statements and commits fail, and as long as the clock does not go
    back, the samples that are kept account for the traffic exactly.  For two
    samples of a rule in the same epoch the later counter is the earlier one plus
    the packets (and bytes) counted in between; the epoch never falls and rises
    by one exactly where the counting starts again, which counts nothing; the
    rule shows the last sample.  Everything that was written can be read. *)
Theorem Store_accounting N t db id : reach N t db → N ≤ int64_max →
  (∀ l1 a l2 b l3, samples_of id db = l1 ++ a :: l2 ++ b :: l3 →
     sa_epoch a ≤ sa_epoch b
     ∧ (sa_epoch a = sa_epoch b → number (sa_packets b) = number (sa_packets a) + packets_counted (l2 ++ [b])
                                  ∧ number (sa_bytes b) = number (sa_bytes a) + bytes_counted (l2 ++ [b])))
  ∧ (∀ l1 a b l3, samples_of id db = l1 ++ a :: b :: l3 → continues a b)
  ∧ (∀ s, last (samples_of id db) = Some s → ∃ r, db_rules db !! id = Some r ∧ ru_packets r = sa_packets s ∧ ru_bytes r = sa_bytes s ∧ ru_epoch r = sa_epoch s)
  ∧ (∀ limit, is_ok (Rules limit db) = true) ∧ (∀ since limit, is_ok (Activity id since limit db) = true).
Proof.
  intros Hr HN. apply reach_Inv in Hr as [_ HI]. specialize (HI HN). pose proof (inv_chain _ _ _ HI id) as Hc.
  assert (∀ s, s ∈ samples_of id db → s ∈ db_samples db ∧ sa_rule s = id) as Hin.
  { intros s [Hs Hid]%list_elem_of_In%filter_In. bools. split; [by apply list_elem_of_In|done]. }
  split_and!.
  - intros l1 a l2 b l3 E. rewrite E in Hc. apply chain_app_r in Hc. apply chain_counts.
    clear E. revert a Hc. induction l2 as [|x l2 IH]; intros a Hc; [destruct Hc as [? _]; by split|]. destruct Hc as [Hax Hc]. split; [done|]. by apply IH.
  - intros l1 a b l3 E. rewrite E in Hc. by apply chain_app_r in Hc as [? _].
  - intros s Hl. assert (s ∈ samples_of id db) as (Hs & <-)%Hin by (apply last_Some in Hl as (l' & ->); apply elem_of_app; right; by left).
    destruct (inv_sample _ _ _ HI s Hs) as (_ & _ & [r Hr]). exists r. split; [done|]. by eapply inv_last.
  - intros limit. unfold Rules. destruct (collect_readable scanRule (take (Z.to_nat (boundLimit limit MaxRuleResults)) (sort_by fst (map_to_list (db_rules db))))) as [ys ->]; [|done].
    intros [i r] Hx. apply (subseteq_take _ _), elem_of_sort_by, elem_of_map_to_list in Hx. eapply rule_readable, inv_rule; done.
  - intros since limit. unfold Activity. match goal with |- context [collect scan_sample ?l] => destruct (collect_readable scan_sample l) as [ys ->] end; [|done].
    intros s Hs. apply sample_readable. apply (subseteq_take _ _) in Hs. rewrite merge_sort_Permutation, elem_of_reverse in Hs.
    apply list_elem_of_In, filter_In in Hs as [Hs%list_elem_of_In _]. apply Hin in Hs as [Hs _]. by apply (inv_sample _ _ _ HI).
Qed.

(** *** Traffic of a window *)

(** What the samples since a time counted, of rules of some kinds. *)
Definition traffic (since : Z) (db : DB) (kinds : list string) (delta : SampleRow → string) : Z :=
  zsum (map (fun e : SampleRow * RuleRow => number (delta e.1))
    (List.filter (fun e : SampleRow * RuleRow => bool_decide (ru_kind e.2 ∈ kinds)) (joined since db))).

Lemma zsum_nonneg xs : Forall (Z.le 0) xs → 0 ≤ zsum xs.
Proof. unfold zsum. induction 1; cbn in *; lia. Qed.

Lemma cast_written text : written text → number text ≤ int64_max → cast_integer text = number text.
Proof. intros (E & _)%written_parse Hle. unfold cast_integer. rewrite E. cbn. lia. Qed.

Lemma joined_samples N t since db : Inv N t db → map fst (joined since db) = List.filter (fun s => since <=? sa_at s) (db_samples db)
  ∧ ∀ s r, (s, r) ∈ joined since db → s ∈ db_samples db ∧ db_rules db !! sa_rule s = Some r.
Proof.
  intros HI. pose proof (inv_sample _ _ _ HI) as Hs. unfold joined. split.
  - induction (db_samples db) as [|s l IH]; [done|]. cbn. destruct (Hs s) as (_ & _ & [r Hr]); [by left|].
    assert (∀ s', s' ∈ l → sample_ok s' ∧ sa_at s' ≤ t ∧ is_Some (db_rules db !! sa_rule s')) as Hl by (intros s' ?; apply Hs; by right).
    destruct (since <=? sa_at s); cbn; [|by apply IH]. rewrite Hr. cbn. f_equal. by apply IH.
  - intros s r (s' & Hin & E)%list_elem_of_omap. destruct (since <=? sa_at s'); [|done]. cbn in E.
    destruct (db_rules db !! sa_rule s') as [r'|] eqn:Er; [|done]. injection E as <- <-. done.
Qed.

Section window.
Context (since : Z) (db : DB) (delta : SampleRow → string).
Context (Hwritten : ∀ e, e ∈ joined since db → written (delta e.1) ∧ number (delta e.1) ≤ int64_max).

Lemma group_sum kind n : sql_sum (map (fun e : SampleRow * RuleRow => cast_integer (delta e.1)) (List.filter (fun e : SampleRow * RuleRow => ru_kind e.2 == kind) (joined since db))) = Ok n →
  n = traffic since db [kind] delta ∧ 0 ≤ n ≤ int64_max.
Proof.
  unfold sql_sum, traffic.
  assert (map (fun e : SampleRow * RuleRow => cast_integer (delta e.1)) (List.filter (fun e : SampleRow * RuleRow => ru_kind e.2 == kind) (joined since db))
    = map (fun e : SampleRow * RuleRow => number (delta e.1)) (List.filter (fun e : SampleRow * RuleRow => bool_decide (ru_kind e.2 ∈ [kind])) (joined since db))) as ->.
  { rewrite (filter_ext (fun e : SampleRow * RuleRow => ru_kind e.2 == kind) (fun e => bool_decide (ru_kind e.2 ∈ [kind]))).
    - apply map_ext_in. intros e [He%list_elem_of_In _]%filter_In. apply cast_written; by apply Hwritten.
    - intros e. apply bool_decide_ext. by rewrite list_elem_of_singleton. }
  set (xs := map _ _). destruct (zsum xs >? int64_max) eqn:E; [done|]. intros [= <-]. rewrite Z.gtb_ltb in E. apply Z.ltb_ge in E.
  split; [done|]. split; [|done]. apply zsum_nonneg, Forall_forall. intros x (e & -> & He)%list_elem_of_fmap.
  apply list_elem_of_In, filter_In in He as [He%list_elem_of_In _]. destruct (Hwritten e He) as [(_ & [? _] & _)%written_parse _]. done.
Qed.

Lemma traffic_nil kind : kind ∉ map (fun e : SampleRow * RuleRow => ru_kind e.2) (joined since db) → traffic since db [kind] delta = 0.
Proof.
  clear Hwritten. intros Hn. unfold traffic. induction (joined since db) as [|e l IH]; [done|]. cbn in *. apply not_elem_of_cons in Hn as [Hk Hn].
  rewrite bool_decide_false by (rewrite list_elem_of_singleton; congruence). exact (IH Hn).
Qed.

Lemma traffic_two k1 k2 : k1 ≠ k2 → traffic since db [k1; k2] delta = traffic since db [k1] delta + traffic since db [k2] delta.
Proof.
  clear Hwritten. intros Hne. unfold traffic. induction (joined since db) as [|e l IH]; [done|]. cbn [List.filter].
  destruct (decide (ru_kind e.2 = k1)) as [E1|E1]; [|destruct (decide (ru_kind e.2 = k2)) as [E2|E2]].
  - rewrite (bool_decide_true (_ ∈ [k1; k2])), (bool_decide_true (_ ∈ [k1])), (bool_decide_false (_ ∈ [k2])) by set_solver. unfold zsum in *. cbn in *. lia.
  - rewrite (bool_decide_true (_ ∈ [k1; k2])), (bool_decide_false (_ ∈ [k1])), (bool_decide_true (_ ∈ [k2])) by set_solver. unfold zsum in *. cbn in *. lia.
  - rewrite !bool_decide_false by set_solver. exact IH.
Qed.
End window.

(** What a kind adds to the summary once it was looked at. *)
Definition share (since : Z) (db : DB) (delta : SampleRow → string) (seen : list string) (kind : string) : Z :=
  if decide (kind ∈ seen) then traffic since db [kind] delta else 0.

Lemma share_snoc since db delta seen k kind : k ∉ seen →
  share since db delta (seen ++ [k]) kind = share since db delta seen kind + (if decide (kind = k) then traffic since db [kind] delta else 0).
Proof.
  intros Hk. unfold share. destruct (decide (kind = k)) as [->|Hne].
  - rewrite decide_True, decide_False by set_solver. lia.
  - destruct (decide (kind ∈ seen)); [rewrite decide_True by set_solver|rewrite decide_False by set_solver]; lia.
Qed.

Section window_loop.
Context (since : Z) (db : DB) (window : string).
Context (Hp : ∀ e, e ∈ joined since db → written (sa_packet_delta e.1) ∧ number (sa_packet_delta e.1) ≤ int64_max).
Context (Hb : ∀ e, e ∈ joined since db → written (sa_byte_delta e.1) ∧ number (sa_byte_delta e.1) ≤ int64_max).
Abbreviation shareP := (share since db sa_packet_delta).
Abbreviation shareB := (share since db sa_byte_delta).

Record summed (seen : list string) (w : WindowSummary_) : Prop := {
  sm_ap : ws_AcceptedPackets w = shareP seen "allow";
  sm_ab : ws_AcceptedBytes w = shareB seen "allow";
  sm_dp : ws_DroppedPackets w = shareP seen "deny" + shareP seen "drop";
  sm_db : ws_DroppedBytes w = shareB seen "deny" + shareB seen "drop";
  sm_bounds kind : 0 ≤ shareP seen kind ≤ int64_max ∧ 0 ≤ shareB seen kind ≤ int64_max;
}.

Lemma window_step_summed seen k w w' : k ∉ seen → summed seen w → window_step (joined since db) w k = Ok w' → summed (seen ++ [k]) w'.
Proof.
  intros Hk [Eap Eab Edp Edb Hbd] Hs. unfold window_step in Hs. apply bind_ok in Hs as (p & Ep & Hs). apply bind_ok in Hs as (b & Eb & Hs).
  apply (group_sum since db sa_packet_delta Hp) in Ep as [-> Hp2]. apply (group_sum since db sa_byte_delta Hb) in Eb as [-> Hb2].
  apply bind_ok in Hs as ([] & _ & Hs).
  assert (∀ kind, 0 ≤ shareP (seen ++ [k]) kind ≤ int64_max ∧ 0 ≤ shareB (seen ++ [k]) kind ≤ int64_max) as Hbounds.
  { intros kind. rewrite !share_snoc by done. destruct (decide (kind = k)) as [->|]; [|rewrite !Z.add_0_r; apply Hbd].
    unfold share. rewrite !decide_False by done. done. }
  pose proof (Hbounds "allow"%string) as Ba. pose proof (Hbounds "deny"%string) as Bd. pose proof (Hbounds "drop"%string) as Br.
  rewrite !share_snoc in Ba, Bd, Br by done. unfold int64_max in *.
  destruct (decide (k = "allow"%string)) as [->|N1]; [|destruct (decide (k = "deny"%string)) as [->|N2]; [|destruct (decide (k = "drop"%string)) as [->|N3]]].
  all: repeat first [rewrite (bool_decide_false (k = _)) in Hs by done]; injection Hs as <-; constructor; [..|done]; rewrite !share_snoc by done; cbn in *.
  all: rewrite ?decide_False in * by done; rewrite ?decide_True in * by done; rewrite ?Z.add_0_r in *.
  all: first [done | rewrite wrapu64_id; [lia|unfold in_uint64; lia] | idtac].
Qed.

Lemma window_loop kinds w : NoDup kinds → foldM (window_step (joined since db)) (mkWindow window 0 0 0 0) kinds = Ok w → summed kinds w.
Proof.
  revert w. induction kinds as [|k kinds IH] using rev_ind; intros w Hnd Hf.
  - injection Hf as <-. by constructor.
  - apply foldM_snoc in Hf as (w1 & H1 & H2). apply NoDup_app in Hnd as (Hnd & Hk & _). eapply window_step_summed; [|by apply IH|done].
    intros Hin. by apply (Hk k Hin), list_elem_of_singleton.
Qed.
End window_loop.


(** *** A sample that nothing disturbs *)

(** The ids and comments of the counters go together, with each other and with
    the rules that are known. *)
Record agrees (cs : list Counter) (db : DB) : Prop := {
  ag_rules c id r : c ∈ cs → db_rules db !! id = Some r → id = cn_ID c ↔ ru_comment r = cn_Rule c;
  ag_counters c c' : c ∈ cs → c' ∈ cs → cn_ID c = cn_ID c' ↔ cn_Rule c = cn_Rule c';
}.

Lemma first_duplicate_distinct cs : NoDup (map cn_ID cs) → first_duplicate cs = Ok (list_to_set (map cn_ID cs)).
Proof.
  unfold first_duplicate. assert (∀ seen : gset string, NoDup (map cn_ID cs) → (∀ c, c ∈ cs → cn_ID c ∉ seen) →
    foldM (fun (seen : gset string) c => _ ← fail_if (bool_decide (cn_ID c ∈ seen)) (DuplicateRule (cn_ID c)); Ok ({[cn_ID c]} ∪ seen)) seen cs
      = Ok (list_to_set (map cn_ID cs) ∪ seen)) as Hgen.
  { induction cs as [|c cs IH]; intros seen Hnd Hseen; [cbn; f_equal; set_solver|]. cbn in Hnd. apply NoDup_cons in Hnd as [Hc Hnd]. cbn [foldM].
    rewrite bool_decide_false by (apply Hseen; by left). cbn. rewrite IH; [f_equal; set_solver|done|].
    intros c' Hc' [E%elem_of_singleton|Hin]%elem_of_union; [|by apply (Hseen c'); [right|]]. apply Hc, list_elem_of_fmap. eauto. }
  intros Hnd. rewrite Hgen; [f_equal; set_solver|done|set_solver].
Qed.

Lemma record_counter_accepts now N c t : Inv N now (tx_db t) → 0 ≤ N < int64_max → counter_ok c → same_comment c (tx_db t) →
  comment_free (cn_ID c) (cn_Rule c) (tx_db t) = true → ∃ t', record_counter no_faults now t c = Ok t'.
Proof.
  intros HI HN Hc Hsame Hfree. unfold record_counter, previousRuleTx. cbn [no_faults fl_statement].
  destruct (db_rules (tx_db t) !! cn_ID c) as [r|] eqn:Er.
  - pose proof (inv_rule _ _ _ HI _ _ Er) as Hr. destruct (written_parse _ (rk_packets _ _ Hr)) as (-> & _). destruct (written_parse _ (rk_bytes _ _ Hr)) as (-> & _).
    cbn [mbind result_bind pr_comment]. rewrite (bool_decide_true (ru_comment r = cn_Rule c)) by auto. cbn [negb fail_if].
    fold (previous_of r). destruct (progress c (Some (previous_of r))) as [pg reason] eqn:Ep.
    destruct (progress_facts N c r pg reason Hr ltac:(lia) Hc Ep) as (_ & _ & Hcases).
    assert (∃ t2, match reason with Some reason => new_epoch no_faults (cn_ID c) (pg_epoch pg) now reason (previous_of r) (mkTx (tx_db t) (S (tx_count t)))
      | None => Ok (mkTx (tx_db t) (S (tx_count t))) end = Ok t2 ∧ db_rules (tx_db t2) = db_rules (tx_db t)) as (t2 & E2 & Er2).
    { destruct reason as [why|]; [|by eexists]. destruct Hcases as [(? & _)|(_ & Epoch & _)]; [done|].
      unfold new_epoch, exec, insert_epoch. cbn. rewrite Er. destruct (db_epochs (tx_db t) !! (cn_ID c, pg_epoch pg)) as [row|] eqn:Ee; [|by eexists].
      apply (inv_epoch _ _ _ HI) in Ee as (r' & Hr' & Hle). assert (r' = r) as -> by congruence. lia. }
    rewrite E2. cbn [mbind result_bind]. unfold upsertRuleTx, exec at 2, update_rule. cbn [no_faults fl_statement]. rewrite Er2, Er.
    unfold comment_free in Hfree |- *. rewrite Er2. cbn [rule_row ru_comment]. rewrite Hfree. cbn. unfold exec, insert_sample. cbn.
    rewrite lookup_insert_eq. by eexists.
  - cbn. unfold upsertRuleTx, exec, insert_rule. cbn. rewrite Er. unfold comment_free in Hfree |- *. cbn. rewrite Hfree. cbn. unfold insert_sample. cbn.
    rewrite lookup_insert_eq. by eexists.
Qed.

Lemma agrees_counted N now c cs db : Inv N now db → 0 ≤ N < int64_max → counter_ok c → agrees (c :: cs) db → agrees cs (counted now c db).
Proof.
  intros HI HN Hc [Hr Hcc]. destruct (counted_spec N now now c db HI HN Hc) as (row & s & Er & _ & _ & _ & _ & _ & _ & Hcom & _).
  constructor.
  - intros c' id r Hin. rewrite Er. intros [[<- <-]|[_ Hid]]%lookup_insert_Some.
    + rewrite Hcom. apply Hcc; [by left|by right].
    + apply Hr; [by right|done].
  - intros c1 c2 H1 H2. apply Hcc; by right.
Qed.

Lemma counters_accepted now N cs t : Inv N now (tx_db t) → 0 ≤ N → N + Z.of_nat (length cs) ≤ int64_max → Forall counter_ok cs → agrees cs (tx_db t) →
  ∃ t', foldM (record_counter no_faults now) t cs = Ok t'.
Proof.
  revert N t. induction cs as [|c cs IH]; intros N t HI HN Hlen Hcs Hag; [by eexists|]. apply Forall_cons in Hcs as [Hc Hcs]. cbn [length] in Hlen.
  destruct (record_counter_accepts now N c t) as [t1 H1]; [done|lia|done| | |].
  - intros r Er. by apply (ag_rules _ _ Hag c (cn_ID c) r); [left| |].
  - apply comment_free_true. intros id r Er Hcom. apply (ag_rules _ _ Hag c id r); [by left|done|done].
  - destruct (record_counter_ok _ _ _ _ _ _ _ HI H1) as (E1 & Hs & Hf). destruct (IH (N + 1) t1) as [t' Ht']; [| lia | lia | done | |].
    + rewrite E1. apply Inv_counted; [done|lia|done..].
    + rewrite E1. eapply agrees_counted; [done|lia|done..].
    + exists t'. cbn [foldM]. rewrite H1. exact Ht'.
Qed.

(** The row and the sample that a counter leaves. *)
Definition shows (c : Counter) (r : RuleRow) : Prop :=
  ru_comment r = cn_Rule c ∧ ru_active r = 1 ∧ ru_packets r = decimal (cn_Packets c) ∧ ru_bytes r = decimal (cn_Bytes c).
Definition sampled (now : Z) (c : Counter) (s : SampleRow) : Prop :=
  sa_rule s = cn_ID c ∧ sa_at s = now ∧ sa_packets s = decimal (cn_Packets c) ∧ sa_bytes s = decimal (cn_Bytes c).

Lemma counted_all now N cs db : Inv N now db → 0 ≤ N → N + Z.of_nat (length cs) ≤ int64_max → Forall counter_ok cs → agrees cs db → NoDup (map cn_ID cs) →
  let db' := foldl (fun db c => counted now c db) db cs in
  (∀ c, c ∈ cs → ∃ r, db_rules db' !! cn_ID c = Some r ∧ shows c r)
  ∧ (∀ id, id ∉ map cn_ID cs → db_rules db' !! id = db_rules db !! id)
  ∧ ∃ new, db_samples db' = db_samples db ++ new ∧ Forall2 (sampled now) cs new.
Proof.
  revert N db. induction cs as [|c cs IH]; intros N db HI HN Hlen Hcs Hag Hnd; cbn [foldl].
  - split; [by intros c ?%not_elem_of_nil|]. split; [done|]. exists []. by rewrite app_nil_r.
  - cbn in Hnd, Hlen. apply NoDup_cons in Hnd as [Hc Hnd]. apply Forall_cons in Hcs as [Hok Hcs].
    destruct (counted_spec N now now c db HI ltac:(lia) Hok) as (row & s & Er & Es & _ & _ & _ & Hid & Hat & Hcom & Hact & Hp & Hb & Ep & Eb & _).
    destruct (IH (N + 1) (counted now c db)) as (Hshow & Hother & new & Enew & Hnew); [|lia|lia|done| |done|].
    { apply Inv_counted; [done|lia|done| |].
      - intros r Hr. by apply (ag_rules _ _ Hag c (cn_ID c) r); [left| |].
      - apply comment_free_true. intros id r Hr Hcc. by apply (ag_rules _ _ Hag c id r); [left| |]. }
    { eapply agrees_counted; [done|lia|done..]. }
    split_and!.
    + intros c' [->|Hin]%elem_of_cons; [|by apply Hshow]. exists row. rewrite Hother, Er, lookup_insert_eq by done. done.
    + intros id [Hne Hin]%not_elem_of_cons. rewrite Hother, Er by done. by rewrite lookup_insert_ne.
    + exists (s :: new). rewrite Enew, Es, <- app_assoc. split; [done|]. constructor; [|done]. rewrite Ep in Hp. rewrite Eb in Hb. done.
Qed.

Lemma retired_all ids db id : db_rules (foldl (fun db id => default db (deactivate id db)) db ids) !! id =
  match db_rules db !! id with
  | Some r => Some (if decide (id ∈ ids) then mkRule (ru_kind r) (ru_comment r) (ru_family r) (ru_table r) (ru_chain r) (ru_first_seen r) (ru_last_seen r)
    (ru_packets r) (ru_bytes r) (ru_packet_delta r) (ru_byte_delta r) (ru_reset r) (ru_epoch r) (ru_sample_at r) 0 else r)
  | None => None
  end.
Proof.
  revert db. induction ids as [|i ids IH]; intros db; cbn [foldl]; [by destruct (db_rules db !! id)|]. rewrite IH. cbn.
  destruct (decide (i = id)) as [->|Hne].
  - rewrite lookup_alter_eq. destruct (db_rules db !! id) as [r|]; [|done]. cbn. rewrite (decide_True (P := id ∈ id :: ids)) by (by left).
    f_equal. by case_decide.
  - rewrite lookup_alter_ne by done. destruct (db_rules db !! id) as [r|]; [|done]. f_equal.
    by rewrite (decide_ext (id ∈ i :: ids) (id ∈ ids)) by (rewrite elem_of_cons; naive_solver).
Qed.

Lemma retired_same ids db : let db' := foldl (fun db id => default db (deactivate id db)) db ids in
  db_samples db' = db_samples db ∧ db_health db' = db_health db.
Proof. revert db. induction ids as [|i ids IH]; intros db; [done|]. exact (IH (default db (deactivate i db))). Qed.

Lemma set_all_accepts entries t : set_all no_faults entries t = Ok (mkTx (health_all entries (tx_db t)) (tx_count t + length entries)).
Proof.
  revert t. induction entries as [|e entries IH]; intros t; cbn [set_all foldM length].
  - destruct t as [[] n]. cbn. by rewrite Nat.add_0_r.
  - unfold setHealthTx, exec. cbn. unfold set_all in IH. rewrite IH. cbn. f_equal. f_equal; lia.
Qed.

Lemma note_change_accepts now snapshot t : ∃ t', note_change no_faults now snapshot t = Ok t'.
Proof.
  unfold note_change, healthTx. cbn [no_faults fl_statement]. destruct (_ && _); [|by eexists]. unfold exec, setHealthTx, exec. cbn. by eexists.
Qed.

Lemma retire_accepts seen t : ∃ t', retireMissingRulesTx no_faults seen t = Ok t'.
Proof.
  unfold retireMissingRulesTx. cbn [no_faults fl_statement]. generalize (mkTx (tx_db t) (S (tx_count t))) as u.
  induction (missing_rules seen (tx_db t)) as [|id ids IH]; intros u; [by eexists|]. cbn [foldM]. unfold exec at 1. cbn. apply IH.
Qed.

Lemma health_fresh at_ db : 0 < at_ ≤ int64_max → db_health db !! "status" = Some "healthy"%string →
  db_health db !! "last_success_at" = Some (itoa at_) → ch_Status (Health at_ db) = "healthy"%string.
Proof.
  intros Hat Hs Ht. unfold Health. rewrite Hs, Ht. change (default "" (Some (itoa at_))) with (itoa at_). unfold parseTimestamp. rewrite itoa_nonneg, parse_int_format by (unfold int64_max in *; lia).
  destruct (at_ =? 0) eqn:E; [apply Z.eqb_eq in E; lia|]. cbn. by rewrite Z.sub_diag.
Qed.

(** What a recorded sample leaves: every counter has an active rule with its
    reading and one new sample, every other rule is inactive, samples older than a
    week are gone and no others, and the collector is healthy. *)
Definition sample_in (at_ : Z) (snapshot : NFTSnapshot) (db db' : DB) : Prop :=
  (∀ c, c ∈ sn_Counters snapshot → ∃ r, db_rules db' !! cn_ID c = Some r ∧ shows c r)
  ∧ (∀ id r, id ∉ map cn_ID (sn_Counters snapshot) → db_rules db' !! id = Some r → ru_active r = 0)
  ∧ (∃ new, db_samples db' = List.filter (fun s => at_ - retention <=? sa_at s) (db_samples db ++ new) ∧ Forall2 (sampled at_) (sn_Counters snapshot) new)
  ∧ ch_Status (Health at_ db') = "healthy"%string.

Lemma sample_recorded N t db at_ snapshot : reach N t db → t ≤ at_ → 0 < at_ ≤ int64_max →
  N + Z.of_nat (length (sn_Counters snapshot)) ≤ int64_max → sn_Fingerprint snapshot ≠ "" →
  Forall counter_ok (sn_Counters snapshot) → NoDup (map cn_ID (sn_Counters snapshot)) → agrees (sn_Counters snapshot) db →
  ∃ db', RecordSnapshot no_faults at_ snapshot db = (Ok tt, db') ∧ sample_in at_ snapshot db db'.
Proof.
  intros Hr Ht Hat Hlen Hfp Hcs Hnd Hag. pose proof (proj1 (reach_Inv _ _ _ Hr)) as HN. pose proof (proj2 (reach_Inv _ _ _ Hr) ltac:(lia)) as HI.
  assert (in_int64 at_) as Hin by (unfold in_int64, int64_min, int64_max in *; lia).
  assert (wrap64 (at_ - retention) = at_ - retention) as Hcut by (apply wrap64_id; unfold in_int64, int64_min, int64_max, retention, second in *; lia).
  set (seen := list_to_set (map cn_ID (sn_Counters snapshot)) : gset string).
  destruct (note_change_accepts at_ snapshot (mkTx db 0)) as [t1 H1]. destruct (note_change_ok _ _ _ _ _ H1) as (Er1 & Es1 & Ee1). cbn in Er1, Es1, Ee1.
  assert (Inv N at_ (tx_db t1)) as HI1 by (eapply Inv_same; [done..|]; eapply Inv_mono; [..|exact HI]; lia).
  assert (agrees (sn_Counters snapshot) (tx_db t1)) as Hag1 by (destruct Hag; constructor; [rewrite Er1|]; done).
  destruct (counters_accepted at_ N _ t1 HI1 HN Hlen Hcs Hag1) as [t2 H2].
  destruct (counters_recorded _ _ _ _ _ _ H2 HI1 HN Hlen Hcs) as [HI2 E2].
  destruct (counted_all at_ N _ _ HI1 HN Hlen Hcs Hag1 Hnd) as (Hshow & Hother & new & Enew & Hnew). rewrite <- E2 in Hshow, Hother, Enew.
  destruct (retire_accepts seen t2) as [t3 H3]. pose proof (retire_ok _ _ _ _ H3) as E3.
  set (entries := [("status", "healthy"); ("last_attempt_at", itoa at_); ("last_success_at", itoa at_); ("last_error", "");
               ("last_fingerprint", sn_Fingerprint snapshot)]%string).
  assert (record_body no_faults at_ snapshot seen (mkTx db 0) = Ok (mkTx (pruned at_ (health_all entries (tx_db t3))) (tx_count t3 + 8))) as Hbody.
  { unfold record_body. rewrite (wrap64_id at_ Hin), H1. cbn [mbind result_bind]. rewrite H2. cbn [mbind result_bind]. rewrite H3. cbn [mbind result_bind].
    fold entries. rewrite set_all_accepts. cbn [mbind result_bind]. unfold pruneTx, exec. cbn. f_equal. f_equal. lia. }
  exists (pruned at_ (health_all entries (tx_db t3))).
  assert (∀ id, db_rules (tx_db t3) !! id = db_rules (foldl (fun db id => default db (deactivate id db)) (tx_db t2) (missing_rules seen (tx_db t2))) !! id) as E3r by by rewrite E3.
  unfold sample_in. split_and!.
  - unfold RecordSnapshot. rewrite (proj2 (Z.eqb_neq at_ zero_time)) by (unfold zero_time, second; lia). rewrite bool_decide_false by done. cbn [orb].
    rewrite first_duplicate_distinct by done. fold seen. unfold transact. cbn [no_faults fl_begin fl_commit]. by rewrite Hbody.
  - intros c Hc. destruct (Hshow c Hc) as (r & Hrow & Hsh). exists r. cbn. rewrite E3r, retired_all, Hrow. split; [|done]. f_equal.
    apply decide_False. unfold missing_rules. intros ([i r'] & Ei & Hm)%list_elem_of_fmap. apply list_elem_of_In, filter_In in Hm as [_ Hm].
    cbn in Ei, Hm. subst i. bools. match goal with Hn : _ ∉ seen |- _ => apply Hn end. unfold seen. rewrite elem_of_list_to_set. apply list_elem_of_fmap. eauto.
  - intros id r Hid. cbn. rewrite E3r, retired_all. destruct (db_rules (tx_db t2) !! id) as [r0|] eqn:E0; [|done]. intros [= <-].
    case_decide as Hm; [done|]. destruct (rk_active _ _ (inv_rule _ _ _ HI2 id r0 E0)) as [|Ha]; [done|]. exfalso. apply Hm. unfold missing_rules.
    apply list_elem_of_fmap. exists (id, r0). split; [done|]. apply list_elem_of_In, filter_In. split; [by apply list_elem_of_In, elem_of_map_to_list|].
    cbn. rewrite Ha. cbn. rewrite bool_decide_false; [done|]. unfold seen. by rewrite elem_of_list_to_set.
  - exists new. split; [|done]. cbn. rewrite Hcut, E3, (proj1 (retired_same _ _)), Enew, Es1. done.
  - apply health_fresh; [done|..]; cbn; by rewrite ?lookup_insert_ne, ?lookup_insert_eq by done.
Qed.

(** Counters that were all recorded went together with the rules. *)
Lemma counters_agree now N cs t t' : foldM (record_counter no_faults now) t cs = Ok t' →
  Inv N now (tx_db t) → 0 ≤ N → N + Z.of_nat (length cs) ≤ int64_max → Forall counter_ok cs → agrees cs (tx_db t).
Proof.
  revert N t. induction cs as [|c cs IH]; intros N t; cbn [foldM length].
  { intros _ _ _ _ _. constructor; set_solver. }
  intros (t1 & H1 & H2)%bind_ok HI HN Hlen [Hc Hcs]%Forall_cons. destruct (record_counter_ok _ _ _ _ _ _ _ HI H1) as (E1 & Hs & Hf).
  destruct (counted_spec N now now c (tx_db t) HI ltac:(lia) Hc) as (row & s & Er & _ & _ & _ & _ & _ & _ & Hcom & _).
  destruct (IH (N + 1) t1 H2) as [Hr Hcc]; [rewrite E1; apply Inv_counted; [done|lia|done..]|lia|lia|done|]. rewrite E1, Er in Hr. rewrite comment_free_true in Hf.
  assert (∀ c', c' ∈ cs → cn_ID c = cn_ID c' ↔ cn_Rule c = cn_Rule c') as Hhead
    by (intros c' Hc'; rewrite <- Hcom; apply (Hr c' (cn_ID c) row Hc'), lookup_insert_eq).
  constructor.
  - intros c' id r [->|Hc']%elem_of_cons Hrow; [split; [intros ->; by apply Hs|by apply Hf]|].
    destruct (decide (cn_ID c = id)) as [<-|Hne]; [rewrite (Hs r Hrow); by apply Hhead|].
    apply (Hr c' id r Hc'). by rewrite lookup_insert_ne.
  - intros c1 c2 [->|H1']%elem_of_cons [->|H2']%elem_of_cons; [done|by apply Hhead|split; intros E; symmetry; by apply Hhead|by apply Hcc].
Qed.

Lemma first_duplicate_NoDup cs seen : first_duplicate cs = Ok seen → NoDup (map cn_ID cs).
Proof.
  unfold first_duplicate. intros Hs. assert (NoDup (map cn_ID cs) ∧ ∀ x, x ∈ seen ↔ x ∈ map cn_ID cs) as [? _]; [|done].
  refine (foldM_inv _ (fun dn (seen : gset string) => NoDup (map cn_ID dn) ∧ ∀ x, x ∈ seen ↔ x ∈ map cn_ID dn) _ _ _ _ _ Hs).
  - split; [constructor|set_solver].
  - intros dn c s1 s2 [Hnd Hin] _ ([] & Hf%fail_if_ok & [= <-])%bind_ok. apply bool_decide_eq_false in Hf. rewrite map_app. split.
    + apply NoDup_snoc; [done|]. by rewrite <- Hin.
    + intros x. rewrite elem_of_union, elem_of_singleton, elem_of_app, Hin. cbn. rewrite list_elem_of_singleton. tauto.
Qed.

Lemma sample_fits N t db at_ snapshot : reach N t db → t ≤ at_ → 0 < at_ ≤ int64_max →
  N + Z.of_nat (length (sn_Counters snapshot)) ≤ int64_max → Forall counter_ok (sn_Counters snapshot) →
  (∃ e, RecordSnapshot no_faults at_ snapshot db = (Err e, db))
  ∨ sn_Fingerprint snapshot ≠ "" ∧ NoDup (map cn_ID (sn_Counters snapshot)) ∧ agrees (sn_Counters snapshot) db.
Proof.
  intros Hr Ht Hat Hlen Hcs. pose proof (proj1 (reach_Inv _ _ _ Hr)) as HN. pose proof (proj2 (reach_Inv _ _ _ Hr) ltac:(lia)) as HI.
  assert (in_int64 at_) as Hin by (unfold in_int64, int64_min, int64_max in *; lia).
  unfold RecordSnapshot. destruct (_ || _) eqn:Ez; [left; eauto|]. apply orb_false_iff in Ez as [_ Hfp]. bools.
  destruct (first_duplicate _) as [seen|e] eqn:Ed; [|left; eauto]. apply first_duplicate_NoDup in Ed.
  unfold transact. cbn [no_faults fl_begin fl_commit]. destruct (record_body _ _ _ _ _) as [u|e] eqn:Hb; [|left; eauto].
  right. split_and!; [done..|]. unfold record_body in Hb. rewrite (wrap64_id at_ Hin) in Hb.
  apply bind_ok in Hb as (u1 & (Er & Es & Ee)%note_change_ok & Hb). apply bind_ok in Hb as (u2 & H2 & _). cbn [tx_db] in *.
  destruct (counters_agree at_ N _ u1 u2 H2) as [Hag Hcc]; [|lia..|done|].
  { eapply Inv_same; [done..|]. eapply Inv_mono; [| |exact HI]; lia. }
  constructor; [rewrite <- Er|]; done.
Qed.

(** C12. A sample that nothing disturbs is recorded exactly if it fits: it has a
    fingerprint, its ids are distinct, and its ids and comments go together, with
    each other and with the rules that are known ([agrees]).  This holds whatever
    failed before it, for a positive time that is not before the last sample's and
    as long as the numbers of the rows stay below 2^63.  A sample that fits violates
    no constraint of the tables: afterwards every counter has an active rule with
    its reading and one new sample, every other rule is inactive, samples older than
    a week are gone and no others, and the collector is healthy.  One that does not
    fit is refused and leaves the tables as they were. *)
Theorem RecordSnapshot_accepted N t db at_ snapshot : reach N t db → t ≤ at_ → 0 < at_ ≤ int64_max →
  N + Z.of_nat (length (sn_Counters snapshot)) ≤ int64_max → Forall counter_ok (sn_Counters snapshot) →
  let fits := sn_Fingerprint snapshot ≠ "" ∧ NoDup (map cn_ID (sn_Counters snapshot)) ∧ agrees (sn_Counters snapshot) db in
  (fits → ∃ db', RecordSnapshot no_faults at_ snapshot db = (Ok tt, db') ∧ sample_in at_ snapshot db db')
  ∧ (¬ fits → ∃ e, RecordSnapshot no_faults at_ snapshot db = (Err e, db)).
Proof.
  intros Hr Ht Hat Hlen Hcs fits. split.
  - intros (Hfp & Hnd & Hag). by apply (sample_recorded N t).
  - intros Hno. by destruct (sample_fits N t db at_ snapshot) as [He|Hfits].
Qed.

(** *** Runs *)

Module TelemetryLab.
Definition allow (packets bytes : Z) : Counter := mkCounter "boetticher:allow:dns" "dns" "allow" "inet" "boetticher" "forward" packets bytes.
Definition drop (packets bytes : Z) : Counter := mkCounter "boetticher:drop:default" "default" "drop" "inet" "boetticher" "forward" packets bytes.
Definition start : Z := 1700000000 * second.
Definition snap (i : Z) (cs : list Counter) (db : DB) : DB := (RecordSnapshot no_faults (start + i * 15 * second) (mkSnapshot cs "f" 9) db).2.

(** Two samples; a sample without the second rule; one where a counter fell and
    the rule is back; and one whose commit is lost. *)
Definition after : DB :=
  snap 4 [allow 5 400; drop 9 900] (snap 3 [allow 30 3000] (snap 2 [allow 17 1700; drop 4 400] (snap 1 [allow 10 1000; drop 3 300] empty_db))).
Definition last_time : Z := start + 4 * 15 * second.

Lemma reached : reach 7 last_time after.
Proof.
  assert (∀ N i cs db, reach N (start + (i - 1) * 15 * second) db → 0 ≤ i ≤ 4 → Forall counter_ok cs →
    reach (N + Z.of_nat (length cs)) (start + i * 15 * second) (snap i cs db)) as Hstep.
  { intros N i cs db Hr Hi Hcs. apply reach_sample with (snapshot := mkSnapshot cs "f" 9) (t := start + (i - 1) * 15 * second);
      [done| | |done]; unfold in_int64, int64_min, int64_max, start, second; lia. }
  assert (∀ p b p' b', 0 ≤ p < 100 → 0 ≤ b < 10000 → 0 ≤ p' < 100 → 0 ≤ b' < 10000 → Forall counter_ok [allow p b; drop p' b']) as H2
    by (intros; repeat constructor; cbn; lia).
  apply (Hstep 5 4 [_; _]); [|lia|apply H2; lia]. apply (Hstep 4 3 [_]); [|lia|repeat constructor; cbn; lia].
  apply (Hstep 2 2 [_; _]); [|lia|apply H2; lia]. apply (Hstep 0 1 [_; _]); [|lia|apply H2; lia]. constructor.
Qed.

Example epochs_of_dns : map (fun s => (number (sa_packets s), number (sa_packet_delta s), sa_epoch s)) (samples_of "dns" after)
  = [(10, 0, 0); (17, 7, 0); (30, 13, 0); (5, 0, 1)].
Proof. vm_compute. reflexivity. Qed.
Example window : WindowSummary "1h" start after = Ok (mkWindow "1h" 20 2000 1 100).
Proof. vm_compute. reflexivity. Qed.
(** A lost commit leaves the tables as they were. *)
Example lost : RecordSnapshot (mkFaults false (fun _ => false) CommitLost) last_time (mkSnapshot [allow 6 600] "g" 9) after = (Err CommitFailed, after).
Proof. vm_compute. reflexivity. Qed.
End TelemetryLab.

(** Rules are never deleted: once a rule is known, a sample in which its id has
    another comment is refused, and nothing of it is recorded. *)
Lemma kind_change_refused faults N t db at_ snapshot c r : reach N t db → N ≤ int64_max → sn_Counters snapshot = [c] →
  db_rules db !! cn_ID c = Some r → ru_comment r ≠ cn_Rule c → (RecordSnapshot faults at_ snapshot db).2 = db.
Proof.
  intros Hr HN Hcs Hrow Hne. pose proof (proj2 (reach_Inv _ _ _ Hr) HN) as HI. unfold RecordSnapshot. rewrite Hcs.
  destruct (_ || _); [done|]. destruct (first_duplicate [c]) as [seen|e]; [|done].
  destruct (transact_cases faults db (record_body faults at_ snapshot seen)) as [?|(u & Hu & _)]; [done|]. exfalso.
  unfold record_body in Hu. rewrite Hcs in Hu. apply bind_ok in Hu as (u1 & (Er & Es & Ee)%note_change_ok & Hu). apply bind_ok in Hu as (u2 & H2 & _).
  cbn [foldM] in H2. apply bind_ok in H2 as (u3 & H3 & _). eapply (record_counter_ok _ _ N t) in H3 as (_ & Hs & _); [|by eapply Inv_same].
  apply Hne, Hs. by rewrite Er.
Qed.

(** The accounting of a collector with four samples. *)
Theorem Store_accounting_witness : reach 7 TelemetryLab.last_time TelemetryLab.after ∧ 7 ≤ int64_max
  ∧ is_ok (Rules 10 TelemetryLab.after) = true.
Proof.
  split; [exact TelemetryLab.reached|]. split; [by vm_compute|].
  exact (proj1 (proj2 (proj2 (proj2 (Store_accounting 7 _ _ "dns" TelemetryLab.reached ltac:(by vm_compute))))) 10).
Defined.


(** The first sample of a collector. *)
Theorem RecordSnapshot_accepted_witness : ∃ db',
  RecordSnapshot no_faults TelemetryLab.start (mkSnapshot [TelemetryLab.allow 10 1000; TelemetryLab.drop 3 300] "f" 9) empty_db = (Ok tt, db').
Proof.
  destruct (proj1 (RecordSnapshot_accepted 0 0 empty_db TelemetryLab.start
      (mkSnapshot [TelemetryLab.allow 10 1000; TelemetryLab.drop 3 300] "f" 9) (reach_start 0) ltac:(vm_compute; discriminate)
      ltac:(split; [reflexivity|vm_compute; discriminate]) ltac:(vm_compute; discriminate) ltac:(repeat constructor; vm_compute; congruence)))
    as (db' & E & _); [|by exists db'].
  split_and!; [done|apply (bool_decide_unpack _); vm_compute; exact I|].
  constructor; [intros c id r _ Hx; cbn in Hx; by rewrite lookup_empty in Hx|]. intros c c' Hc Hc'. cbn in Hc, Hc'. set_unfold in Hc. set_unfold in Hc'.
  destruct Hc as [->|[->|[]]], Hc' as [->|[->|[]]]; split; done.
Defined.
End FwTelemetry.
