(* ===== verification/Incidents.v ===== *)
(** * The incident store ([internal/observability/incidents/store.go])

    A bounded queue of alerts in an SQLite database, and the budgeted
    investigations of them.  Every SQL statement of the code is a constructor of
    [Stmt], executed atomically on the model of the three tables; an operation
    of the store is a [Prog]: a sequence of statements, clock readings and
    investigator calls.  [run] executes one operation alone.  [step] interleaves
    the statements of any number of operations, because the HTTP server runs
    them concurrently on one connection without transactions: statements may
    fail, or take effect and then report a failure, the clock and the
    investigator answer anything, and the process may stop at any point.  An
    UPDATE is executed without looking at the unique index on active
    fingerprints: the operations only move rows that are active already, so it
    cannot be violated by one ([db_ok], kept by every step). *)

From Stdlib Require Import SpecFloat.
From S2P Require Export Prelude GoStrings.

Open Scope Z_scope.

Module Incidents.

(** ** Data *)

(** A state is a string; these are the constants. *)
Inductive State := Queued | Investigating | Completed | Failed | Unavailable | Recovery | OtherState (s : string).
#[export] Instance State_eq_dec : EqDecision State.
Proof. solve_decision. Defined.

(** Durations are nanoseconds, the two budgets are float64. *)
Record Limits := mkLimits {
  lm_Retention : Z;
  lm_MaxIncidents : Z;
  lm_MaxRounds : Z;
  lm_MaxInvestigations : Z;
  lm_InvestigationBudget : Z;
  lm_InvestigationDeadline : Z;
  lm_DailyBudgetUSD : spec_float;
  lm_InvestigationBudgetUSD : spec_float;
}.

Definition second : Z := 1000000000.
Definition positive_or (value default : Z) : Z := if value <=? 0 then default else value.
Definition normalized (l : Limits) : Limits :=
  mkLimits (positive_or (lm_Retention l) (30 * 24 * 3600 * second)) (positive_or (lm_MaxIncidents l) 1000)
    (positive_or (lm_MaxRounds l) 6) (positive_or (lm_MaxInvestigations l) 1)
    (positive_or (lm_InvestigationBudget l) (300 * second)) (positive_or (lm_InvestigationDeadline l) (30 * second))
    (lm_DailyBudgetUSD l) (lm_InvestigationBudgetUSD l).

(** A zero time is [None]; a nil map is the empty one. *)
Record Alert := mkAlert {
  al_ID : string;
  al_Fingerprint : string;
  al_Source : string;
  al_Title : string;
  al_Body : string;
  al_Group : string;
  al_Labels : gmap string string;
  al_ObservedAt : option Z;
}.

Definition maxAlertID : Z := 128.
Definition maxAlertText : Z := 4096.
Definition maxAlertLabels : nat := 32.
Definition maxAlertLabelText : Z := 128.

(** A row of the table [incidents]. *)
Record Row := mkRow {
  r_ID : string;
  r_Fingerprint : string;
  r_Group : string;
  r_Source : string;
  r_Title : string;
  r_Body : string;
  r_LabelsJSON : string;
  r_State : State;
  r_Attempts : Z;
  r_Rounds : Z;
  r_CreatedAt : Z;
  r_UpdatedAt : Z;
  r_LastError : string;
}.

Record Event := mkEvent { e_Incident : string; e_State : State; e_CreatedAt : Z; e_Detail : string }.

(** The tables, and what [changes()] returns on the connection. *)
Record DB := mkDB {
  db_incidents : gmap string Row;
  db_events : gmap string Event;
  db_budget : gmap string Z;
  db_changes : Z;
}.
Definition empty_db : DB := mkDB ∅ ∅ ∅ 0.

(** Parts of the standard library the store relies on: SHA-256 in hexadecimal,
    JSON of a label map, the UTC day of a time, and what Go makes of a float64
    that no int64 holds. *)
Class IncidentLib := {
  sha256_hex : string → string;
  marshal_labels : gmap string string → string;
  unmarshal_labels : string → gmap string string;
  utc_day : Z → string;
  int64_out_of_range : spec_float → Z;
}.

Record Incident := mkIncident {
  i_ID : string;
  i_Fingerprint : string;
  i_Group : string;
  i_Source : string;
  i_Title : string;
  i_Body : string;
  i_Labels : gmap string string;
  i_State : State;
  i_Attempts : Z;
  i_Rounds : Z;
  i_CreatedAt : Z;
  i_UpdatedAt : Z;
  i_LastError : string;
}.
Definition zero_incident : Incident := mkIncident "" "" "" "" "" "" ∅ (OtherState "") 0 0 0 0 "".

Definition scan `{IncidentLib} (r : Row) : Incident :=
  mkIncident (r_ID r) (r_Fingerprint r) (r_Group r) (r_Source r) (r_Title r) (r_Body r) (unmarshal_labels (r_LabelsJSON r))
    (r_State r) (r_Attempts r) (r_Rounds r) (r_CreatedAt r) (r_UpdatedAt r) (r_LastError r).

(** The partial index and the queries share this list of states. *)
Definition active (s : State) : bool := bool_decide (s ∈ [Queued; Investigating; Unavailable; Recovery]).
Definition terminal (s : State) : bool := bool_decide (s ∈ [Completed; Failed]).

Definition transitions (from to : State) : bool :=
  match from with
  | Queued => bool_decide (to ∈ [Investigating; Unavailable; Recovery; Failed])
  | Investigating => bool_decide (to ∈ [Completed; Failed; Unavailable; Recovery; Queued])
  | Unavailable => bool_decide (to ∈ [Queued; Recovery; Failed])
  | Recovery => bool_decide (to ∈ [Queued; Investigating; Completed; Failed; Unavailable])
  | _ => false
  end.

(** ** SQL statements *)

Inductive DBError := Constraint | Broken.

Inductive Stmt : Type → Type :=
| SelectActiveByFingerprint (fp : string) : Stmt (option Row)
| CountActive : Stmt Z
| InsertIncident (row : Row) : Stmt unit
| SelectByID (id : string) : Stmt (option Row)
| UpdateInvestigating (id : string) (from : State) (maxAttempts maxRounds now : Z) : Stmt unit
| UpdateState (id : string) (from to : State) (detail : string) (now : Z) : Stmt unit
| SelectChanges : Stmt Z
| InsertEvent (event_id : string) (e : Event) : Stmt unit
| UpdateRecover (now : Z) : Stmt Z
| SelectStates (states : list State) : Stmt (list Row)
| DeleteOld (cutoff : Z) : Stmt unit
| DeleteBeyond (keep : Z) : Stmt unit
| SelectBudget (day : string) : Stmt (option Z)
| InsertBudget (day : string) (cents : Z) : Stmt unit
| UpdateBudget (day : string) (cents old : Z) : Stmt Z.

Definition with_incidents (db : DB) (m : gmap string Row) (n : Z) : DB := mkDB m (db_events db) (db_budget db) n.
Definition with_events (db : DB) (m : gmap string Event) (n : Z) : DB := mkDB (db_incidents db) m (db_budget db) n.
Definition with_budget (db : DB) (m : gmap string Z) (n : Z) : DB := mkDB (db_incidents db) (db_events db) m n.

Definition all_rows (db : DB) : list Row := (map_to_list (db_incidents db)).*2.
Definition active_rows (db : DB) (fp : string) : list Row :=
  List.filter (fun r => active (r_State r) && (r_Fingerprint r == fp)) (all_rows db).

(** [ORDER BY updated_at]: ascending; SQLite leaves the order of ties open. *)
Definition updated_le (a b : Row) : Prop := r_UpdatedAt a ≤ r_UpdatedAt b.
#[export] Instance updated_le_dec a b : Decision (updated_le a b) := Z_le_dec _ _.
Definition by_updated (rows : list Row) : list Row := merge_sort updated_le rows.

Definition set_row (db : DB) (r : Row) : DB := with_incidents db (<[r_ID r := r]> (db_incidents db)) 1.
(** A row in another state, with its counters, error and time. *)
Definition update_row (r : Row) (to : State) (attempts rounds : Z) (err : string) (now : Z) : Row :=
  mkRow (r_ID r) (r_Fingerprint r) (r_Group r) (r_Source r) (r_Title r) (r_Body r) (r_LabelsJSON r) to attempts rounds
    (r_CreatedAt r) now err.

(** [LIMIT -1 OFFSET keep] of the terminal rows, newest first: what is dropped. *)
Definition beyond (db : DB) (keep : Z) : gset string :=
  list_to_set (map r_ID (drop (Z.to_nat keep) (reverse (by_updated (List.filter (fun r => terminal (r_State r)) (all_rows db)))))).

Definition exec {R : Type} (st : Stmt R) (db : DB) : result DBError R * DB :=
  match st in Stmt R return result DBError R * DB with
  | SelectActiveByFingerprint fp => (Ok (head (reverse (by_updated (active_rows db fp)))), db)
  | CountActive => (Ok (Z.of_nat (length (List.filter (fun r => active (r_State r)) (all_rows db)))), db)
  | InsertIncident row =>
      if bool_decide (is_Some (db_incidents db !! r_ID row))
         || (active (r_State row) && negb (length (active_rows db (r_Fingerprint row)) =? 0)%nat)
      then (Err Constraint, with_incidents db (db_incidents db) 0) else (Ok tt, set_row db row)
  | SelectByID id => (Ok (db_incidents db !! id), db)
  | UpdateInvestigating id from maxAttempts maxRounds now =>
      match db_incidents db !! id with
      | Some r =>
          if (r_State r == from) && (r_Attempts r <? maxAttempts) && (r_Rounds r <? maxRounds)
          then (Ok tt, set_row db (update_row r Investigating (r_Attempts r + 1) (r_Rounds r + 1) (r_LastError r) now))
          else (Ok tt, with_incidents db (db_incidents db) 0)
      | None => (Ok tt, with_incidents db (db_incidents db) 0)
      end
  | UpdateState id from to detail now =>
      match db_incidents db !! id with
      | Some r =>
          if r_State r == from then (Ok tt, set_row db (update_row r to (r_Attempts r) (r_Rounds r) detail now))
          else (Ok tt, with_incidents db (db_incidents db) 0)
      | None => (Ok tt, with_incidents db (db_incidents db) 0)
      end
  | SelectChanges => (Ok (db_changes db), db)
  | InsertEvent event_id e =>
      if bool_decide (is_Some (db_events db !! event_id)) then (Err Constraint, with_events db (db_events db) 0)
      else (Ok tt, with_events db (<[event_id := e]> (db_events db)) 1)
  | UpdateRecover now =>
      let n := Z.of_nat (length (List.filter (fun r => r_State r == Investigating) (all_rows db))) in
      (Ok n, with_incidents db
         ((fun r => if r_State r == Investigating then update_row r Recovery (r_Attempts r) (r_Rounds r) (r_LastError r) now else r)
            <$> db_incidents db) n)
  | SelectStates states =>
      (Ok (by_updated (List.filter (fun r => (length states =? 0)%nat || bool_decide (r_State r ∈ states)) (all_rows db))), db)
  | DeleteOld cutoff =>
      let kept := filter (fun x : string * Row => ((r_UpdatedAt x.2 <? cutoff) && terminal (r_State x.2)) = false) (db_incidents db) in
      (Ok tt, with_incidents db kept (Z.of_nat (size (db_incidents db)) - Z.of_nat (size kept)))
  | DeleteBeyond keep =>
      let dropped := beyond db keep in
      (Ok tt, with_incidents db (filter (fun x : string * Row => x.1 ∉ dropped) (db_incidents db)) (Z.of_nat (size dropped)))
  | SelectBudget day => (Ok (db_budget db !! day), db)
  | InsertBudget day cents =>
      if bool_decide (is_Some (db_budget db !! day)) then (Err Constraint, with_budget db (db_budget db) 0)
      else (Ok tt, with_budget db (<[day := cents]> (db_budget db)) 1)
  | UpdateBudget day cents old =>
      if db_budget db !! day == Some old then (Ok 1, with_budget db (<[day := cents]> (db_budget db)) 1)
      else (Ok 0, with_budget db (db_budget db) 0)
  end.

(** ** Operations *)

Record InvestigationRequest := mkRequest { rq_Incident : Incident; rq_Round : Z; rq_Budget : Z; rq_Deadline : Z }.
Record InvestigationResult := mkInvestigationResult { ir_State : State; ir_Detail : string }.

Inductive Prog (A : Type) : Type :=
| Ret (a : A)
| Exec {R : Type} (st : Stmt R) (k : result DBError R → Prog A)
| Now (k : Z → Prog A)
| Call (req : InvestigationRequest) (k : result string InvestigationResult → Prog A).
Arguments Ret {A} a.
Arguments Exec {A R} st k.
Arguments Now {A} k.
Arguments Call {A} req k.

Fixpoint pbind {A B : Type} (f : A → Prog B) (p : Prog A) : Prog B :=
  match p with
  | Ret a => f a
  | Exec st k => Exec st (fun r => pbind f (k r))
  | Now k => Now (fun t => pbind f (k t))
  | Call req k => Call req (fun r => pbind f (k r))
  end.
#[export] Instance Prog_ret : MRet Prog := @Ret.
#[export] Instance Prog_bind : MBind Prog := fun A B f p => pbind f p.

Definition stmt {R : Type} (st : Stmt R) : Prog (result DBError R) := Exec st Ret.
Definition now : Prog Z := Now Ret.

Inductive StoreError :=
| SourceTitleRequired | AlertSize | AlertLabels | AlertLabelSize | QueueFull | IDInUse
| DBFailed (e : DBError)
| InvalidTransition (from to : State) | StaleTransition
| NoRows | InvestigatorNil | NotReady (id : string) (s : State) | BudgetExhausted | BudgetRetries
| CallFailed (text : string).

(** A statement whose error ends the operation. *)
Definition try {R B : Type} (st : Stmt R) (k : R → Prog (result StoreError B)) : Prog (result StoreError B) :=
  Exec st (fun r => match r with Ok a => k a | Err e => Ret (Err (DBFailed e)) end).

Section store.
Context `{GoUnicode, IncidentLib}.
(** The store's limits, normalised by [Open] and [NewStore]. *)
Context (limits : Limits).

Definition fingerprint (a : Alert) : string :=
  if trim_space (al_Fingerprint a) != "" then trim_space (al_Fingerprint a)
  else
    let nul := String "000" EmptyString in
    let labels := sort_strings (map (fun e => e.1 +:+ "=" +:+ e.2) (map_to_list (al_Labels a))) in
    sha256_hex (al_Source a +:+ nul +:+ al_Title a +:+ nul +:+ al_Group a +:+ nul +:+ join labels nul).

Definition alert_check (a : Alert) : result StoreError unit :=
  _ ← fail_if ((trim_space (al_Source a) == "") || (trim_space (al_Title a) == "")) SourceTitleRequired;
  _ ← fail_if ((len (al_ID a) >? maxAlertID) || (len (al_Fingerprint a) >? maxAlertID)
               || (len (al_Source a) >? maxAlertLabelText) || (len (al_Title a) >? maxAlertText)
               || (len (al_Body a) >? maxAlertText) || (len (al_Group a) >? maxAlertLabelText)) AlertSize;
  _ ← fail_if (maxAlertLabels <? size (al_Labels a))%nat AlertLabels;
  fail_if (existsb (fun e => (len e.1 =? 0) || (len e.1 >? maxAlertLabelText) || (len e.2 >? maxAlertLabelText))
             (map_to_list (al_Labels a))) AlertLabelSize.

(** [Get]: the incident, and whether it was found and, unless terminal ones are
    included, still active. *)
Definition Get (id : string) (includeTerminal : bool) : Prog (result StoreError (Incident * bool)) :=
  try (SelectByID id) (fun row => Ret (Ok
    match row with
    | None => (zero_incident, false)
    | Some r => (scan r, includeTerminal || negb (terminal (r_State r)))
    end)).

(** [prune]; [Intake] drops its error. *)
Definition prune : Prog (result StoreError unit) :=
  t ← now;
  try (DeleteOld (t - lm_Retention limits)) (fun _ => try (DeleteBeyond (lm_MaxIncidents limits)) (fun _ => Ret (Ok tt))).

(** What [Intake] does when the insertion was refused. *)
Definition intake_refused (a : Alert) (fp : string) (e : DBError) : Prog (result StoreError (Incident * bool)) :=
  if al_ID a != "" then
    found ← Get (al_ID a) true;
    match found with
    | Ok (existing, true) =>
        Ret (if i_Fingerprint existing != fp then Err IDInUse else Ok (existing, true))
    | _ => Ret (Err (DBFailed e))
    end
  else Ret (Err (DBFailed e)).

Definition intake_row (a : Alert) (fp group : string) (observed t : Z) : Row :=
  let id := trim_space (al_ID a) in
  mkRow (if id == "" then fp +:+ "-" +:+ itoa t else id) fp group (al_Source a) (al_Title a) (al_Body a)
    (marshal_labels (al_Labels a)) Queued 0 0 observed t "".


Definition intake_insert (a : Alert) (fp group : string) (observed : Z) : Prog (result StoreError (Incident * bool)) :=
  Now (fun t =>
    let row := intake_row a fp group observed t in
    Exec (InsertIncident row) (fun inserted =>
      match inserted with
      | Ok _ =>
          _ ← prune;
          found ← Get (r_ID row) false;
          Ret (match found with Ok (i, _) => Ok (i, false) | Err e => Err e end)
      | Err e => intake_refused a fp e
      end)).

Definition intake_checked (a : Alert) (observed : Z) : Prog (result StoreError (Incident * bool)) :=
  let group := if al_Group a == "" then al_Source a else al_Group a in
  let fp := fingerprint (mkAlert (al_ID a) (al_Fingerprint a) (al_Source a) (al_Title a) (al_Body a) group (al_Labels a)
                          (Some observed)) in
  try (SelectActiveByFingerprint fp) (fun existing =>
    match existing with
    | Some r => Ret (Ok (scan r, true))
    | None =>
        try CountActive (fun n =>
          if n >=? lm_MaxIncidents limits then Ret (Err QueueFull) else intake_insert a fp group observed)
    end).

(** [Intake]: the incident, and whether the alert is a duplicate. *)
Definition Intake (a : Alert) : Prog (result StoreError (Incident * bool)) :=
  match alert_check a with
  | Err e => Ret (Err e)
  | Ok _ => match al_ObservedAt a with Some t => intake_checked a t | None => Now (intake_checked a) end
  end.

Definition Transition (id : string) (from to : State) (detail : string) : Prog (result StoreError unit) :=
  if negb (transitions from to) then Ret (Err (InvalidTransition from to))
  else
    t ← now;
    try (if to == Investigating
         then UpdateInvestigating id from (lm_MaxInvestigations limits) (lm_MaxRounds limits) t
         else UpdateState id from to detail t) (fun _ =>
      try SelectChanges (fun n =>
        if n != 1 then Ret (Err StaleTransition)
        else
          t1 ← now; t2 ← now;
          try (InsertEvent (id +:+ "-" +:+ itoa t1) (mkEvent id to t2 detail)) (fun _ => Ret (Ok tt)))).

Definition Recover : Prog (result StoreError Z) :=
  t ← now; try (UpdateRecover t) (fun n => Ret (Ok n)).

Definition List_ (states : list State) : Prog (result StoreError (list Incident)) :=
  try (SelectStates states) (fun rows => Ret (Ok (map scan rows))).

(** ** Investigations *)

(** [int64(f)]: truncation of a finite value that an int64 holds. *)
Definition float_to_int64 (f : spec_float) : Z :=
  match f with
  | S754_zero _ => 0
  | S754_finite neg m e =>
      let v := if 0 <=? e then Z.pos m * 2 ^ e else Z.pos m / 2 ^ (- e) in
      let v := if neg then - v else v in
      if (int64_min <=? v) && (v <=? int64_max) then v else int64_out_of_range f
  | _ => int64_out_of_range f
  end.

Definition f64_zero : spec_float := S754_zero false.
Definition f64_100 : spec_float := S754_finite false 7036874417766400 (-46).
Definition cents (usd : spec_float) : Z := float_to_int64 (SFmul 53 1024 usd f64_100).

Definition maxCents : Z := cents (lm_DailyBudgetUSD limits).
Definition reserveCents : Z := let c := cents (lm_InvestigationBudgetUSD limits) in if c <? 1 then 1 else c.

(** A budget that is not positive is no budget. *)
Definition no_budget : bool :=
  SFleb (lm_DailyBudgetUSD limits) f64_zero || SFleb (lm_InvestigationBudgetUSD limits) f64_zero.

(** The loop of [reserveBudget]: it starts over when another request has
    changed the row between the reading and the writing. *)
Fixpoint reserve_loop (retries : nat) (day : string) : Prog (result StoreError unit) :=
  match retries with
  | O => Ret (Err BudgetRetries)
  | S retries =>
      try (SelectBudget day) (fun row =>
        match row with
        | None =>
            inserted ← stmt (InsertBudget day reserveCents);
            match inserted with Ok _ => Ret (Ok tt) | Err _ => reserve_loop retries day end
        | Some reserved =>
            if wrap64 (reserved + reserveCents) >? maxCents then Ret (Err BudgetExhausted)
            else try (UpdateBudget day (wrap64 (reserved + reserveCents)) reserved) (fun changed =>
              if changed =? 1 then Ret (Ok tt) else reserve_loop retries day)
        end)
  end.

Definition reserveBudget (retries : nat) : Prog (result StoreError unit) :=
  if no_budget then Ret (Ok tt) else t ← now; reserve_loop retries (utc_day t).

(** What the store makes of the investigator's answer. *)
Definition investigation_target (s : State) : State :=
  if s == OtherState "" then Completed
  else if bool_decide (s ∈ [Completed; Unavailable; Failed; Recovery]) then s else Failed.

(** The part of [Investigate] after the reservation; [i] is what was read before it. *)
Definition investigate_reserved (id : string) (i : Incident) : Prog (Incident * option StoreError) :=
  moved ← Transition id (i_State i) Investigating "";
  match moved with
  | Err e => Ret (i, Some e)
  | Ok _ =>
      again ← Get id true;
      let i := match again with Ok (i, _) => i | Err _ => zero_incident end in
      let deadline := Z.min (lm_InvestigationDeadline limits) (lm_InvestigationBudget limits) in
      Call (mkRequest i (i_Rounds i) deadline deadline) (fun answer =>
        _ ← match answer with
            | Err text => Transition id Investigating Failed text
            | Ok r => Transition id Investigating (investigation_target (ir_State r)) (ir_Detail r)
            end;
        final ← Get id true;
        Ret (match final with Ok (i, _) => i | Err _ => zero_incident end,
             match answer with Err text => Some (CallFailed text) | Ok _ => None end))
  end.

(** The incident and the error, both of which the caller gets; [inv] tells
    whether the caller has an investigator.  The retries bound the loop of
    [reserveBudget]. *)
Definition Investigate (retries : nat) (id : string) (inv : bool) : Prog (Incident * option StoreError) :=
  if negb inv then Ret (zero_incident, Some InvestigatorNil) else
  found ← Get id true;
  match found with
  | Err e => Ret (zero_incident, Some e)
  | Ok (i, false) => Ret (i, Some NoRows)
  | Ok (i, true) =>
      if bool_decide (i_State i ∉ [Queued; Recovery; Unavailable]) then Ret (i, Some (NotReady id (i_State i)))
      else
        reserved ← reserveBudget retries;
        match reserved with
        | Err e => Ret (i, Some e)
        | Ok _ => investigate_reserved id i
        end
  end.

(** ** One operation alone *)

(** Everything a run sees: the tables, the readings of the clock so far, and
    the investigator calls that were made. *)
Record World := mkWorld { w_db : DB; w_reads : nat; w_calls : list InvestigationRequest }.

Fixpoint run (clock : nat → Z) (investigator : InvestigationRequest → result string InvestigationResult)
    {A : Type} (p : Prog A) (w : World) : A * World :=
  match p with
  | Ret a => (a, w)
  | Exec st k => let '(r, db) := exec st (w_db w) in run clock investigator (k r) (mkWorld db (w_reads w) (w_calls w))
  | Now k => run clock investigator (k (clock (w_reads w))) (mkWorld (w_db w) (S (w_reads w)) (w_calls w))
  | Call req k => run clock investigator (k (investigator req)) (mkWorld (w_db w) (w_reads w) (w_calls w ++ [req]))
  end.

(** ** Any number of operations *)

(** A request that the server may be handed at any time. *)
Inductive Request :=
| RIntake (a : Alert) | RGet (id : string) (includeTerminal : bool) | RTransition (id : string) (from to : State) (detail : string)
| RRecover | RList (states : list State) | RInvestigate (retries : nat) (id : string) (inv : bool).

Definition forget {A : Type} (p : Prog A) : Prog unit := pbind (fun _ => Ret tt) p.
Definition program (q : Request) : Prog unit :=
  match q with
  | RIntake a => forget (Intake a)
  | RGet id b => forget (Get id b)
  | RTransition id from to detail => forget (Transition id from to detail)
  | RRecover => forget Recover
  | RList states => forget (List_ states)
  | RInvestigate retries id inv => forget (Investigate retries id inv)
  end.

(** The tables, what is left of each running operation, and how many
    investigator calls were made. *)
Record Config := mkConfig { c_db : DB; c_pool : list (Prog unit); c_calls : nat }.

Inductive step : Config → Config → Prop :=
| step_spawn q db pool n : step (mkConfig db pool n) (mkConfig db (pool ++ [program q]) n)
| step_exec R (st : Stmt R) k l1 l2 db n :
    step (mkConfig db (l1 ++ Exec st k :: l2) n) (mkConfig (exec st db).2 (l1 ++ k (exec st db).1 :: l2) n)
| step_broken R (st : Stmt R) k l1 l2 db n :
    step (mkConfig db (l1 ++ Exec st k :: l2) n) (mkConfig db (l1 ++ k (Err Broken) :: l2) n)
| step_lost R (st : Stmt R) k l1 l2 db n :
    step (mkConfig db (l1 ++ Exec st k :: l2) n) (mkConfig (exec st db).2 (l1 ++ k (Err Broken) :: l2) n)
| step_now k t l1 l2 db n : step (mkConfig db (l1 ++ Now k :: l2) n) (mkConfig db (l1 ++ k t :: l2) n)
| step_call req k r l1 l2 db n : step (mkConfig db (l1 ++ Call req k :: l2) n) (mkConfig db (l1 ++ k r :: l2) (S n))
| step_crash db pool n : step (mkConfig db pool n) (mkConfig db [] n).

Definition reachable (c : Config) : Prop := rtc step (mkConfig empty_db [] 0) c.

(** *** Programs whose statements keep the rules *)

(** What the operations ask of the database, whatever it answers. *)
Definition stmt_ok {R : Type} (st : Stmt R) : Prop :=
  match st with
  | InsertIncident row => r_State row = Queued ∧ r_Attempts row = 0 ∧ r_Rounds row = 0
  | UpdateInvestigating _ from maxAttempts maxRounds _ =>
      transitions from Investigating = true ∧ maxAttempts = lm_MaxInvestigations limits ∧ maxRounds = lm_MaxRounds limits
  | UpdateState _ from to _ _ => transitions from to = true ∧ to ≠ Investigating
  | DeleteBeyond keep => keep = lm_MaxIncidents limits
  | InsertBudget _ c => c = reserveCents
  | UpdateBudget _ c old => c = wrap64 (old + reserveCents) ∧ c ≤ maxCents
  | _ => True
  end.

Fixpoint good {A : Type} (p : Prog A) : Prop :=
  match p with
  | Ret _ => True
  | Exec st k => stmt_ok st ∧ ∀ r, good (k r)
  | Now k => ∀ t, good (k t)
  | Call _ k => ∀ r, good (k r)
  end.

Lemma good_bind {A B : Type} (f : A → Prog B) p : good p → (∀ a, good (f a)) → good (pbind f p).
Proof. intros Hp Hf. induction p as [a|R st k IH|k IH|req k IH]; cbn in *; [apply Hf|destruct Hp; split; auto|auto..]. Qed.

Lemma good_try {R B : Type} (st : Stmt R) (k : R → Prog (result StoreError B)) :
  stmt_ok st → (∀ r, good (k r)) → good (try st k).
Proof. intros Hst Hk. split; [done|]. intros [a|e]; [apply Hk|done]. Qed.

Lemma good_Get id b : good (Get id b).
Proof. by apply good_try. Qed.

Lemma good_Intake a : good (Intake a).
Proof.
  assert (∀ observed, good (intake_checked a observed)) as Hc.
  { intros observed. apply good_try; [done|]. intros [r|]; [done|]. apply good_try; [done|]. intros n.
    destruct (_ >=? _); [done|]. intros t. split; [done|]. intros [[]|e].
    - apply good_bind; [|intros _; apply good_bind; [apply good_Get|done]].
      intros t'. apply good_try; [done|]. intros _. by apply good_try.
    - unfold intake_refused. destruct (_ != ""); [|done]. apply good_bind; [apply good_Get|]. by intros [[i []]|]. }
  unfold Intake. destruct (alert_check a); [|done]. destruct (al_ObservedAt a); [apply Hc|]. intros t. apply Hc.
Qed.

Lemma good_Transition id from to detail : good (Transition id from to detail).
Proof.
  unfold Transition. destruct (negb _) eqn:Et; [done|]. apply negb_false_iff in Et. intros t. apply good_try.
  - destruct (to == Investigating) eqn:E; bools; [by subst|done].
  - intros _. apply good_try; [done|]. intros n. destruct (n != 1); [done|]. intros t1 t2. by apply good_try.
Qed.

Lemma good_reserve retries day : good (reserve_loop retries day).
Proof.
  induction retries as [|retries IH]; [done|]. apply good_try; [done|]. intros [reserved|].
  - destruct (_ >? _) eqn:E; [done|]. bools. apply good_try; [split; [done|lia]|]. intros changed. by destruct (_ =? _).
  - split; [done|]. by intros [[]|e].
Qed.

Lemma good_Investigate retries id inv : good (Investigate retries id inv).
Proof.
  unfold Investigate. destruct inv; [|done]. cbn [negb]. apply good_bind; [apply good_Get|]. intros [[i []]|e]; try done. destruct (bool_decide _); [done|].
  apply good_bind. { unfold reserveBudget. destruct no_budget; [done|]. intros t. apply good_reserve. }
  intros [[]|e]; [|done]. unfold investigate_reserved. apply good_bind; [apply good_Transition|]. intros [[]|e]; [|done].
  apply good_bind; [apply good_Get|]. intros again answer.
  apply good_bind; [destruct answer; apply good_Transition|]. intros _. apply good_bind; [apply good_Get|done].
Qed.

Lemma good_program q : good (program q).
Proof.
  destruct q; cbn [program]; apply good_bind; try done; [apply good_Intake|apply good_Get|apply good_Transition|..|apply good_Investigate].
  - intros t. by apply good_try.
  - by apply good_try.
Qed.

(** *** The tables *)

Record row_ok (r : Row) : Prop := {
  ro_counters : 0 ≤ r_Attempts r ∧ r_Rounds r = r_Attempts r;
  ro_bounds : r_Attempts r ≤ lm_MaxInvestigations limits ∧ r_Rounds r ≤ lm_MaxRounds limits;
  ro_state : active (r_State r) = true ∨ terminal (r_State r) = true;
}.

Record db_ok (db : DB) : Prop := {
  do_keys : ∀ id r, db_incidents db !! id = Some r → r_ID r = id;
  do_rows : ∀ id r, db_incidents db !! id = Some r → row_ok r;
  do_unique : ∀ id1 id2 r1 r2, db_incidents db !! id1 = Some r1 → db_incidents db !! id2 = Some r2 →
    active (r_State r1) = true → active (r_State r2) = true → r_Fingerprint r1 = r_Fingerprint r2 → id1 = id2;
  do_budget : ∀ day c, db_budget db !! day = Some c → c ≤ Z.max maxCents reserveCents;
}.

(** What may become of a row: a terminal one may be pruned; otherwise it keeps
    its identity, and its state moves along the table of transitions. *)
Definition row_follows (r : Row) (o : option Row) : Prop :=
  match o with
  | None => terminal (r_State r) = true
  | Some r' => r_ID r' = r_ID r ∧ r_Fingerprint r' = r_Fingerprint r ∧ r_CreatedAt r' = r_CreatedAt r
      ∧ (r' = r ∨ (transitions (r_State r) (r_State r') = true ∧ r_Attempts r ≤ r_Attempts r'))
  end.

Lemma row_follows_same r : row_follows r (Some r).
Proof. split_and!; auto. Qed.

Lemma transitions_active from to : transitions from to = true → active from = true ∧ (active to = true ∨ terminal to = true).
Proof. by destruct from, to; cbn; auto. Qed.

Lemma terminal_not_active s : terminal s = true → active s = false.
Proof. by destruct s. Qed.

Lemma elem_of_all_rows db r : r ∈ all_rows db ↔ ∃ id, db_incidents db !! id = Some r.
Proof.
  unfold all_rows. rewrite list_elem_of_fmap. split.
  - intros ([id x]&->&Hin%elem_of_map_to_list). by exists id.
  - intros (id&Hid). exists (id, r). split; [done|]. by apply elem_of_map_to_list.
Qed.

Lemma active_rows_none db fp : length (active_rows db fp) = 0%nat → ∀ id r, db_incidents db !! id = Some r →
  active (r_State r) = true → r_Fingerprint r ≠ fp.
Proof.
  intros Hl%nil_length_inv id r Hr Ha <-. assert (r ∈ active_rows db (r_Fingerprint r)) as Hin.
  { unfold active_rows. rewrite list_elem_of_In, filter_In, <- list_elem_of_In, elem_of_all_rows. split; [eauto|].
    rewrite Ha. cbn. by apply bool_decide_eq_true. }
  rewrite Hl in Hin. by apply elem_of_nil in Hin.
Qed.

(** Replacing a row by one with the same identity that is active only if the
    old one was. *)
Lemma set_row_ok db r r' : db_ok db → db_incidents db !! r_ID r' = Some r → row_ok r' →
  r_Fingerprint r' = r_Fingerprint r → (active (r_State r') = true → active (r_State r) = true) → db_ok (set_row db r').
Proof.
  intros [Hk Hr Hu Hb] Hid Hok Hfp Hact. constructor; cbn; [..|done].
  - intros id x. destruct (decide (id = r_ID r')) as [->|]; [rewrite lookup_insert_eq; congruence|].
    rewrite lookup_insert_ne by done. apply Hk.
  - intros id x. destruct (decide (id = r_ID r')) as [->|]; [rewrite lookup_insert_eq; congruence|].
    rewrite lookup_insert_ne by done. apply Hr.
  - intros id1 id2 r1 r2.
    destruct (decide (id1 = r_ID r')) as [->|], (decide (id2 = r_ID r')) as [->|]; try done;
      rewrite ?lookup_insert_eq, ?lookup_insert_ne by done; try apply Hu.
    + intros [= <-] H2 Ha1 Ha2 E. eapply Hu; eauto; congruence.
    + intros H1 [= <-] Ha1 Ha2 E. eapply Hu; eauto; congruence.
Qed.

Lemma set_row_follows db r r' : db_incidents db !! r_ID r' = Some r → row_follows r (Some r') →
  ∀ id x, db_incidents db !! id = Some x → row_follows x (db_incidents (set_row db r') !! id).
Proof.
  intros Hid Hf id x Hx. cbn. destruct (decide (id = r_ID r')) as [->|].
  - rewrite lookup_insert_eq. by simplify_eq.
  - rewrite lookup_insert_ne, Hx by done. apply row_follows_same.
Qed.

Lemma insert_row_ok db r : db_ok db → row_ok r → db_incidents db !! r_ID r = None →
  (∀ id x, db_incidents db !! id = Some x → active (r_State x) = true → r_Fingerprint x ≠ r_Fingerprint r) →
  db_ok (set_row db r).
Proof.
  intros [Hk Hr Hu Hb] Hok Hid Hfp. constructor; cbn; [..|done].
  - intros id x. destruct (decide (id = r_ID r)) as [->|]; [rewrite lookup_insert_eq; congruence|].
    rewrite lookup_insert_ne by done. apply Hk.
  - intros id x. destruct (decide (id = r_ID r)) as [->|]; [rewrite lookup_insert_eq; congruence|].
    rewrite lookup_insert_ne by done. apply Hr.
  - intros id1 id2 r1 r2.
    destruct (decide (id1 = r_ID r)) as [->|], (decide (id2 = r_ID r)) as [->|]; try done;
      rewrite ?lookup_insert_eq, ?lookup_insert_ne by done; try apply Hu.
    + intros [= <-] H2 Ha1 Ha2 E. by destruct (Hfp _ _ H2 Ha2).
    + intros H1 [= <-] Ha1 Ha2 E. by destruct (Hfp _ _ H1 Ha1).
Qed.

(** Fewer rows, and the ones that are left unchanged. *)
Lemma fewer_rows_ok db m n : db_ok db → m ⊆ db_incidents db → db_ok (with_incidents db m n).
Proof.
  intros [Hk Hr Hu Hb] Hm. constructor; cbn; [..|done].
  - intros id r Hid. apply Hk. by eapply lookup_weaken.
  - intros id r Hid. eapply Hr. by eapply lookup_weaken.
  - intros id1 id2 r1 r2 H1 H2. eapply Hu; by eapply lookup_weaken.
Qed.

Lemma with_changes_ok db n : db_ok db → db_ok (with_incidents db (db_incidents db) n).
Proof. intros Hdb. by apply fewer_rows_ok. Qed.

Lemma with_budget_ok db day c n : db_ok db → c ≤ Z.max maxCents reserveCents → db_ok (with_budget db (<[day := c]> (db_budget db)) n).
Proof.
  intros [Hk Hr Hu Hb] Hc. constructor; cbn; try done. intros d x.
  destruct (decide (d = day)) as [->|]; [rewrite lookup_insert_eq; congruence|rewrite lookup_insert_ne by done; apply Hb].
Qed.

Lemma filter_follows db (P : string * Row → Prop) `{∀ x, Decision (P x)} :
  (∀ id r, db_incidents db !! id = Some r → ¬ P (id, r) → terminal (r_State r) = true) →
  ∀ id r, db_incidents db !! id = Some r → row_follows r (filter P (db_incidents db) !! id).
Proof.
  intros HP id r Hr. destruct (decide (P (id, r))) as [Hp|Hp].
  - assert (filter P (db_incidents db) !! id = Some r) as -> by by apply map_lookup_filter_Some. apply row_follows_same.
  - assert (filter P (db_incidents db) !! id = None) as ->.
    { apply map_lookup_filter_None. right. intros x Hx. by simplify_eq. }
    by eapply HP.
Qed.

Lemma beyond_terminal db keep id r : db_ok db → id ∈ beyond db keep → db_incidents db !! id = Some r → terminal (r_State r) = true.
Proof.
  intros Hdb Hin Hr. unfold beyond in Hin. rewrite elem_of_list_to_set in Hin. apply list_elem_of_fmap in Hin as (x&->&Hx).
  assert (x ∈ List.filter (fun r => terminal (r_State r)) (all_rows db)) as Hx'.
  { rewrite <- (merge_sort_Permutation updated_le). apply elem_of_reverse. eapply (subseteq_drop _ _ _ Hx). }
  rewrite list_elem_of_In, filter_In, <- list_elem_of_In, elem_of_all_rows in Hx'. destruct Hx' as [(id&Hid) Ht].
  pose proof (do_keys db Hdb _ _ Hid) as E. subst id. by simplify_eq.
Qed.

(** *** Statements *)

Definition keeps (db db' : DB) : Prop :=
  db_ok db' ∧ ∀ id r, db_incidents db !! id = Some r → row_follows r (db_incidents db' !! id).

Lemma keeps_rows db db' : db_ok db' → db_incidents db' = db_incidents db → keeps db db'.
Proof. intros Hdb E. split; [done|]. intros id r Hr. rewrite E, Hr. apply row_follows_same. Qed.
Lemma keeps_refl db : db_ok db → keeps db db.
Proof. intros. by apply keeps_rows. Qed.
Lemma keeps_changes db n : db_ok db → keeps db (with_incidents db (db_incidents db) n).
Proof. intros. by apply keeps_rows; [apply with_changes_ok|]. Qed.

Hypothesis bounds_nonneg : 0 ≤ lm_MaxInvestigations limits ∧ 0 ≤ lm_MaxRounds limits.

(** An update that moves a row along the table of transitions. *)
Lemma keeps_update db id r to attempts rounds err now : db_ok db → db_incidents db !! id = Some r →
  transitions (r_State r) to = true → r_Attempts r ≤ attempts → row_ok (update_row r to attempts rounds err now) →
  keeps db (set_row db (update_row r to attempts rounds err now)).
Proof.
  intros Hdb Hr Ht Ha Hok. pose proof (do_keys db Hdb _ _ Hr) as E. subst id.
  destruct (transitions_active _ _ Ht) as [Hact _]. split.
  - eapply set_row_ok; [done|exact Hr|done|done|done].
  - eapply set_row_follows; [exact Hr|]. split_and!; try done. right. by split.
Qed.

Lemma recover_ok db now n : db_ok db → keeps db (with_incidents db
  ((fun r => if r_State r == Investigating then update_row r Recovery (r_Attempts r) (r_Rounds r) (r_LastError r) now else r)
     <$> db_incidents db) n).
Proof.
  intros [Hk Hr Hu Hb]. set (f := fun r => if r_State r == Investigating then _ else r).
  assert (∀ r, r_ID (f r) = r_ID r ∧ r_Fingerprint (f r) = r_Fingerprint r ∧ r_CreatedAt (f r) = r_CreatedAt r
    ∧ active (r_State (f r)) = active (r_State r) ∧ (row_ok r → row_ok (f r))
    ∧ (f r = r ∨ (transitions (r_State r) (r_State (f r)) = true ∧ r_Attempts r ≤ r_Attempts (f r)))) as Hf.
  { intros r. unfold f. destruct (r_State r == Investigating) eqn:E; bools; [|by split_and!; auto].
    split_and!; try done; [by rewrite E|..].
    - intros [Hc Hbd Hs]. constructor; cbn; try done. by left.
    - right. rewrite E. split; [done|]. cbn. lia. }
  split.
  - constructor; cbn; [..|done]; setoid_rewrite lookup_fmap_Some.
    + intros id r (x&<-&Hx). rewrite (proj1 (Hf x)). by apply Hk.
    + intros id r (x&<-&Hx). apply Hf. by eapply Hr.
    + intros id1 id2 r1 r2 (x1&<-&Hx1) (x2&<-&Hx2).
      destruct (Hf x1) as (_&->&_&->&_), (Hf x2) as (_&->&_&->&_). by apply Hu.
  - intros id r Hid. cbn. rewrite lookup_fmap, Hid. cbn. by destruct (Hf r) as (?&?&?&_&_&?).
Qed.

Lemma exec_ok {R : Type} (st : Stmt R) db : stmt_ok st → db_ok db → keeps db (exec st db).2.
Proof.
  intros Hst Hdb. destruct st; cbn [exec]; cbn in Hst; try (by apply keeps_refl).
  - destruct (bool_decide _ || _) eqn:E; [by apply keeps_changes|]. bools. destruct Hst as (Hs&Ha&Hrd). rewrite Hs in *. cbn in *. bools.
    assert (db_incidents db !! r_ID row = None) as Hnone by by apply eq_None_not_Some.
    change (active Queued) with true in *. cbn [andb] in *. bools. rewrite Nat.eqb_eq in *. split.
    + apply insert_row_ok; try done; [|by apply active_rows_none].
      constructor; rewrite ?Ha, ?Hrd, ?Hs; [lia|lia|by left].
    + intros id r Hr. cbn. destruct (decide (id = r_ID row)) as [->|]; [congruence|].
      rewrite lookup_insert_ne, Hr by done. apply row_follows_same.
  - destruct (db_incidents db !! id) as [r|] eqn:Er; [|by apply keeps_changes].
    destruct (_ && _) eqn:E; cbn [snd]; [|by apply keeps_changes]. bools. destruct Hst as (Ht&->&->).
    destruct (do_rows db Hdb _ _ Er) as [[Hc1 Hc2] Hbd Hs]. eapply keeps_update; [done|exact Er|by subst|cbn; lia|].
    constructor; cbn; [lia|lia|by left].
  - destruct (db_incidents db !! id) as [r|] eqn:Er; [|by apply keeps_changes].
    destruct (_ == _) eqn:E; cbn [snd]; [|by apply keeps_changes]. bools. destruct Hst as [Ht Hto].
    destruct (do_rows db Hdb _ _ Er) as [Hc Hbd Hs]. eapply keeps_update; [done|exact Er|by subst|cbn; lia|].
    constructor; cbn; [done|done|]. by destruct (transitions_active _ _ Ht).
  - destruct (bool_decide _); cbn [snd]; (apply keeps_rows; [by destruct Hdb|done]).
  - by apply recover_ok.
  - cbn [snd]. split.
    + apply fewer_rows_ok; [done|]. apply map_filter_subseteq.
    + cbn. apply filter_follows. intros id r Hr Hn. cbn in Hn. apply not_false_is_true in Hn. bools. done.
  - cbn [snd]. split.
    + apply fewer_rows_ok; [done|]. apply map_filter_subseteq.
    + cbn. apply filter_follows. intros id r Hr Hn. cbn in Hn. eapply beyond_terminal; [done| |done].
      destruct (decide (id ∈ beyond db keep)); [done|]. by destruct Hn.
  - destruct (bool_decide _); cbn [snd]; (apply keeps_rows; [|done]); [by destruct Hdb|]. apply with_budget_ok; [done|]. lia.
  - destruct (_ == _); cbn [snd]; apply keeps_rows; try done; [|by destruct Hdb]. apply with_budget_ok; [done|]. lia.
Qed.

(** *** Every interleaving *)

Record config_ok (c : Config) : Prop := { co_db : db_ok (c_db c); co_good : Forall good (c_pool c) }.

Lemma good_middle {A : Type} (l1 l2 : list (Prog A)) p : Forall good (l1 ++ p :: l2) →
  good p ∧ ∀ p', good p' → Forall good (l1 ++ p' :: l2).
Proof. intros [H1 H2]%Forall_app. apply Forall_cons in H2 as [? ?]. split; [done|]. intros. apply Forall_app. auto. Qed.

Lemma step_ok c c' : config_ok c → step c c' → config_ok c' ∧ keeps (c_db c) (c_db c').
Proof.
  intros [Hdb Hg] Hs. destruct Hs as [q db pool n|R st k l1 l2 db n|R st k l1 l2 db n|R st k l1 l2 db n|k t l1 l2 db n|req k r l1 l2 db n|db pool n]; cbn in *.
  1:{ split; [|by apply keeps_refl]. constructor; [done|]. apply Forall_app. split; [done|]. constructor; [apply good_program|done]. }
  1:{ destruct (good_middle _ _ _ Hg) as [[Hst Hk] Hgood]. pose proof (exec_ok st db Hst Hdb) as Hkeep.
      split; [|done]. constructor; [apply Hkeep|]. apply Hgood, Hk. }
  2:{ destruct (good_middle _ _ _ Hg) as [[Hst Hk] Hgood]. pose proof (exec_ok st db Hst Hdb) as Hkeep.
      split; [|done]. constructor; [apply Hkeep|]. apply Hgood, Hk. }
  4:{ split; [|by apply keeps_refl]. by constructor. }
  all: destruct (good_middle _ _ _ Hg) as [Hp Hgood]; split; [|by apply keeps_refl]; constructor; [done|]; apply Hgood, Hp.
Qed.

Lemma empty_ok : db_ok empty_db.
Proof. constructor; cbn; intros *; by rewrite lookup_empty. Qed.

Lemma reachable_ok c : reachable c → config_ok c.
Proof.
  intros Hr. assert (config_ok (mkConfig empty_db [] 0)) as Hinit by (constructor; [apply empty_ok|constructor]).
  revert Hinit. unfold reachable in Hr. induction Hr as [|c1 c2 c3 Hs _ IH]; [done|]. intros Hc. apply IH. by apply (step_ok _ _ Hc).
Qed.

(** *** The budget *)

(** What an answer of the database is worth: one paid investigator call. *)
Definition earns {R : Type} (st : Stmt R) : result DBError R → nat :=
  match st in Stmt R return result DBError R → nat with
  | InsertBudget _ _ => fun r => match r with Ok _ => 1%nat | Err _ => 0%nat end
  | UpdateBudget _ _ _ => fun r => match r with Ok n => if n =? 1 then 1%nat else 0%nat | Err _ => 0%nat end
  | _ => fun _ => 0%nat
  end.

(** With [n] calls paid for, [p] makes no call that is not paid for, and ends
    with what [Q] says. *)
Fixpoint pays {A : Type} (n : nat) (p : Prog A) (Q : nat → A → Prop) : Prop :=
  match p with
  | Ret a => Q n a
  | Exec st k => ∀ r, pays (n + earns st r) (k r) Q
  | Now k => ∀ t, pays n (k t) Q
  | Call _ k => (0 < n)%nat ∧ ∀ r, pays (n - 1) (k r) Q
  end.

Lemma pays_bind {A B : Type} (f : A → Prog B) p n (Q : nat → A → Prop) Q' :
  pays n p Q → (∀ m a, Q m a → pays m (f a) Q') → pays n (pbind f p) Q'.
Proof.
  intros Hp Hf. revert n Hp. induction p as [a|R st k IH|k IH|req k IH]; cbn; intros n Hp; [by apply Hf|auto..].
  destruct Hp. split; auto.
Qed.

Definition free {A : Type} (n : nat) (p : Prog A) : Prop := pays n p (fun m _ => m = n).

Lemma free_bind {A B : Type} (f : A → Prog B) p n Q : free n p → (∀ a, pays n (f a) Q) → pays n (pbind f p) Q.
Proof. intros Hp Hf. eapply pays_bind; [exact Hp|]. by intros m a ->. Qed.

Lemma free_try {R B : Type} (st : Stmt R) (k : R → Prog (result StoreError B)) n :
  (∀ r, earns st r = 0%nat) → (∀ r, free n (k r)) → free n (try st k).
Proof. intros Hst Hk r. rewrite Hst, Nat.add_0_r. destruct r; [apply Hk|done]. Qed.

Lemma free_Get n id b : free n (Get id b).
Proof. by apply free_try. Qed.

Lemma free_Intake n a : free n (Intake a).
Proof.
  assert (∀ observed, free n (intake_checked a observed)) as Hc.
  { intros observed. apply free_try; [done|]. intros [r|]; [done|]. apply free_try; [done|]. intros m.
    destruct (_ >=? _); [done|]. intros t r. cbn [earns]. rewrite Nat.add_0_r. destruct r as [[]|e].
    - apply free_bind; [|intros _; apply free_bind; [apply free_Get|done]].
      intros t'. apply free_try; [done|]. intros _. by apply free_try.
    - unfold intake_refused. destruct (_ != ""); [|done]. apply free_bind; [apply free_Get|]. by intros [[i []]|]. }
  unfold Intake. destruct (alert_check a); [|done]. destruct (al_ObservedAt a); [apply Hc|]. intros t. apply Hc.
Qed.

Lemma free_Transition n id from to detail : free n (Transition id from to detail).
Proof.
  unfold Transition. destruct (negb _); [done|]. intros t. apply free_try; [by destruct (_ == _)|].
  intros _. apply free_try; [done|]. intros m. destruct (m != 1); [done|]. intros t1 t2. by apply free_try.
Qed.

Lemma reserve_pays retries day n :
  pays n (reserve_loop retries day) (fun m r => (m = n + match r with Ok _ => 1 | Err _ => 0 end)%nat).
Proof.
  induction retries as [|retries IH]; [cbn; lia|]. intros [[reserved|]|e]; cbn [earns]; rewrite Nat.add_0_r; [..|cbn; lia].
  - destruct (_ >? _); [cbn; lia|]. intros [changed|e]; cbn [earns]; [destruct (changed =? 1)|]; cbn [pays]; rewrite ?Nat.add_0_r; [done|exact IH|lia].
  - intros [[]|e]; cbn [earns pbind]; [done|]. rewrite Nat.add_0_r. exact IH.
Qed.

Hypothesis has_budget : no_budget = false.

Lemma Investigate_pays retries id inv : pays 0 (Investigate retries id inv) (fun _ _ => True).
Proof.
  unfold Investigate. destruct inv; [|done]. cbn [negb]. apply free_bind; [apply free_Get|]. intros [[i []]|e]; try done.
  destruct (bool_decide _); [done|].
  eapply pays_bind. { unfold reserveBudget. rewrite has_budget. intros t. apply reserve_pays. }
  cbn beta. intros m [[]|e] ->; [|done]. unfold investigate_reserved. apply free_bind; [apply free_Transition|]. intros [[]|e]; [|done].
  apply free_bind; [apply free_Get|]. intros again. split; [lia|]. intros answer.
  apply free_bind; [destruct answer; apply free_Transition|]. intros _. by apply free_bind; [apply free_Get|].
Qed.

Lemma program_pays q : pays 0 (program q) (fun _ _ => True).
Proof.
  destruct q; cbn [program]; [apply free_bind; [|done]..|].
  - apply free_Intake.
  - apply free_Get.
  - apply free_Transition.
  - intros t. by apply free_try.
  - by apply free_try.
  - eapply pays_bind; [apply Investigate_pays|done].
Qed.

Definition total (m : gmap string Z) : Z := map_fold (fun _ c acc => c + acc) 0 m.

Lemma total_insert m day c : m !! day = None → total (<[day := c]> m) = c + total m.
Proof. intros Hd. unfold total. rewrite map_fold_insert_L; [done|lia|done]. Qed.

Lemma total_update m day c old : m !! day = Some old → total (<[day := c]> m) = c - old + total m.
Proof.
  intros Hd. rewrite <- (insert_delete_id m day old Hd) at 2. rewrite <- insert_delete_eq.
  rewrite !total_insert by apply lookup_delete_eq. lia.
Qed.

(** Sums within the range of an int64. *)
Hypothesis cents_small : maxCents < 2 ^ 62 ∧ reserveCents < 2 ^ 62.

Lemma reserveCents_pos : 1 ≤ reserveCents.
Proof. unfold reserveCents. destruct (_ <? 1) eqn:E; bools; lia. Qed.

Definition budget_ok (db : DB) : Prop := ∀ day c, db_budget db !! day = Some c → 0 ≤ c ≤ Z.max maxCents reserveCents.

Lemma set_budget_ok db day c n : budget_ok db → 0 ≤ c ≤ Z.max maxCents reserveCents →
  budget_ok (with_budget db (<[day := c]> (db_budget db)) n).
Proof.
  intros Hb Hc d x. cbn. destruct (decide (d = day)) as [->|]; [rewrite lookup_insert_eq; congruence|].
  rewrite lookup_insert_ne by done. apply Hb.
Qed.

Lemma reservation_exact c : 0 ≤ c ≤ Z.max maxCents reserveCents → wrap64 (c + reserveCents) = c + reserveCents.
Proof. intros Hc. apply wrap64_id. pose proof reserveCents_pos. unfold in_int64, int64_min, int64_max. lia. Qed.

Definition charges {R : Type} (st : Stmt R) : bool := match st with InsertBudget _ _ | UpdateBudget _ _ _ => true | _ => false end.
Lemma exec_no_charge {R : Type} (st : Stmt R) db : charges st = false →
  db_budget (exec st db).2 = db_budget db ∧ ∀ r, earns st r = 0%nat.
Proof.
  intros Hc. destruct st; try done; (split; [cbn [exec]|done]); try done; try by destruct (db_incidents db !! id); [case_match|].
  all: by case_match.
Qed.

(** Every statement pays for the calls that its answer allows. *)
Lemma exec_pays {R : Type} (st : Stmt R) db : stmt_ok st → budget_ok db →
  budget_ok (exec st db).2 ∧ total (db_budget (exec st db).2) = total (db_budget db) + Z.of_nat (earns st (exec st db).1) * reserveCents.
Proof.
  intros Hst Hb. pose proof reserveCents_pos as Hpos. destruct (charges st) eqn:Ec.
  2:{ destruct (exec_no_charge st db Ec) as [E ->]. unfold budget_ok. rewrite E. split; [done|lia]. }
  destruct st; try done; cbn [exec earns]; cbn in Hst.
  - case_bool_decide as E; [cbn; split; [exact Hb|lia]|]. cbn [fst snd]. subst. split; [apply set_budget_ok; [done|lia]|].
    cbn. rewrite total_insert by by apply eq_None_not_Some. lia.
  - destruct (_ == _) eqn:E; [|cbn; split; [exact Hb|lia]]. bools. destruct Hst as [-> Hm].
    pose proof (Hb _ _ E) as Hold. rewrite (reservation_exact _ Hold) in *. cbn [fst snd]. split; [apply set_budget_ok; [done|lia]|].
    cbn. rewrite (total_update _ _ _ _ E). lia.
Qed.

Record budget_inv (c : Config) : Prop := {
  bi_budget : budget_ok (c_db c);
  bi_good : Forall good (c_pool c);
  bi_paid : ∃ ns, Forall2 (fun n p => pays n p (fun _ _ => True)) ns (c_pool c)
    ∧ (Z.of_nat (c_calls c) + Z.of_nat (sum_list ns)) * reserveCents ≤ total (db_budget (c_db c));
}.

Lemma sum_list_app_cons ns1 n ns2 : sum_list (ns1 ++ n :: ns2) = (sum_list ns1 + n + sum_list ns2)%nat.
Proof. rewrite sum_list_with_app. cbn. unfold sum_list. lia. Qed.

(** One running operation goes on, and pays for what it does. *)
Lemma budget_step db db' calls calls' l1 l2 p p' :
  budget_inv (mkConfig db (l1 ++ p :: l2) calls) → budget_ok db' → good p' →
  (∀ n, pays n p (fun _ _ => True) → ∃ n', pays n' p' (fun _ _ => True)
     ∧ (Z.of_nat (calls' + n') - Z.of_nat (calls + n)) * reserveCents ≤ total (db_budget db') - total (db_budget db)) →
  budget_inv (mkConfig db' (l1 ++ p' :: l2) calls').
Proof.
  intros [Hb Hg (ns&Hns&Hsum)] Hb' Hgood Hstep. cbn in *.
  apply Forall2_app_inv_r in Hns as (ns1&ns2'&H1&H2&->). apply Forall2_cons_inv_r in H2 as (n&ns2&Hn&H2&->).
  destruct (Hstep n Hn) as (n'&Hn'&Hle). rewrite sum_list_app_cons in Hsum. constructor; cbn; [done|by eapply good_middle|].
  exists (ns1 ++ n' :: ns2). split; [by apply Forall2_app; [|constructor]|]. rewrite sum_list_app_cons. lia.
Qed.

Lemma budget_step_inv c c' : budget_inv c → step c c' → budget_inv c'.
Proof.
  intros Hi Hs. pose proof (bi_budget c Hi) as Hb. pose proof (bi_good c Hi) as Hg. pose proof reserveCents_pos as Hpos.
  destruct Hs as [q db pool n|R st k l1 l2 db n|R st k l1 l2 db n|R st k l1 l2 db n|k t l1 l2 db n|req k r l1 l2 db n|db pool n]; cbn in *.
  - destruct Hi as [_ _ (ns&Hns&Hsum)]. constructor; cbn; [done|apply Forall_app; by split; [|constructor; [apply good_program|]]|].
    exists (ns ++ [0%nat]). cbn in *. rewrite sum_list_app_cons. cbn. split; [|lia].
    apply Forall2_app; [done|]. by constructor; [apply program_pays|].
  - destruct (good_middle _ _ _ Hg) as [[Hst Hk] _]. destruct (exec_pays st db Hst Hb) as [Hb' Ht].
    eapply budget_step; [exact Hi|done|apply Hk|]. intros m Hm. eexists. split; [apply Hm|]. lia.
  - destruct (good_middle _ _ _ Hg) as [[Hst Hk] _]. eapply budget_step; [exact Hi|done|apply Hk|].
    intros m Hm. eexists. split; [apply Hm|]. destruct st; cbn [earns]; lia.
  - destruct (good_middle _ _ _ Hg) as [[Hst Hk] _]. destruct (exec_pays st db Hst Hb) as [Hb' Ht].
    eapply budget_step; [exact Hi|done|apply Hk|]. intros m Hm. eexists. split; [apply Hm|].
    enough (earns st (Err Broken) = 0%nat) as -> by nia. by destruct st.
  - destruct (good_middle _ _ _ Hg) as [Hk _]. eapply budget_step; [exact Hi|done|apply Hk|]. intros m Hm. exists m. split; [apply Hm|lia].
  - destruct (good_middle _ _ _ Hg) as [Hk _]. eapply budget_step; [exact Hi|done|apply Hk|]. intros m [Hm Hr].
    exists (m - 1)%nat. split; [apply Hr|]. replace (S n + (m - 1))%nat with (n + m)%nat by lia. lia.
  - destruct Hi as [_ _ (ns&_&Hsum)]. constructor; cbn; [done|constructor|]. exists []. split; [constructor|]. cbn in *. nia.
Qed.

Lemma reachable_budget c : reachable c → budget_inv c.
Proof.
  intros Hr. assert (budget_inv (mkConfig empty_db [] 0)) as Hinit.
  { constructor; cbn; [intros ? ?; cbn; by rewrite lookup_empty|constructor|]. exists []. split; [constructor|done]. }
  revert Hinit. unfold reachable in Hr. induction Hr as [|c1 c2 c3 Hs _ IH]; [done|]. intros Hc. apply IH. by apply (budget_step_inv _ _ Hc).
Qed.
End store.

Lemma normalized_nonneg l : 0 ≤ lm_MaxInvestigations (normalized l) ∧ 0 ≤ lm_MaxRounds (normalized l).
Proof. cbn. unfold positive_or. split; case_match; bools; lia. Qed.

(** C33. The life of an incident, with any number of requests interleaved
    statement by statement, statements that fail or whose answer is lost, and
    crashes: in every reachable state the rows are stored under their own ids,
    have been investigated as often as they had rounds and never more often
    than the limits allow, and no two active rows share a fingerprint; and every
    step moves every row along the table of transitions, keeping its identity
    and losing no attempt, or prunes it once it is terminal. *)
Theorem Store_lifecycle `{GoUnicode, IncidentLib} l c c' : reachable (normalized l) c → step (normalized l) c c' →
  db_ok (normalized l) (c_db c')
  ∧ ∀ id r, db_incidents (c_db c) !! id = Some r → row_follows r (db_incidents (c_db c') !! id).
Proof.
  intros Hr Hs. pose proof (normalized_nonneg l) as Hn.
  destruct (step_ok _ Hn _ _ (reachable_ok _ Hn _ Hr) Hs) as [_ [Hdb Hf]]. by split.
Qed.

(** C34. The daily budget, under the same interleavings, faults and crashes: when
    a budget is set and its two amounts are below 2^62 cents, the reservations
    of a day never exceed the daily budget or a single reservation, whichever is
    larger, and every call of the investigator is covered by a reservation of
    its own. *)
Theorem Store_budget `{GoUnicode, IncidentLib} l c : reachable (normalized l) c → no_budget (normalized l) = false →
  maxCents (normalized l) < 2 ^ 62 → reserveCents (normalized l) < 2 ^ 62 →
  (∀ day cents, db_budget (c_db c) !! day = Some cents →
     0 ≤ cents ≤ Z.max (maxCents (normalized l)) (reserveCents (normalized l)))
  ∧ Z.of_nat (c_calls c) * reserveCents (normalized l) ≤ total (db_budget (c_db c)).
Proof.
  intros Hr Hb Hm Hc. destruct (reachable_budget _ Hb (conj Hm Hc) _ Hr) as [Hok _ (ns&_&Hsum)].
  split; [exact Hok|]. pose proof (reserveCents_pos (normalized l)). nia.
Qed.

(** *** One investigation *)

Section alone.
Context `{GoUnicode, IncidentLib} (limits : Limits).
Context (clock : nat → Z) (investigator : InvestigationRequest → result string InvestigationResult).

Lemma run_bind {A B : Type} (f : A → Prog B) p w :
  run clock investigator (pbind f p) w = let '(a, w') := run clock investigator p w in run clock investigator (f a) w'.
Proof. revert w. induction p as [a|R st k IH|k IH|req k IH]; intros w; cbn; auto. destruct (exec st (w_db w)). apply IH. Qed.

Lemma run_Get id b w : run clock investigator (Get id b) w =
  (Ok match db_incidents (w_db w) !! id with None => (zero_incident, false) | Some r => (scan r, b || negb (terminal (r_State r))) end, w).
Proof. by destruct w. Qed.

(** What a successful move makes of a row. *)
Definition moved_row (r : Row) (to : State) (detail : string) (t : Z) : Row :=
  if to == Investigating then update_row r to (r_Attempts r + 1) (r_Rounds r + 1) (r_LastError r) t
  else update_row r to (r_Attempts r) (r_Rounds r) detail t.

Definition attempts_left (r : Row) : bool := (r_Attempts r <? lm_MaxInvestigations limits) && (r_Rounds r <? lm_MaxRounds limits).

Lemma run_Transition id to detail w r :
  db_incidents (w_db w) !! id = Some r → r_ID r = id → transitions (r_State r) to = true →
  (to = Investigating → attempts_left r = true) →
  let t := w_reads w in
  let db := set_row (w_db w) (moved_row r to detail (clock t)) in
  let event := id +:+ "-" +:+ itoa (clock (1 + t)%nat) in
  run clock investigator (Transition limits id (r_State r) to detail) w =
  if bool_decide (is_Some (db_events (w_db w) !! event)) then
    (Err (DBFailed Constraint), mkWorld (with_events db (db_events db) 0) (3 + t) (w_calls w))
  else (Ok tt, mkWorld (with_events db (<[event := mkEvent id to (clock (2 + t)%nat) detail]> (db_events db)) 1) (3 + t) (w_calls w)).
Proof.
  intros Hr Hid Ht Ha t db event. unfold Transition. rewrite Ht. cbn [negb].
  assert (∀ st : Stmt unit, exec st (w_db w) = (Ok tt, db) →
    run clock investigator (try st (fun _ => try SelectChanges (fun n => if n != 1 then Ret (Err StaleTransition)
      else t1 ← now; t2 ← now; try (InsertEvent (id +:+ "-" +:+ itoa t1) (mkEvent id to t2 detail)) (fun _ => Ret (Ok tt)))))
      (mkWorld (w_db w) (S t) (w_calls w)) = if bool_decide (is_Some (db_events (w_db w) !! event)) then
      (Err (DBFailed Constraint), mkWorld (with_events db (db_events db) 0) (3 + t) (w_calls w))
      else (Ok tt, mkWorld (with_events db (<[event := mkEvent id to (clock (2 + t)%nat) detail]> (db_events db)) 1) (3 + t) (w_calls w))) as Hrest.
  { intros st Hst. cbn [try run w_db]. rewrite Hst. cbn. change (1 != 1) with false. cbn. change (id +:+ "-" +:+ itoa (clock (S t))) with event. by case_bool_decide. }
  apply (Hrest (if to == Investigating
    then UpdateInvestigating id (r_State r) (lm_MaxInvestigations limits) (lm_MaxRounds limits) (clock t)
    else UpdateState id (r_State r) to detail (clock t))). unfold db, moved_row. destruct (to == Investigating) eqn:Et; cbn [exec]; rewrite Hr.
  - bools. specialize (Ha Et). unfold attempts_left in Ha. bools. rewrite (bool_decide_eq_true_2 (r_State r = r_State r)) by done.
    rewrite !(proj2 (Z.ltb_lt _ _)) by done. by subst.
  - by rewrite (bool_decide_eq_true_2 (r_State r = r_State r)) by done.
Qed.

(** Whether or not the event could be recorded. *)
Lemma run_Transition_moves id to detail w r :
  db_incidents (w_db w) !! id = Some r → r_ID r = id → transitions (r_State r) to = true → to ≠ Investigating →
  ∃ a w', run clock investigator (Transition limits id (r_State r) to detail) w = (a, w')
    ∧ db_incidents (w_db w') = <[id := update_row r to (r_Attempts r) (r_Rounds r) detail (clock (w_reads w))]> (db_incidents (w_db w))
    ∧ db_budget (w_db w') = db_budget (w_db w) ∧ w_calls w' = w_calls w.
Proof.
  intros Hr Hid Ht Hto. rewrite (run_Transition id to detail w r) by done. unfold moved_row.
  assert ((to == Investigating) = false) as -> by by apply bool_decide_eq_false.
  rewrite <- Hid. case_bool_decide; by do 2 eexists.
Qed.

Lemma run_Transition_stale id detail w r :
  db_incidents (w_db w) !! id = Some r → transitions (r_State r) Investigating = true → attempts_left r = false →
  run clock investigator (Transition limits id (r_State r) Investigating detail) w =
  (Err StaleTransition, mkWorld (with_incidents (w_db w) (db_incidents (w_db w)) 0) (S (w_reads w)) (w_calls w)).
Proof.
  intros Hr Ht Ha. unfold Transition. rewrite Ht. change (Investigating == Investigating) with true. cbn.
  rewrite Hr, <- andb_assoc. unfold attempts_left in Ha. by rewrite Ha, andb_false_r.
Qed.

(** What one reservation makes of the budget table. *)
Definition charge (m : gmap string Z) (day : string) : option (gmap string Z) :=
  if no_budget limits then Some m
  else match m !! day with
  | None => Some (<[day := reserveCents limits]> m)
  | Some c =>
      if wrap64 (c + reserveCents limits) >? maxCents limits then None
      else Some (<[day := wrap64 (c + reserveCents limits)]> m)
  end.

(** Undisturbed, one round of the loop is enough. *)
Lemma run_reserveBudget retries w : ∃ n,
  run clock investigator (reserveBudget limits (S retries)) w =
  let reads := if no_budget limits then w_reads w else S (w_reads w) in
  match charge (db_budget (w_db w)) (utc_day (clock (w_reads w))) with
  | None => (Err BudgetExhausted, mkWorld (w_db w) reads (w_calls w))
  | Some m => (Ok tt, mkWorld (mkDB (db_incidents (w_db w)) (db_events (w_db w)) m n) reads (w_calls w))
  end.
Proof.
  unfold reserveBudget, charge. destruct (no_budget limits). { exists (db_changes (w_db w)). by destruct w as [[] ? ?]. }
  cbn. destruct (db_budget (w_db w) !! _) as [c|] eqn:Ec; cbn.
  - destruct (_ >? _); [by exists 0|]. cbn. rewrite Ec, bool_decide_eq_true_2 by done. by exists 1.
  - rewrite Ec. rewrite bool_decide_eq_false_2 by by intros [? ?]. by exists 1.
Qed.

(** What the investigator is handed, and what becomes of its answer. *)
Definition request_for (r : Row) : InvestigationRequest :=
  let deadline := Z.min (lm_InvestigationDeadline limits) (lm_InvestigationBudget limits) in
  mkRequest (scan r) (r_Rounds r) deadline deadline.
Definition answer_state (a : result string InvestigationResult) : State :=
  match a with Ok r => investigation_target (ir_State r) | Err _ => Failed end.
Definition answer_detail (a : result string InvestigationResult) : string := match a with Ok r => ir_Detail r | Err text => text end.
Definition answer_error (a : result string InvestigationResult) : option StoreError :=
  match a with Ok _ => None | Err text => Some (CallFailed text) end.

Lemma answer_allowed a : transitions Investigating (answer_state a) = true ∧ answer_state a ≠ Investigating.
Proof.
  destruct a as [r|]; [|done]. cbn [answer_state]. unfold investigation_target. destruct (ir_State r == OtherState ""); [done|].
  case_bool_decide as E; [|done]. by destruct (ir_State r); try (repeat apply elem_of_cons in E as [E|E]; by try apply elem_of_nil in E).
Qed.

(** The run after the reservation: [w] is the world it left. *)
Definition investigated (id : string) (r : Row) (w : World) (out : Incident * option StoreError) (w' : World) : Prop :=
  let started := moved_row r Investigating "" (clock (w_reads w)) in
  let event := id +:+ "-" +:+ itoa (clock (1 + w_reads w)%nat) in
  db_budget (w_db w') = db_budget (w_db w)
  ∧ if bool_decide (r_State r = Unavailable) then
      out = (scan r, Some (InvalidTransition Unavailable Investigating)) ∧ w' = w
    else if negb (attempts_left r) then
      out = (scan r, Some StaleTransition) ∧ db_incidents (w_db w') = db_incidents (w_db w) ∧ w_calls w' = w_calls w
    else if bool_decide (is_Some (db_events (w_db w) !! event)) then
      out = (scan r, Some (DBFailed Constraint)) ∧ db_incidents (w_db w') = <[id := started]> (db_incidents (w_db w))
      ∧ w_calls w' = w_calls w
    else
      let answer := investigator (request_for started) in
      let final := update_row started (answer_state answer) (r_Attempts r + 1) (r_Rounds r + 1) (answer_detail answer)
                     (clock (3 + w_reads w)%nat) in
      out = (scan final, answer_error answer) ∧ db_incidents (w_db w') = <[id := final]> (db_incidents (w_db w))
      ∧ w_calls w' = w_calls w ++ [request_for started].

Lemma run_reserved id r w : db_incidents (w_db w) !! id = Some r → r_ID r = id →
  r_State r ∈ [Queued; Recovery; Unavailable] →
  let '(out, w') := run clock investigator (investigate_reserved limits id (scan r)) w in investigated id r w out w'.
Proof.
  intros Hr Hid Hs. subst id. unfold investigate_reserved, investigated. change (i_State (scan r)) with (r_State r).
  cbn [mbind Prog_bind]. rewrite run_bind. case_bool_decide as Eu. { by rewrite Eu; destruct w. }
  assert (transitions (r_State r) Investigating = true) as Ht.
  { rewrite !elem_of_cons, elem_of_nil in Hs. by destruct Hs as [->|[->|[E|[]]]]. }
  destruct (attempts_left r) eqn:Ea; cbn [negb].
  2:{ rewrite (run_Transition_stale (r_ID r) "" w r) by done. by split. }
  rewrite (run_Transition (r_ID r) Investigating "" w r) by done. set (db := set_row _ _). set (t := w_reads w). cbn zeta.
  case_bool_decide as Ev; [done|]. cbn [mbind Prog_bind]. rewrite run_bind, run_Get.
  set (started := moved_row r Investigating "" (clock t)) in *.
  assert (db_incidents db !! r_ID r = Some started) as Hdb by apply (lookup_insert_eq (db_incidents (w_db w)) (r_ID r) started).
  cbn [w_db with_events db_incidents]. change (db_incidents (with_events db _ _)) with (db_incidents db). rewrite Hdb. cbn [run].
  fold (request_for started). set (answer := investigator _).
  match goal with |- context [run _ _ (_ ≫= _) ?w1] => set (w2 := w1) end.
  destruct (answer_allowed answer) as [Hallowed Hni].
  destruct (run_Transition_moves (r_ID r) (answer_state answer) (answer_detail answer) w2 started Hdb) as (a&w'&Hrun&Hrows&Hbudget&Hcalls); try done.
  cbn [mbind Prog_bind]. rewrite run_bind.
  assert (∀ p, p = Transition limits (r_ID r) (r_State started) (answer_state answer) (answer_detail answer) →
    run clock investigator p w2 = (a, w')) as Hmove by by intros p ->.
  rewrite (Hmove _) by by destruct answer. cbn [mbind Prog_bind]. rewrite run_bind, run_Get, Hrows, lookup_insert_eq.
  cbn [run]. rewrite Hbudget, Hcalls, Hrows. split_and!; try done.
  change (db_incidents (w_db w2)) with (<[r_ID r := started]> (db_incidents (w_db w))). by rewrite insert_insert_eq.
Qed.

(** C35. An investigation that nothing else interferes with, on every branch: an
    incident that is not ready, or a day whose budget is used up, leaves the
    store as it was.  Otherwise the budget is charged once, before anything else
    is checked: an unavailable incident, and one without attempts left, is then
    refused all the same, and an event identifier that is taken makes the call
    fail after the incident has moved.  In the remaining case the investigator is
    called exactly once, with the moved incident, and its answer decides the
    final state and the error.  One round of the reservation loop is enough. *)
Theorem Investigate_alone retries id w r : db_incidents (w_db w) !! id = Some r → r_ID r = id →
  let '(out, w') := run clock investigator (Investigate limits (S retries) id true) w in
  if bool_decide (r_State r ∉ [Queued; Recovery; Unavailable]) then out = (scan r, Some (NotReady id (r_State r))) ∧ w' = w
  else
    let reads := if no_budget limits then w_reads w else S (w_reads w) in
    match charge (db_budget (w_db w)) (utc_day (clock (w_reads w))) with
    | None => out = (scan r, Some BudgetExhausted) ∧ w' = mkWorld (w_db w) reads (w_calls w)
    | Some charged => ∃ n,
        investigated id r (mkWorld (mkDB (db_incidents (w_db w)) (db_events (w_db w)) charged n) reads (w_calls w)) out w'
    end.
Proof.
  intros Hr Hid. unfold Investigate. cbn [negb mbind Prog_bind]. rewrite run_bind, run_Get, Hr. cbn [orb].
  change (i_State (scan r)) with (r_State r). case_bool_decide as Hs; [by destruct w|].
  destruct (run_reserveBudget retries w) as [n Hrun]. cbn [mbind Prog_bind]. rewrite run_bind, Hrun. cbn zeta.
  destruct (charge _ _) as [charged|]; [|done].
  set (w1 := mkWorld _ _ _). pose proof (run_reserved id r w1 Hr Hid Hs) as Hres.
  change (let '(out, w') := run clock investigator (investigate_reserved limits id (scan r)) w1 in ∃ n,
    investigated id r (mkWorld (mkDB (db_incidents (w_db w)) (db_events (w_db w)) charged n) (w_reads w1) (w_calls w)) out w').
  destruct (run _ _ _ w1). by exists n.
Qed.
End alone.

(** ** Schedules *)

Section schedule.
Context `{GoUnicode, IncidentLib} (limits : Limits).

(** Who does what next; the answers of the clock and of the investigator come
    with the move. *)
Inductive Move := Spawn (q : Request) | Do (i : nat) | Tick (i : nat) (t : Z) | Answer (i : nat) (r : result string InvestigationResult) | Crash.

Definition resume (c : Config) (i : nat) (db : DB) (p : Prog unit) (calls : nat) : Config :=
  mkConfig db (take i (c_pool c) ++ p :: drop (S i) (c_pool c)) calls.

Definition act (c : Config) (m : Move) : option Config :=
  match m with
  | Spawn q => Some (mkConfig (c_db c) (c_pool c ++ [program limits q]) (c_calls c))
  | Do i => match c_pool c !! i with
            | Some (Exec st k) => Some (resume c i (exec st (c_db c)).2 (k (exec st (c_db c)).1) (c_calls c))
            | _ => None
            end
  | Tick i t => match c_pool c !! i with Some (Now k) => Some (resume c i (c_db c) (k t) (c_calls c)) | _ => None end
  | Answer i r => match c_pool c !! i with Some (Call _ k) => Some (resume c i (c_db c) (k r) (S (c_calls c))) | _ => None end
  | Crash => Some (mkConfig (c_db c) [] (c_calls c))
  end.

Fixpoint play (ms : list Move) (c : Config) : option Config :=
  match ms with [] => Some c | m :: ms => c' ← act c m; play ms c' end.

Lemma act_step c m c' : act c m = Some c' → step limits c c'.
Proof.
  destruct c as [db pool n], m as [q|i|i t|i r|]; cbn [act c_pool c_db c_calls].
  1: intros [= <-]; constructor.
  4: intros [= <-]; constructor.
  all: destruct (pool !! i) as [[a|R st k|k|req k]|] eqn:E; try done; intros [= <-];
    rewrite <- (take_drop_middle pool i _ E) at 1; unfold resume; cbn [c_pool]; constructor.
Qed.

Lemma play_steps ms c c' : play ms c = Some c' → rtc (step limits) c c'.
Proof.
  revert c. induction ms as [|m ms IH]; intros c; cbn; [intros [= <-]; constructor|].
  intros (c1&Ha&Hp)%bind_Some. econstructor; [by eapply act_step|by apply IH].
Qed.

Definition start : Config := mkConfig empty_db [] 0.
End schedule.

(** ** Examples *)

Module Examples.
#[local] Existing Instance ascii_only.
#[local] Instance lib : IncidentLib := {|
  sha256_hex s := s; marshal_labels _ := "{}"; unmarshal_labels _ := ∅; utc_day _ := "2026-01-01"; int64_out_of_range _ := int64_min;
|}.

Definition usd (quarters : positive) : spec_float := SFdiv 53 1024 (S754_finite false quarters 0) (S754_finite false 4 0).
Definition mk_limits (incidents : Z) (daily each : positive) : Limits := normalized (mkLimits 0 incidents 0 0 0 0 (usd daily) (usd each)).
Definition limits : Limits := mk_limits 10 4 1.
Definition alert (id fp : string) : Alert := mkAlert id fp "gatus" "down" "" "" ∅ (Some 5).

Example cents_of_a_dollar : maxCents limits = 100 ∧ reserveCents limits = 25 ∧ no_budget limits = false.
Proof. by vm_compute. Qed.

(** An alert comes in and is investigated; the last move starts the
    investigation. *)
Definition intake (i : nat) : list Move := [Do i; Do i; Tick i 1; Do i; Tick i 2; Do i; Do i; Do i].
Definition investigate (i : nat) (t : Z) : list Move := [Do i; Tick i t; Do i; Do i; Tick i (t + 1)].
Definition opening : list Move := [Spawn (RIntake (alert "a" "f"))] ++ intake 0 ++ [Spawn (RInvestigate 3 "a" true)] ++ investigate 1 10.
Definition before : Config := default start (play limits opening start).
Definition after : Config := default start (play limits [Do 1] before).
Definition going_on : list Move := [Do 1; Do 1; Tick 1 12; Tick 1 13; Do 1; Do 1; Answer 1 (Err "timeout")].
Definition called : Config := default start (play limits going_on before).

Lemma before_reachable : play limits opening start = Some before.
Proof. unfold before. destruct (play limits opening start) eqn:E; [done|]. by vm_compute in E. Qed.

Lemma called_reachable : play limits going_on before = Some called.
Proof. unfold called. destruct (play limits going_on before) eqn:E; [done|]. by vm_compute in E. Qed.
Lemma after_next : act limits before (Do 1) = Some after.
Proof. unfold after. cbn [play]. destruct (act limits before (Do 1)) eqn:E; [done|]. by vm_compute in E. Qed.

Example before_state : (r_State <$> db_incidents (c_db before) !! "a", r_State <$> db_incidents (c_db after) !! "a")
  = (Some Queued, Some Investigating).
Proof. by vm_compute. Qed.

Theorem Store_lifecycle_witness : ∃ r, db_incidents (c_db before) !! "a" = Some r ∧ r_State r = Queued
  ∧ row_follows r (db_incidents (c_db after) !! "a") ∧ (r_State <$> db_incidents (c_db after) !! "a") = Some Investigating.
Proof.
  assert (∃ r, db_incidents (c_db before) !! "a" = Some r ∧ r_State r = Queued) as (r&Hr&Hs) by (eexists; split; by vm_compute).
  exists r. split; [exact Hr|]. split; [exact Hs|]. split; [|by vm_compute].
  eapply (Store_lifecycle (mkLimits 0 10 0 0 0 0 (usd 4) (usd 1)) before after); [..|exact Hr].
  - exact (play_steps limits opening start before before_reachable).
  - exact (act_step limits before (Do 1) after after_next).
Defined.

Theorem Store_budget_witness : c_calls called = 1%nat ∧ (total (db_budget (c_db called)) = 25)
  ∧ Z.of_nat (c_calls called) * reserveCents limits ≤ total (db_budget (c_db called)).
Proof.
  split; [by vm_compute|]. split; [by vm_compute|].
  apply (Store_budget (mkLimits 0 10 0 0 0 0 (usd 4) (usd 1)) called); [|by vm_compute..].
  unfold reachable. transitivity before; [exact (play_steps limits opening start before before_reachable)|].
  exact (play_steps limits going_on before called called_reachable).
Defined.

(** One operation after the other, with a clock that advances by one. *)
Definition clock (n : nat) : Z := Z.of_nat n.
Definition answer (_ : InvestigationRequest) : result string InvestigationResult := Ok (mkInvestigationResult (OtherState "") "disk full").
Definition calm {A : Type} (p : Prog A) (w : World) : A * World := run clock answer p w.
Definition stored (limits : Limits) : World := (calm (Intake limits (alert "a" "f")) (mkWorld empty_db 0 [])).2.

Theorem Investigate_alone_witness : ∃ r, db_incidents (w_db (stored limits)) !! "a" = Some r ∧ r_ID r = "a"
  ∧ let '(out, w') := run clock answer (Investigate limits 1 "a" true) (stored limits) in
    ∃ n, investigated limits clock answer "a" r (mkWorld (mkDB (db_incidents (w_db (stored limits))) ∅ {["2026-01-01" := 25]} n) 3 []) out w'.
Proof.
  assert (∃ r, db_incidents (w_db (stored limits)) !! "a" = Some r ∧ r_ID r = "a" ∧ r_State r = Queued) as (r&Hr&Hid&Hs)
    by (eexists; split_and!; by vm_compute).
  exists r. split; [exact Hr|]. split; [exact Hid|]. pose proof (Investigate_alone limits clock answer 0 "a" (stored limits) r Hr Hid) as Hi.
  rewrite Hs in Hi. exact Hi.
Defined.

(** An unavailable incident can be reached, is taken for ready, and is refused
    after its budget has been spent. *)
Example unavailable_drains_the_budget :
  let w := (calm (Transition limits "a" Queued Unavailable "down") (stored limits)).2 in
  let '((_, error), w') := calm (Investigate limits 1 "a" true) w in
  error = Some (InvalidTransition Unavailable Investigating) ∧ w_calls w' = [] ∧ db_budget (w_db w') !! "2026-01-01" = Some 25.
Proof. by vm_compute. Qed.

(** With the default of a single investigation, an incident whose investigation
    was interrupted is charged for and refused each time. *)
Example recovery_drains_the_budget :
  let w := (calm (Transition limits "a" Queued Investigating "") (stored limits)).2 in
  let w := (calm Recover w).2 in
  let '((_, error), w') := calm (Investigate limits 1 "a" true) w in
  error = Some StaleTransition ∧ w_calls w' = [] ∧ db_budget (w_db w') !! "2026-01-01" = Some 25.
Proof. by vm_compute. Qed.

(** The first reservation of a day is not compared with the daily budget. *)
Example first_reservation_unchecked :
  let l := mk_limits 10 1 4 in
  let '(_, w') := calm (Investigate l 1 "a" true) (stored l) in
  length (w_calls w') = 1%nat ∧ maxCents l = 25 ∧ db_budget (w_db w') !! "2026-01-01" = Some 100.
Proof. by vm_compute. Qed.

(** Two requests both count before either inserts: the queue of one holds two. *)
Example queue_bound_race :
  let l := mk_limits 1 4 1 in
  (fun c => length (List.filter (fun r => active (r_State r)) (all_rows (c_db c)))) <$> play l ([Spawn (RIntake (alert "a" "f")); Spawn (RIntake (alert "b" "g")); Do 0; Do 0; Do 1; Do 1;
    Tick 0 1; Do 0; Tick 1 2; Do 1]) start = Some 2%nat.
Proof. by vm_compute. Qed.

(** [changes()] answers for the last statement of any request: a transition of
    an incident that does not exist succeeds when another request inserts. *)
Example changes_race :
  (fun c => (size (db_incidents (c_db c)), e_State <$> db_events (c_db c) !! "ghost-3")) <$>
    play limits ([Spawn (RTransition "ghost" Queued Failed "x"); Spawn (RIntake (alert "b" "g")); Tick 0 1; Do 0;
      Do 1; Do 1; Tick 1 2; Do 1; Do 0; Tick 0 3; Tick 0 4; Do 0]) start = Some (1%nat, Some Failed).
Proof. by vm_compute. Qed.

(** An identifier with blanks around it is stored without them, and not found
    again: delivering the alert a second time is an error once it is settled. *)
Example untrimmed_identifier :
  let w := (calm (Intake limits (alert " a" "f")) (mkWorld empty_db 0 [])).2 in
  let w := (calm (Transition limits "a" Queued Failed "x") w).2 in
  (calm (Intake limits (alert " a" "f")) w).1 = Err (DBFailed Constraint)
  ∧ ∃ i, (calm (Intake limits (alert "a" "f")) w).1 = Ok (i, true).
Proof. split; [by vm_compute|]. eexists. by vm_compute. Qed.
End Examples.

End Incidents.
