(* ===== verification/GoNet.v ===== *)
(** * Go's [net] and [net/netip], as the program uses them

    The program only keeps IPv4: every use of [netip.ParseAddr] and
    [netip.ParsePrefix] is followed by an [Is4] test that shares the error
    branch of the parse, so the model of a parse is [Some] exactly when the
    parse succeeds with an IPv4 address.  [net.ParseIP(..).To4()] also takes
    IPv4-mapped IPv6 texts; it is [parse_to4].  An address is its 32-bit value. *)

From S2P Require Export Prelude GoStrings.

Open Scope Z_scope.

(** ** Addresses *)

Definition Addr : Type := Z.
Definition valid_addr (a : Addr) : Prop := 0 ≤ a < 2 ^ 32.

(** [Addr.As4()[i]] *)
Definition octet (a : Addr) (i : Z) : Z := Z.land (Z.shiftr a (8 * (3 - i))) 255.
Definition addr_of (o0 o1 o2 o3 : Z) : Addr := ((o0 * 256 + o1) * 256 + o2) * 256 + o3.

(** [Addr.String] *)
Definition addr_string (a : Addr) : string :=
  itoa (octet a 0) +:+ "." +:+ itoa (octet a 1) +:+ "." +:+ itoa (octet a 2) +:+ "." +:+ itoa (octet a 3).

(** The loop of [parseIPv4Fields]: [fs] are the fields already closed (last
    first), [val] and [diglen] describe the field being read and [bol] says
    that the previous byte was not a digit (start of input or a dot). *)
Fixpoint parse4_go (s : string) (fs : list Z) (val diglen : Z) (bol : bool) : option Addr :=
  match s with
  | EmptyString =>
      match fs with
      | [o2; o1; o0] => Some (addr_of o0 o1 o2 val)
      | _ => None
      end
  | String c s' =>
      if is_digit c then
        if (diglen =? 1) && (val =? 0) then None
        else let val' := val * 10 + digit_val c in
             if val' >? 255 then None else parse4_go s' fs val' (diglen + 1) false
      else if Ascii.eqb c "." then
        if bol || (String.length s' =? 0)%nat then None
        else if (length fs =? 3)%nat then None
        else parse4_go s' (val :: fs) 0 0 true
      else None
  end.
Definition parse_ipv4 (s : string) : option Addr := parse4_go s [] 0 0 true.

(** [netip.ParseAddr], when the result [Is4]: the first of ['.'], [':'] and
    ['%'] selects the syntax. *)
Fixpoint addr_syntax (s : string) : option ascii :=
  match s with
  | EmptyString => None
  | String c s => if contains_byte ".:%" c then Some c else addr_syntax s
  end.
Definition parse_addr (s : string) : option Addr :=
  match addr_syntax s with
  | Some c => if Ascii.eqb c "." then parse_ipv4 s else None
  | None => None
  end.

(** ** IPv6 texts

    [net.ParseIP] also accepts IPv6, and [To4] takes the IPv4-mapped ones back
    to IPv4 ([::ffff:10.0.0.1]), so the callers that use [To4] need the whole
    of [netip.ParseAddr]. *)

Definition from_hex (c : ascii) : option Z :=
  if is_digit c then Some (digit_val c)
  else if in_range "a" "f" c then Some (byte_val c - 87)
  else if in_range "A" "F" c then Some (byte_val c - 55)
  else None.

(** The digits of one group: how many there are, their value and what follows;
    [None] from the fifth digit on. *)
Fixpoint hex_group (s : string) (off acc : Z) : option (Z * Z * string) :=
  match s with
  | EmptyString => Some (off, acc, EmptyString)
  | String c s' =>
      match from_hex c with
      | Some d => if off >? 3 then None else hex_group s' (off + 1) (acc * 16 + d)
      | None => Some (off, acc, s)
      end
  end.

(** The loop of [parseIPv6]: [ip] holds the bytes read so far, [ellipsis] the
    position of [::] among them.  Each turn but the last adds two of the
    sixteen bytes, so eight turns are all there are. *)
Fixpoint parse6_loop (fuel : nat) (ip : list Z) (ellipsis : option nat) (s : string)
    : option (list Z * option nat * string) :=
  match fuel with
  | O => Some (ip, ellipsis, s)
  | S fuel =>
      '(off, acc, rest) ← hex_group s 0 0;
      let ip' := ip ++ [acc / 256; acc mod 256] in
      if off =? 0 then None
      else match rest with
           | EmptyString => Some (ip', ellipsis, EmptyString)
           | String c rest1 =>
               if Ascii.eqb c "." then
                 if (negb (bool_decide (is_Some ellipsis)) && negb (length ip =? 12)%nat)
                    || (16 <? length ip + 4)%nat then None
                 else a ← parse_ipv4 s;
                      Some (ip ++ [octet a 0; octet a 1; octet a 2; octet a 3], ellipsis, EmptyString)
               else if Ascii.eqb c ":" then
                 match rest1 with
                 | EmptyString => None
                 | String c2 rest2 =>
                     if Ascii.eqb c2 ":" then
                       match ellipsis, rest2 with
                       | Some _, _ => None
                       | None, EmptyString => Some (ip', Some (length ip'), EmptyString)
                       | None, _ => parse6_loop fuel ip' (Some (length ip')) rest2
                       end
                     else parse6_loop fuel ip' ellipsis rest1
                 end
               else None
           end
  end.

(** [parseIPv6] without a zone, as sixteen bytes. *)
Definition parse_ipv6 (s : string) : option (list Z) :=
  let '(ellipsis, s) := match s with
                        | String ":" (String ":" s') => (Some 0%nat, s')
                        | _ => (None, s)
                        end in
  if bool_decide (ellipsis = Some 0%nat ∧ s = EmptyString) then Some (repeat 0 16)
  else
    '(ip, ellipsis, rest) ← parse6_loop 8 [] ellipsis s;
    match rest, ellipsis with
    | String _ _, _ => None
    | EmptyString, Some at_ =>
        if (length ip <? 16)%nat
        then Some (take at_ ip ++ repeat 0 (16 - length ip) ++ drop at_ ip)
        else None
    | EmptyString, None => if (length ip <? 16)%nat then None else Some ip
    end.

(** [To4] of sixteen bytes. *)
Definition to4 (ip : list Z) : option Addr :=
  match drop 12 ip with
  | [o0; o1; o2; o3] =>
      if bool_decide (take 12 ip = repeat 0 10 ++ [255; 255]) then Some (addr_of o0 o1 o2 o3) else None
  | _ => None
  end.

(** [net.ParseIP] of an IPv6 text: a zone makes it invalid. *)
Definition parse_ip6 (s : string) : option (list Z) :=
  match addr_syntax s with
  | Some c => if Ascii.eqb c ":" && negb (contains_byte s "%") then parse_ipv6 s else None
  | None => None
  end.

(** [net.ParseIP(s).To4()] *)
Definition parse_to4 (s : string) : option Addr :=
  match parse_addr s with Some a => Some a | None => parse_ip6 s ≫= to4 end.

(** [net.ParseIP(s) != nil] *)
Definition is_ip (s : string) : bool :=
  match parse_addr s, parse_ip6 s with None, None => false | _, _ => true end.

(** [net.ParseIP(s)], [To4() != nil] and [To4().String() == s]. *)
Definition canonical_ipv4 (s : string) : bool :=
  match parse_to4 s with Some a => String.eqb (addr_string a) s | None => false end.

(** [Addr.IsPrivate] on IPv4. *)
Definition is_private (a : Addr) : bool :=
  (octet a 0 =? 10)
  || ((octet a 0 =? 172) && (Z.land (octet a 1) 240 =? 16))
  || ((octet a 0 =? 192) && (octet a 1 =? 168)).

(** ** Prefixes *)

Record Prefix := { p_addr : Addr; p_bits : Z }.
#[export] Instance Prefix_eq_dec : EqDecision Prefix.
Proof. solve_decision. Defined.

Fixpoint last_slash (s : string) : option (string * string) :=
  match s with
  | EmptyString => None
  | String c s' =>
      match last_slash s' with
      | Some (a, b) => Some (String c a, b)
      | None => if Ascii.eqb c "/" then Some (EmptyString, s') else None
      end
  end.

(** The length field of [netip.ParsePrefix]: digits, no leading zero, at most 32. *)
Definition parse_bits (s : string) : option Z :=
  match s with
  | EmptyString => None
  | String c s' =>
      if negb (String.length s' =? 0)%nat && negb (in_range "1" "9" c) then None
      else v ← scan_digits 0 s; if v <=? 32 then Some v else None
  end.

Definition parse_prefix (s : string) : option Prefix :=
  match last_slash s with
  | Some (a, b) =>
      addr ← parse_addr a; bits ← parse_bits b; Some {| p_addr := addr; p_bits := bits |}
  | None => None
  end.

(** [net.ParseCIDR].  The length field may have leading zeros.  An IPv6 prefix
    that keeps the mapped part ([::ffff:10.0.0.0/120]) behaves as an IPv4
    prefix of its last 32 bits ([mapped] records that its mask has 16 bytes);
    any other one contains no IPv4 address.  A 16-byte address is its value. *)
Inductive CIDR :=
| CIDR4 (p : Prefix) (mapped : bool)
| CIDR6 (ip bits : Z).

Definition bytes_val (l : list Z) : Z := foldl (fun v b => v * 256 + b) 0 l.

Definition net_parse_cidr (s : string) : option CIDR :=
  match last_slash s with
  | Some (a, EmptyString) => None
  | Some (a, b) =>
      bits ← scan_digits 0 b;
      match parse_addr a with
      | Some addr => if bits <=? 32 then Some (CIDR4 {| p_addr := addr; p_bits := bits |} false) else None
      | None =>
          ip ← parse_ip6 a;
          if bits <=? 128 then
            match to4 ip with
            | Some addr => if 96 <=? bits then Some (CIDR4 {| p_addr := addr; p_bits := bits - 96 |} true)
                           else Some (CIDR6 (bytes_val ip) bits)
            | None => Some (CIDR6 (bytes_val ip) bits)
            end
          else None
      end
  | None => None
  end.

(** The prefix, when both the address and the masked network have a [To4]. *)
Definition parse_cidr (s : string) : option Prefix :=
  c ← net_parse_cidr s; match c with CIDR4 p _ => Some p | CIDR6 _ _ => None end.

Definition prefix_string (p : Prefix) : string := addr_string (p_addr p) +:+ "/" +:+ itoa (p_bits p).

(** The text of a 16-byte address that is not IPv4-mapped: eight groups in
    lower-case hexadecimal, the first longest run of two or more zero groups
    written as [::]. *)
Definition groups_of (v : Z) : list Z := map (fun i => Z.land (Z.shiftr v (16 * (7 - i))) 65535) [0; 1; 2; 3; 4; 5; 6; 7].

Definition hex_char (d : Z) : ascii := if d <? 10 then byte_of (48 + d) else byte_of (87 + d).
Fixpoint hex_fuel (fuel : nat) (n : Z) : string :=
  match fuel with
  | O => EmptyString
  | S fuel => if n <? 16 then String (hex_char n) EmptyString
              else hex_fuel fuel (n / 16) +:+ String (hex_char (n mod 16)) EmptyString
  end.
Fixpoint zero_run (gs : list Z) : nat := match gs with 0 :: gs => S (zero_run gs) | _ => O end.
Fixpoint longest_run (i : nat) (gs : list Z) (best : nat * nat) : nat * nat :=
  match gs with
  | [] => best
  | _ :: gs' => let n := zero_run gs in
                longest_run (S i) gs' (if (1 <? n)%nat && (best.2 <? n)%nat then (i, n) else best)
  end.
Definition addr6_string (v : Z) : string :=
  let gs := groups_of v in
  let text l := join (map (hex_fuel 4) l) ":" in
  let '(at_, n) := longest_run 0 gs (0%nat, 0%nat) in
  if (n =? 0)%nat then text gs else text (take at_ gs) +:+ "::" +:+ text (drop (at_ + n) gs).

(** [Prefix.Contains] *)
Definition prefix_contains (p : Prefix) (a : Addr) : bool :=
  Z.shiftr (Z.lxor a (p_addr p)) (32 - p_bits p) =? 0.

Definition mask_bits (bits a : Z) : Z := Z.shiftl (Z.shiftr a (32 - bits)) (32 - bits).
(** [Prefix.Masked] *)
Definition masked (p : Prefix) : Prefix :=
  {| p_addr := mask_bits (p_bits p) (p_addr p); p_bits := p_bits p |}.

(** [IPNet.Contains] of an IPv4 address. *)
Definition cidr_contains (c : CIDR) (a : Addr) : bool :=
  match c with CIDR4 p _ => prefix_contains (masked p) a | CIDR6 _ _ => false end.

Definition mask6 (bits v : Z) : Z := Z.shiftl (Z.shiftr v (128 - bits)) (128 - bits).

(** [c.Contains(d.IP)] for two [*net.IPNet]. *)
Definition cidr_contains_base (c d : CIDR) : bool :=
  match c, d with
  | CIDR4 p _, CIDR4 q _ => prefix_contains (masked p) (p_addr (masked q))
  | CIDR6 a n, CIDR6 b m => mask6 n (mask6 m b) =? mask6 n a
  | _, _ => false
  end.

(** [IPNet.String] *)
Definition cidr_string (c : CIDR) : string :=
  match c with
  | CIDR4 p _ => prefix_string (masked p)
  | CIDR6 v n => addr6_string (mask6 n v) +:+ "/" +:+ itoa n
  end.

(** [Prefix.Overlaps] *)
Definition overlaps (p q : Prefix) : bool :=
  let m := Z.min (p_bits p) (p_bits q) in
  if m =? 0 then true else mask_bits m (p_addr p) =? mask_bits m (p_addr q).

(** ** Hardware addresses *)

(** [xtoi2] of two hexadecimal digits. *)
Definition hex_byte (c d : ascii) : option Z :=
  h ← from_hex c; l ← from_hex d; Some (h * 16 + l).

(** Groups of one byte separated by [sep] ([xx:xx:...]). *)
Fixpoint mac_groups1 (sep : ascii) (s : string) : option (list Z) :=
  match s with
  | String c (String d EmptyString) => b ← hex_byte c d; Some [b]
  | String c (String d (String e s)) =>
      if Ascii.eqb e sep then b ← hex_byte c d; bs ← mac_groups1 sep s; Some (b :: bs) else None
  | _ => None
  end.
(** Groups of two bytes separated by dots ([xxxx.xxxx...]). *)
Fixpoint mac_groups2 (s : string) : option (list Z) :=
  match s with
  | String c (String d (String e (String f EmptyString))) =>
      a ← hex_byte c d; b ← hex_byte e f; Some [a; b]
  | String c (String d (String e (String f (String g s)))) =>
      if Ascii.eqb g "." then
        a ← hex_byte c d; b ← hex_byte e f; bs ← mac_groups2 s; Some (a :: b :: bs)
      else None
  | _ => None
  end.

(** [net.ParseMAC]: 6, 8 or 20 bytes. *)
Definition parse_mac (s : string) : option (list Z) :=
  if (String.length s <? 14)%nat then None
  else
    bs ← match String.get 2 s, String.get 4 s with
         | Some c2, Some c4 =>
             if Ascii.eqb c2 ":" || Ascii.eqb c2 "-" then mac_groups1 c2 s
             else if Ascii.eqb c4 "." then mac_groups2 s
             else None
         | _, _ => None
         end;
    if (length bs =? 6)%nat || (length bs =? 8)%nat || (length bs =? 20)%nat then Some bs else None.

Definition hex2 (b : Z) : string := String (hex_char (b / 16)) (String (hex_char (b mod 16)) EmptyString).
(** [HardwareAddr.String] *)
Definition mac_string (bs : list Z) : string := join (hex2 <$> bs) ":".

(** ** [net/url]

    The fields of [url.Parse]'s result that the program reads; the parser is a
    parameter. *)
Record URL := mkURL {
  url_Scheme : string; url_Host : string; url_Hostname : string; url_User : bool;
  url_RawQuery : string; url_Fragment : string;
}.
Class GoURL := { parse_url : string → option URL }.

(** A parser for [scheme://host:port/path] texts, to evaluate concrete inputs. *)
Definition plain_url : GoURL := {|
  parse_url s :=
    match split s ":" with
    | scheme :: rest :: port =>
        match split rest "/", port with
        | "" :: "" :: host :: _, [] => Some (mkURL scheme host host false "" "")
        | [""; ""; host], [port] => Some (mkURL scheme (host +:+ ":" +:+ hd "" (split port "/")) host false "" "")
        | _, _ => None
        end
    | _ => None
    end
|}.

Example parse_addr_ex :
  parse_addr "10.10.20.230" = Some (addr_of 10 10 20 230) ∧ parse_addr "10.10.020.230" = None
  ∧ parse_addr "10.10.20" = None ∧ parse_addr "10..1.1" = None ∧ parse_addr "1.1.1.256" = None
  ∧ parse_addr "1.1.1.1." = None ∧ parse_addr "::1" = None.
Proof. by vm_compute. Qed.
Example parse_to4_ex :
  parse_to4 "::ffff:10.0.0.1" = parse_addr "10.0.0.1" ∧ parse_to4 "::FFFF:a00:1" = parse_addr "10.0.0.1"
  ∧ parse_to4 "0:0:0:0:0:ffff:10.0.0.1" = parse_addr "10.0.0.1" ∧ parse_to4 "0:0::ffff:a00:1" = parse_addr "10.0.0.1"
  ∧ parse_to4 "::1" = None ∧ is_ip "::1" = true ∧ is_ip "fe80::1%eth0" = false ∧ is_ip "1:2:3:4:5:6:7" = false
  ∧ is_ip "1:2:3:4:5:6:7:8" = true ∧ is_ip "1:2:3:4::5:6:7:8" = false ∧ is_ip "1::2::3" = false ∧ is_ip "::" = true
  ∧ is_ip "1::" = true ∧ is_ip "1:" = false ∧ is_ip ":1" = false ∧ is_ip "12345::" = false
  ∧ is_ip "1:2:3:4:5:6:1.2.3.4" = true ∧ is_ip "1:2:3:4:5:6:7:1.2.3.4" = false ∧ is_ip "::1.2.3.4:5" = false.
Proof. by vm_compute. Qed.
Example cidr_string_ex :
  cidr_string <$> net_parse_cidr "fd7a:115c:a1e0:ab12::5/064" = Some "fd7a:115c:a1e0:ab12::/64"
  ∧ cidr_string <$> net_parse_cidr "2001:DB8:0:0:1:0:0:1/128" = Some "2001:db8::1:0:0:1/128"
  ∧ cidr_string <$> net_parse_cidr "::/0" = Some "::/0" ∧ cidr_string <$> net_parse_cidr "10.1.2.3/8" = Some "10.0.0.0/8"
  ∧ cidr_string <$> net_parse_cidr "1:0:3::/48" = Some "1:0:3::/48"
  ∧ cidr_string <$> net_parse_cidr "::ffff:10.0.0.9/120" = Some "10.0.0.0/24" ∧ net_parse_cidr "::/129" = None.
Proof. by vm_compute. Qed.
Example parse_prefix_ex :
  parse_prefix "192.168.4.0/22" = Some {| p_addr := addr_of 192 168 4 0; p_bits := 22 |}
  ∧ parse_prefix "192.168.4.0/022" = None ∧ parse_prefix "192.168.4.0/33" = None
  ∧ parse_prefix "192.168.4.0" = None.
Proof. by vm_compute. Qed.
Example parse_mac_ex :
  parse_mac "02:00:00:00:20:e6" = Some [2; 0; 0; 0; 32; 230]
  ∧ parse_mac "0200.0000.20E6" = Some [2; 0; 0; 0; 32; 230]
  ∧ parse_mac "02-00-00-00-20-E6" = Some [2; 0; 0; 0; 32; 230]
  ∧ parse_mac "02:00:00:00:20" = None ∧ parse_mac "02:00-00:00:20:e6" = None.
Proof. by vm_compute. Qed.

(** ** Lemmas *)

Lemma octet_spec a i : 0 ≤ i ≤ 3 → octet a i = (a / 2 ^ (8 * (3 - i))) mod 256.
Proof.
  intros. unfold octet. rewrite Z.shiftr_div_pow2 by lia.
  change 255 with (Z.ones 8). by rewrite Z.land_ones by lia.
Qed.

Lemma octet_range a i : 0 ≤ i ≤ 3 → 0 ≤ octet a i < 256.
Proof. intros. rewrite octet_spec by done. by apply Z.mod_pos_bound. Qed.

Lemma addr_of_octets a : valid_addr a → addr_of (octet a 0) (octet a 1) (octet a 2) (octet a 3) = a.
Proof.
  unfold valid_addr, addr_of. intros. rewrite !octet_spec by lia.
  change (2 ^ (8 * (3 - 0))) with 16777216. change (2 ^ (8 * (3 - 1))) with 65536.
  change (2 ^ (8 * (3 - 2))) with 256. change (2 ^ (8 * (3 - 3))) with 1.
  Z.div_mod_to_equations. lia.
Qed.

Lemma octets_of_addr o0 o1 o2 o3 :
  0 ≤ o0 < 256 → 0 ≤ o1 < 256 → 0 ≤ o2 < 256 → 0 ≤ o3 < 256 →
  let a := addr_of o0 o1 o2 o3 in
  valid_addr a ∧ octet a 0 = o0 ∧ octet a 1 = o1 ∧ octet a 2 = o2 ∧ octet a 3 = o3.
Proof.
  unfold valid_addr, addr_of. intros. cbn zeta. rewrite !octet_spec by lia.
  change (2 ^ (8 * (3 - 0))) with 16777216. change (2 ^ (8 * (3 - 1))) with 65536.
  change (2 ^ (8 * (3 - 2))) with 256. change (2 ^ (8 * (3 - 3))) with 1.
  repeat split; Z.div_mod_to_equations; lia.
Qed.

(** What the digits of the current field say about [val] and [diglen]. *)
Definition field_state (cur : string) (val diglen : Z) (bol : bool) : Prop :=
  (cur = "" ∧ val = 0 ∧ diglen = 0 ∧ bol = true)
  ∨ (cur = format_uint val ∧ 0 ≤ val ≤ 255 ∧ 1 ≤ diglen ∧ (val = 0 → diglen = 1) ∧ bol = false).

Lemma field_state_digit cur val diglen bol c :
  field_state cur val diglen bol → is_digit c = true →
  (diglen =? 1) && (val =? 0) = false → (val * 10 + digit_val c >? 255) = false →
  field_state (cur +:+ String c "") (val * 10 + digit_val c) (diglen + 1) false.
Proof.
  intros Hst Hc Hz Hb. pose proof (digit_char_val c Hc) as [Ec Hd].
  rewrite Z.gtb_ltb in Hb. apply Z.ltb_ge in Hb. right.
  destruct Hst as [(->&->&->&_)|(->&Hv&Hl&Hiff&_)].
  - split_and!; try lia; try done.
    replace (0 * 10 + digit_val c) with (digit_val c) by lia.
    by rewrite format_uint_digit, Ec.
  - assert (1 ≤ val).
    { apply andb_false_iff in Hz as [Hz|Hz]; apply Z.eqb_neq in Hz; lia. }
    split_and!; try lia; try done. by rewrite format_uint_step, Ec by lia.
Qed.

Definition fields_string (fs : list Z) : string :=
  foldr (fun o s => format_uint o +:+ "." +:+ s) "" (reverse fs).

Lemma fields_string_cons o fs :
  fields_string (o :: fs) = fields_string fs +:+ format_uint o +:+ ".".
Proof.
  unfold fields_string. rewrite reverse_cons, foldr_app. cbn [foldr].
  generalize (reverse fs) as l. induction l as [|x l IH]; cbn [foldr].
  - unfold String.app. cbn. by induction (format_uint o); cbn; congruence.
  - by rewrite IH, !app_assoc_s.
Qed.

Lemma parse4_go_sound s : ∀ fs val diglen bol cur a,
  field_state cur val diglen bol → Forall (fun o => 0 ≤ o < 256) fs →
  (bol = true → fs ≠ [] → s ≠ "") →
  parse4_go s fs val diglen bol = Some a →
  valid_addr a ∧ addr_string a = fields_string fs +:+ cur +:+ s.
Proof.
  induction s as [|c s IH]; intros fs val diglen bol cur a Hst Hfs Hbol Hp; cbn in Hp.
  - destruct fs as [|o2 [|o1 [|o0 [|]]]]; try done. injection Hp as <-.
    destruct Hst as [(->&->&->&->)|(->&Hv&_)]; [exfalso; by apply Hbol|].
    rewrite !Forall_cons_iff in Hfs. destruct Hfs as (?&?&?&_).
    destruct (octets_of_addr o0 o1 o2 val) as (Hva&E0&E1&E2&E3); try lia.
    split; [done|]. unfold addr_string. rewrite E0, E1, E2, E3, !itoa_nonneg by lia.
    unfold fields_string. cbn. by rewrite !app_assoc_s, !app_nil_r_s.
  - destruct (is_digit c) eqn:Hc.
    + destruct ((diglen =? 1) && (val =? 0)) eqn:Hz; [done|].
      destruct (val * 10 + digit_val c >? 255) eqn:Hb; [done|].
      eapply IH in Hp as [Hv Hs]; [|by eapply field_state_digit|done|done].
      split; [done|]. rewrite Hs, app_assoc_s. done.
    + destruct (Ascii.eqb_spec c ".") as [->|]; [|done].
      destruct (bol || _)%bool eqn:Hb; [done|]. apply orb_false_iff in Hb as [-> Hl].
      destruct (length fs =? 3)%nat; [done|].
      destruct Hst as [(_&_&_&?)|(->&Hv&_)]; [done|].
      eapply (IH _ _ _ _ "") in Hp as [Hva Hs].
      * split; [done|]. rewrite Hs, fields_string_cons, !app_assoc_s. done.
      * left. done.
      * constructor; [lia|done].
      * intros _ _ ->. done.
Qed.

Lemma parse_addr_sound s a : parse_addr s = Some a → valid_addr a ∧ addr_string a = s.
Proof.
  unfold parse_addr, parse_ipv4. intros Hp.
  destruct (addr_syntax s) as [c|]; [|done]. destruct (Ascii.eqb c "."); [|done].
  by eapply (parse4_go_sound _ _ _ _ _ "") in Hp; [|left|constructor|].
Qed.

Lemma parse_addr_canonical s a : parse_addr s = Some a → addr_string a = s.
Proof. intros ?%parse_addr_sound. tauto. Qed.
Lemma parse_addr_valid s a : parse_addr s = Some a → valid_addr a.
Proof. intros ?%parse_addr_sound. tauto. Qed.

Lemma parse_addr_inj s t a : parse_addr s = Some a → parse_addr t = Some a → s = t.
Proof. intros <-%parse_addr_canonical <-%parse_addr_canonical. done. Qed.

(** *** [To4] *)

Lemma parse_to4_v4 s a : parse_addr s = Some a → parse_to4 s = Some a.
Proof.
  intros Ha. unfold parse_to4. by rewrite Ha.
Qed.

Definition bytes (l : list Z) : Prop := Forall (fun b => 0 ≤ b < 256) l.

Lemma from_hex_range c d : from_hex c = Some d → 0 ≤ d < 16.
Proof.
  unfold from_hex, is_digit, in_range, digit_val.
  change (byte_val "0") with 48. change (byte_val "9") with 57. change (byte_val "a") with 97.
  change (byte_val "f") with 102. change (byte_val "A") with 65. change (byte_val "F") with 70.
  repeat case_match; intros; simplify_eq; bools; lia.
Qed.

Lemma hex_group_range s : ∀ off acc off' acc' rest,
  hex_group s off acc = Some (off', acc', rest) →
  0 ≤ off ≤ 4 → 0 ≤ acc < 16 ^ off → 0 ≤ acc' < 65536.
Proof.
  induction s as [|c s IH]; cbn; intros off acc off' acc' rest Hs Ho Ha.
  - simplify_eq. pose proof (Z.pow_le_mono_r 16 off' 4). lia.
  - destruct (from_hex c) as [d|] eqn:Hc.
    + destruct (Z.gtb_spec off 3); [done|]. apply from_hex_range in Hc.
      eapply IH; [exact Hs|lia|]. rewrite Z.pow_add_r by lia. lia.
    + simplify_eq. pose proof (Z.pow_le_mono_r 16 off' 4). lia.
Qed.

Lemma parse_ipv4_valid s a : parse_ipv4 s = Some a → valid_addr a.
Proof. intros Hp. by eapply (parse4_go_sound _ _ _ _ _ "") in Hp as [? _]; [|left|constructor|]. Qed.

Lemma octets_bytes a : bytes [octet a 0; octet a 1; octet a 2; octet a 3].
Proof. unfold bytes. rewrite !Forall_cons_iff. split_and!; [..|done]; by apply octet_range. Qed.

Lemma parse6_loop_bytes fuel : ∀ ip e s ip' e' rest,
  parse6_loop fuel ip e s = Some (ip', e', rest) → bytes ip → bytes ip'.
Proof.
  induction fuel as [|fuel IH]; intros ip e s ip' e' rest; cbn [parse6_loop].
  { by intros [= <- <- <-]. }
  intros ([[off acc] r] & Hg & Hs)%bind_Some Hip.
  apply hex_group_range in Hg; [|lia..].
  assert (bytes (ip ++ [acc / 256; acc mod 256])) as Hip'.
  { apply Forall_app_2; [done|]. rewrite !Forall_cons_iff.
    split_and!; [..|done]; Z.div_mod_to_equations; lia. }
  destruct (off =? 0); [done|]. destruct r as [|c r]; [by injection Hs as <- <- <-|].
  destruct (Ascii.eqb c ".").
  { destruct (_ || _); [done|]. apply bind_Some in Hs as (a & Ha & [= <- <- <-]).
    apply Forall_app_2; [done|apply octets_bytes]. }
  destruct (Ascii.eqb c ":"); [|done]. destruct r as [|c2 r2]; [done|].
  destruct (Ascii.eqb c2 ":"); [|by eapply IH].
  destruct e; [done|]. destruct r2; [by injection Hs as <- <- <-|by eapply IH].
Qed.

Lemma parse_ipv6_bytes s ip : parse_ipv6 s = Some ip → bytes ip.
Proof.
  unfold parse_ipv6.
  destruct (match s with String ":" (String ":" s') => _ | _ => _ end) as [e t].
  case_bool_decide; [intros [= <-]; by apply (bool_decide_unpack _); vm_compute|].
  intros ([[l e'] r] & Hl & Hs)%bind_Some.
  apply parse6_loop_bytes in Hl; [|constructor].
  destruct r; [|by destruct e']. destruct e' as [k|], (_ <? 16)%nat; simplify_eq; [|done].
  unfold bytes. rewrite !Forall_app. split_and!; [by apply Forall_take| |by apply Forall_drop].
  apply Forall_forall. intros b ->%list_elem_of_In%repeat_spec. lia.
Qed.

Lemma to4_valid ip a : bytes ip → to4 ip = Some a → valid_addr a.
Proof.
  unfold to4. intros Hb%(Forall_drop _ 12).
  destruct (drop 12 ip) as [|o0 [|o1 [|o2 [|o3 [|]]]]]; try done.
  case_bool_decide; [|done]. intros [= <-]. rewrite !Forall_cons_iff in Hb.
  destruct Hb as (?&?&?&?&_). by apply octets_of_addr.
Qed.

Lemma parse_to4_valid s a : parse_to4 s = Some a → valid_addr a.
Proof.
  unfold parse_to4. destruct (parse_addr s) as [b|] eqn:Hb.
  { intros [= <-]. by eapply parse_addr_valid. }
  intros (ip & Hip & ?)%bind_Some. unfold parse_ip6 in Hip.
  destruct (addr_syntax s) as [c|]; [|done]. destruct (_ && _); [|done].
  apply parse_ipv6_bytes in Hip. by eapply to4_valid.
Qed.

Lemma parse_octet o rest fs : 0 ≤ o < 256 →
  ∃ dl, parse4_go (format_uint o +:+ rest) fs 0 0 true = parse4_go rest fs o dl false.
Proof.
  intros Ho.
  assert (∀ d, 0 ≤ d < 10 → is_digit (digit_char d) = true ∧ digit_val (digit_char d) = d) as Hd
    by apply digit_char_digit.
  assert (o < 10 ∨ 10 ≤ o < 100 ∨ 100 ≤ o) as [H1|[H1|H1]] by lia.
  - rewrite format_uint_digit, app_cons_s by lia. cbn [parse4_go].
    destruct (Hd o) as [-> ->]; [lia|]. cbn [Z.eqb Z.add andb].
    destruct (Z.gtb_spec (0 * 10 + o) 255); [lia|]. replace (0 * 10 + o) with o by lia. eauto.
  - set (y := o / 10). set (z := o mod 10).
    assert (o = y * 10 + z ∧ 1 ≤ y < 10 ∧ 0 ≤ z < 10) as (Eo&?&?)
      by (subst y z; Z.div_mod_to_equations; lia).
    clearbody y z. subst o.
    rewrite format_uint_step, format_uint_digit, app_assoc_s, !app_cons_s, ?app_nil_l_s by lia.
    destruct (Hd y) as [Ey1 Ey2]; [lia|]. destruct (Hd z) as [Ez1 Ez2]; [lia|].
    cbn [parse4_go]. rewrite Ey1, Ey2. cbn [Z.eqb Z.add andb].
    destruct (Z.gtb_spec (0 * 10 + y) 255); [lia|].
    cbn [parse4_go]. rewrite Ez1, Ez2.
    destruct (Z.eqb_spec (0 * 10 + y) 0); [lia|]. cbn [andb Z.eqb].
    destruct (Z.gtb_spec ((0 * 10 + y) * 10 + z) 255); [lia|].
    replace ((0 * 10 + y) * 10 + z) with (y * 10 + z) by lia. eauto.
  - set (x := o / 100). set (y := o / 10 mod 10). set (z := o mod 10).
    assert (o = (x * 10 + y) * 10 + z ∧ 1 ≤ x < 10 ∧ 0 ≤ y < 10 ∧ 0 ≤ z < 10) as (Eo&?&?&?)
      by (subst x y z; Z.div_mod_to_equations; lia).
    clearbody x y z. subst o.
    rewrite !format_uint_step, format_uint_digit, !app_assoc_s, !app_cons_s, ?app_nil_l_s by lia.
    destruct (Hd x) as [Ex1 Ex2]; [lia|]. destruct (Hd y) as [Ey1 Ey2]; [lia|].
    destruct (Hd z) as [Ez1 Ez2]; [lia|].
    cbn [parse4_go]. rewrite Ex1, Ex2. cbn [Z.eqb Z.add andb].
    destruct (Z.gtb_spec (0 * 10 + x) 255); [lia|].
    cbn [parse4_go]. rewrite Ey1, Ey2.
    destruct (Z.eqb_spec (0 * 10 + x) 0); [lia|]. cbn [andb Z.eqb].
    destruct (Z.gtb_spec ((0 * 10 + x) * 10 + y) 255); [lia|].
    cbn [parse4_go]. rewrite Ez1, Ez2. cbn [Z.eqb Z.add andb Pos.add].
    destruct (Z.gtb_spec (((0 * 10 + x) * 10 + y) * 10 + z) 255); [lia|].
    replace (((0 * 10 + x) * 10 + y) * 10 + z) with ((x * 10 + y) * 10 + z) by lia. eauto.
Qed.

Lemma parse_field o rest fs : 0 ≤ o < 256 → rest ≠ "" → (length fs < 3)%nat →
  parse4_go (format_uint o +:+ "." +:+ rest) fs 0 0 true = parse4_go rest (o :: fs) 0 0 true.
Proof.
  intros Ho Hr Hl. destruct (parse_octet o ("." +:+ rest) fs Ho) as [dl ->].
  rewrite app_cons_s, app_nil_l_s. cbn [parse4_go]. change (is_digit ".") with false.
  destruct rest as [|c rest]; [done|]. cbn -[parse4_go].
  destruct (Nat.eqb_spec (length fs) 3); [lia|done].
Qed.

Lemma format_uint_ne n : format_uint n ≠ "".
Proof. apply udec_not_nil. lia. Qed.

Lemma app_ne_s s t : s ≠ "" → s +:+ t ≠ "".
Proof. by destruct s. Qed.

Lemma digit_not_syntax d : is_digit d = true → contains_byte ".:%" d = false.
Proof.
  intros Hd. apply not_true_is_false. unfold contains_byte. cbn [sany].
  rewrite !orb_true_iff, !Ascii.eqb_eq. by intros [->|[->|[->|?]]].
Qed.

Lemma digits_syntax s c t : sall is_digit s = true →
  contains_byte ".:%" c = true → addr_syntax (s +:+ String c t) = Some c.
Proof.
  intros Hs Hc. induction s as [|d s IH]; cbn [addr_syntax String.append]; [by rewrite app_nil_l_s; cbn [addr_syntax]; rewrite Hc|].
  cbn [sall] in Hs. apply andb_true_iff in Hs as [Hd Hs].
  rewrite app_cons_s. cbn [addr_syntax]. rewrite digit_not_syntax by done. by apply IH.
Qed.

Lemma parse_addr_string a : valid_addr a → parse_addr (addr_string a) = Some a.
Proof.
  intros Ha. unfold parse_addr, addr_string.
  pose proof (octet_range a 0 ltac:(lia)). pose proof (octet_range a 1 ltac:(lia)).
  pose proof (octet_range a 2 ltac:(lia)). pose proof (octet_range a 3 ltac:(lia)).
  rewrite !itoa_nonneg by lia.
  change ("." +:+ ?t) with (String "." t) at 1.
  rewrite digits_syntax by (apply format_uint_digits || done; lia). cbn [Ascii.eqb Bool.eqb].
  unfold parse_ipv4. change (String "." ?t) with ("." +:+ t).
  rewrite parse_field by (try apply app_ne_s; try apply format_uint_ne; cbn; lia || done).
  rewrite parse_field by (try apply app_ne_s; try apply format_uint_ne; cbn; lia || done).
  rewrite parse_field by (try apply format_uint_ne; cbn; lia || done).
  destruct (parse_octet (octet a 3) "" [octet a 2; octet a 1; octet a 0]) as [dl E]; [done|].
  rewrite app_nil_r_s in E. rewrite E. cbn. by rewrite addr_of_octets.
Qed.

(** A text that is its own dotted form is the dotted parse's. *)
Lemma parse_to4_canonical s a : parse_to4 s = Some a → addr_string a = s → parse_addr s = Some a.
Proof. intros Hv%parse_to4_valid <-. by apply parse_addr_string. Qed.

Lemma canonical_ipv4_spec s : canonical_ipv4 s = true ↔ ∃ a, parse_addr s = Some a.
Proof.
  unfold canonical_ipv4. split.
  - destruct (parse_to4 s) as [a|] eqn:Ha; [|done]. intros E%String.eqb_eq.
    exists a. by apply parse_to4_canonical.
  - intros [a Ha]. rewrite (parse_to4_v4 _ _ Ha). apply String.eqb_eq. by apply parse_addr_canonical.
Qed.

(** ** Prefixes *)

Lemma last_slash_spec s a b : last_slash s = Some (a, b) → s = a +:+ "/" +:+ b.
Proof.
  revert a b. induction s as [|c s IH]; intros a b Hs; cbn in Hs; [done|].
  destruct (last_slash s) as [[a' b']|].
  - injection Hs as <- <-. by rewrite (IH a' b').
  - destruct (Ascii.eqb_spec c "/") as [->|]; [|done]. by injection Hs as <- <-.
Qed.

Lemma parse_bits_sound s v : parse_bits s = Some v → itoa v = s ∧ 0 ≤ v ≤ 32.
Proof.
  destruct s as [|c s]; [done|]. cbn [parse_bits].
  destruct (negb _ && negb _) eqn:Hg; [done|]. intros (x & Hx & Hv)%bind_Some.
  destruct (Z.leb_spec x 32); [|done]. injection Hv as <-.
  cbn [scan_digits] in Hx. destruct (is_digit c) eqn:Hc; [|done].
  pose proof (digit_char_val c Hc) as [Ec Hd].
  replace (0 * 10 + digit_val c) with (digit_val c) in Hx by lia.
  apply andb_false_iff in Hg as [Hg|Hg]; apply negb_false_iff in Hg.
  - destruct s; [|done]. injection Hx as <-. rewrite itoa_nonneg, format_uint_digit, Ec by lia. split; [done|lia].
  - apply digit_range_19 in Hg as [_ H1]. apply scan_digits_sound in Hx as [E Hle]; [|done].
    rewrite itoa_nonneg, E, format_uint_digit, Ec by lia. split; [done|lia].
Qed.

Definition valid_prefix (p : Prefix) : Prop := valid_addr (p_addr p) ∧ 0 ≤ p_bits p ≤ 32.

Lemma parse_prefix_sound s p : parse_prefix s = Some p → valid_prefix p ∧ prefix_string p = s.
Proof.
  unfold parse_prefix. destruct (last_slash s) as [[a b]|] eqn:Hs; [|done].
  intros (addr & Ha & (bits & Hb & [= <-])%bind_Some)%bind_Some.
  apply last_slash_spec in Hs as ->.
  apply parse_addr_sound in Ha as [? Ea]. apply parse_bits_sound in Hb as [Eb ?].
  split; [done|]. unfold prefix_string. cbn. by rewrite Ea, Eb.
Qed.

Lemma prefix_contains_spec p a : 0 ≤ p_bits p ≤ 32 →
  prefix_contains p a = true ↔ a / 2 ^ (32 - p_bits p) = p_addr p / 2 ^ (32 - p_bits p).
Proof.
  intros Hb. unfold prefix_contains.
  rewrite Z.eqb_eq, Z.shiftr_lxor, Z.lxor_eq_0_iff, !Z.shiftr_div_pow2 by lia. done.
Qed.

Lemma prefix_contains_range p a : valid_prefix p →
  prefix_contains p a = true ↔
  p_addr (masked p) ≤ a < p_addr (masked p) + 2 ^ (32 - p_bits p).
Proof.
  intros [Hv Hb]. rewrite prefix_contains_spec by done. unfold masked, mask_bits. cbn.
  rewrite Z.shiftl_mul_pow2, Z.shiftr_div_pow2 by lia.
  assert (0 < 2 ^ (32 - p_bits p)) as Hp by (apply Z.pow_pos_nonneg; lia).
  set (w := 2 ^ (32 - p_bits p)) in *. split.
  - intros E. pose proof (Z.div_mod a w). pose proof (Z.mod_pos_bound a w). nia.
  - intros. symmetry. apply Z.div_unique with (a - p_addr p / w * w); lia.
Qed.

Lemma contains_mono p a m : 0 ≤ m ≤ p_bits p → p_bits p ≤ 32 →
  prefix_contains p a = true → mask_bits m a = mask_bits m (p_addr p).
Proof.
  intros Hm Hb Hc. apply prefix_contains_spec in Hc; [|lia]. unfold mask_bits. f_equal.
  rewrite !Z.shiftr_div_pow2 by lia.
  replace (2 ^ (32 - m)) with (2 ^ (32 - p_bits p) * 2 ^ (p_bits p - m))
    by (rewrite <- Z.pow_add_r by lia; f_equal; lia).
  rewrite <- !Z.div_div by (try apply Z.pow_nonzero; try apply Z.pow_pos_nonneg; lia).
  by rewrite Hc.
Qed.

(** Prefixes that do not overlap share no address. *)
Lemma overlaps_disjoint p q a : valid_prefix p → valid_prefix q → overlaps p q = false →
  prefix_contains p a = true → prefix_contains q a = true → False.
Proof.
  intros [_ Hp] [_ Hq] Ho Hpa Hqa. unfold overlaps in Ho.
  destruct (Z.eqb_spec (Z.min (p_bits p) (p_bits q)) 0); [done|]. apply Z.eqb_neq in Ho. apply Ho.
  rewrite <- (contains_mono p a), <- (contains_mono q a) by (lia || done). done.
Qed.

(** ** Networks *)

Lemma mask_bits_spec n a : 0 ≤ n ≤ 32 → mask_bits n a = a / 2 ^ (32 - n) * 2 ^ (32 - n).
Proof. intros. unfold mask_bits. by rewrite Z.shiftl_mul_pow2, Z.shiftr_div_pow2 by lia. Qed.

Lemma masked_valid p : valid_prefix p → valid_prefix (masked p).
Proof.
  intros [Ha Hb]. split; [|done]. unfold valid_addr, masked in *. cbn. rewrite mask_bits_spec by done.
  assert (0 < 2 ^ (32 - p_bits p)) by (apply Z.pow_pos_nonneg; lia).
  pose proof (Z.div_mod (p_addr p) (2 ^ (32 - p_bits p)) ltac:(lia)).
  pose proof (Z.mod_pos_bound (p_addr p) (2 ^ (32 - p_bits p)) ltac:(lia)).
  pose proof (Z.div_pos (p_addr p) (2 ^ (32 - p_bits p))). nia.
Qed.

Lemma masked_masked p : 0 ≤ p_bits p ≤ 32 → masked (masked p) = masked p.
Proof.
  intros. unfold masked. cbn. f_equal. rewrite !mask_bits_spec by done.
  rewrite Z.div_mul; [done|]. apply Z.pow_nonzero; lia.
Qed.

Lemma masked_contains p a : 0 ≤ p_bits p ≤ 32 → prefix_contains (masked p) a = prefix_contains p a.
Proof.
  intros Hb. apply eq_bool_prop_intro. rewrite !Is_true_true, !prefix_contains_spec by done.
  unfold masked. cbn. rewrite mask_bits_spec, Z.div_mul by (try done; apply Z.pow_nonzero; lia). done.
Qed.

(** Of two networks that share an address, the wider contains the narrower. *)
Lemma wider_contains p q a b : valid_prefix p → valid_prefix q → p_bits p ≤ p_bits q →
  prefix_contains p a = true → prefix_contains q a = true → prefix_contains q b = true → prefix_contains p b = true.
Proof.
  intros [_ Hp] [_ Hq] Hle Hpa Hqa Hqb. rewrite prefix_contains_spec in Hpa, Hqa, Hqb |- * by done. rewrite <- Hpa.
  assert (2 ^ (32 - p_bits p) = 2 ^ (32 - p_bits q) * 2 ^ (p_bits q - p_bits p)) as ->
    by (rewrite <- Z.pow_add_r by lia; f_equal; lia).
  rewrite <- !Z.div_div by (try apply Z.pow_nonzero; try apply Z.pow_pos_nonneg; lia). by rewrite Hqb, Hqa.
Qed.

Lemma base_contained p : valid_prefix p → prefix_contains p (p_addr (masked p)) = true.
Proof.
  intros [_ Hp]. rewrite prefix_contains_spec by done. cbn. rewrite mask_bits_spec by done. apply Z.div_mul, Z.pow_nonzero; lia.
Qed.

(** Two networks that share an address: the base of one is in the other. *)
Lemma networks_meet p q a : valid_prefix p → valid_prefix q →
  prefix_contains p a = true → prefix_contains q a = true →
  prefix_contains p (p_addr (masked q)) = true ∨ prefix_contains q (p_addr (masked p)) = true.
Proof.
  intros Hp Hq Hpa Hqa. destruct (Z.le_ge_cases (p_bits p) (p_bits q)); [left|right].
  - eapply (wider_contains p q a); eauto using base_contained.
  - eapply (wider_contains q p a); eauto using base_contained.
Qed.

(** The base of the second is in the first, or all of the first in the second. *)
Lemma networks_nested p q a b : valid_prefix p → valid_prefix q →
  prefix_contains p a = true → prefix_contains q a = true → prefix_contains p b = true →
  prefix_contains p (p_addr (masked q)) = true ∨ prefix_contains q b = true.
Proof.
  intros Hp Hq Hpa Hqa Hb. destruct (Z.le_ge_cases (p_bits p) (p_bits q)); [left|right].
  - eapply (wider_contains p q a); eauto using base_contained.
  - by eapply (wider_contains q p a b).
Qed.

Lemma address_contained p : valid_prefix p → prefix_contains p (p_addr p) = true.
Proof. intros [_ Hp]. by rewrite prefix_contains_spec. Qed.

Lemma net_parse_cidr_valid s p m : net_parse_cidr s = Some (CIDR4 p m) → valid_prefix p.
Proof.
  unfold net_parse_cidr. destruct (last_slash s) as [[a [|c b]]|]; [done| |done].
  intros (bits & Hb & Hs)%bind_Some. apply scan_digits_nonneg in Hb; [|done].
  destruct (parse_addr a) as [addr|] eqn:Ea.
  - apply parse_addr_valid in Ea. destruct (Z.leb_spec bits 32); [|done]. by simplify_eq.
  - apply bind_Some in Hs as (ip & Hip & Hs). destruct (Z.leb_spec bits 128); [|done].
    destruct (to4 ip) as [addr|] eqn:E4; [|done]. destruct (Z.leb_spec 96 bits); [|done]. simplify_eq.
    split; cbn; [|lia]. unfold parse_ip6 in Hip. destruct (addr_syntax a); [|done].
    destruct (_ && _); [|done]. apply parse_ipv6_bytes in Hip. by eapply to4_valid.
Qed.

Lemma parse_cidr_Some s p : parse_cidr s = Some p ↔ ∃ m, net_parse_cidr s = Some (CIDR4 p m).
Proof.
  unfold parse_cidr. destruct (net_parse_cidr s) as [[q m|]|]; cbn; naive_solver.
Qed.

Lemma parse_cidr_valid s p : parse_cidr s = Some p → valid_prefix p.
Proof. intros [m Hm]%parse_cidr_Some. by eapply net_parse_cidr_valid. Qed.

(** The dotted texts of addresses and prefixes. *)
Definition dotted_byte (c : ascii) : bool := is_digit c || contains_byte "./" c.

Lemma digits_dotted s : sall is_digit s = true → sall dotted_byte s = true.
Proof. apply sall_mono. intros c Hc. unfold dotted_byte. by rewrite Hc. Qed.

Lemma addr_string_digits a : valid_addr a → ∃ o0 o1 o2 o3,
  Forall (fun s => sall is_digit s = true) [o0; o1; o2; o3]
  ∧ addr_string a = o0 +:+ "." +:+ o1 +:+ "." +:+ o2 +:+ "." +:+ o3.
Proof.
  intros Ha. pose proof (octet_range a 0 ltac:(lia)). pose proof (octet_range a 1 ltac:(lia)).
  pose proof (octet_range a 2 ltac:(lia)). pose proof (octet_range a 3 ltac:(lia)).
  exists (itoa (octet a 0)), (itoa (octet a 1)), (itoa (octet a 2)), (itoa (octet a 3)).
  split; [|done]. rewrite !itoa_nonneg by lia.
  repeat first [apply Forall_cons_2; [apply format_uint_digits; lia|]|apply Forall_nil_2].
Qed.

Lemma dotted_inert s : sall dotted_byte s = true → sall inert_byte s = true.
Proof.
  apply sall_mono. intros c Hc.
  assert (negb (dotted_byte c) || inert_byte c = true) as Hi by (clear; revert c; apply byte_cases; by vm_compute).
  by rewrite Hc in Hi.
Qed.

Lemma addr_string_no_slash a : valid_addr a → contains_byte (addr_string a) "/" = false.
Proof.
  intros (o0&o1&o2&o3&Hd&->)%addr_string_digits. rewrite !Forall_cons_iff in Hd. destruct Hd as (?&?&?&?&_).
  assert (∀ s t, sall is_digit s = true → contains_byte t "/" = false → contains_byte (s +:+ t) "/" = false) as Hs.
  { intros s t Hs Ht. induction s as [|c s IH]; [by rewrite app_nil_l_s|]. rewrite app_cons_s. cbn [sall] in Hs.
    apply andb_true_iff in Hs as [Hc Hs]. unfold contains_byte in *. cbn [sany].
    destruct (Ascii.eqb_spec "/" c) as [<-|]; [done|]. by apply IH. }
  rewrite <- (app_nil_r_s o3). repeat (apply Hs; [done|]; try (rewrite app_cons_s, app_nil_l_s; unfold contains_byte; cbn [sany]; fold (contains_byte))); done.
Qed.

Lemma last_slash_none s : contains_byte s "/" = false → last_slash s = None.
Proof.
  unfold contains_byte. induction s as [|c s IH]; cbn [sany last_slash]; [done|].
  intros [Hc Hs]%orb_false_iff. rewrite IH by done. rewrite Ascii.eqb_sym in Hc. by rewrite Hc.
Qed.

Lemma last_slash_app a b : contains_byte b "/" = false → last_slash (a +:+ "/" +:+ b) = Some (a, b).
Proof.
  intros Hb. induction a as [|c a IH].
  - rewrite app_nil_l_s, app_cons_s, app_nil_l_s. cbn [last_slash]. by rewrite last_slash_none.
  - rewrite app_cons_s. cbn [last_slash]. by rewrite IH.
Qed.

Lemma digits_no_byte s c : sall is_digit s = true → is_digit c = false → contains_byte s c = false.
Proof.
  unfold contains_byte. intros Hs Hc. induction s as [|d s IH]; cbn in *; [done|].
  apply andb_true_iff in Hs as [Hd Hs]. destruct (Ascii.eqb_spec c d) as [->|]; [congruence|]. by apply IH.
Qed.

Lemma parse_prefix_text p : valid_prefix p → net_parse_cidr (prefix_string p) = Some (CIDR4 p false).
Proof.
  intros [Ha Hb]. unfold net_parse_cidr, prefix_string. rewrite itoa_nonneg by lia.
  pose proof (format_uint_digits (p_bits p) ltac:(lia)) as Hd.
  rewrite last_slash_app by by apply digits_no_byte.
  pose proof (format_uint_ne (p_bits p)). destruct (format_uint (p_bits p)) as [|c b] eqn:Eb; [done|].
  rewrite <- Eb, scan_format_uint by lia. cbn. rewrite parse_addr_string by done.
  destruct (Z.leb_spec (p_bits p) 32); [|lia]. by destruct p.
Qed.

Lemma prefix_text_inert p : valid_prefix p → sall inert_byte (prefix_string p) = true.
Proof.
  intros [(o0&o1&o2&o3&Hd&Es)%addr_string_digits Hb]. rewrite !Forall_cons_iff in Hd. destruct Hd as (?&?&?&?&_).
  apply dotted_inert. unfold prefix_string. rewrite Es, itoa_nonneg by lia.
  pose proof (format_uint_digits (p_bits p) ltac:(lia)).
  rewrite !sall_app, !(digits_dotted o0), !(digits_dotted o1), !(digits_dotted o2), !(digits_dotted o3) by done.
  by rewrite (digits_dotted (format_uint _)).
Qed.

Lemma prefix_text_split p : valid_prefix p → hd "" (split (prefix_string p) "/") = addr_string (p_addr p).
Proof.
  intros [Ha _]. unfold prefix_string. rewrite app_cons_s, app_nil_l_s, split_sep.
  by rewrite split_none by by apply addr_string_no_slash.
Qed.

Lemma addr_syntax_app s t c : addr_syntax s = Some c → addr_syntax (s +:+ t) = Some c.
Proof.
  induction s as [|d s IH]; [done|]. rewrite app_cons_s. cbn [addr_syntax]. by destruct (contains_byte _ d).
Qed.

Lemma addr_syntax_hd s sep c : addr_syntax (hd "" (split s sep)) = Some c → addr_syntax s = Some c.
Proof.
  induction s as [|d s IH]; [done|]. cbn [split]. destruct (Ascii.eqb d sep); [done|].
  destruct (split s sep) as [|w ws] eqn:E; [by apply split_nonempty in E|]. cbn [hd addr_syntax] in *.
  destruct (contains_byte _ d); [done|]. exact IH.
Qed.

Lemma addr_string_syntax a : valid_addr a → addr_syntax (addr_string a) = Some "."%char.
Proof.
  intros Ha%parse_addr_string. unfold parse_addr in Ha. destruct (addr_syntax _) as [c|]; [|done].
  destruct (Ascii.eqb_spec c "."); [congruence|done].
Qed.

(** A dotted address in front of the slash is the address of the prefix. *)
Lemma cidr_text_address s p m a : net_parse_cidr s = Some (CIDR4 p m) → valid_addr a →
  hd "" (split s "/") = addr_string a → p_addr p = a.
Proof.
  intros Hc Ha Hs. unfold net_parse_cidr in Hc. destruct (last_slash s) as [[t [|c b]]|] eqn:El; [done| |done].
  apply last_slash_spec in El. cbn beta in Hc. apply bind_Some in Hc as (bits&_&Hc). destruct (parse_addr t) as [addr|] eqn:Et.
  - destruct (bits <=? 32); [|done]. injection Hc as <- _. cbn. pose proof (parse_addr_sound _ _ Et) as [Hv Hst].
    subst s. change ("/" +:+ String c b) with (String "/" (String c b)) in Hs. rewrite split_sep in Hs.
    rewrite split_none in Hs by (rewrite <- Hst; by apply addr_string_no_slash). cbn in Hs. rewrite Hs in Et.
    rewrite parse_addr_string in Et by done. by injection Et.
  - exfalso. apply bind_Some in Hc as (ip&Hip&_). pose proof (addr_string_syntax a Ha) as Hx. rewrite <- Hs in Hx.
    apply addr_syntax_hd in Hx. subst s. unfold parse_ip6 in Hip. destruct (addr_syntax t) as [d|] eqn:Ed; [|done].
    rewrite (addr_syntax_app _ _ _ Ed) in Hx. by injection Hx as ->.
Qed.

(** ** Hardware addresses *)

Lemma hex_byte_range c d b : hex_byte c d = Some b → 0 ≤ b < 256.
Proof.
  unfold hex_byte. intros (h & ?%from_hex_range & (l & ?%from_hex_range & [= <-])%bind_Some)%bind_Some.
  lia.
Qed.

Lemma from_hex_char d : 0 ≤ d < 16 → from_hex (hex_char d) = Some d.
Proof.
  intros. assert (d = 0 ∨ d = 1 ∨ d = 2 ∨ d = 3 ∨ d = 4 ∨ d = 5 ∨ d = 6 ∨ d = 7 ∨ d = 8 ∨ d = 9
    ∨ d = 10 ∨ d = 11 ∨ d = 12 ∨ d = 13 ∨ d = 14 ∨ d = 15) by lia.
  destruct_or!; subst d; reflexivity.
Qed.

Lemma hex_byte_hex2 b : 0 ≤ b < 256 → hex_byte (hex_char (b / 16)) (hex_char (b mod 16)) = Some b.
Proof.
  intros. unfold hex_byte.
  rewrite !from_hex_char by (Z.div_mod_to_equations; lia). cbn. f_equal.
  Z.div_mod_to_equations. lia.
Qed.

Definition valid_mac (bs : list Z) : Prop := Forall (fun b => 0 ≤ b < 256) bs.

Lemma mac_groups1_range sep n s bs : (String.length s ≤ n)%nat → mac_groups1 sep s = Some bs → valid_mac bs.
Proof.
  revert s bs. induction n as [|n IH]; intros [|c [|d [|e s]]] bs Hl Hs; cbn in Hs, Hl; try lia; try done.
  - apply bind_Some in Hs as (b & ?%hex_byte_range & [= <-]).
    unfold valid_mac. rewrite !Forall_cons_iff. auto using Forall_nil.
  - destruct (Ascii.eqb e sep); [|done].
    apply bind_Some in Hs as (b & ?%hex_byte_range & (bs' & Hs & [= <-])%bind_Some).
    constructor; [done|]. eapply IH; [|exact Hs]. lia.
Qed.

Lemma mac_groups2_range n s bs : (String.length s ≤ n)%nat → mac_groups2 s = Some bs → valid_mac bs.
Proof.
  revert s bs. induction n as [|n IH]; intros [|c [|d [|e [|f [|g s]]]]] bs Hl Hs; cbn in Hs, Hl; try lia; try done.
  - apply bind_Some in Hs as (a & ?%hex_byte_range & (b & ?%hex_byte_range & [= <-])%bind_Some).
    unfold valid_mac. rewrite !Forall_cons_iff. auto using Forall_nil.
  - destruct (Ascii.eqb g "."); [|done].
    apply bind_Some in Hs as (a & ?%hex_byte_range & (b & ?%hex_byte_range & Hs)%bind_Some).
    apply bind_Some in Hs as (bs' & Hs & [= <-]).
    do 2 (constructor; [done|]). eapply IH; [|exact Hs]. lia.
Qed.

Lemma parse_mac_valid s bs : parse_mac s = Some bs → valid_mac bs.
Proof.
  unfold parse_mac. destruct (_ <? 14)%nat; [done|]. intros (bs' & Hb & Hs)%bind_Some.
  case_match; simplify_eq. repeat case_match; simplify_eq; try done.
  - by eapply mac_groups1_range.
  - by eapply mac_groups2_range.
Qed.

Lemma parse_mac_string bs : valid_mac bs → length bs = 6%nat → parse_mac (mac_string bs) = Some bs.
Proof.
  intros Hv Hl. destruct bs as [|b0 [|b1 [|b2 [|b3 [|b4 [|b5 [|]]]]]]]; try done.
  unfold valid_mac in Hv. rewrite !Forall_cons_iff in Hv. destruct Hv as (?&?&?&?&?&?&_).
  unfold mac_string, hex2. cbn [fmap list_fmap join].
  rewrite !app_cons_s, !app_nil_l_s. unfold parse_mac. cbn -[hex_byte hex_char].
  by rewrite !hex_byte_hex2.
Qed.
