(* ===== verification/SiteOperation.v ===== *)
(** * The journal of a deployment

    [internal/site/operation.go]: the state a running deployment records in
    [generated/operation.json], the record of the last deployment that passed
    verification in [generated/last-applied.json], and Go's RFC 3339 time
    syntax, which both are validated against.

    A site directory is the pair of the two files.  A file is missing, cannot
    be read as a document, or holds the document last written: [encoding/json]
    gives back what it was given, and [omitempty] only leaves out values that
    decode to themselves.  Writing and removing a file may fail, before or
    after its effect ([Call]); [pathguard] replaces a file as a whole. *)

From S2P Require Import Prelude GoStrings GoNet.
Open Scope Z_scope.

(** ** [time.Parse] with the layout [time.RFC3339Nano] *)
Module GoTime.

Definition is_leap (year : Z) : bool :=
  (year mod 4 =? 0) && (negb (year mod 100 =? 0) || (year mod 400 =? 0)).

Definition daysIn (month year : Z) : Z :=
  if month =? 2 then (if is_leap year then 29 else 28)
  else if bool_decide (month ∈ [4; 6; 9; 11]) then 30 else 31.

(** [getnum]: one or two digits, exactly two when [fixed]. *)
Definition getnum (fixed : bool) (s : string) : option (Z * string) :=
  match s with
  | String c (String d r) =>
      if negb (is_digit c) then None
      else if is_digit d then Some (digit_val c * 10 + digit_val d, r)
      else if fixed then None else Some (digit_val c, String d r)
  | String c EmptyString => if is_digit c && negb fixed then Some (digit_val c, EmptyString) else None
  | EmptyString => None
  end.

(** A literal of the layout. *)
Definition skip (c : ascii) (s : string) : option string :=
  match s with String d r => if Ascii.eqb c d then Some r else None | EmptyString => None end.

(** A number within its range. *)
Definition num (fixed : bool) (lo hi : Z) (s : string) : option (Z * string) :=
  match getnum fixed s with
  | Some (v, r) => if (lo <=? v) && (v <=? hi) then Some (v, r) else None
  | None => None
  end.

(** Four digits. *)
Definition year4 (s : string) : option (Z * string) :=
  match s with
  | String a (String b (String c (String d r))) =>
      if is_digit a && is_digit b && is_digit c && is_digit d
      then Some (((digit_val a * 10 + digit_val b) * 10 + digit_val c) * 10 + digit_val d, r) else None
  | _ => None
  end.

Fixpoint drop_digits (s : string) : string :=
  match s with String c r => if is_digit c then drop_digits r else s | EmptyString => EmptyString end.

(** The optional fraction of a second, after a point or a comma. *)
Definition fraction (s : string) : string :=
  match s with
  | String c (String d r) =>
      if (Ascii.eqb c "." || Ascii.eqb c ",") && is_digit d then drop_digits r else s
  | _ => s
  end.

(** [Z] or an offset [+hh:mm]; nothing may follow. *)
Definition zone (s : string) : bool :=
  match s with
  | String "Z" r => String.eqb r ""
  | String sign r =>
      (Ascii.eqb sign "+" || Ascii.eqb sign "-") &&
      match num true 0 24 r with
      | Some (_, String ":" r) =>
          match num true 0 60 r with Some (_, r) => String.eqb r "" | None => false end
      | _ => false
      end
  | EmptyString => false
  end.

(** [time.Parse(time.RFC3339Nano, s)] succeeds. *)
Definition parses (s : string) : bool :=
  match
    '(year, s) ← year4 s; s ← skip "-" s;
    '(month, s) ← num true 1 12 s; s ← skip "-" s;
    '(day, s) ← getnum true s; s ← skip "T" s;
    '(_, s) ← num false 0 23 s; s ← skip ":" s;
    '(_, s) ← num true 0 59 s; s ← skip ":" s;
    '(_, s) ← num true 0 59 s;
    Some ((1 <=? day) && (day <=? daysIn month year) && zone (fraction s))
  with Some ok => ok | None => false end.

Example parses_now : parses "2026-02-28T09:05:07.123456789Z" = true.
Proof. reflexivity. Qed.
Example parses_variants : map parses
  ["2024-02-29T23:59:59Z"; "2023-02-29T23:59:59Z"; "2024-02-29T9:05:07,5+24:00"; "2024-13-01T00:00:00Z"; ""; "2024-01-01 00:00:00Z"]
  = [true; false; true; false; false; false].
Proof. reflexivity. Qed.

End GoTime.

Module SiteOperation.

(** ** Calls that leave the process

    A call that succeeds has taken effect; one that fails may have. *)
Record Call := mkCall { call_error : option string; call_effect : bool }.

Definition takes_effect (c : Call) : bool :=
  match call_error c with None => true | Some _ => call_effect c end.

(** Runs a call whose effect on the world is [f]. *)
Definition attempt {S E : Type} (wrap : string → E) (c : Call) (f : S → S) : M S E unit := fun s =>
  (if takes_effect c then f s else s, match call_error c with None => Ok tt | Some e => Err (wrap e) end).

Definition done_call : Call := mkCall None true.

(** ** Data *)

Definition OperationStateVersion : Z := 1.

(** [OperationPhase] is a string type; a journal may hold any string. *)
Definition PhasePlan : string := "PLAN".
Definition PhaseApply : string := "APPLY".
Definition PhaseVerify : string := "VERIFY".
Definition PhaseCleanup : string := "CLEANUP".
Definition PhaseCommit : string := "COMMIT".
Definition PhaseFailed : string := "FAILED".

Record OperationGuest := mkOpGuest {
  og_Name : string;
  og_Kind : string;
  og_VMID : Z;
  og_Address : string;
}.

Record OperationState := mkOperation {
  os_Version : Z;
  os_ID : string;
  os_Kind : string;
  os_Phase : string;
  os_ModelRevision : string;
  os_PlanDigest : string;
  os_BundleDigest : string;
  os_StartedAt : string;
  os_UpdatedAt : string;
  os_Error : string;
  os_TemporaryPublicKey : string;
  os_TemporaryHostAddress : string;
  os_TemporaryCleanupGuests : list OperationGuest;
}.

Record LastAppliedState := mkLastApplied {
  la_Version : Z;
  la_ModelRevision : string;
  la_PlanDigest : string;
  la_BundleDigest : string;
  la_AppliedAt : string;
}.

(** ** Validation *)

Inductive StateError :=
| StateIncomplete
| GuestsWithoutKey
| HostWithoutKey
| KeyWithoutHost
| KeyControlCharacters
| HostNotCanonical (address : string)
| GuestIncomplete
| GuestKindUnsupported (kind : string)
| GuestControlCharacters
| GuestNotCanonical (address : string)
| GuestDuplicate (vmid : Z)
| NoPlanDigest
| PhaseUnsupported (phase : string)
| StartTimeInvalid (value : string)
| UpdateTimeInvalid (value : string)
| LastAppliedIncomplete
| AppliedTimeInvalid (value : string).

(** CR, LF and NUL. *)
Definition control_set : string := String (byte_of 13) (String (byte_of 10) (String (byte_of 0) EmptyString)).
Definition has_control (s : string) : bool := contains_any s control_set.

Definition guest_ok (guest : OperationGuest) : result StateError unit :=
  _ ← fail_if ((og_Name guest == "") || (og_VMID guest <=? 0) || (og_Address guest == "")) GuestIncomplete;
  _ ← fail_if ((og_Kind guest != "qemu") && (og_Kind guest != "lxc")) (GuestKindUnsupported (og_Kind guest));
  _ ← fail_if (has_control (og_Name guest +:+ og_Address guest)) GuestControlCharacters;
  fail_if (negb (canonical_ipv4 (og_Address guest))) (GuestNotCanonical (og_Address guest)).

Definition guest_step (seen : gset Z) (guest : OperationGuest) : result StateError (gset Z) :=
  _ ← guest_ok guest;
  _ ← fail_if (bool_decide (og_VMID guest ∈ seen)) (GuestDuplicate (og_VMID guest));
  Ok ({[og_VMID guest]} ∪ seen).

Definition phase_ok (state : OperationState) : result StateError unit :=
  if os_Phase state == PhasePlan then Ok tt
  else if bool_decide (os_Phase state ∈ [PhaseApply; PhaseVerify; PhaseCleanup; PhaseCommit])
  then fail_if (trim_space (os_PlanDigest state) == "") NoPlanDigest
  else if os_Phase state == PhaseFailed then Ok tt
  else Err (PhaseUnsupported (os_Phase state)).

Definition validateOperationState (state : OperationState) : result StateError unit :=
  let key := os_TemporaryPublicKey state in
  let host := os_TemporaryHostAddress state in
  _ ← fail_if ((os_Version state != OperationStateVersion) || (os_ID state == "") || (os_Kind state != "deploy") ||
               (os_ModelRevision state == "") || (os_StartedAt state == "") || (os_UpdatedAt state == "")) StateIncomplete;
  _ ← fail_if ((key == "") && negb (length (os_TemporaryCleanupGuests state) =? 0)%nat) GuestsWithoutKey;
  _ ← fail_if ((key == "") && (host != "")) HostWithoutKey;
  _ ← fail_if ((key != "") && (host == "")) KeyWithoutHost;
  _ ← fail_if (has_control key) KeyControlCharacters;
  _ ← fail_if ((host != "") && negb (canonical_ipv4 host)) (HostNotCanonical host);
  _ ← foldM guest_step ∅ (os_TemporaryCleanupGuests state);
  _ ← phase_ok state;
  _ ← fail_if (negb (GoTime.parses (os_StartedAt state))) (StartTimeInvalid (os_StartedAt state));
  fail_if (negb (GoTime.parses (os_UpdatedAt state))) (UpdateTimeInvalid (os_UpdatedAt state)).

Definition validateLastAppliedState (state : LastAppliedState) : result StateError unit :=
  _ ← fail_if ((la_Version state != OperationStateVersion) || (trim_space (la_ModelRevision state) == "") ||
               (trim_space (la_PlanDigest state) == "") || (la_AppliedAt state == "")) LastAppliedIncomplete;
  fail_if (negb (GoTime.parses (la_AppliedAt state))) (AppliedTimeInvalid (la_AppliedAt state)).

(** ** Files *)

Inductive File (A : Type) :=
| Missing
| Unreadable (e : string)
| Document (a : A).
Arguments Missing {A}.
Arguments Unreadable {A} e.
Arguments Document {A} a.

Record SiteDir := mkDir {
  sd_operation : File OperationState;
  sd_last : File LastAppliedState;
}.

Inductive OpError :=
| InvalidState (e : StateError)
| FileFailed (e : string).

Definition write_operation (state : OperationState) (dir : SiteDir) : SiteDir := mkDir (Document state) (sd_last dir).
Definition remove_operation (dir : SiteDir) : SiteDir := mkDir Missing (sd_last dir).
Definition write_last (state : LastAppliedState) (dir : SiteDir) : SiteDir := mkDir (sd_operation dir) (Document state).

(** The defaults [SaveOperationState] fills in; [now] is the current time. *)
Definition complete_state (now : string) (s : OperationState) : OperationState :=
  let updated := if os_UpdatedAt s == "" then now else os_UpdatedAt s in
  mkOperation (if os_Version s =? 0 then OperationStateVersion else os_Version s)
    (os_ID s) (os_Kind s) (os_Phase s) (os_ModelRevision s) (os_PlanDigest s) (os_BundleDigest s)
    (if os_StartedAt s == "" then updated else os_StartedAt s) updated (os_Error s)
    (os_TemporaryPublicKey s) (os_TemporaryHostAddress s) (os_TemporaryCleanupGuests s).

Definition SaveOperationState (now : string) (write : Call) (state : OperationState) : M SiteDir OpError unit :=
  let state := complete_state now state in
  _ ← of_result InvalidState (validateOperationState state);
  attempt FileFailed write (write_operation state).

(** [read] is the failure of reading the file, when there is one. *)
Definition LoadOperationState (read : option string) (dir : SiteDir) : result OpError (option OperationState) :=
  match read with
  | Some e => Err (FileFailed e)
  | None =>
      match sd_operation dir with
      | Missing => Ok None
      | Unreadable e => Err (FileFailed e)
      | Document state =>
          match validateOperationState state with Ok _ => Ok (Some state) | Err e => Err (InvalidState e) end
      end
  end.

Definition ClearOperationState (remove : Call) : M SiteDir OpError unit := attempt FileFailed remove remove_operation.

Definition SaveLastAppliedState (now : string) (write : Call) (state : LastAppliedState) : M SiteDir OpError unit :=
  let state := mkLastApplied (if la_Version state =? 0 then OperationStateVersion else la_Version state)
    (la_ModelRevision state) (la_PlanDigest state) (la_BundleDigest state)
    (if la_AppliedAt state == "" then now else la_AppliedAt state) in
  _ ← of_result InvalidState (validateLastAppliedState state);
  attempt FileFailed write (write_last state).

Definition LoadLastAppliedState (read : option string) (dir : SiteDir) : result OpError (option LastAppliedState) :=
  match read with
  | Some e => Err (FileFailed e)
  | None =>
      match sd_last dir with
      | Missing => Ok None
      | Unreadable e => Err (FileFailed e)
      | Document state =>
          match validateLastAppliedState state with Ok _ => Ok (Some state) | Err e => Err (InvalidState e) end
      end
  end.

(** ** Texts

    What [fmt] makes of a quoted value and of an error of [time.Parse]. *)
Class GoFormat := { quoted : string → string; time_error : string → string }.

(** The texts of the errors above. *)
Definition state_text `{GoFormat} (e : StateError) : string :=
  match e with
  | StateIncomplete => "operation state is incomplete"
  | GuestsWithoutKey => "operation state has cleanup guests without a temporary public key"
  | HostWithoutKey => "operation state has a temporary host address without a temporary public key"
  | KeyWithoutHost => "operation state has a temporary public key without a host address"
  | KeyControlCharacters => "operation state temporary public key contains control characters"
  | HostNotCanonical address => "operation state temporary host address " +:+ quoted address +:+ " is not a canonical IPv4 address"
  | GuestIncomplete => "operation state has an incomplete temporary cleanup guest"
  | GuestKindUnsupported kind => "operation state has unsupported temporary cleanup guest kind " +:+ quoted kind
  | GuestControlCharacters => "operation state temporary cleanup guest contains control characters"
  | GuestNotCanonical address =>
      "operation state temporary cleanup guest address " +:+ quoted address +:+ " is not a canonical IPv4 address"
  | GuestDuplicate vmid => "operation state contains duplicate temporary cleanup guest VMID " +:+ itoa vmid
  | NoPlanDigest => "operation state has no plan digest after PLAN"
  | PhaseUnsupported phase => "unsupported operation phase " +:+ quoted phase
  | StartTimeInvalid value => "operation start time is invalid: " +:+ time_error value
  | UpdateTimeInvalid value => "operation update time is invalid: " +:+ time_error value
  | LastAppliedIncomplete => "last-applied state is incomplete"
  | AppliedTimeInvalid value => "last-applied time is invalid: " +:+ time_error value
  end.

Definition op_text `{GoFormat} (e : OpError) : string :=
  match e with InvalidState e => state_text e | FileFailed e => e end.

(** ** Facts *)

Lemma attempt_cases {S E : Type} (wrap : string → E) c (f : S → S) s s' r : attempt wrap c f s = (s', r) →
  (r = Ok tt ∧ s' = f s) ∨ (∃ e, call_error c = Some e ∧ r = Err (wrap e) ∧ (s' = s ∨ s' = f s)).
Proof.
  unfold attempt, takes_effect. destruct (call_error c) as [e|]; intros [= <- <-]; [|by left].
  right. exists e. split_and!; [done..|]. destruct (call_effect c); auto.
Qed.

Lemma attempt_done {S E : Type} (wrap : string → E) (f : S → S) s : attempt wrap done_call f s = (f s, Ok tt).
Proof. done. Qed.

(** The guests of a valid state: each one identified, and all of them distinct. *)
Lemma guest_loop guests seen s : foldM guest_step seen guests = Ok s →
  NoDup (map og_VMID guests) ∧ Forall (fun g => guest_ok g = Ok tt ∧ og_VMID g ∉ seen) guests.
Proof.
  revert seen. induction guests as [|g guests IH]; intros seen; cbn.
  { intros _. split; constructor. }
  intros (seen' & Hg & Hrest)%bind_ok. apply bind_ok in Hg as ([] & Hok & ([] & Hdup%fail_if_ok & [= <-])%bind_ok). bools.
  destruct (IH _ Hrest) as [Hnd Hall]. split.
  - constructor; [|done]. rewrite list_elem_of_In, in_map_iff. intros (x & Ex & Hx%list_elem_of_In).
    rewrite Forall_forall in Hall. destruct (Hall x Hx) as [_ Hn]. set_solver.
  - constructor; [done|]. eapply Forall_impl; [exact Hall|]. cbn. set_solver.
Qed.

Lemma guest_loop_ok guests seen : NoDup (map og_VMID guests) → Forall (fun g => guest_ok g = Ok tt ∧ og_VMID g ∉ seen) guests →
  is_ok (foldM guest_step seen guests) = true.
Proof.
  revert seen. induction guests as [|g guests IH]; intros seen Hnd Hall; [done|]. cbn in Hnd. inversion Hnd as [|? ? Hn Hnd']; subst.
  inversion Hall as [|? ? [Hok Hs] Hall']; subst. assert (guest_step seen g = Ok ({[og_VMID g]} ∪ seen)) as Est by (unfold guest_step; rewrite Hok; cbn; by rewrite bool_decide_false).
  change (is_ok (guest_step seen g ≫= fun s => foldM guest_step s guests) = true). rewrite Est. apply IH; [done|]. rewrite Forall_forall in *. intros x Hx. destruct (Hall' x Hx) as [Hxo Hxs].
  split; [done|]. rewrite not_elem_of_union, not_elem_of_singleton. split; [|done]. intros E. apply Hn. rewrite <- E.
  exact (list_elem_of_fmap_2 og_VMID _ _ Hx).
Qed.

(** What validation reads apart from the phase, the error and the times. *)
Record same_target (a b : OperationState) : Prop := {
  st_id : os_Version a = os_Version b ∧ os_ID a = os_ID b ∧ os_Kind a = os_Kind b ∧ os_ModelRevision a = os_ModelRevision b;
  st_digest : os_PlanDigest a = os_PlanDigest b;
  st_started : os_StartedAt a = os_StartedAt b;
  st_key : os_TemporaryPublicKey a = os_TemporaryPublicKey b;
  st_host : os_TemporaryHostAddress a = os_TemporaryHostAddress b;
  st_guests : os_TemporaryCleanupGuests a = os_TemporaryCleanupGuests b;
}.

Lemma validate_moved a b : validateOperationState a = Ok tt → same_target a b → phase_ok b = Ok tt →
  os_UpdatedAt b ≠ "" → GoTime.parses (os_UpdatedAt b) = true → validateOperationState b = Ok tt.
Proof.
  intros Ha [(Ev & Ei & Ek & Em) Ed Es Ekey Eh Eg] Hp Hu Ht. unfold validateOperationState in *.
  rewrite <- Ev, <- Ei, <- Ek, <- Em, <- Es, <- Ekey, <- Eh, <- Eg, Hp, Ht.
  apply bind_ok in Ha as ([] & H1 & ([] & H2 & ([] & H3 & ([] & H4 & ([] & H5 & ([] & H6 & (seen & H7 & ([] & H8 & ([] & H9 & _)%bind_ok)%bind_ok)%bind_ok)%bind_ok)%bind_ok)%bind_ok)%bind_ok)%bind_ok).
  rewrite H2, H3, H4, H5, H6, H7. cbn. rewrite H9. apply fail_if_ok in H1. rewrite fail_if_ok in H9.
  assert (((os_Version a != OperationStateVersion) || (os_ID a == "") || (os_Kind a != "deploy") || (os_ModelRevision a == "") ||
    (os_StartedAt a == "") || (os_UpdatedAt b == "")) = false) as ->; [|done].
  rewrite !orb_false_iff in *. destruct_and!. split_and!; try done. by rewrite bool_decide_false.
Qed.

Lemma valid_guests s : validateOperationState s = Ok tt →
  NoDup (map og_VMID (os_TemporaryCleanupGuests s)) ∧ Forall (fun g => guest_ok g = Ok tt) (os_TemporaryCleanupGuests s).
Proof.
  intros (_ & _ & (_ & _ & (_ & _ & (_ & _ & (_ & _ & (_ & _ & (seen & Hl & _)%bind_ok)%bind_ok)%bind_ok)%bind_ok)%bind_ok)%bind_ok)%bind_ok.
  destruct (guest_loop _ _ _ Hl) as [Hnd Hall]. split; [done|]. eapply Forall_impl; [exact Hall|]. by intros g [? _].
Qed.

(** A journal without a key names no target. *)
Lemma valid_keyless s : validateOperationState s = Ok tt → os_TemporaryPublicKey s = "" →
  os_TemporaryCleanupGuests s = [] ∧ os_TemporaryHostAddress s = "".
Proof.
  intros (_ & _ & (_ & H2%fail_if_ok & (_ & H3%fail_if_ok & _)%bind_ok)%bind_ok)%bind_ok Hk.
  rewrite (bool_decide_true _ Hk) in H2, H3. rewrite andb_true_l in H2, H3. bools. split; [by destruct (os_TemporaryCleanupGuests s)|done].
Qed.

(** Saving either leaves the directory alone or replaces the journal by a valid
    state, which the next run loads. *)
Lemma SaveOperationState_cases now write state dir dir' r : SaveOperationState now write state dir = (dir', r) →
  (r = Ok tt → dir' = write_operation (complete_state now state) dir)
  ∧ (dir' = dir ∨ (dir' = write_operation (complete_state now state) dir ∧ validateOperationState (complete_state now state) = Ok tt)).
Proof.
  unfold SaveOperationState. destruct (validateOperationState _) as [[]|e] eqn:Hv; cbn; [|intros [= <- <-]; split; [done|by left]].
  intros H. apply attempt_cases in H as [[-> ->]|(e & _ & -> & [-> | ->])]; (split; [done|]); auto.
Qed.

Lemma SaveOperationState_loads now write state dir dir' :
  SaveOperationState now write state dir = (dir', Ok tt) → LoadOperationState None dir' = Ok (Some (complete_state now state)).
Proof.
  unfold SaveOperationState. destruct (validateOperationState _) as [[]|e] eqn:Hv; cbn; [|by intros [=]].
  intros H. apply attempt_cases in H as [[_ ->]|(e & _ & [=] & _)]. cbn. by rewrite Hv.
Qed.

Lemma SaveLastAppliedState_journal now write state dir dir' r : SaveLastAppliedState now write state dir = (dir', r) →
  sd_operation dir' = sd_operation dir.
Proof.
  unfold SaveLastAppliedState. destruct (validateLastAppliedState _) as [[]|e]; cbn; [|by intros [= <- _]].
  intros H. by apply attempt_cases in H as [[_ ->]|(e & _ & _ & [-> | ->])].
Qed.

End SiteOperation.
