(* ===== verification/Model.v ===== *)
(** * The site model ([internal/model/model.go]) read by the other components

    The whole desired state of a site: gateway bindings, zones, hardware
    identity, components, resolved modules and their declarations, and the
    operator's reservations, DNS records and firewall rules.  Identity
    predicates (labels, ownership tags, stable devices, managed MAC addresses)
    are modelled whole. *)

From S2P Require Export Prelude GoStrings GoNet.

Open Scope Z_scope.

Module Model.

(** ** Data *)

Inductive ZoneType :=
| ZoneTypeTransit | ZoneTypeInfrastructure | ZoneTypeServers
| ZoneTypeTrusted | ZoneTypeSandbox | ZoneTypeManagement
| ZoneTypeOther (s : string).
#[export] Instance ZoneType_eq_dec : EqDecision ZoneType.
Proof. solve_decision. Defined.

(** The Go constants behind the constructors; any other string is [ZoneTypeOther]. *)
Definition zone_type_string (t : ZoneType) : string :=
  match t with
  | ZoneTypeTransit => "transit" | ZoneTypeInfrastructure => "infrastructure"
  | ZoneTypeServers => "servers" | ZoneTypeTrusted => "trusted"
  | ZoneTypeSandbox => "sandbox" | ZoneTypeManagement => "management"
  | ZoneTypeOther s => s
  end.

Record Zone := mkZone {
  z_Name : string;
  z_Type : ZoneType;
  z_VLAN : Z;
  z_Network : string;
  z_Gateway : string;
  z_AddressMode : string;
  z_DNSAddresses : list string;
  z_NTPAddresses : list string;
}.

Record Gateway := mkGateway {
  gw_Mode : string;
  gw_UpstreamMode : string;
  gw_UpstreamMAC : string;
  gw_ManagementAddress : string;
  gw_ManagementNetwork : string;
  gw_ManagementGateway : string;
  gw_ControllerAddress : string;
  gw_Publish : list string;
}.

Record PhysicalNIC := mkNIC { nic_Name : string; nic_PermanentMAC : string; nic_PCIAddress : string }.
Record PhysicalNetwork := mkPhysical { pn_Upstream : PhysicalNIC; pn_Trunk : PhysicalNIC; pn_Mode : string }.

Record SecretMetadata := mkSecrets {
  sm_InstallationID : string;
  sm_AgeRecipient : string;
  sm_RootAgeRecipient : string;
}.

Record OwnershipPolicy := mkOwnership {
  op_PlatformGuestIDMin : Z;
  op_PlatformGuestIDMax : Z;
  op_ModuleGuestIDMin : Z;
  op_ModuleGuestIDMax : Z;
  op_UserGuestIDMin : Z;
  op_UserGuestIDMax : Z;
  op_UserWorkloadsManaged : bool;
}.
#[export] Instance OwnershipPolicy_eq_dec : EqDecision OwnershipPolicy.
Proof. solve_decision. Defined.

Record PKIMetadata := mkPKI {
  pki_RootCommonName : string;
  pki_RootFingerprint : string;
  pki_RootExpiry : string;
  pki_IssuingCommonName : string;
  pki_IssuingFingerprint : string;
  pki_IssuingExpiry : string;
}.

Record Component := mkComponent {
  c_Name : string;
  c_VMID : Z;
  c_Hostname : string;
  c_Zone : string;
  c_Address : string;
  c_Role : string;
  c_DNSAliases : list string;
  c_URL : string;
  c_SSHUser : string;
  c_SSHPort : Z;
  c_Monitoring : bool;
  c_Backup : bool;
  c_Tags : list string;
  c_MTLS : bool;
  c_SSHManaged : bool;
  c_JumpAllowed : bool;
  c_ProductOwned : bool;
  c_Module : string;
  c_Logging : bool;
  c_MAC : string;
}.

Record Network := mkNetwork { n_Domain : string; n_Zones : list Zone }.

Record BifrostUpstreamConfig := mkBifrostUpstream { bu_Name : string; bu_BaseURL : string; bu_APIKeySecret : string }.
Record BifrostModelConfig := mkBifrostModel { bm_Alias : string; bm_Upstream : string; bm_Model : string }.

Record ModuleConfig := mkModuleConfig {
  mc_QBittorrentPort : Z;
  mc_TailnetTrustedClients : list string;
  mc_Enabled : option bool;
  mc_Network : string;
  mc_Servers : string;
  mc_ModelAlias : string;
  mc_Upstreams : list BifrostUpstreamConfig;
  mc_Models : list BifrostModelConfig;
}.

(** A capability is [Some enabled] when its block is present. *)
Record CompanionConfig := mkCompanion {
  cc_Enabled : option bool;
  cc_EthernetMAC : string;
  cc_Display : option (option bool);
  cc_StreamDeck : option (option bool);
  cc_StreamDeckSerial : string;
}.

Record USBExportBinding := mkUSBExport {
  ub_Module : string;
  ub_Requirement : string;
  ub_Port : string;
  ub_VendorID : string;
  ub_ProductID : string;
  ub_Serial : string;
}.

Record USBRequirement := mkUSBRequirement {
  ur_Name : string;
  ur_Guest : string;
  ur_DeviceType : string;
  ur_Access : string;
  ur_Required : bool;
  ur_AllowedIdentities : list (string * string);
}.

Record ResolvedModule := mkResolved {
  rm_Name : string;
  rm_Version : string;
  rm_Policy : string;
  rm_Enabled : bool;
  rm_Reason : string;
  rm_State : string;
  rm_DependsOn : list string;
  rm_Requires : list string;
  rm_Provides : list string;
}.

Record PersistentVolume := mkVolume {
  pv_Name : string;
  pv_Module : string;
  pv_Guest : string;
  pv_SizeGiB : Z;
  pv_MountPath : string;
  pv_Placement : string;
  pv_Backup : bool;
  pv_Storage : string;
}.

Record PersistentState := mkPersistent {
  ps_Name : string;
  ps_Guest : string;
  ps_Path : string;
  ps_Kind : string;
  ps_Backup : bool;
  ps_Sensitive : bool;
  ps_Replacement : string;
}.

Record SecretDeclaration := mkSecretDeclaration {
  sd_Name : string;
  sd_Purpose : string;
  sd_Consumer : string;
  sd_Generation : string;
  sd_Rotation : string;
  sd_Delivery : string;
  sd_Lifecycle : string;
  sd_Persistent : bool;
}.

Record DeviceRequirement := mkDevice {
  dr_Name : string;
  dr_Path : string;
  dr_Type : string;
  dr_Major : Z;
  dr_Minor : Z;
  dr_Access : string;
}.

Record GuestSecurity := mkSecurity {
  gs_Unprivileged : bool;
  gs_Devices : list DeviceRequirement;
  gs_Capabilities : list string;
}.

Record NetworkIntent := mkIntent {
  ni_Source : string;
  ni_Destination : string;
  ni_Endpoint : string;
  ni_Protocol : string;
  ni_Ports : list string;
  ni_Direction : string;
  ni_Purpose : string;
}.

(** A DNS record of a module declaration. *)
Record ModuleDNSRecord := mkModuleDNS { mr_Name : string; mr_Type : string; mr_Address : string; mr_Owner : string }.

Record DHCPReservation := mkSiteReservation {
  dh_DNSOverride : string;
  dh_NTPOverride : string;
  dh_Zone : string;
  dh_Hostname : string;
  dh_Address : string;
  dh_MAC : string;
  dh_VMID : Z;
}.
#[export] Instance DHCPReservation_eq_dec : EqDecision DHCPReservation.
Proof. solve_decision. Defined.

Record UserDNSRecord := mkUserDNS { ud_Name : string; ud_Type : string; ud_Value : string }.

(** A record that was removed from the site and is still to be deleted from the
    server; kept outside the serialised site. *)
Record DNSDeletion := mkDeletion { dd_Name : string; dd_Type : string }.

Record UserFirewallRule := mkUserRule {
  fr_ID : string;
  fr_Source : string;
  fr_Destination : string;
  fr_Protocol : string;
  fr_Ports : list string;
}.

Record CertificateRequest := mkCertificate { cr_Identity : string; cr_SANs : list string; cr_Consumer : string }.
Record MonitoringDeclaration := mkMonitoring {
  mn_Name : string; mn_Kind : string; mn_Target : string; mn_Checks : list string; mn_Description : string;
}.
Record BackupDeclaration := mkBackup { bk_Guest : string; bk_Policy : string }.

Record Artifact := mkArtifact {
  ar_Name : string;
  ar_Version : string;
  ar_Architecture : string;
  ar_Kind : string;
  ar_DefinitionSHA256 : string;
  ar_ContentSHA256 : string;
}.

Record ModuleDeclaration := mkDeclaration {
  md_Module : string;
  md_Artifact : Artifact;
  md_Guests : list Component;
  md_Persistent : list PersistentState;
  md_Volumes : list PersistentVolume;
  md_Secrets : list SecretDeclaration;
  md_NetworkIntents : list NetworkIntent;
  md_DNSRecords : list ModuleDNSRecord;
  md_DHCPReservations : list DHCPReservation;
  md_Certificates : list CertificateRequest;
  md_Monitoring : list MonitoringDeclaration;
  md_Backups : list BackupDeclaration;
  md_Security : GuestSecurity;
  md_USBRequirements : list USBRequirement;
  md_AdvertisedRoutes : list string;
  md_ReturnRouting : list string;
}.

Record RetainedModule := mkRetained {
  rt_Module : string;
  rt_Disposition : string;
  rt_Active : bool;
  rt_Guests : list Component;
  rt_Persistent : list PersistentState;
}.

Record Site := mkSite {
  s_APIVersion : string;
  s_PlatformVersion : string;
  s_SchemaVersion : Z;
  s_StorageProfile : string;
  s_StorageDevice : string;
  s_Gateway : Gateway;
  s_LogicalProxmoxIdentity : string;
  s_BootstrapAddress : string;
  s_SSHIdentityFile : string;
  s_PhysicalNetwork : PhysicalNetwork;
  s_TestedGateway : string;
  s_Network : Network;
  s_PKI : PKIMetadata;
  s_SecretMetadata : SecretMetadata;
  s_Ownership : OwnershipPolicy;
  s_Components : list Component;
  s_Modules : list ResolvedModule;
  s_ModuleConfig : gmap string ModuleConfig;
  s_Companion : option CompanionConfig;
  s_Declarations : list ModuleDeclaration;
  s_USBExports : list USBExportBinding;
  s_RetainedModules : list RetainedModule;
  s_DHCPReservations : list DHCPReservation;
  s_DNSRecords : list UserDNSRecord;
  s_UserFirewallRules : list UserFirewallRule;
  s_PendingDNSDeletions : list DNSDeletion;
}.
Definition s_InstallationID (s : Site) : string := sm_InstallationID (s_SecretMetadata s).
#[global] Arguments s_InstallationID !s /.

Definition APIVersion : string := "boetticher/v3".
Definition PlatformVersion : string := "0.1.0".
Definition SchemaVersion : Z := 3.
Definition QualifiedGatewayImage : string := "debian-13-genericcloud-amd64-20260327-2429".
Definition DefaultDomain : string := "lab.home.arpa".
Definition GatewayManagementAddress : string := "192.168.4.28".
Definition GatewayManagementNetwork : string := "192.168.4.0/22".
Definition GatewayManagementGateway : string := "192.168.4.1".
Definition GatewayControllerAddress : string := "192.168.4.6".
Definition DefaultGatewayUpstreamMAC : string := "02:00:00:00:01:01".
Definition ProxmoxManagementAddress : string := "10.10.99.5".
Definition LogicalProxmoxIdentity : string := "lab-proxmox-01".

(** ** Identity predicates *)

Definition alnum_lower (c : ascii) : bool := is_lower c || is_digit c.
Definition alnum (c : ascii) : bool := is_lower c || is_upper c || is_digit c.

Definition last_byte (s : string) : option ascii :=
  match String.rev s with String c _ => Some c | EmptyString => None end.
Definition first_byte (s : string) : option ascii :=
  match s with String c _ => Some c | EmptyString => None end.
Definition opt_test (p : ascii → bool) (o : option ascii) : bool :=
  match o with Some c => p c | None => false end.

(** [dnsLabelPattern]: [^[a-z0-9](?:[a-z0-9-]{0,61}[a-z0-9])?$]. *)
Definition dns_label_match (s : string) : bool :=
  (1 <=? len s) && (len s <=? 63)
  && sall (fun c => alnum_lower c || Ascii.eqb c "-") s
  && opt_test alnum_lower (first_byte s) && opt_test alnum_lower (last_byte s).

Definition IsDNSLabel `{GoUnicode} (value : string) : bool := dns_label_match (to_lower value).

(** [modelTokenPattern]: [^[A-Za-z0-9][A-Za-z0-9_.-]{0,253}$]. *)
Definition model_token_match (s : string) : bool :=
  match s with
  | EmptyString => false
  | String c r =>
      alnum c && (len r <=? 253)
      && sall (fun c => alnum c || contains_byte "_.-" c) r
  end.

Definition ModuleOwnershipTag (module : string) : string :=
  if negb (model_token_match module) then "" else "boetticher-module-" +:+ module.

(** Runes that are lower-case letters or digits are kept, every other rune
    (however many bytes it has) becomes one dash. *)
Definition BifrostSecretReferenceID `{GoUnicode} (reference : string) : string :=
  foldr (fun r s =>
    if ((97 <=? r) && (r <=? 122)) || ((48 <=? r) && (r <=? 57))
    then String (byte_of r) s else String "-" s) EmptyString (runes (to_lower reference)).

Inductive DeviceError := NotStableDevice | NotDirectDevice.

Definition stable_device_prefix : string := "/dev/disk/by-id/".
(** The characters of the [ContainsAny] set: slash, backslash, CR, LF, both
    quotes, space and tab. *)
Definition device_forbidden : string :=
  String "/" (String "092" (String "013" (String "010" (String "'" (String "034" (String " " (String "009" EmptyString))))))).

Definition ValidateStableDevice (device : string) : result DeviceError unit :=
  _ ← fail_if (negb (has_prefix device stable_device_prefix)) NotStableDevice;
  let suffix := trim_prefix device stable_device_prefix in
  fail_if ((suffix == "") || contains_any suffix device_forbidden
           || (suffix == ".") || (suffix == "..")) NotDirectDevice.

(** [fmt.Sprintf("02:00:00:00:01:%02x", position)] for one of seven NICs. *)
Definition GatewayInterfaceMAC (position : Z) : string :=
  if (position <? 1) || (position >? 7) then ""
  else if position =? 1 then DefaultGatewayUpstreamMAC
  else "02:00:00:00:01:" +:+ hex2 position.

Definition GatewayUpstreamMACConflicts `{GoUnicode} (value : string) : bool :=
  match parse_mac value with
  | Some parsed =>
      if negb (length parsed =? 6)%nat then true
      else existsb (fun position => to_lower (mac_string parsed) == GatewayInterfaceMAC position)
             [2; 3; 4; 5; 6; 7]
  | None => true
  end.

Inductive MACError := MACNotEthernet | MACNotUnicast | MACNotLocal | MACCollides.

Definition ValidateGatewayUpstreamMAC `{GoUnicode} (value : string) : result MACError unit :=
  match parse_mac value with
  | Some (b0 :: rest) =>
      _ ← fail_if (negb (length rest =? 5)%nat) MACNotEthernet;
      _ ← fail_if (negb (Z.land b0 1 =? 0)) MACNotUnicast;
      _ ← fail_if (Z.land b0 2 =? 0) MACNotLocal;
      fail_if (GatewayUpstreamMACConflicts value) MACCollides
  | _ => Err MACNotEthernet
  end.

(** ** Platform components *)

Definition PlatformComponents (s : Site) : list Component :=
  let declared := negb (length (s_Declarations s) =? 0)%nat in
  let own := filter (fun c => Is_true (c_ProductOwned c && (negb declared || (c_Module c == ""))))
               (s_Components s) in
  sort_by c_Name (own ++ concat (map md_Guests (s_Declarations s))).

Inductive ModelError := UnknownZoneType (t : ZoneType) | ZoneNotConfigured (t : ZoneType).

Definition validZoneType (t : ZoneType) : bool :=
  match t with ZoneTypeOther _ => false | _ => true end.

Definition ZoneForType (s : Site) (t : ZoneType) : result ModelError Zone :=
  _ ← fail_if (negb (validZoneType t)) (UnknownZoneType t);
  match List.find (fun z => z_Type z == t) (n_Zones (s_Network s)) with
  | Some z => Ok z
  | None => Err (ZoneNotConfigured t)
  end.

(** ** The seed site *)

Definition default_zones : list Zone := [
  mkZone "TRANSIT" ZoneTypeTransit 5 "10.10.5.0/24" "10.10.5.1" "none" [] [];
  mkZone "INFRA" ZoneTypeInfrastructure 10 "10.10.10.0/24" "10.10.10.1" "static" ["10.10.10.10"] ["10.10.10.10"];
  mkZone "SERVERS" ZoneTypeServers 20 "10.10.20.0/24" "10.10.20.1" "reservations-only" ["10.10.10.10"] ["10.10.10.10"];
  mkZone "TRUSTED" ZoneTypeTrusted 30 "10.10.30.0/24" "10.10.30.1" "dynamic-reservations" ["10.10.10.10"] ["10.10.10.10"];
  mkZone "SANDBOX" ZoneTypeSandbox 40 "10.10.40.0/24" "10.10.40.1" "dynamic" ["10.10.40.1"] ["10.10.40.1"];
  mkZone "MGMT" ZoneTypeManagement 99 "10.10.99.0/24" "10.10.99.1" "static" ["10.10.10.10"] ["10.10.10.10"]
].

Definition default_ownership : OwnershipPolicy := mkOwnership 100 199 200 499 500 899 false.

Definition NewSite (installationID ageRecipient gatewayMode : string) : Site := {|
  s_APIVersion := APIVersion;
  s_PlatformVersion := PlatformVersion;
  s_SchemaVersion := SchemaVersion;
  s_StorageProfile := "single-disk";
  s_StorageDevice := "";
  s_Gateway := mkGateway gatewayMode "dhcp" DefaultGatewayUpstreamMAC GatewayManagementAddress
    GatewayManagementNetwork GatewayManagementGateway GatewayControllerAddress [];
  s_LogicalProxmoxIdentity := LogicalProxmoxIdentity;
  s_BootstrapAddress := "";
  s_SSHIdentityFile := "";
  s_PhysicalNetwork := mkPhysical (mkNIC "" "" "") (mkNIC "" "" "") "virtual-only";
  s_TestedGateway := QualifiedGatewayImage;
  s_Network := mkNetwork DefaultDomain default_zones;
  s_PKI := mkPKI "" "" "" "" "" "";
  s_SecretMetadata := mkSecrets installationID ageRecipient (ageRecipient +:+ "-root");
  s_Ownership := default_ownership;
  s_Components := [
    mkComponent "lab-proxmox-01" 0 "lab-proxmox-01" "MGMT" ProxmoxManagementAddress "Proxmox host" []
      ("https://proxmox." +:+ DefaultDomain +:+ ":8006") "labadmin" 22 true true
      ["boetticher"; "managed"; "platform"; "infra"; "network"; "monitoring-agent"]
      false true false true "" false ""
  ];
  s_Modules := [];
  s_ModuleConfig := ∅;
  s_Companion := None;
  s_Declarations := [];
  s_USBExports := [];
  s_RetainedModules := [];
  s_DHCPReservations := [];
  s_DNSRecords := [];
  s_UserFirewallRules := [];
  s_PendingDNSDeletions := [];
|}.

Definition with_components (s : Site) (cs : list Component) : Site :=
  mkSite (s_APIVersion s) (s_PlatformVersion s) (s_SchemaVersion s) (s_StorageProfile s) (s_StorageDevice s)
    (s_Gateway s) (s_LogicalProxmoxIdentity s) (s_BootstrapAddress s) (s_SSHIdentityFile s) (s_PhysicalNetwork s)
    (s_TestedGateway s) (s_Network s) (s_PKI s) (s_SecretMetadata s) (s_Ownership s) cs (s_Modules s)
    (s_ModuleConfig s) (s_Companion s) (s_Declarations s) (s_USBExports s) (s_RetainedModules s)
    (s_DHCPReservations s) (s_DNSRecords s) (s_UserFirewallRules s) (s_PendingDNSDeletions s).

(** The fixture with the three foundation guests. *)
Definition default_guest (name : string) (vmid : Z) (zone address role : string) (aliases : list string)
    (url : string) (mtls : bool) (module : string) : Component :=
  mkComponent name vmid name zone address role aliases url "labadmin" 22 true true
    ["boetticher"; "managed"; "module"; "module-" +:+ module; ModuleOwnershipTag module; "backup"]
    mtls true true true module true "".

Definition NewDefaultSite (installationID ageRecipient : string) : Site :=
  let site := NewSite installationID ageRecipient "managed" in
  with_components site (s_Components site ++ [
    default_guest "lab-fw-01" 100 "MGMT" "10.10.99.1" "Debian firewall" [] "" false "firewall";
    default_guest "lab-dns-01" 110 "INFRA" "10.10.10.10" "DNS/NTP" ["dns01"; "dns"] "" false "dns";
    default_guest "lab-monitor-01" 120 "INFRA" "10.10.10.20" "Unified observability" ["monitor"]
      ("https://monitor." +:+ DefaultDomain) true "monitoring"
  ]).

Definition with_user_rules (s : Site) (reservations : list DHCPReservation) (records : list UserDNSRecord)
    (rules : list UserFirewallRule) : Site :=
  mkSite (s_APIVersion s) (s_PlatformVersion s) (s_SchemaVersion s) (s_StorageProfile s) (s_StorageDevice s)
    (s_Gateway s) (s_LogicalProxmoxIdentity s) (s_BootstrapAddress s) (s_SSHIdentityFile s) (s_PhysicalNetwork s)
    (s_TestedGateway s) (s_Network s) (s_PKI s) (s_SecretMetadata s) (s_Ownership s) (s_Components s) (s_Modules s)
    (s_ModuleConfig s) (s_Companion s) (s_Declarations s) (s_USBExports s) (s_RetainedModules s)
    reservations records rules (s_PendingDNSDeletions s).

(** ** Lemmas *)

Lemma dns_label_ascii s : dns_label_match s = true →
  sall (fun c => is_ascii_byte c && negb (is_upper c)) s = true.
Proof.
  intros H. unfold dns_label_match in H. bools. eapply sall_mono; [|eassumption].
  intros c Hc. unfold alnum_lower, is_lower, is_digit, is_upper, is_ascii_byte, in_range in *.
  change (byte_val "a") with 97 in *. change (byte_val "z") with 122 in *.
  change (byte_val "0") with 48 in *. change (byte_val "9") with 57 in *.
  change (byte_val "A") with 65 in *. change (byte_val "Z") with 90 in *.
  apply orb_true_iff in Hc as [Hc|Hc].
  - apply orb_true_iff in Hc as [Hc|Hc]; bools; rewrite andb_true_iff, negb_true_iff, andb_false_iff,
      Z.ltb_lt, !Z.leb_gt; lia.
  - apply Ascii.eqb_eq in Hc as ->. done.
Qed.

Lemma to_lower_label `{GoUnicode} s : dns_label_match s = true → to_lower s = s.
Proof. intros ?%dns_label_ascii. by apply to_lower_id. Qed.

Lemma dns_label_nonempty s : dns_label_match s = true → s ≠ "".
Proof. intros H ->. done. Qed.

Example labels_ex (U := ascii_only) :
  IsDNSLabel "lab-media-01" = true ∧ IsDNSLabel "-lab" = false ∧ IsDNSLabel "" = false
  ∧ IsDNSLabel "LAB" = true ∧ ModuleOwnershipTag "gatus" = "boetticher-module-gatus"
  ∧ ValidateStableDevice "/dev/disk/by-id/../sda" = Err NotDirectDevice
  ∧ GatewayInterfaceMAC 7 = "02:00:00:00:01:07".
Proof. by vm_compute. Qed.
End Model.
