(* ===== verification/CsConfig.v ===== *)
(** * Client-service intent: data, defaults, normalisation, cloning
    ([internal/clientservices/config.go])

    A Go pointer field is an [option] ([nil] is [None]); [float64] values are
    binary64 [spec_float]s.  Slices are lists: the code never distinguishes a
    nil from an empty slice. *)

From S2P Require Export Model.
From Stdlib Require Export SpecFloat.

Open Scope Z_scope.

Module CsConfig.
Import Model.

Definition LeaseDuration12Hours : string := "12h".
Definition ScopeReservationsOnly : string := "reservations-only".
Definition ScopePool : string := "pool".
Definition DNSResolverPort : Z := 853.
Definition ProbeAddressStart : Z := 250.
Definition ProbeAddressEnd : Z := 254.

Record MediaAliases := mkMediaAliases {
  ma_Radarr : string; ma_Sonarr : string; ma_Bazarr : string;
  ma_Prowlarr : string; ma_Trailarr : string;
}.

Record System := mkSystem {
  sy_Name : string;
  sy_VMID : Z;
  sy_Kind : string;
  sy_GuestName : string;
  sy_MAC : string;
  sy_Address : string;
  sy_Port : Z;
  sy_HomePort : Z;
  sy_DNSName : string;
  sy_Monitoring : bool;
}.

Record MediaConfig := mkMediaConfig {
  md_Enabled : bool;
  md_MediaGiB : Z;
  md_ApplicationDomain : string;
  md_Aliases : MediaAliases;
}.

Record ObservabilityCollectionBindings := mkBindings {
  ob_Controller : string; ob_ProxmoxHost : string; ob_Runtime : string;
}.

Record PushoverConfig := mkPushover {
  po_Enabled : option bool; po_Title : string; po_Priority : Z;
}.

Record BifrostUpstream := mkBifrostUpstream {
  bu_Name : string; bu_BaseURL : string; bu_SecretRef : string;
}.
Record BifrostModel := mkBifrostModel {
  bm_Alias : string; bm_Upstream : string; bm_Model : string;
}.
Record BifrostConfig := mkBifrostConfig {
  bc_ClientCredential : string;
  bc_Upstreams : list BifrostUpstream;
  bc_Models : list BifrostModel;
}.

Record HolmesConfig := mkHolmes {
  ho_Enabled : option bool;
  ho_ModelAlias : string;
  ho_DailyBudgetUSD : spec_float;
  ho_InvestigationBudgetUSD : spec_float;
  ho_InvestigationDeadlineSecs : Z;
  ho_MaxRounds : Z;
  ho_MaxQueue : Z;
  ho_RetentionDays : Z;
  ho_Bifrost : BifrostConfig;
}.

(** The nested [LoggingConfig], [MonitoringConfig] and [AlertsConfig] structs
    are inlined: one field each for the values they hold. *)
Record ObservabilityConfig := mkObservability {
  os_Enabled : option bool;
  os_PublicDomain : string;
  os_Collection : ObservabilityCollectionBindings;
  os_LoggingRetentionDays : Z;
  os_MonitoringRetentionDays : Z;
  os_Holmes : option HolmesConfig;
  os_Pushover : option PushoverConfig;
}.

Record VPNForward := mkForward {
  f_Name : string; f_Reservation : string; f_Protocols : list string; f_Port : Z;
}.
Record VPNConfig := mkVPN {
  v_Enabled : option bool;
  v_Location : string;
  v_Clients : list string;
  v_Forwards : list VPNForward;
}.

Record DNSUpstream := mkUpstream { u_Address : string; u_Port : Z; u_TLSName : string; u_ECS : bool }.
Record DNSRecord := mkRecord { r_Name : string; r_Type : string; r_Value : string }.
Record DNSConfig := mkDNS {
  d_Enabled : option bool;
  d_Upstreams : list DNSUpstream;
  d_Records : list DNSRecord;
  d_Infrastructure : list DNSRecord;
}.

Record DHCPScope := mkScope {
  sc_Zone : string; sc_Mode : string; sc_PoolStart : string; sc_PoolEnd : string;
  sc_PublishNames : option bool;
}.
Record Reservation := mkReservation {
  rv_Name : string; rv_Zone : string; rv_MAC : string; rv_Address : string;
}.
Record TimeConfig := mkTime { t_Upstreams : list string; t_Serve : option bool }.
Record DHCPConfig := mkDHCP {
  h_Enabled : option bool;
  h_LeaseDuration : string;
  h_Scopes : list DHCPScope;
  h_Reservations : list Reservation;
  h_Time : TimeConfig;
}.

Record Modules := mkModules {
  m_Systems : list System;
  m_Tailnet : option bool;          (* TailnetConfig{Enabled} *)
  m_DNS : option DNSConfig;
  m_DHCP : option DHCPConfig;
  m_VPN : option VPNConfig;
  m_Observability : option ObservabilityConfig;
  m_Media : option MediaConfig;
  m_Arrstack : option MediaConfig;
}.

#[export] Instance DNSUpstream_eq_dec : EqDecision DNSUpstream.
Proof. solve_decision. Defined.
#[export] Instance DNSRecord_eq_dec : EqDecision DNSRecord.
Proof. solve_decision. Defined.
#[export] Instance DHCPScope_eq_dec : EqDecision DHCPScope.
Proof. solve_decision. Defined.
#[export] Instance Reservation_eq_dec : EqDecision Reservation.
Proof. solve_decision. Defined.

(** ** Defaults *)

Definition DefaultDNSUpstreams : list DNSUpstream := [
  mkUpstream "9.9.9.9" DNSResolverPort "dns.quad9.net" false;
  mkUpstream "149.112.112.112" DNSResolverPort "dns.quad9.net" false
].

Definition DefaultTimeUpstreams : list string := ["162.159.200.1"; "17.253.34.125"; "129.6.15.28"].

Definition DefaultScopes : list DHCPScope := [
  mkScope "TRANSIT" ScopeReservationsOnly "" "" None;
  mkScope "INFRA" ScopeReservationsOnly "" "" None;
  mkScope "SERVERS" ScopePool "10.10.20.100" "10.10.20.199" None;
  mkScope "TRUSTED" ScopePool "10.10.30.100" "10.10.30.199" None;
  mkScope "SANDBOX" ScopePool "10.10.40.100" "10.10.40.199" (Some false);
  mkScope "MGMT" ScopeReservationsOnly "" "" None
].

Definition Enabled (p : option bool) : bool := match p with Some b => b | None => false end.

(** ** Reservations *)

Section reservations.
Context `{GoUnicode}.

Definition reservation_key (name : string) : string := to_lower (trim_space name).

Definition ResolveReservation (m : Modules) (name : string) : option Reservation :=
  match m_DHCP m with
  | None => None
  | Some dhcp =>
      let want := reservation_key name in
      List.find (fun r => reservation_key (rv_Name r) == want) (h_Reservations dhcp)
  end.
End reservations.

(** ** Normalize *)

Definition or_default {A : Type} (xs dflt : list A) : list A :=
  if (length xs =? 0)%nat then dflt else xs.

Definition normalize_media (m : MediaConfig) : MediaConfig :=
  mkMediaConfig (md_Enabled m) (if md_MediaGiB m =? 0 then 256 else md_MediaGiB m)
    (md_ApplicationDomain m) (md_Aliases m).

Definition normalize_dns (d : DNSConfig) : DNSConfig :=
  mkDNS (d_Enabled d)
    (if Enabled (d_Enabled d) then or_default (d_Upstreams d) DefaultDNSUpstreams else d_Upstreams d)
    (d_Records d) (d_Infrastructure d).

Definition normalize_dhcp (h : DHCPConfig) : DHCPConfig :=
  if Enabled (h_Enabled h) then
    mkDHCP (h_Enabled h)
      (if h_LeaseDuration h == "" then LeaseDuration12Hours else h_LeaseDuration h)
      (or_default (h_Scopes h) DefaultScopes)
      (h_Reservations h)
      (mkTime (or_default (t_Upstreams (h_Time h)) DefaultTimeUpstreams)
         (match t_Serve (h_Time h) with None => Some true | s => s end))
  else h.

Definition Normalize (m : Modules) : Modules :=
  let media := match m_Media m with None => m_Arrstack m | media => media end in
  let media' := normalize_media <$> media in
  mkModules (m_Systems m) (m_Tailnet m) (normalize_dns <$> m_DNS m) (normalize_dhcp <$> m_DHCP m)
    (m_VPN m) (m_Observability m) media'
    (match media' with Some _ => media' | None => m_Arrstack m end).

(** The values [Clone] produces: a deep copy, without the [Arrstack] alias. *)
Definition Clone (m : Modules) : Modules :=
  mkModules (m_Systems m) (m_Tailnet m) (m_DNS m) (m_DHCP m) (m_VPN m) (m_Observability m)
    (m_Media m) None.

(** Derives DHCP reservations from the registered systems. *)
Definition SystemsExpanded `{GoUnicode} (m : Modules) : Modules :=
  let result := Clone m in
  match m_DHCP result with
  | None => result
  | Some h =>
      let derived := (fun s => mkReservation (to_lower (sy_Name s)) "SERVERS" (sy_MAC s) (sy_Address s))
                       <$> m_Systems result in
      mkModules (m_Systems result) (m_Tailnet result) (m_DNS result)
        (Some (mkDHCP (h_Enabled h) (h_LeaseDuration h) (h_Scopes h)
                 (h_Reservations h ++ derived) (h_Time h)))
        (m_VPN result) (m_Observability result) (m_Media result) (m_Arrstack result)
  end.

Definition SortedRecords (m : Modules) : list DNSRecord :=
  match m_DNS m with None => [] | Some d => sort_by r_Name (d_Records d) end.

(** ** Lemmas *)

Lemma or_default_idemp {A} (xs d : list A) : or_default (or_default xs d) d = or_default xs d.
Proof. unfold or_default. destruct xs as [|x xs]; cbn; [|done]. destruct d; done. Qed.

Lemma normalize_media_idemp m : normalize_media (normalize_media m) = normalize_media m.
Proof.
  unfold normalize_media. cbn. destruct (Z.eqb_spec (md_MediaGiB m) 0); cbn; [done|].
  by destruct (Z.eqb_spec (md_MediaGiB m) 0).
Qed.

Lemma normalize_dns_idemp d : normalize_dns (normalize_dns d) = normalize_dns d.
Proof. unfold normalize_dns. cbn. destruct (Enabled (d_Enabled d)); [|done]. by rewrite or_default_idemp. Qed.

Lemma normalize_dhcp_idemp h : normalize_dhcp (normalize_dhcp h) = normalize_dhcp h.
Proof.
  unfold normalize_dhcp. destruct (Enabled (h_Enabled h)) eqn:E; cbn; rewrite E; [|done].
  rewrite !or_default_idemp. do 2 f_equal.
  - destruct (h_LeaseDuration h == "") eqn:El; [done|by rewrite El].
  - by destruct (t_Serve (h_Time h)).
Qed.

Lemma fmap_idemp {A} (f : A → A) (o : option A) : (∀ x, f (f x) = f x) → f <$> (f <$> o) = f <$> o.
Proof. intros Hf. destruct o; cbn; by rewrite ?Hf. Qed.

Lemma Normalize_idemp m : Normalize (Normalize m) = Normalize m.
Proof.
  unfold Normalize. cbn.
  rewrite (fmap_idemp _ (m_DNS m) normalize_dns_idemp), (fmap_idemp _ (m_DHCP m) normalize_dhcp_idemp).
  destruct (m_Media m); cbn; rewrite ?normalize_media_idemp; [done|].
  destruct (m_Arrstack m); cbn; rewrite ?normalize_media_idemp; done.
Qed.

Lemma Normalize_Systems m : m_Systems (Normalize m) = m_Systems m.
Proof. done. Qed.
End CsConfig.
