(* ===== verification/Bifrost.v ===== *)
(** * The Bifrost model router ([internal/bifrost/router.go])

    The configuration, its validation, the routing table built from it, the
    HTTP dispatch and the two rewrites of a chat completion (the request's
    model on the way out, the response's model on the way back).  Files, the
    upstream HTTP exchange and the JSON and URL parsers of the standard library
    are arguments: [World], [GoJSON], [GoURL]. *)

From S2P Require Export Prelude GoStrings GoNet.

Open Scope Z_scope.

Module Bifrost.

Definition DefaultListen : string := "127.0.0.1:4000".
Definition MaxRequestBytes : Z := 2 * 1024 * 1024.
Definition MaxResponseBytes : Z := 4 * 1024 * 1024.
Definition MaxCredentialBytes : Z := 4096.
Definition MaxModels : Z := 32.

Record Upstream := mkUpstream { u_Name : string; u_BaseURL : string; u_Credential : string }.
Record Model := mkModel { m_Alias : string; m_Upstream : string; m_Model : string }.
Record Config := mkConfig {
  Listen : string; ClientCredential : string;
  Upstreams : list Upstream; Models : list Model;
}.

#[export] Instance Upstream_eq_dec : EqDecision Upstream.
Proof. solve_decision. Defined.
#[export] Instance Model_eq_dec : EqDecision Model.
Proof. solve_decision. Defined.

Inductive Error :=
| BadListen | BadUpstreamCount | BadClientCredential | BadModelCount
| BadUpstreamName (n : string) | DuplicateUpstream (n : string) | BadBaseURL (n : string)
| BadCredentialName (n : string) | SharedCredential (c : string)
| BadAlias (a : string) | DuplicateAlias (a : string) | UnknownUpstream (a u : string)
| BadProviderModel (a : string)
| RelativeCredentialDir | CredentialUnavailable | CredentialUnprotected | CredentialFormat
| AliasNotDeclared | RequestNotCreated | CatalogFailed | CatalogUnavailable | CatalogInvalid
| CapabilitiesIncomplete | ProviderModelAbsent.
#[export] Instance Error_eq_dec : EqDecision Error.
Proof. solve_decision. Defined.

(** ** Tokens

    The loops range over runes; every rune outside ASCII is rejected, so
    the test on bytes is the same one. *)

Definition ascii_alnum (c : ascii) : bool := is_upper c || is_lower c || is_digit c.

Definition safeToken (value : string) : bool :=
  match value with
  | EmptyString => false
  | String c rest =>
      (len value <=? 254) && ascii_alnum c
      && sall (fun c => ascii_alnum c || contains_byte "-_." c) rest
  end.

Definition safeCredentialName (value : string) : bool :=
  if (value == "") || (len value >? 128) || (value == ".") || (value == "..")
     || contains_byte value "/" || contains_byte value "092"
  then false else safeToken value.

Definition safeProviderModel (value : string) : bool :=
  if (value == "") || (len value >? 256) then false
  else sall (fun c => ascii_alnum c || contains_byte "._:/-" c) value.

(** ** [Config.Validate] *)

Section validate.
Context `{GoURL}.

Definition https_base (base : string) : bool :=
  match parse_url base with
  | None => false
  | Some u => negb ((url_Scheme u != "https") || (url_Hostname u == "") || url_User u
                    || (url_RawQuery u != "") || (url_Fragment u != ""))
  end.

Definition upstream_step (s : gset string * gmap string string) (u : Upstream)
    : result Error (gset string * gmap string string) :=
  let '(upstreams, credentials) := s in
  _ ← fail_if (negb (safeToken (u_Name u)) || (u_Name u == "dns")) (BadUpstreamName (u_Name u));
  _ ← fail_if (bool_decide (u_Name u ∈ upstreams)) (DuplicateUpstream (u_Name u));
  _ ← fail_if (negb (https_base (u_BaseURL u))) (BadBaseURL (u_Name u));
  _ ← fail_if (negb (safeCredentialName (u_Credential u))) (BadCredentialName (u_Name u));
  _ ← fail_if (match credentials !! u_Credential u with
               | Some previous => previous != u_Name u
               | None => false
               end) (SharedCredential (u_Credential u));
  Ok ({[u_Name u]} ∪ upstreams, <[u_Credential u := u_Name u]> credentials).

Definition model_check (upstreams : gset string) (m : Model) : result Error unit :=
  _ ← fail_if (bool_decide (m_Upstream m ∉ upstreams)) (UnknownUpstream (m_Alias m) (m_Upstream m));
  fail_if (negb (safeProviderModel (m_Model m))) (BadProviderModel (m_Alias m)).

Definition model_step (upstreams aliases : gset string) (m : Model) : result Error (gset string) :=
  _ ← fail_if (negb (safeToken (m_Alias m)) || (m_Alias m == "health")) (BadAlias (m_Alias m));
  seen_step m_Alias (fun m => DuplicateAlias (m_Alias m)) (model_check upstreams) aliases m.

Definition Validate (c : Config) : result Error unit :=
  let listen := if Listen c == "" then DefaultListen else Listen c in
  _ ← fail_if (listen != DefaultListen) BadListen;
  _ ← fail_if ((length (Upstreams c) =? 0)%nat || (16 <? length (Upstreams c))%nat) BadUpstreamCount;
  _ ← fail_if ((ClientCredential c != "") && negb (safeCredentialName (ClientCredential c))) BadClientCredential;
  _ ← fail_if ((length (Models c) =? 0)%nat || (MaxModels <? Z.of_nat (length (Models c)))) BadModelCount;
  s ← foldM upstream_step (∅, ∅) (Upstreams c);
  _ ← foldM (model_step s.1) ∅ (Models c);
  Ok tt.
End validate.

(** ** Credentials and the routing table *)

(** The file system as the process sees it: [os.Lstat] (is it regular, its
    permission bits) and [os.ReadFile]. *)
Record Files := mkFiles { lstat : string → option (bool * Z); read_file : string → option string }.

Definition clean_step (acc : list string) (part : string) : list string :=
  if (part == "") || (part == ".") then acc
  else if part == ".." then tail acc
  else part :: acc.
(** [filepath.Join(dir, name)] of an absolute directory. *)
Definition join_abs (dir name : string) : string :=
  "/" +:+ join (reverse (foldl clean_step [] (split (dir +:+ "/" +:+ name) "/"))) "/".

(** CR, LF, tab and space. *)
Definition credential_forbidden : string :=
  String "013" (String "010" (String "009" (String " " EmptyString))).
(** CR and LF. *)
Definition crlf : string := String "013" (String "010" EmptyString).

Definition readCredential (fs : Files) (path : string) : result Error string :=
  match lstat fs path with
  | None => Err CredentialUnavailable
  | Some (regular, perm) =>
      _ ← fail_if (negb regular || negb (Z.land perm 146 =? 0)) CredentialUnprotected;
      match read_file fs path with
      | None => Err CredentialUnavailable
      | Some data =>
          _ ← fail_if ((len data =? 0) || (len data >? MaxCredentialBytes)) CredentialUnavailable;
          let value := trim_space data in
          _ ← fail_if ((value == "") || contains_any value credential_forbidden) CredentialFormat;
          Ok value
      end
  end.

Record route := mkRoute {
  rt_alias : string; rt_providerModel : string; rt_chatEndpoint : string;
  rt_modelsEndpoint : string; rt_apiKey : string;
}.
Record Router := mkRouter { models : gmap string route; clientToken : string }.

Definition key_step (fs : Files) (dir : string) (keys : gmap string string) (u : Upstream)
    : result Error (gmap string string) :=
  key ← readCredential fs (join_abs dir (u_Credential u));
  Ok (<[u_Name u := key]> keys).

Definition route_for (upstreams : gmap string Upstream) (keys : gmap string string) (m : Model) : route :=
  let base := trim_right (u_BaseURL (default (mkUpstream "" "" "") (upstreams !! m_Upstream m))) "/" in
  mkRoute (m_Alias m) (m_Model m) (base +:+ "/chat/completions") (base +:+ "/models")
    (default "" (keys !! m_Upstream m)).

Definition NewRouter `{GoURL} (fs : Files) (config : Config) (credentialDir : string) : result Error Router :=
  _ ← Validate config;
  _ ← fail_if ((credentialDir == "") || negb (has_prefix credentialDir "/")) RelativeCredentialDir;
  let upstreams := fold_insert u_Name (fun u => u) ∅ (Upstreams config) in
  keys ← foldM (key_step fs credentialDir) ∅ (Upstreams config);
  clientToken ← (if ClientCredential config != "" then
                   _ ← fail_if (negb (safeCredentialName (ClientCredential config))) BadClientCredential;
                   readCredential fs (join_abs credentialDir (ClientCredential config))
                 else Ok "");
  Ok (mkRouter (fold_insert m_Alias (route_for upstreams keys) ∅ (Models config)) clientToken).

(** ** HTTP *)

Record Request := mkRequest {
  rq_Method : string; rq_Path : string; rq_RawQuery : string; rq_Fragment : string;
  rq_Header : string → string; rq_ContentLength : Z;
  rq_Body : option string;     (* [None]: reading the body fails *)
}.

Record ModelCapabilitiesT := mkCapabilities {
  cap_Mode : string; cap_FunctionCalling : bool; cap_ResponseSchema : bool;
  cap_MaxInput : Z; cap_MaxOutput : Z;
}.

Inductive Body :=
| HealthBody | ErrorBody (message : string) | ModelsBody (ids : list string)
| CapabilitiesBody (c : ModelCapabilitiesT) | RawBody (data : string).

Record Response := mkResponse { rs_Status : Z; rs_ContentType : string; rs_Body : Body }.

Record UpstreamRequest := mkUpstreamRequest {
  ur_Method : string; ur_Endpoint : string; ur_Header : list (string * string); ur_Body : string;
}.
(** The upstream's answer; the body is [None] when reading it fails. *)
Record UpstreamResponse := mkUpstreamResponse {
  us_Status : Z; us_ContentType : string; us_Body : option string;
}.

(** One entry of the provider's catalogue. *)
Record CatalogItem := mkItem {
  it_ID : string; it_ContextLength : Z; it_MaxCompletionTokens : Z; it_Parameters : list string;
}.

(** [encoding/json] as the router uses it.  Raw messages are their text. *)
Class GoJSON := {
  (** [Decoder.Decode] into a [map[string]json.RawMessage] that is not null,
      and whether something but the end follows. *)
  decode_object : string → option (gmap string string * bool);
  unmarshal_object : string → option (gmap string string);
  unmarshal_string : string → option string;
  unmarshal_bool : string → option bool;
  marshal_string : string → string;
  marshal_object : gmap string string → option string;
  unmarshal_catalog : string → option (list CatalogItem);
}.

Definition writeError (status : Z) (message : string) : Response :=
  mkResponse status "application/json" (ErrorBody message).

Section serve.
Context `{GoURL, GoJSON}.
Variable (r : Router).
(** [Client.Do]: [None] is a transport error. *)
Variable (do_request : UpstreamRequest → option UpstreamResponse).

Definition authorized (request : Request) : bool :=
  if clientToken r == "" then true
  else rq_Header request "Authorization" == ("Bearer " +:+ clientToken r).

(** The exchange sort of the model list, index by index. *)
Definition exchange (i : nat) (data : list string) (j : nat) : list string :=
  match data !! i, data !! j with
  | Some a, Some b => if bool_decide (String.le a b) then data else <[j := a]> (<[i := b]> data)
  | _, _ => data
  end.
Definition sort_pass (data : list string) (i : nat) : list string :=
  foldl (exchange i) data (seq (S i) (length data - S i)).
Definition exchange_sort (data : list string) : list string :=
  foldl sort_pass data (seq 0 (length data)).

(** [order] is the order in which Go ranges over the alias map. *)
Definition handleModels (order : list string) : Response :=
  mkResponse 200 "application/json" (ModelsBody (exchange_sort order)).

Definition rewriteCompletionModel (data alias : string) : string :=
  match unmarshal_object data with
  | None => data
  | Some completion =>
      match marshal_object (<["model" := marshal_string alias]> completion) with
      | Some result => result
      | None => data
      end
  end.

Definition forwarded_header (request : Request) (name : string) : list (string * string) :=
  let value := rq_Header request name in
  if (value != "") && (len value <=? 512) && negb (contains_any value crlf) then [(name, value)] else [].

Definition chat_request (rt : route) (request : Request) (body : string) : UpstreamRequest :=
  mkUpstreamRequest "POST" (rt_chatEndpoint rt)
    ([("Content-Type", "application/json"); ("Accept", "application/json");
      ("Authorization", "Bearer " +:+ rt_apiKey rt)]
     ++ forwarded_header request "HTTP-Referer" ++ forwarded_header request "X-Title") body.

Definition chat_reply (payload : gmap string string) (alias : string) (answer : option UpstreamResponse) : Response :=
  match answer with
  | None => writeError 502 "upstream AI provider is unavailable"
  | Some response =>
      match us_Body response with
      | None => writeError 502 "upstream response exceeded the Bifrost response bound"
      | Some data =>
          if len data >? MaxResponseBytes then
            writeError 502 "upstream response exceeded the Bifrost response bound"
          else if (us_Status response <? 200) || (us_Status response >=? 300) then
            writeError 502 ("upstream AI provider returned HTTP " +:+ itoa (us_Status response))
          else
            let streaming := match payload !! "stream" with
                             | Some raw => default false (unmarshal_bool raw)
                             | None => false
                             end in
            let data := if negb streaming then rewriteCompletionModel data alias else data in
            let contentType :=
              if (us_ContentType response != "") && negb (contains_any (us_ContentType response) crlf)
              then us_ContentType response else "application/json" in
            mkResponse (us_Status response) contentType (RawBody data)
      end
  end.

(** The reply and the upstream requests that were sent. *)
Definition reply (resp : Response) : Response * list UpstreamRequest := (resp, []).

Definition chat_decode (request : Request) : Response + (gmap string string) :=
  if rq_ContentLength request >? MaxRequestBytes then
    inl (writeError 413 "request exceeds the Bifrost request bound")
  else match rq_Body request with
  | None => inl (writeError 413 "request exceeds the Bifrost request bound")
  | Some body =>
      if len body >? MaxRequestBytes then
        inl (writeError 413 "request exceeds the Bifrost request bound")
      else match decode_object body with
      | None => inl (writeError 400 "request must be a JSON object")
      | Some (payload, trailing) =>
          if trailing then inl (writeError 400 "request contains trailing data") else inr payload
      end
  end.

Definition request_alias (payload : gmap string string) : option string :=
  raw ← payload !! "model"; alias ← unmarshal_string raw;
  if safeToken alias then Some alias else None.

Definition handleChat (request : Request) : Response * list UpstreamRequest :=
  match chat_decode request with
  | inl resp => reply resp
  | inr payload =>
      match request_alias payload with
      | None => reply (writeError 400 "request model must be a declared alias")
      | Some alias =>
          match models r !! alias with
          | None => reply (writeError 404 "model alias is not declared")
          | Some rt =>
              let payload' := <["model" := marshal_string (rt_providerModel rt)]> payload in
              match marshal_object payload' with
              | None => reply (writeError 400 "request could not be encoded")
              | Some body =>
                  match parse_url (rt_chatEndpoint rt) with
                  | None => reply (writeError 502 "upstream request could not be created")
                  | Some _ =>
                      let req := chat_request rt request body in
                      (chat_reply payload' alias (do_request req), [req])
                  end
              end
          end
      end
  end.

(** ** Model capabilities *)

Definition item_capabilities (item : CatalogItem) : ModelCapabilitiesT :=
  let has p := existsb (String.eqb p) (it_Parameters item) in
  mkCapabilities "chat" (has "tools" && has "tool_choice")
    (has "response_format" || has "structured_outputs")
    (it_ContextLength item) (it_MaxCompletionTokens item).

Definition models_request (rt : route) : UpstreamRequest :=
  mkUpstreamRequest "GET" (rt_modelsEndpoint rt)
    [("Accept", "application/json"); ("Authorization", "Bearer " +:+ rt_apiKey rt)] "".

Definition catalog_capabilities (rt : route) (response : UpstreamResponse) : result Error ModelCapabilitiesT :=
  match us_Body response with
  | None => Err CatalogUnavailable
  | Some data =>
      _ ← fail_if ((len data >? MaxResponseBytes) || (us_Status response <? 200) || (us_Status response >=? 300))
            CatalogUnavailable;
      match unmarshal_catalog data with
      | None => Err CatalogInvalid
      | Some items =>
          match List.find (fun item => it_ID item == rt_providerModel rt) items with
          | None => Err ProviderModelAbsent
          | Some item =>
              let c := item_capabilities item in
              _ ← fail_if ((cap_MaxInput c <? 1) || (cap_MaxOutput c <? 1)) CapabilitiesIncomplete;
              Ok c
          end
      end
  end.

Definition ModelCapabilities (alias : string) : result Error ModelCapabilitiesT * list UpstreamRequest :=
  match models r !! alias with
  | None => (Err AliasNotDeclared, [])
  | Some rt =>
      match parse_url (rt_modelsEndpoint rt) with
      | None => (Err RequestNotCreated, [])
      | Some _ =>
          let req := models_request rt in
          (match do_request req with
           | None => Err CatalogFailed
           | Some response => catalog_capabilities rt response
           end, [req])
      end
  end.

Definition handleCapabilities (alias : string) : Response * list UpstreamRequest :=
  if negb (safeToken alias) then reply (writeError 400 "model alias is invalid")
  else
    let '(c, sent) := ModelCapabilities alias in
    (match c with
     | Err _ => writeError 502 "model capabilities are unavailable"
     | Ok c => mkResponse 200 "application/json" (CapabilitiesBody c)
     end, sent).

(** ** Dispatch *)

Definition unauthorized : Response := writeError 401 "Bifrost client authorization is required".
Definition capabilities_path : string := "/internal/model-capabilities/".

Definition ServeHTTP (order : list string) (request : Request) : Response * list UpstreamRequest :=
  if (rq_RawQuery request != "") || (rq_Fragment request != "") then
    reply (writeError 400 "query parameters are not supported")
  else if (rq_Path request == "/health") && (rq_Method request == "GET") then
    reply (mkResponse 200 "application/json" HealthBody)
  else if (rq_Path request == "/v1/models") && (rq_Method request == "GET") then
    if negb (authorized request) then reply unauthorized else reply (handleModels order)
  else if has_prefix (rq_Path request) capabilities_path && (rq_Method request == "GET") then
    if negb (authorized request) then reply unauthorized
    else handleCapabilities (trim_prefix (rq_Path request) capabilities_path)
  else if (rq_Path request == "/v1/chat/completions") && (rq_Method request == "POST") then
    if negb (authorized request) then reply unauthorized else handleChat request
  else reply (writeError 404 "route is not supported").
End serve.

(** ** Lemmas: the validated configuration *)

Section config_lemmas.
Context `{GoURL}.

Record upstreams_good (us : list Upstream) (s : gset string * gmap string string) : Prop := {
  ug_names : NoDup (map u_Name us);
  ug_creds : NoDup (map u_Credential us);
  ug_each : ∀ u, u ∈ us → safeToken (u_Name u) = true ∧ https_base (u_BaseURL u) = true
              ∧ safeCredentialName (u_Credential u) = true;
  ug_set : s.1 = list_to_set (map u_Name us);
  ug_map : ∀ c n, s.2 !! c = Some n ↔ ∃ u, u ∈ us ∧ u_Credential u = c ∧ u_Name u = n;
}.

Lemma upstreams_ok us s : foldM upstream_step (∅, ∅) us = Ok s → upstreams_good us s.
Proof.
  apply foldM_inv.
  { constructor; try constructor; cbn; try set_solver. }
  intros dn u [names creds] s2 [Hn Hc He Hs Hm] _ Hf. cbn [fst snd] in *. unfold upstream_step in Hf.
  inv_ok. bools.
  assert (u_Name u ∉ map u_Name dn) as Hnew by (rewrite elem_of_list_to_set in E0; done).
  assert (creds !! u_Credential u = None) as Hcn.
  { destruct (creds !! u_Credential u) as [prev|] eqn:Ec; [|done]. bools. subst prev.
    apply Hm in Ec as (u'&?&?&?). exfalso. apply Hnew. apply list_elem_of_fmap. eauto. }
  constructor; cbn [fst snd].
  - rewrite map_app. by apply NoDup_snoc.
  - rewrite map_app. apply NoDup_snoc; [done|].
    intros (u'&Eu&Hu)%list_elem_of_fmap. apply not_elem_of_dom in Hcn. apply Hcn, elem_of_dom.
    exists (u_Name u'). apply Hm. eauto.
  - intros u' [?| ->]%elem_snoc; [by apply He|]. done.
  - rewrite map_app, list_to_set_app_L. set_solver.
  - intros c n. destruct (decide (c = u_Credential u)) as [->|Hne].
    + rewrite lookup_insert_eq. split.
      * intros [= <-]. exists u. by rewrite elem_snoc; auto.
      * intros (u'&[Hu| ->]%elem_snoc&Eu&<-); [|done]. exfalso.
        apply not_elem_of_dom in Hcn. apply Hcn, elem_of_dom. exists (u_Name u'). apply Hm. eauto.
    + rewrite lookup_insert_ne by done. rewrite Hm. split; intros (u'&Hu&?&?); exists u'.
      * rewrite elem_snoc. auto.
      * apply elem_snoc in Hu as [?| ->]; [auto|congruence].
Qed.

Lemma models_ok names ms s : foldM (model_step names) ∅ ms = Ok s →
  NoDup (map m_Alias ms) ∧ Forall (fun m => safeToken (m_Alias m) = true ∧ m_Upstream m ∈ names
                                           ∧ safeProviderModel (m_Model m) = true) ms
  ∧ s = list_to_set (map m_Alias ms).
Proof.
  apply (foldM_inv _ (fun ms s => NoDup (map m_Alias ms)
    ∧ Forall (fun m => safeToken (m_Alias m) = true ∧ m_Upstream m ∈ names
                       ∧ safeProviderModel (m_Model m) = true) ms
    ∧ s = list_to_set (map m_Alias ms))).
  { split_and!; constructor. }
  intros dn m s1 s2 (Hn&Hall&->) _ Hf. unfold model_step, seen_step, model_check in Hf. inv_ok. bools.
  rewrite map_app. split_and!.
  - apply NoDup_snoc; [done|]. rewrite elem_of_list_to_set in E0. done.
  - apply Forall_app. split; [done|]. apply Forall_singleton. split_and!; [done| |done].
    destruct (decide (m_Upstream m ∈ names)); [done|contradiction].
  - rewrite list_to_set_app_L. set_solver.
Qed.

Lemma Validate_good c : Validate c = Ok tt →
  (∃ s, upstreams_good (Upstreams c) s) ∧ NoDup (map m_Alias (Models c))
  ∧ (∀ m, m ∈ Models c → safeToken (m_Alias m) = true ∧ safeProviderModel (m_Model m) = true
            ∧ ∃ u, u ∈ Upstreams c ∧ u_Name u = m_Upstream m)
  ∧ (1 ≤ length (Upstreams c) ≤ 16)%nat ∧ (1 ≤ length (Models c) ≤ 32)%nat.
Proof.
  unfold Validate. intros Hv. inv_ok. apply upstreams_ok in E3. apply models_ok in E4 as (Hn&Hall&_).
  rewrite Forall_forall in Hall. rewrite (ug_set _ _ E3) in Hall. bools. unfold MaxModels in *.
  rewrite Nat.eqb_neq, ?Nat.ltb_ge in *. split_and!; try done; try lia; [by eexists|].
  intros m Hm. destruct (Hall m Hm) as (?&Hin&?). split_and!; [done..|].
  rewrite elem_of_list_to_set in Hin. apply list_elem_of_fmap in Hin as (u&?&?). eauto.
Qed.

(** ** Lemmas: the routing table *)

Lemma keys_ok fs dir us keys : NoDup (map u_Name us) → foldM (key_step fs dir) ∅ us = Ok keys →
  ∀ u, u ∈ us → ∃ key, readCredential fs (join_abs dir (u_Credential u)) = Ok key ∧ keys !! u_Name u = Some key.
Proof.
  intros Hnd Hf. cut (NoDup (map u_Name us) → ∀ u, u ∈ us →
    ∃ key, readCredential fs (join_abs dir (u_Credential u)) = Ok key ∧ keys !! u_Name u = Some key); [auto|].
  clear Hnd. revert Hf. apply (foldM_inv _ (fun us keys => NoDup (map u_Name us) → ∀ u, u ∈ us →
    ∃ key, readCredential fs (join_abs dir (u_Credential u)) = Ok key ∧ keys !! u_Name u = Some key)).
  { intros _ u Hu. set_solver. }
  intros dn u k1 k2 IH _ Hf Hnd. unfold key_step in Hf. inv_ok. rewrite map_app in Hnd.
  apply NoDup_app in Hnd as (Hnd&Hnew&_). intros u' [Hu| ->]%elem_snoc.
  - destruct (IH Hnd u' Hu) as (key&?&?). exists key. split; [done|]. rewrite lookup_insert_ne; [done|].
    intros Eq. apply (Hnew (u_Name u')); [apply list_elem_of_fmap; eauto|]. rewrite <- Eq. cbn. set_solver.
  - exists r. split; [done|]. by rewrite lookup_insert_eq.
Qed.

Lemma readCredential_nonempty fs path v : readCredential fs path = Ok v → v ≠ "".
Proof.
  unfold readCredential. destruct (lstat fs path) as [[reg perm]|]; [|done]. intros Hr. inv_ok.
  destruct (read_file fs path); [|done]. inv_ok. by bools.
Qed.

(** What a route of a router built from [c] is. *)
Definition route_of (fs : Files) (dir : string) (c : Config) (alias : string) (rt : route) : Prop :=
  ∃ m u key, m ∈ Models c ∧ m_Alias m = alias ∧ u ∈ Upstreams c ∧ u_Name u = m_Upstream m
    ∧ readCredential fs (join_abs dir (u_Credential u)) = Ok key
    ∧ rt = mkRoute alias (m_Model m) (trim_right (u_BaseURL u) "/" +:+ "/chat/completions")
             (trim_right (u_BaseURL u) "/" +:+ "/models") key.

Lemma NewRouter_ok fs c dir r : NewRouter fs c dir = Ok r →
  Validate c = Ok tt
  ∧ (∀ alias rt, models r !! alias = Some rt → route_of fs dir c alias rt)
  ∧ (if ClientCredential c == "" then clientToken r = ""
     else readCredential fs (join_abs dir (ClientCredential c)) = Ok (clientToken r)).
Proof.
  unfold NewRouter. intros Hn. inv_ok. cbn [models clientToken]. split_and!; [done| |].
  - intros alias rt Hrt. apply fold_insert_inv in Hrt as [(m&Hm&<-&->)|?]; [|done].
    apply Validate_good in E as ((s&Hu)&_&Hms&_). destruct (Hms m Hm) as (_&_&u&Hin&Eu).
    destruct (keys_ok _ _ _ _ (ug_names _ _ Hu) E1 u Hin) as (key&Hk&Hlk).
    exists m, u, key. split_and!; try done. unfold route_for.
    rewrite <- Eu, (fold_insert_lookup u_Name), Hlk by (done || apply (ug_names _ _ Hu)). done.
  - case_bool_decide; cbn in E2; [congruence|]. inv_ok. done.
Qed.
End config_lemmas.

(** ** Lemmas: the exchange sort *)

Notation "a ≤ₛ b" := (String.le a b) (at level 70).

(** One pass, structurally: the least element seen comes out in front. *)
Fixpoint bubble (a : string) (l : list string) : string * list string :=
  match l with
  | [] => (a, [])
  | b :: l =>
      if bool_decide (String.le a b) then let '(m, l') := bubble a l in (m, b :: l')
      else let '(m, l') := bubble b l in (m, a :: l')
  end.

Lemma exchange_middle pre a dn b rest :
  exchange (length pre) (pre ++ a :: dn ++ b :: rest) (length pre + 1 + length dn)
  = if bool_decide (String.le a b) then pre ++ a :: dn ++ b :: rest else pre ++ b :: dn ++ a :: rest.
Proof.
  assert (∀ x y, (pre ++ x :: dn ++ y :: rest) !! length pre = Some x) as H1.
  { intros. by rewrite list_lookup_middle. }
  assert (∀ x y, (pre ++ x :: dn ++ y :: rest) = ((pre ++ x :: dn) ++ y :: rest)) as H2.
  { intros. by rewrite <- app_assoc. }
  assert (∀ x, length (pre ++ x :: dn) = (length pre + 1 + length dn)%nat) as H3.
  { intros. rewrite length_app. cbn. lia. }
  unfold exchange. rewrite H1, H2, list_lookup_middle by (by rewrite H3).
  case_bool_decide; [done|].
  rewrite <- H2. change (<[length pre := b]> (pre ++ a :: dn ++ b :: rest))
    with (<[length pre := b]> (pre ++ a :: dn ++ b :: rest)).
  replace (length pre) with (length pre + 0)%nat at 2 by lia.
  rewrite insert_app_r. cbn [insert list_insert]. rewrite H2, <- (H3 b).
  replace (length (pre ++ b :: dn)) with (length (pre ++ b :: dn) + 0)%nat by lia.
  rewrite insert_app_r. cbn. by rewrite <- app_assoc.
Qed.

Lemma exchange_pass pre a dn rest :
  foldl (exchange (length pre)) (pre ++ a :: dn ++ rest) (seq (length pre + 1 + length dn) (length rest))
  = pre ++ (bubble a rest).1 :: dn ++ (bubble a rest).2.
Proof.
  revert a dn. induction rest as [|b rest IH]; intros a dn; [done|]. cbn [length seq foldl bubble].
  rewrite exchange_middle.
  replace (S (length pre + 1 + length dn)) with (length pre + 1 + length (dn ++ [b]))%nat
    by (rewrite length_app; cbn; lia).
  case_bool_decide.
  - replace (pre ++ a :: dn ++ b :: rest) with (pre ++ a :: (dn ++ [b]) ++ rest) by (by rewrite <- app_assoc).
    rewrite IH. destruct (bubble a rest). cbn. by rewrite <- app_assoc.
  - replace (pre ++ b :: dn ++ a :: rest) with (pre ++ b :: (dn ++ [a]) ++ rest) by (by rewrite <- app_assoc).
    replace (length (dn ++ [b])) with (length (dn ++ [a])) by (rewrite !length_app; done).
    rewrite IH. destruct (bubble b rest). cbn. by rewrite <- app_assoc.
Qed.

Lemma bubble_perm a l : (bubble a l).1 :: (bubble a l).2 ≡ₚ a :: l.
Proof.
  revert a. induction l as [|b l IH]; intros a; [done|]. cbn. case_bool_decide.
  - specialize (IH a). destruct (bubble a l) as [m l']. cbn in *. rewrite Permutation_swap, IH.
    by rewrite Permutation_swap.
  - specialize (IH b). destruct (bubble b l) as [m l']. cbn in *. rewrite Permutation_swap, IH. done.
Qed.

Lemma bubble_least a l : Forall (fun x => (bubble a l).1 ≤ₛ x) (a :: (bubble a l).2).
Proof.
  revert a. induction l as [|b l IH]; intros a; cbn; [by repeat constructor|].
  case_bool_decide as Hle.
  - specialize (IH a). destruct (bubble a l) as [m l']. cbn in *.
    rewrite !Forall_cons_iff in *. destruct IH as [Ha Hl]. split_and!; [done| |done]. by trans a.
  - specialize (IH b). destruct (bubble b l) as [m l']. cbn in *.
    rewrite !Forall_cons_iff in *. destruct IH as [Hb Hl].
    assert (b ≤ₛ a) by (destruct (total String.le a b); done).
    assert (m ≤ₛ a) by (by trans b). done.
Qed.

Lemma bubble_length a l : length (bubble a l).2 = length l.
Proof. pose proof (Permutation_length (bubble_perm a l)) as Hl. cbn in Hl. lia. Qed.

Lemma sort_passes n pre l : n = length l →
  ∃ l', foldl sort_pass (pre ++ l) (seq (length pre) n) = pre ++ l' ∧ l' ≡ₚ l ∧ StronglySorted String.le l'.
Proof.
  revert pre l. induction n as [|n IH]; intros pre [|a l] Hl; try done.
  { exists []. split_and!; try done. constructor. }
  injection Hl as Hl. cbn [seq foldl].
  assert (sort_pass (pre ++ a :: l) (length pre) = (pre ++ [(bubble a l).1]) ++ (bubble a l).2) as ->.
  { unfold sort_pass. pose proof (exchange_pass pre a [] l) as E. cbn [app length] in E.
    rewrite length_app. cbn [length].
    replace (S (length pre)) with (length pre + 1 + 0)%nat by lia.
    replace (length pre + S (length l) - (length pre + 1 + 0))%nat with (length l) by lia.
    rewrite E. by rewrite <- app_assoc. }
  replace (S (length pre)) with (length (pre ++ [(bubble a l).1])) by (rewrite length_app; cbn; lia).
  destruct (IH (pre ++ [(bubble a l).1]) (bubble a l).2) as (l'&->&Hp&Hs); [by rewrite bubble_length|].
  exists ((bubble a l).1 :: l'). split_and!.
  - by rewrite <- app_assoc.
  - rewrite Hp. apply bubble_perm.
  - constructor; [done|]. pose proof (bubble_least a l) as Hb. rewrite Forall_cons_iff in Hb.
    destruct Hb as [_ Hb]. rewrite Forall_forall in *. intros x Hx. apply Hb. by rewrite <- Hp.
Qed.

Lemma exchange_sort_spec data :
  exchange_sort data ≡ₚ data ∧ StronglySorted String.le (exchange_sort data).
Proof.
  unfold exchange_sort. destruct (sort_passes (length data) [] data eq_refl) as (l'&E&?&?).
  cbn in E. by rewrite E.
Qed.

(** ** Lemmas: what a handler sends *)

Section sent_lemmas.
Context `{GoURL, GoJSON}.
Variable (r : Router) (do_request : UpstreamRequest → option UpstreamResponse).

(** The alias an HTTP request asks for: the rest of the capabilities path, or
    the [model] member of a chat completion's body. *)
Definition asked_alias (request : Request) : option string :=
  if has_prefix (rq_Path request) capabilities_path && (rq_Method request == "GET") then
    let alias := trim_prefix (rq_Path request) capabilities_path in
    if safeToken alias then Some alias else None
  else if (rq_Path request == "/v1/chat/completions") && (rq_Method request == "POST") then
    match chat_decode request with
    | inr payload => request_alias payload
    | inl _ => None
    end
  else None.

(** What is sent along the route [rt] for [request]: the provider's catalogue
    is read, or the client's own completion is forwarded with nothing replaced but
    its model, by the provider's name of the alias. *)
Definition sent_along (rt : route) (request : Request) (u : UpstreamRequest) : Prop :=
  (rq_Method request = "GET" ∧ u = models_request rt)
  ∨ (rq_Method request = "POST" ∧ ∃ payload body, chat_decode request = inr payload
       ∧ marshal_object (<["model" := marshal_string (rt_providerModel rt)]> payload) = Some body
       ∧ u = chat_request rt request body).

Lemma forwarded_header_name request n v :
  n ≠ "Authorization" → ("Authorization", v) ∉ forwarded_header request n.
Proof. intros Hne Hin. unfold forwarded_header in Hin. case_match; set_solver. Qed.

Lemma ModelCapabilities_sent alias c sent u :
  ModelCapabilities r do_request alias = (c, sent) → u ∈ sent →
  sent = [u] ∧ ∃ rt, models r !! alias = Some rt ∧ u = models_request rt.
Proof.
  unfold ModelCapabilities. destruct (models r !! alias) as [rt|]; [|intros [= <- <-]; set_solver].
  destruct (parse_url _); intros [= <- <-]; [|set_solver].
  intros ->%list_elem_of_singleton. eauto.
Qed.

Lemma handleChat_sent request resp sent u :
  handleChat r do_request request = (resp, sent) → u ∈ sent →
  sent = [u] ∧ ∃ payload alias rt body, chat_decode request = inr payload
    ∧ request_alias payload = Some alias ∧ models r !! alias = Some rt
    ∧ marshal_object (<["model" := marshal_string (rt_providerModel rt)]> payload) = Some body
    ∧ u = chat_request rt request body.
Proof.
  unfold handleChat, reply. intros Hs Hu.
  repeat match type of Hs with
         | match ?x with _ => _ end = _ => destruct x eqn:?; try (injection Hs as <- <-; set_solver)
         end.
Qed.

Lemma ServeHTTP_sent order request resp sent u :
  ServeHTTP r do_request order request = (resp, sent) → u ∈ sent →
  sent = [u] ∧ authorized r request = true
  ∧ ∃ alias rt, asked_alias request = Some alias ∧ models r !! alias = Some rt
      ∧ sent_along rt request u.
Proof.
  unfold ServeHTTP, reply, asked_alias. intros Hs Hu.
  repeat match type of Hs with
         | (if ?b then _ else _) = _ => destruct b eqn:?; [try (injection Hs as <- <-; set_solver)|]
         end; try (injection Hs as <- <-; set_solver); bools.
  - unfold handleCapabilities, reply in Hs. destruct (safeToken _) eqn:Et; cbn [negb] in Hs;
      [|injection Hs as <- <-; set_solver].
    destruct (ModelCapabilities _ _ _) as [c sent'] eqn:Em. injection Hs as _ <-.
    destruct (ModelCapabilities_sent _ _ _ _ Em Hu) as (->&rt&?&->). split_and!; [done..|].
    eexists _, rt. split_and!; [done..|]. by left.
  - destruct (handleChat_sent _ _ _ _ Hs Hu) as (->&payload&alias&rt&body&Ed&Ea&Er&Em&->).
    split_and!; [done..|]. exists alias, rt. rewrite Ed. split_and!; [done..|]. right. eauto 6.
Qed.
End sent_lemmas.

(** ** Properties *)

(** The index-by-index exchange sort of the model list is the library's
    sort, so the answer of the model listing is the sorted list of the declared
    aliases whatever order Go's map iteration produces. *)
Theorem handleModels_deterministic (r : Router) order :
  order ≡ₚ elements (dom (models r)) →
  handleModels order
  = mkResponse 200 "application/json" (ModelsBody (sort_strings (elements (dom (models r))))).
Proof.
  intros Hp. unfold handleModels. do 2 f_equal.
  destruct (exchange_sort_spec order) as [Hpe Hse].
  apply (StronglySorted_unique String.le); [done| |].
  - apply Sorted_StronglySorted; [apply _|apply sort_strings_sorted].
  - by rewrite Hpe, Hp, sort_strings_perm.
Qed.

(** A valid router configuration is unambiguous: upstream names, credential
    names and aliases are pairwise distinct, every alias is routed to a declared
    upstream, and every upstream is reached over HTTPS. *)
Theorem Config_Validate_sound `{GoURL} c :
  Validate c = Ok tt →
  NoDup (map u_Name (Upstreams c)) ∧ NoDup (map u_Credential (Upstreams c)) ∧ NoDup (map m_Alias (Models c))
  ∧ (∀ u, u ∈ Upstreams c → https_base (u_BaseURL u) = true)
  ∧ (∀ m, m ∈ Models c → ∃ u, u ∈ Upstreams c ∧ u_Name u = m_Upstream m)
  ∧ (1 ≤ length (Upstreams c) ≤ 16)%nat ∧ (1 ≤ length (Models c) ≤ 32)%nat.
Proof.
  intros ((s&[Hn Hc He _ _])&Ha&Hm&Hl)%Validate_good. split_and!; try done; try lia.
  - intros u Hu. by apply He.
  - intros m Hin. by apply Hm.
Qed.

(** C32. Nothing leaves the router but an authorised request for a declared
    alias, sent along the route of the very alias the request asks for: at most
    one upstream request per HTTP request, to the declared upstream of that alias,
    with that upstream's own key and never the client's credential, and none at
    all when a client credential is configured and the request does not carry
    it.  The alias is read from the request (the capabilities path, or the body's
    model); what is sent reads the provider's catalogue or forwards the decoded
    body with its model replaced by the provider's name of that alias.  An alias
    that no model declares gets nothing sent. *)
Theorem ServeHTTP_upstream `{GoURL, GoJSON} fs c dir r do_request order request resp sent u :
  NewRouter fs c dir = Ok r →
  ServeHTTP r do_request order request = (resp, sent) → u ∈ sent →
  sent = [u]
  ∧ (ClientCredential c ≠ "" → ∃ token, readCredential fs (join_abs dir (ClientCredential c)) = Ok token
       ∧ rq_Header request "Authorization" = "Bearer " +:+ token)
  ∧ ∃ m up key, m ∈ Models c ∧ up ∈ Upstreams c ∧ u_Name up = m_Upstream m
      ∧ asked_alias request = Some (m_Alias m)
      ∧ (∀ m', m' ∈ Models c → m_Alias m' = m_Alias m → m' = m)
      ∧ readCredential fs (join_abs dir (u_Credential up)) = Ok key
      ∧ sent_along (mkRoute (m_Alias m) (m_Model m)
           (trim_right (u_BaseURL up) "/" +:+ "/chat/completions")
           (trim_right (u_BaseURL up) "/" +:+ "/models") key) request u
      ∧ ("Authorization", "Bearer " +:+ key) ∈ ur_Header u
      ∧ (∀ v, ("Authorization", v) ∈ ur_Header u → v = "Bearer " +:+ key)
      ∧ ur_Endpoint u ∈ [trim_right (u_BaseURL up) "/" +:+ "/chat/completions";
                         trim_right (u_BaseURL up) "/" +:+ "/models"].
Proof.
  intros Hnew Hs Hu. pose proof (NewRouter_ok _ _ _ _ Hnew) as (Hval&Hroutes&Htok).
  apply (ServeHTTP_sent _ _ _ _ _ _ u) in Hs as (->&Hauth&alias&rt&Hask&Hrt&Hreq); [|done].
  split; [done|]. split.
  - intros Hc. rewrite bool_decide_eq_false_2 in Htok by done. eexists. split; [exact Htok|].
    unfold authorized in Hauth. rewrite bool_decide_eq_false_2 in Hauth by (by eapply readCredential_nonempty).
    by bools.
  - destruct (Hroutes _ _ Hrt) as (m&up&key&Hm&<-&Hup&Hn&Hk&->). exists m, up, key.
    apply Validate_good in Hval as (_&Hnd&_).
    assert (sent_along _ request u) as Hsent by exact Hreq.
    split_and!; try done.
    + intros m' Hm' E. by apply (NoDup_map_inj m_Alias (Models c)).
    + destruct Hreq as [[_ ->]|(_&payload&body&_&_&->)]; cbn; set_solver.
    + intros v Hv. destruct Hreq as [[_ ->]|(_&payload&body&_&_&->)]; cbn in Hv.
      * set_solver.
      * pose proof (forwarded_header_name request "HTTP-Referer" v).
        pose proof (forwarded_header_name request "X-Title" v). set_solver.
    + destruct Hreq as [[_ ->]|(_&payload&body&_&_&->)]; cbn; set_solver.
Qed.

(** A configuration with two upstreams, its credential files, and a codec in
    which a request body is the model's name. *)
Definition sample_config : Config := mkConfig "" "client"
  [mkUpstream "openrouter" "https://openrouter.ai/api/" "or-key"; mkUpstream "local" "https://10.10.20.5" "local-key"]
  [mkModel "gpt" "openrouter" "openai/gpt-4o"; mkModel "llama" "local" "llama3"].
Definition sample_files : Files := mkFiles (fun _ => Some (true, 256))
  (fun path => if path == "/run/creds/or-key" then Some "KEY1"
               else if path == "/run/creds/local-key" then Some "KEY2"
               else if path == "/run/creds/client" then Some "TOKEN" else None).
Definition name_json : GoJSON := {|
  decode_object s := Some ({["model" := s]}, false);
  unmarshal_object s := None;
  unmarshal_string s := Some s;
  unmarshal_bool s := None;
  marshal_string s := s;
  marshal_object m := m !! "model";
  unmarshal_catalog s := None;
|}.
Definition sample_request : Request :=
  mkRequest "POST" "/v1/chat/completions" "" ""
    (fun h => if h == "Authorization" then "Bearer TOKEN" else "") 3 (Some "gpt").
Definition sample_sent : UpstreamRequest :=
  mkUpstreamRequest "POST" "https://openrouter.ai/api/chat/completions"
    [("Content-Type", "application/json"); ("Accept", "application/json"); ("Authorization", "Bearer KEY1")]
    "openai/gpt-4o".

Definition sample_router : Router :=
  mkRouter {["gpt" := mkRoute "gpt" "m" "c" "l" "k"; "ada" := mkRoute "ada" "m" "c" "l" "k"]} "".

Theorem handleModels_deterministic_witness :
  handleModels ["gpt"; "ada"] = mkResponse 200 "application/json" (ModelsBody ["ada"; "gpt"]).
Proof.
  refine (handleModels_deterministic sample_router ["gpt"; "ada"] _).
  apply NoDup_Permutation; [by apply (bool_decide_unpack _); vm_compute|apply NoDup_elements|].
  intros x. rewrite elem_of_elements. unfold sample_router. cbn. set_solver.
Defined.

Theorem Config_Validate_sound_witness : NoDup (map m_Alias (Models sample_config)).
Proof. apply (Config_Validate_sound (H := plain_url) sample_config). by vm_compute. Defined.

Theorem ServeHTTP_upstream_witness : ∃ r resp,
  @NewRouter plain_url sample_files sample_config "/run/creds" = Ok r
  ∧ @ServeHTTP plain_url name_json r (fun _ => None) ["gpt"; "llama"] sample_request = (resp, [sample_sent])
  ∧ [sample_sent] = [sample_sent].
Proof.
  eexists _, _. split; [by vm_compute|]. split; [by vm_compute|].
  refine (proj1 (@ServeHTTP_upstream plain_url name_json sample_files sample_config "/run/creds" _ (fun _ => None)
    ["gpt"; "llama"] sample_request _ [sample_sent] sample_sent _ _ _)); [by vm_compute..|].
  by apply list_elem_of_singleton.
Defined.
End Bifrost.
