(* ===== verification/SiteRules.v ===== *)
(** * Site model: the operator's firewall rules, reservations and DNS records
    ([validateUserFirewallRules], [validateDHCPReservations] and
    [validateUserDNSRecords] of [internal/model/model.go])

    These three lists are the part of a site an operator writes by hand; the
    validators are what keeps them away from the platform's own boundary. *)

From S2P Require Export AliasGraph Model.

Open Scope Z_scope.

Module SiteRules.
Import Model.

Inductive RuleError :=
| Selector (value : string) | TooManyPorts | BadPortRange (raw : string) | BadPort (raw : string)
| PortRangeWide (raw : string) | ICMPPorts | DuplicatePort (raw : string)
| TooManyRules | BadRuleID (id : string) | DuplicateRuleID (id : string)
| RuleSource (id : string) (e : RuleError) | RuleDestination (id : string) (e : RuleError)
| BadProtocol (id protocol : string) | RulePorts (id : string) (e : RuleError)
| CrossesBoundary (id : string) | DuplicateRule (id : string).

Inductive ReservationError :=
| NoServersZone | NotServers (hostname : string) | ServiceOverride (hostname : string)
| NotALabel (hostname : string) | UnusableAddress (hostname address : string)
| PlatformAddress (hostname address : string) | DuplicateAddress (address : string)
| BadMAC (hostname mac : string) | DuplicateHostname (hostname : string)
| DuplicateMAC (mac : string) | VMIDRange (hostname : string) (vmid : Z).

Inductive RecordError :=
| OutsideDomain (domain : string) | UnsafeLabel (raw : string)
| RecordName (raw : string) (e : RecordError) | OwnedName (name : string)
| ManagedNamespace (name zone : string) | DuplicateRecord (name : string)
| ARecordAddress (name : string) | CNAMETarget (name : string) (e : RecordError)
| CNAMESelf (name : string) | BadRecordType (name type : string)
| CNAMECycle (name : string) | CNAMEFuel.

(** ** Zones *)

Definition zoneByName (s : Site) (name : string) : option Zone :=
  List.find (fun z => z_Name z == name) (n_Zones (s_Network s)).

(** [networkAddress[i] | ^Mask[i]] for the first four bytes of the mask: a
    mapped prefix has a 16-byte mask that starts with ones. *)
Definition broadcast (p : Prefix) (mapped : bool) : Addr :=
  if mapped then p_addr (masked p) else Z.lor (p_addr (masked p)) (Z.ones (32 - p_bits p)).

Definition usableIPInZone (ip : Addr) (zone : Zone) : bool :=
  match net_parse_cidr (z_Network zone) with
  | Some (CIDR4 p mapped) =>
      prefix_contains (masked p) ip && (ip != p_addr (masked p)) && (ip != broadcast p mapped)
  | _ => false
  end.

Definition ipInZone (ip : Addr) (zone : Zone) : bool :=
  match net_parse_cidr (z_Network zone) with Some c => cidr_contains c ip | None => false end.

Definition ipInAnyZone (ip : Addr) (zones : list Zone) : bool := existsb (ipInZone ip) zones.

Section rules.
Context `{GoUnicode}.

(** ** Firewall rules *)

Definition rule_zones : list string := ["SERVERS"; "TRUSTED"; "SANDBOX"].

Definition validateFirewallSelector (value : string) : result RuleError string :=
  let value := to_upper (trim_space value) in
  if existsb (fun zone => value == zone) rule_zones then Ok value
  else match parse_cidr value with
       | None => Err (Selector value)
       | Some network =>
           _ ← fail_if (addr_string (p_addr network) != hd "" (split value "/")) (Selector value);
           Ok (prefix_string (masked network))
       end.

Definition port_range (raw : string) : result RuleError (Z * Z) :=
  let parts := split (trim_space raw) "-" in
  _ ← fail_if (2 <? length parts)%nat (BadPortRange raw);
  match parse_int (hd "" parts) with
  | None => Err (BadPort raw)
  | Some start =>
      _ ← fail_if ((start <? 1) || (start >? 65535)) (BadPort raw);
      end_ ← match parts with
             | [_; e] => match parse_int e with
                         | None => Err (BadPortRange raw)
                         | Some end_ => _ ← fail_if ((end_ <? start) || (end_ >? 65535)) (BadPortRange raw);
                                        Ok end_
                         end
             | _ => Ok start
             end;
      _ ← fail_if (end_ - start + 1 >? 1024) (PortRangeWide raw);
      Ok (start, end_)
  end.

Definition port_text (range : Z * Z) : string :=
  let '(start, end_) := range in
  itoa start +:+ (if end_ != start then "-" +:+ itoa end_ else "").

Definition port_step (protocol : string) (st : list string * gset string) (raw : string)
    : result RuleError (list string * gset string) :=
  let '(ports, seen) := st in
  range ← port_range raw;
  _ ← fail_if (protocol == "icmp") ICMPPorts;
  let canonical := port_text range in
  _ ← fail_if (bool_decide (canonical ∈ seen)) (DuplicatePort raw);
  Ok (ports ++ [canonical], {[canonical]} ∪ seen).

Definition validateFirewallPorts (values : list string) (protocol : string) : result RuleError (list string) :=
  _ ← fail_if (16 <? length values)%nat TooManyPorts;
  '(ports, _) ← foldM (port_step protocol) ([], ∅) values;
  Ok (sort_strings ports).

Definition is_user_zone (t : ZoneType) : bool :=
  bool_decide (t = ZoneTypeServers ∨ t = ZoneTypeTrusted ∨ t = ZoneTypeSandbox).
Definition is_core_zone (t : ZoneType) : bool :=
  bool_decide (t = ZoneTypeInfrastructure ∨ t = ZoneTypeManagement ∨ t = ZoneTypeTransit).

(** A component whose address the network contains. *)
Definition component_in (c : CIDR) (component : Component) : bool :=
  match parse_to4 (c_Address component) with Some ip => cidr_contains c ip | None => false end.

Definition firewallSelectorProtected (s : Site) (selector : string) : bool :=
  let selector := to_upper (trim_space selector) in
  match List.find (fun zone => selector == z_Name zone) (n_Zones (s_Network s)) with
  | Some zone =>
      if negb (is_user_zone (z_Type zone)) then true
      else match net_parse_cidr (z_Network zone) with
           | None => true
           | Some network => existsb (fun c => c_ProductOwned c && component_in network c) (PlatformComponents s)
           end
  | None =>
      match net_parse_cidr selector with
      | None => false
      | Some network =>
          existsb (component_in network) (PlatformComponents s)
          || existsb (fun zone =>
               is_core_zone (z_Type zone)
               && match net_parse_cidr (z_Network zone) with
                  | Some protected => cidr_contains_base network protected || cidr_contains_base protected network
                  | None => false
                  end) (n_Zones (s_Network s))
      end
  end.

Definition is_monitor (c : Component) : bool :=
  (c_Name c == "lab-monitor-01") && (c_Module c == "monitoring") && (c_Zone c == "INFRA").

(** The one exception: a reserved SERVERS address may read the monitor's HTTPS
    endpoint.  The loops return at the first monitor they meet. *)
Definition IsReservedServersObservabilityRule (s : Site) (source destination protocol : string)
    (ports : list string) : bool :=
  if (protocol != "tcp") || (ports != ["443"]) then false
  else match net_parse_cidr source with
       | Some (CIDR4 src false) =>
           if p_bits src != 32 then false
           else match zoneByName s "SERVERS" with
                | None => false
                | Some servers =>
                    ipInZone (p_addr src) servers
                    && existsb (fun r => (dh_Zone r == "SERVERS") && (parse_to4 (dh_Address r) == Some (p_addr src)))
                         (s_DHCPReservations s)
                    && match List.find is_monitor (PlatformComponents s) with
                       | Some component => destination == c_Address component +:+ "/32"
                       | None => false
                       end
                end
       | _ => false
       end.

Definition maxUserFirewallRules : nat := 64.

(** What the loop computes for a rule before it looks at the site. *)
Record RuleMeaning := mkMeaning { fm_Source : string; fm_Destination : string; fm_Protocol : string; fm_Ports : list string }.

Definition rule_meaning (rule : UserFirewallRule) : result RuleError RuleMeaning :=
  source ← match validateFirewallSelector (fr_Source rule) with
           | Ok v => Ok v | Err e => Err (RuleSource (fr_ID rule) e) end;
  destination ← match validateFirewallSelector (fr_Destination rule) with
                | Ok v => Ok v | Err e => Err (RuleDestination (fr_ID rule) e) end;
  let protocol := to_lower (trim_space (fr_Protocol rule)) in
  _ ← fail_if ((protocol != "tcp") && (protocol != "udp") && (protocol != "icmp"))
        (BadProtocol (fr_ID rule) (fr_Protocol rule));
  ports ← match validateFirewallPorts (fr_Ports rule) protocol with
          | Ok v => Ok v | Err e => Err (RulePorts (fr_ID rule) e) end;
  Ok (mkMeaning source destination protocol ports).

Definition rule_key (m : RuleMeaning) : string :=
  fm_Source m +:+ "|" +:+ fm_Destination m +:+ "|" +:+ fm_Protocol m +:+ "|" +:+ join (fm_Ports m) ",".

Definition rule_step (s : Site) (st : gset string * gset string) (rule : UserFirewallRule)
    : result RuleError (gset string * gset string) :=
  let '(ids, semantics) := st in
  _ ← fail_if (negb (has_prefix (fr_ID rule) "ufr-") || negb (model_token_match (fr_ID rule))) (BadRuleID (fr_ID rule));
  _ ← fail_if (bool_decide (fr_ID rule ∈ ids)) (DuplicateRuleID (fr_ID rule));
  m ← rule_meaning rule;
  _ ← fail_if ((firewallSelectorProtected s (fm_Source m) || firewallSelectorProtected s (fm_Destination m))
               && negb (IsReservedServersObservabilityRule s (fm_Source m) (fm_Destination m) (fm_Protocol m) (fm_Ports m)))
        (CrossesBoundary (fr_ID rule));
  _ ← fail_if (bool_decide (rule_key m ∈ semantics)) (DuplicateRule (fr_ID rule));
  Ok ({[fr_ID rule]} ∪ ids, {[rule_key m]} ∪ semantics).

Definition validateUserFirewallRules (s : Site) : result RuleError unit :=
  _ ← fail_if (maxUserFirewallRules <? length (s_UserFirewallRules s))%nat TooManyRules;
  _ ← foldM (rule_step s) (∅, ∅) (s_UserFirewallRules s);
  Ok tt.

(** ** DHCP reservations *)

Definition user_vmid (vmid : Z) : bool := (500 <=? vmid) && (vmid <=? 899).

(** [strings.ToLower(parsedMAC.String())] of a six-byte address. *)
Definition ethernet_mac (s : string) : option string :=
  match parse_mac s with
  | Some parsed => if (length parsed =? 6)%nat then Some (to_lower (mac_string parsed)) else None
  | None => None
  end.

(** The first-party guest a reservation belongs to. *)
Definition owned_match (r : DHCPReservation) (canonicalAddress : string) (c : Component) : bool :=
  c_ProductOwned c && (c_Module c != "") && (c_Address c == canonicalAddress)
  && (c_Hostname c == dh_Hostname r) && equal_fold (c_MAC c) (dh_MAC r).

Definition platformAddresses (s : Site) : gset Addr :=
  list_to_set (omap (fun c => parse_to4 (c_Address c)) (PlatformComponents s)).

Record ReservationSeen := mkReservationSeen {
  rs_Hostnames : gset string; rs_Addresses : gset Addr; rs_MACs : gset string;
}.

(** The checks that only look at the reservation and the site: the address and
    the canonical hardware address. *)
Definition reservation_address (s : Site) (servers : Zone) (r : DHCPReservation) : result ReservationError Addr :=
  _ ← fail_if (dh_Zone r != "SERVERS") (NotServers (dh_Hostname r));
  _ ← fail_if ((dh_DNSOverride r != "") || (dh_NTPOverride r != "")) (ServiceOverride (dh_Hostname r));
  _ ← fail_if (negb (IsDNSLabel (dh_Hostname r))) (NotALabel (dh_Hostname r));
  match parse_to4 (dh_Address r) with
  | None => Err (UnusableAddress (dh_Hostname r) (dh_Address r))
  | Some address =>
      _ ← fail_if (negb (usableIPInZone address servers) || (addr_string address == z_Gateway servers))
            (UnusableAddress (dh_Hostname r) (dh_Address r));
      _ ← fail_if (bool_decide (address ∈ platformAddresses s)
                   && negb (existsb (owned_match r (addr_string address)) (PlatformComponents s)))
            (PlatformAddress (dh_Hostname r) (addr_string address));
      Ok address
  end.

Definition reservation_step (s : Site) (servers : Zone) (seen : ReservationSeen) (r : DHCPReservation)
    : result ReservationError ReservationSeen :=
  address ← reservation_address s servers r;
  _ ← fail_if (bool_decide (address ∈ rs_Addresses seen)) (DuplicateAddress (addr_string address));
  match ethernet_mac (dh_MAC r) with
  | None => Err (BadMAC (dh_Hostname r) (dh_MAC r))
  | Some canonicalMAC =>
      _ ← fail_if (bool_decide (to_lower (dh_Hostname r) ∈ rs_Hostnames seen)) (DuplicateHostname (dh_Hostname r));
      _ ← fail_if (bool_decide (canonicalMAC ∈ rs_MACs seen)) (DuplicateMAC (dh_MAC r));
      _ ← fail_if ((dh_VMID r != 0) && negb (user_vmid (dh_VMID r))
                   && negb (existsb (fun c => owned_match r (addr_string address) c && (c_VMID c == dh_VMID r))
                              (PlatformComponents s)))
            (VMIDRange (dh_Hostname r) (dh_VMID r));
      Ok (mkReservationSeen ({[to_lower (dh_Hostname r)]} ∪ rs_Hostnames seen)
            ({[address]} ∪ rs_Addresses seen) ({[canonicalMAC]} ∪ rs_MACs seen))
  end.

Definition validateDHCPReservations (s : Site) : result ReservationError unit :=
  match zoneByName s "SERVERS" with
  | None => Err NoServersZone
  | Some servers =>
      _ ← foldM (reservation_step s servers) (mkReservationSeen ∅ ∅ ∅) (s_DHCPReservations s); Ok tt
  end.

(** ** DNS records *)

Definition privateDNSName (raw domain : string) : result RecordError string :=
  let name := to_lower (trim_suffix (trim_space raw) ".") in
  _ ← fail_if ((name == "") || (name == domain) || negb (has_suffix name ("." +:+ domain))) (OutsideDomain domain);
  _ ← fail_if (negb (forallb IsDNSLabel (split name "."))) (UnsafeLabel raw);
  Ok name.

Context `{GoURL}.

Definition component_names (domain : string) (c : Component) : list string :=
  to_lower (c_Hostname c +:+ "." +:+ domain)
  :: map (fun alias => to_lower (trim_suffix alias "." +:+ "." +:+ domain)) (c_DNSAliases c)
  ++ (if c_URL c != "" then
        match parse_url (c_URL c) with
        | Some parsed => if has_suffix (to_lower (url_Hostname parsed)) ("." +:+ domain)
                         then [to_lower (url_Hostname parsed)] else []
        | None => []
        end
      else []).

Definition site_domain (s : Site) : string := to_lower (trim_suffix (n_Domain (s_Network s)) ".").

Definition ownedNames (s : Site) : gset string :=
  list_to_set (flat_map (component_names (site_domain s)) (PlatformComponents s)
    ++ flat_map (fun d => map (fun r => to_lower (trim_suffix (mr_Name r) ".")) (md_DNSRecords d)) (s_Declarations s)).

Definition managedZones (s : Site) : list string :=
  map (fun z => to_lower (z_Name z) +:+ "." +:+ site_domain s)
    (List.filter (fun z => is_user_zone (z_Type z)) (n_Zones (s_Network s))).

Definition in_managed (name zone : string) : bool := (name == zone) || has_suffix name ("." +:+ zone).

(** The value of a record; a CNAME gives its target. *)
Definition record_target (s : Site) (name : string) (r : UserDNSRecord) : result RecordError (option string) :=
  if ud_Type r == "A" then
    match parse_to4 (ud_Value r) with
    | Some ip => _ ← fail_if (negb (ipInAnyZone ip (n_Zones (s_Network s)))) (ARecordAddress name); Ok None
    | None => Err (ARecordAddress name)
    end
  else if ud_Type r == "CNAME" then
    match privateDNSName (ud_Value r) (site_domain s) with
    | Err e => Err (CNAMETarget name e)
    | Ok target => _ ← fail_if (target == name) (CNAMESelf name); Ok (Some target)
    end
  else Err (BadRecordType name (ud_Type r)).

Definition record_name (s : Site) (r : UserDNSRecord) : result RecordError string :=
  privateDNSName (ud_Name r) (site_domain s).

Definition record_step (s : Site) (st : gset string * gmap string string) (r : UserDNSRecord)
    : result RecordError (gset string * gmap string string) :=
  let '(seen, cnameTargets) := st in
  match record_name s r with
  | Err e => Err (RecordName (ud_Name r) e)
  | Ok name =>
      _ ← fail_if (bool_decide (name ∈ ownedNames s)) (OwnedName name);
      _ ← match List.find (in_managed name) (managedZones s) with
          | Some zone => Err (ManagedNamespace name zone)
          | None => Ok tt
          end;
      _ ← fail_if (bool_decide (name ∈ seen)) (DuplicateRecord name);
      target ← record_target s name r;
      Ok ({[name]} ∪ seen,
          match target with Some t => <[name := t]> cnameTargets | None => cnameTargets end)
  end.

(** The inner loop of the cycle check.  [path] is [seenPath]. *)
Fixpoint follow (fuel : nat) (targets : gmap string string) (path : gset string) (current : string)
    : result RecordError unit :=
  match fuel with
  | O => Err CNAMEFuel
  | S fuel =>
      _ ← fail_if (bool_decide (current ∈ path)) (CNAMECycle current);
      match targets !! current with
      | None => Ok tt
      | Some next => follow fuel targets ({[current]} ∪ path) next
      end
  end.

(** Go walks the aliases in map order, which only decides which cycle is named.
    A path holds distinct aliases, so one step more than there are aliases is
    enough. *)
Definition no_cycles (targets : gmap string string) : result RecordError unit :=
  eachM (follow (S (size targets)) targets ∅) (map_to_list targets).*1.

Definition validateUserDNSRecords (s : Site) : result RecordError unit :=
  '(_, cnameTargets) ← foldM (record_step s) (∅, ∅) (s_DNSRecords s);
  no_cycles cnameTargets.

(** ** The rules of [Normalize] *)

Definition value_or {E A : Type} (d : A) (r : result E A) : A := match r with Ok a => a | Err _ => d end.

(** The loop body of [Site.Normalize] on a firewall rule: the errors of the two
    helpers are dropped, and a failed helper gives the zero value. *)
Definition normalize_rule (rule : UserFirewallRule) : UserFirewallRule :=
  let protocol := to_lower (trim_space (fr_Protocol rule)) in
  mkUserRule (fr_ID rule) (value_or "" (validateFirewallSelector (fr_Source rule)))
    (value_or "" (validateFirewallSelector (fr_Destination rule))) protocol
    (value_or [] (validateFirewallPorts (fr_Ports rule) protocol)).

Definition normalize_rules (rules : list UserFirewallRule) : list UserFirewallRule :=
  sort_by fr_ID (map normalize_rule rules).

(** ** Selectors *)

(** The texts the validator returns. *)
Definition canonical_selector (c : string) : Prop :=
  c ∈ rule_zones ∨ ∃ p, valid_prefix p ∧ masked p = p ∧ c = prefix_string p.

Lemma selector_canonical value c : validateFirewallSelector value = Ok c → canonical_selector c.
Proof.
  unfold validateFirewallSelector. destruct (existsb _ _) eqn:Ez.
  - intros [= <-]. left. apply existsb_exists in Ez as (z & Hz & Ez). bools. rewrite Ez.
    by apply list_elem_of_In.
  - destruct (parse_cidr _) as [p|] eqn:Ep; [|done]. intros Hs. inv_ok. right.
    apply parse_cidr_valid in Ep. exists (masked p).
    split_and!; [by apply masked_valid|apply masked_masked; apply Ep|done].
Qed.

Lemma rule_zone_inert c : c ∈ rule_zones → sall inert_byte c = true.
Proof. unfold rule_zones. rewrite !elem_of_cons. intros [->|[->|[->|H'%elem_of_nil]]]; done. Qed.

Lemma prefix_not_zone p : valid_prefix p → existsb (fun zone => prefix_string p == zone) rule_zones = false.
Proof.
  intros Hp. apply not_true_is_false. intros (z & Hz & E)%existsb_exists. bools.
  pose proof (parse_prefix_text p Hp) as Ht. rewrite E in Ht. apply list_elem_of_In in Hz. revert Hz.
  unfold rule_zones. rewrite !elem_of_cons. intros [->|[->|[->|H'%elem_of_nil]]]; done.
Qed.

(** Reading back a returned selector gives it again. *)
Lemma selector_fixed c : canonical_selector c → validateFirewallSelector c = Ok c.
Proof.
  unfold validateFirewallSelector. intros [Hc|(p&Hp&Hm&->)].
  - rewrite upper_trim_id by by apply rule_zone_inert.
    destruct (existsb _ _) eqn:Ez; [done|]. apply existsb_false in Ez. rewrite Forall_forall in Ez.
    specialize (Ez c Hc). by bools.
  - rewrite upper_trim_id by by apply prefix_text_inert. rewrite prefix_not_zone by done.
    unfold parse_cidr. rewrite parse_prefix_text by done. cbn.
    rewrite prefix_text_split by done. rewrite Hm. unfold fail_if.
    rewrite bool_decide_eq_true_2; done.
Qed.

(** ** Ports *)

Definition good_range (r : Z * Z) : Prop := 1 ≤ r.1 ≤ r.2 ∧ r.2 ≤ 65535 ∧ r.2 - r.1 + 1 ≤ 1024.

Lemma port_range_good raw r : port_range raw = Ok r → good_range r.
Proof.
  unfold port_range, good_range. intros Hs. inv_ok. destruct (parse_int _) as [start|]; [|done]. inv_ok. bools.
  destruct (split (trim_space raw) "-") as [|a [|b [|]]]; try (inv_ok; cbn; lia).
  destruct (parse_int b) as [e|]; [|done]. inv_ok. bools. cbn. lia.
Qed.

Lemma digits_split s t : sall is_digit s = true →
  split (s +:+ String "-" t) "-" = s :: split t "-" ∧ split s "-" = [s].
Proof.
  intros Hs. assert (contains_byte s "-" = false) as Hn by by apply digits_no_byte.
  by rewrite split_sep, (split_none s).
Qed.

(** A canonical range text is read back as the range. *)
Lemma port_text_range r : good_range r → port_range (port_text r) = Ok r.
Proof.
  destruct r as [a b]. unfold good_range. cbn [fst snd]. intros (Hab&Hb&Hw).
  pose proof (format_uint_digits a ltac:(lia)) as Da. pose proof (format_uint_digits b ltac:(lia)) as Db.
  assert (∀ s, sall is_digit s = true → sall plain_byte s = true) as Hpl
    by (intros s; apply sall_mono; apply digit_plain).
  unfold port_range, port_text. rewrite !itoa_nonneg by lia.
  destruct (decide (b = a)) as [->|Hne].
  - rewrite bool_decide_eq_true_2 by done. cbn [negb]. rewrite app_nil_r_s, trim_space_id by auto.
    rewrite (proj2 (digits_split _ "" Da)). cbn [length hd]. rewrite parse_int_format by lia.
    cbn. destruct (Z.ltb_spec a 1); [lia|]. destruct (Z.gtb_spec a 65535); [lia|]. cbn.
    destruct (Z.gtb_spec (a - a + 1) 1024); [lia|done].
  - rewrite bool_decide_eq_false_2 by done. cbn [negb].
    rewrite trim_space_id by (by rewrite !sall_app, (Hpl _ Da), (Hpl _ Db)).
    rewrite app_cons_s, app_nil_l_s, (proj1 (digits_split _ _ Da)), (proj2 (digits_split _ "" Db)).
    cbn [length hd]. rewrite !parse_int_format by lia.
    cbn. destruct (Z.ltb_spec a 1); [lia|]. destruct (Z.gtb_spec a 65535); [lia|]. cbn.
    destruct (Z.ltb_spec b a); [lia|]. destruct (Z.gtb_spec b 65535); [lia|]. cbn.
    destruct (Z.gtb_spec (b - a + 1) 1024); [lia|done].
Qed.

(** What [validateFirewallPorts] returns: distinct canonical ranges, in
    lexical order, and none at all for ICMP. *)
Record canonical_ports (protocol : string) (ports : list string) : Prop := {
  cp_ranges : Forall (fun t => ∃ r, good_range r ∧ t = port_text r) ports;
  cp_distinct : NoDup ports;
  cp_count : (length ports ≤ 16)%nat;
  cp_icmp : protocol = "icmp" → ports = [];
}.

Lemma ports_loop protocol values ports seen :
  foldM (port_step protocol) ([], ∅) values = Ok (ports, seen) →
  Forall (fun t => ∃ r, good_range r ∧ t = port_text r) ports ∧ NoDup ports
  ∧ length ports = length values ∧ (protocol = "icmp" → ports = []).
Proof.
  intros Hf. cut (seen = list_to_set ports ∧ Forall (fun t => ∃ r, good_range r ∧ t = port_text r) ports
    ∧ NoDup ports ∧ length ports = length values ∧ (protocol = "icmp" → ports = [])); [tauto|].
  change (let '(ports, seen) := (ports, seen) in seen = (list_to_set ports : gset string)
    ∧ Forall (fun t => ∃ r, good_range r ∧ t = port_text r) ports
    ∧ NoDup ports ∧ length ports = length values ∧ (protocol = "icmp" → ports = [])).
  revert Hf. generalize (ports, seen). clear ports seen. intros st.
  apply (foldM_inv _ (fun dn (st : list string * gset string) => let '(ports, seen) := st in
    seen = list_to_set ports ∧ Forall (fun t => ∃ r, good_range r ∧ t = port_text r) ports
    ∧ NoDup ports ∧ length ports = length dn ∧ (protocol = "icmp" → ports = []))).
  { split_and!; try done; constructor. }
  intros dn raw [ports seen] s2 (->&Hr&Hd&Hl&Hi) _ Hs. unfold port_step in Hs. inv_ok. bools.
  apply port_range_good in E. rewrite list_to_set_app_L. split_and!.
  - cbn. set_solver.
  - apply Forall_app. split; [done|]. constructor; [eauto|constructor].
  - apply NoDup_snoc; [done|]. rewrite elem_of_list_to_set in E1. done.
  - rewrite !length_app. cbn. lia.
  - done.
Qed.

Lemma ports_canonical values protocol ports :
  validateFirewallPorts values protocol = Ok ports →
  canonical_ports protocol ports ∧ sort_strings ports = ports.
Proof.
  unfold validateFirewallPorts. intros Hs. inv_ok. destruct r as [l seen]. inv_ok.
  apply ports_loop in E0 as (Hr&Hd&Hl&Hi). apply Nat.ltb_ge in E.
  assert (sort_strings l ≡ₚ l) as Hp by apply sort_strings_perm. split.
  - constructor; rewrite ?Hp; [done..|lia|]. intros Hic. by rewrite (Hi Hic).
  - apply (Sorted_unique String.le); try apply sort_strings_sorted. apply sort_strings_perm.
Qed.

Lemma ports_loop_fixed protocol l :
  Forall (fun t => ∃ r, good_range r ∧ t = port_text r) l → NoDup l → (protocol = "icmp" → l = []) →
  foldM (port_step protocol) ([], ∅) l = Ok (l, list_to_set l).
Proof.
  induction l as [|t l IH] using rev_ind; [done|]. intros Hr Hd Hi.
  apply Forall_app in Hr as [Hr Ht]. apply Forall_cons_iff in Ht as [(r&Hg&->) _].
  assert (protocol ≠ "icmp") as Hic by (intros Hic%Hi; by destruct l).
  apply NoDup_app in Hd as (Hd&Hnew&_). apply foldM_snoc. exists (l, list_to_set l). split.
  - by apply IH.
  - unfold port_step. rewrite port_text_range by done. cbn.
    rewrite !bool_decide_eq_false_2 by (rewrite ?elem_of_list_to_set; set_solver).
    cbn. do 2 f_equal. rewrite list_to_set_app_L. set_solver.
Qed.

Lemma ports_fixed protocol ports : canonical_ports protocol ports → sort_strings ports = ports →
  validateFirewallPorts ports protocol = Ok ports.
Proof.
  intros [Hr Hd Hl Hi] Hs. unfold validateFirewallPorts.
  destruct (Nat.ltb_spec 16 (length ports)); [lia|]. cbn. rewrite ports_loop_fixed by done. cbn. by rewrite Hs.
Qed.

(** ** Rules *)

Lemma canonical_inert c : canonical_selector c → to_upper (trim_space c) = c.
Proof.
  intros [Hc|(p&Hp&_&->)]; apply upper_trim_id; [by apply rule_zone_inert|by apply prefix_text_inert].
Qed.

Lemma protocol_fixed p : p = "tcp" ∨ p = "udp" ∨ p = "icmp" → to_lower (trim_space p) = p.
Proof. by intros [->|[->| ->]]. Qed.

(** The parts of a rule's meaning are in canonical form, and the normalised
    rule is the rule written with them. *)
Record meaning_ok (m : RuleMeaning) : Prop := {
  mo_source : canonical_selector (fm_Source m);
  mo_destination : canonical_selector (fm_Destination m);
  mo_protocol : fm_Protocol m = "tcp" ∨ fm_Protocol m = "udp" ∨ fm_Protocol m = "icmp";
  mo_ports : canonical_ports (fm_Protocol m) (fm_Ports m);
  mo_sorted : sort_strings (fm_Ports m) = fm_Ports m;
}.

Lemma rule_meaning_ok rule m : rule_meaning rule = Ok m →
  meaning_ok m
  ∧ normalize_rule rule = mkUserRule (fr_ID rule) (fm_Source m) (fm_Destination m) (fm_Protocol m) (fm_Ports m).
Proof.
  unfold rule_meaning, normalize_rule. intros Hm.
  destruct (validateFirewallSelector (fr_Source rule)) as [src|] eqn:Es; [|done].
  destruct (validateFirewallSelector (fr_Destination rule)) as [dst|] eqn:Ed; [|done]. inv_ok.
  destruct (validateFirewallPorts _ _) as [ports|] eqn:Ep; [|done]. inv_ok.
  apply selector_canonical in Es, Ed. apply ports_canonical in Ep as [??]. split; [|done].
  constructor; try done. cbn. match goal with Hf : (_ && _ && _) = false |- _ =>
    rewrite !andb_false_iff, !negb_false_iff, !bool_decide_eq_true in Hf; tauto end.
Qed.

Lemma meaning_fixed id m : meaning_ok m →
  rule_meaning (mkUserRule id (fm_Source m) (fm_Destination m) (fm_Protocol m) (fm_Ports m)) = Ok m.
Proof.
  intros [Hs Hd Hp Hports Hsorted]. unfold rule_meaning.
  cbn [fr_ID fr_Source fr_Destination fr_Protocol fr_Ports].
  rewrite !selector_fixed, protocol_fixed, ports_fixed by done. cbn.
  destruct m as [src dst p ports]. cbn in Hp |- *. by destruct Hp as [->|[->| ->]].
Qed.

(** When a rule is acceptable on its own. *)
Definition rule_allowed (s : Site) (m : RuleMeaning) : bool :=
  (negb (firewallSelectorProtected s (fm_Source m)) && negb (firewallSelectorProtected s (fm_Destination m)))
  || IsReservedServersObservabilityRule s (fm_Source m) (fm_Destination m) (fm_Protocol m) (fm_Ports m).

Definition rule_id_ok (rule : UserFirewallRule) : bool :=
  has_prefix (fr_ID rule) "ufr-" && model_token_match (fr_ID rule).

(** The rules with their meanings. *)
Definition meanings (rules : list UserFirewallRule) (ms : list RuleMeaning) : Prop :=
  Forall2 (fun rule m => rule_meaning rule = Ok m) rules ms.

Lemma meanings_map rules ms : meanings rules ms → map rule_meaning rules = map Ok ms.
Proof. intros Hm. induction Hm as [|rule m rules ms Hr _ IH]; cbn; [done|]. by rewrite Hr, IH. Qed.

Record rules_ok (s : Site) (rules : list UserFirewallRule) (ms : list RuleMeaning) : Prop := {
  ro_meanings : meanings rules ms;
  ro_ids : Forall (fun rule => rule_id_ok rule = true) rules;
  ro_allowed : Forall (fun m => rule_allowed s m = true) ms;
  ro_ids_distinct : NoDup (map fr_ID rules);
  ro_keys_distinct : NoDup (map rule_key ms);
}.

Lemma rule_step_spec s ids semantics rule st :
  rule_step s (ids, semantics) rule = Ok st ↔
  ∃ m, rule_meaning rule = Ok m ∧ rule_id_ok rule = true ∧ rule_allowed s m = true
    ∧ fr_ID rule ∉ ids ∧ rule_key m ∉ semantics
    ∧ st = ({[fr_ID rule]} ∪ ids, {[rule_key m]} ∪ semantics).
Proof.
  unfold rule_step, rule_id_ok, rule_allowed. split.
  - intros Hs. inv_ok. bools. exists r. split_and!; try done.
    + apply andb_true_iff. tauto.
    + rewrite orb_true_iff, andb_true_iff, !negb_true_iff, <- orb_false_iff.
      apply andb_false_iff in E2 as [E2|E2]; [by left|by right; apply negb_false_iff].
  - intros (m&Hm&Hid&Ha&Hn&Hk&->). apply andb_true_iff in Hid as [-> ->]. cbn.
    rewrite bool_decide_eq_false_2 by done. cbn. rewrite Hm. cbn.
    apply orb_true_iff in Ha as [Ha|Ha].
    + apply andb_true_iff in Ha as [Ha1 Ha2]. apply negb_true_iff in Ha1, Ha2. rewrite Ha1, Ha2. cbn.
      by rewrite bool_decide_eq_false_2.
    + rewrite Ha, andb_false_r. cbn. by rewrite bool_decide_eq_false_2.
Qed.

Lemma rules_loop s rules st :
  foldM (rule_step s) (∅, ∅) rules = Ok st ↔
  ∃ ms, rules_ok s rules ms ∧ st = (list_to_set (map fr_ID rules), list_to_set (map rule_key ms)).
Proof.
  revert st. induction rules as [|rule rules IH] using rev_ind; intros st.
  - cbn. split.
    + intros [= <-]. exists []. split; [|done]. constructor; constructor.
    + by intros (ms&[Hm%Forall2_nil_inv_l _ _ _ _]&->); subst.
  - rewrite foldM_snoc. split.
    + intros (st1&(ms&[Hm Hi Ha Hd Hk]&->)%IH&Hs). apply rule_step_spec in Hs as (m&Hrm&Hid&Hal&Hn&Hkey&->).
      rewrite elem_of_list_to_set in Hn, Hkey. exists (ms ++ [m]). split.
      * constructor; rewrite ?map_app.
        -- by apply Forall2_app; [|constructor].
        -- apply Forall_app. by split; [|constructor].
        -- apply Forall_app. by split; [|constructor].
        -- by apply NoDup_snoc.
        -- by apply NoDup_snoc.
      * rewrite !map_app, !list_to_set_app_L. cbn. f_equal; set_solver.
    + intros (ms&[Hm Hi Ha Hd Hk]&->). apply Forall2_app_inv_l in Hm as (ms1&ms2&Hm&Hm2&->).
      apply Forall2_cons_inv_l in Hm2 as (m&ms3&Hrm&->%Forall2_nil_inv_l&->).
      apply Forall_app in Hi as [Hi [Hid _]%Forall_cons_iff]. apply Forall_app in Ha as [Ha [Hal _]%Forall_cons_iff].
      rewrite map_app in Hd, Hk. apply NoDup_app in Hd as (Hd&Hn&_), Hk as (Hk&Hkn&_).
      eexists. split; [apply IH; exists ms1; by split|]. apply rule_step_spec. exists m.
      rewrite !elem_of_list_to_set. split_and!; try done; cbn in *; [set_solver..|].
      rewrite !map_app, !list_to_set_app_L. cbn. f_equal; set_solver.
Qed.

(** Exactly which lists of rules are accepted. *)
Lemma user_rules_spec s :
  validateUserFirewallRules s = Ok tt ↔
  (length (s_UserFirewallRules s) ≤ 64)%nat ∧ ∃ ms, rules_ok s (s_UserFirewallRules s) ms.
Proof.
  unfold validateUserFirewallRules, maxUserFirewallRules. split.
  - intros Hv. inv_ok. apply Nat.ltb_ge in E. apply rules_loop in E0 as (ms&?&_). eauto.
  - intros [Hl (ms&Hr)]. destruct (Nat.ltb_spec 64 (length (s_UserFirewallRules s))); [lia|]. cbn.
    assert (foldM (rule_step s) (∅, ∅) (s_UserFirewallRules s) = Ok (list_to_set (map fr_ID (s_UserFirewallRules s)), list_to_set (map rule_key ms))) as ->; [|done].
    apply rules_loop. eauto.
Qed.

(** ** What an accepted rule can reach *)

(** The addresses a selector stands for: a zone's network, or the prefix. *)
Definition selector_covers (s : Site) (sel : string) (a : Addr) : Prop :=
  match List.find (fun zone => sel == z_Name zone) (n_Zones (s_Network s)) with
  | Some zone => ipInZone a zone = true
  | None => ∃ p, parse_cidr sel = Some p ∧ prefix_contains p a = true
  end.

(** A selector stays off the platform: it covers no product-owned component,
    and a prefix covers no component and no address of a core zone. *)
Definition off_platform (s : Site) (sel : string) : Prop :=
  ∀ a, selector_covers s sel a →
    (∀ c, c ∈ PlatformComponents s → c_ProductOwned c = true → parse_to4 (c_Address c) ≠ Some a)
    ∧ (List.find (fun zone => sel == z_Name zone) (n_Zones (s_Network s)) = None →
       ∀ z, z ∈ n_Zones (s_Network s) → is_core_zone (z_Type z) = true → ipInZone a z = false).

Lemma cidr_meet p q m1 m2 a : valid_prefix p → valid_prefix q →
  prefix_contains p a = true → cidr_contains (CIDR4 q m2) a = true →
  cidr_contains_base (CIDR4 p m1) (CIDR4 q m2) || cidr_contains_base (CIDR4 q m2) (CIDR4 p m1) = true.
Proof.
  intros Hp Hq Hpa Hqa. cbn in Hqa |- *. rewrite !masked_contains in * by (apply Hp || apply Hq).
  apply orb_true_iff. by eapply networks_meet.
Qed.

Lemma component_not_in network cs c a :
  existsb (component_in network) cs = false → c ∈ cs → parse_to4 (c_Address c) = Some a →
  cidr_contains network a = false.
Proof.
  intros Hf Hc Ha. apply existsb_false in Hf. rewrite Forall_forall in Hf. specialize (Hf c Hc).
  unfold component_in in Hf. by rewrite Ha in Hf.
Qed.

Lemma unprotected_off_platform s sel :
  canonical_selector sel → firewallSelectorProtected s sel = false → off_platform s sel.
Proof.
  intros Hc Hp a Hcov. unfold firewallSelectorProtected in Hp. rewrite canonical_inert in Hp by done.
  unfold selector_covers in Hcov. destruct (List.find _ _) as [zone|] eqn:Ez.
  - split; [|done]. destruct (negb _); [done|]. unfold ipInZone in Hcov.
    destruct (net_parse_cidr (z_Network zone)) as [network|]; [|done].
    intros c Hin Hown Ha. apply existsb_false in Hp. rewrite Forall_forall in Hp. specialize (Hp c Hin).
    cbn in Hp. rewrite Hown in Hp. unfold component_in in Hp. rewrite Ha in Hp. cbn in Hp. congruence.
  - destruct Hcov as (p&[m Hnet]%parse_cidr_Some&Hpa). rewrite Hnet in Hp.
    apply orb_false_iff in Hp as [Hcs Hzs]. pose proof (net_parse_cidr_valid _ _ _ Hnet) as Hv. split.
    + intros c Hin _ Ha. pose proof (component_not_in _ _ _ _ Hcs Hin Ha) as Hno. cbn in Hno.
      rewrite masked_contains in Hno by apply Hv. congruence.
    + intros _ z Hz Hcore. apply existsb_false in Hzs. rewrite Forall_forall in Hzs. specialize (Hzs z Hz).
      cbn in Hzs. rewrite Hcore in Hzs. cbn in Hzs. apply not_true_is_false. unfold ipInZone. intros Hin.
      destruct (net_parse_cidr (z_Network z)) as [[q mq|]|] eqn:Eq; try done.
      pose proof (cidr_meet p q m mq a Hv (net_parse_cidr_valid _ _ _ Eq) Hpa Hin) as Hmeet.
      cbn in Hmeet, Hzs. congruence.
Qed.

(** The rule of the exception: HTTPS from one reserved SERVERS host to the monitor. *)
Definition monitor_reading (s : Site) (m : RuleMeaning) : Prop :=
  fm_Protocol m = "tcp" ∧ fm_Ports m = ["443"]
  ∧ ∃ a zone r c, fm_Source m = addr_string a +:+ "/32"
      ∧ zoneByName s "SERVERS" = Some zone ∧ ipInZone a zone = true
      ∧ r ∈ s_DHCPReservations s ∧ dh_Zone r = "SERVERS" ∧ parse_to4 (dh_Address r) = Some a
      ∧ c ∈ PlatformComponents s ∧ is_monitor c = true ∧ fm_Destination m = c_Address c +:+ "/32".

Lemma reserved_monitor_reading s m : canonical_selector (fm_Source m) →
  IsReservedServersObservabilityRule s (fm_Source m) (fm_Destination m) (fm_Protocol m) (fm_Ports m) = true →
  monitor_reading s m.
Proof.
  intros Hc. unfold IsReservedServersObservabilityRule. destruct (_ || _) eqn:Ep; [done|]. bools.
  destruct Hc as [Hz|(p&Hp&Hm&Es)].
  { revert Hz. unfold rule_zones. rewrite !elem_of_cons.
    intros [->|[->|[->|H'%elem_of_nil]]]; try done; by vm_compute. }
  rewrite Es, parse_prefix_text by done. destruct (p_bits p != 32) eqn:Eb; [done|]. bools.
  destruct (zoneByName s "SERVERS") as [servers|] eqn:Ez; [|done].
  intros Hr. apply andb_true_iff in Hr as [[Hin Hres]%andb_true_iff Hmon].
  apply existsb_exists in Hres as (r&Hr&Hra). bools.
  destruct (List.find is_monitor _) as [c|] eqn:Ec; [|done]. apply find_some in Ec as [Hc Hmonitor]. bools.
  split_and!; try done. exists (p_addr p), servers, r, c. split_and!; try done.
  - rewrite Es. unfold prefix_string. by rewrite Eb.
  - by apply list_elem_of_In.
  - by apply list_elem_of_In.
Qed.

(** ** Normalising keeps the rules accepted *)

Lemma normalize_rule_idemp rule m : rule_meaning rule = Ok m → normalize_rule (normalize_rule rule) = normalize_rule rule.
Proof.
  intros [Hok Hn]%rule_meaning_ok. rewrite Hn.
  destruct (rule_meaning_ok _ _ (meaning_fixed (fr_ID rule) m Hok)) as [_ ->]. done.
Qed.

Lemma meanings_normalized rules ms : meanings rules ms → meanings (map normalize_rule rules) ms.
Proof.
  intros Hm. apply Forall2_fmap_l. eapply Forall2_impl; [exact Hm|]. intros rule m Hr. cbn.
  destruct (rule_meaning_ok _ _ Hr) as [Hok ->]. by apply meaning_fixed.
Qed.

Lemma normalized_rules_ok s rules ms : rules_ok s rules ms →
  ∃ ms', ms ≡ₚ ms' ∧ rules_ok s (normalize_rules rules) ms'.
Proof.
  intros [Hm Hi Ha Hd Hk]. unfold normalize_rules.
  pose proof (sort_by_perm fr_ID (map normalize_rule rules)) as Hp.
  destruct (Permutation_Forall2 (Permutation_sym Hp) (meanings_normalized _ _ Hm)) as (ms'&Hpm&Hms').
  exists ms'. split; [done|]. constructor; [done| |by rewrite <- Hpm| |by rewrite <- Hpm].
  - rewrite Hp. apply Forall_map. by eapply Forall_impl.
  - rewrite Hp, map_map. done.
Qed.

Lemma normalize_rules_idemp s rules ms : rules_ok s rules ms → normalize_rules (normalize_rules rules) = normalize_rules rules.
Proof.
  intros Hok. unfold normalize_rules at 1. assert (map normalize_rule (normalize_rules rules) = normalize_rules rules) as ->.
  { unfold normalize_rules. rewrite <- (map_id (sort_by _ _)) at 2. apply map_ext_in. intros r Hr.
    apply list_elem_of_In, elem_of_sort_by, list_elem_of_fmap in Hr as (r'&->&Hr').
    apply list_elem_of_lookup in Hr' as (i&Hr'). destruct Hok as [Hm _ _ _ _].
    destruct (Forall2_lookup_l _ _ _ _ _ Hm Hr') as (m&_&Hrm). by eapply normalize_rule_idemp. }
  apply sort_by_idemp.
Qed.

Lemma with_rules_allowed s rules : rule_allowed (with_user_rules s (s_DHCPReservations s) (s_DNSRecords s) rules) = rule_allowed s.
Proof. reflexivity. Qed.

(** ** Reservations *)

(** An accepted reservation, its address and its canonical hardware address. *)
Record site_reservation_good (s : Site) (servers : Zone) (r : DHCPReservation) (a : Addr) (mac : string) : Prop := {
  sr_zone : dh_Zone r = "SERVERS";
  sr_label : IsDNSLabel (dh_Hostname r) = true;
  sr_addr : parse_to4 (dh_Address r) = Some a;
  sr_usable : usableIPInZone a servers = true;
  sr_gateway : addr_string a ≠ z_Gateway servers;
  sr_platform : ∀ c, c ∈ PlatformComponents s → parse_to4 (c_Address c) = Some a →
    ∃ c', c' ∈ PlatformComponents s ∧ owned_match r (addr_string a) c' = true;
  sr_mac : ethernet_mac (dh_MAC r) = Some mac;
  sr_vmid : dh_VMID r = 0 ∨ 500 ≤ dh_VMID r ≤ 899
    ∨ ∃ c, c ∈ PlatformComponents s ∧ owned_match r (addr_string a) c = true ∧ c_VMID c = dh_VMID r;
}.

Lemma reservation_step_good s servers seen r seen' :
  reservation_step s servers seen r = Ok seen' →
  ∃ a mac, site_reservation_good s servers r a mac
    ∧ a ∉ rs_Addresses seen ∧ mac ∉ rs_MACs seen ∧ to_lower (dh_Hostname r) ∉ rs_Hostnames seen
    ∧ seen' = mkReservationSeen ({[to_lower (dh_Hostname r)]} ∪ rs_Hostnames seen)
                ({[a]} ∪ rs_Addresses seen) ({[mac]} ∪ rs_MACs seen).
Proof.
  unfold reservation_step, reservation_address. intros Hs. apply bind_ok in Hs as (a & Ha & Hs).
  apply bind_ok in Ha as ([] & Hz & Ha). apply bind_ok in Ha as ([] & _ & Ha). apply bind_ok in Ha as ([] & Hl & Ha).
  destruct (parse_to4 (dh_Address r)) as [a'|] eqn:Ea; [|done].
  apply bind_ok in Ha as ([] & Hu & Ha). apply bind_ok in Ha as ([] & Hp & [= ->]).
  apply bind_ok in Hs as ([] & Hdup & Hs). destruct (ethernet_mac (dh_MAC r)) as [mac|] eqn:Em; [|done].
  apply bind_ok in Hs as ([] & Hh & Hs). apply bind_ok in Hs as ([] & Hm & Hs).
  apply bind_ok in Hs as ([] & Hv & [= <-]). rewrite fail_if_ok in *. bools.
  exists a, mac. split_and!; try done. constructor; try done.
  - intros c Hc Hca. apply andb_false_iff in Hp as [Hp|Hp]; bools.
    + exfalso. apply Hp. unfold platformAddresses. apply elem_of_list_to_set, list_elem_of_omap. eauto.
    + apply existsb_exists in Hp as (c'&?%list_elem_of_In&?). eauto.
  - rewrite !andb_false_iff, !negb_false_iff in Hv. unfold user_vmid in Hv.
    destruct Hv as [[Hv|Hv]|Hv]; bools; [by left|by right; left|right; right].
    apply existsb_exists in Hv as (c&?%list_elem_of_In&?). bools. eauto.
Qed.

Record site_reservations_good (s : Site) (servers : Zone) (rs : list DHCPReservation) (seen : ReservationSeen) : Prop := {
  srs_each : Forall (fun r => ∃ a mac, site_reservation_good s servers r a mac) rs;
  srs_hostnames : NoDup (map (fun r => to_lower (dh_Hostname r)) rs);
  srs_addresses : NoDup (map (fun r => parse_to4 (dh_Address r)) rs);
  srs_macs : NoDup (map (fun r => ethernet_mac (dh_MAC r)) rs);
  srs_seen_hostnames : ∀ h, h ∈ map (fun r => to_lower (dh_Hostname r)) rs → h ∈ rs_Hostnames seen;
  srs_seen_addresses : ∀ a, Some a ∈ map (fun r => parse_to4 (dh_Address r)) rs → a ∈ rs_Addresses seen;
  srs_seen_macs : ∀ m, Some m ∈ map (fun r => ethernet_mac (dh_MAC r)) rs → m ∈ rs_MACs seen;
}.

Lemma site_reservations_loop s servers rs seen :
  foldM (reservation_step s servers) (mkReservationSeen ∅ ∅ ∅) rs = Ok seen →
  site_reservations_good s servers rs seen.
Proof.
  apply foldM_inv.
  { constructor; try constructor; cbn; set_solver. }
  intros dn r s1 s2 [] _ (a&mac&Hg&Ha&Hm&Hh&->)%reservation_step_good.
  pose proof (sr_addr _ _ _ _ _ Hg) as Haddr. pose proof (sr_mac _ _ _ _ _ Hg) as Hmac.
  constructor; cbn; rewrite ?map_app; cbn; rewrite ?Haddr, ?Hmac.
  - apply Forall_app. split; [done|]. constructor; eauto.
  - apply NoDup_snoc; [done|]. eauto.
  - apply NoDup_snoc; [done|]. eauto.
  - apply NoDup_snoc; [done|]. eauto.
  - intros h [Hin|[= ->]%list_elem_of_singleton]%elem_of_app; set_solver.
  - intros h [Hin|[= ->]%list_elem_of_singleton]%elem_of_app; set_solver.
  - intros h [Hin|[= ->]%list_elem_of_singleton]%elem_of_app; set_solver.
Qed.

(** A usable address is a host address of the zone's network. *)
Lemma usable_in_zone a zone : usableIPInZone a zone = true →
  ∃ p m, net_parse_cidr (z_Network zone) = Some (CIDR4 p m) ∧ prefix_contains p a = true
    ∧ a ≠ p_addr (masked p) ∧ a ≠ broadcast p m.
Proof.
  unfold usableIPInZone. destruct (net_parse_cidr _) as [[p m|]|] eqn:E; try done. intros Hu. bools.
  exists p, m. rewrite masked_contains in *; [done|]. apply net_parse_cidr_valid in E. apply E.
Qed.

(** ** DNS records *)

Lemma follow_ok targets fuel path n u : follow fuel targets path n = Ok u → ∃ m, chain_end targets n m.
Proof.
  revert path n. induction fuel as [|fuel IH]; intros path n; cbn; [done|]. intros Hf. inv_ok.
  destruct (targets !! n) as [t|] eqn:Et.
  - apply IH in Hf as (m&?). exists m. by eapply chain_end_step.
  - exists n. by apply chain_end_here.
Qed.

Lemma follow_fuel targets fuel path n : path ⊆ dom targets → (size targets < size path + fuel)%nat →
  follow fuel targets path n ≠ Err CNAMEFuel.
Proof.
  revert path n. induction fuel as [|fuel IH]; intros path n Hsub Hsz; cbn.
  { apply path_bound in Hsub. lia. }
  destruct (bool_decide (n ∈ path)) eqn:Hin; cbn; [done|]. bools.
  destruct (targets !! n) as [t|] eqn:Et; [|done].
  destruct (path_extend targets path n t) as [? ?]; [done..|]. apply IH; [done|lia].
Qed.

(** A cycle is reported only when there is one. *)
Lemma follow_err targets fuel path n e : (∀ x, x ∈ path → tc (alias_step targets) x n) →
  follow fuel targets path n = Err e → e = CNAMEFuel ∨ ∃ c, e = CNAMECycle c ∧ tc (alias_step targets) c c.
Proof.
  revert path n. induction fuel as [|fuel IH]; intros path n Hp; cbn; [by intros [= <-]; left|].
  destruct (bool_decide (n ∈ path)) eqn:Hin; cbn; bools.
  - intros [= <-]. right. exists n. eauto.
  - destruct (targets !! n) as [t|] eqn:Et; [|done]. apply IH.
    intros x [->%elem_of_singleton|Hx%Hp]%elem_of_union; [by apply tc_once|]. by eapply tc_r.
Qed.

Lemma no_cycles_fuel targets : no_cycles targets ≠ Err CNAMEFuel.
Proof.
  unfold no_cycles. intros (n&_&Hn)%eachM_err. revert Hn.
  apply follow_fuel; [set_solver|]. rewrite size_empty. lia.
Qed.

Lemma no_cycles_ok targets : no_cycles targets = Ok tt ↔ ∀ n, ¬ tc (alias_step targets) n n.
Proof.
  split.
  - unfold no_cycles. rewrite eachM_ok, Forall_forall. intros Hf n Hn.
    assert (∃ t, targets !! n = Some t) as [t Ht] by (inversion Hn; unfold alias_step in *; eauto).
    destruct (follow_ok targets (S (size targets)) ∅ n tt) as [m Hm].
    { apply Hf. apply list_elem_of_fmap. exists (n, t). split; [done|by apply elem_of_map_to_list]. }
    by eapply chain_end_acyclic.
  - intros Hac. pose proof (no_cycles_fuel targets) as Hfuel.
    destruct (no_cycles targets) as [[]|e] eqn:Ec; [done|]. unfold no_cycles in Ec.
    apply eachM_err in Ec as (n&_&Ef). apply follow_err in Ef as [->|(c&->&Hc)]; [done|by destruct (Hac c)|set_solver].
Qed.

(** What the record loop has established: [targets] are exactly the aliases. *)
Record site_records_good (s : Site) (rs : list UserDNSRecord) (seen : gset string) (targets : gmap string string) : Prop := {
  sg_each : Forall (fun r => ∃ n t, record_name s r = Ok n ∧ n ∉ ownedNames s
    ∧ Forall (fun z => in_managed n z = false) (managedZones s) ∧ record_target s n r = Ok t ∧ targets !! n = t) rs;
  sg_distinct : NoDup (map (record_name s) rs);
  sg_seen : ∀ n, n ∈ seen ↔ Ok n ∈ map (record_name s) rs;
  sg_targets : ∀ n, n ∉ seen → targets !! n = None;
}.

Lemma find_none_Forall {A : Type} (f : A → bool) l : List.find f l = None → Forall (fun x => f x = false) l.
Proof. induction l as [|x l IH]; cbn; [constructor|]. destruct (f x) eqn:E; [done|]. constructor; auto. Qed.

Lemma site_records_loop s rs st :
  foldM (record_step s) (∅, ∅) rs = Ok st → site_records_good s rs st.1 st.2.
Proof.
  apply (foldM_inv _ (fun dn st => site_records_good s dn st.1 st.2)).
  { constructor; try constructor; cbn; try set_solver. }
  intros dn r [seen targets] s2 [He Hd Hs Ht] _ Hf. cbn [fst snd] in *. unfold record_step in Hf.
  destruct (record_name s r) as [n|] eqn:En; [|done]. apply bind_ok in Hf as ([] & Ho & Hf).
  apply bind_ok in Hf as ([] & Hz & Hf). apply bind_ok in Hf as ([] & Hnew & Hf).
  apply bind_ok in Hf as (t & Htg & [= <-]). rewrite fail_if_ok in *. bools. cbn [fst snd].
  destruct (List.find _ _) eqn:Efind; [done|]. apply find_none_Forall in Efind.
  assert (∀ m, m ≠ n → (match t with Some t' => <[n:=t']> targets | None => targets end) !! m = targets !! m) as Hother.
  { intros m Hm. destruct t; [by rewrite lookup_insert_ne|done]. }
  constructor; rewrite ?map_app; cbn; rewrite ?En.
  - apply Forall_app. split.
    + rewrite Forall_forall in He |- *. intros r' Hr'. destruct (He r' Hr') as (n'&t'&Hn'&?&?&?&?).
      exists n', t'. split_and!; try done. rewrite Hother; [done|]. intros ->. apply Hnew, Hs.
      apply list_elem_of_fmap. by exists r'.
    + constructor; [|constructor]. exists n, t. split_and!; try done.
      destruct t; [apply lookup_insert_eq|by apply Ht].
  - apply NoDup_snoc; [done|]. by rewrite <- Hs.
  - intros m. rewrite elem_of_union, elem_of_singleton, elem_of_app, list_elem_of_singleton, Hs. naive_solver.
  - intros m Hm. rewrite Hother by set_solver. apply Ht. set_solver.
Qed.
End rules.

(** ** Properties *)

(** An operator's firewall rules never reach the platform.  In a site whose
    rules were accepted there are at most 64 of them, with distinct stable
    identifiers and distinct meanings, and each rule either keeps both of its
    ends off every product-owned component and, when it is written with a
    prefix, off every address of the core zones; or it is the one exception,
    HTTPS from a single reserved SERVERS host to the monitor. *)
Theorem validateUserFirewallRules_safe `{GoUnicode} s :
  validateUserFirewallRules s = Ok tt →
  (length (s_UserFirewallRules s) ≤ 64)%nat
  ∧ NoDup (map fr_ID (s_UserFirewallRules s))
  ∧ NoDup (map rule_meaning (s_UserFirewallRules s))
  ∧ ∀ rule, rule ∈ s_UserFirewallRules s → ∃ m, rule_meaning rule = Ok m
      ∧ ((off_platform s (fm_Source m) ∧ off_platform s (fm_Destination m)) ∨ monitor_reading s m).
Proof.
  intros [Hl (ms&[Hm Hi Ha Hd Hk])]%user_rules_spec. split_and!; [done|done| |].
  - rewrite (meanings_map _ _ Hm). eapply NoDup_map_weaken; [|exact Hk]. congruence.
  - intros rule (i&Hr)%list_elem_of_lookup. destruct (Forall2_lookup_l _ _ _ _ _ Hm Hr) as (m&Him&Hrm).
    exists m. split; [done|]. destruct (rule_meaning_ok _ _ Hrm) as [[Hs Hdst _ _ _] _].
    rewrite Forall_forall in Ha. specialize (Ha m (list_elem_of_lookup_2 _ _ _ Him)).
    apply orb_true_iff in Ha as [Ha|Ha].
    + left. bools. split; by apply unprotected_off_platform.
    + right. by apply reserved_monitor_reading.
Qed.

(** Writing rules back in canonical form loses nothing: normalising the
    rules of an accepted site gives rules with the same meanings that are
    accepted again, and normalising twice changes nothing more. *)
Theorem normalize_rules_roundtrip `{GoUnicode} s :
  validateUserFirewallRules s = Ok tt →
  let rules := normalize_rules (s_UserFirewallRules s) in
  validateUserFirewallRules (with_user_rules s (s_DHCPReservations s) (s_DNSRecords s) rules) = Ok tt
  ∧ map rule_meaning rules ≡ₚ map rule_meaning (s_UserFirewallRules s)
  ∧ normalize_rules rules = rules.
Proof.
  intros [Hl (ms&Hok)]%user_rules_spec. cbn zeta.
  destruct (normalized_rules_ok s _ ms Hok) as (ms'&Hp&Hok').
  split_and!.
  - apply user_rules_spec. split.
    + cbn. unfold normalize_rules. by rewrite sort_by_perm, length_map.
    + exists ms'. destruct Hok'. by constructor.
  - rewrite (meanings_map _ _ (ro_meanings _ _ _ Hok)), (meanings_map _ _ (ro_meanings _ _ _ Hok')). by rewrite Hp.
  - by eapply normalize_rules_idemp.
Qed.

Lemma reservation_addresses_distinct `{GoUnicode} s : validateDHCPReservations s = Ok tt →
  NoDup (map (fun r => parse_to4 (dh_Address r)) (s_DHCPReservations s)).
Proof.
  unfold validateDHCPReservations. destruct (zoneByName s "SERVERS") as [servers|]; [|done].
  intros Hv. inv_ok. by apply site_reservations_loop in E as [_ _ Ha _ _ _ _].
Qed.

(** Accepted reservations are unambiguous SERVERS bindings: hostnames,
    addresses and hardware addresses are distinct; every address is a host
    address of the SERVERS network other than its gateway; and an address or
    a VMID of the platform is only taken by the reservation of the very guest
    that owns it. *)
Theorem validateDHCPReservations_sound `{GoUnicode} s :
  validateDHCPReservations s = Ok tt →
  ∃ servers, zoneByName s "SERVERS" = Some servers
    ∧ NoDup (map (fun r => to_lower (dh_Hostname r)) (s_DHCPReservations s))
    ∧ NoDup (map (fun r => parse_to4 (dh_Address r)) (s_DHCPReservations s))
    ∧ NoDup (map (fun r => ethernet_mac (dh_MAC r)) (s_DHCPReservations s))
    ∧ ∀ r, r ∈ s_DHCPReservations s → ∃ a mac p m, site_reservation_good s servers r a mac
        ∧ net_parse_cidr (z_Network servers) = Some (CIDR4 p m) ∧ prefix_contains p a = true
        ∧ a ≠ p_addr (masked p) ∧ a ≠ broadcast p m.
Proof.
  unfold validateDHCPReservations. destruct (zoneByName s "SERVERS") as [servers|]; [|done].
  intros Hv. inv_ok. apply site_reservations_loop in E as [He Hh Ha Hm _ _ _].
  exists servers. split_and!; try done. rewrite Forall_forall in He. intros rv (a&mac&Hg)%He.
  destruct (usable_in_zone _ _ (sr_usable _ _ _ _ _ Hg)) as (p&m&?). exists a, mac, p, m. by split.
Qed.

(** Accepted DNS records stay in the operator's namespace: names are
    distinct, none is a platform or module name or lies in a zone the DHCP
    server owns; an A record points into one of the site's networks, and a
    CNAME follows a chain of aliases that ends. *)
Theorem validateUserDNSRecords_sound `{GoUnicode, GoURL} s :
  validateUserDNSRecords s = Ok tt →
  NoDup (map (record_name s) (s_DNSRecords s))
  ∧ ∃ targets, (∀ n, ¬ tc (alias_step targets) n n)
    ∧ ∀ r, r ∈ s_DNSRecords s → ∃ n, record_name s r = Ok n ∧ n ∉ ownedNames s
      ∧ Forall (fun z => in_managed n z = false) (managedZones s)
      ∧ ((ud_Type r = "A" ∧ ∃ a, parse_to4 (ud_Value r) = Some a
            ∧ ipInAnyZone a (n_Zones (s_Network s)) = true)
         ∨ (ud_Type r = "CNAME" ∧ ∃ t, privateDNSName (ud_Value r) (site_domain s) = Ok t
            ∧ targets !! n = Some t)).
Proof.
  unfold validateUserDNSRecords. intros Hv. apply bind_ok in Hv as ([seen targets] & Hf & Hc).
  apply site_records_loop in Hf as [He Hd _ _]. split; [done|]. exists targets. split; [by apply no_cycles_ok|].
  rewrite Forall_forall in He. intros r (n&t&Hn&Ho&Hz&Ht&Hl)%He. exists n. split_and!; try done.
  unfold record_target in Ht. destruct (ud_Type r == "A") eqn:Ea; bools.
  - left. split; [done|]. destruct (parse_to4 _) as [a|]; [|done]. inv_ok. bools. eauto.
  - right. destruct (ud_Type r == "CNAME") eqn:Ec; [|done]. bools. split; [done|].
    destruct (privateDNSName _ _) as [t'|]; [|done]. inv_ok. eauto.
Qed.

(** The cycle check always reaches a verdict and the verdict is exact: once
    the records themselves are in order, the list is refused exactly when the
    aliases contain a cycle, and the name in the error lies on one. *)
Theorem validateUserDNSRecords_cycles `{GoUnicode, GoURL} s seen targets :
  foldM (record_step s) (∅, ∅) (s_DNSRecords s) = Ok (seen, targets) →
  (validateUserDNSRecords s = Ok tt ∧ ∀ n, ¬ tc (alias_step targets) n n)
  ∨ ∃ n, validateUserDNSRecords s = Err (CNAMECycle n) ∧ tc (alias_step targets) n n.
Proof.
  intros Hf. unfold validateUserDNSRecords. rewrite Hf. cbn.
  destruct (no_cycles targets) as [[]|e] eqn:Hc; [left; split; [done|by apply no_cycles_ok]|].
  right. pose proof (no_cycles_fuel targets) as Hfuel. unfold no_cycles in Hc, Hfuel.
  pose proof Hc as (n&_&Hn)%eachM_err. apply follow_err in Hn as [->|(c&->&?)]; [done|eauto|set_solver].
Qed.

(** ** Witnesses *)

Definition sample_rules_site : Site :=
  with_user_rules (NewDefaultSite "i" "age1")
    [mkSiteReservation "" "" "SERVERS" "Dashboard" "10.10.20.60" "02:AA:00:00:00:60" 510;
     mkSiteReservation "" "" "SERVERS" "nas" "::ffff:10.10.20.61" "02:aa:00:00:00:61" 0]
    [mkUserDNS "grafana.lab.home.arpa" "CNAME" "Dash.lab.home.arpa.";
     mkUserDNS "dash.lab.home.arpa" "A" "10.10.20.60"; mkUserDNS "www.lab.home.arpa" "CNAME" "example.lab.home.arpa"]
    [mkUserRule "ufr-2" " trusted " "10.10.20.61/32" "TCP" ["8443"; " 80"; "1000-1010"];
     mkUserRule "ufr-1" "10.10.20.60/32" "10.10.10.20/32" "tcp" ["443"];
     mkUserRule "ufr-3" "10.10.30.7/028" "servers" "icmp" []].

Example sample_rules_ok :
  @validateUserFirewallRules ascii_only sample_rules_site = Ok tt
  ∧ @validateDHCPReservations ascii_only sample_rules_site = Ok tt
  ∧ @validateUserDNSRecords ascii_only plain_url sample_rules_site = Ok tt
  ∧ map fr_Source (@normalize_rules ascii_only (s_UserFirewallRules sample_rules_site)) = ["10.10.20.60/32"; "TRUSTED"; "10.10.30.0/28"].
Proof. by vm_compute. Qed.

Example boundary_ex :
  @validateUserFirewallRules ascii_only (with_user_rules sample_rules_site [] []
    [mkUserRule "ufr-1" "10.10.20.60/32" "10.10.10.20/32" "tcp" ["443"]]) = Err (CrossesBoundary "ufr-1")
  ∧ @validateUserFirewallRules ascii_only (with_user_rules sample_rules_site [] []
    [mkUserRule "ufr-1" "servers" "10.0.0.0/8" "tcp" ["443"]]) = Err (CrossesBoundary "ufr-1")
  ∧ validateFirewallPorts ["443"; "443-443"] "tcp" = Err (DuplicatePort "443-443")
  ∧ @validateFirewallSelector ascii_only "::ffff:10.0.0.0/120" = Err (Selector "::FFFF:10.0.0.0/120").
Proof. by vm_compute. Qed.

Theorem validateUserFirewallRules_safe_witness :
  @validateUserFirewallRules ascii_only sample_rules_site = Ok tt
  ∧ NoDup (map fr_ID (s_UserFirewallRules sample_rules_site)).
Proof.
  assert (@validateUserFirewallRules ascii_only sample_rules_site = Ok tt) as Hv by by vm_compute.
  split; [exact Hv|]. apply (@validateUserFirewallRules_safe ascii_only sample_rules_site Hv).
Defined.

Theorem normalize_rules_roundtrip_witness :
  @normalize_rules ascii_only (@normalize_rules ascii_only (s_UserFirewallRules sample_rules_site))
  = @normalize_rules ascii_only (s_UserFirewallRules sample_rules_site).
Proof. apply (@normalize_rules_roundtrip ascii_only sample_rules_site). by vm_compute. Defined.

Theorem validateDHCPReservations_sound_witness :
  ∃ servers, zoneByName sample_rules_site "SERVERS" = Some servers
    ∧ NoDup (map (fun r => parse_to4 (dh_Address r)) (s_DHCPReservations sample_rules_site)).
Proof.
  destruct (@validateDHCPReservations_sound ascii_only sample_rules_site) as (servers&Hz&_&Ha&_); [by vm_compute|].
  exists servers. split; [exact Hz|exact Ha].
Defined.

Theorem validateUserDNSRecords_sound_witness :
  NoDup (map (@record_name ascii_only sample_rules_site) (s_DNSRecords sample_rules_site)).
Proof. apply (@validateUserDNSRecords_sound ascii_only plain_url sample_rules_site). by vm_compute. Defined.

(** Two aliases of each other, and a third that leads to them. *)
Definition cycle_site : Site :=
  with_user_rules (NewDefaultSite "i" "age1") []
    [mkUserDNS "a.lab.home.arpa" "CNAME" "b.lab.home.arpa"; mkUserDNS "b.lab.home.arpa" "CNAME" "a.lab.home.arpa";
     mkUserDNS "c.lab.home.arpa" "CNAME" "a.lab.home.arpa"] [].

Theorem validateUserDNSRecords_cycles_witness :
  ∃ n, @validateUserDNSRecords ascii_only plain_url cycle_site = Err (CNAMECycle n).
Proof.
  destruct (foldM (@record_step ascii_only plain_url cycle_site) (∅, ∅) (s_DNSRecords cycle_site)) as [[seen targets]|e] eqn:E.
  - destruct (@validateUserDNSRecords_cycles ascii_only plain_url cycle_site seen targets E) as [[Hv _]|(n&Hn&_)].
    + exfalso. revert Hv. by vm_compute.
    + exists n. exact Hn.
  - exfalso. revert E. by vm_compute.
Defined.
End SiteRules.
