(* ===== verification/SiteValidate.v ===== *)
(** * Site model: [Site.Validate] ([internal/model/model.go],
    [ValidateBifrostConfig] and [CompanionConfig.Capabilities] of config.go)

    The whole gate a site passes before anything is planned from it.  Where Go
    ranges over a map only to report an error, the model goes through the same
    entries in the order they are written. *)

From S2P Require Export SiteRules.

Open Scope Z_scope.

Module SiteValidate.
Import Model SiteRules.

Inductive BifrostError :=
| NoUpstreams | ManyUpstreams | NoModels | ManyModels | UpstreamName (n : string) | UpstreamTwice (n : string)
| UpstreamURL (n : string) | SecretReference (n : string) | SecretCollision (p r : string)
| AliasName (a : string) | AliasTwice (a : string) | AliasUpstream (a u : string) | ProviderModel (a : string).

Inductive ComponentError :=
| MissingField (n : string) | UnsafeField (n field : string) | UnsafeAlias (n alias : string)
| UnsafeTag (n tag : string) | TagTwice (n tag : string) | MissingTag (n tag : string) | MetadataNewline (n : string).

Inductive DeclarationError :=
| NoOwner | IncompleteDigest (m : string) | GuestOwner (guest : string) | GuestVMID (vmid : Z)
| GuestHostname (h : string) | GuestAddress (a : string) | NoReplacement (m state : string)
| IntentReferences | IntentProtocol (p : string) | IntentDirection (d : string) | IntentPurpose | IntentEndpoint
| IntentPort (p : string) | AdvertisedRoute (m route : string) | BadSecret (m s : string) | SecretLifecycle (m s : string)
| PrivilegedDevices (m : string) | Capabilities (m : string) | IncompleteDevice (m : string)
| UnsafeDevice (m path : string) | DeviceSlot (m name : string) | BadVolume (m v : string) | VolumePlacement (m v : string).

Inductive USBError :=
| BadRequirement (m r : string) | RequirementTwice (m r : string) | BadPort (port : string) | BadIdentity (m r : string)
| IdentityNotAllowed (m r : string) | BadSerial (m r : string) | SerialTwice (identity : string)
| PortTwice (port : string) | BindingTwice (m r : string) | BindingMissing (m r : string).

Inductive GatewayError :=
| UpstreamMode | ManagementNetwork | ManagementAddress | ManagementReserved | ManagementGateway
| ControllerAddress | GatewayMAC (e : MACError) | PublishExternal | PublishUnsupported (s : string) | PublishTwice (s : string).

Inductive SiteError :=
| UnsupportedSchema | PlatformVersionRequired | IdentityControl | BootstrapSpace | BootstrapAddress
| BadStorageProfile (p : string) | StorageDeviceError (e : DeviceError) | StorageDeviceUnused
| GatewayMode | GatewayConfiguration (e : GatewayError) | BadDomain | TestedGateway
| PhysicalMode | VirtualTrunk | TrunkUpstream | NICName (label : string) | NICMAC (label : string)
| NICAddress (label : string) | NICIdentity (label : string) | TrunkMissing | Ownership | SecretsIncomplete
| TailnetClients | BifrostConfig (e : BifrostError) | USB (e : USBError)
| SerialLong | SerialCharacters | CompanionMACRequired | CompanionMAC | CompanionUnicast
| ZoneTwice (n : string) | SharedVLAN (p n : string) | ZoneContract (n : string) | ZoneUnknownType (n : string)
| ZoneNetwork (n : string) | TransitServices | TrustedMode | SandboxServices | SandboxMode | ServersMode | StaticMode (n : string)
| BadComponent (e : ComponentError) | ComponentTwice (n : string) | SharedVMID (p n : string)
| PlatformVMID (n : string) | UserVMID (n : string) | ComponentAddress (n : string) | ComponentZone (n : string)
| RetainedName (n : string) | RetainedDisposition (n : string) | RetainedGuest (n : string) (e : ComponentError)
| RetainedOwner (g : string) | RetainedVMID (g : string) | RetainedTag (g : string)
| RetainedTwice (g : string) | RetainedShared (p g : string)
| ZoneCount | Reservations (e : ReservationError) | Records (e : RecordError) | Rules (e : RuleError)
| ExternalFirewall | FoundationMissing (n : string) | FoundationBinding (n : string)
| ModuleName (n : string) | ModuleTwice (n : string) | Declarations (e : DeclarationError).

Definition wrap {E1 E2 A : Type} (f : E1 → E2) (r : result E1 A) : result E2 A :=
  match r with Ok a => Ok a | Err e => Err (f e) end.

(** ** Patterns *)

Definition digits_between (lo hi : Z) (s : string) : bool := (lo <=? len s) && (len s <=? hi) && sall is_digit s.
Definition some_digits (s : string) : bool := (s != "") && sall is_digit s.

(** [networkPortPattern]: [^[0-9]{1,5}(?:-[0-9]{1,5})?$] *)
Definition network_port_match (s : string) : bool :=
  match split s "-" with
  | [a] => digits_between 1 5 a
  | [a; b] => digits_between 1 5 a && digits_between 1 5 b
  | _ => false
  end.
(** [usbPortPattern]: [^[0-9]+-[0-9]+(?:\.[0-9]+)*$] *)
Definition usb_port_match (s : string) : bool :=
  match split s "-" with
  | [a; b] => some_digits a && forallb some_digits (split b ".")
  | _ => false
  end.
(** [usbIDPattern]: [^[0-9a-f]{4}$] *)
Definition usb_id_match (s : string) : bool :=
  (len s =? 4) && sall (fun c => is_digit c || in_range "a" "f" c) s.
(** [providerModelPattern] and [bifrostSecretReferencePattern] *)
Definition provider_model_match (s : string) : bool :=
  match s with
  | EmptyString => false
  | String c r => alnum c && (len r <=? 255) && sall (fun c => alnum c || contains_byte "._:/-" c) r
  end.
Definition secret_reference_match (s : string) : bool :=
  match s with
  | EmptyString => false
  | String c r => alnum_lower c && (len r <=? 62) && sall (fun c => alnum_lower c || contains_byte "_-" c) r
  end.
(** [unicode.IsControl] *)
Definition is_control (r : Z) : bool := (r <=? 31) || ((127 <=? r) && (r <=? 159)).

Definition newlines : string := String "013" (String "010" EmptyString).

Definition or_default (value default : string) : string := if value == "" then default else value.

Section validate.
Context `{GoUnicode, GoURL}.

(** ** USB exports *)

Definition usb_key (b : USBExportBinding) : string * string := (ub_Module b, ub_Requirement b).

Definition requirement_step (module : string) (m : gmap (string * string) USBRequirement) (r : USBRequirement)
    : result USBError (gmap (string * string) USBRequirement) :=
  _ ← fail_if ((ur_Name r == "") || (ur_Guest r == "")
               || ((ur_DeviceType r != "raw-usb") && (ur_DeviceType r != "serial"))
               || (ur_Access r != "rw") || (length (ur_AllowedIdentities r) =? 0)%nat)
        (BadRequirement module (ur_Name r));
  _ ← fail_if (bool_decide (is_Some (m !! (module, ur_Name r)))) (RequirementTwice module (ur_Name r));
  Ok (<[(module, ur_Name r) := r]> m).

Definition usb_requirements (s : Site) : result USBError (gmap (string * string) USBRequirement) :=
  foldM (fun m d => foldM (requirement_step (md_Module d)) m (md_USBRequirements d)) ∅ (s_Declarations s).

Record USBSeen := mkUSBSeen { us_ports : gset string; us_bindings : gset (string * string); us_serials : gset string }.

Definition usb_step (requirements : gmap (string * string) USBRequirement) (seen : USBSeen) (b : USBExportBinding)
    : result USBError USBSeen :=
  _ ← fail_if (negb (usb_port_match (ub_Port b))) (BadPort (ub_Port b));
  _ ← fail_if ((ub_VendorID b != to_lower (ub_VendorID b)) || (ub_ProductID b != to_lower (ub_ProductID b))
               || negb (usb_id_match (ub_VendorID b)) || negb (usb_id_match (ub_ProductID b)))
        (BadIdentity (ub_Module b) (ub_Requirement b));
  _ ← fail_if (match requirements !! usb_key b with
               | Some r => negb (existsb (fun i => (i.1 == ub_VendorID b) && (i.2 == ub_ProductID b)) (ur_AllowedIdentities r))
               | None => false
               end) (IdentityNotAllowed (ub_Module b) (ub_Requirement b));
  _ ← fail_if (contains_any (ub_Serial b) (String "013" (String "010" (String "000" EmptyString))))
        (BadSerial (ub_Module b) (ub_Requirement b));
  let identity := ub_VendorID b +:+ ":" +:+ ub_ProductID b +:+ ":" +:+ ub_Serial b in
  _ ← fail_if ((ub_Serial b != "") && bool_decide (identity ∈ us_serials seen)) (SerialTwice identity);
  _ ← fail_if (bool_decide (ub_Port b ∈ us_ports seen)) (PortTwice (ub_Port b));
  _ ← fail_if (bool_decide (usb_key b ∈ us_bindings seen)) (BindingTwice (ub_Module b) (ub_Requirement b));
  Ok (mkUSBSeen ({[ub_Port b]} ∪ us_ports seen) ({[usb_key b]} ∪ us_bindings seen)
        (if ub_Serial b != "" then {[identity]} ∪ us_serials seen else us_serials seen)).

Definition module_enabled_map (s : Site) : gmap string bool :=
  foldl (fun m r => <[rm_Name r := rm_Enabled r]> m) ∅ (s_Modules s).

Definition validateUSBExports (s : Site) : result USBError unit :=
  requirements ← usb_requirements s;
  seen ← foldM (usb_step requirements) (mkUSBSeen ∅ ∅ ∅) (s_USBExports s);
  eachM (fun '(k, r) =>
      fail_if (bool_decide (module_enabled_map s !! k.1 = Some true) && ur_Required r
               && bool_decide (k ∉ us_bindings seen)) (BindingMissing k.1 k.2))
    (map_to_list requirements).

(** ** Companion *)

Definition capabilityEnabled (c : option (option bool)) : bool :=
  match c with None => false | Some e => default true e end.
Definition companion_enabled (c : CompanionConfig) : bool := default true (cc_Enabled c).
(** [Capabilities]: enabled, display, Stream Deck. *)
Definition companion_capabilities (c : option CompanionConfig) : bool * bool * bool :=
  match c with
  | None => (false, false, false)
  | Some c => let enabled := companion_enabled c in
              (enabled, enabled && capabilityEnabled (cc_Display c), enabled && capabilityEnabled (cc_StreamDeck c))
  end.

Definition serial_rune (r : Z) : bool :=
  ((97 <=? r) && (r <=? 122)) || ((65 <=? r) && (r <=? 90)) || ((48 <=? r) && (r <=? 57))
  || (r =? 95) || (r =? 46) || (r =? 45).

Definition validateCompanion (companion : option CompanionConfig) : result SiteError unit :=
  match companion with
  | None => Ok tt
  | Some c =>
      _ ← fail_if (len (cc_StreamDeckSerial c) >? 128) SerialLong;
      _ ← fail_if (negb (forallb serial_rune (runes (cc_StreamDeckSerial c)))) SerialCharacters;
      if cc_EthernetMAC c == "" then fail_if (companion_enabled c) CompanionMACRequired
      else match parse_mac (cc_EthernetMAC c) with
           | Some (b0 :: rest) =>
               _ ← fail_if (negb (length rest =? 5)%nat) CompanionMAC;
               fail_if (negb (Z.land b0 1 =? 0)) CompanionUnicast
           | _ => Err CompanionMAC
           end
  end.

(** ** Components *)

Definition tag_step (n : string) (seen : gset string) (tag : string) : result ComponentError (gset string) :=
  _ ← fail_if (negb (model_token_match tag) || (tag != to_lower tag)) (UnsafeTag n tag);
  _ ← fail_if (bool_decide (tag ∈ seen)) (TagTwice n tag);
  Ok ({[tag]} ∪ seen).

Definition component_Validate (m : Component) : result ComponentError unit :=
  _ ← fail_if ((c_Name m == "") || (c_Hostname m == "") || (c_Address m == "") || (c_Zone m == "")) (MissingField (c_Name m));
  _ ← eachM (fun '(field, value) => fail_if ((value != "") && negb (model_token_match value)) (UnsafeField (c_Name m) field))
        [("name", c_Name m); ("hostname", c_Hostname m); ("zone", c_Zone m); ("ssh_user", c_SSHUser m)];
  _ ← eachM (fun alias => fail_if (negb (model_token_match alias)) (UnsafeAlias (c_Name m) alias)) (c_DNSAliases m);
  seenTags ← foldM (tag_step (c_Name m)) ∅ (c_Tags m);
  _ ← (if c_ProductOwned m then
         _ ← eachM (fun tag => fail_if (bool_decide (tag ∉ seenTags)) (MissingTag (c_Name m) tag)) ["boetticher"; "managed"];
         fail_if ((c_VMID m != 0) && c_Backup m && bool_decide ("backup" ∉ seenTags)) (MissingTag (c_Name m) "backup")
       else Ok tt);
  fail_if (contains_any (c_Role m +:+ c_URL m) newlines) (MetadataNewline (c_Name m)).

(** ** Gateway *)

Definition publish_step (seen : gset string) (service : string) : result GatewayError (gset string) :=
  _ ← fail_if (service != "dns") (PublishUnsupported service);
  _ ← fail_if (bool_decide (service ∈ seen)) (PublishTwice service);
  Ok ({[service]} ∪ seen).

(** The HOME binding: the network and the three addresses after defaulting. *)
Definition management_bindings (g : Gateway) : string * string * string * string :=
  (or_default (gw_ManagementNetwork g) GatewayManagementNetwork,
   or_default (gw_ManagementAddress g) GatewayManagementAddress,
   or_default (gw_ManagementGateway g) GatewayManagementGateway,
   or_default (gw_ControllerAddress g) GatewayControllerAddress).

Definition member (network : CIDR) (text : string) : bool :=
  canonical_ipv4 text && match parse_to4 text with Some a => cidr_contains network a | None => false end.

Definition validateGatewayConfiguration (s : Site) : result GatewayError unit :=
  let g := s_Gateway s in
  _ ← fail_if (gw_UpstreamMode g != "dhcp") UpstreamMode;
  let '(networkText, address, gateway, controller) := management_bindings g in
  match net_parse_cidr networkText with
  | Some (CIDR4 p mapped) =>
      let network := CIDR4 p mapped in
      _ ← fail_if (cidr_string network != networkText) ManagementNetwork;
      _ ← fail_if (negb (member network address)) ManagementAddress;
      _ ← fail_if (existsb (fun reserved => parse_to4 address == reserved)
                     [Some (p_addr (masked p)); Some (addr_of 192 168 7 255)]
                   || ((parse_to4 address == parse_to4 gateway) || (parse_to4 address == parse_to4 controller)
                       || (parse_to4 address == Some (addr_of 192 168 4 5)))) ManagementReserved;
      _ ← fail_if (negb (member network gateway) || (parse_to4 gateway == parse_to4 address)) ManagementGateway;
      _ ← fail_if (negb (member network controller)) ControllerAddress;
      _ ← wrap GatewayMAC (ValidateGatewayUpstreamMAC (gw_UpstreamMAC g));
      _ ← fail_if ((gw_Mode g == "external") && negb (length (gw_Publish g) =? 0)%nat) PublishExternal;
      _ ← foldM publish_step ∅ (gw_Publish g);
      Ok tt
  | _ => Err ManagementNetwork
  end.

(** ** Bifrost *)

Definition https_url (text : string) : bool :=
  match parse_url text with
  | None => false
  | Some u => negb ((url_Scheme u != "https") || (url_Host u == "") || url_User u
                    || (url_RawQuery u != "") || (url_Fragment u != ""))
  end.

Definition bifrost_upstream_step (st : gset string * gmap string string) (u : BifrostUpstreamConfig)
    : result BifrostError (gset string * gmap string string) :=
  let '(upstreams, secretReferences) := st in
  _ ← fail_if (negb (model_token_match (bu_Name u))) (UpstreamName (bu_Name u));
  _ ← fail_if (bool_decide (bu_Name u ∈ upstreams)) (UpstreamTwice (bu_Name u));
  _ ← fail_if (negb (https_url (bu_BaseURL u))) (UpstreamURL (bu_Name u));
  _ ← fail_if (negb (secret_reference_match (bu_APIKeySecret u))) (SecretReference (bu_Name u));
  let secretID := BifrostSecretReferenceID (bu_APIKeySecret u) in
  _ ← match secretReferences !! secretID with
      | Some previous => fail_if (previous != bu_APIKeySecret u) (SecretCollision previous (bu_APIKeySecret u))
      | None => Ok tt
      end;
  Ok ({[bu_Name u]} ∪ upstreams, <[secretID := bu_APIKeySecret u]> secretReferences).

Definition bifrost_model_step (upstreams aliases : gset string) (m : BifrostModelConfig) : result BifrostError (gset string) :=
  _ ← fail_if (negb (model_token_match (bm_Alias m))) (AliasName (bm_Alias m));
  _ ← fail_if (bool_decide (bm_Alias m ∈ aliases)) (AliasTwice (bm_Alias m));
  _ ← fail_if (bool_decide (bm_Upstream m ∉ upstreams)) (AliasUpstream (bm_Alias m) (bm_Upstream m));
  _ ← fail_if (negb (provider_model_match (bm_Model m))) (ProviderModel (bm_Alias m));
  Ok ({[bm_Alias m]} ∪ aliases).

Definition ValidateBifrostConfig (config : ModuleConfig) : result BifrostError unit :=
  _ ← fail_if (length (mc_Upstreams config) =? 0)%nat NoUpstreams;
  _ ← fail_if (16 <? length (mc_Upstreams config))%nat ManyUpstreams;
  _ ← fail_if (length (mc_Models config) =? 0)%nat NoModels;
  _ ← fail_if (32 <? length (mc_Models config))%nat ManyModels;
  '(upstreams, _) ← foldM bifrost_upstream_step (∅, ∅) (mc_Upstreams config);
  _ ← foldM (bifrost_model_step upstreams) ∅ (mc_Models config);
  Ok tt.

(** [ResolveBifrostAlias] *)
Definition ResolveBifrostAlias (config : ModuleConfig) (alias : string)
    : result (BifrostError + string) BifrostModelConfig :=
  _ ← wrap inl (ValidateBifrostConfig config);
  match List.find (fun m => bm_Alias m == alias) (mc_Models config) with
  | Some m => Ok m
  | None => Err (inr alias)
  end.

(** ** Declarations *)

Definition validateNetworkIntent (i : NetworkIntent) : result DeclarationError unit :=
  _ ← fail_if (negb (model_token_match (ni_Source i)) || negb (model_token_match (ni_Destination i))) IntentReferences;
  _ ← fail_if (bool_decide (ni_Protocol i ∉ ["tcp"; "udp"; "tcp/udp"; "icmp"; "any"])) (IntentProtocol (ni_Protocol i));
  _ ← fail_if (bool_decide (ni_Direction i ∉ ["egress"; "ingress"; "bidirectional"])) (IntentDirection (ni_Direction i));
  _ ← fail_if ((ni_Purpose i == "") || contains_any (ni_Purpose i) newlines) IntentPurpose;
  _ ← fail_if ((ni_Endpoint i != "") && negb (https_url (ni_Endpoint i))) IntentEndpoint;
  eachM (fun port => fail_if (negb (network_port_match port)) (IntentPort port)) (ni_Ports i).

(** The three maps from a guest's identity to the module that declared it. *)
Record GuestSeen := mkGuestSeen { gs_VMIDs : gmap Z string; gs_Names : gmap string string; gs_Addresses : gmap string string }.

(** A name or an address that another module already declared. *)
Definition other_owner (m : gmap string string) (key module : string) : bool :=
  match m !! key with Some previous => previous != module | None => false end.

Definition declared_guest_step (module : string) (seen : GuestSeen) (guest : Component) : result DeclarationError GuestSeen :=
  _ ← fail_if (c_Module guest != module) (GuestOwner (c_Name guest));
  _ ← fail_if (bool_decide (is_Some (gs_VMIDs seen !! c_VMID guest)) && (c_VMID guest != 0)) (GuestVMID (c_VMID guest));
  _ ← fail_if (other_owner (gs_Names seen) (c_Hostname guest) module) (GuestHostname (c_Hostname guest));
  _ ← fail_if (other_owner (gs_Addresses seen) (c_Address guest) module && (c_Address guest != "")) (GuestAddress (c_Address guest));
  Ok (mkGuestSeen (if c_VMID guest != 0 then <[c_VMID guest := module]> (gs_VMIDs seen) else gs_VMIDs seen)
        (<[c_Hostname guest := module]> (gs_Names seen))
        (if c_Address guest != "" then <[c_Address guest := module]> (gs_Addresses seen) else gs_Addresses seen)).

Definition advertised_route_ok (route : string) : bool :=
  match net_parse_cidr route with Some c => cidr_string c == route | None => false end.

Definition secret_check (module : string) (secret : SecretDeclaration) : result DeclarationError unit :=
  _ ← fail_if (negb (model_token_match (sd_Name secret)) || (sd_Purpose secret == "") || (sd_Consumer secret == "")
               || (sd_Delivery secret == "")
               || contains_any (sd_Purpose secret +:+ sd_Consumer secret +:+ sd_Delivery secret) newlines)
        (BadSecret module (sd_Name secret));
  fail_if (bool_decide (sd_Lifecycle secret ∉ [""; "runtime"; "bootstrap"])) (SecretLifecycle module (sd_Name secret)).

(** CR, LF, space and quote. *)
Definition device_path_forbidden : string := newlines +:+ " '".

Definition device_step (module : string) (names : gset string) (device : DeviceRequirement) : result DeclarationError (gset string) :=
  _ ← fail_if ((dr_Path device == "") || (dr_Type device == "") || (dr_Major device <? 0) || (dr_Minor device <? 0)
               || (dr_Access device == "")) (IncompleteDevice module);
  _ ← fail_if (contains_any (dr_Path device) device_path_forbidden || (dr_Type device != "c") || (dr_Access device != "rwm"))
        (UnsafeDevice module (dr_Path device));
  if dr_Name device != "" then
    _ ← fail_if (negb (model_token_match (dr_Name device)) || bool_decide (dr_Name device ∈ names)) (DeviceSlot module (dr_Name device));
    Ok ({[dr_Name device]} ∪ names)
  else Ok names.

Definition volume_check (module : string) (v : PersistentVolume) : result DeclarationError unit :=
  _ ← fail_if ((pv_Module v != module) || (pv_Guest v == "") || (pv_Name v == "") || (pv_SizeGiB v <=? 0) || (pv_MountPath v == ""))
        (BadVolume module (pv_Name v));
  fail_if (bool_decide (pv_Placement v ∉ ["default"; "prefer-data-disk"; "require-data-disk"])) (VolumePlacement module (pv_Name v)).

Definition declaration_step (seen : GuestSeen) (d : ModuleDeclaration) : result DeclarationError GuestSeen :=
  let module := md_Module d in
  _ ← fail_if (module == "") NoOwner;
  _ ← fail_if (len (ar_DefinitionSHA256 (md_Artifact d)) != 64) (IncompleteDigest module);
  seen ← foldM (declared_guest_step module) seen (md_Guests d);
  _ ← eachM (fun state => fail_if (ps_Replacement state == "") (NoReplacement module (ps_Name state))) (md_Persistent d);
  _ ← eachM validateNetworkIntent (md_NetworkIntents d);
  _ ← eachM (fun route => fail_if (negb (advertised_route_ok route)) (AdvertisedRoute module route)) (md_AdvertisedRoutes d);
  _ ← eachM (secret_check module) (md_Secrets d);
  let security := md_Security d in
  _ ← fail_if (negb (gs_Unprivileged security) && negb (length (gs_Devices security) =? 0)%nat) (PrivilegedDevices module);
  _ ← fail_if (negb (length (gs_Capabilities security) =? 0)%nat) (Capabilities module);
  _ ← (if gs_Unprivileged security then _ ← foldM (device_step module) ∅ (gs_Devices security); Ok tt else Ok tt);
  _ ← eachM (volume_check module) (md_Volumes d);
  Ok seen.

Definition validateDeclarations (s : Site) : result DeclarationError unit :=
  _ ← foldM declaration_step (mkGuestSeen ∅ ∅ ∅) (s_Declarations s); Ok tt.

(** ** [Site.Validate] *)

Definition expected_zone (name : string) : option (ZoneType * Z * string * string) :=
  match List.find (fun e => e.1 == name)
    [("TRANSIT", (ZoneTypeTransit, 5, "10.10.5.0/24", "10.10.5.1"));
     ("INFRA", (ZoneTypeInfrastructure, 10, "10.10.10.0/24", "10.10.10.1"));
     ("SERVERS", (ZoneTypeServers, 20, "10.10.20.0/24", "10.10.20.1"));
     ("TRUSTED", (ZoneTypeTrusted, 30, "10.10.30.0/24", "10.10.30.1"));
     ("SANDBOX", (ZoneTypeSandbox, 40, "10.10.40.0/24", "10.10.40.1"));
     ("MGMT", (ZoneTypeManagement, 99, "10.10.99.0/24", "10.10.99.1"))] with
  | Some (_, e) => Some e
  | None => None
  end.

(** The [switch z.Type]. *)
Definition zone_services (z : Zone) : result SiteError unit :=
  match z_Type z with
  | ZoneTypeTransit =>
      fail_if ((z_AddressMode z != "none") || negb (length (z_DNSAddresses z) =? 0)%nat
               || negb (length (z_NTPAddresses z) =? 0)%nat) TransitServices
  | ZoneTypeTrusted => fail_if (z_AddressMode z != "dynamic-reservations") TrustedMode
  | ZoneTypeSandbox =>
      _ ← fail_if ((z_DNSAddresses z != [z_Gateway z]) || (z_NTPAddresses z != [z_Gateway z])) SandboxServices;
      fail_if (z_AddressMode z != "dynamic") SandboxMode
  | ZoneTypeServers => fail_if (z_AddressMode z != "reservations-only") ServersMode
  | ZoneTypeInfrastructure | ZoneTypeManagement => fail_if (z_AddressMode z != "static") (StaticMode (z_Name z))
  | ZoneTypeOther _ => Ok tt
  end.

Definition zone_check (z : Zone) : result SiteError unit :=
  match expected_zone (z_Name z) with
  | None => Err (ZoneContract (z_Name z))
  | Some (typ, vlan, network, gateway) =>
      _ ← fail_if (negb (validZoneType (z_Type z))) (ZoneUnknownType (z_Name z));
      _ ← fail_if ((z_Type z != typ) || (z_VLAN z != vlan) || (z_Network z != network) || (z_Gateway z != gateway))
            (ZoneContract (z_Name z));
      _ ← fail_if (bool_decide (net_parse_cidr (z_Network z) = None)) (ZoneNetwork (z_Name z));
      zone_services z
  end.

Definition zone_step (st : gset string * gmap Z string) (z : Zone) : result SiteError (gset string * gmap Z string) :=
  let '(seenZones, seenVLANs) := st in
  _ ← fail_if (bool_decide (z_Name z ∈ seenZones)) (ZoneTwice (z_Name z));
  _ ← match seenVLANs !! z_VLAN z with
      | Some previous => Err (SharedVLAN previous (z_Name z))
      | None => Ok tt
      end;
  _ ← zone_check z;
  Ok ({[z_Name z]} ∪ seenZones, <[z_VLAN z := z_Name z]> seenVLANs).

Definition vmid_free (seenVMIDs : gmap Z string) (f : string → SiteError) (vmid : Z) : result SiteError unit :=
  match seenVMIDs !! vmid with Some previous => Err (f previous) | None => Ok tt end.

Definition owned_vmid (vmid : Z) : bool := (100 <=? vmid) && (vmid <=? 499).

Definition component_step (zones : gset string) (st : gset string * gmap Z string) (m : Component)
    : result SiteError (gset string * gmap Z string) :=
  let '(seenComponents, seenVMIDs) := st in
  _ ← wrap BadComponent (component_Validate m);
  _ ← fail_if (bool_decide (c_Name m ∈ seenComponents)) (ComponentTwice (c_Name m));
  seenVMIDs ← (if c_VMID m != 0 then
                 _ ← vmid_free seenVMIDs (fun previous => SharedVMID previous (c_Name m)) (c_VMID m);
                 _ ← fail_if (c_ProductOwned m && negb (owned_vmid (c_VMID m))) (PlatformVMID (c_Name m));
                 _ ← fail_if (negb (c_ProductOwned m) && negb (user_vmid (c_VMID m))) (UserVMID (c_Name m));
                 Ok (<[c_VMID m := c_Name m]> seenVMIDs)
               else Ok seenVMIDs);
  _ ← fail_if (bool_decide (parse_to4 (c_Address m) = None)) (ComponentAddress (c_Name m));
  _ ← fail_if (bool_decide (c_Zone m ∉ zones)) (ComponentZone (c_Name m));
  Ok ({[c_Name m]} ∪ seenComponents, seenVMIDs).

Definition retained_guest_step (retained : RetainedModule) (st : gset string * gmap Z string) (guest : Component)
    : result SiteError (gset string * gmap Z string) :=
  let '(seenComponents, seenVMIDs) := st in
  _ ← wrap (RetainedGuest (rt_Module retained)) (component_Validate guest);
  _ ← fail_if (negb (c_ProductOwned guest) || negb (c_SSHManaged guest) || (c_Module guest != rt_Module retained))
        (RetainedOwner (c_Name guest));
  _ ← fail_if (negb (owned_vmid (c_VMID guest))) (RetainedVMID (c_Name guest));
  _ ← fail_if (bool_decide (ModuleOwnershipTag (rt_Module retained) ∉ c_Tags guest)) (RetainedTag (c_Name guest));
  _ ← fail_if (bool_decide (c_Name guest ∈ seenComponents)) (RetainedTwice (c_Name guest));
  _ ← vmid_free seenVMIDs (fun previous => RetainedShared previous (c_Name guest)) (c_VMID guest);
  Ok ({[c_Name guest]} ∪ seenComponents, <[c_VMID guest := c_Name guest]> seenVMIDs).

Definition retained_step (st : gset string * gmap Z string) (retained : RetainedModule)
    : result SiteError (gset string * gmap Z string) :=
  _ ← fail_if ((rt_Module retained == "") || (ModuleOwnershipTag (rt_Module retained) == "")) (RetainedName (rt_Module retained));
  _ ← fail_if ((rt_Disposition retained != "retained") || rt_Active retained) (RetainedDisposition (rt_Module retained));
  foldM (retained_guest_step retained) st (rt_Guests retained).

Definition resolvedModuleEnabled (modules : list ResolvedModule) (name : string) (defaultValue : bool) : bool :=
  match List.find (fun m => rm_Name m == name) modules with Some m => rm_Enabled m | None => defaultValue end.

Definition composed (s : Site) : bool :=
  negb (length (s_Declarations s) =? 0)%nat || existsb (fun c => c_Module c != "") (s_Components s).

Definition managed_firewall (s : Site) : bool :=
  composed s && (gw_Mode (s_Gateway s) == "managed") && resolvedModuleEnabled (s_Modules s) "firewall" true.

Definition required_components (s : Site) : list (string * (string * Z)) :=
  [("lab-proxmox-01", (ProxmoxManagementAddress, 0))]
  ++ (if composed s then [("lab-dns-01", ("10.10.10.10", 110))] else [])
  ++ (if composed s && resolvedModuleEnabled (s_Modules s) "monitoring" true
      then [("lab-monitor-01", ("10.10.10.20", 120))] else [])
  ++ (if managed_firewall s then [("lab-fw-01", ("10.10.99.1", 100))] else []).

Definition foundation_check (s : Site) (seenComponents : gset string) (required : string * (string * Z)) : result SiteError unit :=
  let '(name, (address, vmid)) := required in
  _ ← fail_if (bool_decide (name ∉ seenComponents)) (FoundationMissing name);
  fail_if (existsb (fun m => (c_Name m == name)
             && ((c_Address m != address) || (c_VMID m != vmid) || negb (c_ProductOwned m))) (s_Components s))
    (FoundationBinding name).

Definition module_step (seen : gset string) (m : ResolvedModule) : result SiteError (gset string) :=
  _ ← fail_if ((rm_Name m == "") || negb (model_token_match (rm_Name m))) (ModuleName (rm_Name m));
  _ ← fail_if (bool_decide (rm_Name m ∈ seen)) (ModuleTwice (rm_Name m));
  Ok ({[rm_Name m]} ∪ seen).

Definition safeInterfaceName (value : string) : bool :=
  (value != "") && sall (fun c => alnum c || contains_byte ".-_" c) value.

Definition nic_check (label : string) (nic : PhysicalNIC) : result SiteError unit :=
  _ ← fail_if ((nic_Name nic != "") && negb (safeInterfaceName (nic_Name nic))) (NICName label);
  _ ← fail_if ((nic_PermanentMAC nic != "")
               && match parse_mac (nic_PermanentMAC nic) with Some p => negb (length p =? 6)%nat | None => true end) (NICMAC label);
  _ ← fail_if (contains_any (nic_PCIAddress nic) newlines) (NICAddress label);
  fail_if ((nic_Name nic != "") && (nic_PermanentMAC nic == "") && (nic_PCIAddress nic == "")) (NICIdentity label).

Definition tailnet_client_step (seen : gset string) (value : string) : result SiteError (gset string) :=
  match parse_addr value with
  | Some ip =>
      _ ← fail_if ((octet ip 0 != 100) || (octet ip 1 <? 64) || (octet ip 1 >? 127) || bool_decide (value ∈ seen)) TailnetClients;
      Ok ({[value]} ∪ seen)
  | None => Err TailnetClients
  end.

(** The checks of the host section: version, storage, gateway and hardware. *)
Definition validate_host (s : Site) : result SiteError unit :=
  _ ← fail_if ((s_APIVersion s != APIVersion) || (s_SchemaVersion s != SchemaVersion)) UnsupportedSchema;
  _ ← fail_if (s_PlatformVersion s == "") PlatformVersionRequired;
  _ ← fail_if (existsb is_control (runes (s_SSHIdentityFile s))) IdentityControl;
  _ ← (if s_BootstrapAddress s != "" then
         _ ← fail_if (trim_space (s_BootstrapAddress s) != s_BootstrapAddress s) BootstrapSpace;
         fail_if (negb (canonical_ipv4 (s_BootstrapAddress s))) BootstrapAddress
       else Ok tt);
  _ ← fail_if ((s_StorageProfile s != "single-disk") && (s_StorageProfile s != "dedicated-data-disk")) (BadStorageProfile (s_StorageProfile s));
  _ ← (if s_StorageProfile s == "dedicated-data-disk" then wrap StorageDeviceError (ValidateStableDevice (s_StorageDevice s))
       else fail_if (s_StorageDevice s != "") StorageDeviceUnused);
  _ ← fail_if ((gw_Mode (s_Gateway s) != "managed") && (gw_Mode (s_Gateway s) != "external")) GatewayMode;
  _ ← wrap GatewayConfiguration (validateGatewayConfiguration s);
  _ ← fail_if (n_Domain (s_Network s) != DefaultDomain) BadDomain;
  _ ← fail_if (s_TestedGateway s != QualifiedGatewayImage) TestedGateway;
  let n := s_PhysicalNetwork s in
  _ ← fail_if ((pn_Mode n != "virtual-only") && (pn_Mode n != "physical-trunk")) PhysicalMode;
  _ ← fail_if ((pn_Mode n == "virtual-only") && (nic_Name (pn_Trunk n) != "")) VirtualTrunk;
  _ ← fail_if ((pn_Mode n == "physical-trunk") && (nic_Name (pn_Upstream n) == "")) TrunkUpstream;
  _ ← eachM (fun '(label, nic) => nic_check label nic) [("upstream", pn_Upstream n); ("trunk", pn_Trunk n)];
  _ ← fail_if ((pn_Mode n == "physical-trunk") && (nic_Name (pn_Trunk n) == "")) TrunkMissing;
  _ ← fail_if (s_Ownership s != default_ownership) Ownership;
  let m := s_SecretMetadata s in
  fail_if (negb (model_token_match (sm_InstallationID m)) || (sm_AgeRecipient m == "") || (sm_RootAgeRecipient m == "")
           || (sm_RootAgeRecipient m == sm_AgeRecipient m)) SecretsIncomplete.

Definition bifrost_declared (c : ModuleConfig) : bool :=
  (mc_Enabled c == Some true) || negb (length (mc_Upstreams c) =? 0)%nat || negb (length (mc_Models c) =? 0)%nat.

(** Module settings, USB exports and the companion. *)
Definition validate_modules (s : Site) : result SiteError unit :=
  _ ← match s_ModuleConfig s !! "tailnet-router" with
      | Some c => _ ← foldM tailnet_client_step ∅ (mc_TailnetTrustedClients c); Ok tt
      | None => Ok tt
      end;
  _ ← match s_ModuleConfig s !! "bifrost" with
      | Some c => if bifrost_declared c then wrap BifrostConfig (ValidateBifrostConfig c) else Ok tt
      | None => Ok tt
      end;
  _ ← wrap USB (validateUSBExports s);
  validateCompanion (s_Companion s).

Definition Validate (s : Site) : result SiteError unit :=
  _ ← validate_host s;
  _ ← validate_modules s;
  '(seenZones, _) ← foldM zone_step (∅, ∅) (n_Zones (s_Network s));
  seen ← foldM (component_step seenZones) (∅, ∅) (s_Components s);
  '(seenComponents, _) ← foldM retained_step seen (s_RetainedModules s);
  _ ← fail_if (negb (size seenZones =? 6)%nat) ZoneCount;
  _ ← wrap Reservations (validateDHCPReservations s);
  _ ← wrap Records (validateUserDNSRecords s);
  _ ← wrap Rules (validateUserFirewallRules s);
  _ ← fail_if (composed s && negb (managed_firewall s)
               && existsb (fun c => c_Name c == "lab-fw-01") (s_Components s)) ExternalFirewall;
  _ ← eachM (foundation_check s seenComponents) (required_components s);
  _ ← foldM module_step ∅ (s_Modules s);
  wrap Declarations (validateDeclarations s).

Example Validate_default : Validate (NewDefaultSite "i" "age1") = Ok tt.
Proof. by vm_compute. Qed.

(** ** The zone contract *)

(** What the contract fixes of a zone. *)
Definition zone_key (z : Zone) : string * (ZoneType * Z * string * string) :=
  (z_Name z, (z_Type z, z_VLAN z, z_Network z, z_Gateway z)).

Lemma zone_check_key z : zone_check z = Ok tt → zone_key z ∈ map zone_key default_zones ∧ zone_services z = Ok tt.
Proof.
  unfold zone_check, zone_key, expected_zone. destruct (List.find _ _) as [[n e]|] eqn:Ef; [|done].
  apply find_some in Ef as [Hin%list_elem_of_In Hn]. bools. cbn in Hn. subst n.
  destruct e as [[[typ vlan] network] gateway]. intros Hv. inv_ok. bools.
  split; [|done]. by subst.
Qed.

Record zones_good (zs : list Zone) (st : gset string * gmap Z string) : Prop := {
  zg_names : NoDup (map z_Name zs);
  zg_vlans : NoDup (map z_VLAN zs);
  zg_seen : st.1 = list_to_set (map z_Name zs);
  zg_each : Forall (fun z => zone_key z ∈ map zone_key default_zones ∧ zone_services z = Ok tt) zs;
  zg_seen_vlans : ∀ v, v ∈ map z_VLAN zs → is_Some (st.2 !! v);
}.

Lemma zones_loop zs st : foldM zone_step (∅, ∅) zs = Ok st → zones_good zs st.
Proof.
  apply foldM_inv.
  { constructor; try constructor. cbn. set_solver. }
  intros dn z [zones vlans] s2 [Hn Hv Hseen Hk Hs] _ Hz. cbn [fst snd] in *. subst zones. unfold zone_step in Hz. inv_ok. bools.
  apply zone_check_key in E1. destruct (vlans !! z_VLAN z) eqn:Evl; [done|]. cbn [fst snd].
  constructor; cbn [fst snd]; rewrite ?map_app, ?list_to_set_app_L.
  - apply NoDup_snoc; [done|]. by rewrite elem_of_list_to_set in E.
  - apply NoDup_snoc; [done|]. intros Hin%Hs. rewrite Evl in Hin. by destruct Hin.
  - cbn. set_solver.
  - apply Forall_app. split; [done|]. by constructor.
  - intros v. rewrite elem_of_app. intros [Hin| ->%list_elem_of_singleton].
    + destruct (decide (v = z_VLAN z)) as [->|]; [rewrite lookup_insert_eq; eauto|].
      rewrite lookup_insert_ne by done. by apply Hs.
    + rewrite lookup_insert_eq. eauto.
Qed.

(** Six distinct entries of a list of six are all of it. *)
Lemma NoDup_same_length {A : Type} (l k : list A) : NoDup l → l ⊆ k → length k = length l → l ≡ₚ k.
Proof.
  intros Hd Hs Hl. assert (l ⊆+ k) as Hsub by by apply NoDup_submseteq. by apply submseteq_length_Permutation; [|lia].
Qed.

Lemma zones_contract zs st : foldM zone_step (∅, ∅) zs = Ok st → size st.1 = 6%nat →
  map zone_key zs ≡ₚ map zone_key default_zones.
Proof.
  intros [Hn _ Hs Hk _]%zones_loop Hsz. rewrite Hs in Hsz. rewrite size_list_to_set, length_map in Hsz by done.
  apply NoDup_same_length; [|intros k (z&->&Hz)%list_elem_of_fmap; rewrite Forall_forall in Hk; by apply Hk|].
  2: { rewrite (length_map zone_key zs), Hsz. done. }
  eapply NoDup_map_weaken; [|exact Hn]. intros x y _ _ E. by injection E.
Qed.

(** The six networks of the contract do not overlap. *)
Definition contract_networks : list ((string * (ZoneType * Z * string * string)) * Prefix) :=
  map (fun z => (zone_key z, default (Build_Prefix 0 0) (parse_cidr (z_Network z)))) default_zones.

Lemma contract_networks_disjoint k1 p1 k2 p2 : (k1, p1) ∈ contract_networks → (k2, p2) ∈ contract_networks →
  k1 = k2 ∨ overlaps p1 p2 = false.
Proof.
  intros H1 H2.
  assert (forallb (fun x => forallb (fun y => bool_decide (x.1 = y.1) || negb (overlaps x.2 y.2))
    contract_networks) contract_networks = true) as Hall by by vm_compute.
  rewrite forallb_forall in Hall. specialize (Hall _ (proj1 (list_elem_of_In _ _) H1)). cbn beta in Hall.
  rewrite forallb_forall in Hall. specialize (Hall _ (proj1 (list_elem_of_In _ _) H2)). cbn [fst snd] in Hall.
  apply orb_true_iff in Hall as [Hall|Hall]; bools; auto.
Qed.

Lemma contract_network_valid k p : (k, p) ∈ contract_networks → valid_prefix p.
Proof.
  intros (d&E&Hd)%list_elem_of_fmap. injection E as -> ->. destruct (parse_cidr (z_Network d)) eqn:Ed; cbn.
  - by eapply parse_cidr_valid.
  - split; cbn; [split; cbn|]; lia.
Qed.

Lemma contract_network z a : zone_key z ∈ map zone_key default_zones → ipInZone a z = true →
  ∃ p, (zone_key z, p) ∈ contract_networks ∧ prefix_contains p a = true.
Proof.
  intros (d&E&Hd)%list_elem_of_fmap Ha. unfold ipInZone in Ha.
  destruct (net_parse_cidr (z_Network z)) as [[p m|]|] eqn:En; try done.
  exists p. split.
  - apply list_elem_of_fmap. exists d. split; [|done]. rewrite E. injection E as _ _ _ En' _.
    unfold parse_cidr. rewrite <- En'. by rewrite En.
  - cbn in Ha. rewrite masked_contains in Ha; [done|]. apply net_parse_cidr_valid in En. apply En.
Qed.

Lemma contract_disjoint z1 z2 a :
  zone_key z1 ∈ map zone_key default_zones → zone_key z2 ∈ map zone_key default_zones →
  ipInZone a z1 = true → ipInZone a z2 = true → zone_key z1 = zone_key z2.
Proof.
  intros H1 H2 (p1&Hp1&Hc1)%contract_network (p2&Hp2&Hc2)%contract_network; [|done..].
  destruct (contract_networks_disjoint _ _ _ _ Hp1 Hp2) as [?|Ho]; [done|]. exfalso.
  eapply (overlaps_disjoint p1 p2 a); eauto using contract_network_valid.
Qed.

(** ** Components and retained guests *)

Definition vmids (cs : list Component) : list Z := List.filter (fun v => negb (v =? 0)) (map c_VMID cs).

Lemma vmids_snoc cs c : vmids (cs ++ [c]) = if c_VMID c =? 0 then vmids cs else vmids cs ++ [c_VMID c].
Proof.
  unfold vmids. rewrite map_app, List.filter_app. cbn. destruct (c_VMID c =? 0); cbn; [by rewrite app_nil_r|done].
Qed.

(** The names and VMIDs met so far are distinct, and the state knows them. *)
Record identities (cs : list Component) (st : gset string * gmap Z string) : Prop := {
  id_names : NoDup (map c_Name cs);
  id_seen : st.1 = list_to_set (map c_Name cs);
  id_vmids : NoDup (vmids cs);
  id_seen_vmids : ∀ v, v ∈ vmids cs → is_Some (st.2 !! v);
}.

Lemma identities_snoc cs st c seenVMIDs :
  identities cs st → c_Name c ∉ st.1 →
  (c_VMID c = 0 ∧ seenVMIDs = st.2 ∨ c_VMID c ≠ 0 ∧ st.2 !! c_VMID c = None ∧ seenVMIDs = <[c_VMID c := c_Name c]> st.2) →
  identities (cs ++ [c]) ({[c_Name c]} ∪ st.1, seenVMIDs).
Proof.
  intros [Hn Hs Hv Hsv] Hnew Hvm. rewrite Hs, elem_of_list_to_set in Hnew. constructor; cbn [fst snd].
  - rewrite map_app. by apply NoDup_snoc.
  - rewrite map_app, list_to_set_app_L, Hs. cbn. set_solver.
  - rewrite vmids_snoc. destruct (Z.eqb_spec (c_VMID c) 0); [done|]. apply NoDup_snoc; [done|].
    intros Hin%Hsv. destruct Hvm as [[? _]|(_&E&_)]; [done|]. rewrite E in Hin. by destruct Hin.
  - rewrite vmids_snoc. destruct (Z.eqb_spec (c_VMID c) 0); destruct Hvm as [[? ->]|(?&?&->)]; try done.
    intros v [Hin| ->]%elem_snoc; [|rewrite lookup_insert_eq; eauto].
    destruct (decide (v = c_VMID c)) as [->|]; [rewrite lookup_insert_eq; eauto|].
    rewrite lookup_insert_ne by done. by apply Hsv.
Qed.

Record component_good (zones : gset string) (c : Component) : Prop := {
  cg_valid : component_Validate c = Ok tt;
  cg_address : is_Some (parse_to4 (c_Address c));
  cg_zone : c_Zone c ∈ zones;
  cg_vmid : c_VMID c = 0 ∨ c_ProductOwned c = true ∧ 100 ≤ c_VMID c ≤ 499
            ∨ c_ProductOwned c = false ∧ 500 ≤ c_VMID c ≤ 899;
}.

Lemma wrap_ok {E1 E2 A : Type} (f : E1 → E2) (r : result E1 A) a : wrap f r = Ok a ↔ r = Ok a.
Proof. destruct r; cbn; naive_solver. Qed.

Lemma vmid_free_ok m f v u : vmid_free m f v = Ok u → m !! v = None.
Proof. unfold vmid_free. by destruct (m !! v). Qed.

Lemma vmid_ranges_ok c vmids0 vmids1 :
  (if c_VMID c != 0 then
     _ ← vmid_free vmids0 (fun previous => SharedVMID previous (c_Name c)) (c_VMID c);
     _ ← fail_if (c_ProductOwned c && negb (owned_vmid (c_VMID c))) (PlatformVMID (c_Name c));
     _ ← fail_if (negb (c_ProductOwned c) && negb (user_vmid (c_VMID c))) (UserVMID (c_Name c));
     Ok (<[c_VMID c := c_Name c]> vmids0)
   else Ok vmids0) = Ok vmids1 →
  (c_VMID c = 0 ∨ c_ProductOwned c = true ∧ 100 ≤ c_VMID c ≤ 499 ∨ c_ProductOwned c = false ∧ 500 ≤ c_VMID c ≤ 899)
  ∧ (c_VMID c = 0 ∧ vmids1 = vmids0
     ∨ c_VMID c ≠ 0 ∧ vmids0 !! c_VMID c = None ∧ vmids1 = <[c_VMID c := c_Name c]> vmids0).
Proof.
  destruct (c_VMID c != 0) eqn:Ez; bools; [|intros [= ->]; auto].
  intros Hs. apply bind_ok in Hs as ([] & Hfree%vmid_free_ok & Hs). inv_ok. unfold owned_vmid, user_vmid in *.
  split; [|right; done]. right. destruct (c_ProductOwned c); [left|right]; bools; (split; [done|lia]).
Qed.

Lemma component_step_ok zones cs st c st' : identities cs st → component_step zones st c = Ok st' →
  component_good zones c ∧ identities (cs ++ [c]) st'.
Proof.
  destruct st as [names vm]. intros Hi Hs. unfold component_step in Hs.
  apply bind_ok in Hs as ([] & Hv%wrap_ok & Hs). apply bind_ok in Hs as ([] & Hn & Hs).
  apply bind_ok in Hs as (vm' & Hvm & Hs). apply bind_ok in Hs as ([] & Ha & Hs). apply bind_ok in Hs as ([] & Hz & [= <-]).
  rewrite fail_if_ok in *. bools. apply vmid_ranges_ok in Hvm as [Hr Hvm]. split.
  - constructor; try done; [|by destruct (decide (c_Zone c ∈ zones))].
    destruct (parse_to4 (c_Address c)); [by eexists|done].
  - by eapply (identities_snoc cs (names, vm)).
Qed.

Lemma components_loop zones cs st : foldM (component_step zones) (∅, ∅) cs = Ok st →
  identities cs st ∧ Forall (component_good zones) cs.
Proof.
  apply (foldM_inv _ (fun cs st => identities cs st ∧ Forall (component_good zones) cs)).
  { split; [|constructor]. constructor; try constructor. cbn. intros v Hin. by apply elem_of_nil in Hin. }
  intros dn c s1 s2 [Hi Hg] _ Hs. destruct (component_step_ok _ _ _ _ _ Hi Hs) as [Hc Hi'].
  split; [done|]. apply Forall_app. split; [done|by constructor].
Qed.

(** A guest of a disabled module that keeps its identity. *)
Record retained_good (module : string) (g : Component) : Prop := {
  rg_valid : component_Validate g = Ok tt;
  rg_owned : c_ProductOwned g = true ∧ c_SSHManaged g = true ∧ c_Module g = module;
  rg_vmid : 100 ≤ c_VMID g ≤ 499;
  rg_tag : ModuleOwnershipTag module ∈ c_Tags g;
}.

Lemma retained_guest_ok retained cs st g st' : identities cs st → retained_guest_step retained st g = Ok st' →
  retained_good (rt_Module retained) g ∧ identities (cs ++ [g]) st'.
Proof.
  destruct st as [names vm]. intros Hi Hs. unfold retained_guest_step in Hs.
  apply bind_ok in Hs as ([] & Hv%wrap_ok & Hs). apply bind_ok in Hs as ([] & Ho & Hs).
  apply bind_ok in Hs as ([] & Hr & Hs). apply bind_ok in Hs as ([] & Ht & Hs). apply bind_ok in Hs as ([] & Hn & Hs).
  apply bind_ok in Hs as ([] & Hvm%vmid_free_ok & [= <-]). rewrite fail_if_ok in *. unfold owned_vmid in *. bools.
  split.
  - constructor; try done. by destruct (decide (ModuleOwnershipTag (rt_Module retained) ∈ c_Tags g)).
  - eapply (identities_snoc cs (names, vm)); [done|done|]. right. split_and!; [lia|done|done].
Qed.

Definition retained_guests (rs : list RetainedModule) : list Component := concat (map rt_Guests rs).

Lemma retained_loop rs cs st st' : identities cs st → foldM retained_step st rs = Ok st' →
  identities (cs ++ retained_guests rs) st'
  ∧ Forall (fun r => Forall (retained_good (rt_Module r)) (rt_Guests r)) rs.
Proof.
  intros Hi. revert st'. induction rs as [|r rs IH] using rev_ind; intros st' Hf.
  { injection Hf as <-. unfold retained_guests. cbn. rewrite app_nil_r. split; [done|constructor]. }
  apply foldM_snoc in Hf as (s1&Hs1&Hs). apply IH in Hs1 as [Hid Hg]. unfold retained_step in Hs.
  apply bind_ok in Hs as ([] & _ & Hs). apply bind_ok in Hs as ([] & _ & Hs).
  assert (identities ((cs ++ retained_guests rs) ++ rt_Guests r) st' ∧ Forall (retained_good (rt_Module r)) (rt_Guests r)) as [? ?].
  { revert Hs. apply (foldM_inv _ (fun gs st => identities ((cs ++ retained_guests rs) ++ gs) st ∧ Forall (retained_good (rt_Module r)) gs)).
    { by rewrite app_nil_r. }
    intros dn g s2 s3 [Hi2 Hgs] _ Hst. destruct (retained_guest_ok _ _ _ _ _ Hi2 Hst) as [? ?].
    rewrite app_assoc. split; [done|]. apply Forall_app. split; [done|by constructor]. }
  unfold retained_guests in *. rewrite map_app, concat_app. cbn. rewrite app_nil_r, app_assoc.
  split; [done|]. apply Forall_app. split; [done|by constructor].
Qed.

(** ** The gate, taken apart *)

Record site_good (s : Site) : Prop := {
  vg_host : validate_host s = Ok tt;
  vg_modules : validate_modules s = Ok tt;
  vg_zones : map zone_key (n_Zones (s_Network s)) ≡ₚ map zone_key default_zones;
  vg_services : Forall (fun z => zone_services z = Ok tt) (n_Zones (s_Network s));
  vg_components : Forall (component_good (list_to_set (map z_Name (n_Zones (s_Network s))))) (s_Components s);
  vg_retained : Forall (fun r => Forall (retained_good (rt_Module r)) (rt_Guests r)) (s_RetainedModules s);
  vg_identities : ∃ st, identities (s_Components s ++ retained_guests (s_RetainedModules s)) st
    ∧ Forall (fun r => foundation_check s st.1 r = Ok tt) (required_components s);
  vg_reservations : validateDHCPReservations s = Ok tt;
  vg_records : validateUserDNSRecords s = Ok tt;
  vg_rules : validateUserFirewallRules s = Ok tt;
  vg_declarations : validateDeclarations s = Ok tt;
}.

Lemma site_Validate_good s : Validate s = Ok tt → site_good s.
Proof.
  unfold Validate. intros Hv. apply bind_ok in Hv as ([] & Hhost & Hv). apply bind_ok in Hv as ([] & Hmod & Hv).
  apply bind_ok in Hv as ([zones vlans] & Hz & Hv). apply bind_ok in Hv as (st & Hc & Hv).
  apply bind_ok in Hv as ([names vm] & Hr & Hv). apply bind_ok in Hv as ([] & Hsz & Hv).
  apply bind_ok in Hv as ([] & Hres%wrap_ok & Hv). apply bind_ok in Hv as ([] & Hrec%wrap_ok & Hv).
  apply bind_ok in Hv as ([] & Hrul%wrap_ok & Hv). apply bind_ok in Hv as ([] & _ & Hv).
  apply bind_ok in Hv as ([] & Hf%eachM_ok & Hv). apply bind_ok in Hv as (ms & _ & Hd%wrap_ok).
  apply fail_if_ok in Hsz. bools. apply Nat.eqb_eq in Hsz.
  pose proof (zones_loop _ _ Hz) as [_ _ Hseen Heach _]. pose proof (zones_contract _ _ Hz Hsz). cbn [fst] in *. subst zones.
  apply components_loop in Hc as [Hid Hcs]. destruct (retained_loop _ _ _ _ Hid Hr) as [Hid' Hret].
  constructor; try done; [|by exists (names, vm)].
  eapply Forall_impl; [exact Heach|]. by intros z [_ ?].
Qed.

Lemma contract_zone s z : site_good s → z ∈ n_Zones (s_Network s) → zone_key z ∈ map zone_key default_zones.
Proof. intros Hg Hz. rewrite <- (vg_zones s Hg). apply list_elem_of_fmap. by exists z. Qed.

(** No zone of the contract is named like a prefix. *)
Lemma zone_name_not_cidr d : d ∈ default_zones → net_parse_cidr (z_Name d) = None.
Proof.
  intros Hd. assert (Forall (fun d => net_parse_cidr (z_Name d) = None) default_zones) as Hall
    by (repeat first [apply Forall_cons_2; [by vm_compute|]|apply Forall_nil_2]).
  rewrite Forall_forall in Hall. by apply Hall.
Qed.

(** In the contract, an operator's zone name is a zone and not a core one. *)
Lemma user_zone_not_core s z : site_good s → z ∈ n_Zones (s_Network s) → z_Name z ∈ rule_zones →
  is_core_zone (z_Type z) = false.
Proof.
  intros Hg Hz Hn. apply contract_zone in Hz; [|done]. apply list_elem_of_fmap in Hz as (d&Hk&Hd).
  injection Hk as En Et _ _ _. rewrite Et. rewrite En in Hn. revert Hd Hn. unfold default_zones, rule_zones.
  rewrite !elem_of_cons. intros Hd Hn.
  destruct Hd as [->|[->|[->|[->|[->|[->|Hd%elem_of_nil]]]]]]; try done; cbn in Hn; by destruct Hn as [?|[?|[?|Hn%elem_of_nil]]].
Qed.

(** A selector that stays off the platform covers no core address, in a site
    that keeps the contract. *)
Lemma off_platform_core s sel a z : site_good s → canonical_selector sel →
  (∀ zone, List.find (fun z => sel == z_Name z) (n_Zones (s_Network s)) = Some zone → sel ∈ rule_zones) →
  off_platform s sel → selector_covers s sel a → z ∈ n_Zones (s_Network s) → is_core_zone (z_Type z) = true →
  ipInZone a z = false.
Proof.
  intros Hg Hc Hname Ho Hcov Hz Hcore. destruct (Ho a Hcov) as [_ Hpre]. unfold selector_covers in Hcov.
  destruct (List.find _ _) as [zone|] eqn:Ef; [|by apply Hpre].
  pose proof (Hname zone eq_refl) as Hin. apply find_some in Ef as [Hzone%list_elem_of_In E]. bools. subst sel.
  apply not_true_is_false. intros Ha.
  pose proof (contract_disjoint _ _ _ (contract_zone s _ Hg Hzone) (contract_zone s _ Hg Hz) Hcov Ha) as Hk.
  injection Hk as _ Et _ _ _. rewrite <- Et in Hcore. by rewrite (user_zone_not_core s zone) in Hcore.
Qed.
(** An address that is neither in a core zone nor a component of boetticher's. *)
Definition isolated (s : Site) (a : Addr) : Prop :=
  (∀ z, z ∈ n_Zones (s_Network s) → is_core_zone (z_Type z) = true → ipInZone a z = false)
  ∧ (∀ c, c ∈ PlatformComponents s → c_ProductOwned c = true → parse_to4 (c_Address c) ≠ Some a).

Lemma rule_isolated s rule : site_good s → rule ∈ s_UserFirewallRules s →
  ∃ m, rule_meaning rule = Ok m
    ∧ (monitor_reading s m
       ∨ ∀ sel a, sel ∈ [fm_Source m; fm_Destination m] → selector_covers s sel a → isolated s a).
Proof.
  intros Hg Hr. pose proof (vg_rules s Hg) as (_&ms&[Hm _ Ha _ _])%user_rules_spec.
  apply list_elem_of_lookup in Hr as (i&Hr). destruct (Forall2_lookup_l _ _ _ _ _ Hm Hr) as (m&Him&Hrm).
  exists m. split; [done|]. destruct (rule_meaning_ok _ _ Hrm) as [[Hs Hd _ _ _] _].
  rewrite Forall_forall in Ha. specialize (Ha m (list_elem_of_lookup_2 _ _ _ Him)).
  apply orb_true_iff in Ha as [Ha|Ha]; [right|left; by apply reserved_monitor_reading]. bools.
  assert (∀ sel, canonical_selector sel → firewallSelectorProtected s sel = false → ∀ a, selector_covers s sel a →
    isolated s a) as Hsel.
  { intros sel Hc Hp a Hcov. pose proof (unprotected_off_platform s sel Hc Hp) as Ho. split; [|by apply Ho].
    intros z Hz Hcore. eapply off_platform_core; eauto. intros zone Hf.
    apply find_some in Hf as [Hzone%list_elem_of_In E]. bools.
    destruct Hc as [?|(p&Hv&_&->)]; [done|]. exfalso.
    apply contract_zone in Hzone; [|done]. apply list_elem_of_fmap in Hzone as (d&Hk&Hdz). injection Hk as En _ _ _ _.
    pose proof (parse_prefix_text p Hv) as Ht. rewrite E, En, zone_name_not_cidr in Ht by done. discriminate Ht. }
  intros sel a Hin Hcov. rewrite !elem_of_cons in Hin. destruct Hin as [->|[->|Hin%elem_of_nil]]; [..|done].
  - by apply (Hsel (fm_Source m)).
  - by apply (Hsel (fm_Destination m)).
Qed.
End validate.

(** ** Properties *)

(** C36. A validated site cannot open its core networks to workloads: each rule an
    operator wrote is either the reserved reading of the monitor, or neither of
    its ends covers an address of INFRA, MGMT or TRANSIT, or the address of a
    component boetticher owns, however the rule was written. *)
Theorem Validate_rules_isolated `{GoUnicode, GoURL} s rule :
  Validate s = Ok tt → rule ∈ s_UserFirewallRules s →
  ∃ m, rule_meaning rule = Ok m
    ∧ (monitor_reading s m
       ∨ ∀ sel a, sel ∈ [fm_Source m; fm_Destination m] → selector_covers s sel a →
           (∀ z, z ∈ n_Zones (s_Network s) → is_core_zone (z_Type z) = true → ipInZone a z = false)
           ∧ (∀ c, c ∈ PlatformComponents s → c_ProductOwned c = true → parse_to4 (c_Address c) ≠ Some a)).
Proof.
  intros Hg%site_Validate_good Hr. by apply rule_isolated.
Qed.

(** C40. A validated site keeps the fixed network contract: its zones are, in some
    order, exactly the six of the contract (name, meaning, VLAN, network and
    gateway), so no address belongs to two of them. *)
Theorem Validate_zones `{GoUnicode, GoURL} s :
  Validate s = Ok tt →
  map zone_key (n_Zones (s_Network s)) ≡ₚ map zone_key default_zones
  ∧ ∀ z1 z2 a, z1 ∈ n_Zones (s_Network s) → z2 ∈ n_Zones (s_Network s) →
      ipInZone a z1 = true → ipInZone a z2 = true → z_Name z1 = z_Name z2.
Proof.
  intros Hg%site_Validate_good. split; [apply (vg_zones s Hg)|]. intros z1 z2 a H1 H2 Ha1 Ha2.
  pose proof (contract_disjoint z1 z2 a (contract_zone s _ Hg H1) (contract_zone s _ Hg H2) Ha1 Ha2) as Hk. by injection Hk.
Qed.

(** A validated site has no ambiguous guest: names and VMIDs are distinct
    across components and retained guests, every component has an IPv4 address
    and a zone of the contract, platform VMIDs and workload VMIDs stay in their
    own ranges, and each foundation component the site needs is there with its
    fixed address and VMID. *)
Theorem Validate_identities `{GoUnicode, GoURL} s :
  Validate s = Ok tt →
  let all := s_Components s ++ retained_guests (s_RetainedModules s) in
  NoDup (map c_Name all) ∧ NoDup (vmids all)
  ∧ (∀ c, c ∈ s_Components s → is_Some (parse_to4 (c_Address c))
       ∧ c_Zone c ∈ map z_Name default_zones
       ∧ (c_VMID c = 0 ∨ c_ProductOwned c = true ∧ 100 ≤ c_VMID c ≤ 499
          ∨ c_ProductOwned c = false ∧ 500 ≤ c_VMID c ≤ 899))
  ∧ ∀ name address vmid, (name, (address, vmid)) ∈ required_components s →
      (∃ c, c ∈ all ∧ c_Name c = name)
      ∧ ∀ c, c ∈ s_Components s → c_Name c = name →
          c_Address c = address ∧ c_VMID c = vmid ∧ c_ProductOwned c = true.
Proof.
  intros Hg%site_Validate_good. destruct (vg_identities s Hg) as (st&[Hn Hseen Hv _]&Hf). cbn zeta. split_and!; try done.
  - intros c Hc. pose proof (vg_components s Hg) as Hcs. rewrite Forall_forall in Hcs. destruct (Hcs c Hc) as [_ Ha Hz Hr].
    split_and!; try done. rewrite elem_of_list_to_set in Hz. apply list_elem_of_fmap in Hz as (z&->&Hz).
    apply contract_zone in Hz; [|done]. apply list_elem_of_fmap in Hz as (d&Hk&Hd). injection Hk as -> _ _ _ _.
    apply list_elem_of_fmap. by exists d.
  - intros name address vmid Hin. rewrite Forall_forall in Hf. specialize (Hf _ Hin). cbn in Hf. inv_ok. bools.
    destruct (decide (name ∈ st.1)) as [Hns|]; [|done]. split.
    + rewrite Hseen, elem_of_list_to_set in Hns. apply list_elem_of_fmap in Hns as (c&->&Hc). eauto.
    + intros c Hc <-. apply existsb_false in Hf. rewrite Forall_forall in Hf. specialize (Hf c Hc). cbn in Hf.
      rewrite bool_decide_eq_true_2 in Hf by done. cbn in Hf. by bools.
Qed.

(** ** Witnesses *)

Lemma sample_valid : @Validate ascii_only plain_url sample_rules_site = Ok tt.
Proof. by vm_compute. Qed.

Example Validate_rejects :
  let s := NewDefaultSite "i" "age1" in
  @Validate ascii_only plain_url (with_components s []) = Err (FoundationMissing "lab-proxmox-01")
  ∧ @Validate ascii_only plain_url (with_components s (s_Components s ++ s_Components s)) = Err (ComponentTwice "lab-proxmox-01")
  ∧ @Validate ascii_only plain_url (with_components sample_rules_site []) = Err (Rules (CrossesBoundary "ufr-1")).
Proof. by vm_compute. Qed.

Definition sample_rule : UserFirewallRule := mkUserRule "ufr-3" "10.10.30.7/028" "servers" "icmp" [].

Theorem Validate_rules_isolated_witness :
  ∃ m, @rule_meaning ascii_only sample_rule = Ok m ∧ fm_Source m = "10.10.30.0/28".
Proof.
  destruct (@Validate_rules_isolated ascii_only plain_url sample_rules_site sample_rule) as (m&Hm&_).
  - exact sample_valid.
  - cbn. right. right. left.
  - exists m. split; [exact Hm|]. revert Hm. vm_compute. intros E. injection E as <-. reflexivity.
Defined.

Theorem Validate_zones_witness : map zone_key (n_Zones (s_Network sample_rules_site)) ≡ₚ map zone_key default_zones.
Proof. apply (@Validate_zones ascii_only plain_url sample_rules_site). exact sample_valid. Defined.

Theorem Validate_identities_witness : NoDup (vmids (s_Components sample_rules_site ++ [])).
Proof. apply (@Validate_identities ascii_only plain_url sample_rules_site). exact sample_valid. Defined.
End SiteValidate.
