(* ===== verification/SiteNormalize.v ===== *)
(** * Site model: the canonical form ([Site.Normalize], [CanonicalJSON] and
    [Revision] of [internal/model/model.go])

    Normalising sorts every list whose order means nothing, and rewrites the
    operator's firewall rules to their canonical texts.  Go copies all slices
    first, so that the caller's site stays as it was; values here are never
    shared.  JSON and SHA-256 are parameters. *)

From S2P Require Export SiteValidate.

Open Scope Z_scope.

Module SiteNormalize.
Import Model SiteRules SiteValidate.
#[local] Arguments sort_by : simpl never.
#[local] Arguments stable_sort : simpl never.
#[local] Arguments sort_strings : simpl never.

(** ** Orders *)

Definition vlan_le (a b : Zone) : Prop := z_VLAN a ≤ z_VLAN b.
#[export] Instance vlan_le_dec : RelDecision vlan_le.
Proof. intros a b. unfold vlan_le. apply _. Defined.
#[export] Instance vlan_le_total : Total vlan_le.
Proof. intros a b. unfold vlan_le. lia. Qed.

(** By a first key, and by a second one where the first is equal. *)
Definition keys_le {A : Type} (key1 key2 : A → string) (a b : A) : Prop :=
  if decide (key1 a = key1 b) then String.le (key2 a) (key2 b) else String.le (key1 a) (key1 b).
#[export] Instance keys_le_dec {A : Type} (key1 key2 : A → string) : RelDecision (keys_le key1 key2).
Proof. intros a b. unfold keys_le. case_decide; apply _. Defined.
#[export] Instance keys_le_total {A : Type} (key1 key2 : A → string) : Total (keys_le key1 key2).
Proof.
  intros a b. unfold keys_le. destruct (decide (key1 a = key1 b)) as [E|Hne].
  - rewrite decide_True by done. apply (total String.le).
  - rewrite decide_False by congruence. apply (total String.le).
Qed.

Definition sort_by2 {A : Type} (key1 key2 : A → string) (l : list A) : list A := stable_sort (keys_le key1 key2) l.

(** ** [Normalize] *)

Definition normalize_component (c : Component) : Component :=
  mkComponent (c_Name c) (c_VMID c) (c_Hostname c) (c_Zone c) (c_Address c) (c_Role c) (sort_strings (c_DNSAliases c))
    (c_URL c) (c_SSHUser c) (c_SSHPort c) (c_Monitoring c) (c_Backup c) (sort_strings (c_Tags c)) (c_MTLS c)
    (c_SSHManaged c) (c_JumpAllowed c) (c_ProductOwned c) (c_Module c) (c_Logging c) (c_MAC c).

Definition normalize_declaration (d : ModuleDeclaration) : ModuleDeclaration := {|
  md_Module := md_Module d;
  md_Artifact := md_Artifact d;
  md_Guests := sort_by c_Name (md_Guests d);
  md_Persistent := sort_by ps_Name (md_Persistent d);
  md_Volumes := sort_by pv_Name (md_Volumes d);
  md_Secrets := sort_by sd_Name (md_Secrets d);
  md_NetworkIntents := md_NetworkIntents d;
  md_DNSRecords := sort_by mr_Name (md_DNSRecords d);
  md_DHCPReservations := sort_by dh_Hostname (md_DHCPReservations d);
  md_Certificates := md_Certificates d;
  md_Monitoring := md_Monitoring d;
  md_Backups := md_Backups d;
  md_Security := md_Security d;
  md_USBRequirements := md_USBRequirements d;
  md_AdvertisedRoutes := md_AdvertisedRoutes d;
  md_ReturnRouting := md_ReturnRouting d;
|}.

Definition sort_trusted_clients (c : ModuleConfig) : ModuleConfig :=
  mkModuleConfig (mc_QBittorrentPort c) (sort_strings (mc_TailnetTrustedClients c)) (mc_Enabled c) (mc_Network c)
    (mc_Servers c) (mc_ModelAlias c) (mc_Upstreams c) (mc_Models c).

Definition normalize_gateway (g : Gateway) : Gateway :=
  mkGateway (gw_Mode g) (gw_UpstreamMode g) (gw_UpstreamMAC g) (gw_ManagementAddress g) (gw_ManagementNetwork g)
    (gw_ManagementGateway g) (gw_ControllerAddress g) (sort_strings (gw_Publish g)).

Section normalize.
Context `{GoUnicode}.

Definition Normalize (s : Site) : Site := {|
  s_APIVersion := s_APIVersion s;
  s_PlatformVersion := s_PlatformVersion s;
  s_SchemaVersion := s_SchemaVersion s;
  s_StorageProfile := s_StorageProfile s;
  s_StorageDevice := s_StorageDevice s;
  s_Gateway := normalize_gateway (s_Gateway s);
  s_LogicalProxmoxIdentity := s_LogicalProxmoxIdentity s;
  s_BootstrapAddress := s_BootstrapAddress s;
  s_SSHIdentityFile := s_SSHIdentityFile s;
  s_PhysicalNetwork := s_PhysicalNetwork s;
  s_TestedGateway := s_TestedGateway s;
  s_Network := mkNetwork (n_Domain (s_Network s)) (stable_sort vlan_le (n_Zones (s_Network s)));
  s_PKI := s_PKI s;
  s_SecretMetadata := s_SecretMetadata s;
  s_Ownership := s_Ownership s;
  s_Components := map normalize_component (sort_by c_Name (s_Components s));
  s_Modules := sort_by rm_Name (s_Modules s);
  s_ModuleConfig := alter sort_trusted_clients "tailnet-router" (s_ModuleConfig s);
  s_Companion := s_Companion s;
  s_Declarations := map normalize_declaration (sort_by md_Module (s_Declarations s));
  s_USBExports := sort_by2 ub_Module ub_Requirement (s_USBExports s);
  s_RetainedModules := sort_by rt_Module (s_RetainedModules s);
  s_DHCPReservations := sort_by2 dh_Hostname dh_MAC (s_DHCPReservations s);
  s_DNSRecords := sort_by2 ud_Name ud_Type (s_DNSRecords s);
  s_UserFirewallRules := normalize_rules (s_UserFirewallRules s);
  s_PendingDNSDeletions := sort_by2 dd_Name dd_Type (s_PendingDNSDeletions s);
|}.

(** ** [CanonicalJSON] and [Revision] *)

(** [json.Marshal] of a site, which leaves out the pending deletions, and
    SHA-256 in hexadecimal. *)
Class SiteDigest := { marshal_site : Site → string; site_sha256_hex : string → string }.
Context `{GoURL, SiteDigest}.

Definition without_identity_file (s : Site) : Site := {|
  s_APIVersion := s_APIVersion s; s_PlatformVersion := s_PlatformVersion s; s_SchemaVersion := s_SchemaVersion s;
  s_StorageProfile := s_StorageProfile s; s_StorageDevice := s_StorageDevice s; s_Gateway := s_Gateway s;
  s_LogicalProxmoxIdentity := s_LogicalProxmoxIdentity s; s_BootstrapAddress := s_BootstrapAddress s;
  s_SSHIdentityFile := "";
  s_PhysicalNetwork := s_PhysicalNetwork s; s_TestedGateway := s_TestedGateway s; s_Network := s_Network s;
  s_PKI := s_PKI s; s_SecretMetadata := s_SecretMetadata s; s_Ownership := s_Ownership s;
  s_Components := s_Components s; s_Modules := s_Modules s; s_ModuleConfig := s_ModuleConfig s;
  s_Companion := s_Companion s; s_Declarations := s_Declarations s; s_USBExports := s_USBExports s;
  s_RetainedModules := s_RetainedModules s; s_DHCPReservations := s_DHCPReservations s; s_DNSRecords := s_DNSRecords s;
  s_UserFirewallRules := s_UserFirewallRules s; s_PendingDNSDeletions := s_PendingDNSDeletions s;
|}.

Definition CanonicalJSON (s : Site) : result SiteError string :=
  _ ← Validate s;
  Ok (marshal_site (without_identity_file (Normalize s))).

Definition Revision (s : Site) : result SiteError string :=
  b ← CanonicalJSON s;
  Ok ("sha256:" +:+ site_sha256_hex b).

(** ** Normalising twice *)

Lemma stable_sort_idemp {A : Type} (R : relation A) `{!RelDecision R, !Total R} l :
  stable_sort R (stable_sort R l) = stable_sort R l.
Proof. apply stable_sort_fixed, stable_sort_sorted, _. Qed.

Lemma sort_strings_idemp l : sort_strings (sort_strings l) = sort_strings l.
Proof.
  apply (Sorted_unique String.le); [apply sort_strings_sorted..|]. apply sort_strings_perm.
Qed.

(** A map that keeps the keys and undoes nothing commutes with the sort. *)
Lemma sort_by_map {A : Type} (key : A → string) (f : A → A) l : (∀ x, key (f x) = key x) →
  sort_by key (map f l) = map f (sort_by key l).
Proof.
  intros Hf. induction l as [|x l IH]; [done|]. unfold sort_by in *. cbn [map]. rewrite !stable_sort_cons, IH. clear IH.
  induction (stable_sort (key_le key) l) as [|y k IHk]; [done|].
  assert (key_le key (f x) (f y) ↔ key_le key x y) as Hiff by (unfold key_le; by rewrite !Hf).
  cbn. destruct (decide (key_le key (f x) (f y))) as [Hl|Hl].
  - by rewrite decide_True by by apply Hiff.
  - rewrite decide_False by by rewrite <- Hiff. cbn. by rewrite <- IHk.
Qed.

Lemma sorted_map_idemp {A : Type} (key : A → string) (f : A → A) l : (∀ x, key (f x) = key x) → (∀ x, f (f x) = f x) →
  map f (sort_by key (map f (sort_by key l))) = map f (sort_by key l).
Proof. intros Hk Hf. rewrite sort_by_map, sort_by_idemp, map_map by done. by apply map_ext. Qed.

Lemma normalize_component_idemp c : normalize_component (normalize_component c) = normalize_component c.
Proof. unfold normalize_component. cbn. by rewrite !sort_strings_idemp. Qed.
Lemma sort_trusted_clients_idemp c : sort_trusted_clients (sort_trusted_clients c) = sort_trusted_clients c.
Proof. unfold sort_trusted_clients. cbn. by rewrite sort_strings_idemp. Qed.
Lemma normalize_declaration_idemp d : normalize_declaration (normalize_declaration d) = normalize_declaration d.
Proof. unfold normalize_declaration. cbn. by rewrite !sort_by_idemp. Qed.

(** The zones of the contract, in the order of their VLANs. *)
Definition key_vlan (k : string * (ZoneType * Z * string * string)) : Z := let '(_, (_, vlan, _, _)) := k in vlan.

Lemma contract_by_vlan zs : map zone_key zs ≡ₚ map zone_key default_zones →
  map zone_key (stable_sort vlan_le zs) = map zone_key default_zones.
Proof.
  intros Hp. set (le := fun a b => key_vlan a ≤ key_vlan b).
  assert (Transitive le) by (intros a b c; unfold le; lia).
  apply (StronglySorted_unique_strong le).
  - intros a b Ha Hb Hab Hba. unfold le in *. eapply (NoDup_map_inj key_vlan (map zone_key default_zones)); [|..|lia].
    + apply (bool_decide_unpack _). by vm_compute.
    + rewrite stable_sort_perm in Ha. by rewrite <- Hp.
    + done.
  - apply Sorted_StronglySorted; [done|]. eapply (Sorted_fmap zone_key vlan_le le); [by intros|]. apply stable_sort_sorted, _.
  - apply Sorted_StronglySorted; [done|]. by vm_compute; repeat constructor.
  - by rewrite stable_sort_perm.
Qed.

Lemma normalized_zones s : site_good s → map zone_key (n_Zones (s_Network (Normalize s))) = map zone_key default_zones.
Proof. intros Hg. apply contract_by_vlan, (vg_zones s Hg). Qed.

(** Filtering looks at nothing the map changes. *)
Lemma filter_map {A B : Type} (P : A → Prop) `{!∀ x, Decision (P x)} (f : A → A) (g : A → B) l :
  (∀ x, P (f x) ↔ P x) → (∀ x, g (f x) = g x) → map g (filter P (map f l)) = map g (filter P l).
Proof.
  intros HP Hg. induction l as [|x l IH]; [done|]. cbn [map]. destruct (decide (P x)) as [Hx|Hx].
  - rewrite !filter_cons_True by (done || by apply HP). cbn. by rewrite IH, Hg.
  - rewrite !filter_cons_False by (done || by rewrite HP). done.
Qed.

Lemma concat_map_perm {A B : Type} (f g : A → list B) l : (∀ x, f x ≡ₚ g x) → concat (map f l) ≡ₚ concat (map g l).
Proof. intros Hfg. induction l as [|x l IH]; [done|]. cbn. by rewrite IH, Hfg. Qed.

Lemma normalized_components {B : Type} (g : Component → B) s : (∀ c, g (normalize_component c) = g c) →
  map g (PlatformComponents (Normalize s)) ≡ₚ map g (PlatformComponents s).
Proof.
  intros Hg. unfold PlatformComponents. rewrite !sort_by_perm, !map_app. cbn [s_Components s_Declarations Normalize].
  rewrite length_map, (Permutation_length (sort_by_perm md_Module (s_Declarations s))). f_equiv.
  - rewrite filter_map by done. by rewrite sort_by_perm.
  - rewrite map_map. f_equiv. rewrite (concat_map_perm _ md_Guests); [by rewrite sort_by_perm|]. intros d. apply sort_by_perm.
Qed.

(** Their names, in order, do not change. *)
Lemma normalized_component_names s : map c_Name (PlatformComponents (Normalize s)) = map c_Name (PlatformComponents s).
Proof.
  apply (Sorted_unique String.le); [..|by apply normalized_components];
    apply (Sorted_fmap c_Name (key_le c_Name)); done || apply sort_by_sorted.
Qed.
End normalize.

(** ** The same site, with its lists in another order *)

(** Related element by element, up to the order. *)
Definition reordered {A : Type} (R : relation A) (l k : list A) : Prop := ∃ m, Forall2 R l m ∧ m ≡ₚ k.

(** The same component but for the order of its aliases and of its tags. *)
Definition same_component (c c' : Component) : Prop :=
  c_DNSAliases c' ≡ₚ c_DNSAliases c ∧ c_Tags c' ≡ₚ c_Tags c
  ∧ c' = mkComponent (c_Name c) (c_VMID c) (c_Hostname c) (c_Zone c) (c_Address c) (c_Role c) (c_DNSAliases c')
      (c_URL c) (c_SSHUser c) (c_SSHPort c) (c_Monitoring c) (c_Backup c) (c_Tags c') (c_MTLS c)
      (c_SSHManaged c) (c_JumpAllowed c) (c_ProductOwned c) (c_Module c) (c_Logging c) (c_MAC c).

(** The same declaration but for the order of what it lists. *)
Definition same_declaration (d d' : ModuleDeclaration) : Prop :=
  md_Guests d' ≡ₚ md_Guests d ∧ md_Persistent d' ≡ₚ md_Persistent d ∧ md_Volumes d' ≡ₚ md_Volumes d
  ∧ md_Secrets d' ≡ₚ md_Secrets d ∧ md_DNSRecords d' ≡ₚ md_DNSRecords d
  ∧ md_DHCPReservations d' ≡ₚ md_DHCPReservations d
  ∧ d' = mkDeclaration (md_Module d) (md_Artifact d) (md_Guests d') (md_Persistent d') (md_Volumes d') (md_Secrets d')
      (md_NetworkIntents d) (md_DNSRecords d') (md_DHCPReservations d') (md_Certificates d) (md_Monitoring d)
      (md_Backups d) (md_Security d) (md_USBRequirements d) (md_AdvertisedRoutes d) (md_ReturnRouting d).

Definition same_config (c c' : ModuleConfig) : Prop :=
  mc_TailnetTrustedClients c' ≡ₚ mc_TailnetTrustedClients c
  ∧ c' = mkModuleConfig (mc_QBittorrentPort c) (mc_TailnetTrustedClients c') (mc_Enabled c) (mc_Network c)
      (mc_Servers c) (mc_ModelAlias c) (mc_Upstreams c) (mc_Models c).

Definition same_gateway (g g' : Gateway) : Prop :=
  gw_Publish g' ≡ₚ gw_Publish g
  ∧ g' = mkGateway (gw_Mode g) (gw_UpstreamMode g) (gw_UpstreamMAC g) (gw_ManagementAddress g) (gw_ManagementNetwork g)
      (gw_ManagementGateway g) (gw_ControllerAddress g) (gw_Publish g').

(** Every field of a site, the operator's firewall rules apart. *)
Record same_site (s n : Site) : Prop := {
  ss_version : (s_APIVersion n, s_PlatformVersion n, s_SchemaVersion n) = (s_APIVersion s, s_PlatformVersion s, s_SchemaVersion s);
  ss_storage : (s_StorageProfile n, s_StorageDevice n) = (s_StorageProfile s, s_StorageDevice s);
  ss_gateway : same_gateway (s_Gateway s) (s_Gateway n);
  ss_host : (s_LogicalProxmoxIdentity n, s_BootstrapAddress n, s_SSHIdentityFile n, s_PhysicalNetwork n, s_TestedGateway n)
            = (s_LogicalProxmoxIdentity s, s_BootstrapAddress s, s_SSHIdentityFile s, s_PhysicalNetwork s, s_TestedGateway s);
  ss_secrets : (s_PKI n, s_SecretMetadata n, s_Ownership n) = (s_PKI s, s_SecretMetadata s, s_Ownership s);
  ss_domain : n_Domain (s_Network n) = n_Domain (s_Network s);
  ss_zones : n_Zones (s_Network n) ≡ₚ n_Zones (s_Network s);
  ss_components : reordered same_component (s_Components s) (s_Components n);
  ss_modules : s_Modules n ≡ₚ s_Modules s;
  ss_configs : ∀ name, option_Forall2 same_config (s_ModuleConfig s !! name) (s_ModuleConfig n !! name);
  ss_companion : s_Companion n = s_Companion s;
  ss_declarations : reordered same_declaration (s_Declarations s) (s_Declarations n);
  ss_exports : s_USBExports n ≡ₚ s_USBExports s;
  ss_retained : s_RetainedModules n ≡ₚ s_RetainedModules s;
  ss_reservations : s_DHCPReservations n ≡ₚ s_DHCPReservations s;
  ss_records : s_DNSRecords n ≡ₚ s_DNSRecords s;
  ss_deletions : s_PendingDNSDeletions n ≡ₚ s_PendingDNSDeletions s;
}.

Section reordering.
Context {A : Type} (R : relation A).

Lemma reordered_map (f : A → A) l k : (∀ x, R x (f x)) → map f l ≡ₚ k → reordered R l k.
Proof. intros Hf Hk. exists (map f l). split; [|done]. clear Hk. induction l; constructor; auto. Qed.

Lemma reordered_refl l : (∀ x, R x x) → reordered R l l.
Proof. intros HR. exists l. split; [|done]. induction l; by constructor. Qed.

Lemma reordered_proper l l' k k' : l ≡ₚ l' → k ≡ₚ k' → reordered R l k → reordered R l' k'.
Proof.
  intros Hl Hk (m&HR&Hm). destruct (Permutation_Forall2 Hl HR) as (m'&Hp&HR').
  exists m'. split; [done|]. by rewrite <- Hp, Hm.
Qed.

Lemma reordered_app l l' k k' : reordered R l k → reordered R l' k' → reordered R (l ++ l') (k ++ k').
Proof. intros (m&?&Hm) (m'&?&Hm'). exists (m ++ m'). split; [by apply Forall2_app|by rewrite Hm, Hm']. Qed.
End reordering.

Lemma filter_map_comm {A : Type} (P : A → Prop) `{!∀ x, Decision (P x)} (f : A → A) l :
  (∀ x, P (f x) ↔ P x) → filter P (map f l) = map f (filter P l).
Proof.
  intros HP. induction l as [|x l IH]; [done|]. cbn [map]. destruct (decide (P x)) as [Hx|Hx].
  - rewrite !filter_cons_True by (done || by apply HP). cbn. by rewrite IH.
  - rewrite !filter_cons_False by (done || by rewrite HP). done.
Qed.

Lemma same_component_refl c : same_component c c.
Proof. split_and!; try done. by destruct c. Qed.
Lemma normalize_component_same c : same_component c (normalize_component c).
Proof. split_and!; try apply sort_strings_perm. done. Qed.
Lemma normalize_declaration_same d : same_declaration d (normalize_declaration d).
Proof. split_and!; try apply sort_by_perm. done. Qed.
Lemma same_config_refl c : same_config c c.
Proof. split; [done|]. by destruct c. Qed.

Lemma Normalize_same `{GoUnicode} s : same_site s (Normalize s).
Proof.
  constructor; cbn; try done; try apply stable_sort_perm.
  - split; [|done]. apply sort_strings_perm.
  - eapply reordered_proper; [apply sort_by_perm|done|]. apply (reordered_map _ normalize_component); [apply normalize_component_same|done].
  - intros name. destruct (decide (name = "tailnet-router")) as [->|].
    + rewrite lookup_alter_eq. destruct (s_ModuleConfig s !! _); constructor. split; [|done]. apply sort_strings_perm.
    + rewrite lookup_alter_ne by done. destruct (s_ModuleConfig s !! _); constructor. apply same_config_refl.
  - eapply reordered_proper; [apply sort_by_perm|done|]. apply (reordered_map _ normalize_declaration); [apply normalize_declaration_same|done].
Qed.

(** The components of the platform are the same ones. *)
Lemma normalized_platform `{GoUnicode} s : reordered same_component (PlatformComponents s) (PlatformComponents (Normalize s)).
Proof.
  unfold PlatformComponents. eapply reordered_proper; [symmetry; apply sort_by_perm..|]. cbn [s_Components s_Declarations Normalize].
  rewrite length_map, (Permutation_length (sort_by_perm md_Module (s_Declarations s))). apply reordered_app.
  - rewrite filter_map_comm by done. eapply reordered_proper; [|reflexivity|].
    2: { apply (reordered_map _ normalize_component); [apply normalize_component_same|reflexivity]. }
    by rewrite sort_by_perm.
  - rewrite map_map. eapply (reordered_proper _ _ _ (concat (map md_Guests (s_Declarations s)))); [done| |apply reordered_refl, same_component_refl].
    rewrite (concat_map_perm (λ d, md_Guests (normalize_declaration d)) md_Guests); [by rewrite sort_by_perm|]. intros d. apply sort_by_perm.
Qed.

(** C26. The canonical form of a validated site: normalising it again changes
    nothing; its zones are the six of the contract in the order of their VLANs;
    every field is kept, whole zones and components included, but for the order
    of the lists whose order means nothing ([same_site]); the platform's components
    are the same, but for the order of their aliases and tags, and come in the
    same order of names; and the operator's firewall rules mean what they
    meant. *)
Theorem Normalize_canonical `{GoUnicode, GoURL} s : Validate s = Ok tt →
  Normalize (Normalize s) = Normalize s
  ∧ map zone_key (n_Zones (s_Network (Normalize s))) = map zone_key default_zones
  ∧ same_site s (Normalize s)
  ∧ reordered same_component (PlatformComponents s) (PlatformComponents (Normalize s))
  ∧ map c_Name (PlatformComponents (Normalize s)) = map c_Name (PlatformComponents s)
  ∧ map rule_meaning (s_UserFirewallRules (Normalize s)) ≡ₚ map rule_meaning (s_UserFirewallRules s).
Proof.
  intros Hg%site_Validate_good. pose proof (vg_rules s Hg) as [Hl (ms&Hok)]%user_rules_spec. split_and!.
  - unfold Normalize at 1. cbn. rewrite (normalize_rules_idemp _ _ _ Hok), !sort_by_idemp, !sorted_map_idemp
      by (done || apply normalize_component_idemp || apply normalize_declaration_idemp).
    unfold sort_by2. rewrite !(stable_sort_idemp _). unfold normalize_gateway at 1. cbn. rewrite sort_strings_idemp.
    rewrite alter_alter_eq, (alter_ext _ sort_trusted_clients) by (intros; apply sort_trusted_clients_idemp). done.
  - by apply normalized_zones.
  - apply Normalize_same.
  - apply normalized_platform.
  - apply normalized_component_names.
  - destruct (normalized_rules_ok s _ ms Hok) as (ms'&Hp&Hok').
    cbn. rewrite (meanings_map _ _ (ro_meanings _ _ _ Hok)), (meanings_map _ _ (ro_meanings _ _ _ Hok')). by rewrite Hp.
Qed.

Theorem Normalize_canonical_witness : ∃ U : GoUnicode,
  Normalize (Normalize sample_rules_site) = Normalize sample_rules_site
  ∧ map fr_ID (s_UserFirewallRules (Normalize sample_rules_site)) ≠ map fr_ID (s_UserFirewallRules sample_rules_site).
Proof.
  exists ascii_only. split; [|by vm_compute]. by destruct (@Normalize_canonical ascii_only plain_url sample_rules_site sample_valid).
Defined.
End SiteNormalize.
