(* ===== verification/DnsPlan.v ===== *)
(** * The DNS plan ([internal/dns/dns.go])

    What the authoritative and the recursive servers of a site are configured
    with: the zones that DHCP updates, the static records of the platform, its
    modules and the operator, and the updates that a DHCP lease causes. *)

From S2P Require Export SiteNormalize.

Open Scope Z_scope.

Module DnsPlan.
Import Model SiteRules SiteValidate SiteNormalize.

(** ** Data *)

Definition AuthoritativeImplementation : string := "PowerDNS Authoritative".
Definition AuthoritativeVersion : string := "4.9.17".
Definition AuthoritativePackageVersion : string := "4.9.17-1pdns.trixie".
Definition AuthoritativePort : string := "5353".
Definition DNSResponseTimeoutMS : Z := 15000.
Definition ConflictPolicy : string := "reject-new-active-lease".
Definition TSIGSecretReference : string := "secrets/boetticher.sops.yaml#ddns_tsig_secret".
Definition PublicUpstreams : list string := ["https://cloudflare-dns.com/dns-query"; "https://dns.google/dns-query"].

Record DynamicZone := mkDynamicZone { dz_Name : string; dz_SourceZone : string; dz_Network : string; dz_Gateway : string }.
Record ReverseZone := mkReverseZone { rz_Name : string; rz_Network : string }.
Record StaticRecord := mkStatic { sr_Name : string; sr_Type : string; sr_Value : string; sr_Owner : string }.
Record DDNSZone := mkDDNSZone { dd_SourceZone : string; dd_ForwardZone : string; dd_ReverseZone : string; dd_TSIGKeyName : string }.

Record DDNSPlan := mkDDNSPlan {
  dp_Enabled : bool;
  dp_Source : string;
  dp_UpdateTarget : string;
  dp_DNSResponseTimeoutMS : Z;
  dp_UpdateSources : list string;
  dp_TSIGSecretReference : string;
  dp_ConflictPolicy : string;
  dp_LeaseFailurePolicy : string;
  dp_Replication : string;
  dp_TSIGAlgorithm : string;
  dp_Zones : list DDNSZone;
}.

Record Plan := mkPlan {
  pl_ModelRevision : string;
  pl_Implementation : string;
  pl_ImplementationVersion : string;
  pl_PackageVersion : string;
  pl_AuthoritativePort : string;
  pl_AuthoritativeListenAddresses : list string;
  pl_AuthoritativeForwardTarget : string;
  pl_StaticZone : string;
  pl_Nameservers : list string;
  pl_DynamicZones : list DynamicZone;
  pl_ReverseZones : list ReverseZone;
  pl_StaticRecords : list StaticRecord;
  pl_PendingDeletions : list DNSDeletion;
  pl_DDNS : DDNSPlan;
  pl_RecursiveImplementation : string;
  pl_RecursiveUpstreams : list string;
  pl_AuthoritativeForwardZones : list string;
  pl_AuthoritativeReverseZones : list string;
  pl_AuthoritativeNXDOMAINNoLeak : bool;
}.

Record Lease := mkLease { le_LeaseID : string; le_Name : string; le_Address : string; le_State : string; le_Active : bool }.
Record RecordUpdate := mkUpdate {
  up_Action : string;
  up_ForwardName : string;
  up_ReverseName : string;
  up_Address : string;
  up_Zone : string;
  up_LeaseID : string;
}.

Inductive DNSError :=
| InvalidSite (e : SiteError)
| DuplicateStatic (name : string) | DuplicateAlias (name : string) | ComponentURL (component : string)
| ModuleRecord (module name : string) | UserRecord (name : string)
| UnknownDynamicZone (zone : string) | EmptyHostname | UnsafeHostname (raw : string) | PlatformOwned (label : string)
| LeaseIDRequired | LeaseOutsideZone (address : string) | LeaseConflict (existing incoming : Lease).

Section dns.
Context `{GoUnicode, GoURL, SiteDigest}.

(** ** Names *)

Definition TSIGKeyName (sourceZone domain : string) : string :=
  to_lower (trim_suffix sourceZone ".") +:+ ".ddns." +:+ to_lower (trim_suffix domain ".").

(** The octets of an address, last one first, from the octet [from] on. *)
Definition reverse_octets (a : Addr) (from : list Z) : string := join (map (fun i => itoa (octet a i)) from ++ ["in-addr.arpa"]) ".".

Definition reverseZone (network : string) : string :=
  match net_parse_cidr network with
  | Some (CIDR4 base false) => if p_bits base =? 24 then reverse_octets (p_addr base) [2; 1; 0] else ""
  | _ => ""
  end.

Definition reverseName (address : string) : string :=
  match parse_to4 address with Some ip => reverse_octets ip [3; 2; 1; 0] | None => "" end.

Definition clientLabel (raw : string) : result DNSError string :=
  let value := to_lower (trim_suffix (trim_space raw) ".") in
  _ ← fail_if (value == "") EmptyHostname;
  let parts := split value "." in
  _ ← fail_if (negb (forallb IsDNSLabel parts)) (UnsafeHostname raw);
  Ok (hd "" parts).

(** ** Static records *)

Definition bare_name (name : string) : string := to_lower (trim_suffix name ".").

(** [add]: a name that is there already must be asked for with the same type
    and value. *)
Definition add_record (st : gmap string StaticRecord * list StaticRecord) (candidate : StaticRecord)
    : result string (gmap string StaticRecord * list StaticRecord) :=
  let '(seen, records) := st in
  let name := bare_name (sr_Name candidate) in
  let candidate := mkStatic name (sr_Type candidate) (sr_Value candidate) (sr_Owner candidate) in
  match seen !! name with
  | Some existing =>
      if (sr_Type existing != sr_Type candidate) || (sr_Value existing != sr_Value candidate) then Err name
      else Ok (seen, records)
  | None => Ok (<[name := candidate]> seen, records ++ [candidate])
  end.

Definition component_owner (c : Component) : string := if c_Module c != "" then "module:" +:+ c_Module c else "core".

Definition address_record (c : Component) (name : string) : StaticRecord := mkStatic name "A" (c_Address c) (component_owner c).
Definition in_domain (s : Site) (name : string) : string := to_lower (name +:+ "." +:+ n_Domain (s_Network s)).

Definition component_records (s : Site) (st : gmap string StaticRecord * list StaticRecord) (c : Component)
    : result DNSError (gmap string StaticRecord * list StaticRecord) :=
  st ← wrap DuplicateStatic (add_record st (address_record c (in_domain s (c_Hostname c))));
  st ← foldM (fun st alias => wrap DuplicateAlias (add_record st (address_record c (in_domain s alias)))) st (c_DNSAliases c);
  if c_URL c != "" then
    match parse_url (c_URL c) with
    | None => Err (ComponentURL (c_Name c))
    | Some parsed =>
        let host := to_lower (url_Hostname parsed) in
        if has_suffix host ("." +:+ to_lower (n_Domain (s_Network s)))
        then wrap (fun _ => ComponentURL (c_Name c)) (add_record st (address_record c host))
        else Ok st
    end
  else Ok st.

Definition declared_record (module : string) (r : ModuleDNSRecord) : StaticRecord :=
  mkStatic (mr_Name r) (mr_Type r) (mr_Address r) ("module:" +:+ module).

Definition user_record (r : UserDNSRecord) : StaticRecord := mkStatic (ud_Name r) (ud_Type r) (ud_Value r) "user".

Definition declared_records (st : gmap string StaticRecord * list StaticRecord) (d : ModuleDeclaration)
    : result DNSError (gmap string StaticRecord * list StaticRecord) :=
  foldM (fun st r => wrap (ModuleRecord (md_Module d)) (add_record st (declared_record (md_Module d) r))) st (md_DNSRecords d).

(** The loops of [staticRecords], before the sort. *)
Definition collect_records (s : Site) : result DNSError (gmap string StaticRecord * list StaticRecord) :=
  st ← foldM (component_records s) (∅, []) (PlatformComponents s);
  st ← foldM declared_records st (s_Declarations s);
  foldM (fun st r => wrap UserRecord (add_record st (user_record r))) st (s_DNSRecords (Normalize s)).

Definition staticRecords (s : Site) : result DNSError (list StaticRecord) :=
  st ← collect_records s;
  Ok (sort_by sr_Name st.2).

(** ** Deletions that are still to be made *)

Definition deletion_key (name type : string) : string := bare_name name +:+ String "000" type.

Definition deletion_step (present owned : gset string) (st : gset string * list DNSDeletion) (d : DNSDeletion)
    : gset string * list DNSDeletion :=
  let name := bare_name (dd_Name d) in
  let key := deletion_key (dd_Name d) (dd_Type d) in
  if bool_decide (key ∈ present) || bool_decide (name ∈ owned) || bool_decide (key ∈ st.1) then st
  else ({[key]} ∪ st.1, st.2 ++ [mkDeletion name (dd_Type d)]).

Definition pendingDeletions (s : Site) (static : list StaticRecord) : list DNSDeletion :=
  let present := list_to_set (map (fun r => deletion_key (ud_Name r) (ud_Type r)) (s_DNSRecords s)) in
  let owned := list_to_set (map (fun r => bare_name (sr_Name r)) (List.filter (fun r => sr_Owner r != "user") static)) in
  sort_by2 dd_Name dd_Type (foldl (deletion_step present owned) (∅, []) (s_PendingDNSDeletions s)).2.

(** ** The plan *)

Definition dynamic_zone (s : Site) (z : Zone) : DynamicZone :=
  mkDynamicZone (to_lower (z_Name z) +:+ "." +:+ n_Domain (s_Network s)) (z_Name z) (z_Network z) (z_Gateway z).

Definition ddns_zone (s : Site) (z : Zone) : DDNSZone :=
  mkDDNSZone (z_Name z) (dz_Name (dynamic_zone s z)) (reverseZone (z_Network z)) (TSIGKeyName (z_Name z) (n_Domain (s_Network s))).

Definition ddns_plan (external : bool) (zones : list DDNSZone) : DDNSPlan := {|
  dp_Enabled := negb external;
  dp_Source := if external then "External DHCP/DDNS contract" else "Kea D2 on lab-fw-01";
  dp_UpdateTarget := "10.10.10.10:" +:+ AuthoritativePort;
  dp_DNSResponseTimeoutMS := DNSResponseTimeoutMS;
  dp_UpdateSources := if external then [] else ["10.10.10.1"];
  dp_TSIGSecretReference := TSIGSecretReference;
  dp_ConflictPolicy := ConflictPolicy;
  dp_LeaseFailurePolicy := if external then "external DHCP may omit automatic workload registration"
                           else "lease-continues-without-DNS-registration";
  dp_Replication := "single authoritative lab-dns-01 service on port " +:+ AuthoritativePort;
  dp_TSIGAlgorithm := "hmac-sha256";
  dp_Zones := zones;
|}.

(** The zones that DHCP clients register in. *)
Definition client_zones (s : Site) : list Zone := List.filter (fun z => is_user_zone (z_Type z)) (n_Zones (s_Network (Normalize s))).

Definition PlanFromSite (s : Site) : result DNSError Plan :=
  _ ← wrap InvalidSite (Validate s);
  revision ← wrap InvalidSite (Revision s);
  let zones := client_zones s in
  let dynamic := map (dynamic_zone s) zones in
  let reverse := map (fun z => mkReverseZone (reverseZone (z_Network z)) (z_Network z)) zones in
  static ← staticRecords s;
  Ok {|
    pl_ModelRevision := revision;
    pl_Implementation := AuthoritativeImplementation;
    pl_ImplementationVersion := AuthoritativeVersion;
    pl_PackageVersion := AuthoritativePackageVersion;
    pl_AuthoritativePort := AuthoritativePort;
    pl_AuthoritativeListenAddresses := ["127.0.0.1"; "10.10.10.10"];
    pl_AuthoritativeForwardTarget := "127.0.0.1:" +:+ AuthoritativePort;
    pl_StaticZone := n_Domain (s_Network s);
    pl_Nameservers := ["10.10.10.10"];
    pl_DynamicZones := dynamic;
    pl_ReverseZones := reverse;
    pl_StaticRecords := static;
    pl_PendingDeletions := pendingDeletions s static;
    pl_DDNS := ddns_plan (gw_Mode (s_Gateway s) == "external") (map (ddns_zone s) zones);
    pl_RecursiveImplementation := "blocky";
    pl_RecursiveUpstreams := PublicUpstreams;
    pl_AuthoritativeForwardZones := n_Domain (s_Network s) :: sort_strings (map dz_Name dynamic);
    pl_AuthoritativeReverseZones := sort_strings (map rz_Name reverse);
    pl_AuthoritativeNXDOMAINNoLeak := true;
  |}.

(** ** Leases *)

Definition zoneFor (s : Site) (name : string) : result DNSError DynamicZone :=
  plan ← PlanFromSite s;
  match List.find (fun z => dz_SourceZone z == name) (pl_DynamicZones plan) with
  | Some z => Ok z
  | None => Err (UnknownDynamicZone name)
  end.

(** A label may not be the first label, nor the name the name, of a record
    that is not the operator's. *)
Definition platform_label (label name : string) (r : StaticRecord) : bool :=
  (sr_Owner r != "user") && ((sr_Name r == name) || (hd "" (split (sr_Name r) ".") == label)).

Definition QualifiedName (s : Site) (zoneName raw : string) : result DNSError string :=
  plan ← PlanFromSite s;
  match List.find (fun z => dz_SourceZone z == zoneName) (pl_DynamicZones plan) with
  | Some zone =>
      _ ← fail_if (dz_Name zone == "") (UnknownDynamicZone zoneName);
      label ← clientLabel raw;
      let name := label +:+ "." +:+ dz_Name zone in
      _ ← fail_if (existsb (platform_label label name) (pl_StaticRecords plan)) (PlatformOwned label);
      Ok name
  | None => Err (UnknownDynamicZone zoneName)
  end.

Definition ipInNetwork (ip : Addr) (network : string) : bool :=
  match net_parse_cidr network with Some subnet => cidr_contains subnet ip | None => false end.

Definition lease_gone (l : Lease) : bool := (le_State l == "released") || (le_State l == "expired") || negb (le_Active l).

Definition BuildLeaseUpdate (s : Site) (zoneName : string) (lease : Lease) : result DNSError RecordUpdate :=
  _ ← fail_if (le_LeaseID lease == "") LeaseIDRequired;
  zone ← zoneFor s zoneName;
  name ← QualifiedName s zoneName (le_Name lease);
  if lease_gone lease then
    Ok (mkUpdate "delete" name (reverseName (le_Address lease)) (le_Address lease) (dz_Name zone) (le_LeaseID lease))
  else
    match parse_to4 (le_Address lease) with
    | Some ip =>
        _ ← fail_if (negb (ipInNetwork ip (dz_Network zone))) (LeaseOutsideZone (le_Address lease));
        Ok (mkUpdate "upsert" name (reverseName (le_Address lease)) (addr_string ip) (dz_Name zone) (le_LeaseID lease))
    | None => Err (LeaseOutsideZone (le_Address lease))
    end.

Definition BuildLeaseReplacement (s : Site) (zoneName : string) (previous current : Lease) : result DNSError (list RecordUpdate) :=
  if (le_LeaseID previous != "")
     && ((le_LeaseID previous != le_LeaseID current) || (le_Address previous != le_Address current) || (le_Name previous != le_Name current))
  then
    old ← BuildLeaseUpdate s zoneName (mkLease (le_LeaseID previous) (le_Name previous) (le_Address previous) "released" false);
    new ← BuildLeaseUpdate s zoneName current;
    Ok [old; new]
  else
    update ← BuildLeaseUpdate s zoneName current;
    Ok [update].

(** The decision; a rejection comes with an error. *)
Definition ResolveConflict (existing incoming : Lease) : string * option DNSError :=
  if le_LeaseID existing == "" then ("accept", None)
  else if le_LeaseID existing == le_LeaseID incoming then ("update", None)
  else if le_Active existing && le_Active incoming then ("reject", Some (LeaseConflict existing incoming))
  else ("replace", None).

(** ** Lemmas on static records *)

(** Everything the records are made of, in order. *)
Definition bare_record (r : StaticRecord) : StaticRecord := mkStatic (bare_name (sr_Name r)) (sr_Type r) (sr_Value r) (sr_Owner r).

Definition url_host (s : Site) (c : Component) : list string :=
  if c_URL c != "" then
    match parse_url (c_URL c) with
    | Some parsed => if has_suffix (to_lower (url_Hostname parsed)) ("." +:+ to_lower (n_Domain (s_Network s)))
                     then [to_lower (url_Hostname parsed)] else []
    | None => []
    end
  else [].

Definition component_requests (s : Site) (c : Component) : list StaticRecord :=
  map (address_record c) ([in_domain s (c_Hostname c)] ++ map (in_domain s) (c_DNSAliases c) ++ url_host s c).

Definition requests (s : Site) : list StaticRecord :=
  flat_map (component_requests s) (PlatformComponents s)
  ++ flat_map (fun d => map (declared_record (md_Module d)) (md_DNSRecords d)) (s_Declarations s)
  ++ map user_record (s_DNSRecords (Normalize s)).

Record static_ok (qs : list StaticRecord) (st : gmap string StaticRecord * list StaticRecord) : Prop := {
  so_names : NoDup (map sr_Name st.2);
  so_seen : ∀ r, r ∈ st.2 ↔ st.1 !! sr_Name r = Some r;
  so_key : ∀ n r, st.1 !! n = Some r → sr_Name r = n;
  so_asked : ∀ r, r ∈ st.2 → r ∈ map bare_record qs;
  so_answered : ∀ q, q ∈ qs → ∃ r, r ∈ st.2 ∧ sr_Name r = bare_name (sr_Name q) ∧ sr_Type r = sr_Type q ∧ sr_Value r = sr_Value q;
}.

Lemma static_ok_nil : static_ok [] (∅, []).
Proof. constructor; cbn; [constructor|..]; try by intros *; rewrite ?lookup_empty, ?elem_of_nil. Qed.

(** Two requests for one name that do not agree. *)
Definition clash (qs : list StaticRecord) : Prop :=
  ∃ q1 q2, q1 ∈ qs ∧ q2 ∈ qs ∧ bare_name (sr_Name q1) = bare_name (sr_Name q2)
    ∧ (sr_Type q1 ≠ sr_Type q2 ∨ sr_Value q1 ≠ sr_Value q2).

Lemma add_record_ok qs st q : static_ok qs st →
  match add_record st q with Ok st' => static_ok (qs ++ [q]) st' | Err _ => clash (qs ++ [q]) end.
Proof.
  destruct st as [seen records]. intros [Hn Hs Hk Ha Hq]. unfold add_record. cbn [fst snd] in *.
  destruct (seen !! bare_name (sr_Name q)) as [existing|] eqn:E.
  - pose proof (Hk _ _ E) as En. destruct (_ || _) eqn:Ec.
    { assert (existing ∈ map bare_record qs) as (q'&->&Hq')%list_elem_of_fmap by (apply Ha, Hs; by rewrite En).
      exists q', q. split_and!; [set_solver..|done|]. apply orb_true_iff in Ec as [Ec|Ec]; bools; auto. }
    bools.
    constructor; cbn [fst snd]; [done..| |].
    + intros r Hr. rewrite map_app. apply elem_of_app. left. by apply Ha.
    + intros x [Hx| ->%list_elem_of_singleton]%elem_of_app; [by apply Hq|]. exists existing. split_and!; try done.
      apply Hs. by rewrite En.
  - set (new := mkStatic _ _ _ _). constructor; cbn [fst snd].
    + rewrite map_app. apply NoDup_snoc; [done|]. cbn. intros (r&En&Hr)%list_elem_of_fmap. apply Hs in Hr. congruence.
    + intros r. rewrite elem_of_app, list_elem_of_singleton. destruct (decide (sr_Name r = bare_name (sr_Name q))) as [En|Hne].
      * rewrite En, lookup_insert_eq. split; [intros [Hr| ->]; [apply Hs in Hr; congruence|done]|intros [= ->]; by right].
      * rewrite lookup_insert_ne by done. rewrite <- Hs. split; [intros [?| ->]; [done|by destruct Hne]|by left].
    + intros n r. destruct (decide (n = bare_name (sr_Name q))) as [->|]; [rewrite lookup_insert_eq; by intros [= <-]|].
      rewrite lookup_insert_ne by done. apply Hk.
    + intros r. rewrite elem_of_app, map_app, elem_of_app, !list_elem_of_singleton. intros [Hr| ->]; [left; by apply Ha|right; by apply list_elem_of_singleton].
    + intros x [Hx| ->%list_elem_of_singleton]%elem_of_app.
      * destruct (Hq x Hx) as (r&Hr&?). exists r. split; [|done]. apply elem_of_app. by left.
      * exists new. split; [|done]. apply elem_of_app. right. by apply list_elem_of_singleton.
Qed.

(** The outcome of asking for the requests [qs], in a site with the requests
    [all] and the components [cs]. *)
Definition bad_url (cs : list Component) : Prop := ∃ c, c ∈ cs ∧ c_URL c ≠ "" ∧ parse_url (c_URL c) = None.

Definition answers {E : Type} (all : list StaticRecord) (cs : list Component) (qs : list StaticRecord)
    (r : result E (gmap string StaticRecord * list StaticRecord)) : Prop :=
  match r with Ok st => static_ok qs st | Err _ => clash all ∨ bad_url cs end.

Lemma clash_weaken qs all : qs ⊆ all → clash qs → clash all.
Proof. intros Hs (q1&q2&Hq1&Hq2&?&?). exists q1, q2. split_and!; auto. Qed.

Lemma answers_add {E : Type} all cs qs st q (f : string → E) : static_ok qs st → qs ++ [q] ⊆ all →
  answers all cs (qs ++ [q]) (wrap f (add_record st q)).
Proof.
  intros Hqs Hall. pose proof (add_record_ok qs st q Hqs) as Hadd. destruct (add_record st q); cbn; [done|]. left.
  by eapply clash_weaken.
Qed.

Lemma answers_records {A E : Type} all cs (f : A → StaticRecord) (wrap_error : string → E) xs qs st :
  static_ok qs st → qs ++ map f xs ⊆ all →
  answers all cs (qs ++ map f xs) (foldM (fun st x => wrap wrap_error (add_record st (f x))) st xs).
Proof.
  intros Hqs Hall. apply (foldM_cases _ (fun dn st => static_ok (qs ++ map f dn) st)); [by rewrite app_nil_r|].
  intros dn x s1 Hok (rest&->). rewrite !map_app in *. cbn [map] in *.
  assert ((qs ++ map f dn) ++ [f x] ⊆ all) as Hsub by set_solver. rewrite app_assoc.
  by apply (answers_add all cs _ _ _ wrap_error).
Qed.

Lemma answers_bind {E : Type} all cs qs qs' (r : result E _) k : answers all cs qs r →
  (∀ st, static_ok qs st → answers all cs qs' (k st)) → answers all cs qs' (r ≫= k).
Proof. intros Hr Hk. destruct r; cbn in *; [by apply Hk|done]. Qed.

Lemma answers_component s all cs qs st c : static_ok qs st → qs ++ component_requests s c ⊆ all → c ∈ cs →
  answers all cs (qs ++ component_requests s c) (component_records s st c).
Proof.
  intros Hqs Hall Hc. unfold component_records, component_requests in *. rewrite !map_app, map_map in *. cbn [map] in *.
  eapply answers_bind. { apply answers_add; [exact Hqs|set_solver]. }
  cbn beta. intros st1 Hst1. eapply answers_bind.
  { apply (answers_records _ _ (fun alias => address_record c (in_domain s alias))); [exact Hst1|set_solver]. }
  cbn beta. intros st2 Hst2. rewrite !app_assoc in *. unfold url_host in *.
  destruct (c_URL c != "") eqn:Eu; [|cbn; by rewrite app_nil_r].
  destruct (parse_url (c_URL c)) as [parsed|] eqn:Ep; [|right; exists c; bools; by split_and!].
  destruct (has_suffix _ _); [|cbn; by rewrite app_nil_r]. by apply answers_add.
Qed.

(** A loop over things that each ask for some requests. *)
Lemma answers_loop {A E : Type} all cs (f : gmap string StaticRecord * list StaticRecord → A → result E _) (g : A → list StaticRecord) xs qs st :
  static_ok qs st → qs ++ flat_map g xs ⊆ all →
  (∀ qs st x, static_ok qs st → qs ++ g x ⊆ all → x ∈ xs → answers all cs (qs ++ g x) (f st x)) →
  answers all cs (qs ++ flat_map g xs) (foldM f st xs).
Proof.
  intros Hqs Hall Hf. apply (foldM_cases f (fun dn st => static_ok (qs ++ flat_map g dn) st)); [by rewrite app_nil_r|].
  intros dn x s1 Hs1 (rest&E'). rewrite E', !flat_map_app in *. cbn [flat_map] in *. rewrite app_nil_r, app_assoc in *.
  apply Hf; [done|set_solver..].
Qed.

Lemma staticRecords_answers s : answers (requests s) (PlatformComponents s) (requests s) (collect_records s).
Proof.
  unfold collect_records. set (all := requests s). set (cs := PlatformComponents s).
  set (q1 := flat_map (component_requests s) cs). set (q3 := map user_record (s_DNSRecords (Normalize s))).
  set (q2 := flat_map (fun d => map (declared_record (md_Module d)) (md_DNSRecords d)) (s_Declarations s)).
  assert (all = q1 ++ q2 ++ q3) as -> by done.
  eapply (answers_bind _ _ ([] ++ q1)).
  { apply answers_loop; [apply static_ok_nil|set_solver|]. intros qs st c Hst Hsub Hc. by apply answers_component. }
  cbn beta. intros st1 Hst1. eapply (answers_bind _ _ (q1 ++ q2)).
  { apply answers_loop; [exact Hst1|set_solver|]. intros qs st d Hst Hsub _. by apply answers_records. }
  cbn beta. intros st2 Hst2. rewrite app_assoc in *. apply answers_records; [exact Hst2|done].
Qed.

(** No component is passed whose URL cannot be parsed. *)
Lemma component_records_url s st c st' : component_records s st c = Ok st' → c_URL c ≠ "" → parse_url (c_URL c) ≠ None.
Proof.
  unfold component_records. intros Hc Hu. apply bind_ok in Hc as (st1&_&Hc). apply bind_ok in Hc as (st2&_&Hc).
  rewrite bool_decide_eq_false_2 in Hc by done. by destruct (parse_url (c_URL c)).
Qed.

Lemma collect_records_urls s st : collect_records s = Ok st → ¬ bad_url (PlatformComponents s).
Proof.
  unfold collect_records. intros (st1&Hc&_)%bind_ok (c&Hin&Hu&Hp).
  assert (Forall (fun c => c_URL c ≠ "" → parse_url (c_URL c) ≠ None) (PlatformComponents s)) as Hall.
  { refine (foldM_inv _ (fun dn _ => Forall _ dn) _ _ _ (Forall_nil_2 _) _ Hc). intros dn x s1 s2 Hdn _ Hx.
    apply Forall_app_2; [done|]. apply Forall_singleton. by eapply component_records_url. }
  rewrite Forall_forall in Hall. by eapply Hall.
Qed.

(** ** Lemmas on leases *)

(** What an update for a lease in a zone may do. *)
Record update_sound (s : Site) (zoneName : string) (lease : Lease) (u : RecordUpdate) : Prop := {
  us_zone : ∃ z, z ∈ n_Zones (s_Network s) ∧ is_user_zone (z_Type z) = true ∧ z_Name z = zoneName
    ∧ up_Zone u = to_lower zoneName +:+ "." +:+ n_Domain (s_Network s)
    ∧ (up_Action u = "upsert" → ∃ ip, parse_to4 (le_Address lease) = Some ip ∧ up_Address u = addr_string ip
         ∧ ipInNetwork ip (z_Network z) = true ∧ up_ReverseName u = reverse_octets ip [3; 2; 1; 0]);
  us_name : ∃ label records, up_ForwardName u = label +:+ "." +:+ up_Zone u ∧ IsDNSLabel label = true
    ∧ staticRecords s = Ok records
    ∧ ∀ r, r ∈ records → sr_Owner r ≠ "user" → sr_Name r ≠ up_ForwardName u ∧ hd "" (split (sr_Name r) ".") ≠ label;
  us_action : up_Action u = if lease_gone lease then "delete" else "upsert";
  us_lease : up_LeaseID u = le_LeaseID lease ∧ le_LeaseID lease ≠ "";
}.

Lemma PlanFromSite_fields s plan : PlanFromSite s = Ok plan →
  pl_DynamicZones plan = map (dynamic_zone s) (client_zones s) ∧ staticRecords s = Ok (pl_StaticRecords plan).
Proof.
  unfold PlanFromSite. intros Hp. apply bind_ok in Hp as ([]&_&Hp). apply bind_ok in Hp as (revision&_&Hp).
  apply bind_ok in Hp as (static&Hs&Hp). by injection Hp as <-.
Qed.

Lemma client_zone s name dz : List.find (fun z => dz_SourceZone z == name) (map (dynamic_zone s) (client_zones s)) = Some dz →
  ∃ z, z ∈ n_Zones (s_Network s) ∧ is_user_zone (z_Type z) = true ∧ z_Name z = name ∧ dz = dynamic_zone s z.
Proof.
  intros (Hin&Hn)%find_some. bools. apply list_elem_of_In, list_elem_of_fmap in Hin as (z&->&Hz).
  apply list_elem_of_In, filter_In in Hz as [Hz Hu]. exists z. split_and!; try done.
  apply list_elem_of_In in Hz. cbn in Hz. by rewrite stable_sort_perm in Hz.
Qed.

Lemma clientLabel_label raw label : clientLabel raw = Ok label → IsDNSLabel label = true.
Proof.
  unfold clientLabel. intros Hc. apply bind_ok in Hc as ([]&_&Hc). apply bind_ok in Hc as ([]&Hl%fail_if_ok&Hc).
  injection Hc as <-. apply negb_false_iff in Hl. destruct (split _ _) as [|p ps] eqn:E; [by apply split_nonempty in E|].
  cbn in *. by apply andb_true_iff in Hl as [? _].
Qed.

Lemma QualifiedName_sound s zoneName raw name : QualifiedName s zoneName raw = Ok name →
  ∃ label records, name = label +:+ "." +:+ (to_lower zoneName +:+ "." +:+ n_Domain (s_Network s)) ∧ IsDNSLabel label = true
    ∧ staticRecords s = Ok records
    ∧ ∀ r, r ∈ records → sr_Owner r ≠ "user" → sr_Name r ≠ name ∧ hd "" (split (sr_Name r) ".") ≠ label.
Proof.
  unfold QualifiedName. intros Hq. apply bind_ok in Hq as (plan&Hp&Hq). apply PlanFromSite_fields in Hp as [Hz Hs]. rewrite Hz in Hq.
  destruct (List.find _ _) as [zone|] eqn:Ez; [|done]. apply client_zone in Ez as (z&_&_&<-&->).
  apply bind_ok in Hq as ([]&_&Hq). apply bind_ok in Hq as (label&Hl%clientLabel_label&Hq).
  apply bind_ok in Hq as ([]&Hn%fail_if_ok&[= <-]). exists label, (pl_StaticRecords plan). split_and!; try done.
  intros r Hr Ho. apply not_true_iff_false in Hn. rewrite existsb_exists in Hn.
  split; intros E; apply Hn; exists r; (split; [by apply list_elem_of_In|]); apply andb_true_iff;
    (split; [by apply negb_true_iff, bool_decide_eq_false|]); apply orb_true_iff; rewrite !bool_decide_eq_true; auto.
Qed.

Lemma BuildLeaseUpdate_sound s zoneName lease u : BuildLeaseUpdate s zoneName lease = Ok u → update_sound s zoneName lease u.
Proof.
  unfold BuildLeaseUpdate. intros Hb. apply bind_ok in Hb as ([]&Hid%fail_if_ok&Hb). bools.
  apply bind_ok in Hb as (dz&Hzone&Hb). apply bind_ok in Hb as (name&Hname%QualifiedName_sound&Hb).
  unfold zoneFor in Hzone. apply bind_ok in Hzone as (plan&[Hz _]%PlanFromSite_fields&Hzone). rewrite Hz in Hzone.
  destruct (List.find _ _) as [z'|] eqn:Ez; [|done]. injection Hzone as ->. apply client_zone in Ez as (z&Hin&Hu&<-&->).
  destruct (lease_gone lease) eqn:Eg.
  - injection Hb as <-. constructor; cbn; rewrite ?Eg; try done. by exists z.
  - destruct (parse_to4 (le_Address lease)) as [ip|] eqn:Ep; [|done]. apply bind_ok in Hb as ([]&Hnet%fail_if_ok&Hb).
    injection Hb as <-. apply negb_false_iff in Hnet. constructor; cbn; rewrite ?Eg; try done.
    exists z. split_and!; try done. intros _. exists ip. split_and!; try done. unfold reverseName. by rewrite Ep.
Qed.
End dns.

(** C24. The static records are exact.  When they can be made they have distinct
    names, sorted; every name that a component, a module or the operator asks
    for is there, with the type and the value asked for; nothing else is there;
    no two requests contradict each other; and every component's URL could be
    parsed.  They cannot be made exactly if two requests for one name do contradict
    each other or a component's URL cannot be parsed. *)
Theorem staticRecords_exact `{GoUnicode, GoURL} s :
  match staticRecords s with
  | Ok records =>
      NoDup (map sr_Name records) ∧ Sorted String.le (map sr_Name records)
      ∧ (∀ q, q ∈ requests s → ∃ r, r ∈ records ∧ sr_Name r = bare_name (sr_Name q) ∧ sr_Type r = sr_Type q ∧ sr_Value r = sr_Value q)
      ∧ (∀ r, r ∈ records → ∃ q, q ∈ requests s ∧ r = bare_record q)
      ∧ ¬ clash (requests s) ∧ ¬ bad_url (PlatformComponents s)
  | Err _ => clash (requests s) ∨ bad_url (PlatformComponents s)
  end.
Proof.
  unfold staticRecords. pose proof (staticRecords_answers s) as Ha.
  pose proof (collect_records_urls s) as Hurl. destruct (collect_records s) as [st|]; cbn in *; [|done].
  destruct Ha as [Hn Hseen Hk Hasked Hall]. assert (∀ x, x ∈ sort_by sr_Name st.2 ↔ x ∈ st.2) as Hin by (intros; apply elem_of_sort_by).
  split_and!.
  - by rewrite sort_by_perm.
  - eapply (Sorted_fmap sr_Name (key_le sr_Name)); [done|apply sort_by_sorted].
  - intros q (r&Hr&?)%Hall. exists r. split; [by apply Hin|done].
  - intros r Hr%Hin%Hasked. apply list_elem_of_fmap in Hr as (q&->&Hq). by exists q.
  - intros (q1&q2&(r1&Hr1&E1&Ht1&Hv1)%Hall&(r2&Hr2&E2&Ht2&Hv2)%Hall&E&Hne).
    assert (r1 = r2) as -> by (eapply (NoDup_map_inj sr_Name); [exact Hn|done..|congruence]). destruct Hne; congruence.
  - by eapply Hurl.
Qed.


Definition sample_digest : SiteDigest := {| marshal_site _ := "{}"; site_sha256_hex s := s |}.

Example plan_ex (U := ascii_only) (P := plain_url) (D := sample_digest) :
  match PlanFromSite sample_rules_site with
  | Ok plan => map dz_Name (pl_DynamicZones plan) = ["servers.lab.home.arpa"; "trusted.lab.home.arpa"; "sandbox.lab.home.arpa"]
      ∧ map rz_Name (pl_ReverseZones plan) = ["20.10.10.in-addr.arpa"; "30.10.10.in-addr.arpa"; "40.10.10.in-addr.arpa"]
      ∧ map sr_Name (pl_StaticRecords plan) = ["dash.lab.home.arpa"; "dns.lab.home.arpa"; "dns01.lab.home.arpa";
          "grafana.lab.home.arpa"; "lab-dns-01.lab.home.arpa"; "lab-fw-01.lab.home.arpa"; "lab-monitor-01.lab.home.arpa";
          "lab-proxmox-01.lab.home.arpa"; "monitor.lab.home.arpa"; "proxmox.lab.home.arpa"; "www.lab.home.arpa"]
  | Err _ => False
  end.
Proof. by vm_compute. Qed.

End DnsPlan.
