(* ===== verification/GwPlan.v ===== *)
(** * The gateway plan ([internal/firewall/plan.go], the plan itself;
    telemetry_contract.go, [model.TrustedLabServices], [network.ManagedModuleMAC])

    From a validated site to the policy of the Debian gateway: its interfaces,
    the ordered rules of the platform, the modules and the operator, the DHCP
    subnets, the policy routes, and the checks on what is only known at run time
    (the upstream lease and the endpoint of the VPN provider). *)

From S2P Require Export DnsPlan.

Open Scope Z_scope.

Module GwPlan.
Import Model SiteRules SiteValidate SiteNormalize DnsPlan.

(** ** Data *)

Definition StepCAPort : string := "9443".
Definition TransitGateway : string := "10.10.5.1".

Record Interface := mkInterface {
  if_Role : string;
  if_Name : string;
  if_MAC : string;
  if_Bridge : string;
  if_VLAN : Z;
  if_Address : string;
  if_Method : string;
}.

Record PolicyRule := mkRule {
  pr_Sequence : Z;
  pr_Name : string;
  pr_From : string;
  pr_To : string;
  pr_Action : string;
  pr_Protocol : string;
  pr_Ports : list string;
  pr_Counter : string;
  pr_LogPrefix : string;
  pr_NAT : bool;
  pr_Route : string;
  pr_Description : string;
  pr_SourceCIDR : string;
  pr_DestinationCIDR : string;
  pr_DestinationHost : string;
  pr_SourceMAC : string;
  pr_UserRuleID : string;
}.

Record AirVPNProfile := mkProfile {
  av_EndpointHost : string;
  av_EndpointPort : Z;
  av_TunnelAddress : string;
  av_EndpointAddresses : list string;
  av_SHA256 : string;
}.

Record PolicyRouteEntry := mkRouteEntry { re_Destination : string; re_Gateway : string; re_Interface : string }.
Record PolicyRoute := mkRoute {
  rt_SourceCIDR : string;
  rt_Table : Z;
  rt_Priority : Z;
  rt_DefaultGateway : string;
  rt_DefaultInterface : string;
  rt_InternalRoutes : list PolicyRouteEntry;
}.

Record SubnetReservation := mkSubnetReservation {
  sv_Hostname : string;
  sv_Address : string;
  sv_MAC : string;
  sv_DNSOverride : string;
  sv_NTPOverride : string;
}.

Record DHCPSubnet := mkSubnet {
  sn_ID : Z;
  sn_Zone : string;
  sn_Network : string;
  sn_Pool : string;
  sn_Gateway : string;
  sn_DNS : list string;
  sn_NTP : list string;
  sn_ForwardZone : string;
  sn_ReverseZone : string;
  sn_TSIGKeyName : string;
  sn_TSIGAlgorithm : string;
  sn_UpdateOnRenew : bool;
  sn_ConflictResolution : string;
  sn_RegistrationOptional : bool;
  sn_Reservations : list SubnetReservation;
}.

Record UpstreamObservation := mkUpstreamObservation { uo_Interface : string; uo_MAC : string; uo_Address : string; uo_Gateway : string }.

Record PublishedService := mkPublished {
  pb_Service : string;
  pb_Protocol : string;
  pb_Port : Z;
  pb_Destination : string;
  pb_DestinationCIDR : string;
  pb_DestinationIface : string;
}.

Record TelemetryPlan := mkTelemetry {
  tp_Enabled : bool;
  tp_ListenAddress : string;
  tp_Port : Z;
  tp_AllowedSources : list string;
  tp_SnapshotPath : string;
  tp_DatabasePath : string;
  tp_SampleIntervalSec : Z;
  tp_RawRetentionDays : Z;
}.

Record GatewayPlan := mkGatewayPlan {
  gp_ModelRevision : string;
  gp_Mode : string;
  gp_Engine : string;
  gp_IPv4Only : bool;
  gp_Forwarding : bool;
  gp_Interfaces : list Interface;
  gp_Rules : list PolicyRule;
  gp_ModuleSources : list string;
  gp_AirVPNSources : list string;
  gp_PolicyRoutes : list PolicyRoute;
  gp_AirVPN : option AirVPNProfile;
  gp_DHCP : list DHCPSubnet;
  gp_DDNS : DDNSPlan;
  gp_Publications : list PublishedService;
  gp_Upstream : option UpstreamObservation;
  gp_Telemetry : TelemetryPlan;
}.

Inductive PlanError :=
| PlanSite (e : SiteError) | PlanDNS (e : DNSError)
| RuleSourceUnrendered (id source : string) | RuleDestinationUnrendered (id destination : string) | RulesUnrendered (count : Z)
| AirVPNEndpoint | AirVPNTunnel | AirVPNDigestMissing | AirVPNDigestInvalid
| UpstreamNotWan | PlanMissingWan | UpstreamMACMismatch (mac : string) | UpstreamMAC (e : MACError)
| UpstreamAddress (address : string) | UpstreamNotCanonical (address : string) | UpstreamGateway (gateway : string)
| UpstreamOverlap (interface : string)
| ResolverUnavailable | ResolveFailed (text : string) | EndpointNoIPv4.

(** ** Fixed contracts *)

Definition DefaultTelemetryPlan (managed : bool) : TelemetryPlan :=
  if negb managed then mkTelemetry false "" 0 [] "" "" 0 0
  else mkTelemetry true "10.10.10.1" 9765 ["10.10.10.20/32"] "/run/boetticher/firewall-ruleset.json"
         "/var/lib/boetticher/firewall-telemetry/telemetry.db" 15 7.

Record TrustedLabService := mkTrustedService { tl_Zone : string; tl_Network : string; tl_Protocol : string; tl_Ports : list string }.
Definition TrustedLabServices : list TrustedLabService := [
  mkTrustedService "SERVERS" "10.10.20.0/24" "tcp" ["53"; "443"];
  mkTrustedService "SERVERS" "10.10.20.0/24" "udp" ["53"; "123"];
  mkTrustedService "INFRA" "10.10.10.0/24" "tcp" ["53"; "443"];
  mkTrustedService "INFRA" "10.10.10.0/24" "udp" ["53"; "123"];
  mkTrustedService "MGMT" "10.10.99.0/24" "tcp" ["22"; "443"; "8006"]
].

(** [fmt.Sprintf("02:00:00:03:%02x:%02x", ...)] of a VMID of 16 bits. *)
Definition ManagedModuleMAC (vmid : Z) : string :=
  if (vmid <=? 0) || (vmid >? 65535) then ""
  else "02:00:00:03:" +:+ hex2 (Z.land (Z.shiftr vmid 8) 255) +:+ ":" +:+ hex2 (Z.land vmid 255).

Section plan.
Context `{GoUnicode, GoURL, SiteDigest}.

(** ** References to components *)

Definition canonical_reference (reference : string) : string := trim_suffix (to_lower reference) ".".

Definition identities_of (c : Component) : list string := c_Name c :: c_Hostname c :: c_DNSAliases c.

Definition component_answers (domain reference : string) (c : Component) : bool :=
  existsb (fun identity =>
    let identity := canonical_reference identity in
    (identity == reference) || ((domain != "") && (identity +:+ "." +:+ domain == reference))) (identities_of c).

Definition componentReference (s : Site) (reference : string) : option Component :=
  List.find (component_answers (canonical_reference (n_Domain (s_Network s))) (canonical_reference reference)) (PlatformComponents s).

Definition componentReferences (s : Site) (reference : string) : list Component :=
  let reference := canonical_reference reference in
  if reference == "dns" then List.filter (fun c => c_Module c == "dns") (PlatformComponents s)
  else match componentReference s reference with Some c => [c] | None => [] end.

Definition componentSourceMAC (c : Component) : string :=
  if c_MAC c != "" then c_MAC c else if c_Module c != "" then ManagedModuleMAC (c_VMID c) else "".

Definition moduleNetworkMode (s : Site) (module : string) : string :=
  match s_ModuleConfig s !! module with
  | Some config => if mc_Network config != "" then mc_Network config else "direct"
  | None => "direct"
  end.

(** The keys of a set of host routes, sorted. *)
Definition host_routes (components : list Component) : list string :=
  sort_strings (remove_dups (flat_map (fun c =>
    match parse_to4 (c_Address c) with Some a => [addr_string a +:+ "/32"] | None => [] end) components)).

Definition airVPNSources (s : Site) : list string :=
  host_routes (List.filter (fun c =>
    match s_ModuleConfig s !! c_Module c with Some config => mc_Network config == "airvpn" | None => false end) (PlatformComponents s)).

(** Components with an intent of their own module, and the sources above. *)
Definition intent_sources (s : Site) : list Component :=
  flat_map (fun d => flat_map (fun i =>
    match componentReference s (ni_Source i) with
    | Some c => if c_Module c == md_Module d then [c] else []
    | None => []
    end) (md_NetworkIntents d)) (s_Declarations s).

Definition moduleSourceCIDRs (s : Site) : list string :=
  sort_strings (remove_dups (host_routes (intent_sources s) ++ airVPNSources s)).

(** ** Rules *)

(** Runes other than lower-case letters, digits, dash and underscore become one
    underscore each. *)
Definition token_runes (value : string) : string :=
  foldr (fun r s =>
    String (if ((97 <=? r) && (r <=? 122)) || ((48 <=? r) && (r <=? 57)) || (r =? 45) || (r =? 95) then byte_of r else "_"%char) s)
    EmptyString (runes (to_lower value)).

Definition safeRuleToken (value : string) : string :=
  let result := token_runes value in
  if result == "" then "rule"
  else
    let result := if has_prefix result "-" then "rule_" +:+ result else result in
    if len result >? 128 then String.substring 0 128 result else result.

Definition with_sequence (n : Z) (r : PolicyRule) : PolicyRule :=
  mkRule n (pr_Name r) (pr_From r) (pr_To r) (pr_Action r) (pr_Protocol r) (pr_Ports r) (pr_Counter r) (pr_LogPrefix r)
    (pr_NAT r) (pr_Route r) (pr_Description r) (pr_SourceCIDR r) (pr_DestinationCIDR r) (pr_DestinationHost r)
    (pr_SourceMAC r) (pr_UserRuleID r).

(** Every rule gets the next number when it is appended. *)
Definition append_rule (rules : list PolicyRule) (r : PolicyRule) : list PolicyRule :=
  rules ++ [with_sequence (Z.of_nat (length rules) + 1) r].

(** The local [add]. *)
Definition zone_rule (name from to action protocol : string) (ports : list string) (log nat : bool) : PolicyRule :=
  mkRule 0 name from to action protocol ports ("boetticher_" +:+ to_lower (replace_all name " " "_"))
    (if log then "boetticher " +:+ name else "") nat "" ("boetticher " +:+ name) "" "" "" "" "".
Definition allow (name from to protocol : string) (ports : list string) : PolicyRule := zone_rule name from to "allow" protocol ports false false.
Definition allow_wan (name from protocol : string) (ports : list string) : PolicyRule := zone_rule name from "WAN" "allow" protocol ports false true.
Definition deny (name from to : string) : PolicyRule := zone_rule name from to "deny" "any" [] true false.

(** A rule for two fixed addresses. *)
Definition address_rule (name counter from to protocol : string) (ports : list string) (source destination : string) : PolicyRule :=
  mkRule 0 name from to "allow" protocol ports ("boetticher_" +:+ counter) "" false "" ("boetticher " +:+ name) source destination "" "" "".

Definition observability_rules (s : Site) : list PolicyRule :=
  match componentReference s "monitor" with
  | Some monitor =>
      if (c_Module monitor == "monitoring") && (c_Address monitor != "") then
        flat_map (fun source =>
          flat_map (fun zone =>
            if z_Name zone != source then []
            else [address_rule (source +:+ " HTTPS to observability") (to_lower source +:+ "_https_to_observability") source "INFRA"
                    "tcp" ["443"] (z_Network zone) (c_Address monitor +:+ "/32")]) (n_Zones (s_Network s)))
          ["SERVERS"; "TRUSTED"]
      else []
  | None => []
  end.

Definition ca_rules (s : Site) : list PolicyRule :=
  match componentReference s "dns" with
  | Some ca =>
      if c_Address ca != "" then
        flat_map (fun source =>
          if (c_Name source == "lab-proxmox-01") || (c_Name source == c_Name ca) || (c_Address source == "") then []
          else [address_rule (c_Name source +:+ " HTTPS to Smallstep CA")
                  (to_lower (replace_all (c_Name source) "-" "_") +:+ "_https_to_smallstep_ca") (c_Zone source) "INFRA"
                  "tcp" [StepCAPort] (c_Address source +:+ "/32") (c_Address ca +:+ "/32")]) (PlatformComponents s)
      else []
  | None => []
  end.

Definition gateway_rules : list PolicyRule :=
  map (fun zone => allow (to_lower zone +:+ " DHCP to gateway") zone "gateway" "udp" ["67"]) ["TRUSTED"; "SERVERS"; "SANDBOX"]
  ++ [allow "SANDBOX DNS to gateway" "SANDBOX" "gateway" "tcp/udp" ["53"];
      allow "SANDBOX NTP to gateway" "SANDBOX" "gateway" "udp" ["123"];
      allow "MGMT SSH to gateway" "MGMT" "gateway" "tcp" ["22"];
      deny "SANDBOX to TRUSTED deny" "SANDBOX" "TRUSTED";
      deny "SANDBOX to SERVERS deny" "SANDBOX" "SERVERS";
      deny "SANDBOX to INFRA deny" "SANDBOX" "INFRA";
      deny "SANDBOX to MGMT deny" "SANDBOX" "MGMT"].

Definition trusted_rule (service : TrustedLabService) : PolicyRule :=
  allow ("TRUSTED " +:+ tl_Protocol service +:+ " services to " +:+ tl_Zone service) "TRUSTED" (tl_Zone service) (tl_Protocol service) (tl_Ports service).
Definition tailnet_rule (tailnet : Component) (service : TrustedLabService) : PolicyRule :=
  mkRule 0 ("trusted Tailnet " +:+ tl_Protocol service +:+ " services to " +:+ tl_Zone service) "TRANSIT" (tl_Zone service)
    "allow" (tl_Protocol service) (tl_Ports service) "" "" false "" "" (c_Address tailnet +:+ "/32") (tl_Network service) ""
    (componentSourceMAC tailnet) "".

Definition trusted_rules (s : Site) : list PolicyRule :=
  flat_map (fun service =>
    trusted_rule service
    :: match componentReference s "lab-tailnet-01" with Some tailnet => [tailnet_rule tailnet service] | None => [] end)
    TrustedLabServices.

Definition platform_rules : list PolicyRule :=
  [allow "SERVERS DNS to INFRA" "SERVERS" "INFRA" "tcp/udp" ["53"];
   allow "SERVERS NTP to INFRA" "SERVERS" "INFRA" "udp" ["123"];
   allow "MGMT administration to SERVERS" "MGMT" "SERVERS" "tcp" ["22"; "53"; "80"; "443"];
   allow "MGMT administration to INFRA" "MGMT" "INFRA" "tcp" ["22"; "53"; "80"; "443"];
   allow "MGMT diagnostics to TRUSTED" "MGMT" "TRUSTED" "icmp" [];
   allow_wan "SANDBOX Internet egress" "SANDBOX" "any" [];
   allow_wan "TRUSTED Internet egress" "TRUSTED" "any" [];
   allow_wan "SERVERS update egress" "SERVERS" "tcp/udp" ["53"; "80"; "443"; "853"];
   allow_wan "INFRA update egress" "INFRA" "tcp/udp" ["53"; "80"; "123"; "853"];
   allow_wan "MGMT update egress" "MGMT" "tcp" ["443"]]
  ++ map (fun destination => deny ("TRANSIT to " +:+ destination +:+ " deny") "TRANSIT" destination)
       ["INFRA"; "TRUSTED"; "SERVERS"; "SANDBOX"; "MGMT"; "Proxmox API"; "SSH"; "Internet"]
  ++ [deny "any to TRANSIT deny" "any" "TRANSIT"].

Definition jump_rules (s : Site) : list PolicyRule :=
  match componentReference s "lab-tailnet-01" with
  | Some appliance =>
      [address_rule "MGMT administration to tailnet-router" "mgmt_administration_to_tailnet_router" "MGMT" "TRANSIT" "tcp" ["22"]
         (ProxmoxManagementAddress +:+ "/32") (c_Address appliance +:+ "/32")]
  | None => []
  end.

(** *** Rules of modules *)

Definition module_rule (module : string) (i : NetworkIntent) (label from to : string) (nat : bool) (route : string)
    (source : Component) (destinationCIDR destinationHost : string) : PolicyRule :=
  mkRule 0 ("module " +:+ module +:+ " " +:+ ni_Purpose i +:+ " " +:+ label) from to "allow" (ni_Protocol i) (ni_Ports i)
    ("boetticher_module_" +:+ safeRuleToken module) "" nat route ("module " +:+ module +:+ ": " +:+ ni_Purpose i)
    (c_Address source +:+ "/32") destinationCIDR destinationHost (componentSourceMAC source) "".

Definition policyRulesForIntent (s : Site) (module : string) (i : NetworkIntent) : list PolicyRule :=
  match componentReference s (ni_Source i) with
  | None => []
  | Some source =>
      if (ni_Endpoint i == "") && (ni_Destination i == "") then []
      else
        let destinations := componentReferences s (ni_Destination i) in
        if (ni_Endpoint i != "") && (length destinations =? 0)%nat then
          match parse_url (ni_Endpoint i) with
          | Some parsed =>
              if url_Hostname parsed == "" then []
              else if moduleNetworkMode s module == "airvpn"
              then [module_rule module i (ni_Destination i) (c_Zone source) "TRANSIT" false "airvpn" source "" (url_Hostname parsed)]
              else [module_rule module i (ni_Destination i) (c_Zone source) "WAN" true "direct" source "" (url_Hostname parsed)]
          | None => []
          end
        else
          map (fun destination =>
            module_rule module i (if (1 <? length destinations)%nat then c_Name destination else ni_Destination i)
              (c_Zone source) (c_Zone destination) false "" source (c_Address destination +:+ "/32") "") destinations
  end.

Definition intent_rules (s : Site) : list PolicyRule :=
  flat_map (fun d => flat_map (policyRulesForIntent s (md_Module d)) (md_NetworkIntents d)) (s_Declarations s).

(** *** Rules of the operator *)

(** Zone and network of a selector that can be rendered. *)
Definition userSelector (s : Site) (selector : string) : option (string * string) :=
  let selector := to_upper (trim_space selector) in
  match List.find (fun zone => selector == z_Name zone) (n_Zones (s_Network s)) with
  | Some zone => if is_user_zone (z_Type zone) then Some (z_Name zone, z_Network zone) else None
  | None =>
      match net_parse_cidr selector with
      | Some (CIDR4 p mapped as network) =>
          match List.find (fun zone => is_user_zone (z_Type zone)
                  && match net_parse_cidr (z_Network zone) with Some c => cidr_contains_base c network | None => false end)
                (n_Zones (s_Network s)) with
          | Some zone => Some (z_Name zone, cidr_string network)
          | None => None
          end
      | _ => None
      end
  end.

Definition userRuleDestinationSelector (s : Site) (rule : UserFirewallRule) : option (string * string) :=
  match userSelector s (fr_Destination rule) with
  | Some selected => Some selected
  | None =>
      if IsReservedServersObservabilityRule s (fr_Source rule) (fr_Destination rule) (to_lower (fr_Protocol rule)) (fr_Ports rule)
      then Some ("INFRA", fr_Destination rule) else None
  end.

Definition user_policy_rule (user : UserFirewallRule) (source destination : string * string) : PolicyRule :=
  mkRule 0 ("user-rule-" +:+ fr_ID user) source.1 destination.1 "allow" (to_lower (fr_Protocol user)) (fr_Ports user)
    ("boetticher_user_" +:+ safeRuleToken (fr_ID user)) "" false "" ("user firewall rule " +:+ fr_ID user)
    source.2 destination.2 "" "" (fr_ID user).

Definition user_rules (s : Site) : list PolicyRule :=
  flat_map (fun user =>
    match userSelector s (fr_Source user), userRuleDestinationSelector s user with
    | Some source, Some destination => [user_policy_rule user source destination]
    | _, _ => []
    end) (sort_by fr_ID (s_UserFirewallRules s)).

(** All of them, in order, and with their numbers. *)
Definition policy_list (s : Site) : list PolicyRule :=
  observability_rules s ++ ca_rules s ++ gateway_rules ++ trusted_rules s ++ platform_rules
  ++ jump_rules s ++ intent_rules s ++ user_rules s.
Definition policyRules (s : Site) : list PolicyRule := foldl append_rule [] (policy_list s).

(** ** Routes, interfaces, subnets *)

Definition policyRoutes (s : Site) : list PolicyRoute :=
  let zones := stable_sort vlan_le (n_Zones (s_Network (Normalize s))) in
  let routes := map (fun z => mkRouteEntry (z_Network z) "" (to_lower (z_Name z) +:+ "0")) zones in
  imap (fun index source => mkRoute source 51820 (10000 + Z.of_nat index * 2) TransitGateway "transit0" routes) (airVPNSources s).

Definition interface_step (s : Site) (interfaces : list Interface) (t : ZoneType) : list Interface :=
  match ZoneForType s t with
  | Ok zone => interfaces ++ [mkInterface (z_Name zone) (to_lower (z_Name zone) +:+ "0")
                                (GatewayInterfaceMAC (Z.of_nat (length interfaces) + 1)) "vmbr1" (z_VLAN zone)
                                (z_Gateway zone +:+ "/24") "static"]
  | Err _ => interfaces
  end.

Definition gatewayInterfaces (s : Site) : list Interface :=
  foldl (interface_step s) [mkInterface "WAN" "wan0" (gw_UpstreamMAC (s_Gateway s)) "vmbr0" 0 "dhcp" "dhcp"]
    [ZoneTypeTrusted; ZoneTypeServers; ZoneTypeSandbox; ZoneTypeManagement; ZoneTypeTransit; ZoneTypeInfrastructure].

Definition poolForNetwork (network addressMode : string) : string :=
  if addressMode == "reservations-only" then ""
  else match net_parse_cidr network with
       | Some (CIDR4 base false) =>
           if p_bits base =? 24 then
             let prefix := trim_suffix (addr_string (p_addr base)) ".0" in
             prefix +:+ ".100-" +:+ prefix +:+ ".199"
           else ""
       | _ => ""
       end.

Definition reverseZoneForNetwork (network : string) : string :=
  match net_parse_cidr network with
  | Some (CIDR4 base false) =>
      if p_bits base =? 24 then join (map (fun i => itoa (octet (p_addr base) i)) [2; 1; 0] ++ ["in-addr.arpa."]) "." else ""
  | _ => ""
  end.

Definition subnet_reservation (r : DHCPReservation) : SubnetReservation :=
  mkSubnetReservation (dh_Hostname r) (dh_Address r) (dh_MAC r) (dh_DNSOverride r) (dh_NTPOverride r).

Definition dhcp_subnet (s : Site) (id : Z) (z : Zone) : DHCPSubnet := {|
  sn_ID := id;
  sn_Zone := z_Name z;
  sn_Network := z_Network z;
  sn_Pool := poolForNetwork (z_Network z) (z_AddressMode z);
  sn_Gateway := z_Gateway z;
  sn_DNS := z_DNSAddresses z;
  sn_NTP := z_NTPAddresses z;
  sn_ForwardZone := to_lower (z_Name z) +:+ "." +:+ n_Domain (s_Network s) +:+ ".";
  sn_ReverseZone := reverseZoneForNetwork (z_Network z);
  sn_TSIGKeyName := TSIGKeyName (z_Name z) (n_Domain (s_Network s));
  sn_TSIGAlgorithm := "hmac-sha256";
  sn_UpdateOnRenew := true;
  sn_ConflictResolution := "check-exists-with-dhcid";
  sn_RegistrationOptional := true;
  sn_Reservations := if z_Type z == ZoneTypeServers then map subnet_reservation (s_DHCPReservations (Normalize s)) else [];
|}.

Definition dhcpSubnets (s : Site) : list DHCPSubnet :=
  imap (fun i z => dhcp_subnet s (Z.of_nat i + 1) z)
    (List.filter (fun z => is_user_zone (z_Type z)) (stable_sort vlan_le (n_Zones (s_Network s)))).

Definition publishedServices (s : Site) : list PublishedService :=
  flat_map (fun service =>
    if service != "dns" then []
    else map (fun protocol => mkPublished service protocol 53 "lab-dns-01" "10.10.10.10/32" "infra0") ["tcp"; "udp"])
    (gw_Publish (s_Gateway s)).

(** ** The VPN provider *)

Definition host_forbidden : string := " " +:+ String "009" (String "013" (String "010" ("/" +:+ String "092" EmptyString))).

Definition validAirVPNEndpointHost (host : string) : bool :=
  if (host == "") || (len host >? 253) || contains_any host host_forbidden then false
  else if is_ip host then match parse_to4 host with Some _ => true | None => false end
  else forallb (fun label =>
         (label != "") && (len label <=? 63) && negb (opt_test (Ascii.eqb "-") (first_byte label))
         && negb (opt_test (Ascii.eqb "-") (last_byte label)) && sall (fun c => alnum c || Ascii.eqb c "-") label)
       (split host ".").

Definition hex_digit (c : ascii) : bool := is_digit c || in_range "a" "f" c || in_range "A" "F" c.

Definition validateAirVPNProfile (profile : AirVPNProfile) : result PlanError unit :=
  _ ← fail_if (negb (validAirVPNEndpointHost (av_EndpointHost profile)) || (av_EndpointPort profile != 1637)) AirVPNEndpoint;
  _ ← fail_if (match parse_to4 (av_TunnelAddress profile) with Some _ => false | None => true end) AirVPNTunnel;
  _ ← fail_if (len (av_SHA256 profile) != 64) AirVPNDigestMissing;
  fail_if (negb (sall hex_digit (av_SHA256 profile))) AirVPNDigestInvalid.

(** [lookup] gives the addresses of a host, [None] for one without a [To4]. *)
Definition BindAirVPNEndpoint (plan : GatewayPlan) (lookup : option (string → result string (list (option Addr))))
    : result PlanError GatewayPlan :=
  match gp_AirVPN plan with
  | None => Ok plan
  | Some profile =>
      match lookup with
      | None => Err ResolverUnavailable
      | Some lookup =>
          ips ← wrap ResolveFailed (lookup (av_EndpointHost profile));
          let addresses := remove_dups (flat_map (fun ip => match ip with Some a => [addr_string a] | None => [] end) ips) in
          _ ← fail_if (length addresses =? 0)%nat EndpointNoIPv4;
          let profile := mkProfile (av_EndpointHost profile) (av_EndpointPort profile) (av_TunnelAddress profile)
                           (sort_strings addresses) (av_SHA256 profile) in
          Ok (mkGatewayPlan (gp_ModelRevision plan) (gp_Mode plan) (gp_Engine plan) (gp_IPv4Only plan) (gp_Forwarding plan)
                (gp_Interfaces plan) (gp_Rules plan) (gp_ModuleSources plan) (gp_AirVPNSources plan) (gp_PolicyRoutes plan)
                (Some profile) (gp_DHCP plan) (gp_DDNS plan) (gp_Publications plan) (gp_Upstream plan) (gp_Telemetry plan))
      end
  end.

Definition handshake_rule (profile : AirVPNProfile) : PolicyRule :=
  mkRule 0 "AirVPN provider WireGuard handshake" "TRANSIT" "WAN" "allow" "udp" [itoa (av_EndpointPort profile)]
    "boetticher_airvpn_provider_handshake" "" true "direct" "boetticher AirVPN provider WireGuard handshake only"
    (TransitGateway +:+ "/32") "" (av_EndpointHost profile) "" "".

(** ** The plan *)

Definition rendered_check (s : Site) (user : UserFirewallRule) : result PlanError unit :=
  _ ← fail_if (match userSelector s (fr_Source user) with Some _ => false | None => true end)
        (RuleSourceUnrendered (fr_ID user) (fr_Source user));
  fail_if (match userRuleDestinationSelector s user with Some _ => false | None => true end)
    (RuleDestinationUnrendered (fr_ID user) (fr_Destination user)).

(** The rules with the handshake of the provider, if there is one. *)
Definition all_rules (s : Site) (airvpn : option AirVPNProfile) : result PlanError (list PolicyRule) :=
  match airvpn with
  | Some profile => _ ← validateAirVPNProfile profile; Ok (append_rule (policyRules s) (handshake_rule profile))
  | None => Ok (policyRules s)
  end.

Definition user_rule_count (rules : list PolicyRule) : nat := length (List.filter (fun r => pr_UserRuleID r != "") rules).

Definition planFromSite (s : Site) (airvpn : option AirVPNProfile) : result PlanError GatewayPlan :=
  _ ← wrap PlanSite (Validate s);
  let s := Normalize s in
  _ ← eachM (rendered_check s) (s_UserFirewallRules s);
  revision ← wrap PlanSite (Revision s);
  dnsPlan ← wrap PlanDNS (DnsPlan.PlanFromSite s);
  let external := gw_Mode (s_Gateway s) == "external" in
  let managed := gw_Mode (s_Gateway s) == "managed" in
  rules ← all_rules s airvpn;
  _ ← fail_if (negb (user_rule_count rules =? length (s_UserFirewallRules s))%nat)
        (RulesUnrendered (Z.of_nat (length (s_UserFirewallRules s)) - Z.of_nat (user_rule_count rules)));
  Ok {|
    gp_ModelRevision := revision;
    gp_Mode := gw_Mode (s_Gateway s);
    gp_Engine := if external then "operator-managed external firewall" else "nftables + Kea";
    gp_IPv4Only := true;
    gp_Forwarding := managed;
    gp_Interfaces := if managed then gatewayInterfaces s else [];
    gp_Rules := rules;
    gp_ModuleSources := moduleSourceCIDRs s;
    gp_AirVPNSources := airVPNSources s;
    gp_PolicyRoutes := policyRoutes s;
    gp_AirVPN := airvpn;
    gp_DHCP := dhcpSubnets s;
    gp_DDNS := pl_DDNS dnsPlan;
    gp_Publications := publishedServices s;
    gp_Upstream := None;
    gp_Telemetry := DefaultTelemetryPlan managed;
  |}.

Definition PlanFromSite (s : Site) : result PlanError GatewayPlan := planFromSite s None.
Definition PlanFromSiteWithAirVPN (s : Site) (profile : AirVPNProfile) : result PlanError GatewayPlan := planFromSite s (Some profile).

(** ** The upstream lease *)

(** An internal interface whose network meets the upstream one. *)
Definition interface_overlaps (address : Addr) (network : CIDR) (i : Interface) : bool :=
  if if_Name i == "wan0" then false
  else match net_parse_cidr (if_Address i) with
       | Some internal => cidr_contains internal address || cidr_contains_base network internal
       | None => false
       end.

Definition ValidateUpstreamObservation (plan : GatewayPlan) (upstream : UpstreamObservation) : result PlanError unit :=
  _ ← fail_if (uo_Interface upstream != "wan0") UpstreamNotWan;
  match gp_Interfaces plan with
  | wan :: _ =>
      _ ← fail_if (if_Name wan != "wan0") PlanMissingWan;
      _ ← fail_if (negb (equal_fold (uo_MAC upstream) (if_MAC wan))) (UpstreamMACMismatch (uo_MAC upstream));
      _ ← wrap UpstreamMAC (ValidateGatewayUpstreamMAC (uo_MAC upstream));
      let text := hd "" (split (uo_Address upstream) "/") in
      match parse_to4 (trim_space text), net_parse_cidr (uo_Address upstream) with
      | Some address, Some (CIDR4 p mapped) =>
          let network := CIDR4 p mapped in
          _ ← fail_if (addr_string address != text) (UpstreamNotCanonical (uo_Address upstream));
          _ ← fail_if (match parse_to4 (trim_space (uo_Gateway upstream)) with
                       | Some gateway => negb (cidr_contains network gateway) || (gateway == address)
                       | None => true
                       end) (UpstreamGateway (uo_Gateway upstream));
          match List.find (interface_overlaps address network) (gp_Interfaces plan) with
          | Some i => Err (UpstreamOverlap (if_Name i))
          | None => Ok tt
          end
      | _, _ => Err (UpstreamAddress (uo_Address upstream))
      end
  | [] => Err PlanMissingWan
  end.

Definition with_upstream (plan : GatewayPlan) (upstream : UpstreamObservation) : GatewayPlan :=
  mkGatewayPlan (gp_ModelRevision plan) (gp_Mode plan) (gp_Engine plan) (gp_IPv4Only plan) (gp_Forwarding plan)
    (gp_Interfaces plan) (gp_Rules plan) (gp_ModuleSources plan) (gp_AirVPNSources plan) (gp_PolicyRoutes plan)
    (gp_AirVPN plan) (gp_DHCP plan) (gp_DDNS plan) (gp_Publications plan) (Some upstream) (gp_Telemetry plan).

Definition PlanFromSiteWithUpstream (s : Site) (upstream : UpstreamObservation) : result PlanError GatewayPlan :=
  plan ← PlanFromSite s;
  _ ← ValidateUpstreamObservation plan upstream;
  Ok (with_upstream plan upstream).

Definition PlanFromSiteWithUpstreamAndAirVPN (s : Site) (upstream : UpstreamObservation) (profile : AirVPNProfile)
    : result PlanError GatewayPlan :=
  plan ← planFromSite s (Some profile);
  _ ← ValidateUpstreamObservation plan upstream;
  Ok (with_upstream plan upstream).

(** ** The list of rules *)

Definition numbered (rules : list PolicyRule) : Prop := ∀ i r, rules !! i = Some r → pr_Sequence r = Z.of_nat i + 1.

Lemma append_numbered rules r : numbered rules → numbered (append_rule rules r).
Proof.
  intros Hn i x Hx. unfold append_rule in Hx. apply lookup_app_Some in Hx as [Hx|[Hl Hx]]; [by apply Hn|].
  apply list_lookup_singleton_Some in Hx as [Hi <-]. cbn. lia.
Qed.

(** Numbering aside, the rules are the ones that were appended. *)
Lemma with_sequence_twice n m r : with_sequence n (with_sequence m r) = with_sequence n r.
Proof. done. Qed.

Lemma foldl_append_rule l rules : map (with_sequence 0) (foldl append_rule rules l) = map (with_sequence 0) (rules ++ l).
Proof.
  revert rules. induction l as [|r l IH]; intros rules; cbn; [by rewrite app_nil_r|].
  rewrite IH. unfold append_rule. rewrite !map_app. cbn. by rewrite <- app_assoc.
Qed.

Lemma foldl_numbered l rules : numbered rules → numbered (foldl append_rule rules l).
Proof. revert rules. induction l as [|r l IH]; intros rules Hn; [done|]. apply IH, append_numbered, Hn. Qed.

Definition handshakes (airvpn : option AirVPNProfile) : list PolicyRule :=
  match airvpn with Some profile => [handshake_rule profile] | None => [] end.

(** The rules of the plan, before they are numbered. *)
Definition rule_list (s : Site) (airvpn : option AirVPNProfile) : list PolicyRule := policy_list s ++ handshakes airvpn.

Lemma all_rules_list s airvpn rules : all_rules s airvpn = Ok rules →
  numbered rules ∧ map (with_sequence 0) rules = map (with_sequence 0) (rule_list s airvpn).
Proof.
  intros Hr. assert (rules = foldl append_rule [] (rule_list s airvpn)) as ->.
  { unfold all_rules, policyRules, rule_list in *. rewrite foldl_app. destruct airvpn as [profile|].
    - by apply bind_ok in Hr as ([]&_&[= <-]).
    - by injection Hr as <-. }
  split; [apply foldl_numbered; by intros ? ?|]. by rewrite foldl_append_rule.
Qed.

(** Whatever ignores the numbers sees the same rules. *)
Lemma in_rules s airvpn rules r : all_rules s airvpn = Ok rules → r ∈ rules →
  ∃ r', r' ∈ rule_list s airvpn ∧ with_sequence 0 r = with_sequence 0 r'.
Proof.
  intros [_ E]%all_rules_list Hr. assert (with_sequence 0 r ∈ map (with_sequence 0) rules) as Hin by by apply list_elem_of_fmap_2.
  rewrite E in Hin. apply list_elem_of_fmap in Hin as (r'&E'&Hr'). by exists r'.
Qed.

(** The operator's rules are the ones with an identifier. *)
Definition is_user_rule (r : PolicyRule) : bool := pr_UserRuleID r != "".

Lemma filter_numbers rules : map (with_sequence 0) (List.filter is_user_rule rules) = List.filter is_user_rule (map (with_sequence 0) rules).
Proof.
  induction rules as [|r rules IH]; [done|]. cbn. change (is_user_rule (with_sequence 0 r)) with (is_user_rule r).
  destruct (is_user_rule r); cbn; by rewrite IH.
Qed.

(** ** What a rule may open *)

(** What traffic a rule is about, and between which ends; an empty end is not a
    restriction. *)
Definition flow (r : PolicyRule) : string * string * string * list string := (pr_From r, pr_To r, pr_Protocol r, pr_Ports r).
Definition ends (r : PolicyRule) : string * string * string := (pr_SourceCIDR r, pr_DestinationCIDR r, pr_DestinationHost r).
Definition host_of (c : Component) : string := c_Address c +:+ "/32".

(** All that is open between whole zones. *)
Definition zone_table : list (string * string * string * list string) := [
  ("TRUSTED", "gateway", "udp", ["67"]); ("SERVERS", "gateway", "udp", ["67"]); ("SANDBOX", "gateway", "udp", ["67"]);
  ("SANDBOX", "gateway", "tcp/udp", ["53"]); ("SANDBOX", "gateway", "udp", ["123"]); ("MGMT", "gateway", "tcp", ["22"]);
  ("TRUSTED", "SERVERS", "tcp", ["53"; "443"]); ("TRUSTED", "SERVERS", "udp", ["53"; "123"]);
  ("TRUSTED", "INFRA", "tcp", ["53"; "443"]); ("TRUSTED", "INFRA", "udp", ["53"; "123"]);
  ("TRUSTED", "MGMT", "tcp", ["22"; "443"; "8006"]);
  ("SERVERS", "INFRA", "tcp/udp", ["53"]); ("SERVERS", "INFRA", "udp", ["123"]);
  ("MGMT", "SERVERS", "tcp", ["22"; "53"; "80"; "443"]); ("MGMT", "INFRA", "tcp", ["22"; "53"; "80"; "443"]);
  ("MGMT", "TRUSTED", "icmp", []);
  ("SANDBOX", "WAN", "any", []); ("TRUSTED", "WAN", "any", []); ("SERVERS", "WAN", "tcp/udp", ["53"; "80"; "443"; "853"]);
  ("INFRA", "WAN", "tcp/udp", ["53"; "80"; "123"; "853"]); ("MGMT", "WAN", "tcp", ["443"])].

(** What the tailnet's appliance may reach. *)
Definition tailnet_table : list (string * string * string * list string) := [
  ("SERVERS", "10.10.20.0/24", "tcp", ["53"; "443"]); ("SERVERS", "10.10.20.0/24", "udp", ["53"; "123"]);
  ("INFRA", "10.10.10.0/24", "tcp", ["53"; "443"]); ("INFRA", "10.10.10.0/24", "udp", ["53"; "123"]);
  ("MGMT", "10.10.99.0/24", "tcp", ["22"; "443"; "8006"])].

(** Everything an allowing rule that is not the operator's may be. *)
Inductive opened (s : Site) (airvpn : option AirVPNProfile) (r : PolicyRule) : Prop :=
| opened_zone : flow r ∈ zone_table → ends r = ("", "", "") → pr_NAT r = (pr_To r == "WAN") → opened s airvpn r
| opened_monitor z monitor :
    componentReference s "monitor" = Some monitor → c_Module monitor = "monitoring" →
    z ∈ n_Zones (s_Network s) → z_Name z ∈ ["SERVERS"; "TRUSTED"] →
    flow r = (z_Name z, "INFRA", "tcp", ["443"]) → ends r = (z_Network z, host_of monitor, "") → pr_NAT r = false → opened s airvpn r
| opened_ca source ca :
    componentReference s "dns" = Some ca → source ∈ PlatformComponents s → c_Name source ≠ "lab-proxmox-01" →
    flow r = (c_Zone source, "INFRA", "tcp", ["9443"]) → ends r = (host_of source, host_of ca, "") → pr_NAT r = false → opened s airvpn r
| opened_tailnet appliance zone network protocol ports :
    componentReference s "lab-tailnet-01" = Some appliance → (zone, network, protocol, ports) ∈ tailnet_table →
    flow r = ("TRANSIT", zone, protocol, ports) → ends r = (host_of appliance, network, "") →
    pr_SourceMAC r = componentSourceMAC appliance → pr_NAT r = false → opened s airvpn r
| opened_jump appliance :
    componentReference s "lab-tailnet-01" = Some appliance → flow r = ("MGMT", "TRANSIT", "tcp", ["22"]) →
    ends r = (ProxmoxManagementAddress +:+ "/32", host_of appliance, "") → pr_NAT r = false → opened s airvpn r
| opened_component d i source destination :
    d ∈ s_Declarations s → i ∈ md_NetworkIntents d → componentReference s (ni_Source i) = Some source →
    destination ∈ componentReferences s (ni_Destination i) →
    flow r = (c_Zone source, c_Zone destination, ni_Protocol i, ni_Ports i) → ends r = (host_of source, host_of destination, "") →
    pr_SourceMAC r = componentSourceMAC source → pr_NAT r = false → opened s airvpn r
| opened_endpoint d i source url :
    d ∈ s_Declarations s → i ∈ md_NetworkIntents d → componentReference s (ni_Source i) = Some source →
    componentReferences s (ni_Destination i) = [] → parse_url (ni_Endpoint i) = Some url → url_Hostname url ≠ "" →
    let tunnel := moduleNetworkMode s (md_Module d) == "airvpn" in
    flow r = (c_Zone source, if tunnel then "TRANSIT" else "WAN", ni_Protocol i, ni_Ports i) →
    ends r = (host_of source, "", url_Hostname url) → pr_SourceMAC r = componentSourceMAC source →
    pr_Route r = (if tunnel then "airvpn" else "direct") → pr_NAT r = negb tunnel → opened s airvpn r
| opened_handshake profile :
    airvpn = Some profile → flow r = ("TRANSIT", "WAN", "udp", ["1637"]) → ends r = ("10.10.5.1/32", "", av_EndpointHost profile) →
    av_EndpointHost profile ≠ "" → pr_NAT r = true → opened s airvpn r.

Record platform_ok (s : Site) (airvpn : option AirVPNProfile) (r : PolicyRule) : Prop := {
  po_user : is_user_rule r = false;
  po_open : pr_Action r = "deny" ∧ pr_NAT r = false ∨ pr_Action r = "allow" ∧ opened s airvpn r;
}.

Section platform.
Context (s : Site) (airvpn : option AirVPNProfile).

Definition zone_ok (r : PolicyRule) : bool :=
  negb (is_user_rule r)
  && ((pr_Action r == "deny") && negb (pr_NAT r)
      || (pr_Action r == "allow") && bool_decide (flow r ∈ zone_table) && bool_decide (ends r = ("", "", ""))
         && bool_decide (pr_NAT r = (pr_To r == "WAN"))).

Lemma zone_ok_spec r : zone_ok r = true → platform_ok s airvpn r.
Proof.
  unfold zone_ok. intros [Hu Hr]%andb_true_iff. apply negb_true_iff in Hu. split; [done|].
  apply orb_true_iff in Hr as [Hr|Hr]; [left; by bools|right].
  rewrite !andb_true_iff, !bool_decide_eq_true in Hr. destruct Hr as [[[? ?] ?] ?]. split; [done|]. by apply opened_zone.
Qed.

Lemma fixed_rules_ok rs : forallb zone_ok rs = true → Forall (platform_ok s airvpn) rs.
Proof. rewrite forallb_forall. intros Hall. apply Forall_forall. intros r Hr. apply zone_ok_spec, Hall. by apply list_elem_of_In. Qed.

Lemma component_found reference c : componentReference s reference = Some c → c ∈ PlatformComponents s.
Proof. intros [Hin _]%find_some. by apply list_elem_of_In. Qed.

Lemma observability_ok : Forall (platform_ok s airvpn) (observability_rules s).
Proof.
  unfold observability_rules. destruct (componentReference s "monitor") as [monitor|] eqn:Em; [|constructor].
  destruct (_ && _) eqn:Emod; [|constructor]. bools. apply Forall_flat_map_2. intros source Hsource. apply Forall_flat_map_2. intros zone Hzone.
  destruct (z_Name zone != source) eqn:Ez; [constructor|]. bools. subst source. apply Forall_singleton. split; [done|right]. split; [done|].
  eapply (opened_monitor _ _ _ zone monitor); done.
Qed.

Lemma ca_ok : Forall (platform_ok s airvpn) (ca_rules s).
Proof.
  unfold ca_rules. destruct (componentReference s "dns") as [ca|] eqn:Ec; [|constructor]. destruct (_ != _); [|constructor].
  apply Forall_flat_map_2. intros source Hs. destruct (_ || _) eqn:Eo; [constructor|]. bools. apply Forall_singleton. split; [done|right]. split; [done|].
  eapply (opened_ca _ _ _ source ca); done.
Qed.

Lemma trusted_ok : Forall (platform_ok s airvpn) (trusted_rules s).
Proof.
  assert (forallb zone_ok (map trusted_rule TrustedLabServices) = true) as Hz by by vm_compute.
  assert (forallb (fun service => bool_decide ((tl_Zone service, tl_Network service, tl_Protocol service, tl_Ports service) ∈ tailnet_table))
    TrustedLabServices = true) as Ht by by vm_compute.
  rewrite forallb_forall in Ht. unfold trusted_rules. apply Forall_flat_map_2. intros service Hs. constructor.
  - apply zone_ok_spec. rewrite forallb_forall in Hz. by apply Hz, in_map, list_elem_of_In.
  - destruct (componentReference _ _) as [tailnet|] eqn:Et; [|constructor]. apply Forall_singleton. split; [done|right]. split; [done|].
    eapply (opened_tailnet _ _ _ tailnet (tl_Zone service) (tl_Network service)); try done.
    apply list_elem_of_In, Ht, bool_decide_eq_true in Hs. exact Hs.
Qed.

Lemma jump_ok : Forall (platform_ok s airvpn) (jump_rules s).
Proof.
  unfold jump_rules. destruct (componentReference _ _) as [appliance|] eqn:Et; [|constructor]. apply Forall_singleton. split; [done|right].
  split; [done|]. by eapply (opened_jump _ _ _ appliance).
Qed.

Lemma intents_ok : Forall (platform_ok s airvpn) (intent_rules s).
Proof.
  unfold intent_rules. apply Forall_flat_map_2. intros d Hd. apply Forall_flat_map_2. intros i Hi. unfold policyRulesForIntent.
  destruct (componentReference _ _) as [source|] eqn:Es; [|constructor]. destruct (_ && _); [constructor|]. destruct (_ && _) eqn:Een.
  - apply andb_true_iff in Een as [_ Een%Nat.eqb_eq%nil_length_inv].
    destruct (parse_url _) as [parsed|] eqn:Eu; [|constructor]. destruct (url_Hostname parsed == "") eqn:Eh; [constructor|]. bools.
    destruct (moduleNetworkMode s (md_Module d) == "airvpn") eqn:Ev; apply Forall_singleton; (split; [done|right]; split; [done|]);
      eapply (opened_endpoint _ _ _ d i source parsed); rewrite ?Ev; done.
  - apply Forall_forall. intros r (c&->&Hc)%list_elem_of_fmap. split; [done|right]. split; [done|].
    by eapply (opened_component _ _ _ d i source c).
Qed.

Lemma platform_list_ok : Forall (platform_ok s airvpn) (observability_rules s ++ ca_rules s ++ gateway_rules ++ trusted_rules s
  ++ platform_rules ++ jump_rules s ++ intent_rules s).
Proof.
  rewrite !Forall_app. split_and!; [apply observability_ok|apply ca_ok|by apply fixed_rules_ok; vm_compute|apply trusted_ok
    |by apply fixed_rules_ok; vm_compute|apply jump_ok|apply intents_ok].
Qed.

Lemma handshake_ok rules : all_rules s airvpn = Ok rules → Forall (platform_ok s airvpn) (handshakes airvpn).
Proof.
  destruct airvpn as [profile|] eqn:Ea; [|constructor]. unfold all_rules, validateAirVPNProfile. intros Hr.
  apply bind_ok in Hr as ([]&Hv&_). apply bind_ok in Hv as ([]&Hv%fail_if_ok&_). bools. apply Forall_singleton. split; [done|right]. split; [done|].
  eapply (opened_handshake _ _ _ profile); try done.
  - unfold flow. cbn. by rewrite H3.
  - intros E. by rewrite E in H2.
Qed.
End platform.

Lemma same_fields r r' : with_sequence 0 r = with_sequence 0 r' →
  is_user_rule r = is_user_rule r' ∧ pr_Action r = pr_Action r' ∧ pr_NAT r = pr_NAT r' ∧ pr_To r = pr_To r'.
Proof. intros E. split_and!; [exact (f_equal is_user_rule E)|by injection E..]. Qed.

Lemma opened_sequence s airvpn r r' : with_sequence 0 r = with_sequence 0 r' → opened s airvpn r' → opened s airvpn r.
Proof.
  intros E Ho. assert (flow r = flow r' ∧ ends r = ends r' ∧ pr_NAT r = pr_NAT r' ∧ pr_SourceMAC r = pr_SourceMAC r' ∧ pr_Route r = pr_Route r'
    ∧ pr_To r = pr_To r') as (E1&E2&E3&E4&E5&E6) by (unfold flow, ends; injection E; intros; split_and!; congruence).
  destruct Ho; [eapply opened_zone|eapply opened_monitor|eapply opened_ca|eapply opened_tailnet|eapply opened_jump|eapply opened_component
    |eapply opened_endpoint|eapply opened_handshake]; rewrite ?E1, ?E2, ?E3, ?E4, ?E5, ?E6; done.
Qed.

Lemma opened_nat s airvpn r : opened s airvpn r → pr_NAT r = true → pr_To r = "WAN".
Proof.
  intros Ho Hn. destruct Ho as [_ _ En| | | | | |d i src url _ _ _ _ _ _ tunnel Hfl _ _ _ En|pf _ Hfl]; try congruence.
  - rewrite Hn in En. symmetry in En. by bools.
  - injection Hfl as _ E _ _. rewrite E, En in *. by destruct tunnel.
  - by injection Hfl.
Qed.

(** What leaves SANDBOX: to the gateway and the WAN, or from one component in it. *)
Lemma opened_sandbox s airvpn r : opened s airvpn r → pr_From r = "SANDBOX" →
  pr_To r ∈ ["gateway"; "WAN"] ∨ ∃ c, c ∈ PlatformComponents s ∧ c_Zone c = "SANDBOX" ∧ pr_SourceCIDR r = host_of c.
Proof.
  intros Ho Hf. destruct Ho as [Hfl _ _|z m _ _ _ Hz Hfl _ _|source ca _ Hin _ Hfl He _|ap zone net pr po _ _ Hfl _ _ _|ap _ Hfl _ _
    |d i src dst _ _ Hs _ Hfl He _ _|d i src url _ _ Hs _ _ _ tunnel Hfl He _ _ _|pf _ Hfl _ _ _];
    unfold flow, ends in *.
  - left. assert (forallb (fun x : string * string * string * list string => (x.1.1.1 != "SANDBOX") || bool_decide (x.1.1.2 ∈ ["gateway"; "WAN"]))
      zone_table = true) as Hall by by vm_compute. rewrite forallb_forall in Hall. apply list_elem_of_In, Hall in Hfl. cbn in Hfl. rewrite Hf in Hfl.
    by apply bool_decide_eq_true in Hfl.
  - injection Hfl as E _ _ _. rewrite <- E, Hf in Hz. exfalso. revert Hz. apply (bool_decide_unpack _). by vm_compute.
  - injection Hfl as E _ _ _. injection He as He _ _. right. exists source. split_and!; [done|congruence|done].
  - injection Hfl as E _ _ _. congruence.
  - injection Hfl as E _ _ _. congruence.
  - injection Hfl as E _ _ _. injection He as He _ _. right. exists src. split_and!; [by eapply component_found|congruence|done].
  - injection Hfl as E _ _ _. injection He as He _ _. right. exists src. split_and!; [by eapply component_found|congruence|done].
  - injection Hfl as E _ _ _. congruence.
Qed.

(** What reaches MGMT: administration from TRUSTED and the tailnet's appliance,
    or one component in it. *)
Lemma opened_management s airvpn r : opened s airvpn r → pr_To r = "MGMT" →
  flow r = ("TRUSTED", "MGMT", "tcp", ["22"; "443"; "8006"])
  ∨ flow r = ("TRANSIT", "MGMT", "tcp", ["22"; "443"; "8006"])
    ∧ (∃ c, componentReference s "lab-tailnet-01" = Some c ∧ pr_SourceCIDR r = host_of c)
  ∨ ∃ c, c ∈ PlatformComponents s ∧ c_Zone c = "MGMT" ∧ pr_DestinationCIDR r = host_of c.
Proof.
  intros Ho Ht. destruct Ho as [Hfl _ _|z m _ _ _ Hz Hfl _ _|source ca _ Hin _ Hfl He _|ap zone net pr po Ha Hin Hfl He _ _|ap _ Hfl _ _
    |d i src dst _ _ _ Hd Hfl He _ _|d i src url _ _ Hs _ _ _ tunnel Hfl He _ _ _|pf _ Hfl _ _ _].
  - left. assert (forallb (fun x : string * string * string * list string => (x.1.1.2 != "MGMT")
      || bool_decide (x = ("TRUSTED", "MGMT", "tcp", ["22"; "443"; "8006"]))) zone_table = true) as Hall by by vm_compute.
    rewrite forallb_forall in Hall. apply list_elem_of_In, Hall in Hfl. cbn in Hfl. rewrite Ht in Hfl. by apply bool_decide_eq_true in Hfl.
  - injection Hfl as _ E _ _. congruence.
  - injection Hfl as _ E _ _. congruence.
  - right. left. assert (forallb (fun x : string * string * string * list string => (x.1.1.1 != "MGMT")
      || bool_decide (x.1.2 = "tcp" ∧ x.2 = ["22"; "443"; "8006"])) tailnet_table = true) as Hall by by vm_compute.
    rewrite forallb_forall in Hall. apply list_elem_of_In, Hall in Hin. cbn in Hin. pose proof Hfl as Hfl'. unfold flow in Hfl'. injection Hfl' as _ E _ _.
    rewrite <- E, Ht in Hin. apply bool_decide_eq_true in Hin as [-> ->]. split; [by rewrite Hfl, <- E, Ht|]. exists ap. split; [done|]. by injection He.
  - injection Hfl as _ E _ _. congruence.
  - injection Hfl as _ E _ _. injection He as _ He _. do 2 right. exists dst. split_and!; [|congruence|done].
    unfold componentReferences in Hd. destruct (_ == _); [apply list_elem_of_In, filter_In in Hd as [? _]; by apply list_elem_of_In|].
    destruct (componentReference _ _) eqn:Ed; [|by apply elem_of_nil in Hd]. apply list_elem_of_singleton in Hd as ->. by eapply component_found.
  - injection Hfl as _ E _ _. unfold tunnel in E. rewrite Ht in E. by case_match.
  - injection Hfl as _ E _ _. congruence.
Qed.

Record planned (s : Site) (airvpn : option AirVPNProfile) (plan : GatewayPlan) : Prop := {
  pn_valid : Validate s = Ok tt;
  pn_rendered : Forall (fun user => rendered_check (Normalize s) user = Ok tt) (s_UserFirewallRules (Normalize s));
  pn_rules : all_rules (Normalize s) airvpn = Ok (gp_Rules plan);
  pn_interfaces : gp_Interfaces plan = if gw_Mode (s_Gateway s) == "managed" then gatewayInterfaces (Normalize s) else [];
  pn_dhcp : gp_DHCP plan = dhcpSubnets (Normalize s);
}.

Lemma planFromSite_planned s airvpn plan : planFromSite s airvpn = Ok plan → planned s airvpn plan.
Proof.
  unfold planFromSite. intros Hp. apply bind_ok in Hp as ([]&Hv%wrap_ok&Hp). apply bind_ok in Hp as ([]&Hr%eachM_ok&Hp).
  apply bind_ok in Hp as (revision&_&Hp). apply bind_ok in Hp as (dns&_&Hp). apply bind_ok in Hp as (rules&Hrules&Hp).
  apply bind_ok in Hp as ([]&_&[= <-]). by constructor.
Qed.

(** ** The operator's rules in the plan *)

Lemma find_zone_perm (f : string → bool) zs zs' : zs ≡ₚ zs' → NoDup (map z_Name zs) → (∀ n1 n2, f n1 = true → f n2 = true → n1 = n2) →
  List.find (fun z => f (z_Name z)) zs = List.find (fun z => f (z_Name z)) zs'.
Proof.
  intros Hp Hn Hf. destruct (List.find _ zs) as [z|] eqn:E, (List.find _ zs') as [z'|] eqn:E'; try done.
  - apply find_some in E as [Hz%list_elem_of_In Ez], E' as [Hz'%list_elem_of_In Ez']. f_equal. rewrite <- Hp in Hz'.
    by eapply (NoDup_map_inj z_Name); eauto.
  - apply find_some in E as [Hz%list_elem_of_In Ez]. apply find_none_Forall in E'. rewrite Forall_forall in E'.
    rewrite Hp in Hz. specialize (E' z Hz). cbn in E'. congruence.
  - apply find_some in E' as [Hz%list_elem_of_In Ez]. apply find_none_Forall in E. rewrite Forall_forall in E.
    rewrite <- Hp in Hz. specialize (E z' Hz). cbn in E. congruence.
Qed.

Lemma contract_names s : site_good s → NoDup (map z_Name (n_Zones (s_Network s))).
Proof.
  intros Hg. assert (map z_Name (n_Zones (s_Network s)) = map fst (map zone_key (n_Zones (s_Network s)))) as -> by by rewrite map_map.
  rewrite (vg_zones s Hg). apply (bool_decide_unpack _). by vm_compute.
Qed.

Lemma normalized_zones_perm s : n_Zones (s_Network (Normalize s)) ≡ₚ n_Zones (s_Network s).
Proof. apply stable_sort_perm. Qed.

Lemma normalized_find s n : site_good s →
  List.find (fun z => n == z_Name z) (n_Zones (s_Network (Normalize s))) = List.find (fun z => n == z_Name z) (n_Zones (s_Network s)).
Proof.
  intros Hg. pose (f := fun x : string => n == x). apply (find_zone_perm f); unfold f; [apply normalized_zones_perm|..].
  - rewrite normalized_zones_perm. by apply contract_names.
  - intros n1 n2 E1 E2. bools. congruence.
Qed.

(** What a selector is in a rule: the network of the zone it names, or itself. *)
Definition selector_network (s : Site) (sel : string) : string :=
  match List.find (fun zone => sel == z_Name zone) (n_Zones (s_Network s)) with Some zone => z_Network zone | None => sel end.

Lemma rule_zone_found s sel : site_good s → sel ∈ rule_zones →
  ∃ zone, List.find (fun zone => sel == z_Name zone) (n_Zones (s_Network s)) = Some zone ∧ is_user_zone (z_Type zone) = true.
Proof.
  intros Hg Hin. assert (existsb (fun d => (z_Name d == sel) && is_user_zone (z_Type d)) default_zones = true) as Hd.
  { revert Hin. unfold rule_zones. rewrite !elem_of_cons. by intros [->|[->|[->|H'%elem_of_nil]]]. }
  apply existsb_exists in Hd as (d&Hd%list_elem_of_In&Ed). bools.
  assert (zone_key d ∈ map zone_key (n_Zones (s_Network s))) as Hk.
  { rewrite (vg_zones s Hg). by apply list_elem_of_fmap_2. }
  apply list_elem_of_fmap in Hk as (z&Hk&Hz). injection Hk as En' Et _ _ _.
  destruct (List.find _ _) as [zone|] eqn:E.
  - exists zone. split; [done|]. apply find_some in E as [Hzone%list_elem_of_In E]. bools.
    assert (zone = z) as ->; [|congruence]. eapply (NoDup_map_inj z_Name); [by apply contract_names|done..|congruence].
  - apply find_none_Forall in E. rewrite Forall_forall in E. specialize (E z Hz). cbn in E. bools. congruence.
Qed.

(** The zone of the operator's selectors: the zone it names, or a zone of the site
    whose network holds the first address of the selector's. *)
Definition selector_in (s : Site) (sel : string) (zone : Zone) : Prop :=
  zone ∈ n_Zones (s_Network s) ∧ is_user_zone (z_Type zone) = true
  ∧ (sel = z_Name zone
     ∨ ∃ p, parse_cidr sel = Some p ∧ ipInZone (p_addr p) zone = true).

Lemma userSelector_network s sel selected : site_good s → canonical_selector sel →
  userSelector (Normalize s) sel = Some selected → selected.2 = selector_network s sel.
Proof.
  intros Hg Hc. unfold userSelector, selector_network. rewrite canonical_inert by done. cbn zeta. rewrite (normalized_find s sel Hg).
  destruct Hc as [Hz|(p&Hv&Hm&->)].
  { destruct (rule_zone_found s sel Hg Hz) as (zone&->&->). by intros [= <-]. }
  destruct (List.find _ (n_Zones (s_Network s))) as [zone|]; [destruct (is_user_zone _); [|done]; by intros [= <-]|].
  rewrite parse_prefix_text by done. destruct (List.find _ _); [|done]. intros [= <-]. cbn. by rewrite Hm.
Qed.

Lemma userSelector_zone s sel selected : site_good s → canonical_selector sel →
  userSelector (Normalize s) sel = Some selected → ∃ zone, selector_in s sel zone ∧ selected.1 = z_Name zone.
Proof.
  intros Hg Hc. unfold userSelector. rewrite canonical_inert by done. cbn zeta. rewrite (normalized_find s sel Hg).
  destruct (List.find _ (n_Zones (s_Network s))) as [zone|] eqn:En.
  { apply find_some in En as [Hz%list_elem_of_In En]. destruct (is_user_zone (z_Type zone)) eqn:Eu; [|done].
    intros [= <-]. bools. exists zone. split; [|done]. refine (conj Hz (conj Eu (or_introl _))). done. }
  destruct Hc as [Hz|(p&Hv&Hm&->)]; [by destruct (rule_zone_found s sel Hg Hz) as (?&?&?); congruence|].
  rewrite parse_prefix_text by done. clear En. destruct (List.find _ _) as [zone|] eqn:Ez; [|done]. intros [= <-].
  apply find_some in Ez as [Hz%list_elem_of_In Ez]. rewrite normalized_zones_perm in Hz. exists zone. split; [|done].
  apply andb_prop in Ez as [Eu Ec]. split_and!; [done|done|right]. exists p.
  split; [apply parse_cidr_Some; exists false; by apply parse_prefix_text|]. unfold ipInZone.
  destruct (net_parse_cidr (z_Network zone)) as [[q m|]|] eqn:Eq; try done. cbn [cidr_contains_base] in Ec. rewrite Hm in Ec. exact Ec.
Qed.

Lemma zone_network_parses s z : site_good s → z ∈ n_Zones (s_Network s) → ∃ p, parse_cidr (z_Network z) = Some p.
Proof.
  intros Hg Hz. apply (contract_zone s z Hg), list_elem_of_fmap in Hz as (d&Hk&Hd). injection Hk as _ _ _ -> _.
  assert (Forall (fun d => is_Some (parse_cidr (z_Network d))) default_zones) as Hall
    by (repeat first [apply Forall_cons_2; [by vm_compute; eexists|]|apply Forall_nil_2]).
  rewrite Forall_forall in Hall. by apply Hall.
Qed.

(** A canonical selector stands for the addresses of its network. *)
Lemma network_covers s sel : site_good s → canonical_selector sel →
  ∃ p, parse_cidr (selector_network s sel) = Some p ∧ ∀ a, prefix_contains p a = true → selector_covers s sel a.
Proof.
  intros Hg Hc. unfold selector_network, selector_covers. destruct (List.find _ _) as [zone|] eqn:E.
  - apply find_some in E as [Hz%list_elem_of_In _]. destruct (zone_network_parses s zone Hg Hz) as (p&Hp). exists p. split; [done|].
    intros a Ha. apply parse_cidr_Some in Hp as (m&Hp). unfold ipInZone. rewrite Hp. cbn. rewrite masked_contains; [done|].
    by apply net_parse_cidr_valid in Hp as [_ ?].
  - destruct Hc as [Hz|(p&Hv&Hm&->)]; [by destruct (rule_zone_found s sel Hg Hz) as (?&?&?); congruence|].
    exists p. assert (parse_cidr (prefix_string p) = Some p) as Hp by (apply parse_cidr_Some; exists false; by apply parse_prefix_text).
    rewrite Hp. split; [done|]. intros a Ha. by exists p.
Qed.

Lemma normalized_zoneByName s n : site_good s → zoneByName (Normalize s) n = zoneByName s n.
Proof.
  intros Hg. pose (f := fun x : string => x == n). apply (find_zone_perm f); unfold f; [apply normalized_zones_perm|..].
  - rewrite normalized_zones_perm. by apply contract_names.
  - intros n1 n2 E1 E2. bools. congruence.
Qed.

Lemma normalized_monitor_reading s m : site_good s → monitor_reading (Normalize s) m → monitor_reading s m.
Proof.
  intros Hg (Hp&Hports&a&zone&r&c&Hs&Hz&Ha&Hr&Hrz&Hra&Hc&Hm&Hd).
  set (key := fun c => (c_Name c, c_Module c, c_Zone c, c_Address c)).
  assert (key c ∈ map key (PlatformComponents s)) as Hin.
  { rewrite <- (normalized_components key s) by done. by apply list_elem_of_fmap_2. }
  apply list_elem_of_fmap in Hin as (c0&E&Hc0). injection E as En Em Ez Ea.
  split; [done|]. split; [done|]. exists a, zone, r, c0. rewrite normalized_zoneByName in Hz by done. split_and!; try done.
  - revert Hr. cbn. unfold sort_by2. by rewrite stable_sort_perm.
  - unfold is_monitor in *. by rewrite <- En, <- Em, <- Ez.
  - by rewrite Hd, Ea.
Qed.

(** ** From an operator's rule to a rule of the plan *)

Lemma normalized_user s u : site_good s → u ∈ s_UserFirewallRules (Normalize s) →
  ∃ rule m, rule ∈ s_UserFirewallRules s ∧ rule_meaning rule = Ok m ∧ meaning_ok m ∧ fr_ID rule ≠ ""
    ∧ u = mkUserRule (fr_ID rule) (fm_Source m) (fm_Destination m) (fm_Protocol m) (fm_Ports m).
Proof.
  intros Hg Hu. cbn in Hu. unfold normalize_rules in Hu. rewrite elem_of_sort_by in Hu.
  apply list_elem_of_fmap in Hu as (rule&->&Hr). pose proof (vg_rules s Hg) as [_ (ms&[Hm Hi _ _ _])]%user_rules_spec.
  rewrite Forall_forall in Hi. specialize (Hi rule Hr). apply list_elem_of_lookup in Hr as (i&Hr).
  destruct (Forall2_lookup_l _ _ _ _ _ Hm Hr) as (m&_&Hrm). destruct (rule_meaning_ok _ _ Hrm) as [Hok ->].
  exists rule, m. split_and!; try done; [by eapply list_elem_of_lookup_2|]. intros E. unfold rule_id_ok in Hi. by rewrite E in Hi.
Qed.

(** The rule of the plan says what the operator's rule means. *)
Record opens (s : Site) (rule : UserFirewallRule) (m : RuleMeaning) (r : PolicyRule) : Prop := {
  op_id : pr_UserRuleID r = fr_ID rule;
  op_action : pr_Action r = "allow" ∧ pr_NAT r = false ∧ pr_SourceMAC r = "" ∧ pr_DestinationHost r = "";
  op_traffic : pr_Protocol r = fm_Protocol m ∧ pr_Ports r = fm_Ports m;
  op_from : ∃ zone, selector_in s (fm_Source m) zone ∧ pr_From r = z_Name zone;
  op_to : (∃ zone, selector_in s (fm_Destination m) zone ∧ pr_To r = z_Name zone) ∨ monitor_reading s m ∧ pr_To r = "INFRA";
  op_ends : pr_SourceCIDR r = selector_network s (fm_Source m) ∧ pr_DestinationCIDR r = selector_network s (fm_Destination m);
}.

Lemma opens_with_sequence s rule m r r' : with_sequence 0 r = with_sequence 0 r' → opens s rule m r' → opens s rule m r.
Proof.
  intros E [? ? ? Hf Ht ?]. assert (pr_From r = pr_From r' ∧ pr_To r = pr_To r') as [Ef Et] by by injection E.
  constructor; [injection E; congruence..|by rewrite Ef|by rewrite Et|injection E; congruence].
Qed.

(** The monitor's address is the name of no zone. *)
Lemma slash_no_zone s c address : site_good s → canonical_selector c → c = address +:+ "/32" → selector_network s c = c.
Proof.
  intros Hg Hc E. unfold selector_network. destruct (List.find _ _) as [zone|] eqn:Ef; [|done]. exfalso.
  apply find_some in Ef as [Hz%list_elem_of_In Ef]. bools. apply (contract_zone s zone Hg), list_elem_of_fmap in Hz as (d&Hk&Hd).
  injection Hk as En _ _ _ _. assert (forallb (fun d => sall (fun c => negb (Ascii.eqb c "/")) (z_Name d)) default_zones = true) as Hall by done.
  rewrite forallb_forall in Hall. specialize (Hall d (proj1 (list_elem_of_In _ _) Hd)). cbn beta in Hall.
  rewrite <- En, <- Ef, E, sall_app in Hall. by rewrite andb_false_r in Hall.
Qed.

(** The addresses of a rule's network. *)
Definition cidr_covers (text : string) (a : Addr) : Prop := ∃ p, parse_cidr text = Some p ∧ prefix_contains p a = true.

Lemma user_rule_opens s u src dst : site_good s → u ∈ s_UserFirewallRules (Normalize s) →
  userSelector (Normalize s) (fr_Source u) = Some src → userRuleDestinationSelector (Normalize s) u = Some dst →
  ∃ rule m, rule ∈ s_UserFirewallRules s ∧ rule_meaning rule = Ok m ∧ opens s rule m (user_policy_rule u src dst)
    ∧ (monitor_reading s m ∨ ∀ sel a, sel ∈ [fm_Source m; fm_Destination m] → cidr_covers (selector_network s sel) a → isolated s a).
Proof.
  intros Hg Hu Hs Hd. destruct (normalized_user s u Hg Hu) as (rule&m&Hr&Hm&Hok&Hid&->). destruct Hok as [Hcs Hcd Hp Hports _].
  exists rule, m. split_and!; [done..| |].
  - cbn in Hs, Hd. pose proof (userSelector_network s _ _ Hg Hcs Hs) as Es.
    assert (to_lower (fm_Protocol m) = fm_Protocol m) as El by by destruct Hp as [->|[->| ->]].
    assert (((∃ zone, selector_in s (fm_Destination m) zone ∧ dst.1 = z_Name zone) ∨ monitor_reading s m ∧ dst.1 = "INFRA")
      ∧ dst.2 = selector_network s (fm_Destination m)) as [Hz Ed].
    { unfold userRuleDestinationSelector in Hd. cbn in Hd. destruct (userSelector _ (fm_Destination m)) as [sel|] eqn:Esel.
      { injection Hd as <-. split; [left; by apply userSelector_zone|by apply userSelector_network]. }
      destruct (IsReservedServersObservabilityRule _ _ _ _ _) eqn:Er; [|done]. injection Hd as <-. cbn. rewrite El in Er.
      apply reserved_monitor_reading in Er; [|done]. apply (normalized_monitor_reading s m Hg) in Er.
      split; [by right|]. destruct Er as (_&_&a&zone&r&c&_&_&_&_&_&_&_&_&Ed). symmetry. by eapply slash_no_zone. }
    pose proof (userSelector_zone s _ _ Hg Hcs Hs) as Hf. by constructor.
  - destruct (rule_isolated s rule Hg Hr) as (m'&Hm'&[Hmon|Hiso]); [left|right]; rewrite Hm in Hm'; injection Hm' as <-; [done|].
    intros sel a Hin (p&Hp'&Ha). apply (Hiso sel); [done|]. assert (canonical_selector sel) as Hc.
    { rewrite !elem_of_cons in Hin. destruct Hin as [->|[->|Hin%elem_of_nil]]; done. }
    destruct (network_covers s sel Hg Hc) as (q&Hq&Hcov). rewrite Hq in Hp'. injection Hp' as ->. by apply Hcov.
Qed.

Lemma rendered_selectors s u : rendered_check s u = Ok tt →
  ∃ src dst, userSelector s (fr_Source u) = Some src ∧ userRuleDestinationSelector s u = Some dst.
Proof.
  unfold rendered_check. intros Hr. apply bind_ok in Hr as ([]&Hs%fail_if_ok&Hd%fail_if_ok).
  destruct (userSelector _ _) as [src|], (userRuleDestinationSelector _ _) as [dst|]; try done. by exists src, dst.
Qed.

Lemma user_rules_ids s : Forall (fun u => rendered_check s u = Ok tt) (s_UserFirewallRules s) →
  map pr_UserRuleID (user_rules s) = map fr_ID (sort_by fr_ID (s_UserFirewallRules s)).
Proof.
  intros Hr. unfold user_rules. rewrite <- (sort_by_perm fr_ID (s_UserFirewallRules s)) in Hr. revert Hr.
  generalize (sort_by fr_ID (s_UserFirewallRules s)). intros us. induction us as [|u us IH]; [done|]. intros [Hu Hus]%Forall_cons.
  apply rendered_selectors in Hu as (src&dst&Hs&Hd). cbn. rewrite Hs, Hd, map_app, IH by done. done.
Qed.

Lemma in_user_rules s r : r ∈ user_rules s → ∃ u src dst, u ∈ s_UserFirewallRules s
  ∧ userSelector s (fr_Source u) = Some src ∧ userRuleDestinationSelector s u = Some dst ∧ r = user_policy_rule u src dst.
Proof.
  unfold user_rules. intros (u&Hu&Hr)%list_elem_of_In%in_flat_map. apply list_elem_of_In, elem_of_sort_by in Hu.
  destruct (userSelector _ _) as [src|] eqn:Es; [|done]. destruct (userRuleDestinationSelector _ _) as [dst|] eqn:Ed; [|done].
  destruct Hr as [<-|[]]. by exists u, src, dst.
Qed.

Lemma filter_none {A : Type} (f : A → bool) l : Forall (fun x => f x = false) l → List.filter f l = [].
Proof. intros Hl. induction Hl as [|x l Hx _ IH]; [done|]. cbn. by rewrite Hx. Qed.
Lemma filter_all {A : Type} (f : A → bool) l : Forall (fun x => f x = true) l → List.filter f l = l.
Proof. intros Hl. induction Hl as [|x l Hx _ IH]; [done|]. cbn. by rewrite Hx, IH. Qed.

Lemma app_eight {A : Type} (l1 l2 l3 l4 l5 l6 l7 l8 k : list A) :
  (l1 ++ l2 ++ l3 ++ l4 ++ l5 ++ l6 ++ l7 ++ l8) ++ k = (l1 ++ l2 ++ l3 ++ l4 ++ l5 ++ l6 ++ l7) ++ l8 ++ k.
Proof. by rewrite <- !app_assoc. Qed.

(** The rules of a plan that are not the platform's are the operator's. *)
Lemma rule_list_parts s airvpn : (∀ u, u ∈ s_UserFirewallRules s → fr_ID u ≠ "") →
  ∃ platform, rule_list s airvpn = platform ++ user_rules s ++ handshakes airvpn ∧ Forall (platform_ok s airvpn) platform
    ∧ Forall (fun r => is_user_rule r = true) (user_rules s) ∧ Forall (fun r => is_user_rule r = false) (handshakes airvpn).
Proof.
  intros Hid. eexists. split; [unfold rule_list, policy_list; apply app_eight|]. split_and!.
  - exact (platform_list_ok s airvpn).
  - apply Forall_forall. intros r (u&src&dst&Hu&_&_&->)%in_user_rules. unfold is_user_rule. cbn.
    apply negb_true_iff, bool_decide_eq_false. by apply Hid.
  - destruct airvpn; [by apply Forall_singleton|constructor].
Qed.

Lemma planned_user_rules s airvpn plan : planned s airvpn plan →
  map (with_sequence 0) (List.filter is_user_rule (gp_Rules plan)) = map (with_sequence 0) (user_rules (Normalize s)).
Proof.
  intros [Hg%site_Validate_good _ Hr _ _]. apply all_rules_list in Hr as [_ Hr].
  destruct (rule_list_parts (Normalize s) airvpn) as (platform&E&Hp&Hu&Hh).
  { intros u (rule&m&_&_&_&Hid&->)%normalized_user; done. }
  rewrite filter_numbers, Hr, <- filter_numbers, E, !List.filter_app. f_equal.
  rewrite (filter_none _ platform), (filter_all _ (user_rules _)), (filter_none _ (handshakes _)); [apply app_nil_r|exact Hh|exact Hu|].
  eapply Forall_impl; [exact Hp|]. intros r. apply po_user.
Qed.

(** ** What the other rules open *)

Lemma rule_list_ok s airvpn plan r : planned s airvpn plan → r ∈ rule_list (Normalize s) airvpn →
  is_user_rule r = true ∧ pr_Action r = "allow" ∧ pr_NAT r = false ∨ platform_ok (Normalize s) airvpn r.
Proof.
  intros [Hg%site_Validate_good _ Hr _ _] Hin. destruct (rule_list_parts (Normalize s) airvpn) as (platform&E&Hp&Hu&_).
  { intros u (rule&m&_&_&_&Hid&->)%normalized_user; done. }
  rewrite E, !elem_of_app in Hin. rewrite Forall_forall in Hp, Hu. destruct Hin as [Hin|[Hin|Hin]].
  - right. by apply Hp.
  - left. split; [by apply Hu|]. by apply in_user_rules in Hin as (u&src&dst&_&_&_&->).
  - right. pose proof (handshake_ok _ _ _ Hr) as Hh. rewrite Forall_forall in Hh. by apply Hh.
Qed.

(** ** The interfaces of a managed gateway *)

Definition wan_interface (s : Site) : Interface := mkInterface "WAN" "wan0" (gw_UpstreamMAC (s_Gateway s)) "vmbr0" 0 "dhcp" "dhcp".

Definition lan_interfaces : list Interface := [
  mkInterface "TRUSTED" "trusted0" "02:00:00:00:01:02" "vmbr1" 30 "10.10.30.1/24" "static";
  mkInterface "SERVERS" "servers0" "02:00:00:00:01:03" "vmbr1" 20 "10.10.20.1/24" "static";
  mkInterface "SANDBOX" "sandbox0" "02:00:00:00:01:04" "vmbr1" 40 "10.10.40.1/24" "static";
  mkInterface "MGMT" "mgmt0" "02:00:00:00:01:05" "vmbr1" 99 "10.10.99.1/24" "static";
  mkInterface "TRANSIT" "transit0" "02:00:00:00:01:06" "vmbr1" 5 "10.10.5.1/24" "static";
  mkInterface "INFRA" "infra0" "02:00:00:00:01:07" "vmbr1" 10 "10.10.10.1/24" "static"
].

Lemma contract_interfaces s : map zone_key (n_Zones (s_Network s)) = map zone_key default_zones →
  gatewayInterfaces s = wan_interface s :: lan_interfaces.
Proof.
  unfold gatewayInterfaces, interface_step, ZoneForType.
  destruct (n_Zones (s_Network s)) as [|[] [|[] [|[] [|[] [|[] [|[] [|]]]]]]]; try done.
  unfold zone_key. cbn [map z_Name z_Type z_VLAN z_Network z_Gateway default_zones]. intros Hk. simplify_eq. by vm_compute.
Qed.

(** Each network of the contract is behind one of them. *)
Definition behind (d : Zone) (i : Interface) : bool :=
  (if_Name i != "wan0")
  && match parse_cidr (if_Address i), parse_cidr (z_Network d) with
     | Some q, Some n => (p_bits q =? p_bits n) && (mask_bits (p_bits q) (p_addr q) =? p_addr n)
     | _, _ => false
     end.

Lemma zone_behind s z : site_good s → z ∈ n_Zones (s_Network s) →
  ∃ i q m, i ∈ lan_interfaces ∧ if_Name i ≠ "wan0" ∧ net_parse_cidr (if_Address i) = Some (CIDR4 q m)
    ∧ ∀ a, ipInZone a z = true → prefix_contains q a = true.
Proof.
  intros Hg Hz. apply (contract_zone s z Hg), list_elem_of_fmap in Hz as (d&Hk&Hd). injection Hk as _ _ _ En _.
  assert (forallb (fun d => existsb (behind d) lan_interfaces) default_zones = true) as Hall by by vm_compute.
  rewrite forallb_forall in Hall. specialize (Hall d (proj1 (list_elem_of_In _ _) Hd)).
  apply existsb_exists in Hall as (i&Hi%list_elem_of_In&Ei). unfold behind in Ei. bools.
  destruct (parse_cidr (if_Address i)) as [q|] eqn:Eq; [|done]. destruct (parse_cidr (z_Network d)) as [n|] eqn:Ep; [|done]. bools.
  apply parse_cidr_Some in Eq as (mq&Eq), Ep as (m&Ep). exists i, q, mq. split_and!; try done. intros a Ha.
  unfold ipInZone in Ha. rewrite En, Ep in Ha. cbn in Ha.
  pose proof (net_parse_cidr_valid _ _ _ Eq) as [_ ?]. pose proof (net_parse_cidr_valid _ _ _ Ep) as [_ ?].
  rewrite masked_contains in Ha by done. rewrite <- masked_contains by done. assert (masked q = n) as ->; [|done].
  destruct n as [na nb]. cbn in *. unfold masked. f_equal; lia.
Qed.

(** What is accepted of the upstream lease. *)
Record upstream_good (plan : GatewayPlan) (upstream : UpstreamObservation) (address gateway : Addr) (p : Prefix) : Prop := {
  ug_interface : uo_Interface upstream = "wan0";
  ug_mac : ∃ wan rest, gp_Interfaces plan = wan :: rest ∧ if_Name wan = "wan0" ∧ equal_fold (uo_MAC upstream) (if_MAC wan) = true
    ∧ ValidateGatewayUpstreamMAC (uo_MAC upstream) = Ok tt;
  ug_address : parse_cidr (uo_Address upstream) = Some p ∧ p_addr p = address;
  ug_gateway : parse_to4 (trim_space (uo_Gateway upstream)) = Some gateway ∧ prefix_contains p gateway = true ∧ gateway ≠ address;
  ug_disjoint : ∀ i q m a, i ∈ gp_Interfaces plan → if_Name i ≠ "wan0" → net_parse_cidr (if_Address i) = Some (CIDR4 q m) →
    prefix_contains p a = true → prefix_contains q a = false;
}.

Lemma no_overlap address p m mq i q a : interface_overlaps address (CIDR4 p m) i = false → valid_prefix p → p_addr p = address →
  if_Name i ≠ "wan0" → net_parse_cidr (if_Address i) = Some (CIDR4 q mq) → prefix_contains p a = true → prefix_contains q a = false.
Proof.
  intros Ho Hp <- Hn Hq Ha. unfold interface_overlaps in Ho. destruct (if_Name i == "wan0") eqn:E; bools; [done|]. rewrite Hq in Ho.
  pose proof (net_parse_cidr_valid _ _ _ Hq) as Hv. apply orb_false_iff in Ho as [H1' H2']. cbn in H1', H2'.
  rewrite !masked_contains in H1', H2' by (apply Hp || apply Hv). apply not_true_is_false. intros Hqa.
  destruct (networks_nested p q a (p_addr p) Hp Hv Ha Hqa (address_contained p Hp)) as [Hm|Hm]; cbn in *; congruence.
Qed.

Lemma ValidateUpstreamObservation_good plan upstream : ValidateUpstreamObservation plan upstream = Ok tt →
  ∃ address gateway p, upstream_good plan upstream address gateway p.
Proof.
  unfold ValidateUpstreamObservation. intros Hv. apply bind_ok in Hv as ([]&Hi%fail_if_ok&Hv). bools.
  destruct (gp_Interfaces plan) as [|wan rest] eqn:Ei; [done|]. apply bind_ok in Hv as ([]&Hw%fail_if_ok&Hv).
  apply bind_ok in Hv as ([]&Hm%fail_if_ok&Hv). apply bind_ok in Hv as ([]&Hu%wrap_ok&Hv). bools.
  destruct (parse_to4 (trim_space _)) as [address|] eqn:Ea; [|done].
  destruct (net_parse_cidr (uo_Address upstream)) as [[p m|]|] eqn:Ec; try done. apply bind_ok in Hv as ([]&Ht%fail_if_ok&Hv).
  apply bind_ok in Hv as ([]&Hg%fail_if_ok&Hv). destruct (parse_to4 (trim_space (uo_Gateway upstream))) as [gateway|] eqn:Eg; [|done].
  destruct (List.find _ _) eqn:Eo in Hv; [done|]. apply find_none_Forall in Eo. rewrite Forall_forall in Eo. bools.
  pose proof (net_parse_cidr_valid _ _ _ Ec) as Hp. apply parse_to4_valid in Ea.
  assert (p_addr p = address) as Hpa by by eapply cidr_text_address.
  exists address, gateway, p. constructor; try done.
  - exists wan, rest. done.
  - split; [|done]. apply parse_cidr_Some. by exists m.
  - split_and!; try done. cbn in *. rewrite masked_contains in * by apply Hp. done.
  - intros i q mq a Hin Hn Hq Ha. rewrite Ei in Hin. eapply no_overlap; eauto.
Qed.
End plan.

(** C22. The operator's rules in the policy of the gateway.  A plan contains
    exactly one rule for each of the operator's, in the order of their
    identifiers; such a rule allows the protocol and the ports that the operator's
    rule means, between the networks its two selectors stand for, without NAT, and
    from and to the zones the selectors name or lie in (a network lies in the zone
    that holds its first address).  The one exception is the reserved reading of
    the monitor, HTTPS from a reserved SERVERS address to the monitor's own
    address, which leads to INFRA; of every other rule, no address of either
    network is in INFRA, MGMT or TRANSIT or belongs to a component boetticher
    owns. *)
Theorem planFromSite_user_rules `{GoUnicode, GoURL, SiteDigest} s airvpn plan : planFromSite s airvpn = Ok plan →
  map pr_UserRuleID (List.filter is_user_rule (gp_Rules plan)) = sort_strings (map fr_ID (s_UserFirewallRules s))
  ∧ ∀ r, r ∈ gp_Rules plan → is_user_rule r = true →
      ∃ rule m, rule ∈ s_UserFirewallRules s ∧ rule_meaning rule = Ok m ∧ opens s rule m r
        ∧ (monitor_reading s m
           ∨ ∀ text a, text ∈ [pr_SourceCIDR r; pr_DestinationCIDR r] → cidr_covers text a → isolated s a).
Proof.
  intros Hp%planFromSite_planned. pose proof (planned_user_rules _ _ _ Hp) as Hu. destruct Hp as [Hg%site_Validate_good Hren _ _ _]. split.
  - apply (f_equal (map pr_UserRuleID)) in Hu. rewrite !map_map in Hu. etrans; [exact Hu|]. etrans; [exact (user_rules_ids _ Hren)|].
    apply (Sorted_unique String.le); [..|].
    + apply (Sorted_fmap fr_ID (key_le fr_ID)); [done|apply sort_by_sorted].
    + apply sort_strings_sorted.
    + rewrite sort_strings_perm, sort_by_perm.
      change (s_UserFirewallRules (Normalize s)) with (normalize_rules (s_UserFirewallRules s)). unfold normalize_rules. rewrite sort_by_perm, map_map. done.
  - intros r Hr Hi. assert (with_sequence 0 r ∈ map (with_sequence 0) (user_rules (Normalize s))) as Hin.
    { rewrite <- Hu. apply list_elem_of_fmap_2, list_elem_of_In, filter_In. split; [by apply list_elem_of_In|done]. }
    apply list_elem_of_fmap in Hin as (r'&E&(u&src&dst&Hus&Es&Ed&->)%in_user_rules).
    destruct (user_rule_opens s u src dst Hg Hus Es Ed) as (rule&m&Hrule&Hm&Hop&Hiso). exists rule, m.
    pose proof (opens_with_sequence _ _ _ _ _ E Hop) as Hop'. split_and!; try done. destruct Hiso as [|Hiso]; [by left|right].
    intros text a Hin Hcov. destruct (op_ends _ _ _ _ Hop') as [Hsrc Hdst]. rewrite !elem_of_cons, Hsrc, Hdst in Hin.
    destruct Hin as [->|[->|Hin%elem_of_nil]]; [..|done]; (eapply Hiso; [|exact Hcov]; set_solver).
Qed.

(** C23. The policy of the gateway opens nothing that is not listed.  The rules of a
    plan are numbered from one in their order; NAT is only ever applied towards the
    WAN; and every rule that is not one of the operator's denies, or is one of the
    kinds of [opened]: an entry of the fixed table between zones; HTTPS of SERVERS
    and TRUSTED to the monitor alone; the certificate authority's port for a
    component; the fixed services for the tailnet's appliance; SSH from the host to
    that appliance; the protocol and ports of a module's declared intent, between the
    two components, or from the component to the one host of the endpoint, that it
    names; and the handshake of the VPN provider.  So nothing lets SANDBOX as a zone
    reach anything but the gateway and the WAN, and nothing reaches MGMT but
    administration from TRUSTED and the tailnet's appliance, or an intent that names
    a component there. *)
Theorem planFromSite_zone_policy `{GoUnicode, GoURL, SiteDigest} s airvpn plan : planFromSite s airvpn = Ok plan →
  numbered (gp_Rules plan)
  ∧ ∀ r, r ∈ gp_Rules plan →
      (pr_NAT r = true → pr_To r = "WAN")
      ∧ (pr_Action r = "deny" ∨ pr_Action r = "allow" ∧ (is_user_rule r = true ∨ opened (Normalize s) airvpn r))
      ∧ (pr_Action r = "allow" → is_user_rule r = false →
          (pr_From r = "SANDBOX" → pr_To r ∈ ["gateway"; "WAN"]
             ∨ ∃ c, c ∈ PlatformComponents (Normalize s) ∧ c_Zone c = "SANDBOX" ∧ pr_SourceCIDR r = host_of c)
          ∧ (pr_To r = "MGMT" → flow r = ("TRUSTED", "MGMT", "tcp", ["22"; "443"; "8006"])
             ∨ flow r = ("TRANSIT", "MGMT", "tcp", ["22"; "443"; "8006"])
               ∧ (∃ c, componentReference (Normalize s) "lab-tailnet-01" = Some c ∧ pr_SourceCIDR r = host_of c)
             ∨ ∃ c, c ∈ PlatformComponents (Normalize s) ∧ c_Zone c = "MGMT" ∧ pr_DestinationCIDR r = host_of c)).
Proof.
  intros Hp%planFromSite_planned. pose proof (pn_rules _ _ _ Hp) as Hr. split; [by apply (all_rules_list _ _ _ Hr)|].
  intros r (r'&Hr'&E)%(in_rules _ _ _ _ Hr).
  assert (is_user_rule r = is_user_rule r' ∧ pr_Action r = pr_Action r' ∧ pr_NAT r = pr_NAT r' ∧ pr_To r = pr_To r') as (Eu&Ea&En&Et)
    by by apply same_fields.
  destruct (rule_list_ok _ _ _ _ Hp Hr') as [(Hu&Hact&Hnat)|[Hu [[Hact Hnat]|[Hact Ho]]]]; rewrite Eu, Ea, En, Hu, Hact, ?Hnat.
  - split_and!; [done| |done]. right. split; [done|by left].
  - split_and!; [done|by left|done].
  - apply (opened_sequence _ _ _ _ E) in Ho. split_and!; [| |intros _ _; split; [by apply opened_sandbox with airvpn|by apply opened_management with airvpn]].
    + rewrite <- En. apply (opened_nat _ _ _ Ho).
    + right. split; [done|by right].
Qed.

(** A gateway is only planned on an upstream network that it can tell from its
    own.  When a plan binds an observed lease, the site's gateway is managed, its
    interfaces are the WAN and the six of the contract, the lease is of the WAN
    interface with the MAC address the site gives it, which is a unicast and
    locally administered one of no other interface, the upstream gateway is
    another address of the lease's network, and no address of that network
    belongs to any zone of the site. *)
Theorem upstream_plan_sound `{GoUnicode, GoURL, SiteDigest} s upstream plan :
  PlanFromSiteWithUpstream s upstream = Ok plan
    ∨ (∃ profile, PlanFromSiteWithUpstreamAndAirVPN s upstream profile = Ok plan) →
  gw_Mode (s_Gateway s) = "managed" ∧ gp_Upstream plan = Some upstream
  ∧ gp_Interfaces plan = wan_interface s :: lan_interfaces
  ∧ ∃ address gateway p, upstream_good plan upstream address gateway p
      ∧ ∀ z a, z ∈ n_Zones (s_Network s) → prefix_contains p a = true → ipInZone a z = false.
Proof.
  intros Hp. assert (∃ airvpn base, planFromSite s airvpn = Ok base ∧ ValidateUpstreamObservation base upstream = Ok tt
    ∧ plan = with_upstream base upstream) as (airvpn&base&Hb%planFromSite_planned&Hu&->).
  { destruct Hp as [Hp|(profile&Hp)]; apply bind_ok in Hp as (base&Hb&Hp); apply bind_ok in Hp as ([]&Hu&[= <-]); eauto. }
  apply ValidateUpstreamObservation_good in Hu as (address&gateway&p&Hu). destruct Hb as [Hg%site_Validate_good _ _ Hi _].
  destruct (gw_Mode (s_Gateway s) == "managed") eqn:Em.
  - rewrite contract_interfaces in Hi by by apply normalized_zones. bools. split_and!; try done. exists address, gateway, p.
    split; [by destruct Hu|]. intros z a Hz Ha. destruct (zone_behind s z Hg Hz) as (i&q&m&Hin&Hn&Hq&Hz'). apply not_true_is_false.
    intros Hza%Hz'. assert (i ∈ gp_Interfaces base) as Hib by (rewrite Hi; by right).
    pose proof (ug_disjoint _ _ _ _ _ Hu i q m a Hib Hn Hq Ha). congruence.
  - destruct (ug_mac _ _ _ _ _ Hu) as (wan&rest&E&_). by rewrite Hi in E.
Qed.

(** ** Witnesses *)

Definition sample_profile : AirVPNProfile :=
  mkProfile "de.vpn.example" 1637 "10.128.0.2" [] "0123456789abcdef0123456789abcdef0123456789abcdef0123456789abcdef".
Definition sample_lease : UpstreamObservation := mkUpstreamObservation "wan0" DefaultGatewayUpstreamMAC "192.168.1.20/24" "192.168.1.1".

Definition sample_plan : result PlanError GatewayPlan :=
  @planFromSite ascii_only plain_url sample_digest sample_rules_site (Some sample_profile).
Definition sample_bound : result PlanError GatewayPlan :=
  @PlanFromSiteWithUpstream ascii_only plain_url sample_digest sample_rules_site sample_lease.

Example upstream_ex (U := ascii_only) (P := plain_url) (D := sample_digest) :
  match PlanFromSite sample_rules_site with
  | Ok plan =>
      ValidateUpstreamObservation plan sample_lease = Ok tt
      ∧ ValidateUpstreamObservation plan (mkUpstreamObservation "wan0" DefaultGatewayUpstreamMAC "10.10.30.20/24" "10.10.30.9")
        = Err (UpstreamOverlap "trusted0")
      ∧ ValidateUpstreamObservation plan (mkUpstreamObservation "wan0" DefaultGatewayUpstreamMAC "10.0.0.20/8" "10.0.0.1")
        = Err (UpstreamOverlap "trusted0")
      ∧ ValidateUpstreamObservation plan (mkUpstreamObservation "wan0" DefaultGatewayUpstreamMAC "192.168.1.20/24" "192.168.2.1")
        = Err (UpstreamGateway "192.168.2.1")
  | Err _ => False
  end.
Proof. by vm_compute. Qed.

Theorem planFromSite_user_rules_witness : ∃ plan, sample_plan = Ok plan
  ∧ map pr_UserRuleID (List.filter is_user_rule (gp_Rules plan)) = ["ufr-1"; "ufr-2"; "ufr-3"].
Proof.
  destruct sample_plan as [plan|] eqn:E; [|by vm_compute in E]. exists plan. split; [done|].
  rewrite (proj1 (@planFromSite_user_rules ascii_only plain_url sample_digest _ _ _ E)). by vm_compute.
Defined.

Theorem planFromSite_zone_policy_witness : ∃ plan, sample_plan = Ok plan ∧ numbered (gp_Rules plan) ∧ length (gp_Rules plan) = 42%nat.
Proof.
  destruct sample_plan as [plan|] eqn:E; [|by vm_compute in E]. exists plan. split; [done|].
  split; [exact (proj1 (@planFromSite_zone_policy ascii_only plain_url sample_digest _ _ _ E))|].
  vm_compute in E. by injection E as <-.
Defined.

Theorem upstream_plan_sound_witness : ∃ plan, sample_bound = Ok plan ∧ gp_Interfaces plan = wan_interface sample_rules_site :: lan_interfaces.
Proof.
  destruct sample_bound as [plan|] eqn:E; [|by vm_compute in E]. exists plan. split; [done|].
  by destruct (@upstream_plan_sound ascii_only plain_url sample_digest _ _ _ (or_introl E)) as (_&_&?&_).
Defined.
End GwPlan.
