(* ===== verification/PxGuest.v ===== *)
(** * Guests of the Proxmox host: what a configuration says
    ([internal/proxmox/plan.go], the checks on observed configurations)

    A guest's configuration is what Proxmox answers: a map from keys to JSON
    values.  Before anything is changed the program compares it with the plan:
    names, ownership, devices, artifact, network interfaces, and for every
    persistent volume its slot, storage, name, size and options.  This file holds
    the data of a plan and these checks, which touch nothing. *)

From S2P Require Export Model.
From Stdlib Require Export SpecFloat.

Open Scope Z_scope.

Module PxGuest.
Import Model.

(** ** More of the standard library *)

(** [strings.Cut] on a one-byte separator. *)
Fixpoint cut (s : string) (sep : ascii) : string * string * bool :=
  match s with
  | EmptyString => (EmptyString, EmptyString, false)
  | String c s =>
      if Ascii.eqb c sep then (EmptyString, s, true)
      else let '(before, after, found) := cut s sep in (String c before, after, found)
  end.
Definition before (s : string) (sep : ascii) : string := (cut s sep).1.1.

(** [url.PathUnescape]: [None] for a percent sign without two hexadecimal digits. *)
Fixpoint path_unescape (s : string) : option string :=
  match s with
  | EmptyString => Some EmptyString
  | String "%" (String a (String b s)) =>
      v ← hex_byte a b; r ← path_unescape s; Some (String (byte_of v) r)
  | String "%" _ => None
  | String c s => r ← path_unescape s; Some (String c r)
  end.

Definition hex_digit (c : ascii) : bool := is_digit c || in_range "a" "f" c || in_range "A" "F" c.
Definition isHex (value : string) : bool := sall hex_digit value.

(** [strconv.Atoi] *)
Definition atoi (s : string) : option Z := parse_int s.

(** A JSON value, as [json.Unmarshal] gives it to an [any]. *)
Inductive Value := JStr (s : string) | JNum (v : spec_float) | JBool (b : bool) | JNull | JOther.
Definition Config : Type := gmap string Value.

(** [v, _ := current[key].(string)] *)
Definition get_str (current : Config) (key : string) : string :=
  match current !! key with Some (JStr s) => s | _ => "" end.

(** The keys of a configuration.  Go visits them in any order; the order only
    decides which of several bad keys a message names. *)
Definition keys (current : Config) : list string := (map_to_list current).*1.

(** ** Plans *)

Inductive GuestKind := KindQEMU | KindLXC.
#[export] Instance GuestKind_eq_dec : EqDecision GuestKind.
Proof. solve_decision. Defined.

Record GuestNIC := mkGuestNIC {
  gn_Name : string;
  gn_Bridge : string;
  gn_VLAN : Z;
  gn_Address : string;
  gn_Gateway : string;
  gn_Method : string;
  gn_MAC : string;
}.

Record GuestPlan := mkGuest {
  g_Nameservers : list string;
  g_VMID : Z;
  g_Name : string;
  g_Kind : GuestKind;
  g_Hostname : string;
  g_Zone : string;
  g_Address : string;
  g_MAC : string;
  g_Gateway : string;
  g_VLAN : Z;
  g_Cores : Z;
  g_MemoryMiB : Z;
  g_DiskGiB : Z;
  g_Monitoring : bool;
  g_Backup : bool;
  g_Tags : list string;
  g_NICs : list GuestNIC;
  g_Owner : string;
  g_Artifact : Artifact;
  g_Persistent : list PersistentState;
  g_Volumes : list PersistentVolume;
  g_Security : GuestSecurity;
  g_ManagedUSBSlots : list string;
}.

Record CloudInitFiles := mkCloudInit { ci_MetaData : string; ci_UserData : string; ci_NetworkConfig : string }.

(** [p_PrivilegedRunner] says whether there is one. *)
Record Plan := mkPlan {
  p_ModelRevision : string;
  p_ManagedBy : string;
  p_Node : string;
  p_Storage : string;
  p_Nameservers : list string;
  p_GatewayImage : string;
  p_GatewayImageURL : string;
  p_GatewaySHA512 : string;
  p_Guests : list GuestPlan;
  p_ArtifactFiles : gmap string string;
  p_OperatorPublicKey : string;
  p_CloudInitFiles : CloudInitFiles;
  p_DestructiveConfirmed : bool;
  p_ForceFirewallRootReplacement : bool;
  p_ForceLegacyLXCRecreation : bool;
  p_PrivilegedRunner : bool;
  p_PrivilegedAddress : string;
  p_PrivilegedUser : string;
}.

(** Why a guest is left alone. *)
Inductive Hold :=
| UnexpectedName (guest key got want : string)
| NotUnprivileged (guest : string) | DeviceMismatch (guest key observed : string)
| UndeclaredDevice (guest key : string) | UnsafeUSB (guest key observed : string)
| NoOwnership (guest tag : string) | ArtifactMismatch (guest observed : string) | UnexpectedTags (guest got : string)
| VolumeContract | VolumeIdentityIncomplete | VolumeIdentityUnsafe (value : string)
| NoVolume (guest key : string) | VolumeMismatch (guest key observed : string) | VolumeOption (guest key option : string)
| UndeclaredVolume (guest key : string) | MalformedVolumeKey (guest key : string) | UnexpectedDisk (guest key : string)
| MalformedStorage (guest key : string) | VolumeUnproven (guest key observed : string)
| UnsafeNIC (name : string) | BadNICMAC (name : string) | UndeclaredNIC (guest key : string) | NICMismatch (guest key observed : string)
| MalformedRootfs (guest : string) | NoLegacyIdentity (guest : string) | LegacyRootfs (guest : string) | LegacyVolume (guest key : string)
| NotPredecessor (guest : string) | Capabilities (guest : string) | DevicesPrivileged (guest : string) | DeviceContract (guest path : string)
| NoPrivilegedPath (guest : string) | BadLocalVolume (volume : string) | BadPublicKey
| NoArtifact (guest : string) | NotBuilt (guest : string).

(** ** Texts *)

Definition tag_text (tags : list string) : string := join tags ";".

Definition artifactDescription (a : Artifact) : string :=
  "boetticher-artifact=" +:+ ar_Name a +:+ "@" +:+ ar_Version a +:+ " content=" +:+ ar_ContentSHA256 a.

Definition normalizeArtifactDescription (value : string) : string :=
  trim_suffix (match path_unescape value with Some decoded => decoded | None => value end) (String "010" "").

Definition artifactDescriptionMatches (observed : string) (expected : Artifact) : bool :=
  let observed := normalizeArtifactDescription observed in
  (observed == artifactDescription expected)
  || match fields observed with
     | [p0; p1; p2] =>
         (p0 == "boetticher-artifact=" +:+ ar_Name expected +:+ "@" +:+ ar_Version expected)
         && has_prefix p1 "definition=" && (p2 == "content=" +:+ ar_ContentSHA256 expected)
     | _ => false
     end.

Definition artifactKey (a : Artifact) : string :=
  join [ar_Name a; ar_Version a; ar_Architecture a; ar_Kind a; ar_ContentSHA256 a] "|".

Definition canonicalTags (value : string) : string :=
  join (sort_strings (List.filter (fun part => part != "") (map trim_space (split value ";")))) ";".

Definition hasOwnerTag (tags owner : string) : bool := existsb (fun tag => tag == owner) (split tags ";").
Definition hasExactTag (tags wanted : string) : bool := existsb (fun tag => trim_space tag == wanted) (split tags ";").

Definition guestNameservers (plan : Plan) (guest : GuestPlan) : list string :=
  match g_Nameservers guest with [] => p_Nameservers plan | servers => servers end.

Definition configDigest (config : Config) : string :=
  let digest := get_str config "digest" in if (len digest =? 40) && isHex digest then digest else "".

(** ** Ownership *)

Definition stringIn (values : list string) (wanted : string) : bool := existsb (fun v => v == wanted) values.

Definition allDecimal (value : string) : bool := (value != "") && sall is_digit value.

Definition validManagedUSBPath (path : string) : bool :=
  if has_prefix path "/dev/bus/usb/" then
    match split (trim_prefix path "/dev/bus/usb/") "/" with
    | [bus; device] => allDecimal bus && allDecimal device
    | _ => false
    end
  else if has_prefix path "/dev/ttyUSB" then allDecimal (trim_prefix path "/dev/ttyUSB")
  else if has_prefix path "/dev/ttyACM" then allDecimal (trim_prefix path "/dev/ttyACM")
  else false.

Definition validManagedUSBDeviceValue (value : string) : bool :=
  match split value "," with
  | [path; uid; gid; mode] =>
      validManagedUSBPath path && (uid == "uid=2200") && (gid == "gid=2200") && (mode == "mode=0660")
  | _ => false
  end.

Definition lxcDeviceParam (device : DeviceRequirement) : string := "path=" +:+ dr_Path device +:+ ",mode=0666".

Definition f64_one : spec_float := S754_finite false 4503599627370496 (-52).

(** SHA-256 in hexadecimal. *)
Class PxDigest := { sha256_hex : string → string }.

Section guests.
Context `{GoUnicode, PxDigest}.

Definition observedTruthy (value : option Value) : bool :=
  match value with
  | Some (JBool b) => b
  | Some (JNum v) => SFeqb v f64_one
  | Some (JStr s) => (s == "1") || equal_fold s "true"
  | _ => false
  end.

Definition name_check (current : Config) (expected : GuestPlan) (key want : string) : result Hold unit :=
  let got := get_str current key in
  fail_if ((got != "") && (got != want)) (UnexpectedName (g_Name expected) key got want).

Definition device_check (current : Config) (expected : GuestPlan) (entry : nat * DeviceRequirement) : result Hold unit :=
  let key := "dev" +:+ itoa (Z.of_nat entry.1) in
  let observed := get_str current key in
  fail_if (observed != lxcDeviceParam entry.2) (DeviceMismatch (g_Name expected) key observed).

(** The device keys: [dev] and a digit; only that digit is the index. *)
Definition device_index (key : string) : option Z :=
  match strip_prefix "dev" key with
  | Some (String c _) => if is_digit c then Some (digit_val c) else None
  | _ => None
  end.

Definition allowance_check (current : Config) (expected : GuestPlan) (key : string) : result Hold unit :=
  match device_index key with
  | Some index =>
      _ ← fail_if ((Z.of_nat (length (gs_Devices (g_Security expected))) <=? index) && negb (stringIn (g_ManagedUSBSlots expected) key))
            (UndeclaredDevice (g_Name expected) key);
      fail_if (stringIn (g_ManagedUSBSlots expected) key && negb (validManagedUSBDeviceValue (get_str current key)))
        (UnsafeUSB (g_Name expected) key (get_str current key))
  | None => Ok tt
  end.

Definition indexed {A} (l : list A) : list (nat * A) := imap (fun i x => (i, x)) l.

Definition owner_tag (guest : GuestPlan) : string := ModuleOwnershipTag (trim_prefix (g_Owner guest) "boetticher/module/").

Definition owner_check (current : Config) (expected : GuestPlan) : result Hold unit :=
  fail_if ((g_Owner expected != "")
           && ((owner_tag expected == "") || negb (hasOwnerTag (get_str current "tags") (owner_tag expected))))
    (NoOwnership (g_Name expected) (owner_tag expected)).

Definition validateExistingGuestIdentityFields (current : Config) (expected : GuestPlan) : result Hold unit :=
  _ ← name_check current expected "name" (g_Name expected);
  _ ← name_check current expected "hostname" (g_Hostname expected);
  _ ← (if gs_Unprivileged (g_Security expected) then
         _ ← fail_if (negb (observedTruthy (current !! "unprivileged"))) (NotUnprivileged (g_Name expected));
         _ ← eachM (device_check current expected) (indexed (gs_Devices (g_Security expected)));
         eachM (allowance_check current expected) (keys current)
       else Ok tt);
  owner_check current expected.

Definition guestArtifactNeedsReplacement (current : Config) (expected : GuestPlan) : bool :=
  (ar_Name (g_Artifact expected) != "") && negb (artifactDescriptionMatches (get_str current "description") (g_Artifact expected)).

Definition validateExistingGuestIdentity (current : Config) (expected : GuestPlan) : result Hold unit :=
  _ ← validateExistingGuestIdentityFields current expected;
  fail_if (guestArtifactNeedsReplacement current expected) (ArtifactMismatch (g_Name expected) (get_str current "description")).

Definition tags_check (current : Config) (expected : GuestPlan) : result Hold unit :=
  fail_if (canonicalTags (get_str current "tags") != canonicalTags (tag_text (g_Tags expected)))
    (UnexpectedTags (g_Name expected) (get_str current "tags")).

Definition validateExistingGuest (current : Config) (expected : GuestPlan) : result Hold unit :=
  _ ← validateExistingGuestIdentity current expected; tags_check current expected.

Definition validateExistingGuestDestructiveIdentity (current : Config) (expected : GuestPlan) : result Hold unit :=
  _ ← validateExistingGuestIdentityFields current expected; tags_check current expected.

(** ** Texts of volumes

    [storage:volume,option=value,...] *)

Definition VolumeStorageID (value : string) : string :=
  let '(storage, volume, ok) := cut (before value ",") ":" in
  if negb ok || (storage == "") || (volume == "") then "" else storage.

(** The options; a later one of the same name wins. *)
Definition qemuVolumeOptions (parts : list string) : gmap string string :=
  foldl (fun options option => let '(name, value, ok) := cut option "=" in if ok then <[name := value]> options else options) ∅ parts.
Definition option_value (options : gmap string string) (name : string) : string := default "" (options !! name).
Definition options_of (value : string) : gmap string string := qemuVolumeOptions (tl (split value ",")).

(** The size in [storage:size] of a declared volume. *)
Definition declared_size (value : string) : string * bool :=
  let '(_, size, ok) := cut (hd "" (split value ",")) ":" in (size, ok).

Definition safe_mount_path (path : string) : bool :=
  (path != "") && negb (contains_any path ("," +:+ String "013" (String "010" ""))) && has_prefix path "/".

Definition backup_flag (b : bool) : string := if b then "1" else "0".

Definition persistentVolumeParam (v : PersistentVolume) : result Hold string :=
  _ ← fail_if ((pv_Storage v == "") || (pv_SizeGiB v <=? 0) || negb (safe_mount_path (pv_MountPath v))) VolumeContract;
  Ok (pv_Storage v +:+ ":" +:+ itoa (pv_SizeGiB v) +:+ ",mp=" +:+ pv_MountPath v +:+ ",backup=" +:+ backup_flag (pv_Backup v)).

Definition identity_byte (c : ascii) : bool := Ascii.eqb c "-" || Ascii.eqb c "_" || alnum c.

Definition persistentVolumeIdentity (v : PersistentVolume) : result Hold string :=
  _ ← fail_if ((pv_Module v == "") || (pv_Guest v == "") || (pv_Name v == "")) VolumeIdentityIncomplete;
  _ ← eachM (fun value => fail_if (negb (sall identity_byte value)) (VolumeIdentityUnsafe value)) [pv_Module v; pv_Guest v; pv_Name v];
  Ok ("boetticher-" +:+ pv_Module v +:+ "-" +:+ pv_Guest v +:+ "-" +:+ pv_Name v).

Definition persistentVolumeSerial (v : PersistentVolume) : result Hold string :=
  identity ← persistentVolumeIdentity v;
  Ok (if len identity <=? 36 then identity else "boetticher-" +:+ String.substring 0 25 (sha256_hex identity)).

Definition mp_key (index : nat) : string := "mp" +:+ itoa (Z.of_nat index).
Definition scsi_key (index : nat) : string := "scsi" +:+ itoa (Z.of_nat index).
Definition net_key (index : nat) : string := "net" +:+ itoa (Z.of_nat index).

(** A key made of a prefix and an index in canonical form. *)
Definition key_index (prefix key : string) : option Z :=
  if has_prefix key prefix then
    match atoi (trim_prefix key prefix) with
    | Some index => if (index <? 0) || (key != prefix +:+ itoa index) then None else Some index
    | None => None
    end
  else None.

(** ** Volumes of containers *)

Definition lxcCanonicalVolumeIdentity (observed : string) (vmid disk : Z) : bool :=
  let '(_, volumeID, ok) := cut (before observed ",") ":" in
  let canonical := "vm-" +:+ itoa vmid +:+ "-disk-" +:+ itoa disk in
  ok && ((volumeID == canonical) || (volumeID == itoa vmid +:+ "/" +:+ canonical +:+ ".raw")).

Definition lxcVolumeMatchesPersistentIdentity (observed expected : string) (vmid disk : Z) : bool :=
  let '(expectedStorage, expectedSize, expectedOK) := cut (hd "" (split expected ",")) ":" in
  (0 <? vmid) && (0 <? disk)
  && expectedOK && (expectedStorage != "") && (expectedSize != "")
  && (VolumeStorageID observed != "") && lxcCanonicalVolumeIdentity observed vmid disk
  && (option_value (options_of observed) "mp" == option_value (options_of expected) "mp")
  && (option_value (options_of observed) "backup" == option_value (options_of expected) "backup")
  && (option_value (options_of observed) "size" == expectedSize +:+ "G").

Definition lxcPersistentVolumeMatches (observed wanted : string) (vmid disk : Z) : bool :=
  (VolumeStorageID observed != "") && (VolumeStorageID observed == VolumeStorageID wanted)
  && lxcVolumeMatchesPersistentIdentity observed wanted vmid disk.

Definition safePersistentLXCMountpointKey (value : string) : bool :=
  match key_index "mp" value with Some index => index <=? 30 | None => false end.

Definition mountpoint_check (expected : GuestPlan) (key : string) : result Hold unit :=
  if negb (has_prefix key "mp") then Ok tt
  else
    _ ← fail_if (negb (safePersistentLXCMountpointKey key)) (MalformedVolumeKey (g_Name expected) key);
    fail_if (match key_index "mp" key with Some index => Z.of_nat (length (g_Volumes expected)) <=? index | None => false end)
      (UndeclaredVolume (g_Name expected) key).

Definition validateNoUndeclaredLXCVolumes (current : Config) (expected : GuestPlan) : result Hold unit :=
  eachM (mountpoint_check expected) (keys current).

Definition volume_check (current : Config) (expected : GuestPlan) (entry : nat * PersistentVolume) : result Hold unit :=
  let '(index, volume) := entry in
  wanted ← persistentVolumeParam volume;
  let observed := get_str current (mp_key index) in
  fail_if (negb (lxcPersistentVolumeMatches observed wanted (g_VMID expected) (Z.of_nat index + 1)))
    (VolumeMismatch (g_Name expected) (mp_key index) observed).

Definition validateExistingGuestVolumes (current : Config) (expected : GuestPlan) : result Hold unit :=
  _ ← eachM (volume_check current expected) (indexed (g_Volumes expected));
  validateNoUndeclaredLXCVolumes current expected.

Definition retained_step (current : Config) (guest : GuestPlan) (retained : gmap string string) (entry : nat * PersistentVolume)
    : result Hold (gmap string string) :=
  let '(index, volume) := entry in
  expected ← persistentVolumeParam volume;
  let observed := get_str current (mp_key index) in
  _ ← fail_if (negb (lxcPersistentVolumeMatches observed expected (g_VMID guest) (Z.of_nat index + 1)))
        (VolumeUnproven (g_Name guest) (mp_key index) observed);
  Ok (<[mp_key index := observed]> retained).

Definition retainedLXCPersistentVolumeAttachments (current : Config) (guest : GuestPlan) : result Hold (gmap string string) :=
  foldM (retained_step current guest) ∅ (indexed (g_Volumes guest)).

(** *** The layout of earlier installations *)

Definition legacyLXCRawVolumeID (vmid disk : Z) : string :=
  "local:" +:+ itoa vmid +:+ "/vm-" +:+ itoa vmid +:+ "-disk-" +:+ itoa disk +:+ ".raw".
Definition exactLegacyLXCRawVolume (observed : string) (vmid disk : Z) : bool :=
  before observed "," == legacyLXCRawVolumeID vmid disk.

Definition legacyLXCRootfsMatches (observed : string) (guest : GuestPlan) : bool :=
  exactLegacyLXCRawVolume observed (g_VMID guest) 0
  && (option_value (qemuVolumeOptions (split (cut observed ",").1.2 ",")) "size" == itoa (g_DiskGiB guest) +:+ "G").

Definition exactArtifactDigestField (value prefix : string) : bool :=
  match strip_prefix prefix value with
  | Some digest => (len digest =? 64) && isHex digest
  | None => false
  end.

Definition retiredLiteLLMArtifactIdentity (current : Config) : bool :=
  match fields (normalizeArtifactDescription (get_str current "description")) with
  | [f0; f1; f2] =>
      (f0 == "boetticher-artifact=boetticher-litellm@1.0.0") && exactArtifactDigestField f1 "definition="
      && exactArtifactDigestField f2 "content="
  | _ => false
  end.

Definition predecessor_tags : list string :=
  ["boetticher"; "managed"; "module"; "module-litellm"; ModuleOwnershipTag "litellm"; "backup"].

Definition retiredLiteLLMPredecessor (guest : GuestPlan) : option GuestPlan :=
  if (g_VMID guest != 210) || (g_Name guest != "lab-bifrost-01") || (g_Hostname guest != "lab-bifrost-01")
     || (g_Owner guest != "boetticher/module/bifrost") || (ar_Name (g_Artifact guest) != "boetticher-bifrost")
  then None
  else Some {|
    g_Nameservers := g_Nameservers guest; g_VMID := g_VMID guest; g_Name := "lab-litellm-01"; g_Kind := g_Kind guest;
    g_Hostname := "lab-litellm-01"; g_Zone := g_Zone guest; g_Address := g_Address guest; g_MAC := g_MAC guest;
    g_Gateway := g_Gateway guest; g_VLAN := g_VLAN guest; g_Cores := g_Cores guest; g_MemoryMiB := g_MemoryMiB guest;
    g_DiskGiB := g_DiskGiB guest; g_Monitoring := g_Monitoring guest; g_Backup := g_Backup guest; g_Tags := predecessor_tags;
    g_NICs := g_NICs guest; g_Owner := "boetticher/module/litellm"; g_Artifact := g_Artifact guest;
    g_Persistent := g_Persistent guest; g_Volumes := g_Volumes guest; g_Security := g_Security guest;
    g_ManagedUSBSlots := g_ManagedUSBSlots guest
  |}.

Definition predecessor_check (current : Config) (guest predecessor : GuestPlan) : result Hold unit :=
  _ ← fail_if (negb (retiredLiteLLMArtifactIdentity current)) (NotPredecessor (g_Name guest));
  _ ← match validateExistingGuestIdentityFields current predecessor with
      | Ok u => Ok u | Err _ => Err (NotPredecessor (g_Name guest)) end;
  match tags_check current predecessor with Ok u => Ok u | Err _ => Err (NotPredecessor (g_Name guest)) end.

Definition validateLegacyLXCIdentity (current : Config) (guest : GuestPlan) : result Hold unit :=
  match validateExistingGuestIdentityFields current guest with
  | Ok _ => tags_check current guest
  | Err e =>
      match retiredLiteLLMPredecessor guest with
      | None => Err e
      | Some predecessor => predecessor_check current guest predecessor
      end
  end.

Definition legacy_volume_check (current : Config) (guest : GuestPlan) (entry : nat * PersistentVolume) : result Hold unit :=
  let '(index, volume) := entry in
  expected ← persistentVolumeParam volume;
  let observed := get_str current (mp_key index) in
  fail_if (negb (exactLegacyLXCRawVolume observed (g_VMID guest) (Z.of_nat index + 1))
           || negb (lxcVolumeMatchesPersistentIdentity observed expected (g_VMID guest) (Z.of_nat index + 1)))
    (LegacyVolume (g_Name guest) (mp_key index)).

Definition validateLegacyLXCRecreation (current : Config) (guest : GuestPlan) : result Hold unit :=
  _ ← fail_if ((g_VMID guest <=? 0) || (g_DiskGiB guest <=? 0)) (NoLegacyIdentity (g_Name guest));
  _ ← validateLegacyLXCIdentity current guest;
  _ ← validateNoUndeclaredLXCVolumes current guest;
  _ ← fail_if (negb (legacyLXCRootfsMatches (get_str current "rootfs") guest)) (LegacyRootfs (g_Name guest));
  eachM (legacy_volume_check current guest) (indexed (g_Volumes guest)).

Definition legacy_storage_step (current : Config) (guest : GuestPlan) (legacy : bool) (entry : nat * PersistentVolume) : result Hold bool :=
  let storage := VolumeStorageID (get_str current (mp_key entry.1)) in
  _ ← fail_if (storage == "") (MalformedStorage (g_Name guest) (mp_key entry.1));
  Ok (legacy || (storage == "local")).

Definition legacyLXCRecreationRequired (current : Config) (guest : GuestPlan) : result Hold bool :=
  let rootfsStorage := VolumeStorageID (get_str current "rootfs") in
  _ ← fail_if (rootfsStorage == "") (MalformedRootfs (g_Name guest));
  legacy ← foldM (legacy_storage_step current guest) (rootfsStorage == "local") (indexed (g_Volumes guest));
  if negb legacy then Ok false else _ ← validateLegacyLXCRecreation current guest; Ok true.

Definition legacyLXCLocalRawVolumeID (observed : string) (vmid : Z) : result Hold string :=
  let first := before observed "," in
  let '(storageID, volume, ok) := cut first ":" in
  _ ← fail_if (negb ok || (storageID != "local") || (vmid <=? 0)) (BadLocalVolume first);
  let prefix := itoa vmid +:+ "/vm-" +:+ itoa vmid +:+ "-disk-" in
  _ ← fail_if (negb (has_prefix volume prefix) || negb (has_suffix volume ".raw")) (BadLocalVolume first);
  match atoi (trim_suffix (trim_prefix volume prefix) ".raw") with
  | Some diskIndex => if diskIndex <? 0 then Err (BadLocalVolume first) else Ok first
  | None => Err (BadLocalVolume first)
  end.

Definition isLoopDevice (value : string) : bool :=
  match strip_prefix "/dev/loop" value with
  | Some index => match atoi index with Some parsed => 0 <=? parsed | None => false end
  | None => false
  end.

(** *** Replacement holders *)

Definition replacementHolderVMIDMin : Z := 910.
Definition replacementHolderVMIDMax : Z := 919.
Definition replacementHolderTag : string := "boetticher-replacement-holder".

Definition replacementHolderMatches (current : Config) (targetVMID : Z) : bool :=
  hasExactTag (get_str current "tags") replacementHolderTag
  && existsb (fun field => field == "target-vmid=" +:+ itoa targetVMID) (fields (get_str current "description")).

(** *** Devices *)

Definition is_tun (d : DeviceRequirement) : bool :=
  (dr_Path d == "/dev/net/tun") && (dr_Type d == "c") && (dr_Major d =? 10) && (dr_Minor d =? 200) && (dr_Access d == "rwm").

Definition validateLXCDeviceContract (guest : GuestPlan) : result Hold unit :=
  let security := g_Security guest in
  _ ← fail_if (negb (length (gs_Capabilities security) =? 0)%nat) (Capabilities (g_Name guest));
  _ ← fail_if (negb (gs_Unprivileged security) && negb (length (gs_Devices security) =? 0)%nat) (DevicesPrivileged (g_Name guest));
  eachM (fun device => fail_if (negb (is_tun device)) (DeviceContract (g_Name guest) (dr_Path device))) (gs_Devices security).

Definition privileged_path (plan : Plan) : bool :=
  p_PrivilegedRunner plan && is_ip (p_PrivilegedAddress plan) && (p_PrivilegedUser plan == "root").

Definition validateLXCPrivilegedDeviceAuthority (plan : Plan) (guest : GuestPlan) : result Hold unit :=
  if (length (gs_Devices (g_Security guest)) =? 0)%nat then Ok tt
  else fail_if (negb (privileged_path plan)) (NoPrivilegedPath (g_Name guest)).

(** *** Keys and parameters of a new container *)

Definition ValidatePublicKey (publicKey : string) : result Hold unit :=
  fail_if ((trim_space publicKey == "") || contains_any publicKey (String "013" (String "010" "'")) || negb (contains publicKey " "))
    BadPublicKey.

Definition lxcBootstrapKeyParams (publicKey : string) : result Hold (list (string * string)) :=
  if publicKey == "" then Ok []
  else _ ← ValidatePublicKey publicKey; Ok [("ssh-public-keys", publicKey)].

Definition gatewayFor (zone : string) : string :=
  if zone == "INFRA" then "10.10.10.1" else if zone == "SERVERS" then "10.10.20.1"
  else if zone == "TRUSTED" then "10.10.30.1" else if zone == "SANDBOX" then "10.10.40.1"
  else if zone == "MGMT" then "10.10.99.1" else if zone == "TRANSIT" then "10.10.5.1" else "".

Definition lxcNetworkParam (guest : GuestPlan) : string :=
  if g_MAC guest != "" then
    "name=eth0,bridge=vmbr1,tag=" +:+ itoa (g_VLAN guest) +:+ ",firewall=1,hwaddr=" +:+ g_MAC guest +:+ ",ip=" +:+ g_Address guest
      +:+ "/24,gw=" +:+ g_Gateway guest
  else
    "name=eth0,bridge=vmbr1,tag=" +:+ itoa (g_VLAN guest) +:+ ",firewall=1,ip=" +:+ g_Address guest +:+ "/24,gw=" +:+ gatewayFor (g_Zone guest).
End guests.
End PxGuest.
