(* ===== verification/AirVpn.v ===== *)
(** * AirVPN profiles ([internal/airvpn/profile.go])

    The parser that turns a WireGuard profile of the provider into the
    normalised profile and the endpoint metadata the firewall is built from.
    SHA-256 is the parameter of [PxDigest]. *)

From S2P Require Import GoNet PxGuest.
Open Scope Z_scope.

Module AirVpn.
Import PxGuest.

(** ** Go's texts *)

(** [net.SplitHostPort] *)
Fixpoint last_colon (s : string) : option (string * string) :=
  match s with
  | EmptyString => None
  | String c r =>
      match last_colon r with
      | Some (a, b) => Some (String c a, b)
      | None => if Ascii.eqb c ":" then Some (EmptyString, r) else None
      end
  end.

Definition split_host_port (s : string) : option (string * string) :=
  match last_colon s with
  | None => None
  | Some (before, port) =>
      match before with
      | String "[" rest =>
          match strip_suffix "]" rest with
          | Some host =>
              if contains_byte host "]" || contains_byte host "[" || contains_any port "[]" then None else Some (host, port)
          | None => None
          end
      | _ => if contains_byte before ":" || contains_any s "[]" then None else Some (before, port)
      end
  end.

Example split_host_port_ex : map split_host_port
  ["a:1"; "[::1]:80"; "::1:80"; "[a]b:1"; "a"; "[a:b]:1637"; "[a]"; "x[:1"; ":5"; "[]:1"; "]:1"; "[a:]:x"; "[[a]:1"]
  = [Some ("a", "1"); Some ("::1", "80"); None; None; None; Some ("a:b", "1637"); None; None; Some ("", "5"); Some ("", "1"); None; Some ("a:", "x"); None].
Proof. reflexivity. Qed.

(** A standard base64 text of 32 bytes: without the line breaks the decoder
    ignores, 43 characters of the alphabet and the padding. *)
Definition base64_char (c : ascii) : bool :=
  is_upper c || is_lower c || is_digit c || Ascii.eqb c "+" || Ascii.eqb c "/".
Definition is_break (c : ascii) : bool := Ascii.eqb c (byte_of 13) || Ascii.eqb c (byte_of 10).
Fixpoint without_breaks (s : string) : string :=
  match s with
  | EmptyString => EmptyString
  | String c r => if is_break c then without_breaks r else String c (without_breaks r)
  end.
Definition decodes_to_32 (s : string) : bool :=
  match strip_suffix "=" (without_breaks s) with
  | Some body => (String.length body =? 43)%nat && sall base64_char body
  | None => false
  end.

Definition crlf : string := String (byte_of 13) (String (byte_of 10) EmptyString).
Definition lf : ascii := byte_of 10.
Definition newline : string := String lf EmptyString.
(** U+FEFF *)
Definition bom : string := String (byte_of 239) (String (byte_of 187) (String (byte_of 191) EmptyString)).

(** ** Data *)

Definition DefaultPort : Z := 1637.
Definition DefaultKeepalive : Z := 25.
Definition maxProfileBytes : Z := 128 * 1024.

Record Metadata := mkMetadata {
  me_EndpointHost : string;
  me_EndpointPort : Z;
  me_TunnelAddress : string;
  me_SHA256 : string;
  me_Selector : string;
}.
Record Profile := mkProfile { pf_Config : string; pf_Metadata : Metadata }.
Record WireGuardSettings_ := mkSettings {
  wg_PrivateKey : string;
  wg_Address : string;
  wg_PeerPublicKey : string;
  wg_PresharedKey : string;
  wg_EndpointHost : string;
  wg_EndpointPort : Z;
  wg_MTU : Z;
  wg_PersistentKeepalive : Z;
}.

Inductive ProfileError :=
| EmptyOrTooLarge
| SectionUnsupported (line : nat)
| SectionDuplicate (section : string)
| BeforeSection (line : nat)
| NotAnEntry (line : nat)
| ValueInvalid (line : nat)
| KeyDuplicate (key : string)
| KeyUnsupported (section : string)
| SectionsMissing
| InterfaceMissing (key : string)
| PeerMissing (key : string)
| KeyInvalid (which : string)
| AddressInvalid | AddressIPv6 | AddressMissing
| EndpointInvalid | EndpointPortInvalid | EndpointIPv6 | EndpointHostInvalid
| AllowedIPv6 | AllowedOther | AllowedDuplicate | AllowedMissing
| KeepaliveInvalid
| MTUInvalid
| EndpointMalformed.

(** ** Parsing *)

Definition supportedKey (section key : string) : bool :=
  if section == "Interface" then (key == "PrivateKey") || (key == "Address") || (key == "DNS") || (key == "MTU")
  else (key == "PublicKey") || (key == "PresharedKey") || (key == "Endpoint") || (key == "AllowedIPs") || (key == "PersistentKeepalive").

(** [line[1 : len(line)-1]] of a line that starts with [[] and ends with []];
    the same byte cannot be both. *)
Definition bracketed (line : string) : option string :=
  if has_prefix line "[" && has_suffix line "]" then Some (trim_suffix (trim_prefix line "[") "]") else None.

Definition line_step (state : nat * string * gmap string (gmap string string)) (raw : string) : result ProfileError (nat * string * gmap string (gmap string string)) :=
  let '(n, section, sections) := state in
  let n := S n in
  let line := trim_space raw in
  if (line == "") || has_prefix line ";" || has_prefix line "#" then Ok (n, section, sections)
  else match bracketed line with
  | Some name =>
      let section := trim_space name in
      _ ← fail_if ((section != "Interface") && (section != "Peer")) (SectionUnsupported n);
      _ ← fail_if (bool_decide (is_Some (sections !! section))) (SectionDuplicate section);
      Ok (n, section, <[section := ∅]> sections)
  | None =>
      _ ← fail_if (section == "") (BeforeSection n);
      match cut line "=" with
      | (_, _, false) => Err (NotAnEntry n)
      | (key, value, true) =>
          _ ← fail_if (trim_space key == "") (NotAnEntry n);
          let key := trim_space key in
          let value := trim_space value in
          _ ← fail_if ((value == "") || contains_byte value (byte_of 0)) (ValueInvalid n);
          let entries := default ∅ (sections !! section) in
          _ ← fail_if (bool_decide (is_Some (entries !! key))) (KeyDuplicate key);
          _ ← fail_if (negb (supportedKey section key)) (KeyUnsupported section);
          Ok (n, section, <[section := <[key := value]> entries]> sections)
      end
  end.

Definition profile_text (data : string) : string := trim_prefix (replace_text 0 data crlf newline) bom.
Definition parse_lines (data : string) : result ProfileError (gmap string (gmap string string)) :=
  '(_, _, sections) ← foldM line_step (0%nat, "", ∅) (split (profile_text data) lf); Ok sections.

Definition entry (m : gmap string string) (key : string) : string := default "" (m !! key).

Definition validateKey (which value : string) : result ProfileError unit := fail_if (negb (decodes_to_32 value)) (KeyInvalid which).

(** [ip.To4()] of the address in front of the slash. *)
Definition cidr_to4 (s : string) : option Addr := match last_slash s with Some (a, _) => parse_to4 a | None => None end.

Definition address_step (strict : bool) (addresses : list string) (part : string) : result ProfileError (list string) :=
  let part := trim_space part in
  match net_parse_cidr part with
  | None => Err AddressInvalid
  | Some _ =>
      match cidr_to4 part with
      | None => if strict then Err AddressIPv6 else Ok addresses
      | Some _ => Ok (addresses ++ [part])
      end
  end.

Definition validateAddresses (value : string) (strict : bool) : result ProfileError (list string * string) :=
  addresses ← foldM (address_step strict) [] (split value ",");
  match addresses with
  | [] => Err AddressMissing
  | first :: _ => Ok (addresses, first)
  end.

Definition host_forbidden : string := " /\" +:+ string_of_vals [9; 13; 10].

Definition validateEndpoint (value : string) : result ProfileError (string * Z) :=
  match split_host_port value with
  | None => Err EndpointInvalid
  | Some (host, portText) =>
      _ ← fail_if (host == "") EndpointInvalid;
      match parse_int portText with
      | None => Err EndpointPortInvalid
      | Some port =>
          _ ← fail_if (negb (port =? DefaultPort)) EndpointPortInvalid;
          if is_ip host then
            match parse_to4 host with None => Err EndpointIPv6 | Some a => Ok (addr_string a, port) end
          else
            _ ← fail_if (contains_any host host_forbidden || (253 <? len host)) EndpointHostInvalid;
            Ok (host, port)
      end
  end.

Definition allowed_step (strict : bool) (found : bool) (allowed : string) : result ProfileError bool :=
  let allowed := trim_space allowed in
  if contains allowed ":" then (if strict then Err AllowedIPv6 else Ok found)
  else
    _ ← fail_if (allowed != "0.0.0.0/0") AllowedOther;
    _ ← fail_if found AllowedDuplicate;
    Ok true.

Definition bounded (value : string) (dflt lo hi : Z) (e : ProfileError) : result ProfileError Z :=
  if value == "" then Ok dflt
  else match parse_int value with
  | Some v => if (v <? lo) || (hi <? v) then Err e else Ok v
  | None => Err e
  end.

Section profile.
Context `{PxDigest}.

Definition profile_lines (privateKey : string) (addresses : list string) (mtu : Z) (publicKey presharedKey host : string) (port keepalive : Z) : list string :=
  ["[Interface]"; "PrivateKey = " +:+ privateKey; "Address = " +:+ join addresses ", "; "MTU = " +:+ itoa mtu; "";
   "[Peer]"; "PublicKey = " +:+ publicKey; "PresharedKey = " +:+ presharedKey; "AllowedIPs = 0.0.0.0/0";
   "Endpoint = " +:+ host +:+ ":" +:+ itoa port; "PersistentKeepalive = " +:+ itoa keepalive; ""].

Definition parseProfile (strict : bool) (data : string) : result ProfileError Profile :=
  _ ← fail_if ((len data =? 0) || (maxProfileBytes <? len data)) EmptyOrTooLarge;
  sections ← parse_lines data;
  match sections !! "Interface", sections !! "Peer" with
  | Some iface, Some peer =>
      _ ← eachM (fun key => fail_if (entry iface key == "") (InterfaceMissing key)) ["PrivateKey"; "Address"];
      _ ← validateKey "private key" (entry iface "PrivateKey");
      '(addresses, tunnelAddress) ← validateAddresses (entry iface "Address") strict;
      _ ← eachM (fun key => fail_if (entry peer key == "") (PeerMissing key)) ["PublicKey"; "PresharedKey"; "Endpoint"; "AllowedIPs"];
      _ ← validateKey "peer public key" (entry peer "PublicKey");
      _ ← validateKey "peer preshared key" (entry peer "PresharedKey");
      '(host, port) ← validateEndpoint (entry peer "Endpoint");
      foundDefault ← foldM (allowed_step strict) false (split (entry peer "AllowedIPs") ",");
      _ ← fail_if (negb foundDefault) AllowedMissing;
      keepalive ← bounded (entry peer "PersistentKeepalive") DefaultKeepalive 0 120 KeepaliveInvalid;
      mtu ← bounded (entry iface "MTU") 1320 576 9000 MTUInvalid;
      let normalized := join (profile_lines (entry iface "PrivateKey") addresses mtu (entry peer "PublicKey") (entry peer "PresharedKey") host port keepalive) newline in
      Ok (mkProfile normalized (mkMetadata host port tunnelAddress (sha256_hex normalized) ""))
  | _, _ => Err SectionsMissing
  end.

Definition ParseProfile (data : string) : result ProfileError Profile := parseProfile false data.
Definition ParseProfileStrict (data : string) : result ProfileError Profile := parseProfile true data.

(** ** The settings for the firewall *)

Definition settings_step (state : string * gmap string string) (raw : string) : string * gmap string string :=
  let '(section, values) := state in
  let line := trim_space raw in
  if line == "" then state
  else match bracketed line with
  | Some name => (name, values)
  | None =>
      match cut line "=" with
      | (key, value, true) => (section, <[section +:+ "." +:+ trim_space key := trim_space value]> values)
      | (_, _, false) => state
      end
  end.

(** [strconv.Atoi] with its error dropped: out of range it gives the bound. *)
Definition atoi_value (s : string) : Z := default 0 (parse_int s).

Definition WireGuardSettings (p : Profile) : result ProfileError WireGuardSettings_ :=
  parsed ← ParseProfileStrict (pf_Config p);
  let values := (foldl settings_step ("", ∅) (split (pf_Config parsed) lf)).2 in
  let value key := entry values key in
  let endpoint := value "Peer.Endpoint" in
  let port := atoi_value (match last_colon endpoint with Some (_, p) => p | None => endpoint end) in
  match split_host_port endpoint with
  | None => Err EndpointMalformed
  | Some (host, _) =>
      Ok (mkSettings (value "Interface.PrivateKey") (value "Interface.Address") (value "Peer.PublicKey") (value "Peer.PresharedKey")
        host port (atoi_value (value "Interface.MTU")) (atoi_value (value "Peer.PersistentKeepalive")))
  end.

End profile.

(** ** Lemmas: white space *)

Definition starts_clean (s : string) : Prop := strip_space encs_forward s = None.
Definition ends_clean (s : string) : Prop := strip_space encs_backward (String.rev s) = None.
Definition trimmed (s : string) : Prop := starts_clean s ∧ ends_clean s.

Lemma trim_left_clean fuel encs s : strip_space encs s = None → trim_left_fuel fuel encs s = s.
Proof. intros E. destruct fuel; cbn [trim_left_fuel]; [done|]. by rewrite E. Qed.

Lemma length_rev_s s : String.length (String.rev s) = String.length s.
Proof. induction s as [|c s IH]; [done|]. rewrite rev_cons, length_app_s, IH. cbn. lia. Qed.

Lemma trim_space_trimmed s : trimmed s → trim_space s = s.
Proof.
  intros [Hs He]. unfold trim_space. rewrite (trim_left_clean _ _ s) by exact Hs. rewrite trim_left_clean by exact He.
  apply rev_involutive.
Qed.

Lemma first_some_spec {A B} (f : A → option B) l b : first_some f l = Some b → ∃ a, a ∈ l ∧ f a = Some b.
Proof.
  induction l as [|a l IH]; cbn; [done|]. destruct (f a) eqn:E; [intros [= <-]; exists a; split; [left|done]|].
  intros (x&?&?)%IH. exists x. split; [by right|done].
Qed.
Lemma first_some_none {A B} (f : A → option B) l : first_some f l = None ↔ Forall (fun a => f a = None) l.
Proof.
  induction l as [|a l IH]; cbn; [by split|]. rewrite Forall_cons_iff, <- IH. destruct (f a); naive_solver.
Qed.

(** A suffix is never shorter than nothing: every step drops bytes. *)
Lemma strip_space_shorter encs s r : Forall (fun e => e ≠ "") encs → strip_space encs s = Some r →
  (String.length r < String.length s)%nat ∧ ∃ p, s = p +:+ r.
Proof.
  intros Hne. destruct s as [|c s]; cbn [strip_space]; [done|].
  destruct (is_ascii_space c). { intros [= <-]. cbn. split; [lia|]. by exists (String c ""). }
  destruct (is_ascii_byte c); [done|]. intros (e&He&E)%first_some_spec. apply strip_prefix_spec in E as E'.
  rewrite E', length_app_s. rewrite Forall_forall in Hne. specialize (Hne e He).
  destruct e; [done|]. cbn. split; [lia|eauto].
Qed.

Lemma trim_left_spec encs fuel s : Forall (fun e => e ≠ "") encs → (String.length s <= fuel)%nat →
  strip_space encs (trim_left_fuel fuel encs s) = None ∧ ∃ p, s = p +:+ trim_left_fuel fuel encs s.
Proof.
  intros Hne. revert s. induction fuel as [|fuel IH]; intros s Hl; cbn.
  { destruct s; [|cbn in Hl; lia]. split; [done|by exists ""]. }
  destruct (strip_space encs s) as [r|] eqn:E; [|split; [done|by exists ""]].
  destruct (strip_space_shorter _ _ _ Hne E) as [Hlt [p ->]].
  destruct (IH r) as [H1 [q Hq]]; [lia|]. split; [done|]. exists (p +:+ q). by rewrite app_assoc_s, <- Hq.
Qed.

Lemma strip_prefix_app e p q r : strip_prefix e p = Some r → strip_prefix e (p +:+ q) = Some (r +:+ q).
Proof. rewrite !strip_prefix_spec. intros ->. by rewrite app_assoc_s. Qed.

(** What does not start with a space does not after cutting its end off. *)
Lemma strip_space_app encs p q : strip_space encs (p +:+ q) = None → strip_space encs p = None.
Proof.
  destruct p as [|c p]; [done|]. rewrite app_cons_s. cbn [strip_space].
  destruct (is_ascii_space c); [done|]. destruct (is_ascii_byte c); [done|].
  rewrite !first_some_none. intros Hf. eapply Forall_impl; [exact Hf|]. cbn beta. intros e E.
  destruct (strip_prefix e (String c p)) as [r|] eqn:E'; [|done].
  apply (strip_prefix_app _ _ q) in E'. rewrite app_cons_s in E'. congruence.
Qed.

Lemma trim_space_sound s : trimmed (trim_space s) ∧ ∃ p q, s = p +:+ trim_space s +:+ q.
Proof.
  unfold trim_space. set (l := trim_left_fuel _ encs_forward s).
  destruct (trim_left_spec encs_forward (String.length s) s) as [Hl [p Hp]]; [by repeat constructor|done|]. fold l in Hl, Hp.
  destruct (trim_left_spec encs_backward (String.length l) (String.rev l)) as [Hr [q Hq]]; [by repeat constructor| |].
  { by rewrite length_rev_s. }
  set (r := trim_left_fuel _ encs_backward (String.rev l)) in *.
  assert (Hlr : l = String.rev r +:+ String.rev q) by (by rewrite <- rev_app, <- Hq, rev_involutive).
  split.
  - split; unfold starts_clean, ends_clean; [|by rewrite rev_involutive].
    apply (strip_space_app _ _ (String.rev q)). by rewrite <- Hlr.
  - exists p, (String.rev q). by rewrite <- Hlr.
Qed.

Lemma strip_prefix_stops e x c y : sall (fun b => negb (is_ascii_byte b)) e = true → is_ascii_byte c = true →
  is_Some (strip_prefix e (x +:+ String c y)) → is_Some (strip_prefix e x).
Proof.
  intros He Hc. revert x He. induction e as [|b e IH]; intros x He; [by eexists|].
  cbn in He. apply andb_true_iff in He as [Hb He]. destruct x as [|a x].
  - rewrite app_nil_l_s. cbn. destruct (Ascii.eqb_spec b c) as [->|]; [by rewrite Hc in Hb|]. by intros [? ?].
  - rewrite app_cons_s. cbn. destruct (Ascii.eqb b a); [by apply IH|by intros [? ?]].
Qed.

Lemma strip_space_stops encs x c y : Forall (fun e => sall (fun b => negb (is_ascii_byte b)) e = true) encs →
  x ≠ "" → is_ascii_byte c = true → strip_space encs x = None → strip_space encs (x +:+ String c y) = None.
Proof.
  intros He Hx Hc. destruct x as [|a x]; [done|]. rewrite app_cons_s. cbn [strip_space].
  destruct (is_ascii_space a); [done|]. destruct (is_ascii_byte a); [done|].
  rewrite !first_some_none, !Forall_forall. intros Hf e Hin. rewrite Forall_forall in He.
  destruct (strip_prefix e (String a (x +:+ String c y))) as [r|] eqn:E; [|done]. exfalso.
  destruct (strip_prefix_stops e (String a x) c y) as [r' E']; [by apply He|done|rewrite app_cons_s, E; by eexists|].
  by rewrite (Hf e Hin) in E'.
Qed.

(** A line that ends in a trimmed value after an ASCII byte ends clean. *)
Lemma ends_clean_app p c v : ends_clean v → v ≠ "" → is_ascii_byte c = true → ends_clean (p +:+ String c v).
Proof.
  intros Hv Hne Hc. unfold ends_clean. change (String c v) with (String c "" +:+ v). rewrite !rev_app, app_assoc_s.
  change (String.rev (String c "") +:+ String.rev p) with (String c (String.rev p)).
  apply strip_space_stops; [by repeat constructor| |done|exact Hv].
  intros E. apply Hne. by rewrite <- (rev_involutive v), E.
Qed.

Lemma starts_clean_plain c s : plain_byte c = true → starts_clean (String c s).
Proof.
  unfold plain_byte. intros [Ha Hs%negb_true_iff]%andb_true_iff. unfold starts_clean. cbn [strip_space].
  by rewrite Hs, Ha.
Qed.

Lemma ends_clean_nonempty v : ends_clean v → ∀ c v', v = v' +:+ String c "" → is_ascii_space c = false.
Proof.
  intros Hv c v' ->. unfold ends_clean in Hv. rewrite rev_app in Hv. cbn in Hv.
  destruct (is_ascii_space c) eqn:E; [|done]. change (strip_space encs_backward (String c (String.rev v')) = None) in Hv.
  cbn [strip_space] in Hv. by rewrite E in Hv.
Qed.

(** ** Lemmas: lines *)

Definition no_lf (s : string) : bool := negb (contains_byte s lf).

Lemma contains_byte_app s t c : contains_byte (s +:+ t) c = contains_byte s c || contains_byte t c.
Proof. unfold contains_byte. induction s as [|b s IH]; [done|]. rewrite app_cons_s. cbn. by rewrite IH, orb_assoc. Qed.

Lemma split_join_lines ws : ws ≠ [] → Forall (fun w => no_lf w = true) ws → split (join ws newline) lf = ws.
Proof.
  induction ws as [|w ws IH]; [done|]. intros _ [Hw Hws]%Forall_cons_iff. apply negb_true_iff in Hw.
  destruct ws as [|w' ws]; [by apply split_none|].
  change (join (w :: w' :: ws) newline) with (w +:+ String lf "" +:+ join (w' :: ws) newline).
  rewrite app_cons_s, app_nil_l_s, split_sep, (split_none w) by done. cbn [app]. f_equal. by apply IH.
Qed.

(** A carriage return at the end of a line would be taken for its break. *)
Definition no_cr_end (s : string) : Prop := ∀ v, s ≠ v +:+ String (byte_of 13) "".

Lemma replace_line w rest : no_lf w = true → no_cr_end w →
  replace_text 0 (w +:+ String lf rest) crlf newline = w +:+ String lf (replace_text 0 rest crlf newline).
Proof.
  unfold no_lf, contains_byte. induction w as [|c w IH]; intros Hw Hcr; [done|].
  rewrite !app_cons_s. cbn [replace_text]. cbn in Hw. rewrite negb_orb in Hw. apply andb_true_iff in Hw as [Hc Hw].
  assert (Hp : has_prefix (String c (w +:+ String lf rest)) crlf = false).
  { destruct (has_prefix _ crlf) eqn:E; [|done]. exfalso. apply has_prefix_spec in E as [r E].
    unfold crlf in E. rewrite !app_cons_s, app_nil_l_s in E. injection E as -> E. destruct w as [|d w].
    - by apply (Hcr "").
    - rewrite app_cons_s in E. injection E as -> _. cbn in Hw. done. }
  rewrite Hp, IH; [done|done|]. intros v ->. by apply (Hcr (String c v)).
Qed.

Lemma replace_last w : no_lf w = true → replace_text 0 w crlf newline = w.
Proof.
  unfold no_lf, contains_byte. induction w as [|c w IH]; intros Hw; [done|].
  cbn [replace_text]. cbn in Hw. rewrite negb_orb in Hw. apply andb_true_iff in Hw as [Hc Hw].
  destruct (has_prefix (String c w) crlf) eqn:E; [|by rewrite IH].
  apply has_prefix_spec in E as [r E]. unfold crlf in E. rewrite !app_cons_s, app_nil_l_s in E. injection E as -> ->.
  cbn in Hw. done.
Qed.

Lemma replace_lines ws : Forall (fun w => no_lf w = true ∧ no_cr_end w) ws →
  replace_text 0 (join ws newline) crlf newline = join ws newline.
Proof.
  induction ws as [|w ws IH]; [done|]. intros [[Hw Hcr] Hws]%Forall_cons_iff.
  destruct ws as [|w' ws]; [by apply replace_last|].
  change (join (w :: w' :: ws) newline) with (w +:+ String lf (join (w' :: ws) newline)).
  rewrite replace_line by done. by rewrite IH.
Qed.

Lemma cut_first a sep b : contains_byte a sep = false → cut (a +:+ String sep b) sep = (a, b, true).
Proof.
  unfold contains_byte. induction a as [|c a IH]; cbn [sany]; intros Ha.
  - rewrite app_nil_l_s. cbn. by rewrite Ascii.eqb_refl.
  - apply orb_false_iff in Ha as [Hc Ha]. rewrite app_cons_s. cbn [cut]. rewrite Ascii.eqb_sym, Hc.
    by rewrite IH.
Qed.

Lemma trim_space_blank v : starts_clean v → ends_clean v → v ≠ "" → trim_space (String " " v) = v.
Proof.
  intros Hs He Hne. unfold trim_space. cbn [String.length trim_left_fuel].
  change (strip_space encs_forward (String " " v)) with (Some v). cbv iota beta.
  rewrite (trim_left_clean _ _ v) by exact Hs. rewrite trim_left_clean by exact He. apply rev_involutive.
Qed.

Definition no_nul (s : string) : bool := negb (contains_byte s (byte_of 0)).

(** Keys as the provider and the normalised profile write them. *)
Definition plain_key (key : string) : bool :=
  (trim_space (key +:+ " ") == key) && negb (contains_byte key "=") &&
  match key with String c _ => plain_byte c && negb (contains_byte ";#[" c) | EmptyString => false end.

Definition entry_line (key text : string) : string := key +:+ " = " +:+ text.

Lemma entry_line_trimmed key text : plain_key key = true → ends_clean text → text ≠ "" →
  trimmed (entry_line key text).
Proof.
  unfold plain_key. intros Hk He Hne. apply andb_true_iff in Hk as [_ Hk]. unfold entry_line. split.
  - destruct key as [|c key]; [done|]. rewrite app_cons_s. apply starts_clean_plain.
    by apply andb_true_iff in Hk as [Hk _].
  - change (" = " +:+ text) with ((" =" +:+ String " " text)). rewrite <- app_assoc_s. by apply ends_clean_app.
Qed.

Lemma entry_line_cut key text : contains_byte key "=" = false →
  cut (entry_line key text) "=" = (key +:+ " ", String " " text, true).
Proof.
  intros Hk. unfold entry_line. change (" = " +:+ text) with (" " +:+ String "=" (String " " text)).
  rewrite <- app_assoc_s, cut_first; [done|]. by rewrite contains_byte_app, Hk.
Qed.

Lemma plain_key_line key text : plain_key key = true →
  entry_line key text ≠ "" ∧ has_prefix (entry_line key text) ";" = false ∧ has_prefix (entry_line key text) "#" = false
  ∧ has_prefix (entry_line key text) "[" = false ∧ key ≠ "" ∧ contains_byte key "=" = false ∧ trim_space (key +:+ " ") = key.
Proof.
  unfold plain_key, entry_line. intros [[Ht%bool_decide_eq_true He%negb_true_iff]%andb_true_iff Hk]%andb_true_iff.
  destruct key as [|c key]; [done|]. apply andb_true_iff in Hk as [_ Hk%negb_true_iff].
  rewrite app_cons_s. unfold has_prefix. cbn [strip_prefix]. cbn in Hk.
  rewrite orb_false_r in Hk. apply orb_false_iff in Hk as [H1 [H2 H3]%orb_false_iff].
  rewrite Ascii.eqb_sym in H1, H2, H3. rewrite H1, H2, H3. done.
Qed.

Lemma line_step_entry n section sections entries key text :
  plain_key key = true → supportedKey section key = true → section ≠ "" →
  sections !! section = Some entries → entries !! key = None →
  ends_clean text → text ≠ "" → trim_space (String " " text) ≠ "" → no_nul (trim_space (String " " text)) = true →
  line_step (n, section, sections) (entry_line key text) =
    Ok (S n, section, <[section := <[key := trim_space (String " " text)]> entries]> sections).
Proof.
  intros Hk Hsup Hsec Hentries Hnew He Hne Hv Hnul.
  destruct (plain_key_line key text Hk) as (H1 & H2 & H3 & H4 & H5 & H6 & H7).
  unfold line_step, bracketed. rewrite (trim_space_trimmed (entry_line key text)) by by apply entry_line_trimmed.
  rewrite H2, H3, H4, !orb_false_r, (bool_decide_eq_false_2 _ H1). cbn [andb].
  rewrite (bool_decide_eq_false_2 _ Hsec). rewrite entry_line_cut by done. rewrite H7.
  rewrite (bool_decide_eq_false_2 _ H5), (bool_decide_eq_false_2 _ Hv). unfold no_nul in Hnul. apply negb_true_iff in Hnul.
  rewrite Hnul, Hentries. cbn [default fail_if orb mbind result_bind]. cbv beta iota.
  change (id entries) with entries. by rewrite Hnew, Hsup.
Qed.

(** ** Lemmas: the normalised profile *)

(** What an accepted value looks like. *)
Definition good_value (v : string) : Prop := trimmed v ∧ v ≠ "" ∧ no_lf v = true ∧ no_nul v = true.
(** What may end a line. *)
Definition good_end (v : string) : Prop := ends_clean v ∧ v ≠ "" ∧ no_lf v = true.

Lemma good_value_end v : good_value v → good_end v.
Proof. intros ([_ He]&?&?&_). done. Qed.

Lemma good_value_blank v : good_value v → trim_space (String " " v) = v.
Proof. intros ([Hs He]&?&_). by apply trim_space_blank. Qed.

Lemma good_line key text : plain_key key = true → no_lf key = true → good_end text →
  no_lf (entry_line key text) = true ∧ no_cr_end (entry_line key text).
Proof.
  intros Hk Hlf (He&Hne&Ht). split.
  - unfold no_lf, entry_line in *. rewrite !contains_byte_app. apply negb_true_iff in Hlf, Ht. by rewrite Hlf, Ht.
  - intros v E. destruct (entry_line_trimmed key text Hk He Hne) as [_ Hc].
    by pose proof (ends_clean_nonempty _ Hc _ _ E).
Qed.

Lemma step_value {X} n section sections entries key v (k : nat * string * gmap string (gmap string string) → result ProfileError X) :
  plain_key key = true → supportedKey section key = true → section ≠ "" →
  sections !! section = Some entries → entries !! key = None → good_value v →
  (line_step (n, section, sections) (entry_line key v) ≫= k) =
    k (S n, section, <[section := <[key := v]> entries]> sections).
Proof.
  intros ? ? ? ? ? Hv. pose proof Hv as ([? ?]&?&?&?). pose proof (good_value_blank v Hv) as E.
  rewrite (line_step_entry _ _ _ entries) by (try done; by rewrite E). by rewrite E.
Qed.

Definition normal_iface (pk addresses mtu : string) : gmap string string :=
  <["MTU" := mtu]> (<["Address" := addresses]> (<["PrivateKey" := pk]> ∅)).
Definition normal_peer (pub psk endpoint keepalive : string) : gmap string string :=
  <["PersistentKeepalive" := keepalive]> (<["Endpoint" := endpoint]> (<["AllowedIPs" := "0.0.0.0/0"]>
    (<["PresharedKey" := psk]> (<["PublicKey" := pub]> ∅)))).

Definition endpoint_text (host : string) (port : Z) : string := host +:+ ":" +:+ itoa port.

Lemma profile_lines_entries pk addrs mtu pub psk host port ka :
  profile_lines pk addrs mtu pub psk host port ka =
  ["[Interface]"; entry_line "PrivateKey" pk; entry_line "Address" (join addrs ", "); entry_line "MTU" (itoa mtu); "";
   "[Peer]"; entry_line "PublicKey" pub; entry_line "PresharedKey" psk; entry_line "AllowedIPs" "0.0.0.0/0";
   entry_line "Endpoint" (endpoint_text host port); entry_line "PersistentKeepalive" (itoa ka); ""].
Proof. reflexivity. Qed.

Lemma good_allowed : good_value "0.0.0.0/0".
Proof. repeat split; by vm_compute. Qed.

Lemma step_header {X} n section sections name (k : nat * string * gmap string (gmap string string) → result ProfileError X) :
  name = "Interface" ∨ name = "Peer" → sections !! name = None →
  (line_step (n, section, sections) ("[" +:+ name +:+ "]") ≫= k) = k (S n, name, <[name := ∅]> sections).
Proof.
  intros Hname Hnew. unfold line_step.
  assert (trim_space ("[" +:+ name +:+ "]") = "[" +:+ name +:+ "]" ∧ bracketed ("[" +:+ name +:+ "]") = Some name
    ∧ trim_space name = name) as (E1 & E2 & E3).
  { by destruct Hname as [-> | ->]; split_and!; vm_compute. }
  rewrite E1, E2. destruct Hname as [-> | ->]; cbn -[line_step trim_space lookup insert];
    rewrite E3, Hnew; done.
Qed.

Lemma step_blank {X} n section sections (k : nat * string * gmap string (gmap string string) → result ProfileError X) :
  (line_step (n, section, sections) "" ≫= k) = k (S n, section, sections).
Proof. reflexivity. Qed.

Section normal.
Context (pk pub psk host : string) (addrs : list string) (mtu port ka : Z).
Hypothesis Hpk : good_value pk.
Hypothesis Haddrs : good_value (join addrs ", ").
Hypothesis Hmtu : good_value (itoa mtu).
Hypothesis Hpub : good_value pub.
Hypothesis Hpsk : good_value psk.
Hypothesis Hend : good_end (endpoint_text host port).
Hypothesis Hka : good_value (itoa ka).
Let normalized := join (profile_lines pk addrs mtu pub psk host port ka) newline.
Let endpoint := trim_space (String " " (endpoint_text host port)).

Lemma normal_good_lines : Forall (fun w => no_lf w = true ∧ no_cr_end w) (profile_lines pk addrs mtu pub psk host port ka).
Proof using Hpk Haddrs Hmtu Hpub Hpsk Hend Hka.
  rewrite profile_lines_entries. pose proof good_allowed as Ha.
  assert (forall w, no_lf w = true → ends_clean w → no_lf w = true ∧ no_cr_end w) as Hfix.
  { intros w Hw He. split; [done|]. intros v E. by pose proof (ends_clean_nonempty _ He _ _ E). }
  assert (forall key v, plain_key key = true → no_lf key = true → good_value v →
    no_lf (entry_line key v) = true ∧ no_cr_end (entry_line key v)) as Hval.
  { intros key v ? ? ?%good_value_end. by apply good_line. }
  repeat (apply Forall_cons_2; [first [apply Hval; [by vm_compute|by vm_compute|done]
    | apply good_line; [by vm_compute|by vm_compute|exact Hend] | apply Hfix; by vm_compute]|]).
  apply Forall_nil_2.
Qed.

Lemma normal_split : split (profile_text normalized) lf = profile_lines pk addrs mtu pub psk host port ka.
Proof using Hpk Haddrs Hmtu Hpub Hpsk Hend Hka.
  unfold profile_text, normalized. rewrite replace_lines by apply normal_good_lines.
  change (trim_prefix (join (profile_lines pk addrs mtu pub psk host port ka) newline) bom)
    with (join (profile_lines pk addrs mtu pub psk host port ka) newline).
  apply split_join_lines; [done|]. eapply Forall_impl; [apply normal_good_lines|]. by intros w [? _].
Qed.

Lemma normal_parse : endpoint ≠ "" → no_nul endpoint = true →
  ∃ sections, parse_lines normalized = Ok sections ∧
    sections !! "Interface" = Some (normal_iface pk (join addrs ", ") (itoa mtu)) ∧
    sections !! "Peer" = Some (normal_peer pub psk endpoint (itoa ka)).
Proof using Hpk Haddrs Hmtu Hpub Hpsk Hend Hka.
  intros Hne Hnul. unfold parse_lines. rewrite normal_split, profile_lines_entries. cbn [foldM].
  rewrite (step_header 0 "" ∅ "Interface") by (try done; by left).
  rewrite (step_value _ _ _ ∅) by (by try apply lookup_insert_eq).
  rewrite (step_value _ _ _ (<["PrivateKey" := pk]> ∅)) by (by try apply lookup_insert_eq).
  rewrite (step_value _ _ _ (<["Address" := _]> (<["PrivateKey" := pk]> ∅))) by (by try apply lookup_insert_eq).
  rewrite step_blank, (step_header _ _ _ "Peer") by (try (by right); by simplify_map_eq).
  rewrite (step_value _ _ _ ∅) by (by try apply lookup_insert_eq).
  rewrite (step_value _ _ _ (<["PublicKey" := _]> ∅)) by (by try apply lookup_insert_eq).
  rewrite (step_value _ _ _ (<["PresharedKey" := _]> (<["PublicKey" := _]> ∅))) by (try apply good_allowed; by try apply lookup_insert_eq).
  destruct Hend as (He&Hte&_).
  rewrite (line_step_entry _ _ _ (<["AllowedIPs" := "0.0.0.0/0"]> (<["PresharedKey" := psk]> (<["PublicKey" := pub]> ∅))))
    by (by try apply lookup_insert_eq).
  match goal with |- context [@mbind ?m ?b ?A ?B ?k (Ok ?x)] => change (@mbind m b A B k (Ok x)) with (k x) end; cbv beta.
  rewrite (step_value _ _ _ (<["Endpoint" := endpoint]> (<["AllowedIPs" := "0.0.0.0/0"]> (<["PresharedKey" := psk]> (<["PublicKey" := pub]> ∅)))))
    by (by try apply lookup_insert_eq).
  rewrite step_blank. eexists. split; [reflexivity|]. split; [|by apply lookup_insert_eq]. by simplify_map_eq.
Qed.

End normal.

(** ** Lemmas: what the parser accepts *)

Lemma digits_good n : 0 ≤ n → good_value (itoa n).
Proof.
  intros Hn. rewrite itoa_nonneg by done. pose proof (format_uint_digits n Hn) as Hd.
  assert (Hp : sall plain_byte (format_uint n) = true) by (revert Hd; apply sall_mono, digit_plain).
  assert (Hne : format_uint n ≠ "") by (apply udec_not_nil; lia).
  assert (Hc : ∀ c, is_digit c = false → contains_byte (format_uint n) c = false).
  { intros c Hc. unfold contains_byte. clear -Hd Hc. induction (format_uint n) as [|d s IH]; [done|]. cbn in *.
    apply andb_true_iff in Hd as [Hd Hs]. rewrite (IH Hs). destruct (Ascii.eqb_spec c d) as [->|]; [congruence|done]. }
  assert (Hst : ∀ encs s, sall plain_byte s = true → strip_space encs s = None).
  { intros encs [|c s]; [done|]. cbn. unfold plain_byte. intros [[Ha Hb%negb_true_iff]%andb_true_iff _]%andb_true_iff. by rewrite Hb, Ha. }
  split; [|split; [done|]].
  - split; apply Hst; [done|by rewrite sall_rev].
  - unfold no_lf, no_nul. by rewrite !Hc.
Qed.

Lemma cut_spec s sep a b : cut s sep = (a, b, true) → s = a +:+ String sep b.
Proof.
  revert a. induction s as [|c s IH]; intros a; cbn [cut]; [done|].
  destruct (Ascii.eqb_spec c sep) as [->|]; [by intros [= <- <-]|].
  destruct (cut s sep) as [[x y] f] eqn:E. intros [= <- <- ->]. by rewrite app_cons_s, <- (IH x).
Qed.

Lemma split_no_sep s sep : Forall (fun w => contains_byte w sep = false) (split s sep).
Proof.
  unfold contains_byte. induction s as [|c s IH]; cbn; [by repeat constructor|].
  destruct (Ascii.eqb_spec c sep) as [->|Hne]; [by constructor|].
  destruct (split s sep) as [|w ws] eqn:E; [by apply split_nonempty in E|].
  apply Forall_cons_iff in IH as [Hw Hws]. constructor; [|done]. cbn. rewrite Hw.
  destruct (Ascii.eqb_spec sep c); [congruence|done].
Qed.

(** Texts without a byte have parts without it. *)
Lemma split_keeps s sep c : contains_byte s c = false → Forall (fun w => contains_byte w c = false) (split s sep).
Proof.
  unfold contains_byte. induction s as [|d s IH]; cbn; [by repeat constructor|].
  intros [Hd Hs]%orb_false_iff. specialize (IH Hs). destruct (Ascii.eqb d sep); [by constructor|].
  destruct (split s sep) as [|w ws]; [by repeat constructor; cbn; rewrite ?Hd|].
  apply Forall_cons_iff in IH as [Hw Hws]. constructor; [|done]. cbn. by rewrite Hd.
Qed.

Lemma trim_space_keeps s c : contains_byte s c = false → contains_byte (trim_space s) c = false.
Proof.
  destruct (trim_space_sound s) as [_ (p&q&E)]. rewrite E at 1. rewrite !contains_byte_app.
  by intros [_ [? _]%orb_false_iff]%orb_false_iff.
Qed.

Lemma cut_keeps s sep a b c : cut s sep = (a, b, true) → contains_byte s c = false → contains_byte b c = false.
Proof.
  intros ->%cut_spec. rewrite contains_byte_app. unfold contains_byte. cbn.
  by intros [_ [_ ?]%orb_false_iff]%orb_false_iff.
Qed.

Definition good_sections (sections : gmap string (gmap string string)) : Prop :=
  ∀ section entries key v, sections !! section = Some entries → entries !! key = Some v → good_value v.

Lemma good_sections_insert sections section entries :
  good_sections sections → (∀ key v, entries !! key = Some v → good_value v) →
  good_sections (<[section := entries]> sections).
Proof.
  intros Hs He s' m key v. destruct (decide (s' = section)) as [->|].
  - rewrite lookup_insert_eq. intros [= <-]. apply He.
  - rewrite lookup_insert_ne by done. apply Hs.
Qed.

Lemma line_step_good n section sections raw n' section' sections' :
  contains_byte raw lf = false → good_sections sections →
  line_step (n, section, sections) raw = Ok (n', section', sections') → good_sections sections'.
Proof.
  intros Hraw Hg. unfold line_step. destruct (_ || _ || _); [intros; by inv_ok|].
  destruct (bracketed _) as [name|].
  { intros Hs. inv_ok. apply good_sections_insert; [done|]. intros key v. by rewrite lookup_empty. }
  intros Hs. inv_ok. destruct (cut (trim_space raw) "=") as [[key value] found] eqn:Ec. destruct found; [|done].
  inv_ok. bools. apply good_sections_insert; [done|]. intros key' v.
  destruct (decide (key' = trim_space key)) as [->|].
  - rewrite lookup_insert_eq. intros [= <-]. destruct (trim_space_sound value) as [Ht _].
    split; [done|]. split; [done|]. unfold no_lf, no_nul. split; apply negb_true_iff; [|done].
    apply trim_space_keeps. eapply cut_keeps; [done|]. by apply trim_space_keeps.
  - rewrite lookup_insert_ne by done. intros Hv. destruct (sections !! section') as [entries|] eqn:El; [|by cbn in Hv; rewrite lookup_empty in Hv].
    by eapply Hg.
Qed.

Lemma parse_lines_good data sections : parse_lines data = Ok sections → good_sections sections.
Proof.
  unfold parse_lines. intros Hp. apply bind_ok in Hp as ([[n section] ss]&Hf&Hok). inv_ok.
  enough (good_sections (n, section, sections).2) by done. revert Hf.
  apply (foldM_inv line_step (fun _ st => good_sections st.2)); [by intros ? ? ? ?; cbn [snd]; rewrite lookup_empty|].
  intros _ raw [[n1 s1] ss1] [[n2 s2] ss2] Hg Hin. apply line_step_good; [|done].
  pose proof (split_no_sep (profile_text data) lf) as Hall. rewrite Forall_forall in Hall. by apply Hall.
Qed.

(** An interface address that is kept. *)
Definition tunnel_address (a : string) : Prop :=
  good_value a ∧ contains_byte a "," = false ∧ is_Some (net_parse_cidr a) ∧ is_Some (cidr_to4 a).

Lemma join_good addrs : addrs ≠ [] → Forall good_value addrs → good_value (join addrs ", ").
Proof.
  intros Hne Hall. induction Hall as [|w ws Hw Hws IH]; [done|]. destruct ws as [|w' ws]; [done|].
  destruct IH as ([Hjs Hje]&Hj&Hjl&Hjn); [done|]. destruct Hw as ([Hs He]&Hn&Hl&Hu).
  change (join (w :: w' :: ws) ", ") with (w +:+ String "," (String " " (join (w' :: ws) ", "))).
  set (j := join (w' :: ws) ", ") in *. split; [split|split; [by destruct w|]].
  - apply strip_space_stops; [by repeat constructor|done|done|exact Hs].
  - change (String "," (String " " j)) with ("," +:+ String " " j). rewrite <- app_assoc_s. by apply ends_clean_app.
  - unfold no_lf, no_nul in *. rewrite !contains_byte_app. apply negb_true_iff in Hl, Hu, Hjl, Hjn.
    change (contains_byte (String "," (String " " j)) lf) with (contains_byte j lf).
    change (contains_byte (String "," (String " " j)) (byte_of 0)) with (contains_byte j (byte_of 0)).
    by rewrite Hl, Hu, Hjl, Hjn.
Qed.

Lemma split_join_commas a addrs : Forall (fun w => contains_byte w "," = false) (a :: addrs) →
  split (join (a :: addrs) ", ") "," = a :: map (String " ") addrs.
Proof.
  revert a. induction addrs as [|b addrs IH]; intros a [Ha Hall]%Forall_cons_iff; [by apply split_none|].
  change (join (a :: b :: addrs) ", ") with (a +:+ String "," (String " " (join (b :: addrs) ", "))).
  rewrite split_sep, split_none by done. cbn [app split]. change (Ascii.eqb " " ",") with false. cbv iota.
  by rewrite (IH b Hall).
Qed.

Lemma good_trim v : good_value v → trim_space v = v.
Proof. intros [Ht _]. by apply trim_space_trimmed. Qed.

Lemma address_step_ok strict acc part a : trim_space part = a → tunnel_address a →
  address_step strict acc part = Ok (acc ++ [a]).
Proof. intros Ht (_&_&[c Hc]&[x Hx]). unfold address_step. by rewrite Ht, Hc, Hx. Qed.

Lemma address_fold strict acc addrs : Forall tunnel_address addrs →
  foldM (address_step strict) acc (map (String " ") addrs) = Ok (acc ++ addrs).
Proof.
  intros Hall. revert acc. induction Hall as [|a addrs Ha _ IH]; intros acc; cbn [map foldM]; [by rewrite app_nil_r|].
  rewrite (address_step_ok _ _ _ a); [|by apply good_value_blank, Ha|done].
  change (foldM (address_step strict) (acc ++ [a]) (map (String " ") addrs) = Ok (acc ++ a :: addrs)).
  rewrite IH. by rewrite <- app_assoc.
Qed.

Lemma validateAddresses_normal strict addrs : addrs ≠ [] → Forall tunnel_address addrs →
  validateAddresses (join addrs ", ") strict = Ok (addrs, hd "" addrs).
Proof.
  intros Hne Hall. destruct addrs as [|a addrs]; [done|]. unfold validateAddresses.
  rewrite split_join_commas by (eapply Forall_impl; [exact Hall|]; by intros w (_&?&_)).
  apply Forall_cons_iff in Hall as [Ha Hall]. cbn [foldM].
  rewrite (address_step_ok _ _ _ a); [|by apply good_trim, Ha|done].
  change ((addresses ← foldM (address_step strict) [a] (map (String " ") addrs);
    match addresses with [] => Err AddressMissing | first :: _ => Ok (addresses, first) end) = Ok (a :: addrs, a)).
  by rewrite address_fold.
Qed.

Lemma validateAddresses_ok value strict addrs first : good_value value →
  validateAddresses value strict = Ok (addrs, first) →
  addrs ≠ [] ∧ Forall tunnel_address addrs ∧ first = hd "" addrs.
Proof.
  intros (_&_&Hl&Hn). unfold validateAddresses. intros Hv. inv_ok. destruct r as [|a r]; [done|]. inv_ok.
  split; [done|]. split; [|done].
  revert E. apply (foldM_inv (address_step strict) (fun _ acc => Forall tunnel_address acc)); [done|].
  intros _ part acc acc' Hacc Hin. unfold address_step.
  destruct (net_parse_cidr (trim_space part)) as [c|] eqn:Ec; [|done].
  destruct (cidr_to4 (trim_space part)) as [x|] eqn:E4; [|by destruct strict; intros; inv_ok].
  intros; inv_ok. apply Forall_app_2; [done|]. apply Forall_cons_2; [|done].
  pose proof (proj1 (Forall_forall _ _) (split_no_sep value ",") part Hin) as Hcomma. cbn beta in Hcomma.
  unfold no_lf, no_nul in *. apply negb_true_iff in Hl, Hn.
  pose proof (proj1 (Forall_forall _ _) (split_keeps value "," _ Hl) part Hin) as Hlp. cbn beta in Hlp.
  pose proof (proj1 (Forall_forall _ _) (split_keeps value "," _ Hn) part Hin) as Hnp. cbn beta in Hnp.
  split; [|split; [by apply trim_space_keeps|by rewrite Ec, E4]].
  split; [apply trim_space_sound|]. split; [by intros E; rewrite E in Ec|].
  unfold no_lf, no_nul. by rewrite !trim_space_keeps.
Qed.

Lemma addr_dotted a : valid_addr a → sall dotted_byte (addr_string a) = true ∧ addr_string a ≠ "".
Proof.
  intros Ha. split; [|by intros E; pose proof (addr_string_syntax a Ha) as Hs; rewrite E in Hs].
  destruct (addr_string_digits a Ha) as (o0&o1&o2&o3&Hd&->). rewrite !Forall_cons_iff in Hd. destruct Hd as (?&?&?&?&_).
  by rewrite !sall_app, !(digits_dotted o0), !(digits_dotted o1), !(digits_dotted o2), !(digits_dotted o3).
Qed.

(** A host that a validated endpoint names. *)
Record good_host (host : string) : Prop := {
  gh_text : host ≠ "" ∧ no_lf host = true ∧ no_nul host = true;
  gh_brackets : contains_byte host "[" = false ∧ contains_byte host "]" = false;
  gh_kind : (∃ a, valid_addr a ∧ host = addr_string a)
            ∨ (is_ip host = false ∧ contains_any host host_forbidden = false ∧ len host ≤ 253);
}.

Lemma last_colon_spec s a b : last_colon s = Some (a, b) → s = a +:+ String ":" b.
Proof.
  revert a. induction s as [|c s IH]; intros a; cbn [last_colon]; [done|].
  destruct (last_colon s) as [[x y]|].
  - intros [= <- ->]. by rewrite app_cons_s, <- (IH x).
  - destruct (Ascii.eqb_spec c ":") as [->|]; [by intros [= <- ->]|done].
Qed.

Lemma last_colon_none s : contains_byte s ":" = false → last_colon s = None.
Proof.
  unfold contains_byte. induction s as [|c s IH]; cbn [sany last_colon]; [done|].
  intros [Hc Hs]%orb_false_iff. rewrite IH by done. rewrite Ascii.eqb_sym in Hc. by rewrite Hc.
Qed.

Lemma last_colon_app a b : contains_byte b ":" = false → last_colon (a +:+ String ":" b) = Some (a, b).
Proof.
  intros Hb. induction a as [|c a IH].
  - rewrite app_nil_l_s. cbn [last_colon]. by rewrite last_colon_none.
  - rewrite app_cons_s. cbn [last_colon]. by rewrite IH.
Qed.

Lemma contains_any_bytes s chars c : contains_any s chars = false → contains_byte chars c = true → contains_byte s c = false.
Proof.
  unfold contains_any. intros Hs Hc. unfold contains_byte. induction s as [|d s IH]; cbn in *; [done|].
  apply orb_false_iff in Hs as [Hd Hs]. rewrite IH by done. destruct (Ascii.eqb_spec c d) as [->|]; [congruence|done].
Qed.

Lemma split_host_port_ok value host port : split_host_port value = Some (host, port) →
  contains_byte host "[" = false ∧ contains_byte host "]" = false ∧
  ∀ c, contains_byte value c = false → contains_byte host c = false.
Proof.
  unfold split_host_port. destruct (last_colon value) as [[before p]|] eqn:El; [|done].
  apply last_colon_spec in El.
  assert (Hplain : (if contains_byte before ":" || contains_any value "[]" then None else Some (before, p)) = Some (host, port) →
    contains_byte host "[" = false ∧ contains_byte host "]" = false ∧ ∀ c, contains_byte value c = false → contains_byte host c = false).
  { destruct (contains_byte before ":"); [done|]. cbn [orb]. destruct (contains_any value "[]") eqn:Ev; [done|]. intros [= -> ->].
    assert (Hb : ∀ c, contains_byte value c = false → contains_byte host c = false).
    { intros c Hc. rewrite El, contains_byte_app in Hc. by apply orb_false_iff in Hc as [? _]. }
    split_and!; [| |done]; apply Hb; by eapply contains_any_bytes. }
  destruct before as [|c0 rest]; [exact Hplain|].
  destruct (Ascii.eqb_spec c0 "[") as [->|Hne].
  2: { destruct c0 as [[] [] [] [] [] [] [] []]; try exact Hplain. by destruct Hne. }
  destruct (strip_suffix "]" rest) as [h|] eqn:Es; [|done].
  destruct (contains_byte h "]") eqn:E1; [done|]. destruct (contains_byte h "[") eqn:E2; [done|].
  destruct (contains_any p "[]"); [done|]. intros [= -> ->]. split_and!; [done|done|].
  apply strip_suffix_spec in Es. intros c Hc. rewrite El, Es in Hc. rewrite contains_byte_app in Hc.
  apply orb_false_iff in Hc as [Hc _]. change (String "[" (host +:+ "]")) with ("[" +:+ (host +:+ "]")) in Hc.
  rewrite !contains_byte_app in Hc. by apply orb_false_iff in Hc as [_ [? _]%orb_false_iff].
Qed.

Lemma validateEndpoint_ok value host port : good_value value → validateEndpoint value = Ok (host, port) →
  port = DefaultPort ∧ good_host host.
Proof.
  intros (_&_&Hl&Hn). unfold validateEndpoint. destruct (split_host_port value) as [[h p]|] eqn:Es; [|done].
  apply split_host_port_ok in Es as (H1&H2&Hk). intros Hv. inv_ok. bools. destruct (parse_int p) as [q|]; [|done]. inv_ok. bools.
  unfold no_lf, no_nul in Hl, Hn. apply negb_true_iff in Hl, Hn.
  destruct (is_ip h) eqn:Hip.
  - destruct (parse_to4 h) as [a|] eqn:Ha; [|done]. inv_ok. split; [done|].
    pose proof (parse_to4_valid _ _ Ha) as Hv. destruct (addr_dotted a Hv) as [Hd Hne].
    split; [|by split; eapply sall_no_byte|left; by exists a].
    split; [done|]. unfold no_lf, no_nul. by split; apply negb_true_iff; eapply sall_no_byte.
  - inv_ok. bools. split; [done|]. split; [|done|by right].
    split; [done|]. unfold no_lf, no_nul. by rewrite !Hk.
Qed.

Lemma split_host_port_plain host port : contains_byte host "[" = false → contains_byte host "]" = false →
  contains_byte port ":" = false → contains_any port "[]" = false →
  split_host_port (host +:+ String ":" port) = if contains_byte host ":" then None else Some (host, port).
Proof.
  intros H1 H2 Hp Hb. unfold split_host_port. rewrite last_colon_app by done.
  assert (Hany : contains_any (host +:+ String ":" port) "[]" = false).
  { assert (∀ s, contains_byte s "[" = false → contains_byte s "]" = false → contains_any s "[]" = false) as Hs.
    { clear. induction s as [|c s IH]; [done|].
      change (contains_any (String c s) "[]") with (contains_byte "[]" c || contains_any s "[]").
      intros [E1 E1']%orb_false_iff [E2 E2']%orb_false_iff. rewrite IH by done.
      unfold contains_byte. cbn [sany]. by rewrite (Ascii.eqb_sym c), E1, (Ascii.eqb_sym c), E2. }
    apply Hs; rewrite contains_byte_app.
    - rewrite H1. unfold contains_byte at 1. cbn. by apply (contains_any_bytes _ _ "[" Hb).
    - rewrite H2. unfold contains_byte at 1. cbn. by apply (contains_any_bytes _ _ "]" Hb). }
  rewrite Hany, orb_false_r. destruct host as [|c host]; [done|].
  destruct (Ascii.eqb_spec c "[") as [->|Hne]; [by unfold contains_byte in H1; cbn in H1|].
  destruct c as [[] [] [] [] [] [] [] []]; try done. 
Qed.

Lemma endpoint_text_default host : endpoint_text host DefaultPort = host +:+ String ":" "1637".
Proof. reflexivity. Qed.

Lemma validateEndpoint_normal host : good_host host →
  validateEndpoint (endpoint_text host DefaultPort)
    = if contains_byte host ":" then Err EndpointInvalid else Ok (host, DefaultPort).
Proof.
  intros [(Hne&_) [H1 H2] Hk]. unfold validateEndpoint. rewrite endpoint_text_default, split_host_port_plain by done.
  destruct (contains_byte host ":"); [done|]. rewrite (bool_decide_eq_false_2 _ Hne).
  change (parse_int "1637") with (Some 1637). cbn [fail_if mbind result_bind]. change (negb (1637 =? DefaultPort)) with false.
  cbn [fail_if mbind result_bind]. destruct Hk as [(a&Ha&->)|(Hip&Hf&Hl)].
  - pose proof (parse_addr_string a Ha) as Hp. unfold is_ip. rewrite Hp. by rewrite (parse_to4_v4 _ _ Hp).
  - rewrite Hip, Hf. destruct (Z.ltb_spec 253 (len host)); [lia|done].
Qed.

Lemma endpoint_good_end host : good_host host → good_end (endpoint_text host DefaultPort).
Proof.
  intros [(Hne&Hl&_) _ _]. rewrite endpoint_text_default. split; [|split; [by destruct host|]].
  - by apply ends_clean_app.
  - unfold no_lf in *. rewrite contains_byte_app. apply negb_true_iff in Hl. by rewrite Hl.
Qed.

Lemma ok_bind {E A B} (a : A) (f : A → result E B) : (Ok a ≫= f) = f a.
Proof. reflexivity. Qed.

(** Trimming on the left stops at the first ASCII byte that is no space. *)
Lemma strip_space_keeps_end encs x c y r : Forall (fun e => sall (fun b => negb (is_ascii_byte b)) e = true) encs →
  plain_byte c = true → strip_space encs (x +:+ String c y) = Some r → ∃ z x', x = z +:+ x' ∧ r = x' +:+ String c y.
Proof.
  intros He [Ha Hsp%negb_true_iff]%andb_true_iff. destruct x as [|a x].
  { rewrite app_nil_l_s. cbn [strip_space]. by rewrite Hsp, Ha. }
  rewrite app_cons_s. cbn [strip_space]. destruct (is_ascii_space a); [intros [= <-]; by exists (String a ""), x|].
  destruct (is_ascii_byte a); [done|]. intros (e & Hin & E)%first_some_spec. rewrite Forall_forall in He.
  destruct (strip_prefix_stops e (String a x) c y) as [r' E']; [by apply He|done|rewrite app_cons_s, E; by eexists|].
  pose proof (strip_prefix_app _ _ (String c y) _ E') as E2. rewrite app_cons_s, E in E2. injection E2 as ->.
  apply strip_prefix_spec in E'. by exists e, r'.
Qed.

Lemma trim_left_keeps_end encs fuel x c y : Forall (fun e => sall (fun b => negb (is_ascii_byte b)) e = true) encs →
  plain_byte c = true → ∃ z x', x = z +:+ x' ∧ trim_left_fuel fuel encs (x +:+ String c y) = x' +:+ String c y.
Proof.
  intros He Hc. revert x. induction fuel as [|fuel IH]; intros x; cbn [trim_left_fuel]; [by exists "", x|].
  destruct (strip_space encs _) as [r|] eqn:E; [|by exists "", x].
  apply strip_space_keeps_end in E as (z & x' & -> & ->); [|done..]. destruct (IH x') as (z' & x2 & -> & E2).
  exists (z +:+ z'), x2. by rewrite app_assoc_s.
Qed.

(** The endpoint of a normal form is read with the blanks in front of its host
    taken off. *)
Lemma trim_endpoint host : ∃ z h, String " " host = z +:+ h
  ∧ trim_space (String " " (endpoint_text host DefaultPort)) = endpoint_text h DefaultPort
  ∧ starts_clean (endpoint_text h DefaultPort).
Proof.
  rewrite endpoint_text_default. change (String " " (host +:+ String ":" "1637")) with (String " " host +:+ String ":" "1637").
  destruct (trim_left_keeps_end encs_forward (String.length (String " " host +:+ String ":" "1637")) (String " " host) ":" "1637")
    as (z & h & Ez & Eh); [by repeat constructor|done|].
  assert (trim_space (String " " host +:+ String ":" "1637") = h +:+ String ":" "1637") as Et.
  { unfold trim_space. rewrite Eh, trim_left_clean; [apply rev_involutive|]. by apply ends_clean_app. }
  exists z, h. split; [done|]. split; [done|]. rewrite endpoint_text_default, <- Et. apply trim_space_sound.
Qed.

Lemma dotted_starts_clean s : sall dotted_byte s = true → starts_clean s.
Proof.
  destruct s as [|c s]; [done|]. cbn [sall]. intros [Hc _]%andb_true_iff. apply starts_clean_plain.
  assert (negb (dotted_byte c) || plain_byte c = true) as Hi by (clear; revert c; apply byte_cases; by vm_compute).
  by rewrite Hc in Hi.
Qed.

(** An endpoint that is read without brackets and without leading blanks names
    a host without leading blanks. *)
Lemma validateEndpoint_clean h host port : contains_byte h "[" = false → contains_byte h "]" = false →
  starts_clean (endpoint_text h DefaultPort) → validateEndpoint (endpoint_text h DefaultPort) = Ok (host, port) → starts_clean host.
Proof.
  intros H1 H2 Hc. rewrite endpoint_text_default in *. unfold validateEndpoint. rewrite split_host_port_plain by done.
  destruct (contains_byte h ":"); [done|]. intros Hv. inv_ok. change (parse_int "1637") with (Some 1637) in Hv. inv_ok. destruct (is_ip h).
  - destruct (parse_to4 h) as [a|] eqn:Ea; [|done]. inv_ok. apply dotted_starts_clean, addr_dotted. by eapply parse_to4_valid.
  - inv_ok. by eapply strip_space_app.
Qed.

Section accepted.
Context `{PxDigest}.

(** What an accepted profile is. *)
Record accepted (p : Profile) (pk pub psk host : string) (addrs : list string) (mtu ka : Z) : Prop := {
  ac_keys : Forall (fun k => good_value k ∧ decodes_to_32 k = true) [pk; pub; psk];
  ac_addrs : addrs ≠ [] ∧ Forall tunnel_address addrs;
  ac_host : good_host host;
  ac_mtu : 576 ≤ mtu ≤ 9000;
  ac_keepalive : 0 ≤ ka ≤ 120;
  ac_profile : let config := join (profile_lines pk addrs mtu pub psk host DefaultPort ka) newline in
    p = mkProfile config (mkMetadata host DefaultPort (hd "" addrs) (sha256_hex config) "");
}.

Lemma bounded_ok value dflt lo hi e v : lo ≤ dflt ≤ hi → bounded value dflt lo hi e = Ok v → lo ≤ v ≤ hi.
Proof.
  intros Hd. unfold bounded. destruct (bool_decide _); [intros; inv_ok; done|].
  destruct (parse_int value) as [x|]; [|done]. destruct (_ || _) eqn:E; [done|]. intros; inv_ok. bools. lia.
Qed.

Lemma bounded_itoa n dflt lo hi e : 0 ≤ lo → hi < 2 ^ 63 → lo ≤ n ≤ hi → bounded (itoa n) dflt lo hi e = Ok n.
Proof.
  intros Hlo Hhi Hn. unfold bounded. destruct (digits_good n ltac:(lia)) as (_&Hne&_).
  rewrite (bool_decide_eq_false_2 _ Hne), itoa_nonneg, parse_int_format by lia.
  destruct (Z.ltb_spec n lo); [lia|]. destruct (Z.ltb_spec hi n); [lia|done].
Qed.

Lemma entry_good sections section entries key : good_sections sections → sections !! section = Some entries →
  entry entries key ≠ "" → good_value (entry entries key).
Proof.
  unfold entry. intros Hg Hs. destruct (entries !! key) as [v|] eqn:E; [|done]. intros _. by eapply Hg.
Qed.

Lemma validateKey_ok which v u : validateKey which v = Ok u → decodes_to_32 v = true.
Proof. unfold validateKey. intros; inv_ok. by bools. Qed.

Lemma parseProfile_ok strict data p : parseProfile strict data = Ok p →
  ∃ pk pub psk host addrs mtu ka, accepted p pk pub psk host addrs mtu ka.
Proof.
  unfold parseProfile. intros Hp. inv_ok. rename r into sections. apply parse_lines_good in E0 as Hg.
  destruct (sections !! "Interface") as [iface|] eqn:Hi; [|done]. destruct (sections !! "Peer") as [peer|] eqn:Hpe; [|done].
  inv_ok. destruct r as [addrs first]. inv_ok. destruct r as [host port]. inv_ok.
  apply eachM_ok in E1. apply eachM_ok in E4. rewrite !Forall_cons_iff in E1. destruct E1 as (F1&F2&_).
  rewrite !Forall_cons_iff in E4.  destruct E4 as (F3&F4&F5&_). inv_ok. bools.
  apply validateAddresses_ok in E3 as (?&?&->); [|by eapply entry_good].
  apply validateEndpoint_ok in E7 as [-> ?]; [|by eapply entry_good].
  apply bounded_ok in E10; [|unfold DefaultKeepalive; lia]. apply bounded_ok in E11; [|lia].
  exists (entry iface "PrivateKey"), (entry peer "PublicKey"), (entry peer "PresharedKey"), host, addrs, r1, r0.
  split; [|done|done|exact E11|exact E10|reflexivity].
  repeat apply Forall_cons_2; try apply Forall_nil_2; (split; [by eapply entry_good|by eapply validateKey_ok]).
Qed.

(** What the parser reads in a normal form. *)
Lemma parse_normal_reads strict p pk pub psk host addrs mtu ka : accepted p pk pub psk host addrs mtu ka →
  parseProfile strict (pf_Config p) =
    if maxProfileBytes <? len (pf_Config p) then Err EmptyOrTooLarge
    else '(host', port) ← validateEndpoint (trim_space (String " " (endpoint_text host DefaultPort)));
         let config := join (profile_lines pk addrs mtu pub psk host' port ka) newline in
         Ok (mkProfile config (mkMetadata host' port (hd "" addrs) (sha256_hex config) "")).
Proof.
  intros [Hkeys [Hne Haddrs] Hhost Hmtu Hka ->]. rewrite !Forall_cons_iff in Hkeys.
  destruct Hkeys as ([Hpk Dpk]&[Hpub Dpub]&[Hpsk Dpsk]&_). cbn [pf_Config] in *.
  pose proof (endpoint_good_end host Hhost) as Hend.
  assert (Hjoin : good_value (join addrs ", ")).
  { apply join_good; [done|]. eapply Forall_impl; [exact Haddrs|]. by intros a [? _]. }
  set (endpoint := trim_space (String " " (endpoint_text host DefaultPort))).
  assert (Hep : endpoint ≠ "") by (destruct (trim_endpoint host) as (z & h & _ & E & _); unfold endpoint; rewrite E; by destruct h).
  assert (Hnul : no_nul endpoint = true).
  { destruct Hhost as [(_&_&Hn) _ _]. unfold endpoint, no_nul in *. rewrite trim_space_keeps; [done|].
    change (String " " (endpoint_text host DefaultPort)) with (" " +:+ (host +:+ String ":" "1637")).
    rewrite !contains_byte_app. apply negb_true_iff in Hn. by rewrite Hn. }
  destruct (normal_parse pk pub psk host addrs mtu DefaultPort ka Hpk Hjoin (digits_good mtu ltac:(lia)) Hpub Hpsk Hend
    (digits_good ka ltac:(lia)) Hep Hnul) as (sections&Hs&Hi&Hp). fold endpoint in Hp.
  unfold parseProfile. set (config := join _ newline) in *.
  assert (Hpos : 0 < len config) .
  { change config with ("[Interface]" +:+ (newline +:+ join (tl (profile_lines pk addrs mtu pub psk host DefaultPort ka)) newline)).
    unfold len. rewrite length_app_s. change (String.length "[Interface]") with 11%nat. lia. }
  destruct (Z.eqb_spec (len config) 0); [lia|]. destruct (Z.ltb_spec maxProfileBytes (len config)); [done|].
  rewrite Hs. cbn [orb fail_if]. rewrite !ok_bind, Hi, Hp.
  assert (Hif : entry (normal_iface pk (join addrs ", ") (itoa mtu)) "PrivateKey" = pk
    ∧ entry (normal_iface pk (join addrs ", ") (itoa mtu)) "Address" = join addrs ", "
    ∧ entry (normal_iface pk (join addrs ", ") (itoa mtu)) "MTU" = itoa mtu)
    by (unfold entry, normal_iface; by simplify_map_eq).
  destruct Hif as (I1&I2&I3).
  assert (Hpf : entry (normal_peer pub psk endpoint (itoa ka)) "PublicKey" = pub
    ∧ entry (normal_peer pub psk endpoint (itoa ka)) "PresharedKey" = psk
    ∧ entry (normal_peer pub psk endpoint (itoa ka)) "Endpoint" = endpoint
    ∧ entry (normal_peer pub psk endpoint (itoa ka)) "AllowedIPs" = "0.0.0.0/0"
    ∧ entry (normal_peer pub psk endpoint (itoa ka)) "PersistentKeepalive" = itoa ka)
    by (unfold entry, normal_peer; by simplify_map_eq).
  destruct Hpf as (P1&P2&P3&P4&P5).
  assert (Hnonempty : ∀ v, v ≠ "" → bool_decide (v = "") = false) by (intros; by apply bool_decide_eq_false_2).
  unfold eachM. cbn [foldM].
  rewrite I1, I2, I3, P1, P2, P3, P4, P5.
  rewrite (Hnonempty pk), (Hnonempty (join addrs ", ")), (Hnonempty pub), (Hnonempty psk), (Hnonempty endpoint)
    by (done || apply Hpk || apply Hjoin || apply Hpub || apply Hpsk).
  unfold validateKey. rewrite Dpk, Dpub, Dpsk, validateAddresses_normal by done.
  cbn [negb fail_if]. rewrite !ok_bind. destruct (validateEndpoint endpoint) as [[host' port]|e]; [|done]. rewrite !ok_bind.
  change (foldM (allowed_step strict) false (split "0.0.0.0/0" ",")) with (@Ok ProfileError _ true).
  rewrite ok_bind. cbn [negb fail_if]. rewrite ok_bind, !bounded_itoa by lia. by rewrite !ok_bind.
Qed.

(** A host without leading blanks is read again. *)
Lemma parse_normal strict p pk pub psk host addrs mtu ka : accepted p pk pub psk host addrs mtu ka →
  len (pf_Config p) ≤ maxProfileBytes → starts_clean host →
  parseProfile strict (pf_Config p) = if contains_byte host ":" then Err EndpointInvalid else Ok p.
Proof.
  intros Ha Hlen Hclean. rewrite (parse_normal_reads _ _ _ _ _ _ _ _ _ Ha). destruct Ha as [_ _ Hhost _ _ Ep].
  destruct (Z.ltb_spec maxProfileBytes (len (pf_Config p))); [lia|].
  destruct (endpoint_good_end host Hhost) as (He & Hne & _).
  rewrite trim_space_blank; [|rewrite endpoint_text_default|done..].
  2: { destruct Hhost as [(?&_) _ _]. by apply strip_space_stops; [repeat constructor|..]. }
  rewrite validateEndpoint_normal by done. destruct (contains_byte host ":"); [done|]. by rewrite ok_bind, Ep.
Qed.

(** What is read from a normal form names a host without leading blanks. *)
Lemma parse_normal_clean strict p p' pk pub psk host addrs mtu ka : accepted p pk pub psk host addrs mtu ka →
  parseProfile strict (pf_Config p) = Ok p' → len (pf_Config p) ≤ maxProfileBytes ∧ starts_clean (me_EndpointHost (pf_Metadata p')).
Proof.
  intros Ha. rewrite (parse_normal_reads _ _ _ _ _ _ _ _ _ Ha). destruct (Z.ltb_spec maxProfileBytes (len (pf_Config p))); [done|].
  destruct (trim_endpoint host) as (z & h & Ez & Et & Hc). rewrite Et. intros (hp & Hv & Hok)%bind_ok. destruct hp as [host' port].
  injection Hok as <-. split; [done|]. cbn. pose proof (gh_brackets _ (ac_host _ _ _ _ _ _ _ _ Ha)) as [H1 H2].
  assert (∀ c, contains_byte host c = false → Ascii.eqb c " " = false → contains_byte h c = false) as Hin.
  { intros c Hc1 Hc2. assert (contains_byte (String " " host) c = false) as Hs.
    { unfold contains_byte in *. cbn [sany]. by rewrite Hc2. }
    rewrite Ez, contains_byte_app in Hs. by apply orb_false_iff in Hs as [_ ?]. }
  eapply (validateEndpoint_clean h); [by apply Hin|by apply Hin|done|exact Hv].
Qed.

Lemma settings_interface values name : settings_step (name, values) "[Interface]" = ("Interface", values).
Proof. reflexivity. Qed.
Lemma settings_blank values name : settings_step (name, values) "" = (name, values).
Proof. reflexivity. Qed.
Lemma settings_peer values name : settings_step (name, values) "[Peer]" = ("Peer", values).
Proof. reflexivity. Qed.

Lemma settings_entry section values key v : plain_key key = true → good_value v →
  settings_step (section, values) (entry_line key v) = (section, <[section +:+ "." +:+ key := v]> values).
Proof.
  intros Hk Hv. destruct (plain_key_line key v Hk) as (H1&_&_&H4&_&H6&H7). pose proof Hv as ([_ He]&Hne&_).
  unfold settings_step, bracketed. rewrite (trim_space_trimmed (entry_line key v)) by by apply entry_line_trimmed.
  rewrite (bool_decide_eq_false_2 _ H1), H4. cbn [andb]. by rewrite entry_line_cut, H7, good_value_blank.
Qed.

Lemma settings_values pk pub psk endpoint addresses mtu ka :
  Forall good_value [pk; addresses; mtu; pub; psk; endpoint; ka] →
  let values := (foldl settings_step ("", ∅) ["[Interface]"; entry_line "PrivateKey" pk; entry_line "Address" addresses; entry_line "MTU" mtu; "";
   "[Peer]"; entry_line "PublicKey" pub; entry_line "PresharedKey" psk; entry_line "AllowedIPs" "0.0.0.0/0";
   entry_line "Endpoint" endpoint; entry_line "PersistentKeepalive" ka; ""]).2 in
  entry values "Interface.PrivateKey" = pk ∧ entry values "Interface.Address" = addresses ∧ entry values "Interface.MTU" = mtu ∧
  entry values "Peer.PublicKey" = pub ∧ entry values "Peer.PresharedKey" = psk ∧ entry values "Peer.Endpoint" = endpoint ∧
  entry values "Peer.PersistentKeepalive" = ka.
Proof.
  rewrite !Forall_cons_iff. intros (Hpk&Had&Hmtu&Hpub&Hpsk&He&Hka&_). cbn [foldl].
  rewrite settings_interface.
  rewrite (settings_entry _ _ "PrivateKey"), (settings_entry _ _ "Address"), (settings_entry _ _ "MTU") by done.
  rewrite settings_blank, settings_peer.
  rewrite (settings_entry _ _ "PublicKey"), (settings_entry _ _ "PresharedKey"), (settings_entry _ _ "AllowedIPs"),
    (settings_entry _ _ "Endpoint"), (settings_entry _ _ "PersistentKeepalive") by (done || apply good_allowed).
  rewrite settings_blank. unfold entry. cbn [snd]. by split_and!; simplify_map_eq.
Qed.

Lemma WireGuardSettings_parsed p p' pk pub psk host addrs mtu ka : ParseProfileStrict (pf_Config p) = Ok p' →
  accepted p' pk pub psk host addrs mtu ka → starts_clean host →
  WireGuardSettings p = if contains_byte host ":" then Err EndpointMalformed
                        else Ok (mkSettings pk (join addrs ", ") pub psk host DefaultPort mtu ka).
Proof.
  intros Hparsed Ha Hclean. unfold WireGuardSettings. rewrite Hparsed, ok_bind.
  destruct Ha as [Hkeys [Hne Haddrs] Hhost Hmtu Hka ->]. cbn [pf_Config] in *.
  rewrite !Forall_cons_iff in Hkeys. destruct Hkeys as ([Hpk Dpk]&[Hpub Dpub]&[Hpsk Dpsk]&_).
  pose proof (endpoint_good_end host Hhost) as Hend.
  assert (Hjoin : good_value (join addrs ", ")).
  { apply join_good; [done|]. eapply Forall_impl; [exact Haddrs|]. by intros a [? _]. }
  rewrite split_join_lines; [|done|].
  2: { eapply Forall_impl; [apply normal_good_lines; try done; apply digits_good; lia|]. by intros w [? _]. }
  rewrite profile_lines_entries.
  assert (Hep : good_value (endpoint_text host DefaultPort)).
  { destruct Hend as (?&?&?), Hhost as [(?&_&Hn) _ _]. rewrite endpoint_text_default in *. split; [split|split_and!]; try done.
    - by apply strip_space_stops; [repeat constructor|..].
    - unfold no_nul in *. rewrite contains_byte_app. apply negb_true_iff in Hn. by rewrite Hn. }
  destruct (settings_values pk pub psk (endpoint_text host DefaultPort) (join addrs ", ") (itoa mtu) (itoa ka)) as (E1&E2&E3&E4&E5&E6&E7).
  { repeat apply Forall_cons_2; try apply Forall_nil_2; try done; apply digits_good; lia. }
  rewrite E1, E2, E3, E4, E5, E6, E7. rewrite endpoint_text_default, last_colon_app, split_host_port_plain; try done; try apply Hhost.
  destruct (contains_byte host ":"); [done|]. unfold atoi_value. rewrite !itoa_nonneg, !parse_int_format by lia. done.
Qed.

End accepted.

(** ** The normalised profile *)

(** C9. A profile that the parser accepts is rewritten to its normal form with the checked values, and that form is the
    only thing the firewall's settings are read from.  The form parses back to itself, strictly, and gives exactly the
    settings that were checked, exactly if it has at most 128 KiB, its host has no colon, and its host does not begin
    with a blank; the latter two are hosts that only brackets let through.  A longer form, and one with a colon, are
    refused by their own parser and give no settings.  A host that begins with a blank (of Unicode, say) never comes
    back: settings, if there are any, name another host than the one that was accepted. *)
Theorem ParseProfile_roundtrip `{PxDigest} strict data p : parseProfile strict data = Ok p →
  ∃ pk pub psk host addrs mtu ka,
    accepted p pk pub psk host addrs mtu ka ∧
    (ParseProfileStrict (pf_Config p) = Ok p
       ↔ len (pf_Config p) ≤ maxProfileBytes ∧ starts_clean host ∧ contains_byte host ":" = false) ∧
    (ParseProfileStrict (pf_Config p) = Ok p →
       WireGuardSettings p = Ok (mkSettings pk (join addrs ", ") pub psk host DefaultPort mtu ka)) ∧
    (maxProfileBytes < len (pf_Config p) → WireGuardSettings p = Err EmptyOrTooLarge) ∧
    (len (pf_Config p) ≤ maxProfileBytes → starts_clean host → contains_byte host ":" = true →
       WireGuardSettings p = Err EndpointInvalid) ∧
    (¬ starts_clean host → ∀ w, WireGuardSettings p = Ok w → wg_EndpointHost w ≠ host).
Proof.
  intros (pk&pub&psk&host&addrs&mtu&ka&Ha)%parseProfile_ok. exists pk, pub, psk, host, addrs, mtu, ka. split; [done|].
  assert (ParseProfileStrict (pf_Config p) = Ok p
       ↔ len (pf_Config p) ≤ maxProfileBytes ∧ starts_clean host ∧ contains_byte host ":" = false) as Hiff.
  { split.
    - intros Hp. destruct (parse_normal_clean _ _ _ _ _ _ _ _ _ _ Ha Hp) as [Hlen Hclean].
      pose proof (ac_profile _ _ _ _ _ _ _ _ Ha) as Ep. assert (me_EndpointHost (pf_Metadata p) = host) as Eh by by rewrite Ep.
      rewrite Eh in Hclean. split_and!; [done..|]. unfold ParseProfileStrict in Hp.
      rewrite (parse_normal _ _ _ _ _ _ _ _ _ Ha Hlen Hclean) in Hp. by destruct (contains_byte host ":").
    - intros (Hlen & Hclean & Hcolon). unfold ParseProfileStrict. by rewrite (parse_normal _ _ _ _ _ _ _ _ _ Ha Hlen Hclean), Hcolon. }
  split_and!; [done|..].
  - intros Hp. destruct (proj1 Hiff Hp) as (_ & Hclean & Hcolon). by rewrite (WireGuardSettings_parsed _ _ _ _ _ _ _ _ _ Hp Ha Hclean), Hcolon.
  - intros Hlen. unfold WireGuardSettings, ParseProfileStrict. rewrite (parse_normal_reads _ _ _ _ _ _ _ _ _ Ha).
    by rewrite (proj2 (Z.ltb_lt _ _) Hlen).
  - intros Hlen Hclean Hcolon. unfold WireGuardSettings, ParseProfileStrict. by rewrite (parse_normal _ _ _ _ _ _ _ _ _ Ha Hlen Hclean), Hcolon.
  - intros Hunclean w Hw Eh. apply Hunclean. unfold WireGuardSettings in Hw. apply bind_ok in Hw as (p' & Hp' & Hw).
    destruct (parse_normal_clean _ _ _ _ _ _ _ _ _ _ Ha Hp') as [_ Hclean].
    destruct (parseProfile_ok _ _ _ Hp') as (pk'&pub'&psk'&host'&addrs'&mtu'&ka'&Ha').
    pose proof (ac_profile _ _ _ _ _ _ _ _ Ha') as Ep. assert (me_EndpointHost (pf_Metadata p') = host') as Eh' by by rewrite Ep.
    rewrite Eh' in Hclean. pose proof (WireGuardSettings_parsed _ _ _ _ _ _ _ _ _ Hp' Ha' Hclean) as Hset.
    unfold WireGuardSettings in Hset. rewrite Hp', ok_bind, Hw in Hset. destruct (contains_byte host' ":"); [done|].
    injection Hset as ->. cbn in Eh. by subst host'.
Qed.

Definition sample_key : string := "AAAAAAAAAAAAAAAAAAAAAAAAAAAAAAAAAAAAAAAAAAA=".
Definition sample_profile (addresses endpoint : string) : string :=
  join ["[Interface]"; "Address = " +:+ addresses; "PrivateKey = " +:+ sample_key; "DNS = 10.128.0.1"; ""; "[Peer]";
        "PublicKey = " +:+ sample_key; "PresharedKey=" +:+ sample_key; "Endpoint = " +:+ endpoint; "AllowedIPs = 0.0.0.0/0, ::/0"] newline.
Definition sample_digest : PxDigest := {| sha256_hex s := s |}.

Theorem ParseProfile_roundtrip_witness :
  let data := sample_profile "10.128.0.7/32,fd7d::7/128" "nl.example.org:1637" in
  ∃ p, @parseProfile sample_digest false data = Ok p ∧
  ∃ pk pub psk host addrs mtu ka, @accepted sample_digest p pk pub psk host addrs mtu ka ∧
    (@ParseProfileStrict sample_digest (pf_Config p) = Ok p
       ↔ len (pf_Config p) ≤ maxProfileBytes ∧ starts_clean host ∧ contains_byte host ":" = false).
Proof.
  intros data. destruct (@parseProfile sample_digest false data) as [p|e] eqn:E; [|vm_compute in E; discriminate E].
  exists p. split; [reflexivity|].
  destruct (@ParseProfile_roundtrip sample_digest false data p E) as (pk&pub&psk&host&addrs&mtu&ka&Ha&Hiff&_).
  exists pk, pub, psk, host, addrs, mtu, ka. exact (conj Ha Hiff).
Defined.

(** The tolerant parser drops the IPv6 address; the strict one keeps an IPv4 address in its IPv6 text. *)
Example sample_settings :
  (p ← @ParseProfile sample_digest (sample_profile "10.128.0.7/32,fd7d::7/128" "nl.example.org:1637"); @WireGuardSettings sample_digest p)
  = Ok (mkSettings sample_key "10.128.0.7/32" sample_key sample_key "nl.example.org" 1637 1320 25).
Proof. by vm_compute. Qed.
Example sample_bracketed : map (fun endpoint => p ← @ParseProfile sample_digest (sample_profile "10.128.0.7/32" endpoint); @WireGuardSettings sample_digest p)
  ["[fe80::1%eth0]:1637"; "[a:b]:1637"] = [Err EndpointInvalid; Err EndpointInvalid]
  ∧ map (fun endpoint => is_ok (@ParseProfile sample_digest (sample_profile "10.128.0.7/32" endpoint))) ["[fe80::1%eth0]:1637"; "[a:b]:1637"] = [true; true].
Proof. split; by vm_compute. Qed.
(** A no-break space in front of a bracketed host: the profile is recorded with
    one host, and the firewall is given another. *)
Definition no_break_space : string := string_of_vals [194; 160].
Example sample_blank :
  let data := sample_profile "10.128.0.7/32" ("[" +:+ no_break_space +:+ "nl.example.org]:1637") in
  (p ← @ParseProfile sample_digest data; Ok (me_EndpointHost (pf_Metadata p))) = Ok (no_break_space +:+ "nl.example.org")
  ∧ (p ← @ParseProfile sample_digest data; w ← @WireGuardSettings sample_digest p; Ok (wg_EndpointHost w)) = Ok "nl.example.org".
Proof. split; by vm_compute. Qed.
Example sample_mapped :
  (addrs ← validateAddresses "::ffff:10.128.0.7/128" true; Ok addrs.2) = Ok "::ffff:10.128.0.7/128".
Proof. by vm_compute. Qed.

End AirVpn.
