(* ===== verification/AirClient.v ===== *)
(** * The AirVPN client ([internal/airvpn/profile.go], Client)

    The calls a profile costs: the generator, its manifest, the read-only checks
    after a refusal and the device of the product.  The provider's answers are
    arguments: the client is a tree of calls, each followed by what the client
    does for every answer.  The JSON decoders, the URL parser and the media type
    parser of the standard library are parameters, and so is the order in which
    the members of a decoded object are visited. *)

From S2P Require Import GoNet PxGuest.
From S2P Require Export AirVpn.
Open Scope Z_scope.

Module AirClient.
Import PxGuest AirVpn.

(** ** Data *)

Definition DefaultAPIBaseURL : string := "https://airvpn.org/api".
Definition maxStatusBytes : Z := 2 * 1024 * 1024.
Definition defaultDeviceName : string := "default".
Definition managedDeviceName : string := "boetticher-airvpn".
Definition managedDeviceNote : string := "Boetticher AirVPN transit".

(** A decoded JSON value; the members of an object in no particular order. *)
Inductive Json :=
| JString (s : string)
| JArray (items : list Json)
| JObject (members : list (string * Json))
| JOther.

Record providerServer := mkServer {
  sv_PublicName : string; sv_CountryName : string; sv_CountryCode : string; sv_Continent : string; sv_Health : string;
}.
Record providerDevice := mkDevice { dv_ID : string; dv_Name : string; dv_Description : string; dv_Status : string }.
Record providerReadiness_ := mkReadiness {
  rd_APIKeyAccepted : bool; rd_SubscriptionKnown : bool; rd_SubscriptionActive : bool; rd_DeviceCount : nat; rd_HasReadyDevice : bool;
}.
Definition no_readiness : providerReadiness_ := mkReadiness false false false 0 false.

(** [json.Unmarshal] into the types of the client; [None] is an error. *)
Class AirJSON := {
  (** into [any] *)
  json_any : string → option Json;
  (** into a [map[string]json.RawMessage]; null leaves no map *)
  json_object : string → option (option (gmap string string));
  (** into the [result], [files] and [options] of a manifest *)
  json_manifest : string → option (string * list string * string);
  (** into a string, a boolean: null leaves the zero value *)
  json_string : string → option string;
  json_bool : string → option bool;
  (** into the [id], the raw [result], the [servers] and the [devices] (absent or null: none) *)
  json_id : string → option string;
  json_result : string → option string;
  json_servers : string → option (list providerServer);
  json_devices : string → option (option (list providerDevice));
  (** into the [status] of each of the [devices] *)
  json_statuses : string → option (option (list string));
}.

(** ** Calls *)

Inductive HttpAnswer :=
| RequestFailed
| ReadFailed (status : Z)
| Answered (status : Z) (contentType data : string).
Inductive PauseEnd := PauseCancelled | PauseDeadline | PauseTick.

Inductive AirCall :=
(** A GET with the API key, if any, and the parameters set on the URL. *)
| Get (url : string) (key : option string) (query : list (string * string))
(** A POST of a JSON object of strings. *)
| Post (url key : string) (payload : list (string * string))
| ContextDone
(** [select] of the context, the deadline and the poll interval. *)
| Pause.

Definition resp (c : AirCall) : Type :=
  match c with Get _ _ _ | Post _ _ _ => HttpAnswer | ContextDone => bool | Pause => PauseEnd end.

Inductive AirProg (A : Type) := Done (a : A) | Ask (c : AirCall) (k : resp c → AirProg A).
Arguments Done {A} a.
Arguments Ask {A} c k.

Fixpoint then_ {A B : Type} (p : AirProg A) (f : A → AirProg B) : AirProg B :=
  match p with Done a => f a | Ask c k => Ask c (fun r => then_ (k r) f) end.

Inductive AirError :=
| BadKey | BadSelector | BadDevice
| NotHTTPS
| NoAnswer | NotRead | TooLarge
| BadStatus (status : Z)
| NotParsed
| Refused
| InvalidProfile (e : ProfileError)
| InvalidAnswer (summary : string) (e : ProfileError)
| NotAuthorized | GeneratorNotAuthorized
| NoLiveServer | SelectorRejected (summary : string) | RequestRejected (summary : string) | Unclassified (summary : string)
| KeyRejected | NoSubscription | NoDevice | NoReadyDevice
| ReservedName | NoIdentity | NameRejected | NotReady | Cancelled
| ManagedRejected (summary initial : string) (e : ProfileError).

Definition Answer (A : Type) : Type := AirProg (result AirError A).
#[export] Instance Answer_bind : MBind Answer := fun _ _ f m =>
  then_ m (fun r => match r with Ok a => f a | Err e => Done (Err e) end).
Definition give {A} (a : A) : Answer A := Done (Ok a).
Definition stop {A} (e : AirError) : Answer A := Done (Err e).
Definition require (ok : bool) (e : AirError) : Answer unit := Done (fail_if (negb ok) e).

(** ** Texts *)

(** [validateSelector] *)
Definition selector_char (c : ascii) : bool := is_lower c || is_upper c || is_digit c || contains_byte "-_." c.
Definition validateSelector (selector : string) : bool :=
  (selector != "") && (len selector <=? 128) && sall selector_char selector.
Definition ValidateSelector (selector : string) : bool := validateSelector (trim_space selector).

Definition blanks : string := " " +:+ string_of_vals [9; 13; 10].
Definition keyUsable (apiKey : string) : bool := (trim_space apiKey != "") && negb (contains_any apiKey blanks).
Definition deviceUsable (deviceID : string) : bool :=
  (deviceID != "") && (len deviceID <=? 256) && negb (contains_any deviceID (blanks +:+ "/\")).

Definition success (status : Z) : bool := (200 <=? status) && (status <? 300).

Section client.
Context `{unicode : GoUnicode, url : GoURL, json : AirJSON, digest : PxDigest}.
(** The order in which the members of an object are visited. *)
Context (range : list (string * Json) → list (string * Json)).
(** [mime.ParseMediaType]: the media type, empty where it is an error. *)
Context (media : string → string).

(** ** What an answer says *)

(** [depth] is 9 less the depth, so the recursion ends where the code returns. *)
Fixpoint collectProviderJSONStrings (depth : nat) (value : Json) (details : list string) : list string :=
  match depth with
  | O => details
  | S depth =>
      if (32 <=? length details)%nat then details
      else match value with
      | JString s => details ++ [s]
      | JArray items => foldl (fun details child => collectProviderJSONStrings depth child details) details items
      | JObject members => foldl (fun details '(_, child) => collectProviderJSONStrings depth child details) details (range members)
      | JOther => details
      end
  end.

Definition message_category (message : string) : string :=
  let has := contains message in
  if has "device" || has "user key" then "device"
  else if (has "api" && has "key")
       || (has "invalid key" || has "expired key" || has "missing key" || has "key required" || has "key is required") then "api-key"
  else if has "authoriz" || has "authenticat" then "authorization"
  else if has "parameter" || has "argument" || has "option" || has "protocol" || has "format" then "request"
  else if has "server" || has "country" || has "region" then "server-selector"
  else if has "subscription" || has "account" || has "plan" || has "credit" || has "active access" || has "active service" then "account"
  else if message == "" then "unspecified"
  else "provider-error".

Definition providerJSONErrorCategory (data : string) : string :=
  match json_any data with
  | None => "invalid"
  | Some response => message_category (to_lower (join (collectProviderJSONStrings 9 response []) " "))
  end.

Fixpoint shape_of (data : string) (lines : list string) : string :=
  match lines with
  | [] => "empty"
  | raw :: lines =>
      let line := trim_space raw in
      if (line == "") || has_prefix line ";" || has_prefix line "#" then shape_of data lines
      else if has_prefix line "[Interface]" then "wireguard"
      else if has_prefix line "<" then "markup"
      else if has_prefix line "{" || has_prefix line "[" then "json-" +:+ providerJSONErrorCategory data
      else "plain"
  end.
Definition providerResponseShape (data : string) : string := shape_of data (split (profile_text data) lf).
Definition providerResponseIsJSON (data : string) : bool := has_prefix (providerResponseShape data) "json-".
Definition providerResponseSummary (contentType data : string) : string :=
  let mediaType := if media contentType == "" then "unspecified" else media contentType in
  "content_type=" +:+ mediaType +:+ " bytes=" +:+ itoa (len data) +:+ " shape=" +:+ providerResponseShape data.

Definition providerProfileManifest (data : string) : bool :=
  match json_manifest data with
  | None => false
  | Some (result_, files, options) =>
      if negb (equal_fold (trim_space result_) "ok") || (length files =? 0)%nat || (options == "") then false
      else match json_object options with
      | Some (Some _) => forallb (fun raw => match json_string raw with Some name => name != "" | None => false end) files
      | _ => false
      end
  end.

(** [None]: not an object. *)
Definition providerJSONHasError (data : string) : option bool :=
  match json_object data with
  | None => None
  | Some None => Some false
  | Some (Some response) =>
      match response !! "error" with
      | None => Some false
      | Some errorValue => Some ((trim_space errorValue != "") && (trim_space errorValue != "null"))
      end
  end.
Definition providerJSONHasResult (data : string) : bool :=
  match json_object data with Some (Some response) => bool_decide (is_Some (response !! "result")) | _ => false end.

(** Whether a user is there, whether the subscription is known, and active. *)
Definition providerUserinfoStatus (data : string) : bool * bool * bool :=
  match json_object data with
  | Some (Some response) =>
      match response !! "user" with
      | None => (false, false, false)
      | Some user =>
          if (user == "") || (trim_space user == "null") then (false, false, false)
          else match json_object user with
          | Some (Some details) =>
              match details !! "premium" with
              | None => (true, false, false)
              | Some premium => match json_bool premium with Some active => (true, true, active) | None => (true, false, false) end
              end
          | _ => (false, false, false)
          end
      end
  | _ => (false, false, false)
  end.

Definition providerDeviceActionSucceeded (data : string) : bool :=
  match json_result data with
  | None => false
  | Some raw =>
      if raw == "" then false
      else match json_string raw with
      | Some result_ => equal_fold (trim_space result_) "ok"
      | None => match json_bool raw with Some success => success | None => false end
      end
  end.

Definition selectorMatchesServer (selector : string) (server : providerServer) : bool :=
  existsb (fun candidate => selector == to_lower (trim_space candidate))
    [sv_PublicName server; sv_CountryName server; sv_CountryCode server; sv_Continent server].
Definition isReady (status : string) : bool := equal_fold (trim_space status) "ready".

(** ** Requests *)

Context (base : string).

(** [c.BaseURL] or the default. *)
Definition baseURL : string := if base == "" then DefaultAPIBaseURL else base.
Definition endpoint_url (path : string) : string := trim_right baseURL "/" +:+ path.
Definition generator_url : string := endpoint_url "/generator/".
Definition status_url : string := endpoint_url "/status/".
Definition userinfo_url : string := endpoint_url "/userinfo/".
Definition devices_url : string := endpoint_url "/devices/".

Definition https_url (u : string) : bool :=
  match parse_url u with
  | Some p => (url_Scheme p == "https") && (url_Host p != "") && negb (url_User p)
  | None => false
  end.

(** The status, the content type and the body of an answer of at most [limit] bytes. *)
Definition read_answer (limit : Z) (a : HttpAnswer) : result AirError (Z * string * string) :=
  match a with
  | RequestFailed => Err NoAnswer
  | ReadFailed _ => Err NotRead
  | Answered status contentType data => if limit <? len data then Err TooLarge else Ok (status, contentType, data)
  end.
Definition get (limit : Z) (u : string) (key : option string) (query : list (string * string)) : Answer (Z * string * string) :=
  Ask (Get u key query) (fun a => Done (read_answer limit a)).
Definition post (limit : Z) (u key : string) (payload : list (string * string)) : Answer (Z * string * string) :=
  Ask (Post u key payload) (fun a => Done (read_answer limit a)).

Definition generator_query (servers device : string) : list (string * string) :=
  [("protocols", "wireguard_1_udp_" +:+ itoa DefaultPort); ("servers", servers); ("device", device);
   ("resolve", "on"); ("iplayer_entry", "ipv4"); ("iplayer_exit", "ipv4")]%string.

(** How an attempt at a profile ends: the profile, an answer that is not one,
    or no answer to look at. *)
Inductive Attempt := Generated (p : Profile) | NotAProfile (contentType data : string) (e : ProfileError).

Definition downloadManifestProfile (apiKey servers device : string) : Answer (string * string) :=
  '(status, contentType, data) ← get maxProfileBytes generator_url (Some apiKey) (generator_query servers device ++ [("download", "0")]%string);
  _ ← require (success status) (BadStatus status);
  give (data, contentType).

Definition generateProfile (apiKey servers device : string) (strictIPv4 : bool) : Answer Attempt :=
  _ ← require (https_url generator_url) NotHTTPS;
  '(status, contentType, data) ← get maxProfileBytes generator_url (Some apiKey) (generator_query servers device);
  _ ← require (success status) (BadStatus status);
  '(data, contentType) ← (if providerProfileManifest data then downloadManifestProfile apiKey servers device else give (data, contentType));
  give (match parseProfile strictIPv4 data with Ok p => Generated p | Err e => NotAProfile contentType data e end).

Definition selectorHasLiveServer (selector : string) : Answer bool :=
  _ ← require (https_url status_url) NotHTTPS;
  Ask (Get status_url None []) (fun a =>
    match a with
    | RequestFailed => stop NoAnswer
    | ReadFailed status => stop (if success status then NotRead else BadStatus status)
    | Answered status _ data =>
        if negb (success status) then stop (BadStatus status)
        else if maxStatusBytes <? len data then stop TooLarge
        else match json_servers data with
        | None => stop NotParsed
        | Some servers =>
            let needle := to_lower (trim_space selector) in
            give (existsb (fun server => (to_lower (trim_space (sv_Health server)) == "ok")
              && ((needle == "earth") || (needle == "all") || selectorMatchesServer needle server)) servers)
        end
    end).

Definition HasLiveSelector (selector : string) : Answer bool :=
  let selector := trim_space selector in
  _ ← require (ValidateSelector selector) BadSelector;
  selectorHasLiveServer selector.

Definition list_payload : list (string * string) := [("action", "list"); ("format", "json")]%string.
Definition add_payload : list (string * string) := [("action", "add"); ("format", "json")]%string.
Definition modify_payload (id : string) : list (string * string) :=
  [("action", "modify"); ("format", "json"); ("id", id); ("name", managedDeviceName); ("description", managedDeviceNote)]%string.

Definition providerReadiness (apiKey : string) : Answer providerReadiness_ :=
  _ ← require (https_url userinfo_url) NotHTTPS;
  '(status, _, userinfo) ← get maxStatusBytes userinfo_url (Some apiKey) [("format", "json")]%string;
  if (status =? 401) || (status =? 403) then give no_readiness
  else
    _ ← require (success status) (BadStatus status);
    match providerJSONHasError userinfo with
    | None => stop NotParsed
    | Some hasError =>
        let '(authenticated, subscriptionKnown, subscriptionActive) := providerUserinfoStatus userinfo in
        if hasError || negb authenticated then give no_readiness
        else
          _ ← require (https_url devices_url) NotHTTPS;
          '(status, _, devices) ← post maxStatusBytes devices_url apiKey list_payload;
          _ ← require (success status) (BadStatus status);
          match providerJSONHasError devices, json_statuses devices with
          | Some false, Some (Some statuses) =>
              give (mkReadiness true subscriptionKnown subscriptionActive (length statuses) (existsb isReady statuses))
          | _, _ => stop NotParsed
          end
    end.

(** ** The product's device *)

Definition providerDeviceAction (apiKey : string) (payload : list (string * string)) : Answer string :=
  _ ← require (https_url devices_url) NotHTTPS;
  '(status, _, data) ← post maxStatusBytes devices_url apiKey payload;
  _ ← require (success status) (BadStatus status);
  match providerJSONHasError data with Some false => give data | _ => stop Refused end.

Definition listProviderDevices (apiKey : string) : Answer (list providerDevice) :=
  data ← providerDeviceAction apiKey list_payload;
  match json_devices data with Some (Some devices) => give devices | _ => stop NotParsed end.

(** What a round of the wait finds: a wrong owner, the device ready, or nothing yet. *)
Fixpoint managed_ready (devices : list providerDevice) : result AirError bool :=
  match devices with
  | [] => Ok false
  | device :: devices =>
      if dv_Name device != managedDeviceName then managed_ready devices
      else if dv_Description device != managedDeviceNote then Err ReservedName
      else if isReady (dv_Status device) then Ok true
      else managed_ready devices
  end.

(** [ticks]: the poll intervals of 2 seconds that fit before the deadline of 30
    seconds; after the last one only the deadline is left. *)
Fixpoint wait_loop (apiKey : string) (ticks : nat) : Answer string :=
  devices ← listProviderDevices apiKey;
  match managed_ready devices with
  | Err e => stop e
  | Ok true => give managedDeviceName
  | Ok false =>
      Ask Pause (fun p =>
        match p, ticks with
        | PauseCancelled, _ => stop Cancelled
        | PauseTick, S ticks => wait_loop apiKey ticks
        | _, _ => stop NotReady
        end)
  end.
Definition waitForManagedDevice (apiKey : string) : Answer string :=
  Ask ContextDone (fun cancelled => if cancelled then stop Cancelled else wait_loop apiKey 15).

Definition ensureManagedDevice (apiKey : string) : Answer string :=
  devices ← listProviderDevices apiKey;
  match List.find (fun device => dv_Name device == managedDeviceName) devices with
  | Some device =>
      if dv_Description device != managedDeviceNote then stop ReservedName
      else if negb (isReady (dv_Status device)) then waitForManagedDevice apiKey
      else give managedDeviceName
  | None =>
      data ← providerDeviceAction apiKey add_payload;
      match json_id data with
      | None => stop NoIdentity
      | Some id =>
          _ ← require (trim_space id != "") NoIdentity;
          data ← providerDeviceAction apiKey (modify_payload id);
          _ ← require (providerDeviceActionSucceeded data) NameRejected;
          waitForManagedDevice apiKey
      end
  end.

(** ** Refusals *)

Definition retryWithManagedDeviceAfterReadiness (apiKey servers : string) (readiness : providerReadiness_) (summary : string) : Answer Profile :=
  _ ← require (rd_APIKeyAccepted readiness) KeyRejected;
  _ ← require (negb (rd_SubscriptionKnown readiness && negb (rd_SubscriptionActive readiness))) NoSubscription;
  _ ← require (negb (rd_DeviceCount readiness =? 0)%nat) NoDevice;
  _ ← require (rd_HasReadyDevice readiness) NoReadyDevice;
  managedDevice ← ensureManagedDevice apiKey;
  attempt ← generateProfile apiKey servers managedDevice false;
  match attempt with
  | Generated p => give p
  | NotAProfile contentType data e => stop (ManagedRejected (providerResponseSummary contentType data) summary e)
  end.

Definition retryWithManagedDevice (apiKey servers summary : string) : Answer Profile :=
  readiness ← providerReadiness apiKey;
  retryWithManagedDeviceAfterReadiness apiKey servers readiness summary.

Definition handleGeneratorAuthorization (apiKey : string) : Answer Profile :=
  readiness ← providerReadiness apiKey;
  stop (if rd_APIKeyAccepted readiness then GeneratorNotAuthorized else NotAuthorized).

Definition handleLegacyGeneratorJSONFailure (apiKey servers contentType data : string) : Answer Profile :=
  then_ (selectorHasLiveServer servers) (fun available =>
    match available with
    | Ok false => stop NoLiveServer
    | _ =>
        readiness ← providerReadiness apiKey;
        _ ← require (rd_APIKeyAccepted readiness) KeyRejected;
        _ ← require (negb (rd_SubscriptionKnown readiness && negb (rd_SubscriptionActive readiness))) NoSubscription;
        _ ← require (negb (rd_DeviceCount readiness =? 0)%nat) NoDevice;
        _ ← require (rd_HasReadyDevice readiness) NoReadyDevice;
        _ ← require (providerJSONErrorCategory data == "device") (Unclassified (providerResponseSummary contentType data));
        retryWithManagedDeviceAfterReadiness apiKey servers readiness (providerResponseSummary contentType data)
    end).

Definition handleGeneratorJSONFailure (apiKey servers contentType data : string) : Answer Profile :=
  let category := providerJSONErrorCategory data in
  let summary := providerResponseSummary contentType data in
  let authorization := (category == "authorization") || (category == "api-key") in
  if negb (providerJSONHasResult data) then
    if authorization then handleGeneratorAuthorization apiKey else handleLegacyGeneratorJSONFailure apiKey servers contentType data
  else if authorization then handleGeneratorAuthorization apiKey
  else if category == "server-selector" then
    then_ (selectorHasLiveServer servers) (fun available =>
      match available with Ok false => stop NoLiveServer | _ => stop (SelectorRejected summary) end)
  else if category == "request" then stop (RequestRejected summary)
  else if category == "device" then retryWithManagedDevice apiKey servers summary
  else stop (Unclassified summary).

(** ** The client's operations *)

Definition Generate (apiKey servers : string) : Answer Profile :=
  _ ← require (keyUsable apiKey) BadKey;
  _ ← require (validateSelector servers) BadSelector;
  attempt ← generateProfile apiKey servers defaultDeviceName false;
  match attempt with
  | Generated p => give p
  | NotAProfile contentType data e =>
      if providerResponseIsJSON data then handleGeneratorJSONFailure apiKey servers contentType data
      else stop (InvalidAnswer (providerResponseSummary contentType data) e)
  end.

Definition GenerateForDevice (apiKey servers deviceID : string) : Answer Profile :=
  _ ← require (keyUsable apiKey) BadKey;
  _ ← require (validateSelector servers) BadSelector;
  let deviceID := trim_space deviceID in
  _ ← require (deviceUsable deviceID) BadDevice;
  attempt ← generateProfile apiKey servers deviceID true;
  match attempt with
  | Generated p => give p
  | NotAProfile contentType data e => stop (InvalidAnswer (providerResponseSummary contentType data) e)
  end.

Definition CreateDevice (apiKey : string) : Answer string :=
  _ ← require (keyUsable apiKey) BadKey;
  data ← providerDeviceAction apiKey add_payload;
  match json_id data with
  | Some id => _ ← require (trim_space id != "") NoIdentity; give (trim_space id)
  | None => stop NoIdentity
  end.

(** ** Histories *)

(** What happened so far, the newest first. *)
Inductive Event :=
| Got (url : string) (key : option string) (query : list (string * string)) (a : HttpAnswer)
| Posted (url key : string) (payload : list (string * string)) (a : HttpAnswer)
| Waited.

Definition event (c : AirCall) : resp c → Event :=
  match c with
  | Get u key query => Got u key query
  | Post u key payload => Posted u key payload
  | ContextDone | Pause => fun _ => Waited
  end.

(** Whatever is answered, every call is allowed by the history before it and the
    end satisfies [Q]. *)
Fixpoint holds {A : Type} (ok : list Event → AirCall → Prop) (Q : list Event → A → Prop) (h : list Event) (p : AirProg A) : Prop :=
  match p with
  | Done a => Q h a
  | Ask c k => ok h c ∧ ∀ r, holds ok Q (event c r :: h) (k r)
  end.

Lemma holds_mono {A} ok (Q R : list Event → A → Prop) h p :
  holds ok Q h p → (∀ h a, Q h a → R h a) → holds ok R h p.
Proof.
  intros Hp HQ. revert h Hp. induction p as [a|c k IH]; intros h; cbn; [apply HQ|]. intros [Hok Hk]. split; [done|]. intros r. by apply IH.
Qed.

Lemma holds_then {A B} ok (R : list Event → B → Prop) h (p : AirProg A) f :
  holds ok (fun h a => holds ok R h (f a)) h p → holds ok R h (then_ p f).
Proof. revert h. induction p as [a|c k IH]; intros h; cbn; [done|]. intros [Hok Hk]. split; [done|]. intros r. by apply IH. Qed.

Lemma holds_bind {A B} ok (R : list Event → result AirError B → Prop) h (m : Answer A) (f : A → Answer B) :
  holds ok (fun h r => match r with Ok a => holds ok R h (f a) | Err e => R h (Err e) end) h m → holds ok R h (m ≫= f).
Proof. intros Hm. apply holds_then. eapply holds_mono; [exact Hm|]. intros h' [a|e]; done. Qed.

Lemma holds_require {B} ok (R : list Event → result AirError B → Prop) h b e (f : unit → Answer B) :
  (b = true → holds ok R h (f tt)) → R h (Err e) → holds ok R h (require b e ≫= f).
Proof. intros Hf He. apply holds_bind. destruct b; cbn; auto. Qed.

(** ** What the calls are allowed to do *)

Section protocol.
Context (apiKey : string).

Definition parse_ok (strict : bool) (data : string) (p : Profile) : Prop := parseProfile strict data = Ok p.

(** An accepted answer of the generator. *)
Definition generated (h : list Event) (P : string → string → Prop) : Prop :=
  ∃ query status contentType data, Got generator_url (Some apiKey) query (Answered status contentType data) ∈ h
    ∧ success status = true ∧ P contentType data.
(** An accepted list of the devices. *)
Definition listed (h : list Event) (P : string → Prop) : Prop :=
  ∃ status contentType data, Posted devices_url apiKey list_payload (Answered status contentType data) ∈ h
    ∧ success status = true ∧ providerJSONHasError data = Some false ∧ P data.

(** The generator refused the profile, in JSON, because of the device. *)
Definition refused_for_device (h : list Event) : Prop :=
  generated h (fun _ data => (∃ e, parseProfile false data = Err e) ∧ providerResponseIsJSON data = true
    ∧ providerJSONErrorCategory data = "device").
(** The account accepts the key and its subscription is not known to be inactive. *)
Definition account_accepts (h : list Event) : Prop :=
  ∃ status contentType data known active,
    Got userinfo_url (Some apiKey) [("format", "json")]%string (Answered status contentType data) ∈ h
    ∧ success status = true ∧ providerJSONHasError data = Some false
    ∧ providerUserinfoStatus data = (true, known, active) ∧ (known = true → active = true).
(** The account has a device that is ready. *)
Definition has_ready (h : list Event) : Prop :=
  listed h (fun data => ∃ statuses, json_statuses data = Some (Some statuses) ∧ existsb isReady statuses = true).
(** The product's own device is there and ready. *)
Definition managed_listed (h : list Event) : Prop :=
  listed h (fun data => ∃ devices, json_devices data = Some (Some devices) ∧
    ∃ d, d ∈ devices ∧ dv_Name d = managedDeviceName ∧ dv_Description d = managedDeviceNote ∧ isReady (dv_Status d) = true).

Definition is_list (e : Event) : Prop := match e with Posted _ _ payload _ => payload = list_payload | _ => True end.
(** The account was not changed. *)
Definition unchanged (h : list Event) : Prop := Forall is_list h.

(** The last answer is a list of the devices, none of which has the reserved name. *)
Definition name_free (h : list Event) : Prop :=
  match h with
  | Posted u k payload (Answered status _ data) :: _ =>
      u = devices_url ∧ k = apiKey ∧ payload = list_payload ∧ success status = true ∧
      ∃ devices, json_devices data = Some (Some devices) ∧ Forall (fun d => dv_Name d ≠ managedDeviceName) devices
  | _ => False
  end.
Definition may_add (h : list Event) : Prop :=
  refused_for_device h ∧ account_accepts h ∧ has_ready h ∧ name_free h ∧ unchanged h.
(** The last answer is the identity of the device that was just added, the only change. *)
Definition may_name (h : list Event) (id : string) : Prop :=
  match h with
  | Posted u k payload (Answered status _ data) :: h' =>
      u = devices_url ∧ k = apiKey ∧ payload = add_payload ∧ success status = true ∧
      json_id data = Some id ∧ trim_space id ≠ "" ∧ unchanged h'
  | _ => False
  end.

(** The calls of [Generate]. *)
Definition call_allowed (h : list Event) (c : AirCall) : Prop :=
  match c with
  | Get u key _ => https_url u = true ∧ ((u, key) = (status_url, None) ∨ (u, key) = (generator_url, Some apiKey) ∨ (u, key) = (userinfo_url, Some apiKey))
  | Post u key payload =>
      https_url u = true ∧ u = devices_url ∧ key = apiKey ∧
      (payload = list_payload ∨ (payload = add_payload ∧ may_add h) ∨ ∃ id, payload = modify_payload id ∧ may_name h id)
  | ContextDone | Pause => True
  end.

(** [h'] continues [h] without a change of the account. *)
Definition quiet (h h' : list Event) : Prop := ∃ new, h' = new ++ h ∧ unchanged new.

Lemma quiet_refl h : quiet h h.
Proof. exists []. split; [done|constructor]. Qed.
Lemma quiet_cons h h' e : quiet h h' → is_list e → quiet h (e :: h').
Proof. intros (new&->&Hn) He. exists (e :: new). split; [done|]. by constructor. Qed.
Lemma quiet_trans h1 h2 h3 : quiet h1 h2 → quiet h2 h3 → quiet h1 h3.
Proof. intros (n1&->&H1) (n2&->&H2). exists (n2 ++ n1). split; [by rewrite app_assoc|]. by apply Forall_app_2. Qed.
Lemma quiet_unchanged h h' : quiet h h' → unchanged h → unchanged h'.
Proof. intros (new&->&Hn) Hh. by apply Forall_app_2. Qed.
Lemma quiet_in h h' e : quiet h h' → e ∈ h → e ∈ h'.
Proof. intros (new&->&_) He. apply elem_of_app. by right. Qed.

Lemma generated_mono h h' P : quiet h h' → generated h P → generated h' P.
Proof. intros Hq (q&s&c&d&Hin&?). exists q, s, c, d. split; [by eapply quiet_in|done]. Qed.
Lemma listed_mono h h' P : quiet h h' → listed h P → listed h' P.
Proof. intros Hq (s&c&d&Hin&?). exists s, c, d. split; [by eapply quiet_in|done]. Qed.
Lemma accepts_mono h h' : quiet h h' → account_accepts h → account_accepts h'.
Proof. intros Hq (s&c&d&k&a&Hin&?). exists s, c, d, k, a. split; [by eapply quiet_in|done]. Qed.

Lemma read_answer_ok limit a status contentType data : read_answer limit a = Ok (status, contentType, data) →
  a = Answered status contentType data.
Proof. destruct a as [| |s c d]; cbn; [done|done|]. destruct (_ <? _); [done|]. by intros [= -> -> ->]. Qed.

Abbreviation wp := (holds call_allowed).

Lemma holds_get {B} ok R h limit u key query (f : Z * string * string → Answer B) :
  ok h (Get u key query) →
  (∀ a, match read_answer limit a with Ok x => holds ok R (Got u key query a :: h) (f x) | Err e => R (Got u key query a :: h) (Err e) end) →
  holds ok R h (get limit u key query ≫= f).
Proof. intros Hok Hf. apply holds_bind. split; [done|]. intros a. cbn. specialize (Hf a). by destruct (read_answer limit a). Qed.

Lemma wp_post {B} R h limit u key payload (f : Z * string * string → Answer B) :
  call_allowed h (Post u key payload) →
  (∀ a, match read_answer limit a with Ok x => wp R (Posted u key payload a :: h) (f x) | Err e => R (Posted u key payload a :: h) (Err e) end) →
  wp R h (post limit u key payload ≫= f).
Proof. intros Hok Hf. apply holds_bind. split; [done|]. intros a. cbn. specialize (Hf a). by destruct (read_answer limit a). Qed.

(** Calls that only read. *)
Ltac quiet := repeat (apply quiet_cons; [|done]); solve [apply quiet_refl|assumption].

(** Asking the generator changes nothing and keeps what it answered. *)
Definition attempt_post (strict : bool) (h h' : list Event) (r : result AirError Attempt) : Prop :=
  quiet h h' ∧ (length h' <= length h + 2)%nat ∧ match r with
  | Ok (Generated p) => generated h' (fun _ data => parseProfile strict data = Ok p)
  | Ok (NotAProfile contentType data e) => generated h' (fun c d => c = contentType ∧ d = data ∧ parseProfile strict data = Err e)
  | Err _ => True
  end.

Lemma attempt_parsed strict h query status contentType data h' : quiet h h' → (length h' <= length h + 2)%nat →
  Got generator_url (Some apiKey) query (Answered status contentType data) ∈ h' → success status = true →
  attempt_post strict h h' (Ok (match parseProfile strict data with Ok p => Generated p | Err e => NotAProfile contentType data e end)).
Proof.
  intros Hq Hl Hin Hs. split; [done|]. split; [done|].
  destruct (parseProfile strict data) eqn:E; exists query, status, contentType, data; done.
Qed.

Ltac ends := split; [quiet|split; [cbn; lia|done]].

Lemma generateProfile_holds (ok : list Event → AirCall → Prop) h servers device strict :
  (https_url generator_url = true → ∀ h query, ok h (Get generator_url (Some apiKey) query)) →
  holds ok (attempt_post strict h) h (generateProfile apiKey servers device strict).
Proof.
  intros Hok. unfold generateProfile. apply holds_require; [intros Hu; pose proof (Hok Hu) as Hget|ends].
  apply holds_get; [done|]. intros a. destruct (read_answer _ a) as [[[st ct] data]|e] eqn:Ha; [apply read_answer_ok in Ha as ->|ends].
  apply holds_require; [intros Hs|ends].
  destruct (providerProfileManifest data).
  - apply holds_bind. unfold downloadManifestProfile. apply holds_get; [done|]. intros a.
    destruct (read_answer _ a) as [[[st' ct'] data']|e] eqn:Ha; [apply read_answer_ok in Ha as ->|ends].
    apply holds_require; [intros Hs'|ends]. eapply attempt_parsed; [quiet|cbn; lia|by left|done].
  - eapply attempt_parsed; [quiet|cbn; lia|by left|done].
Qed.

Lemma generateProfile_wp h servers device strict :
  wp (attempt_post strict h) h (generateProfile apiKey servers device strict).
Proof. apply generateProfile_holds. split; [done|by right; left]. Qed.

Lemma selectorHasLiveServer_wp h selector : wp (fun h' _ => quiet h h') h (selectorHasLiveServer selector).
Proof.
  unfold selectorHasLiveServer. apply holds_require; [intros Hu|quiet]. split; [by split; [|left]|]. intros [|st|st ct data]; [quiet|quiet|].
  cbn -[success]. destruct (negb (success st)); [quiet|]. destruct (_ <? _); [quiet|]. destruct (json_servers data); quiet.
Qed.

Definition readiness_post (h h' : list Event) (r : result AirError providerReadiness_) : Prop :=
  quiet h h' ∧ match r with
  | Ok r => rd_APIKeyAccepted r = true →
      ((rd_SubscriptionKnown r = true → rd_SubscriptionActive r = true) → account_accepts h') ∧ (rd_HasReadyDevice r = true → has_ready h')
  | Err _ => True
  end.

Lemma list_allowed h : https_url devices_url = true → call_allowed h (Post devices_url apiKey list_payload).
Proof. intros Hu. split; [done|]. split; [done|]. split; [done|]. by left. Qed.

Lemma providerReadiness_wp h : wp (readiness_post h) h (providerReadiness apiKey).
Proof.
  unfold providerReadiness. apply holds_require; [intros Hu|split; [quiet|done]].
  apply holds_get; [by split; [done|by right; right]|]. intros a. destruct (read_answer _ a) as [[[st ct] data]|e] eqn:Ha;
    [apply read_answer_ok in Ha as ->|split; [quiet|done]].
  destruct (_ || _); [split; [quiet|done]|].
  apply holds_require; [intros Hs|split; [quiet|done]].
  destruct (providerJSONHasError data) as [err|] eqn:He; [|split; [quiet|done]].
  destruct (providerUserinfoStatus data) as [[auth known] active] eqn:Hi.
  destruct (err || negb auth) eqn:Hea; [split; [quiet|done]|]. bools. subst.
  apply holds_require; [intros Hd|split; [quiet|done]].
  apply wp_post; [by apply list_allowed|]. intros a. destruct (read_answer _ a) as [[[st' ct'] data']|e] eqn:Ha;
    [apply read_answer_ok in Ha as ->|split; [quiet|done]].
  apply holds_require; [intros Hs'|split; [quiet|done]].
  destruct (providerJSONHasError data') as [[]|] eqn:He'; [split; [quiet|done]| |split; [quiet|done]].
  destruct (json_statuses data') as [[statuses|]|] eqn:Hst; [|split; [quiet|done]..].
  split; [quiet|]. intros _. split.
  - intros Hactive. exists st, ct, data, known, active. split_and!; [by right; left|done..].
  - intros Hready. exists st', ct', data'. split_and!; [by left|done|done|]. by exists statuses.
Qed.

Lemma providerDeviceAction_wp h payload (R : list Event → result AirError string → Prop) :
  (https_url devices_url = true → call_allowed h (Post devices_url apiKey payload)) →
  R h (Err NotHTTPS) →
  (∀ a, let h' := Posted devices_url apiKey payload a :: h in
     (∀ e, R h' (Err e)) ∧
     (∀ status contentType data, a = Answered status contentType data → success status = true →
        providerJSONHasError data = Some false → R h' (Ok data))) →
  wp R h (providerDeviceAction apiKey payload).
Proof.
  intros Hok H0 HR. unfold providerDeviceAction. apply holds_require; [intros Hu|done].
  apply wp_post; [by apply Hok|]. intros a. destruct (HR a) as [HE HO].
  destruct (read_answer _ a) as [[[st ct] data]|e] eqn:Ha; [apply read_answer_ok in Ha as ->|apply HE].
  apply holds_require; [intros Hs|apply HE]. destruct (providerJSONHasError data) as [[]|] eqn:He; [apply HE| |apply HE].
  by apply (HO st ct).
Qed.

Definition list_post (h h' : list Event) (r : result AirError (list providerDevice)) : Prop :=
  quiet h h' ∧ match r with
  | Ok devices => ∃ status contentType data, h' = Posted devices_url apiKey list_payload (Answered status contentType data) :: h
      ∧ success status = true ∧ providerJSONHasError data = Some false ∧ json_devices data = Some (Some devices)
  | Err _ => True
  end.

Lemma listProviderDevices_wp h : wp (list_post h) h (listProviderDevices apiKey).
Proof.
  unfold listProviderDevices. apply holds_bind. apply providerDeviceAction_wp; [apply list_allowed|split; [quiet|done]|].
  intros a. split; [intros e; split; [quiet|done]|]. intros st ct data -> Hs He.
  destruct (json_devices data) as [[devices|]|] eqn:Hd; [|split; [quiet|done]..].
  split; [quiet|]. by exists st, ct, data.
Qed.

Lemma managed_ready_ok devices : managed_ready devices = Ok true →
  ∃ d, d ∈ devices ∧ dv_Name d = managedDeviceName ∧ dv_Description d = managedDeviceNote ∧ isReady (dv_Status d) = true.
Proof.
  induction devices as [|d devices IH]; cbn; [done|].
  destruct (bool_decide (dv_Name d = managedDeviceName)) eqn:En; cbn.
  2: { intros (x&Hx&?)%IH. exists x. split; [by right|done]. }
  destruct (bool_decide (dv_Description d = managedDeviceNote)) eqn:Ed; cbn; [|done].
  destruct (isReady (dv_Status d)) eqn:Er; cbn.
  - intros _. bools. exists d. split; [by left|done].
  - intros (x&Hx&?)%IH. exists x. split; [by right|done].
Qed.

Definition wait_post (h h' : list Event) (r : result AirError string) : Prop :=
  quiet h h' ∧ match r with Ok name => name = managedDeviceName ∧ managed_listed h' | Err _ => True end.

Lemma wait_loop_wp ticks h : wp (wait_post h) h (wait_loop apiKey ticks).
Proof.
  revert h. induction ticks as [|ticks IH]; intros h; cbn [wait_loop]; apply holds_bind;
    (eapply holds_mono; [apply listProviderDevices_wp|]); intros h1 [devices|e] [Hq Hd]; try (by split).
  all: destruct Hd as (st&ct&data&->&Hs&He&Hdev).
  all: destruct (managed_ready devices) as [[]|e] eqn:Hm; [split; [quiet|]| |split; [quiet|done]].
  1, 3: split; [done|]; exists st, ct, data; split_and!; [by left|done|done|]; exists devices; split; [done|by apply managed_ready_ok].
  all: split; [done|]; intros [| |]; try (split; [quiet|done]).
  eapply holds_mono; [apply IH|]. intros h2 r [Hq2 Hr]. split; [|done]. eapply quiet_trans; [|exact Hq2]. quiet.
Qed.

Lemma waitForManagedDevice_wp h : wp (wait_post h) h (waitForManagedDevice apiKey).
Proof.
  split; [done|]. intros []; [split; [quiet|done]|]. eapply holds_mono; [apply wait_loop_wp|].
  intros h2 r [Hq2 Hr]. split; [|done]. eapply quiet_trans; [|exact Hq2]. quiet.
Qed.

(** The account was left alone, or the product's device is there and ready. *)
Definition settled (h : list Event) : Prop := unchanged h ∨ managed_listed h.

Lemma settled_mono h h' : quiet h h' → settled h → settled h'.
Proof. intros Hq [Hu|Hm]; [left; by eapply quiet_unchanged|right; by eapply listed_mono]. Qed.

Definition ensure_post (h' : list Event) (r : result AirError string) : Prop :=
  match r with Ok name => name = managedDeviceName ∧ settled h' | Err _ => True end.

Lemma wait_settled h : wp ensure_post h (waitForManagedDevice apiKey).
Proof. eapply holds_mono; [apply waitForManagedDevice_wp|]. intros h' [name|e] [Hq Hr]; [|done]. destruct Hr. split; [done|by right]. Qed.

Lemma ensureManagedDevice_wp h : refused_for_device h → account_accepts h → has_ready h → unchanged h →
  wp ensure_post h (ensureManagedDevice apiKey).
Proof.
  intros Hr Ha Hy Hu. unfold ensureManagedDevice. apply holds_bind. eapply holds_mono; [apply listProviderDevices_wp|].
  intros h1 [devices|e] [Hq Hd]; [|done]. destruct Hd as (st&ct&data&->&Hs&He&Hdev).
  destruct (List.find _ devices) as [device|] eqn:Hf.
  { destruct (negb _); [done|]. destruct (negb _); [apply wait_settled|]. split; [done|]. left. by eapply quiet_unchanged. }
  apply holds_bind. apply providerDeviceAction_wp; [|done|].
  { intros Hh. split; [done|]. split; [done|]. split; [done|]. right. left. split; [done|].
    split; [by eapply generated_mono|]. split; [by eapply accepts_mono|]. split; [by eapply listed_mono|].
    split; [|by eapply quiet_unchanged]. do 4 (split; [done|]). exists devices. split; [done|].
    apply Forall_forall. intros d Hin Hn. pose proof (List.find_none _ _ Hf d) as Hnone. cbn beta in Hnone.
    apply list_elem_of_In in Hin. specialize (Hnone Hin). by apply bool_decide_eq_false_1 in Hnone. }
  intros a. split; [done|]. intros st2 ct2 data2 -> Hs2 He2. destruct (json_id data2) as [id|] eqn:Hid; [|done].
  apply holds_require; [intros Hne|done]. bools. apply holds_bind. apply providerDeviceAction_wp; [|done|].
  { intros Hh. split; [done|]. split; [done|]. split; [done|]. right. right. exists id. split; [done|].
    do 6 (split; [done|]). by eapply quiet_unchanged. }
  intros a. split; [done|]. intros st3 ct3 data3 -> Hs3 He3. apply holds_require; [intros _|done]. apply wait_settled.
Qed.

Definition generate_post (h' : list Event) (r : result AirError Profile) : Prop :=
  match r with Ok p => generated h' (fun _ data => parseProfile false data = Ok p) ∧ settled h' | Err _ => True end.

Lemma retry_wp h servers readiness summary : refused_for_device h → unchanged h →
  (rd_APIKeyAccepted readiness = true →
     ((rd_SubscriptionKnown readiness = true → rd_SubscriptionActive readiness = true) → account_accepts h)
     ∧ (rd_HasReadyDevice readiness = true → has_ready h)) →
  wp generate_post h (retryWithManagedDeviceAfterReadiness apiKey servers readiness summary).
Proof.
  intros Hr Hu He. unfold retryWithManagedDeviceAfterReadiness. apply holds_require; [intros Hk|done].
  apply holds_require; [intros Hsub|done]. apply holds_require; [intros _|done]. apply holds_require; [intros Hrd|done].
  destruct (He Hk) as [Ha Hy]. apply holds_bind. eapply holds_mono.
  { apply ensureManagedDevice_wp; [done| |by apply Hy|done]. apply Ha. intros Hkn. rewrite Hkn in Hsub. cbn in Hsub. by bools. }
  intros h1 [name|e] Hen; [|done]. destruct Hen as [-> Hset]. apply holds_bind. eapply holds_mono; [apply generateProfile_wp|].
  intros h2 [[p|ct data e]|e] (Hq&_&Hp); [|done..]. split; [done|by eapply settled_mono].
Qed.

Lemma handleGeneratorAuthorization_wp h : wp generate_post h (handleGeneratorAuthorization apiKey).
Proof.
  unfold handleGeneratorAuthorization. apply holds_bind. eapply holds_mono; [apply providerReadiness_wp|].
  by intros h1 [r|e] _.
Qed.

Lemma handleLegacy_wp h servers contentType data : unchanged h →
  (providerJSONErrorCategory data = "device" → refused_for_device h) →
  wp generate_post h (handleLegacyGeneratorJSONFailure apiKey servers contentType data).
Proof.
  intros Hu Hr. unfold handleLegacyGeneratorJSONFailure. apply holds_then. eapply holds_mono; [apply selectorHasLiveServer_wp|].
  intros h1 available Hq1.
  assert (Hgo : wp generate_post h1 (readiness ← providerReadiness apiKey;
        _ ← require (rd_APIKeyAccepted readiness) KeyRejected;
        _ ← require (negb (rd_SubscriptionKnown readiness && negb (rd_SubscriptionActive readiness))) NoSubscription;
        _ ← require (negb (rd_DeviceCount readiness =? 0)%nat) NoDevice;
        _ ← require (rd_HasReadyDevice readiness) NoReadyDevice;
        _ ← require (providerJSONErrorCategory data == "device") (Unclassified (providerResponseSummary contentType data));
        retryWithManagedDeviceAfterReadiness apiKey servers readiness (providerResponseSummary contentType data))).
  { apply holds_bind. eapply holds_mono; [apply providerReadiness_wp|]. intros h2 [readiness|e] [Hq2 Hrd]; [|done].
    do 4 (apply holds_require; [intros _|done]). apply holds_require; [intros Hc|done]. bools.
    pose proof (quiet_trans _ _ _ Hq1 Hq2) as Hq. apply retry_wp; [eapply generated_mono; [exact Hq|by apply Hr]|by eapply quiet_unchanged|done]. }
  destruct available as [[]|e]; [exact Hgo|done|exact Hgo].
Qed.

Lemma handleGeneratorJSONFailure_wp h servers contentType data : unchanged h →
  (providerJSONErrorCategory data = "device" → refused_for_device h) →
  wp generate_post h (handleGeneratorJSONFailure apiKey servers contentType data).
Proof.
  intros Hu Hr. unfold handleGeneratorJSONFailure. destruct (negb _).
  { destruct (_ || _); [apply handleGeneratorAuthorization_wp|by apply handleLegacy_wp]. }
  destruct (_ || _); [apply handleGeneratorAuthorization_wp|].
  destruct (bool_decide (_ = "server-selector")).
  { apply holds_then. eapply holds_mono; [apply selectorHasLiveServer_wp|]. by intros h1 [[]|e] _. }
  destruct (bool_decide (_ = "request")); [done|].
  destruct (bool_decide (_ = "device")) eqn:Hc; [|done]. bools. unfold retryWithManagedDevice.
  apply holds_bind. eapply holds_mono; [apply providerReadiness_wp|]. intros h2 [readiness|e] [Hq2 Hrd]; [|done].
  apply retry_wp; [eapply generated_mono; [exact Hq2|by apply Hr]|by eapply quiet_unchanged|done].
Qed.

Lemma Generate_wp servers : wp generate_post [] (Generate apiKey servers).
Proof.
  unfold Generate. apply holds_require; [intros _|done]. apply holds_require; [intros _|done].
  apply holds_bind. eapply holds_mono; [apply generateProfile_wp|]. intros h1 [[p|ct data e]|e] (Hq&_&Hp); [| |done].
  { split; [done|]. left. by eapply quiet_unchanged; [|constructor]. }
  destruct (providerResponseIsJSON data) eqn:Hj; [|done]. apply handleGeneratorJSONFailure_wp.
  { by eapply quiet_unchanged; [|constructor]. }
  intros Hc. destruct Hp as (q&st&c&d&Hin&Hs&->&->&He). exists q, st, ct, data. split_and!; [done..|by exists e|done|done].
Qed.

(** The calls of [GenerateForDevice]: the generator alone. *)
Definition generator_only (h : list Event) (c : AirCall) : Prop :=
  https_url generator_url = true ∧ ∃ query, c = Get generator_url (Some apiKey) query.
(** The calls of [CreateDevice]: one, that adds a device. *)
Definition add_once (h : list Event) (c : AirCall) : Prop :=
  https_url devices_url = true ∧ c = Post devices_url apiKey add_payload ∧ h = [].

Lemma GenerateForDevice_holds servers deviceID :
  holds generator_only (fun h r => (length h <= 2)%nat ∧
      match r with Ok p => generated h (fun _ data => parseProfile true data = Ok p) | Err _ => True end)
    [] (GenerateForDevice apiKey servers deviceID).
Proof.
  unfold GenerateForDevice. do 3 (apply holds_require; [intros _|split; [cbn; lia|done]]).
  apply holds_bind. eapply holds_mono; [apply generateProfile_holds; intros Hu; split; [done|by eexists]|].
  intros h [[p|ct data e]|e] (_&Hl&Hp); by split.
Qed.

Lemma CreateDevice_holds :
  holds add_once (fun h r => match r with
      | Ok id => id ≠ "" ∧ ∃ status contentType data raw, success status = true ∧ json_id data = Some raw ∧ id = trim_space raw
          ∧ h = [Posted devices_url apiKey add_payload (Answered status contentType data)]
      | Err _ => True end)
    [] (CreateDevice apiKey).
Proof.
  unfold CreateDevice. apply holds_require; [intros _|done]. apply holds_bind. unfold providerDeviceAction.
  apply holds_require; [intros Hu|done]. apply holds_bind. split; [done|]. intros a. cbn [event].
  destruct (read_answer _ a) as [[[st ct] data]|e] eqn:Ha; [apply read_answer_ok in Ha as ->|by destruct a; cbn in *; try done; destruct (_ <? _)].
  apply holds_require; [intros Hs|done]. destruct (providerJSONHasError data) as [[]|]; [done| |done].
  cbn [holds give]. destruct (json_id data) as [raw|] eqn:Hid; [|done]. apply holds_require; [intros Hne|done]. bools.
  split; [done|]. by exists st, ct, data, raw.
Qed.

End protocol.

(** C8. Whatever the provider answers, [Generate] reads only, over HTTPS and with the key shown to the generator, the account
    and the devices alone, until every one of these holds: the generator refused the profile in JSON because of the device,
    the account accepts the key and is not known to have no subscription, it has a ready device, and the device list just
    read has no device of the product's name.  Then it adds one device, and the only other change it may make is naming
    that very device.  A profile it returns is one the generator sent and the parser accepted, and if the account was
    changed the product's device was seen ready first.  [GenerateForDevice] asks the generator only, twice at most;
    [CreateDevice] sends one request, the addition. *)
Theorem account_changes_justified apiKey servers deviceID :
  holds (call_allowed apiKey) (generate_post apiKey) [] (Generate apiKey servers) ∧
  holds (generator_only apiKey) (fun h r => (length h <= 2)%nat ∧
      match r with Ok p => generated apiKey h (fun _ data => parseProfile true data = Ok p) | Err _ => True end)
    [] (GenerateForDevice apiKey servers deviceID) ∧
  holds (add_once apiKey) (fun h r => match r with
      | Ok id => id ≠ "" ∧ ∃ status contentType data raw, success status = true ∧ json_id data = Some raw ∧ id = trim_space raw
          ∧ h = [Posted devices_url apiKey add_payload (Answered status contentType data)]
      | Err _ => True end)
    [] (CreateDevice apiKey).
Proof. split; [apply Generate_wp|]. split; [apply GenerateForDevice_holds|apply CreateDevice_holds]. Qed.

End client.

(** ** Runs *)

(** A run in which the provider answers by the script; the context is never
    cancelled and every pause ends with a tick. *)
Fixpoint play {A} (script : list HttpAnswer) (h : list Event) (p : AirProg A) : list Event * option A :=
  match p with
  | Done a => (h, Some a)
  | Ask c k =>
      match c return (resp c → AirProg A) → list Event * option A with
      | Get u key query => fun k => match script with [] => (h, None) | a :: script => play script (Got u key query a :: h) (k a) end
      | Post u key payload => fun k => match script with [] => (h, None) | a :: script => play script (Posted u key payload a :: h) (k a) end
      | ContextDone => fun k => play script (Waited :: h) (k false)
      | Pause => fun k => play script (Waited :: h) (k PauseTick)
      end k
  end.

(** A decoder for a few documents, named by their text. *)
Definition sample_json : AirJSON := {|
  json_any s :=
    if s == "{refused}" then Some (JObject [("error", JString "The device is not available")]%string)
    else if s == "{key}" then Some (JObject [("a", JString "invalid"); ("b", JString "key")]%string) else None;
  json_object s :=
    if s == "{user}" then Some (Some {["user" := "{details}"]})
    else if s == "{details}" then Some (Some {["premium" := "true"]})
    else Some (Some ∅);
  json_manifest _ := None;
  json_string _ := None;
  json_bool s := if s == "true" then Some true else None;
  json_id s := if s == "{added}" then Some "7" else None;
  json_result s := if s == "{named}" then Some "true" else if s == "{rejected}" then Some "[]" else None;
  json_servers s := if s == "{servers}" then Some [mkServer "Alnitak" "Netherlands" "nl" "Europe" "ok"] else None;
  json_devices s :=
    if s == "{devices}" then Some (Some [mkDevice "1" "phone" "" "ready"])
    else if s == "{managed}" then Some (Some [mkDevice "1" "phone" "" "ready"; mkDevice "7" managedDeviceName managedDeviceNote "Ready"])
    else None;
  json_statuses s := if s == "{devices}" then Some (Some ["ready"]) else None;
|}.
Definition sample_generate (script : list HttpAnswer) : list Event * option (result AirError Profile) :=
  play script [] (@Generate ascii_only plain_url sample_json sample_digest id id "" "key" "europe").
Definition ok200 (data : string) : HttpAnswer := Answered 200 "application/json" data.
(** A device-specific refusal, then the checks and the addition. *)
Definition refused_script : list HttpAnswer := map ok200 ["{refused}"; "{servers}"; "{user}"; "{devices}"; "{devices}"; "{added}"].
Definition payloads (h : list Event) : list (list (string * string)) :=
  omap (fun e => match e with Posted _ _ payload _ => Some payload | _ => None end) (reverse h).

(** The device is added, named and waited for, and the profile is made for it. *)
Example managed_device_run :
  let run := sample_generate (refused_script ++ map ok200 ["{named}"; "{devices}"; "{managed}"; sample_profile "10.128.0.7/32" "192.0.2.1:1637"]) in
  payloads run.1 = [list_payload; list_payload; add_payload; modify_payload "7"; list_payload; list_payload]
  ∧ match run.2 with Some (Ok p) => me_EndpointHost (pf_Metadata p) = "192.0.2.1" | _ => False end.
Proof. split; by vm_compute. Qed.

(** Where the name is not accepted the device that was added stays without it:
    nothing takes it back, and the next run, which does not find the reserved
    name, adds another. *)
Example unnamed_device_run :
  let run := sample_generate (refused_script ++ [ok200 "{rejected}"]) in
  payloads run.1 = [list_payload; list_payload; add_payload; modify_payload "7"] ∧ run.2 = Some (Err NameRejected).
Proof. split; by vm_compute. Qed.

(** The members of an object are visited in no fixed order and joined, so one
    answer has two categories. *)
Example category_depends_on_order :
  @providerJSONErrorCategory ascii_only sample_json id "{key}" = "api-key"
  ∧ @providerJSONErrorCategory ascii_only sample_json (fun l => reverse l) "{key}" = "provider-error".
Proof. split; by vm_compute. Qed.

End AirClient.
