(* ===== verification/PxHost.v ===== *)
(** * The host's network interfaces ([internal/network/discovery.go];
    [internal/proxmox/plan.go], from NetworkInterface to analyzePhysicalNetwork
    and ValidatePhysicalBinding)

    What Proxmox reports about interfaces, which of them carries the host's own
    connection, which may become the trunk of the laboratory, and whether the
    recorded binding still holds.  Nothing here touches the host. *)

From S2P Require Export PxGuest.

Open Scope Z_scope.

Module PxHost.
Import Model PxGuest.
#[local] Arguments sort_by : simpl never.

(** ** Reports *)

Record NetworkInterface := mkNetIf {
  hi_Iface : string;
  hi_Type : string;
  hi_Method : string;
  hi_Address : string;
  hi_Gateway : string;
  hi_BridgePorts : string;
  hi_BridgeVLANAware : bool;
  hi_VLANID : Z;
  hi_VLANRawDevice : string;
  hi_HWAddr : string;
  hi_Driver : string;
  hi_Model : string;
  hi_PCIAddress : string;
  hi_Bond : string;
  hi_SpeedMbps : Z;
  hi_Active : bool;
  hi_Autostart : bool;
}.

(** A JSON value where a flag is expected. *)
Inductive RawFlag := FlagAbsent | FlagBool (b : bool) | FlagInt (n : Z) | FlagOther.
Definition jsonBool (data : RawFlag) : bool :=
  match data with FlagBool b => b | FlagInt n => negb (n =? 0) | FlagAbsent | FlagOther => false end.
Definition flag_or (a b : RawFlag) : RawFlag := match a with FlagAbsent => b | _ => a end.

(** One object of the report, decoded; two spellings of some keys. *)
Record RawInterface := mkRaw {
  ra_Iface : string; ra_Type : string; ra_Method : string; ra_Address : string; ra_CIDR : string; ra_Gateway : string;
  ra_BridgePorts : string; ra_BridgePortsDash : string;
  ra_BridgeVLANAware : RawFlag; ra_BridgeVLANAwareDash : RawFlag;
  ra_VLANID : Z; ra_VLANIDUnderscore : Z; ra_VLANRawDevice : string; ra_VLANRawDeviceUnder : string;
  ra_HWAddr : string; ra_Driver : string; ra_Model : string; ra_Product : string;
  ra_PCIAddress : string; ra_PCIAddressDash : string; ra_PCI : string; ra_Bond : string; ra_SpeedMbps : Z;
  ra_Active : RawFlag; ra_Autostart : RawFlag; ra_AltNames : list string;
}.

Definition isHexRune (c : ascii) : bool := is_digit c || in_range "a" "f" c || in_range "A" "F" c.

(** Pairs of digits with colons between them. *)
Fixpoint with_colons (s : string) : string :=
  match s with
  | String a (String b EmptyString) => String a (String b EmptyString)
  | String a (String b s) => String a (String b (String ":" (with_colons s)))
  | s => s
  end.

Section reports.
Context `{GoUnicode}.

(** The digits of a name [enx] and a hardware address; a rune that is not a
    digit ends the search in that name, and twelve digits give 17 bytes. *)
Definition name_mac (name : string) : option string :=
  if (len name =? 15) && has_prefix name "enx" && sall isHexRune (trim_prefix name "enx")
  then Some (to_lower (with_colons (trim_prefix name "enx"))) else None.
Definition predictableMAC (iface : string) (altNames : list string) : string :=
  default "" (first_some name_mac (iface :: altNames)).

Definition or_str (a b : string) : string := if a == "" then b else a.
Definition UnmarshalJSON (raw : RawInterface) : NetworkInterface := {|
  hi_Iface := ra_Iface raw; hi_Type := ra_Type raw; hi_Method := ra_Method raw;
  hi_Address := or_str (ra_Address raw) (ra_CIDR raw); hi_Gateway := ra_Gateway raw;
  hi_BridgePorts := or_str (ra_BridgePorts raw) (ra_BridgePortsDash raw);
  hi_BridgeVLANAware := jsonBool (flag_or (ra_BridgeVLANAware raw) (ra_BridgeVLANAwareDash raw));
  hi_VLANID := if ra_VLANID raw =? 0 then ra_VLANIDUnderscore raw else ra_VLANID raw;
  hi_VLANRawDevice := or_str (ra_VLANRawDevice raw) (ra_VLANRawDeviceUnder raw);
  hi_HWAddr := or_str (ra_HWAddr raw) (predictableMAC (ra_Iface raw) (ra_AltNames raw));
  hi_Driver := ra_Driver raw; hi_Model := or_str (ra_Model raw) (ra_Product raw);
  hi_PCIAddress := or_str (or_str (ra_PCIAddress raw) (ra_PCIAddressDash raw)) (ra_PCI raw);
  hi_Bond := ra_Bond raw; hi_SpeedMbps := ra_SpeedMbps raw;
  hi_Active := jsonBool (ra_Active raw); hi_Autostart := jsonBool (ra_Autostart raw);
|}.

(** What the kernel says about its links, for reports without hardware addresses. *)
Record ipLinkHardware := mkLink { lk_Iface : string; lk_LinkType : string; lk_Address : string }.
Definition link_step (byName : gmap string string) (link : ipLinkHardware) : gmap string string :=
  if (lk_Iface link == "") || (lk_LinkType link != "ether") then byName
  else
    match parse_mac (lk_Address link) with
    | Some mac => if negb (length mac =? 6)%nat then byName else <[lk_Iface link := to_lower (mac_string mac)]> byName
    | None => byName
    end.
Definition with_hwaddr (i : NetworkInterface) (mac : string) : NetworkInterface :=
  mkNetIf (hi_Iface i) (hi_Type i) (hi_Method i) (hi_Address i) (hi_Gateway i) (hi_BridgePorts i) (hi_BridgeVLANAware i)
    (hi_VLANID i) (hi_VLANRawDevice i) mac (hi_Driver i) (hi_Model i) (hi_PCIAddress i) (hi_Bond i) (hi_SpeedMbps i)
    (hi_Active i) (hi_Autostart i).
Definition enrich (links : list ipLinkHardware) (interfaces : list NetworkInterface) : list NetworkInterface :=
  let byName := foldl link_step ∅ links in
  map (fun i => if (hi_Type i == "eth") && (hi_HWAddr i == "") then with_hwaddr i (default "" (byName !! hi_Iface i)) else i) interfaces.
End reports.

(** ** Discovery *)

Record Interface := mkInterface {
  in_Name : string;
  in_PermanentMAC : string;
  in_PCIAddress : string;
  in_Driver : string;
  in_Model : string;
  in_SpeedMbps : Z;
  in_Carrier : bool;
  in_Addresses : list string;
  in_IPv6Addresses : list string;
  in_PhysicalEthernet : bool;
  in_DefaultRoute : bool;
  in_Bridge : string;
  in_Bond : string;
  in_ManagementPath : bool;
}.

Record Evidence := mkEvidence {
  ev_Interfaces : list Interface;
  ev_DefaultRouteInterface : string;
  ev_BootstrapInterface : string;
  ev_BootstrapAddress : string;
  ev_VMbr0Members : list string;
  ev_ConfiguredTrunk : string;
}.

Inductive Classification := ClassUpstream | ClassCandidate | ClassConfigured | ClassIneligible | ClassAmbiguous.
#[export] Instance Classification_eq_dec : EqDecision Classification.
Proof. solve_decision. Defined.
Inductive Reason :=
| IsUpstream | NotPhysical | ManagementDependency | InBridgeOrBond | HasAddresses | HasIPv6 | NoIdentity | PersistedBinding | Unused.
Inductive Mode := ModeVirtualOnly | ModePhysicalTrunk | ModeSelectionNeeded.
#[export] Instance Mode_eq_dec : EqDecision Mode.
Proof. solve_decision. Defined.
Inductive Explanation := MatchesBinding | ExplicitChoice | BindingPresent | NoCandidate | OneCandidate | ManyCandidates.

Record ClassifiedInterface := mkClassified { cl_Interface : Interface; cl_Classification : Classification; cl_Reason : Reason }.

Record Discovery := mkDiscovery {
  ds_Mode : Mode;
  ds_BootstrapAddress : string;
  ds_Upstream : Interface;
  ds_Trunk : option Interface;
  ds_Candidates : list Interface;
  ds_Interfaces : list ClassifiedInterface;
  ds_Status : string;
  ds_Explanation : Explanation;
}.

Inductive NetError :=
| NoEvidence | UnnamedInterface | AmbiguousUpstream | UpstreamNotPhysical | UpstreamNoIdentity | BootstrapAddressAbsent
| TrunkNotDiscovered (name : string) | TrunkNotEligible (name : string)
| NoVMbr0 | VMbr0Members | RouteInterfaceAbsent | ManyRoutes | NoRoute
| BindingVMbr0 | BindingAddress | BindingUpstreamMember | BindingUpstream (name : string) | BindingVMbr1
| BindingUnexpected (ports : string) | BindingNoTrunk | BindingTrunkMember | BindingTrunkAddress (name : string) | BindingTrunk (name : string).

(** Why the bridge of the laboratory is left alone, or what became of it. *)
Inductive TrunkError :=
| BadInterface (name : string) | CarriesBootstrap (name : string) | OnOtherBridge (name : string) | NotEthernet (name : string)
| HasDependency (name : string) | NoHardwareIdentity (name : string) | NoBridge | BridgeTaken (ports : string) | ManagementConflict
| NotABridge | NotVLANAware | AttachNotObserved | ManagementNotObserved | UpstreamMember (name : string) | NotTheMember (name : string)
| DetachNotObserved | AmbiguousMembers (ports : string) | BridgeAbsent.

Definition host_part (address : string) : string := trim_space (before address "/").
Definition hasAddress (addresses : list string) (wanted : string) : bool :=
  existsb (fun address => host_part address == trim_space wanted) addresses.

Definition contains (values : list string) (wanted : string) : bool := existsb (fun v => v == wanted) values.
Definition containsInterface (values : list Interface) (wanted : string) : bool := existsb (fun v => in_Name v == wanted) values.

(** [IP.IsLinkLocalUnicast] of a text that parses: 169.254.0.0/16 and fe80::/10. *)
Definition link_local (s : string) : bool :=
  match parse_to4 s with
  | Some a => (octet a 0 =? 169) && (octet a 1 =? 254)
  | None =>
      match parse_ip6 s with
      | Some (b0 :: b1 :: _) => (b0 =? 254) && (Z.land b1 192 =? 128)
      | _ => false
      end
  end.

(** An IPv6 address that is used. *)
Definition routable (address : string) : bool := is_ip (host_part address) && negb (link_local (host_part address)).

Definition has_identity (i : Interface) : bool := negb ((in_PermanentMAC i == "") && (in_PCIAddress i == "")).

Definition classify (i : Interface) (upstream : string) (vmbr0Members : list string) (configuredTrunk : string)
    : Classification * Reason :=
  let bound := (in_Name i == configuredTrunk) && (in_Bridge i == "vmbr1") in
  if in_Name i == upstream then (ClassUpstream, IsUpstream)
  else if negb (in_PhysicalEthernet i) then (ClassIneligible, NotPhysical)
  else if in_ManagementPath i || in_DefaultRoute i then (ClassIneligible, ManagementDependency)
  else if ((in_Bridge i != "") && negb bound) || (in_Bond i != "") || contains vmbr0Members (in_Name i) then (ClassIneligible, InBridgeOrBond)
  else if negb (length (in_Addresses i) =? 0)%nat then (ClassIneligible, HasAddresses)
  else if existsb routable (in_IPv6Addresses i) then (ClassIneligible, HasIPv6)
  else if negb (has_identity i) then (ClassAmbiguous, NoIdentity)
  else if bound then (ClassConfigured, PersistedBinding)
  else (ClassCandidate, Unused).

Definition classified_in (evidence : Evidence) (upstream : string) (i : Interface) : Classification :=
  (classify i upstream (ev_VMbr0Members evidence) (ev_ConfiguredTrunk evidence)).1.
Definition in_class (evidence : Evidence) (upstream : string) (class : Classification) : list Interface :=
  List.filter (fun i => classified_in evidence upstream i == class) (ev_Interfaces evidence).

(** A later interface of the same name replaces an earlier one. *)
Definition by_name (interfaces : list Interface) : gmap string Interface := foldl (fun m i => <[in_Name i := i]> m) ∅ interfaces.

Definition Analyze (evidence : Evidence) (explicitTrunk : string) : result NetError Discovery :=
  _ ← fail_if (length (ev_Interfaces evidence) =? 0)%nat NoEvidence;
  _ ← fail_if (existsb (fun i => in_Name i == "") (ev_Interfaces evidence)) UnnamedInterface;
  let byName := by_name (ev_Interfaces evidence) in
  let upstreamName := or_str (ev_BootstrapInterface evidence) (ev_DefaultRouteInterface evidence) in
  _ ← fail_if ((upstreamName == "") || (ev_DefaultRouteInterface evidence != upstreamName)
               || (ev_BootstrapInterface evidence != upstreamName) || negb (contains (ev_VMbr0Members evidence) upstreamName)) AmbiguousUpstream;
  match byName !! upstreamName with
  | None => Err UpstreamNotPhysical
  | Some upstream =>
      _ ← fail_if (negb (in_PhysicalEthernet upstream)) UpstreamNotPhysical;
      _ ← fail_if (negb (has_identity upstream)) UpstreamNoIdentity;
      _ ← fail_if ((ev_BootstrapAddress evidence == "") || negb (hasAddress (in_Addresses upstream) (ev_BootstrapAddress evidence)))
            BootstrapAddressAbsent;
      let classified := sort_by (fun c => in_Name (cl_Interface c))
        (map (fun i => let '(c, r) := classify i upstreamName (ev_VMbr0Members evidence) (ev_ConfiguredTrunk evidence) in mkClassified i c r)
           (ev_Interfaces evidence)) in
      let configured := last (in_class evidence upstreamName ClassConfigured) in
      let candidates := sort_by in_Name (in_class evidence upstreamName ClassCandidate) in
      let result mode trunk status explanation :=
        Ok (mkDiscovery mode (ev_BootstrapAddress evidence) upstream trunk candidates classified status explanation) in
      if explicitTrunk != "" then
        match byName !! explicitTrunk with
        | None => Err (TrunkNotDiscovered explicitTrunk)
        | Some selected =>
            if match configured with Some c => in_Name c == explicitTrunk | None => false end
            then result ModePhysicalTrunk (Some selected) "PASS" MatchesBinding
            else if negb (containsInterface candidates explicitTrunk) then Err (TrunkNotEligible explicitTrunk)
            else result ModePhysicalTrunk (Some selected) "PASS" ExplicitChoice
        end
      else
        match configured, candidates with
        | Some c, _ => result ModePhysicalTrunk (Some c) "PASS" BindingPresent
        | None, [] => result ModeVirtualOnly None "PASS" NoCandidate
        | None, [c] => result ModePhysicalTrunk (Some c) "PASS" OneCandidate
        | None, _ => result ModeSelectionNeeded None "HOLD" ManyCandidates
        end
  end.

(** ** What discovery means *)

(** A port that nothing else uses, or that is already the trunk. *)
Record free_port (e : Evidence) (upstream : string) (i : Interface) : Prop := {
  fp_other : in_Name i ≠ upstream ∧ in_Name i ∉ ev_VMbr0Members e;
  fp_physical : in_PhysicalEthernet i = true ∧ has_identity i = true;
  fp_route : in_ManagementPath i = false ∧ in_DefaultRoute i = false;
  fp_bond : in_Bond i = "" ∧ (in_Bridge i = "" ∨ in_Name i = ev_ConfiguredTrunk e ∧ in_Bridge i = "vmbr1"%string);
  fp_addresses : in_Addresses i = [] ∧ Forall (fun a => routable a = false) (in_IPv6Addresses i);
}.
Definition bound_port (e : Evidence) (i : Interface) : Prop := in_Name i = ev_ConfiguredTrunk e ∧ in_Bridge i = "vmbr1"%string.

Lemma contains_false values wanted : contains values wanted = false ↔ wanted ∉ values.
Proof.
  unfold contains. rewrite <- not_true_iff_false, existsb_exists. setoid_rewrite <- list_elem_of_In. split.
  - intros Hn Hin. apply Hn. exists wanted. by rewrite bool_decide_true.
  - intros Hn (v & Hv & E). bools. by subst.
Qed.

Lemma classify_spec e upstream i :
  (classified_in e upstream i = ClassCandidate ↔ free_port e upstream i ∧ ¬ bound_port e i)
  ∧ (classified_in e upstream i = ClassConfigured ↔ free_port e upstream i ∧ bound_port e i).
Proof.
  unfold classified_in, classify, bound_port.
  destruct (in_Name i == upstream) eqn:E1; [bools; split; (split; [done|]); intros [[[? _] _ _ _ _] _]; congruence|]. bools.
  destruct (in_PhysicalEthernet i) eqn:E2; cbn [negb]; [|split; (split; [done|]); intros [[_ [? _] _ _ _] _]; congruence].
  destruct (in_ManagementPath i || in_DefaultRoute i) eqn:E3;
    [split; (split; [done|]); intros [[_ _ [Ha Hb] _ _] _]; by rewrite Ha, Hb in E3|]. bools.
  destruct (_ || contains _ _) eqn:E4.
  { assert (¬ free_port e upstream i) as Hn; [|split; (split; [done|]); by intros [? _]].
    intros [[_ Hm] _ _ [Hb Hbr] _]. apply contains_false in Hm. rewrite Hm, Hb in E4.
    rewrite (bool_decide_true ("" = "")), !orb_false_r in E4 by done. destruct Hbr as [Hbr|[Hn1 Hn2]].
    - rewrite Hbr in E4. by vm_compute in E4.
    - rewrite Hn1, Hn2, (bool_decide_true (ev_ConfiguredTrunk e = ev_ConfiguredTrunk e)) in E4 by done. by vm_compute in E4. }
  apply orb_false_iff in E4 as [E4 E5]. apply orb_false_iff in E4 as [E4 E6]. apply contains_false in E5. bools.
  destruct (in_Addresses i) as [|a l] eqn:E7; cbn [length Nat.eqb negb]; [|split; (split; [done|]); intros [[_ _ _ _ [? _]] _]; congruence].
  destruct (existsb routable _) eqn:E8.
  { split; (split; [done|]); intros [[_ _ _ _ [_ Hr]] _]; apply existsb_exists in E8 as (a & Ha%list_elem_of_In & Er);
      rewrite Forall_forall in Hr; by rewrite (Hr a Ha) in Er. }
  apply existsb_false in E8. destruct (has_identity i) eqn:E9; cbn [negb]; [|split; (split; [done|]); intros [[_ [_ ?] _ _ _] _]; congruence].
  assert (free_port e upstream i ↔ True) as ->.
  { split; [done|]. intros _. constructor; try done. split; [done|]. apply andb_false_iff in E4 as [E4|E4]; bools; [by left|by right]. }
  destruct (in_Name i == ev_ConfiguredTrunk e) eqn:Ea, (in_Bridge i == "vmbr1") eqn:Eb; bools; cbn; intuition congruence.
Qed.

Lemma elem_in_class e upstream class i : i ∈ in_class e upstream class ↔ i ∈ ev_Interfaces e ∧ classified_in e upstream i = class.
Proof. unfold in_class. rewrite list_elem_of_In, filter_In, <- list_elem_of_In, bool_decide_eq_true. done. Qed.

Lemma elem_by_name l n i : by_name l !! n = Some i → i ∈ l ∧ in_Name i = n.
Proof.
  unfold by_name. assert (∀ m : gmap string Interface, foldl (fun m i => <[in_Name i := i]> m) m l !! n = Some i →
    m !! n = Some i ∨ i ∈ l ∧ in_Name i = n) as Hgen; [|intros Hi; apply Hgen in Hi as [Hi|?]; [by rewrite lookup_empty in Hi|done]].
  induction l as [|x l IH]; intros m Hi; [by left|]. cbn in Hi. apply IH in Hi as [Hi|[Hi ?]]; [|right; split; [by right|done]].
  apply lookup_insert_Some in Hi as [[? ->]|[_ ?]]; [right; split; [by left|done]|by left].
Qed.

Lemma NoDup_map_filter {A B} (f : A → B) (p : A → bool) l : NoDup (map f l) → NoDup (map f (List.filter p l)).
Proof.
  induction l as [|x l IH]; cbn; [done|]. intros [Hx Hl]%NoDup_cons. destruct (p x); cbn; [|by apply IH].
  apply NoDup_cons. split; [|by apply IH]. intros (y & Ey & Hy)%list_elem_of_fmap. apply Hx, list_elem_of_fmap. exists y.
  split; [done|]. by apply list_elem_of_In, filter_In in Hy as [?%list_elem_of_In _].
Qed.

Lemma last_elem {A} (l : list A) x : last l = Some x → x ∈ l.
Proof. intros Hl. apply last_Some in Hl as (k & ->). apply elem_of_app. right. by left. Qed.

Lemma containsInterface_elem l n : containsInterface l n = true ↔ ∃ i, i ∈ l ∧ in_Name i = n.
Proof. unfold containsInterface. rewrite existsb_exists. setoid_rewrite <- list_elem_of_In. by setoid_rewrite bool_decide_eq_true. Qed.

(** ** From the report to the evidence *)

Definition normalizeRouteInterface (routeInterface upstream : string) : string :=
  if routeInterface == "vmbr0" then upstream else routeInterface.
Definition containsBridgePort (ports wanted : string) : bool := contains (fields ports) wanted.

(** The interface of the default route: as the host reports it, or the one
    interface with a gateway. *)
Definition gateway_step (upstream : string) (found : string) (i : NetworkInterface) : result NetError string :=
  if trim_space (hi_Gateway i) == "" then Ok found
  else
    let route := normalizeRouteInterface (hi_Iface i) upstream in
    _ ← fail_if ((found != "") && (found != route)) ManyRoutes;
    Ok route.
Definition default_route (interfaces : list NetworkInterface) (upstream observed : string) : result NetError string :=
  if observed != "" then
    _ ← fail_if (negb (existsb (fun i => hi_Iface i == observed) interfaces)) RouteInterfaceAbsent;
    Ok (normalizeRouteInterface observed upstream)
  else foldM (gateway_step upstream) "" interfaces.

Section evidence.
Context `{GoUnicode}.

(** A port of the host as evidence. *)
Definition observed_interface (interfaces : list NetworkInterface) (vmbr0 : NetworkInterface) (upstream : string)
    (i : NetworkInterface) : Interface :=
  let address := trim_space (hi_Address i) in
  let ipv6 := is_ip (host_part address) && match parse_to4 (host_part address) with Some _ => false | None => true end in
  let own := if hi_Address i == "" then [] else if ipv6 then [] else [address] in
  let at_upstream := hi_Iface i == upstream in
  {|
    in_Name := hi_Iface i; in_PermanentMAC := to_lower (hi_HWAddr i); in_PCIAddress := hi_PCIAddress i; in_Driver := hi_Driver i;
    in_Model := hi_Model i; in_SpeedMbps := hi_SpeedMbps i; in_Carrier := hi_Active i;
    in_Addresses := own ++ (if at_upstream && (hi_Address vmbr0 != "") then [hi_Address vmbr0] else []);
    in_IPv6Addresses := if hi_Address i == "" then [] else if ipv6 then [address] else [];
    in_PhysicalEthernet := true;
    in_DefaultRoute := hi_Gateway i != "";
    in_Bridge := match last (List.filter (fun b => (hi_Type b == "bridge") && containsBridgePort (hi_BridgePorts b) (hi_Iface i)) interfaces) with
                 | Some b => hi_Iface b
                 | None => ""
                 end;
    in_Bond := hi_Bond i;
    in_ManagementPath := at_upstream;
  |}.

Definition analyzePhysicalNetwork (interfaces : list NetworkInterface)
    (bootstrapAddress configuredTrunk selectedTrunk observedDefaultRoute : string) : result NetError Discovery :=
  match List.find (fun i => hi_Iface i == "vmbr0") interfaces with
  | None => Err NoVMbr0
  | Some vmbr0 =>
      _ ← fail_if (hi_Type vmbr0 != "bridge") NoVMbr0;
      match fields (hi_BridgePorts vmbr0) with
      | [upstream] =>
          route ← default_route interfaces upstream observedDefaultRoute;
          _ ← fail_if (route == "") NoRoute;
          Analyze (mkEvidence (map (observed_interface interfaces vmbr0 upstream) (List.filter (fun i => hi_Type i == "eth") interfaces))
                     route upstream bootstrapAddress [upstream] configuredTrunk) selectedTrunk
      | _ => Err VMbr0Members
      end
  end.

Definition AnalyzePhysicalNetworkWithSelection (interfaces : list NetworkInterface) (bootstrapAddress configuredTrunk selectedTrunk : string)
    : result NetError Discovery := analyzePhysicalNetwork interfaces bootstrapAddress configuredTrunk selectedTrunk "".
Definition AnalyzePhysicalNetwork (interfaces : list NetworkInterface) (bootstrapAddress configuredTrunk : string) : result NetError Discovery :=
  AnalyzePhysicalNetworkWithSelection interfaces bootstrapAddress configuredTrunk "".
Definition AnalyzePhysicalNetworkWithDefaultRoute (interfaces : list NetworkInterface)
    (bootstrapAddress configuredTrunk selectedTrunk defaultRouteInterface : string) : result NetError Discovery :=
  analyzePhysicalNetwork interfaces bootstrapAddress configuredTrunk selectedTrunk defaultRouteInterface.

(** ** The recorded binding *)

Definition bindingMatches (expectedName expectedMAC expectedPCI observedName observedMAC observedPCI : string) : bool :=
  if expectedMAC != "" then (observedMAC != "") && equal_fold expectedMAC observedMAC
  else if expectedPCI != "" then (observedPCI != "") && equal_fold expectedPCI observedPCI
  else expectedName == observedName.
Definition binding_of (nic : PhysicalNIC) (observed : NetworkInterface) : bool :=
  bindingMatches (nic_Name nic) (nic_PermanentMAC nic) (nic_PCIAddress nic) (hi_Iface observed) (hi_HWAddr observed) (hi_PCIAddress observed).

Definition hasAddressValue (value wanted : string) : bool := host_part value == trim_space wanted.

(** What the check reports. *)
Inductive Binding := VirtualCurrent | TrunkCurrent | UpstreamRenamed (from to : string) | TrunkRenamed (from to : string)
| BothRenamed (from to trunkFrom trunkTo : string).

Definition last_named (interfaces : list NetworkInterface) (name : string) : option NetworkInterface :=
  last (List.filter (fun i => hi_Iface i == name) interfaces).

Definition check_trunk (s : Site) (interfaces : list NetworkInterface) (vmbr1 : NetworkInterface) (upstreamName : string)
    : result NetError Binding :=
  let n := s_PhysicalNetwork s in
  let renamed := (nic_Name (pn_Upstream n) != "") && (upstreamName != nic_Name (pn_Upstream n)) in
  let members := fields (hi_BridgePorts vmbr1) in
  if pn_Mode n == "virtual-only" then
    _ ← fail_if (negb (length members =? 0)%nat && (members != ["none"%string])) (BindingUnexpected (hi_BridgePorts vmbr1));
    Ok (if renamed then UpstreamRenamed (nic_Name (pn_Upstream n)) upstreamName else VirtualCurrent)
  else
    match members with
    | [trunkName] =>
        _ ← fail_if (trunkName == "none") BindingNoTrunk;
        match last_named interfaces trunkName with
        | None => Err BindingTrunkMember
        | Some trunk =>
            _ ← fail_if (hi_Type trunk != "eth") BindingTrunkMember;
            _ ← fail_if ((hi_Address trunk != "") || (hi_Gateway trunk != "")) (BindingTrunkAddress trunkName);
            _ ← fail_if (negb (binding_of (pn_Trunk n) trunk)) (BindingTrunk trunkName);
            let moved := trunkName != nic_Name (pn_Trunk n) in
            Ok (if renamed then
                  if moved then BothRenamed (nic_Name (pn_Upstream n)) upstreamName (nic_Name (pn_Trunk n)) trunkName
                  else UpstreamRenamed (nic_Name (pn_Upstream n)) upstreamName
                else if moved then TrunkRenamed (nic_Name (pn_Trunk n)) trunkName else TrunkCurrent)
        end
    | _ => Err BindingNoTrunk
    end.

Definition ValidatePhysicalBinding (s : Site) (interfaces : list NetworkInterface) : result NetError Binding :=
  match last_named interfaces "vmbr0" with
  | None => Err BindingVMbr0
  | Some vmbr0 =>
      match fields (hi_BridgePorts vmbr0) with
      | [upstreamName] =>
          _ ← fail_if (hi_Type vmbr0 != "bridge") BindingVMbr0;
          _ ← fail_if ((hi_Address vmbr0 == "") || negb (hasAddressValue (hi_Address vmbr0) (s_BootstrapAddress s))) BindingAddress;
          match last_named interfaces upstreamName with
          | None => Err BindingUpstreamMember
          | Some upstream =>
              _ ← fail_if (hi_Type upstream != "eth") BindingUpstreamMember;
              _ ← fail_if (negb (binding_of (pn_Upstream (s_PhysicalNetwork s)) upstream)) (BindingUpstream upstreamName);
              match last_named interfaces "vmbr1" with
              | None => Err BindingVMbr1
              | Some vmbr1 =>
                  _ ← fail_if ((hi_Type vmbr1 != "bridge") || negb (hi_BridgeVLANAware vmbr1)) BindingVMbr1;
                  check_trunk s interfaces vmbr1 upstreamName
              end
          end
      | _ => Err BindingVMbr0
      end
  end.
End evidence.

(** ** Properties *)

(** What discovery may answer. *)
Inductive discovered (e : Evidence) (upstream : string) (explicit : string) : Mode → option Interface → Prop :=
| found_explicit t : explicit ≠ "" → t ∈ ev_Interfaces e → in_Name t = explicit → free_port e upstream t →
    discovered e upstream explicit ModePhysicalTrunk (Some t)
| found_bound t : explicit = "" → t ∈ ev_Interfaces e → free_port e upstream t → bound_port e t →
    discovered e upstream explicit ModePhysicalTrunk (Some t)
| found_only t : explicit = "" → t ∈ ev_Interfaces e → free_port e upstream t → (∀ t', t' ∈ ev_Interfaces e → free_port e upstream t' → t' = t) →
    discovered e upstream explicit ModePhysicalTrunk (Some t)
| found_none : explicit = "" → (∀ t, t ∈ ev_Interfaces e → ¬ free_port e upstream t) → discovered e upstream explicit ModeVirtualOnly None
| found_many t1 t2 : explicit = "" → t1 ≠ t2 → t1 ∈ ev_Interfaces e → t2 ∈ ev_Interfaces e → free_port e upstream t1 → free_port e upstream t2 →
    (∀ t, t ∈ ev_Interfaces e → free_port e upstream t → ¬ bound_port e t) → discovered e upstream explicit ModeSelectionNeeded None.

(** Discovery is safe and exact.  The upstream it reports is the one physical
    port that carries the default route, the bootstrap connection with its
    address, and the bridge vmbr0.  The trunk it reports is another physical
    port with a stable identity that nothing uses: no route, bond, address,
    routable IPv6 address or bridge, unless it is the recorded trunk on vmbr1.
    Without a selection it takes the recorded trunk, or the only such port, and
    asks for a selection exactly when there are several. *)
Theorem Analyze_sound e explicit d : NoDup (map in_Name (ev_Interfaces e)) → Analyze e explicit = Ok d →
  let upstream := in_Name (ds_Upstream d) in
  ds_Upstream d ∈ ev_Interfaces e ∧ in_PhysicalEthernet (ds_Upstream d) = true ∧ has_identity (ds_Upstream d) = true
  ∧ upstream = ev_BootstrapInterface e ∧ upstream = ev_DefaultRouteInterface e ∧ upstream ∈ ev_VMbr0Members e
  ∧ hasAddress (in_Addresses (ds_Upstream d)) (ev_BootstrapAddress e) = true
  ∧ discovered e upstream explicit (ds_Mode d) (ds_Trunk d).
Proof.
  intros Hnd Ha. unfold Analyze in Ha. apply bind_ok in Ha as ([] & _ & Ha). apply bind_ok in Ha as ([] & _ & Ha).
  apply bind_ok in Ha as ([] & Hup%fail_if_ok & Ha). set (name := or_str _ _) in *. apply orb_false_iff in Hup as [Hup Hm].
  apply negb_false_iff, not_false_iff_true in Hm. rewrite contains_false in Hm. apply dec_stable in Hm. bools.
  destruct (by_name _ !! name) as [up|] eqn:Eup; [|done]. apply elem_by_name in Eup as [Hin En].
  apply bind_ok in Ha as ([] & Hphys%fail_if_ok & Ha). apply bind_ok in Ha as ([] & Hid%fail_if_ok & Ha).
  apply bind_ok in Ha as ([] & Haddr%fail_if_ok & Ha). bools.
  set (cands := sort_by in_Name (in_class e name ClassCandidate)) in *. set (conf := last (in_class e name ClassConfigured)) in *.
  assert (∀ t, t ∈ cands ↔ t ∈ ev_Interfaces e ∧ free_port e name t ∧ ¬ bound_port e t) as Hcands.
  { intros t. unfold cands. by rewrite elem_of_sort_by, elem_in_class, (proj1 (classify_spec e name t)). }
  assert (∀ t, conf = Some t → t ∈ ev_Interfaces e ∧ free_port e name t ∧ bound_port e t) as Hconf.
  { intros t Ht%last_elem. by rewrite elem_in_class, (proj2 (classify_spec e name t)) in Ht. }
  assert (conf = None → ∀ t, t ∈ ev_Interfaces e → free_port e name t → ¬ bound_port e t) as Hnone.
  { intros Hn%last_None t Ht Hf Hb. assert (t ∈ in_class e name ClassConfigured) as Hx by by rewrite elem_in_class, (proj2 (classify_spec e name t)).
    rewrite Hn in Hx. by apply elem_of_nil in Hx. }
  assert (ds_Upstream d = up ∧ discovered e name explicit (ds_Mode d) (ds_Trunk d)) as [Eu Hd]; [|rewrite Eu, En; split_and!; congruence].
  case_bool_decide as Hex; cbn [negb] in Ha.
  - destruct conf as [c|] eqn:Ec.
    + injection Ha as <-. split; [done|]. destruct (Hconf c eq_refl) as (?&?&?). by eapply found_bound.
    + specialize (Hnone eq_refl). destruct cands as [|c1 [|c2 l]] eqn:El; injection Ha as <-; (split; [done|]).
      * apply found_none; [done|]. intros t Ht Hf. assert (t ∈ []) as Hx by (apply Hcands; eauto). by apply elem_of_nil in Hx.
      * destruct (proj1 (Hcands c1)) as (?&?&?); [by left|]. eapply found_only; [done..|]. intros t' Ht' Hf'.
        assert (t' ∈ [c1]) as Hx by (apply Hcands; eauto). by apply list_elem_of_singleton in Hx.
      * destruct (proj1 (Hcands c1)) as (?&?&?); [by left|]. destruct (proj1 (Hcands c2)) as (?&?&?); [by right; left|].
        apply (found_many _ _ _ c1 c2); try done. intros ->. assert (NoDup (map in_Name (c2 :: c2 :: l))) as Hdup; [|by inversion Hdup as [|? ? Hx]; subst; destruct Hx; left].
        rewrite <- El. unfold cands. rewrite sort_by_perm. unfold in_class. by apply NoDup_map_filter.
  - destruct (by_name _ !! explicit) as [sel|] eqn:Es; [|done]. apply elem_by_name in Es as [Hs Esn].
    assert (∀ t, t ∈ ev_Interfaces e → in_Name t = explicit → t = sel) as Hsel by (intros t Ht Et; eapply (NoDup_map_inj in_Name); [done..|congruence]).
    destruct (match conf with Some c => in_Name c == explicit | None => false end) eqn:Ec.
    + injection Ha as <-. split; [done|]. destruct conf as [c|]; [|done]. bools. destruct (Hconf c eq_refl) as (Hc & ? & _).
      rewrite (Hsel c Hc) in * by done. by apply found_explicit.
    + destruct (containsInterface cands explicit) eqn:Ein; [|done]. cbn in Ha. injection Ha as <-. split; [done|].
      apply containsInterface_elem in Ein as (t & Ht & Et). apply Hcands in Ht as (Ht & Hf & _). pose proof (Hsel t Ht Et) as ->. by apply found_explicit.
Qed.

Module HostLab.
Definition port (name mac : string) (addresses : list string) (route : bool) : Interface :=
  mkInterface name mac "" "" "" 1000 true addresses [] true route "" "" route.
Definition evidence : Evidence :=
  mkEvidence [port "eno1" "02:00:00:00:00:01" ["192.168.1.5/24"] true; port "eno2" "02:00:00:00:00:02" [] false] "eno1" "eno1" "192.168.1.5" ["eno1"] "".
Definition answer : Discovery :=
  mkDiscovery ModePhysicalTrunk "192.168.1.5" (port "eno1" "02:00:00:00:00:01" ["192.168.1.5/24"] true) (Some (port "eno2" "02:00:00:00:00:02" [] false))
    [port "eno2" "02:00:00:00:00:02" [] false]
    [mkClassified (port "eno1" "02:00:00:00:00:01" ["192.168.1.5/24"] true) ClassUpstream IsUpstream;
     mkClassified (port "eno2" "02:00:00:00:00:02" [] false) ClassCandidate Unused] "PASS" OneCandidate.
Example found : Analyze evidence "" = Ok answer.
Proof. vm_compute. reflexivity. Qed.
End HostLab.

(** The hypotheses of [Analyze_sound] hold for a host with a free second port. *)
Theorem Analyze_sound_witness : NoDup (map in_Name (ev_Interfaces HostLab.evidence)) ∧ Analyze HostLab.evidence "" = Ok HostLab.answer
  ∧ discovered HostLab.evidence "eno1" "" ModePhysicalTrunk (ds_Trunk HostLab.answer).
Proof.
  assert (NoDup (map in_Name (ev_Interfaces HostLab.evidence))) as Hn by (apply (bool_decide_unpack _); vm_compute; exact I).
  split; [exact Hn|]. split; [exact HostLab.found|].
  exact (proj2 (proj2 (proj2 (proj2 (proj2 (proj2 (proj2 (Analyze_sound _ _ _ Hn HostLab.found)))))))).
Defined.
End PxHost.
