(* ===== verification/PxLxc.v ===== *)
(** * Containers on the Proxmox host ([internal/proxmox/plan.go], creation,
    adoption, storage migration and replacement of LXC guests; client.go, the
    calls these use)

    The program is a tree of calls: each call goes to Proxmox (or to the root
    shell of the host, or to a local file), answers, and the rest of the program
    depends on the answer.  A request and the wait for its task are one call.
    Nothing is assumed about the answers here: a call may fail with or without
    its effect.  What Proxmox does is the relation of [PxSafe]. *)

From S2P Require Import PxHost.
From S2P Require Export PxGuest.

Open Scope Z_scope.

Module PxLxc.
Import Model PxGuest.

(** ** Calls *)

Inductive ApiError := NotFound | ApiFailed (message : string).
Definition Params : Type := list (string * string).

Record StorageContent_ := mkContent { sc_VolID : string; sc_Filename : string; sc_Checksum : string; sc_CSum : string }.

Inductive Call :=
| QEMUConfig (vmid : Z) | LXCConfig (vmid : Z)
| QEMUStatus (vmid : Z) | LXCStatus (vmid : Z)
| StartVM (vmid : Z) | StopVM (vmid : Z) | StartLXC (vmid : Z) | StopLXC (vmid : Z)
| CreateVM (vmid : Z) (params : Params) | CreateLXC (vmid : Z) (params : Params)
| SetVMConfig (vmid : Z) (params : Params) | SetLXCConfig (vmid : Z) (params : Params)
| DeleteLXC (vmid : Z) (purge : bool) | DeleteVM (vmid : Z)
| ReassignVolume (source target : Z) (volume targetVolume digest targetDigest : string)
| MoveVolume (vmid : Z) (volume storage digest : string)
| MoveDisk (vmid : Z) (disk storage digest : string)
| SetGuestFirewall (kind : GuestKind) (vmid : Z) (ipfilter : bool)
| ImportDisk (vmid : Z) (source storage format : string)
| StorageContent (storage content : string)
| UploadFile (storage content source filename checksum : string)
| UploadText (storage content filename value : string)
| RestoreACL (vmid : Z)
| NodeNetwork | LinkShow | CreateNodeNetwork (params : Params) | UpdateNodeNetwork (iface : string) (params : Params) | ReloadNodeNetwork
| RunArgs (address user : string) (args : list string)
| FileSHA256 (path : string) | FileStat (path : string)
| Sleep (seconds : Z).

Definition resp (c : Call) : Type :=
  match c with
  | QEMUConfig _ | LXCConfig _ => result ApiError Config
  | QEMUStatus _ | LXCStatus _ => result ApiError string
  | StorageContent _ _ => result ApiError (list StorageContent_)
  | NodeNetwork => result ApiError (list PxHost.NetworkInterface)
  | LinkShow => result string (list PxHost.ipLinkHardware)
  | RunArgs _ _ _ | FileSHA256 _ => result string string
  | FileStat _ | Sleep _ => result string unit
  | _ => result ApiError unit
  end.

Inductive Prog (A : Type) := Ret (a : A) | Next (c : Call) (k : resp c → Prog A).
Arguments Ret {A} a.
Arguments Next {A} c k.

Fixpoint pbind {A B : Type} (f : A → Prog B) (p : Prog A) : Prog B :=
  match p with Ret a => f a | Next c k => Next c (fun r => pbind f (k r)) end.

(** ** Errors *)

Inductive PxError :=
| Held (h : Hold)
| Failed (what : string) (e : ApiError)
| ShellFailed (what message : string)
| LocalFile (what message : string)
| Additionally (e : PxError) (what : string) (e' : PxError)
| Arguments_ (what : string)
| Occupied (guest : string) (vmid : Z) (kind : GuestKind)
| BadStatus (guest status : string)
| NotConfirmed (guest : string)
| NoHolderVMID | HolderIdentity (vmid : Z) | HolderNotLXC (vmid : Z) | HolderOccupied (vmid : Z) (key : string) | TargetOccupied (guest key : string)
| VolumeChanged (guest key : string)
| RetainedRootfs (guest : string) | RetainedAbsent (guest key : string) | RetainedCount (guest : string)
| NoChecksum | StoredNoChecksum (filename : string) | StoredMismatch (filename observed wanted : string)
| NoSource (filename : string) | SourceMismatch (filename actual wanted : string) | NotVisible (filename : string)
| UnsafePath (volume : string) | AmbiguousLoop (volume : string) | LoopChanged (volume : string) | LoopStuck (volume : string)
| NoModule (module : string) | NoFirewallVM | CloudInitIncomplete
| Trunk (e : PxHost.TrunkError) | Discovering (e : PxHost.NetError) | NotVerified (e : ApiError) | RollbackFailed (rollback : ApiError) (verification : option ApiError)
| OutOfFuel.

(** A program that returns an error or a value, as a Go function does. *)
Definition PM (A : Type) : Type := Prog (result PxError A).
#[export] Instance PM_ret : MRet PM := fun _ a => Ret (Ok a).
#[export] Instance PM_bind : MBind PM := fun _ _ f m =>
  pbind (fun r => match r with Ok a => f a | Err e => Ret (Err e) end) m.

Definition throw {A} (e : PxError) : PM A := Ret (Err e).
Definition check {A} (f : Hold → PxError) (r : result Hold A) : PM A := Ret (match r with Ok a => Ok a | Err h => Err (f h) end).
Definition guard (bad : bool) (e : PxError) : PM unit := Ret (fail_if bad e).

(** The rest of the program after an answer, whatever it is. *)
Definition answer {R A} (p : Prog R) (k : R → PM A) : PM A := pbind k p.
Definition catch {A B} (m : PM A) (k : result PxError A → PM B) : PM B := answer m k.

Definition call (c : Call) : Prog (resp c) := Next c Ret.
(** A call whose error is wrapped. *)
Definition api {A} (what : string) (p : Prog (result ApiError A)) : PM A :=
  pbind (fun r => Ret (match r with Ok a => Ok a | Err e => Err (Failed what e) end)) p.

Fixpoint eachP {A} (f : A → PM unit) (xs : list A) : PM unit :=
  match xs with [] => mret tt | x :: xs => _ ← f x; eachP f xs end.

(** ** The client ([client.go]) *)

Section client.
Context `{GoUnicode, PxDigest} (plan : Plan).
Definition node : string := p_Node plan.

Definition bad_arguments (bad : bool) {A} (p : Prog (result ApiError A)) : Prog (result ApiError A) :=
  if bad then Ret (Err (ApiFailed "arguments")) else p.

Definition GuestConfig (vmid : Z) : Prog (result ApiError (GuestKind * Config)) :=
  Next (QEMUConfig vmid) (fun r =>
    match r with
    | Ok current => Ret (Ok (KindQEMU, current))
    | Err NotFound => Next (LXCConfig vmid) (fun r' =>
        Ret (match r' with Ok current => Ok (KindLXC, current) | Err e => Err e end))
    | Err e => Ret (Err e)
    end).

Definition no_status (r : result ApiError string) : result ApiError string :=
  match r with Ok "" => Err (ApiFailed "no status") | _ => r end.
Definition client_LXCStatus (vmid : Z) : Prog (result ApiError string) :=
  bad_arguments ((node == "") || (vmid <=? 0)) (Next (LXCStatus vmid) (fun r => Ret (no_status r))).
Definition client_StopLXC (vmid : Z) : Prog (result ApiError unit) :=
  bad_arguments ((node == "") || (vmid <=? 0)) (call (StopLXC vmid)).
Definition client_StartLXC (vmid : Z) : Prog (result ApiError unit) := call (StartLXC vmid).
Definition client_CreateLXC (vmid : Z) (params : Params) : Prog (result ApiError unit) :=
  bad_arguments ((vmid <=? 0) || (node == "")) (call (CreateLXC vmid (params ++ [("vmid", itoa vmid)]))).
Definition client_SetLXCConfig (vmid : Z) (params : Params) : Prog (result ApiError unit) :=
  bad_arguments ((vmid <=? 0) || (node == "")) (call (SetLXCConfig vmid params)).
Definition client_DestroyLXC (vmid : Z) : Prog (result ApiError unit) :=
  bad_arguments ((node == "") || (vmid <=? 0)) (call (DeleteLXC vmid true)).
Definition destroyLXCForReplacement (vmid : Z) : Prog (result ApiError unit) :=
  bad_arguments ((node == "") || (vmid <=? 0)) (call (DeleteLXC vmid false)).

Definition safeNodeID (value : string) : bool :=
  (value != "") && sall (fun c => contains_byte "._-" c || alnum c) value.
Definition sha1_text (digest : string) : bool := (len digest =? 40) && isHex digest.

Definition client_ReassignLXCVolume (vmid targetVMID : Z) (volume targetVolume digest targetDigest : string) : Prog (result ApiError unit) :=
  bad_arguments (negb (safeNodeID node) || (vmid <=? 0) || (targetVMID <=? 0) || (vmid =? targetVMID)
                 || negb (safePersistentLXCMountpointKey volume) || negb (safePersistentLXCMountpointKey targetVolume))
    (bad_arguments (((digest != "") && negb (sha1_text digest)) || ((targetDigest != "") && negb (sha1_text targetDigest)))
       (call (ReassignVolume vmid targetVMID volume targetVolume digest targetDigest))).

Definition client_MoveLXCPersistentVolume (vmid : Z) (volume storage digest : string) : Prog (result ApiError unit) :=
  bad_arguments (negb (safeNodeID node) || (vmid <=? 0) || negb (safePersistentLXCMountpointKey volume)
                 || negb (safeNodeID storage) || negb (sha1_text digest))
    (call (MoveVolume vmid volume storage digest)).

Definition SetGuestNetworkFilters (kind : GuestKind) (vmid : Z) (ipfilter : bool) : Prog (result ApiError unit) :=
  bad_arguments ((node == "") || (vmid <=? 0)) (call (SetGuestFirewall kind vmid ipfilter)).

Definition EnsureLXCRunning (vmid : Z) : PM unit :=
  _ ← guard ((node == "") || (vmid <=? 0)) (Arguments_ "EnsureLXCRunning");
  status ← api "read LXC guest status" (client_LXCStatus vmid);
  if status == "running" then mret tt else api "start" (client_StartLXC vmid).

(** ** Artifacts *)

Definition stored_step (filename checksum : string) (allowMissingChecksum : bool) (entry : StorageContent_) : option (result PxError bool) :=
  if (sc_Filename entry != filename) && negb (has_suffix (sc_VolID entry) ("/" +:+ filename)) then None
  else
    let observed := if sc_Checksum entry == "" then sc_CSum entry else sc_Checksum entry in
    Some (if observed == "" then if allowMissingChecksum then Ok true else Err (StoredNoChecksum filename)
          else if negb (equal_fold observed checksum) then Err (StoredMismatch filename observed checksum)
          else Ok true).

(** The first entry with the name decides. *)
Definition verifyStoredArtifact (entries : list StorageContent_) (filename checksum : string) (allowMissingChecksum : bool)
    : result PxError bool :=
  default (Ok false) (first_some (stored_step filename checksum allowMissingChecksum) entries).

(** The text of a failed verification ends with the missing evidence. *)
Definition lacks_evidence (e : PxError) : bool :=
  match e with
  | StoredNoChecksum _ => true
  | StoredMismatch _ _ wanted => has_suffix ("does not match qualified " +:+ wanted) "has no checksum evidence"
  | _ => false
  end.

Definition upload_artifact (storage content filename checksum source : string) : PM unit :=
  _ ← guard (source == "") (NoSource filename);
  actual ← pbind (fun r => Ret (match r with Ok a => Ok a | Err m => Err (LocalFile "checksum" m) end)) (call (FileSHA256 source));
  _ ← guard (negb (equal_fold actual checksum)) (SourceMismatch filename actual checksum);
  _ ← pbind (fun r => Ret (match r with Ok a => Ok a | Err m => Err (LocalFile "inspect" m) end)) (call (FileStat source));
  _ ← api "upload" (call (UploadFile storage content source filename checksum));
  entries ← api "verify uploaded artifact storage" (call (StorageContent storage content));
  match verifyStoredArtifact entries filename checksum ((content == "import") || (content == "vztmpl")) with
  | Ok true => mret tt
  | Ok false => throw (NotVisible filename)
  | Err e => throw e
  end.

Definition ensureArtifactInStorage (storage content filename checksum source : string) : PM unit :=
  _ ← guard (checksum == "") NoChecksum;
  entries ← api "inspect artifact storage"
    (bad_arguments ((node == "") || (storage == "")) (call (StorageContent storage content)));
  match verifyStoredArtifact entries filename checksum false with
  | Ok true => mret tt
  | Err e =>
      if ((content != "import") && (content != "vztmpl")) || negb (lacks_evidence e) then throw e
      else upload_artifact storage content filename checksum source
  | Ok false => upload_artifact storage content filename checksum source
  end.

Definition lxcTemplate (guest : GuestPlan) : PM string :=
  let a := g_Artifact guest in
  _ ← guard ((ar_Name a == "") || (ar_DefinitionSHA256 a == "")) (Held (NoArtifact (g_Name guest)));
  _ ← guard (ar_ContentSHA256 a == "") (Held (NotBuilt (g_Name guest)));
  let filename := ar_Name a +:+ "-" +:+ ar_Version a +:+ "-" +:+ ar_Architecture a +:+ ".tar.zst" in
  _ ← ensureArtifactInStorage "local" "vztmpl" filename (ar_ContentSHA256 a) (default "" (p_ArtifactFiles plan !! artifactKey a));
  mret ("local:vztmpl/" +:+ filename).

(** ** Creation *)

Definition run_root (args : list string) : Prog (result string string) :=
  call (RunArgs (p_PrivilegedAddress plan) (p_PrivilegedUser plan) args).
Definition shell {A} (what : string) (p : Prog (result string A)) : PM A :=
  pbind (fun r => Ret (match r with Ok a => Ok a | Err m => Err (ShellFailed what m) end)) p.

Definition configureLXCDevices (guest : GuestPlan) : PM unit :=
  _ ← check Held (validateLXCPrivilegedDeviceAuthority plan guest);
  eachP (fun entry : nat * DeviceRequirement =>
    _ ← shell "apply exact device" (run_root ["/usr/sbin/pct"; "set"; itoa (g_VMID guest);
          "--dev" +:+ itoa (Z.of_nat entry.1); lxcDeviceParam entry.2]); mret tt)
    (indexed (gs_Devices (g_Security guest))).

Definition ensureGuestMACFilter (guest : GuestPlan) : PM unit :=
  if (g_MAC guest == "") || (g_Owner guest == "") then mret tt
  else api "enable MAC filtering" (SetGuestNetworkFilters (g_Kind guest) (g_VMID guest) true).

(** The parameters without volumes. *)
Definition container_params (guest : GuestPlan) (template : string) (bootstrap : Params) : Params :=
  [("hostname", g_Hostname guest); ("description", artifactDescription (g_Artifact guest)); ("ostemplate", template);
   ("memory", itoa (g_MemoryMiB guest)); ("cores", itoa (g_Cores guest)); ("unprivileged", "1"); ("onboot", "1");
   ("features", "nesting=0"); ("rootfs", p_Storage plan +:+ ":" +:+ itoa (g_DiskGiB guest)); ("tags", tag_text (g_Tags guest));
   ("net0", lxcNetworkParam guest)]
  ++ match guestNameservers plan guest with [] => [] | servers => [("nameserver", join servers " ")] end
  ++ bootstrap.

(** One volume of a new container: a retained reference must prove the declaration. *)
Definition volume_param (guest : GuestPlan) (retained : option (gmap string string)) (entry : nat * PersistentVolume)
    : result PxError (string * string) :=
  let '(index, volume) := entry in
  let key := mp_key index in
  match retained with
  | Some retained =>
      match retained !! key with
      | None => Err (RetainedAbsent (g_Name guest) key)
      | Some value =>
          match persistentVolumeParam volume with
          | Err h => Err (Held h)
          | Ok expected =>
              if lxcPersistentVolumeMatches value expected (g_VMID guest) (Z.of_nat index + 1) then Ok (key, value)
              else Err (Held (VolumeUnproven (g_Name guest) key value))
          end
      end
  | None => match persistentVolumeParam volume with Err h => Err (Held h) | Ok value => Ok (key, value) end
  end.

Definition volume_params (guest : GuestPlan) (retained : option (gmap string string)) : result PxError Params :=
  foldM (fun params entry => p ← volume_param guest retained entry; Ok (params ++ [p])) [] (indexed (g_Volumes guest)).

Definition createLXC (guest : GuestPlan) (retained : option (gmap string string)) (attachVolumes : bool) : PM unit :=
  _ ← check Held (validateLXCPrivilegedDeviceAuthority plan guest);
  template ← lxcTemplate guest;
  bootstrap ← check Held (lxcBootstrapKeyParams (p_OperatorPublicKey plan));
  _ ← guard (negb attachVolumes && bool_decide (is_Some retained)) (RetainedRootfs (g_Name guest));
  volumes ← Ret (if attachVolumes then volume_params guest retained else Ok []) : PM Params;
  _ ← guard (attachVolumes && match retained with
                              | Some m => negb (size m =? length (g_Volumes guest))%nat | None => false end)
        (RetainedCount (g_Name guest));
  _ ← api "create container" (client_CreateLXC (g_VMID guest) (container_params guest template bootstrap ++ volumes));
  _ ← configureLXCDevices guest;
  '(kind, current) ← api "verify created container" (GuestConfig (g_VMID guest));
  _ ← guard (bool_decide (kind ≠ KindLXC)) (Occupied (g_Name guest) (g_VMID guest) kind);
  _ ← check Held (validateExistingGuestIdentity current guest);
  _ ← check Held (if attachVolumes then validateExistingGuestVolumes current guest else Ok tt);
  ensureGuestMACFilter guest.

(** ** Existing containers *)

Definition ensureExistingGuestTags (guest : GuestPlan) (current : Config) : PM unit :=
  _ ← check Held (owner_check current guest);
  let want := tag_text (g_Tags guest) in
  if canonicalTags (get_str current "tags") == canonicalTags want then mret tt
  else api "apply tags"
         (if bool_decide (g_Kind guest = KindQEMU)
          then bad_arguments ((g_VMID guest <=? 0) || (node == "")) (call (SetVMConfig (g_VMID guest) [("tags", want)]))
          else client_SetLXCConfig (g_VMID guest) [("tags", want)]).

Definition ensureExistingLXCNameserver (guest : GuestPlan) (current : Config) : PM unit :=
  match guestNameservers plan guest with
  | [] => mret tt
  | servers =>
      let want := join servers " " in
      if join (fields (get_str current "nameserver")) " " == join (fields want) " " then mret tt
      else api "apply nameservers" (client_SetLXCConfig (g_VMID guest) [("nameserver", want)])
  end.

Definition running_or_stopped (guest : GuestPlan) (status : string) : PM unit :=
  guard ((status != "running") && (status != "stopped")) (BadStatus (g_Name guest) status).

(** What a deferred restart makes of the result. *)
Definition restart_result (what : string) (outcome : result PxError unit) (started : result ApiError unit) : result PxError unit :=
  match started, outcome with
  | Ok _, _ => outcome
  | Err e, Ok _ => Err (Failed what e)
  | Err e, Err e0 => Err (Additionally e0 what (Failed what e))
  end.

(** *** Moving volumes to the declared storage *)

Record Migration := mkMigration { mi_mountpoint : string; mi_storage : string; mi_volume : PersistentVolume; mi_observed : string; mi_disk : Z }.

Definition migration_step (guest : GuestPlan) (current : Config) (migrations : list Migration) (entry : nat * PersistentVolume)
    : result Hold (list Migration) :=
  let '(index, volume) := entry in
  expected ← persistentVolumeParam volume;
  let mountpoint := mp_key index in
  let observed := get_str current mountpoint in
  _ ← fail_if ((VolumeStorageID observed == "") || (VolumeStorageID expected == "")) (MalformedStorage (g_Name guest) mountpoint);
  if VolumeStorageID observed == VolumeStorageID expected then Ok migrations
  else
    _ ← fail_if (negb (lxcVolumeMatchesPersistentIdentity observed expected (g_VMID guest) (Z.of_nat index + 1)))
          (VolumeUnproven (g_Name guest) mountpoint observed);
    Ok (migrations ++ [mkMigration mountpoint (VolumeStorageID expected) volume observed (Z.of_nat index + 1)]).

Definition associated (volumePath : string) : Prog (result string string) :=
  run_root ["/usr/sbin/losetup"; "--noheadings"; "--output"; "NAME"; "--associated"; volumePath].

(** [attempts] looks, one second apart; the wait fails when it is cancelled. *)
Fixpoint waitForLegacyLXCLoopRelease (attempts : nat) (volumeID volumePath expectedLoop : string) : PM unit :=
  match attempts with
  | O => throw (Arguments_ "attempts")
  | S attempts =>
      output ← shell "re-check legacy loop mapping" (associated volumePath);
      match fields output with
      | [] => mret tt
      | [loop] =>
          _ ← guard (negb (isLoopDevice loop) || (loop != expectedLoop)) (LoopChanged volumeID);
          match attempts with
          | O => throw (LoopStuck volumeID)
          | S _ => _ ← shell "wait for release" (call (Sleep 1)); waitForLegacyLXCLoopRelease attempts volumeID volumePath expectedLoop
          end
      | _ => throw (LoopChanged volumeID)
      end
  end.

Definition releaseLegacyLXCLoopMapping (guest : GuestPlan) (observed : string) : PM unit :=
  _ ← guard (negb (privileged_path plan) || (g_VMID guest <=? 0)) (Held (NoPrivilegedPath (g_Name guest)));
  volumeID ← check Held (legacyLXCLocalRawVolumeID observed (g_VMID guest));
  output ← shell "resolve legacy persistent volume" (run_root ["/usr/sbin/pvesm"; "path"; volumeID]);
  let volumePath := trim_space output in
  _ ← guard (negb (has_prefix volumePath "/") || contains_any volumePath (String "013" (String "010" ""))) (UnsafePath volumeID);
  loopOutput ← shell "inspect legacy loop mapping" (associated volumePath);
  match fields loopOutput with
  | [] => mret tt
  | [loop] =>
      _ ← guard (negb (isLoopDevice loop)) (AmbiguousLoop volumeID);
      backing ← shell "re-verify legacy loop mapping" (run_root ["/usr/sbin/losetup"; "--noheadings"; "--output"; "BACK-FILE"; loop]);
      _ ← guard (trim_space backing != volumePath) (LoopChanged volumeID);
      _ ← shell "detach inactive legacy loop mapping" (run_root ["/usr/sbin/losetup"; "--detach"; loop]);
      waitForLegacyLXCLoopRelease 30 volumeID volumePath loop
  | _ => throw (AmbiguousLoop volumeID)
  end.

Definition move_volume (guest : GuestPlan) (m : Migration) : PM unit :=
  refreshed ← api "inspect before moving" (call (LXCConfig (g_VMID guest)));
  expected ← check Held (persistentVolumeParam (mi_volume m));
  let observed := get_str refreshed (mi_mountpoint m) in
  if VolumeStorageID observed == mi_storage m then mret tt
  else
    _ ← guard (negb (lxcVolumeMatchesPersistentIdentity observed expected (g_VMID guest) (mi_disk m))) (VolumeChanged (g_Name guest) (mi_mountpoint m));
    api "migrate persistent volume"
      (client_MoveLXCPersistentVolume (g_VMID guest) (mi_mountpoint m) (mi_storage m) (get_str refreshed "digest")).

Definition move_volumes (guest : GuestPlan) (migrations : list Migration) : PM Config :=
  _ ← eachP (fun m => if VolumeStorageID (mi_observed m) == "local" then releaseLegacyLXCLoopMapping guest (mi_observed m) else mret tt) migrations;
  _ ← eachP (move_volume guest) migrations;
  api "verify migration" (call (LXCConfig (g_VMID guest))).

(** The configuration that is current afterwards. *)
Definition migrateLXCPersistentVolumes (guest : GuestPlan) (current : Config) : PM Config :=
  migrations ← check Held (foldM (migration_step guest current) [] (indexed (g_Volumes guest)));
  if (length migrations =? 0)%nat then mret current
  else
    _ ← check Held (validateExistingGuestDestructiveIdentity current guest);
    status ← api "inspect status before migration" (client_LXCStatus (g_VMID guest));
    _ ← running_or_stopped guest status;
    if status == "running" then
      _ ← api "stop before migration" (client_StopLXC (g_VMID guest));
      catch (move_volumes guest migrations) (fun outcome =>
        answer (client_StartLXC (g_VMID guest)) (fun started =>
        Ret (_ ← restart_result "restore after migration" (_ ← outcome; Ok tt) started; outcome)))
    else move_volumes guest migrations.

(** *** Discarding the earlier layout *)

Definition prepareLegacyLXCRecreation (guest : GuestPlan) : PM unit :=
  _ ← check Held (validateLXCPrivilegedDeviceAuthority plan guest);
  _ ← check Held (lxcBootstrapKeyParams (p_OperatorPublicKey plan));
  _ ← check Held (eachM (fun volume => _ ← persistentVolumeParam volume; Ok tt) (g_Volumes guest));
  _ ← lxcTemplate guest; mret tt.

Definition discardLegacyLXC (guest : GuestPlan) : PM unit :=
  '(kind, current) ← api "reinspect before legacy recreation" (GuestConfig (g_VMID guest));
  _ ← guard (bool_decide (kind ≠ KindLXC)) (Occupied (g_Name guest) (g_VMID guest) kind);
  _ ← check Held (validateLegacyLXCRecreation current guest);
  status ← api "inspect status before legacy recreation" (client_LXCStatus (g_VMID guest));
  _ ← running_or_stopped guest status;
  let discard := api "discard legacy state" (client_DestroyLXC (g_VMID guest)) in
  if status == "running" then
    _ ← api "stop before legacy recreation" (client_StopLXC (g_VMID guest));
    catch discard (fun outcome =>
      match outcome with
      | Ok _ => Ret outcome
      | Err e => answer (client_StartLXC (g_VMID guest)) (fun started => Ret (Err (match started with
                   | Ok _ => e | Err e' => Additionally e "restore after legacy recreation" (Failed "start" e') end)))
      end)
  else discard.

(** *** Replacement

    Volumes move to a holder container while the root file system is replaced. *)

Definition holder_vmids : list Z := [910; 911; 912; 913; 914; 915; 916; 917; 918; 919].

Fixpoint holder_search (targetVMID : Z) (vmids : list Z) : PM (option (Z * Config)) :=
  match vmids with
  | [] => mret None
  | vmid :: vmids =>
      answer (GuestConfig vmid) (fun r =>
        match r with
        | Err NotFound => holder_search targetVMID vmids
        | Err e => throw (Failed "inspect replacement holder" e)
        | Ok (kind, current) =>
            if bool_decide (kind = KindLXC) && replacementHolderMatches current targetVMID then mret (Some (vmid, current))
            else holder_search targetVMID vmids
        end)
  end.
Definition replacementHolderFor (targetVMID : Z) : PM (option (Z * Config)) := holder_search targetVMID holder_vmids.

Fixpoint free_vmid (vmids : list Z) : PM Z :=
  match vmids with
  | [] => throw NoHolderVMID
  | candidate :: vmids =>
      answer (GuestConfig candidate) (fun r =>
        match r with
        | Err NotFound => mret candidate
        | Err e => throw (Failed "inspect replacement holder" e)
        | Ok _ => free_vmid vmids
        end)
  end.

Definition holder_params (guest : GuestPlan) (template : string) : Params :=
  [("hostname", "boetticher-replace-" +:+ itoa (g_VMID guest));
   ("description", replacementHolderTag +:+ " target-vmid=" +:+ itoa (g_VMID guest));
   ("ostemplate", template); ("memory", "128"); ("cores", "1"); ("unprivileged", "1"); ("onboot", "0"); ("features", "nesting=0");
   ("rootfs", p_Storage plan +:+ ":1"); ("tags", "boetticher;managed;" +:+ replacementHolderTag)].

Definition ensureReplacementHolder (guest : GuestPlan) : PM Z :=
  existing ← replacementHolderFor (g_VMID guest);
  match existing with
  | Some (vmid, _) => mret vmid
  | None =>
      vmid ← free_vmid holder_vmids;
      template ← lxcTemplate guest;
      _ ← api "create replacement holder" (client_CreateLXC vmid (holder_params guest template));
      '(kind, current) ← api "verify replacement holder" (GuestConfig vmid);
      _ ← guard (bool_decide (kind ≠ KindLXC) || negb (replacementHolderMatches current (g_VMID guest))) (HolderIdentity vmid);
      mret vmid
  end.

(** A container's configuration, for which anything else is an error. *)
Definition container_config (what : string) (vmid : Z) : PM Config :=
  '(kind, current) ← api what (GuestConfig vmid);
  _ ← guard (bool_decide (kind ≠ KindLXC)) (HolderNotLXC vmid);
  mret current.

Definition reassignLXCVolumeToHolder (guest : GuestPlan) (holderVMID : Z) (entry : nat * PersistentVolume) : PM unit :=
  let '(index, volume) := entry in
  let mountpoint := mp_key index in
  source ← container_config "source before hold" (g_VMID guest);
  currentHolder ← container_config "holder before hold" holderVMID;
  expected ← check Held (persistentVolumeParam volume);
  _ ← guard (negb (lxcPersistentVolumeMatches (get_str source mountpoint) expected (g_VMID guest) (Z.of_nat index + 1)))
        (VolumeChanged (g_Name guest) mountpoint);
  _ ← guard (bool_decide (is_Some (currentHolder !! mountpoint))) (HolderOccupied holderVMID mountpoint);
  api "hold persistent volume"
    (client_ReassignLXCVolume (g_VMID guest) holderVMID mountpoint mountpoint (configDigest source) (configDigest currentHolder)).

Definition reassignLXCVolumeFromHolder (guest : GuestPlan) (holderVMID : Z) (entry : nat * PersistentVolume) : PM unit :=
  let '(index, volume) := entry in
  let mountpoint := mp_key index in
  source ← container_config "replacement before restore" (g_VMID guest);
  holder ← container_config "holder before restore" holderVMID;
  expected ← check Held (persistentVolumeParam volume);
  _ ← guard (negb (lxcPersistentVolumeMatches (get_str holder mountpoint) expected holderVMID (Z.of_nat index + 1)))
        (Held (VolumeUnproven (g_Name guest) mountpoint (get_str holder mountpoint)));
  _ ← guard (get_str source mountpoint != "") (TargetOccupied (g_Name guest) mountpoint);
  api "restore persistent volume"
    (client_ReassignLXCVolume holderVMID (g_VMID guest) mountpoint mountpoint (configDigest holder) (configDigest source)).

Definition restoreLXCVolumesFromHolder (guest : GuestPlan) (holderVMID : Z) : PM unit :=
  eachP (fun entry : nat * PersistentVolume =>
    holder ← container_config "holder during recovery" holderVMID;
    if bool_decide (is_Some (holder !! mp_key entry.1)) then reassignLXCVolumeFromHolder guest holderVMID entry else mret tt)
    (indexed (g_Volumes guest)).

(** [client.RestoreReplacementACL], if the client has one. *)
Context (has_acl : bool).
(** The whole operation again, on the same guest. *)
Context (again : GuestPlan → PM unit).

(** The guest that the volumes come back to: the one that is there, if it is
    ours, or a new one. *)
Definition recovery_target (guest : GuestPlan) : PM unit :=
  answer (GuestConfig (g_VMID guest)) (fun r =>
    match r with
    | Err NotFound => createLXC guest None false
    | Err e => throw (Failed "inspect during replacement recovery" e)
    | Ok (kind, current) =>
        _ ← guard (bool_decide (kind ≠ KindLXC)) (Occupied (g_Name guest) (g_VMID guest) kind);
        _ ← check Held (validateExistingGuestDestructiveIdentity current guest);
        check Held (validateNoUndeclaredLXCVolumes current guest)
    end).

Definition recoverLXCReplacement (guest : GuestPlan) (holderVMID : Z) : PM unit :=
  _ ← recovery_target guest;
  _ ← eachP (reassignLXCVolumeFromHolder guest holderVMID) (indexed (g_Volumes guest));
  _ ← api "remove recovered replacement holder" (destroyLXCForReplacement holderVMID);
  again guest.

(** Up to the point where the guest is stopped: its status before. *)
Definition replacement_gate (guest : GuestPlan) : PM string :=
  '(kind, refreshed) ← api "reinspect before replacement" (GuestConfig (g_VMID guest));
  _ ← guard (bool_decide (kind ≠ KindLXC)) (Occupied (g_Name guest) (g_VMID guest) kind);
  _ ← check Held (validateExistingGuestDestructiveIdentity refreshed guest);
  _ ← check Held (validateNoUndeclaredLXCVolumes refreshed guest);
  _ ← check Held (retainedLXCPersistentVolumeAttachments refreshed guest);
  status ← api "inspect status before replacement" (client_LXCStatus (g_VMID guest));
  _ ← running_or_stopped guest status;
  _ ← (if status == "running" then api "stop before replacement" (client_StopLXC (g_VMID guest)) else mret tt);
  mret status.

Definition restart_after (guest : GuestPlan) (what : string) (wasRunning : bool) (e : PxError) : PM unit :=
  if wasRunning then
    answer (client_StartLXC (g_VMID guest)) (fun started => Ret (Err (match started with
      | Ok _ => e | Err e' => Additionally e what (Failed "start" e') end)))
  else throw e.

(** The deferred clean-up of a failed replacement. *)
Definition clean_up (guest : GuestPlan) (holderVMID : Z) (wasRunning cleanupHolder sourceRemoved : bool) (e : PxError) : PM unit :=
  let finish := restart_after guest "restore after replacement failure" (wasRunning && negb sourceRemoved) in
  if cleanupHolder then
    catch (restoreLXCVolumesFromHolder guest holderVMID) (fun restored =>
      match restored with
      | Ok _ => answer (destroyLXCForReplacement holderVMID) (fun destroyed => finish (match destroyed with
                  | Ok _ => e | Err e' => Additionally e "clean replacement holder" (Failed "destroy" e') end))
      | Err e' => finish (Additionally e "restore replacement holder" e')
      end)
  else finish e.

(** A step whose failure is followed by the clean-up. *)
Definition guarded {A} (guest : GuestPlan) (holderVMID : Z) (wasRunning cleanupHolder sourceRemoved : bool) (m : PM A) (k : A → PM unit) : PM unit :=
  catch m (fun r => match r with Ok a => k a | Err e => clean_up guest holderVMID wasRunning cleanupHolder sourceRemoved e end).

Definition replace_with_holder (guest : GuestPlan) (holderVMID : Z) (wasRunning : bool) : PM unit :=
  guarded guest holderVMID wasRunning true false
    (eachP (reassignLXCVolumeToHolder guest holderVMID) (indexed (g_Volumes guest))) (fun _ =>
  guarded guest holderVMID wasRunning true false
    (api "destroy rootfs" (destroyLXCForReplacement (g_VMID guest))) (fun _ =>
  guarded guest holderVMID wasRunning true true
    (if has_acl then api "restore replacement ACL" (call (RestoreACL (g_VMID guest))) else mret tt) (fun _ =>
  guarded guest holderVMID wasRunning false true
    (_ ← createLXC guest None false;
     _ ← eachP (reassignLXCVolumeFromHolder guest holderVMID) (indexed (g_Volumes guest));
     api "remove replacement holder" (destroyLXCForReplacement holderVMID)) (fun _ => mret tt)))).

(** It returns no attachments to retain. *)
Definition replaceLXC (guest : GuestPlan) : PM unit :=
  existing ← replacementHolderFor (g_VMID guest);
  match existing with
  | Some (holderVMID, _) => recoverLXCReplacement guest holderVMID
  | None =>
      status ← replacement_gate guest;
      catch (ensureReplacementHolder guest) (fun r =>
        match r with
        | Err e => restart_after guest "restore after holder preparation" (status == "running") e
        | Ok holderVMID => replace_with_holder guest holderVMID (status == "running")
        end)
  end.
End client.

(** *** One container *)

Section ensure.
Context `{GoUnicode, PxDigest} (has_acl : bool).

Definition without_legacy_recreation (plan : Plan) : Plan := {|
  p_ModelRevision := p_ModelRevision plan; p_ManagedBy := p_ManagedBy plan; p_Node := p_Node plan; p_Storage := p_Storage plan;
  p_Nameservers := p_Nameservers plan; p_GatewayImage := p_GatewayImage plan; p_GatewayImageURL := p_GatewayImageURL plan;
  p_GatewaySHA512 := p_GatewaySHA512 plan; p_Guests := p_Guests plan; p_ArtifactFiles := p_ArtifactFiles plan;
  p_OperatorPublicKey := p_OperatorPublicKey plan; p_CloudInitFiles := p_CloudInitFiles plan;
  p_DestructiveConfirmed := p_DestructiveConfirmed plan; p_ForceFirewallRootReplacement := p_ForceFirewallRootReplacement plan;
  p_ForceLegacyLXCRecreation := false; p_PrivilegedRunner := p_PrivilegedRunner plan;
  p_PrivilegedAddress := p_PrivilegedAddress plan; p_PrivilegedUser := p_PrivilegedUser plan;
|}.

Definition adopt_container (plan : Plan) (again : GuestPlan → PM unit) (guest : GuestPlan) (current : Config) : PM unit :=
  _ ← check Held (validateExistingGuestIdentityFields current guest);
  _ ← ensureGuestMACFilter plan guest;
  _ ← check Held (validateNoUndeclaredLXCVolumes current guest);
  current ← migrateLXCPersistentVolumes plan guest current;
  _ ← check Held (validateExistingGuestVolumes current guest);
  if guestArtifactNeedsReplacement current guest then
    _ ← guard (negb (p_DestructiveConfirmed plan)) (NotConfirmed (g_Name guest));
    _ ← replaceLXC plan has_acl again guest;
    again guest
  else
    _ ← check Held (validateExistingGuestIdentity current guest);
    _ ← ensureExistingLXCNameserver plan guest current;
    ensureExistingGuestTags plan guest current.

Definition missing_container (plan : Plan) (again : GuestPlan → PM unit) (guest : GuestPlan) : PM unit :=
  if p_DestructiveConfirmed plan then
    existing ← replacementHolderFor (g_VMID guest);
    match existing with
    | Some (holderVMID, _) => recoverLXCReplacement plan again guest holderVMID
    | None => createLXC plan guest None true
    end
  else createLXC plan guest None true.

Definition recreate_legacy (plan : Plan) (guest : GuestPlan) : PM unit :=
  _ ← guard (negb (p_DestructiveConfirmed plan)) (NotConfirmed (g_Name guest));
  _ ← prepareLegacyLXCRecreation plan guest;
  discardLegacyLXC plan guest.

(** [ensureLXCWithRetainedVolumes] is never called with retained volumes; it
    calls itself after a replacement, a recovery and a discard, so it takes fuel. *)
Fixpoint ensureLXC (fuel : nat) (plan : Plan) (guest : GuestPlan) : PM unit :=
  match fuel with
  | O => throw OutOfFuel
  | S fuel =>
      _ ← check Held (validateLXCDeviceContract guest);
      answer (GuestConfig (g_VMID guest)) (fun r =>
        match r with
        | Err NotFound => missing_container plan (ensureLXC fuel plan) guest
        | Err e => throw (Failed "inspect container" e)
        | Ok (kind, current) =>
            _ ← guard (bool_decide (kind ≠ KindLXC)) (Occupied (g_Name guest) (g_VMID guest) kind);
            if p_ForceLegacyLXCRecreation plan then
              recreate ← check Held (legacyLXCRecreationRequired current guest);
              if recreate : bool then
                _ ← recreate_legacy plan guest;
                ensureLXC fuel (without_legacy_recreation plan) guest
              else adopt_container plan (ensureLXC fuel plan) guest current
            else adopt_container plan (ensureLXC fuel plan) guest current
        end)
  end.

(** ** One module *)

Definition ProvisionModule (fuel : nat) (plan : Plan) (module : string) : PM unit :=
  _ ← guard (module == "") (Arguments_ "module name is required");
  let guests := List.filter (fun g => (g_Owner g == "boetticher/module/" +:+ module) && bool_decide (g_Kind g = KindLXC)) (p_Guests plan) in
  _ ← eachP (fun guest => _ ← ensureLXC fuel plan guest; EnsureLXCRunning plan (g_VMID guest)) guests;
  guard (length guests =? 0)%nat (NoModule module).

Fixpoint legacy_targets (plan : Plan) (guests : list GuestPlan) (targets : list string) : PM (list string) :=
  match guests with
  | [] => mret targets
  | guest :: guests =>
      if bool_decide (g_Kind guest ≠ KindLXC) then legacy_targets plan guests targets
      else
        answer (GuestConfig (g_VMID guest)) (fun r =>
          match r with
          | Err NotFound => legacy_targets plan guests targets
          | Err e => throw (Failed "inspect before legacy recovery" e)
          | Ok (kind, current) =>
              _ ← guard (bool_decide (kind ≠ KindLXC)) (Occupied (g_Name guest) (g_VMID guest) kind);
              recreate ← check Held (legacyLXCRecreationRequired current guest);
              legacy_targets plan guests (if recreate : bool then targets ++ [g_Name guest] else targets)
          end)
  end.

Definition ValidateLegacyLXCRecreation (plan : Plan) : PM (list string) :=
  if negb (p_ForceLegacyLXCRecreation plan) then mret []
  else
    _ ← guard (p_Node plan == "") (Arguments_ "node");
    legacy_targets plan (p_Guests plan) [].

Definition InspectGuestArtifact (guest : GuestPlan) : PM (bool * bool) :=
  answer (GuestConfig (g_VMID guest)) (fun r =>
    match r with
    | Err NotFound => mret (false, false)
    | Err e => throw (Failed "inspect guest artifact identity" e)
    | Ok (kind, current) => mret (true, if bool_decide (kind = g_Kind guest) then guestArtifactNeedsReplacement current guest else false)
    end).
End ensure.
End PxLxc.
