(* ===== verification/PxSafe.v ===== *)
(** * Volumes survive ([PxLxc]: the containers' programs, run against Proxmox)

    What Proxmox does with volumes, as its documentation and the comments of
    plan.go describe it, is a class; a run of a program may take any answer and
    stop anywhere.  The theorems are about all runs. *)

From S2P Require Export PxLxc.

Open Scope Z_scope.

Module PxSafe.
Import Model PxGuest PxLxc.

(** The guest and the containers that may hold its volumes. *)
Definition team (guest : GuestPlan) : list Z := g_VMID guest :: holder_vmids.

(** ** Proxmox *)

(** The root commands that touch no volume. *)
Definition harmless (args : list string) : bool :=
  match args with
  | ["/usr/sbin/pct"; "set"; _; flag; _] => has_prefix flag "--dev"
  | "/usr/sbin/pvesm" :: "path" :: _ => true
  | "/usr/sbin/losetup" :: _ => true
  | _ => false
  end%string.

Definition label_key (key : string) : bool := (key == "tags") || (key == "nameserver").

(** Calls after which every volume is where it was: reads, power, firewall and
    labels, files, and moving a volume to another storage, which keeps its slot. *)
Definition quiet (c : Call) : bool :=
  match c with
  | QEMUConfig _ | LXCConfig _ | QEMUStatus _ | LXCStatus _ | StartVM _ | StopVM _ | StartLXC _ | StopLXC _
  | MoveVolume _ _ _ _ | SetGuestFirewall _ _ _ | StorageContent _ _ | UploadFile _ _ _ _ _ | UploadText _ _ _ _
  | RestoreACL _ | FileSHA256 _ | FileStat _ | Sleep _
  | NodeNetwork | LinkShow | CreateNodeNetwork _ | UpdateNodeNetwork _ _ | ReloadNodeNetwork => true
  | SetVMConfig _ params | SetLXCConfig _ params => forallb (fun p => label_key p.1) params
  | RunArgs _ _ args => harmless args
  | CreateVM _ _ | CreateLXC _ _ | DeleteLXC _ _ | DeleteVM _ | ReassignVolume _ _ _ _ _ _ | MoveDisk _ _ _ _ | ImportDisk _ _ _ _ => false
  end.

(** A state of the host, as far as the volumes of containers go: what is
    attached to which container in which slot.  [px_step c w r w']: in [w] the
    call [c] may answer [r] and leave [w']. *)
Class Proxmox (W V : Type) := {
  px_step : ∀ c : Call, W → resp c → W → Prop;
  attached : W → gmap (Z * string) V;
}.

(** The volume in slot [k] of [s] is in slot [k'] of [t] afterwards. *)
Definition moved {V} (a a' : gmap (Z * string) V) (s : Z) (k : string) (t : Z) (k' : string) : Prop := ∃ x,
  a !! (s, k) = Some x ∧ a !! (t, k') = None ∧ a' = <[(t, k') := x]> (delete (s, k) a).

Class ProxmoxLaws (W V : Type) `{!Proxmox W V} := {
  law_keys w v k : is_Some (attached w !! (v, k)) → has_prefix k "mp" = true;
  law_quiet c w r w' : quiet c = true → px_step c w r w' → attached w' = attached w;
  (** A configuration lists the slots that are in use. *)
  law_config v w current w' k : px_step (LXCConfig v) w (Ok current) w' → is_Some (attached w !! (v, k)) → is_Some (current !! k);
  (** Creating a container detaches nothing and fills no slot it was not asked to. *)
  law_create v params w r w' : px_step (CreateLXC v params) w r w' →
    attached w ⊆ attached w'
    ∧ ∀ u k, u ≠ v ∨ k ∉ params.*1 → attached w' !! (u, k) = attached w !! (u, k);
  (** Deleting a container, or failing to, may lose whatever is attached to it. *)
  law_delete v purge w r w' : px_step (DeleteLXC v purge) w r w' →
    attached w' ⊆ attached w ∧ ∀ u k, u ≠ v → attached w' !! (u, k) = attached w !! (u, k);
  (** Reassigning happens as a whole or not at all; an error does not tell which. *)
  law_reassign s t k k' d d' w r w' : px_step (ReassignVolume s t k k' d d') w r w' → s ≠ t →
    moved (attached w) (attached w') s k t k' ∨ r ≠ Ok tt ∧ attached w' = attached w;
}.

(** ** Runs *)

Section runs.
Context {W V : Type} `{!Proxmox W V}.

(** A run ends with an answer, or the process stops before the next call. *)
Inductive run {A : Type} : Prog A → W → option A → W → Prop :=
| run_ret a w : run (Ret a) w (Some a) w
| run_stop p w : run p w None w
| run_call c k w r w1 o w2 : px_step c w r w1 → run (k r) w1 o w2 → run (Next c k) w o w2.

(** [I] holds at every point of every run, and [Q] at its end. *)
Fixpoint always {A : Type} (I : W → Prop) (p : Prog A) (Q : A → W → Prop) (w : W) : Prop :=
  I w ∧ match p with
        | Ret a => Q a w
        | Next c k => ∀ r w', px_step c w r w' → always I (k r) Q w'
        end.

Lemma always_run {A} I (p : Prog A) Q w o w' : always I p Q w → run p w o w' → I w' ∧ ∀ a, o = Some a → Q a w'.
Proof.
  intros Ha Hr. induction Hr as [a w|p w|c k w r w1 o w2 Hs Hr IH].
  - destruct Ha as [Hi Hq]. split; [done|]. by intros ? [= <-].
  - split; [|done]. by destruct p; destruct Ha.
  - apply IH. destruct Ha as [_ Ha]. by apply Ha.
Qed.

Lemma always_here {A} I (p : Prog A) Q w : always I p Q w → I w.
Proof. by destruct p; intros []. Qed.

Lemma always_mono {A} I (p : Prog A) (Q Q' : A → W → Prop) w :
  always I p Q w → (∀ a w', I w' → Q a w' → Q' a w') → always I p Q' w.
Proof.
  intros Ha Hq. revert w Ha. induction p as [a|c k IH]; intros w [Hi Ha]; (split; [done|]); [by apply Hq|].
  intros r w' Hs. by apply IH, Ha.
Qed.

Lemma always_pbind {A B} I (p : Prog A) (f : A → Prog B) Q w :
  always I p (fun a w' => always I (f a) Q w') w → always I (pbind f p) Q w.
Proof.
  revert w. induction p as [a|c k IH]; intros w [Hi Ha]; [exact Ha|]. split; [done|]. intros r w' Hs. by apply IH, Ha.
Qed.

(** A monitor watches the calls: [ok s c] says that in its state [s] the call [c]
    is allowed, and [next] is its state after the answer. *)
Fixpoint watched {S A : Type} (ok : S → Call → Prop) (next : S → ∀ c, resp c → S) (p : Prog A) (Q : A → S → Prop) (s : S) : Prop :=
  match p with
  | Ret a => Q a s
  | Next c k => ok s c ∧ ∀ r, watched ok next (k r) Q (next s c r)
  end.

Lemma watched_mono {S A} ok next (p : Prog A) (Q Q' : A → S → Prop) s :
  watched ok next p Q s → (∀ a s', Q a s' → Q' a s') → watched ok next p Q' s.
Proof. revert s. induction p as [a|c k IH]; cbn; intros s; [eauto|]. intros [Hc Hk] Hq. split; [done|]. eauto. Qed.

Lemma watched_pbind {S A B} ok next (p : Prog A) (f : A → Prog B) (Q : B → S → Prop) s :
  watched ok next p (fun a s' => watched ok next (f a) Q s') s → watched ok next (pbind f p) Q s.
Proof. revert s. induction p as [a|c k IH]; cbn; intros s; [done|]. intros [Hc Hk]. split; [done|]. eauto. Qed.

(** What comes back against fixed answers, and the calls made on the way. *)
Fixpoint exec_with {A : Type} (answers : ∀ c, resp c) (p : Prog A) : A * list Call :=
  match p with
  | Ret a => (a, [])
  | Next c k => let '(a, calls) := exec_with answers (k (answers c)) in (a, c :: calls)
  end.

(** Every call of the program has a property, whatever the answers. *)
Fixpoint all_calls {A : Type} (P : Call → Prop) (p : Prog A) : Prop :=
  match p with Ret _ => True | Next c k => P c ∧ ∀ r, all_calls P (k r) end.
End runs.

Lemma all_calls_pbind {A B} P (p : Prog A) (f : A → Prog B) :
  all_calls P p → (∀ a, all_calls P (f a)) → all_calls P (pbind f p).
Proof. induction p as [a|c k IH]; cbn; [by intros _|]. intros [Hc Hk] Hf. split; [done|]. intros r. by apply IH. Qed.

Lemma all_calls_mono {A} (P Q : Call → Prop) (p : Prog A) : (∀ c, P c → Q c) → all_calls P p → all_calls Q p.
Proof. intros Hpq. induction p as [a|c k IH]; cbn; [done|]. intros [Hc Hk]. split; [by apply Hpq|]. intros r. by apply IH. Qed.

Lemma all_calls_eachP {A} P (f : A → PM unit) xs : (∀ x, x ∈ xs → all_calls P (f x)) → all_calls P (eachP f xs).
Proof.
  induction xs as [|x xs IH]; intros Hf; [done|]. cbn. apply all_calls_pbind; [apply Hf; by left|].
  intros [[]|]; [|done]. apply IH. intros y Hy. apply Hf. by right.
Qed.

(** A program that returns errors: answers without one satisfy [Q], and [E] holds
    where it ends with one. *)
Section follows.
Context {S : Type} (ok : S → Call → Prop) (next : S → ∀ c, resp c → S) (E : S → Prop).

Definition follows {A} (m : PM A) (Q : A → S → Prop) (s : S) : Prop :=
  watched ok next m (fun r s' => match r with Ok a => Q a s' | Err _ => E s' end) s.

Lemma follows_mono {A} (m : PM A) (Q Q' : A → S → Prop) s : follows m Q s → (∀ a s', Q a s' → Q' a s') → follows m Q' s.
Proof. intros Hm HQ. eapply watched_mono; [exact Hm|]. intros [a|e] s'; [apply HQ|done]. Qed.

Lemma follows_bind {A B} (m : PM A) (f : A → PM B) (Q : B → S → Prop) s :
  follows m (fun a s' => follows (f a) Q s') s → follows (m ≫= f) Q s.
Proof. intros Hm. apply watched_pbind. eapply watched_mono; [exact Hm|]. by intros [a|e] s'. Qed.

Lemma follows_catch {A B} (m : PM A) (k : result PxError A → PM B) (Q : B → S → Prop) s :
  watched ok next m (fun r s' => follows (k r) Q s') s → follows (catch m k) Q s.
Proof. apply watched_pbind. Qed.

Lemma follows_check {A} (g : Hold → PxError) (r : result Hold A) (Q : A → S → Prop) s :
  E s → (∀ a, r = Ok a → Q a s) → follows (check g r) Q s.
Proof. intros HE HQ. unfold follows, check. cbn. destruct r; auto. Qed.

Lemma follows_guard b (e : PxError) (Q : unit → S → Prop) s : E s → (b = false → Q tt s) → follows (guard b e) Q s.
Proof. intros HE HQ. unfold follows, guard. cbn. destruct b; cbn; auto. Qed.

Lemma follows_api {A} what (p : Prog (result ApiError A)) (Q : A → S → Prop) s :
  watched ok next p (fun r s' => match r with Ok a => Q a s' | Err _ => E s' end) s → follows (api what p) Q s.
Proof. intros Hp. apply watched_pbind. eapply watched_mono; [exact Hp|]. by intros [a|e] s'. Qed.

Lemma watched_bad {A} b (p : Prog (result ApiError A)) (Q : result ApiError A → S → Prop) s :
  (∀ e, Q (Err e) s) → (b = false → watched ok next p Q s) → watched ok next (bad_arguments b p) Q s.
Proof. destruct b; cbn; auto. Qed.

Lemma follows_eachP {A} (f : A → PM unit) xs (R : S → Prop) s :
  R s → (∀ x s', x ∈ xs → R s' → follows (f x) (fun _ => R) s') → follows (eachP f xs) (fun _ => R) s.
Proof.
  revert s. induction xs as [|x xs IH]; intros s HR Hf; cbn [eachP]; [exact HR|].
  apply follows_bind. eapply follows_mono; [apply Hf; [by left|done]|]. intros [] s' HR'. apply IH; [done|].
  intros y s2 Hy. apply Hf. by right.
Qed.

(** Calls that are always allowed, after which the monitor knows no less. *)
Context (below : relation S) `{!PreOrder below}.

Definition stays (c : Call) : Prop := (∀ s, ok s c) ∧ ∀ s r, below s (next s c r).

Lemma unchanged_stays c : (∀ s r, next s c r = s) → (∀ s, ok s c) → stays c.
Proof. intros Ha Hp. split; [done|]. intros s r. by rewrite Ha. Qed.

Lemma watched_still {A} (p : Prog A) (Q : A → S → Prop) s :
  all_calls stays p → (∀ a s', below s s' → Q a s') → watched ok next p Q s.
Proof.
  revert s. induction p as [a|c k IH]; cbn; intros s Hp HQ; [apply HQ; reflexivity|]. destruct Hp as [[Hc Ha] Hk].
  split; [done|]. intros r. apply IH; [done|]. intros a s' Hs. apply HQ. etrans; [apply Ha|exact Hs].
Qed.

Lemma follows_still {A} (m : PM A) (Q : A → S → Prop) s :
  all_calls stays m → (∀ s', below s s' → E s') → (∀ a s', below s s' → Q a s') → follows m Q s.
Proof. intros Hm HE HQ. apply watched_still; [done|]. intros [a|e] s' Hs; [by apply HQ|by apply HE]. Qed.
End follows.

(** Takes a program apart into its calls. *)
Ltac calls_step :=
  match goal with
  | |- all_calls _ (Ret _) => exact I
  | |- all_calls _ (mret _) => exact I
  | |- all_calls _ (throw _) => exact I
  | |- all_calls _ (check _ _) => exact I
  | |- all_calls _ (guard _ _) => exact I
  | |- all_calls _ (pbind _ _) => apply all_calls_pbind; [|intros]
  | |- all_calls _ (mbind _ _) => apply all_calls_pbind; [|intros []; [|exact I]]
  | |- all_calls _ (answer _ _) => apply all_calls_pbind; [|intros]
  | |- all_calls _ (catch _ _) => apply all_calls_pbind; [|intros]
  | |- all_calls _ (api _ _) => apply all_calls_pbind; [|intros; exact I]
  | |- all_calls _ (shell _ _) => apply all_calls_pbind; [|intros; exact I]
  | |- all_calls _ (eachP _ _) => apply all_calls_eachP; intros
  | |- all_calls _ (bad_arguments ?b _) => unfold bad_arguments; destruct b; [exact I|]
  | |- all_calls _ (call _) => split; [|intros; exact I]
  | |- all_calls _ (Next _ _) => split; [|intros]
  | |- all_calls _ (match ?x with _ => _ end) => destruct x
  end.

(** ** Reasoning about runs *)

Section safe.
Context {W V : Type} `{ProxmoxLaws W V} (Inv : gmap (Z * string) V → Prop).
Abbreviation volumes := (@gmap (Z * string) _ prod_countable V).

(** From [w] on the invariant holds at every point, and an answer without error satisfies [Q]. *)
Definition safe {A} (m : PM A) (Q : A → volumes → Prop) (w : W) : Prop :=
  always (fun w => Inv (attached w)) m (fun r w' => match r with Ok a => Q a (attached w') | Err _ => True end) w.

Lemma safe_run {A} (m : PM A) Q w o w' : safe m Q w → run m w o w' →
  Inv (attached w') ∧ ∀ a, o = Some (Ok a) → Q a (attached w').
Proof.
  intros Hs Hr. destruct (always_run _ _ _ _ _ _ Hs Hr) as [Hi Hq]. split; [done|]. intros a ->. by apply (Hq (Ok a)).
Qed.

Lemma safe_here {A} (m : PM A) Q w : safe m Q w → Inv (attached w).
Proof. apply (always_here (fun w => Inv (attached w))). Qed.

Lemma safe_mono {A} (m : PM A) (Q Q' : A → volumes → Prop) w :
  safe m Q w → (∀ a v, Inv v → Q a v → Q' a v) → safe m Q' w.
Proof. intros Hs Hq. eapply always_mono; [exact Hs|]. intros [a|e] w' Hi; cbn; [|done]. by apply Hq. Qed.

Lemma safe_ret {A} (a : A) (Q : A → volumes → Prop) w : Inv (attached w) → Q a (attached w) → safe (mret a) Q w.
Proof. by split. Qed.

Lemma safe_throw {A} (e : PxError) (Q : A → volumes → Prop) w : Inv (attached w) → safe (throw e) Q w.
Proof. by split. Qed.

(** What follows may use the state only through its volumes. *)
Lemma safe_bind {A B} (m : PM A) (f : A → PM B) Q w :
  safe m (fun a v => ∀ w', attached w' = v → safe (f a) Q w') w → safe (m ≫= f) Q w.
Proof.
  intros Hs. apply always_pbind. eapply always_mono; [exact Hs|]. intros [a|e] w' Hi Hq; cbn in *; [by apply Hq|by split].
Qed.

Lemma safe_check {A} (g : Hold → PxError) (r : result Hold A) (Q : A → volumes → Prop) w :
  Inv (attached w) → (∀ a, r = Ok a → Q a (attached w)) → safe (check g r) Q w.
Proof. intros Hi Hq. split; [done|]. destruct r; [by apply Hq|done]. Qed.

Lemma safe_guard (bad : bool) (e : PxError) (Q : unit → volumes → Prop) w :
  Inv (attached w) → (bad = false → Q tt (attached w)) → safe (guard bad e) Q w.
Proof. intros Hi Hq. split; [done|]. destruct bad; cbn; [done|by apply Hq]. Qed.

Lemma safe_if {A} (b : bool) (m n : PM A) Q w : (b = true → safe m Q w) → (b = false → safe n Q w) → safe (if b then m else n) Q w.
Proof. destruct b; eauto. Qed.

Lemma always_quiet {A} (p : Prog A) (Q : A → W → Prop) w :
  all_calls (fun c => quiet c = true) p → Inv (attached w) → (∀ a w', attached w' = attached w → Q a w') →
  always (fun w => Inv (attached w)) p Q w.
Proof.
  revert w. induction p as [a|c k IH]; intros w Hp Hi Hq; (split; [done|]); [by apply Hq|].
  intros r w' Hs. destruct Hp as [Hc Hk]. apply law_quiet in Hs; [|done].
  apply IH; [done|by rewrite Hs|]. intros a w2 E. apply Hq. congruence.
Qed.

Lemma safe_quiet {A} (m : PM A) (Q : A → volumes → Prop) w :
  all_calls (fun c => quiet c = true) m → Inv (attached w) → (∀ a, Q a (attached w)) → safe m Q w.
Proof. intros Hm Hi Hq. apply always_quiet; [done..|]. intros [a|e] w' E; [rewrite E; apply Hq|done]. Qed.

(** [k] handles the failure of [m] as well. *)
Lemma safe_catch {A B} (m : PM A) (k : result PxError A → PM B) Q Qm w :
  safe m Qm w → (∀ w', Inv (attached w') → ∀ e, safe (k (Err e)) Q w') →
  (∀ a w', Inv (attached w') → Qm a (attached w') → safe (k (Ok a)) Q w') → safe (catch m k) Q w.
Proof.
  intros Hs He Hk. apply always_pbind. eapply always_mono; [exact Hs|]. intros [a|e] w' Hi Hq; cbn in *; [by apply Hk|by apply He].
Qed.

Lemma safe_answer {R A} (p : Prog R) (k : R → PM A) Q w :
  always (fun w => Inv (attached w)) p (fun r w' => safe (k r) Q w') w → safe (answer p k) Q w.
Proof. apply always_pbind. Qed.

Lemma safe_api {A} (what : string) (p : Prog (result ApiError A)) (Q : A → volumes → Prop) w :
  always (fun w => Inv (attached w)) p (fun r w' => match r with Ok a => Q a (attached w') | Err _ => True end) w →
  safe (api what p) Q w.
Proof.
  intros Hp. apply always_pbind. eapply always_mono; [exact Hp|]. intros [a|e] w' Hi Hq; by split.
Qed.

Lemma safe_eachP {A} (f : A → PM unit) (xs : list A) (R : list A → volumes → Prop) w :
  Inv (attached w) → R [] (attached w) →
  (∀ ys x w', ys ++ [x] `prefix_of` xs → Inv (attached w') → R ys (attached w') → safe (f x) (fun _ v => R (ys ++ [x]) v) w') →
  safe (eachP f xs) (fun _ v => R xs v) w.
Proof.
  intros Hi HR Hf.
  assert (Hgen : ∀ zs ys w, xs = ys ++ zs → Inv (attached w) → R ys (attached w) → safe (eachP f zs) (fun _ v => R xs v) w).
  { intros zs. induction zs as [|z zs IH]; intros ys w1 Hxs Hi1 HR1; cbn [eachP].
    - apply safe_ret; [done|]. by rewrite Hxs, app_nil_r.
    - apply safe_bind. eapply safe_mono.
      + apply (Hf ys z); [|done..]. exists zs. by rewrite Hxs, <- app_assoc.
      + intros _ v Hv HR2 w2 <-. apply (IH (ys ++ [z])); [|done..]. by rewrite Hxs, <- (assoc_L (++)). }
  by apply (Hgen xs []).
Qed.

(** *** The client's calls *)

Lemma always_bad {A} (b : bool) (p : Prog (result ApiError A)) (Q : A → volumes → Prop) w :
  Inv (attached w) →
  (b = false → always (fun w => Inv (attached w)) p (fun r w' => match r with Ok a => Q a (attached w') | Err _ => True end) w) →
  always (fun w => Inv (attached w)) (bad_arguments b p) (fun r w' => match r with Ok a => Q a (attached w') | Err _ => True end) w.
Proof. intros Hi Hp. destruct b; cbn; [by split|by apply Hp]. Qed.

(** The configuration lists the slots in use, when it is a container's. *)
Definition lists (v : volumes) (vmid : Z) (current : Config) : Prop := ∀ k, is_Some (v !! (vmid, k)) → is_Some (current !! k).

Lemma always_GuestConfig (vmid : Z) (Q : result ApiError (GuestKind * Config) → W → Prop) w :
  Inv (attached w) →
  (∀ r w', attached w' = attached w → (∀ current, r = Ok (KindLXC, current) → lists (attached w) vmid current) → Q r w') →
  always (fun w => Inv (attached w)) (GuestConfig vmid) Q w.
Proof.
  intros Hi Hq. split; [done|]. intros r w1 Hs1. apply law_quiet in Hs1; [|done].
  destruct r as [current|[|m]].
  - split; [by rewrite Hs1|]. apply Hq; [done|]. intros c [= ].
  - split; [by rewrite Hs1|]. intros r w2 Hs2. pose proof (law_quiet (LXCConfig vmid) _ _ _ eq_refl Hs2) as Heq.
    split; [by rewrite Heq, Hs1|]. apply Hq; [congruence|]. destruct r as [current|e]; intros c [= <-].
    intros k Hk. rewrite <- Hs1 in Hk. by eapply law_config.
  - split; [by rewrite Hs1|]. apply Hq; [done|]. intros c [= ].
Qed.

Lemma safe_config_api (what : string) (vmid : Z) (Q : GuestKind * Config → volumes → Prop) w :
  Inv (attached w) →
  (∀ kind current, (kind = KindLXC → lists (attached w) vmid current) → Q (kind, current) (attached w)) →
  safe (api what (GuestConfig vmid)) Q w.
Proof.
  intros Hi Hq. apply safe_api, always_GuestConfig; [done|]. intros [[kind current]|e] w' Hw Hl; [|done].
  rewrite Hw. apply Hq. intros ->. by apply Hl.
Qed.

Lemma safe_container_config (what : string) (vmid : Z) (Q : Config → volumes → Prop) w :
  Inv (attached w) → (∀ current, lists (attached w) vmid current → Q current (attached w)) →
  safe (container_config what vmid) Q w.
Proof.
  intros Hi Hq. apply safe_bind, safe_config_api; [done|]. intros kind current Hl w' E. rewrite <- E in *.
  apply safe_bind, safe_guard; [done|]. intros Hk w2 E2. apply bool_decide_eq_false, dec_stable in Hk.
  apply safe_ret; rewrite E2; [done|]. by apply Hq, Hl.
Qed.

Lemma safe_reassign (plan : Plan) (what : string) (s t : Z) (key d d' : string) (Q : unit → volumes → Prop) w :
  Inv (attached w) → (∀ v, s ≠ t → moved (attached w) v s key t key → Inv v ∧ Q tt v) →
  safe (api what (client_ReassignLXCVolume plan s t key key d d')) Q w.
Proof.
  intros Hi Hm. apply safe_api, always_bad; [done|]. rewrite !orb_false_iff. intros [[[_ Hst%Z.eqb_neq] _] _].
  apply always_bad; [done|]. intros _. split; [done|]. intros r w' Hs.
  destruct (law_reassign _ _ _ _ _ _ _ _ _ Hs Hst) as [Hv|[Hr Hv]].
  - destruct (Hm _ Hst Hv). split; [done|]. by destruct r as [[]|].
  - split; [by rewrite Hv|]. by destruct r as [[]|].
Qed.

Definition destroyed (v v' : volumes) (vmid : Z) : Prop := v' ⊆ v ∧ ∀ u k, u ≠ vmid → v' !! (u, k) = v !! (u, k).

Lemma always_destroy (plan : Plan) (vmid : Z) (Q : result ApiError unit → W → Prop) w :
  Inv (attached w) → (∀ e, Q (Err e) w) →
  (∀ r w', destroyed (attached w) (attached w') vmid → Inv (attached w') ∧ Q r w') →
  always (fun w => Inv (attached w)) (destroyLXCForReplacement plan vmid) Q w.
Proof.
  intros Hi He Hq. unfold destroyLXCForReplacement, bad_arguments. case_match; [by split|].
  split; [done|]. intros r w' Hs. by apply Hq, (law_delete _ _ _ _ _ Hs).
Qed.

Lemma safe_destroy (plan : Plan) (what : string) (vmid : Z) (Q : unit → volumes → Prop) w :
  Inv (attached w) → (∀ v, destroyed (attached w) v vmid → Inv v ∧ Q tt v) →
  safe (api what (destroyLXCForReplacement plan vmid)) Q w.
Proof.
  intros Hi Hq. apply safe_api, always_destroy; [done..|]. intros r w' [Hi' HQ]%Hq. split; [done|]. by destruct r as [[]|].
Qed.

Lemma safe_create (plan : Plan) (what : string) (vmid : Z) (params : Params) (Q : unit → volumes → Prop) w :
  Inv (attached w) →
  (∀ v, attached w ⊆ v → (∀ u k, u ≠ vmid ∨ k ∉ params.*1 ∧ k ≠ "vmid"%string → v !! (u, k) = attached w !! (u, k)) → Inv v ∧ Q tt v) →
  safe (api what (client_CreateLXC plan vmid params)) Q w.
Proof.
  intros Hi Hq. apply safe_api, always_bad; [done|]. intros _. split; [done|]. intros r w' Hs.
  destruct (law_create _ _ _ _ _ Hs) as [Hsub Hk]. destruct (Hq (attached w')) as [Hi' HQ]; [done| |].
  - intros u k Hu. apply Hk. destruct Hu as [Hu|[Hu Hne]]; [by left|right].
    rewrite fmap_app, elem_of_app. set_solver.
  - split; [done|]. by destruct r as [[]|].
Qed.
End safe.
End PxSafe.
