(* ===== verification/PxTrunk.v ===== *)
(** * The bridge of the laboratory ([internal/proxmox/plan.go], from
    DiscoverPhysicalNetwork and from EnsureVirtualBridge to
    virtualOnlyBridgeParams; client.go: the calls these use)

    Programs as in [PxLxc], that read the host's network configuration, create
    the bridge vmbr1, give it the physical port of the laboratory with the
    management VLAN, and take the port away again.  Network changes are pending
    until the configuration is reloaded.  The client is not nil. *)

From S2P Require Export PxHost PxSafe.

Open Scope Z_scope.

Module PxTrunk.
Import Model PxGuest PxHost PxLxc PxSafe.

Definition safeInterfaceName (value : string) : bool :=
  (value != "") && sall (fun c => contains_byte ".-_" c || alnum c) value.

(** ** The client *)

Section client.
Context `{GoUnicode, PxDigest}.

(** [root]: a root shell is there, and the links of the kernel complete the
    report. *)
Context (root : bool).

Definition client_NodeNetwork : Prog (result ApiError (list NetworkInterface)) :=
  Next NodeNetwork (fun r =>
    match r with
    | Ok interfaces =>
        if negb root || (length interfaces =? 0)%nat then Ret (Ok interfaces)
        else Next LinkShow (fun r => Ret (match r with Ok links => Ok (enrich links interfaces) | Err m => Err (ApiFailed m) end))
    | Err e => Ret (Err e)
    end).

Definition DiscoverPhysicalNetworkWithSelection (bootstrapAddress configuredTrunk selectedTrunk : string) : PM Discovery :=
  interfaces ← api "inspect Proxmox physical network" client_NodeNetwork;
  Ret (match AnalyzePhysicalNetworkWithSelection interfaces bootstrapAddress configuredTrunk selectedTrunk with
       | Ok d => Ok d
       | Err e => Err (Discovering e)
       end).
Definition DiscoverPhysicalNetwork (bootstrapAddress configuredTrunk : string) : PM Discovery :=
  DiscoverPhysicalNetworkWithSelection bootstrapAddress configuredTrunk "".

(** ** Parameters and observations *)

Definition new_bridge_params : Params :=
  [("iface", "vmbr1"); ("type", "bridge"); ("bridge_vlan_aware", "1"); ("autostart", "1")]%string.
Definition trunk_params (physicalInterface : string) : Params :=
  [("type", "bridge"); ("bridge_ports", physicalInterface); ("bridge_vlan_aware", "1")]%string.
Definition virtualOnlyBridgeParams : Params :=
  [("type", "bridge"); ("delete", "bridge_ports"); ("bridge_vlan_aware", "1")]%string.
Definition managementVLANParams : Params :=
  [("iface", "vmbr1.99"); ("type", "vlan"); ("autostart", "1"); ("vlan-id", "99"); ("vlan-raw-device", "vmbr1"); ("cidr", "10.10.99.5/24")]%string.

Definition managementVLANExact (i : NetworkInterface) : bool :=
  (hi_Type i == "vlan") && (hi_Address i == "10.10.99.5/24") && (hi_Gateway i == "")
  && ((hi_Method i == "") || (hi_Method i == "static")) && ((hi_VLANID i =? 0) || (hi_VLANID i =? 99))
  && ((hi_VLANRawDevice i == "") || (hi_VLANRawDevice i == "vmbr1")) && hi_Active i && hi_Autostart i.
(** The first interface of the name decides. *)
Definition managementVLANPresent (interfaces : list NetworkInterface) : bool :=
  match List.find (fun i => hi_Iface i == "vmbr1.99") interfaces with Some i => managementVLANExact i | None => false end.

Definition bridgeHasPort (interfaces : list NetworkInterface) (bridgeName port : string) : bool :=
  existsb (fun i => (hi_Iface i == bridgeName) && (hi_Type i == "bridge") && hi_BridgeVLANAware i && containsBridgePort (hi_BridgePorts i) port) interfaces.

Definition lift {A} (r : result TrunkError A) : PM A := Ret (match r with Ok a => Ok a | Err e => Err (Trunk e) end).

(** ** Attaching *)

(** What the scan of the report keeps: the last interface of each name. *)
Record Scan := mkScan { sn_bridge : option NetworkInterface; sn_candidate : option NetworkInterface; sn_management : option NetworkInterface }.

Definition attach_step (physicalInterface bootstrapAddress : string) (s : Scan) (i : NetworkInterface) : result TrunkError Scan :=
  let candidate := if hi_Iface i == physicalInterface then Some i else sn_candidate s in
  _ ← fail_if ((hi_Iface i == physicalInterface) && (hi_Address i == bootstrapAddress)) (CarriesBootstrap physicalInterface);
  _ ← fail_if ((hi_Iface i != "vmbr1") && (hi_Type i == "bridge") && containsBridgePort (hi_BridgePorts i) physicalInterface)
        (OnOtherBridge physicalInterface);
  Ok (mkScan (if hi_Iface i == "vmbr1" then Some i else sn_bridge s) candidate
        (if hi_Iface i == "vmbr1.99" then Some i else sn_management s)).

Definition attach_checks (physicalInterface : string) (s : Scan) : result TrunkError unit :=
  match sn_candidate s with
  | None => Err (NotEthernet physicalInterface)
  | Some candidate =>
      _ ← fail_if (hi_Type candidate != "eth") (NotEthernet physicalInterface);
      _ ← fail_if ((hi_Address candidate != "") || (hi_Gateway candidate != "") || (hi_Bond candidate != "")) (HasDependency physicalInterface);
      _ ← fail_if ((hi_HWAddr candidate == "") && (hi_PCIAddress candidate == "")) (NoHardwareIdentity physicalInterface);
      match sn_bridge s with
      | None => Err NoBridge
      | Some bridge =>
          _ ← fail_if ((hi_BridgePorts bridge != "") && (hi_BridgePorts bridge != "none") && (hi_BridgePorts bridge != physicalInterface))
                (BridgeTaken (hi_BridgePorts bridge));
          fail_if (match sn_management s with Some m => negb (managementVLANExact m) | None => false end) ManagementConflict
      end
  end.

Definition write_ports (params : Params) : Prog (result ApiError unit) := call (UpdateNodeNetwork "vmbr1" params).
(** Take the port back, if this run gave it, and fail. *)
Definition undo_attach {A} (bridgeWasAttached : bool) (e : PxError) : PM A :=
  if bridgeWasAttached then throw e else answer (write_ports virtualOnlyBridgeParams) (fun _ => throw e).

Definition write_management (management : option NetworkInterface) : Prog (result ApiError unit) :=
  match management with
  | None => call (CreateNodeNetwork managementVLANParams)
  | Some _ => call (UpdateNodeNetwork "vmbr1.99" managementVLANParams)
  end.

Definition verify_attach (physicalInterface : string) (bridgeWasAttached : bool) : PM unit :=
  answer client_NodeNetwork (fun after =>
    match after with
    | Err e =>
        if bridgeWasAttached then throw (NotVerified e)
        else answer (write_ports virtualOnlyBridgeParams) (fun r =>
               throw (match r with Err e' => RollbackFailed e' (Some e) | Ok _ => NotVerified e end))
    | Ok after =>
        if negb (bridgeHasPort after "vmbr1" physicalInterface) then undo_attach bridgeWasAttached (Trunk AttachNotObserved)
        else if negb (managementVLANPresent after) then undo_attach bridgeWasAttached (Trunk ManagementNotObserved)
        else mret tt
    end).

(** After the management VLAN was asked for. *)
Definition finish_attach (physicalInterface : string) (bridgeWasAttached : bool) (r : result ApiError unit) : PM unit :=
  match r with
  | Err e => undo_attach bridgeWasAttached (Failed "configure management path" e)
  | Ok _ =>
      _ ← api "reload after attaching" (call ReloadNodeNetwork);
      verify_attach physicalInterface bridgeWasAttached
  end.

Definition AttachTrunk (physicalInterface bootstrapAddress : string) : PM unit :=
  _ ← guard (negb (safeInterfaceName physicalInterface)) (Trunk (BadInterface physicalInterface));
  interfaces ← api "inspect" client_NodeNetwork;
  scan ← lift (foldM (attach_step physicalInterface bootstrapAddress) (mkScan None None None) interfaces);
  _ ← lift (attach_checks physicalInterface scan);
  let bridgeWasAttached := bridgeHasPort interfaces "vmbr1" physicalInterface in
  if bridgeWasAttached && match sn_management scan with Some m => managementVLANExact m | None => false end then mret tt
  else
    _ ← (if bridgeWasAttached then mret tt else api "attach" (write_ports (trunk_params physicalInterface)));
    answer (write_management (sn_management scan)) (finish_attach physicalInterface bridgeWasAttached).

(** ** Detaching *)

Definition detach_step (physicalInterface bootstrapAddress : string) (bridge : option NetworkInterface) (i : NetworkInterface)
    : result TrunkError (option NetworkInterface) :=
  _ ← fail_if ((hi_Iface i == physicalInterface) && (hi_Address i == bootstrapAddress)) (CarriesBootstrap physicalInterface);
  _ ← fail_if ((hi_Iface i == "vmbr0") && containsBridgePort (hi_BridgePorts i) physicalInterface) (UpstreamMember physicalInterface);
  Ok (if hi_Iface i == "vmbr1" then Some i else bridge).

Definition detach_checks (physicalInterface : string) (bridge : option NetworkInterface) : result TrunkError unit :=
  fail_if (negb match bridge with
                | Some b => (hi_Type b == "bridge") && hi_BridgeVLANAware b && containsBridgePort (hi_BridgePorts b) physicalInterface
                | None => false
                end) (NotTheMember physicalInterface).

(** Give the port back and fail. *)
Definition undo_detach {A} (physicalInterface : string) (verification : option ApiError) (e : PxError) : PM A :=
  answer (write_ports (trunk_params physicalInterface)) (fun r =>
    throw (match r with Err e' => RollbackFailed e' verification | Ok _ => e end)).

Definition verify_detach (physicalInterface : string) : PM unit :=
  answer client_NodeNetwork (fun after =>
    match after with
    | Err e => undo_detach physicalInterface (Some e) (NotVerified e)
    | Ok after =>
        if bridgeHasPort after "vmbr1" physicalInterface then undo_detach physicalInterface None (Trunk DetachNotObserved) else mret tt
    end).

Definition DetachTrunk (physicalInterface bootstrapAddress : string) : PM unit :=
  _ ← guard (negb (safeInterfaceName physicalInterface)) (Trunk (BadInterface physicalInterface));
  interfaces ← api "inspect before detach" client_NodeNetwork;
  bridge ← lift (foldM (detach_step physicalInterface bootstrapAddress) None interfaces);
  _ ← lift (detach_checks physicalInterface bridge);
  _ ← api "detach" (write_ports virtualOnlyBridgeParams);
  _ ← api "reload after detaching" (call ReloadNodeNetwork);
  verify_detach physicalInterface.

(** ** The bridge itself *)

(** The first interface of the name decides. *)
Definition EnsureVirtualBridge : PM unit :=
  interfaces ← api "inspect Proxmox node network" client_NodeNetwork;
  match List.find (fun i => hi_Iface i == "vmbr1") interfaces with
  | Some i =>
      _ ← guard (hi_Type i != "bridge") (Trunk NotABridge);
      guard (negb (hi_BridgeVLANAware i)) (Trunk NotVLANAware)
  | None => api "create virtual-only vmbr1" (call (CreateNodeNetwork new_bridge_params))
  end.

Definition EnsureVirtualOnlyBridge (bootstrapAddress : string) : PM unit :=
  _ ← EnsureVirtualBridge;
  interfaces ← api "inspect virtual-only vmbr1" client_NodeNetwork;
  match List.find (fun i => hi_Iface i == "vmbr1") interfaces with
  | None => throw (Trunk BridgeAbsent)
  | Some i =>
      match fields (hi_BridgePorts i) with
      | [] => mret tt
      | [member] =>
          if member == "none" then mret tt
          else if negb (safeInterfaceName member) then throw (Trunk (AmbiguousMembers (hi_BridgePorts i)))
          else DetachTrunk member bootstrapAddress
      | _ => throw (Trunk (AmbiguousMembers (hi_BridgePorts i)))
      end
  end.
End client.

(** ** Watching *)

Section watching.
Context `{GoUnicode, PxDigest}.

Inductive Ports := PortsKept | PortsGiven (ok : bool) | PortsCleared (ok : bool).

(** The last report, while nothing was written since; the one before the first
    change of the ports; the last change of the ports and its answer; the answer
    of the last reload. *)
Record NetState := mkNet {
  nt_report : option (list NetworkInterface);
  nt_basis : option (list NetworkInterface);
  nt_ports : Ports;
  nt_reload : option bool;
}.
Definition net_start : NetState := mkNet None None PortsKept None.
Definition with_report (s : NetState) (l : option (list NetworkInterface)) : NetState := mkNet l (nt_basis s) (nt_ports s) (nt_reload s).
(** What the changes are based on. *)
Definition evidence_of (s : NetState) : option (list NetworkInterface) :=
  match nt_ports s with PortsKept => nt_report s | _ => nt_basis s end.

Definition net_next (s : NetState) (c : Call) : resp c → NetState :=
  match c return resp c → NetState with
  | NodeNetwork => fun r => with_report s (match r with Ok l => Some l | Err _ => None end)
  | LinkShow => fun r => with_report s (match r, nt_report s with Ok links, Some l => Some (enrich links l) | _, _ => None end)
  | UpdateNodeNetwork iface params => fun r =>
      if iface == "vmbr1"
      then mkNet None (evidence_of s) (if decide (params = virtualOnlyBridgeParams) then PortsCleared (is_ok r) else PortsGiven (is_ok r)) (nt_reload s)
      else with_report s None
  | CreateNodeNetwork _ => fun _ => with_report s None
  | ReloadNodeNetwork => fun r => mkNet None (nt_basis s) (nt_ports s) (Some (is_ok r))
  | _ => fun _ => s
  end.

(** A report under which a port may become the port of vmbr1. *)
Record suitable (physicalInterface bootstrapAddress : string) (l : list NetworkInterface) : Prop := {
  su_port : ∃ c, last_named l physicalInterface = Some c ∧ hi_Type c = "eth"%string ∧ hi_Address c = "" ∧ hi_Gateway c = "" ∧ hi_Bond c = ""
            ∧ (hi_HWAddr c ≠ "" ∨ hi_PCIAddress c ≠ "");
  su_bootstrap : ∀ i, i ∈ l → hi_Iface i = physicalInterface → hi_Address i ≠ bootstrapAddress;
  su_bridges : ∀ i, i ∈ l → hi_Iface i ≠ "vmbr1"%string → hi_Type i = "bridge"%string → containsBridgePort (hi_BridgePorts i) physicalInterface = false;
  su_free : ∃ b, last_named l "vmbr1" = Some b ∧ hi_BridgePorts b ∈ [""; "none"; physicalInterface]%string;
  su_management : ∀ m, last_named l "vmbr1.99" = Some m → managementVLANExact m = true;
}.

(** Attaching writes the port only to a bridge without it, under a suitable
    report; it clears the ports only after it has written them. *)
Definition attach_permitted (physicalInterface bootstrapAddress : string) (s : NetState) (c : Call) : Prop :=
  match c with
  | NodeNetwork | LinkShow => True
  | UpdateNodeNetwork iface params =>
      iface = "vmbr1"%string ∧ params = trunk_params physicalInterface ∧ nt_ports s = PortsKept
        ∧ (∃ l, nt_report s = Some l ∧ suitable physicalInterface bootstrapAddress l ∧ bridgeHasPort l "vmbr1" physicalInterface = false)
      ∨ iface = "vmbr1"%string ∧ params = virtualOnlyBridgeParams ∧ nt_ports s = PortsGiven true
      ∨ iface = "vmbr1.99"%string ∧ params = managementVLANParams
        ∧ (∃ l, evidence_of s = Some l ∧ suitable physicalInterface bootstrapAddress l ∧ is_Some (last_named l "vmbr1.99"))
  | CreateNodeNetwork params =>
      params = managementVLANParams
      ∧ ∃ l, evidence_of s = Some l ∧ suitable physicalInterface bootstrapAddress l ∧ last_named l "vmbr1.99" = None
  | ReloadNodeNetwork => nt_ports s = PortsKept ∨ nt_ports s = PortsGiven true
  | _ => False
  end.

(** A report under which a port may be taken from vmbr1. *)
Record detachable (bootstrapAddress : string) (l : list NetworkInterface) (physicalInterface : string) : Prop := {
  de_name : safeInterfaceName physicalInterface = true;
  de_bootstrap : ∀ i, i ∈ l → hi_Iface i = physicalInterface → hi_Address i ≠ bootstrapAddress;
  de_upstream : ∀ i, i ∈ l → hi_Iface i = "vmbr0"%string → containsBridgePort (hi_BridgePorts i) physicalInterface = false;
  de_bridge : ∃ b, last_named l "vmbr1" = Some b ∧ hi_Type b = "bridge"%string ∧ hi_BridgeVLANAware b = true
              ∧ containsBridgePort (hi_BridgePorts b) physicalInterface = true;
}.

(** Making vmbr1 free of ports: it is created where it is absent, its port is
    taken under such a report, and given back only after that. *)
Definition free_permitted (bootstrapAddress : string) (s : NetState) (c : Call) : Prop :=
  match c with
  | NodeNetwork | LinkShow => True
  | CreateNodeNetwork params => params = new_bridge_params ∧ nt_ports s = PortsKept ∧ ∃ l, nt_report s = Some l ∧ "vmbr1"%string ∉ map hi_Iface l
  | UpdateNodeNetwork iface params =>
      iface = "vmbr1"%string
      ∧ ((params = virtualOnlyBridgeParams ∧ nt_ports s = PortsKept ∧ ∃ l p, nt_report s = Some l ∧ detachable bootstrapAddress l p)
         ∨ nt_ports s = PortsCleared true ∧ ∃ l p, params = trunk_params p ∧ nt_basis s = Some l ∧ detachable bootstrapAddress l p)
  | ReloadNodeNetwork => nt_ports s = PortsCleared true
  | _ => False
  end.

(** *** Lemmas *)

Lemma last_named_cons x l n :
  last_named (x :: l) n = match last_named l n with Some y => Some y | None => if hi_Iface x == n then Some x else None end.
Proof.
  unfold last_named. cbn. destruct (hi_Iface x == n); [|by destruct (last _)]. destruct (List.filter _ l) as [|y l'] eqn:E; [done|].
  change (last (x :: y :: l')) with (last (y :: l')). by destruct (last (y :: l')) eqn:E2; [|by apply last_None in E2].
Qed.

Lemma last_named_elem l n i : last_named l n = Some i → i ∈ l ∧ hi_Iface i = n.
Proof. intros Hl%last_elem. apply list_elem_of_In, filter_In in Hl as [?%list_elem_of_In ?]. by bools. Qed.

Definition later {A} (o o' : option A) : option A := match o' with Some x => Some x | None => o end.

Lemma scan_spec p b l s0 s : foldM (attach_step p b) s0 l = Ok s →
  s = mkScan (later (sn_bridge s0) (last_named l "vmbr1")) (later (sn_candidate s0) (last_named l p)) (later (sn_management s0) (last_named l "vmbr1.99"))
  ∧ (∀ i, i ∈ l → hi_Iface i = p → hi_Address i ≠ b)
  ∧ (∀ i, i ∈ l → hi_Iface i ≠ "vmbr1"%string → hi_Type i = "bridge"%string → containsBridgePort (hi_BridgePorts i) p = false).
Proof.
  revert s0. induction l as [|x l IH]; intros s0 Hs.
  - injection Hs as <-. split; [by destruct s0|]. split; by intros ? ?%not_elem_of_nil.
  - cbn [foldM] in Hs. apply bind_ok in Hs as (s1 & H1 & Hs). apply IH in Hs as (-> & Hb & Hp). unfold attach_step in H1.
    apply bind_ok in H1 as ([] & E1%fail_if_ok & H1). apply bind_ok in H1 as ([] & E2%fail_if_ok & H1). injection H1 as <-.
    rewrite !last_named_cons. cbn [sn_bridge sn_candidate sn_management]. split.
    { unfold later. f_equal.
      - destruct (last_named l "vmbr1"); [reflexivity|]. destruct (hi_Iface x == "vmbr1"); reflexivity.
      - destruct (last_named l p); [reflexivity|]. destruct (hi_Iface x == p); reflexivity.
      - destruct (last_named l "vmbr1.99"); [reflexivity|]. destruct (hi_Iface x == "vmbr1.99"); reflexivity. }
    split; intros i [->|Hi]%elem_of_cons; [| by apply Hb | |by apply Hp].
    + intros En. rewrite (bool_decide_true _ En) in E1. exact (bool_decide_eq_false_1 _ E1).
    + intros Hn Ht. rewrite (bool_decide_false _ Hn), (bool_decide_true _ Ht) in E2. exact E2.
Qed.

Lemma scan_suitable p b l s : foldM (attach_step p b) (mkScan None None None) l = Ok s → attach_checks p s = Ok tt →
  suitable p b l ∧ sn_management s = last_named l "vmbr1.99".
Proof.
  intros (-> & Hb & Hp)%scan_spec Hc. cbn in *. assert (∀ {A} (o : option A), later None o = o) as El by (by intros ? []).
  rewrite !El in *. split; [|done]. unfold attach_checks in Hc. cbn in Hc.
  destruct (last_named l p) as [c|] eqn:Ec; [|done].
  apply bind_ok in Hc as ([] & E1%fail_if_ok & Hc). apply bind_ok in Hc as ([] & E2%fail_if_ok & Hc). apply bind_ok in Hc as ([] & E3%fail_if_ok & Hc).
  destruct (last_named l "vmbr1") as [br|] eqn:Eb; [|done]. apply bind_ok in Hc as ([] & E4%fail_if_ok & Hc). apply fail_if_ok in Hc. bools.
  constructor; [|done|done| |].
  - exists c. split_and!; try done. apply andb_false_iff in E3 as [E3|E3]; bools; [by left|by right].
  - exists br. split; [done|]. set_unfold.
    apply andb_false_iff in E4 as [E4|E4]; [apply andb_false_iff in E4 as [E4|E4]|]; bools; auto.
  - intros m Em. rewrite Em in Hc. by apply negb_false_iff in Hc.
Qed.

Lemma detach_spec p b l s0 s : foldM (detach_step p b) s0 l = Ok s →
  s = later s0 (last_named l "vmbr1")
  ∧ (∀ i, i ∈ l → hi_Iface i = p → hi_Address i ≠ b)
  ∧ (∀ i, i ∈ l → hi_Iface i = "vmbr0"%string → containsBridgePort (hi_BridgePorts i) p = false).
Proof.
  revert s0. induction l as [|x l IH]; intros s0 Hs.
  - injection Hs as <-. split; [done|]. split; by intros ? ?%not_elem_of_nil.
  - cbn [foldM] in Hs. apply bind_ok in Hs as (s1 & H1 & Hs). apply IH in Hs as (-> & Hb & Hp). unfold detach_step in H1.
    apply bind_ok in H1 as ([] & E1%fail_if_ok & H1). apply bind_ok in H1 as ([] & E2%fail_if_ok & H1). injection H1 as <-.
    rewrite last_named_cons. split; [unfold later; destruct (last_named l "vmbr1"); [done|]; by destruct (bool_decide _)|].
    split; intros i [->|Hi]%elem_of_cons; [| by apply Hb | |by apply Hp]; intros En.
    + rewrite (bool_decide_true _ En) in E1. exact (bool_decide_eq_false_1 _ E1).
    + rewrite (bool_decide_true _ En) in E2. exact E2.
Qed.

Lemma detach_detachable p b l s : safeInterfaceName p = true → foldM (detach_step p b) None l = Ok s → detach_checks p s = Ok tt → detachable b l p.
Proof.
  intros Hn (-> & Hb & Hp)%detach_spec Hc%fail_if_ok. constructor; [done..|].
  destruct (last_named l "vmbr1") as [br|]; [|done]. exists br. cbn in Hc. apply negb_false_iff in Hc. bools. done.
Qed.

(** Reading the network. *)
Lemma watched_network root ok (Q : result ApiError (list NetworkInterface) → NetState → Prop) s :
  (∀ s, ok s NodeNetwork ∧ ok s LinkShow) → (∀ l, Q (Ok l) (with_report s (Some l))) → (∀ e, Q (Err e) (with_report s None)) →
  watched ok net_next (client_NodeNetwork root) Q s.
Proof.
  intros Hok Ho He. split; [apply Hok|]. intros [l|e]; [|apply He]. destruct (_ || _); [apply Ho|].
  split; [apply Hok|]. intros [links|m]; [apply Ho|apply He].
Qed.

(** An error left the port on vmbr1 only if the reload failed. *)
Definition given_back (s : NetState) : Prop := nt_ports s = PortsGiven true → nt_reload s = Some false.
Definition taken_back (s : NetState) : Prop := nt_ports s = PortsCleared true → nt_reload s = Some false.

Definition attached_seen (p : string) (s : NetState) : Prop := ∃ l m,
  nt_report s = Some l ∧ bridgeHasPort l "vmbr1" p = true ∧ m ∈ l ∧ hi_Iface m = "vmbr1.99"%string ∧ managementVLANExact m = true.

Section attaching.
Context (root : bool) (p b : string).
Abbreviation attaches := (follows (attach_permitted p b) net_next given_back).

(** Whether this run gave the port, as [bridgeWasAttached] has it. *)
Definition gave (bridgeWasAttached : bool) (s : NetState) : Prop :=
  nt_ports s = if bridgeWasAttached then PortsKept else PortsGiven true.

Lemma attaches_undo {A} was e (Q : A → NetState → Prop) s : gave was s → attaches (undo_attach was e) Q s.
Proof.
  unfold gave, undo_attach. destruct was; intros Hg; [by unfold follows, given_back; cbn; rewrite Hg|].
  split; [right; left; done|]. intros r. unfold follows, given_back. cbn. done.
Qed.

Lemma attaches_verify was s : gave was s → attaches (verify_attach root p was) (fun _ => attached_seen p) s.
Proof.
  intros Hg. apply watched_pbind, watched_network; [done| |].
  - intros l. destruct (bridgeHasPort l "vmbr1" p) eqn:E1; cbn [negb]; [|by apply attaches_undo].
    destruct (managementVLANPresent l) eqn:E2; cbn [negb]; [|by apply attaches_undo].
    unfold managementVLANPresent in E2. destruct (List.find _ l) as [m|] eqn:Em; [|done]. apply find_some in Em as [Hm%list_elem_of_In Hn].
    exists l, m. bools. by rewrite Hn.
  - intros e. unfold gave in Hg. destruct was; [by unfold given_back; cbn; rewrite Hg|]. split; [right; left; done|]. by intros [[]|e'].
Qed.

Lemma attaches_rest was management l s : gave was s → evidence_of s = Some l → suitable p b l → last_named l "vmbr1.99" = management →
  attaches (answer (write_management management) (finish_attach root p was)) (fun _ => attached_seen p) s.
Proof.
  intros Hg He Hl Hm. apply watched_pbind. assert (gave was (with_report s None)) as Hg' by exact Hg.
  assert (∀ r, attaches (finish_attach root p was r) (fun _ => attached_seen p) (with_report s None)) as Hrest.
  { intros [[]|e]; [|by apply attaches_undo]. apply follows_bind, follows_api. split.
    - cbn. unfold gave in Hg'. cbn in Hg'. rewrite Hg'. destruct was; auto.
    - intros [[]|e]; cbn; [by apply attaches_verify|]. by intros _. }
  destruct management as [m|]; (split; [|exact Hrest]).
  - right; right. split_and!; [done..|]. exists l. split_and!; [done..|]. by rewrite Hm.
  - split; [done|]. by exists l.
Qed.
End attaching.
End watching.

(** C13. Attaching the port of the laboratory, whatever Proxmox answers, writes
    only the bridge vmbr1 and its management VLAN vmbr1.99.  The ports of vmbr1
    are changed only to the requested port, under a report made since the last
    write that shows it as a physical port with an identity, without address,
    gateway or bond, not carrying the bootstrap address, on no other bridge, and
    vmbr1 without another port; they are cleared only after this run set them.
    Success means that the last report, after every write, shows the port on vmbr1
    and the exact management VLAN; a run that fails after it set the port has
    asked to clear it again, unless the reload failed. *)
Theorem AttachTrunk_protocol `{GoUnicode, PxDigest} root p b :
  watched (attach_permitted p b) net_next (AttachTrunk root p b)
    (fun r s => match r with Ok _ => attached_seen p s | Err _ => given_back s end) net_start.
Proof.
  apply follows_bind, follows_guard; [done|]. intros Hsafe. apply follows_bind, follows_api, watched_network; [done| |done].
  intros l. apply follows_bind. unfold lift at 1. destruct (foldM _ _ l) as [scan|e] eqn:Escan; [|by intros ?].
  apply follows_bind. unfold lift. destruct (attach_checks p scan) as [[]|e] eqn:Echk; [|by intros ?].
  destruct (scan_suitable p b l scan Escan Echk) as [Hl Em]. unfold follows at 1. cbn [watched].
  destruct (bridgeHasPort l "vmbr1" p) eqn:Eb; cbn [andb].
  - assert (follows (attach_permitted p b) net_next given_back
      (_ ← mret tt; answer (write_management (sn_management scan)) (finish_attach root p true)) (fun _ => attached_seen p) (with_report net_start (Some l))) as Hgo by (eapply attaches_rest; [done..|congruence]).
    destruct (sn_management scan) as [m|]; [|exact Hgo]. destruct (managementVLANExact m) eqn:Ex; [|exact Hgo].
    exists l, m. symmetry in Em. apply last_named_elem in Em as [??]. done.
  - apply follows_bind, follows_api. split.
    + left. split_and!; [done..|]. by exists l.
    + intros [[]|e]; cbn; [|done]. eapply attaches_rest; [done..|congruence].
Qed.

(** vmbr1 is free in the last report, or the port that was taken is not seen on it. *)
Definition free_seen `{GoUnicode} (bootstrapAddress : string) (s : NetState) : Prop := ∃ l, nt_report s = Some l ∧
  ((∃ i, List.find (fun i => hi_Iface i == "vmbr1") l = Some i ∧ fields (hi_BridgePorts i) ∈ [[]; ["none"%string]])
   ∨ ∃ before p, nt_basis s = Some before ∧ detachable bootstrapAddress before p ∧ bridgeHasPort l "vmbr1" p = false).

Section freeing.
Context `{GoUnicode, PxDigest} (root : bool) (b : string).
Abbreviation frees := (follows (free_permitted b) net_next taken_back).

Lemma frees_undo {A} before p v e (Q : A → NetState → Prop) s :
  nt_ports s = PortsCleared true → nt_basis s = Some before → detachable b before p → frees (undo_detach p v e) Q s.
Proof. intros Hs Hb Hd. split; [split; [done|]; right; split; [done|]; by exists before, p|]. by intros [[]|e']. Qed.

Lemma cleared_next s r : net_next s (UpdateNodeNetwork "vmbr1" virtualOnlyBridgeParams) r =
  mkNet None (evidence_of s) (PortsCleared (is_ok r)) (nt_reload s).
Proof. reflexivity. Qed.

Lemma frees_detach p s : nt_ports s = PortsKept → frees (DetachTrunk root p b) (fun _ => free_seen b) s.
Proof.
  intros Hk. assert (∀ s', nt_ports s' = PortsKept → taken_back s') as Hkept by (intros s' E; unfold taken_back; by rewrite E).
  apply follows_bind, follows_guard; [by apply Hkept|]. intros Hn%negb_false_iff.
  apply follows_bind, follows_api, watched_network; [done| |intros e; by apply Hkept].
  intros l. apply follows_bind. unfold lift at 1. destruct (foldM _ _ l) as [br|e] eqn:Escan; [|by apply Hkept].
  apply follows_bind. unfold lift. destruct (detach_checks p br) as [[]|e] eqn:Echk; [|by apply Hkept].
  pose proof (detach_detachable p b l br Hn Escan Echk) as Hd. apply follows_bind, follows_api. split.
  { split; [done|]. left. split_and!; [done..|]. by exists l, p. }
  intros r. rewrite cleared_next. unfold evidence_of. cbn [with_report nt_ports nt_reload nt_report]. rewrite Hk. destruct r as [[]|e]; [|done].
  apply follows_bind, follows_api. split; [done|]. intros [[]|e]; [|done].
  apply watched_pbind, watched_network; [done| |].
  - intros l'. destruct (bridgeHasPort l' "vmbr1" p) eqn:E; [by eapply frees_undo|].
    exists l'. split; [done|]. right. by exists l, p.
  - intros e. by eapply frees_undo.
Qed.

Lemma frees_bridge s : nt_ports s = PortsKept → frees (EnsureVirtualBridge root) (fun _ s' => nt_ports s' = PortsKept) s.
Proof.
  intros Hk. assert (∀ s', nt_ports s' = PortsKept → taken_back s') as Hkept by (intros s' E; unfold taken_back; by rewrite E).
  apply follows_bind, follows_api, watched_network; [done| |intros e; by apply Hkept].
  intros l. destruct (List.find _ l) as [i|] eqn:Ef.
  - apply follows_bind, follows_guard; [by apply Hkept|]. intros _. apply follows_guard; [by apply Hkept|done].
  - apply follows_api. split; [|intros [[]|e]; [done|by apply Hkept]]. split_and!; [done..|]. exists l. split; [done|].
    intros (i & Ei & Hi%list_elem_of_In)%list_elem_of_fmap. apply (find_none _ _ Ef) in Hi. bools. congruence.
Qed.
End freeing.

(** Keeping vmbr1 without a physical port, whatever Proxmox answers, writes
    only vmbr1.  The bridge is created only after a report without it.  Its ports
    are cleared only under a report made since the last write that shows a port
    on it, as a VLAN-aware bridge, which does not carry the bootstrap address and
    is not on vmbr0; such a port is given back only after it was cleared.
    Success means that the last report shows no port, or not the one that was
    taken; a run that fails after it cleared the port has asked to give it back,
    unless the reload failed. *)
Theorem EnsureVirtualOnlyBridge_protocol `{GoUnicode, PxDigest} root b :
  watched (free_permitted b) net_next (EnsureVirtualOnlyBridge root b)
    (fun r s => match r with Ok _ => free_seen b s | Err _ => taken_back s end) net_start.
Proof.
  apply follows_bind. eapply follows_mono; [by apply frees_bridge|]. intros [] s Hk. cbn in Hk.
  assert (∀ s', nt_ports s' = PortsKept → taken_back s') as Hkept by (intros s' E; unfold taken_back; by rewrite E).
  apply follows_bind, follows_api, watched_network; [done| |intros e; by apply Hkept].
  intros l. assert (∀ e, follows (free_permitted b) net_next taken_back (throw (A := unit) e) (fun _ => free_seen b) (with_report s (Some l))) as Hthrow
    by (intros e; by apply Hkept).
  destruct (List.find _ l) as [i|] eqn:Ef; [|apply Hthrow].
  destruct (fields (hi_BridgePorts i)) as [|m [|m' ms]] eqn:Em; [|case_bool_decide as Hm|apply Hthrow].
  - exists l. split; [done|]. left. exists i. split; [done|]. rewrite Em. by left.
  - exists l. split; [done|]. left. exists i. split; [done|]. rewrite Em, Hm. right. by left.
  - destruct (negb _); [apply Hthrow|by apply frees_detach].
Qed.

(** ** Runs *)

Module TrunkLab.
Definition unicode : GoUnicode := ascii_only.
Definition digest : PxDigest := {| sha256_hex s := s |}.
#[local] Existing Instance unicode.
#[local] Existing Instance digest.

Definition port (name mac : string) : NetworkInterface :=
  mkNetIf name "eth" "manual" "" "" "" false 0 "" mac "" "" "" "" 0 true true.
Definition bridge (name address ports : string) : NetworkInterface :=
  mkNetIf name "bridge" "static" address "" ports true 0 "" "" "" "" "" "" 0 true true.
Definition management (address : string) : NetworkInterface :=
  mkNetIf "vmbr1.99" "vlan" "static" address "" "" false 99 "vmbr1" "" "" "" "" "" 0 true true.
Definition ports : list NetworkInterface :=
  [port "eno1" "02:00:00:00:00:01"; port "eno2" "02:00:00:00:00:02"; bridge "vmbr0" "192.168.1.5" "eno1"].

(** A host that always reports this and accepts every change. *)
Definition answers (report : list NetworkInterface) (c : Call) : resp c :=
  match c with
  | QEMUConfig _ | LXCConfig _ => Err NotFound
  | QEMUStatus _ | LXCStatus _ => Ok "running"%string
  | StorageContent _ _ => Ok []
  | RunArgs _ _ _ | FileSHA256 _ => Ok ""%string
  | NodeNetwork => Ok report
  | LinkShow => Ok []
  | _ => Ok tt
  end.
Definition attach (report : list NetworkInterface) : result PxError unit * list Call :=
  exec_with (answers report) (AttachTrunk false "eno2" "192.168.1.5").

(** Nothing is written where the port is already attached. *)
Example attached_already :
  attach (ports ++ [bridge "vmbr1" "" "eno2"; management "10.10.99.5/24"]) = (Ok tt, [NodeNetwork]).
Proof. vm_compute. reflexivity. Qed.

(** Where the change cannot be seen, the ports are cleared in the pending
    configuration; nothing reloads it, so the port that the reload before made
    live stays. *)
Example rollback_not_reloaded :
  attach (ports ++ [bridge "vmbr1" "" ""]) =
    (Err (Trunk AttachNotObserved),
     [NodeNetwork; UpdateNodeNetwork "vmbr1" (trunk_params "eno2"); CreateNodeNetwork managementVLANParams; ReloadNodeNetwork; NodeNetwork;
      UpdateNodeNetwork "vmbr1" virtualOnlyBridgeParams]).
Proof. vm_compute. reflexivity. Qed.

(** The upstream port is refused. *)
Example upstream_refused : (exec_with (answers (ports ++ [bridge "vmbr1" "" ""])) (AttachTrunk false "eno1" "192.168.1.5")).1 = Err (Trunk (OnOtherBridge "eno1")).
Proof. vm_compute. reflexivity. Qed.

Example detached : exec_with (answers (ports ++ [bridge "vmbr1" "" "none"])) (EnsureVirtualOnlyBridge false "192.168.1.5") = (Ok tt, [NodeNetwork; NodeNetwork]).
Proof. vm_compute. reflexivity. Qed.
End TrunkLab.

(** A report that gives an address without its prefix next to the CIDR: the
    decoded address is the one without, and the management VLAN is never the
    expected one, so a trunk can be attached only where it is left out. *)
Lemma management_with_address_refused `{GoUnicode} raw : ra_Address raw = "10.10.99.5"%string → managementVLANExact (UnmarshalJSON raw) = false.
Proof. intros E. unfold managementVLANExact, UnmarshalJSON. cbn. rewrite E. by rewrite !andb_false_r. Qed.
End PxTrunk.
