(* ===== verification/PxSim.v ===== *)
(** * A host to run the programs on (an instance of the classes of [PxSafe])

    Containers with their configuration, and the volumes in their mount points;
    every call has its effect, is refused, or has its effect and is answered
    with an error.  It shows that the laws can hold and lets the programs run. *)

From S2P Require Export PxSafe.

Open Scope Z_scope.

Module PxSim.
Import Model PxGuest PxLxc PxSafe.

Record Volume := mkVol { vol_id : nat; vol_storage : string; vol_size : string; vol_options : string }.
Record Container := mkContainer { ct_config : gmap string string; ct_running : bool }.
Record Host := mkHost {
  h_containers : gmap Z Container;
  h_volumes : gmap (Z * string) Volume;
  h_files : list string;
  h_fresh : nat;
}.

Inductive Fault := Works | Refused | Unheard.

(** ** Configurations *)

Definition is_mp (k : string) : bool := has_prefix k "mp".

(** [mp0] holds the first disk after the root file system's. *)
Definition disk_of (k : string) : string := match atoi (trim_prefix k "mp") with Some i => itoa (i + 1) | None => "" end.
Definition volume_text (vmid : Z) (k : string) (v : Volume) : string :=
  vol_storage v +:+ ":vm-" +:+ itoa vmid +:+ "-disk-" +:+ disk_of k +:+ "," +:+ vol_options v +:+ ",size=" +:+ vol_size v +:+ "G".

Definition slots_of (vmid : Z) (volumes : gmap (Z * string) Volume) : list (string * Value) :=
  omap (fun e : Z * string * Volume => if e.1.1 =? vmid then Some (e.1.2, JStr (volume_text vmid e.1.2 e.2)) else None) (map_to_list volumes).
Definition config_of (h : Host) (vmid : Z) (c : Container) : Config :=
  list_to_map (slots_of vmid (h_volumes h)) ∪ (JStr <$> ct_config c).

(** A volume to be made, [storage:size,options]. *)
Definition new_volume (fresh : nat) (text : string) : Volume :=
  let '(first, options, _) := cut text "," in
  let '(storage, size, _) := cut first ":" in mkVol fresh storage size options.
Definition new_volumes (vmid : Z) (fresh : nat) (params : Params) : list (Z * string * Volume) :=
  imap (fun i (p : string * string) => ((vmid, p.1), new_volume (fresh + i) p.2)) (List.filter (fun p : string * string => is_mp p.1) params).

Definition set_container (h : Host) (vmid : Z) (c : Container) : Host :=
  mkHost (<[vmid := c]> (h_containers h)) (h_volumes h) (h_files h) (h_fresh h).
Definition set_keys (params : Params) (config : gmap string string) : gmap string string :=
  foldl (fun m (p : string * string) => if is_mp p.1 then m else <[p.1 := p.2]> m) config params.

(** ** Calls *)

Definition missing {A} : result ApiError A := Err NotFound.
Definition refusal : ApiError := ApiFailed "refused".

Definition failure (c : Call) : resp c :=
  match c with
  | RunArgs _ _ _ | FileSHA256 _ | FileStat _ | Sleep _ | LinkShow => Err "refused"%string
  | _ => Err refusal
  end.

Definition power (h : Host) (vmid : Z) (running : bool) : result ApiError unit * Host :=
  match h_containers h !! vmid with
  | Some c => if bool_decide (ct_running c = running) then (Err refusal, h) else (Ok tt, set_container h vmid (mkContainer (ct_config c) running))
  | None => (missing, h)
  end.

Definition create (h : Host) (vmid : Z) (params : Params) : result ApiError unit * Host :=
  match h_containers h !! vmid with
  | Some _ => (Err refusal, h)
  | None => (Ok tt, mkHost (<[vmid := mkContainer (set_keys params ∅) false]> (h_containers h))
                      (h_volumes h ∪ list_to_map (new_volumes vmid (h_fresh h) params)) (h_files h) (h_fresh h + length params))
  end.

Definition destroy (h : Host) (vmid : Z) : result ApiError unit * Host :=
  match h_containers h !! vmid with
  | Some c => if ct_running c then (Err refusal, h)
              else (Ok tt, mkHost (delete vmid (h_containers h)) (filter (fun e => e.1.1 ≠ vmid) (h_volumes h)) (h_files h) (h_fresh h))
  | None => (missing, h)
  end.

Definition reassign (h : Host) (s t : Z) (k k' : string) : result ApiError unit * Host :=
  match h_volumes h !! (s, k), h_volumes h !! (t, k'), h_containers h !! t with
  | Some v, None, Some _ =>
      if is_mp k && is_mp k'
      then (Ok tt, mkHost (h_containers h) (<[(t, k') := v]> (delete (s, k) (h_volumes h))) (h_files h) (h_fresh h))
      else (Err refusal, h)
  | _, _, _ => (Err refusal, h)
  end.

Definition configure (h : Host) (vmid : Z) (params : Params) : result ApiError unit * Host :=
  match h_containers h !! vmid with
  | Some c => (Ok tt, set_container h vmid (mkContainer (set_keys params (ct_config c)) (ct_running c)))
  | None => (missing, h)
  end.

Definition sim (c : Call) (h : Host) : resp c * Host :=
  match c return resp c * Host with
  | QEMUConfig _ => (missing, h)
  | LXCConfig v => (match h_containers h !! v with Some ct => Ok (config_of h v ct) | None => missing end, h)
  | QEMUStatus _ => (missing, h)
  | LXCStatus v => (match h_containers h !! v with Some ct => Ok (if ct_running ct then "running" else "stopped")%string | None => missing end, h)
  | StartVM _ | StopVM _ | DeleteVM _ => (missing, h)
  | StartLXC v => power h v true
  | StopLXC v => power h v false
  | CreateVM _ _ => (Err refusal, h)
  | CreateLXC v params => create h v params
  | SetVMConfig _ _ => (missing, h)
  | SetLXCConfig v params => configure h v params
  | DeleteLXC v _ => destroy h v
  | ReassignVolume s t k k' _ _ => reassign h s t k k'
  | MoveVolume _ _ _ _ | MoveDisk _ _ _ _ => (Err refusal, h)
  | SetGuestFirewall _ _ _ => (Ok tt, h)
  | ImportDisk _ _ _ _ => (Err refusal, h)
  | StorageContent _ _ => (Ok (map (fun f => mkContent ("local:vztmpl/" +:+ f) f "" "") (h_files h)), h)
  | UploadFile _ _ _ filename _ => (Ok tt, mkHost (h_containers h) (h_volumes h) (filename :: h_files h) (h_fresh h))
  | UploadText _ _ _ _ => (Err refusal, h)
  | RestoreACL _ => (Ok tt, h)
  | NodeNetwork => (Ok [], h)
  | LinkShow => (Ok [], h)
  | CreateNodeNetwork _ | UpdateNodeNetwork _ _ | ReloadNodeNetwork => (Err refusal, h)
  | RunArgs _ _ _ => (Ok ""%string, h)
  | FileSHA256 p => (Ok p, h)
  | FileStat _ => (Ok tt, h)
  | Sleep _ => (Ok tt, h)
  end.

Definition step (f : Fault) (c : Call) (h : Host) : resp c * Host :=
  match f with Works => sim c h | Refused => (failure c, h) | Unheard => (failure c, (sim c h).2) end.

#[export] Instance sim_proxmox : Proxmox Host nat := {
  px_step c h r h' := ∃ f, step f c h = (r, h');
  attached h := filter (fun e => is_mp e.1.2 = true) (vol_id <$> h_volumes h);
}.

(** *** The laws *)

Lemma step_cases (P : Host → Prop) f c h r h' :
  step f c h = (r, h') → P h → P (sim c h).2 → P h'.
Proof. destruct f; cbn; [|by intros [= _ <-]|by intros [= _ <-]]. intros E Hh Hs. by rewrite E in Hs. Qed.

Lemma sim_quiet c h : quiet c = true → h_volumes (sim c h).2 = h_volumes h.
Proof.
  destruct c; try done; intros _; cbn; unfold power, configure; try reflexivity; by repeat case_match.
Qed.

Lemma slots_listed h vmid ct k : is_Some (h_volumes h !! (vmid, k)) → is_Some (config_of h vmid ct !! k).
Proof.
  intros [v Hv]. apply lookup_union_is_Some. left. apply not_eq_None_Some. intros Hn. apply not_elem_of_list_to_map in Hn.
  apply Hn, list_elem_of_fmap. exists (k, JStr (volume_text vmid k v)). split; [done|].
  apply list_elem_of_omap. exists (vmid, k, v). split; [by apply elem_of_map_to_list|]. cbn. by rewrite Z.eqb_refl.
Qed.

Lemma attached_lookup h k x : attached h !! k = Some x ↔ is_mp k.2 = true ∧ vol_id <$> h_volumes h !! k = Some x.
Proof. unfold attached, sim_proxmox. rewrite map_lookup_filter_Some, lookup_fmap. naive_solver. Qed.

Lemma attached_same h h' k : h_volumes h' !! k = h_volumes h !! k → attached h' !! k = attached h !! k.
Proof. intros E. apply option_eq. intros x. by rewrite !attached_lookup, E. Qed.

Lemma attached_sub h h' : h_volumes h ⊆ h_volumes h' → attached h ⊆ attached h'.
Proof.
  intros Hs. apply map_subseteq_spec. intros k x. rewrite !attached_lookup. intros [Hk (v & Hv & Hx)%fmap_Some].
  split; [done|]. by rewrite (lookup_weaken _ _ _ _ Hv Hs), Hx.
Qed.

Lemma sim_create vmid params h :
  h_volumes h ⊆ h_volumes (create h vmid params).2
  ∧ ∀ u k, u ≠ vmid ∨ k ∉ params.*1 → h_volumes (create h vmid params).2 !! (u, k) = h_volumes h !! (u, k).
Proof.
  unfold create. case_match; cbn; [done|]. split; [apply map_union_subseteq_l|]. intros u k Hk.
  rewrite lookup_union. replace (list_to_map (new_volumes vmid (h_fresh h) params) !! (u, k)) with (@None Volume); [by rewrite (right_id_L None (∪))|].
  symmetry. apply not_elem_of_list_to_map. intros (e & E & (i & p & -> & Hp)%elem_of_lookup_imap)%list_elem_of_fmap.
  cbn in E. injection E as -> ->. destruct Hk as [Hk|Hk]; [done|]. apply Hk.
  apply list_elem_of_lookup_2, list_elem_of_In, filter_In in Hp as [Hp%list_elem_of_In _]. apply list_elem_of_fmap. eauto.
Qed.

Lemma sim_destroy vmid h :
  h_volumes (destroy h vmid).2 ⊆ h_volumes h ∧ ∀ u k, u ≠ vmid → h_volumes (destroy h vmid).2 !! (u, k) = h_volumes h !! (u, k).
Proof.
  unfold destroy. repeat case_match; cbn; try done. split; [apply map_filter_subseteq|]. intros u k Hu.
  apply option_eq. intros x. rewrite map_lookup_filter_Some. naive_solver.
Qed.

Lemma sim_reassign s t k k' h h' :
  (reassign h s t k k') = (Ok tt, h') → moved (attached h) (attached h') s k t k'.
Proof.
  unfold reassign. destruct (h_volumes h !! (s, k)) as [v|] eqn:Hv; [|done]. destruct (h_volumes h !! (t, k')) eqn:Hn; [done|].
  destruct (h_containers h !! t); [|done]. destruct (is_mp k && is_mp k') eqn:Hmp; [|done]. intros [= <-]. bools.
  exists (vol_id v). split; [|split].
  - rewrite attached_lookup, Hv. done.
  - apply eq_None_not_Some. intros [x Hx]. apply attached_lookup in Hx. rewrite Hn in Hx. by destruct Hx.
  - unfold attached, sim_proxmox. cbn. rewrite fmap_insert, fmap_delete, map_filter_insert_True, map_filter_delete by done. done.
Qed.

#[export] Instance sim_laws : ProxmoxLaws Host nat.
Proof.
  split.
  - intros h v k [x Hx]. by apply attached_lookup in Hx as [Hk _].
  - intros c h r h' Hc [f E]. unfold attached, sim_proxmox. f_equal. f_equal.
    apply (step_cases (fun h' => h_volumes h' = h_volumes h) _ _ _ _ _ E); [done|]. by apply sim_quiet.
  - intros v h current h' k [f E] [x Hx]. apply attached_lookup in Hx as [_ (vol & Hvol & _)%fmap_Some].
    destruct f; cbn in E; [|done|done]. destruct (h_containers h !! v) as [ct|]; [|done]. injection E as <- _.
    by apply slots_listed.
  - intros v params h r h' [f E].
    pose proof (sim_create v params h) as [Hsub Hk]. split.
    + apply attached_sub. by apply (step_cases (fun h' => h_volumes h ⊆ h_volumes h') _ _ _ _ _ E).
    + intros u k Hu. apply attached_same.
      apply (step_cases (fun h' => h_volumes h' !! (u, k) = h_volumes h !! (u, k)) _ _ _ _ _ E); [done|]. by apply Hk.
  - intros v purge h r h' [f E]. pose proof (sim_destroy v h) as [Hsub Hk]. split.
    + apply attached_sub. by apply (step_cases (fun h' => h_volumes h' ⊆ h_volumes h) _ _ _ _ _ E).
    + intros u k Hu. apply attached_same.
      apply (step_cases (fun h' => h_volumes h' !! (u, k) = h_volumes h !! (u, k)) _ _ _ _ _ E); [done|]. by apply Hk.
  - intros s t k k' d d' h r h' [f E] Hst. cbn in E.
    assert (∀ r1 h1, reassign h s t k k' = (r1, h1) → moved (attached h) (attached h1) s k t k' ∨ r1 ≠ Ok tt ∧ h1 = h) as Hr.
    { intros r1 h1 E1. destruct r1 as [[]|e]; [left; by apply sim_reassign|right]. split; [done|].
      unfold reassign in E1. repeat case_match; by simplify_eq. }
    destruct f; cbn in E.
    + destruct (Hr _ _ E) as [?|[? ->]]; auto.
    + injection E as <- <-. by right.
    + destruct (reassign h s t k k') as [r1 h1] eqn:E1. injection E as <- <-. cbn. destruct (Hr _ _ eq_refl) as [?|[? ->]]; [by left|by right].
Qed.

(** A run in which the calls have the given faults, and then none. *)
Fixpoint exec {A : Type} (p : Prog A) (faults : list Fault) (h : Host) : A * Host * list Call :=
  match p with
  | Ret a => (a, h, [])
  | Next c k =>
      let '(r, h') := step (hd Works faults) c h in
      let '(a, h2, calls) := exec (k r) (tl faults) h' in (a, h2, c :: calls)
  end.

Lemma exec_run {A} (p : Prog A) faults h : run p h (Some (exec p faults h).1.1) (exec p faults h).1.2.
Proof.
  revert faults h. induction p as [a|c k IH]; intros faults h; cbn; [constructor|].
  destruct (step (hd Works faults) c h) as [r h'] eqn:E. specialize (IH r (tl faults) h').
  destruct (exec (k r) (tl faults) h') as [[a h2] calls]. eapply run_call; [by exists (hd Works faults)|exact IH].
Qed.

(** ** A container with two volumes *)

Module Lab.
Definition volume (name path : string) (size : Z) : PersistentVolume :=
  mkVolume name "gatus" "lab-gatus-01" size path "local-lvm" true "local-lvm".
Definition image (version : string) : Artifact := mkArtifact "boetticher-gatus" version "amd64" "lxc" "def" "abc".
Definition tags : list string := ["boetticher"; "managed"; "module"; "module-gatus"; "boetticher-module-gatus"; "backup"]%string.
Definition guest : GuestPlan :=
  mkGuest [] 220 "lab-gatus-01" KindLXC "lab-gatus-01" "SERVERS" "10.10.20.20" "" "10.10.20.1" 20 1 512 8 true true
    tags [] "boetticher/module/gatus" (image "2") [] [volume "data" "/var/lib/gatus" 10; volume "logs" "/var/log" 2]
    (mkSecurity true [] []) [].
Definition plan (confirmed : bool) : Plan :=
  mkPlan "" "" "pve" "local-lvm" [] "" "" "" [guest] {[ artifactKey (image "2") := "abc"%string ]} "" (mkCloudInit "" "" "") confirmed
    false false false "" "".

(** The host with the earlier version of the container, running. *)
Definition old_config : gmap string string :=
  list_to_map [("hostname", "lab-gatus-01"); ("description", artifactDescription (image "1")); ("unprivileged", "1");
    ("rootfs", "local-lvm:vm-220-disk-0,size=8G"); ("tags", tag_text tags)]%string.
Definition old_volume (id : nat) (path size : string) : Volume := mkVol id "local-lvm" size ("mp=" +:+ path +:+ ",backup=1").
Definition host : Host :=
  mkHost {[ 220 := mkContainer old_config true ]}
    (list_to_map [((220, "mp0"%string), old_volume 1 "/var/lib/gatus" "10"); ((220, "mp1"%string), old_volume 2 "/var/log" "2")]) [] 10.

Lemma outside v : v < 910 → v ∉ holder_vmids.
Proof. intros Hv. unfold holder_vmids. rewrite !not_elem_of_cons. repeat split; try lia. apply not_elem_of_nil. Qed.

Definition unicode : GoUnicode := ascii_only.
Definition ensure (confirmed : bool) : PM unit := @ensureLXC unicode true 3 (plan confirmed) guest.

(** The [n]-th call is refused, all others work. *)
Definition refuse (n : nat) : list Fault := repeat Works n ++ [Refused].

(** Where volumes are afterwards. *)
Definition volumes_of (h : Host) : list (Z * string * nat) := map (fun e => (e.1, vol_id e.2)) (map_to_list (h_volumes h)).
End Lab.
End PxSim.
