(* ===== verification/PxCalls.v ===== *)
(** * What the containers' programs ask for ([PxLxc])

    Facts about the calls themselves, whatever Proxmox answers: what is never
    asked without confirmation, which containers are touched, what is read and
    checked before the guest is stopped, moved or destroyed, and what has been
    checked when the program reports success. *)

From S2P Require Export PxSim.

Open Scope Z_scope.

Module PxCalls.
Import Model PxGuest PxLxc PxSafe PxSim.

(** Takes a program apart; the calls themselves are decided by computation. *)
Create HintDb calls.
Ltac calls := repeat (first [calls_step | solve [eauto with calls] | reflexivity]).

(** ** Confirmation *)

(** Calls that destroy a container, take a volume from one, or restore what a
    destruction took away. *)
Definition destructive (c : Call) : bool :=
  match c with DeleteLXC _ _ | DeleteVM _ | ReassignVolume _ _ _ _ _ _ | RestoreACL _ => true | _ => false end.

Lemma guard_bad {A} (e : PxError) (f : unit → PM A) : guard true e ≫= f = throw e.
Proof. done. Qed.

Section spares.
Context `{GoUnicode, PxDigest}.
Abbreviation spares := (all_calls (fun c => destructive c = false)).

Lemma GuestConfig_spares vmid : spares (GuestConfig vmid).
Proof. unfold GuestConfig. calls. Qed.
Hint Resolve GuestConfig_spares : calls.

Lemma lxcTemplate_spares plan guest : spares (lxcTemplate plan guest).
Proof. unfold lxcTemplate, ensureArtifactInStorage, upload_artifact. calls. Qed.
Lemma ensureGuestMACFilter_spares plan guest : spares (ensureGuestMACFilter plan guest).
Proof. unfold ensureGuestMACFilter, SetGuestNetworkFilters. calls. Qed.
Hint Resolve lxcTemplate_spares ensureGuestMACFilter_spares : calls.

Lemma createLXC_spares plan guest retained attach : spares (createLXC plan guest retained attach).
Proof. unfold createLXC, client_CreateLXC, configureLXCDevices, run_root. calls. Qed.
Hint Resolve createLXC_spares : calls.

Lemma waitForLegacyLXCLoopRelease_spares plan attempts volumeID volumePath loop :
  spares (waitForLegacyLXCLoopRelease plan attempts volumeID volumePath loop).
Proof. induction attempts as [|attempts IH]; cbn [waitForLegacyLXCLoopRelease]; unfold associated, run_root; calls. Qed.
Hint Resolve waitForLegacyLXCLoopRelease_spares : calls.

Lemma migrateLXCPersistentVolumes_spares plan guest current : spares (migrateLXCPersistentVolumes plan guest current).
Proof.
  unfold migrateLXCPersistentVolumes, move_volumes, move_volume, releaseLegacyLXCLoopMapping, associated, run_root,
    running_or_stopped, client_LXCStatus, client_StopLXC, client_StartLXC, client_MoveLXCPersistentVolume.
  calls.
Qed.
Lemma ensureExistingGuestTags_spares plan guest current : spares (ensureExistingGuestTags plan guest current).
Proof. unfold ensureExistingGuestTags, client_SetLXCConfig. calls. Qed.
Lemma ensureExistingLXCNameserver_spares plan guest current : spares (ensureExistingLXCNameserver plan guest current).
Proof. unfold ensureExistingLXCNameserver, client_SetLXCConfig. calls. Qed.
Hint Resolve migrateLXCPersistentVolumes_spares ensureExistingGuestTags_spares ensureExistingLXCNameserver_spares : calls.

Lemma EnsureLXCRunning_spares plan vmid : spares (EnsureLXCRunning plan vmid).
Proof. unfold EnsureLXCRunning, client_LXCStatus, client_StartLXC. calls. Qed.

Lemma ensureLXC_spares has_acl fuel plan guest : p_DestructiveConfirmed plan = false → spares (ensureLXC has_acl fuel plan guest).
Proof.
  revert plan. induction fuel as [|fuel IH]; intros plan Hc; cbn [ensureLXC]; [exact I|].
  assert (∀ again current, spares (adopt_container has_acl plan again guest current)).
  { intros again current. unfold adopt_container. rewrite Hc, guard_bad. calls. }
  assert (spares (missing_container plan (ensureLXC has_acl fuel plan) guest)).
  { unfold missing_container. rewrite Hc. calls. }
  assert (spares (recreate_legacy plan guest)) by (unfold recreate_legacy; rewrite Hc; exact I).
  calls.
Qed.

(** Unless the operator confirmed it, provisioning a module asks for no
    destruction: whatever Proxmox answers, and whichever recovery flags are set,
    none of its calls deletes a container or takes a volume from one. *)
Theorem ProvisionModule_confirmed has_acl fuel plan module :
  p_DestructiveConfirmed plan = false → all_calls (fun c => destructive c = false) (ProvisionModule has_acl fuel plan module).
Proof.
  intros Hc. unfold ProvisionModule. calls; [by apply ensureLXC_spares|apply EnsureLXCRunning_spares].
Qed.
End spares.

(** ** The protocol *)

(** [owned]: a configuration of the guest was read that carries its names, its
    ownership and its tags (or that of an earlier layout).  [proven]: since the
    guest's container or volumes were last changed, one was read that carries
    the planned artifact and every declared volume. *)
Record Protocol := mkProtocol { owned : bool; proven : bool }.

Definition is_ok {E A} (r : result E A) : bool := match r with Ok _ => true | Err _ => false end.

Section protocol.
Context `{GoUnicode, PxDigest} (guest : GuestPlan).
Abbreviation gv := (g_VMID guest).

Definition reads_owned (current : Config) : bool :=
  is_ok (validateExistingGuestDestructiveIdentity current guest) || is_ok (validateLegacyLXCRecreation current guest).
Definition reads_proven (current : Config) : bool :=
  is_ok (validateExistingGuestIdentity current guest) && is_ok (validateExistingGuestVolumes current guest).

Definition changed (s : Protocol) : Protocol := mkProtocol (owned s) false.
Definition read (current : Config) (s : Protocol) : Protocol :=
  mkProtocol (owned s || reads_owned current) (proven s || reads_proven current).

Definition advance (s : Protocol) (c : Call) : resp c → Protocol :=
  match c with
  | LXCConfig v => fun r => match r with Ok current => if v =? gv then read current s else s | Err _ => s end
  | CreateLXC v _ | DeleteLXC v _ | MoveVolume v _ _ _ => fun _ => if v =? gv then changed s else s
  | ReassignVolume v t _ _ _ _ => fun _ => if (v =? gv) || (t =? gv) then changed s else s
  | _ => fun _ => s
  end.

(** Only the guest and the holders are touched, and the guest is stopped,
    destroyed, or loses or moves a volume, only when it is ours. *)
Definition permitted (s : Protocol) (c : Call) : Prop :=
  match c with
  | QEMUConfig _ | LXCConfig _ | QEMUStatus _ | LXCStatus _ | StorageContent _ _ | UploadFile _ _ _ _ _
  | FileSHA256 _ | FileStat _ | Sleep _ => True
  | StartLXC v | SetLXCConfig v _ | SetVMConfig v _ | SetGuestFirewall _ v _ | RestoreACL v => v = gv
  | CreateLXC v _ => v ∈ team guest
  | StopLXC v | MoveVolume v _ _ _ => v = gv ∧ owned s = true
  | DeleteLXC v _ => v ∈ holder_vmids ∨ v = gv ∧ owned s = true
  | ReassignVolume v t _ _ _ _ => v ∈ holder_vmids ∧ t = gv ∨ v = gv ∧ t ∈ holder_vmids ∧ owned s = true
  | RunArgs _ _ args =>
      (∃ n param, args = ["/usr/sbin/pct"; "set"; itoa gv; "--dev" +:+ n; param])
      ∨ ∃ rest, args = "/usr/sbin/pvesm" :: "path" :: rest ∨ args = "/usr/sbin/losetup" :: rest
  | StartVM _ | StopVM _ | CreateVM _ _ | DeleteVM _ | UploadText _ _ _ _ | MoveDisk _ _ _ _ | ImportDisk _ _ _ _
  | NodeNetwork | LinkShow | CreateNodeNetwork _ | UpdateNodeNetwork _ _ | ReloadNodeNetwork => False
  end.

Abbreviation watch := (watched permitted advance).

Abbreviation obeys := (follows permitted advance (fun _ => True)).

Definition below (s s' : Protocol) : Prop := (owned s = true → owned s' = true) ∧ (proven s = true → proven s' = true).
#[local] Instance below_preorder : PreOrder below.
Proof. split; [done|]. intros s1 s2 s3 [] []. split; auto. Qed.

Abbreviation still := (stays permitted advance below).

(** *** Programs that change nothing the monitor follows *)

Lemma obeys_check {A} (g : Hold → PxError) (r : result Hold A) (Q : A → Protocol → Prop) s :
  (∀ a, r = Ok a → Q a s) → obeys (check g r) Q s.
Proof. by apply follows_check. Qed.
Lemma obeys_guard b (e : PxError) (Q : unit → Protocol → Prop) s : (b = false → Q tt s) → obeys (guard b e) Q s.
Proof. by apply follows_guard. Qed.
Lemma unchanged_still c : (∀ s r, advance s c r = s) → (∀ s, permitted s c) → still c.
Proof. apply unchanged_stays, _. Qed.
Lemma watch_still {A} (p : Prog A) (Q : A → Protocol → Prop) s : all_calls still p → (∀ a s', below s s' → Q a s') → watch p Q s.
Proof. apply watched_still, _. Qed.
Lemma obeys_still {A} (m : PM A) (Q : A → Protocol → Prop) s : all_calls still m → (∀ a s', below s s' → Q a s') → obeys m Q s.
Proof. intros Hm HQ. by apply (follows_still permitted advance (fun _ => True) below). Qed.

Lemma config_still v : still (LXCConfig v).
Proof.
  split; [done|]. intros s [current|e]; cbn; [|done]. destruct (v =? gv); [|done].
  split; cbn; intros ->; done.
Qed.
Hint Resolve config_still : calls.

Ltac stills := repeat (first [calls_step | solve [eauto with calls] | solve [apply unchanged_still; [done|]; intros; cbn; eauto 6]]).

Lemma GuestConfig_still v : all_calls still (GuestConfig v).
Proof. unfold GuestConfig. stills. Qed.
Hint Resolve GuestConfig_still : calls.

Lemma LXCStatus_still plan : all_calls still (client_LXCStatus plan gv).
Proof. unfold client_LXCStatus. stills. Qed.
Lemma StartLXC_still : all_calls still (client_StartLXC gv).
Proof. unfold client_StartLXC. stills. Qed.
Lemma lxcTemplate_still plan : all_calls still (lxcTemplate plan guest).
Proof. unfold lxcTemplate, ensureArtifactInStorage, upload_artifact. stills. Qed.
Lemma ensureGuestMACFilter_still plan : all_calls still (ensureGuestMACFilter plan guest).
Proof. unfold ensureGuestMACFilter, SetGuestNetworkFilters. stills. Qed.
Lemma configureLXCDevices_still plan : all_calls still (configureLXCDevices plan guest).
Proof. unfold configureLXCDevices, run_root. stills. Qed.
Hint Resolve LXCStatus_still StartLXC_still lxcTemplate_still ensureGuestMACFilter_still configureLXCDevices_still : calls.

Lemma ensureExistingGuestTags_still plan current : all_calls still (ensureExistingGuestTags plan guest current).
Proof. unfold ensureExistingGuestTags, client_SetLXCConfig. stills. Qed.
Lemma ensureExistingLXCNameserver_still plan current : all_calls still (ensureExistingLXCNameserver plan guest current).
Proof. unfold ensureExistingLXCNameserver, client_SetLXCConfig. stills. Qed.
Hint Resolve ensureExistingGuestTags_still ensureExistingLXCNameserver_still : calls.

Lemma waitForLegacyLXCLoopRelease_still plan attempts volumeID volumePath loop :
  all_calls still (waitForLegacyLXCLoopRelease plan attempts volumeID volumePath loop).
Proof. induction attempts as [|attempts IH]; cbn [waitForLegacyLXCLoopRelease]; unfold associated, run_root; stills. Qed.
Hint Resolve waitForLegacyLXCLoopRelease_still : calls.

Lemma releaseLegacyLXCLoopMapping_still plan observed : all_calls still (releaseLegacyLXCLoopMapping plan guest observed).
Proof. unfold releaseLegacyLXCLoopMapping, associated, run_root. stills. Qed.
Hint Resolve releaseLegacyLXCLoopMapping_still : calls.

(** *** Reading *)

(** What the monitor has learned from a configuration of the guest. *)
Definition told (current : Config) (s : Protocol) : Prop :=
  (reads_owned current = true → owned s = true) ∧ (reads_proven current = true → proven s = true).

Lemma told_below current s s' : told current s → below s s' → told current s'.
Proof. intros [] []. split; auto. Qed.

Lemma read_told current s : told current (advance s (LXCConfig gv) (Ok current)).
Proof. cbn. rewrite Z.eqb_refl. split; cbn; intros ->; apply orb_true_r. Qed.

Lemma told_owned current u s : told current s → validateExistingGuestDestructiveIdentity current guest = Ok u → owned s = true.
Proof. intros [Ho _] Hu. apply Ho. unfold reads_owned. by rewrite Hu. Qed.

Lemma told_legacy current u s : told current s → validateLegacyLXCRecreation current guest = Ok u → owned s = true.
Proof. intros [Ho _] Hu. apply Ho. unfold reads_owned. rewrite Hu. apply orb_true_r. Qed.

Lemma told_proven current u u' s : told current s → validateExistingGuestIdentity current guest = Ok u →
  validateExistingGuestVolumes current guest = Ok u' → proven s = true.
Proof. intros [_ Hp] Hu Hu'. apply Hp. unfold reads_proven. by rewrite Hu, Hu'. Qed.

Lemma watch_GuestConfig (Q : result ApiError (GuestKind * Config) → Protocol → Prop) s :
  (∀ r s', below s s' → (∀ current, r = Ok (KindLXC, current) → told current s') → Q r s') → watch (GuestConfig gv) Q s.
Proof.
  intros HQ. split; [done|]. intros [current|[|m]].
  - apply HQ; [done|]. by intros c [= ].
  - split; [done|]. intros r. apply HQ; [apply config_still|]. destruct r as [current|e]; intros c [= <-]. apply read_told.
  - apply HQ; [done|]. by intros c [= ].
Qed.

Lemma obeys_GuestConfig what (Q : GuestKind * Config → Protocol → Prop) s :
  (∀ kind current s', below s s' → (kind = KindLXC → told current s') → Q (kind, current) s') →
  obeys (api what (GuestConfig gv)) Q s.
Proof.
  intros HQ. apply watched_pbind, watch_GuestConfig. intros [[kind current]|e] s' Hs Hl; cbn; [|done].
  apply HQ; [done|]. intros ->. by apply Hl.
Qed.

Lemma obeys_LXCConfig what (Q : Config → Protocol → Prop) s :
  (∀ current s', below s s' → told current s' → Q current s') → obeys (api what (call (LXCConfig gv))) Q s.
Proof.
  intros HQ. split; [done|]. intros [current|e]; cbn; [|done].
  apply HQ; [apply (proj2 (config_still gv) s (Ok current))|apply read_told].
Qed.

(** *** Changing *)

Lemma advance_owned s c r : owned s = true → owned (advance s c r) = true.
Proof.
  intros Hs. destruct c; cbn; try done; repeat case_match; cbn; try done. by rewrite Hs.
Qed.

(** What is ours stays ours. *)
Definition keeps (s s' : Protocol) : Prop := owned s = true → owned s' = true.

Lemma below_keeps s s' : below s s' → keeps s s'.
Proof. by intros []. Qed.
Lemma keeps_trans s1 s2 s3 : keeps s1 s2 → keeps s2 s3 → keeps s1 s3.
Proof. unfold keeps. auto. Qed.

Ltac changes HQ :=
  repeat (apply watched_bad; [intros; apply HQ; exact (fun h => h)|intros _]);
  split; [assumption|intros r; apply HQ; exact (advance_owned _ _ r)].

Lemma watch_create plan v params (Q : result ApiError unit → Protocol → Prop) s :
  v ∈ team guest → (∀ r s', keeps s s' → Q r s') → watch (client_CreateLXC plan v params) Q s.
Proof. intros Hp HQ. unfold client_CreateLXC. changes HQ. Qed.

Lemma watch_stop plan (Q : result ApiError unit → Protocol → Prop) s :
  owned s = true → (∀ r s', keeps s s' → Q r s') → watch (client_StopLXC plan gv) Q s.
Proof. intros Ho HQ. assert (permitted s (StopLXC gv)) as Hp by done. unfold client_StopLXC. changes HQ. Qed.

Lemma watch_destroy plan v (Q : result ApiError unit → Protocol → Prop) s :
  v ∈ holder_vmids ∨ v = gv ∧ owned s = true → (∀ r s', keeps s s' → Q r s') → watch (destroyLXCForReplacement plan v) Q s.
Proof. intros Hp HQ. unfold destroyLXCForReplacement. changes HQ. Qed.

Lemma watch_discard plan (Q : result ApiError unit → Protocol → Prop) s :
  owned s = true → (∀ r s', keeps s s' → Q r s') → watch (client_DestroyLXC plan gv) Q s.
Proof.
  intros Ho HQ. assert (permitted s (DeleteLXC gv true)) as Hp by by right. unfold client_DestroyLXC. changes HQ.
Qed.

Lemma watch_reassign plan v t k k' d d' (Q : result ApiError unit → Protocol → Prop) s :
  v ∈ holder_vmids ∧ t = gv ∨ v = gv ∧ t ∈ holder_vmids ∧ owned s = true → (∀ r s', keeps s s' → Q r s') →
  watch (client_ReassignLXCVolume plan v t k k' d d') Q s.
Proof. intros Hp HQ. unfold client_ReassignLXCVolume. changes HQ. Qed.

Lemma watch_move plan k storage d (Q : result ApiError unit → Protocol → Prop) s :
  owned s = true → (∀ r s', keeps s s' → Q r s') → watch (client_MoveLXCPersistentVolume plan gv k storage d) Q s.
Proof.
  intros Ho HQ. assert (permitted s (MoveVolume gv k storage d)) as Hp by done. unfold client_MoveLXCPersistentVolume. changes HQ.
Qed.

(** *** The programs *)

Ltac still_step s' Hs := apply follows_bind, obeys_still; [solve [stills]|intros ? s' Hs].

Lemma obeys_createLXC plan retained attach (Q : unit → Protocol → Prop) s :
  (∀ s', keeps s s' → (attach = true → proven s' = true) → Q tt s') → obeys (createLXC plan guest retained attach) Q s.
Proof.
  intros HQ. unfold createLXC. still_step s1 L1. still_step s2 L2. still_step s3 L3. still_step s4 L4.
  apply follows_bind, obeys_still; [exact I|]. intros ps s5 L5. still_step s6 L6.
  apply follows_bind, follows_api, watch_create; [by left|]. intros [[]|e] s7 L7; [|done]. still_step s8 L8.
  apply follows_bind, obeys_GuestConfig. intros kind current s9 L9 Ht.
  apply follows_bind, obeys_guard. intros Hkind%bool_decide_eq_false%dec_stable.
  apply follows_bind, obeys_check. intros u Hu. apply follows_bind, obeys_check. intros u' Hu'.
  apply obeys_still; [apply ensureGuestMACFilter_still|]. intros [] s10 L10. apply HQ.
  - apply below_keeps in L1, L2, L3, L4, L5, L6, L8, L9, L10. unfold keeps in *. auto 20.
  - intros ->. apply L10. eapply told_proven; eauto.
Qed.

Lemma obeys_replacementHolderFor target (Q : option (Z * Config) → Protocol → Prop) s :
  (∀ r s', below s s' → (∀ h c, r = Some (h, c) → h ∈ holder_vmids) → Q r s') → obeys (replacementHolderFor target) Q s.
Proof.
  intros HQ. unfold replacementHolderFor. revert s HQ. generalize holder_vmids.
  induction l as [|h hs IH]; intros s HQ; cbn [holder_search]; [by apply HQ|].
  apply watched_pbind, watch_still; [apply GuestConfig_still|]. intros r s1 L1.
  assert (obeys (holder_search target hs) Q s1).
  { apply IH. intros r' s2 L2 Hr. apply HQ; [by etrans|]. intros h' c' E. right. by eapply Hr. }
  destruct r as [[kind current]|[|m]]; [|done|done]. case_match; [|done]. apply HQ; [done|]. intros h' c' [= <- <-]. by left.
Qed.

Lemma obeys_free_vmid (Q : Z → Protocol → Prop) s :
  (∀ h s', below s s' → h ∈ holder_vmids → Q h s') → obeys (free_vmid holder_vmids) Q s.
Proof.
  revert s. generalize holder_vmids. induction l as [|h hs IH]; intros s HQ; cbn [free_vmid]; [done|].
  apply watched_pbind, watch_still; [apply GuestConfig_still|]. intros r s1 L1.
  destruct r as [[kind current]|[|m]]; [|by apply HQ; [|left]|done].
  apply IH. intros h' s2 L2 Hh. apply HQ; [by etrans|]. by right.
Qed.

Lemma obeys_ensureReplacementHolder plan (Q : Z → Protocol → Prop) s :
  (∀ h s', keeps s s' → h ∈ holder_vmids → Q h s') → obeys (ensureReplacementHolder plan guest) Q s.
Proof.
  intros HQ. apply follows_bind, obeys_replacementHolderFor. intros [[h c]|] s1 L1 Hh.
  { apply HQ; [by apply below_keeps|]. by eapply Hh. }
  apply follows_bind, obeys_free_vmid. intros h s2 L2 Hh'. still_step s3 L3.
  apply follows_bind, follows_api, watch_create; [by right|]. intros [[]|e] s4 L4; [|done].
  apply follows_bind, obeys_still; [stills|intros [kind current] s5 L5]. apply follows_bind, obeys_guard. intros _. apply HQ; [|done].
  apply below_keeps in L1, L2, L3, L5. unfold keeps in *. auto 20.
Qed.

Lemma container_config_still what v : all_calls still (container_config what v).
Proof. unfold container_config. stills. Qed.
Hint Resolve container_config_still : calls.

Lemma obeys_replacement_gate plan (Q : string → Protocol → Prop) s :
  (∀ status s', owned s' = true → Q status s') → obeys (replacement_gate plan guest) Q s.
Proof.
  intros HQ. apply follows_bind, obeys_GuestConfig. intros kind current s1 L1 Ht.
  apply follows_bind, obeys_guard. intros Hkind%bool_decide_eq_false%dec_stable.
  apply follows_bind, obeys_check. intros u Hu. assert (owned s1 = true) as Ho by (eapply told_owned; eauto).
  still_step s2 L2. still_step s3 L3.
  apply follows_bind, obeys_still; [stills|intros status s4 L4]. apply follows_bind, obeys_guard. intros _.
  apply below_keeps in L2, L3, L4. assert (owned s4 = true) by auto.
  apply follows_bind. destruct (status == "running"); [|by apply HQ].
  apply follows_api, watch_stop; [done|]. intros [[]|e] s5 L5; [|done]. apply HQ. auto.
Qed.

(** *** Transfers and failure *)

Lemma obeys_reassignTo plan h e s : h ∈ holder_vmids → owned s = true →
  obeys (reassignLXCVolumeToHolder plan guest h e) (fun _ s' => owned s' = true) s.
Proof.
  intros Hh Ho. destruct e as [i vol]. unfold reassignLXCVolumeToHolder.
  still_step s1 L1. still_step s2 L2. still_step s3 L3. still_step s4 L4. still_step s5 L5.
  assert (owned s5 = true) by (apply below_keeps in L1, L2, L3, L4, L5; unfold keeps in *; auto 20).
  apply follows_api, watch_reassign; [by right|]. intros [[]|e] s6 L6; auto.
Qed.

Lemma obeys_reassignFrom plan h e s : h ∈ holder_vmids →
  obeys (reassignLXCVolumeFromHolder plan guest h e) (fun _ s' => keeps s s') s.
Proof.
  intros Hh. destruct e as [i vol]. unfold reassignLXCVolumeFromHolder.
  still_step s1 L1. still_step s2 L2. still_step s3 L3. still_step s4 L4. still_step s5 L5.
  apply follows_api, watch_reassign; [by left|]. intros [[]|e] s6 L6; [|done].
  apply below_keeps in L1, L2, L3, L4, L5. unfold keeps in *. auto 20.
Qed.

Lemma obeys_from_all plan h s : h ∈ holder_vmids →
  obeys (eachP (reassignLXCVolumeFromHolder plan guest h) (indexed (g_Volumes guest))) (fun _ s' => keeps s s') s.
Proof.
  intros Hh. apply follows_eachP; [by intros ?|]. intros e s1 _ Hs. eapply follows_mono; [by apply obeys_reassignFrom|].
  intros [] s2. by apply keeps_trans.
Qed.

Lemma obeys_restore plan h s : h ∈ holder_vmids → obeys (restoreLXCVolumesFromHolder plan guest h) (fun _ s' => keeps s s') s.
Proof.
  intros Hh. apply follows_eachP; [by intros ?|]. intros e s1 _ Hs. still_step s2 L2.
  assert (keeps s s2) by (eapply keeps_trans; [exact Hs|by apply below_keeps]). case_match; [|assumption].
  eapply follows_mono; [by apply obeys_reassignFrom|]. intros [] s3. by apply keeps_trans.
Qed.

Lemma obeys_restart_after what wasRunning (e : PxError) (Q : unit → Protocol → Prop) s :
  obeys (restart_after guest what wasRunning e) Q s.
Proof. unfold restart_after. destruct wasRunning; [|done]. apply watched_pbind, watch_still; [apply StartLXC_still|done]. Qed.

Lemma obeys_clean_up plan h wasRunning cleanupHolder sourceRemoved (e : PxError) (Q : unit → Protocol → Prop) s :
  h ∈ holder_vmids → obeys (clean_up plan guest h wasRunning cleanupHolder sourceRemoved e) Q s.
Proof.
  intros Hh. unfold clean_up. destruct cleanupHolder; [|apply obeys_restart_after].
  apply follows_catch. eapply watched_mono; [by apply obeys_restore|]. intros [[]|e'] s1 _; [|apply obeys_restart_after].
  apply watched_pbind, watch_destroy; [by left|]. intros r s2 _. apply obeys_restart_after.
Qed.

Lemma obeys_guarded {A} plan h wasRunning cleanupHolder sourceRemoved (m : PM A) (k : A → PM unit) (Q : unit → Protocol → Prop) s :
  h ∈ holder_vmids → obeys m (fun a s' => obeys (k a) Q s') s →
  obeys (guarded plan guest h wasRunning cleanupHolder sourceRemoved m k) Q s.
Proof.
  intros Hh Hm. apply follows_catch. eapply watched_mono; [exact Hm|]. intros [a|e] s1 Hk; [exact Hk|by apply obeys_clean_up].
Qed.

Lemma obeys_replace_with_holder plan has_acl h wasRunning s : h ∈ holder_vmids → owned s = true →
  obeys (replace_with_holder plan has_acl guest h wasRunning) (fun _ _ => True) s.
Proof.
  intros Hh Ho. apply obeys_guarded; [done|]. eapply follows_mono.
  { apply (follows_eachP _ _ _ _ _ (fun s' => owned s' = true)); [done|]. intros e s1 _ Ho1. by apply obeys_reassignTo. }
  intros [] s1 Ho1. apply obeys_guarded; [done|]. apply follows_api, watch_destroy; [by right|]. intros [[]|e] s2 L2; [|done].
  apply obeys_guarded; [done|]. apply obeys_still; [stills|]. intros [] s3 L3.
  apply obeys_guarded; [done|]. apply follows_bind, obeys_createLXC. intros s4 L4 _.
  apply follows_bind. eapply follows_mono; [by apply obeys_from_all|]. intros [] s5 L5.
  apply follows_api, watch_destroy; [by left|]. by intros [[]|e] s6 L6.
Qed.

Section again.
Context (again : GuestPlan → PM unit).
Hypothesis Hagain : ∀ s, obeys (again guest) (fun _ s' => proven s' = true) s.

Lemma obeys_recover plan h s : h ∈ holder_vmids →
  obeys (recoverLXCReplacement plan again guest h) (fun _ s' => proven s' = true) s.
Proof.
  intros Hh. apply follows_bind.
  assert (obeys (recovery_target plan guest) (fun _ _ => True) s) as Ht.
  { apply watched_pbind, watch_still; [apply GuestConfig_still|]. intros [[kind current]|[|m]] s1 L1; [|by apply obeys_createLXC|done].
    apply obeys_still; [stills|done]. }
  eapply follows_mono; [exact Ht|]. intros [] s1 _. apply follows_bind.
  eapply follows_mono; [by apply obeys_from_all|]. intros [] s2 _.
  apply follows_bind, follows_api, watch_destroy; [by left|]. intros [[]|e] s3 L3; [|done]. apply Hagain.
Qed.

Lemma obeys_replaceLXC plan has_acl s : obeys (replaceLXC plan has_acl again guest) (fun _ _ => True) s.
Proof.
  apply follows_bind, obeys_replacementHolderFor. intros [[h c]|] s1 L1 Hh.
  { eapply follows_mono; [by eapply obeys_recover, Hh|]. done. }
  apply follows_bind, obeys_replacement_gate. intros status s2 Ho. apply follows_catch.
  eapply watched_mono.
  { apply (obeys_ensureReplacementHolder plan (fun h s' => h ∈ holder_vmids ∧ owned s' = true)). auto. }
  intros [h|e] s3; [|intros _; apply obeys_restart_after]. intros [Hh' Ho3]. by apply obeys_replace_with_holder.
Qed.
End again.

(** *** Existing containers *)

Lemma obeys_move_volume plan m s : owned s = true → obeys (move_volume plan guest m) (fun _ s' => owned s' = true) s.
Proof.
  intros Ho. apply follows_bind, obeys_LXCConfig. intros current s1 L1 Ht. still_step s2 L2.
  assert (owned s2 = true) by (apply below_keeps in L1, L2; auto).
  cbv zeta. case_match; [done|]. apply follows_bind, obeys_guard. intros _.
  apply follows_api, watch_move; [done|]. intros [[]|e] s3 L3; auto.
Qed.

Lemma obeys_move_volumes plan migrations s : owned s = true →
  obeys (move_volumes plan guest migrations) (fun current s' => told current s') s.
Proof.
  intros Ho. unfold move_volumes. apply follows_bind, obeys_still; [stills|]. intros [] s1 L1.
  apply follows_bind. eapply follows_mono.
  { apply (follows_eachP _ _ _ _ _ (fun s' => owned s' = true)); [by apply L1|]. intros m s2 _ Ho2. by apply obeys_move_volume. }
  intros [] s2 Ho2. by apply obeys_LXCConfig.
Qed.

Lemma obeys_migrate plan current s : told current s →
  obeys (migrateLXCPersistentVolumes plan guest current) (fun current' s' => told current' s') s.
Proof.
  intros Ht. apply follows_bind, obeys_check. intros migrations _. destruct (length migrations =? 0)%nat; [exact Ht|].
  apply follows_bind, obeys_check. intros u Hu. assert (owned s = true) as Ho by by eapply told_owned.
  apply follows_bind, obeys_still; [stills|]. intros status s1 L1. apply follows_bind, obeys_guard. intros _.
  assert (owned s1 = true) as Ho1 by by apply L1.
  destruct (status == "running"); [|by apply obeys_move_volumes].
  apply follows_bind, follows_api, watch_stop; [done|]. intros [[]|e] s2 L2; [|done].
  apply follows_catch. eapply watched_mono; [by apply obeys_move_volumes, L2|]. intros outcome s3 Ht3.
  apply watched_pbind, watch_still; [apply StartLXC_still|]. intros started s4 L4. cbn.
  destruct started as [[]|e], outcome as [current'|e']; cbn; try done. by eapply told_below.
Qed.

Lemma obeys_discardLegacyLXC plan s : obeys (discardLegacyLXC plan guest) (fun _ _ => True) s.
Proof.
  apply follows_bind, obeys_GuestConfig. intros kind current s1 L1 Ht.
  apply follows_bind, obeys_guard. intros Hkind%bool_decide_eq_false%dec_stable.
  apply follows_bind, obeys_check. intros u Hu. assert (owned s1 = true) as Ho by (eapply told_legacy; eauto).
  apply follows_bind, obeys_still; [stills|]. intros status s2 L2. apply follows_bind, obeys_guard. intros _.
  assert (owned s2 = true) as Ho2 by by apply L2.
  assert (∀ s, owned s = true → obeys (api "discard legacy state" (client_DestroyLXC plan gv)) (fun _ _ => True) s) as Hd.
  { intros s3 Ho3. apply follows_api, watch_discard; [done|]. by intros [[]|e]. }
  destruct (status == "running"); [|by apply Hd].
  apply follows_bind, follows_api, watch_stop; [done|]. intros [[]|e] s3 L3; [|done].
  apply follows_catch. eapply watched_mono; [by apply Hd, L3|]. intros [[]|e] s4 _; [done|].
  apply watched_pbind, watch_still; [apply StartLXC_still|done].
Qed.

Lemma obeys_adopt plan has_acl again current s : (∀ s, obeys (again guest) (fun _ s' => proven s' = true) s) → told current s →
  obeys (adopt_container has_acl plan again guest current) (fun _ s' => proven s' = true) s.
Proof.
  intros Hagain Ht. unfold adopt_container. still_step s1 L1. still_step s2 L2. still_step s3 L3.
  apply follows_bind. eapply follows_mono.
  { apply obeys_migrate. eapply told_below; [exact Ht|]. by do 2 (etrans; [eassumption|]). }
  intros current' s4 Ht4. apply follows_bind, obeys_check. intros u Hu. case_match.
  - apply follows_bind, obeys_guard. intros _. apply follows_bind. eapply follows_mono; [by apply obeys_replaceLXC|].
    intros [] s5 _. apply Hagain.
  - apply follows_bind, obeys_check. intros u' Hu'. assert (proven s4 = true) as Hp by by eapply told_proven.
    apply follows_bind, obeys_still; [stills|]. intros [] s5 L5. apply obeys_still; [stills|]. intros [] s6 L6.
    by apply L6, L5.
Qed.

Lemma obeys_missing plan again s : (∀ s, obeys (again guest) (fun _ s' => proven s' = true) s) →
  obeys (missing_container plan again guest) (fun _ s' => proven s' = true) s.
Proof.
  intros Hagain. unfold missing_container. case_match; [|apply obeys_createLXC; auto].
  apply follows_bind, obeys_replacementHolderFor. intros [[h c]|] s1 L1 Hh; [|apply obeys_createLXC; auto].
  by eapply obeys_recover, Hh.
Qed.

Lemma obeys_ensureLXC has_acl fuel plan s : obeys (ensureLXC has_acl fuel plan guest) (fun _ s' => proven s' = true) s.
Proof.
  revert plan s. induction fuel as [|fuel IH]; intros plan s; cbn [ensureLXC]; [done|].
  still_step s1 L1. apply watched_pbind, watch_GuestConfig. intros [[kind current]|[|m]] s2 L2 Ht; [|by apply obeys_missing|done].
  apply follows_bind, obeys_guard. intros Hkind%bool_decide_eq_false%dec_stable.
  assert (told current s2) as Ht2 by (apply Ht; by rewrite Hkind).
  case_match; [|by apply obeys_adopt]. apply follows_bind, obeys_check. intros [] _; [|by apply obeys_adopt].
  apply follows_bind. unfold recreate_legacy. apply follows_bind, obeys_guard. intros _.
  apply follows_bind, obeys_still; [unfold prepareLegacyLXCRecreation; stills|]. intros [] s3 L3.
  eapply follows_mono; [apply obeys_discardLegacyLXC|]. intros [] s4 _. apply IH.
Qed.

(** C21. Ensuring a container follows the protocol, whatever Proxmox answers and
    whichever recovery flags are set: of all containers only the guest's and
    the holders' are touched; the guest is stopped, destroyed, or has a volume
    taken away or moved only after a configuration was read in this run that
    carries its names, ownership and tags; and success is reported only when,
    after the last change of the guest, a configuration was read that carries
    the planned artifact and every declared volume. *)
Theorem ensureLXC_protocol has_acl fuel plan :
  watched (permitted) (advance) (ensureLXC has_acl fuel plan guest)
    (fun r s => r = Ok tt → proven s = true) (mkProtocol false false).
Proof. eapply watched_mono; [apply obeys_ensureLXC|]. by intros [[]|e] s Hs. Qed.
End protocol.

Theorem ProvisionModule_confirmed_witness :
  p_DestructiveConfirmed (Lab.plan false) = false
  ∧ all_calls (fun c => destructive c = false) (@ProvisionModule Lab.unicode true 3 (Lab.plan false) "gatus").
Proof. split; [reflexivity|]. apply (@ProvisionModule_confirmed Lab.unicode true 3 (Lab.plan false) "gatus"). reflexivity. Defined.

(** The protocol forbids much: the replacement of [replacement_works] is not
    allowed to start by destroying the guest. *)
Example protocol_forbids : ¬ permitted Lab.guest (mkProtocol false false) (DeleteLXC 220 false)
  ∧ ¬ permitted Lab.guest (mkProtocol true false) (DeleteLXC 221 false) ∧ permitted Lab.guest (mkProtocol true false) (DeleteLXC 220 false).
Proof. split; [|split; [|by right]]; intros [Hin|[? Ho]]; try done; by apply (Lab.outside _) in Hin. Qed.
End PxCalls.
