(* ===== verification/PxVolumes.v ===== *)
(** * No volume is lost ([PxLxc]: adoption, migration, replacement and recovery
    of a container)

    A replacement moves every declared volume to a holder container, destroys
    the guest, creates it anew, moves the volumes back and destroys the holder;
    any call may fail, and the process may stop between two calls.  At every
    point of every run each volume is attached to the guest or to a holder, in
    the slot it had. *)

From S2P Require Export PxSim.

Open Scope Z_scope.

Module PxVolumes.
Import Model PxGuest PxLxc PxSafe PxSim.

(** ** What stays *)

Section kept.
Context {V : Type} (guest : GuestPlan).
Implicit Types a : gmap (Z * string) V.

Definition declared (k : string) : Prop := ∃ i, (i < length (g_Volumes guest))%nat ∧ k = mp_key i.

(** Other guests keep exactly what they have; a declared slot's volume is in
    that slot of the guest or of a holder; the guest's other volumes stay. *)
Record kept a0 a : Prop := {
  kept_others v k : v ∉ team guest → a !! (v, k) = a0 !! (v, k);
  kept_declared v k x : v ∈ team guest → declared k → a0 !! (v, k) = Some x → ∃ v', v' ∈ team guest ∧ a !! (v', k) = Some x;
  kept_undeclared k x : ¬ declared k → a0 !! (g_VMID guest, k) = Some x → a !! (g_VMID guest, k) = Some x;
}.

Lemma kept_refl a : kept a a.
Proof. split; naive_solver. Qed.

Lemma kept_trans a0 a1 a2 : kept a0 a1 → kept a1 a2 → kept a0 a2.
Proof.
  intros [O1 D1 U1] [O2 D2 U2]. split.
  - intros v k Hv. by rewrite O2, O1.
  - intros v k x Hv Hk Hx. destruct (D1 v k x) as (v1 & Hv1 & Hx1); [done..|]. by eapply D2.
  - naive_solver.
Qed.

Lemma kept_moved a a' s t k : s ∈ team guest → t ∈ team guest → s ≠ t → declared k → moved a a' s k t k → kept a a'.
Proof.
  intros Hs Ht Hst Hk (x & Hx & Hn & ->). split.
  - intros v j Hv. rewrite lookup_insert_ne, lookup_delete_ne by congruence. done.
  - intros v j y Hv Hj Hy. destruct (decide ((v, j) = (s, k))) as [[= -> ->]|Hne].
    + exists t. split; [done|]. rewrite lookup_insert_eq. congruence.
    + exists v. split; [done|]. rewrite lookup_insert_ne, lookup_delete_ne by congruence. done.
  - intros j y Hj Hy. assert (j ≠ k) by (intros ->; done).
    by rewrite lookup_insert_ne, lookup_delete_ne by congruence.
Qed.

Lemma kept_grow a a' : a ⊆ a' → (∀ u k, u ∉ team guest → a' !! (u, k) = a !! (u, k)) → kept a a'.
Proof.
  intros Hsub Ho. split; [done|..].
  - intros v k x Hv _ Hx. exists v. split; [done|]. by eapply lookup_weaken.
  - intros k x _ Hx. by eapply lookup_weaken.
Qed.

(** A container of the team may go when none of its volumes is in a declared
    slot, and, if it is the guest, when it has none. *)
Lemma kept_destroyed a a' v : v ∈ team guest → (∀ u k, u ≠ v → a' !! (u, k) = a !! (u, k)) →
  (∀ k, declared k → a !! (v, k) = None) → (v = g_VMID guest → ∀ k, a !! (v, k) = None) → kept a a'.
Proof.
  intros Hv Ho Hd Hg. split.
  - intros u k Hu. apply Ho. by intros ->.
  - intros u k x Hu Hk Hx. exists u. split; [done|]. rewrite Ho; [done|]. intros ->. by rewrite Hd in Hx.
  - intros k x _ Hx. rewrite Ho; [done|]. intros E. by rewrite E, Hg in Hx.
Qed.

(** ** Transfers *)

(** From [s] to [t] some volumes moved, in their slots. *)
Record transfer (s t : Z) a a' : Prop := {
  transfer_from k x : a !! (s, k) = Some x → a' !! (s, k) = Some x ∨ a' !! (t, k) = Some x;
  transfer_to k x : a !! (t, k) = Some x → a' !! (t, k) = Some x;
  transfer_only k x : a' !! (s, k) = Some x → a !! (s, k) = Some x;
}.

Lemma transfer_refl s t a : transfer s t a a.
Proof. split; naive_solver. Qed.

Lemma transfer_trans s t a0 a1 a2 : transfer s t a0 a1 → transfer s t a1 a2 → transfer s t a0 a2.
Proof. intros [] []. split; naive_solver. Qed.

Lemma transfer_moved a a' s t k : s ≠ t → moved a a' s k t k → transfer s t a a' ∧ a' !! (s, k) = None.
Proof.
  intros Hst (x & Hx & Hn & ->). split.
  - split.
    + intros j y Hy. destruct (decide (j = k)) as [->|Hj].
      * right. rewrite lookup_insert_eq. congruence.
      * left. by rewrite lookup_insert_ne, lookup_delete_ne by congruence.
    + intros j y Hy. rewrite lookup_insert_ne, lookup_delete_ne by congruence. done.
    + intros j y. rewrite lookup_insert_ne by congruence. rewrite lookup_delete_Some. naive_solver.
  - rewrite lookup_insert_ne by congruence. apply lookup_delete_eq.
Qed.

Lemma transfer_none s t a a' k : transfer s t a a' → a !! (s, k) = None → a' !! (s, k) = None.
Proof. intros Ht Hn. destruct (a' !! (s, k)) as [x|] eqn:E; [|done]. apply (transfer_only _ _ _ _ Ht) in E. congruence. Qed.
End kept.

(** ** Programs that touch no volume *)

Create HintDb quiet.

Ltac quiet := repeat (first [calls_step | solve [eauto with quiet] | reflexivity]).

Section quiet.
Context `{GoUnicode, PxDigest} (plan : Plan).
Abbreviation calm := (all_calls (fun c => quiet c = true)).

Lemma GuestConfig_quiet vmid : calm (GuestConfig vmid).
Proof. unfold GuestConfig. quiet. Qed.
Lemma LXCStatus_quiet vmid : calm (client_LXCStatus plan vmid).
Proof. unfold client_LXCStatus. quiet. Qed.
Lemma StopLXC_quiet vmid : calm (client_StopLXC plan vmid).
Proof. unfold client_StopLXC. quiet. Qed.
Lemma StartLXC_quiet vmid : calm (client_StartLXC vmid).
Proof. unfold client_StartLXC. quiet. Qed.
Hint Resolve GuestConfig_quiet LXCStatus_quiet StopLXC_quiet StartLXC_quiet : quiet.

Lemma upload_artifact_quiet storage content filename checksum source :
  calm (upload_artifact storage content filename checksum source).
Proof. unfold upload_artifact. quiet. Qed.
Hint Resolve upload_artifact_quiet : quiet.

Lemma ensureArtifactInStorage_quiet storage content filename checksum source :
  calm (ensureArtifactInStorage plan storage content filename checksum source).
Proof. unfold ensureArtifactInStorage. quiet. Qed.
Hint Resolve ensureArtifactInStorage_quiet : quiet.

Lemma lxcTemplate_quiet guest : calm (lxcTemplate plan guest).
Proof. unfold lxcTemplate. quiet. Qed.

Lemma configureLXCDevices_quiet guest : calm (configureLXCDevices plan guest).
Proof. unfold configureLXCDevices, run_root. quiet. Qed.
Lemma ensureGuestMACFilter_quiet guest : calm (ensureGuestMACFilter plan guest).
Proof. unfold ensureGuestMACFilter, SetGuestNetworkFilters. quiet. Qed.
Lemma ensureExistingGuestTags_quiet guest current : calm (ensureExistingGuestTags plan guest current).
Proof. unfold ensureExistingGuestTags, client_SetLXCConfig. quiet. Qed.
Lemma ensureExistingLXCNameserver_quiet guest current : calm (ensureExistingLXCNameserver plan guest current).
Proof. unfold ensureExistingLXCNameserver, client_SetLXCConfig. quiet. Qed.

Lemma waitForLegacyLXCLoopRelease_quiet attempts volumeID volumePath loop :
  calm (waitForLegacyLXCLoopRelease plan attempts volumeID volumePath loop).
Proof. induction attempts as [|attempts IH]; cbn [waitForLegacyLXCLoopRelease]; unfold associated, run_root; quiet. Qed.
Hint Resolve waitForLegacyLXCLoopRelease_quiet : quiet.

Lemma releaseLegacyLXCLoopMapping_quiet guest observed : calm (releaseLegacyLXCLoopMapping plan guest observed).
Proof. unfold releaseLegacyLXCLoopMapping, associated, run_root. quiet. Qed.
Lemma move_volume_quiet guest m : calm (move_volume plan guest m).
Proof. unfold move_volume, client_MoveLXCPersistentVolume. quiet. Qed.
Hint Resolve releaseLegacyLXCLoopMapping_quiet move_volume_quiet : quiet.

Lemma migrateLXCPersistentVolumes_quiet guest current : calm (migrateLXCPersistentVolumes plan guest current).
Proof. unfold migrateLXCPersistentVolumes, running_or_stopped, move_volumes. quiet. Qed.
End quiet.

#[export] Hint Resolve GuestConfig_quiet LXCStatus_quiet StopLXC_quiet StartLXC_quiet lxcTemplate_quiet configureLXCDevices_quiet
  ensureGuestMACFilter_quiet ensureExistingGuestTags_quiet ensureExistingLXCNameserver_quiet migrateLXCPersistentVolumes_quiet : quiet.

(** ** The programs that move, create and destroy *)

Ltac next w := let E := fresh in intros w E; first [match type of E with _ = ?v => is_var v; subst v end | rewrite <- E in *; clear E].
(** A step that touches no volume. *)
Ltac calm_step w := apply safe_bind, safe_quiet; [solve [quiet] | assumption | intros ?; next w].

Section programs.
Context {W V : Type} `{ProxmoxLaws W V, GoUnicode, PxDigest} (plan : Plan) (has_acl : bool) (guest : GuestPlan).
Context (v0 : gmap (Z * string) V) (Hout : g_VMID guest ∉ holder_vmids).
Abbreviation gv := (g_VMID guest).
Abbreviation Inv := (kept guest v0).
Abbreviation volumes := (@gmap (Z * string) _ prod_countable V).

Lemma guest_in_team : gv ∈ team guest.
Proof. by left. Qed.
Lemma holder_in_team h : h ∈ holder_vmids → h ∈ team guest.
Proof. by right. Qed.
Lemma holder_not_guest h : h ∈ holder_vmids → h ≠ gv.
Proof. by intros Hh ->. Qed.
Hint Resolve guest_in_team holder_in_team holder_not_guest : core.

(** What the guest has it still has, in the same slots. *)
Definition homed (v v' : volumes) : Prop := ∀ k x, v !! (gv, k) = Some x → v' !! (gv, k) = Some x.

Lemma homed_refl v : homed v v.
Proof. by intros k x. Qed.
Lemma homed_trans v1 v2 v3 : homed v1 v2 → homed v2 v3 → homed v1 v3.
Proof. unfold homed. eauto. Qed.

Lemma safe_createLXC (retained : option (gmap string string)) (attach : bool) (Q : unit → volumes → Prop) w :
  Inv (attached w) →
  (∀ v, Inv v → attached w ⊆ v → (∀ u k, u ≠ gv → v !! (u, k) = attached w !! (u, k)) → Q tt v) →
  safe Inv (createLXC plan guest retained attach) Q w.
Proof.
  intros Hi HQ. unfold createLXC.
  calm_step w1. calm_step w2. calm_step w3. calm_step w4.
  apply safe_bind, safe_quiet; [by split|done|]. intros ps. next w5. calm_step w6.
  apply safe_bind, safe_create; [done|]. intros v Hsub Ho.
  assert (Inv v). { eapply kept_trans; [done|]. apply kept_grow; [done|]. intros u k Hu. apply Ho. left. intros ->. by destruct Hu. }
  split; [done|]. specialize (HQ v). intros w7 E. rewrite <- E in *.
  apply safe_quiet; [quiet|done|]. intros []. apply HQ; [done..|]. intros u k Hu. apply Ho. by left.
Qed.
Lemma safe_replacementHolderFor (target : Z) (Q : option (Z * Config) → volumes → Prop) w :
  Inv (attached w) → (∀ r, (∀ h c, r = Some (h, c) → h ∈ holder_vmids) → Q r (attached w)) →
  safe Inv (replacementHolderFor target) Q w.
Proof.
  intros Hi HQ. unfold replacementHolderFor. revert w Q Hi HQ. generalize holder_vmids.
  induction l as [|h hs IH]; intros w Q Hi HQ; cbn [holder_search]; [by apply safe_ret; [|apply HQ]|].
  apply safe_answer, always_GuestConfig; [done|]. intros r w1 E _. rewrite <- E in *.
  assert (safe Inv (holder_search target hs) Q w1).
  { apply IH; [done|]. intros r' Hr'. apply HQ. intros h' c' ->. right. by eapply Hr'. }
  destruct r as [[kind current]|[|m]]; [|done|by apply safe_throw]. case_match; [|done].
  apply safe_ret; [done|]. apply HQ. intros h' c' [= <- <-]. by left.
Qed.

Lemma safe_free_vmid (Q : Z → volumes → Prop) w :
  Inv (attached w) → (∀ h, h ∈ holder_vmids → Q h (attached w)) → safe Inv (free_vmid holder_vmids) Q w.
Proof.
  revert w Q. generalize holder_vmids. induction l as [|h hs IH]; intros w Q Hi HQ; cbn [free_vmid]; [by apply safe_throw|].
  apply safe_answer, always_GuestConfig; [done|]. intros r w1 E _. rewrite <- E in *.
  destruct r as [[kind current]|[|m]].
  - apply IH; [done|]. intros h' Hh'. apply HQ. by right.
  - apply safe_ret; [done|]. apply HQ. by left.
  - by apply safe_throw.
Qed.

Lemma safe_ensureReplacementHolder (Q : Z → volumes → Prop) w :
  Inv (attached w) →
  (∀ h v, h ∈ holder_vmids → Inv v → (∀ k, v !! (gv, k) = attached w !! (gv, k)) → Q h v) →
  safe Inv (ensureReplacementHolder plan guest) Q w.
Proof.
  intros Hi HQ. apply safe_bind, safe_replacementHolderFor; [done|]. intros [[h c]|] Hh; next w1.
  { apply safe_ret; [done|]. apply HQ; eauto. }
  apply safe_bind, safe_free_vmid; [done|]. intros h' Hh'; next w2. calm_step w3.
  apply safe_bind, safe_create; [done|]. intros v Hsub Ho.
  assert (Inv v). { eapply kept_trans; [done|]. apply kept_grow; [done|]. intros u k Hu. apply Ho. left. intros ->. by destruct Hu; auto. }
  split; [done|]. intros w7 E. rewrite <- E in *.
  apply safe_bind, safe_config_api; [done|]. intros kind current _; next w8. calm_step w9. apply safe_ret; [done|].
  apply HQ; [done..|]. intros k. apply Ho. left. auto using not_eq_sym.
Qed.

(** *** Transfers *)

(** Volumes moved from [s] to [t], and slot [k] of [s] is free. *)
Definition freed (s t : Z) (v v' : volumes) (k : string) : Prop := transfer s t v v' ∧ v' !! (s, k) = None.

Lemma safe_move (what : string) (s t : Z) (i : nat) (d d' : string) (Q : unit → volumes → Prop) w :
  (i < length (g_Volumes guest))%nat → s ∈ team guest → t ∈ team guest → Inv (attached w) →
  (∀ v, Inv v → freed s t (attached w) v (mp_key i) → Q tt v) →
  safe Inv (api what (client_ReassignLXCVolume plan s t (mp_key i) (mp_key i) d d')) Q w.
Proof.
  intros Hd Hs Ht Hi HQ. apply safe_reassign; [done|]. intros v Hst Hm.
  assert (Inv v) by (eapply kept_trans; [done|]; by eapply (kept_moved _ _ _ s t); eauto; exists i).
  split; [done|]. apply HQ; [done|]. by apply transfer_moved.
Qed.

Lemma indexed_spec {A} (l : list A) (e : nat * A) : e ∈ indexed l → (e.1 < length l)%nat.
Proof. intros (j & x & -> & Hj)%elem_of_lookup_imap. by apply lookup_lt_Some in Hj. Qed.

(** All declared slots of [s] are free. *)
Definition emptied (s t : Z) (v v' : volumes) : Prop := transfer s t v v' ∧ ∀ k, declared guest k → v' !! (s, k) = None.

Lemma safe_transfers (f : nat * PersistentVolume → PM unit) (s t : Z) (Q : unit → volumes → Prop) w :
  (∀ e (Qe : unit → volumes → Prop) w, e ∈ indexed (g_Volumes guest) → Inv (attached w) →
     (∀ v, Inv v → freed s t (attached w) v (mp_key e.1) → Qe tt v) → safe Inv (f e) Qe w) →
  Inv (attached w) → (∀ v, Inv v → emptied s t (attached w) v → Q tt v) →
  safe Inv (eachP f (indexed (g_Volumes guest))) Q w.
Proof.
  intros Hf Hi HQ. eapply safe_mono.
  - apply (safe_eachP Inv f _ (fun es v => transfer s t (attached w) v ∧ ∀ e, e ∈ es → v !! (s, mp_key e.1) = None)); [done| |].
    + split; [apply transfer_refl|]. by intros e ?%not_elem_of_nil.
    + intros es e w1 Hpre Hi1 [Ht Hn]. apply Hf; [|done|].
      * eapply elem_of_prefix; [|done]. set_solver.
      * intros v _ [Ht' Hn']. split; [by eapply transfer_trans|]. intros e' [?| ->%list_elem_of_singleton]%elem_of_app; [|done].
        eapply transfer_none; [done|]. by apply Hn.
  - intros [] v Hv [Ht Hn]. apply HQ; [done|]. split; [done|]. intros k (i & Hlt & ->).
    apply lookup_lt_is_Some in Hlt as [x Hx]. apply (Hn (i, x)). apply elem_of_lookup_imap. eauto.
Qed.

Section transfers.
Context (h : Z) (Hh : h ∈ holder_vmids).

Lemma safe_reassignTo e (Q : unit → volumes → Prop) w : e ∈ indexed (g_Volumes guest) → Inv (attached w) →
  (∀ v, Inv v → freed gv h (attached w) v (mp_key e.1) → Q tt v) → safe Inv (reassignLXCVolumeToHolder plan guest h e) Q w.
Proof.
  intros He%indexed_spec Hi HQ. destruct e as [i vol]. unfold reassignLXCVolumeToHolder.
  apply safe_bind, safe_container_config; [done|]. intros source _; next w1.
  apply safe_bind, safe_container_config; [done|]. intros holder _; next w2.
  calm_step w3. calm_step w4. calm_step w5. apply safe_move; eauto.
Qed.

Lemma safe_reassignFrom e (Q : unit → volumes → Prop) w : e ∈ indexed (g_Volumes guest) → Inv (attached w) →
  (∀ v, Inv v → freed h gv (attached w) v (mp_key e.1) → Q tt v) → safe Inv (reassignLXCVolumeFromHolder plan guest h e) Q w.
Proof.
  intros He%indexed_spec Hi HQ. destruct e as [i vol]. unfold reassignLXCVolumeFromHolder.
  apply safe_bind, safe_container_config; [done|]. intros source _; next w1.
  apply safe_bind, safe_container_config; [done|]. intros holder _; next w2.
  calm_step w3. calm_step w4. calm_step w5. apply safe_move; eauto.
Qed.

Lemma safe_restore (Q : unit → volumes → Prop) w : Inv (attached w) →
  (∀ v, Inv v → emptied h gv (attached w) v → Q tt v) → safe Inv (restoreLXCVolumesFromHolder plan guest h) Q w.
Proof.
  intros Hi HQ. apply (safe_transfers _ h gv); [|done..]. clear dependent w. intros e Qe w He Hi HQe.
  apply safe_bind, safe_container_config; [done|]. intros holder Hl; next w1.
  apply safe_if; intros Hb; [by apply safe_reassignFrom|]. apply safe_ret; [done|]. apply HQe; [done|].
  split; [apply transfer_refl|]. apply bool_decide_eq_false in Hb. apply eq_None_not_Some. intros Hs. by apply Hb, Hl.
Qed.
End transfers.

(** *** The guest before its destruction *)

(** Every volume of the guest is in a declared slot. *)
Definition clean (v : volumes) : Prop := ∀ k, is_Some (v !! (gv, k)) → declared guest k.

Lemma mountpoint_check_declared k u : has_prefix k "mp" = true → mountpoint_check guest k = Ok u → declared guest k.
Proof.
  intros Hk. unfold mountpoint_check, safePersistentLXCMountpointKey, key_index. rewrite Hk. cbn [negb].
  destruct (atoi (trim_prefix k "mp")) as [index|]; [|done].
  destruct ((index <? 0) || (k != "mp" +:+ itoa index)) eqn:Ho; [done|]. destruct (index <=? 30); [|done]. cbn.
  destruct (Z.of_nat (length (g_Volumes guest)) <=? index) eqn:Hlen; [done|]. intros _. bools. exists (Z.to_nat index).
  split; [lia|]. unfold mp_key. by rewrite Z2Nat.id by lia.
Qed.

Lemma undeclared_clean current u w :
  lists (attached w) gv current → validateNoUndeclaredLXCVolumes current guest = Ok u → clean (attached w).
Proof.
  intros Hl Hok k Hk. apply eachM_ok in Hok. rewrite Forall_forall in Hok.
  eapply mountpoint_check_declared; [by eapply law_keys|]. apply Hok.
  apply Hl in Hk as [x Hx]. apply list_elem_of_fmap. exists (k, x). split; [done|]. by apply elem_of_map_to_list.
Qed.

Lemma safe_replacement_gate (Q : string → volumes → Prop) w : Inv (attached w) →
  (clean (attached w) → ∀ status, Q status (attached w)) → safe Inv (replacement_gate plan guest) Q w.
Proof.
  intros Hi HQ. apply safe_bind, safe_config_api; [done|]. intros kind current Hl; next w1.
  apply safe_bind, safe_guard; [done|]. intros Hkind%bool_decide_eq_false%dec_stable; next w2.
  calm_step w3. apply safe_bind, safe_check; [done|]. intros u Hu; next w4.
  assert (clean (attached w4)) as Hc by (eapply undeclared_clean; eauto).
  apply safe_quiet; [|done|]; [unfold running_or_stopped; quiet|]. intros status. by apply HQ.
Qed.

(** *** Failure *)

Lemma safe_restart_after what wasRunning (e : PxError) (Q : unit → volumes → Prop) w :
  Inv (attached w) → safe Inv (restart_after guest what wasRunning e) Q w.
Proof.
  intros Hi. unfold restart_after. destruct wasRunning; [|by apply safe_throw].
  apply safe_answer. eapply always_quiet; [quiet|done|]. intros r w1 E. split; [by rewrite E|done].
Qed.

(** The holder is destroyed when every declared slot of it is free. *)
Lemma holder_destroyed h v v' : h ∈ holder_vmids → Inv v → (∀ k, declared guest k → v !! (h, k) = None) → destroyed v v' h → Inv v'.
Proof.
  intros Hh Hi Hn [_ Hd]. eapply kept_trans; [done|]. apply (kept_destroyed _ _ _ h); [auto|done..|].
  intros ->. by destruct (holder_not_guest gv).
Qed.

Lemma safe_clean_up h wasRunning cleanupHolder sourceRemoved (e : PxError) (Q : unit → volumes → Prop) w :
  h ∈ holder_vmids → Inv (attached w) → safe Inv (clean_up plan guest h wasRunning cleanupHolder sourceRemoved e) Q w.
Proof.
  intros Hh Hi. unfold clean_up. destruct cleanupHolder; [|by apply safe_restart_after].
  eapply (safe_catch _ _ _ _ (fun _ v => ∀ k, declared guest k → v !! (h, k) = None)).
  - apply safe_restore; [done..|]. intros v _ [_ Hn]. apply Hn.
  - intros w1 Hi1 e'. by apply safe_restart_after.
  - intros [] w1 Hi1 Hn. apply safe_answer, always_destroy; [done| |].
    + intros e'. by apply safe_restart_after.
    + intros r w2 Hd. assert (Inv (attached w2)) by by eapply holder_destroyed.
      split; [done|]. by apply safe_restart_after.
Qed.

Lemma safe_guarded {A} h wasRunning cleanupHolder sourceRemoved (m : PM A) (k : A → PM unit) (Qm : A → volumes → Prop) (Q : unit → volumes → Prop) w :
  h ∈ holder_vmids → safe Inv m Qm w → (∀ a w', Inv (attached w') → Qm a (attached w') → safe Inv (k a) Q w') →
  safe Inv (guarded plan guest h wasRunning cleanupHolder sourceRemoved m k) Q w.
Proof. intros Hh Hm Hk. eapply safe_catch; [exact Hm| |exact Hk]. intros w' Hi e. by apply safe_clean_up. Qed.

(** *** Replacement *)

(** What the guest had before is with the holder. *)
Definition held_by (h : Z) (v v' : volumes) : Prop := ∀ k x, v !! (gv, k) = Some x → declared guest k ∧ v' !! (h, k) = Some x.

Lemma emptied_held h v v' : clean v → emptied gv h v v' → held_by h v v' ∧ ∀ k, v' !! (gv, k) = None.
Proof.
  intros Hc [Ht Hn].
  assert (∀ k, v' !! (gv, k) = None) as Hnone.
  { intros k. apply eq_None_not_Some. intros [x Hx]. pose proof (transfer_only _ _ _ _ Ht _ _ Hx) as Hx'.
    rewrite Hn in Hx; [done|]. apply Hc. by eexists. }
  split; [|done]. intros k x Hx. split; [by apply Hc; eexists|].
  destruct (transfer_from _ _ _ _ Ht _ _ Hx) as [Hx'|]; [|done]. by rewrite Hnone in Hx'.
Qed.

Lemma safe_replace_with_holder h wasRunning w : h ∈ holder_vmids → clean (attached w) → Inv (attached w) →
  safe Inv (replace_with_holder plan has_acl guest h wasRunning) (fun _ v => homed (attached w) v) w.
Proof.
  intros Hh Hc Hi. pose proof (holder_not_guest h Hh) as Hne. set (v := attached w) in *.
  eapply (safe_guarded h _ _ _ _ _ (fun _ v' => held_by h v v' ∧ ∀ k, v' !! (gv, k) = None)); [done| |].
  { apply (safe_transfers _ gv h); [|done|].
    - intros e Qe w1 He Hi1 HQe. by apply safe_reassignTo.
    - intros v1 _ He. by apply emptied_held. }
  intros _ w1 Hi1 [Hheld Hnone].
  eapply (safe_guarded h _ _ _ _ _ (fun _ v' => held_by h v v')); [done| |].
  { apply safe_destroy; [done|]. intros v2 [_ Hd]. split.
    - eapply kept_trans; [done|]. apply (kept_destroyed _ _ _ gv); auto.
    - intros k x [Hk Hx]%Hheld. by rewrite Hd. }
  clear dependent w1. intros _ w1 Hi1 Hheld.
  eapply (safe_guarded h _ _ _ _ _ (fun _ v' => held_by h v v')); [done| |].
  { apply safe_quiet; [quiet|done..]. }
  clear dependent w1. intros _ w1 Hi1 Hheld.
  eapply (safe_guarded h _ _ _ _ _ (fun _ v' => homed v v')); [done| |].
  - apply safe_bind, safe_createLXC; [done|]. intros v2 Hi2 Hsub _ w2 <-.
    assert (held_by h v (attached w2)) as Hheld2.
    { intros k x [Hk Hx]%Hheld. split; [done|]. by eapply lookup_weaken. }
    apply safe_bind, (safe_transfers _ h gv); [intros e Qe w3 He Hi3 HQe; by apply safe_reassignFrom|done|].
    intros v3 Hi3 [Ht Hn]. next w3. apply safe_destroy; [done|]. intros v4 Hd. split.
    + by eapply holder_destroyed.
    + intros k x [Hk Hx]%Hheld2. destruct Hd as [_ Hd]. rewrite Hd by done.
      destruct (transfer_from _ _ _ _ Ht _ _ Hx) as [Hx'|]; [|done]. by rewrite Hn in Hx'.
  - intros [] w2 Hi2 Hq. by apply safe_ret.
Qed.

Section again.
Context (again : GuestPlan → PM unit).
Hypothesis Hagain : ∀ w, Inv (attached w) → safe Inv (again guest) (fun _ v => homed (attached w) v) w.

Lemma safe_recovery_target w : Inv (attached w) →
  safe Inv (recovery_target plan guest) (fun _ v => homed (attached w) v) w.
Proof.
  intros Hi. apply safe_answer, always_GuestConfig; [done|]. intros r w1 E _. rewrite <- E in *.
  destruct r as [[kind current]|[|m]].
  - apply safe_quiet; [quiet|done|]. intros _. apply homed_refl.
  - apply safe_createLXC; [done|]. intros v _ Hsub _ k x Hx. by eapply lookup_weaken.
  - by apply safe_throw.
Qed.

Lemma safe_recover h w : h ∈ holder_vmids → Inv (attached w) →
  safe Inv (recoverLXCReplacement plan again guest h) (fun _ v => homed (attached w) v) w.
Proof.
  intros Hh Hi. pose proof (holder_not_guest h Hh) as Hne. set (v := attached w) in *.
  apply safe_bind. eapply safe_mono; [by apply safe_recovery_target|]. intros [] v1 Hi1 Hv1. next w1.
  apply safe_bind, (safe_transfers _ h gv); [intros e Qe w3 He Hi3 HQe; by apply safe_reassignFrom|done|].
  intros v2 Hi2 [Ht Hn]. next w2. apply safe_bind, safe_destroy; [done|]. intros v3 Hd.
  assert (Inv v3) by by eapply holder_destroyed. split; [done|]. next w3.
  eapply safe_mono; [by apply Hagain|]. intros [] v4 _ H4. eapply homed_trans; [|exact H4].
  intros k x Hx%Hv1. destruct Hd as [_ Hd]. rewrite Hd by auto. by apply (transfer_to _ _ _ _ Ht).
Qed.

Lemma safe_replaceLXC w : Inv (attached w) →
  safe Inv (replaceLXC plan has_acl again guest) (fun _ v => homed (attached w) v) w.
Proof.
  intros Hi. apply safe_bind, safe_replacementHolderFor; [done|]. intros [[h c]|] Hh; next w1.
  { apply safe_recover; eauto. }
  apply safe_bind, safe_replacement_gate; [done|]. intros Hc status. next w2.
  set (v := attached w2) in *.
  eapply (safe_catch _ _ _ _ (fun h v' => h ∈ holder_vmids ∧ ∀ k, v' !! (gv, k) = v !! (gv, k))).
  - apply safe_ensureReplacementHolder; [done|]. auto.
  - intros w3 Hi3 e. by apply safe_restart_after.
  - intros h w3 Hi3 [Hh' Hsame]. eapply safe_mono; [apply safe_replace_with_holder; [done| |done]|].
    + intros k Hk. apply Hc. by rewrite <- Hsame.
    + intros [] v' _ Hq k x Hx. apply Hq. by rewrite Hsame.
Qed.

Lemma safe_adopt_container current w : Inv (attached w) →
  safe Inv (adopt_container has_acl plan again guest current) (fun _ v => homed (attached w) v) w.
Proof.
  intros Hi. unfold adopt_container. calm_step w1. calm_step w2. calm_step w3. calm_step w4. calm_step w5.
  apply safe_if; intros Hb.
  - calm_step w6. apply safe_bind. eapply safe_mono; [by apply safe_replaceLXC|]. intros [] v1 Hi1 Hv1. next w7.
    eapply safe_mono; [by apply Hagain|]. intros [] v2 _ Hv2. by eapply homed_trans.
  - apply safe_quiet; [quiet|done|]. intros _. apply homed_refl.
Qed.

Lemma safe_missing_container w : Inv (attached w) →
  safe Inv (missing_container plan again guest) (fun _ v => homed (attached w) v) w.
Proof.
  assert (∀ w, Inv (attached w) → safe Inv (createLXC plan guest None true) (fun _ v => homed (attached w) v) w) as Hnew.
  { intros w1 Hi. apply safe_createLXC; [done|]. intros v _ Hsub _ k x Hx. by eapply lookup_weaken. }
  intros Hi. apply safe_if; intros Hb; [|by apply Hnew].
  apply safe_bind, safe_replacementHolderFor; [done|]. intros [[h c]|] Hh; next w1; [|by apply Hnew].
  apply safe_recover; eauto.
Qed.
End again.

Lemma safe_ensureLXC fuel w : p_ForceLegacyLXCRecreation plan = false → Inv (attached w) →
  safe Inv (ensureLXC has_acl fuel plan guest) (fun _ v => homed (attached w) v) w.
Proof.
  intros Hlegacy. revert w. induction fuel as [|fuel IH]; intros w Hi; cbn [ensureLXC]; [by apply safe_throw|].
  calm_step w1. apply safe_answer, always_GuestConfig; [done|]. intros r w2 E _. rewrite <- E in *.
  destruct r as [[kind current]|[|m]].
  - calm_step w3. rewrite Hlegacy. by apply safe_adopt_container.
  - by apply safe_missing_container.
  - by apply safe_throw.
Qed.
End programs.


(** C20. No volume is lost.  Whatever Proxmox answers within its laws, and
    wherever the process stops: when a container is ensured (created, adopted,
    migrated to another storage, replaced, or recovered from an interrupted
    replacement), every other guest keeps exactly its volumes, the volume of
    every declared slot is in that slot of the guest or of a holder, and the
    guest's other volumes stay; and when it succeeds, the guest has in their
    slots all the volumes it had.  (Not when the operator asked to discard the
    legacy layout.) *)
Theorem ensureLXC_keeps_volumes {W V : Type} `{ProxmoxLaws W V, GoUnicode} has_acl fuel plan guest w o w' :
  g_VMID guest ∉ holder_vmids → p_ForceLegacyLXCRecreation plan = false →
  run (ensureLXC has_acl fuel plan guest) w o w' →
  kept guest (attached w) (attached w') ∧ (o = Some (Ok tt) → homed guest (attached w) (attached w')).
Proof.
  intros Hout Hlegacy Hrun. pose proof (kept_refl guest (attached w)) as Hi.
  pose proof (safe_ensureLXC plan has_acl guest (attached w) Hout fuel w Hlegacy Hi) as Hs.
  destruct (safe_run _ _ _ _ _ _ Hs Hrun) as [Hk Hq]. split; [exact Hk|]. intros E. exact (Hq tt E).
Qed.

(** The call that destroys the guest is refused, after its volumes went to the holder: they come back. *)
Theorem ensureLXC_keeps_volumes_witness :
  let r := exec (Lab.ensure true) (Lab.refuse 66) Lab.host in
  r.1.1 = Err (Failed "destroy rootfs" (ApiFailed "refused"))
  ∧ kept Lab.guest (attached Lab.host) (attached r.1.2).
Proof.
  split; [vm_compute; reflexivity|].
  refine (proj1 (@ensureLXC_keeps_volumes Host nat sim_proxmox sim_laws Lab.unicode true 3 (Lab.plan true) Lab.guest
    Lab.host _ _ _ _ (exec_run (Lab.ensure true) (Lab.refuse 66) Lab.host))); [|reflexivity].
  apply Lab.outside. reflexivity.
Defined.

(** The replacement destroys the guest and the holder, and the volumes are back in their slots. *)
Example replacement_works : let '(r, h, calls) := exec (Lab.ensure true) [] Lab.host in
  r = Ok tt ∧ Lab.volumes_of h = [((220, "mp1"%string), 2%nat); ((220, "mp0"%string), 1%nat)] ∧ (map_to_list (h_containers h)).*1 = [220]
  ∧ omap (fun c => match c with DeleteLXC v _ => Some v | _ => None end) calls = [220; 910].
Proof. vm_compute. repeat split. Qed.
(** ** What the theorem does not promise *)

(** The volumes are safe with the holder, but a run that was interrupted while
    they moved back is not resumed: the new container has the new artifact, its
    slots are empty, and every later run stops at the empty slot. *)
Example interrupted_restore_is_stuck :
  let '(r, h, _) := exec (Lab.ensure true) (Lab.refuse 80) Lab.host in
  r = Err (Failed "restore persistent volume" (ApiFailed "refused"))
  ∧ Lab.volumes_of h = [((910, "mp1"%string), 2%nat); ((910, "mp0"%string), 1%nat)]
  ∧ (exec (Lab.ensure true) [] h).1 = (Err (Held (MalformedStorage "lab-gatus-01" "mp0")), h)
  ∧ (exec (Lab.ensure false) [] h).1 = (Err (Held (MalformedStorage "lab-gatus-01" "mp0")), h).
Proof. vm_compute. repeat split. Qed.

(** When the new container could not be created, the next run recovers the
    volumes if it is confirmed; an unconfirmed run does not look for the
    holder, and gives the container new volumes. *)
Example unconfirmed_run_makes_new_volumes :
  let '(r, h, _) := exec (Lab.ensure true) (Lab.refuse 73) Lab.host in
  r = Err (Failed "create container" (ApiFailed "refused"))
  ∧ Lab.volumes_of (exec (Lab.ensure true) [] h).1.2 = [((220, "mp1"%string), 2%nat); ((220, "mp0"%string), 1%nat)]
  ∧ (exec (Lab.ensure false) [] h).1.1 = Ok tt
  ∧ Lab.volumes_of (exec (Lab.ensure false) [] h).1.2
    = [((910, "mp1"%string), 2%nat); ((910, "mp0"%string), 1%nat); ((220, "mp1"%string), 22%nat); ((220, "mp0"%string), 21%nat)].
Proof. vm_compute. repeat split. Qed.
End PxVolumes.
