(* ===== verification/PxQemu.v ===== *)
(** * Virtual machines on the Proxmox host ([internal/proxmox/plan.go]: the
    firewall's VM is created, adopted, its root disk replaced, its network
    interfaces, disks and labels reconciled; cloudinit.go: the names of its
    cloud-init files; client.go: the calls these use)

    Programs as in [PxLxc].  [current] is a map that Go's functions update in
    place; here each returns the configuration that is current afterwards. *)

From S2P Require Export PxLxc.

Open Scope Z_scope.

Module PxQemu.
Import Model PxGuest PxLxc.

(** ** Disks *)

Definition firewall_vm : string := "lab-fw-01".
Definition DefaultAdminSSHUser : string := "labadmin".

Lemma get_str_insert_ne (m : Config) k k' v : k ≠ k' → get_str (<[k := v]> m) k' = get_str m k'.
Proof. intros Hne. unfold get_str. by replace (<[k := v]> m !! k') with (m !! k') by (symmetry; by apply lookup_insert_ne). Qed.

Lemma get_str_insert (m : Config) k v : get_str (<[k := JStr v]> m) k = v.
Proof. unfold get_str. by replace (<[k := JStr v]> m !! k) with (Some (JStr v)) by (symmetry; apply lookup_insert_eq). Qed.

Lemma elem_keys (m : Config) k : k ∈ keys m ↔ is_Some (m !! k).
Proof.
  unfold keys. rewrite list_elem_of_fmap. split.
  - intros ([k' v] & -> & Hv%elem_of_map_to_list). by exists v.
  - intros [v Hv]. exists (k, v). split; [done|]. by apply elem_of_map_to_list.
Qed.

Section disks.
Context `{GoUnicode, PxDigest}.

(** A disk of one volume: the text that asks Proxmox for a new one. *)
Definition qemuPersistentVolumeParam (volume : PersistentVolume) : result Hold string :=
  _ ← fail_if ((pv_Storage volume == "") || (pv_SizeGiB volume <=? 0) || (pv_MountPath volume == "")) VolumeContract;
  serial ← persistentVolumeSerial volume;
  Ok (pv_Storage volume +:+ ":" +:+ itoa (pv_SizeGiB volume) +:+ ",backup=" +:+ backup_flag (pv_Backup volume) +:+ ",serial=" +:+ serial).

Definition disk_key (index : nat) : string := scsi_key (S index).

Definition qemuPersistentVolumeParams (guest : GuestPlan) : result Hold Params :=
  foldM (fun params (entry : nat * PersistentVolume) =>
    value ← qemuPersistentVolumeParam entry.2; Ok (params ++ [(disk_key entry.1, value)])) [] (indexed (g_Volumes guest)).

(** Storage and size of a text, without checking that they are there. *)
Definition volume_head (value : string) : string * string * bool := cut (hd "" (split value ",")) ":".

Definition qemu_volume_check (current : Config) (guest : GuestPlan) (entry : nat * PersistentVolume) : result Hold unit :=
  expected ← qemuPersistentVolumeParam entry.2;
  let key := disk_key entry.1 in
  let observed := get_str current key in
  _ ← fail_if (observed == "") (NoVolume (g_Name guest) key);
  let '(expectedStorage, expectedSize, expectedOK) := volume_head expected in
  let '(observedStorage, _, observedOK) := volume_head observed in
  _ ← fail_if (negb expectedOK || negb observedOK || (observedStorage != expectedStorage)) (VolumeMismatch (g_Name guest) key observed);
  let size := option_value (options_of observed) "size" in
  _ ← fail_if ((size != "") && (size != expectedSize +:+ "G")) (VolumeMismatch (g_Name guest) key observed);
  eachM (fun name => fail_if (option_value (options_of observed) name != option_value (options_of expected) name)
                       (VolumeOption (g_Name guest) key name)) ["backup"; "serial"].

Definition validateExistingQEMUVolumes (current : Config) (guest : GuestPlan) : result Hold unit :=
  eachM (qemu_volume_check current guest) (indexed (g_Volumes guest)).

Definition qemuSCSIIndex (value : string) : option Z := key_index "scsi" value.
Definition qemuNICIndex (value : string) : option Z := key_index "net" value.

Definition qemu_key_check (current : Config) (expected : GuestPlan) (key : string) : result Hold unit :=
  let undeclared := UndeclaredVolume (g_Name expected) key in
  if has_prefix key "scsi" then
    match qemuSCSIIndex key with
    | Some index => fail_if (Z.of_nat (length (g_Volumes expected)) <? index) undeclared
    | None => Err undeclared
    end
  else
    _ ← fail_if (existsb (has_prefix key) ["sata"; "virtio"; "efidisk"; "tpmstate"; "unused"]) undeclared;
    _ ← fail_if (has_prefix key "ide" && (key != "ide2")) undeclared;
    fail_if ((key == "ide2") && (get_str current key != "local:cloudinit")) (UnexpectedDisk (g_Name expected) key).

Definition validateNoUndeclaredQEMUPersistentVolumes (current : Config) (expected : GuestPlan) : result Hold unit :=
  eachM (qemu_key_check current expected) (keys current).

Definition qemuVolumeMatchesPersistentIdentity (observed expected : string) : bool :=
  let '(_, expectedSize, expectedOK) := volume_head expected in
  expectedOK && (expectedSize != "") && (VolumeStorageID observed != "")
  && (option_value (options_of observed) "backup" == option_value (options_of expected) "backup")
  && (option_value (options_of observed) "serial" == option_value (options_of expected) "serial")
  && (option_value (options_of observed) "size" == expectedSize +:+ "G").

Definition qemuVolumeMatchesSerial (observed expected serial : string) : bool :=
  let '(expectedStorage, expectedSize, expectedOK) := volume_head expected in
  let '(observedStorage, _, observedOK) := volume_head observed in
  let size := option_value (options_of observed) "size" in
  expectedOK && observedOK && (observedStorage == expectedStorage)
  && (option_value (options_of observed) "backup" == option_value (options_of expected) "backup")
  && (option_value (options_of observed) "serial" == serial)
  && ((size == "") || (size == expectedSize +:+ "G")).

Definition forced_key_check (guest : GuestPlan) (key : string) : result Hold unit :=
  match qemuSCSIIndex key with
  | Some index => fail_if (negb (index =? 0) && (Z.of_nat (length (g_Volumes guest)) <? index)) (UndeclaredVolume (g_Name guest) key)
  | None => Ok tt
  end.
Definition forced_volume_check (current : Config) (guest : GuestPlan) (entry : nat * PersistentVolume) : result Hold unit :=
  expected ← qemuPersistentVolumeParam entry.2;
  let observed := get_str current (disk_key entry.1) in
  fail_if (negb (qemuVolumeMatchesPersistentIdentity observed expected)) (VolumeUnproven (g_Name guest) (disk_key entry.1) observed).

Definition validateForcedFirewallRootReplacementVolumes (current : Config) (guest : GuestPlan) : result Hold unit :=
  _ ← eachM (forced_key_check guest) (keys current);
  eachM (forced_volume_check current guest) (indexed (g_Volumes guest)).

(** ** Network interfaces *)

Definition interface_byte (c : ascii) : bool := contains_byte "._-" c || alnum c.
Definition safeInterfaceName (value : string) : bool := (value != "") && sall interface_byte value.

Definition qemuNICParam (nic : GuestNIC) : result Hold string :=
  _ ← fail_if (negb (safeInterfaceName (gn_Name nic)) || negb (safeInterfaceName (gn_Bridge nic)) || (gn_VLAN nic <? 0) || (4094 <? gn_VLAN nic))
        (UnsafeNIC (gn_Name nic));
  match parse_mac (gn_MAC nic) with
  | Some mac =>
      if negb (length mac =? 6)%nat then Err (BadNICMAC (gn_Name nic))
      else Ok ("virtio,bridge=" +:+ gn_Bridge nic +:+ ",firewall=1,macaddr=" +:+ to_lower (mac_string mac)
               +:+ (if gn_VLAN nic =? 0 then "" else ",tag=" +:+ itoa (gn_VLAN nic)))
  | None => Err (BadNICMAC (gn_Name nic))
  end.

Definition qemuNICParams (guest : GuestPlan) : result Hold Params :=
  foldM (fun params (entry : nat * GuestNIC) => value ← qemuNICParam entry.2; Ok (params ++ [(net_key entry.1, value)])) [] (indexed (g_NICs guest)).

Definition qemuNICMatches (observed : string) (nic : GuestNIC) : bool :=
  match split observed "," with
  | [] => false
  | first :: rest =>
      let '(model, inlineMAC, hasInlineMAC) := cut first "=" in
      let options := qemuVolumeOptions rest in
      let optionMAC := option_value options "macaddr" in
      let observedMAC := if inlineMAC == "" then optionMAC else inlineMAC in
      (model == "virtio")
      && negb (hasInlineMAC && (optionMAC != "") && negb (equal_fold inlineMAC optionMAC))
      && equal_fold observedMAC (gn_MAC nic) && (option_value options "bridge" == gn_Bridge nic)
      && (option_value options "firewall" == "1")
      && (option_value options "tag" == (if gn_VLAN nic =? 0 then "" else itoa (gn_VLAN nic)))
  end.

Definition nic_key_check (guest : GuestPlan) (key : string) : result Hold unit :=
  if negb (has_prefix key "net") then Ok tt
  else fail_if (match qemuNICIndex key with Some index => Z.of_nat (length (g_NICs guest)) <=? index | None => true end)
         (UndeclaredNIC (g_Name guest) key).
Definition validateNoUndeclaredQEMUNetworkInterfaces (current : Config) (guest : GuestPlan) : result Hold unit :=
  eachM (nic_key_check guest) (keys current).

Definition nic_step (current : Config) (params : Params) (entry : nat * GuestNIC) : result Hold Params :=
  let key := net_key entry.1 in
  if qemuNICMatches (get_str current key) entry.2 then Ok params
  else value ← qemuNICParam entry.2; Ok (params ++ [(key, value)]).
Definition qemuNICReconciliationParams (current : Config) (guest : GuestPlan) : result Hold Params :=
  _ ← validateNoUndeclaredQEMUNetworkInterfaces current guest;
  foldM (nic_step current) [] (indexed (g_NICs guest)).

Definition nic_check (current : Config) (guest : GuestPlan) (entry : nat * GuestNIC) : result Hold unit :=
  let observed := get_str current (net_key entry.1) in
  fail_if (negb (qemuNICMatches observed entry.2)) (NICMismatch (g_Name guest) (net_key entry.1) observed).
Definition validateExistingQEMUNetworkInterfaces (current : Config) (guest : GuestPlan) : result Hold unit :=
  _ ← validateNoUndeclaredQEMUNetworkInterfaces current guest;
  eachM (nic_check current guest) (indexed (g_NICs guest)).

(** ** Texts of a new machine *)

Definition cloudInitSnippetNames (vmid : Z) (key : string) : string := "boetticher-" +:+ itoa vmid +:+ "-" +:+ key +:+ ".yaml".
Definition cloudInitCICustom (vmid : Z) : string :=
  "user=local:snippets/" +:+ cloudInitSnippetNames vmid "user" +:+ ",network=local:snippets/" +:+ cloudInitSnippetNames vmid "network"
  +:+ ",meta=local:snippets/" +:+ cloudInitSnippetNames vmid "meta".

(** [url.PathEscape] *)
Definition path_plain (c : ascii) : bool := alnum c || contains_byte "-_.~$&+=:@" c.
Definition upper_hex (v : Z) : ascii := if v <? 10 then byte_of (48 + v) else byte_of (55 + v).
Fixpoint path_escape (s : string) : string :=
  match s with
  | EmptyString => EmptyString
  | String c s =>
      if path_plain c then String c (path_escape s)
      else String "%" (String (upper_hex (Z.shiftr (byte_val c) 4)) (String (upper_hex (Z.land (byte_val c) 15)) (path_escape s)))
  end.

Definition artifact_filename (a : Artifact) (suffix : string) : string :=
  ar_Name a +:+ "-" +:+ ar_Version a +:+ "-" +:+ ar_Architecture a +:+ suffix.
End disks.

(** ** The client *)

Section client.
Context `{GoUnicode, PxDigest} (plan : Plan).

Definition safePersistentQEMUDiskKey (value : string) : bool :=
  match key_index "scsi" value with Some index => (0 <? index) && (index <=? 30) | None => false end.

Definition client_QEMUStatus (vmid : Z) : Prog (result ApiError string) :=
  bad_arguments ((node plan == "") || (vmid <=? 0)) (Next (QEMUStatus vmid) (fun r => Ret (no_status r))).
Definition client_StartVM (vmid : Z) : Prog (result ApiError unit) := call (StartVM vmid).
Definition client_StopVM (vmid : Z) : Prog (result ApiError unit) := call (StopVM vmid).
Definition client_CreateVM (vmid : Z) (params : Params) : Prog (result ApiError unit) :=
  bad_arguments ((vmid <=? 0) || (node plan == "")) (call (CreateVM vmid (params ++ [("vmid", itoa vmid)]))).
Definition client_SetVMConfig (vmid : Z) (params : Params) : Prog (result ApiError unit) :=
  bad_arguments ((vmid <=? 0) || (node plan == "")) (call (SetVMConfig vmid params)).
Definition client_ImportDisk (vmid : Z) (source storage format : string) : Prog (result ApiError unit) :=
  bad_arguments ((node plan == "") || (vmid <=? 0) || (source == "") || (storage == "")) (call (ImportDisk vmid source storage format)).
Definition client_MoveQEMUPersistentDisk (vmid : Z) (disk storage digest : string) : Prog (result ApiError unit) :=
  bad_arguments (negb (safeNodeID (node plan)) || (vmid <=? 0) || negb (safePersistentQEMUDiskKey disk) || negb (safeNodeID storage)
                 || negb (sha1_text digest)) (call (MoveDisk vmid disk storage digest)).
Definition client_UploadStorageText (storage content filename value : string) : Prog (result ApiError unit) :=
  bad_arguments ((node plan == "") || (storage == "") || (content == "") || (filename == "")
                 || contains_any filename ("/\" +:+ String "013" (String "010" "")))
    (call (UploadText storage content filename value)).

Definition EnsureVMRunning (vmid : Z) : PM unit :=
  status ← api "read QEMU guest status" (client_QEMUStatus vmid);
  if status == "running" then mret tt else api "start" (client_StartVM vmid).

(** ** The firewall's machine *)

(** The order in which Go ranges over the three files. *)
Context (range : list (string * string) → list (string * string)).

Definition uploadFirewallCloudInit (vmid : Z) : PM unit :=
  let files := p_CloudInitFiles plan in
  _ ← guard ((ci_MetaData files == "") || (ci_UserData files == "") || (ci_NetworkConfig files == "")) CloudInitIncomplete;
  eachP (fun entry : string * string =>
    api "upload firewall cloud-init" (client_UploadStorageText "local" "snippets" (cloudInitSnippetNames vmid entry.1) entry.2))
    (range [("meta", ci_MetaData files); ("user", ci_UserData files); ("network", ci_NetworkConfig files)]).

(** What a deferred restart makes of a result. *)
Definition restarted {A} (what : string) (outcome : result PxError A) (started : result ApiError unit) : result PxError A :=
  match started, outcome with
  | Ok _, _ => outcome
  | Err e, Ok _ => Err (Failed what e)
  | Err e, Err e0 => Err (Additionally e0 what (Failed what e))
  end.

(** The body with the machine stopped; it is started again whatever happens. *)
Definition while_stopped {A} (what : string) (vmid : Z) (wasRunning : bool) (body : PM A) : PM A :=
  if wasRunning then
    _ ← api "stop" (client_StopVM vmid);
    catch body (fun outcome => answer (client_StartVM vmid) (fun started => Ret (restarted what outcome started)))
  else body.

Definition running_vm (guest : GuestPlan) (what : string) : PM bool :=
  status ← api what (client_QEMUStatus (g_VMID guest));
  _ ← running_or_stopped guest status;
  mret (status == "running").

Definition import_root (guest : GuestPlan) : PM unit :=
  let filename := artifact_filename (g_Artifact guest) ".qcow2" in
  _ ← ensureArtifactInStorage plan "local" "import" filename (ar_ContentSHA256 (g_Artifact guest))
        (default "" (p_ArtifactFiles plan !! artifactKey (g_Artifact guest)));
  api "import gateway disk" (client_ImportDisk (g_VMID guest) ("local:import/" +:+ filename) (p_Storage plan) "qcow2").

Definition replace_root (guest : GuestPlan) : PM unit :=
  _ ← (if g_Name guest == firewall_vm then uploadFirewallCloudInit (g_VMID guest) else mret tt);
  _ ← import_root guest;
  api "record artifact identity" (client_SetVMConfig (g_VMID guest) [("description", artifactDescription (g_Artifact guest))]).

(** The machine is started again only on failure. *)
Definition replaceQEMURootDisk (guest : GuestPlan) : PM unit :=
  wasRunning ← running_vm guest "inspect gateway status";
  if wasRunning : bool then
    _ ← api "stop gateway" (client_StopVM (g_VMID guest));
    catch (replace_root guest) (fun outcome =>
      match outcome with
      | Ok _ => Ret outcome
      | Err e => answer (client_StartVM (g_VMID guest)) (fun started => Ret (Err (match started with
                   | Ok _ => e | Err e' => Additionally e "restore after replacement" (Failed "start" e') end)))
      end)
  else replace_root guest.

(** *** Network interfaces *)

Definition apply_interfaces (guest : GuestPlan) : PM Config :=
  refreshed ← api "inspect before applying network reconciliation" (call (QEMUConfig (g_VMID guest)));
  params ← check Held (qemuNICReconciliationParams refreshed guest);
  if (length params =? 0)%nat then mret refreshed
  else
    _ ← api "reconcile network interfaces" (client_SetVMConfig (g_VMID guest) params);
    verified ← api "verify network reconciliation" (call (QEMUConfig (g_VMID guest)));
    _ ← check Held (validateExistingQEMUNetworkInterfaces verified guest);
    mret verified.

Definition reconcileQEMUNetworkInterfaces (guest : GuestPlan) (current : Config) : PM Config :=
  params ← check Held (qemuNICReconciliationParams current guest);
  if (length params =? 0)%nat then mret current
  else
    refreshed ← api "inspect before network reconciliation" (call (QEMUConfig (g_VMID guest)));
    params ← check Held (qemuNICReconciliationParams refreshed guest);
    if (length params =? 0)%nat then mret refreshed
    else
      wasRunning ← running_vm guest "inspect status before network reconciliation";
      while_stopped "restore after network reconciliation" (g_VMID guest) wasRunning (apply_interfaces guest).

(** *** Disks *)

Definition serial_step (current : Config) (params : Params) (entry : nat * PersistentVolume) : result Hold Params :=
  let '(index, volume) := entry in
  serial ← persistentVolumeSerial volume;
  match persistentVolumeIdentity volume with
  | Err _ => Ok params
  | Ok legacySerial =>
      if serial == legacySerial then Ok params
      else
        expected ← qemuPersistentVolumeParam volume;
        Ok (if qemuVolumeMatchesSerial (get_str current (disk_key index)) expected legacySerial
            then params ++ [(disk_key index, expected)] else params)
  end.

Definition migrateLegacyQEMUPersistentVolumeSerials (guest : GuestPlan) (current : Config) : PM Config :=
  params ← check Held (foldM (serial_step current) [] (indexed (g_Volumes guest)));
  if (length params =? 0)%nat then mret current
  else
    _ ← api "migrate legacy persistent volume serials" (client_SetVMConfig (g_VMID guest) params);
    mret (foldl (fun m (p : string * string) => <[p.1 := JStr p.2]> m) current params).

Definition disk_migration_step (guest : GuestPlan) (current : Config) (migrations : list Migration) (entry : nat * PersistentVolume)
    : result Hold (list Migration) :=
  let '(index, volume) := entry in
  expected ← qemuPersistentVolumeParam volume;
  let disk := disk_key index in
  let observed := get_str current disk in
  _ ← fail_if ((VolumeStorageID observed == "") || (VolumeStorageID expected == "")) (MalformedStorage (g_Name guest) disk);
  if VolumeStorageID observed == VolumeStorageID expected then Ok migrations
  else
    _ ← fail_if (negb (qemuVolumeMatchesPersistentIdentity observed expected)) (VolumeUnproven (g_Name guest) disk observed);
    Ok (migrations ++ [mkMigration disk (VolumeStorageID expected) volume observed (Z.of_nat index + 1)]).

Definition move_disk (guest : GuestPlan) (m : Migration) : PM unit :=
  refreshed ← api "inspect before moving" (call (QEMUConfig (g_VMID guest)));
  expected ← check Held (qemuPersistentVolumeParam (mi_volume m));
  let observed := get_str refreshed (mi_mountpoint m) in
  if VolumeStorageID observed == mi_storage m then mret tt
  else
    _ ← guard (negb (qemuVolumeMatchesPersistentIdentity observed expected)) (VolumeChanged (g_Name guest) (mi_mountpoint m));
    api "migrate persistent volume"
      (client_MoveQEMUPersistentDisk (g_VMID guest) (mi_mountpoint m) (mi_storage m) (get_str refreshed "digest")).

Definition move_disks (guest : GuestPlan) (migrations : list Migration) : PM Config :=
  _ ← eachP (move_disk guest) migrations;
  api "verify migration" (call (QEMUConfig (g_VMID guest))).

Definition migrateQEMUPersistentVolumes (guest : GuestPlan) (current : Config) : PM Config :=
  migrations ← check Held (foldM (disk_migration_step guest current) [] (indexed (g_Volumes guest)));
  if (length migrations =? 0)%nat then mret current
  else
    wasRunning ← running_vm guest "inspect status before migration";
    while_stopped "restore after migration" (g_VMID guest) wasRunning (move_disks guest migrations).

(** *** One machine *)

Definition forced (guest : GuestPlan) : bool := p_ForceFirewallRootReplacement plan && (g_Name guest == firewall_vm).

Definition with_cloud_init (guest : GuestPlan) : bool := (g_Name guest == firewall_vm) && (ci_UserData (p_CloudInitFiles plan) != "").

(** The root disk or the cloud-init files; the configuration that is current afterwards. *)
Definition adopt_root (guest : GuestPlan) (current : Config) : PM Config :=
  if guestArtifactNeedsReplacement current guest || forced guest then
    _ ← guard (negb (p_DestructiveConfirmed plan)) (NotConfirmed (g_Name guest));
    _ ← check Held (if forced guest then validateForcedFirewallRootReplacementVolumes current guest else Ok tt);
    _ ← replaceQEMURootDisk guest;
    mret (<["description" := JStr (artifactDescription (g_Artifact guest))]> current)
  else
    _ ← (if with_cloud_init guest then uploadFirewallCloudInit (g_VMID guest) else mret tt);
    mret current.

Definition adopt_vm (guest : GuestPlan) (current : Config) : PM unit :=
  _ ← check Held (validateExistingGuestIdentityFields current guest);
  current ← adopt_root guest current;
  current ← reconcileQEMUNetworkInterfaces guest current;
  current ← migrateLegacyQEMUPersistentVolumeSerials guest current;
  current ← migrateQEMUPersistentVolumes guest current;
  _ ← check Held (validateExistingQEMUVolumes current guest);
  ensureExistingGuestTags plan guest current.

Definition vm_params (guest : GuestPlan) : Params :=
  [("name", g_Name guest); ("description", artifactDescription (g_Artifact guest)); ("memory", itoa (g_MemoryMiB guest));
   ("cores", itoa (g_Cores guest)); ("scsihw", "virtio-scsi-single"); ("ostype", "l26"); ("onboot", "1"); ("agent", "1");
   ("boot", "order=scsi0;net0"); ("serial0", "socket"); ("tags", tag_text (g_Tags guest))].
Definition cloud_init_params (guest : GuestPlan) : Params :=
  [("cicustom", cloudInitCICustom (g_VMID guest)); ("ide2", "local:cloudinit"); ("ciuser", DefaultAdminSSHUser); ("ipconfig0", "ip=dhcp")].

Definition create_vm (guest : GuestPlan) : PM unit :=
  let filename := artifact_filename (g_Artifact guest) ".qcow2" in
  _ ← ensureArtifactInStorage plan "local" "import" filename (ar_ContentSHA256 (g_Artifact guest))
        (default "" (p_ArtifactFiles plan !! artifactKey (g_Artifact guest)));
  _ ← (if with_cloud_init guest then uploadFirewallCloudInit (g_VMID guest) else mret tt);
  _ ← check Held (if p_OperatorPublicKey plan != "" then ValidatePublicKey (p_OperatorPublicKey plan) else Ok tt);
  volumes ← check Held (qemuPersistentVolumeParams guest);
  nics ← check Held (qemuNICParams guest);
  _ ← api "create gateway VM" (client_CreateVM (g_VMID guest)
        (vm_params guest ++ (if with_cloud_init guest then cloud_init_params guest else [])
         ++ (if p_OperatorPublicKey plan != "" then [("sshkeys", path_escape (p_OperatorPublicKey plan))] else []) ++ volumes ++ nics));
  api "import gateway image" (client_ImportDisk (g_VMID guest) ("local:import/" +:+ filename) (p_Storage plan) "qcow2").

Definition ensureQEMU (guest : GuestPlan) : PM unit :=
  answer (GuestConfig (g_VMID guest)) (fun r =>
    match r with
    | Ok (kind, current) =>
        _ ← guard (bool_decide (kind ≠ KindQEMU)) (Occupied (g_Name guest) (g_VMID guest) kind);
        adopt_vm guest current
    | Err NotFound => create_vm guest
    | Err e => throw (Failed "inspect VM" e)
    end).

Definition EnsureFirewallVM : PM unit :=
  match List.find (fun g => bool_decide (g_Kind g = KindQEMU)) (p_Guests plan) with
  | Some guest => ensureQEMU guest
  | None => throw NoFirewallVM
  end.
End client.
End PxQemu.
