(* ===== verification/PxVm.v ===== *)
(** * What the virtual machine's programs ask for ([PxQemu])

    Whatever Proxmox answers: which calls are made in which state, and what is
    known of the machine when the program ends. *)

From S2P Require Export PxQemu PxSafe.

Open Scope Z_scope.

Module PxVm.
Import Model PxGuest PxLxc PxQemu PxSafe.

Create HintDb vm.

(** [vm_owned]: a configuration of the machine was read that passed the identity
    checks.  [vm_absent]: the last look found no guest under its VMID.
    [vm_off]: it was last seen or put off.  [vm_halted]: the program stopped it
    and has not asked to start it again.  [vm_down]: it was stopped and no start
    has succeeded since.  [vm_replaced]: a new root disk was imported and
    recorded.  [vm_nics]: since they were last changed, the interfaces were seen
    to be the declared ones.  [vm_made]: the program created it.  [vm_seen]: the
    configurations that were read. *)
Record VmState := mkVm {
  vm_owned : bool; vm_absent : bool; vm_off : bool; vm_halted : bool; vm_down : bool; vm_replaced : bool; vm_nics : bool; vm_made : bool;
  vm_seen : list Config;
}.
Definition vm_start : VmState := mkVm false false false false false false false false [].

Section vm.
Context `{GoUnicode, PxDigest} (plan : Plan) (range : list (string * string) → list (string * string)) (guest : GuestPlan).
Abbreviation gv := (g_VMID guest).

Definition is_ok {E A} (r : result E A) : bool := match r with Ok _ => true | Err _ => false end.
Definition reads_owned (current : Config) : bool := is_ok (validateExistingGuestIdentityFields current guest).
Definition reads_nics (current : Config) : bool := is_ok (validateExistingQEMUNetworkInterfaces current guest).

Definition with_config (s : VmState) (current : Config) : VmState :=
  mkVm (vm_owned s || reads_owned current) false (vm_off s) (vm_halted s) (vm_down s) (vm_replaced s) (vm_nics s || reads_nics current) (vm_made s)
    (current :: vm_seen s).
Definition with_absent (s : VmState) (absent : bool) : VmState :=
  mkVm (vm_owned s) absent (vm_off s) (vm_halted s) (vm_down s) (vm_replaced s) (vm_nics s) (vm_made s) (vm_seen s).
Definition with_power (s : VmState) (off halted down : bool) : VmState :=
  mkVm (vm_owned s) (vm_absent s) off halted down (vm_replaced s) (vm_nics s) (vm_made s) (vm_seen s).
Definition with_replaced (s : VmState) (replaced : bool) : VmState :=
  mkVm (vm_owned s) (vm_absent s) (vm_off s) (vm_halted s) (vm_down s) (vm_replaced s || replaced) (vm_nics s) (vm_made s) (vm_seen s).
Definition with_nics (s : VmState) (nics : bool) : VmState :=
  mkVm (vm_owned s) (vm_absent s) (vm_off s) (vm_halted s) (vm_down s) (vm_replaced s) nics (vm_made s) (vm_seen s).
Definition with_made (s : VmState) (made : bool) : VmState :=
  mkVm (vm_owned s) (vm_absent s) (vm_off s) (vm_halted s) (vm_down s) (vm_replaced s) (vm_nics s) (vm_made s || made) (vm_seen s).

Definition is_not_found {A} (r : result ApiError A) : bool := match r with Err NotFound => true | _ => false end.

(** What the keys of a configuration change are about. *)
Definition about (prefix : string) (params : Params) : bool := existsb (fun p => has_prefix p.1 prefix) params.

Definition advance (s : VmState) (c : Call) : resp c → VmState :=
  match c with
  | QEMUConfig v => fun r => if v =? gv then match r with Ok current => with_config s current | Err _ => with_absent s false end else s
  | LXCConfig v => fun r => if v =? gv then with_absent s (is_not_found r) else s
  | QEMUStatus v => fun r => if v =? gv then with_power s (match r with Ok status => status == "stopped" | Err _ => false end) (vm_halted s) (vm_down s) else s
  | StopVM v => fun r => if v =? gv then with_power s (is_ok r) (vm_halted s || is_ok r) (vm_down s || is_ok r) else s
  | StartVM v => fun r => if v =? gv then with_power s false false (vm_down s && negb (is_ok r)) else s
  | SetVMConfig v params => fun r =>
      if v =? gv then
        let s := if about "description" params then with_replaced s (is_ok r) else s in
        if about "net" params then with_nics s false else s
      else s
  | CreateVM v _ => fun r => if v =? gv then with_made s (is_ok r) else s
  | _ => fun _ => s
  end.

(** A volume whose disk was seen with the serial of an earlier version: the only
    one whose text may be set on a running machine. *)
Definition legacy_seen (s : VmState) (i : nat) (volume : PersistentVolume) (text : string) : Prop :=
  ∃ legacy seen, persistentVolumeIdentity volume = Ok legacy ∧ persistentVolumeSerial volume ≠ Ok legacy
    ∧ seen ∈ vm_seen s ∧ qemuVolumeMatchesSerial (get_str seen (disk_key i)) text legacy = true.

Definition permitted (s : VmState) (c : Call) : Prop :=
  match c with
  | QEMUConfig v | LXCConfig v | QEMUStatus v => v = gv
  | StorageContent _ _ | UploadFile _ _ _ _ _ | FileSHA256 _ | FileStat _ => True
  | UploadText storage content filename _ =>
      storage = "local" ∧ content = "snippets" ∧ ∃ key, filename = cloudInitSnippetNames gv key
  | StopVM v => v = gv ∧ vm_owned s = true
  | StartVM v => v = gv ∧ vm_halted s = true
  | CreateVM v _ => v = gv ∧ vm_absent s = true
  | ImportDisk v _ _ _ =>
      v = gv ∧ (vm_made s = true ∨ vm_owned s = true ∧ vm_off s = true ∧ p_DestructiveConfirmed plan = true)
  | MoveDisk v disk _ _ => v = gv ∧ vm_owned s = true ∧ vm_off s = true ∧ ∃ i, (i < length (g_Volumes guest))%nat ∧ disk = disk_key i
  | SetVMConfig v params =>
      v = gv ∧ vm_owned s = true
      ∧ Forall (fun p : string * string =>
          p.1 = "tags"
          ∨ p.1 = "description" ∧ vm_off s = true
          ∨ vm_off s = true ∧ (∃ i nic, g_NICs guest !! i = Some nic ∧ p.1 = net_key i ∧ qemuNICParam nic = Ok p.2)
          ∨ ∃ i volume, g_Volumes guest !! i = Some volume ∧ p.1 = disk_key i ∧ qemuPersistentVolumeParam volume = Ok p.2
               ∧ legacy_seen s i volume p.2) params
  | _ => False
  end%string.

Abbreviation watch := (watched permitted advance).
Abbreviation obeys := (follows permitted advance).

(** A machine that was stopped was asked to start again, unless its root disk was
    replaced; and, at rest, it was started. *)
Definition settled (s : VmState) : Prop := vm_halted s = true → vm_replaced s = true.
Definition steady (s : VmState) : Prop := settled s ∧ (vm_down s = true → vm_replaced s = true).

Lemma steady_settled s : steady s → settled s.
Proof. by intros []. Qed.
Hint Resolve steady_settled : core.

(** After looking. *)
Record grows (s s' : VmState) : Prop := {
  gr_owned : vm_owned s = true → vm_owned s' = true;
  gr_nics : vm_nics s = true → vm_nics s' = true;
  gr_off : vm_off s' = vm_off s;
  gr_halted : vm_halted s' = vm_halted s;
  gr_down : vm_down s' = vm_down s;
  gr_replaced : vm_replaced s' = vm_replaced s;
  gr_made : vm_made s' = vm_made s;
  gr_seen : vm_seen s ⊆ vm_seen s';
}.
#[local] Instance grows_preorder : PreOrder grows.
Proof. split; [done|]. intros s1 s2 s3 [] []. split; (congruence || auto || by etrans). Qed.

Lemma grows_settled s s' : grows s s' → settled s → settled s'.
Proof. intros [? ? ? Hh ? Hr ? ?]. unfold settled. by rewrite Hh, Hr. Qed.
Lemma grows_steady s s' : grows s s' → steady s → steady s'.
Proof. intros [? ? ? Hh Hd Hr ? ?]. unfold steady, settled. by rewrite Hh, Hd, Hr. Qed.
Hint Resolve grows_settled grows_steady : core.

Abbreviation still := (stays permitted advance grows).

Lemma vm_unchanged_still c : (∀ s r, advance s c r = s) → (∀ s, permitted s c) → still c.
Proof. apply unchanged_stays, _. Qed.
Lemma vm_obeys_still E {A} (m : PM A) (Q : A → VmState → Prop) s :
  all_calls still m → (∀ s', grows s s' → E s') → (∀ a s', grows s s' → Q a s') → obeys E m Q s.
Proof. apply follows_still, _. Qed.

Lemma vm_config_still : still (QEMUConfig gv).
Proof.
  split; [done|]. intros s [current|e]; cbn; rewrite Z.eqb_refl; [|done]. split; cbn; try done; [by intros ->..|]. intros x. by right.
Qed.

Ltac stills := repeat (first [calls_step | solve [eauto with vm] | solve [apply vm_unchanged_still; [done|]; intros; cbn; eauto 6]]).

(** Calls that the monitor does not follow at all. *)
Abbreviation silent := (stays permitted advance eq).
Lemma unchanged_silent c : (∀ s r, advance s c r = s) → (∀ s, permitted s c) → silent c.
Proof. apply unchanged_stays, _. Qed.
Lemma silent_still {A} (p : Prog A) : all_calls silent p → all_calls still p.
Proof. apply all_calls_mono. intros c [Hp Ha]. split; [done|]. intros s r. by rewrite <- (Ha s r). Qed.
Lemma obeys_silent (E : VmState → Prop) {A} (m : PM A) (Q : A → VmState → Prop) s :
  all_calls silent m → E s → (∀ a, Q a s) → obeys E m Q s.
Proof. intros Hm HE HQ. by apply (follows_still permitted advance E eq); [..|intros ? ? <-]; [|intros ? <-|]. Qed.

Ltac silents := repeat (first [calls_step | solve [eauto with vm] | solve [apply unchanged_silent; [done|]; intros; cbn; eauto 6]]).

Lemma ensureArtifactInStorage_silent storage content filename checksum source :
  all_calls silent (ensureArtifactInStorage plan storage content filename checksum source).
Proof. unfold ensureArtifactInStorage, upload_artifact. silents. Qed.
Lemma uploadFirewallCloudInit_silent : all_calls silent (uploadFirewallCloudInit plan range gv).
Proof. unfold uploadFirewallCloudInit, client_UploadStorageText. silents. Qed.
Definition ensureArtifactInStorage_still storage content filename checksum source :=
  silent_still _ (ensureArtifactInStorage_silent storage content filename checksum source).
Definition uploadFirewallCloudInit_still := silent_still _ uploadFirewallCloudInit_silent.
Hint Resolve ensureArtifactInStorage_still uploadFirewallCloudInit_still : vm.

(** *** Reading *)

(** What the monitor has learned from a configuration. *)
Definition shown (current : Config) (s : VmState) : Prop :=
  ∃ seen, seen ∈ vm_seen s ∧ ∀ i, get_str current (disk_key i) = get_str seen (disk_key i).
Definition told (current : Config) (s : VmState) : Prop := (reads_nics current = true → vm_nics s = true) ∧ shown current s.

Lemma shown_grows current s s' : shown current s → vm_seen s ⊆ vm_seen s' → shown current s'.
Proof. intros (seen & Hin & He) Hs. exists seen. split; [by apply Hs|done]. Qed.
Lemma shown_head current s : current ∈ vm_seen s → shown current s.
Proof. by exists current. Qed.
Lemma told_grows current s s' : told current s → grows s s' → told current s'.
Proof. intros [Ht Hsh] Hg. split; [intros Hr; by apply (gr_nics _ _ Hg), Ht|]. by eapply shown_grows, gr_seen. Qed.

Lemma obeys_QEMUConfig E what (Q : Config → VmState → Prop) s :
  (∀ s', grows s s' → E s') → (∀ current s', grows s s' → told current s' → Q current s') →
  obeys E (api what (call (QEMUConfig gv))) Q s.
Proof.
  intros HE HQ. split; [done|]. intros r. pose proof (proj2 vm_config_still s r) as Hg. destruct r as [current|e]; [|by apply HE].
  apply HQ; [exact Hg|]. cbn. rewrite Z.eqb_refl. split; [|apply shown_head; by left]. intros Hr. cbn. rewrite Hr. apply orb_true_r.
Qed.

(** Running or stopped; a machine that does not run is off. *)
Lemma obeys_running_vm what (Q : bool → VmState → Prop) s : settled s →
  (∀ b off, (b = false → off = true) → Q b (with_power s off (vm_halted s) (vm_down s))) → obeys settled (running_vm plan guest what) Q s.
Proof.
  intros Hs HQ. apply follows_bind, follows_api, watched_bad; [done|]. intros _. split; [done|].
  intros r. cbn. rewrite Z.eqb_refl. destruct (no_status r) as [status|e] eqn:Er; [|done].
  assert (r = Ok status) as -> by (destruct r as [t|]; [destruct t|]; cbn in Er; congruence).
  destruct ((status != "running") && (status != "stopped")) eqn:Hb; [done|]. apply HQ. intros Hrun. rewrite Hrun in Hb. by apply negb_false_iff in Hb.
Qed.

(** *** Stopped for a while *)

Definition power_same (s s' : VmState) : Prop :=
  vm_halted s' = vm_halted s ∧ vm_down s' = vm_down s ∧ vm_replaced s' = vm_replaced s.

Lemma grows_power s s' : grows s s' → power_same s s'.
Proof. by intros []. Qed.
Lemma power_settled s s' : power_same s s' → settled s → settled s'.
Proof. intros (Hh & _ & Hr). unfold settled. by rewrite Hh, Hr. Qed.
Lemma power_steady s s' : power_same s s' → steady s → steady s'.
Proof. intros (Hh & Hd & Hr). unfold steady, settled. by rewrite Hh, Hd, Hr. Qed.
Lemma power_trans s1 s2 s3 : power_same s1 s2 → power_same s2 s3 → power_same s1 s3.
Proof. intros (?&?&?) (?&?&?). split_and!; congruence. Qed.
Hint Resolve grows_power power_settled power_steady power_trans : core.

Lemma with_power_id s : with_power s (vm_off s) (vm_halted s) (vm_down s) = s.
Proof. by destruct s. Qed.

(** The body's knowledge [R] is not about power. *)
Lemma obeys_while_stopped {A} what wasRunning (body : PM A) (R : A → VmState → Prop) (Q : A → VmState → Prop) s :
  vm_owned s = true → steady s → (wasRunning = false → vm_off s = true) →
  (∀ a s' off halted down, R a s' → R a (with_power s' off halted down)) →
  (∀ halted down, let s1 := with_power s true halted down in obeys (power_same s1) body (fun a s' => power_same s1 s' ∧ R a s') s1) →
  (∀ a s', steady s' → R a s' → Q a s') →
  obeys settled (while_stopped what gv wasRunning body) Q s.
Proof.
  intros Ho Hs Hoff HR Hbody HQ. unfold while_stopped. destruct wasRunning.
  - apply follows_bind, follows_api. split; [done|]. intros [[]|e]; cbn; rewrite Z.eqb_refl, ?orb_false_r; [|by apply Hs].
    rewrite !orb_true_r. apply follows_catch. eapply watched_mono; [apply Hbody|]. intros outcome s2 Hout.
    assert (power_same (with_power s true true true) s2) as Hp by (destruct outcome; [apply Hout|exact Hout]).
    split; [split; [done|by destruct Hp]|]. intros started. cbn. rewrite Z.eqb_refl.
    destruct started as [[]|e], outcome as [a|e0]; cbn; try done. destruct Hout as [_ Hout]. rewrite andb_false_r.
    apply HQ; [done|]. by apply HR.
  - specialize (Hbody (vm_halted s) (vm_down s)). cbv zeta in Hbody. rewrite <- (Hoff eq_refl), with_power_id in Hbody.
    eapply watched_mono; [apply Hbody|]. intros [a|e] s2; [intros [Hp HRa]; apply HQ; eauto|]. eauto.
Qed.

(** *** Network interfaces *)

Lemma nic_steps current params :
  foldM (nic_step current) [] (indexed (g_NICs guest)) = Ok params →
  Forall (fun p : string * string => ∃ i nic, g_NICs guest !! i = Some nic ∧ p.1 = net_key i ∧ qemuNICParam nic = Ok p.2) params
  ∧ (params = [] → ∀ e, e ∈ indexed (g_NICs guest) → qemuNICMatches (get_str current (net_key e.1)) e.2 = true).
Proof.
  apply (foldM_inv _ (fun done params =>
    Forall (fun p : string * string => ∃ i nic, g_NICs guest !! i = Some nic ∧ p.1 = net_key i ∧ qemuNICParam nic = Ok p.2) params
    ∧ (params = [] → ∀ e, e ∈ done → qemuNICMatches (get_str current (net_key e.1)) e.2 = true))).
  - split; [constructor|]. by intros _ e ?%not_elem_of_nil.
  - intros dn [i nic] ps ps' [HF Hn] Hin. unfold nic_step. cbn. destruct (qemuNICMatches _ _) eqn:Hm.
    + intros [= <-]. split; [done|]. intros E e [He|He]%elem_snoc; [by apply Hn|by subst e].
    + intros (v & Hv & [= <-])%bind_ok. split; [|by destruct ps].
      apply Forall_app. split; [done|]. constructor; [|constructor]. exists i, nic. cbn. split; [|done].
      apply elem_of_lookup_imap in Hin as (j & x & [= -> ->] & Hj). done.
Qed.

Lemma reconciled_params current params : qemuNICReconciliationParams current guest = Ok params →
  Forall (fun p : string * string => ∃ i nic, g_NICs guest !! i = Some nic ∧ p.1 = net_key i ∧ qemuNICParam nic = Ok p.2) params
  ∧ (params = [] → reads_nics current = true).
Proof.
  unfold qemuNICReconciliationParams. intros (u & Hu & Hps)%bind_ok. apply nic_steps in Hps as [HF Hn]. split; [done|].
  intros E. unfold reads_nics, validateExistingQEMUNetworkInterfaces. rewrite Hu. cbn.
  replace (eachM (nic_check current guest) (indexed (g_NICs guest))) with (Ok tt : result Hold unit); [done|].
  symmetry. apply eachM_ok, Forall_forall. intros e He. unfold nic_check. by rewrite (Hn E e He).
Qed.

Lemma about_none prefix params : Forall (fun p : string * string => has_prefix p.1 prefix = false) params → about prefix params = false.
Proof. induction 1 as [|p ps Hp _ IH]; [done|]. unfold about in *. cbn. by rewrite Hp. Qed.

(** A change that is not about the description leaves the power alone. *)
Lemma set_config_power s params r : Forall (fun p : string * string => has_prefix p.1 "description" = false) params →
  power_same s (advance s (SetVMConfig gv params) r) ∧ vm_owned (advance s (SetVMConfig gv params) r) = vm_owned s.
Proof. intros Hd%about_none. cbn. rewrite Z.eqb_refl, Hd. by destruct (about "net" params). Qed.

Lemma set_config_labels s params r : Forall (fun p : string * string => has_prefix p.1 "description" = false) params →
  Forall (fun p : string * string => has_prefix p.1 "net" = false) params → advance s (SetVMConfig gv params) r = s.
Proof. intros Hd%about_none Hn%about_none. cbn. by rewrite Z.eqb_refl, Hd, Hn. Qed.

Lemma obeys_apply_interfaces s : vm_owned s = true → vm_off s = true →
  obeys (power_same s) (apply_interfaces plan guest)
    (fun current s' => power_same s s' ∧ told current s' ∧ vm_nics s' = true ∧ vm_owned s' = true) s.
Proof.
  intros Ho Hoff. apply follows_bind, obeys_QEMUConfig; [apply grows_power|]. intros refreshed s1 G1 Ht1.
  apply follows_bind, follows_check; [by apply grows_power|]. intros params [HF Hn]%reconciled_params.
  destruct (length params =? 0)%nat eqn:Hlen.
  { apply Nat.eqb_eq, nil_length_inv in Hlen. split; [by apply grows_power|]. split; [done|]. split; [by apply Ht1, Hn|by apply G1]. }
  apply follows_bind, follows_api, watched_bad; [by intros; apply grows_power|]. intros _.
  assert (vm_owned s1 = true) as Ho1 by by apply G1.
  assert (Forall (fun p : string * string => has_prefix p.1 "description" = false) params) as Hd.
  { eapply Forall_impl; [exact HF|]. intros p (j & nic & _ & -> & _). reflexivity. }
  split.
  { split; [done|]. split; [done|]. eapply Forall_impl; [exact HF|]. intros p Hp. cbv beta. right; right; left.
    split; [by rewrite (gr_off _ _ G1)|done]. }
  intros r. destruct (set_config_power s1 params r Hd) as [Hp Ho2]. set (s2 := advance _ _ _) in *.
  assert (power_same s s2) by eauto. rewrite Ho1 in Ho2. destruct r as [[]|e]; [|done].
  apply follows_bind, obeys_QEMUConfig; [by eauto|]. intros verified s3 G3 Ht3.
  apply follows_bind, follows_check; [by eauto|]. intros u Hu.
  split; [by eauto|]. split; [done|]. split; [|by apply G3]. apply Ht3. unfold reads_nics. by rewrite Hu.
Qed.

Lemma obeys_reconcile current s : vm_owned s = true → steady s → told current s →
  obeys settled (reconcileQEMUNetworkInterfaces plan guest current)
    (fun current' s' => steady s' ∧ vm_nics s' = true ∧ vm_owned s' = true ∧ shown current' s') s.
Proof.
  intros Ho Hs Ht. apply follows_bind, follows_check; [by eauto|]. intros params [HF Hn]%reconciled_params.
  destruct (length params =? 0)%nat eqn:Hlen.
  { apply Nat.eqb_eq, nil_length_inv in Hlen. split; [done|]. split; [by apply Ht, Hn|]. split; [done|apply Ht]. }
  apply follows_bind, obeys_QEMUConfig; [by eauto|]. intros refreshed s1 G1 Ht1.
  apply follows_bind, follows_check; [by eauto|]. intros params1 [HF1 Hn1]%reconciled_params.
  destruct (length params1 =? 0)%nat eqn:Hlen1.
  { apply Nat.eqb_eq, nil_length_inv in Hlen1. split; [by eauto|]. split; [by apply Ht1, Hn1|]. split; [by apply G1|apply Ht1]. }
  apply follows_bind, obeys_running_vm; [by eauto|]. intros b off Hb.
  apply (obeys_while_stopped _ _ _ (fun current' s' => vm_nics s' = true ∧ vm_owned s' = true ∧ shown current' s'));
    [by apply G1|by apply (grows_steady _ _ G1)|done|done| |].
  - intros halted down s2. eapply follows_mono; [apply obeys_apply_interfaces; [by apply G1|done]|].
    intros c s3 (Hp & [_ Hsh] & Hn3 & Ho3). done.
  - naive_solver.
Qed.

(** *** Disks *)

Lemma serial_steps current s params : shown current s → foldM (serial_step current) [] (indexed (g_Volumes guest)) = Ok params →
  Forall (fun p : string * string => ∃ i volume, g_Volumes guest !! i = Some volume ∧ p.1 = disk_key i
    ∧ qemuPersistentVolumeParam volume = Ok p.2 ∧ legacy_seen s i volume p.2) params.
Proof.
  intros (seen & Hseen & Esame). apply (foldM_inv _ (fun _ params => Forall (fun p : string * string =>
    ∃ i volume, g_Volumes guest !! i = Some volume ∧ p.1 = disk_key i ∧ qemuPersistentVolumeParam volume = Ok p.2
      ∧ legacy_seen s i volume p.2) params)); [constructor|].
  intros dn [i volume] ps ps' HF Hin. cbn. intros (serial & Es & Hr)%bind_ok. destruct (persistentVolumeIdentity volume) as [legacy|] eqn:El; [|by simplify_eq].
  destruct (serial == legacy) eqn:Hne; [by simplify_eq|]. apply bind_ok in Hr as (expected & He & [= <-]).
  destruct (qemuVolumeMatchesSerial _ _ _) eqn:Hm; [|done]. apply Forall_app. split; [done|]. constructor; [|constructor].
  apply elem_of_lookup_imap in Hin as (j & x & [= -> ->] & Hj). exists j, x. cbn. split_and!; [done..|].
  exists legacy, seen. split_and!; [done| |done|by rewrite <- Esame]. apply bool_decide_eq_false in Hne. congruence.
Qed.

Lemma obeys_serials current s : vm_owned s = true → steady s → shown current s →
  obeys settled (migrateLegacyQEMUPersistentVolumeSerials plan guest current) (fun _ s' => s' = s) s.
Proof.
  intros Ho Hs Hsh. apply follows_bind, follows_check; [by eauto|]. intros params HF%(serial_steps _ s); [|done].
  destruct (length params =? 0)%nat; [done|].
  apply follows_bind, follows_api, watched_bad; [by eauto|]. intros _. split.
  { split; [done|]. split; [done|]. eapply Forall_impl; [exact HF|]. intros p Hp. cbv beta. by right; right; right. }
  intros r. rewrite set_config_labels.
  - destruct r as [[]|e]; [done|by apply Hs].
  - eapply Forall_impl; [exact HF|]. intros p (j & volume & _ & -> & _). reflexivity.
  - eapply Forall_impl; [exact HF|]. intros p (j & volume & _ & -> & _). reflexivity.
Qed.

Definition declared_disk (m : Migration) : Prop := ∃ i, (i < length (g_Volumes guest))%nat ∧ mi_mountpoint m = disk_key i.

Lemma migration_steps current migrations : foldM (disk_migration_step guest current) [] (indexed (g_Volumes guest)) = Ok migrations →
  Forall declared_disk migrations.
Proof.
  apply (foldM_inv _ (fun _ ms => Forall declared_disk ms)); [constructor|].
  intros dn [i volume] ms ms' HF Hin. cbn. intros (expected & _ & Hr)%bind_ok. apply bind_ok in Hr as (u & _ & Hr).
  case_match; [by simplify_eq|]. apply bind_ok in Hr as (u' & _ & [= <-]).
  apply Forall_app. split; [done|]. constructor; [|constructor]. apply elem_of_lookup_imap in Hin as (j & x & [= -> ->] & Hj).
  exists j. split; [by apply lookup_lt_Some in Hj|done].
Qed.

Lemma obeys_move_disk m s : declared_disk m → vm_owned s = true → vm_off s = true →
  obeys (power_same s) (move_disk plan guest m) (fun _ s' => grows s s') s.
Proof.
  intros (j & Hj & Hm) Ho Hoff. apply follows_bind, obeys_QEMUConfig; [apply grows_power|]. intros current s1 G1 _.
  apply follows_bind, follows_check; [by apply grows_power|]. intros expected _. cbv zeta. case_match; [exact G1|].
  apply follows_bind, follows_guard; [by apply grows_power|]. intros _.
  apply follows_api, watched_bad; [by intros; apply grows_power|]. intros _. split.
  { split; [done|]. split; [by apply G1|]. split; [by rewrite (gr_off _ _ G1)|]. by exists j. }
  intros [[]|e]; [exact G1|by apply grows_power].
Qed.

Lemma obeys_move_disks migrations s : Forall declared_disk migrations → vm_owned s = true → vm_off s = true →
  obeys (power_same s) (move_disks plan guest migrations) (fun _ s' => power_same s s' ∧ grows s s') s.
Proof.
  intros HF Ho Hoff. apply follows_bind. eapply follows_mono.
  - apply (follows_eachP _ _ _ _ _ (fun s' => grows s s')); [reflexivity|]. intros m s1 Hm G1.
    eapply watched_mono; [apply obeys_move_disk|].
    + rewrite Forall_forall in HF. by apply HF.
    + by apply G1.
    + by rewrite (gr_off _ _ G1).
    + intros [[]|e] s2; [intros G2; by etrans|]. by eauto.
  - intros [] s1 G1. apply obeys_QEMUConfig; [by eauto|]. intros c s2 G2 _. assert (grows s s2) by by etrans. by eauto.
Qed.

Lemma obeys_migrate_disks current s : vm_owned s = true → steady s → vm_nics s = true →
  obeys settled (migrateQEMUPersistentVolumes plan guest current)
    (fun _ s' => steady s' ∧ vm_nics s' = true ∧ vm_owned s' = true) s.
Proof.
  intros Ho Hs Hn. apply follows_bind, follows_check; [by eauto|]. intros migrations HF%migration_steps.
  destruct (length migrations =? 0)%nat; [done|].
  apply follows_bind, obeys_running_vm; [by eauto|]. intros b off Hb.
  apply (obeys_while_stopped _ _ _ (fun _ s' => vm_nics s' = true ∧ vm_owned s' = true)); [done|exact Hs|done|done| |].
  - intros halted down s2. eapply follows_mono; [by apply obeys_move_disks|]. intros c s3 [Hp G]. split; [done|].
    split; [by apply (gr_nics _ _ G)|by apply (gr_owned _ _ G)].
  - naive_solver.
Qed.

(** *** The root disk *)

(** It may be imported, and recorded if [recording]. *)
Definition may_import (s : VmState) : Prop :=
  vm_made s = true ∨ vm_owned s = true ∧ vm_off s = true ∧ p_DestructiveConfirmed plan = true.

Lemma obeys_import_root s : may_import s → obeys (grows s) (import_root plan guest) (fun _ s' => grows s s') s.
Proof.
  intros Hm. apply follows_bind, vm_obeys_still; [stills|done|]. intros [] s1 G1.
  apply follows_api, watched_bad; [by intros|]. intros _. split.
  { split; [done|]. destruct Hm as [Hm|(Ho & Hoff & Hc)]; [left; by rewrite (gr_made _ _ G1)|right].
    split; [by apply G1|]. by rewrite (gr_off _ _ G1). }
  by intros [[]|e].
Qed.

Lemma obeys_replace_root s : vm_owned s = true → vm_off s = true → p_DestructiveConfirmed plan = true →
  obeys (power_same s) (replace_root plan range guest)
    (fun _ s' => vm_replaced s' = true ∧ vm_owned s' = true ∧ (vm_nics s = true → vm_nics s' = true) ∧ vm_seen s ⊆ vm_seen s') s.
Proof.
  intros Ho Hoff Hc. apply follows_bind.
  assert (obeys (power_same s) (if g_Name guest == firewall_vm then uploadFirewallCloudInit plan range gv else mret tt) (fun _ s' => grows s s') s) as Hup.
  { destruct (g_Name guest == firewall_vm); [|done]. apply vm_obeys_still; [stills|apply grows_power|done]. }
  eapply follows_mono; [exact Hup|]. intros [] s1 G1. apply follows_bind.
  assert (may_import s1) as Hm by (right; split; [by apply G1|]; by rewrite (gr_off _ _ G1)).
  eapply watched_mono; [by apply obeys_import_root|]. intros [[]|e] s2 G2; [|by eauto].
  apply follows_api, watched_bad; [by intros; eauto|]. intros _. split.
  { split; [done|]. split; [by apply G2, G1|]. constructor; [|constructor]. right; left. split; [done|].
    by rewrite (gr_off _ _ G2), (gr_off _ _ G1). }
  assert (vm_owned s2 = true) as Ho2 by by apply G2, G1. assert (power_same s s2) as Hp by eauto.
  intros [[]|e]; cbn; rewrite Z.eqb_refl; cbn.
  - split; [apply orb_true_r|]. split; [done|]. split; [intros Hn; by apply G2, G1|]. etrans; [apply G1|apply G2].
  - destruct Hp as (Hh & Hd & Hr). split_and!; cbn; [done..|]. by rewrite orb_false_r.
Qed.

Lemma obeys_replaceQEMURootDisk s : vm_owned s = true → steady s → p_DestructiveConfirmed plan = true →
  obeys settled (replaceQEMURootDisk plan range guest)
    (fun _ s' => steady s' ∧ vm_owned s' = true ∧ (vm_nics s = true → vm_nics s' = true) ∧ vm_seen s ⊆ vm_seen s') s.
Proof.
  intros Ho Hs Hc. apply follows_bind, obeys_running_vm; [by eauto|]. intros b off Hb. set (s1 := with_power _ _ _ _).
  assert (settled s1) as Hs1 by (by apply Hs). destruct b.
  - apply follows_bind, follows_api. split; [done|]. intros [[]|e]; cbn; rewrite Z.eqb_refl, ?orb_false_r; [|done].
    apply follows_catch. set (s2 := with_power _ _ _ _). eapply watched_mono; [by apply (obeys_replace_root s2)|].
    intros [[]|e] s3; [intros [Hr Hk]; split; [by split; intros _|exact Hk]|]. intros (Hh & _ & _).
    split; [split; [done|]; rewrite Hh; cbn; apply orb_true_r|]. intros started. cbn. rewrite Z.eqb_refl. done.
  - specialize (Hb eq_refl) as ->. eapply watched_mono; [by apply (obeys_replace_root s1)|].
    intros [[]|e] s3; [intros [Hr Hk]; split; [by split; intros _|exact Hk]|]. by eauto.
Qed.

Lemma described_nics current text : reads_nics (<["description" := JStr text]> current) = true → reads_nics current = true.
Proof.
  unfold reads_nics, validateExistingQEMUNetworkInterfaces, validateNoUndeclaredQEMUNetworkInterfaces.
  destruct (eachM _ (keys (<[_ := _]> current))) as [[]|e] eqn:Hk; [|done]. cbn.
  destruct (eachM _ (indexed _)) as [[]|e] eqn:Hn; [|done]. intros _.
  apply eachM_ok in Hk. apply eachM_ok in Hn. rewrite Forall_forall in Hk. rewrite Forall_forall in Hn.
  assert (eachM (nic_key_check guest) (keys current) = Ok tt) as ->.
  { apply eachM_ok, Forall_forall. intros k Hin. apply Hk. unfold keys in *.
    apply list_elem_of_fmap in Hin as ([k' v] & -> & Hv%elem_of_map_to_list). apply list_elem_of_fmap.
    destruct (decide (k' = "description"%string)) as [->|Hne].
    - eexists (_, _). split; [|apply elem_of_map_to_list, lookup_insert_eq]. done.
    - exists (k', v). split; [done|]. apply elem_of_map_to_list, lookup_insert_Some. by right. }
  assert (eachM (nic_check current guest) (indexed (g_NICs guest)) = Ok tt) as ->; [|done].
  apply eachM_ok, Forall_forall. intros e He. specialize (Hn e He). unfold nic_check in *.
  by rewrite get_str_insert_ne in Hn by done.
Qed.

Lemma obeys_adopt_root current s : vm_owned s = true → steady s → told current s →
  obeys settled (adopt_root plan range guest current)
    (fun current' s' => steady s' ∧ vm_owned s' = true ∧ told current' s') s.
Proof.
  intros Ho Hs Ht. unfold adopt_root. case_match.
  - apply follows_bind, follows_guard; [by eauto|]. intros Hc%negb_false_iff. apply follows_bind, follows_check; [by eauto|]. intros u _.
    apply follows_bind. eapply follows_mono; [by apply obeys_replaceQEMURootDisk|]. intros [] s1 (Hs1 & Ho1 & Hn1 & Hseen).
    split; [done|]. split; [done|]. destruct Ht as [Ht (seen & Hin & Esame)]. split; [intros Hd%described_nics; by apply Hn1, Ht|].
    exists seen. split; [by apply Hseen|]. intros i. by rewrite get_str_insert_ne.
  - apply follows_bind, vm_obeys_still; [case_match; stills|by eauto|]. intros [] s1 G1. split; [by eauto|]. split; [by apply G1|by eapply told_grows].
Qed.

(** *** One machine *)

Lemma obeys_tags current s : g_Kind guest = KindQEMU → vm_owned s = true → settled s →
  obeys settled (ensureExistingGuestTags plan guest current) (fun _ s' => s' = s) s.
Proof.
  intros Hk Ho Hs. apply follows_bind, follows_check; [done|]. intros u _. cbv zeta. case_match; [done|].
  apply follows_api. rewrite bool_decide_eq_true_2 by done. apply watched_bad; [done|]. intros _. split.
  { split; [done|]. split; [done|]. constructor; [by left|constructor]. }
  intros r. rewrite set_config_labels by (constructor; [done|constructor]). by destruct r as [[]|e].
Qed.

Lemma obeys_adopt_vm current s : g_Kind guest = KindQEMU → steady s → told current s →
  (reads_owned current = true → vm_owned s = true) →
  obeys settled (adopt_vm plan range guest current) (fun _ s' => steady s' ∧ vm_nics s' = true) s.
Proof.
  intros Hk Hs Ht Ho. apply follows_bind, follows_check; [by eauto|]. intros u Hu.
  assert (vm_owned s = true) as Ho1 by (apply Ho; unfold reads_owned; by rewrite Hu).
  apply follows_bind. eapply follows_mono; [by apply obeys_adopt_root|]. intros c1 s1 (Hs1 & Ho2 & Ht1).
  apply follows_bind. eapply follows_mono; [by apply obeys_reconcile|]. intros c2 s2 (Hs2 & Hn2 & Ho3 & Hsh).
  apply follows_bind. eapply follows_mono; [by apply obeys_serials|]. intros c3 s3 ->.
  apply follows_bind. eapply follows_mono; [by apply obeys_migrate_disks|]. intros c4 s4 (Hs4 & Hn4 & Ho4).
  apply follows_bind, follows_check; [by eauto|]. intros u' _.
  eapply follows_mono; [by apply obeys_tags; [..|apply Hs4]|]. by intros [] s5 ->.
Qed.

Lemma obeys_create_vm s : steady s → vm_absent s = true →
  obeys settled (create_vm plan range guest) (fun _ s' => steady s' ∧ vm_made s' = true) s.
Proof.
  intros Hs Ha. pose proof (steady_settled _ Hs) as Hs0. apply follows_bind, obeys_silent; [apply ensureArtifactInStorage_silent|done|]. intros _.
  apply follows_bind, obeys_silent; [case_match; [apply uploadFirewallCloudInit_silent|silents]|done|]. intros _.
  apply follows_bind, follows_check; [done|]. intros _ _. apply follows_bind, follows_check; [done|]. intros volumes _.
  apply follows_bind, follows_check; [done|]. intros nics _.
  apply follows_bind, follows_api, watched_bad; [done|]. intros _. split; [done|].
  intros [[]|e]; cbn; rewrite Z.eqb_refl; [|by destruct s]. set (s1 := with_made s _).
  assert (vm_made s1 = true) as Hm by apply orb_true_r.
  apply follows_api, watched_bad; [done|]. intros _. split; [split; [done|by left]|]. by intros [[]|e'].
Qed.

(** Looking for the machine. *)
Lemma watched_GuestConfig (Q : result ApiError (GuestKind * Config) → VmState → Prop) s :
  (∀ r s', grows s s' → (∀ current, r = Ok (KindQEMU, current) → told current s' ∧ (reads_owned current = true → vm_owned s' = true)) →
           (r = Err NotFound → vm_absent s' = true) → Q r s') → watch (GuestConfig gv) Q s.
Proof.
  intros HQ. split; [done|]. intros r. pose proof (proj2 vm_config_still s r) as G.
  destruct r as [current|[|m]].
  - apply HQ; [exact G| |done]. intros c [= <-]. cbn. rewrite Z.eqb_refl.
    split; [split; [|apply shown_head; by left]|]; intros Hr; cbn; rewrite Hr; apply orb_true_r.
  - split; [done|]. intros r. apply HQ.
    + etrans; [exact G|]. cbn. by rewrite Z.eqb_refl.
    + by destruct r as [c|e]; intros c' [= ].
    + intros E. cbn. rewrite !Z.eqb_refl. destruct r as [c|e]; [done|]. by injection E as ->.
  - apply HQ; [exact G| |done]. by intros c [= ].
Qed.

Lemma obeys_ensureQEMU s : g_Kind guest = KindQEMU → steady s →
  obeys settled (ensureQEMU plan range guest) (fun _ s' => steady s' ∧ (vm_nics s' = true ∨ vm_made s' = true)) s.
Proof.
  intros Hk Hs. apply watched_pbind, watched_GuestConfig. intros r s1 G1 Hr Ha.
  assert (steady s1) by eauto. destruct r as [[kind current]|[|m]].
  - apply follows_bind, follows_guard; [by eauto|]. intros Hkind%bool_decide_eq_false%dec_stable. destruct (Hr current) as [Ht Ho]; [by rewrite Hkind|].
    eapply follows_mono; [by apply obeys_adopt_vm|]. naive_solver.
  - eapply follows_mono; [by apply obeys_create_vm, Ha|]. naive_solver.
  - by apply steady_settled.
Qed.
End vm.

(** C17. Ensuring the firewall's machine follows the protocol, whatever Proxmox
    answers: only the machine of the plan is touched; it is stopped, and its
    configuration changed, only after a configuration was read that passed the
    identity checks; it is created only where no guest was found; its root disk
    is imported only into a machine just created or, confirmed, into one that
    is off; disks are moved and interfaces set only while it is off, and only
    the declared ones, to the declared texts.  On a running machine nothing is set
    but its tags and, for a declared disk that was seen with the serial of an earlier
    version, that disk's declared text.  It is started only if the program stopped
    it.  However the run ends, a machine that was stopped was asked to start again,
    unless its root disk was replaced; and success is reported only if such a start
    succeeded (with the same exception), and if the machine was created or, since
    they were last changed, its interfaces were seen to be the declared ones. *)
Theorem ensureQEMU_protocol `{GoUnicode, PxDigest} plan range guest : g_Kind guest = KindQEMU →
  watched (permitted plan guest) (advance guest) (ensureQEMU plan range guest)
    (fun r s => (vm_halted s = true → vm_replaced s = true)
       ∧ (r = Ok tt → (vm_down s = true → vm_replaced s = true) ∧ (vm_nics s = true ∨ vm_made s = true))) vm_start.
Proof.
  intros Hk. eapply watched_mono; [by apply obeys_ensureQEMU|]. intros [[]|e] s; cbn; [|done]. by intros [[Hs Hd] Hn].
Qed.

(** ** Runs against fixed answers *)

Module Lab.
Definition nic (name : string) (vlan : Z) (mac : string) : GuestNIC := mkGuestNIC name "vmbr1" vlan "" "" "static" mac.
Definition image (version : string) : Artifact := mkArtifact "boetticher-firewall" version "amd64" "qemu" "def" "abc".
Definition guest : GuestPlan :=
  mkGuest [] 100 firewall_vm KindQEMU firewall_vm "MGMT" "10.10.99.1" "" "" 0 2 2048 16 true true ["boetticher-module-firewall"]
    [nic "wan0" 0 "02:00:00:00:01:01"] "boetticher/module/firewall" (image "2") [] [] (mkSecurity false [] []) [].
Definition plan : Plan :=
  mkPlan "" "" "pve" "local-lvm" [] "" "" "" [guest] {[ artifactKey (image "2") := "abc"%string ]} "" (mkCloudInit "m" "u" "n") true
    false false false "" "".
Definition config (nic_text : string) (extra : list (string * Value)) : Config :=
  list_to_map ([("name", JStr firewall_vm); ("description", JStr (artifactDescription (image "1"))); ("tags", JStr "boetticher-module-firewall");
    ("net0", JStr nic_text)]%string ++ extra).

(** A running machine with this configuration; everything that is asked for is done. *)
Definition answers (current : Config) (c : Call) : resp c :=
  match c with
  | QEMUConfig _ => Ok current
  | LXCConfig _ => Err NotFound
  | QEMUStatus _ | LXCStatus _ => Ok "running"%string
  | StorageContent _ _ => Ok [mkContent "local:import/x" "boetticher-firewall-2-amd64.qcow2" "abc" ""]
  | NodeNetwork => Ok []
  | LinkShow => Ok []
  | RunArgs _ _ _ | FileSHA256 _ => Ok "abc"%string
  | _ => Ok tt
  end.

Definition power_calls (calls : list Call) : list (string * Z) :=
  omap (fun c => match c with StopVM v => Some ("stop", v) | StartVM v => Some ("start", v) | ImportDisk v _ _ _ => Some ("import", v) | _ => None end)%string calls.

Definition unicode : GoUnicode := ascii_only.
Definition digest : PxDigest := {| sha256_hex s := s |}.
Definition ensure (current : Config) : result PxError unit * list Call :=
  exec_with (answers current) (@ensureQEMU unicode digest plan id guest).
End Lab.

(** The machine is left off when a check after the replacement of its root disk
    fails, here on an interface that could have been seen before. *)
Example left_off :
  let '(r, calls) := Lab.ensure (Lab.config "virtio=02:00:00:00:01:01,bridge=vmbr1,firewall=1" [("net7"%string, JStr "virtio")]) in
  r = Err (Held (UndeclaredNIC firewall_vm "net7")) ∧ Lab.power_calls calls = [("stop"%string, 100); ("import"%string, 100)].
Proof. vm_compute. by split. Qed.

Theorem ensureQEMU_protocol_witness : g_Kind Lab.guest = KindQEMU
  ∧ watched (@permitted Lab.unicode Lab.digest Lab.plan Lab.guest) (@advance Lab.unicode Lab.guest)
      (@ensureQEMU Lab.unicode Lab.digest Lab.plan id Lab.guest)
      (fun r s => (vm_halted s = true → vm_replaced s = true)
         ∧ (r = Ok tt → (vm_down s = true → vm_replaced s = true) ∧ (vm_nics s = true ∨ vm_made s = true))) vm_start.
Proof. split; [reflexivity|]. apply ensureQEMU_protocol. reflexivity. Defined.
End PxVm.
