(* ===== verification/PxNic.v ===== *)
(** * Network interfaces of the virtual machine: what is asked for is what is
    recognised ([PxQemu]: qemuNICParam, qemuNICMatches and the reconciliation) *)

From S2P Require Export PxQemu.

Open Scope Z_scope.

Module PxNic.
Import Model PxGuest PxLxc PxQemu.

(** ** Bytes *)

Definition mac_byte (c : ascii) : bool := (is_digit c || in_range "a" "f" c) || Ascii.eqb c ":".

Lemma hex_char_mac d : 0 ≤ d < 16 → mac_byte (hex_char d) = true.
Proof.
  intros Hd. assert (d ∈ Z.of_nat <$> seq 0 16) as Hin.
  { apply list_elem_of_fmap. exists (Z.to_nat d). rewrite elem_of_seq. lia. }
  clear Hd. revert d Hin. apply Forall_forall. repeat constructor.
Qed.

Lemma hex2_mac b : 0 ≤ b < 256 → sall mac_byte (hex2 b) = true.
Proof. intros Hb. unfold hex2. cbn [sall]. rewrite !hex_char_mac by (Z.div_mod_to_equations; lia). done. Qed.

Lemma mac_string_mac bs : valid_mac bs → sall mac_byte (mac_string bs) = true.
Proof.
  unfold mac_string. induction 1 as [|b bs Hb Hbs IH]; [done|]. cbn [fmap list_fmap].
  destruct bs as [|b' bs]; [by apply hex2_mac|].
  change (join (hex2 b :: (hex2 <$> b' :: bs)) ":") with (hex2 b +:+ ":" +:+ join (hex2 <$> b' :: bs) ":").
  rewrite !sall_app, hex2_mac, IH by done. done.
Qed.

Lemma key_index_key prefix i : 0 ≤ i < 2 ^ 63 → key_index prefix (prefix +:+ itoa i) = Some i.
Proof.
  intros Hi. unfold key_index, atoi. rewrite has_prefix_app, trim_prefix_app, itoa_nonneg, parse_int_format by lia.
  rewrite (proj2 (Z.ltb_ge i 0)) by lia.
  rewrite (itoa_nonneg i) by lia. by rewrite bool_decide_true.
Qed.

(** ** One interface *)

Section nic.
Context `{GoUnicode, PxDigest}.

Definition nic_text (bridge mac : string) (vlan : Z) : string :=
  "virtio,bridge=" +:+ bridge +:+ ",firewall=1,macaddr=" +:+ mac +:+ (if vlan =? 0 then "" else ",tag=" +:+ itoa vlan).

Definition nic_options (bridge mac : string) (vlan : Z) : list string :=
  ["bridge=" +:+ bridge; "firewall=1"; "macaddr=" +:+ mac] ++ (if vlan =? 0 then [] else ["tag=" +:+ itoa vlan]).

Lemma nic_text_split bridge mac vlan : contains_byte bridge "," = false → contains_byte mac "," = false → 0 ≤ vlan →
  split (nic_text bridge mac vlan) "," = "virtio" :: nic_options bridge mac vlan.
Proof.
  intros Hb Hm Hv. unfold nic_text, nic_options.
  assert (∀ t, split ("virtio,bridge=" +:+ bridge +:+ ",firewall=1,macaddr=" +:+ t) ","
               = ["virtio"; "bridge=" +:+ bridge; "firewall=1"] ++ split ("macaddr=" +:+ t) ",") as Hsplit.
  { intros t. change ("virtio,bridge=" +:+ bridge +:+ ",firewall=1,macaddr=" +:+ t)
      with ("virtio" +:+ String "," (("bridge=" +:+ bridge) +:+ String "," ("firewall=1" +:+ String "," ("macaddr=" +:+ t)))).
    rewrite !split_sep, (split_none ("bridge=" +:+ bridge)); [done|]. exact Hb. }
  rewrite Hsplit. destruct (vlan =? 0).
  - rewrite app_nil_r_s, (split_none ("macaddr=" +:+ mac)); [done|exact Hm].
  - change ("macaddr=" +:+ mac +:+ ",tag=" +:+ itoa vlan) with (("macaddr=" +:+ mac) +:+ String "," ("tag=" +:+ itoa vlan)).
    rewrite split_sep, (split_none ("macaddr=" +:+ mac)) by exact Hm. rewrite (split_none ("tag=" +:+ itoa vlan)); [done|].
    rewrite itoa_nonneg by done. change (contains_byte (format_uint vlan) "," = false).
    apply (sall_no_byte is_digit); [|done]. by apply format_uint_digits.
Qed.

Lemma mac_text_lower bs : valid_mac bs → to_lower (mac_string bs) = mac_string bs.
Proof.
  intros Hv. apply to_lower_id. eapply sall_mono; [|by apply mac_string_mac]. intros c.
  destruct c as [[] [] [] [] [] [] [] []]; vm_compute; congruence.
Qed.

(** A machine's MAC address is compared as text, so it has to be written the way
    [net.HardwareAddr.String] writes it, up to the case of letters. *)
Definition canonical_nic (nic : GuestNIC) : Prop :=
  ∃ bs, parse_mac (gn_MAC nic) = Some bs ∧ equal_fold (mac_string bs) (gn_MAC nic) = true.
Definition canonicalb (nic : GuestNIC) : bool :=
  match parse_mac (gn_MAC nic) with Some bs => equal_fold (mac_string bs) (gn_MAC nic) | None => false end.

Lemma canonicalb_spec nic : canonicalb nic = true ↔ canonical_nic nic.
Proof.
  unfold canonicalb, canonical_nic. destruct (parse_mac (gn_MAC nic)) as [bs|]; split; [eauto|by intros (? & [= <-] & ?)|done|by intros (? & ? & _)].
Qed.

Lemma nic_options_values bridge mac vlan : 
  option_value (qemuVolumeOptions (nic_options bridge mac vlan)) "macaddr" = mac
  ∧ option_value (qemuVolumeOptions (nic_options bridge mac vlan)) "bridge" = bridge
  ∧ option_value (qemuVolumeOptions (nic_options bridge mac vlan)) "firewall" = "1"
  ∧ option_value (qemuVolumeOptions (nic_options bridge mac vlan)) "tag" = (if vlan =? 0 then "" else itoa vlan).
Proof.
  unfold nic_options, option_value. destruct (vlan =? 0); cbn -[itoa]; by simplify_map_eq.
Qed.

(** The text that is asked for is recognised exactly for a canonical address. *)
Lemma qemuNICParam_matches nic value : qemuNICParam nic = Ok value → qemuNICMatches value nic = canonicalb nic.
Proof.
  intros Hp. unfold qemuNICParam in Hp. unfold canonicalb. destruct (parse_mac (gn_MAC nic)) as [bs|] eqn:Hbs; inv_ok. bools. case_match; [done|]. inv_ok.
  pose proof (parse_mac_valid _ _ Hbs) as Hv. rewrite mac_text_lower by done.
  change (_ +:+ _) with (nic_text (gn_Bridge nic) (mac_string bs) (gn_VLAN nic)).
  unfold qemuNICMatches. rewrite nic_text_split; cycle 1.
  - unfold safeInterfaceName in *. bools. by eapply sall_no_byte.
  - by apply (sall_no_byte mac_byte); [apply mac_string_mac|].
  - done.
  - destruct (nic_options_values (gn_Bridge nic) (mac_string bs) (gn_VLAN nic)) as (Em & Eb & Ef & Et).
    cbn -[qemuVolumeOptions nic_options option_value equal_fold itoa]. rewrite Em, Eb, Ef, Et, !bool_decide_true by done.
    by rewrite !andb_true_r.
Qed.

(** ** All interfaces *)

(** What Proxmox does with the keys of a change. *)
Definition set_config (params : Params) (current : Config) : Config := foldl (fun m (p : string * string) => <[p.1 := JStr p.2]> m) current params.

Lemma set_config_snoc params p current : set_config (params ++ [p]) current = <[p.1 := JStr p.2]> (set_config params current).
Proof. unfold set_config. by rewrite foldl_app. Qed.

Lemma set_config_keys params current k : k ∈ keys (set_config params current) → k ∈ keys current ∨ k ∈ params.*1.
Proof.
  induction params as [|p ps IH] using rev_ind; [by left|]. rewrite set_config_snoc, elem_keys, fmap_app, elem_of_app.
  intros [<-|[_ [?|?]%elem_keys%IH]]%lookup_insert_is_Some; [|by left|tauto]. right. right. by left.
Qed.

Lemma net_key_inj i j : net_key i = net_key j → i = j.
Proof.
  unfold net_key. rewrite !itoa_nonneg by lia. intros [= E]. apply Nat2Z.inj, format_uint_inj; [lia..|done].
Qed.

Lemma reconciled_texts current nics params : foldM (nic_step current) [] (indexed nics) = Ok params →
  (∀ i nic, nics !! i = Some nic → qemuNICMatches (get_str (set_config params current) (net_key i)) nic
      = qemuNICMatches (get_str current (net_key i)) nic || canonicalb nic)
  ∧ (∀ k, k ∈ params.*1 → ∃ i, (i < length nics)%nat ∧ k = net_key i).
Proof.
  intros Hps. pose proof (foldM_cases (nic_step current) (fun dn ps =>
    (∀ i e, dn !! i = Some e → qemuNICMatches (get_str (set_config ps current) (net_key i)) e.2
       = qemuNICMatches (get_str current (net_key i)) e.2 || canonicalb e.2)
    ∧ (∀ i, (length dn ≤ i)%nat → get_str (set_config ps current) (net_key i) = get_str current (net_key i))
    ∧ (∀ k, k ∈ ps.*1 → ∃ i, (i < length dn)%nat ∧ k = net_key i)) True (indexed nics) []) as Hinv.
  rewrite Hps in Hinv. destruct Hinv as (Hm & _ & Hk).
  - split; [by intros i e ?|]. split; [done|]. by intros k ?%not_elem_of_nil.
  - intros dn [j nic] ps (Hm & Hr & Hk) [rest Hrest].
    assert (indexed nics !! length dn = Some (j, nic)) as Hj by (rewrite Hrest; by apply list_lookup_middle).
    unfold indexed in Hj. rewrite list_lookup_imap in Hj. destruct (nics !! length dn) as [nic'|] eqn:Hn; [|done]. injection Hj as <- ->.
    unfold nic_step. cbn. destruct (qemuNICMatches _ _) eqn:E.
    + rewrite length_app. split; [|split].
      * intros i e [[_ Hi]|[-> <-]]%lookup_snoc_Some; [by apply Hm|]. cbn. by rewrite Hr, E.
      * intros i Hi. apply Hr. cbn in Hi. lia.
      * intros k (i & Hi & ->)%Hk. exists i. cbn. split; [lia|done].
    + destruct (qemuNICParam nic) as [v|] eqn:Hv; [|done]. cbn. rewrite set_config_snoc, length_app. cbn. split; [|split].
      * intros i e [[Hi He]|[-> <-]]%lookup_snoc_Some.
        -- rewrite get_str_insert_ne by (intros ?%net_key_inj; lia). by apply Hm.
        -- cbn. rewrite get_str_insert, E. by apply qemuNICParam_matches.
      * intros i Hi. rewrite get_str_insert_ne by (intros ?%net_key_inj; lia). apply Hr. lia.
      * intros k. rewrite fmap_app, elem_of_app. intros [(i & Hi & ->)%Hk|Hk1%list_elem_of_singleton]; [exists i|exists (length dn)]; (split; [lia|done]).
  - unfold indexed in *. split; [|by rewrite length_imap in Hk]. intros i nic Hi. apply (Hm i (i, nic)). by rewrite list_lookup_imap, Hi.
Qed.

Lemma matching_needs_nothing current nics : (∀ i nic, nics !! i = Some nic → qemuNICMatches (get_str current (net_key i)) nic = true) →
  foldM (nic_step current) [] (indexed nics) = Ok [].
Proof.
  intros Hm. assert (∀ e, e ∈ indexed nics → qemuNICMatches (get_str current (net_key e.1)) e.2 = true) as He.
  { intros e (i & nic & -> & Hi)%elem_of_lookup_imap. by apply Hm. }
  clear Hm. induction (indexed nics) as [|e es IH]; [done|]. pose proof (He e ltac:(left)) as H1. cbn. unfold nic_step at 2.
  rewrite H1. cbn. apply IH. intros e' ?. apply He. by right.
Qed.

Lemma needs_nothing_matching current nics : foldM (nic_step current) [] (indexed nics) = Ok [] →
  ∀ i nic, nics !! i = Some nic → qemuNICMatches (get_str current (net_key i)) nic = true.
Proof.
  intros Hps. assert (([] : Params) = [] → Forall (fun e => qemuNICMatches (get_str current (net_key e.1)) e.2 = true) (indexed nics)) as Hall.
  { refine (foldM_inv _ (fun dn (ps : Params) => ps = [] → Forall _ dn) _ _ _ (fun _ => Forall_nil_2 _) _ Hps).
    intros dn e ps ps' Hdn _ Hs Eps. unfold nic_step in Hs. destruct (qemuNICMatches _ _) eqn:E.
    - injection Hs as ->. apply Forall_app_2; [by apply Hdn|]. by apply Forall_singleton.
    - inv_ok. by destruct ps. }
  specialize (Hall eq_refl). rewrite Forall_forall in Hall. intros i nic Hi. apply (Hall (i, nic)).
  apply elem_of_lookup_imap. by exists i, nic.
Qed.

Lemma existing_matching current guest : validateNoUndeclaredQEMUNetworkInterfaces current guest = Ok tt →
  validateExistingQEMUNetworkInterfaces current guest = Ok tt
  ↔ ∀ i nic, g_NICs guest !! i = Some nic → qemuNICMatches (get_str current (net_key i)) nic = true.
Proof.
  intros Hd. unfold validateExistingQEMUNetworkInterfaces. rewrite Hd. cbn. rewrite eachM_ok, Forall_forall. unfold nic_check. split.
  - intros Hall i nic Hi. specialize (Hall (i, nic) ltac:(apply elem_of_lookup_imap; by exists i, nic)). apply fail_if_ok in Hall. cbn in Hall.
    by apply negb_false_iff in Hall.
  - intros Hm e (i & nic & -> & Hi)%elem_of_lookup_imap. cbn. by rewrite Hm.
Qed.
End nic.

(** C19. Reconciling the interfaces of the firewall's machine converges exactly where
    the hardware addresses allow it.  Once the texts that the reconciliation asks for
    are in the configuration (kept word for word), no interface is undeclared; every
    interface is recognised as the declared one, and the next reconciliation asks for
    nothing, exactly if each interface was recognised before or has its hardware
    address written in Go's own form, pairs of hexadecimal digits with colons in either
    case ([canonical_nic]).  An address in another accepted form, as one with dashes, is
    set and then never recognised. *)
Theorem nic_reconciliation_converges `{GoUnicode, PxDigest} current guest params :
  Z.of_nat (length (g_NICs guest)) < 2 ^ 63 → qemuNICReconciliationParams current guest = Ok params →
  let after := set_config params current in
  let settled := ∀ i nic, g_NICs guest !! i = Some nic →
    qemuNICMatches (get_str current (net_key i)) nic = true ∨ canonical_nic nic in
  validateNoUndeclaredQEMUNetworkInterfaces after guest = Ok tt
  ∧ (validateExistingQEMUNetworkInterfaces after guest = Ok tt ↔ settled)
  ∧ (qemuNICReconciliationParams after guest = Ok [] ↔ settled).
Proof.
  intros Hlen (u & Hk & Hps)%bind_ok after settled. destruct (reconciled_texts _ _ _ Hps) as [Hm Hp].
  assert (validateNoUndeclaredQEMUNetworkInterfaces after guest = Ok tt) as Hd.
  { apply eachM_ok in Hk. apply eachM_ok, Forall_forall. rewrite Forall_forall in Hk.
    intros k [?|(i & Hi & ->)%Hp]%set_config_keys; [by apply Hk|].
    unfold nic_key_check, qemuNICIndex, net_key. rewrite has_prefix_app, key_index_key by lia. cbn -[Z.of_nat].
    by rewrite (proj2 (Z.leb_gt _ _)) by lia. }
  assert ((∀ i nic, g_NICs guest !! i = Some nic → qemuNICMatches (get_str after (net_key i)) nic = true) ↔ settled) as Hiff.
  { unfold settled. split; intros Hall i nic Hi; specialize (Hall i nic Hi).
    - rewrite Hm in Hall by done. by rewrite orb_true_iff, canonicalb_spec in Hall.
    - rewrite Hm by done. by rewrite orb_true_iff, canonicalb_spec. }
  split_and!; [done|by rewrite existing_matching|]. unfold qemuNICReconciliationParams. rewrite Hd. cbn. rewrite <- Hiff. split.
  - apply needs_nothing_matching.
  - apply matching_needs_nothing.
Qed.

Module Lab.
Definition nic (name mac : string) (vlan : Z) : GuestNIC := mkGuestNIC name "vmbr1" vlan "" "" "static" mac.
Definition guest (nics : list GuestNIC) : GuestPlan :=
  mkGuest [] 100 firewall_vm KindQEMU firewall_vm "MGMT" "10.10.99.1" "" "" 0 2 2048 16 true true [] nics "" (mkArtifact "" "" "" "" "" "") [] []
    (mkSecurity false [] []) [].
Definition nics : list GuestNIC := [nic "wan0" "02:00:00:00:01:0A" 0; nic "lan0" "02-00-00-00-01-02" 20].
Definition current : Config := {[ "net0" := JStr "virtio=02:00:00:00:01:0A,bridge=vmbr1,firewall=1"; "net1" := JStr "e1000=02:00:00:00:01:02" ]}.
Definition unicode : GoUnicode := ascii_only.
Definition digest : PxDigest := {| sha256_hex s := s |}.
End Lab.

Theorem nic_reconciliation_converges_witness :
  let nics := [Lab.nic "wan0" "02:00:00:00:01:0A" 0; Lab.nic "lan0" "02:00:00:00:01:02" 20] in
  @qemuNICReconciliationParams Lab.unicode Lab.current (Lab.guest nics)
  = Ok [("net1"%string, "virtio,bridge=vmbr1,firewall=1,macaddr=02:00:00:00:01:02,tag=20"%string)]
  ∧ @validateExistingQEMUNetworkInterfaces Lab.unicode
      (set_config [("net1"%string, "virtio,bridge=vmbr1,firewall=1,macaddr=02:00:00:00:01:02,tag=20"%string)] Lab.current) (Lab.guest nics) = Ok tt.
Proof.
  cbv zeta. split; [vm_compute; reflexivity|].
  refine (proj2 (proj1 (proj2 (@nic_reconciliation_converges Lab.unicode Lab.digest Lab.current _ _ _ _))) _).
  - reflexivity.
  - vm_compute. reflexivity.
  - intros i nic Hi. right. destruct i as [|[|i]]; [| |done]; injection Hi as <-; eexists; (split; [vm_compute; reflexivity|vm_compute; reflexivity]).
Defined.

(** An address in another form is accepted, set, and then not recognised. *)
Example dashes_never_match :
  match @qemuNICReconciliationParams Lab.unicode Lab.current (Lab.guest Lab.nics) with
  | Ok params => @validateExistingQEMUNetworkInterfaces Lab.unicode (set_config params Lab.current) (Lab.guest Lab.nics)
                 = Err (NICMismatch firewall_vm "net1" "virtio,bridge=vmbr1,firewall=1,macaddr=02:00:00:00:01:02,tag=20")
  | Err _ => False
  end.
Proof. vm_compute. reflexivity. Qed.
End PxNic.
