(* ===== verification/PxAudit.v ===== *)
(** * Removing a module's guests, and telling owned guests from others
    ([internal/proxmox/audit.go])

    Programs as in [PxLxc]; the monitor and its rules as in [PxSafe]. *)

From S2P Require Export PxQemu PxSafe.

Open Scope Z_scope.

Module PxAudit.
Import Model PxGuest PxLxc PxQemu PxSafe.

Record GuestSummary := mkSummary { su_VMID : Z; su_Name : string; su_Status : string; su_Kind : GuestKind }.

(** The text that explains a result. *)
Inductive AuditDetail := OwnedDiscovered | KindIs (got want : GuestKind) | NameIs (got want : string) | NotDiscovered | Outside.

Record GuestAudit := mkAudit {
  ga_VMID : Z; ga_Name : string; ga_Kind : GuestKind; ga_Status : string;
  ga_Ownership : string; ga_Result : string; ga_Detail : AuditDetail;
}.

Definition PlatformOwnership : string := "boetticher platform".
Definition UserOwnership : string := "user-managed".

Definition kind_text (kind : GuestKind) : string := match kind with KindQEMU => "qemu" | KindLXC => "lxc" end.

(** ** Purging *)

Section purge.
Context `{GoUnicode, PxDigest} (plan : Plan) (module : string).

Definition module_owner : string := "boetticher/module/" +:+ module.

Definition client_DestroyQEMU (vmid : Z) : Prog (result ApiError unit) :=
  bad_arguments ((node plan == "") || (vmid <=? 0)) (call (DeleteVM vmid)).

(** The checks on volumes, by kind. *)
Definition purge_volumes (current : Config) (guest : GuestPlan) : result Hold unit :=
  match g_Kind guest with
  | KindQEMU => _ ← validateNoUndeclaredQEMUPersistentVolumes current guest; validateExistingQEMUVolumes current guest
  | KindLXC => validateExistingGuestVolumes current guest
  end.

Definition purge_tag (current : Config) (guest : GuestPlan) : result Hold unit :=
  let ownerTag := ModuleOwnershipTag module in
  fail_if ((ownerTag == "") || negb (hasOwnerTag (get_str current "tags") ownerTag)) (NoOwnership (g_Name guest) ownerTag).

(** What a reading has to show, without the tag. *)
Definition purge_identity (current : Config) (guest : GuestPlan) : result Hold unit :=
  _ ← validateExistingGuest current guest; purge_volumes current guest.

Definition purge_destroy (guest : GuestPlan) : Prog (result ApiError unit) :=
  match g_Kind guest with KindQEMU => client_DestroyQEMU (g_VMID guest) | KindLXC => client_DestroyLXC plan (g_VMID guest) end.

Definition purge_reinspect (guest : GuestPlan) : PM unit :=
  '(kind, current) ← api "reinspect module guest before purge" (GuestConfig (g_VMID guest));
  _ ← guard (kind != g_Kind guest) (Occupied (g_Name guest) (g_VMID guest) kind);
  check Held (purge_identity current guest).

(** It is gone if it is not found. *)
Definition purge_verify (guest : GuestPlan) : PM unit :=
  answer (GuestConfig (g_VMID guest)) (fun r =>
    match r with
    | Ok (kind, _) => throw (Occupied (g_Name guest) (g_VMID guest) kind)
    | Err NotFound => mret tt
    | Err e => throw (Failed "verify module guest was removed" e)
    end).

Definition purge_found (guest : GuestPlan) (kind : GuestKind) (current : Config) : PM unit :=
  _ ← guard (kind != g_Kind guest) (Occupied (g_Name guest) (g_VMID guest) kind);
  _ ← check Held (purge_tag current guest);
  _ ← check Held (purge_identity current guest);
  _ ← purge_reinspect guest;
  _ ← api "purge module guest" (purge_destroy guest);
  purge_verify guest.

Definition purge_guest (guest : GuestPlan) : PM unit :=
  if g_Owner guest != module_owner then mret tt
  else answer (GuestConfig (g_VMID guest)) (fun r =>
    match r with
    | Ok (kind, current) => purge_found guest kind current
    | Err NotFound => mret tt
    | Err e => throw (Failed "inspect module guest before purge" e)
    end).

Definition PurgeModule : PM unit := eachP purge_guest (p_Guests plan).

(** ** What it may do

    The last two readings that found something, and which identifiers were seen
    to be free, with the one that is not a virtual machine. *)
Record PurgeState := mkPurge { pu_first : option (GuestKind * Z * Config); pu_last : option (GuestKind * Z * Config); pu_novm : option Z; pu_gone : list Z }.
Definition purge_start : PurgeState := mkPurge None None None [].

Definition seen (s : PurgeState) (kind : GuestKind) (vmid : Z) (current : Config) : PurgeState :=
  mkPurge (pu_last s) (Some (kind, vmid, current)) None (pu_gone s).

Definition purge_next (s : PurgeState) (c : Call) : resp c → PurgeState :=
  match c return resp c → PurgeState with
  | QEMUConfig v => fun r =>
      match r with
      | Ok current => seen s KindQEMU v current
      | Err NotFound => mkPurge (pu_first s) (pu_last s) (Some v) (pu_gone s)
      | Err _ => mkPurge None None None (pu_gone s)
      end
  | LXCConfig v => fun r =>
      match r with
      | Ok current => if bool_decide (pu_novm s = Some v) then seen s KindLXC v current else mkPurge None None None (pu_gone s)
      | Err NotFound => mkPurge None None None (if bool_decide (pu_novm s = Some v) then v :: pu_gone s else pu_gone s)
      | Err _ => mkPurge None None None (pu_gone s)
      end
  | _ => fun _ => mkPurge None None None (pu_gone s)
  end.

(** Both readings are of this guest of the module, and prove it. *)
Definition purge_proof (s : PurgeState) (guest : GuestPlan) : Prop :=
  guest ∈ p_Guests plan ∧ g_Owner guest = module_owner
  ∧ ∃ before current, pu_first s = Some (g_Kind guest, g_VMID guest, before) ∧ pu_last s = Some (g_Kind guest, g_VMID guest, current)
    ∧ purge_tag before guest = Ok tt ∧ purge_identity before guest = Ok tt ∧ purge_identity current guest = Ok tt.

Definition purge_permitted (s : PurgeState) (c : Call) : Prop :=
  match c with
  | QEMUConfig _ | LXCConfig _ => True
  | DeleteVM v => ∃ guest, purge_proof s guest ∧ g_Kind guest = KindQEMU ∧ g_VMID guest = v
  | DeleteLXC v _ => ∃ guest, purge_proof s guest ∧ g_Kind guest = KindLXC ∧ g_VMID guest = v
  | _ => False
  end.

Abbreviation gone_after s s' := (pu_gone s ⊆ pu_gone s').
Abbreviation purges := (follows purge_permitted purge_next (fun _ => True)).

(** Looking for a guest: what is found becomes the last reading, and nothing
    found means gone. *)
Lemma watched_look vmid (Q : result ApiError (GuestKind * Config) → PurgeState → Prop) s :
  (∀ kind current, Q (Ok (kind, current)) (seen s kind vmid current)) →
  (∀ s', pu_gone s' = vmid :: pu_gone s → Q (Err NotFound) s') →
  (∀ m s', Q (Err (ApiFailed m)) s') →
  watched purge_permitted purge_next (GuestConfig vmid) Q s.
Proof.
  intros Hok Hgone Herr. split; [done|]. intros [current|[|m]]; [apply Hok| |apply Herr].
  split; [done|]. intros [current|[|m]]; cbn; rewrite ?bool_decide_true by done; [apply Hok|by apply Hgone|apply Herr].
Qed.

Lemma purges_verify guest s : purges (purge_verify guest) (fun _ s' => g_VMID guest ∈ pu_gone s' ∧ gone_after s s') s.
Proof.
  apply watched_pbind, watched_look; [done| |done]. intros s' E. cbn. rewrite E. set_solver.
Qed.

Lemma purges_destroy guest s : purge_proof s guest →
  purges (api "purge module guest" (purge_destroy guest)) (fun _ s' => gone_after s s') s.
Proof.
  intros Hp. apply follows_api. unfold purge_destroy, client_DestroyQEMU, client_DestroyLXC.
  destruct (g_Kind guest) eqn:Hk; (apply watched_bad; [done|]); intros _; (split; [by exists guest|]); intros [[]|e]; cbn; try done; set_solver.
Qed.

Lemma purges_found guest kind current s : guest ∈ p_Guests plan → g_Owner guest = module_owner →
  purges (purge_found guest kind current) (fun _ s' => g_VMID guest ∈ pu_gone s' ∧ gone_after s s') (seen s kind (g_VMID guest) current).
Proof.
  intros Hin Ho. apply follows_bind, follows_guard; [done|]. intros Hk%negb_false_iff%bool_decide_eq_true.
  apply follows_bind, follows_check; [done|]. intros [] Ht. apply follows_bind, follows_check; [done|]. intros [] Hi.
  apply follows_bind, follows_bind, follows_api, watched_look; [|done..]. intros kind2 current2.
  apply follows_bind, follows_guard; [done|]. intros Hk2%negb_false_iff%bool_decide_eq_true.
  apply follows_check; [done|]. intros [] Hi2. subst kind kind2.
  apply follows_bind. eapply follows_mono; [apply purges_destroy|].
  - split; [done|]. split; [done|]. by exists current, current2.
  - intros [] s' Hg. cbn in Hg. eapply follows_mono; [apply purges_verify|]. intros _ s2 [Hv Hg2]. split; [done|]. by etrans.
Qed.

Lemma purges_guest guest s : guest ∈ p_Guests plan →
  purges (purge_guest guest) (fun _ s' => (g_Owner guest = module_owner → g_VMID guest ∈ pu_gone s') ∧ gone_after s s') s.
Proof.
  intros Hin. unfold purge_guest. case_bool_decide as Ho; cbn [negb]; [|done].
  apply watched_pbind, watched_look; [|intros s' E; cbn; rewrite E; set_solver|done].
  intros kind current. eapply follows_mono; [by apply purges_found|]. naive_solver.
Qed.
End purge.

(** C18. Purging a module deletes a guest only where the two readings before it
    found, under the guest's identifier and with its kind, a configuration that
    carries the owner tag of the module and passes every identity, tag and
    volume check of the plan; it does nothing else to the host.  When it reports
    success, every guest of the module was seen to be absent. *)
Theorem PurgeModule_protocol `{GoUnicode, PxDigest} plan module :
  watched (purge_permitted plan module) purge_next (PurgeModule plan module)
    (fun r s => r = Ok tt → ∀ guest, guest ∈ p_Guests plan → g_Owner guest = module_owner module → g_VMID guest ∈ pu_gone s) purge_start.
Proof.
  assert (∀ gs s, gs ⊆ p_Guests plan → follows (purge_permitted plan module) purge_next (fun _ => True)
    (eachP (purge_guest plan module) gs)
    (fun _ s' => pu_gone s ⊆ pu_gone s' ∧ ∀ guest, guest ∈ gs → g_Owner guest = module_owner module → g_VMID guest ∈ pu_gone s') s) as Hall.
  { intros gs. induction gs as [|g gs IH]; intros s Hin; [by split; [|intros ? ?%not_elem_of_nil]|].
    apply follows_bind. eapply follows_mono; [apply purges_guest, Hin; by left|]. intros [] s1 [Hg Hs1].
    eapply follows_mono; [apply IH; set_solver|]. intros _ s2 [Hs2 Hgs]. split; [by etrans|]. set_solver. }
  eapply watched_mono; [by apply Hall|]. intros [[]|e] s; [intros [_ Hg] _; exact Hg|done].
Qed.

(** A machine that the program made has a key that the check on undeclared
    volumes takes for a disk, so no machine ever passes the checks. *)
Lemma created_vm_not_proved `{GoUnicode, PxDigest} guest current : g_Kind guest = KindQEMU →
  "scsihw"%string ∈ (vm_params guest).*1 ∧ (is_Some (current !! "scsihw"%string) → purge_identity current guest ≠ Ok tt).
Proof.
  intros Hk. split; [set_solver|]. intros Hs. unfold purge_identity, purge_volumes. rewrite Hk.
  intros (u & _ & (u' & Hd & _)%bind_ok)%bind_ok. apply eachM_ok in Hd. rewrite Forall_forall in Hd.
  by specialize (Hd "scsihw"%string (proj2 (elem_keys _ _) Hs)).
Qed.

(** ** Whose guest is it *)

Section audit.
Context (plan : Plan) (discovered : list GuestSummary).

Definition audit_expected (expected : GuestPlan) : GuestAudit :=
  match find (fun actual => su_VMID actual =? g_VMID expected) discovered with
  | Some actual =>
      let line result detail := mkAudit (g_VMID expected) (su_Name actual) (su_Kind actual) (su_Status actual) PlatformOwnership result detail in
      if su_Kind actual != g_Kind expected then line "DRIFT" (KindIs (su_Kind actual) (g_Kind expected))
      else if (su_Name actual != "") && (su_Name actual != g_Name expected) then line "DRIFT" (NameIs (su_Name actual) (g_Name expected))
      else line "PASS" OwnedDiscovered
  | None => mkAudit (g_VMID expected) (g_Name expected) (g_Kind expected) "" PlatformOwnership "MISSING" NotDiscovered
  end.

(** The identifiers of guests of the plan that were discovered, and of all of them. *)
Definition audit_seen : gset Z :=
  list_to_set (List.filter (fun vmid => existsb (fun actual => su_VMID actual =? vmid) discovered) (map g_VMID (p_Guests plan))).
Definition audit_owned : gset Z := list_to_set (map g_VMID (p_Guests plan)).

Definition audit_other (actual : GuestSummary) : list GuestAudit :=
  if bool_decide (su_VMID actual ∈ audit_seen) || bool_decide (su_VMID actual ∈ audit_owned) then []
  else [mkAudit (su_VMID actual) (su_Name actual) (su_Kind actual) (su_Status actual) UserOwnership "INFO" Outside].

Definition audit_le (a b : GuestAudit) : Prop :=
  ga_VMID a < ga_VMID b ∨ ga_VMID a = ga_VMID b ∧ String.le (kind_text (ga_Kind a)) (kind_text (ga_Kind b)).
#[export] Instance audit_le_dec a b : Decision (audit_le a b).
Proof. unfold audit_le. apply _. Defined.

Definition ClassifyGuests : list GuestAudit :=
  merge_sort audit_le (map audit_expected (p_Guests plan) ++ concat (map audit_other discovered)).

Lemma audit_expected_shape expected :
  ga_VMID (audit_expected expected) = g_VMID expected ∧ ga_Ownership (audit_expected expected) = PlatformOwnership
  ∧ (ga_Result (audit_expected expected) = "PASS"%string ↔
      ∃ actual, find (fun actual => su_VMID actual =? g_VMID expected) discovered = Some actual
        ∧ su_Kind actual = g_Kind expected ∧ (su_Name actual = ""%string ∨ su_Name actual = g_Name expected)).
Proof.
  unfold audit_expected. destruct (find _ _) as [actual|]; [|by split_and!; [..|split; [|intros (?&?&_)]]].
  repeat case_bool_decide; cbn; (split_and!; [done..|]); split; naive_solver.
Qed.

Lemma elem_ClassifyGuests line : line ∈ ClassifyGuests ↔
  (∃ expected, expected ∈ p_Guests plan ∧ line = audit_expected expected)
  ∨ (∃ actual, actual ∈ discovered ∧ su_VMID actual ∉ map g_VMID (p_Guests plan)
     ∧ line = mkAudit (su_VMID actual) (su_Name actual) (su_Kind actual) (su_Status actual) UserOwnership "INFO" Outside).
Proof.
  unfold ClassifyGuests. rewrite merge_sort_Permutation, elem_of_app, !list_elem_of_In, in_map_iff, in_concat.
  setoid_rewrite in_map_iff. setoid_rewrite <- list_elem_of_In. f_equiv; [naive_solver|].
  assert (∀ a, a ∈ audit_seen → a ∈ audit_owned) as Hsub.
  { unfold audit_seen, audit_owned. intros a. rewrite !elem_of_list_to_set, !list_elem_of_In, filter_In. tauto. }
  assert (∀ a, a ∈ audit_owned ↔ a ∈ map g_VMID (p_Guests plan)) as How by (intros a; apply elem_of_list_to_set).
  unfold audit_other. split.
  - intros (l & (actual & <- & Ha) & Hl). exists actual. repeat case_bool_decide; cbn in Hl; try set_solver.
  - intros (actual & Ha & Hn & ->). eexists. split; [by exists actual|]. rewrite <- How in Hn.
    rewrite !bool_decide_false by auto. by left.
Qed.
End audit.
End PxAudit.
