(* ===== verification/SiteConfig.v ===== *)
(** * The site file ([internal/model/config.go]): from what an operator edits to
    the site, and back

    [BaseSite] lays the operator's fields over the seed site and derives the
    companion's reservation and the module map; [ConfigFromSite] takes a site
    back to the file.  Go's slices are copied on both ways, so the model shares
    lists. *)

From S2P Require Export SiteValidate.

Open Scope Z_scope.

Module SiteConfig.
Import Model SiteRules SiteValidate.

(** ** Data *)

Record TailnetRouterConfig := mkTailnetRouter { tr_Enabled : option bool; tr_TrustedClients : list string }.
Record BifrostModuleConfig := mkBifrostModule {
  bc_Enabled : option bool;
  bc_Network : string;
  bc_Upstreams : list BifrostUpstreamConfig;
  bc_Models : list BifrostModelConfig;
}.

(** A toggle module is [Some enabled] when its block is present; the DNS block
    has no fields. *)
Record ModulesConfig := mkModulesConfig {
  mo_DNS : bool;
  mo_Monitoring : option (option bool);
  mo_Firewall : option (option bool);
  mo_TailnetRouter : option TailnetRouterConfig;
  mo_Bifrost : option BifrostModuleConfig;
}.

Record SiteConfig := mkSiteConfig {
  cf_APIVersion : string;
  cf_PlatformVersion : string;
  cf_SchemaVersion : Z;
  cf_StorageProfile : string;
  cf_StorageDevice : string;
  cf_Gateway : Gateway;
  cf_BootstrapAddress : string;
  cf_SSHIdentityFile : string;
  cf_PhysicalNetwork : PhysicalNetwork;
  cf_TestedGateway : string;
  cf_Network : Network;
  cf_PKI : PKIMetadata;
  cf_SecretMetadata : SecretMetadata;
  cf_Ownership : OwnershipPolicy;
  cf_Modules : ModulesConfig;
  cf_Companion : option CompanionConfig;
  cf_USBExports : list USBExportBinding;
  cf_DHCPReservations : list DHCPReservation;
  cf_DNSRecords : list UserDNSRecord;
  cf_UserFirewallRules : list UserFirewallRule;
}.

(** ** Modules *)

Definition empty_module : ModuleConfig := mkModuleConfig 0 [] None "" "" "" [] [].
Definition toggle (enabled : option bool) : ModuleConfig := mkModuleConfig 0 [] enabled "" "" "" [] [].
Definition bifrost_module (b : BifrostModuleConfig) : ModuleConfig :=
  mkModuleConfig 0 [] (bc_Enabled b) (bc_Network b) "" "" (bc_Upstreams b) (bc_Models b).

Definition put {A : Type} (name : string) (o : option A) (f : A → ModuleConfig) (m : gmap string ModuleConfig)
    : gmap string ModuleConfig :=
  match o with Some a => <[name := f a]> m | None => m end.

(** [ModulesConfig.Map] *)
Definition Map (m : ModulesConfig) : gmap string ModuleConfig :=
  put "bifrost" (mo_Bifrost m) bifrost_module
    (put "tailnet-router" (mo_TailnetRouter m) (fun t => toggle (tr_Enabled t))
      (put "firewall" (mo_Firewall m) toggle
        (put "monitoring" (mo_Monitoring m) toggle
          (if mo_DNS m then <["dns" := empty_module]> ∅ else ∅)))).

Definition bifrost_config (c : ModuleConfig) : BifrostModuleConfig :=
  mkBifrostModule (mc_Enabled c) (mc_Network c) (mc_Upstreams c) (mc_Models c).

Definition ModulesConfigFromMap (input : gmap string ModuleConfig) : ModulesConfig :=
  mkModulesConfig (bool_decide (is_Some (input !! "dns")))
    (mc_Enabled <$> input !! "monitoring") (mc_Enabled <$> input !! "firewall")
    ((fun c => mkTailnetRouter (mc_Enabled c) (mc_TailnetTrustedClients c)) <$> input !! "tailnet-router")
    (bifrost_config <$> input !! "bifrost").

Inductive SetError := MandatoryDNS | NotNetworkCapable (name : string) | UnknownModule (name : string).

(** [ModulesConfig.Set]: a Bifrost configuration without upstreams and models
    keeps the ones it had. *)
Definition Set_ (m : ModulesConfig) (name : string) (config : ModuleConfig) : result SetError ModulesConfig :=
  if name == "dns" then
    _ ← fail_if (bool_decide (is_Some (mc_Enabled config))) MandatoryDNS;
    Ok (mkModulesConfig true (mo_Monitoring m) (mo_Firewall m) (mo_TailnetRouter m) (mo_Bifrost m))
  else if name == "monitoring" then
    _ ← fail_if (mc_Network config != "") (NotNetworkCapable name);
    Ok (mkModulesConfig (mo_DNS m) (Some (mc_Enabled config)) (mo_Firewall m) (mo_TailnetRouter m) (mo_Bifrost m))
  else if name == "firewall" then
    _ ← fail_if (mc_Network config != "") (NotNetworkCapable name);
    Ok (mkModulesConfig (mo_DNS m) (mo_Monitoring m) (Some (mc_Enabled config)) (mo_TailnetRouter m) (mo_Bifrost m))
  else if name == "tailnet-router" then
    _ ← fail_if (mc_Network config != "") (NotNetworkCapable name);
    Ok (mkModulesConfig (mo_DNS m) (mo_Monitoring m) (mo_Firewall m)
          (Some (mkTailnetRouter (mc_Enabled config) (mc_TailnetTrustedClients config))) (mo_Bifrost m))
  else if name == "bifrost" then
    let '(upstreams, models) :=
      match mc_Upstreams config, mc_Models config, mo_Bifrost m with
      | [], [], Some b => (bc_Upstreams b, bc_Models b)
      | us, ms, _ => (us, ms)
      end in
    Ok (mkModulesConfig (mo_DNS m) (mo_Monitoring m) (mo_Firewall m) (mo_TailnetRouter m)
          (Some (mkBifrostModule (mc_Enabled config) (mc_Network config) upstreams models)))
  else Err (UnknownModule name).

Definition ValidQBittorrentPort (port : Z) : bool :=
  if port =? 0 then true
  else if (port <? 2049) || (port >? 65535) then false
  else bool_decide (port ∉ [7878; 8080; 8686; 8989; 9696]).

Section config.
Context `{GoUnicode}.

(** ** The companion's reservation *)

Definition CompanionReservation (companion : option CompanionConfig) : option DHCPReservation :=
  match companion with
  | None => None
  | Some c =>
      if negb (companion_enabled c) || (cc_EthernetMAC c == "") then None
      else mac ← ethernet_mac (cc_EthernetMAC c);
           Some (mkSiteReservation "" "" "SERVERS" "lab-display-01" "10.10.20.50" mac 0)
  end.

(** ** [BaseSite] *)

Definition zoneTypeForName (name : string) : ZoneType :=
  match List.find (fun e => e.1 == name)
    [("INFRA", ZoneTypeInfrastructure); ("TRUSTED", ZoneTypeTrusted); ("SERVERS", ZoneTypeServers);
     ("SANDBOX", ZoneTypeSandbox); ("MGMT", ZoneTypeManagement); ("TRANSIT", ZoneTypeTransit)] with
  | Some (_, t) => t
  | None => ZoneTypeOther ""
  end.

Definition infer_zone_type (z : Zone) : Zone :=
  if z_Type z == ZoneTypeOther "" then
    mkZone (z_Name z) (zoneTypeForName (z_Name z)) (z_VLAN z) (z_Network z) (z_Gateway z) (z_AddressMode z)
      (z_DNSAddresses z) (z_NTPAddresses z)
  else z.

Definition or_list {A : Type} (l default : list A) : list A := match l with [] => default | _ => l end.
Definition or_int (z default : Z) : Z := if z =? 0 then default else z.

Definition base_gateway (g d : Gateway) : Gateway :=
  mkGateway (gw_Mode d) (or_default (gw_UpstreamMode g) (gw_UpstreamMode d))
    (or_default (gw_UpstreamMAC g) (gw_UpstreamMAC d))
    (or_default (gw_ManagementAddress g) (gw_ManagementAddress d))
    (or_default (gw_ManagementNetwork g) (gw_ManagementNetwork d))
    (or_default (gw_ManagementGateway g) (gw_ManagementGateway d))
    (or_default (gw_ControllerAddress g) (gw_ControllerAddress d))
    (or_list (gw_Publish g) (gw_Publish d)).

Definition base_pki (p d : PKIMetadata) : PKIMetadata :=
  mkPKI (or_default (pki_RootCommonName p) (pki_RootCommonName d))
    (or_default (pki_RootFingerprint p) (pki_RootFingerprint d))
    (or_default (pki_RootExpiry p) (pki_RootExpiry d))
    (or_default (pki_IssuingCommonName p) (pki_IssuingCommonName d))
    (or_default (pki_IssuingFingerprint p) (pki_IssuingFingerprint d))
    (or_default (pki_IssuingExpiry p) (pki_IssuingExpiry d)).

Definition base_ownership (o d : OwnershipPolicy) : OwnershipPolicy :=
  mkOwnership (or_int (op_PlatformGuestIDMin o) (op_PlatformGuestIDMin d))
    (or_int (op_PlatformGuestIDMax o) (op_PlatformGuestIDMax d))
    (or_int (op_ModuleGuestIDMin o) (op_ModuleGuestIDMin d))
    (or_int (op_ModuleGuestIDMax o) (op_ModuleGuestIDMax d))
    (or_int (op_UserGuestIDMin o) (op_UserGuestIDMin d))
    (or_int (op_UserGuestIDMax o) (op_UserGuestIDMax d))
    (op_UserWorkloadsManaged o).

Definition BaseSite (c : SiteConfig) : Site :=
  let m := cf_SecretMetadata c in
  let s := NewSite (sm_InstallationID m) (sm_AgeRecipient m) (or_default (gw_Mode (cf_Gateway c)) "managed") in
  {|
    s_APIVersion := or_default (cf_APIVersion c) (s_APIVersion s);
    s_PlatformVersion := or_default (cf_PlatformVersion c) (s_PlatformVersion s);
    s_SchemaVersion := or_int (cf_SchemaVersion c) (s_SchemaVersion s);
    s_StorageProfile := or_default (cf_StorageProfile c) (s_StorageProfile s);
    s_StorageDevice := or_default (cf_StorageDevice c) (s_StorageDevice s);
    s_Gateway := base_gateway (cf_Gateway c) (s_Gateway s);
    s_LogicalProxmoxIdentity := s_LogicalProxmoxIdentity s;
    s_BootstrapAddress := or_default (cf_BootstrapAddress c) (s_BootstrapAddress s);
    s_SSHIdentityFile := or_default (cf_SSHIdentityFile c) (s_SSHIdentityFile s);
    s_PhysicalNetwork := if pn_Mode (cf_PhysicalNetwork c) == "" then s_PhysicalNetwork s else cf_PhysicalNetwork c;
    s_TestedGateway := or_default (cf_TestedGateway c) (s_TestedGateway s);
    s_Network := mkNetwork (or_default (n_Domain (cf_Network c)) (n_Domain (s_Network s)))
                   (match n_Zones (cf_Network c) with
                    | [] => n_Zones (s_Network s)
                    | zones => map infer_zone_type zones
                    end);
    s_PKI := base_pki (cf_PKI c) (s_PKI s);
    s_SecretMetadata := mkSecrets (or_default (sm_InstallationID m) (sm_InstallationID (s_SecretMetadata s)))
                          (or_default (sm_AgeRecipient m) (sm_AgeRecipient (s_SecretMetadata s)))
                          (sm_RootAgeRecipient m);
    s_Ownership := base_ownership (cf_Ownership c) (s_Ownership s);
    s_Components := s_Components s;
    s_Modules := s_Modules s;
    s_ModuleConfig := Map (cf_Modules c);
    s_Companion := cf_Companion c;
    s_Declarations := s_Declarations s;
    s_USBExports := cf_USBExports c;
    s_RetainedModules := s_RetainedModules s;
    s_DHCPReservations := cf_DHCPReservations c ++ option_list (CompanionReservation (cf_Companion c));
    s_DNSRecords := cf_DNSRecords c;
    s_UserFirewallRules := cf_UserFirewallRules c;
    s_PendingDNSDeletions := s_PendingDNSDeletions s;
  |}.

Definition config_Validate `{GoURL} (c : SiteConfig) : result SiteError unit := Validate (BaseSite c).

(** ** [ConfigFromSite] *)

(** The reservations that module declarations and the companion contribute. *)
Definition derived_reservations (s : Site) : list DHCPReservation :=
  flat_map md_DHCPReservations (s_Declarations s) ++ option_list (CompanionReservation (s_Companion s)).

Definition configuredDHCPReservations (s : Site) : list DHCPReservation :=
  List.filter (fun r => bool_decide (r ∉ derived_reservations s)) (s_DHCPReservations s).

Definition ConfigFromSite (s : Site) : SiteConfig := {|
  cf_APIVersion := s_APIVersion s;
  cf_PlatformVersion := s_PlatformVersion s;
  cf_SchemaVersion := s_SchemaVersion s;
  cf_StorageProfile := s_StorageProfile s;
  cf_StorageDevice := s_StorageDevice s;
  cf_Gateway := s_Gateway s;
  cf_BootstrapAddress := s_BootstrapAddress s;
  cf_SSHIdentityFile := s_SSHIdentityFile s;
  cf_PhysicalNetwork := s_PhysicalNetwork s;
  cf_TestedGateway := s_TestedGateway s;
  cf_Network := s_Network s;
  cf_PKI := s_PKI s;
  cf_SecretMetadata := s_SecretMetadata s;
  cf_Ownership := s_Ownership s;
  cf_Modules := ModulesConfigFromMap (s_ModuleConfig s);
  cf_Companion := s_Companion s;
  cf_USBExports := s_USBExports s;
  cf_DHCPReservations := configuredDHCPReservations s;
  cf_DNSRecords := s_DNSRecords s;
  cf_UserFirewallRules := s_UserFirewallRules s;
|}.

(** ** The way back *)

(** What the module map has no room for. *)
Definition forget_clients (m : ModulesConfig) : ModulesConfig :=
  mkModulesConfig (mo_DNS m) (mo_Monitoring m) (mo_Firewall m)
    ((fun t => mkTailnetRouter (tr_Enabled t) []) <$> mo_TailnetRouter m) (mo_Bifrost m).

Lemma modules_map_back m : ModulesConfigFromMap (Map m) = forget_clients m.
Proof.
  destruct m as [dns mon fw tn bf]. destruct dns, mon, fw, tn as [[]|], bf as [[]|]; reflexivity.
Qed.

Lemma Map_forget m : Map (forget_clients m) = Map m.
Proof. unfold Map, forget_clients. cbn. by destruct (mo_TailnetRouter m). Qed.

Lemma or_default_twice v d : or_default (or_default v d) d = or_default v d.
Proof. unfold or_default. repeat case_bool_decide; done. Qed.
Lemma or_int_idemp v d : or_int (or_int v d) d = or_int v d.
Proof. unfold or_int. destruct (v =? 0) eqn:E; [by destruct (d =? 0)|by rewrite E]. Qed.
Lemma or_list_idemp {A} (v d : list A) : or_list (or_list v d) d = or_list v d.
Proof. unfold or_list. destruct v; [by destruct d|done]. Qed.

Lemma infer_zone_type_idemp z : infer_zone_type (infer_zone_type z) = infer_zone_type z.
Proof.
  unfold infer_zone_type. repeat case_bool_decide; done.
Qed.

(** Accepted reservations do not repeat by hand the one that follows from the
    companion's hardware address. *)
Lemma companion_not_written s c r : validateDHCPReservations s = Ok tt → s_DHCPReservations s = s_DHCPReservations (BaseSite c) →
  CompanionReservation (cf_Companion c) = Some r → r ∉ cf_DHCPReservations c.
Proof.
  intros Ha%reservation_addresses_distinct Es Hr Hin. rewrite Es in Ha. cbn in Ha. rewrite Hr in Ha. cbn in Ha.
  rewrite map_app in Ha. apply NoDup_app in Ha as (_&Hd&_). apply (Hd (parse_to4 (dh_Address r))); [|set_solver].
  apply list_elem_of_fmap. by exists r.
Qed.

Lemma filter_keeps {A : Type} (f : A → bool) l : (∀ x, x ∈ l → f x = true) → List.filter f l = l.
Proof. induction l as [|x l IH]; intros Hf; cbn; [done|]. rewrite Hf by set_solver. f_equal. apply IH. set_solver. Qed.

Lemma configured_back c : (∀ r, CompanionReservation (cf_Companion c) = Some r → r ∉ cf_DHCPReservations c) →
  configuredDHCPReservations (BaseSite c) = cf_DHCPReservations c.
Proof.
  intros Hc. unfold configuredDHCPReservations, derived_reservations. cbn.
  destruct (CompanionReservation (cf_Companion c)) as [r|]; cbn; rewrite List.filter_app; cbn.
  - rewrite bool_decide_eq_false_2 by set_solver. rewrite app_nil_r. specialize (Hc r eq_refl).
    apply filter_keeps. intros x Hx. apply bool_decide_eq_true. by intros ->%list_elem_of_singleton.
  - rewrite app_nil_r. apply filter_keeps. intros x _. apply bool_decide_eq_true. apply not_elem_of_nil.
Qed.

(** Nothing of a base site is lost on the way to its file and back. *)
Lemma base_site_back c : (∀ r, CompanionReservation (cf_Companion c) = Some r → r ∉ cf_DHCPReservations c) →
  BaseSite (ConfigFromSite (BaseSite c)) = BaseSite c.
Proof.
  intros Hc. pose proof (configured_back c Hc) as Hres.
  unfold BaseSite at 1. cbn -[BaseSite NewSite Map configuredDHCPReservations ModulesConfigFromMap].
  rewrite Hres. unfold BaseSite. cbn -[NewSite Map ModulesConfigFromMap].
  rewrite modules_map_back, Map_forget.
  unfold base_gateway, base_pki, base_ownership. cbn -[Map].
  rewrite !or_default_twice, !or_int_idemp, !or_list_idemp. f_equal.
  - by destruct (pn_Mode (cf_PhysicalNetwork c) == "") eqn:E; cbn; rewrite ?E.
  - f_equal. destruct (n_Zones (cf_Network c)) as [|z zs]; [done|]. cbn. f_equal; [apply infer_zone_type_idemp|].
    rewrite map_map. apply map_ext. apply infer_zone_type_idemp.
  - f_equal; unfold or_default; by repeat case_bool_decide.
Qed.
End config.

(** ** Properties *)

(** Saving a site and loading it again changes nothing: for every accepted
    site file, the file written from its site leads to the same site, with the
    companion's reservation derived once and not written down. *)
Theorem BaseSite_roundtrip `{GoUnicode, GoURL} c :
  config_Validate c = Ok tt →
  BaseSite (ConfigFromSite (BaseSite c)) = BaseSite c
  ∧ cf_DHCPReservations (ConfigFromSite (BaseSite c)) = cf_DHCPReservations c.
Proof.
  intros Hv%site_Validate_good%vg_reservations.
  pose proof (fun r => companion_not_written (BaseSite c) c r Hv eq_refl) as Hc.
  split; [by apply base_site_back|by apply configured_back].
Qed.

(** The lookup map of the modules keeps everything but one field: reading the
    map back gives the configuration that was put in exactly when the tailnet
    router lists no trusted clients. *)
Theorem ModulesConfig_roundtrip m :
  ModulesConfigFromMap (Map m) = m ↔ ∀ t, mo_TailnetRouter m = Some t → tr_TrustedClients t = [].
Proof.
  rewrite modules_map_back. destruct m as [dns mon fw tn bf]. unfold forget_clients. cbn. split.
  - intros E t ->. injection E as E. by rewrite <- E.
  - intros Ht. destruct tn as [[e cs]|]; [|done]. cbn. by rewrite <- (Ht _ eq_refl).
Qed.

(** ** Witnesses *)

Definition sample_config (clients : list string) : SiteConfig :=
  mkSiteConfig "" "" 0 "" "" (mkGateway "" "" "02:00:00:00:02:01" "" "" "" "" ["dns"]) "" "" (mkPhysical (mkNIC "" "" "") (mkNIC "" "" "") "")
    "" (mkNetwork "" (map (fun z => mkZone (z_Name z) (ZoneTypeOther "") (z_VLAN z) (z_Network z) (z_Gateway z)
       (z_AddressMode z) (z_DNSAddresses z) (z_NTPAddresses z)) default_zones)) (mkPKI "" "" "" "" "" "")
    (mkSecrets "site-1" "age1" "age2") (mkOwnership 0 0 0 0 0 0 false)
    (mkModulesConfig true (Some (Some true)) None (Some (mkTailnetRouter (Some true) clients)) None)
    (Some (mkCompanion None "02:AA:00:00:00:99" None (Some None) "")) []
    [mkSiteReservation "" "" "SERVERS" "nas" "10.10.20.61" "02:aa:00:00:00:61" 0] [] [].

(** The dropped field is also never checked: an address that is not even in the
    Tailnet range passes the file's validation and reaches no guest. *)
Example clients_dropped :
  @config_Validate ascii_only plain_url (sample_config ["192.168.1.1"]) = Ok tt
  ∧ mc_TailnetTrustedClients <$> s_ModuleConfig (@BaseSite ascii_only (sample_config ["100.64.0.7"])) !! "tailnet-router" = Some [].
Proof. by vm_compute. Qed.

Theorem BaseSite_roundtrip_witness :
  @BaseSite ascii_only (@ConfigFromSite ascii_only (@BaseSite ascii_only (sample_config []))) = @BaseSite ascii_only (sample_config []).
Proof. apply (@BaseSite_roundtrip ascii_only plain_url (sample_config [])). by vm_compute. Defined.
End SiteConfig.
