(* ===== verification/ModRegistry.v ===== *)
(** * The module registry ([internal/modules/registry.go])

    Which first-party modules exist, which of them a site file turns on, and in
    which order they are brought up.  Go ranges over maps here while it adds
    keys to them; the order it takes, and which of the added keys it still
    visits, is the argument [range] of the definitions.  The theorems hold for
    every [range] that visits the keys the map had. *)

From S2P Require Export SiteConfig.

Open Scope Z_scope.

Module ModRegistry.
Import Model SiteRules SiteValidate SiteConfig.

(** ** Data *)

Inductive EnablementPolicy := Mandatory | DefaultOn | DefaultOff.
#[export] Instance EnablementPolicy_eq_dec : EqDecision EnablementPolicy.
Proof. solve_decision. Defined.

(** One question of [module configure]; an object list has the fields of an
    item. *)
#[warnings="-register-all"] Inductive ConfigField := mkField {
  mf_Key : string;
  mf_Type : string;
  mf_Prompt : string;
  mf_Description : string;
  mf_Required : bool;
  mf_Default : string;
  mf_Sensitive : bool;
  mf_AllowedValues : list string;
  mf_Resolver : string;
  mf_MinItems : Z;
  mf_MaxItems : Z;
  mf_ItemFields : list ConfigField;
}.

Record ModuleDefinition := mkDefinition {
  df_Name : string;
  df_Description : string;
  df_Version : string;
  df_Policy : EnablementPolicy;
  df_DependsOn : list string;
  df_Requires : list string;
  df_Provides : list string;
  df_ReservedVMIDStart : Z;
  df_ReservedVMIDEnd : Z;
  df_ZoneType : ZoneType;
  df_Guests : list Component;
  df_USBRequirements : list USBRequirement;
  df_Configuration : list ConfigField;
  df_StaticDeviceSlots : Z;
  df_NetworkCapable : bool;
  df_AllowedNetworkModes : list string;
  df_DefaultNetworkMode : string;
}.

Record Registry := mkRegistry { rg_definitions : gmap string ModuleDefinition; rg_duplicateNames : list string }.

Definition registry_step (r : Registry) (d : ModuleDefinition) : Registry :=
  mkRegistry (<[df_Name d := d]> (rg_definitions r))
    (if bool_decide (is_Some (rg_definitions r !! df_Name d)) then rg_duplicateNames r ++ [df_Name d] else rg_duplicateNames r).
Definition NewRegistry (definitions : list ModuleDefinition) : Registry :=
  foldl registry_step (mkRegistry ∅ []) definitions.

Definition Definitions (r : Registry) : list ModuleDefinition := sort_by df_Name (map_to_list (rg_definitions r)).*2.
Definition Definition_ (r : Registry) (name : string) : option ModuleDefinition := rg_definitions r !! name.

Inductive RegistryError :=
| DuplicateDefinition (n : string) | IncompleteIdentity | ReservedBlock (n : string) | ReservedCollision (vmid : Z) (p n : string)
| PlacementZone (n : string) | ModesNotCapable (n : string) | DefaultModeNotAllowed (n : string)
| FieldKey (m k : string) | FieldPrompt (m k : string) | FieldType (m k : string) | FieldResolverType (m k : string)
| FieldResolver (m k : string) | FieldValues (m k : string) | FieldBounds (m k : string) | FieldDefault (m k : string)
| USBRequirementInvalid (m r : string) | USBDeviceType (m r : string)
| GuestVMIDCollision (vmid : Z) | GuestAddressCollision (a : string) | GuestOutsideBlock (m : string) (vmid : Z) | ReservedGuest (vmid : Z)
| UnknownModuleName (n : string) | ModuleNotNetworkCapable (n : string) | UnsupportedMode (n mode : string)
| ModuleBifrost (e : BifrostError) | MandatoryDisabled (n : string) | FirewallNotDisabled
| DependencyNotRegistered (n d : string) | DependencyDisabled (n d : string) | ResolveFuel
| IncompatibleProviders (c p n : string) | CapabilityUnavailable (n c : string)
| DependencyCycle (n : string) | DependsOnDisabled (n d : string) | DependsOnUnknown (n d : string) | VisitFuel
| USBNoRequirement (m r : string) | USBIdentity (m r : string) | USBDuplicate (m r : string) | USBPort (p : string)
| USBSerial (i : string) | USBMissing (m r : string).

(** ** [Registry.Validate] *)

Definition modelConfigurationToken (value : string) : bool :=
  (len value <=? 64) && sall (fun c => alnum c || contains_byte "_-" c) value.

Definition field_types : list string := ["bool"; "string"; "enum"; "model-alias"; "object-list"].
Definition field_resolvers : list string := ["bifrost-model-alias"; "bifrost-upstream-name"].

(** The checks of one field that are not its key and not its item fields. *)
Definition field_check (module : string) (f : ConfigField) : result RegistryError unit :=
  _ ← fail_if (mf_Prompt f == "") (FieldPrompt module (mf_Key f));
  _ ← fail_if (bool_decide (mf_Type f ∉ field_types)) (FieldType module (mf_Key f));
  _ ← (if mf_Resolver f != "" then
         _ ← fail_if ((mf_Type f != "enum") && (mf_Type f != "model-alias")) (FieldResolverType module (mf_Key f));
         fail_if (bool_decide (mf_Resolver f ∉ field_resolvers)) (FieldResolver module (mf_Key f))
       else Ok tt);
  fail_if ((mf_Type f == "enum") && (length (mf_AllowedValues f) =? 0)%nat && (mf_Resolver f == "")) (FieldValues module (mf_Key f)).

(** [validateConfigurationFields]; the list of item fields is walked with the
    field it belongs to. *)
Fixpoint validate_field (module : string) (f : ConfigField) : result RegistryError unit :=
  let items := (fix items (m : string) (fs : list ConfigField) (seen : gset string) : result RegistryError unit :=
    match fs with
    | [] => Ok tt
    | g :: fs =>
        _ ← fail_if ((mf_Key g == "") || negb (modelConfigurationToken (mf_Key g)) || bool_decide (mf_Key g ∈ seen))
              (FieldKey m (mf_Key g));
        _ ← validate_field m g;
        items m fs ({[mf_Key g]} ∪ seen)
    end) in
  _ ← field_check module f;
  _ ← (if mf_Type f == "object-list" then
         _ ← fail_if ((mf_MinItems f <? 0) || (mf_MaxItems f <? mf_MinItems f) || (mf_MaxItems f =? 0)
                      || (length (mf_ItemFields f) =? 0)%nat) (FieldBounds module (mf_Key f));
         items (module +:+ "." +:+ mf_Key f) (mf_ItemFields f) ∅
       else Ok tt);
  fail_if ((mf_Default f != "") && (mf_Type f == "enum") && bool_decide (mf_Default f ∉ mf_AllowedValues f))
    (FieldDefault module (mf_Key f)).

Definition field_step (module : string) (seen : gset string) (f : ConfigField) : result RegistryError (gset string) :=
  _ ← fail_if ((mf_Key f == "") || negb (modelConfigurationToken (mf_Key f)) || bool_decide (mf_Key f ∈ seen))
        (FieldKey module (mf_Key f));
  _ ← validate_field module f;
  Ok ({[mf_Key f]} ∪ seen).
Definition validateConfigurationFields (module : string) (fields : list ConfigField) : result RegistryError unit :=
  _ ← foldM (field_step module) ∅ fields; Ok tt.

(** The three maps of [Validate]: reserved VMIDs, guest VMIDs and guest
    addresses, each to the module that took it. *)
Record Taken := mkTaken { tk_reserved : gmap Z string; tk_vmids : gmap Z string; tk_addresses : gmap string string }.

Definition taken_by_other {K : Type} `{Countable K} (m : gmap K string) (k : K) (name : string) : bool :=
  match m !! k with Some previous => previous != name | None => false end.

(** [for vmid := start; vmid <= end; vmid++] *)
Definition block (start end_ : Z) : list Z := map (fun i => start + Z.of_nat i) (seq 0 (Z.to_nat (end_ - start + 1))).

Definition reserve_step (name : string) (reserved : gmap Z string) (vmid : Z) : result RegistryError (gmap Z string) :=
  _ ← fail_if (taken_by_other reserved vmid name) (ReservedCollision vmid (default "" (reserved !! vmid)) name);
  Ok (<[vmid := name]> reserved).

Definition reserve_block (d : ModuleDefinition) (reserved : gmap Z string) : result RegistryError (gmap Z string) :=
  if (df_ReservedVMIDStart d != 0) || (df_ReservedVMIDEnd d != 0) then
    _ ← fail_if ((df_ReservedVMIDStart d <? 200) || (df_ReservedVMIDEnd d >? 499) || (df_ReservedVMIDStart d >? df_ReservedVMIDEnd d))
          (ReservedBlock (df_Name d));
    foldM (reserve_step (df_Name d)) reserved (block (df_ReservedVMIDStart d) (df_ReservedVMIDEnd d))
  else Ok reserved.

Definition supportedPlacementZoneType (t : ZoneType) : bool := validZoneType t.

Definition allowed_modes (d : ModuleDefinition) : list string :=
  match df_AllowedNetworkModes d with [] => ["direct"] | modes => modes end.

Definition requirement_check (d : ModuleDefinition) (r : USBRequirement) : result RegistryError unit :=
  _ ← fail_if ((ur_Name r == "") || bool_decide (ur_Guest r ∉ map c_Name (df_Guests d)) || (ur_Access r != "rw")
               || (length (ur_AllowedIdentities r) =? 0)%nat) (USBRequirementInvalid (df_Name d) (ur_Name r));
  fail_if ((ur_DeviceType r != "raw-usb") && (ur_DeviceType r != "serial")) (USBDeviceType (df_Name d) (ur_Name r)).

Definition guest_step (d : ModuleDefinition) (t : Taken) (guest : Component) : result RegistryError Taken :=
  _ ← fail_if ((c_VMID guest != 0) && taken_by_other (tk_vmids t) (c_VMID guest) (df_Name d)) (GuestVMIDCollision (c_VMID guest));
  _ ← fail_if ((c_Address guest != "") && taken_by_other (tk_addresses t) (c_Address guest) (df_Name d))
        (GuestAddressCollision (c_Address guest));
  _ ← fail_if ((df_ReservedVMIDStart d != 0)
               && ((c_VMID guest <? df_ReservedVMIDStart d) || (c_VMID guest >? df_ReservedVMIDEnd d)))
        (GuestOutsideBlock (df_Name d) (c_VMID guest));
  Ok (mkTaken (tk_reserved t)
        (if c_VMID guest != 0 then <[c_VMID guest := df_Name d]> (tk_vmids t) else tk_vmids t)
        (if c_Address guest != "" then <[c_Address guest := df_Name d]> (tk_addresses t) else tk_addresses t)).

Definition definition_step (t : Taken) (d : ModuleDefinition) : result RegistryError Taken :=
  _ ← fail_if ((df_Name d == "") || (df_Version d == "")) IncompleteIdentity;
  reserved ← reserve_block d (tk_reserved t);
  _ ← fail_if ((df_ZoneType d != ZoneTypeOther "") && negb (supportedPlacementZoneType (df_ZoneType d))) (PlacementZone (df_Name d));
  _ ← fail_if (negb (df_NetworkCapable d) && negb (length (df_AllowedNetworkModes d) =? 0)%nat) (ModesNotCapable (df_Name d));
  _ ← fail_if (df_NetworkCapable d && (df_DefaultNetworkMode d != "") && bool_decide (df_DefaultNetworkMode d ∉ allowed_modes d))
        (DefaultModeNotAllowed (df_Name d));
  _ ← validateConfigurationFields (df_Name d) (df_Configuration d);
  _ ← eachM (requirement_check d) (df_USBRequirements d);
  foldM (guest_step d) (mkTaken reserved (tk_vmids t) (tk_addresses t)) (df_Guests d).

Definition registry_Validate (r : Registry) : result RegistryError unit :=
  _ ← match sort_strings (rg_duplicateNames r) with
      | name :: _ => Err (DuplicateDefinition name)
      | [] => Ok tt
      end;
  t ← foldM definition_step (mkTaken ∅ ∅ ∅) (Definitions r);
  eachM (fun '(vmid, owner) => fail_if (taken_by_other (tk_vmids t) vmid owner) (ReservedGuest vmid))
    (map_to_list (tk_reserved t)).

(** ** [FirstPartyRegistry] *)

Definition scalar (key type prompt description : string) (sensitive : bool) (resolver : string) : ConfigField :=
  mkField key type prompt description true "" sensitive [] resolver 0 0 [].
Definition objects (key prompt description : string) (max : Z) (items : list ConfigField) : ConfigField :=
  mkField key "object-list" prompt description true "" false [] "" 1 max items.

Definition bifrost_fields : list ConfigField := [
  objects "upstreams" "AI Router upstreams" "HTTPS provider endpoints and their SOPS secret references" 16 [
    scalar "name" "string" "Upstream name" "" false "";
    scalar "base_url" "string" "HTTPS base URL" "" false "";
    scalar "api_key_secret" "string" "SOPS secret name"
      "Name of the existing SOPS-managed provider credential; the credential value is collected separately" true ""];
  objects "models" "AI Router model aliases" "Provider-neutral aliases exposed to dependent modules" 32 [
    scalar "alias" "string" "Public alias" "" false "";
    scalar "upstream" "enum" "Upstream" "" false "bifrost-upstream-name";
    scalar "model" "string" "Provider model identifier" "" false ""]].

(** A product-owned guest, before its module places it. *)
Definition guest (name : string) (vmid : Z) (zone address role : string) (aliases : list string) (url : string) (mtls : bool)
    : Component :=
  mkComponent name vmid name zone address role aliases url "" 0 true true [] mtls true true true "" false "".

Definition first_party_modules : list ModuleDefinition := [
  mkDefinition "dns" "Mandatory DNS and NTP platform capability" "1.0.0" Mandatory [] ["gateway"] ["dns"; "ntp"] 0 0
    ZoneTypeInfrastructure [guest "lab-dns-01" 110 "INFRA" "10.10.10.10" "DNS/NTP" ["dns01"; "dns"] "" false]
    [] [] 0 false [] "";
  mkDefinition "firewall" "Managed Debian gateway, nftables, and Kea capability" "1.0.0" DefaultOn [] [] ["gateway"] 0 0
    ZoneTypeManagement [guest "lab-fw-01" 100 "" "10.10.99.1" "Debian firewall" [] "" false] [] [] 0 false [] "";
  mkDefinition "monitoring" "Unified VictoriaMetrics/VictoriaLogs, Grafana, Gatus, and nested Holmes observability runtime"
    "1.0.0" DefaultOn [] ["dns"] ["monitoring"] 0 0 ZoneTypeInfrastructure
    [guest "lab-monitor-01" 120 "" "10.10.10.20" "Unified observability" ["monitor"] ("https://monitor." +:+ DefaultDomain) true]
    [] [] 0 false [] "";
  mkDefinition "tailnet-router" "Tailscale subnet router for the TRANSIT security edge" "1.0.0" DefaultOff
    [] ["gateway"; "dns"] ["tailnet-access"] 200 209 ZoneTypeTransit
    [guest "lab-tailnet-01" 200 "" "10.10.5.10" "Tailnet subnet router" ["tailnet-router"; "tailnet"] "" false]
    [] [] 1 false [] "";
  mkDefinition "bifrost" "mTLS-protected Bifrost AI API router" "1.0.0" DefaultOff [] ["dns"] ["ai-api"] 210 219 ZoneTypeServers
    [guest "lab-bifrost-01" 210 "" "10.10.20.60" "Bifrost AI API router" ["bifrost"; "ai"] ("https://bifrost." +:+ DefaultDomain) true]
    [] bifrost_fields 0 true [] ""].

(** The Go literal is a map from each module's name. *)
Definition FirstPartyRegistry : Registry :=
  mkRegistry (list_to_map (map (fun d => (df_Name d, d)) first_party_modules)) [].

Example first_party_valid : registry_Validate FirstPartyRegistry = Ok tt.
Proof. by vm_compute. Qed.

Example registry_rejects :
  let d := mkDefinition "a" "" "1" DefaultOn [] [] [] 200 209 ZoneTypeServers [] [] [] 0 false [] "" in
  let e := mkDefinition "b" "" "1" DefaultOn [] [] [] 209 219 ZoneTypeServers [] [] [] 0 false [] "" in
  let g := mkDefinition "c" "" "1" DefaultOn [] [] [] 0 0 ZoneTypeServers [guest "g" 205 "" "" "" [] "" false] [] [] 0 false [] "" in
  registry_Validate (NewRegistry [d; e]) = Err (ReservedCollision 209 "a" "b")
  ∧ registry_Validate (NewRegistry [d; g]) = Err (ReservedGuest 205)
  ∧ registry_Validate (NewRegistry [d; d]) = Err (DuplicateDefinition "a").
Proof. by vm_compute. Qed.

(** ** [Registry.ConfigurationFields] *)

(** The choices a resolver adds come from the site file. *)
Definition resolver_values (config : SiteConfig) (resolver : string) : list string :=
  match Map (cf_Modules config) !! "bifrost" with
  | None => []
  | Some c =>
      if resolver == "bifrost-model-alias" then map bm_Alias (mc_Models c)
      else if resolver == "bifrost-upstream-name" then map bu_Name (mc_Upstreams c)
      else []
  end.

Fixpoint resolve_field (config : SiteConfig) (f : ConfigField) : ConfigField :=
  mkField (mf_Key f) (mf_Type f) (mf_Prompt f) (mf_Description f) (mf_Required f) (mf_Default f) (mf_Sensitive f)
    (mf_AllowedValues f ++ resolver_values config (mf_Resolver f)) (mf_Resolver f) (mf_MinItems f) (mf_MaxItems f)
    (map (resolve_field config) (mf_ItemFields f)).

Definition network_field (d : ModuleDefinition) : ConfigField :=
  mkField "network" "enum" "Network egress mode"
    "Route declared external application egress through the selected network path" false
    (if df_DefaultNetworkMode d == "" then "direct" else df_DefaultNetworkMode d) false (allowed_modes d) "" 0 0 [].

Definition ConfigurationFields (r : Registry) (name : string) (config : SiteConfig) : result RegistryError (list ConfigField) :=
  match Definition_ r name with
  | None => Err (UnknownModuleName name)
  | Some d =>
      Ok (map (resolve_field config)
            ((if df_NetworkCapable d then [network_field d] else []) ++ df_Configuration d))
  end.

(** ** Topological order *)

Abbreviation Active := (gmap string bool).
(** Go's [active[name]]: a missing key is false. *)
Definition is_active (active : Active) (name : string) : bool := default false (active !! name).

Section order.
Context (r : Registry) (active : Active).

Definition zero_definition : ModuleDefinition :=
  mkDefinition "" "" "" DefaultOff [] [] [] 0 0 (ZoneTypeOther "") [] [] [] 0 false [] "".
(** Go's [r.definitions[name]]: a missing key is the zero definition. *)
Definition definition_of (name : string) : ModuleDefinition := default zero_definition (rg_definitions r !! name).

(** Each provided capability that matches appends the provider, once. *)
Definition provider_step (capability : string) (dependencies : list string) (candidate : ModuleDefinition) : list string :=
  if bool_decide (capability ∈ df_Provides candidate) && bool_decide (df_Name candidate ∉ dependencies)
  then dependencies ++ [df_Name candidate] else dependencies.

Definition effectiveDependencies (d : ModuleDefinition) : list string :=
  foldl (fun dependencies capability =>
      foldl (provider_step capability) dependencies
        (List.filter (fun c => is_active active (df_Name c) && (df_Name c != df_Name d)) (Definitions r)))
    (df_DependsOn d) (df_Requires d).

(** The dependencies of a name, as [visit] goes through them. *)
Definition dependencies (name : string) : list string := sort_strings (effectiveDependencies (definition_of name)).

(** [state] (1: being visited, 2: done) and [result]. *)
Record Order := mkOrder { or_state : gmap string Z; or_result : list string }.
Definition set_state (o : Order) (name : string) (v : Z) : Order := mkOrder (<[name := v]> (or_state o)) (or_result o).

Fixpoint visit (fuel : nat) (name : string) (o : Order) : result RegistryError Order :=
  match fuel with
  | O => Err VisitFuel
  | S fuel =>
      if or_state o !! name == Some 1 then Err (DependencyCycle name)
      else if or_state o !! name == Some 2 then Ok o
      else
        o' ← foldM (fun o dependency =>
               _ ← fail_if (negb (is_active active dependency)) (DependsOnDisabled name dependency);
               _ ← fail_if (bool_decide (rg_definitions r !! dependency = None)) (DependsOnUnknown name dependency);
               visit fuel dependency o) (set_state o name 1) (dependencies name);
        Ok (mkOrder (<[name := 2]> (or_state o')) (or_result o' ++ [name]))
  end.

Definition active_names : list string :=
  sort_strings (List.filter (is_active active) (map_to_list active).*1).

(** The names being visited are distinct active names, so one more level of
    recursion than there are keys is enough. *)
Definition topologicalOrder : result RegistryError (list string) :=
  o ← foldM (fun o name => visit (S (size active)) name o) (mkOrder ∅ []) active_names;
  Ok (or_result o).

(** *** Lemmas *)

Definition depends (n d : string) : Prop := d ∈ dependencies n.

(** Every dependency of a name of [l] comes before it in [l]. *)
Definition topological (l : list string) : Prop :=
  ∀ l1 n l2, l = l1 ++ n :: l2 → ∀ d, depends n d → d ∈ l1.

Lemma topological_snoc l n : topological l → (∀ d, depends n d → d ∈ l) → topological (l ++ [n]).
Proof.
  intros Hl Hn l1 m l2 E d Hd. destruct l2 as [|x l2] using rev_ind.
  - apply app_inj_tail in E as [-> ->]. by apply Hn.
  - clear IHl2. rewrite app_comm_cons, app_assoc in E. apply app_inj_tail in E as [-> _]. by eapply Hl.
Qed.

(** What the state of the traversal says. *)
Record order_ok (o : Order) : Prop := {
  oo_done : ∀ n, or_state o !! n = Some 2 ↔ n ∈ or_result o;
  oo_vals : ∀ n v, or_state o !! n = Some v → v = 1 ∨ v = 2;
  oo_distinct : NoDup (or_result o);
  oo_topological : topological (or_result o);
}.

(** A step of the traversal: nothing done is undone and the names being
    visited are the same ones. *)
Record order_grows (o o' : Order) : Prop := {
  og_ok : order_ok o';
  og_prefix : ∃ l, or_result o' = or_result o ++ l;
  og_grey : ∀ n, or_state o' !! n = Some 1 ↔ or_state o !! n = Some 1;
  og_dom : dom (or_state o) ⊆ dom (or_state o');
}.

Lemma order_grows_refl o : order_ok o → order_grows o o.
Proof. intros. constructor; try done. exists []. by rewrite app_nil_r. Qed.
Lemma order_grows_trans o1 o2 o3 : order_grows o1 o2 → order_grows o2 o3 → order_grows o1 o3.
Proof.
  intros [_ [l1 E1] G1 D1] [H2 [l2 E2] G2 D2]. constructor; [done| | |set_solver].
  - exists (l1 ++ l2). by rewrite E2, E1, app_assoc.
  - intros n. by rewrite G2, G1.
Qed.

Lemma visit_grows fuel name o o' : order_ok o → visit fuel name o = Ok o' →
  order_grows o o' ∧ name ∈ or_result o'.
Proof.
  revert name o o'. induction fuel as [|fuel IH]; intros name o o' Ho Hv; [done|]. cbn [visit] in Hv.
  destruct (or_state o !! name == Some 1) eqn:E1; [done|]. destruct (or_state o !! name == Some 2) eqn:E2; bools.
  { injection Hv as <-. split; [by apply order_grows_refl|]. by apply oo_done. }
  apply bind_ok in Hv as (o2 & Hf & [= <-]).
  assert (or_state o !! name = None) as Hnone.
  { destruct (or_state o !! name) as [v|] eqn:Ev; [|done]. by destruct (oo_vals o Ho name v Ev) as [->| ->]. }
  assert (order_ok (set_state o name 1)) as Hset.
  { destruct Ho as [Hd Hv Hn Ht]. constructor; cbn; try done.
    - intros n. rewrite <- Hd. destruct (decide (n = name)) as [->|]; [by rewrite lookup_insert_eq, Hnone|by rewrite lookup_insert_ne].
    - intros n v. destruct (decide (n = name)) as [->|]; [rewrite lookup_insert_eq; intros [= <-]; auto|rewrite lookup_insert_ne by done; apply Hv]. }
  assert (order_grows (set_state o name 1) o2 ∧ ∀ d, depends name d → d ∈ or_result o2) as [Hg Hdeps].
  { unfold depends. revert Hf. apply (foldM_inv _ (fun ds o2 => order_grows (set_state o name 1) o2 ∧ ∀ d, d ∈ ds → d ∈ or_result o2)).
    { split; [by apply order_grows_refl|]. intros d Hd. by apply elem_of_nil in Hd. }
    intros dn d o3 o4 [Hg Hdn] _ Hs. apply bind_ok in Hs as ([] & _ & Hs). apply bind_ok in Hs as ([] & _ & Hs).
    apply IH in Hs as [Hg' Hin]; [|apply (og_ok _ _ Hg)]. split; [by eapply order_grows_trans|].
    destruct (og_prefix _ _ Hg') as [l El]. intros d' [Hd'| ->]%elem_snoc; [|done]. rewrite El. apply elem_of_app. left. by apply Hdn. }
  destruct Hg as [[Hd Hv Hn Ht] [l El] Hgrey Hdom]. cbn in El, Hgrey, Hdom.
  assert (or_state o2 !! name = Some 1) as Hname by by apply Hgrey; rewrite lookup_insert_eq.
  assert (name ∉ or_result o2) as Hnew by by rewrite <- Hd, Hname.
  split; [|cbn; apply elem_snoc; auto]. constructor; [constructor| | |]; cbn.
  - intros n. rewrite elem_snoc, <- Hd. destruct (decide (n = name)) as [->|]; [rewrite lookup_insert_eq; naive_solver|].
    rewrite lookup_insert_ne by done. naive_solver.
  - intros n v. destruct (decide (n = name)) as [->|]; [rewrite lookup_insert_eq; intros [= <-]; auto|rewrite lookup_insert_ne by done; apply Hv].
  - by apply NoDup_snoc.
  - by apply topological_snoc.
  - exists (l ++ [name]). by rewrite El, app_assoc.
  - intros n. destruct (decide (n = name)) as [->|]; [by rewrite lookup_insert_eq, Hnone|].
    rewrite lookup_insert_ne, Hgrey, lookup_insert_ne by done. done.
  - set_solver.
Qed.
(** Whatever is visited is active, and so are its dependencies, which are
    registered. *)
Definition checked (n : string) : Prop :=
  is_active active n = true ∧ ∀ d, depends n d → is_active active d = true ∧ is_Some (rg_definitions r !! d).

Lemma visit_checked fuel name o o' : is_active active name = true → (∀ n, n ∈ or_result o → checked n) →
  visit fuel name o = Ok o' → ∀ n, n ∈ or_result o' → checked n.
Proof.
  revert name o o'. induction fuel as [|fuel IH]; intros name o o' Ha Ho Hv; [done|]. cbn [visit] in Hv.
  destruct (_ == Some 1); [done|]. destruct (_ == Some 2); [by injection Hv as <-|].
  apply bind_ok in Hv as (o2 & Hf & [= <-]). cbn.
  assert ((∀ n, n ∈ or_result o2 → checked n)
    ∧ ∀ d, depends name d → is_active active d = true ∧ is_Some (rg_definitions r !! d)) as [H2 Hdeps].
  { unfold depends. revert Hf. apply (foldM_inv _ (fun ds o2 => (∀ n, n ∈ or_result o2 → checked n)
      ∧ ∀ d, d ∈ ds → is_active active d = true ∧ is_Some (rg_definitions r !! d))).
    { split; [done|]. by intros d ?%elem_of_nil. }
    intros ds d o3 o4 [H3 Hds] _ Hs. apply bind_ok in Hs as ([] & Hd%fail_if_ok & Hs).
    apply bind_ok in Hs as ([] & Hr%fail_if_ok & Hs). bools. split; [by eapply IH|].
    intros d' [Hd'| ->]%elem_snoc; [by apply Hds|]. split; [done|]. by apply not_eq_None_Some. }
  intros n [?| ->]%elem_snoc; [by apply H2|done].
Qed.

(** The names still to be visited. *)
Definition active_set : gset string := dom (filter (fun x : string * bool => x.2 = true) active).
Definition unvisited (o : Order) : gset string := active_set ∖ dom (or_state o).

Lemma active_dom name : is_active active name = true → name ∈ active_set.
Proof.
  unfold is_active, active_set. intros Ha. apply elem_of_dom. destruct (active !! name) as [[]|] eqn:E; try done.
  exists true. by apply map_lookup_filter_Some.
Qed.

Lemma active_set_size : (size active_set ≤ size active)%nat.
Proof. unfold active_set. rewrite size_dom. apply map_size_filter. Qed.

Lemma unvisited_mono o o' : dom (or_state o) ⊆ dom (or_state o') → (size (unvisited o') ≤ size (unvisited o))%nat.
Proof. intros Hd. apply subseteq_size. unfold unvisited. set_solver. Qed.

Lemma unvisited_set o name v : is_active active name = true → or_state o !! name = None →
  (S (size (unvisited (set_state o name v))) ≤ size (unvisited o))%nat.
Proof.
  intros Ha%active_dom Hn. apply not_elem_of_dom in Hn. unfold unvisited, set_state. cbn [or_state]. rewrite dom_insert_L.
  by apply size_difference_new.
Qed.

Lemma foldM_err {E S A : Type} (f : S → A → result E S) xs s e : foldM f s xs = Err e →
  ∃ done x s1, foldM f s done = Ok s1 ∧ x ∈ xs ∧ f s1 x = Err e.
Proof.
  induction xs as [|x xs IH] using rev_ind; [done|]. rewrite foldM_app. destruct (foldM f s xs) as [s1|e'] eqn:Ef; cbn.
  - destruct (f s1 x) as [|e'] eqn:Ex; cbn; [done|]. intros [= ->]. exists xs, x, s1. split_and!; [done|set_solver|done].
  - intros [= ->]. destruct (IH eq_refl) as (dn&y&s1&?&?&?). exists dn, y, s1. split_and!; [done|set_solver|done].
Qed.

(** The state met inside the loop of [visit] over the dependencies. *)
Lemma visit_loop_grows fuel name ds o o' : order_ok o →
  foldM (fun o dependency =>
    _ ← fail_if (negb (is_active active dependency)) (DependsOnDisabled name dependency);
    _ ← fail_if (bool_decide (rg_definitions r !! dependency = None)) (DependsOnUnknown name dependency);
    visit fuel dependency o) o ds = Ok o' → order_grows o o'.
Proof.
  intros Ho. apply (foldM_inv _ (fun _ o' => order_grows o o')); [by apply order_grows_refl|].
  intros _ d o3 o4 Hg _ Hs. apply bind_ok in Hs as ([] & _ & Hs). apply bind_ok in Hs as ([] & _ & Hs).
  apply visit_grows in Hs as [Hg' _]; [|apply (og_ok _ _ Hg)]. by eapply order_grows_trans.
Qed.

Lemma set_grey_ok o name : order_ok o → or_state o !! name ≠ Some 1 → or_state o !! name ≠ Some 2 →
  or_state o !! name = None ∧ order_ok (set_state o name 1).
Proof.
  intros Ho H1 H2. assert (or_state o !! name = None) as Hnone.
  { destruct (or_state o !! name) as [v|] eqn:Ev; [|done]. by destruct (oo_vals o Ho name v Ev) as [->| ->]. }
  split; [done|]. destruct Ho as [Hd Hv Hn Ht]. constructor; cbn; try done.
  - intros n. rewrite <- Hd. destruct (decide (n = name)) as [->|]; [by rewrite lookup_insert_eq, Hnone|by rewrite lookup_insert_ne].
  - intros n v. destruct (decide (n = name)) as [->|]; [rewrite lookup_insert_eq; intros [= <-]; auto|rewrite lookup_insert_ne by done; apply Hv].
Qed.

(** What an error of the traversal says of the active modules. *)
Definition order_fault (e : RegistryError) : Prop :=
  match e with
  | DependencyCycle n => is_active active n = true ∧ tc depends n n
  | DependsOnDisabled n d => is_active active n = true ∧ depends n d ∧ is_active active d = false
  | DependsOnUnknown n d => is_active active n = true ∧ depends n d ∧ rg_definitions r !! d = None
  | _ => False
  end.

(** Enough fuel, and what an error means: a cycle is reported only when the
    name depends on itself. *)
Lemma visit_err fuel name o e : order_ok o → is_active active name = true → (size (unvisited o) < fuel)%nat →
  (∀ x, or_state o !! x = Some 1 → tc depends x name) →
  visit fuel name o = Err e →
  order_fault e.
Proof.
  revert name o e. induction fuel as [|fuel IH]; intros name o e Ho Ha Hsz Hgrey Hv; [lia|]. cbn [visit] in Hv.
  destruct (_ == Some 1) eqn:E1; bools; [injection Hv as <-; split; [done|by apply Hgrey]|]. destruct (_ == Some 2) eqn:E2; bools; [done|].
  destruct (set_grey_ok o name Ho E1 E2) as [Hnone Hset].
  destruct (foldM _ _ _) as [o2|e2] eqn:Hf; [done|]. cbn in Hv. injection Hv as ->.
  apply foldM_err in Hf as (dn&d&o3&Hdn&Hd&He). apply visit_loop_grows in Hdn; [|done].
  destruct (negb (is_active active d)) eqn:Ead; cbn in He; [injection He as <-; by split_and!; bools|].
  destruct (bool_decide _) eqn:Eun; cbn in He; [injection He as <-; by split_and!; bools|].
  bools. eapply (IH d o3); [apply (og_ok _ _ Hdn)|done| | |done].
  - pose proof (unvisited_mono _ _ (og_dom _ _ Hdn)). pose proof (unvisited_set o name 1 Ha Hnone). lia.
  - intros x Hx%(og_grey _ _ Hdn). cbn in Hx. destruct (decide (x = name)) as [->|]; [by apply tc_once|].
    rewrite lookup_insert_ne in Hx by done. eapply tc_r; [by apply Hgrey|done].
Qed.

Lemma initial_order_ok : order_ok (mkOrder ∅ []).
Proof.
  constructor; cbn.
  - intros n. rewrite lookup_empty. split; [done|]. by intros ?%elem_of_nil.
  - intros n v. by rewrite lookup_empty.
  - constructor.
  - intros l1 n l2 E. by destruct l1.
Qed.

Lemma active_names_spec n : n ∈ active_names ↔ is_active active n = true.
Proof.
  unfold active_names. rewrite elem_of_sort_strings, list_elem_of_In, filter_In, <- list_elem_of_In. split; [tauto|].
  intros Ha. split; [|done]. unfold is_active in Ha. destruct (active !! n) as [b|] eqn:E; [|done].
  apply list_elem_of_fmap. exists (n, b). split; [done|by apply elem_of_map_to_list].
Qed.

(** The loop over the active names. *)
Lemma order_loop_ok names o : (∀ n, n ∈ names → is_active active n = true) →
  foldM (fun o name => visit (S (size active)) name o) (mkOrder ∅ []) names = Ok o →
  order_ok o ∧ (∀ n, n ∈ names → n ∈ or_result o) ∧ (∀ n, n ∈ or_result o → checked n)
  ∧ ∀ n, or_state o !! n ≠ Some 1.
Proof.
  intros Hact Hf. assert (order_grows (mkOrder ∅ []) o ∧ (∀ n, n ∈ names → n ∈ or_result o)
    ∧ (∀ n, n ∈ or_result o → checked n)) as (Hg&Hin&Ha).
  { revert Hf. apply (foldM_inv _ (fun dn o => order_grows (mkOrder ∅ []) o ∧ (∀ n, n ∈ dn → n ∈ or_result o)
      ∧ (∀ n, n ∈ or_result o → checked n))).
    { split_and!; [apply order_grows_refl, initial_order_ok|..]; cbn; intros n Hn; by apply elem_of_nil in Hn. }
    intros dn x o1 o2 (Hg&Hin&Ha) Hx Hv. pose proof (visit_checked _ _ _ _ (Hact x Hx) Ha Hv) as Ha'.
    apply visit_grows in Hv as [Hg' Hx']; [|apply (og_ok _ _ Hg)]. split_and!; [by eapply order_grows_trans| |done].
    destruct (og_prefix _ _ Hg') as [l El]. intros n [Hn| ->]%elem_snoc; [|done]. rewrite El. apply elem_of_app. left. by apply Hin. }
  split_and!; [apply (og_ok _ _ Hg)|done|done|]. intros n Hn%(og_grey _ _ Hg). cbn in Hn. by rewrite lookup_empty in Hn.
Qed.

Lemma order_loop_err names e : (∀ n, n ∈ names → is_active active n = true) →
  foldM (fun o name => visit (S (size active)) name o) (mkOrder ∅ []) names = Err e →
  order_fault e.
Proof.
  intros Hact. induction names as [|x names IH] using rev_ind; [done|]. rewrite foldM_app.
  destruct (foldM _ _ names) as [o1|e1] eqn:Ef; cbn -[visit].
  - destruct (order_loop_ok _ _ (fun n Hn => Hact n (proj2 (elem_of_app _ _ _) (or_introl Hn))) Ef) as (Ho&_&_&Hgrey).
    destruct (visit (S (size active)) x o1) as [|e'] eqn:Ev; [done|]. intros [= ->]. revert Ev. apply visit_err; [done|apply Hact, elem_snoc; auto| |].
    + pose proof active_set_size. pose proof (subseteq_size (unvisited o1) active_set ltac:(unfold unvisited; set_solver)). lia.
    + intros y Hy. by destruct (Hgrey y).
  - intros [= ->]. apply IH; [|done]. intros n Hn. apply Hact, elem_snoc. auto.
Qed.

(** A topological list has no cycle among its names. *)
Lemma topological_acyclic l n : topological l → NoDup l → n ∈ l → ¬ tc depends n n.
Proof.
  intros Ht Hd Hn Hc.
  assert (∀ x y, tc depends x y → ∀ l1 l2, l = l1 ++ x :: l2 → y ∈ l1) as Hlt.
  { intros x y Hxy. induction Hxy as [x y Hxy|x y z Hxy Hyz IH]; intros l1 l2 E; [by eapply Ht|].
    assert (y ∈ l1) as Hy by by eapply Ht. apply list_elem_of_split in Hy as (l3&l4&->).
    rewrite <- app_assoc in E. cbn in E. specialize (IH _ _ E). set_solver. }
  pose proof Hn as (l1&l2&E)%list_elem_of_split. pose proof (Hlt _ _ Hc _ _ E) as Hin. subst l.
  apply NoDup_app in Hd as (_&Hd&_). apply (Hd n Hin). set_solver.
Qed.


(** Bringing up the active modules in order needs: no module that depends on
    itself, and no dependency that is off or unknown. *)
Definition orderable : Prop :=
  ∀ n, is_active active n = true →
    ¬ tc depends n n ∧ ∀ d, depends n d → is_active active d = true ∧ is_Some (rg_definitions r !! d).

(** C37. The modules a site turns on are put in an order that can be followed:
    exactly when no active module depends on itself through others and every
    dependency is active and registered, [topologicalOrder] returns every
    active module once, each one after everything it depends on; otherwise it
    returns an error that names such a fault of an active module.  The
    recursion always ends. *)
Theorem topologicalOrder_correct :
  (orderable ∧ ∃ l, topologicalOrder = Ok l ∧ NoDup l ∧ topological l ∧ ∀ n, n ∈ l ↔ is_active active n = true)
  ∨ (¬ orderable ∧ ∃ e, topologicalOrder = Err e ∧ order_fault e).
Proof.
  unfold topologicalOrder.
  assert (∀ n, n ∈ active_names → is_active active n = true) as Hact by by (intros n ?%active_names_spec).
  destruct (foldM _ _ active_names) as [o|e] eqn:Ef.
  - left. destruct (order_loop_ok _ _ Hact Ef) as (Ho&Hin&Hch&_).
    assert (∀ n, n ∈ or_result o ↔ is_active active n = true) as Hl.
    { intros n. split; [by intros ?%Hch%proj1|]. by intros ?%active_names_spec%Hin. }
    split; [|by exists (or_result o); split_and!; [|apply oo_distinct|apply oo_topological|]].
    intros n Hn%Hl. split; [|apply (Hch n Hn)]. by apply (topological_acyclic (or_result o)); [apply oo_topological|apply oo_distinct|].
  - right. apply order_loop_err in Ef as He; [|done]. split; [|by exists e]. intros Hok.
    destruct e; try done; cbn in He.
    + by destruct (Hok _ (proj1 He)) as [? _]; apply H, He.
    + destruct He as (Hn&Hd&Hf). destruct (Hok _ Hn) as [_ Hds]. destruct (Hds _ Hd). congruence.
    + destruct He as (Hn&Hd&Hf). destruct (Hok _ Hn) as [_ Hds]. destruct (Hds _ Hd) as [_ [? ?]]. congruence.
Qed.
End order.
End ModRegistry.
