(* ===== verification/ModResolve.v ===== *)
(** * Resolving a site file to modules ([internal/modules/registry.go], [Resolve])

    From the module map of a site file to the modules that are on, in the order
    they are brought up, and the ones that are off.  Go ranges over the map
    [active] while it adds keys to it: which keys a pass visits, and in which
    order, is the argument [first] (for the pass that follows direct
    dependencies) and [range] (for the passes that complete it); every pass
    visits at least the keys the map had.  The theorems hold for all of them. *)

From S2P Require Export ModRegistry.

Open Scope Z_scope.

Module ModResolve.
Import Model SiteRules SiteValidate SiteConfig ModRegistry.

Record ResolvedDefinition := mkResolvedDefinition {
  rd_Definition : ModuleDefinition;
  rd_Enabled : bool;
  rd_Reason : string;
  rd_State : string;
}.

Abbreviation Configs := (gmap string ModuleConfig).

Definition defaultEnabled (p : EnablementPolicy) : bool :=
  match p with Mandatory | DefaultOn => true | DefaultOff => false end.

(** [requested.Enabled] where the module has an entry that sets it. *)
Definition requested (configs : Configs) (name : string) : option bool := configs !! name ≫= mc_Enabled.

(** ** The checks of the map *)

Definition validateModuleConfigNames (r : Registry) (configs : Configs) : result RegistryError unit :=
  eachM (fun e => fail_if (bool_decide (rg_definitions r !! e.1 = None)) (UnknownModuleName e.1)) (map_to_list configs).

Definition network_mode_check (r : Registry) (e : string * ModuleConfig) : result RegistryError unit :=
  if mc_Network e.2 == "" then Ok tt
  else match Definition_ r e.1 with
       | None => Ok tt
       | Some d =>
           _ ← fail_if (negb (df_NetworkCapable d)) (ModuleNotNetworkCapable e.1);
           fail_if (bool_decide (mc_Network e.2 ∉ allowed_modes d)) (UnsupportedMode e.1 (mc_Network e.2))
       end.
Definition validateModuleNetworkModes (r : Registry) (configs : Configs) : result RegistryError unit :=
  eachM (network_mode_check r) (map_to_list configs).

Section resolve.
Context `{GoUnicode, GoURL}.

Definition bifrost_check (configs : Configs) : result RegistryError unit :=
  match configs !! "bifrost" with
  | Some c =>
      if (default false (mc_Enabled c)) || negb (length (mc_Upstreams c) =? 0)%nat || negb (length (mc_Models c) =? 0)%nat
      then wrap ModuleBifrost (ValidateBifrostConfig c) else Ok tt
  | None => Ok tt
  end.

(** ** Which modules are on *)

(** [active] and [reasons]. *)
Record Choice := mkChoice { ch_active : Active; ch_reasons : gmap string string }.

Definition activate (c : Choice) (name reason : string) : Choice :=
  mkChoice (<[name := true]> (ch_active c)) (<[name := reason]> (ch_reasons c)).

Definition request_step (configs : Configs) (c : Choice) (d : ModuleDefinition) : result RegistryError Choice :=
  match df_Policy d, requested configs (df_Name d) with
  | Mandatory, Some false => Err (MandatoryDisabled (df_Name d))
  | Mandatory, _ => Ok (activate c (df_Name d) "mandatory")
  | _, Some true => Ok (activate c (df_Name d) "explicit")
  | _, Some false => Ok c
  | policy, None => Ok (if defaultEnabled policy then activate c (df_Name d) "default" else c)
  end.

(** An external gateway leaves no room for the managed firewall. *)
Definition external_gateway (r : Registry) (config : SiteConfig) (configs : Configs) (c : Choice) : result RegistryError Choice :=
  if gw_Mode (cf_Gateway config) == "external" then
    _ ← fail_if (bool_decide (is_Some (rg_definitions r !! "firewall"))
                 && match requested configs "firewall" with Some enabled => enabled | None => true end) FirewallNotDisabled;
    Ok (mkChoice (<["firewall" := false]> (ch_active c)) (ch_reasons c))
  else Ok c.

(** A dependency that is not on is turned on, with the reason. *)
Definition activate_dependency (c : Choice) (dependency : string) : Choice :=
  if is_active (ch_active c) dependency then c else activate c dependency "dependency".

Definition dependency_step (r : Registry) (configs : Configs) (name : string) (c : Choice) (dependency : string)
    : result RegistryError Choice :=
  _ ← fail_if (bool_decide (rg_definitions r !! dependency = None)) (DependencyNotRegistered name dependency);
  _ ← fail_if (bool_decide (requested configs dependency = Some false)) (DependencyDisabled name dependency);
  Ok (activate_dependency c dependency).

Definition first_visit (r : Registry) (configs : Configs) (c : Choice) (name : string) : result RegistryError Choice :=
  if is_active (ch_active c) name
  then foldM (dependency_step r configs name) c (df_DependsOn (definition_of r name)) else Ok c.

(** One pass of the loop that repeats while it has [changed] something. *)
Definition pass_dependency (st : Choice * bool) (dependency : string) : Choice * bool :=
  if is_active (ch_active st.1) dependency then st else (activate st.1 dependency "dependency", true).
Definition pass_visit (r : Registry) (st : Choice * bool) (name : string) : Choice * bool :=
  if is_active (ch_active st.1) name
  then foldl pass_dependency st (df_DependsOn (definition_of r name)) else st.

Context (first range : Active → list string).

Definition pass (r : Registry) (c : Choice) : Choice * bool := foldl (pass_visit r) (c, false) (range (ch_active c)).

Fixpoint complete (fuel : nat) (r : Registry) (c : Choice) : result RegistryError Choice :=
  match fuel with
  | O => Err ResolveFuel
  | S fuel => let '(c', changed) := pass r c in if changed then complete fuel r c' else Ok c'
  end.

(** Every pass but the last turns on a module that is on already, or one that a
    registered module depends on. *)
Definition complete_fuel (r : Registry) (c : Choice) : nat :=
  S (size (ch_active c) + length (concat (map df_DependsOn (Definitions r)))).

(** ** Capabilities *)

Definition provide_step (d : ModuleDefinition) (providers : gmap string string) (capability : string)
    : result RegistryError (gmap string string) :=
  _ ← match providers !! capability with
      | Some existing => fail_if (existing != df_Name d) (IncompatibleProviders capability existing (df_Name d))
      | None => Ok tt
      end;
  Ok (<[capability := df_Name d]> providers).

Definition active_definitions (r : Registry) (active : Active) : list ModuleDefinition :=
  List.filter (fun d => is_active active (df_Name d)) (Definitions r).

Definition capability_providers (r : Registry) (config : SiteConfig) (active : Active)
    : result RegistryError (gmap string string) :=
  foldM (fun providers d => foldM (provide_step d) providers (df_Provides d))
    (if gw_Mode (cf_Gateway config) == "external" then {["gateway" := "external gateway"]} else ∅)
    (active_definitions r active).

Definition capability_check (providers : gmap string string) (d : ModuleDefinition) : result RegistryError unit :=
  eachM (fun capability => fail_if (bool_decide (providers !! capability = None)) (CapabilityUnavailable (df_Name d) capability))
    (df_Requires d).

(** ** [resolve] *)

Definition off_reason (configs : Configs) (name : string) : string :=
  match requested configs name with Some _ => "explicit" | None => "default" end.

Definition resolved_modules (r : Registry) (configs : Configs) (c : Choice) (ordered : list string) : list ResolvedDefinition :=
  map (fun name => mkResolvedDefinition (definition_of r name) true (default "" (ch_reasons c !! name)) "Enabled") ordered
  ++ map (fun d => mkResolvedDefinition d false (off_reason configs (df_Name d)) "Disabled")
       (List.filter (fun d => negb (is_active (ch_active c) (df_Name d))) (Definitions r)).

Definition choose (r : Registry) (config : SiteConfig) (configs : Configs) : result RegistryError Choice :=
  c ← foldM (request_step configs) (mkChoice ∅ ∅) (Definitions r);
  c ← external_gateway r config configs c;
  c ← foldM (first_visit r configs) c (first (ch_active c));
  complete (complete_fuel r c) r c.

Definition resolve (r : Registry) (config : SiteConfig) (configs : Configs) : result RegistryError (list ResolvedDefinition) :=
  _ ← validateModuleConfigNames r configs;
  _ ← validateModuleNetworkModes r configs;
  _ ← bifrost_check configs;
  c ← choose r config configs;
  providers ← capability_providers r config (ch_active c);
  _ ← eachM (capability_check providers) (active_definitions r (ch_active c));
  ordered ← topologicalOrder r (ch_active c);
  Ok (resolved_modules r configs c ordered).

(** ** USB bindings *)

Definition usb_requirements (r : Registry) : gmap (string * string) USBRequirement :=
  foldl (fun m d => foldl (fun m q => <[(df_Name d, ur_Name q) := q]> m) m (df_USBRequirements d)) ∅ (Definitions r).

Definition usb_enabled (resolved : list ResolvedDefinition) : gmap string bool :=
  foldl (fun m x => <[df_Name (rd_Definition x) := rd_Enabled x]> m) ∅ resolved.

(** [bound], [ports], [serialIdentities] *)
Record Bound := mkBound { bo_bound : gset (string * string); bo_ports : gset string; bo_identities : gset string }.

Definition usb_identity (b : USBExportBinding) : string := ub_VendorID b +:+ ":" +:+ ub_ProductID b +:+ ":" +:+ ub_Serial b.

Definition usb_binding_step (requirements : gmap (string * string) USBRequirement) (bd : Bound) (b : USBExportBinding)
    : result RegistryError Bound :=
  let k := (ub_Module b, ub_Requirement b) in
  match requirements !! k with
  | None => Err (USBNoRequirement (ub_Module b) (ub_Requirement b))
  | Some q =>
      _ ← fail_if (bool_decide ((ub_VendorID b, ub_ProductID b) ∉ ur_AllowedIdentities q)) (USBIdentity (ub_Module b) (ub_Requirement b));
      _ ← fail_if (bool_decide (k ∈ bo_bound bd)) (USBDuplicate (ub_Module b) (ub_Requirement b));
      _ ← fail_if (bool_decide (ub_Port b ∈ bo_ports bd)) (USBPort (ub_Port b));
      identities ← (if ub_Serial b == "" then Ok (bo_identities bd)
                    else _ ← fail_if (bool_decide (usb_identity b ∈ bo_identities bd)) (USBSerial (usb_identity b));
                         Ok ({[usb_identity b]} ∪ bo_identities bd));
      Ok (mkBound ({[k]} ∪ bo_bound bd) ({[ub_Port b]} ∪ bo_ports bd) identities)
  end.

Definition validateUSBBindings (r : Registry) (config : SiteConfig) (resolved : list ResolvedDefinition) : result RegistryError unit :=
  let requirements := usb_requirements r in
  bd ← foldM (usb_binding_step requirements) (mkBound ∅ ∅ ∅) (cf_USBExports config);
  eachM (fun '((module, requirement), q) =>
      fail_if (default false (usb_enabled resolved !! module) && ur_Required q
               && bool_decide ((module, requirement) ∉ bo_bound bd)) (USBMissing module requirement))
    (map_to_list requirements).

(** ** [Resolve] *)

Definition Resolve (r : Registry) (config : SiteConfig) : result RegistryError (list ResolvedDefinition) :=
  _ ← registry_Validate r;
  resolved ← resolve r config (Map (cf_Modules config));
  _ ← validateUSBBindings r config resolved;
  Ok resolved.

(** *** Lemmas: which modules are on *)

Lemma is_active_insert (m : Active) n b x : is_active (<[n := b]> m) x = if decide (x = n) then b else is_active m x.
Proof.
  unfold is_active. destruct (decide (x = n)) as [->|]; [by rewrite lookup_insert_eq|by rewrite lookup_insert_ne].
Qed.

Lemma elem_of_active_set (m : Active) n : n ∈ active_set m ↔ is_active m n = true.
Proof.
  split; [|apply active_dom]. unfold active_set. intros (b&[Hb Ht]%map_lookup_filter_Some)%elem_of_dom. cbn in Ht. subst b.
  unfold is_active. by rewrite Hb.
Qed.

Definition on (c : Choice) (n : string) : Prop := is_active (ch_active c) n = true.

(** Nothing is turned off, and what is turned on is a dependency of something
    that is on. *)
Definition grown (r : Registry) (c c' : Choice) : Prop :=
  (∀ n, on c n → on c' n) ∧ ∀ n, on c' n → on c n ∨ ∃ m, on c' m ∧ n ∈ df_DependsOn (definition_of r m).

#[export] Instance grown_preorder r : PreOrder (grown r).
Proof.
  split; [by split; auto|]. intros c1 c2 c3 [H1 H2] [H3 H4]. split; [auto|]. intros n [Hn|]%H4; [|by right].
  destruct (H2 n Hn) as [|(m&Hm&?)]; [by left|]. right. exists m. auto.
Qed.

Lemma activate_on c n reason x : on (activate c n reason) x ↔ x = n ∨ on c x.
Proof. unfold on, activate. cbn. rewrite is_active_insert. destruct (decide (x = n)); naive_solver. Qed.

Lemma activate_grown r c n m reason : on c m → n ∈ df_DependsOn (definition_of r m) → grown r c (activate c n reason).
Proof.
  intros Hm Hn. split; intros x; rewrite activate_on; [auto|]. intros [->|Hx]; [|by left].
  right. exists m. rewrite activate_on. auto.
Qed.

Lemma first_visit_grown r configs c c' name : first_visit r configs c name = Ok c' → grown r c c'.
Proof.
  unfold first_visit. destruct (is_active _ _) eqn:Ea; [|by intros [= ->]].
  apply (foldM_inv _ (fun _ c' => grown r c c')); [done|]. intros _ d c1 c2 Hg Hd Hs. unfold dependency_step in Hs.
  apply bind_ok in Hs as ([] & _ & Hs). apply bind_ok in Hs as ([] & _ & [= <-]). etrans; [done|].
  unfold activate_dependency. destruct (is_active (ch_active c1) d); [done|]. eapply activate_grown; [by apply Hg|done].
Qed.

Lemma first_pass_grown r configs c c' names : foldM (first_visit r configs) c names = Ok c' → grown r c c'.
Proof.
  apply (foldM_inv _ (fun _ c' => grown r c c')); [done|]. intros _ n c1 c2 Hg _ Hs%first_visit_grown. by etrans.
Qed.

(** What one pass does: it grows, and a pass that changes nothing has found
    every dependency it has looked at on. *)
Record passed (r : Registry) (c : Choice) (names : list string) (st : Choice * bool) : Prop := {
  pa_grown : grown r c st.1;
  pa_same : st.2 = false → st.1 = c ∧ ∀ n d, n ∈ names → on c n → d ∈ df_DependsOn (definition_of r n) → on c d;
  pa_more : st.2 = true → ∃ n, on st.1 n ∧ ¬ on c n;
}.

Lemma pass_dependency_passed r c st n ds st' : on st.1 n → (∀ d, d ∈ ds → d ∈ df_DependsOn (definition_of r n)) →
  grown r c st.1 → (st.2 = true → ∃ n, on st.1 n ∧ ¬ on c n) → (st.2 = false → st.1 = c) →
  foldl pass_dependency st ds = st' →
  grown r c st'.1 ∧ (st'.2 = true → ∃ n, on st'.1 n ∧ ¬ on c n)
  ∧ (st'.2 = false → st.2 = false ∧ st'.1 = c ∧ ∀ d, d ∈ ds → on c d).
Proof.
  revert st. induction ds as [|d ds IH]; intros st Hn Hds Hg Hm Hs; cbn [foldl].
  { intros <-. split_and!; try done. intros Hf. split_and!; [done|by apply Hs|]. by intros d ?%elem_of_nil. }
  unfold pass_dependency at 2. destruct (is_active (ch_active st.1) d) eqn:Ed; intros Hst'.
  - destruct (IH st Hn (fun x Hx => Hds x (list_elem_of_further _ _ _ Hx)) Hg Hm Hs Hst') as (?&?&Hf). split_and!; try done.
    intros Hf'. destruct (Hf Hf') as (Hst&?&Hall). split_and!; try done. intros x [->|Hx]%elem_of_cons; [|by apply Hall].
    rewrite <- (Hs Hst). exact Ed.
  - apply IH in Hst' as (?&?&Hf); cbn.
    + split_and!; try done. intros Hf'. by destruct (Hf Hf').
    + apply activate_on. auto.
    + intros x Hx. apply Hds. by right.
    + etrans; [done|]. eapply activate_grown; [exact Hn|]. apply Hds. by left.
    + intros _. destruct (st.2) eqn:E2.
      * destruct (Hm eq_refl) as (y&Hy&?). exists y. rewrite activate_on. auto.
      * exists d. rewrite activate_on. split; [auto|]. rewrite <- (Hs eq_refl). unfold on. by rewrite Ed.
    + done.
Qed.

Lemma pass_passed r c names : passed r c names (foldl (pass_visit r) (c, false) names).
Proof.
  induction names as [|n names IH] using rev_ind.
  { constructor; try done. intros _. split; [done|]. by intros n d ?%elem_of_nil. }
  rewrite foldl_app. cbn [foldl]. revert IH. generalize (foldl (pass_visit r) (c, false) names). intros st [Hg Hs Hm].
  unfold pass_visit. destruct (is_active (ch_active st.1) n) eqn:En.
  - destruct (pass_dependency_passed r c st n (df_DependsOn (definition_of r n)) _ En (fun _ H => H) Hg Hm (fun H => proj1 (Hs H)) eq_refl)
      as (?&?&Hf). constructor; try done. intros Hf'. destruct (Hf Hf') as (Hst&?&Hall). split; [done|].
    intros m d [Hm'| ->]%elem_snoc Hon Hd; [by eapply (proj2 (Hs Hst))|by apply Hall].
  - constructor; try done. intros Hst. destruct (Hs Hst) as [Heq Hall]. split; [done|].
    intros m d [Hm'| ->]%elem_snoc Hon Hd; [by eapply Hall|]. unfold on in Hon. by rewrite <- Heq, En in Hon.
Qed.

(** *** The loop ends *)

Definition all_dependencies (r : Registry) : gset string := list_to_set (concat (map df_DependsOn (Definitions r))).

Lemma dependency_in r n d : d ∈ df_DependsOn (definition_of r n) → d ∈ all_dependencies r.
Proof.
  unfold definition_of. destruct (rg_definitions r !! n) as [x|] eqn:E; cbn; [|by intros ?%elem_of_nil]. intros Hd.
  unfold all_dependencies. rewrite elem_of_list_to_set. apply list_elem_of_In, in_concat. exists (df_DependsOn x).
  split; [|by apply list_elem_of_In]. apply in_map, list_elem_of_In. unfold Definitions. apply elem_of_sort_by.
  apply list_elem_of_fmap. exists (n, x). split; [done|by apply elem_of_map_to_list].
Qed.

Lemma grown_bound r c c' U : grown r c c' → active_set (ch_active c) ∪ all_dependencies r ⊆ U → active_set (ch_active c') ⊆ U.
Proof.
  intros [_ Hg] HU n Hn%elem_of_active_set. apply HU, elem_of_union. destruct (Hg n Hn) as [Hc|(m&_&Hd)].
  - left. by apply elem_of_active_set.
  - right. by eapply dependency_in.
Qed.

Lemma grown_size r c c' : grown r c c' → (∃ n, on c' n ∧ ¬ on c n) → (size (active_set (ch_active c)) < size (active_set (ch_active c')))%nat.
Proof.
  intros [Hg _] (n&Hn&Hn'). apply subset_size. split.
  - intros x Hx%elem_of_active_set. by apply elem_of_active_set, Hg.
  - intros Hsub. apply Hn'. by apply elem_of_active_set, Hsub, elem_of_active_set.
Qed.

Definition closed (r : Registry) (c : Choice) : Prop := ∀ n d, on c n → d ∈ df_DependsOn (definition_of r n) → on c d.

Hypothesis range_keys : ∀ (m : Active) n, is_Some (m !! n) → n ∈ range m.

Lemma on_visited c n : on c n → n ∈ range (ch_active c).
Proof. intros Hn. apply range_keys. unfold on, is_active in Hn. destruct (ch_active c !! n); [by eexists|done]. Qed.

Lemma complete_spec r c0 fuel c : grown r c0 c →
  (size (active_set (ch_active c0) ∪ all_dependencies r) < fuel + size (active_set (ch_active c)))%nat →
  ∃ c', complete fuel r c = Ok c' ∧ grown r c c' ∧ closed r c'.
Proof.
  revert c. induction fuel as [|fuel IH]; intros c Hg Hf.
  { pose proof (subseteq_size _ _ (grown_bound r c0 c _ Hg (reflexivity _))). lia. }
  cbn [complete]. unfold pass. pose proof (pass_passed r c (range (ch_active c))) as [Hp Hs Hm]. revert Hp Hs Hm.
  destruct (foldl _ _ _) as [c' [|]]; cbn; intros Hp Hs Hm.
  - pose proof (grown_size _ _ _ Hp (Hm eq_refl)). destruct (IH c') as (c2&Hc&Hg2&?); [by etrans|lia|].
    exists c2. split_and!; try done. by etrans.
  - destruct (Hs eq_refl) as [-> Hall]. exists c. split_and!; try done. intros n d Hn Hd. eapply Hall; [by apply on_visited|done..].
Qed.

Lemma all_dependencies_size r : (size (all_dependencies r) ≤ length (concat (map df_DependsOn (Definitions r))))%nat.
Proof. apply size_list_to_set_le. Qed.

Lemma complete_total r c : ∃ c', complete (complete_fuel r c) r c = Ok c' ∧ grown r c c' ∧ closed r c'.
Proof.
  apply (complete_spec r c); [done|]. unfold complete_fuel. pose proof (all_dependencies_size r).
  pose proof (size_union_alt (active_set (ch_active c)) (all_dependencies r)).
  pose proof (subseteq_size (all_dependencies r ∖ active_set (ch_active c)) (all_dependencies r) ltac:(set_solver)). lia.
Qed.

(** *** The choice *)

(** What the requests of the site file say of the modules that are on before
    dependencies are followed. *)
Record requests (configs : Configs) (ds : list ModuleDefinition) (c : Choice) : Prop := {
  rq_mandatory : ∀ d, d ∈ ds → df_Policy d = Mandatory → on c (df_Name d) ∧ requested configs (df_Name d) ≠ Some false;
  rq_asked : ∀ d, d ∈ ds → requested configs (df_Name d) = Some true → on c (df_Name d);
  rq_on : ∀ n, on c n → requested configs n ≠ Some false ∧ n ∈ map df_Name ds;
}.

Lemma requests_loop configs ds c : foldM (request_step configs) (mkChoice ∅ ∅) ds = Ok c → requests configs ds c.
Proof.
  apply foldM_inv.
  { constructor; [by intros d ?%elem_of_nil..|]. intros n Hn. unfold on, is_active in Hn. cbn in Hn. by rewrite lookup_empty in Hn. }
  intros dn d c1 c2 [Hm Ha Ho] _ Hs.
  assert ((requested configs (df_Name d) ≠ Some false ∧ ∃ reason, c2 = activate c1 (df_Name d) reason)
    ∨ (c2 = c1 ∧ df_Policy d ≠ Mandatory ∧ requested configs (df_Name d) ≠ Some true)) as [[Hr [reason ->]]|(->&Hp&Hr)].
  { unfold request_step in Hs. destruct (df_Policy d), (requested configs (df_Name d)) as [[]|]; cbn in Hs; try done;
      injection Hs as <-; first [by left; eauto|by right]. }
  - constructor; setoid_rewrite activate_on; try setoid_rewrite elem_snoc.
    + intros x [Hx| ->] Hpx; [destruct (Hm x Hx Hpx)|]; auto.
    + intros x [Hx| ->] Hax; auto.
    + intros n. rewrite map_app, elem_of_app. cbn. intros [->|Hn]; [split; [done|right; by left]|]. destruct (Ho n Hn). auto.
  - constructor; try setoid_rewrite elem_snoc.
    + intros x [Hx| ->] Hpx; [by apply Hm|done].
    + intros x [Hx| ->] Hax; [by apply Ha|done].
    + intros n Hn. rewrite map_app, elem_of_app. destruct (Ho n Hn). auto.
Qed.

Definition external (config : SiteConfig) : Prop := gw_Mode (cf_Gateway config) = "external".

Lemma external_gateway_ok r config configs c c' : requests configs (Definitions r) c →
  (∀ d, d ∈ Definitions r → rg_definitions r !! df_Name d = Some d) →
  external_gateway r config configs c = Ok c' → requests configs (Definitions r) c'.
Proof.
  intros [Hm Ha Ho] Hkey. unfold external_gateway. destruct (_ == "external"); [|by intros [= ->]].
  intros Hs. apply bind_ok in Hs as ([] & Hf%fail_if_ok & [= <-]).
  assert (∀ d, d ∈ Definitions r → df_Name d = "firewall" → requested configs "firewall" = Some false) as Hoff.
  { intros d Hd En. apply Hkey in Hd. rewrite En in Hd. rewrite bool_decide_eq_true_2 in Hf by (rewrite Hd; eauto).
    cbn in Hf. by destruct (requested configs "firewall") as [[]|]. }
  assert (∀ n b, on (mkChoice (<["firewall" := b]> (ch_active c)) (ch_reasons c)) n ↔ if decide (n = "firewall") then b = true else on c n) as Hon.
  { intros n b. unfold on. cbn. rewrite is_active_insert. by destruct (decide _). }
  constructor; setoid_rewrite Hon.
  - intros d Hd Hp. destruct (Hm d Hd Hp) as [? Hr]. split; [|done]. destruct (decide (df_Name d = "firewall")) as [E|]; [|done].
    rewrite E, (Hoff d Hd E) in Hr. done.
  - intros d Hd Hr. destruct (decide (df_Name d = "firewall")) as [E|]; [|by apply Ha].
    rewrite E, (Hoff d Hd E) in Hr. done.
  - intros n. destruct (decide (n = "firewall")) as [->|]; [done|]. apply Ho.
Qed.

(** Which modules are on when the requests have been followed. *)
Record chosen (r : Registry) (configs : Configs) (c : Choice) : Prop := {
  cn_closed : closed r c;
  cn_mandatory : ∀ d, d ∈ Definitions r → df_Policy d = Mandatory → on c (df_Name d);
  cn_asked : ∀ d, d ∈ Definitions r → requested configs (df_Name d) = Some true → on c (df_Name d);
  cn_on : ∀ n, on c n → (requested configs n ≠ Some false ∧ n ∈ map df_Name (Definitions r))
            ∨ ∃ m, on c m ∧ n ∈ df_DependsOn (definition_of r m);
}.

(** A registry is keyed by the names of its definitions. *)
Definition keyed (r : Registry) : Prop := ∀ n d, rg_definitions r !! n = Some d → df_Name d = n.

Lemma Definitions_spec r d : d ∈ Definitions r ↔ ∃ n, rg_definitions r !! n = Some d.
Proof.
  unfold Definitions. rewrite elem_of_sort_by, list_elem_of_fmap. split.
  - intros ([n x]&->&Hin%elem_of_map_to_list). by exists n.
  - intros (n&Hn). exists (n, d). split; [done|]. by apply elem_of_map_to_list.
Qed.
Lemma keyed_lookup r d : keyed r → d ∈ Definitions r → rg_definitions r !! df_Name d = Some d.
Proof. intros Hk (n&Hn)%Definitions_spec. by rewrite (Hk n d Hn). Qed.

Lemma choose_chosen r config configs c : keyed r → choose r config configs = Ok c → chosen r configs c.
Proof.
  intros Hk Hs. unfold choose in Hs. apply bind_ok in Hs as (c1 & H1%requests_loop & Hs).
  apply bind_ok in Hs as (c2 & H2 & Hs). apply bind_ok in Hs as (c3 & H3%first_pass_grown & Hs).
  apply external_gateway_ok in H2 as [Hm Ha Ho]; [|done|by intros d ?%keyed_lookup].
  destruct (complete_total r c3) as (c4&Hc&Hg&Hcl). rewrite Hc in Hs. injection Hs as <-.
  assert (grown r c2 c4) as [Hmono Hnew] by by etrans.
  constructor; [done| | |].
  - intros d Hd Hp. apply Hmono, Hm; done.
  - intros d Hd Hp. apply Hmono, Ha; done.
  - intros n [Hn|]%Hnew; [left; by apply Ho|by right].
Qed.

(** A choice is always found: the loop of [resolve] ends. *)
Lemma choose_no_fuel r config configs : choose r config configs ≠ Err ResolveFuel.
Proof.
  unfold choose. destruct (foldM (request_step configs) _ _) as [c1|e] eqn:E1; cbn -[complete complete_fuel].
  2:{ intros [= ->]. apply foldM_err in E1 as (dn&d&c&_&_&Hs). unfold request_step in Hs.
      destruct (df_Policy d), (requested configs (df_Name d)) as [[]|]; cbn in Hs; discriminate Hs. }
  destruct (external_gateway r config configs c1) as [c2|e] eqn:E2; cbn -[complete complete_fuel].
  2:{ intros [= ->]. unfold external_gateway, fail_if in E2. by repeat case_match; cbn in *; simplify_eq. }
  destruct (foldM (first_visit r configs) c2 _) as [c3|e] eqn:E3; cbn -[complete complete_fuel].
  2:{ intros [= ->]. apply foldM_err in E3 as (dn&n&c&_&_&Hs). unfold first_visit in Hs. destruct (is_active _ _); [|done].
      apply foldM_err in Hs as (dn'&d&c'&_&_&Hs). unfold dependency_step, fail_if in Hs.
      by repeat case_match; cbn in *; simplify_eq. }
  destruct (complete_total r c3) as (c4&->&_). done.
Qed.

(** *** Capabilities *)

(** The table of providers after the (module, capability) pairs of [pairs]. *)
Record provided (init : gmap string string) (pairs : list (string * string)) (m : gmap string string) : Prop := {
  pv_kept : ∀ n c, (n, c) ∈ pairs → m !! c = Some n;
  pv_from : ∀ c n, m !! c = Some n → (n, c) ∈ pairs ∨ init !! c = Some n;
}.

Definition provider_pairs (ds : list ModuleDefinition) : list (string * string) :=
  ds ≫= fun d => map (fun c => (df_Name d, c)) (df_Provides d).

Lemma provide_step_ok init pairs m d c m' : provided init pairs m → provide_step d m c = Ok m' →
  provided init (pairs ++ [(df_Name d, c)]) m'.
Proof.
  intros [Hk Hf] Hs. unfold provide_step in Hs. apply bind_ok in Hs as ([] & Hc & [= <-]).
  assert (∀ n, m !! c = Some n → n = df_Name d) as Hsame.
  { intros n Hn. rewrite Hn in Hc. apply fail_if_ok in Hc. by bools. }
  constructor.
  - intros n x [Hin|[= -> ->]]%elem_snoc; [|by rewrite lookup_insert_eq]. destruct (decide (x = c)) as [->|].
    + rewrite lookup_insert_eq. f_equal. symmetry. by apply Hsame, Hk.
    + rewrite lookup_insert_ne by done. by apply Hk.
  - intros x n. rewrite elem_snoc. destruct (decide (x = c)) as [->|].
    + rewrite lookup_insert_eq. intros [= <-]. auto.
    + rewrite lookup_insert_ne by done. intros [?|?]%Hf; auto.
Qed.

Lemma provided_loop init ds m : foldM (fun providers d => foldM (provide_step d) providers (df_Provides d)) init ds = Ok m →
  provided init (provider_pairs ds) m.
Proof.
  apply (foldM_inv _ (fun ds m => provided init (provider_pairs ds) m)).
  { constructor; [by intros n c ?%elem_of_nil|auto]. }
  intros dn d m1 m2 Hp _ Hs. unfold provider_pairs. rewrite bind_app. cbn. rewrite app_nil_r. revert Hs.
  apply (foldM_inv _ (fun cs m => provided init (provider_pairs dn ++ map (fun c => (df_Name d, c)) cs) m)).
  { by rewrite app_nil_r. }
  intros cs c m3 m4 Hp' _ Hs. rewrite map_app, app_assoc. by eapply provide_step_ok.
Qed.

Lemma provider_pairs_spec ds n c : (n, c) ∈ provider_pairs ds ↔ ∃ d, d ∈ ds ∧ n = df_Name d ∧ c ∈ df_Provides d.
Proof.
  unfold provider_pairs. rewrite list_elem_of_bind. split.
  - intros (d&Hin&Hd). apply list_elem_of_fmap in Hin as (x&[= -> ->]&?). eauto.
  - intros (d&Hd&->&Hc). exists d. split; [|done]. apply list_elem_of_fmap. eauto.
Qed.

(** An active provider of a capability that is required is a dependency. *)
Lemma provider_step_elem c ds d n : n ∈ provider_step c ds d ↔ n ∈ ds ∨ (n = df_Name d ∧ c ∈ df_Provides d).
Proof.
  unfold provider_step. case_bool_decide; [|cbn; naive_solver]. case_bool_decide; cbn.
  - rewrite elem_snoc. naive_solver.
  - destruct (decide (n = df_Name d)) as [->|]; [|naive_solver]. split; [by left|]. intros _. by destruct (decide (df_Name d ∈ ds)).
Qed.
Lemma provider_loop_elem c ds cs n : n ∈ foldl (provider_step c) ds cs ↔ n ∈ ds ∨ ∃ d, d ∈ cs ∧ n = df_Name d ∧ c ∈ df_Provides d.
Proof.
  revert ds. induction cs as [|d cs IH]; intros ds; cbn.
  - split; [auto|]. by intros [?|(d&?%elem_of_nil&_)].
  - rewrite IH, provider_step_elem. setoid_rewrite elem_of_cons. naive_solver.
Qed.

Lemma depends_spec r active n d : depends r active n d ↔
  d ∈ df_DependsOn (definition_of r n)
  ∨ ∃ c x, c ∈ df_Requires (definition_of r n) ∧ x ∈ Definitions r ∧ is_active active (df_Name x) = true
      ∧ df_Name x ≠ df_Name (definition_of r n) ∧ d = df_Name x ∧ c ∈ df_Provides x.
Proof.
  unfold depends, dependencies, effectiveDependencies. rewrite elem_of_sort_strings.
  generalize (df_DependsOn (definition_of r n)). induction (df_Requires (definition_of r n)) as [|c cs IH]; intros ds; cbn [foldl].
  { split; [auto|]. by intros [?|(c&x&?%elem_of_nil&_)]. }
  rewrite IH, provider_loop_elem. setoid_rewrite list_elem_of_In at 2. setoid_rewrite filter_In.
  setoid_rewrite andb_true_iff. setoid_rewrite <- list_elem_of_In. setoid_rewrite elem_of_cons. split.
  - intros [[?|(x&(Hx&Ha&Hne)&->&?)]|(c'&x&?&?)]; [by left|right..].
    + exists c, x. bools. naive_solver.
    + exists c', x. naive_solver.
  - intros [?|(c'&x&[->|Hc]&Hx&Ha&Hne&->&?)]; [by left; left| |right; naive_solver].
    left. right. exists x. split_and!; try done. apply negb_true_iff. by apply bool_decide_eq_false.
Qed.

(** *** The resolved list *)

Lemma Definitions_names_NoDup r : keyed r → NoDup (map df_Name (Definitions r)).
Proof.
  intros Hk. unfold Definitions. rewrite sort_by_perm.
  assert (map df_Name (map_to_list (rg_definitions r)).*2 = (map_to_list (rg_definitions r)).*1) as ->.
  { rewrite map_map. apply map_ext_in. intros [n d] Hin%list_elem_of_In%elem_of_map_to_list. by apply Hk. }
  apply NoDup_fst_map_to_list.
Qed.

Definition rd_name (x : ResolvedDefinition) : string := df_Name (rd_Definition x).
Definition on_names (l : list ResolvedDefinition) : list string := map rd_name (List.filter rd_Enabled l).

Lemma keyed_definition r n : keyed r → is_Some (rg_definitions r !! n) → df_Name (definition_of r n) = n.
Proof. intros Hk [d Hd]. unfold definition_of. rewrite Hd. by apply Hk. Qed.

Lemma resolved_names r configs c ordered : keyed r → (∀ n, n ∈ ordered → is_Some (rg_definitions r !! n)) →
  on_names (resolved_modules r configs c ordered) = ordered
  ∧ map rd_name (resolved_modules r configs c ordered)
    = ordered ++ map df_Name (List.filter (fun d => negb (is_active (ch_active c) (df_Name d))) (Definitions r)).
Proof.
  intros Hk Hr. unfold on_names, resolved_modules.
  assert (∀ A (f : A → ResolvedDefinition) (b : bool) xs, (∀ x, rd_Enabled (f x) = b) →
    List.filter rd_Enabled (map f xs) = if b then map f xs else []) as Hf.
  { intros A f b xs Hb. induction xs as [|x xs IH]; cbn; [by destruct b|]. rewrite Hb, IH. by destruct b. }
  assert (map (fun n => df_Name (definition_of r n)) ordered = ordered) as Hnames.
  { rewrite <- (map_id ordered) at 2. apply map_ext_in. intros n Hn%list_elem_of_In. by apply keyed_definition, Hr. }
  rewrite List.filter_app, (Hf _ _ true), (Hf _ _ false), app_nil_r, map_app, !map_map by done.
  split; [exact Hnames|]. f_equal. exact Hnames.
Qed.

Lemma active_definitions_spec r active d : d ∈ active_definitions r active ↔ d ∈ Definitions r ∧ is_active active (df_Name d) = true.
Proof. unfold active_definitions. by rewrite !list_elem_of_In, filter_In. Qed.

(** What a resolved list says, for the modules in bring-up order. *)
Record resolved_good (r : Registry) (config : SiteConfig) (names : list string) : Prop := {
  rv_order : ∀ l1 n l2, names = l1 ++ n :: l2 →
    (∀ d, d ∈ df_DependsOn (definition_of r n) → d ∈ l1)
    ∧ ∀ c, c ∈ df_Requires (definition_of r n) →
        (external config ∧ c = "gateway") ∨ ∃ p, p ∈ l1 ++ [n] ∧ c ∈ df_Provides (definition_of r p);
  rv_provider : ∀ n1 n2 c, n1 ∈ names → n2 ∈ names →
    c ∈ df_Provides (definition_of r n1) → c ∈ df_Provides (definition_of r n2) → n1 = n2;
  rv_mandatory : ∀ d, d ∈ Definitions r → df_Policy d = Mandatory → df_Name d ∈ names;
  rv_asked : ∀ d, d ∈ Definitions r → requested (Map (cf_Modules config)) (df_Name d) = Some true → df_Name d ∈ names;
  rv_refused : ∀ n, n ∈ names → requested (Map (cf_Modules config)) n = Some false →
    ∃ m, m ∈ names ∧ n ∈ df_DependsOn (definition_of r m);
}.

Lemma definition_of_in r n : is_Some (rg_definitions r !! n) → definition_of r n ∈ Definitions r.
Proof. intros [d Hd]. apply Definitions_spec. exists n. unfold definition_of. by rewrite Hd. Qed.

Lemma resolve_good r config c providers ordered : keyed r → chosen r (Map (cf_Modules config)) c →
  capability_providers r config (ch_active c) = Ok providers →
  eachM (capability_check providers) (active_definitions r (ch_active c)) = Ok tt →
  topologicalOrder r (ch_active c) = Ok ordered →
  (∀ n, n ∈ ordered → is_Some (rg_definitions r !! n)) ∧ NoDup ordered ∧ (∀ n, n ∈ ordered ↔ on c n)
  ∧ resolved_good r config ordered.
Proof.
  intros Hk [Hcl Hm Ha Hon] [Hpk Hpf]%provided_loop Hcap%eachM_ok Hord.
  destruct (topologicalOrder_correct r (ch_active c)) as [(Hable&l&Hl&Hnd&Htop&Hin)|(_&e&He&_)]; [|congruence].
  rewrite Hl in Hord. injection Hord as ->.
  assert (∀ n, n ∈ ordered → is_Some (rg_definitions r !! n)) as Hreg.
  { intros n Hn%Hin. destruct (Hon n Hn) as [[_ Hd]|(m&Hm'&Hd)].
    - apply list_elem_of_fmap in Hd as (d&->&Hd). exists d. by apply keyed_lookup.
    - destruct (Hable m Hm') as [_ Hdep]. apply (Hdep n). apply depends_spec. by left. }
  assert (∀ n, n ∈ ordered → definition_of r n ∈ active_definitions r (ch_active c) ∧ df_Name (definition_of r n) = n) as Hdef.
  { intros n Hn. rewrite active_definitions_spec, keyed_definition by auto. split_and!; [by apply definition_of_in, Hreg|by apply Hin|done]. }
  split_and!; [done|done|done|]. constructor.
  - intros l1 n l2 E. assert (n ∈ ordered) as Hn by (rewrite E; set_solver). split.
    { intros d Hd. eapply Htop; [exact E|]. apply depends_spec. by left. }
    intros cap Hc. destruct (Hdef n Hn) as [Hd En]. rewrite Forall_forall in Hcap. specialize (Hcap _ Hd).
    unfold capability_check in Hcap. apply eachM_ok in Hcap. rewrite Forall_forall in Hcap. specialize (Hcap cap Hc).
    apply fail_if_ok in Hcap. destruct (providers !! cap) as [p|] eqn:Ep; [|done]. destruct (Hpf _ _ Ep) as [Hp|Hi].
    + right. apply provider_pairs_spec in Hp as (d&[Hdd Hda]%active_definitions_spec&->&Hcp). exists (df_Name d).
      assert (definition_of r (df_Name d) = d) as Hdd' by by unfold definition_of; rewrite keyed_lookup.
      rewrite Hdd'. split; [|done]. apply elem_snoc. destruct (decide (df_Name d = n)) as [->|Hne]; [by right|left].
      eapply Htop; [exact E|]. apply depends_spec. right. exists cap, d. by rewrite En.
    + left. unfold external. destruct (gw_Mode _ == "external") eqn:Eg; bools; [|by rewrite lookup_empty in Hi].
      by apply lookup_singleton_Some in Hi as [<- _].
  - intros n1 n2 cap H1 H2 Hc1 Hc2. destruct (Hdef n1 H1) as [Hd1 E1], (Hdef n2 H2) as [Hd2 E2].
    assert (providers !! cap = Some n1) as Hp1 by (apply Hpk, provider_pairs_spec; eauto).
    assert (providers !! cap = Some n2) as Hp2 by (apply Hpk, provider_pairs_spec; eauto). congruence.
  - intros d Hd Hp. by apply Hin, Hm.
  - intros d Hd Hp. by apply Hin, Ha.
  - intros n Hn Hr. apply Hin in Hn. destruct (Hon n Hn) as [[? _]|(m&Hm'&Hd)]; [done|]. exists m. split; [by apply Hin|done].
Qed.

(** The names that are on and the ones that are off are all the names. *)
Lemma resolved_names_perm r c ordered : keyed r → (∀ n, n ∈ ordered → is_Some (rg_definitions r !! n)) →
  NoDup ordered → (∀ n, n ∈ ordered ↔ on c n) →
  ordered ++ map df_Name (List.filter (fun d => negb (is_active (ch_active c) (df_Name d))) (Definitions r))
  ≡ₚ map df_Name (Definitions r).
Proof.
  intros Hk Hreg Hnd Hin. apply NoDup_Permutation.
  - apply NoDup_app. split_and!; [done| |].
    + intros n Hn%Hin (d&->&Hd)%list_elem_of_fmap. rewrite list_elem_of_In, filter_In in Hd. destruct Hd as [_ Hd].
      unfold on in Hn. by rewrite Hn in Hd.
    + eapply sublist_NoDup; [apply Definitions_names_NoDup, Hk|].
      clear. induction (Definitions r) as [|d ds IH]; cbn; [constructor|]. destruct (negb _); cbn; by constructor.
  - by apply Definitions_names_NoDup.
  - intros n. rewrite elem_of_app. split.
    + intros [Hn|(d&->&Hd)%list_elem_of_fmap].
      * rewrite <- (keyed_definition r n) by auto. apply list_elem_of_fmap. eexists. split; [done|]. by apply definition_of_in, Hreg.
      * rewrite list_elem_of_In, filter_In, <- list_elem_of_In in Hd. apply list_elem_of_fmap. eexists. by split; [|apply Hd].
    + intros (d&->&Hd)%list_elem_of_fmap. destruct (is_active (ch_active c) (df_Name d)) eqn:Ea; [left; by apply Hin|right].
      apply list_elem_of_fmap. exists d. split; [done|]. rewrite list_elem_of_In, filter_In, <- list_elem_of_In. by rewrite Ea.
Qed.
End resolve.

(** The whole of [Resolve]. *)
Lemma Resolve_good `{GoUnicode, GoURL} (first range : Active → list string) r config l :
  (∀ (m : Active) n, is_Some (m !! n) → n ∈ range m) → keyed r →
  Resolve first range r config = Ok l →
  map rd_name l ≡ₚ map df_Name (Definitions r) ∧ resolved_good r config (on_names l).
Proof.
  intros Hrange Hk Hs. unfold Resolve in Hs. apply bind_ok in Hs as ([] & _ & Hs). apply bind_ok in Hs as (l' & Hr & Hs).
  apply bind_ok in Hs as ([] & _ & [= <-]). unfold resolve in Hr.
  apply bind_ok in Hr as ([] & _ & Hr). apply bind_ok in Hr as ([] & _ & Hr). apply bind_ok in Hr as ([] & _ & Hr).
  apply bind_ok in Hr as (c & Hc%choose_chosen & Hr); [|done..]. apply bind_ok in Hr as (providers & Hp & Hr).
  apply bind_ok in Hr as ([] & Hcap & Hr). apply bind_ok in Hr as (ordered & Ho & [= <-]).
  eapply resolve_good in Ho as (Hreg&Hnd&Hin&Hgood); [|done..].
  edestruct resolved_names as [Eon Eall]; [exact Hk|exact Hreg|]. rewrite Eon, Eall.
  split; [by eapply resolved_names_perm|done].
Qed.

(** ** Properties *)

(** Resolving a site file accounts for every module and never brings one up
    too early: whatever order Go ranges over the map in, the result lists each
    registered module once; the modules that are on come in an order where
    each one follows its dependencies and the provider of each capability it
    requires (or the gateway is external), no two of them provide the same
    capability, every mandatory or requested module is among them, and a module
    the file turns off is on only as a dependency of one that is. *)
Theorem Resolve_sound `{GoUnicode, GoURL} (first range : Active → list string) r config l :
  (∀ (m : Active) n, is_Some (m !! n) → n ∈ range m) → keyed r →
  Resolve first range r config = Ok l →
  map rd_name l ≡ₚ map df_Name (Definitions r) ∧ resolved_good r config (on_names l).
Proof. apply Resolve_good. Qed.

(** ** Witnesses and examples *)

Definition key_order (m : Active) : list string := (map_to_list m).*1.
Lemma key_order_keys (m : Active) n : is_Some (m !! n) → n ∈ key_order m.
Proof. intros [b Hb]. apply list_elem_of_fmap. exists (n, b). split; [done|]. by apply elem_of_map_to_list. Qed.

Lemma first_party_keyed : keyed FirstPartyRegistry.
Proof.
  intros n d Hd. apply elem_of_list_to_map_2, list_elem_of_fmap in Hd as (x&E&_). by injection E as -> ->.
Qed.

Definition resolve_sample (config : SiteConfig) : result RegistryError (list ResolvedDefinition) :=
  @Resolve ascii_only plain_url key_order key_order FirstPartyRegistry config.

Example resolve_first_party :
  (map (fun x => (rd_name x, rd_Reason x)) <$> resolve_sample (sample_config []))
  = Ok [("firewall", "default"); ("dns", "mandatory"); ("monitoring", "explicit"); ("tailnet-router", "explicit"); ("bifrost", "default")].
Proof. by vm_compute. Qed.

(** A dependency of a dependency that the file turns off is refused or turned
    on, depending on the order in which Go ranges over [active]: the pass that
    refuses it may or may not visit a key that it has added itself. *)
Example off_depends_on_order :
  let d name policy depends := mkDefinition name "" "1" policy depends [] [] 0 0 ZoneTypeServers [] [] [] 0 false [] "" in
  let r := NewRegistry [d "a" DefaultOn ["b"]; d "b" DefaultOff ["c"]; d "c" DefaultOff []] in
  let configs := {["c" := toggle (Some false)]} : Configs in
  let chosen_with first := (fun c => (map_to_list (ch_active c)).*1) <$> choose first key_order r (sample_config []) configs in
  chosen_with (fun _ => ["a"; "b"]) = Err (DependencyDisabled "b" "c") ∧ is_ok (chosen_with (fun _ => ["a"])) = true.
Proof. by vm_compute. Qed.

Theorem Resolve_sound_witness : ∃ l, resolve_sample (sample_config []) = Ok l
  ∧ on_names l = ["firewall"; "dns"; "monitoring"; "tailnet-router"]
  ∧ resolved_good FirstPartyRegistry (sample_config []) (on_names l).
Proof.
  destruct (resolve_sample (sample_config [])) as [l|e] eqn:E.
  - exists l. split; [reflexivity|]. split.
    + revert E. vm_compute. intros E. injection E as <-. reflexivity.
    + apply (@Resolve_sound ascii_only plain_url key_order key_order FirstPartyRegistry (sample_config []) l key_order_keys first_party_keyed E).
  - exfalso. revert E. vm_compute. discriminate.
Defined.
End ModResolve.
