(* ===== verification/ModCompose.v ===== *)
(** * Composing the canonical site ([internal/modules/compose.go] and
    [declarations.go], [artifacts.ArtifactFor])

    [Compose] resolves the modules of a site file, projects the guests each one
    owns into the site, derives what each module declares (artifact, secrets,
    network intents, volumes, certificates, monitoring), and validates the
    result.  The digest of an artifact's build inputs, a hash over files the
    binary embeds, is the parameter [definitionSHA256].  Beyond twelve elements
    [sort.Slice] may move equal keys; the sorts here are stable, and the lists
    they are used on have distinct keys when the site is valid. *)

From S2P Require Export ModResolve.

Open Scope Z_scope.

Module ModCompose.
Import Model SiteRules SiteValidate SiteConfig ModRegistry ModResolve.

(** ** Artifacts *)

Record ArtifactDefinition := mkArtifactDefinition {
  ad_Name : string;
  ad_ArtifactName : string;
  ad_BuildTarget : string;
  ad_Version : string;
  ad_Kind : string;
  ad_Inputs : list string;
}.

Definition BaseName : string := "boetticher-base".
Definition BaseVersion : string := "0.1.0".
Definition ModuleVersion : string := "1.0.0".
Definition Architecture : string := "amd64".
Definition commonDefinitionInputs : list string :=
  ["images/base"; "cmd/artifact-identity"; "scripts/build-images.sh"; "scripts/smoke-appliance.sh"].

Definition artifact_definitions : list ArtifactDefinition := [
  mkArtifactDefinition "base" BaseName "image-base" BaseVersion "lxc" commonDefinitionInputs;
  mkArtifactDefinition "dns" "boetticher-dns-blocky" "image-dns-blocky" ModuleVersion "lxc"
    (commonDefinitionInputs ++ ["images/dns"; "internal/dns"; "internal/model"; "internal/modules"; "cmd/render-blocky-config"]);
  mkArtifactDefinition "firewall" "boetticher-firewall" "image-firewall" ModuleVersion "qemu"
    (commonDefinitionInputs ++ ["images/firewall"; "cmd/boetticher-firewall-telemetry"; "internal/firewalltelemetry";
       "internal/network"; "scripts/smoke-firewall-image.sh"]);
  mkArtifactDefinition "tailnet-router" "boetticher-tailnet-router" "image-tailnet-router" ModuleVersion "lxc"
    (commonDefinitionInputs ++ ["images/tailnet-router"; "internal/model"; "internal/modules"]);
  mkArtifactDefinition "bifrost" "boetticher-bifrost" "image-bifrost" ModuleVersion "lxc"
    (commonDefinitionInputs ++ ["images/bifrost"; "internal/bifrost"; "cmd/boetticher-bifrost"; "internal/model"; "internal/modules"])].

(** The digest of a definition's inputs, when they can be read. *)
Class BuildBundle := { definitionSHA256 : ArtifactDefinition → option string }.

Inductive ComposeError :=
| Registry_ (e : RegistryError)
| Placement (module : string) (e : ModelError)
| NoArtifact (module : string) | ArtifactHash (module : string) | NoDeclaration (module : string)
| GatusEndpoint (guest : string)
| Canonical (e : SiteError).

Section compose.
Context `{GoUnicode, GoURL, BuildBundle}.

Definition ArtifactFor (module : string) : result ComposeError Artifact :=
  match List.find (fun d => ad_Name d == module) artifact_definitions with
  | None => Err (NoArtifact module)
  | Some d =>
      match definitionSHA256 d with
      | None => Err (ArtifactHash module)
      | Some digest =>
          Ok (mkArtifact (if ad_ArtifactName d == "" then "boetticher-" +:+ module else ad_ArtifactName d)
                (ad_Version d) Architecture (ad_Kind d) digest "")
      end
  end.

(** ** Guests *)

Definition IsEnabled (modules : list ResolvedModule) (name : string) : bool :=
  match List.find (fun m => rm_Name m == name) modules with Some m => rm_Enabled m | None => false end.

Definition moduleComponentReference (s : Site) (name : string) : option Component :=
  List.find (fun c => c_Name c == name) (PlatformComponents s).

Definition guest_tags (module : string) (own : list string) : list string :=
  sort_strings (own ++ (if bool_decide (module ∈ ["airvpn"; "tailnet-router"]) then ["monitoring-agent"] else [])
    ++ ["boetticher"; "managed"; "module"; "module-" +:+ module; ModuleOwnershipTag module; "backup"]).

(** What a module makes of one of its guests, in the zone it is placed in. *)
Definition project_guest (d : ModuleDefinition) (zone : option string) (c : Component) : Component :=
  mkComponent (c_Name c) (c_VMID c) (c_Hostname c) (default (c_Zone c) zone) (c_Address c) (c_Role c) (c_DNSAliases c)
    (c_URL c) "labadmin" 22 (c_Monitoring c) (c_Backup c) (guest_tags (df_Name d) (c_Tags c)) (c_MTLS c)
    (c_SSHManaged c) (c_JumpAllowed c) (c_ProductOwned c) (df_Name d) true (c_MAC c).

Definition placement (d : ModuleDefinition) (s : Site) : result ComposeError (option string) :=
  if df_ZoneType d == ZoneTypeOther "" then Ok None
  else zone ← wrap (Placement (df_Name d)) (ZoneForType s (df_ZoneType d)); Ok (Some (z_Name zone)).

(** A definition without guests does not look for its zone. *)
Definition moduleGuestProjections (d : ModuleDefinition) (s : Site) : result ComposeError (list Component) :=
  match df_Guests d with
  | [] => Ok []
  | guests => zone ← placement d s; Ok (map (project_guest d zone) guests)
  end.

Definition enabled_definitions (resolved : list ResolvedDefinition) : list ModuleDefinition :=
  map rd_Definition (List.filter rd_Enabled resolved).

Definition composeComponents (base : list Component) (resolved : list ResolvedDefinition) (s : Site)
    : result ComposeError (list Component) :=
  components ← foldM (fun cs d => projected ← moduleGuestProjections d s; Ok (cs ++ projected)) base (enabled_definitions resolved);
  Ok (sort_by c_Name components).

(** ** Declarations *)

Definition persistent_state (guest name path kind : string) (sensitive : bool) : PersistentState :=
  mkPersistent name guest path kind true sensitive "retain-across-rootfs-replacement".
Definition persistentFor (module guest : string) : list PersistentState :=
  persistent_state guest "ssh-identity" "/var/lib/boetticher/identity/ssh" "endpoint-identity" true ::
  (if module == "dns" then [persistent_state guest "powerdns-database" "/var/lib/powerdns" "application-database" true]
   else if module == "firewall" then
     [persistent_state guest "kea-leases" "/var/lib/kea" "lease-state" false;
      persistent_state guest "firewall-telemetry" "/var/lib/boetticher/firewall-telemetry" "firewall-telemetry-database" false]
   else if module == "tailnet-router" then [persistent_state guest "tailscale-state" "/var/lib/tailscale" "node-identity" true]
   else if module == "bifrost" then [persistent_state guest "tls-identity" "/var/lib/boetticher/identity/tls" "endpoint-tls" true]
   else []).

Definition volumesFor (module guest : string) : list PersistentVolume :=
  let volume name mount size := mkVolume name module guest size mount "default" true "" in
  volume "ssh-identity" "/var/lib/boetticher/identity/ssh" 1 ::
  (if module == "dns" then [volume "powerdns-database" "/var/lib/powerdns" 8]
   else if module == "firewall" then
     [volume "kea-leases" "/var/lib/kea" 4; volume "firewall-telemetry" "/var/lib/boetticher/firewall-telemetry" 2]
   else if module == "tailnet-router" then [volume "tailscale-state" "/var/lib/tailscale" 4]
   else if module == "bifrost" then [volume "tls-identity" "/var/lib/boetticher/identity/tls" 1]
   else []).

Definition secret (name purpose consumer generation delivery lifecycle : string) (persistent : bool) : SecretDeclaration :=
  mkSecretDeclaration name purpose consumer generation "replaceable" delivery lifecycle persistent.
Definition ephemeral : string := "systemd-credential-to-ephemeral-secret-file".
Definition tsig_secret : SecretDeclaration :=
  secret "ddns_tsig_secret" "authenticated DHCP DNS updates" "kea-dhcp-ddns-server" "random" ephemeral "runtime" false.

Definition egress (source destination endpoint protocol port purpose : string) : NetworkIntent :=
  mkIntent source destination endpoint protocol [port] "egress" purpose.

Definition appendUniqueSecret (values : list SecretDeclaration) (s : SecretDeclaration) : list SecretDeclaration :=
  if existsb (fun x => sd_Name x == sd_Name s) values then values else values ++ [s].

(** The lists a declaration is built of, beside the ones of its guests. *)
Record Extra := mkExtra {
  ex_Secrets : list SecretDeclaration;
  ex_Intents : list NetworkIntent;
  ex_DNS : list ModuleDNSRecord;
  ex_Certificates : list CertificateRequest;
  ex_Monitoring : list MonitoringDeclaration;
  ex_Security : GuestSecurity;
  ex_Routes : list string;
  ex_Return : list string;
}.
Definition no_security : GuestSecurity := mkSecurity false [] [].

Definition two_digits (n : Z) : string := if n <? 10 then "0" +:+ format_uint n else format_uint n.
Definition tailscaleDERPRegionCount : nat := 28.
Definition derp_intent (region : Z) : NetworkIntent :=
  egress "lab-tailnet-01" ("tailscale-derp-" +:+ two_digits region)
    ("https://derp" +:+ format_uint region +:+ "-all.tailscale.com") "tcp" "443" "Tailscale DERP region operation".

Definition journal_intent (s : Site) (source : string) : list NetworkIntent :=
  if IsEnabled (s_Modules s) "logging"
  then [egress source ("logs." +:+ n_Domain (s_Network s)) "" "tcp" "19532" "native journal upload"] else [].

Definition tailnet_intents (s : Site) : list NetworkIntent :=
  let via component destination purpose :=
    match moduleComponentReference s component with
    | Some _ => [egress "lab-tailnet-01" destination "" "tcp" "443" purpose]
    | None => []
    end in
  [egress "lab-tailnet-01" "dns" "" "tcp/udp" "53" "Tailscale router DNS resolution";
   egress "lab-tailnet-01" "dns" "" "udp" "123" "Tailscale router time synchronisation";
   egress "lab-tailnet-01" "tailscale-control-plane" "https://controlplane.tailscale.com" "tcp" "443"
     "Tailscale control-plane operation"]
  ++ via "lab-bifrost-01" "bifrost" "routed Bifrost HTTPS access"
  ++ via "lab-monitor-01" "monitor" "routed monitoring HTTPS access"
  ++ map (fun i => derp_intent (Z.of_nat i)) (seq 1 tailscaleDERPRegionCount)
  ++ journal_intent s "lab-tailnet-01".

Definition bifrost_extra (s : Site) : Extra :=
  let config := default empty_module (s_ModuleConfig s !! "bifrost") in
  let domain := n_Domain (s_Network s) in
  mkExtra
    (foldl (fun ss u => appendUniqueSecret ss
        (secret (bu_APIKeySecret u) "server-side credential for the configured Bifrost upstream" "bifrost"
           "operator-supplied" ephemeral "runtime" false)) [] (mc_Upstreams config))
    (map (fun u => egress "lab-bifrost-01" (bu_Name u) (bu_BaseURL u) "tcp" "443" "configured Bifrost upstream HTTPS access")
       (mc_Upstreams config)
     ++ [egress "lab-bifrost-01" "dns" "" "tcp/udp" "53" "Bifrost DNS resolution";
         egress "lab-bifrost-01" "dns" "" "udp" "123" "Bifrost time synchronisation"]
     ++ journal_intent s "lab-bifrost-01")
    [] [mkCertificate ("bifrost." +:+ domain) ["bifrost." +:+ domain; "ai." +:+ domain] "nginx"]
    [mkMonitoring "nginx" "service" "lab-bifrost-01" ["nginx"; "https"; "mtls"] "Bifrost mTLS frontend health";
     mkMonitoring "bifrost" "service" "lab-bifrost-01" ["bifrost"; "loopback"] "Bifrost loopback backend health"]
    no_security [] [].

Definition dns_extra (domain : string) : Extra :=
  mkExtra
    [tsig_secret;
     secret "ddns_tsig_secret" "PowerDNS authenticated update authorization" "powerdns-authoritative" "random"
       "protected-powerdns-backend" "runtime" true]
    [] [mkModuleDNS ("dns01." +:+ domain) "A" "10.10.10.10" "dns"] [] [] no_security [] [].

Definition monitoring_extra : Extra :=
  mkExtra [] [egress "lab-monitor-01" LogicalProxmoxIdentity "" "tcp" "8006" "observability Proxmox API collection"]
    [] [] [] no_security [] [].

Definition firewall_extra : Extra := mkExtra [tsig_secret] [] [] [] [] no_security [] [].

Definition logging_extra (domain : string) : Extra :=
  mkExtra []
    [egress "boetticher-managed-endpoints" ("logs." +:+ domain) "" "tcp" "19532" "native journal upload";
     egress LogicalProxmoxIdentity ("logs." +:+ domain) "" "tcp" "19532" "native Proxmox journal upload"]
    [] [mkCertificate ("logs." +:+ domain) ["logs." +:+ domain] "systemd-journal-remote"] [] no_security [] [].

Definition tailnet_extra (s : Site) : Extra :=
  mkExtra
    [secret "tailscale_auth_key" "initial Tailscale registration or re-registration" "tailscaled" "operator-supplied"
       ephemeral "bootstrap" false]
    (tailnet_intents s) [] []
    [mkMonitoring "tailscaled" "service" "lab-tailnet-01" ["tailscaled"; "route-advertisement"]
       "Tailscale daemon and advertised subnet route health"]
    (mkSecurity true [mkDevice "tun" "/dev/net/tun" "c" 10 200 "rwm"] [])
    ["10.10.0.0/16"] ["Tailnet return traffic for 10.10.0.0/16 must use the TRANSIT gateway 10.10.5.1"].

Definition gatus_extra (domain : string) : Extra :=
  mkExtra []
    [egress "lab-gatus-01" "dns" "" "tcp/udp" "53" "Gatus DNS resolution";
     egress "lab-gatus-01" "dns" "" "udp" "123" "Gatus time synchronisation"]
    [] [mkCertificate ("gatus." +:+ domain) ["gatus." +:+ domain; "lab-gatus-01." +:+ domain] "nginx"] [] no_security [] [].

(** The switch of [declarationFor]. *)
Definition extra_for (module : string) (s : Site) : option Extra :=
  let domain := n_Domain (s_Network s) in
  if module == "dns" then Some (dns_extra domain)
  else if module == "monitoring" then Some monitoring_extra
  else if module == "firewall" then Some firewall_extra
  else if module == "logging" then Some (logging_extra domain)
  else if module == "tailnet-router" then Some (tailnet_extra s)
  else if module == "bifrost" then Some (bifrost_extra s)
  else if module == "gatus" then Some (gatus_extra domain)
  else None.

Definition observability_artifact (version : string) : Artifact :=
  mkArtifact "boetticher-observability" version "amd64" "lxc"
    "0000000000000000000000000000000000000000000000000000000000000000" "".

Definition declarationFor (d : ModuleDefinition) (s : Site) : result ComposeError ModuleDeclaration :=
  let name := df_Name d in
  guests ← moduleGuestProjections d s;
  artifact ← (if name == "monitoring" then Ok (observability_artifact (df_Version d)) else ArtifactFor name);
  match extra_for name s with
  | None => Err (NoDeclaration name)
  | Some x =>
      Ok {|
        md_Module := name;
        md_Artifact := artifact;
        md_Guests := guests;
        md_Persistent := flat_map (fun c => persistentFor name (c_Name c)) guests;
        md_Volumes := flat_map (fun c => volumesFor name (c_Name c)) guests;
        md_Secrets := ex_Secrets x;
        md_NetworkIntents := ex_Intents x;
        md_DNSRecords := ex_DNS x;
        md_DHCPReservations := [];
        md_Certificates := map (fun c => mkCertificate (c_Hostname c) [c_Hostname c +:+ "." +:+ n_Domain (s_Network s)] (c_Name c)) guests
                             ++ ex_Certificates x;
        md_Monitoring := map (fun c => mkMonitoring (c_Name c) "host" (c_Hostname c) ["cpu"; "memory"; "filesystem"; "service"]
                               (name +:+ " module appliance health")) guests ++ ex_Monitoring x;
        md_Backups := map (fun c => mkBackup (c_Name c) "platform-default") guests;
        md_Security := ex_Security x;
        md_USBRequirements := df_USBRequirements d;
        md_AdvertisedRoutes := ex_Routes x;
        md_ReturnRouting := ex_Return x;
      |}
  end.

Definition composeDeclarations (s : Site) (resolved : list ResolvedDefinition) : result ComposeError (list ModuleDeclaration) :=
  declarations ← foldM (fun ds d => x ← declarationFor d s; Ok (ds ++ [x])) [] (enabled_definitions resolved);
  Ok (sort_by md_Module declarations).

(** ** Gatus' endpoints *)

Definition with_intents (d : ModuleDeclaration) (intents : list NetworkIntent) : ModuleDeclaration :=
  mkDeclaration (md_Module d) (md_Artifact d) (md_Guests d) (md_Persistent d) (md_Volumes d) (md_Secrets d) intents
    (md_DNSRecords d) (md_DHCPReservations d) (md_Certificates d) (md_Monitoring d) (md_Backups d) (md_Security d)
    (md_USBRequirements d) (md_AdvertisedRoutes d) (md_ReturnRouting d).

Definition gatus_step (zone : string) (st : gset (string * string) * list NetworkIntent) (g : Component)
    : result ComposeError (gset (string * string) * list NetworkIntent) :=
  if (c_URL g == "") || negb (c_ProductOwned g) || (c_Module g == "") || (c_Zone g == zone) then Ok st
  else
    match parse_url (c_URL g) with
    | Some u =>
        _ ← fail_if ((url_Scheme u != "https") || (url_Hostname u == "") || url_User u) (GatusEndpoint (c_Name g));
        let key := (c_Name g, url_Hostname u) in
        if bool_decide (key ∈ st.1) then Ok st
        else Ok ({[key]} ∪ st.1,
                 st.2 ++ [egress "lab-gatus-01" (c_Hostname g) (c_URL g) "tcp" "443" ("Gatus HTTPS check for " +:+ c_Name g)])
    | None => Err (GatusEndpoint (c_Name g))
    end.

(** [SliceStable] by destination and then purpose. *)
Definition intent_le (a b : NetworkIntent) : Prop :=
  if decide (ni_Destination a = ni_Destination b) then String.le (ni_Purpose a) (ni_Purpose b)
  else String.le (ni_Destination a) (ni_Destination b).
#[export] Instance intent_le_dec : RelDecision intent_le.
Proof. intros a b. unfold intent_le. destruct (decide _); apply _. Defined.

Fixpoint set_first (f : ModuleDeclaration → ModuleDeclaration) (ds : list ModuleDeclaration) : list ModuleDeclaration :=
  match ds with
  | [] => []
  | d :: ds => if md_Module d == "gatus" then f d :: ds else d :: set_first f ds
  end.

Definition addGatusEndpointIntents (s : Site) : result ComposeError (list ModuleDeclaration) :=
  if negb (IsEnabled (s_Modules s) "gatus") then Ok (s_Declarations s)
  else
    match List.find (fun d => md_Module d == "gatus") (s_Declarations s), moduleComponentReference s "lab-gatus-01" with
    | Some gatus, Some guest =>
        '(_, intents) ← foldM (gatus_step (c_Zone guest)) (∅, md_NetworkIntents gatus)
            (flat_map md_Guests (List.filter (fun d => md_Module d != "gatus") (s_Declarations s)));
        Ok (set_first (fun d => with_intents d (stable_sort intent_le intents)) (s_Declarations s))
    | _, _ => Ok (s_Declarations s)
    end.

(** ** [Compose] *)

Definition policy_string (p : EnablementPolicy) : string :=
  match p with Mandatory => "mandatory" | DefaultOn => "default-on" | DefaultOff => "default-off" end.

Definition site_module (x : ResolvedDefinition) : ResolvedModule :=
  let d := rd_Definition x in
  mkResolved (df_Name d) (df_Version d) (policy_string (df_Policy d)) (rd_Enabled x) (rd_Reason x) (rd_State x)
    (df_DependsOn d) (df_Requires d) (df_Provides d).

(** The fields of a site that composing fills in. *)
Definition with_modules (s : Site) (components : list Component) (modules : list ResolvedModule)
    (declarations : list ModuleDeclaration) (reservations : list DHCPReservation) : Site :=
  mkSite (s_APIVersion s) (s_PlatformVersion s) (s_SchemaVersion s) (s_StorageProfile s) (s_StorageDevice s)
    (s_Gateway s) (s_LogicalProxmoxIdentity s) (s_BootstrapAddress s) (s_SSHIdentityFile s) (s_PhysicalNetwork s)
    (s_TestedGateway s) (s_Network s) (s_PKI s) (s_SecretMetadata s) (s_Ownership s) components modules
    (s_ModuleConfig s) (s_Companion s) declarations (s_USBExports s) (s_RetainedModules s)
    reservations (s_DNSRecords s) (s_UserFirewallRules s) (s_PendingDNSDeletions s).

(** [Compose] from the base site and the resolved modules on. *)
Definition compose_site (base : Site) (resolved : list ResolvedDefinition) : result ComposeError Site :=
  components ← composeComponents (s_Components base) resolved base;
  let placed := with_modules base components (s_Modules base) (s_Declarations base) (s_DHCPReservations base) in
  declarations ← composeDeclarations placed resolved;
  let modules := map site_module resolved in
  let declared := with_modules placed components modules declarations
    (s_DHCPReservations placed ++ flat_map md_DHCPReservations declarations) in
  declarations ← addGatusEndpointIntents declared;
  let s := with_modules declared components modules declarations (s_DHCPReservations declared) in
  _ ← wrap Canonical (Validate s);
  Ok s.

Context (first range : Active → list string).

Definition Compose (config : SiteConfig) : result ComposeError (Site * list ResolvedDefinition) :=
  resolved ← wrap Registry_ (Resolve first range FirstPartyRegistry config);
  s ← compose_site (BaseSite config) resolved;
  Ok (s, resolved).

(** *** Lemmas *)

Lemma with_intents_same d intents : md_Guests (with_intents d intents) = md_Guests d
  ∧ md_DHCPReservations (with_intents d intents) = md_DHCPReservations d ∧ md_Module (with_intents d intents) = md_Module d.
Proof. done. Qed.

(** Composing Gatus' intents changes intents only. *)
Lemma set_first_map {A : Type} (g : ModuleDeclaration → A) f ds : (∀ d, g (f d) = g d) → map g (set_first f ds) = map g ds.
Proof. intros Hg. induction ds as [|d ds IH]; cbn; [done|]. destruct (_ == _); cbn; by rewrite ?Hg, ?IH. Qed.

Lemma gatus_same {A : Type} (g : ModuleDeclaration → A) s ds : (∀ d intents, g (with_intents d intents) = g d) →
  addGatusEndpointIntents s = Ok ds → map g ds = map g (s_Declarations s).
Proof.
  intros Hg. unfold addGatusEndpointIntents. destruct (negb _); [by intros [= ->]|].
  destruct (List.find _ _) as [d|]; [|by intros [= ->]]. destruct (moduleComponentReference _ _) as [c|]; [|by intros [= ->]].
  intros Hs. apply bind_ok in Hs as ([seen intents] & _ & [= <-]). by apply set_first_map.
Qed.

Lemma concat_map_ext {A B : Type} (f : A → list B) xs ys : map f xs = map f ys → flat_map f xs = flat_map f ys.
Proof. rewrite !flat_map_concat_map. by intros ->. Qed.

(** What a definition declares: its own guests, and no reservation. *)
Lemma declarationFor_ok d s x : declarationFor d s = Ok x →
  md_Module x = df_Name d ∧ moduleGuestProjections d s = Ok (md_Guests x) ∧ md_DHCPReservations x = [].
Proof.
  unfold declarationFor. intros Hs. apply bind_ok in Hs as (guests & Hg & Hs). apply bind_ok in Hs as (a & _ & Hs).
  destruct (extra_for _ _); [|done]. by injection Hs as <-.
Qed.

Lemma declarations_loop s ds xs : foldM (fun ds d => x ← declarationFor d s; Ok (ds ++ [x])) [] ds = Ok xs →
  Forall2 (fun d x => declarationFor d s = Ok x) ds xs.
Proof.
  apply (foldM_inv _ (fun ds xs => Forall2 (fun d x => declarationFor d s = Ok x) ds xs)); [constructor|].
  intros dn d x1 x2 Hall _ Hs. apply bind_ok in Hs as (x & Hx & [= <-]). apply Forall2_app; [done|]. by constructor.
Qed.

Lemma projected_loop s base ds cs : foldM (fun cs d => projected ← moduleGuestProjections d s; Ok (cs ++ projected)) base ds = Ok cs →
  ∃ gs, Forall2 (fun d g => moduleGuestProjections d s = Ok g) ds gs ∧ cs = base ++ concat gs.
Proof.
  apply (foldM_inv _ (fun ds cs => ∃ gs, Forall2 (fun d g => moduleGuestProjections d s = Ok g) ds gs ∧ cs = base ++ concat gs)).
  { exists []. split; [constructor|]. by rewrite app_nil_r. }
  intros dn d c1 c2 (gs&Hall&->) _ Hs. apply bind_ok in Hs as (g & Hg & [= <-]). exists (gs ++ [g]). split.
  - apply Forall2_app; [done|]. by constructor.
  - rewrite concat_app. cbn. by rewrite app_nil_r, app_assoc.
Qed.

(** Placement looks at the zones of the site only. *)
Lemma projections_zones d s s' : s_Network s = s_Network s' → moduleGuestProjections d s = moduleGuestProjections d s'.
Proof. intros E. unfold moduleGuestProjections, placement, ZoneForType. by rewrite E. Qed.

(** The parts of a composed site. *)
Record composed_parts (base s : Site) (resolved : list ResolvedDefinition) : Prop := {
  cp_shape : s = with_modules base (s_Components s) (map site_module resolved) (s_Declarations s) (s_DHCPReservations base);
  cp_modules : map md_Module (s_Declarations s) ≡ₚ on_names resolved;
  cp_reservations : flat_map md_DHCPReservations (s_Declarations s) = [];
  cp_components : s_Components s ≡ₚ s_Components base ++ flat_map md_Guests (s_Declarations s);
  cp_valid : Validate s = Ok tt;
}.

Lemma flat_map_perm {A B : Type} (f : A → list B) xs ys : xs ≡ₚ ys → flat_map f xs ≡ₚ flat_map f ys.
Proof. intros Hp. rewrite !flat_map_concat_map. by rewrite Hp. Qed.

Lemma declared_modules s ds xs : Forall2 (fun d x => declarationFor d s = Ok x) ds xs → map md_Module xs = map df_Name ds.
Proof. induction 1 as [|d x ds xs Hd _ IH]; cbn; [done|]. by rewrite IH, (proj1 (declarationFor_ok _ _ _ Hd)). Qed.

Lemma declared_reservations s ds xs : Forall2 (fun d x => declarationFor d s = Ok x) ds xs → flat_map md_DHCPReservations xs = [].
Proof. induction 1 as [|d x ds xs Hd _ IH]; cbn; [done|]. destruct (declarationFor_ok _ _ _ Hd) as (_&_&->). done. Qed.

Lemma declared_guests s s' ds xs gs : s_Network s = s_Network s' → Forall2 (fun d x => declarationFor d s = Ok x) ds xs →
  Forall2 (fun d g => moduleGuestProjections d s' = Ok g) ds gs → concat gs = flat_map md_Guests xs.
Proof.
  intros En Hx. revert gs. induction Hx as [|d x ds xs Hd _ IH]; intros gs Hg; inversion Hg as [|? g ? gs' Hg1 Hg2]; subst; cbn; [done|].
  rewrite (IH _ Hg2). f_equal. destruct (declarationFor_ok _ _ _ Hd) as (_&Hp&_). rewrite (projections_zones d s s' En) in Hp. congruence.
Qed.

Lemma flat_map_nil {A B : Type} (f : A → list B) xs ys : xs ≡ₚ ys → flat_map f ys = [] → flat_map f xs = [].
Proof. intros Hp Hy. pose proof (flat_map_perm f _ _ Hp) as Hx. rewrite Hy in Hx. by apply Permutation_nil_r. Qed.

Lemma compose_site_parts base resolved s : compose_site base resolved = Ok s → composed_parts base s resolved.
Proof.
  unfold compose_site. intros Hs. apply bind_ok in Hs as (cs & Hcs & Hs).
  apply bind_ok in Hs as (ds & Hds & Hs). apply bind_ok in Hs as (ds' & Hgatus & Hs).
  apply bind_ok in Hs as ([] & Hv%wrap_ok & [= <-]).
  unfold composeComponents in Hcs. apply bind_ok in Hcs as (cs0 & (gs&Hgs&->)%projected_loop & [= <-]).
  unfold composeDeclarations in Hds. apply bind_ok in Hds as (ds0 & Hds0%declarations_loop & [= <-]).
  pose proof (sort_by_perm md_Module ds0) as Hperm.
  assert (flat_map md_DHCPReservations (sort_by md_Module ds0) = []) as Hnil
    by (eapply flat_map_nil; [exact Hperm|by eapply declared_reservations]).
  constructor; [| | | |exact Hv]; cbn [with_modules s_Components s_Declarations s_DHCPReservations] in *.
  - by rewrite Hnil, app_nil_r.
  - rewrite (gatus_same md_Module _ _ (fun _ _ => eq_refl) Hgatus). cbn [with_modules s_Declarations].
    rewrite Hperm, (declared_modules _ _ _ Hds0). unfold enabled_definitions, on_names. by rewrite map_map.
  - rewrite (concat_map_ext _ _ _ (gatus_same md_DHCPReservations _ _ (fun _ _ => eq_refl) Hgatus)). exact Hnil.
  - rewrite sort_by_perm. f_equiv. rewrite (concat_map_ext _ _ _ (gatus_same md_Guests _ _ (fun _ _ => eq_refl) Hgatus)).
    cbn [with_modules s_Declarations]. rewrite (flat_map_perm _ _ _ Hperm).
    by rewrite (fun E => declared_guests _ _ _ _ _ E Hds0 Hgs).
Qed.

(** *** Composing what was composed *)

(** Resolving looks at the module map, the gateway mode and the USB bindings. *)
Lemma Resolve_inputs r c c' : Map (cf_Modules c) = Map (cf_Modules c') → cf_USBExports c = cf_USBExports c' →
  (gw_Mode (cf_Gateway c) == "external") = (gw_Mode (cf_Gateway c') == "external") →
  Resolve first range r c = Resolve first range r c'.
Proof.
  intros Em Eu Eg. unfold Resolve, resolve, choose, external_gateway, capability_providers, validateUSBBindings.
  by rewrite Em, Eu, Eg.
Qed.

Lemma Compose_inputs c c' : BaseSite c = BaseSite c' → Resolve first range FirstPartyRegistry c = Resolve first range FirstPartyRegistry c' →
  Compose c = Compose c'.
Proof. intros Eb Er. unfold Compose. by rewrite Eb, Er. Qed.

(** A composed site keeps the file it came from. *)
Lemma config_from_composed base s resolved : s_Declarations base = [] → composed_parts base s resolved →
  ConfigFromSite s = ConfigFromSite base.
Proof.
  intros Hbase [Hs _ Hr _ _]. rewrite Hs. unfold ConfigFromSite, configuredDHCPReservations, derived_reservations.
  cbn [with_modules]. rewrite Hbase. cbn. by rewrite Hr.
Qed.

Lemma base_mode config : (gw_Mode (s_Gateway (BaseSite config)) == "external") = (gw_Mode (cf_Gateway config) == "external").
Proof. cbn. unfold or_default. destruct (gw_Mode (cf_Gateway config) == "") eqn:E; bools; [by rewrite E|done]. Qed.

End compose.

(** ** Properties *)

(** C38. Composing is stable: composing the site file that is written from a
    composed site gives the same site and the same modules, so a saved site
    does not drift when it is loaded and saved again. *)
Theorem Compose_roundtrip `{GoUnicode, GoURL, BuildBundle} (first range : Active → list string) config s resolved :
  Compose first range config = Ok (s, resolved) →
  Compose first range (ConfigFromSite s) = Ok (s, resolved).
Proof.
  intros Hc. rewrite <- Hc. unfold Compose in Hc. apply bind_ok in Hc as (res & Hres & Hc).
  apply bind_ok in Hc as (s' & Hp%compose_site_parts & [= -> ->]). pose proof Hp as [Hs _ _ _ Hv].
  rewrite (config_from_composed (BaseSite config) s resolved eq_refl Hp). apply Compose_inputs.
  - apply base_site_back. intros r. apply (companion_not_written s); [by apply site_Validate_good in Hv as []|]. by rewrite Hs.
  - apply Resolve_inputs; [| |apply base_mode]; cbn -[Map ModulesConfigFromMap]; [|done].
    by rewrite modules_map_back, Map_forget.
Qed.

(** C39. A composed site says the same thing three times: it is valid, it has one
    declaration for each module that is on and none for the others, and its
    components are the ones of the base site and the guests of these
    declarations; composing adds no reservation of its own. *)
Theorem Compose_consistent `{GoUnicode, GoURL, BuildBundle} (first range : Active → list string) config s resolved :
  Compose first range config = Ok (s, resolved) →
  Validate s = Ok tt
  ∧ map md_Module (s_Declarations s) ≡ₚ on_names resolved
  ∧ s_Modules s = map site_module resolved
  ∧ s_Components s ≡ₚ s_Components (BaseSite config) ++ flat_map md_Guests (s_Declarations s)
  ∧ s_DHCPReservations s = s_DHCPReservations (BaseSite config).
Proof.
  unfold Compose. intros Hc. apply bind_ok in Hc as (res & _ & Hc).
  apply bind_ok in Hc as (s' & Hp%compose_site_parts & [= -> ->]). destruct Hp as [Hs Hm _ Hcs Hv].
  split_and!; [done|done| |done|]; by rewrite Hs.
Qed.

(** ** Witnesses *)

Definition sample_bundle : BuildBundle := {|
  definitionSHA256 d := Some "00112233445566778899aabbccddeeff00112233445566778899aabbccddeeff" |}.
Definition compose_sample (config : SiteConfig) : result ComposeError (Site * list ResolvedDefinition) :=
  @Compose ascii_only plain_url sample_bundle key_order key_order config.
Example compose_ex :
  (fun p => map (fun d => (md_Module d, length (md_NetworkIntents d))) (s_Declarations p.1)) <$> compose_sample (sample_config [])
  = Ok [("dns", 0); ("firewall", 0); ("monitoring", 1); ("tailnet-router", 32)]%nat.
Proof. by vm_compute. Qed.

Lemma compose_sample_ok : is_ok (compose_sample (sample_config [])) = true.
Proof. by vm_compute. Qed.

Theorem Compose_roundtrip_witness : ∃ s resolved,
  compose_sample (sample_config []) = Ok (s, resolved) ∧ compose_sample (@ConfigFromSite ascii_only s) = Ok (s, resolved).
Proof.
  pose proof compose_sample_ok as Hok. destruct (compose_sample (sample_config [])) as [[s res]|e] eqn:E; [|discriminate Hok].
  exists s, res. split; [reflexivity|].
  exact (@Compose_roundtrip ascii_only plain_url sample_bundle key_order key_order (sample_config []) s res E).
Defined.

Theorem Compose_consistent_witness : ∃ s resolved,
  compose_sample (sample_config []) = Ok (s, resolved) ∧ map md_Module (s_Declarations s) ≡ₚ on_names resolved.
Proof.
  pose proof compose_sample_ok as Hok. destruct (compose_sample (sample_config [])) as [[s res]|e] eqn:E; [|discriminate Hok].
  exists s, res. split; [reflexivity|].
  apply (@Compose_consistent ascii_only plain_url sample_bundle key_order key_order (sample_config []) s res E).
Defined.
End ModCompose.
