(* ===== verification/StPlan.v ===== *)
(** * Where volumes are stored ([storage.PlanFromSite] and the constants of
    [internal/storage/storage.go])

    A site has a data disk of its own or none; each declared volume goes to the
    one storage of its profile, or is refused. *)

From S2P Require Export SiteNormalize.

Open Scope Z_scope.

Module StPlan.
Import Model SiteValidate SiteNormalize.

Inductive StorageError := StorageSite (e : SiteError) | NeedsDataStorage (module volume : string) | PlacementUnsupported (placement : string).

Definition VolumeGroup : string := "vg_boetticher".
Definition ThinPool : string := "thinpool".
Definition BackupLogicalVol : string := "backup".
Definition BackupMount : string := "/srv/boetticher/backups".
Definition BackupFilesystem : string := "ext4".
Definition GuestStorageID : string := "boetticher-thin".
Definition BackupStorageID : string := "boetticher-backups".

Record ResolvedVolume := mkResolvedVolume {
  rv_Module : string; rv_Name : string; rv_Guest : string; rv_Storage : string; rv_Placement : string; rv_Backup : bool;
}.

Record Plan := mkStoragePlan {
  sp_ModelRevision : string;
  sp_Profile : string;
  sp_Device : string;
  sp_VolumeGroup : string;
  sp_ThinPool : string;
  sp_BackupLV : string;
  sp_BackupMount : string;
  sp_Filesystem : string;
  sp_GuestStorage : string;
  sp_BackupStorage : string;
  sp_Volumes : list ResolvedVolume;
}.

Definition dedicated (s : Site) : bool := s_StorageProfile s == "dedicated-data-disk".

Definition LocalStorageContent (profile : string) : option (list string) :=
  if profile == "single-disk" then Some ["backup"; "images"; "rootdir"; "snippets"; "vztmpl"]
  else if profile == "dedicated-data-disk" then Some ["images"; "rootdir"; "snippets"; "vztmpl"]
  else None.

(** The storage of one volume. *)
Definition resolve_volume (s : Site) (guestStorage : string) (v : PersistentVolume) : result StorageError ResolvedVolume :=
  let resolved storage := Ok (mkResolvedVolume (pv_Module v) (pv_Name v) (pv_Guest v) storage (pv_Placement v) (pv_Backup v)) in
  if (pv_Placement v == "prefer-data-disk") || (pv_Placement v == "require-data-disk") then
    if dedicated s then resolved GuestStorageID
    else if pv_Placement v == "require-data-disk" then Err (NeedsDataStorage (pv_Module v) (pv_Name v))
    else resolved guestStorage
  else if pv_Placement v == "default" then resolved guestStorage
  else Err (PlacementUnsupported (pv_Placement v)).

Section storage.
Context `{GoUnicode, GoURL, SiteDigest}.

Definition PlanFromSite (s : Site) : result StorageError Plan :=
  _ ← wrap StorageSite (Validate s);
  revision ← wrap StorageSite (Revision s);
  let guestStorage := if dedicated s then GuestStorageID else "local" in
  volumes ← collect (resolve_volume s guestStorage) (flat_map md_Volumes (s_Declarations s));
  Ok (if dedicated s then
        mkStoragePlan revision (s_StorageProfile s) (s_StorageDevice s) VolumeGroup ThinPool BackupLogicalVol BackupMount
          BackupFilesystem guestStorage BackupStorageID (sort_by2 rv_Module rv_Name volumes)
      else
        mkStoragePlan revision (s_StorageProfile s) "" "" "" "" "/var/lib/vz/dump" "directory-backed" guestStorage "local"
          (sort_by2 rv_Module rv_Name volumes)).
End storage.
End StPlan.
