(* ===== verification/UsbPlan.v ===== *)
(** * USB devices of guests ([usbexport.PlanFromSite],
    [internal/usbexport/plan.go])

    Each requirement of a module takes the next device slot of its guest, after
    the static ones, and is bound to a port of the host.  Go ranges over a map of
    guests; the manifests are sorted afterwards, so the order only decides which
    of several undeclared guests a message names. *)

From S2P Require Export ModRegistry.

Open Scope Z_scope.

Module UsbPlan.
Import Model SiteValidate ModRegistry.
#[local] Arguments sort_by : simpl never.
#[local] Arguments stable_sort : simpl never.

Inductive USBError := USBSite (e : SiteError) | USBRequired (module requirement : string) | USBUndeclaredGuest (guest : string).

Record Export := mkExport {
  ex_Module : string; ex_Requirement : string; ex_Slot : string; ex_Port : string;
  ex_VendorID : string; ex_ProductID : string; ex_Serial : string; ex_DeviceType : string; ex_Access : string;
}.

Record GuestManifest := mkManifest {
  mf_VMID : Z; mf_Hostname : string; mf_OwnershipTag : string; mf_Unprivileged : bool;
  mf_Exports : list Export; mf_StaticSlots : list string; mf_ManagedSlots : list string;
}.

Definition binding_key (module requirement : string) : string := module +:+ "/" +:+ requirement.
Definition bindings (s : Site) : gmap string USBExportBinding :=
  foldl (fun m b => <[binding_key (ub_Module b) (ub_Requirement b) := b]> m) ∅ (s_USBExports s).
Definition enabled (s : Site) (module : string) : bool :=
  default false (foldl (fun m x => <[rm_Name x := rm_Enabled x]> m) (∅ : gmap string bool) (s_Modules s) !! module).
Definition retained (s : Site) (module : string) : bool := existsb (fun r => rt_Module r == module) (s_RetainedModules s).

(** Guests by name; those of a retained module win. *)
Definition guests_of (s : Site) (d : ModuleDefinition) : gmap string Component :=
  foldl (fun m c => <[c_Name c := c]> m) ∅
    (df_Guests d ++ flat_map rt_Guests (List.filter (fun r => rt_Module r == df_Name d) (s_RetainedModules s))).

(** Each requirement takes the next slot of its guest, after the static ones. *)
Record Slots := mkSlots { sl_next : gmap string Z; sl_of : gmap string string; sl_guest : gmap string (list string) }.
Definition dev_slot (index : Z) : string := "dev" +:+ itoa index.
Definition slot_step (d : ModuleDefinition) (t : Slots) (r : USBRequirement) : Slots :=
  let next := default (df_StaticDeviceSlots d) (sl_next t !! ur_Guest r) in
  mkSlots (<[ur_Guest r := next + 1]> (sl_next t)) (<[ur_Name r := dev_slot next]> (sl_of t))
    (<[ur_Guest r := default [] (sl_guest t !! ur_Guest r) ++ [dev_slot next]]> (sl_guest t)).

Definition export_step (s : Site) (d : ModuleDefinition) (t : Slots) (m : gmap string (list Export)) (r : USBRequirement)
    : result USBError (gmap string (list Export)) :=
  let exports := default [] (m !! ur_Guest r) in
  if negb (enabled s (df_Name d)) then Ok (<[ur_Guest r := exports]> m)
  else
    match bindings s !! binding_key (df_Name d) (ur_Name r) with
    | None => if ur_Required r then Err (USBRequired (df_Name d) (ur_Name r)) else Ok (<[ur_Guest r := exports]> m)
    | Some b =>
        Ok (<[ur_Guest r := exports ++ [mkExport (df_Name d) (ur_Name r) (default "" (sl_of t !! ur_Name r)) (ub_Port b)
              (ub_VendorID b) (ub_ProductID b) (ub_Serial b) (ur_DeviceType r) (ur_Access r)]]> m)
    end.

Definition guest_manifest (s : Site) (d : ModuleDefinition) (t : Slots) (entry : string * list Export) : result USBError GuestManifest :=
  match guests_of s d !! entry.1 with
  | None => Err (USBUndeclaredGuest entry.1)
  | Some c =>
      Ok (mkManifest (c_VMID c) (c_Hostname c) (ModuleOwnershipTag (df_Name d)) true (sort_by ex_Requirement entry.2)
            (map (fun i => dev_slot (Z.of_nat i)) (seq 0 (Z.to_nat (df_StaticDeviceSlots d)))) (default [] (sl_guest t !! entry.1)))
  end.

Definition definition_manifests (s : Site) (manifests : list GuestManifest) (d : ModuleDefinition) : result USBError (list GuestManifest) :=
  if (length (df_USBRequirements d) =? 0)%nat || (negb (enabled s (df_Name d)) && negb (retained s (df_Name d))) then Ok manifests
  else
    let requirements := sort_by ur_Name (df_USBRequirements d) in
    let slots := foldl (slot_step d) (mkSlots ∅ ∅ ∅) requirements in
    byGuest ← foldM (export_step s d slots) ∅ requirements;
    more ← collect (guest_manifest s d slots) (map_to_list byGuest);
    Ok (manifests ++ more).

Definition vmid_le (a b : GuestManifest) : Prop := mf_VMID a ≤ mf_VMID b.
#[export] Instance vmid_le_dec : RelDecision vmid_le.
Proof. intros a b. unfold vmid_le. apply _. Defined.

Section usb.
Context `{GoUnicode, GoURL}.

Definition PlanFromSite (s : Site) : result USBError (list GuestManifest) :=
  _ ← wrap USBSite (Validate s);
  manifests ← foldM (definition_manifests s) [] (Definitions FirstPartyRegistry);
  Ok (stable_sort vmid_le manifests).
End usb.
End UsbPlan.
