(* ===== verification/PxPlan.v ===== *)
(** * The deployment plan of a site ([internal/proxmox/plan.go], PlanFromSite and
    its helpers; [model.EffectiveResolvers])

    From a valid site to the guests of the Proxmox host: kind, resources,
    artifact, volumes with the storage they go to, network interfaces, and the
    order in which they are deployed. *)

From S2P Require Export ModCompose StPlan UsbPlan GwPlan PxNic.

Open Scope Z_scope.

Module PxPlan.
Import Model SiteRules SiteValidate SiteNormalize SiteConfig ModRegistry ModResolve ModCompose GwPlan PxGuest PxLxc PxQemu PxNic.
#[local] Arguments sort_by : simpl never.
#[local] Arguments stable_sort : simpl never.
#[local] Arguments sort_strings : simpl never.

Inductive PlanError :=
| PlanInvalid (e : SiteError)
| PlanZone (e : ModelError)
| PlanStorage (e : StPlan.StorageError) | PlanUSB (e : UsbPlan.USBError)
| ComposedUndeclared (guest module : string) | ArtifactKindUnsupported (guest kind : string).

(** ** Guests *)

Definition QualifiedGatewayImageURL : string :=
  "https://cloud.debian.org/images/cloud/trixie/20260327-2429/debian-13-genericcloud-amd64-20260327-2429.qcow2".
Definition QualifiedGatewayImageSHA512 : string :=
  "09559ec27d263997827dd8cddf76e97ea8e0f1803380aa501ea7eaa4b4968cd76ffef4ec7eb07ef1a9ccbeb0925a5020492ea9ed53eb167d62f3a2285039912c".

Definition EffectiveResolvers (s : Site) (c : Component) : list string :=
  if c_Module c == "firewall" then ["9.9.9.9"; "1.1.1.1"]
  else match List.find (fun z => z_Name z == "INFRA") (n_Zones (s_Network s)) with Some z => z_DNSAddresses z | None => [] end.

Definition gatewayFor (zone : string) : string :=
  if zone == "INFRA" then "10.10.10.1" else if zone == "SERVERS" then "10.10.20.1" else if zone == "TRUSTED" then "10.10.30.1"
  else if zone == "SANDBOX" then "10.10.40.1" else if zone == "MGMT" then "10.10.99.1" else if zone == "TRANSIT" then TransitGateway else "".

Definition vlanFor (s : Site) (zoneName : string) : Z :=
  match List.find (fun z => z_Name z == zoneName) (n_Zones (s_Network s)) with Some z => z_VLAN z | None => 0 end.

Definition componentTags (s : Site) (name : string) : list string :=
  match List.find (fun c => c_Name c == name) (PlatformComponents s) with Some c => sort_strings (c_Tags c) | None => [] end.

Definition persistentForGuest (states : list PersistentState) (guest : string) : list PersistentState :=
  List.filter (fun state => ps_Guest state == guest) states.
Definition volumesForGuest (volumes : list PersistentVolume) (guest : string) : list PersistentVolume :=
  List.filter (fun volume => pv_Guest volume == guest) volumes.

Definition fixturePersistent (module guest : string) : list PersistentState :=
  persistent_state guest "ssh-identity" "/var/lib/boetticher/identity/ssh" "endpoint-identity" true ::
  (if module == "dns" then [persistent_state guest "powerdns-database" "/var/lib/powerdns" "application-database" true]
   else if module == "monitoring" then
     [persistent_state guest "observability-state" "/var/lib/boetticher/observability/state" "observability-state" true]
   else if module == "firewall" then
     [persistent_state guest "kea-leases" "/var/lib/kea" "lease-state" false;
      persistent_state guest "firewall-telemetry" "/var/lib/boetticher/firewall-telemetry" "firewall-telemetry-database" false]
   else []).

Definition device_key (d : DeviceRequirement) : string := if dr_Name d == "" then dr_Path d else dr_Name d.
Definition sorted_devices (security : GuestSecurity) : GuestSecurity :=
  mkSecurity (gs_Unprivileged security) (sort_by device_key (gs_Devices security)) (gs_Capabilities security).

(** A volume on the storage that the storage plan gives it; a later match wins. *)
Definition with_storage (v : PersistentVolume) (storage : string) : PersistentVolume :=
  mkVolume (pv_Name v) (pv_Module v) (pv_Guest v) (pv_SizeGiB v) (pv_MountPath v) (pv_Placement v) (pv_Backup v) storage.
Definition stored_volume (resolved : list StPlan.ResolvedVolume) (v : PersistentVolume) : PersistentVolume :=
  foldl (fun v r =>
    if (StPlan.rv_Module r == pv_Module v) && (StPlan.rv_Name r == pv_Name v) && (StPlan.rv_Guest r == pv_Guest v)
    then with_storage v (StPlan.rv_Storage r) else v) v resolved.

Definition GuestKind_of (kind : string) : option GuestKind :=
  if kind == "qemu" then Some KindQEMU else if kind == "lxc" then Some KindLXC else None.

Section plan.
Context `{GoUnicode, GoURL, SiteDigest, BuildBundle}.

Definition nic_step_for (s : Site) (nics : list GuestNIC) (t : ZoneType) : list GuestNIC :=
  match ZoneForType s t with
  | Ok zone => nics ++ [mkGuestNIC (to_lower (z_Name zone) +:+ "0") "vmbr1" (z_VLAN zone) (z_Gateway zone) "" "static"
                          (GatewayInterfaceMAC (Z.of_nat (length nics) + 1))]
  | Err _ => nics
  end.
Definition gatewayNICs (s : Site) : list GuestNIC :=
  foldl (nic_step_for s) [mkGuestNIC "wan0" "vmbr0" 0 "" "" "dhcp" (gw_UpstreamMAC (s_Gateway s))]
    [ZoneTypeTrusted; ZoneTypeServers; ZoneTypeSandbox; ZoneTypeManagement; ZoneTypeTransit; ZoneTypeInfrastructure].

Definition guest_mac (c : Component) : string :=
  if (c_MAC c == "") && (c_Module c != "") then ManagedModuleMAC (c_VMID c) else c_MAC c.

(** A loaded site; the default site of the tests has neither modules nor declarations. *)
Definition composed_site (s : Site) : bool := negb (length (s_Modules s) =? 0)%nat || negb (length (s_Declarations s) =? 0)%nat.

(** What the module of a component declares for it. *)
Record Declared := mkDeclared {
  de_Artifact : Artifact; de_Persistent : list PersistentState; de_Volumes : list PersistentVolume; de_Security : GuestSecurity;
}.
Definition nothing_declared : Declared := mkDeclared (mkArtifact "" "" "" "" "" "") [] [] (mkSecurity false [] []).

Definition declared_for (s : Site) (resolved : list StPlan.ResolvedVolume) (c : Component) : result PlanError Declared :=
  if c_Module c == "" then Ok nothing_declared
  else
    let found := List.find (fun d => md_Module d == c_Module c) (s_Declarations s) in
    _ ← fail_if (composed_site s && match found with Some _ => false | None => true end) (ComposedUndeclared (c_Name c) (c_Module c));
    let declared :=
      match found with
      | Some d => mkDeclared (md_Artifact d) (persistentForGuest (md_Persistent d) (c_Name c))
                    (map (stored_volume resolved) (volumesForGuest (md_Volumes d) (c_Name c))) (sorted_devices (md_Security d))
      | None => nothing_declared
      end in
    let artifact :=
      if ar_Name (de_Artifact declared) == "" then
        match ArtifactFor (c_Module c) with Ok a => a | Err _ => de_Artifact declared end
      else de_Artifact declared in
    Ok (mkDeclared artifact
          (if (length (de_Persistent declared) =? 0)%nat then fixturePersistent (c_Module c) (c_Name c) else de_Persistent declared)
          (de_Volumes declared) (de_Security declared)).

Definition kind_for (c : Component) (artifact : Artifact) : result PlanError GuestKind :=
  if (c_Module c != "") && (ar_Kind artifact != "") then
    match GuestKind_of (ar_Kind artifact) with
    | Some kind => Ok kind
    | None => Err (ArtifactKindUnsupported (c_Name c) (ar_Kind artifact))
    end
  else Ok KindLXC.

(** Cores, memory and disk. *)
Definition sizes (name : string) : Z * Z * Z :=
  if name == "lab-fw-01" then (2, 2048, 16) else if name == "lab-monitor-01" then (2, 2048, 16) else (2, 1024, 8).

Definition module_owner_of (c : Component) : string := if c_Module c == "" then "" else "boetticher/module/" +:+ c_Module c.

Definition guest_plan (s : Site) (resolved : list StPlan.ResolvedVolume) (usbSlots : gmap Z (list string)) (c : Component)
    : result PlanError GuestPlan :=
  declared ← declared_for s resolved c;
  kind ← kind_for c (de_Artifact declared);
  let '(cores, memory, disk) := sizes (c_Name c) in
  Ok {|
    g_Nameservers := EffectiveResolvers s c;
    g_VMID := c_VMID c; g_Name := c_Name c; g_Kind := kind; g_Hostname := c_Hostname c; g_Zone := c_Zone c;
    g_Address := c_Address c; g_MAC := guest_mac c; g_Gateway := gatewayFor (c_Zone c); g_VLAN := vlanFor s (c_Zone c);
    g_Cores := cores; g_MemoryMiB := memory; g_DiskGiB := disk;
    g_Monitoring := c_Monitoring c; g_Backup := c_Backup c; g_Tags := componentTags s (c_Name c);
    g_NICs := if c_Name c == "lab-fw-01" then gatewayNICs s else [];
    g_Owner := module_owner_of c;
    g_Artifact := de_Artifact declared; g_Persistent := de_Persistent declared; g_Volumes := de_Volumes declared;
    g_Security := de_Security declared;
    g_ManagedUSBSlots := default [] (usbSlots !! c_VMID c);
  |}.

(** ** Order *)

Fixpoint module_index (modules : list ResolvedModule) (name : string) : option nat :=
  match modules with
  | [] => None
  | m :: modules => if (rm_Name m == name) && rm_Enabled m then Some 0%nat else S <$> module_index modules name
  end.

Definition fixture_order (guest : GuestPlan) : Z :=
  if (g_Kind guest == KindQEMU) && (g_Owner guest == "boetticher/module/firewall") then 10
  else if g_Owner guest == "boetticher/module/dns" then 20
  else if g_Owner guest == "boetticher/module/monitoring" then 30
  else 60.

Definition deploymentOrder (s : Site) (guest : GuestPlan) : Z :=
  if has_prefix (g_Owner guest) "boetticher/module/" then
    match module_index (s_Modules s) (trim_prefix (g_Owner guest) "boetticher/module/") with
    | Some index => (Z.of_nat index + 1) * 100
    | None => fixture_order guest
    end
  else fixture_order guest.

Definition deployed_le (s : Site) (a b : GuestPlan) : Prop :=
  deploymentOrder s a < deploymentOrder s b ∨ deploymentOrder s a = deploymentOrder s b ∧ g_VMID a ≤ g_VMID b.
#[export] Instance deployed_le_dec s : RelDecision (deployed_le s).
Proof. intros a b. unfold deployed_le. apply _. Defined.
#[export] Instance deployed_le_total s : Total (deployed_le s).
Proof. intros a b. unfold deployed_le. lia. Qed.
#[export] Instance deployed_le_trans s : Transitive (deployed_le s).
Proof. intros a b c. unfold deployed_le. lia. Qed.

Definition usb_slots (manifests : list UsbPlan.GuestManifest) : gmap Z (list string) :=
  foldl (fun m x => <[UsbPlan.mf_VMID x := UsbPlan.mf_ManagedSlots x]> m) ∅ manifests.

Definition PlanFromSite (s : Site) : result PlanError Plan :=
  _ ← wrap PlanInvalid (Validate s);
  storagePlan ← wrap PlanStorage (StPlan.PlanFromSite s);
  infraZone ← wrap PlanZone (ZoneForType s ZoneTypeInfrastructure);
  revision ← wrap PlanInvalid (Revision s);
  manifests ← wrap PlanUSB (UsbPlan.PlanFromSite s);
  guests ← collect (guest_plan s (StPlan.sp_Volumes storagePlan) (usb_slots manifests))
             (List.filter (fun c => negb (c_VMID c =? 0)) (PlatformComponents s));
  Ok {|
    p_ModelRevision := revision; p_ManagedBy := "boetticher"; p_Node := s_LogicalProxmoxIdentity s;
    p_Storage := if StPlan.dedicated s then StPlan.GuestStorageID else "local";
    p_Nameservers := z_DNSAddresses infraZone;
    p_GatewayImage := QualifiedGatewayImage; p_GatewayImageURL := QualifiedGatewayImageURL; p_GatewaySHA512 := QualifiedGatewayImageSHA512;
    p_Guests := stable_sort (deployed_le s) guests; p_ArtifactFiles := ∅;
    p_OperatorPublicKey := ""; p_CloudInitFiles := mkCloudInit "" "" ""; p_DestructiveConfirmed := false;
    p_ForceFirewallRootReplacement := false; p_ForceLegacyLXCRecreation := false;
    p_PrivilegedRunner := false; p_PrivilegedAddress := ""; p_PrivilegedUser := "";
  |}.
End plan.

(** ** What a valid site gives *)

Section facts.
Context `{GoUnicode, GoURL, SiteDigest, BuildBundle}.
Implicit Types s : Site.

Record declaration_ok (d : ModuleDeclaration) : Prop := {
  dk_module : md_Module d ≠ "";
  dk_guests : ∀ c, c ∈ md_Guests d → c_Module c = md_Module d;
  dk_volumes : ∀ v, v ∈ md_Volumes d → pv_Module v = md_Module d
    ∧ pv_Placement v ∈ ["default"; "prefer-data-disk"; "require-data-disk"]%string;
}.

Lemma declared_guests_module module seen seen' guests : foldM (declared_guest_step module) seen guests = Ok seen' →
  ∀ c, c ∈ guests → c_Module c = module.
Proof.
  apply (foldM_inv _ (fun dn _ => ∀ c, c ∈ dn → c_Module c = module)); [by intros c ?%not_elem_of_nil|].
  intros dn c s1 s2 IH _ Hs c0 [?|E]%elem_snoc; [by apply IH|]. subst c0. unfold declared_guest_step in Hs. inv_ok. by bools.
Qed.

Lemma declarations_ok s : validateDeclarations s = Ok tt → Forall declaration_ok (s_Declarations s).
Proof.
  intros Hv. apply bind_ok in Hv as (seen & Hv & _). revert Hv.
  apply (foldM_inv _ (fun dn _ => Forall declaration_ok dn)); [constructor|].
  intros dn d s1 s2 IH _ Hs. apply Forall_app. split; [done|]. constructor; [|constructor].
  unfold declaration_step in Hs. inv_ok. bools. constructor; [done|by eapply declared_guests_module|].
  intros v Hv. match goal with E : eachM (SiteValidate.volume_check _) _ = Ok _ |- _ => apply eachM_ok in E; rewrite Forall_forall in E; specialize (E v Hv) end.
  unfold SiteValidate.volume_check in *. inv_ok. bools. split; [done|]. by apply dec_stable.
Qed.

(** The own components and the guests of the declarations. *)
Lemma elem_PlatformComponents s c : c ∈ PlatformComponents s ↔
  (c ∈ s_Components s ∧ c_ProductOwned c = true ∧ (s_Declarations s = [] ∨ c_Module c = ""))
  ∨ ∃ d, d ∈ s_Declarations s ∧ c ∈ md_Guests d.
Proof.
  unfold PlatformComponents. rewrite elem_of_sort_by, elem_of_app, list_elem_of_filter. f_equiv.
  - rewrite Is_true_true, andb_true_iff, orb_true_iff, negb_involutive, Nat.eqb_eq, length_zero_iff_nil, bool_decide_eq_true. tauto.
  - rewrite list_elem_of_In, in_concat. setoid_rewrite in_map_iff. split.
    + intros (l & (d & <- & Hd) & Hc). exists d. by rewrite !list_elem_of_In.
    + intros (d & Hd & Hc). exists (md_Guests d). rewrite <- !list_elem_of_In in *. split; [|done]. exists d. by rewrite <- list_elem_of_In.
Qed.

(** *** Storage *)

Definition plan_storage s : string := if StPlan.dedicated s then StPlan.GuestStorageID else "local".

Lemma resolve_volume_storage s v r : StPlan.resolve_volume s (plan_storage s) v = Ok r →
  StPlan.rv_Module r = pv_Module v ∧ StPlan.rv_Name r = pv_Name v ∧ StPlan.rv_Guest r = pv_Guest v ∧ StPlan.rv_Storage r = plan_storage s.
Proof.
  unfold StPlan.resolve_volume, plan_storage. destruct (StPlan.dedicated s); repeat case_match; intros [= <-]; done.
Qed.

Lemma storage_plan_volumes s sp : StPlan.PlanFromSite s = Ok sp →
  (∀ r, r ∈ StPlan.sp_Volumes sp → StPlan.rv_Storage r = plan_storage s)
  ∧ ∀ d v, d ∈ s_Declarations s → v ∈ md_Volumes d → ∃ r, r ∈ StPlan.sp_Volumes sp
      ∧ StPlan.rv_Module r = pv_Module v ∧ StPlan.rv_Name r = pv_Name v ∧ StPlan.rv_Guest r = pv_Guest v.
Proof.
  unfold StPlan.PlanFromSite. intros ([] & _ & (rev & _ & (vs & Hvs%collect_ok & Hsp)%bind_ok)%bind_ok)%bind_ok.
  assert (StPlan.sp_Volumes sp ≡ₚ vs) as Hperm by (destruct (StPlan.dedicated s); injection Hsp as <-; apply stable_sort_perm).
  split.
  - intros r Hr. rewrite Hperm in Hr. apply list_elem_of_lookup in Hr as (i & Hi).
    destruct (Forall2_lookup_r _ _ _ _ _ Hvs Hi) as (v & _ & Hv). by apply resolve_volume_storage in Hv as (_ & _ & _ & ?).
  - intros d v Hd Hv. assert (v ∈ flat_map md_Volumes (s_Declarations s)) as Hin.
    { rewrite list_elem_of_In, in_flat_map. exists d. by rewrite <- !list_elem_of_In. }
    apply list_elem_of_lookup in Hin as (i & Hi). destruct (Forall2_lookup_l _ _ _ _ _ Hvs Hi) as (r & Hr & Hrv).
    apply resolve_volume_storage in Hrv as (?&?&?&_). exists r. split; [|done]. rewrite Hperm. by eapply list_elem_of_lookup_2.
Qed.

Lemma stored_volume_same rs v : pv_Module (stored_volume rs v) = pv_Module v ∧ pv_Name (stored_volume rs v) = pv_Name v
  ∧ pv_Guest (stored_volume rs v) = pv_Guest v ∧ pv_SizeGiB (stored_volume rs v) = pv_SizeGiB v
  ∧ pv_MountPath (stored_volume rs v) = pv_MountPath v ∧ pv_Backup (stored_volume rs v) = pv_Backup v.
Proof.
  unfold stored_volume. revert v. induction rs as [|r rs IH]; intros v; [done|]. cbn. case_match; [|apply IH].
  by destruct (IH (with_storage v (StPlan.rv_Storage r))) as (?&?&?&?&?&?).
Qed.

Lemma stored_volume_storage storage rs v : (∀ r, r ∈ rs → StPlan.rv_Storage r = storage) →
  (∃ r, r ∈ rs ∧ StPlan.rv_Module r = pv_Module v ∧ StPlan.rv_Name r = pv_Name v ∧ StPlan.rv_Guest r = pv_Guest v) →
  pv_Storage (stored_volume rs v) = storage.
Proof.
  intros Hall Hex. assert (pv_Storage v = storage ∨ ∃ r, r ∈ rs ∧ StPlan.rv_Module r = pv_Module v ∧ StPlan.rv_Name r = pv_Name v ∧ StPlan.rv_Guest r = pv_Guest v) as Hv by by right.
  clear Hex. unfold stored_volume. revert v Hv. induction rs as [|r rs IH]; intros v Hv; cbn.
  - by destruct Hv as [?|(r & ?%not_elem_of_nil & _)].
  - apply IH; [intros; apply Hall; by right|]. destruct ((_ && _) && _) eqn:E.
    + left. apply Hall. by left.
    + destruct Hv as [?|(r' & [->|Hr]%elem_of_cons & Em & En & Eg)]; [by left| |by right; eauto].
      rewrite !bool_decide_true in E by done. done.
Qed.

(** *** The gateway's interfaces *)

(** An interface of the gateway plan as one of the machine. *)
Definition nic_of (i : Interface) : GuestNIC :=
  mkGuestNIC (if_Name i) (if_Bridge i) (if_VLAN i) (if if_Method i == "dhcp" then "" else trim_suffix (if_Address i) "/24") ""
    (if_Method i) (if_MAC i).

Lemma zone_of_type s d : site_good s → d ∈ default_zones → ∃ z, ZoneForType s (z_Type d) = Ok z ∧ zone_key z = zone_key d.
Proof.
  intros Hg Hd. assert (zone_key d ∈ map zone_key (n_Zones (s_Network s))) as Hin
    by (rewrite (vg_zones s Hg); apply list_elem_of_fmap; by exists d).
  apply list_elem_of_fmap in Hin as (z0 & Ek0 & Hz0). unfold ZoneForType.
  assert (validZoneType (z_Type d) = true) as ->.
  { assert (forallb (fun d => validZoneType (z_Type d)) default_zones = true) as Hall by by vm_compute.
    rewrite forallb_forall in Hall. by apply Hall, list_elem_of_In. }
  cbn. destruct (List.find _ _) as [z|] eqn:Ef.
  - exists z. split; [done|]. apply find_some in Ef as [Hz%list_elem_of_In Et]. bools.
    apply (contract_zone s z Hg), list_elem_of_fmap in Hz as (d' & Ek & Hd'). rewrite Ek. f_equal.
    assert (NoDup (map z_Type default_zones)) as Hnd by (apply (bool_decide_unpack _); by vm_compute).
    eapply (NoDup_map_inj z_Type); [done..|]. injection Ek as _ Et' _ _ _. congruence.
  - exfalso. apply find_none_Forall in Ef. rewrite Forall_forall in Ef. specialize (Ef z0 Hz0). cbn in Ef.
    injection Ek0 as _ Et _ _ _. bools. congruence.
Qed.

Lemma nic_step_contract s nics d : site_good s → d ∈ default_zones →
  nic_step_for s nics (z_Type d)
  = nics ++ [mkGuestNIC (to_lower (z_Name d) +:+ "0") "vmbr1" (z_VLAN d) (z_Gateway d) "" "static"
               (GatewayInterfaceMAC (Z.of_nat (length nics) + 1))].
Proof.
  intros Hg Hd. destruct (zone_of_type s d Hg Hd) as (z & Hz & Ek). unfold nic_step_for. rewrite Hz. by injection Ek as -> _ -> _ ->.
Qed.

Lemma gatewayNICs_contract s : site_good s → gatewayNICs s = map nic_of (wan_interface s :: lan_interfaces).
Proof.
  intros Hg. unfold gatewayNICs. cbn [foldl].
  pose (zone n := List.nth n default_zones (mkZone "" ZoneTypeTransit 0 "" "" "" [] [])).
  change ZoneTypeTrusted with (z_Type (zone 3%nat)). change ZoneTypeServers with (z_Type (zone 2%nat)).
  change ZoneTypeSandbox with (z_Type (zone 4%nat)). change ZoneTypeManagement with (z_Type (zone 5%nat)).
  change ZoneTypeTransit with (z_Type (zone 0%nat)). change ZoneTypeInfrastructure with (z_Type (zone 1%nat)).
  rewrite !nic_step_contract by first [done | cbn; set_solver]. by vm_compute.
Qed.

Lemma lan_nics_canonical : Forall canonical_nic (map nic_of lan_interfaces).
Proof. repeat constructor; eexists; (split; [by vm_compute|by vm_compute]). Qed.

Lemma site_upstream_mac s : site_good s → ∃ bs, parse_mac (gw_UpstreamMAC (s_Gateway s)) = Some bs
  ∧ ∀ position, position ∈ [2; 3; 4; 5; 6; 7] → to_lower (mac_string bs) ≠ GatewayInterfaceMAC position.
Proof.
  intros Hg. pose proof (vg_host s Hg) as Hh. unfold validate_host in Hh. inv_ok.
  match goal with E : wrap GatewayConfiguration _ = Ok _ |- _ => apply wrap_ok in E; rename E into Hc end.
  unfold validateGatewayConfiguration in Hc. inv_ok. destruct (management_bindings _) as [[[? ?] ?] ?].
  destruct (net_parse_cidr _) as [[]|]; try done. inv_ok.
  match goal with E : wrap GatewayMAC _ = Ok _ |- _ => apply wrap_ok in E; unfold ValidateGatewayUpstreamMAC in E; rename E into Hm end.
  destruct (parse_mac _) as [[|b0 rest]|] eqn:Ep; try done. inv_ok.
  match goal with E : GatewayUpstreamMACConflicts _ = false |- _ => unfold GatewayUpstreamMACConflicts in E; rewrite Ep in E; rename E into Hx end.
  case_match; [done|]. apply existsb_false in Hx. exists (b0 :: rest). split; [done|]. intros position Hin Eq. rewrite Forall_forall in Hx.
  specialize (Hx position Hin). by bools.
Qed.

Lemma gateway_nics_distinct s : site_good s → NoDup (map (fun nic => parse_mac (gn_MAC nic)) (map nic_of (wan_interface s :: lan_interfaces))).
Proof.
  intros Hg. destruct (site_upstream_mac s Hg) as (bs & Hbs & Hne). cbn [map]. constructor.
  - change (gn_MAC (nic_of (wan_interface s))) with (gw_UpstreamMAC (s_Gateway s)). rewrite Hbs. intros Hin.
    assert (map (fun nic => parse_mac (gn_MAC nic)) (map nic_of lan_interfaces) = map (fun p => Some [2; 0; 0; 0; 1; p]) [2; 3; 4; 5; 6; 7]) as E by by vm_compute.
    change (Some bs ∈ map (fun nic => parse_mac (gn_MAC nic)) (map nic_of lan_interfaces)) in Hin. rewrite E in Hin.
    apply list_elem_of_fmap in Hin as (position & [= ->] & Hp). apply (Hne position Hp).
    rewrite !elem_of_cons in Hp. destruct Hp as [->|[->|[->|[->|[->|[->|Hp%elem_of_nil]]]]]]; by vm_compute.
  - apply (bool_decide_unpack _). by vm_compute.
Qed.

(** *** Guests *)

Record made_from s (resolved : list StPlan.ResolvedVolume) (c : Component) (guest : GuestPlan) : Prop := {
  mk_from : c ∈ PlatformComponents s ∧ c_VMID c ≠ 0;
  mk_ids : g_VMID guest = c_VMID c ∧ g_Name guest = c_Name c ∧ g_Owner guest = module_owner_of c;
  mk_zone : g_Zone guest = c_Zone c ∧ g_Gateway guest = gatewayFor (c_Zone c) ∧ g_VLAN guest = vlanFor s (c_Zone c);
  mk_nics : g_NICs guest = if c_Name c == "lab-fw-01" then gatewayNICs s else [];
  mk_declared : ∃ declared, declared_for s resolved c = Ok declared ∧ g_Volumes guest = de_Volumes declared;
}.

Lemma guest_plan_made s resolved slots c guest : guest_plan s resolved slots c = Ok guest → c ∈ PlatformComponents s → c_VMID c ≠ 0 →
  made_from s resolved c guest.
Proof.
  intros (declared & Hd & (kind & Hk & Hg)%bind_ok)%bind_ok Hc Hv. destruct (sizes _) as [[cores memory] disk]. injection Hg as <-.
  constructor; try done. by exists declared.
Qed.

Lemma guest_plan_vmids s resolved slots cs guests : Forall2 (fun c g => guest_plan s resolved slots c = Ok g) cs guests →
  map g_VMID guests = map c_VMID cs.
Proof.
  induction 1 as [|c g cs gs Hg _ IH]; [done|]. cbn. f_equal; [|done].
  apply bind_ok in Hg as (declared & _ & (kind & _ & Hg)%bind_ok). destruct (sizes _) as [[cores memory] disk]. by injection Hg as <-.
Qed.

Record planned_guests s (plan : Plan) : Prop := {
  pg_valid : Validate s = Ok tt;
  pg_storage : p_Storage plan = plan_storage s;
  pg_sorted : Sorted (deployed_le s) (p_Guests plan);
  pg_vmids : map g_VMID (p_Guests plan) ≡ₚ vmids (PlatformComponents s);
  pg_made : ∃ sp, StPlan.PlanFromSite s = Ok sp
    ∧ ∀ guest, guest ∈ p_Guests plan → ∃ c, made_from s (StPlan.sp_Volumes sp) c guest;
}.

Lemma vmids_filter cs : map c_VMID (List.filter (fun c => negb (c_VMID c =? 0)) cs) = vmids cs.
Proof. unfold vmids. induction cs as [|c cs IH]; [done|]. cbn. destruct (negb _); cbn; by rewrite IH. Qed.

Lemma PlanFromSite_planned s plan : PlanFromSite s = Ok plan → planned_guests s plan.
Proof.
  intros ([] & Hv%wrap_ok & (sp & Hsp%wrap_ok & (infra & _ & (rev & _ & (manifests & _ & (guests & Hgs%collect_ok & [= <-])%bind_ok)%bind_ok)%bind_ok)%bind_ok)%bind_ok)%bind_ok.
  constructor; cbn [p_Storage p_Guests]; [done|done|apply stable_sort_sorted, _|..].
  - rewrite <- vmids_filter. assert (map g_VMID (stable_sort (deployed_le s) guests) ≡ₚ map g_VMID guests) as -> by (f_equiv; apply stable_sort_perm).
    by rewrite (guest_plan_vmids _ _ _ _ _ Hgs).
  - exists sp. split; [done|]. intros guest Hin. rewrite stable_sort_perm in Hin. apply list_elem_of_lookup in Hin as (i & Hi).
    destruct (Forall2_lookup_r _ _ _ _ _ Hgs Hi) as (c & Hc & Hg). exists c. apply list_elem_of_lookup_2 in Hc.
    rewrite list_elem_of_In, filter_In, <- list_elem_of_In in Hc. destruct Hc as [Hc Hnz]. bools. by eapply guest_plan_made.
Qed.

(** The volumes of a guest are declared for it, on the storage of the plan. *)
Lemma made_volumes s sp c guest v : site_good s → StPlan.PlanFromSite s = Ok sp → made_from s (StPlan.sp_Volumes sp) c guest →
  v ∈ g_Volumes guest → pv_Storage v = plan_storage s ∧ pv_Guest v = g_Name guest ∧ g_Owner guest = "boetticher/module/" +:+ pv_Module v.
Proof.
  intros Hgood Hsp [[Hc _] (_ & Hn & Ho) _ _ (declared & Hd & Hvs)] Hv. rewrite Hvs in Hv. rewrite Hn, Ho. unfold declared_for in Hd.
  unfold module_owner_of. destruct (c_Module c == "") eqn:Em; [injection Hd as <-; by apply elem_of_nil in Hv|].
  apply bind_ok in Hd as ([] & _ & [= <-]). cbn [de_Volumes] in Hv.
  destruct (List.find _ _) as [d|] eqn:Ef; [|by apply elem_of_nil in Hv]. cbn [de_Volumes] in Hv.
  apply find_some in Ef as [Hdin%list_elem_of_In Emd]. bools. apply list_elem_of_fmap in Hv as (v0 & -> & Hv0).
  unfold volumesForGuest in Hv0. rewrite list_elem_of_In, filter_In, <- list_elem_of_In in Hv0. destruct Hv0 as [Hv0 Eg]. bools.
  destruct (storage_plan_volumes s sp Hsp) as [Hall Hex]. destruct (stored_volume_same (StPlan.sp_Volumes sp) v0) as (E1 & _ & E3 & _).
  pose proof (declarations_ok s (vg_declarations s Hgood)) as Hok. rewrite Forall_forall in Hok.
  destruct (Hok d Hdin) as [_ _ Hvol]. destruct (Hvol v0 Hv0) as [Emv _].
  split_and!; [|congruence|congruence]. apply stored_volume_storage; [done|]. by eapply Hex.
Qed.

(** ** Composed sites *)

Lemma Compose_composed first range config s resolved : Compose first range config = Ok (s, resolved) →
  Resolve first range FirstPartyRegistry config = Ok resolved ∧ composed_parts (BaseSite config) s resolved.
Proof.
  intros (res & Hr%wrap_ok & (s' & Hp%compose_site_parts & [= -> ->])%bind_ok)%bind_ok. by split.
Qed.

Lemma composed_components base s resolved : composed_parts base s resolved →
  ∃ rest, s_Components s ≡ₚ PlatformComponents s ++ rest.
Proof.
  intros [_ _ _ Hcs Hv]. pose proof (vg_declarations s (site_Validate_good s Hv)) as Hok%declarations_ok.
  unfold PlatformComponents. set (P := fun c : Component => _).
  assert (∀ l : list Component, l ≡ₚ filter P l ++ filter (fun c => ¬ P c) l) as Hsplit by (intros l; by rewrite filter_app_complement).
  destruct (s_Declarations s) as [|d0 ds] eqn:Ed.
  - exists (filter (fun c => ¬ P c) (s_Components s)). rewrite sort_by_perm. cbn [map concat]. rewrite app_nil_r. apply Hsplit.
  - exists (filter (fun c => ¬ P c) base.(s_Components)). rewrite sort_by_perm. rewrite Hcs, filter_app.
    assert (filter P (flat_map md_Guests (d0 :: ds)) = []) as ->.
    { destruct (filter P (flat_map md_Guests (d0 :: ds))) as [|c l] eqn:E; [done|exfalso].
      assert (c ∈ filter P (flat_map md_Guests (d0 :: ds))) as [HP Hc]%list_elem_of_filter by (rewrite E; by left).
      rewrite list_elem_of_In, in_flat_map in Hc. destruct Hc as (d & Hd%list_elem_of_In & Hc%list_elem_of_In).
      rewrite Forall_forall in Hok. destruct (Hok d Hd) as [Hne Hg _]. unfold P in HP.
      rewrite Is_true_true, andb_true_iff in HP. destruct HP as [_ HP]. cbn in HP. bools. by rewrite (Hg c Hc) in HP. }
    rewrite app_nil_r, flat_map_concat_map. rewrite (Hsplit (s_Components base)) at 1.
    rewrite <- !(assoc_L (++)). f_equiv. apply Permutation_app_comm.
Qed.

Lemma vmids_app cs cs' : vmids (cs ++ cs') = vmids cs ++ vmids cs'.
Proof. unfold vmids. by rewrite map_app, List.filter_app. Qed.

Lemma vmids_perm cs cs' : cs ≡ₚ cs' → vmids cs ≡ₚ vmids cs'.
Proof.
  induction 1 as [|c cs cs' _ IH|c c' cs|? ? ? _ IH1 _ IH2]; unfold vmids in *; cbn; [done|by case_match; [f_equiv|]| |by etrans].
  repeat case_match; try done. apply Permutation_swap.
Qed.

Lemma composed_vmids base s resolved : composed_parts base s resolved → NoDup (vmids (PlatformComponents s)).
Proof.
  intros Hp. destruct (composed_components _ _ _ Hp) as (rest & Hrest). pose proof (site_Validate_good s (cp_valid _ _ _ Hp)) as Hg.
  destruct (vg_identities s Hg) as (st & [_ _ Hn _] & _). rewrite vmids_app in Hn. apply NoDup_app in Hn as (Hn & _).
  assert (vmids (s_Components s) ≡ₚ vmids (PlatformComponents s) ++ vmids rest) as Hperm.
  { rewrite <- vmids_app. by apply vmids_perm. }
  rewrite Hperm in Hn. by apply NoDup_app in Hn as (? & _).
Qed.

Lemma composed_member base s resolved c : composed_parts base s resolved → c ∈ PlatformComponents s → c ∈ s_Components s.
Proof. intros Hp Hc. destruct (composed_components _ _ _ Hp) as (rest & ->). apply elem_of_app. by left. Qed.

(** The gateway and the VLAN of a zone are the ones of the contract. *)
Lemma zone_bindings s name : site_good s → name ∈ map z_Name (n_Zones (s_Network s)) →
  ∃ z, z ∈ n_Zones (s_Network s) ∧ z_Name z = name ∧ gatewayFor name = z_Gateway z ∧ vlanFor s name = z_VLAN z.
Proof.
  intros Hg (z & -> & Hz)%list_elem_of_fmap. unfold vlanFor. destruct (List.find _ _) as [z'|] eqn:Ef.
  - apply find_some in Ef as [Hz'%list_elem_of_In En]. bools. exists z'. split_and!; try done.
    apply (contract_zone s z' Hg), list_elem_of_fmap in Hz' as (d & Ek & Hd). injection Ek as En' _ _ _ Eg'. rewrite Eg', <- En, En'.
    assert (forallb (fun d => gatewayFor (z_Name d) == z_Gateway d) default_zones = true) as Hall by by vm_compute.
    rewrite forallb_forall in Hall. specialize (Hall d (proj1 (list_elem_of_In _ _) Hd)). by bools.
  - apply find_none_Forall in Ef. rewrite Forall_forall in Ef. specialize (Ef z Hz). cbn in Ef. by bools.
Qed.

(** *** Order *)

Lemma module_index_in resolved n : n ∈ on_names resolved → is_Some (module_index (map site_module resolved) n).
Proof.
  induction resolved as [|x xs IH]; [by intros ?%elem_of_nil|]. unfold on_names. cbn. intros Hn.
  change (df_Name (rd_Definition x)) with (rd_name x). destruct (rd_Enabled x); cbn in Hn; rewrite ?andb_true_r, ?andb_false_r.
  - case_bool_decide; [by eexists|]. apply fmap_is_Some, IH. by apply elem_of_cons in Hn as [->|?].
  - by apply fmap_is_Some, IH.
Qed.

Lemma module_index_before resolved l1 n l2 d : on_names resolved = l1 ++ n :: l2 → n ∉ l1 → d ∈ l1 →
  ∃ i j, module_index (map site_module resolved) d = Some i ∧ module_index (map site_module resolved) n = Some j ∧ (i < j)%nat.
Proof.
  revert l1. induction resolved as [|x xs IH]; intros l1 El Hn Hd; [by destruct l1|]. unfold on_names in El. cbn in El |- *.
  change (df_Name (rd_Definition x)) with (rd_name x).
  destruct (rd_Enabled x) eqn:Ee; cbn in El; rewrite ?andb_true_r, ?andb_false_r.
  - destruct l1 as [|y l1]; [by apply elem_of_nil in Hd|]. injection El as -> El. apply not_elem_of_cons in Hn as [Hny Hn].
    rewrite (bool_decide_false (y = n)) by congruence. case_bool_decide as Hyd.
    + destruct (module_index_in xs n) as [j Hj]; [unfold on_names; rewrite El; set_solver|]. exists 0%nat, (S j). rewrite Hj. split_and!; [done..|lia].
    + apply elem_of_cons in Hd as [->|Hd]; [done|]. destruct (IH l1) as (i & j & Hi & Hj & Hij); [done..|].
      exists (S i), (S j). rewrite Hi, Hj. split_and!; [done..|lia].
  - destruct (IH l1) as (i & j & Hi & Hj & Hij); [done..|]. exists (S i), (S j). rewrite Hi, Hj. split_and!; [done..|lia].
Qed.

Lemma deployed_before s l l1 guest l2 other : Sorted (deployed_le s) l → l = l1 ++ guest :: l2 → other ∈ l →
  deploymentOrder s other < deploymentOrder s guest → other ∈ l1.
Proof.
  intros Hs%Sorted_StronglySorted -> Hin Hlt; [|apply _]. apply elem_of_app in Hin as [?|[->|Hin]%elem_of_cons]; [done|lia|exfalso].
  apply StronglySorted_app_1_r in Hs. inversion Hs as [|? ? _ Hall]; subst. rewrite Forall_forall in Hall.
  destruct (Hall other Hin) as [?|[? _]]; lia.
Qed.

Definition owner_of (module : string) : string := "boetticher/module/" +:+ module.

Lemma deploymentOrder_module s guest module i : g_Owner guest = owner_of module → module_index (s_Modules s) module = Some i →
  deploymentOrder s guest = (Z.of_nat i + 1) * 100.
Proof.
  intros Ho Hi. unfold deploymentOrder. rewrite Ho. unfold owner_of. by rewrite has_prefix_app, trim_prefix_app, Hi.
Qed.

Lemma first_party_names : map df_Name (Definitions FirstPartyRegistry) = ["bifrost"; "dns"; "firewall"; "monitoring"; "tailnet-router"]%string.
Proof. by vm_compute. Qed.

Lemma named_modules (names : list string) : names ≡ₚ map df_Name (Definitions FirstPartyRegistry) → names ≠ [].
Proof. intros Hp ->. rewrite first_party_names in Hp. by apply Permutation_nil_l in Hp. Qed.

(** A guest with the owner of a module is one of a module that is on. *)
Lemma guest_module first range config s resolved plan guest module :
  Compose first range config = Ok (s, resolved) → map rd_name resolved ≠ [] → planned_guests s plan →
  guest ∈ p_Guests plan → g_Owner guest = owner_of module → module ∈ on_names resolved.
Proof.
  intros [_ Hp]%Compose_composed Hne [_ _ _ _ (sp & _ & Hmade)] Hin Ho. destruct (Hmade guest Hin) as (c & [_ (_ & _ & Hc) _ _ (declared & Hd & _)]).
  rewrite Ho in Hc. unfold owner_of, module_owner_of in Hc. unfold declared_for in Hd. destruct (c_Module c == "") eqn:Em; [done|].
  apply app_inj_s in Hc as ->. apply bind_ok in Hd as ([] & Hf%fail_if_ok & _).
  assert (composed_site s = true) as Hcs.
  { unfold composed_site. rewrite (cp_shape _ _ _ Hp). cbn. destruct resolved; [done|]. done. }
  rewrite Hcs in Hf. destruct (List.find _ _) as [d|] eqn:Ef; [|done]. apply find_some in Ef as [Hdin%list_elem_of_In Emd]. bools.
  rewrite <- (cp_modules _ _ _ Hp). apply list_elem_of_fmap. by exists d.
Qed.
End facts.

(** ** Properties *)

(** C14. Guests are deployed in the order of their modules' dependencies: in the
    plan of a composed site the guests of a module come after every guest of
    each module it depends on, and for each capability it requires after every
    guest of the module that provides it, unless it provides it itself or the
    gateway is external. *)
Theorem PlanFromSite_order `{GoUnicode, GoURL, SiteDigest, BuildBundle} (first range : Active → list string)
    config s resolved plan l1 guest l2 module :
  (∀ (m : Active) n, is_Some (m !! n) → n ∈ range m) →
  Compose first range config = Ok (s, resolved) → PlanFromSite s = Ok plan →
  p_Guests plan = l1 ++ guest :: l2 → g_Owner guest = owner_of module →
  (∀ d other, d ∈ df_DependsOn (definition_of FirstPartyRegistry module) →
     other ∈ p_Guests plan → g_Owner other = owner_of d → other ∈ l1)
  ∧ ∀ c, c ∈ df_Requires (definition_of FirstPartyRegistry module) →
      (external config ∧ c = "gateway"%string)
      ∨ ∃ p, p ∈ on_names resolved ∧ c ∈ df_Provides (definition_of FirstPartyRegistry p)
          ∧ (p = module ∨ ∀ other, other ∈ p_Guests plan → g_Owner other = owner_of p → other ∈ l1).
Proof.
  intros Hrange Hc Hplan El Ho. pose proof (PlanFromSite_planned s plan Hplan) as Hpg.
  destruct (Compose_composed _ _ _ _ _ Hc) as [Hr Hp]. apply Resolve_good in Hr as [Hnames Hgood]; [|done|apply first_party_keyed].
  assert (module ∈ on_names resolved) as Hon.
  { eapply guest_module; [exact Hc| |exact Hpg| |exact Ho]; [by eapply named_modules|].
    rewrite El. apply elem_of_app. right. left. }
  apply list_elem_of_split_l in Hon as (k1 & k2 & Ek & Hnk). destruct (rv_order _ _ _ Hgood k1 module k2 Ek) as [Hdep Hcap].
  assert (∀ d other, d ∈ k1 → other ∈ p_Guests plan → g_Owner other = owner_of d → other ∈ l1) as Hbefore.
  { intros d other Hd Hin Hod. eapply deployed_before; [apply (pg_sorted _ _ Hpg)|exact El|done|].
    destruct (module_index_before resolved k1 module k2 d Ek Hnk Hd) as (i & j & Hi & Hj & Hij).
    assert (s_Modules s = map site_module resolved) as Em by by rewrite (cp_shape _ _ _ Hp).
    rewrite (deploymentOrder_module s other d i), (deploymentOrder_module s guest module j) by (by rewrite ?Em). lia. }
  split.
  - intros d other Hd. apply Hbefore. by apply Hdep.
  - intros c [?|(p & Hpin & Hprov)]%Hcap; [by left|right]. exists p. apply elem_snoc in Hpin as [Hpin| ->].
    + split; [rewrite Ek; apply elem_of_app; by left|]. split; [done|]. right. intros other. by apply Hbefore.
    + split; [rewrite Ek; apply elem_of_app; right; left|]. split; [done|]. by left.
Qed.

(** C15. The guests of a composed site: their identifiers are distinct; each one
    has the gateway and the VLAN of its zone; and each of its volumes is declared
    for it by the module that owns it, and goes to the storage of the plan. *)
Theorem PlanFromSite_guests `{GoUnicode, GoURL, SiteDigest, BuildBundle} first range config s resolved plan :
  Compose first range config = Ok (s, resolved) → PlanFromSite s = Ok plan →
  NoDup (map g_VMID (p_Guests plan))
  ∧ ∀ guest, guest ∈ p_Guests plan →
      (∃ z, z ∈ n_Zones (s_Network s) ∧ g_Zone guest = z_Name z ∧ g_Gateway guest = z_Gateway z ∧ g_VLAN guest = z_VLAN z)
      ∧ ∀ v, v ∈ g_Volumes guest →
          pv_Guest v = g_Name guest ∧ g_Owner guest = owner_of (pv_Module v) ∧ pv_Storage v = p_Storage plan.
Proof.
  intros [_ Hp]%Compose_composed Hpg%PlanFromSite_planned. pose proof Hpg as [Hv Hst _ Hvm (sp & Hsp & Hmade)].
  pose proof (site_Validate_good s Hv) as Hg. split; [rewrite Hvm; by eapply composed_vmids|].
  intros guest Hin. destruct (Hmade guest Hin) as (c & Hm). split.
  - pose proof Hm as [[Hc _] _ (Ez & Eg & Ev) _ _]. pose proof (vg_components s Hg) as Hcs. rewrite Forall_forall in Hcs.
    destruct (Hcs c (composed_member _ _ _ _ Hp Hc)) as [_ _ Hz _]. rewrite elem_of_list_to_set in Hz.
    destruct (zone_bindings s (c_Zone c) Hg Hz) as (z & Hzin & En & Egw & Evl). exists z. split_and!; congruence.
  - intros v Hvol. rewrite Hst. by destruct (made_volumes s sp c guest v Hg Hsp Hm Hvol) as (?&?&?).
Qed.

(** C16. The machine of a managed gateway has the interfaces that the gateway plan
    counts on, in the same order, although both are computed on their own; no two
    of them share a hardware address; and when the upstream address is written
    with colons each one is recognised once it is set. *)
Theorem PlanFromSite_gateway `{GoUnicode, GoURL, SiteDigest, BuildBundle} s airvpn plan gateway guest :
  PlanFromSite s = Ok plan → planFromSite s airvpn = Ok gateway → gw_Mode (s_Gateway s) = "managed"%string →
  guest ∈ p_Guests plan → g_Name guest = firewall_vm →
  g_NICs guest = map nic_of (gp_Interfaces gateway)
  ∧ NoDup (map (fun nic => parse_mac (gn_MAC nic)) (g_NICs guest))
  ∧ (canonical_nic (nic_of (wan_interface s)) → Forall canonical_nic (g_NICs guest)).
Proof.
  intros [Hv _ _ _ (sp & _ & Hmade)]%PlanFromSite_planned Hgw%planFromSite_planned Hm Hin Hn. pose proof (site_Validate_good s Hv) as Hg.
  destruct (Hmade guest Hin) as (c & [_ (_ & En & _) _ Hnics _]). rewrite <- En, Hn, bool_decide_true, gatewayNICs_contract in Hnics by done. rewrite Hnics. split; [|split].
  - rewrite (pn_interfaces _ _ _ Hgw), bool_decide_true by done. rewrite contract_interfaces; [done|]. by apply normalized_zones.
  - by apply gateway_nics_distinct.
  - intros Hw. cbn [map]. constructor; [done|]. exact lan_nics_canonical.
Qed.

(** ** Witnesses *)

Definition plan_of (s : Site) : result PlanError Plan := @PlanFromSite ascii_only plain_url DnsPlan.sample_digest sample_bundle s.
Definition deployed : result PlanError (Site * Plan) :=
  match compose_sample (sample_config []) with
  | Ok (s, _) => plan ← plan_of s; Ok (s, plan)
  | Err _ => Err (PlanInvalid ZoneCount)
  end.
Definition labels (plan : Plan) : list (string * string * Z) := map (fun g => (g_Name g, g_Owner g, g_VMID g)) (p_Guests plan).

Lemma deployed_labels : (fun p => labels p.2) <$> deployed
  = Ok [("lab-fw-01", owner_of "firewall", 100); ("lab-dns-01", owner_of "dns", 110); ("lab-monitor-01", owner_of "monitoring", 120);
        ("lab-tailnet-01", owner_of "tailnet-router", 200)]%string.
Proof. by vm_compute. Qed.

Lemma deployed_parts : ∃ s resolved plan, compose_sample (sample_config []) = Ok (s, resolved) ∧ plan_of s = Ok plan
  ∧ gw_Mode (s_Gateway s) = "managed"%string
  ∧ labels plan = [("lab-fw-01", owner_of "firewall", 100); ("lab-dns-01", owner_of "dns", 110); ("lab-monitor-01", owner_of "monitoring", 120);
                   ("lab-tailnet-01", owner_of "tailnet-router", 200)]%string.
Proof.
  pose proof deployed_labels as Hl. assert ((fun p => gw_Mode (s_Gateway p.1)) <$> deployed = Ok "managed"%string) as Hm by by vm_compute.
  unfold deployed in *. destruct (compose_sample (sample_config [])) as [[s resolved]|]; [|done].
  destruct (plan_of s) as [plan|] eqn:Ep; [|done]. exists s, resolved, plan. injection Hl as Hl. injection Hm as Hm. done.
Qed.

(** The monitor requires DNS: the guest before it. *)
Theorem PlanFromSite_order_witness : ∃ s resolved plan firewall dns monitor rest,
  compose_sample (sample_config []) = Ok (s, resolved) ∧ plan_of s = Ok plan
  ∧ p_Guests plan = [firewall; dns] ++ monitor :: rest ∧ g_Owner monitor = owner_of "monitoring"
  ∧ ∀ c, c ∈ df_Requires (definition_of FirstPartyRegistry "monitoring") →
      (external (sample_config []) ∧ c = "gateway"%string)
      ∨ ∃ p, p ∈ on_names resolved ∧ c ∈ df_Provides (definition_of FirstPartyRegistry p)
          ∧ (p = "monitoring"%string ∨ ∀ other, other ∈ p_Guests plan → g_Owner other = owner_of p → other ∈ [firewall; dns]).
Proof.
  destruct deployed_parts as (s & resolved & plan & Hc & Hp & _ & Hl). unfold labels in Hl.
  destruct (p_Guests plan) as [|firewall [|dns [|monitor [|tail [|]]]]] eqn:Eg; try discriminate Hl.
  exists s, resolved, plan, firewall, dns, monitor, [tail]. split; [exact Hc|]. split; [exact Hp|]. split; [exact Eg|].
  injection Hl as _ _ _ _ _ _ _ Ho _ _ _ _. split; [exact Ho|].
  exact (proj2 (@PlanFromSite_order ascii_only plain_url DnsPlan.sample_digest sample_bundle key_order key_order (sample_config []) s resolved plan
    [firewall; dns] monitor [tail] "monitoring" key_order_keys Hc Hp Eg Ho)).
Defined.

Theorem PlanFromSite_guests_witness : ∃ s resolved plan,
  compose_sample (sample_config []) = Ok (s, resolved) ∧ plan_of s = Ok plan ∧ NoDup (map g_VMID (p_Guests plan)) ∧ length (p_Guests plan) = 4%nat.
Proof.
  destruct deployed_parts as (s & resolved & plan & Hc & Hp & _ & Hl). exists s, resolved, plan. split; [exact Hc|]. split; [exact Hp|]. split.
  - exact (proj1 (@PlanFromSite_guests ascii_only plain_url DnsPlan.sample_digest sample_bundle key_order key_order _ _ _ _ Hc Hp)).
  - apply (f_equal length) in Hl. unfold labels in Hl. rewrite length_map in Hl. exact Hl.
Defined.

Theorem PlanFromSite_gateway_witness : ∃ s plan guest gateway,
  plan_of s = Ok plan ∧ guest ∈ p_Guests plan ∧ g_Name guest = firewall_vm
  ∧ @planFromSite ascii_only plain_url DnsPlan.sample_digest s None = Ok gateway ∧ g_NICs guest = map nic_of (gp_Interfaces gateway).
Proof.
  assert ((fun p => is_ok (@planFromSite ascii_only plain_url DnsPlan.sample_digest p.1 None)) <$> deployed = Ok true) as Hok by (vm_compute; reflexivity).
  destruct deployed_parts as (s & resolved & plan & Hc & Hp & Hm & Hl). unfold labels in Hl. unfold deployed in Hok. rewrite Hc, Hp in Hok. cbn in Hok.
  destruct (@planFromSite ascii_only plain_url DnsPlan.sample_digest s None) as [gateway|] eqn:Hg; [|discriminate Hok].
  destruct (p_Guests plan) as [|guest rest] eqn:Eg; [discriminate Hl|]. injection Hl as Hn _ _ _.
  assert (guest ∈ p_Guests plan) as Hin by (rewrite Eg; left).
  exists s, plan, guest, gateway. split; [exact Hp|]. split; [exact Hin|]. split; [exact Hn|]. split; [exact Hg|].
  exact (proj1 (@PlanFromSite_gateway ascii_only plain_url DnsPlan.sample_digest sample_bundle s None plan gateway guest Hp Hg Hm Hin Hn)).
Defined.
End PxPlan.
