(* ===== verification/Deploy.v ===== *)
(** * The temporary authority of a deployment

    [internal/cli/converge.go]: a deployment creates a key pair, records the
    public key and every machine that may receive it in its journal, installs
    the key on the Proxmox host and in the guests it configures, and removes it
    again at the end; a deployment that was interrupted is cleaned up by the
    next one from the journal alone.  The calls that install and remove the key
    are those of [internal/proxmox/bootstrap.go].

    A machine is the Proxmox host or a guest, named by its identifier: the
    host's fallback reaches a guest by this identifier, and the direct
    connection reaches the same guest, whose host key was read through the
    host and pinned.  Every call to a machine or a file is given with its
    outcome ([Call]): a call that fails may have taken effect or not. *)

From S2P Require Import SiteOperation PxPlan PxAudit.
Import SiteOperation.
Import Model PxGuest PxAudit.
Open Scope Z_scope.

Module Deploy.
Section deploy.
Context `{unicode : GoUnicode, format : GoFormat}.

(** ** Texts *)

Definition forbidden_words : list string := ["HOLD:"; "NOT TESTED"; "NOT VERIFIED"; "PARTIAL"; "INCONCLUSIVE"].
Definition compactError (err : option string) : string :=
  match err with
  | None => "none"
  | Some e => foldl (fun message word => replace_text 0 message word "FAIL:") (trim_space e) forbidden_words
  end.

(** [errors.Join]: the errors that are not nil, a line each. *)
Definition errors_join (errs : list (option string)) : option string :=
  match omap id errs with [] => None | es => Some (join es (String (byte_of 10) EmptyString)) end.

Definition combineDeploymentErrors (operationErr cleanupErr : option string) : option string :=
  match cleanupErr with
  | None => operationErr
  | Some e =>
      let cleanup := Some ("temporary root access cleanup failed: " +:+ e) in
      match operationErr with None => cleanup | Some _ => errors_join [operationErr; cleanup] end
  end.

Definition prefixed (before text : string) : string := before +:+ text.
Definition error_of {E A : Type} (text : E → string) (r : result E A) : option string :=
  match r with Ok _ => None | Err e => Some (text e) end.

(** ** Machines and their authorised keys *)

Inductive Machine := Host | Guest (vmid : Z).
#[export] Instance Machine_eq_dec : EqDecision Machine.
Proof. solve_decision. Defined.
#[export] Instance Machine_countable : Countable Machine.
Proof.
  refine (inj_countable' (fun m => match m with Host => None | Guest v => Some v end)
    (fun o => match o with None => Host | Some v => Guest v end) _). by intros [].
Defined.

(** The deployment keys that [authorized_keys] of each machine holds. *)
Definition Keys : Type := gset (Machine * string).

Definition add_key (m : Machine) (key : string) (keys : Keys) : Keys := {[(m, key)]} ∪ keys.
Definition remove_key (m : Machine) (key : string) (keys : Keys) : Keys := keys ∖ {[(m, key)]}.

(** ** The guest agent

    [qm guest exec] answers with a JSON document; [exited] and [exitcode] are
    the decoded numbers or the decoder's errors, [errdata] is empty when the
    document has no such text. *)
Inductive AgentReply :=
| NotAgentJSON (e : string)
| AgentStatus (exited exitcode : result string Z) (errdata : string).

Record AgentCall := mkAgentCall { ag_error : option string; ag_reply : AgentReply; ag_effect : bool }.

Definition exit_error (what : string) (vmid code : Z) (errdata : string) : result string unit :=
  if code =? 0 then Ok tt
  else Err ("guest-agent " +:+ what +:+ " for guest " +:+ itoa vmid +:+ " exited " +:+ itoa code +:+
            (if errdata == "" then "" else ": " +:+ trim_space errdata)).

Definition cleanup_reply (vmid : Z) (reply : AgentReply) : result string unit :=
  match reply with
  | NotAgentJSON e => Err ("decode guest-agent cleanup result for guest " +:+ itoa vmid +:+ ": " +:+ e)
  | AgentStatus (Ok 1) (Ok code) errdata => exit_error "cleanup" vmid code errdata
  | AgentStatus (Ok 1) (Err e) _ => Err ("decode guest-agent cleanup exit code for guest " +:+ itoa vmid +:+ ": " +:+ e)
  | AgentStatus _ _ _ => Err ("guest-agent cleanup for guest " +:+ itoa vmid +:+ " did not finish")
  end.

Definition restore_reply (vmid : Z) (reply : AgentReply) : result string unit :=
  match reply with
  | NotAgentJSON e => Err ("decode guest-agent restore result for guest " +:+ itoa vmid +:+ ": " +:+ e)
  | AgentStatus (Err e) _ _ => Err ("decode guest-agent completion for guest " +:+ itoa vmid +:+ ": " +:+ e)
  | AgentStatus (Ok _) (Err e) _ => Err ("decode guest-agent exit code for guest " +:+ itoa vmid +:+ ": " +:+ e)
  | AgentStatus (Ok exited) (Ok code) errdata =>
      if exited =? 1 then exit_error "restore" vmid code errdata
      else Err ("guest-agent restore for guest " +:+ itoa vmid +:+ " did not finish")
  end.

(** The command in the guest ran to its end, as the host reports it. *)
Definition agent_call (before after : string) (reply : Z → AgentReply → result string unit) (kind : GuestKind) (vmid : Z) (c : AgentCall) : Call :=
  mkCall match ag_error c with
         | Some e => Some (before +:+ itoa vmid +:+ after +:+ e)
         | None => match kind with KindQEMU => error_of id (reply vmid (ag_reply c)) | KindLXC => None end
         end (ag_effect c).

(** ** Installing and removing a key *)

Definition key_set : string := String (byte_of 13) (String (byte_of 10) "'").
Definition ValidatePublicKey (publicKey : string) : result string unit :=
  fail_if ((trim_space publicKey == "") || contains_any publicKey key_set || negb (contains publicKey " "))
    "operator SSH public key must be a single OpenSSH public-key line".

Definition key_guard (what user publicKey : string) : M Keys string unit :=
  _ ← of_result id (fail_if (user != "root") (what +:+ " requires the root transport"));
  of_result (prefixed (what +:+ " key: ")) (ValidatePublicKey publicKey).

Definition InstallTemporaryRootAccess (c : Call) (user publicKey : string) : M Keys string unit :=
  _ ← of_result id (fail_if (user != "root") "temporary root acquisition requires the root recovery transport");
  _ ← of_result (prefixed "temporary root acquisition key: ") (ValidatePublicKey publicKey);
  attempt (prefixed "install temporary root access: ") c (add_key Host publicKey).

Definition RestoreTemporaryRootAccess (c : AgentCall) (user : string) (kind : GuestKind) (vmid : Z) (publicKey : string) : M Keys string unit :=
  _ ← of_result id (fail_if (user != "root") "temporary root restore requires the root transport");
  _ ← of_result id (fail_if (vmid <=? 0) "temporary root restore requires a positive guest VMID");
  _ ← of_result (prefixed "temporary root restore key: ") (ValidatePublicKey publicKey);
  attempt id (agent_call "restore temporary root access in guest " ": " restore_reply kind vmid c) (add_key (Guest vmid) publicKey).

(** The direct connection; on the host the SSH policy is checked afterwards, so
    an error does not mean that the key is still there. *)
Definition RevokeTemporaryRootAccess (c : Call) (m : Machine) (user publicKey : string) : M Keys string unit :=
  _ ← key_guard "temporary root cleanup" user publicKey;
  attempt (prefixed "revoke temporary root access: ") c (remove_key m publicKey).

Definition RevokeTemporaryRootAccessThroughHost (c : AgentCall) (user : string) (kind : GuestKind) (vmid : Z) (publicKey : string) : M Keys string unit :=
  _ ← of_result id (fail_if (user != "root") "temporary guest cleanup requires the root transport");
  _ ← of_result id (fail_if (vmid <=? 0) "temporary guest cleanup requires a positive guest VMID");
  _ ← of_result (prefixed "temporary guest cleanup key: ") (ValidatePublicKey publicKey);
  attempt id (agent_call "revoke temporary root access in guest " " through Proxmox: " cleanup_reply kind vmid c) (remove_key (Guest vmid) publicKey).

(** ** Targets of a cleanup *)

Record Target := mkTarget { t_name : string; t_address : string; t_kind : GuestKind; t_vmid : Z }.

Definition targets_of (guests : list GuestPlan) : list Target :=
  map (fun g => mkTarget (g_Name g) (g_Address g) (g_Kind g) (g_VMID g))
    (List.filter (fun g => negb ((g_Owner g == "") || (g_Address g == ""))) guests).

(** The host's answer that there is no such guest. *)
Definition reports_absence (e : string) : bool :=
  contains (to_lower e) "configuration file" && contains (to_lower e) "does not exist".

(** The outcomes of the calls to the [i]-th target and to the host. *)
Record RevokeCalls := mkRevokeCalls {
  rv_direct : nat → Call;
  rv_fallback : nat → AgentCall;
  rv_host : Call;
}.

(** A target is cleaned up by a goroutine of its own: the direct connection,
    and when it fails, the way through the host. *)
Inductive TaskState := Direct | Fallback (err : string) | Finished (err : option string).

Definition task_step (key : string) (host hostRevoke : bool) (calls : RevokeCalls) (i : nat) (t : Target)
    (state : TaskState) (keys : Keys) : Keys * TaskState :=
  match state with
  | Direct =>
      match RevokeTemporaryRootAccess (rv_direct calls i) (Guest (t_vmid t)) "root" key keys with
      | (keys, Ok _) => (keys, Finished None)
      | (keys, Err e) =>
          (keys, if hostRevoke && host then Fallback e
                 else Finished (Some ("revoke root access on " +:+ t_name t +:+ ": " +:+ e)))
      end
  | Fallback e =>
      match RevokeTemporaryRootAccessThroughHost (rv_fallback calls i) "root" (t_kind t) (t_vmid t) key keys with
      | (keys, Ok _) => (keys, Finished None)
      | (keys, Err f) =>
          (keys, if reports_absence f then Finished None
                 else Finished (Some ("revoke root access on " +:+ t_name t +:+ ": direct: " +:+ e +:+ "; host fallback: " +:+ f)))
      end
  | Finished _ => (keys, state)
  end.

(** The goroutine at place [i] makes its next call. *)
Definition schedule_step (key : string) (host hostRevoke : bool) (calls : RevokeCalls) (targets : list Target)
    (s : Keys * list TaskState) (i : nat) : Keys * list TaskState :=
  match targets !! i, s.2 !! i with
  | Some t, Some state => let '(keys, state') := task_step key host hostRevoke calls i t state s.1 in (keys, <[i := state']> s.2)
  | _, _ => s
  end.

(** After [schedule] the goroutines that are still running are waited for. *)
Definition drain (n : nat) : list nat := seq 0 n ++ seq 0 n.
Definition run_tasks (key : string) (host hostRevoke : bool) (calls : RevokeCalls) (targets : list Target)
    (schedule : list nat) (keys : Keys) : Keys * list TaskState :=
  foldl (schedule_step key host hostRevoke calls targets) (keys, map (fun _ => Direct) targets) (schedule ++ drain (length targets)).

Definition task_error (state : TaskState) : option string := match state with Finished e => e | _ => None end.

Definition revokeTemporaryRootAccessForGuestsWithFallback (schedule : list nat) (calls : RevokeCalls) (guests : list GuestPlan)
    (key : string) (host hostRevoke : bool) : M Keys string unit := fun keys =>
  let targets := targets_of guests in
  if (length targets =? 0)%nat && negb host then (keys, Ok tt)
  else
    let '(keys, states) := run_tasks key host hostRevoke calls targets schedule keys in
    let '(keys, errs) :=
      if host then
        match RevokeTemporaryRootAccess (rv_host calls) Host "root" key keys with
        | (keys, Ok _) => (keys, [])
        | (keys, Err e) => (keys, [Some ("revoke root access on " +:+ LogicalProxmoxIdentity +:+ ": " +:+ e)])
        end
      else (keys, []) in
    (keys, match errors_join (map task_error states ++ errs) with None => Ok tt | Some e => Err e end).

Record temporaryRootCleanup := mkCleanup {
  rc_operatorPublicKey : string;
  rc_identityData : list Z;
  rc_host : bool;
  rc_guests : list GuestPlan;
  rc_guestNames : gset string;
}.

Definition newTemporaryRootCleanup (operatorPublicKey : string) (identityData : list Z) : temporaryRootCleanup :=
  mkCleanup operatorPublicKey identityData false [] ∅.

Definition hostEstablished (c : temporaryRootCleanup) : temporaryRootCleanup :=
  mkCleanup (rc_operatorPublicKey c) (rc_identityData c) true (rc_guests c) (rc_guestNames c).

Definition guestEstablished (guest : GuestPlan) (c : temporaryRootCleanup) : temporaryRootCleanup :=
  if bool_decide (g_Name guest ∈ rc_guestNames c) then c
  else mkCleanup (rc_operatorPublicKey c) (rc_identityData c) (rc_host c) (rc_guests c ++ [guest]) ({[g_Name guest]} ∪ rc_guestNames c).

Definition revoke (schedule : list nat) (calls : RevokeCalls) (c : temporaryRootCleanup) : M Keys string unit :=
  if negb (rc_host c) && (length (rc_guests c) =? 0)%nat then mret tt
  else revokeTemporaryRootAccessForGuestsWithFallback schedule calls (rc_guests c) (rc_operatorPublicKey c) (rc_host c) true.

(** ** Waiting for a guest's root account *)

Record RootWait := mkRootWait {
  rw_hostKey : nat → option string;
  rw_keyStopped : nat → option string;
  rw_pin : option string;
  rw_first : option string;
  rw_restore : nat → AgentCall;
  rw_rearmStopped : nat → option string;
  rw_retry : nat → option string;
}.

Fixpoint read_host_key (remaining attempt : nat) (w : RootWait) : result string unit :=
  match rw_hostKey w attempt with
  | None => Ok tt
  | Some e =>
      match remaining with
      | O => Err ("HOLD: independently read guest host key through Proxmox: " +:+ e)
      | S remaining =>
          match rw_keyStopped w attempt with
          | Some e => Err ("guest host-key pinning cancelled: " +:+ e)
          | None => read_host_key remaining (S attempt) w
          end
      end
  end.

(** [mark] is the callback [onAuthorityEstablished]. *)
Fixpoint rearm (remaining attempt : nat) (last : string) (guest : GuestPlan) (key : string)
    (mark : temporaryRootCleanup → temporaryRootCleanup) (w : RootWait) : M (Keys * temporaryRootCleanup) string unit := fun s =>
  match remaining with
  | O => (s, Err ("initial root transport failed after bounded guest re-arm attempts: " +:+ last))
  | S remaining =>
      match (if (0 <? attempt)%nat then rw_rearmStopped w attempt else None) with
      | Some e => (s, Err ("initial root transport failed and guest re-arm cancelled: " +:+ e))
      | None =>
          match RestoreTemporaryRootAccess (rw_restore w attempt) "root" (g_Kind guest) (g_VMID guest) key s.1 with
          | (keys, Err e) => rearm remaining (S attempt) e guest key mark w (keys, s.2)
          | (keys, Ok _) =>
              match rw_retry w attempt with
              | None => ((keys, mark s.2), Ok tt)
              | Some e => rearm remaining (S attempt) e guest key mark w (keys, mark s.2)
              end
          end
      end
  end.

Definition waitForDeploymentRoot (guest : GuestPlan) (key hostKeyAlias : string)
    (mark : temporaryRootCleanup → temporaryRootCleanup) (w : RootWait) : M (Keys * temporaryRootCleanup) string unit :=
  _ ← of_result id (fail_if ((g_Hostname guest == "") || (hostKeyAlias == "")) "guest host-key identity is incomplete");
  _ ← of_result id (read_host_key 29 0 w);
  match rw_pin w with
  | Some e => fail ("HOLD: pin guest host key: " +:+ e)
  | None =>
      match rw_first w with
      | None => fun s => ((s.1, mark s.2), Ok tt)
      | Some _ => rearm 3 0 "" guest key mark w
      end
  end.

(** ** The journal's targets *)

Definition operationCleanupGuests (plan : Plan) : result string (list OperationGuest) :=
  collect (fun guest =>
    if (g_Name guest == "") || (g_VMID guest <=? 0) || (g_Address guest == "")
    then Err ("guest " +:+ g_Name guest +:+ " has incomplete identity for temporary cleanup")
    else Ok (mkOpGuest (g_Name guest) (kind_text (g_Kind guest)) (g_VMID guest) (g_Address guest)))
    (List.filter (fun guest => g_Owner guest != "") (p_Guests plan)).

(** A guest plan with nothing but its identity. *)
Definition bare_guest (vmid : Z) (name hostname : string) (kind : GuestKind) (address owner : string) : GuestPlan :=
  mkGuest [] vmid name kind hostname "" address "" "" 0 0 0 0 false false [] [] owner
    (mkArtifact "" "" "" "" "" "") [] [] (mkSecurity false [] []) [].

Definition operationGuestPlans (guests : list OperationGuest) : result string (list GuestPlan) :=
  collect (fun guest =>
    if og_Kind guest == "qemu" then Ok (bare_guest (og_VMID guest) (og_Name guest) "" KindQEMU (og_Address guest) "boetticher/recovery")
    else if og_Kind guest == "lxc" then Ok (bare_guest (og_VMID guest) (og_Name guest) "" KindLXC (og_Address guest) "boetticher/recovery")
    else Err ("unsupported temporary cleanup guest kind " +:+ quoted (og_Kind guest))) guests.

(** ** The laboratory: the site directory and the machines *)

Record Lab := mkLab { lb_dir : SiteDir; lb_keys : Keys }.

Definition on_dir {E A : Type} (m : M SiteDir E A) : M Lab E A := fun lab =>
  let '(dir, r) := m (lb_dir lab) in (mkLab dir (lb_keys lab), r).
Definition on_keys {E A : Type} (m : M Keys E A) : M Lab E A := fun lab =>
  let '(keys, r) := m (lb_keys lab) in (mkLab (lb_dir lab) keys, r).

(** A write of a file at a time. *)
Record Write := mkWrite { wr_now : string; wr_call : Call }.

Definition with_phase (phase : string) (cause : option string) (s : OperationState) : OperationState :=
  mkOperation (os_Version s) (os_ID s) (os_Kind s) phase (os_ModelRevision s) (os_PlanDigest s) (os_BundleDigest s)
    (os_StartedAt s) "" (match cause with None => "" | Some _ => compactError cause end)
    (os_TemporaryPublicKey s) (os_TemporaryHostAddress s) (os_TemporaryCleanupGuests s).

(** The state in memory changes before it is saved, and also when saving fails. *)
Definition saveDeployOperationPhase (w : Write) (phase : string) (cause : option string) (state : OperationState)
    (dir : SiteDir) : SiteDir * OperationState * result OpError unit :=
  let state := with_phase phase cause state in
  let '(dir, r) := SaveOperationState (wr_now w) (wr_call w) state dir in (dir, state, r).

(** ** Recovery of an interrupted deployment *)

Record RecoverCalls := mkRecoverCalls {
  rk_read : option string;
  rk_clear : Call;
  rk_cleanup_write : Write;
  rk_schedule : list nat;
  rk_revoke : RevokeCalls;
  rk_failed_write : Write;
}.

Definition InterruptedDeploymentCleanup : Type := list GuestPlan → string → M Keys string unit.

Definition recoverInterruptedDeploymentWith (calls : RecoverCalls) (s : Site) (cleanup : option InterruptedDeploymentCleanup) :
    M Lab string unit := fun lab =>
  match LoadOperationState (rk_read calls) (lb_dir lab) with
  | Err e => (lab, Err ("HOLD: load interrupted deployment state: " +:+ op_text e))
  | Ok None => (lab, Ok tt)
  | Ok (Some state) =>
      if os_TemporaryPublicKey state == "" then
        if (os_Phase state != PhasePlan) && (os_Phase state != PhaseFailed) then
          (lab, Err ("HOLD: interrupted deployment phase " +:+ os_Phase state +:+
            " has no recoverable temporary public key; use independent operator/root recovery before retrying"))
        else wrap_err (fun e => "HOLD: clear interrupted pre-Apply journal: " +:+ op_text e) (on_dir (ClearOperationState (rk_clear calls))) lab
      else if os_TemporaryHostAddress state != s_BootstrapAddress s then
        (lab, Err ("HOLD: interrupted deployment host address changed from " +:+ os_TemporaryHostAddress state +:+ " to " +:+
          s_BootstrapAddress s +:+ "; use independent operator/root recovery before retrying"))
      else match cleanup with
      | None => (lab, Err "HOLD: interrupted deployment cleanup is not configured")
      | Some cleanup =>
          match operationGuestPlans (os_TemporaryCleanupGuests state) with
          | Err e => (lab, Err ("HOLD: decode interrupted deployment cleanup targets: " +:+ e))
          | Ok guests =>
              let '(dir, state, journalErr) := saveDeployOperationPhase (rk_cleanup_write calls) PhaseCleanup None state (lb_dir lab) in
              let '(keys, cleanupErr) := cleanup guests (os_TemporaryPublicKey state) (lb_keys lab) in
              let lab := mkLab dir keys in
              match cleanupErr with
              | Err cleanupErr =>
                  let recoveryErr := Some ("HOLD: interrupted deployment cleanup failed: " +:+ cleanupErr) in
                  let recoveryErr := match journalErr with
                    | Err e => errors_join [recoveryErr; Some ("record cleanup phase: " +:+ op_text e)] | Ok _ => recoveryErr end in
                  let '(dir, _, failureJournalErr) := saveDeployOperationPhase (rk_failed_write calls) PhaseFailed (Some cleanupErr) state dir in
                  let recoveryErr := match failureJournalErr with
                    | Err e => errors_join [recoveryErr; Some ("record cleanup failure: " +:+ op_text e)] | Ok _ => recoveryErr end in
                  (mkLab dir keys, Err (default "" recoveryErr))
              | Ok _ =>
                  match journalErr with
                  | Err e => (lab, Err ("HOLD: temporary Apply authority was removed but cleanup journal could not be recorded: " +:+ op_text e))
                  | Ok _ => wrap_err (fun e => "HOLD: temporary Apply authority was removed but interrupted deployment journal could not be cleared: " +:+ op_text e)
                              (on_dir (ClearOperationState (rk_clear calls))) lab
                  end
              end
          end
      end
  end.

Definition recoverInterruptedDeployment (calls : RecoverCalls) (s : Site) : M Lab string unit :=
  recoverInterruptedDeploymentWith calls s
    (Some (fun guests key => revokeTemporaryRootAccessForGuestsWithFallback (rk_schedule calls) (rk_revoke calls) guests key true true)).

(** ** The life of a deployment *)

(** What the running process keeps: the state it journals and the cleanup it
    has registered. *)
Record Deployment := mkDeployment {
  dp_site : Site;
  dp_plan : Plan;
  dp_state : OperationState;
  dp_cleanup : option temporaryRootCleanup;
}.

(** [runDeployOperation] up to the first journal entry: an interrupted
    deployment is cleaned up, then what the configuration and the release must
    satisfy is checked ([early], the first check that fails), then PLAN is
    recorded. *)
Definition beginDeployment (calls : RecoverCalls) (early : option string) (w : Write) (s : Site) (plan : Plan)
    (runID modelRevision releaseDigest : string) : M Lab string Deployment :=
  _ ← recoverInterruptedDeployment calls s;
  _ ← of_result id (match early with Some e => Err e | None => Ok tt end);
  let state := mkOperation 0 runID "deploy" PhasePlan modelRevision "" releaseDigest "" "" "" "" "" [] in
  _ ← wrap_err (fun e => "record deployment PLAN phase: " +:+ op_text e) (on_dir (SaveOperationState (wr_now w) (wr_call w) state));
  mret (mkDeployment s plan state None).

Record ArmInputs := mkArmInputs {
  ai_digest : string;
  ai_bundle : string;
  ai_planFlag : string;
  ai_operatorKey : option string;
  ai_identity : result string (list Z * string);
  ai_write : Write;
  ai_install : Call;
}.

(** From the accepted plan to the key on the host: the machines that may
    receive the key are journaled before the first of them does. *)
Definition armDeployment (i : ArmInputs) (d : Deployment) (lab : Lab) : Deployment * Lab * result string unit :=
  let st := dp_state d in
  let applied key host guests := mkOperation (os_Version st) (os_ID st) (os_Kind st) PhaseApply (os_ModelRevision st) (ai_digest i) (ai_bundle i)
    (os_StartedAt st) (os_UpdatedAt st) (os_Error st) key host guests in
  let state := applied (os_TemporaryPublicKey st) (os_TemporaryHostAddress st) (os_TemporaryCleanupGuests st) in
  let d := mkDeployment (dp_site d) (dp_plan d) state (dp_cleanup d) in
  if (ai_planFlag i != "") && (ai_planFlag i != ai_digest i) then
    (d, lab, Err ("stale deployment plan: supplied " +:+ ai_planFlag i +:+ ", current live plan is " +:+ ai_digest i))
  else match ai_operatorKey i, ai_identity i, operationCleanupGuests (dp_plan d) with
  | Some e, _, _ => (d, lab, Err ("resolve durable operator identity before Apply: " +:+ e))
  | None, Err e, _ => (d, lab, Err e)
  | None, Ok _, Err e => (d, lab, Err e)
  | None, Ok (private, key), Ok guests =>
      let state := applied key (s_BootstrapAddress (dp_site d)) guests in
      let d := mkDeployment (dp_site d) (dp_plan d) state (dp_cleanup d) in
      match SaveOperationState (wr_now (ai_write i)) (wr_call (ai_write i)) state (lb_dir lab) with
      | (dir, Err e) => (d, mkLab dir (lb_keys lab), Err ("journal temporary Apply authority before mutation: " +:+ op_text e))
      | (dir, Ok _) =>
          let cleanup := hostEstablished (newTemporaryRootCleanup key private) in
          let d := mkDeployment (dp_site d) (dp_plan d) state (Some cleanup) in
          let '(keys, r) := InstallTemporaryRootAccess (ai_install i) "root" key (lb_keys lab) in
          (d, mkLab dir keys, match r with Ok _ => Ok tt | Err e => Err ("acquire temporary Apply authority: " +:+ e) end)
      end
  end.

(** The modules of the resolved order, the firewall left out. *)
Definition deploymentModuleNames (s : Site) (onlyModule : string) : list string :=
  map rm_Name (List.filter (fun m => rm_Enabled m && (rm_Name m != "firewall") && ((onlyModule == "") || (rm_Name m == onlyModule))) (s_Modules s)).

Definition ProxmoxVMID : Z := 100.
Definition ReleaseVersion : string := "0.1.0".

(** The managed firewall as the deployment writes it down when it waits for it. *)
Definition firewallGuest : GuestPlan := bare_guest ProxmoxVMID "lab-fw-01" "lab-fw-01" KindQEMU "10.10.99.1" "".

(** The guests the deployment gives root access to, in its order. *)
Definition authorityGuests (s : Site) (plan : Plan) : list GuestPlan :=
  (if gw_Mode (s_Gateway s) == "managed" then [firewallGuest] else []) ++
  flat_map (fun module => List.filter (fun g => (g_Owner g == "boetticher/module/" +:+ module) && (g_Kind g == KindLXC)) (p_Guests plan))
    (deploymentModuleNames s "").

(** The deployment registers the guest and waits for its root account. *)
Definition establishGuest (w : RootWait) (guest : GuestPlan) (d : Deployment) (lab : Lab) : Deployment * Lab * result string unit :=
  match dp_cleanup d with
  | None => (d, lab, Ok tt)
  | Some cleanup =>
      let '((keys, cleanup), r) :=
        waitForDeploymentRoot guest (rc_operatorPublicKey cleanup) (g_Hostname guest +:+ "." +:+ n_Domain (s_Network (dp_site d)))
          (guestEstablished guest) w (lb_keys lab, guestEstablished guest cleanup) in
      (mkDeployment (dp_site d) (dp_plan d) (dp_state d) (Some cleanup), mkLab (lb_dir lab) keys, r)
  end.

Definition recordVerify (w : Write) (d : Deployment) (lab : Lab) : Deployment * Lab * result OpError unit :=
  let '(dir, state, r) := saveDeployOperationPhase w PhaseVerify None (dp_state d) (lb_dir lab) in
  (mkDeployment (dp_site d) (dp_plan d) state (dp_cleanup d), mkLab dir (lb_keys lab), r).

Record FinishCalls := mkFinishCalls {
  fc_cleanup_write : Write;
  fc_schedule : list nat;
  fc_revoke : RevokeCalls;
  fc_failed_write : Write;
  fc_commit_write : Write;
  fc_last_write : Write;
  fc_clear : Call;
  fc_commit_failed_write : Write;
}.

(** The cleanup that a deployment registers. *)
Definition runCleanup (calls : FinishCalls) (cleanup : temporaryRootCleanup) (state : OperationState) (lab : Lab) :
    Lab * OperationState * option string :=
  let '(dir, state, journalErr) := saveDeployOperationPhase (fc_cleanup_write calls) PhaseCleanup None state (lb_dir lab) in
  let '(keys, cleanupErr) := revoke (fc_schedule calls) (fc_revoke calls) cleanup (lb_keys lab) in
  (mkLab dir keys, state, combineDeploymentErrors (error_of op_text journalErr) (error_of id cleanupErr)).

(** The commit that it registers. *)
Definition runCommit (calls : FinishCalls) (state : OperationState) (dir : SiteDir) : SiteDir * OperationState * option string :=
  let '(dir, state, r) := saveDeployOperationPhase (fc_commit_write calls) PhaseCommit None state dir in
  match r with
  | Err e => (dir, state, Some ("record deployment commit phase: " +:+ op_text e))
  | Ok _ =>
      let last := mkLastApplied 0 (os_ModelRevision state) (os_PlanDigest state) (os_BundleDigest state) "" in
      match SaveLastAppliedState (wr_now (fc_last_write calls)) (wr_call (fc_last_write calls)) last dir with
      | (dir, Err e) => (dir, state, Some ("record last-applied deployment state: " +:+ op_text e))
      | (dir, Ok _) =>
          match ClearOperationState (fc_clear calls) dir with
          | (dir, Err e) => (dir, state, Some ("clear committed deployment operation: " +:+ op_text e))
          | (dir, Ok _) => (dir, state, None)
          end
      end
  end.

(** [runDeployWithContext] after the operation returned [operationErr]: clean
    up, then record the failure or commit. *)
Definition finishDeployment (calls : FinishCalls) (operationErr : option string) (d : Deployment) (lab : Lab) : Lab * option string :=
  let '(lab, state, operationErr) :=
    match dp_cleanup d with
    | None => (lab, dp_state d, operationErr)
    | Some cleanup =>
        let '(lab, state, cleanupErr) := runCleanup calls cleanup (dp_state d) lab in
        (lab, state, combineDeploymentErrors operationErr cleanupErr)
    end in
  match operationErr with
  | Some e =>
      let '(dir, _, _) := saveDeployOperationPhase (fc_failed_write calls) PhaseFailed operationErr state (lb_dir lab) in
      (mkLab dir (lb_keys lab), operationErr)
  | None =>
      let '(dir, state, commitErr) := runCommit calls state (lb_dir lab) in
      match commitErr with
      | None => (mkLab dir (lb_keys lab), None)
      | Some _ =>
          let '(dir, _, _) := saveDeployOperationPhase (fc_commit_failed_write calls) PhaseFailed commitErr state dir in
          (mkLab dir (lb_keys lab), combineDeploymentErrors None commitErr)
      end
  end.

(** ** The deployment of a single module *)

(** What [runScopedModuleDeploy] reads before it journals anything; [sc_source]
    is the first failure of the Ansible source and of the files the full
    deployment left. *)
Record ScopedCalls := mkScopedCalls {
  sc_last_read : option string;
  sc_pending : result string bool;
  sc_manifest : result string (string * string);
  sc_source : option string;
  sc_plan : result string Plan;
  sc_node : option string;
  sc_states : option string;
  sc_identity : result string (list Z * string);
  sc_operatorKey : option string;
  sc_write : Write;
}.

Definition scopedOperationState (s : Site) (runID revision planDigest bundleDigest key : string) (targets : list GuestPlan) : OperationState :=
  mkOperation 0 runID "scoped-module-deploy" PhaseApply revision planDigest bundleDigest "" "" "" key (s_BootstrapAddress s)
    (map (fun g => mkOpGuest (g_Name g) (kind_text (g_Kind g)) (g_VMID g) (g_Address g)) targets).

Definition opt_error (e : option string) : result string unit := match e with Some e => Err e | None => Ok tt end.

(** [continue] is the part after the journal. *)
Definition runScopedModuleDeploy (calls : ScopedCalls) (continue : list GuestPlan → OperationState → list Z → M Lab string unit)
    (s : Site) (module planDigest revision runID : string) (confirm dryRun : bool) : M Lab string unit := fun lab =>
  if dryRun then (lab, Ok tt)
  else
    (_ ← of_result id (fail_if (negb confirm) "--only-module changes the selected module; rerun with --confirm");
     _ ← of_result id (fail_if (planDigest == "") "--only-module requires --plan from the current full deployment baseline");
     _ ← of_result id (fail_if
           (negb match LoadLastAppliedState (sc_last_read calls) (lb_dir lab) with
                 | Ok (Some last) => (la_ModelRevision last == revision) && (la_PlanDigest last == planDigest)
                 | _ => false
                 end) "--only-module requires the exact plan digest from the current successful full deployment");
     pending ← of_result id (sc_pending calls);
     _ ← of_result id (fail_if pending "--only-module refuses while a module purge is pending; run a full deploy");
     manifest ← of_result (prefixed "authenticated release bundle is required before scoped deployment: ") (sc_manifest calls);
     let '(version, bundleDigest) := manifest : string * string in
     _ ← of_result id (fail_if (version != ReleaseVersion)
           ("scoped deployment release version " +:+ version +:+ " is incompatible with controller " +:+ ReleaseVersion));
     _ ← of_result id (opt_error (sc_source calls));
     plan ← of_result id (sc_plan calls);
     _ ← of_result id (opt_error (sc_node calls));
     let targets := List.filter (fun g => (g_Kind g == KindLXC) && (g_Owner g == "boetticher/module/" +:+ module)) (p_Guests plan) in
     _ ← of_result id (fail_if (length targets =? 0)%nat ("--only-module " +:+ module +:+ " has no owned LXC guest"));
     _ ← of_result id (opt_error (sc_states calls));
     identity ← of_result id (sc_identity calls);
     let '(private, key) := identity : list Z * string in
     _ ← of_result id (opt_error (sc_operatorKey calls));
     let state := scopedOperationState s runID revision planDigest bundleDigest key targets in
     _ ← wrap_err op_text (on_dir (SaveOperationState (wr_now (sc_write calls)) (wr_call (sc_write calls)) state));
     continue targets state private) lab.

(** ** Facts: the calls *)

(** What a call to a guest or the host does, whatever keys the machines hold:
    whether the key is gone, and the result. *)
Definition direct_outcome (key : string) (c : Call) : bool * result string unit :=
  match ValidatePublicKey key with
  | Err e => (false, Err ("temporary root cleanup key: " +:+ e))
  | Ok _ => (takes_effect c, match call_error c with None => Ok tt | Some e => Err ("revoke temporary root access: " +:+ e) end)
  end.

Definition fallback_call (t : Target) (c : AgentCall) : Call :=
  agent_call "revoke temporary root access in guest " " through Proxmox: " cleanup_reply (t_kind t) (t_vmid t) c.

Definition fallback_outcome (key : string) (t : Target) (c : AgentCall) : bool * result string unit :=
  if t_vmid t <=? 0 then (false, Err "temporary guest cleanup requires a positive guest VMID")
  else match ValidatePublicKey key with
  | Err e => (false, Err ("temporary guest cleanup key: " +:+ e))
  | Ok _ => (takes_effect (fallback_call t c), match call_error (fallback_call t c) with None => Ok tt | Some e => Err e end)
  end.

Definition drop_if (gone : bool) (m : Machine) (key : string) (keys : Keys) : Keys := if gone then remove_key m key keys else keys.

Lemma direct_run c m key keys : RevokeTemporaryRootAccess c m "root" key keys =
  (drop_if (direct_outcome key c).1 m key keys, (direct_outcome key c).2).
Proof. unfold RevokeTemporaryRootAccess, direct_outcome, key_guard. cbn. by destruct (ValidatePublicKey key) as [[]|e]. Qed.

Lemma fallback_run c t key keys : RevokeTemporaryRootAccessThroughHost c "root" (t_kind t) (t_vmid t) key keys =
  (drop_if (fallback_outcome key t c).1 (Guest (t_vmid t)) key keys, (fallback_outcome key t c).2).
Proof.
  unfold RevokeTemporaryRootAccessThroughHost, fallback_outcome, fallback_call. cbn.
  destruct (t_vmid t <=? 0); [done|]. cbn. by destruct (ValidatePublicKey key) as [[]|e].
Qed.

(** A call that reports success has removed the key. *)
Lemma direct_outcome_ok key c : (direct_outcome key c).2 = Ok tt → (direct_outcome key c).1 = true.
Proof. unfold direct_outcome, takes_effect. destruct (ValidatePublicKey key); [|done]. cbn. by destruct (call_error c). Qed.

Lemma fallback_outcome_ok key t c : (fallback_outcome key t c).2 = Ok tt → (fallback_outcome key t c).1 = true.
Proof.
  unfold fallback_outcome, takes_effect. destruct (t_vmid t <=? 0); [done|]. destruct (ValidatePublicKey key); [|done].
  destruct (call_error (fallback_call t c)); cbn [fst snd]; [intros Hc; discriminate Hc|done].
Qed.

(** Only the answer of the host itself is taken as proof of absence. *)
Lemma guard_texts_no_absence : reports_absence "temporary guest cleanup requires a positive guest VMID" = false
  ∧ reports_absence "temporary guest cleanup key: operator SSH public key must be a single OpenSSH public-key line" = false.
Proof. by vm_compute. Qed.

Lemma fallback_absence key t c e : (fallback_outcome key t c).2 = Err e → reports_absence e = true → call_error (fallback_call t c) = Some e.
Proof.
  destruct guard_texts_no_absence as [H1 H2]. unfold fallback_outcome. destruct (t_vmid t <=? 0).
  { intros [= <-]. by rewrite H1. }
  unfold ValidatePublicKey, fail_if. destruct (_ || _ || _).
  { intros [= <-]. change (_ +:+ _) with "temporary guest cleanup key: operator SSH public key must be a single OpenSSH public-key line". by rewrite H2. }
  cbn [snd]. destruct (call_error (fallback_call t c)); [|done]. by intros [= ->].
Qed.

(** ** Facts: the goroutines of a cleanup *)

Section tasks.
Context (key : string) (host hostRevoke : bool) (calls : RevokeCalls).

(** The goroutine at place [i] after [n] calls, and whether its guest's key is gone by then. *)
Definition task_next (i : nat) (t : Target) (state : TaskState) : TaskState :=
  (task_step key host hostRevoke calls i t state ∅).2.
Definition task_at (i : nat) (t : Target) (n : nat) : TaskState := Nat.iter n (task_next i t) Direct.
Definition task_removes (i : nat) (t : Target) (state : TaskState) : bool :=
  match state with
  | Direct => (direct_outcome key (rv_direct calls i)).1
  | Fallback _ => (fallback_outcome key t (rv_fallback calls i)).1
  | Finished _ => false
  end.
Fixpoint removed_at (i : nat) (t : Target) (n : nat) : bool :=
  match n with O => false | S n => removed_at i t n || task_removes i t (task_at i t n) end.

Lemma task_step_run i t state keys : task_step key host hostRevoke calls i t state keys =
  (drop_if (task_removes i t state) (Guest (t_vmid t)) key keys, task_next i t state).
Proof.
  unfold task_next. destruct state as [|e|e]; cbn [task_step task_removes]; [| |done].
  - rewrite !direct_run. by destruct (direct_outcome key (rv_direct calls i)).2 as [[]|].
  - rewrite !fallback_run. by destruct (fallback_outcome key t (rv_fallback calls i)).2 as [[]|].
Qed.

(** Two calls at most. *)
Lemma task_finished i t n : (2 ≤ n)%nat → task_at i t n = task_at i t 2 ∧ (∃ e, task_at i t 2 = Finished e) ∧ removed_at i t n = removed_at i t 2.
Proof.
  assert (∃ e, task_at i t 2 = Finished e) as [e He].
  { cbn. unfold task_next at 2. cbn [task_step]. rewrite direct_run. destruct (direct_outcome _ _) as [gone [[]|e]]; cbn; [by eexists|].
    destruct (hostRevoke && host); cbn; [|by eexists]. unfold task_next. cbn [task_step]. rewrite fallback_run.
    destruct (fallback_outcome _ _ _) as [gone' [[]|f]]; cbn; [by eexists|]. destruct (reports_absence f); by eexists. }
  intros Hn. assert (∀ m, task_at i t (m + 2) = Finished e ∧ removed_at i t (m + 2) = removed_at i t 2) as Hm.
  { induction m as [|m [IH1 IH2]]; [done|]. cbn [Nat.add removed_at]. rewrite IH1, IH2. cbn [task_removes]. rewrite orb_false_r.
    split; [|done]. change (task_at i t (S (m + 2))) with (task_next i t (task_at i t (m + 2))). by rewrite IH1. }
  replace n with (n - 2 + 2)%nat by lia. destruct (Hm (n - 2)%nat) as [-> ->]. split_and!; eauto.
Qed.

Definition calls_made (i : nat) (schedule : list nat) : nat := count_occ Nat.eq_dec schedule i.

(** The state of a cleanup after [schedule], whatever the interleaving. *)
Record tasks_at (targets : list Target) (keys0 : Keys) (schedule : list nat) (s : Keys * list TaskState) : Prop := {
  ta_states : s.2 = imap (fun i t => task_at i t (calls_made i schedule)) targets;
  ta_keys : ∀ x, x ∈ s.1 ↔ x ∈ keys0 ∧ ∀ i t, targets !! i = Some t → x = (Guest (t_vmid t), key) → removed_at i t (calls_made i schedule) = false;
}.

Lemma schedule_step_at targets keys0 schedule s i : tasks_at targets keys0 schedule s →
  tasks_at targets keys0 (schedule ++ [i]) (schedule_step key host hostRevoke calls targets s i).
Proof.
  intros [Hs Hk]. unfold schedule_step. rewrite Hs, list_lookup_imap.
  assert (∀ j, calls_made j (schedule ++ [i]) = calls_made j schedule + if decide (i = j) then 1 else 0)%nat as Hc.
  { intros j. unfold calls_made. rewrite count_occ_app. cbn. destruct (Nat.eq_dec i j), (decide (i = j)); congruence || done. }
  destruct (targets !! i) as [t|] eqn:Ht; cbn.
  - rewrite task_step_run. constructor; cbn.
    + apply list_eq. intros j. rewrite list_lookup_imap, Hc. destruct (decide (i = j)) as [<-|Hne].
      * rewrite list_lookup_insert_eq by (rewrite length_imap; by eapply lookup_lt_Some). rewrite Ht. cbn. by rewrite Nat.add_1_r.
      * rewrite list_lookup_insert_ne, list_lookup_imap, Nat.add_0_r by done. done.
    + intros x. split.
      * intros Hx. assert (x ∈ s.1 ∧ (task_removes i t (task_at i t (calls_made i schedule)) = true → x ≠ (Guest (t_vmid t), key))) as [Hx1 Hx2].
        { unfold drop_if, remove_key in Hx. destruct (task_removes _ _ _); set_solver. }
        apply Hk in Hx1 as [H0 Hx1]. split; [done|]. intros j t' Hj ->. rewrite Hc. destruct (decide (i = j)) as [<-|Hne].
        -- rewrite Ht in Hj. injection Hj as <-. rewrite Nat.add_1_r. cbn. rewrite (Hx1 i t Ht eq_refl). cbn.
           destruct (task_removes _ _ _); [by destruct Hx2|done].
        -- rewrite Nat.add_0_r. by apply Hx1.
      * intros [H0 Hx]. assert (x ∈ s.1) as Hin.
        { apply Hk. split; [done|]. intros j t' Hj Ex. specialize (Hx j t' Hj Ex). rewrite Hc in Hx. destruct (decide (i = j)) as [<-|]; [|by rewrite Nat.add_0_r in Hx].
          rewrite Nat.add_1_r in Hx. cbn in Hx. by apply orb_false_elim in Hx as [? _]. }
        unfold drop_if, remove_key. destruct (task_removes _ _ _) eqn:Er; [|done]. apply elem_of_difference. split; [done|].
        rewrite elem_of_singleton. intros Ex. specialize (Hx i t Ht Ex). rewrite Hc, decide_True, Nat.add_1_r in Hx by done. cbn in Hx.
        by rewrite Er, orb_true_r in Hx.
  - assert (∀ j t, targets !! j = Some t → calls_made j (schedule ++ [i]) = calls_made j schedule) as Hc'.
    { intros j t' Hj. rewrite Hc, decide_False, Nat.add_0_r by congruence. done. }
    constructor.
    + rewrite Hs. apply imap_ext. intros j t' Hj. by rewrite (Hc' j t').
    + intros x. rewrite Hk. split; intros [H0 Hx]; (split; [done|]); intros j t' Hj Ex; specialize (Hx j t' Hj Ex); by rewrite (Hc' j t') in *.
Qed.

Lemma run_tasks_at (targets : list Target) schedule keys : tasks_at targets keys (schedule ++ drain (length targets)) (run_tasks key host hostRevoke calls targets schedule keys).
Proof.
  unfold run_tasks. generalize (schedule ++ drain (length targets)). intros sch. induction sch as [|i sch IH] using rev_ind.
  - constructor; cbn.
    + induction targets as [|t ts IHt]; [done|]. cbn. f_equal. by rewrite IHt.
    + intros x. split; [|by intros [? _]]. done.
  - rewrite foldl_snoc. by apply schedule_step_at.
Qed.

Lemma drained_calls (targets : list Target) schedule i : (i < length targets)%nat → (2 ≤ calls_made i (schedule ++ drain (length targets)))%nat.
Proof.
  intros Hi. unfold calls_made, drain. rewrite !count_occ_app.
  assert (1 ≤ count_occ Nat.eq_dec (seq 0 (length targets)) i)%nat; [|lia].
  apply (count_occ_In Nat.eq_dec), in_seq. lia.
Qed.

(** All goroutines end, and what they leave does not depend on the interleaving. *)
Lemma run_tasks_result targets schedule keys keys' states : run_tasks key host hostRevoke calls targets schedule keys = (keys', states) →
  states = imap (fun i t => task_at i t 2) targets
  ∧ ∀ x, x ∈ keys' ↔ x ∈ keys ∧ ∀ i t, targets !! i = Some t → x = (Guest (t_vmid t), key) → removed_at i t 2 = false.
Proof.
  intros Hr. destruct (run_tasks_at targets schedule keys) as [Hs Hk]. rewrite Hr in Hs, Hk. cbn in Hs, Hk.
  assert (∀ i t, targets !! i = Some t → (2 ≤ calls_made i (schedule ++ drain (length targets)))%nat) as Hd.
  { intros i t Hi. by apply drained_calls, (lookup_lt_Some _ _ _ Hi). }
  split.
  - rewrite Hs. apply imap_ext. intros i t Hi. apply (proj1 (task_finished i t _ (Hd i t Hi))).
  - intros x. rewrite Hk. split; intros [H0 Hx]; (split; [done|]); intros i t Hi Ex; specialize (Hx i t Hi Ex);
      by rewrite (proj2 (proj2 (task_finished i t _ (Hd i t Hi)))) in *.
Qed.
End tasks.

End deploy.
End Deploy.
