(* ===== verification/Authority.v ===== *)
(** * Who holds the temporary key of a deployment

    The behaviour of the cleanup ([Deploy]) as a whole: what a revocation leaves
    for every interleaving of its goroutines, and a transition system of
    deployments that succeed, fail or are killed at any point, and of the
    recoveries that follow, over one site directory and its machines. *)

From S2P Require Import SiteOperation PxPlan PxAudit Deploy.
Import SiteOperation.
Open Scope Z_scope.

Module Authority.
Import Model PxGuest PxAudit Deploy.
#[local] Arguments read_host_key : simpl never.
#[local] Arguments rearm : simpl never.

Section authority.
Context `{unicode : GoUnicode, format : GoFormat}.

(** ** A revocation as a whole *)

Lemma errors_join_none errs : errors_join errs = None ↔ Forall (fun e => e = None) errs.
Proof.
  unfold errors_join. induction errs as [|[e|] errs IH]; cbn; [by split| |].
  - split; [by destruct (omap id errs)|]. inversion 1; congruence.
  - rewrite Forall_cons, <- IH. tauto.
Qed.

(** A goroutine that ends without an error has removed the key, or the host
    said that there is no such guest. *)
Lemma task_without_error key host hostRevoke calls i t : task_error (task_at key host hostRevoke calls i t 2) = None →
  removed_at key host hostRevoke calls i t 2 = true
  ∨ ∃ e, call_error (fallback_call t (rv_fallback calls i)) = Some e ∧ reports_absence e = true.
Proof.
  pose proof (direct_outcome_ok key (rv_direct calls i)) as Hd. pose proof (fallback_outcome_ok key t (rv_fallback calls i)) as Hf.
  pose proof (fallback_absence key t (rv_fallback calls i)) as Ha.
  change (task_at key host hostRevoke calls i t 2) with (task_next key host hostRevoke calls i t (task_next key host hostRevoke calls i t Direct)).
  change (removed_at key host hostRevoke calls i t 2) with ((direct_outcome key (rv_direct calls i)).1
    || task_removes key calls i t (task_next key host hostRevoke calls i t Direct)).
  unfold task_next. cbn [task_step]. rewrite direct_run.
  destruct (direct_outcome key (rv_direct calls i)) as [gone [[]|e]]; cbn in *.
  { intros _. left. by rewrite Hd. }
  destruct (hostRevoke && host); cbn; [|done]. rewrite fallback_run.
  destruct (fallback_outcome key t (rv_fallback calls i)) as [gone' [[]|f]]; cbn in *.
  { intros _. left. rewrite Hf by done. by rewrite orb_true_r. }
  destruct (reports_absence f) eqn:Hr; cbn; [|done]. intros _. right. eauto.
Qed.

(** The host's word that a guest does not exist is taken as proof that the
    guest does not hold the key: documented behaviour of [pct] and [qm]. *)
Definition absence_honest (calls : RevokeCalls) (guests : list GuestPlan) (key : string) (keys : Keys) : Prop :=
  ∀ i t e, targets_of guests !! i = Some t → call_error (fallback_call t (rv_fallback calls i)) = Some e →
    reports_absence e = true → (Guest (t_vmid t), key) ∉ keys.

(** What any revocation does: it only takes keys away, and only its own. *)
Lemma revocation_keys schedule calls guests key host hostRevoke keys keys' r :
  revokeTemporaryRootAccessForGuestsWithFallback schedule calls guests key host hostRevoke keys = (keys', r) →
  keys' ⊆ keys ∧ ∀ x, x ∈ keys → x.2 ≠ key → x ∈ keys'.
Proof.
  unfold revokeTemporaryRootAccessForGuestsWithFallback. destruct (_ && _); [intros [= <- _]; by split|].
  destruct (run_tasks _ _ _ _ _ _ _) as [keys1 states] eqn:Hr. apply run_tasks_result in Hr as [_ Hk].
  assert (keys1 ⊆ keys ∧ ∀ x, x ∈ keys → x.2 ≠ key → x ∈ keys1) as [H1 H2].
  { split; intros x Hx; [by apply Hk in Hx as [? _]|]. intros Hne. apply Hk. split; [done|]. by intros i t _ ->. }
  destruct host; [|by intros [= <- _]]. rewrite direct_run.
  intros E. assert (keys' = drop_if (direct_outcome key (rv_host calls)).1 Host key keys1) as ->.
  { destruct (direct_outcome key (rv_host calls)) as [gone [[]|e]]; by injection E. }
  unfold drop_if, remove_key. destruct (direct_outcome _ _).1; [|done]. split; [set_solver|].
  intros x Hx Hne. apply elem_of_difference. split; [by apply H2|]. rewrite elem_of_singleton. by intros ->.
Qed.

(** A revocation that reports success left the key on no target. *)
Lemma revocation_complete schedule calls guests key host keys keys' :
  revokeTemporaryRootAccessForGuestsWithFallback schedule calls guests key host true keys = (keys', Ok tt) →
  absence_honest calls guests key keys →
  (host = true → (Host, key) ∉ keys') ∧ ∀ t, t ∈ targets_of guests → (Guest (t_vmid t), key) ∉ keys'.
Proof.
  intros Hrun Hh. destruct (revocation_keys _ _ _ _ _ _ _ _ _ Hrun) as [Hsub _]. revert Hrun.
  unfold revokeTemporaryRootAccessForGuestsWithFallback. destruct (_ && _) eqn:Hnone.
  { intros _. apply andb_true_iff in Hnone as [Hlen ->%negb_true_iff]. split; [done|]. intros t Ht.
    destruct (targets_of guests); [by apply elem_of_nil in Ht|done]. }
  destruct (run_tasks _ _ _ _ _ _ _) as [keys1 states] eqn:Hr. apply run_tasks_result in Hr as [-> Hk].
  destruct (if host then _ else _) as [keys2 errs] eqn:Hhost. destruct (errors_join _) eqn:Hj; [by intros [=]|]. intros [= ->].
  apply errors_join_none in Hj as [Htasks Herrs]%Forall_app.
  assert (keys' ⊆ keys1 ∧ (host = true → (Host, key) ∉ keys')) as [H1 H2].
  { destruct host; [|by injection Hhost as <- _]. rewrite direct_run in Hhost. pose proof (direct_outcome_ok key (rv_host calls)) as Hd.
    destruct (direct_outcome key (rv_host calls)) as [gone [[]|e]]; cbn in *; injection Hhost as <- <-.
    - rewrite Hd by done. unfold drop_if, remove_key. set_solver.
    - apply Forall_inv in Herrs. done. }
  split; [done|]. intros t (i & Hi)%list_elem_of_lookup Hin.
  apply H1, Hk in Hin as [Hin Hrem]. specialize (Hrem i t Hi eq_refl).
  destruct (task_without_error key host true calls i t) as [Hrm|(e & He & Ha)]; [|congruence|].
  - rewrite Forall_forall in Htasks. apply Htasks. rewrite list_elem_of_lookup. exists i. by rewrite list_lookup_fmap, list_lookup_imap, Hi.
  - by apply (Hh i t e).
Qed.

(** C5. The goroutines that clean up the guests may be interleaved in any way:
    the machines that hold the key afterwards and the reported error do not
    depend on it. *)
Theorem revocation_schedule_independent schedule1 schedule2 calls guests key host hostRevoke keys :
  revokeTemporaryRootAccessForGuestsWithFallback schedule1 calls guests key host hostRevoke keys
  = revokeTemporaryRootAccessForGuestsWithFallback schedule2 calls guests key host hostRevoke keys.
Proof.
  unfold revokeTemporaryRootAccessForGuestsWithFallback. destruct (_ && _); [done|].
  destruct (run_tasks key host hostRevoke calls (targets_of guests) schedule1 keys) as [keys1 states1] eqn:H1.
  destruct (run_tasks key host hostRevoke calls (targets_of guests) schedule2 keys) as [keys2 states2] eqn:H2.
  apply run_tasks_result in H1 as [-> Hk1]. apply run_tasks_result in H2 as [-> Hk2].
  assert (keys1 = keys2) as ->; [|done]. apply set_eq. intros x. by rewrite Hk1, Hk2.
Qed.

(** ** Machines that hold a key

    A machine that holds a temporary key is named in the journal on disk, next
    to this key, or it is the managed firewall and the key is not the
    journal's. *)

Definition journal_of (dir : SiteDir) : option (string * list OperationGuest) :=
  match sd_operation dir with
  | Document st => Some (os_TemporaryPublicKey st, os_TemporaryCleanupGuests st)
  | _ => None
  end.

Definition recorded (dir : SiteDir) (m : Machine) (key : string) : Prop :=
  ∃ guests, journal_of dir = Some (key, guests) ∧ (m = Host ∨ ∃ g, g ∈ guests ∧ m = Guest (og_VMID g)).

(** [managed] tells whether sites with a managed firewall are deployed. *)
Definition left_behind (managed : bool) (dir : SiteDir) (m : Machine) (key : string) : Prop :=
  managed = true ∧ m = Guest ProxmoxVMID ∧ ∀ guests, journal_of dir ≠ Some (key, guests).

(** A state that a later run can clean up after: the digest lets it record the
    cleanup, the key passes the check of the calls that remove it. *)
Definition armed_well (st : OperationState) : Prop :=
  os_TemporaryPublicKey st ≠ "" → trim_space (os_PlanDigest st) ≠ "" ∧ ValidatePublicKey (os_TemporaryPublicKey st) = Ok tt.
Definition unarmed_phase (st : OperationState) : Prop :=
  os_TemporaryPublicKey st = "" → os_Phase st = PhasePlan ∨ os_Phase st = PhaseFailed.

Record dir_ok (dir : SiteDir) : Prop := {
  do_read : ∀ e, sd_operation dir ≠ Unreadable e;
  do_valid : ∀ st, sd_operation dir = Document st → validateOperationState st = Ok tt ∧ armed_well st ∧ unarmed_phase st;
}.

Record lab_ok (managed : bool) (lab : Lab) : Prop := {
  lo_dir : dir_ok (lb_dir lab);
  lo_keys : ∀ m k, (m, k) ∈ lb_keys lab → k ≠ "" ∧ (recorded (lb_dir lab) m k ∨ left_behind managed (lb_dir lab) m k);
}.

Lemma write_operation_ok st dir : dir_ok dir → validateOperationState st = Ok tt → armed_well st → unarmed_phase st →
  dir_ok (write_operation st dir).
Proof. intros [_ _] Hv Ha Hu. constructor; [done|]. by intros st' [= <-]. Qed.

Lemma remove_operation_ok dir : dir_ok (remove_operation dir).
Proof. by constructor. Qed.

(** Saving a state either keeps the journal or records the state's targets. *)
Lemma save_cases now w st dir dir' r : SaveOperationState now w st dir = (dir', r) → dir_ok dir → armed_well st → unarmed_phase st →
  dir_ok dir' ∧ (r = Ok tt → journal_of dir' = Some (os_TemporaryPublicKey st, os_TemporaryCleanupGuests st))
  ∧ (dir' = dir ∨ journal_of dir' = Some (os_TemporaryPublicKey st, os_TemporaryCleanupGuests st)).
Proof.
  intros [Hr Hd]%SaveOperationState_cases Hok Ha Hu. split; [|split; [|destruct Hd as [-> | [-> _]]; auto]].
  - destruct Hd as [-> | [-> Hv]]; [done|]. by apply write_operation_ok.
  - by intros ->%Hr.
Qed.

Lemma phase_cases w phase cause st dir dir' st' r : saveDeployOperationPhase w phase cause st dir = (dir', st', r) →
  dir_ok dir → armed_well st → (os_TemporaryPublicKey st = "" → phase = PhaseFailed) →
  st' = with_phase phase cause st ∧ dir_ok dir'
  ∧ (r = Ok tt → journal_of dir' = Some (os_TemporaryPublicKey st, os_TemporaryCleanupGuests st))
  ∧ (dir' = dir ∨ journal_of dir' = Some (os_TemporaryPublicKey st, os_TemporaryCleanupGuests st)).
Proof.
  unfold saveDeployOperationPhase. destruct (SaveOperationState _ _ _ _) as [dir1 r1] eqn:Hs. intros [= <- <- <-] Hok Ha Hu.
  split; [done|]. apply save_cases in Hs; [done..|]. intros Hk. right. by apply Hu.
Qed.

(** Removing keys, and any change of the directory that keeps the journal's targets. *)
Lemma lab_ok_mono managed dir keys dir' keys' : lab_ok managed (mkLab dir keys) → dir_ok dir' → journal_of dir' = journal_of dir →
  keys' ⊆ keys → lab_ok managed (mkLab dir' keys').
Proof.
  intros [_ Hk] Hd Hj Hsub. constructor; [done|]. cbn in *. intros m k Hin. destruct (Hk m k) as [Hne Hor]; [by apply Hsub|].
  split; [done|]. unfold recorded, left_behind in *. by rewrite Hj.
Qed.

(** The keys that no journal names any more. *)
Definition only_left_behind (managed : bool) (lab : Lab) : Prop :=
  ∀ m k, (m, k) ∈ lb_keys lab → k ≠ "" ∧ left_behind managed (lb_dir lab) m k.

Lemma only_left_behind_ok managed lab : dir_ok (lb_dir lab) → only_left_behind managed lab → lab_ok managed lab.
Proof. intros Hd Ho. constructor; [done|]. intros m k Hin. destruct (Ho m k Hin). auto. Qed.

Lemma only_left_behind_keyless managed dir keys : lab_ok managed (mkLab dir keys) → (∀ k guests, journal_of dir = Some (k, guests) → k = "") →
  only_left_behind managed (mkLab dir keys).
Proof.
  intros [_ Hk] Hj m k Hin. destruct (Hk m k Hin) as [Hne [(guests & Hr & _)|Hl]]; [|done]. by apply Hj in Hr.
Qed.

(** Clearing the journal when only such keys are left. *)
Lemma clear_cases managed c dir dir' r keys : ClearOperationState c dir = (dir', r) → dir_ok dir → only_left_behind managed (mkLab dir keys) →
  dir_ok dir' ∧ only_left_behind managed (mkLab dir' keys) ∧ (r = Ok tt → sd_operation dir' = Missing).
Proof.
  intros H Hd Ho. apply attempt_cases in H as [[-> ->]|(e & _ & -> & [-> | ->])]; (split; [by try apply remove_operation_ok|split]); try done.
  all: intros m k Hin; destruct (Ho m k Hin) as [Hne (Hm & Hg & _)];
    (split; [done|]); (split; [done|]); (split; [done|]); intros guests E; discriminate E.
Qed.

(** ** Recovery *)

(** The journaled guests become targets, each one. *)
Lemma operationGuestPlans_targets gs : Forall (fun g => guest_ok g = Ok tt) gs →
  ∃ plans, operationGuestPlans gs = Ok plans ∧ ∀ g, g ∈ gs → ∃ t, t ∈ targets_of plans ∧ t_vmid t = og_VMID g.
Proof.
  induction 1 as [|g gs Hg _ (plans & Hp & Ht)].
  { exists []. split; [done|]. intros g Hg. by apply elem_of_nil in Hg. }
  unfold guest_ok in Hg. apply bind_ok in Hg as ([] & Hid%fail_if_ok & ([] & Hkind%fail_if_ok & _)%bind_ok).
  assert (∃ p, (if og_Kind g == "qemu" then Ok (bare_guest (og_VMID g) (og_Name g) "" KindQEMU (og_Address g) "boetticher/recovery")
    else if og_Kind g == "lxc" then Ok (bare_guest (og_VMID g) (og_Name g) "" KindLXC (og_Address g) "boetticher/recovery")
    else Err ("unsupported temporary cleanup guest kind " +:+ quoted (og_Kind g))) = Ok p
    ∧ g_VMID p = og_VMID g ∧ g_Address p = og_Address g ∧ g_Owner p = "boetticher/recovery") as (p & Ep & Ev & Ea & Eo).
  { destruct (og_Kind g == "qemu") eqn:E1; [by eexists|]. destruct (og_Kind g == "lxc") eqn:E2; [by eexists|]. done. }
  bools.
  exists (p :: plans). split.
  - unfold operationGuestPlans in *. cbn [collect]. rewrite Ep. cbn. by rewrite Hp.
  - assert (targets_of (p :: plans) = mkTarget (g_Name p) (g_Address p) (g_Kind p) (g_VMID p) :: targets_of plans) as ->.
    { assert (negb ((g_Owner p == "") || (g_Address p == "")) = true) as Ef by (rewrite Ea, Eo, (bool_decide_false (og_Address g = "")); done).
      unfold targets_of. cbn [List.filter]. by rewrite Ef. }
    intros x [-> |Hx]%elem_of_cons; [eexists; split; [by left|done]|]. destruct (Ht x Hx) as (t & ? & ?). exists t. split; [by right|done].
Qed.

Definition recovery_honest (calls : RecoverCalls) (lab : Lab) : Prop :=
  ∀ st guests, sd_operation (lb_dir lab) = Document st → operationGuestPlans (os_TemporaryCleanupGuests st) = Ok guests →
    absence_honest (rk_revoke calls) guests (os_TemporaryPublicKey st) (lb_keys lab).

Lemma load_cases read dir r : dir_ok dir → LoadOperationState read dir = r →
  (∃ e, r = Err e) ∨ (r = Ok None ∧ sd_operation dir = Missing) ∨ (∃ st, r = Ok (Some st) ∧ sd_operation dir = Document st).
Proof.
  intros [Hr Hv] <-. unfold LoadOperationState. destruct read as [e|]; [by left; eexists|].
  destruct (sd_operation dir) as [|e|st] eqn:E; [auto|by destruct (Hr e)|].
  destruct (Hv st) as [-> _]; [done|]. eauto.
Qed.

Lemma recover_lab managed calls s lab lab' r : lab_ok managed lab → recovery_honest calls lab →
  recoverInterruptedDeployment calls s lab = (lab', r) →
  lab_ok managed lab' ∧ (r = Ok tt → sd_operation (lb_dir lab') = Missing ∧ only_left_behind managed lab').
Proof.
  intros Hok Hh. destruct lab as [dir keys]. unfold recoverInterruptedDeployment, recoverInterruptedDeploymentWith. cbn [lb_dir lb_keys].
  pose proof (lo_dir _ _ Hok) as Hd. cbn in Hd.
  destruct (load_cases (rk_read calls) dir _ Hd eq_refl) as [[e ->]|[[-> Hmiss]|(st & -> & Hst)]].
  { by intros [= <- <-]. }
  { intros [= <- <-]. split; [done|]. intros _. split; [done|]. apply only_left_behind_keyless; [done|].
    unfold journal_of. by rewrite Hmiss. }
  destruct (do_valid _ Hd st Hst) as (Hv & Ha & Hu).
  destruct (os_TemporaryPublicKey st == "") eqn:Ekey; bools.
  - destruct (_ && _); [by intros [= <- <-]|]. unfold wrap_err, on_dir. cbn [lb_dir lb_keys].
    destruct (ClearOperationState _ _) as [dir' r'] eqn:Hc. intros [= <- <-].
    apply (clear_cases managed _ _ _ _ keys) in Hc as (Hd' & Ho & Hr); [|done|].
    + split; [by apply only_left_behind_ok|]. intros Hr'. split; [|done]. apply Hr. destruct r' as [[]|]; [done|discriminate Hr'].
    + apply only_left_behind_keyless; [done|]. unfold journal_of. rewrite Hst. congruence.
  - destruct (_ != _); [by intros [= <- <-]|].
    destruct (operationGuestPlans_targets (os_TemporaryCleanupGuests st)) as (plans & Hp & Ht); [by apply valid_guests|].
    rewrite Hp. destruct (saveDeployOperationPhase _ _ _ _ _) as [[dir1 st1] journalErr] eqn:Hs.
    apply phase_cases in Hs as (-> & Hd1 & _ & Hj1); [|done..|congruence]. cbn [with_phase os_TemporaryPublicKey].
    assert (journal_of dir = Some (os_TemporaryPublicKey st, os_TemporaryCleanupGuests st)) as Hj by (unfold journal_of; by rewrite Hst).
    assert (journal_of dir1 = journal_of dir) as Hj1' by (destruct Hj1 as [-> | ->]; congruence).
    destruct (revokeTemporaryRootAccessForGuestsWithFallback _ _ _ _ _ _ _) as [keys1 cleanupErr] eqn:Hrev.
    destruct (revocation_keys _ _ _ _ _ _ _ _ _ Hrev) as [Hsub _].
    assert (lab_ok managed (mkLab dir1 keys1)) as Hok1 by (by apply (lab_ok_mono _ dir keys)).
    destruct cleanupErr as [[]|ce].
    + assert (only_left_behind managed (mkLab dir1 keys1)) as Ho1.
      { destruct (revocation_complete _ _ _ _ _ _ _ Hrev) as [Hhost Hguests]; [by apply Hh|].
        intros m k Hin. destruct (lo_keys _ _ Hok1 m k Hin) as [Hne [(gs & Hjk & Hm)|Hl]]; [|done]. cbn in *.
        rewrite Hj1', Hj in Hjk. injection Hjk as <- <-. destruct Hm as [-> |(g & Hg & ->)]; [by destruct Hhost|].
        destruct (Ht g Hg) as (t & Htt & Ev). rewrite <- Ev in Hin. by destruct (Hguests t Htt). }
      destruct journalErr as [[]|je]; [|by intros [= <- <-]]. unfold wrap_err, on_dir. cbn [lb_dir lb_keys].
      destruct (ClearOperationState _ _) as [dir' r'] eqn:Hc. intros [= <- <-].
      apply (clear_cases managed _ _ _ _ keys1) in Hc as (Hd' & Ho & Hr); [|done..].
      split; [by apply only_left_behind_ok|]. intros Hr'. split; [|done]. apply Hr. destruct r' as [[]|]; [done|discriminate Hr'].
    + destruct (saveDeployOperationPhase _ PhaseFailed _ _ _) as [[dir2 st2] fe] eqn:Hs2.
      apply phase_cases in Hs2 as (_ & Hd2 & _ & Hj2); [|done|done|done]. cbn in Hj2.
      intros [= <- <-]. split; [|done]. apply (lab_ok_mono _ dir1 keys1); [done..| |done]. destruct Hj2 as [-> | ->]; congruence.
Qed.

(** ** Deployments *)

(** A site and its plan: the managed firewall is one of the plan's guests, and
    guests of one name are one guest. *)
Record deployable (managed : bool) (s : Site) (plan : Plan) : Prop := {
  dy_managed : gw_Mode (s_Gateway s) = "managed" →
    managed = true ∧ ∃ g, g ∈ p_Guests plan ∧ g_VMID g = ProxmoxVMID ∧ g_Owner g ≠ "";
  dy_names : ∀ a b, a ∈ authorityGuests s plan → b ∈ authorityGuests s plan → g_Name a = g_Name b → g_VMID a = g_VMID b;
}.

(** The machines that a running deployment may have given its key to. *)
Record armed_ok (managed : bool) (lab : Lab) (d : Deployment) (c : temporaryRootCleanup) : Prop := {
  ar_key : rc_operatorPublicKey c = os_TemporaryPublicKey (dp_state d) ∧ os_TemporaryPublicKey (dp_state d) ≠ "";
  ar_host : rc_host c = true;
  ar_guests : ∀ g, g ∈ rc_guests c → g ∈ authorityGuests (dp_site d) (dp_plan d);
  ar_names : rc_guestNames c = list_to_set (map g_Name (rc_guests c));
  ar_plan : operationCleanupGuests (dp_plan d) = Ok (os_TemporaryCleanupGuests (dp_state d));
  ar_journal : journal_of (lb_dir lab) = Some (os_TemporaryPublicKey (dp_state d), os_TemporaryCleanupGuests (dp_state d));
  ar_keys : ∀ m k, (m, k) ∈ lb_keys lab → k ≠ "" ∧ (left_behind managed (lb_dir lab) m k
    ∨ (k = os_TemporaryPublicKey (dp_state d) ∧ (m = Host ∨ ∃ g, g ∈ rc_guests c ∧ m = Guest (g_VMID g))));
}.

Record run_ok (managed : bool) (lab : Lab) (d : Deployment) : Prop := {
  ro_site : deployable managed (dp_site d) (dp_plan d);
  ro_state : armed_well (dp_state d);
  ro_run : match dp_cleanup d with
    | None => only_left_behind managed lab ∧ ∀ m, (m, os_TemporaryPublicKey (dp_state d)) ∉ lb_keys lab
    | Some c => armed_ok managed lab d c
    end;
}.

Record World := mkWorld { w_lab : Lab; w_run : option Deployment }.

Definition world_ok (managed : bool) (w : World) : Prop :=
  lab_ok managed (w_lab w) ∧ ∀ d, w_run w = Some d → run_ok managed (w_lab w) d.

(** What the environment gives a deployment: a digest that is not blank, a key
    that no machine holds yet and that passes the check. *)
Definition arms_well (i : ArmInputs) (lab : Lab) : Prop :=
  trim_space (ai_digest i) ≠ "" ∧ ∀ private key, ai_identity i = Ok (private, key) →
    key ≠ "" ∧ ValidatePublicKey key = Ok tt ∧ ∀ m, (m, key) ∉ lb_keys lab.

Inductive step (managed : bool) : World → World → Prop :=
| step_begin calls early w s plan runID revision digest lab lab' r :
    deployable managed s plan → recovery_honest calls lab →
    beginDeployment calls early w s plan runID revision digest lab = (lab', r) →
    step managed (mkWorld lab None) (mkWorld lab' match r with Ok d => Some d | Err _ => None end)
| step_arm i d lab d' lab' r :
    dp_cleanup d = None → arms_well i lab → armDeployment i d lab = (d', lab', r) →
    step managed (mkWorld lab (Some d)) (mkWorld lab' (Some d'))
| step_guest w g d lab d' lab' r :
    g ∈ authorityGuests (dp_site d) (dp_plan d) → establishGuest w g d lab = (d', lab', r) →
    step managed (mkWorld lab (Some d)) (mkWorld lab' (Some d'))
| step_verify w d lab d' lab' r :
    dp_cleanup d ≠ None → recordVerify w d lab = (d', lab', r) →
    step managed (mkWorld lab (Some d)) (mkWorld lab' (Some d'))
| step_finish calls operationErr d lab lab' err :
    (operationErr = None → dp_cleanup d ≠ None) →
    (∀ c, dp_cleanup d = Some c → absence_honest (fc_revoke calls) (rc_guests c) (rc_operatorPublicKey c) (lb_keys lab)) →
    finishDeployment calls operationErr d lab = (lab', err) →
    step managed (mkWorld lab (Some d)) (mkWorld lab' None)
| step_killed d lab :
    step managed (mkWorld lab (Some d)) (mkWorld lab None).

Definition no_lab : Lab := mkLab (mkDir Missing Missing) ∅.

Inductive reachable (managed : bool) : World → Prop :=
| reachable_start : reachable managed (mkWorld no_lab None)
| reachable_step w w' : reachable managed w → step managed w w' → reachable managed w'.

(** *** Beginning *)

Lemma begin_ok managed calls early w s plan runID revision digest lab lab' r :
  lab_ok managed lab → deployable managed s plan → recovery_honest calls lab →
  beginDeployment calls early w s plan runID revision digest lab = (lab', r) →
  lab_ok managed lab' ∧ ∀ d, r = Ok d → run_ok managed lab' d.
Proof.
  intros Hok Hdep Hh. unfold beginDeployment. unfold mbind, M_bind.
  destruct (recoverInterruptedDeployment calls s lab) as [lab1 r1] eqn:Hrec.
  destruct (recover_lab managed _ _ _ _ _ Hok Hh Hrec) as [Hok1 Hdone].
  destruct r1 as [[]|e]; [|by intros [= <- <-]]. destruct Hdone as [Hmiss Ho]; [done|].
  destruct early as [e|]; [by intros [= <- <-]|]. cbn [of_result mret M_ret].
  unfold wrap_err, on_dir. destruct (SaveOperationState _ _ _ _) as [dir' r'] eqn:Hs.
  apply save_cases in Hs as (Hd' & _ & Hj); [|apply Hok1|by intros []|by left].
  assert (only_left_behind managed (mkLab dir' (lb_keys lab1))) as Ho'.
  { intros m k Hin. destruct (Ho m k Hin) as [Hne (Hm & Hg & Hno)]. split; [done|]. split; [done|]. split; [done|].
    intros guests E. cbn in E. destruct Hj as [-> |Hj]; [by destruct (Hno guests)|]. cbn in Hj. rewrite Hj in E. injection E as E _. by symmetry in E. }
  assert (lab_ok managed (mkLab dir' (lb_keys lab1))) as Hok' by by apply only_left_behind_ok.
  destruct r' as [[]|e]; intros [= <- <-]; (split; [done|]); [|done].
  intros d [= <-]. constructor; [done|by intros []|]. split; [done|]. cbn. intros m Hin. by destruct (Ho' m _ Hin) as [[] _].
Qed.

(** *** Arming *)

Lemma collect_member {E A B : Type} (f : A → result E B) xs ys x : collect f xs = Ok ys → x ∈ xs → ∃ y, y ∈ ys ∧ f x = Ok y.
Proof.
  intros Hc%collect_ok Hx. apply list_elem_of_lookup in Hx as (i & Hi). destruct (Forall2_lookup_l _ _ _ _ _ Hc Hi) as (y & Hy & Hf).
  exists y. split; [by eapply list_elem_of_lookup_2|done].
Qed.

(** The journal names every owned guest of the plan, each with an address. *)
Lemma cleanup_guests_named plan gs g : operationCleanupGuests plan = Ok gs → g ∈ p_Guests plan → g_Owner g ≠ "" →
  g_Address g ≠ "" ∧ ∃ og, og ∈ gs ∧ og_VMID og = g_VMID g.
Proof.
  intros Hc Hg Ho. eapply collect_member in Hc as (og & Hin & Hf).
  2: { rewrite list_elem_of_In, filter_In, <- list_elem_of_In. split; [done|]. by rewrite bool_decide_false. }
  cbn beta in Hf. destruct (_ || _ || _) eqn:E; [done|]. injection Hf as <-. bools. split; [done|]. by eexists.
Qed.

(** A guest that gets root access is the plan's, or the managed firewall. *)
Lemma authority_cases s plan g : g ∈ authorityGuests s plan →
  (gw_Mode (s_Gateway s) = "managed" ∧ g = firewallGuest) ∨ (g ∈ p_Guests plan ∧ g_Owner g ≠ "").
Proof.
  unfold authorityGuests. intros [H|H]%elem_of_app.
  - left. destruct (gw_Mode _ == "managed") eqn:E; bools; [|by apply elem_of_nil in H]. split; [done|]. by apply list_elem_of_singleton in H.
  - right. apply list_elem_of_In, in_flat_map in H as (module & _ & H%filter_In). destruct H as [Hin Hf]. split; [by apply list_elem_of_In|].
    apply andb_true_iff in Hf as [Hf _]. bools. rewrite Hf. by destruct module.
Qed.

Lemma authority_recorded managed s plan gs g : deployable managed s plan → operationCleanupGuests plan = Ok gs → g ∈ authorityGuests s plan →
  ∃ og, og ∈ gs ∧ og_VMID og = g_VMID g.
Proof.
  intros Hd Hc [[Hm ->]|[Hin Ho]]%authority_cases; [|by destruct (cleanup_guests_named plan gs g) as [_ ?]].
  destruct (dy_managed _ _ _ Hd Hm) as (_ & f & Hf & Ev & Hfo). change (g_VMID firewallGuest) with ProxmoxVMID. rewrite <- Ev.
  by destruct (cleanup_guests_named plan gs f) as [_ ?].
Qed.

Lemma armed_lab managed lab d c : deployable managed (dp_site d) (dp_plan d) → dir_ok (lb_dir lab) → armed_ok managed lab d c → lab_ok managed lab.
Proof.
  intros Hdep Hd Ha. constructor; [done|]. intros m k Hin. destruct (ar_keys _ _ _ _ Ha m k Hin) as [Hne [Hl|[-> Hm]]]; split; auto.
  left. eexists. split; [apply (ar_journal _ _ _ _ Ha)|]. destruct Hm as [-> |(g & Hg & ->)]; [by left|right].
  apply (ar_guests _ _ _ _ Ha) in Hg. destruct (authority_recorded _ _ _ _ _ Hdep (ar_plan _ _ _ _ Ha) Hg) as (og & ? & <-). eauto.
Qed.

Lemma arm_ok managed i d lab d' lab' r : lab_ok managed lab → run_ok managed lab d → dp_cleanup d = None → arms_well i lab →
  armDeployment i d lab = (d', lab', r) → lab_ok managed lab' ∧ run_ok managed lab' d'.
Proof.
  intros Hok [Hdep Hst Hrun] Hc [Hdig Hid]. rewrite Hc in Hrun. destruct Hrun as [Ho Hfresh].
  assert (∀ key host guests, os_TemporaryPublicKey (dp_state d) = key → run_ok managed lab (mkDeployment (dp_site d) (dp_plan d)
    (mkOperation (os_Version (dp_state d)) (os_ID (dp_state d)) (os_Kind (dp_state d)) PhaseApply (os_ModelRevision (dp_state d)) (ai_digest i) (ai_bundle i)
    (os_StartedAt (dp_state d)) (os_UpdatedAt (dp_state d)) (os_Error (dp_state d)) key host guests) (dp_cleanup d))) as Hsame.
  { intros key host guests <-. constructor; [done| |by rewrite Hc]. cbn. intros Hne. split; [done|]. by apply Hst. }
  unfold armDeployment. cbn [dp_site dp_plan dp_state dp_cleanup].
  destruct (_ && _). { intros [= <- <- <-]. split; [done|]. by apply Hsame. }
  destruct (ai_operatorKey i). { intros [= <- <- <-]. split; [done|]. by apply Hsame. }
  destruct (ai_identity i) as [[private key]|e] eqn:Hident. 2: { intros [= <- <- <-]. split; [done|]. by apply Hsame. }
  destruct (operationCleanupGuests (dp_plan d)) as [gs|e] eqn:Hgs. 2: { intros [= <- <- <-]. split; [done|]. by apply Hsame. }
  destruct (Hid private key eq_refl) as (Hkne & Hkv & Hkf).
  destruct (SaveOperationState _ _ _ _) as [dir' rs] eqn:Hs. apply save_cases in Hs as (Hd' & Hj & Hj'); [|apply Hok|by intros _|by intros ?].
  cbn in Hj, Hj'.
  assert (only_left_behind managed (mkLab dir' (lb_keys lab))) as Ho'.
  { intros m k Hin. destruct (Ho m k Hin) as [Hne (Hm & Hg & Hno)]. split; [done|]. split; [done|]. split; [done|].
    intros guests E. cbn in E. destruct Hj' as [-> |Hj']; [by destruct (Hno guests)|]. rewrite Hj' in E. injection E as -> _. by destruct (Hkf m). }
  destruct rs as [[]|e].
  - specialize (Hj eq_refl). unfold InstallTemporaryRootAccess. cbn. rewrite Hkv. cbn.
    intros [= <- <- _]. set (keys' := if takes_effect (ai_install i) then _ else _).
    assert (∀ x, x ∈ keys' → x ∈ lb_keys lab ∨ x = (Host, key)) as Hkeys.
    { subst keys'. intros x. destruct (takes_effect _); [|by left]. unfold add_key. set_solver. }
    assert (armed_ok managed (mkLab dir' keys') (mkDeployment (dp_site d) (dp_plan d)
      (mkOperation (os_Version (dp_state d)) (os_ID (dp_state d)) (os_Kind (dp_state d)) PhaseApply (os_ModelRevision (dp_state d)) (ai_digest i) (ai_bundle i)
      (os_StartedAt (dp_state d)) (os_UpdatedAt (dp_state d)) (os_Error (dp_state d)) key (s_BootstrapAddress (dp_site d)) gs)
      (Some (hostEstablished (newTemporaryRootCleanup key private)))) (hostEstablished (newTemporaryRootCleanup key private))) as Ha.
    { constructor; try done; cbn.
      - intros g Hg. by apply elem_of_nil in Hg.
      - intros m k [Hin|[= -> ->]]%Hkeys; [|by split; auto]. destruct (Ho' m k Hin). auto. }
    split; [|constructor; [done|by intros _|done]]. by refine (armed_lab _ _ _ _ _ _ Ha).
  - intros [= <- <- _]. split; [by apply only_left_behind_ok|]. constructor; [done|by intros _|]. cbn. rewrite Hc. done.
Qed.

(** *** Guests *)

Lemma guestEstablished_idem g c : guestEstablished g (guestEstablished g c) = guestEstablished g c.
Proof.
  unfold guestEstablished at 2. destruct (bool_decide _) eqn:E; unfold guestEstablished; cbn; [by rewrite E|].
  rewrite E. cbn. rewrite bool_decide_true by set_solver. done.
Qed.

(** Waiting for a guest gives the key to this guest at most. *)
Lemma rearm_keys mark w guest key n i last s s' r : (∀ c, mark (mark c) = mark c) → mark s.2 = s.2 →
  rearm n i last guest key mark w s = (s', r) →
  s'.2 = s.2 ∧ ∀ x, x ∈ s'.1 → x ∈ s.1 ∨ x = (Guest (g_VMID guest), key).
Proof.
  intros Hidem. revert i last s. induction n as [|n IH]; intros i last [keys c] Hm; unfold rearm; fold rearm.
  { intros [= <- _]. by split; auto. }
  cbn [fst snd] in *. destruct (if (0 <? i)%nat then _ else _); [intros [= <- _]; by split; auto|].
  unfold RestoreTemporaryRootAccess. cbn. destruct (g_VMID guest <=? 0); [cbn; intros H; by apply IH in H|]. cbn.
  destruct (ValidatePublicKey key); [|cbn; intros H; by apply IH in H]. cbn.
  set (restored := agent_call _ _ _ _ _ _). clearbody restored. unfold attempt, takes_effect.
  assert (∀ x, x ∈ add_key (Guest (g_VMID guest)) key keys → x ∈ keys ∨ x = (Guest (g_VMID guest), key)) as Hadd by (unfold add_key; set_solver).
  destruct (call_error restored) as [e|].
  - intros H. apply IH in H as [H1 H2]; [|done]. split; [done|]. intros x [Hx|]%H2; [|by right]. cbn in Hx. destruct (call_effect restored); auto.
  - rewrite Hm. destruct (rw_retry w _) as [e|]; [|intros [= <- _]; by split; auto].
    intros H. apply IH in H as [H1 H2]; [|done]. split; [done|]. intros x [Hx|]%H2; [|by right]. auto.
Qed.

Lemma wait_keys guest key alias w keys c s' r :
  waitForDeploymentRoot guest key alias (guestEstablished guest) w (keys, guestEstablished guest c) = (s', r) →
  s'.2 = guestEstablished guest c ∧ ∀ x, x ∈ s'.1 → x ∈ keys ∨ x = (Guest (g_VMID guest), key).
Proof.
  unfold waitForDeploymentRoot, mbind, M_bind, of_result, fail_if. cbn. destruct (_ || _); [intros [= <- _]; by split; auto|]. cbn.
  destruct (read_host_key 29 0 w); [|intros [= <- _]; by split; auto]. cbn.
  destruct (rw_pin w); [intros [= <- _]; by split; auto|]. destruct (rw_first w).
  - intros H. apply rearm_keys in H; [done| |]; intros; apply guestEstablished_idem.
  - cbn. rewrite guestEstablished_idem. intros [= <- _]. by split; auto.
Qed.

Lemma guest_armed managed w g lab d c keys cleanup r : deployable managed (dp_site d) (dp_plan d) → armed_ok managed lab d c →
  g ∈ authorityGuests (dp_site d) (dp_plan d) →
  waitForDeploymentRoot g (rc_operatorPublicKey c) (g_Hostname g +:+ "." +:+ n_Domain (s_Network (dp_site d))) (guestEstablished g) w
    (lb_keys lab, guestEstablished g c) = ((keys, cleanup), r) →
  armed_ok managed (mkLab (lb_dir lab) keys) (mkDeployment (dp_site d) (dp_plan d) (dp_state d) (Some cleanup)) cleanup.
Proof.
  intros Hdep [[Hk Hne] Hhost Hgs Hnames Hplan Hj Hkeys] Hg Hw. apply wait_keys in Hw as [Hc Hin]. cbn [fst snd] in Hc, Hin. subst cleanup.
  assert (∃ x, x ∈ rc_guests (guestEstablished g c) ∧ g_VMID x = g_VMID g) as (x & Hx & Ex).
  { unfold guestEstablished. destruct (bool_decide _) eqn:E; bools; [|exists g; split; [cbn; set_solver|done]].
    rewrite Hnames, elem_of_list_to_set in E. apply list_elem_of_fmap in E as (x & En & Hx). exists x. split; [done|].
    apply (dy_names _ _ _ Hdep); auto. }
  assert (∀ y, y ∈ rc_guests c → y ∈ rc_guests (guestEstablished g c)) as Hmono.
  { intros y Hy. unfold guestEstablished. destruct (bool_decide _); [done|]. cbn. set_solver. }
  constructor; cbn; try done.
  - unfold guestEstablished. by destruct (bool_decide _).
  - unfold guestEstablished. by destruct (bool_decide _).
  - unfold guestEstablished. destruct (bool_decide _); [done|]. cbn. intros y [Hy| ->%list_elem_of_singleton]%elem_of_app; auto.
  - unfold guestEstablished. destruct (bool_decide _); [done|]. cbn. rewrite map_app, list_to_set_app_L, Hnames. cbn. set_solver.
  - intros m k [Hmk|[= -> ->]]%Hin.
    + destruct (Hkeys m k Hmk) as [? [?|[? [?|(y & ? & ?)]]]]; split; eauto 7.
    + rewrite Hk. split; [done|]. right. split; [done|]. right. exists x. split; [done|]. by rewrite Ex.
Qed.

(** *** The end *)

(** The directory after a save, as far as the machines are concerned. *)
Lemma phase_journal w phase cause st dir dir' st' r : saveDeployOperationPhase w phase cause st dir = (dir', st', r) →
  dir_ok dir → armed_well st → (os_TemporaryPublicKey st = "" → phase = PhaseFailed) →
  journal_of dir = Some (os_TemporaryPublicKey st, os_TemporaryCleanupGuests st) →
  st' = with_phase phase cause st ∧ dir_ok dir' ∧ journal_of dir' = journal_of dir.
Proof.
  intros H Hd Ha Hp Hj. apply phase_cases in H as (-> & Hd' & _ & Hj'); [|done..]. split; [done|]. split; [done|]. by destruct Hj' as [-> | ->].
Qed.

Lemma run_moved managed lab d dir' keys' c phase cause : armed_ok managed lab d c → journal_of dir' = journal_of (lb_dir lab) → keys' ⊆ lb_keys lab →
  armed_ok managed (mkLab dir' keys') (mkDeployment (dp_site d) (dp_plan d) (with_phase phase cause (dp_state d)) (dp_cleanup d)) c.
Proof.
  intros [Hk Hhost Hgs Hnames Hplan Hj Hkeys] Hjj Hsub. constructor; cbn; try done; [by rewrite Hjj|].
  intros m k Hin. destruct (Hkeys m k) as [Hne [Hl|Hr]]; [by apply Hsub|split; [done|left]|split; [done|by right]].
  unfold left_behind in *. by rewrite Hjj.
Qed.

(** What a revocation of the registered guests leaves: the managed firewall,
    which is registered without an owner. *)
Lemma revoke_leaves managed schedule calls lab d c keys : deployable managed (dp_site d) (dp_plan d) → armed_ok managed lab d c →
  absence_honest calls (rc_guests c) (rc_operatorPublicKey c) (lb_keys lab) →
  revoke schedule calls c (lb_keys lab) = (keys, Ok tt) →
  ∀ m k, (m, k) ∈ keys → k ≠ "" ∧ managed = true ∧ m = Guest ProxmoxVMID.
Proof.
  intros Hdep [[Hk Hne] Hhost Hgs Hnames Hplan Hj Hkeys] Hh. unfold revoke. rewrite Hhost. cbn [negb andb]. intros Hrun m k Hin.
  destruct (revocation_keys _ _ _ _ _ _ _ _ _ Hrun) as [Hsub _]. destruct (revocation_complete _ _ _ _ _ _ _ Hrun Hh) as [Hh1 Hg1].
  destruct (Hkeys m k) as [Hkne [(Hm & Hv & _)|[-> Hm]]]; [by apply Hsub|done|]. split; [done|]. rewrite Hk in *.
  destruct Hm as [-> |(g & Hg & ->)]; [by destruct Hh1|].
  destruct (authority_cases _ _ _ (Hgs g Hg)) as [[Hmode ->]|[Hpg Ho]].
  { split; [by destruct (dy_managed _ _ _ Hdep Hmode)|done]. }
  exfalso. destruct (cleanup_guests_named _ _ _ Hplan Hpg Ho) as [Ha _].
  apply (Hg1 (mkTarget (g_Name g) (g_Address g) (g_Kind g) (g_VMID g))); [|done].
  unfold targets_of. apply list_elem_of_In, in_map_iff. exists g. split; [done|]. apply filter_In.
  split; [by apply list_elem_of_In|]. by rewrite !bool_decide_false.
Qed.

(** Committing when only the managed firewall can hold the key. *)
Lemma commit_ok managed calls st dir keys dir' st' r : runCommit calls st dir = (dir', st', r) → dir_ok dir → lab_ok managed (mkLab dir keys) →
  armed_well st → os_TemporaryPublicKey st ≠ "" → journal_of dir = Some (os_TemporaryPublicKey st, os_TemporaryCleanupGuests st) →
  (∀ m k, (m, k) ∈ keys → k ≠ "" ∧ managed = true ∧ m = Guest ProxmoxVMID) →
  dir_ok dir' ∧ st' = with_phase PhaseCommit None st ∧ lab_ok managed (mkLab dir' keys)
  ∧ (journal_of dir' = journal_of dir ∨ journal_of dir' = None).
Proof.
  intros Hc Hd Hok Ha Hne Hj Hkeys. unfold runCommit in Hc.
  destruct (saveDeployOperationPhase _ _ _ _ _) as [[dir1 st1] r1] eqn:Hs.
  apply phase_journal in Hs as (-> & Hd1 & Hj1); [|done..].
  assert (∀ dir2, dir_ok dir2 → journal_of dir2 = journal_of dir → lab_ok managed (mkLab dir2 keys)) as Hkeep.
  { intros dir2 H1 H2. by apply (lab_ok_mono _ dir keys). }
  destruct r1 as [[]|e]; [|injection Hc as <- <- _; by auto].
  destruct (SaveLastAppliedState _ _ _ _) as [dir2 r2] eqn:Hl. pose proof (SaveLastAppliedState_journal _ _ _ _ _ _ Hl) as Hl'.
  assert (journal_of dir2 = journal_of dir) as Hj2 by (rewrite <- Hj1; unfold journal_of; by rewrite Hl').
  assert (dir_ok dir2) as Hd2 by (destruct Hd1 as [Hr Hv]; constructor; rewrite Hl'; done).
  destruct r2 as [[]|e]; [|injection Hc as <- <- _; by auto].
  destruct (ClearOperationState _ _) as [dir3 r3] eqn:Hcl.
  assert (dir3 = dir2 ∨ dir3 = remove_operation dir2) as Hd3.
  { by apply attempt_cases in Hcl as [[_ ->]|(e & _ & _ & [-> | ->])]; auto. }
  assert (lab_ok managed (mkLab (remove_operation dir2) keys)) as Hrm.
  { apply only_left_behind_ok; [apply remove_operation_ok|]. intros m k Hin. destruct (Hkeys m k Hin) as (? & ? & ?). by repeat split. }
  assert (dir_ok dir3 ∧ lab_ok managed (mkLab dir3 keys) ∧ (journal_of dir3 = journal_of dir ∨ journal_of dir3 = None)) as (?&?&?).
  { destruct Hd3 as [-> | ->]; [by auto|]. split; [apply remove_operation_ok|]. split; [done|by right]. }
  destruct r3 as [[]|e]; injection Hc as <- <- _; auto.
Qed.

Lemma cleanup_ok managed calls lab d c lab' st err : deployable managed (dp_site d) (dp_plan d) → dir_ok (lb_dir lab) → armed_well (dp_state d) →
  armed_ok managed lab d c → absence_honest (fc_revoke calls) (rc_guests c) (rc_operatorPublicKey c) (lb_keys lab) →
  runCleanup calls c (dp_state d) lab = (lab', st, err) →
  dir_ok (lb_dir lab') ∧ lab_ok managed lab' ∧ st = with_phase PhaseCleanup None (dp_state d) ∧ journal_of (lb_dir lab') = journal_of (lb_dir lab)
  ∧ (err = None → ∀ m k, (m, k) ∈ lb_keys lab' → k ≠ "" ∧ managed = true ∧ m = Guest ProxmoxVMID).
Proof.
  intros Hdep Hd Hw Ha Hh. unfold runCleanup. destruct (saveDeployOperationPhase _ _ _ _ _) as [[dir1 st1] je] eqn:Hs.
  destruct (revoke _ _ _ _) as [keys ce] eqn:Hr. intros [= <- <- <-]. cbn [lb_dir lb_keys].
  pose proof (ar_journal _ _ _ _ Ha) as Hj. pose proof (ar_key _ _ _ _ Ha) as [_ Hne].
  apply phase_journal in Hs as (-> & Hd1 & Hj1); [|done..].
  assert (keys ⊆ lb_keys lab) as Hsub.
  { unfold revoke in Hr. destruct (_ && _); [by injection Hr as <- _|]. by apply revocation_keys in Hr as [? _]. }
  split; [done|]. split; [|split; [done|split; [done|]]].
  - refine (armed_lab _ _ _ _ _ _ (run_moved _ _ _ _ _ _ PhaseCleanup None Ha Hj1 Hsub)); done.
  - intros He. assert (ce = Ok tt) as ->.
    { unfold combineDeploymentErrors in He. destruct ce as [[]|e]; [done|]. cbn in He. by destruct je. }
    by apply (revoke_leaves _ _ _ _ _ _ _ Hdep Ha Hh Hr).
Qed.

Lemma finish_ok managed calls operationErr d lab lab' err : lab_ok managed lab → run_ok managed lab d →
  (operationErr = None → dp_cleanup d ≠ None) →
  (∀ c, dp_cleanup d = Some c → absence_honest (fc_revoke calls) (rc_guests c) (rc_operatorPublicKey c) (lb_keys lab)) →
  finishDeployment calls operationErr d lab = (lab', err) → lab_ok managed lab'.
Proof.
  intros Hok [Hdep Hw Hrun] Herr Hh. unfold finishDeployment. destruct (dp_cleanup d) as [c|] eqn:Hc.
  - destruct (runCleanup _ _ _ _) as [[lab1 st1] ce] eqn:Hcl.
    destruct (cleanup_ok _ _ _ _ _ _ _ _ Hdep (lo_dir _ _ Hok) Hw Hrun (Hh c eq_refl) Hcl) as (Hd1 & Hok1 & -> & Hj1 & Hleft).
    destruct lab1 as [dir1 keys1]. cbn [lb_dir lb_keys] in *.
    pose proof (ar_journal _ _ _ _ Hrun) as Hj. pose proof (ar_key _ _ _ _ Hrun) as [_ Hne].
    assert (∀ w phase cause st dir dir' st' r, saveDeployOperationPhase w phase cause st dir = (dir', st', r) → dir_ok dir →
      lab_ok managed (mkLab dir keys1) → os_TemporaryPublicKey st = os_TemporaryPublicKey (dp_state d) →
      os_TemporaryCleanupGuests st = os_TemporaryCleanupGuests (dp_state d) → os_PlanDigest st = os_PlanDigest (dp_state d) →
      journal_of dir = journal_of (lb_dir lab) → lab_ok managed (mkLab dir' keys1)) as Hsave.
    { intros w phase cause st dir dir' st' r H Hdir Hl Ek Eg Ed Hjd. assert (armed_well st) as Hast by (unfold armed_well in *; by rewrite Ek, Ed).
      apply phase_journal in H as (-> & Hd' & Hj'); [|done|done|congruence|congruence]. by apply (lab_ok_mono _ dir keys1). }
    destruct (combineDeploymentErrors operationErr ce) as [e|] eqn:Hcomb.
    + destruct (saveDeployOperationPhase _ _ _ _ _) as [[dir2 st2] r2] eqn:Hs. intros [= <- _]. by eapply Hsave.
    + assert (ce = None) as -> by (destruct ce; [by destruct operationErr|done]).
      destruct (runCommit _ _ _) as [[dir2 st2] commitErr] eqn:Hcm.
      apply (commit_ok managed _ _ _ keys1) in Hcm as (Hd2 & -> & Hok2 & Hj2); [|done|done|done|done|by rewrite Hj1|by apply Hleft].
      destruct commitErr as [e|]; [|by intros [= <- _]].
      destruct (saveDeployOperationPhase _ _ _ _ _) as [[dir3 st3] r3] eqn:Hs. intros [= <- _].
      destruct Hj2 as [Hj2|Hj2]; [by eapply Hsave; [exact Hs|done|done|done|done|done|congruence]|].
      assert (armed_well (with_phase PhaseCommit None (with_phase PhaseCleanup None (dp_state d)))) as Hw3 by exact Hw.
      apply phase_cases in Hs as (-> & Hd3 & _ & Hj3); [|done..]. destruct Hj3 as [-> |Hj3]; [done|]. cbn in Hj3.
      constructor; [done|]. cbn. intros m k Hin. destruct (Hleft eq_refl m k Hin) as (Hkne & Hm & ->). split; [done|].
      destruct (decide (k = os_TemporaryPublicKey (dp_state d))) as [->|Hkk].
      * left. eexists. split; [done|]. right.
        destruct (lo_keys _ _ Hok1 _ _ Hin) as [_ [(gs & E & Hg)|(_ & _ & Hno)]].
        -- cbn in E. rewrite Hj1, Hj in E. injection E as <-. destruct Hg as [|Hg]; [done|exact Hg].
        -- exfalso. apply (Hno (os_TemporaryCleanupGuests (dp_state d))). cbn. congruence.
      * right. split; [done|]. split; [done|]. intros gs E. congruence.
  - destruct operationErr as [e|]; [|by destruct Herr].
    destruct (saveDeployOperationPhase _ _ _ _ _) as [[dir2 st2] r2] eqn:Hs. intros [= <- _].
    destruct Hrun as [Ho Hfresh]. apply phase_cases in Hs as (-> & Hd2 & _ & Hj2); [|apply Hok|done|done].
    apply only_left_behind_ok; [done|]. intros m k Hin. destruct (Ho m k Hin) as [Hne (Hm & Hg & Hno)].
    split; [done|]. split; [done|]. split; [done|]. intros gs E. cbn in E. destruct Hj2 as [-> |Hj2]; [by destruct (Hno gs)|].
    rewrite Hj2 in E. injection E as <- _. by destruct (Hfresh m).
Qed.

(** ** The theorems *)

Lemma no_lab_ok managed : world_ok managed (mkWorld no_lab None).
Proof.
  split; [|done]. constructor; [by constructor|]. cbn. intros m k Hin. set_solver.
Qed.

Lemma world_step_ok managed w w' : world_ok managed w → step managed w w' → world_ok managed w'.
Proof.
  intros [Hok Hrun] Hs. destruct Hs; cbn [w_lab w_run] in *.
  - destruct (begin_ok managed calls early w s plan runID revision digest lab lab' r) as [Hl Hd]; [done..|]. split; [done|].
    cbn. intros d E. apply Hd. destruct r; [congruence|done].
  - destruct (arm_ok managed i d lab d' lab' r) as [Hl Hd]; [auto..|]. split; [done|]. by intros ? [= <-].
  - specialize (Hrun d eq_refl). destruct Hrun as [Hdep Hw Hr].
    match goal with H : establishGuest _ _ _ _ = _ |- _ => revert H end. unfold establishGuest. destruct (dp_cleanup d) as [c|] eqn:Hc.
    2: { intros [= <- <- _]. split; [done|]. intros ? [= <-]. constructor; [done..|]. by rewrite Hc. }
    destruct (waitForDeploymentRoot _ _ _ _ _ _) as [[keys cleanup] r'] eqn:Hwait. intros [= <- <- _].
    assert (armed_ok managed (mkLab (lb_dir lab) keys) (mkDeployment (dp_site d) (dp_plan d) (dp_state d) (Some cleanup)) cleanup) as Ha by by eapply guest_armed.
    split; [|intros ? [= <-]; by constructor]. refine (armed_lab _ _ _ _ _ _ Ha); [done|apply Hok].
  - specialize (Hrun d eq_refl). destruct Hrun as [Hdep Hw Hr].
    match goal with H : recordVerify _ _ _ = _ |- _ => revert H end. unfold recordVerify.
    destruct (saveDeployOperationPhase _ _ _ _ _) as [[dir' st'] r'] eqn:Hs. intros [= <- <- _].
    destruct (dp_cleanup d) as [c|] eqn:Hc; [|done].
    apply phase_journal in Hs as (-> & Hd' & Hj); [|apply Hok|done|by destruct (ar_key _ _ _ _ Hr)|apply (ar_journal _ _ _ _ Hr)].
    assert (armed_ok managed (mkLab dir' (lb_keys lab)) (mkDeployment (dp_site d) (dp_plan d) (with_phase PhaseVerify None (dp_state d)) (Some c)) c) as Ha.
    { rewrite <- Hc. by refine (run_moved _ _ _ _ _ _ _ _ Hr Hj _). }
    split; [|intros ? [= <-]; by constructor]. by refine (armed_lab _ _ _ _ _ _ Ha).
  - split; [|done]. by eapply finish_ok; eauto.
  - by split.
Qed.

Lemma every_world_ok managed w : reachable managed w → world_ok managed w.
Proof. induction 1; [apply no_lab_ok|by eapply world_step_ok]. Qed.

(** C1. Whatever calls fail and wherever a deployment is killed: a machine that
    holds a temporary key is named in the journal on disk next to this key, so
    that the next run can remove it.  The one exception needs a managed
    firewall, and is this firewall with the key of an earlier deployment. *)
Theorem temporary_authority_recorded managed w m key : reachable managed w → (m, key) ∈ lb_keys (w_lab w) →
  (∃ st, sd_operation (lb_dir (w_lab w)) = Document st ∧ validateOperationState st = Ok tt ∧ os_TemporaryPublicKey st = key
     ∧ (m = Host ∨ ∃ g, g ∈ os_TemporaryCleanupGuests st ∧ m = Guest (og_VMID g)))
  ∨ (managed = true ∧ m = Guest ProxmoxVMID).
Proof.
  intros [Hok _]%every_world_ok Hin. destruct (lo_keys _ _ Hok m key Hin) as [_ [(guests & Hj & Hm)|(? & ? & _)]]; [left|by right].
  unfold journal_of in Hj. destruct (sd_operation _) as [|e|st] eqn:E; [done..|]. injection Hj as <- <-. exists st.
  split; [done|]. split; [|done]. by apply (do_valid _ (lo_dir _ _ Hok)).
Qed.

(** *** Recovery goes through *)

(** A recovery that nothing disturbs: files can be written, the host answers,
    and each guest is cleaned up directly or through the host, or the host says
    that it does not exist. *)
Record quiet_recovery (calls : RecoverCalls) (s : Site) (lab : Lab) : Prop := {
  qr_read : rk_read calls = None;
  qr_clear : call_error (rk_clear calls) = None;
  qr_write : GoTime.parses (wr_now (rk_cleanup_write calls)) = true ∧ call_error (wr_call (rk_cleanup_write calls)) = None;
  qr_host : call_error (rv_host (rk_revoke calls)) = None;
  qr_guests : ∀ i t, call_error (rv_direct (rk_revoke calls) i) = None
    ∨ call_error (fallback_call t (rv_fallback (rk_revoke calls) i)) = None
    ∨ ∃ e, call_error (fallback_call t (rv_fallback (rk_revoke calls) i)) = Some e ∧ reports_absence e = true;
  qr_address : ∀ st, sd_operation (lb_dir lab) = Document st → os_TemporaryPublicKey st ≠ "" →
    os_TemporaryHostAddress st = s_BootstrapAddress s;
}.

Lemma revocation_succeeds schedule calls guests key keys : ValidatePublicKey key = Ok tt → call_error (rv_host calls) = None →
  (∀ t, t ∈ targets_of guests → 0 < t_vmid t) →
  (∀ i t, call_error (rv_direct calls i) = None ∨ call_error (fallback_call t (rv_fallback calls i)) = None
    ∨ ∃ e, call_error (fallback_call t (rv_fallback calls i)) = Some e ∧ reports_absence e = true) →
  ∃ keys', revokeTemporaryRootAccessForGuestsWithFallback schedule calls guests key true true keys = (keys', Ok tt).
Proof.
  intros Hkey Hhost Hpos Hcalls. unfold revokeTemporaryRootAccessForGuestsWithFallback. rewrite andb_false_r.
  destruct (run_tasks _ _ _ _ _ _ _) as [keys1 states] eqn:Hr. apply run_tasks_result in Hr as [-> _]. rewrite direct_run.
  assert (∀ c, call_error c = None → (direct_outcome key c).2 = Ok tt) as Hdirect.
  { intros c Hc. unfold direct_outcome. rewrite Hkey. cbn. by rewrite Hc. }
  rewrite (Hdirect _ Hhost).
  assert (errors_join (map task_error (imap (λ i t, task_at key true true calls i t 2) (targets_of guests)) ++ []) = None) as ->; [|by eexists].
  apply errors_join_none. rewrite app_nil_r, Forall_map, Forall_lookup. intros i x Hx. rewrite list_lookup_imap in Hx.
  destruct (targets_of guests !! i) as [t|] eqn:Ht; [|done]. injection Hx as <-. apply list_elem_of_lookup_2, Hpos in Ht.
  change (task_at key true true calls i t 2) with (task_next key true true calls i t (task_next key true true calls i t Direct)).
  unfold task_next. cbn [task_step]. rewrite direct_run. destruct (Hcalls i t) as [Hd|Hf].
  { by rewrite (Hdirect _ Hd). }
  destruct (direct_outcome key (rv_direct calls i)) as [gone [[]|e]]; [done|]. cbn. rewrite fallback_run.
  unfold fallback_outcome. replace (t_vmid t <=? 0) with false by lia. rewrite Hkey.
  destruct Hf as [Hf|(f & Hf & Ha)]; rewrite Hf; cbn; [done|]. by rewrite Ha.
Qed.

Lemma targets_positive gs plans : Forall (fun g => guest_ok g = Ok tt) gs → operationGuestPlans gs = Ok plans → ∀ t, t ∈ targets_of plans → 0 < t_vmid t.
Proof.
  intros Hall Hp t Ht. unfold targets_of in Ht. apply list_elem_of_fmap in Ht as (p & -> & Hin%list_elem_of_In). apply filter_In in Hin as [Hin%list_elem_of_In _].
  unfold operationGuestPlans in Hp. apply collect_ok in Hp. apply list_elem_of_lookup in Hin as (i & Hi).
  destruct (Forall2_lookup_r _ _ _ _ _ Hp Hi) as (g & Hg & Hf). rewrite Forall_lookup in Hall. specialize (Hall i g Hg).
  unfold guest_ok in Hall. apply bind_ok in Hall as ([] & Hid%fail_if_ok & _). bools.
  destruct (og_Kind g == "qemu"); [injection Hf as <-; cbn; lia|]. destruct (og_Kind g == "lxc"); [injection Hf as <-; cbn; lia|done].
Qed.

(** Recording the cleanup phase of a valid state goes through. *)
Lemma cleanup_phase_saved w st dir : validateOperationState st = Ok tt → trim_space (os_PlanDigest st) ≠ "" →
  GoTime.parses (wr_now w) = true → call_error (wr_call w) = None →
  ∃ dir', saveDeployOperationPhase w PhaseCleanup None st dir = (dir', with_phase PhaseCleanup None st, Ok tt).
Proof.
  intros Hv Hd Ht Hc. unfold saveDeployOperationPhase, SaveOperationState.
  assert (wr_now w ≠ "") as Hne by (intros E; by rewrite E in Ht).
  assert (validateOperationState (complete_state (wr_now w) (with_phase PhaseCleanup None st)) = Ok tt) as ->.
  { pose proof Hv as Hv'. unfold validateOperationState in Hv'. apply bind_ok in Hv' as ([] & Hi%fail_if_ok & _). bools.
    assert (os_UpdatedAt (complete_state (wr_now w) (with_phase PhaseCleanup None st)) = wr_now w) as Eu by done.
    apply (validate_moved st); [done| | |by rewrite Eu|by rewrite Eu].
    - constructor; cbn; try done.
      + split_and!; try done. assert (os_Version st = 1) as -> by done. done.
      + by rewrite bool_decide_false.
    - change (fail_if (trim_space (os_PlanDigest st) == "") NoPlanDigest = Ok tt). by rewrite bool_decide_false. }
  cbn. unfold attempt, takes_effect. rewrite Hc. by eexists.
Qed.

(** C2. After any history a single undisturbed recovery goes through, clears
    the journal, and leaves a temporary key on no machine but the managed
    firewall of an earlier deployment. *)
Theorem recovery_completes managed calls s lab : reachable managed (mkWorld lab None) → recovery_honest calls lab → quiet_recovery calls s lab →
  ∃ lab', recoverInterruptedDeployment calls s lab = (lab', Ok tt) ∧ sd_operation (lb_dir lab') = Missing
  ∧ ∀ m key, (m, key) ∈ lb_keys lab' → managed = true ∧ m = Guest ProxmoxVMID.
Proof.
  intros [Hok _]%every_world_ok Hh [Hread Hclear [Htime Hwrite] Hhost Hguests Haddr]. cbn in Hok.
  assert (∃ lab', recoverInterruptedDeployment calls s lab = (lab', Ok tt)) as [lab' Hrec].
  { unfold recoverInterruptedDeployment, recoverInterruptedDeploymentWith. rewrite Hread. cbn [LoadOperationState].
    pose proof (lo_dir _ _ Hok) as Hd. destruct (sd_operation (lb_dir lab)) as [|e|st] eqn:E; [by eexists|by destruct (do_read _ Hd e)|].
    destruct (do_valid _ Hd st E) as (Hv & Ha & Hu). rewrite Hv.
    assert (∀ dir, ∃ dir', ClearOperationState (rk_clear calls) dir = (dir', Ok tt)) as Hcl.
    { intros dir. unfold ClearOperationState, attempt. rewrite Hclear. by eexists. }
    destruct (os_TemporaryPublicKey st == "") eqn:Ek; bools.
    - assert ((os_Phase st != PhasePlan) && (os_Phase st != PhaseFailed) = false) as ->.
      { destruct (Hu Ek) as [-> | ->]; done. }
      unfold wrap_err, on_dir. destruct (Hcl (lb_dir lab)) as [dir' ->]. by eexists.
    - rewrite (Haddr st eq_refl Ek), (bool_decide_true (_ = _)) by done. cbn [negb].
      pose proof (proj2 (valid_guests st Hv)) as Hall.
      destruct (operationGuestPlans_targets (os_TemporaryCleanupGuests st) Hall) as (plans & Hp & _). rewrite Hp.
      destruct (Ha Ek) as [Hdig Hkey]. destruct (cleanup_phase_saved (rk_cleanup_write calls) st (lb_dir lab) Hv Hdig Htime Hwrite) as [dir1 ->].
      cbn [with_phase os_TemporaryPublicKey].
      destruct (revocation_succeeds (rk_schedule calls) (rk_revoke calls) plans (os_TemporaryPublicKey st) (lb_keys lab)) as [keys ->]; [done..|by eapply targets_positive|done|].
      unfold wrap_err, on_dir. cbn [lb_dir lb_keys]. destruct (Hcl dir1) as [dir2 ->]. by eexists. }
  destruct (recover_lab managed _ _ _ _ _ Hok Hh Hrec) as [_ Hdone]. destruct (Hdone eq_refl) as [Hm Ho].
  exists lab'. split; [done|]. split; [done|]. intros m key Hin. by destruct (Ho m key Hin) as [_ (? & ? & _)].
Qed.

(** *** The managed firewall keeps the key *)

(** A revocation does not touch a guest that is no target. *)
Lemma revocation_untouched schedule calls guests key host hostRevoke keys keys' r v k :
  revokeTemporaryRootAccessForGuestsWithFallback schedule calls guests key host hostRevoke keys = (keys', r) →
  (Guest v, k) ∈ keys → (∀ t, t ∈ targets_of guests → t_vmid t ≠ v) → (Guest v, k) ∈ keys'.
Proof.
  intros Hrun Hin Hno. unfold revokeTemporaryRootAccessForGuestsWithFallback in Hrun. destruct (_ && _); [by injection Hrun as <- _|].
  destruct (run_tasks _ _ _ _ _ _ _) as [keys1 states] eqn:Hr. apply run_tasks_result in Hr as [_ Hk].
  assert ((Guest v, k) ∈ keys1) as H1.
  { apply Hk. split; [done|]. intros i t Hi [= -> _]. by destruct (Hno t (list_elem_of_lookup_2 _ _ _ Hi)). }
  destruct host; [|by injection Hrun as <- _]. rewrite direct_run in Hrun.
  assert (keys' = drop_if (direct_outcome key (rv_host calls)).1 Host key keys1) as ->.
  { destruct (direct_outcome key (rv_host calls)) as [gone [[]|e]]; by injection Hrun. }
  unfold drop_if, remove_key. destruct (direct_outcome _ _).1; [|done]. set_solver.
Qed.

(** C3. However a deployment of a managed site ends, the firewall keeps the
    temporary key it was given: it is registered for the cleanup without an
    owner, and the cleanup passes over guests without one.  A deployment that
    reports success also clears the journal that named it. *)
Theorem firewall_key_outlives_deployment calls operationErr d lab lab' err c key :
  dp_cleanup d = Some c → (Guest ProxmoxVMID, key) ∈ lb_keys lab →
  (∀ g, g ∈ rc_guests c → g_VMID g = ProxmoxVMID → g_Owner g = g_Owner firewallGuest) →
  finishDeployment calls operationErr d lab = (lab', err) →
  (Guest ProxmoxVMID, key) ∈ lb_keys lab' ∧ (err = None → sd_operation (lb_dir lab') = Missing).
Proof.
  intros Hc Hin Howner. unfold finishDeployment. rewrite Hc. destruct (runCleanup _ _ _ _) as [[lab1 st1] ce] eqn:Hcl.
  assert ((Guest ProxmoxVMID, key) ∈ lb_keys lab1) as Hin1.
  { unfold runCleanup in Hcl. destruct (saveDeployOperationPhase _ _ _ _ _) as [[dir1 st2] je]. destruct (revoke _ _ _ _) as [keys r] eqn:Hr.
    injection Hcl as <- <- <-. cbn. unfold revoke in Hr. destruct (_ && _); [by injection Hr as <- _|].
    eapply revocation_untouched; [done..|]. intros t Ht. unfold targets_of in Ht.
    apply list_elem_of_fmap in Ht as (g & -> & Hg%list_elem_of_In). apply filter_In in Hg as [Hg%list_elem_of_In Hf]. cbn.
    intros Ev. rewrite (Howner g Hg Ev) in Hf. done. }
  destruct (combineDeploymentErrors operationErr ce) as [e|].
  - destruct (saveDeployOperationPhase _ _ _ _ _) as [[dir2 st2] r2]. by intros [= <- <-].
  - destruct (runCommit _ _ _) as [[dir2 st2] commitErr] eqn:Hcm. destruct commitErr as [e|].
    + destruct (saveDeployOperationPhase _ _ _ _ _) as [[dir3 st3] r3]. by intros [= <- <-].
    + intros [= <- <-]. split; [done|]. intros _. unfold runCommit in Hcm.
      destruct (saveDeployOperationPhase _ _ _ _ _) as [[dir3 st3] [[]|e3]]; [|done].
      destruct (SaveLastAppliedState _ _ _ _) as [dir4 [[]|e4]]; [|done].
      destruct (ClearOperationState _ _) as [dir5 r5] eqn:H5. apply attempt_cases in H5 as [[-> ->]|(e & _ & -> & _)]; [|done].
      by injection Hcm as <- _.
Qed.

Definition refused (m : M Lab string unit) (lab : Lab) : Prop := ∃ e, m lab = (lab, Err e).

Lemma refused_bind {E A : Type} (f : E → string) (r : result E A) (k : A → M Lab string unit) lab :
  (∀ a, refused (k a) lab) → refused (of_result f r ≫= k) lab.
Proof. intros Hk. destruct r as [a|e]; [apply Hk|by eexists]. Qed.

Lemma scoped_state_invalid now s runID revision planDigest bundleDigest key targets :
  validateOperationState (complete_state now (scopedOperationState s runID revision planDigest bundleDigest key targets)) = Err StateIncomplete.
Proof.
  unfold validateOperationState. cbn [complete_state scopedOperationState os_Kind os_Version os_ID].
  rewrite (bool_decide_false ("scoped-module-deploy"%string = "deploy"%string)) by done. cbn [negb]. by rewrite orb_true_r.
Qed.

(** C4. A deployment of a single module never gets past its own journal: the
    state it wants to record has a kind that the journal does not accept, so
    every run that is not a dry run is refused before it changes anything. *)
Theorem scoped_deployment_refused calls continue s module planDigest revision runID confirm lab :
  ∃ e, runScopedModuleDeploy calls continue s module planDigest revision runID confirm false lab = (lab, Err e).
Proof.
  unfold runScopedModuleDeploy.
  do 5 (apply refused_bind; intros ?). apply refused_bind; intros [version bundleDigest]. do 6 (apply refused_bind; intros ?).
  apply refused_bind; intros [private key]. apply refused_bind; intros ?.
  unfold refused, mbind, M_bind, wrap_err, on_dir, SaveOperationState. rewrite scoped_state_invalid. cbn. destruct lab. by eexists.
Qed.

End authority.

(** ** A laboratory

    The composed sample site with a managed firewall, deployed once. *)

Import SiteConfig ModCompose PxPlan.

#[local] Existing Instance ascii_only.
#[local] Instance plain_format : GoFormat := {| quoted s := "'" +:+ s +:+ "'"; time_error s := "cannot parse " +:+ s |}.

Definition lab_config : SiteConfig :=
  let c := sample_config [] in
  mkSiteConfig (cf_APIVersion c) (cf_PlatformVersion c) (cf_SchemaVersion c) (cf_StorageProfile c) (cf_StorageDevice c) (cf_Gateway c) "192.168.1.10"
    (cf_SSHIdentityFile c) (cf_PhysicalNetwork c) (cf_TestedGateway c) (cf_Network c) (cf_PKI c) (cf_SecretMetadata c) (cf_Ownership c)
    (cf_Modules c) (cf_Companion c) (cf_USBExports c) (cf_DHCPReservations c) (cf_DNSRecords c) (cf_UserFirewallRules c).

Definition empty_plan : Plan := mkPlan "" "" "" "" [] "" "" "" [] ∅ "" (mkCloudInit "" "" "") false false false false "" "".
Definition lab_pair : Site * Plan :=
  match compose_sample lab_config with
  | Ok (s, _) => match plan_of s with Ok plan => (s, plan) | Err _ => (BaseSite lab_config, empty_plan) end
  | Err _ => (BaseSite lab_config, empty_plan)
  end.
Definition lab_site : Site := lab_pair.1.
Definition lab_plan : Plan := lab_pair.2.

Definition at_ten : Write := mkWrite "2026-03-01T10:00:00Z" done_call.
Definition done_agent : AgentCall := mkAgentCall None (AgentStatus (Ok 1) (Ok 0) "") true.
Definition unreachable_call : Call := mkCall (Some "connection refused") false.
(** The direct connections fail, the host's way works. *)
Definition lab_revoke : RevokeCalls := mkRevokeCalls (fun _ => unreachable_call) (fun _ => done_agent) done_call.
Definition lab_recover : RecoverCalls := mkRecoverCalls None done_call at_ten [3; 0]%nat lab_revoke at_ten.
Definition lab_finish : FinishCalls := mkFinishCalls at_ten [] lab_revoke at_ten at_ten at_ten done_call at_ten.
Definition lab_key : string := "ssh-ed25519 AAAA boetticher-apply".
Definition lab_arm : ArmInputs := mkArmInputs "sha256:plan" "sha256:bundle" "sha256:plan" None (Ok ([1; 2; 3], lab_key)) at_ten done_call.
(** The first probe of a guest fails, then the host installs the key. *)
Definition lab_wait : RootWait :=
  mkRootWait (fun _ => None) (fun _ => None) None (Some "permission denied") (fun _ => done_agent) (fun _ => None) (fun _ => None).

(** A guest's own words are taken for the host's: an agent that fails and
    prints the phrases is believed not to exist, and the key stays. *)
Example guest_can_claim_absence :
  let claims := mkAgentCall None (AgentStatus (Ok 1) (Ok 1) "configuration file does not exist") false in
  let guest := bare_guest 101 "vm" "" KindQEMU "10.10.20.7" "boetticher/module/vm" in
  let after := revokeTemporaryRootAccessForGuestsWithFallback [] (mkRevokeCalls (fun _ => unreachable_call) (fun _ => claims) done_call)
    [guest] lab_key true true {[(Guest 101, lab_key)]} in
  after.2 = Ok tt ∧ bool_decide ((Guest 101, lab_key) ∈ after.1) = true.
Proof. by vm_compute. Qed.

Definition idle : Deployment :=
  mkDeployment lab_site lab_plan (mkOperation 0 "run-1" "deploy" PhasePlan "rev" "" "sha256:bundle" "" "" "" "" "" []) None.
Definition begun : Lab * result string Deployment := beginDeployment lab_recover None at_ten lab_site lab_plan "run-1" "rev" "sha256:bundle" no_lab.
Definition armed : Deployment * Lab * result string unit := armDeployment lab_arm idle begun.1.
Definition fw_ready : Deployment * Lab * result string unit := establishGuest lab_wait firewallGuest armed.1.1 armed.1.2.
Definition running : Deployment := fw_ready.1.1.
Definition running_lab : Lab := fw_ready.1.2.

Definition deployable_b (s : Site) (plan : Plan) : bool :=
  existsb (fun g => (g_VMID g =? ProxmoxVMID) && (g_Owner g != "")) (p_Guests plan) &&
  bool_decide (NoDup (map g_Name (authorityGuests s plan))).

Lemma NoDup_names (gs : list GuestPlan) a b : NoDup (map g_Name gs) → a ∈ gs → b ∈ gs → g_Name a = g_Name b → g_VMID a = g_VMID b.
Proof.
  intros Hnd Ha Hb En. apply list_elem_of_lookup in Ha as (i & Hi). apply list_elem_of_lookup in Hb as (j & Hj).
  assert (i = j) as ->; [|congruence]. eapply (NoDup_lookup (map g_Name gs)); [done|by rewrite list_lookup_fmap, Hi|by rewrite list_lookup_fmap, Hj, En].
Qed.

Lemma deployable_check s plan : deployable_b s plan = true → deployable true s plan.
Proof.
  unfold deployable_b. intros [He Hn%bool_decide_eq_true]%andb_true_iff. constructor.
  - intros _. split; [done|]. apply existsb_exists in He as (g & Hg%list_elem_of_In & Hf). bools. by exists g.
  - intros a b. by apply NoDup_names.
Qed.

Lemma lab_honest guests key keys : absence_honest lab_revoke guests key keys.
Proof. intros i t e _ He _. unfold fallback_call, agent_call in He. cbn in He. by destruct (t_kind t). Qed.

Lemma running_reachable : reachable true (mkWorld running_lab (Some running)).
Proof.
  assert (deployable true lab_site lab_plan) as Hdep by (apply deployable_check; by vm_compute).
  assert (reachable true (mkWorld begun.1 (Some idle))) as H1.
  { eapply reachable_step; [apply reachable_start|].
    replace (Some idle) with (match begun.2 with Ok d => Some d | Err _ => None end) by by vm_compute.
    apply (step_begin true lab_recover None at_ten lab_site lab_plan "run-1" "rev" "sha256:bundle"); [done| |].
    - intros st guests _ _. apply lab_honest.
    - unfold begun. by destruct (beginDeployment _ _ _ _ _ _ _ _ _). }
  assert (reachable true (mkWorld armed.1.2 (Some armed.1.1))) as H2.
  { eapply reachable_step; [exact H1|]. apply (step_arm true lab_arm idle _ _ _ armed.2); [done| |].
    - split; [by vm_compute|]. intros private key [= <- <-]. split; [done|]. split; [by vm_compute|]. intros m Hin.
      assert (lb_keys begun.1 = ∅) as E by by vm_compute. rewrite E in Hin. set_solver.
    - unfold armed. by destruct (armDeployment _ _ _) as [[? ?] ?]. }
  eapply reachable_step; [exact H2|]. apply (step_guest true lab_wait firewallGuest _ _ _ _ fw_ready.2).
  - apply elem_of_app. left. replace (gw_Mode _ == "managed") with true by by vm_compute. by left.
  - unfold running, running_lab, fw_ready. by destruct (establishGuest _ _ _ _) as [[? ?] ?].
Qed.

(** The deployment is killed while the firewall and the host hold its key. *)
Lemma killed_reachable : reachable true (mkWorld running_lab None).
Proof. eapply reachable_step; [apply running_reachable|apply step_killed]. Qed.

Lemma running_keys : lb_keys running_lab = {[(Host, lab_key); (Guest ProxmoxVMID, lab_key)]}.
Proof. apply (bool_decide_eq_true_1 (lb_keys running_lab = _)). by vm_compute. Qed.

Theorem temporary_authority_recorded_witness :
  reachable true (mkWorld running_lab None) ∧ (Host, lab_key) ∈ lb_keys running_lab
  ∧ ∃ st, sd_operation (lb_dir running_lab) = Document st ∧ os_TemporaryPublicKey st = lab_key.
Proof.
  split; [exact killed_reachable|].
  assert ((Host, lab_key) ∈ lb_keys running_lab) as Hin by (rewrite running_keys; set_solver). split; [exact Hin|].
  destruct (temporary_authority_recorded true _ Host lab_key killed_reachable Hin) as [(st & Hs & _ & Hk & _)|[_ Hg]]; [|discriminate Hg].
  exists st. split; [exact Hs|exact Hk].
Defined.

Lemma lab_quiet : quiet_recovery lab_recover lab_site running_lab.
Proof.
  constructor; [done|done|by vm_compute|done| |].
  - intros i t. right. left. unfold fallback_call, agent_call. cbn. by destruct (t_kind t).
  - intros st Hst _. assert (match sd_operation (lb_dir running_lab) with Document st => os_TemporaryHostAddress st | _ => "" end = s_BootstrapAddress lab_site) as E by by vm_compute.
    by rewrite Hst in E.
Qed.

Theorem recovery_completes_witness : ∃ lab', recoverInterruptedDeployment lab_recover lab_site running_lab = (lab', Ok tt)
  ∧ sd_operation (lb_dir lab') = Missing.
Proof.
  destruct (recovery_completes true lab_recover lab_site running_lab killed_reachable) as (lab' & Hr & Hm & _).
  - intros st guests _ _. apply lab_honest.
  - exact lab_quiet.
  - exists lab'. split; [exact Hr|exact Hm].
Defined.

(** The deployment succeeds, the journal is cleared, the firewall keeps the key. *)
Theorem firewall_key_outlives_deployment_witness : ∃ lab', finishDeployment lab_finish None running running_lab = (lab', None)
  ∧ (Guest ProxmoxVMID, lab_key) ∈ lb_keys lab' ∧ sd_operation (lb_dir lab') = Missing.
Proof.
  assert ((finishDeployment lab_finish None running running_lab).2 = None) as Herr by by vm_compute.
  destruct (finishDeployment lab_finish None running running_lab) as [lab' err] eqn:Hf. cbn in Herr. subst err. exists lab'. split; [reflexivity|].
  destruct (dp_cleanup running) as [c|] eqn:Hc; [|exfalso; revert Hc; by vm_compute].
  destruct (firewall_key_outlives_deployment lab_finish None running running_lab lab' None c lab_key Hc) as [Hin Hm].
  - rewrite running_keys. set_solver.
  - assert (match dp_cleanup running with Some c => forallb (fun g => g_Owner g == "") (rc_guests c) | None => true end = true) as Hall by by vm_compute.
    rewrite Hc in Hall. intros g Hg _. rewrite forallb_forall in Hall. specialize (Hall g). rewrite <- list_elem_of_In in Hall. specialize (Hall Hg). bools. exact Hall.
  - exact Hf.
  - split; [exact Hin|]. apply Hm. reflexivity.
Defined.
End Authority.
