(* ===== verification/CsNames.v ===== *)
(** * Client services: names, addresses and the validators' errors
    ([internal/clientservices/config.go], helpers) *)

From S2P Require Export CsConfig Bifrost.

Open Scope Z_scope.

Module CsNames.
Import Model CsConfig.

Inductive NameError :=
| NameRequired | NameOutsideDomain (domain : string) | InvalidLabel (label : string).
#[export] Instance NameError_eq_dec : EqDecision NameError.
Proof. solve_decision. Defined.

(** One constructor per error return of the validators. *)
Inductive Error :=
| BadName (e : NameError)
(* canonicalMAC *)
| NotEthernetMAC (v : string)
(* validateSystems *)
| SystemNameInvalid (n : string) | SystemNameUncanonical (n : string) (e : NameError)
| SystemNamePlatform (n : string) | SystemHomePort (n : string)
| HomePortUsed (p : Z) (previous : string)
| SystemDNSNameFormat (n : string) | SystemDNSNameInside (n : string)
| SystemDNSNameUsed (n previous : string) | SystemDNSNameReserved (n : string)
| SystemDNSNameNoDNS (n : string)
(* Validate *)
| SystemsNeedDHCP | MonitoredNeedObservability
| MediaNeedsServices | MediaGiB | MediaDomain | MediaAliasesInvalid | MediaReservation | MediaForward
| TailnetNeedsServices | DHCPNeedsDNS
(* validateObservability *)
| BindingNotCanonical | BindingNotUnique | PublicDomainInvalid | LoggingRetention
| MonitoringRetention | PushoverPriority | PushoverTitle | HolmesAlias | HolmesDailyBudget
| HolmesInvestigationBudget | HolmesDeadline | HolmesRounds | HolmesQueue | HolmesRetention
| HolmesCredential | HolmesSecretRef (n : string) | HolmesBifrost (e : Bifrost.Error)
(* validateVPN *)
| VPNLocation | VPNNeedsDHCP | ClientEmpty (r : string) | ClientDuplicate (r : string)
| ClientBadName (r : string) | ClientUncanonical (r : string) | ClientUnknown (r : string)
| ClientZone (r zone : string) | ClientAddress (r : string) | ClientRange (r zone : string)
| ForwardRequires | ForwardBadName (n : string) | ForwardUncanonical (n : string)
| ForwardDuplicate (n : string) | ForwardNoClient (n r : string) | ForwardPort (n : string) (p : Z)
| ForwardNoProtocol (n : string) | ForwardProtocolFormat (n p : string)
| ForwardProtocol (n p : string) | ForwardKeyDuplicate (k : string)
(* validateDNS *)
| NoUpstream | UpstreamAddress (a : string) | UpstreamPort (a : string) | UpstreamTLS (a : string)
| UpstreamECS | RecordName (n : string) (e : NameError) | RecordType (n t : string)
| RecordDuplicate (n t : string) | RecordMixed (n previous t : string) | RecordPlatform (n : string)
| RecordAddress (n : string) | RecordTarget (n : string) (e : NameError) | RecordSelf (n : string)
(* validateDHCP *)
| LeaseRequired | SixScopes | ScopeUnknown (z : string) | ScopeDuplicate (z : string)
| ScopeMode (z m : string) | ScopeHasPool (z : string) | PoolStartInvalid (v : string)
| PoolEndInvalid (v : string) | PoolRange (s e zone : string) | PoolEmpty (z : string)
| PoolProbe (z : string) | ScopesIncomplete | ReservationName (n : string)
| ReservationDuplicate (n : string) | ReservationZone (n z : string)
| ReservationAddress (n a zone : string) | ReservationProbe (n : string)
| ReservationMACDuplicate (m : string) | ReservationAddressDuplicate (a : string)
| ReservationPool (n a zone : string) | NoTimeUpstream | TimeUpstream (u : string)
(* validateSharedNames *)
| RecordReservation (n : string) | AliasCycle (n : string) | AliasUnknown (n : string)
(* running out of the CNAME walk's fuel: shown not to happen *)
| WalkFuel.
Section names.
Context `{GoUnicode}.

(** ** Canonical names *)

Definition trim_dot_lower (s : string) : string := to_lower (trim_suffix (trim_space s) ".").

Definition qualify (name domain : string) : string :=
  if contains_byte name "." then name else name +:+ "." +:+ domain.

Definition label_check (label : string) : result NameError unit :=
  fail_if (negb (IsDNSLabel label)) (InvalidLabel label).

Definition canonicalName (value domain : string) : result NameError string :=
  let name := trim_dot_lower value in
  let domain := trim_dot_lower domain in
  _ ← fail_if ((name == "") || (domain == "")) NameRequired;
  let name := qualify name domain in
  _ ← fail_if ((name == domain) || negb (has_suffix name ("." +:+ domain))) (NameOutsideDomain domain);
  _ ← eachM label_check (split name ".");
  Ok name.

Definition canonicalMAC (value : string) : result Error string :=
  match parse_mac (trim_space value) with
  | Some parsed =>
      if negb (length parsed =? 6)%nat then Err (NotEthernetMAC value)
      else Ok (to_lower (mac_string parsed))
  | None => Err (NotEthernetMAC value)
  end.

(** ** Public names, labels and titles *)

Definition label_byte (c : ascii) : bool := is_lower c || is_digit c || Ascii.eqb c "-".
Definition is_dash (c : ascii) : bool := Ascii.eqb c "-".

Definition public_part (part : string) : bool :=
  negb ((part == "") || (len part >? 63) || opt_test is_dash (first_byte part)
        || opt_test is_dash (last_byte part))
  && sall label_byte part.

Definition ValidPublicDomain (value : string) : bool :=
  let value := trim_suffix (to_lower (trim_space value)) "." in
  if (value == "") || negb (contains value ".") || (len value >? 253) || contains value ".."
  then false else forallb public_part (split value ".").

Definition validLabel (value : string) : bool :=
  if (value == "") || (len value >? 63) || opt_test is_dash (first_byte value)
     || opt_test is_dash (last_byte value)
  then false else sall label_byte (to_lower value).

Definition validPushoverTitle (value : string) : bool :=
  if (len value >? 250) || (value == "") then false
  else sall (fun c => alnum c || contains_byte " ._-" c) value.

(** ** Addresses in zones *)

Definition zoneMap (site : Site) : gmap string Zone :=
  foldl (fun m z => <[to_upper (z_Name z) := z]> m) ∅ (n_Zones (s_Network site)).

Definition addressInZone (address : Addr) (site : Site) : bool :=
  existsb (fun zone => match parse_cidr (z_Network zone) with
                       | Some prefix => prefix_contains (masked prefix) address
                       | None => false
                       end) (n_Zones (s_Network site)).

Definition usableAddress (address : Addr) (zone : Zone) : bool :=
  match parse_prefix (z_Network zone) with
  | None => false
  | Some prefix =>
      if negb (prefix_contains prefix address) || (addr_string address == z_Gateway zone) then false
      else
        let m := p_addr (masked prefix) in
        let last := addr_of (octet m 0) (octet m 1) (octet m 2) 255 in
        negb (address =? last)
  end.

Definition usablePool (startValue endValue : string) (zone : Zone) : result Error (Addr * Addr) :=
  match parse_addr startValue with
  | None => Err (PoolStartInvalid startValue)
  | Some start =>
      match parse_addr endValue with
      | None => Err (PoolEndInvalid endValue)
      | Some end_ =>
          if (addr_string start != startValue) || (addr_string end_ != endValue)
             || negb (usableAddress start zone) || negb (usableAddress end_ zone)
             || (end_ <? start)
          then Err (PoolRange startValue endValue (z_Name zone))
          else Ok (start, end_)
      end
  end.

Definition overlapsProbeRange (start end_ : Addr) : bool :=
  (octet end_ 3 >=? ProbeAddressStart) && (octet start 3 <=? ProbeAddressEnd).

(** ** The platform's own names *)

Definition add_name (domain name : string) (s : gset string) : gset string :=
  match canonicalName name domain with Ok n => {[n]} ∪ s | Err _ => s end.

(** The loop over [site.PlatformComponents()] that four validators share:
    each component's hostname, then its DNS aliases. *)
Definition platform_names_from (site : Site) (s : gset string) : gset string :=
  foldl (fun s c =>
    foldl (fun s a => add_name (n_Domain (s_Network site)) a s)
      (add_name (n_Domain (s_Network site)) (c_Hostname c) s) (c_DNSAliases c))
    s (PlatformComponents site).
End names.

(** ** Lemmas *)

Definition valid_name (n : string) : Prop := Forall (fun l => dns_label_match l = true) (split n ".").

Definition name_byte (c : ascii) : bool := alnum_lower c || Ascii.eqb c "-" || Ascii.eqb c ".".

Lemma name_byte_plain c : name_byte c = true → plain_byte c && negb (is_upper c) = true.
Proof.
  intros H. assert (negb (name_byte c) || (plain_byte c && negb (is_upper c)) = true) as E.
  { revert c H. intros c _. revert c. apply byte_cases. by vm_compute. }
  by rewrite H in E.
Qed.

Lemma valid_name_bytes n : valid_name n → sall name_byte n = true.
Proof.
  intros Hn. apply (sall_split (fun c => alnum_lower c || Ascii.eqb c "-")).
  eapply Forall_impl; [exact Hn|]. intros l Hl. unfold dns_label_match in Hl. by bools.
Qed.

Lemma valid_name_plain n : valid_name n → trim_space n = n.
Proof.
  intros Hn%valid_name_bytes. apply trim_space_id. eapply sall_mono; [|exact Hn].
  by intros c [? _]%name_byte_plain%andb_true_iff.
Qed.

Lemma valid_name_lower `{GoUnicode} n : valid_name n → to_lower n = n.
Proof.
  intros Hn%valid_name_bytes. apply to_lower_id. eapply sall_mono; [|exact Hn].
  intros c [[? _]%andb_true_iff ?]%name_byte_plain%andb_true_iff. by apply andb_true_iff.
Qed.

Lemma valid_name_no_dot_end n : valid_name n → trim_suffix n "." = n.
Proof.
  intros Hn. apply trim_suffix_id. destruct (has_suffix n ".") eqn:E; [|done]. exfalso.
  apply has_suffix_spec in E as [r ->]. unfold valid_name in Hn.
  rewrite split_sep, Forall_app in Hn. destruct Hn as [_ Hn]. cbn in Hn.
  by apply Forall_cons_iff in Hn as [? _].
Qed.

Lemma valid_name_trim `{GoUnicode} n : valid_name n → trim_dot_lower n = n.
Proof.
  intros Hn. unfold trim_dot_lower.
  rewrite valid_name_plain, valid_name_no_dot_end by done. by apply valid_name_lower.
Qed.

Lemma hex2_bytes b : 0 ≤ b < 256 →
  sall (fun c => plain_byte c && negb (is_upper c)) (hex2 b) = true.
Proof.
  intros Hb. assert (∀ d, 0 ≤ d < 16 → plain_byte (hex_char d) && negb (is_upper (hex_char d)) = true) as Hd.
  { intros d ?. assert (d ∈ Z.of_nat <$> seq 0 16) as Hin.
    { apply list_elem_of_fmap. exists (Z.to_nat d). rewrite elem_of_seq. lia. }
    revert d Hin H. apply (Forall_forall (fun d => 0 ≤ d < 16 → _)).
    repeat constructor; intros; reflexivity. }
  unfold hex2. cbn [sall]. rewrite !Hd by (Z.div_mod_to_equations; lia). done.
Qed.

Lemma mac_string_bytes bs : valid_mac bs →
  sall (fun c => plain_byte c && negb (is_upper c)) (mac_string bs) = true.
Proof.
  unfold mac_string. induction 1 as [|b bs Hb Hbs IH]; [done|]. cbn [fmap list_fmap].
  destruct bs as [|b' bs]; [by apply hex2_bytes|].
  change (join (hex2 b :: (hex2 <$> b' :: bs)) ":")
    with (hex2 b +:+ ":" +:+ join (hex2 <$> b' :: bs) ":").
  rewrite !sall_app, hex2_bytes, IH by done. done.
Qed.

(** A canonical MAC address is the lower-case text of the six parsed bytes, and
    is its own canonical form. *)
Lemma canonicalMAC_ok `{GoUnicode} v m : canonicalMAC v = Ok m →
  ∃ bs, parse_mac (trim_space v) = Some bs ∧ length bs = 6%nat ∧ valid_mac bs ∧ m = mac_string bs.
Proof.
  unfold canonicalMAC. destruct (parse_mac (trim_space v)) as [bs|] eqn:E; [|done].
  destruct (Nat.eqb_spec (length bs) 6) as [Hl|]; [|done]. intros [= <-].
  pose proof (parse_mac_valid _ _ E) as Hv. exists bs. split_and!; try done.
  apply to_lower_id. eapply sall_mono; [|by apply mac_string_bytes].
  intros c [[? _]%andb_true_iff ?]%andb_true_iff. by apply andb_true_iff.
Qed.

Lemma canonicalMAC_mac_string `{GoUnicode} bs : valid_mac bs → length bs = 6%nat →
  canonicalMAC (mac_string bs) = Ok (mac_string bs).
Proof.
  intros Hv Hl. pose proof (mac_string_bytes bs Hv) as Hb. unfold canonicalMAC.
  rewrite trim_space_id, parse_mac_string, Hl by
    first [done|eapply sall_mono; [|exact Hb]; by intros c [? _]%andb_true_iff].
  f_equal. apply to_lower_id. eapply sall_mono; [|exact Hb].
  intros c [[? _]%andb_true_iff ?]%andb_true_iff. by apply andb_true_iff.
Qed.

Section laws.
Context `{GoUnicodeLaws}.

Lemma qualify_lower x y : to_lower (qualify (to_lower x) (to_lower y)) = qualify (to_lower x) (to_lower y).
Proof.
  unfold qualify. destruct (contains_byte (to_lower x) "."); [apply to_lower_idemp|].
  change ("." +:+ to_lower y) with (String "." (to_lower y)).
  by rewrite to_lower_dot, !to_lower_idemp.
Qed.

(** What a canonical name is: dot-separated lower-case DNS labels, strictly
    inside the local domain. *)
Lemma canonicalName_ok v d n : canonicalName v d = Ok n →
  valid_name n ∧ trim_dot_lower d ≠ "" ∧ n ≠ trim_dot_lower d ∧
  has_suffix n ("." +:+ trim_dot_lower d) = true.
Proof.
  unfold canonicalName. intros Hc. inv_ok. bools.
  apply eachM_ok in E1. split_and!; try done.
  assert (Forall (fun w => to_lower w = w) (split (qualify (trim_dot_lower v) (trim_dot_lower d)) ".")) as Hl
    by (apply to_lower_split, qualify_lower).
  revert E1 Hl. unfold valid_name. rewrite !Forall_forall. intros E1 Hl l Hin.
  specialize (E1 l Hin). unfold label_check, IsDNSLabel in E1. rewrite (Hl l Hin) in E1.
  apply fail_if_ok in E1. by bools.
Qed.

(** A canonical name is its own canonical form. *)
Lemma canonicalName_idemp v d n : canonicalName v d = Ok n → canonicalName n d = Ok n.
Proof.
  intros Hc. pose proof (canonicalName_ok _ _ _ Hc) as (Hv&Hd&Hne&Hs).
  unfold canonicalName. rewrite valid_name_trim by done.
  assert (contains_byte n "." = true) as Hdot.
  { apply has_suffix_spec in Hs as [r ->]. destruct (contains_byte _ _) eqn:E; [done|].
    apply split_none in E. change ("." +:+ trim_dot_lower d) with (String "." (trim_dot_lower d)) in E.
    rewrite split_sep in E. pose proof (split_nonempty r "."). pose proof (split_nonempty (trim_dot_lower d) ".").
    apply (f_equal length) in E. rewrite length_app in E. cbn in E.
    destruct (split r "."), (split (trim_dot_lower d) "."); cbn in E; try done; lia. }
  assert (n ≠ "") by (by intros ->).
  unfold qualify. rewrite Hdot, Hs.
  rewrite !bool_decide_eq_false_2 by done. cbn.
  assert (eachM label_check (split n ".") = Ok tt) as ->; [|done].
  apply eachM_ok. eapply Forall_impl; [exact Hv|]. intros l Hl. unfold label_check, IsDNSLabel.
  rewrite to_lower_label by done. by rewrite Hl.
Qed.
End laws.
End CsNames.
