(* ===== verification/CsDhcp.v ===== *)
(** * Client services: DHCP scopes and reservations ([validateDHCP]) *)

From S2P Require Export CsNames.

Open Scope Z_scope.

Module CsDhcp.
Import Model CsConfig CsNames.

Section dhcp.
Context `{GoUnicode}.

(** ** Scopes *)

Definition scope_pool_check (scope : DHCPScope) (zone : Zone) : result Error unit :=
  '(start, end_) ← usablePool (sc_PoolStart scope) (sc_PoolEnd scope) zone;
  _ ← fail_if (start =? end_) (PoolEmpty (z_Name zone));
  fail_if (overlapsProbeRange start end_) (PoolProbe (z_Name zone)).

Definition scope_step (zones : gmap string Zone) (seenZones : gset string) (scope : DHCPScope)
    : result Error (gset string) :=
  match zones !! to_upper (sc_Zone scope) with
  | None => Err (ScopeUnknown (sc_Zone scope))
  | Some zone =>
      _ ← fail_if (bool_decide (z_Name zone ∈ seenZones)) (ScopeDuplicate (z_Name zone));
      _ ← fail_if ((sc_Mode scope != ScopeReservationsOnly) && (sc_Mode scope != ScopePool))
            (ScopeMode (z_Name zone) (sc_Mode scope));
      _ ← fail_if ((sc_Mode scope == ScopeReservationsOnly)
                   && ((sc_PoolStart scope != "") || (sc_PoolEnd scope != "")))
            (ScopeHasPool (z_Name zone));
      _ ← (if sc_Mode scope == ScopePool then scope_pool_check scope zone else Ok tt);
      Ok ({[z_Name zone]} ∪ seenZones)
  end.

(** ** Reservations *)

(** The loop's three [seen] maps. *)
Record Seen := mkSeen { seenNames : gset string; seenMACs : gset string; seenAddresses : gset string }.

Definition pool_collision (zone : Zone) (address : Addr) (scope : DHCPScope) : bool :=
  if equal_fold (sc_Zone scope) (z_Name zone) && (sc_Mode scope == ScopePool) then
    match usablePool (sc_PoolStart scope) (sc_PoolEnd scope) zone with
    | Ok (poolStart, poolEnd) => (poolStart <=? address) && (address <=? poolEnd)
    | Err _ => false
    end
  else false.

Definition reservation_step (zones : gmap string Zone) (scopes : list DHCPScope)
    (seen : Seen) (r : Reservation) : result Error Seen :=
  let name := reservation_key (rv_Name r) in
  _ ← fail_if (negb (IsDNSLabel name)) (ReservationName (rv_Name r));
  _ ← fail_if (bool_decide (name ∈ seenNames seen)) (ReservationDuplicate name);
  match zones !! to_upper (rv_Zone r) with
  | None => Err (ReservationZone name (rv_Zone r))
  | Some zone =>
      match parse_addr (rv_Address r) with
      | None => Err (ReservationAddress name (rv_Address r) (z_Name zone))
      | Some address =>
          _ ← fail_if ((addr_string address != rv_Address r) || negb (usableAddress address zone))
                (ReservationAddress name (rv_Address r) (z_Name zone));
          _ ← fail_if ((octet address 3 >=? ProbeAddressStart) && (octet address 3 <=? ProbeAddressEnd))
                (ReservationProbe name);
          mac ← canonicalMAC (rv_MAC r);
          _ ← fail_if (bool_decide (mac ∈ seenMACs seen)) (ReservationMACDuplicate mac);
          _ ← fail_if (bool_decide (rv_Address r ∈ seenAddresses seen)) (ReservationAddressDuplicate (rv_Address r));
          _ ← fail_if (existsb (pool_collision zone address) scopes)
                (ReservationPool name (rv_Address r) (z_Name zone));
          Ok (mkSeen ({[name]} ∪ seenNames seen) ({[mac]} ∪ seenMACs seen)
                ({[rv_Address r]} ∪ seenAddresses seen))
      end
  end.

Definition time_check (upstream : string) : result Error unit :=
  fail_if (negb (canonical_ipv4 upstream)) (TimeUpstream upstream).

Definition validateDHCP (config : DHCPConfig) (site : Site) : result Error unit :=
  if negb (Enabled (h_Enabled config)) then Ok tt
  else
    _ ← fail_if (h_LeaseDuration config == "") LeaseRequired;
    _ ← fail_if (negb (length (h_Scopes config) =? 6)%nat) SixScopes;
    let zones := zoneMap site in
    seenZones ← foldM (scope_step zones) ∅ (h_Scopes config);
    _ ← fail_if (negb (size seenZones =? size zones)%nat) ScopesIncomplete;
    _ ← foldM (reservation_step zones (h_Scopes config)) (mkSeen ∅ ∅ ∅) (h_Reservations config);
    _ ← fail_if (length (t_Upstreams (h_Time config)) <? 1)%nat NoTimeUpstream;
    eachM time_check (t_Upstreams (h_Time config)).

(** ** What a validated reservation is *)

(** The host range the code reserves for probes, and the broadcast address of
    the zone's first /24. *)
Definition probe_address (a : Addr) : Prop := ProbeAddressStart ≤ octet a 3 ≤ ProbeAddressEnd.

Definition reservation_mac (r : Reservation) : option (list Z) := parse_mac (trim_space (rv_MAC r)).

Record reservation_good (zones : gmap string Zone) (scopes : list DHCPScope) (r : Reservation)
    (zone : Zone) (a : Addr) (mac : string) : Prop := {
  rg_label : IsDNSLabel (reservation_key (rv_Name r)) = true;
  rg_zone : zones !! to_upper (rv_Zone r) = Some zone;
  rg_addr : parse_addr (rv_Address r) = Some a;
  rg_usable : usableAddress a zone = true;
  rg_probe : ¬ probe_address a;
  rg_mac : canonicalMAC (rv_MAC r) = Ok mac;
  rg_pool : Forall (fun s => pool_collision zone a s = false) scopes;
}.

Lemma reservation_step_ok zones scopes seen r seen' :
  reservation_step zones scopes seen r = Ok seen' →
  ∃ zone a mac, reservation_good zones scopes r zone a mac
    ∧ reservation_key (rv_Name r) ∉ seenNames seen ∧ mac ∉ seenMACs seen
    ∧ rv_Address r ∉ seenAddresses seen
    ∧ seen' = mkSeen ({[reservation_key (rv_Name r)]} ∪ seenNames seen) ({[mac]} ∪ seenMACs seen)
                ({[rv_Address r]} ∪ seenAddresses seen).
Proof.
  unfold reservation_step. intros Hs. inv_ok.
  destruct (zones !! to_upper (rv_Zone r)) as [zone|] eqn:Ez; [|done].
  destruct (parse_addr (rv_Address r)) as [a|] eqn:Ea; [|done]. inv_ok. bools.
  exists zone, a, r0. split_and!; try done. constructor; try done.
  - intros [Hlo Hhi]. rewrite !andb_false_iff, Z.geb_leb, !Z.leb_gt in E2. lia.
  - by apply existsb_false.
Qed.

(** What the three maps hold after the reservations [rs]. *)
Record reservations_good zones scopes (rs : list Reservation) (seen : Seen) : Prop := {
  rsg_each : Forall (fun r => ∃ zone a mac, reservation_good zones scopes r zone a mac) rs;
  rsg_names : NoDup (map (fun r => reservation_key (rv_Name r)) rs);
  rsg_macs : NoDup (map (fun r => canonicalMAC (rv_MAC r)) rs);
  rsg_addresses : NoDup (rv_Address <$> rs);
  rsg_seen_names : seenNames seen = list_to_set (map (fun r => reservation_key (rv_Name r)) rs);
  rsg_seen_macs : ∀ m, Ok m ∈ map (fun r => canonicalMAC (rv_MAC r)) rs → m ∈ seenMACs seen;
  rsg_seen_addresses : seenAddresses seen = list_to_set (rv_Address <$> rs);
}.

Lemma reservations_ok zones scopes rs seen :
  foldM (reservation_step zones scopes) (mkSeen ∅ ∅ ∅) rs = Ok seen →
  reservations_good zones scopes rs seen.
Proof.
  apply foldM_inv.
  { constructor; try constructor; try done; set_solver. }
  intros dn r s1 s2 [] _ (zone&a&mac&Hg&Hn&Hm&Ha&->)%reservation_step_ok.
  pose proof (rg_mac _ _ _ _ _ _ Hg) as Hmac.
  constructor; cbn; rewrite ?fmap_app, ?map_app, ?list_to_set_app_L; cbn.
  - apply Forall_app. split; [done|]. constructor; eauto.
  - apply NoDup_snoc; [done|]. rewrite rsg_seen_names0 in Hn. set_solver.
  - apply NoDup_snoc; [done|]. rewrite Hmac. auto.
  - apply NoDup_snoc; [done|]. rewrite rsg_seen_addresses0 in Ha. set_solver.
  - rewrite rsg_seen_names0. set_solver.
  - rewrite Hmac. intros m [Hin|[= ->]%list_elem_of_singleton]%elem_of_app; set_solver.
  - rewrite rsg_seen_addresses0. set_solver.
Qed.

(** ** What a validated scope is *)

Lemma usableAddress_ok a zone : usableAddress a zone = true →
  ∃ p, parse_prefix (z_Network zone) = Some p ∧ prefix_contains p a = true
    ∧ addr_string a ≠ z_Gateway zone
    ∧ a ≠ addr_of (octet (p_addr (masked p)) 0) (octet (p_addr (masked p)) 1) (octet (p_addr (masked p)) 2) 255.
Proof.
  unfold usableAddress. destruct (parse_prefix _) as [p|]; [|done].
  destruct (_ || _) eqn:E; [done|]. intros Hl. bools. eauto.
Qed.

Lemma usablePool_ok s e zone a b : usablePool s e zone = Ok (a, b) →
  parse_addr s = Some a ∧ parse_addr e = Some b ∧ usableAddress a zone = true
  ∧ usableAddress b zone = true ∧ a ≤ b.
Proof.
  unfold usablePool. destruct (parse_addr s) as [x|]; [|done]. destruct (parse_addr e) as [y|]; [|done].
  destruct (_ || _) eqn:E; [done|]. intros [= <- <-]. bools. split_and!; done.
Qed.

Lemma scope_step_ok zones seen sc seen' : scope_step zones seen sc = Ok seen' →
  ∃ zone, zones !! to_upper (sc_Zone sc) = Some zone ∧ z_Name zone ∉ seen
    ∧ seen' = {[z_Name zone]} ∪ seen
    ∧ (sc_Mode sc = ScopePool ∧ scope_pool_check sc zone = Ok tt
       ∨ sc_Mode sc = ScopeReservationsOnly ∧ sc_PoolStart sc = "" ∧ sc_PoolEnd sc = "").
Proof.
  unfold scope_step. destruct (zones !! _) as [zone|]; [|done]. intros Hs. inv_ok.
  exists zone. split_and!; [done|by bools|done|].
  destruct (decide (sc_Mode sc = ScopePool)) as [Hm|Hm].
  - left. rewrite Hm in E2. split; [done|]. exact E2.
  - right. rewrite (bool_decide_eq_false_2 _ Hm) in E0. cbn in E0. rewrite andb_true_r in E0. bools.
    rewrite E0, bool_decide_eq_true_2 in E1 by done. cbn in E1. bools. done.
Qed.

Lemma prefix_interval p a b x : valid_prefix p → a ≤ x ≤ b →
  prefix_contains p a = true → prefix_contains p b = true → prefix_contains p x = true.
Proof.
  intros Hp Hx Ha Hb. pose proof Hp as [_ Hbits].
  rewrite prefix_contains_spec in Ha, Hb |- * by lia.
  assert (0 < 2 ^ (32 - p_bits p)) by (apply Z.pow_pos_nonneg; lia).
  pose proof (Z.div_le_mono a x (2 ^ (32 - p_bits p))). pose proof (Z.div_le_mono x b (2 ^ (32 - p_bits p))). lia.
Qed.

(** In a /24 (or longer) all addresses share the octets before the last. *)
Lemma prefix24_octet p a : valid_prefix p → 24 ≤ p_bits p → prefix_contains p a = true →
  a / 256 = p_addr (masked p) / 256.
Proof.
  intros [_ Hp] H24 Hc. apply (contains_mono _ _ 24) in Hc; [|lia..].
  unfold masked. cbn. assert (mask_bits 24 (mask_bits (p_bits p) (p_addr p)) = mask_bits 24 (p_addr p)) as E.
  { unfold mask_bits. f_equal. rewrite Z.shiftl_mul_pow2, !Z.shiftr_div_pow2 by lia.
    replace (2 ^ (32 - 24)) with (2 ^ (32 - p_bits p) * 2 ^ (p_bits p - 24)) by (rewrite <- Z.pow_add_r by lia; f_equal; lia).
    rewrite <- !Z.div_div by (try apply Z.pow_nonzero; try apply Z.pow_pos_nonneg; lia).
    rewrite Z.div_mul; [done|]. apply Z.pow_nonzero; lia. }
  rewrite <- E in Hc. unfold mask_bits at 1 2 in Hc. change (32 - 24) with 8 in Hc.
  rewrite !Z.shiftl_mul_pow2, !Z.shiftr_div_pow2 in Hc by lia. change (2 ^ 8) with 256 in Hc. lia.
Qed.

Lemma octet3 a : octet a 3 = a mod 256.
Proof. rewrite octet_spec by lia. by rewrite Z.div_1_r. Qed.

Lemma scope_pool_ok sc zone : scope_pool_check sc zone = Ok tt →
  ∃ s e p, parse_addr (sc_PoolStart sc) = Some s ∧ parse_addr (sc_PoolEnd sc) = Some e
    ∧ parse_prefix (z_Network zone) = Some p ∧ s < e
    ∧ (∀ a, s ≤ a ≤ e → prefix_contains p a = true)
    ∧ (24 ≤ p_bits p → ∀ a, s ≤ a ≤ e → octet a 3 < ProbeAddressStart).
Proof.
  unfold scope_pool_check. intros Hs. apply bind_ok in Hs as ([s e] & E0 & Hs).
  inv_ok. bools. apply usablePool_ok in E0 as (Es&Ee&Us&Ue&Hle).
  apply usableAddress_ok in Us as (p&Ep&Cs&_&Ls). apply usableAddress_ok in Ue as (p'&Ep'&Ce&_&Le).
  rewrite Ep in Ep'. injection Ep' as <-.
  pose proof (parse_prefix_sound _ _ Ep) as Hp. destruct Hp as [Hp _].
  exists s, e, p. split_and!; try done; [lia| |].
  { intros a Ha. by apply (prefix_interval p s e). }
  intros H24 a Ha. pose proof (prefix_interval p s e a Hp Ha Cs Ce) as Ca.
  apply (prefix24_octet p) in Cs, Ce, Ca; try done. set (m := p_addr (masked p)) in *.
  assert (octet s 3 ≠ 255) as H255.
  { intros E255. apply Ls. rewrite octet3 in E255.
    pose proof (addr_of_octets s ltac:(by eapply parse_addr_valid)) as Eq. rewrite <- Eq at 1.
    rewrite octet3, E255. unfold addr_of. do 2 f_equal.
    rewrite !octet_spec by lia. change (2 ^ (8 * (3 - 0))) with (256 * 65536).
    change (2 ^ (8 * (3 - 1))) with (256 * 256). change (2 ^ (8 * (3 - 2))) with 256.
    rewrite <- !(Z.div_div _ 256) by lia. rewrite Cs. done. }
  unfold overlapsProbeRange, ProbeAddressStart, ProbeAddressEnd in Hs.
  rewrite !octet3 in *. unfold ProbeAddressStart.
  apply andb_false_iff in Hs. rewrite Z.geb_leb, !Z.leb_gt in Hs.
  pose proof (Z.mod_pos_bound s 256). pose proof (Z.div_mod s 256). pose proof (Z.div_mod e 256).
  pose proof (Z.div_mod a 256). pose proof (Z.mod_pos_bound e 256). pose proof (Z.mod_pos_bound a 256). lia.
Qed.

(** What the scope loop has established after the scopes [scs]. *)
Definition scope_good (zones : gmap string Zone) (sc : DHCPScope) : Prop :=
  ∃ zone, zones !! to_upper (sc_Zone sc) = Some zone
    ∧ (sc_Mode sc = ScopePool ∧ scope_pool_check sc zone = Ok tt
       ∨ sc_Mode sc = ScopeReservationsOnly ∧ sc_PoolStart sc = "" ∧ sc_PoolEnd sc = "").

Definition scope_zone_name (zones : gmap string Zone) (sc : DHCPScope) : option string :=
  z_Name <$> zones !! to_upper (sc_Zone sc).

Lemma scopes_ok zones scs seen : foldM (scope_step zones) ∅ scs = Ok seen →
  Forall (scope_good zones) scs ∧ NoDup (map (scope_zone_name zones) scs)
  ∧ ∀ n, n ∈ seen ↔ Some n ∈ map (scope_zone_name zones) scs.
Proof.
  apply (foldM_inv _ (fun scs seen => Forall (scope_good zones) scs
    ∧ NoDup (map (scope_zone_name zones) scs)
    ∧ ∀ n, n ∈ seen ↔ Some n ∈ map (scope_zone_name zones) scs)).
  { split_and!; [constructor|constructor|set_solver]. }
  intros dn sc s1 s2 (Hg&Hnd&Hs) _ (zone&Ez&Hnew&->&Hm)%scope_step_ok. rewrite map_app. cbn.
  assert (scope_zone_name zones sc = Some (z_Name zone)) as Hz by (unfold scope_zone_name; by rewrite Ez).
  rewrite Hz. split_and!.
  - apply Forall_app; split; [done|]. constructor; [|done]. by exists zone.
  - apply NoDup_snoc; [done|]. by rewrite <- Hs.
  - intros n. rewrite elem_of_union, elem_of_app, Hs, !elem_of_singleton, list_elem_of_singleton. naive_solver.
Qed.

(** A family of zones counted by its distinct names is covered by them. *)
Lemma scopes_cover (zones : gmap string Zone) (seen : gset string) :
  (∀ n, n ∈ seen → ∃ k z, zones !! k = Some z ∧ z_Name z = n) → size seen = size zones →
  ∀ k z, zones !! k = Some z → z_Name z ∈ seen.
Proof.
  intros Hsub Hsize k z Hz.
  set (names := list_to_set ((fun p => z_Name p.2) <$> map_to_list zones) : gset string).
  assert (seen ⊆ names) as Hs.
  { intros n (k'&z'&Hz'&<-)%Hsub. apply elem_of_list_to_set, list_elem_of_fmap.
    exists (k', z'). by rewrite elem_of_map_to_list. }
  assert (size names ≤ size zones)%nat as Hn.
  { unfold names. etransitivity; [apply size_list_to_set_le|]. by rewrite length_fmap, length_map_to_list. }
  assert (seen = names) as ->.
  { apply set_subseteq_size_eq; [done|lia]. }
  apply elem_of_list_to_set, list_elem_of_fmap. exists (k, z). by rewrite elem_of_map_to_list.
Qed.
End dhcp.

(** ** Properties *)

(** Validated reservations never clash: names (up to case and spaces),
    hardware addresses (as bytes) and IPv4 addresses are pairwise distinct, and
    each reservation is a usable host of its zone: inside the zone's network, not
    the gateway, not a probe address (last octet 250 to 254) and outside every
    dynamic pool of that zone. *)
Theorem validateDHCP_reservations `{GoUnicode} c site :
  validateDHCP c site = Ok tt → Enabled (h_Enabled c) = true →
  NoDup (map (fun r => reservation_key (rv_Name r)) (h_Reservations c))
  ∧ NoDup (map reservation_mac (h_Reservations c))
  ∧ NoDup (map (fun r => parse_addr (rv_Address r)) (h_Reservations c))
  ∧ ∀ r, r ∈ h_Reservations c → ∃ zone p a,
      IsDNSLabel (reservation_key (rv_Name r)) = true
      ∧ zoneMap site !! to_upper (rv_Zone r) = Some zone ∧ parse_prefix (z_Network zone) = Some p
      ∧ parse_addr (rv_Address r) = Some a ∧ prefix_contains p a = true
      ∧ rv_Address r ≠ z_Gateway zone ∧ ¬ probe_address a
      ∧ ∀ sc s e, sc ∈ h_Scopes c → equal_fold (sc_Zone sc) (z_Name zone) = true →
          sc_Mode sc = ScopePool → usablePool (sc_PoolStart sc) (sc_PoolEnd sc) zone = Ok (s, e) →
          ¬ s ≤ a ≤ e.
Proof.
  intros Hv He. unfold validateDHCP in Hv. rewrite He in Hv. cbn in Hv. inv_ok.
  apply reservations_ok in E3 as [Heach Hn Hm Ha _ _ _]. rewrite Forall_forall in Heach. split_and!.
  - done.
  - revert Hm. apply NoDup_map_weaken. intros x y Hx Hy Hxy. unfold reservation_mac in Hxy.
    destruct (Heach x Hx) as (?&?&mx&Gx), (Heach y Hy) as (?&?&my&Gy).
    apply rg_mac in Gx, Gy. rewrite Gx, Gy.
    apply canonicalMAC_ok in Gx as (bx&Ex&_&_&->), Gy as (b&Ey&_&_&->). congruence.
  - revert Ha. apply NoDup_map_weaken. intros x y Hx Hy Hxy.
    destruct (Heach x Hx) as (?&a&?&Gx). apply rg_addr in Gx. rewrite Gx in Hxy.
    by eapply parse_addr_inj.
  - intros rv Hr. destruct (Heach rv Hr) as (zone&a&mac&[Hl Hz Haddr Hu Hpr _ Hpool]).
    apply usableAddress_ok in Hu as (p&Hp&Hc&Hgw&_). exists zone, p, a.
    rewrite (parse_addr_canonical _ _ Haddr) in Hgw. split_and!; try done.
    intros sc s e Hsc Hf Hm' Hup. rewrite Forall_forall in Hpool. specialize (Hpool sc Hsc).
    unfold pool_collision in Hpool. rewrite Hf, Hm', bool_decide_eq_true_2, Hup in Hpool by done.
    cbn in Hpool. rewrite andb_false_iff, !Z.leb_gt in Hpool. lia.
Qed.

(** Validated scopes cover every zone of the site exactly once; a
    reservation-only scope has no pool; a pool is a non-empty ordered range
    inside its zone's network and, in networks of at most 256 addresses, has
    no probe address in it. *)
Theorem validateDHCP_scopes `{GoUnicode} c site :
  validateDHCP c site = Ok tt → Enabled (h_Enabled c) = true →
  length (h_Scopes c) = 6%nat
  ∧ NoDup (map (scope_zone_name (zoneMap site)) (h_Scopes c))
  ∧ (∀ k zone, zoneMap site !! k = Some zone →
       ∃ sc, sc ∈ h_Scopes c ∧ scope_zone_name (zoneMap site) sc = Some (z_Name zone))
  ∧ ∀ sc, sc ∈ h_Scopes c → ∃ zone, zoneMap site !! to_upper (sc_Zone sc) = Some zone
      ∧ (sc_Mode sc = ScopeReservationsOnly ∧ sc_PoolStart sc = "" ∧ sc_PoolEnd sc = ""
         ∨ sc_Mode sc = ScopePool ∧ ∃ s e p,
             parse_addr (sc_PoolStart sc) = Some s ∧ parse_addr (sc_PoolEnd sc) = Some e
             ∧ parse_prefix (z_Network zone) = Some p ∧ s < e
             ∧ (∀ a, s ≤ a ≤ e → prefix_contains p a = true)
             ∧ (24 ≤ p_bits p → ∀ a, s ≤ a ≤ e → ¬ probe_address a)).
Proof.
  intros Hv He. unfold validateDHCP in Hv. rewrite He in Hv. cbn in Hv. inv_ok. bools.
  apply Nat.eqb_eq in E0, E2. apply scopes_ok in E1 as (Hg&Hnd&Hseen).
  rewrite Forall_forall in Hg. split_and!; try done.
  - intros k zone Hz. apply (scopes_cover _ r) in Hz; [|..|done].
    + apply Hseen, list_elem_of_fmap in Hz as (sc&?&?). eauto.
    + intros n (sc&Hn&Hsc)%Hseen%list_elem_of_fmap. unfold scope_zone_name in Hn.
      symmetry in Hn. apply fmap_Some in Hn as (z&?&->). eauto.
  - intros sc Hsc. destruct (Hg sc Hsc) as (zone&Hz&[(Hm&Hp)|Hm]); exists zone; split; try done; [|by left].
    right. split; [done|]. apply scope_pool_ok in Hp as (s&e&p&?&?&?&?&?&Hpr).
    exists s, e, p. split_and!; try done. intros H24 a Ha [Hlo _]. specialize (Hpr H24 a Ha). lia.
Qed.

(** The reference intent: every zone's scope and the media host's reservation. *)
Definition reference_dhcp : DHCPConfig :=
  normalize_dhcp (mkDHCP (Some true) "" []
    [mkReservation "lab-media-01" "SERVERS" "02:00:00:00:20:e6" "10.10.20.230";
     mkReservation "Printer" "trusted" "02-00-00-00-30-0A" "10.10.30.10"] (mkTime [] None)).

Theorem validateDHCP_reservations_witness :
  NoDup (map reservation_mac (h_Reservations reference_dhcp)).
Proof.
  apply (validateDHCP_reservations (H := ascii_only) reference_dhcp (NewSite "i" "age1" "vm"));
    by vm_compute.
Defined.

Theorem validateDHCP_scopes_witness :
  ∃ sc, sc ∈ h_Scopes reference_dhcp
    ∧ @scope_zone_name ascii_only (@zoneMap ascii_only (NewSite "i" "age1" "vm")) sc = Some "SANDBOX".
Proof.
  apply (validateDHCP_scopes (H := ascii_only) reference_dhcp (NewSite "i" "age1" "vm")) with (k := "SANDBOX")
    (zone := mkZone "SANDBOX" ZoneTypeSandbox 40 "10.10.40.0/24" "10.10.40.1" "dynamic" ["10.10.40.1"] ["10.10.40.1"]);
    by vm_compute.
Defined.
End CsDhcp.
