(* ===== verification/CsVpn.v ===== *)
(** * Client services: VPN clients and port forwards ([validateVPN]) *)

From S2P Require Export CsNames.

Open Scope Z_scope.

Module CsVpn.
Import Model CsConfig CsNames.

Section vpn.
Context `{GoUnicode}.

(** The later of two reservations with one key wins. *)
Definition reservations_map (dhcp : option DHCPConfig) : gmap string Reservation :=
  match dhcp with
  | None => ∅
  | Some d => foldl (fun m r => <[reservation_key (rv_Name r) := r]> m) ∅ (h_Reservations d)
  end.

Definition vpn_subnet (zone : string) : option string :=
  if zone == "SERVERS" then Some "10.10.20.0/24"
  else if zone == "TRUSTED" then Some "10.10.30.0/24"
  else if zone == "SANDBOX" then Some "10.10.40.0/24"
  else None.

Definition client_address_check (ref zone : string) (subnet : string) (r : Reservation) : result Error unit :=
  match parse_addr (rv_Address r) with
  | None => Err (ClientAddress ref)
  | Some address =>
      _ ← fail_if (addr_string address != rv_Address r) (ClientAddress ref);
      let inside := match parse_prefix subnet with
                    | Some prefix => prefix_contains prefix address
                    | None => false
                    end in
      fail_if (negb inside || (octet address 3 <? 224) || (octet address 3 >? 239)) (ClientRange ref zone)
  end.

Definition client_step (reservations : gmap string Reservation) (clients : gset string) (ref : string)
    : result Error (gset string) :=
  let name := reservation_key ref in
  _ ← fail_if (name == "") (ClientEmpty ref);
  _ ← fail_if (bool_decide (name ∈ clients)) (ClientDuplicate ref);
  _ ← fail_if (negb (IsDNSLabel name)) (ClientBadName ref);
  _ ← fail_if (ref != name) (ClientUncanonical ref);
  match reservations !! name with
  | None => Err (ClientUnknown ref)
  | Some r =>
      match vpn_subnet (to_upper (rv_Zone r)) with
      | None => Err (ClientZone ref (rv_Zone r))
      | Some subnet =>
          _ ← client_address_check ref (to_upper (rv_Zone r)) subnet r;
          Ok ({[name]} ∪ clients)
      end
  end.

(** [fmt.Sprintf("%s/%d", protocol, f.Port)] *)
Definition forward_key (protocol : string) (port : Z) : string := protocol +:+ "/" +:+ itoa port.

Definition protocol_step (f : VPNForward) (seen : gset string) (protocol : string) : result Error (gset string) :=
  _ ← fail_if (protocol != to_lower (trim_space protocol)) (ForwardProtocolFormat (f_Name f) protocol);
  _ ← fail_if ((protocol != "tcp") && (protocol != "udp")) (ForwardProtocol (f_Name f) protocol);
  let key := forward_key protocol (f_Port f) in
  _ ← fail_if (bool_decide (key ∈ seen)) (ForwardKeyDuplicate key);
  Ok ({[key]} ∪ seen).

Definition forward_step (clients : gset string) (s : gset string * gset string) (f : VPNForward)
    : result Error (gset string * gset string) :=
  let '(seen, seenNames) := s in
  let name := reservation_key (f_Name f) in
  let reservation := reservation_key (f_Reservation f) in
  _ ← fail_if ((name == "") || (reservation == "")) ForwardRequires;
  _ ← fail_if (negb (IsDNSLabel name)) (ForwardBadName (f_Name f));
  _ ← fail_if ((f_Name f != name) || (f_Reservation f != reservation)) (ForwardUncanonical (f_Name f));
  _ ← fail_if (bool_decide (name ∈ seenNames)) (ForwardDuplicate (f_Name f));
  _ ← fail_if (bool_decide (reservation ∉ clients)) (ForwardNoClient (f_Name f) (f_Reservation f));
  _ ← fail_if ((f_Port f <? 1) || (f_Port f >? 65535)) (ForwardPort (f_Name f) (f_Port f));
  _ ← fail_if (length (f_Protocols f) =? 0)%nat (ForwardNoProtocol (f_Name f));
  seen ← foldM (protocol_step f) seen (f_Protocols f);
  Ok (seen, {[name]} ∪ seenNames).

Definition validateVPN (config : VPNConfig) (dhcp : option DHCPConfig) : result Error unit :=
  _ ← fail_if (Enabled (v_Enabled config) && (trim_space (v_Location config) == "")) VPNLocation;
  _ ← fail_if (match dhcp with
               | None => negb (length (v_Clients config) =? 0)%nat || negb (length (v_Forwards config) =? 0)%nat
               | Some _ => false
               end) VPNNeedsDHCP;
  clients ← foldM (client_step (reservations_map dhcp)) ∅ (v_Clients config);
  _ ← foldM (forward_step clients) (∅, ∅) (v_Forwards config);
  Ok tt.

(** ** Lemmas *)

Definition client_good (dhcp : option DHCPConfig) (ref : string) : Prop :=
  reservation_key ref = ref ∧ IsDNSLabel ref = true ∧
  ∃ r a subnet p, reservations_map dhcp !! ref = Some r ∧ vpn_subnet (to_upper (rv_Zone r)) = Some subnet
    ∧ parse_prefix subnet = Some p ∧ parse_addr (rv_Address r) = Some a
    ∧ prefix_contains p a = true ∧ 224 ≤ octet a 3 ≤ 239.

Lemma client_step_ok dhcp cs ref cs' : client_step (reservations_map dhcp) cs ref = Ok cs' →
  client_good dhcp ref ∧ (ref ∉ cs) ∧ cs' = {[ref]} ∪ cs.
Proof.
  unfold client_step. intros Hs. inv_ok. bools.
  assert (reservation_key ref = ref) as Hk by done. rewrite Hk in *.
  destruct (reservations_map dhcp !! ref) as [r|] eqn:Er; [|done].
  destruct (vpn_subnet _) as [subnet|] eqn:Es; [|done]. inv_ok.
  unfold client_address_check in E3. destruct (parse_addr _) as [a|] eqn:Ea; [|done]. inv_ok.
  destruct (parse_prefix subnet) as [p|] eqn:Ep; [|done]. bools.
  split_and!; [|done|done]. split_and!; [done|done|].
  exists r, a, subnet, p. split_and!; try done; lia.
Qed.

Lemma clients_ok dhcp refs cs : foldM (client_step (reservations_map dhcp)) ∅ refs = Ok cs →
  Forall (client_good dhcp) refs ∧ NoDup refs ∧ cs = list_to_set refs.
Proof.
  apply (foldM_inv _ (fun refs cs => Forall (client_good dhcp) refs ∧ NoDup refs ∧ cs = list_to_set refs)).
  { split_and!; [constructor|constructor|done]. }
  intros dn ref s1 s2 (Hg&Hnd&->) _ (Hr&Hnew&->)%client_step_ok. split_and!.
  - apply Forall_app; split; [done|by constructor].
  - apply NoDup_snoc; [done|set_solver].
  - rewrite list_to_set_app_L. set_solver.
Qed.

(** The (protocol, port) pairs of the forwards, in order. *)
Definition forward_pairs (fs : list VPNForward) : list (string * Z) :=
  concat (map (fun f => map (fun p => (p, f_Port f)) (f_Protocols f)) fs).

Lemma forward_key_inj p q m n : p ∈ ["tcp"; "udp"] → q ∈ ["tcp"; "udp"] → 0 ≤ m → 0 ≤ n →
  forward_key p m = forward_key q n → (p, m) = (q, n).
Proof.
  unfold forward_key. intros Hp Hq Hm Hn. rewrite !itoa_nonneg by done.
  assert (format_uint m = format_uint n → m = n) by (apply format_uint_inj; done).
  set_unfold. destruct Hp as [->|[->|[]]], Hq as [->|[->|[]]]; rewrite !app_cons_s, !app_nil_l_s;
    intros [=]; f_equal; auto.
Qed.

Definition keys_of (ps : list (string * Z)) : gset string :=
  list_to_set (map (fun pq => forward_key pq.1 pq.2) ps).
Definition pair_ok (pq : string * Z) : Prop := pq.1 ∈ ["tcp"; "udp"] ∧ 1 ≤ pq.2 ≤ 65535.

Lemma protocols_ok f dn ps seen' :
  1 ≤ f_Port f ≤ 65535 → NoDup dn → Forall pair_ok dn →
  foldM (protocol_step f) (keys_of dn) ps = Ok seen' →
  let all := dn ++ map (fun p => (p, f_Port f)) ps in
  NoDup all ∧ Forall pair_ok all ∧ seen' = keys_of all.
Proof.
  intros Hp Hnd Hok. revert seen'. induction ps as [|p ps IH] using rev_ind; intros seen'.
  { cbn. rewrite app_nil_r. intros [= <-]. done. }
  intros (s1&(IH1&IH2&->)%IH&Hs)%foldM_snoc. unfold protocol_step in Hs. inv_ok. bools. cbn zeta.
  assert (p ∈ ["tcp"; "udp"]) as Hpp.
  { rewrite andb_false_iff in E0. destruct E0; bools; set_solver. }
  rewrite map_app, app_assoc. cbn. split_and!.
  - apply NoDup_snoc; [done|]. intros Hin. apply E1. unfold keys_of.
    apply elem_of_list_to_set, list_elem_of_fmap. by exists (p, f_Port f).
  - apply Forall_app. split; [done|]. apply Forall_singleton. by split.
  - unfold keys_of. rewrite (map_app _ (dn ++ _)), list_to_set_app_L. cbn.
    rewrite union_empty_r_L. apply union_comm_L.
Qed.

Definition forward_good (clients : list string) (f : VPNForward) : Prop :=
  reservation_key (f_Name f) = f_Name f ∧ IsDNSLabel (f_Name f) = true ∧ f_Reservation f ∈ clients
  ∧ 1 ≤ f_Port f ≤ 65535 ∧ f_Protocols f ≠ [] ∧ ∀ p, p ∈ f_Protocols f → p ∈ ["tcp"; "udp"].

Lemma forward_step_ok clients dn names f s' :
  NoDup dn → Forall pair_ok dn →
  forward_step (list_to_set clients) (keys_of dn, names) f = Ok s' →
  let all := dn ++ forward_pairs [f] in
  forward_good clients f ∧ NoDup all ∧ Forall pair_ok all ∧ (f_Name f ∉ names)
  ∧ s' = (keys_of all, {[f_Name f]} ∪ names).
Proof.
  intros Hnd Hok Hs. unfold forward_step in Hs. inv_ok. bools.
  assert (reservation_key (f_Name f) = f_Name f) as Hn by done.
  assert (reservation_key (f_Reservation f) = f_Reservation f) as Hr by done. rewrite ?Hn, ?Hr in *.
  apply protocols_ok in E6 as (A1&A2&->); [|lia|done|done].
  unfold forward_pairs. cbn. rewrite app_nil_r. split_and!; try done.
  unfold forward_good. split_and!; try done; try lia.
  - destruct (decide (f_Reservation f ∈ (list_to_set clients : gset string))); set_solver.
  - intros E'. by rewrite E' in E5.
  - intros p Hp. rewrite Forall_app in A2. destruct A2 as [_ A2]. rewrite Forall_forall in A2.
    apply (A2 (p, f_Port f)). apply list_elem_of_fmap. by exists p.
Qed.

Lemma forwards_ok clients fs s : foldM (forward_step (list_to_set clients)) (∅, ∅) fs = Ok s →
  Forall (forward_good clients) fs ∧ NoDup (map f_Name fs) ∧ NoDup (forward_pairs fs).
Proof.
  intros Hs. cut (Forall (forward_good clients) fs ∧ NoDup (map f_Name fs) ∧ NoDup (forward_pairs fs)
    ∧ Forall pair_ok (forward_pairs fs) ∧ s = (keys_of (forward_pairs fs), list_to_set (map f_Name fs)));
    [naive_solver|].
  revert Hs. apply (foldM_inv _ (fun fs s =>
    Forall (forward_good clients) fs ∧ NoDup (map f_Name fs) ∧ NoDup (forward_pairs fs)
    ∧ Forall pair_ok (forward_pairs fs) ∧ s = (keys_of (forward_pairs fs), list_to_set (map f_Name fs)))).
  { split_and!; constructor. }
  intros dn f s1 s2 (Hg&Hn&Hp&Hok&->) _ (Gf&A1&A2&Hnew&->)%forward_step_ok; [|done|done].
  unfold forward_pairs in *. rewrite !map_app, concat_app in *. split_and!; try done.
  - apply Forall_app. split; [done|by constructor].
  - apply NoDup_snoc; [done|]. set_solver.
  - f_equal. rewrite list_to_set_app_L. cbn. set_solver.
Qed.
End vpn.

(** ** Properties *)

(** A validated VPN intent routes only what it may: every client is a
    distinct canonical reservation of a client zone whose address lies in the
    zone's .224 to .239 range; every forward has a distinct canonical name,
    targets one of the clients and a port of 1 to 65535; and no two forwards
    claim the same protocol and port. *)
Theorem validateVPN_sound `{GoUnicode} c dhcp :
  validateVPN c dhcp = Ok tt →
  (Enabled (v_Enabled c) = true → trim_space (v_Location c) ≠ "")
  ∧ NoDup (v_Clients c) ∧ Forall (client_good dhcp) (v_Clients c)
  ∧ NoDup (map f_Name (v_Forwards c)) ∧ Forall (forward_good (v_Clients c)) (v_Forwards c)
  ∧ NoDup (forward_pairs (v_Forwards c)).
Proof.
  unfold validateVPN. intros Hv. inv_ok. apply clients_ok in E1 as (Hc&Hnd&->).
  apply forwards_ok in E2 as (Hf&Hn&Hp). split_and!; try done.
  intros He. rewrite He in E. cbn in E. by bools.
Qed.

Definition media_dhcp : DHCPConfig :=
  normalize_dhcp (mkDHCP (Some true) "" []
    [mkReservation "lab-media-01" "SERVERS" "02:00:00:00:20:e6" "10.10.20.230"] (mkTime [] None)).
Definition media_vpn : VPNConfig :=
  mkVPN (Some true) "ch" ["lab-media-01"] [mkForward "media-qbittorrent" "lab-media-01" ["tcp"; "udp"] 51413].

Theorem validateVPN_sound_witness : NoDup (forward_pairs (v_Forwards media_vpn)).
Proof. apply (validateVPN_sound (H := ascii_only) media_vpn (Some media_dhcp)). by vm_compute. Defined.
End CsVpn.
