(* ===== verification/CsDns.v ===== *)
(** * Client services: DNS records and CNAME chains ([validateDNS],
    [validateSharedNames]) *)

From S2P Require Export CsNames AliasGraph.

Open Scope Z_scope.

Module CsDns.
Import Model CsConfig CsNames.

Section dns.
Context `{GoUnicode}.

(** ** [validateDNS] *)

Definition upstream_check (u : DNSUpstream) : result Error unit :=
  _ ← fail_if (negb (canonical_ipv4 (u_Address u))) (UpstreamAddress (u_Address u));
  _ ← fail_if (negb (u_Port u =? DNSResolverPort)) (UpstreamPort (u_Address u));
  _ ← fail_if (u_TLSName u != "dns.quad9.net") (UpstreamTLS (u_Address u));
  fail_if (u_ECS u) UpstreamECS.

Definition record_key (name type : string) : string := name +:+ String "000" type.

Definition record_value_check (site : Site) (name : string) (r : DNSRecord) : result Error unit :=
  if r_Type r == "A" then
    match parse_to4 (r_Value r) with
    | Some address =>
        fail_if ((addr_string address != r_Value r) || negb (addressInZone address site)) (RecordAddress name)
    | None => Err (RecordAddress name)
    end
  else
    match canonicalName (r_Value r) (n_Domain (s_Network site)) with
    | Err e => Err (RecordTarget name e)
    | Ok target => fail_if (target == name) (RecordSelf name)
    end.

Definition record_step (site : Site) (owned : gset string)
    (s : gset string * gmap string string) (r : DNSRecord)
    : result Error (gset string * gmap string string) :=
  let '(seen, seenNames) := s in
  match canonicalName (r_Name r) (n_Domain (s_Network site)) with
  | Err e => Err (RecordName (r_Name r) e)
  | Ok name =>
      _ ← fail_if ((r_Type r != "A") && (r_Type r != "CNAME")) (RecordType name (r_Type r));
      let key := record_key name (r_Type r) in
      _ ← fail_if (bool_decide (key ∈ seen)) (RecordDuplicate name (r_Type r));
      match seenNames !! name with
      | Some previous => Err (RecordMixed name previous (r_Type r))
      | None =>
          _ ← fail_if (bool_decide (name ∈ owned)) (RecordPlatform name);
          _ ← record_value_check site name r;
          Ok ({[key]} ∪ seen, <[name := r_Type r]> seenNames)
      end
  end.

Definition validateDNS (config : DNSConfig) (site : Site) : result Error unit :=
  if negb (Enabled (d_Enabled config)) then Ok tt
  else
    _ ← fail_if (length (d_Upstreams config) =? 0)%nat NoUpstream;
    _ ← eachM upstream_check (d_Upstreams config);
    let owned := platform_names_from site ∅ in
    _ ← foldM (record_step site owned) (∅, ∅) (d_Records config);
    Ok tt.

(** ** [validateSharedNames] *)

Definition reservation_name (site : Site) (r : Reservation) : string :=
  to_lower (rv_Name r) +:+ "." +:+ to_lower (trim_suffix (n_Domain (s_Network site)) ".").

Definition shared_step (site : Site) (s : gset string * gmap string string) (r : DNSRecord)
    : result Error (gset string * gmap string string) :=
  let '(seen, cnameTargets) := s in
  match canonicalName (r_Name r) (n_Domain (s_Network site)) with
  | Err e => Err (BadName e)
  | Ok name =>
      _ ← fail_if (bool_decide (name ∈ seen)) (RecordReservation name);
      if r_Type r == "A" then Ok ({[name]} ∪ seen, cnameTargets)
      else
        match canonicalName (r_Value r) (n_Domain (s_Network site)) with
        | Err e => Err (BadName e)
        | Ok target => Ok ({[name]} ∪ seen, <[name := target]> cnameTargets)
        end
  end.

(** The recursive closure.  Its [path] map is only ever read below the call
    that marked it (there is one recursive call, after which the closure
    unmarks and returns), so the model passes it down. *)
Fixpoint walk (fuel : nat) (cnameTargets : gmap string string) (seen : gset string)
    (path : gset string) (name : string) : result Error unit :=
  match fuel with
  | O => Err WalkFuel
  | S fuel =>
      _ ← fail_if (bool_decide (name ∈ path)) (AliasCycle name);
      match cnameTargets !! name with
      | None => fail_if (bool_decide (name ∉ seen)) (AliasUnknown name)
      | Some target => walk fuel cnameTargets seen ({[name]} ∪ path) target
      end
  end.

(** A path holds distinct aliases, so one more step than there are aliases
    is enough. *)
Definition walk_all (cnameTargets : gmap string string) (seen : gset string) : result Error unit :=
  eachM (walk (S (size cnameTargets)) cnameTargets seen ∅) (map_to_list cnameTargets).*1.

Definition base_names (reservations : list Reservation) (site : Site) : gset string :=
  platform_names_from site (list_to_set (map (reservation_name site) reservations)).

Definition validateSharedNames (dns : DNSConfig) (dhcp : DHCPConfig) (site : Site) : result Error unit :=
  '(seen, cnameTargets) ← foldM (shared_step site) (base_names (h_Reservations dhcp) site, ∅) (d_Records dns);
  walk_all cnameTargets seen.

(** ** CNAME chains *)

(** The chain from [n] ends, at a known name that is not an alias. *)
Definition resolves (targets : gmap string string) (seen : gset string) (n : string) : Prop :=
  ∃ m, chain_end targets n m ∧ m ∈ seen.

Lemma walk_ok targets seen fuel path n u :
  walk fuel targets seen path n = Ok u → resolves targets seen n.
Proof.
  revert path n. induction fuel as [|fuel IH]; intros path n; cbn; [done|]. intros Hw. inv_ok.
  destruct (targets !! n) as [t|] eqn:Et.
  - apply IH in Hw as (m&?&?). exists m. split; [|done]. by eapply chain_end_step.
  - inv_ok. bools. exists n. split; [by apply chain_end_here|].
    destruct (decide (n ∈ seen)); [done|contradiction].
Qed.

(** Enough fuel: the walk returns its own verdict. *)
Lemma walk_fuel targets seen fuel path n :
  path ⊆ dom targets → (size targets < size path + fuel)%nat →
  walk fuel targets seen path n ≠ Err WalkFuel.
Proof.
  revert path n. induction fuel as [|fuel IH]; intros path n Hsub Hsz; cbn.
  { apply path_bound in Hsub. lia. }
  destruct (bool_decide (n ∈ path)) eqn:Hin; cbn; [done|]. bools.
  destruct (targets !! n) as [t|] eqn:Et.
  - destruct (path_extend targets path n t) as [? ?]; [done..|]. apply IH; [done|lia].
  - unfold fail_if. by case_bool_decide.
Qed.

Lemma walk_all_fuel targets seen : walk_all targets seen ≠ Err WalkFuel.
Proof.
  unfold walk_all. intros (n&_&Hn)%eachM_err. revert Hn. apply walk_fuel; [set_solver|]. rewrite size_empty. lia.
Qed.

(** ** Record names *)

Definition record_name (site : Site) (r : DNSRecord) : result NameError string :=
  canonicalName (r_Name r) (n_Domain (s_Network site)).

Definition names_ok (site : Site) (base : gset string) (rs : list DNSRecord) : Prop :=
  NoDup (map (record_name site) rs) ∧
  ∀ r, r ∈ rs → ∃ n, record_name site r = Ok n ∧ n ∉ base.

Lemma names_ok_snoc site base rs r n : names_ok site base rs → record_name site r = Ok n →
  Ok n ∉ map (record_name site) rs → (n ∉ base) → names_ok site base (rs ++ [r]).
Proof.
  intros [Hnd Hr] Hn Hnew Hb. split.
  - rewrite map_app. cbn. rewrite Hn. by apply NoDup_snoc.
  - intros r' [?| ->]%elem_snoc; eauto.
Qed.

(** The targets of the aliases among the records. *)
Definition targets_of (site : Site) (rs : list DNSRecord) (targets : gmap string string) : Prop :=
  ∀ r n, r ∈ rs → r_Type r ≠ "A" → record_name site r = Ok n →
    ∃ t, canonicalName (r_Value r) (n_Domain (s_Network site)) = Ok t ∧ targets !! n = Some t.

Definition shared_inv (site : Site) (base : gset string) (rs : list DNSRecord)
    (s : gset string * gmap string string) : Prop :=
  names_ok site base rs ∧ targets_of site rs s.2
  ∧ ∀ n, n ∈ s.1 ↔ n ∈ base ∨ Ok n ∈ map (record_name site) rs.

Lemma shared_records_ok site base rs s :
  foldM (shared_step site) (base, ∅) rs = Ok s → shared_inv site base rs s.
Proof.
  apply foldM_inv.
  { split_and!; [split; [constructor|set_solver]|intros r n Hr; set_solver|cbn; set_solver]. }
  intros dn r [seen targets] s2 (Hn&Ht&Hs) _ Hf. cbn [fst snd] in *. unfold shared_step in Hf.
  change (canonicalName (r_Name r) (n_Domain (s_Network site))) with (record_name site r) in Hf.
  destruct (record_name site r) as [n|e] eqn:En; [|done]. inv_ok. bools.
  rewrite Hs in E. apply Decidable.not_or in E as [Hb Hnew].
  assert (names_ok site base (dn ++ [r])) as Hn' by (by eapply names_ok_snoc).
  assert (∀ m, m ∈ {[n]} ∪ seen ↔ m ∈ base ∨ Ok m ∈ map (record_name site) (dn ++ [r])) as Hs'.
  { intros m. rewrite map_app. cbn. rewrite En, elem_of_union, Hs, elem_of_app, list_elem_of_singleton,
      elem_of_singleton. naive_solver. }
  destruct (r_Type r == "A") eqn:Etype; bools.
  { injection Hf as <-. split_and!; try done. intros r' n' [Hin| ->]%elem_snoc; [|done].
    by apply Ht. }
  destruct (canonicalName (r_Value r) _) as [t|] eqn:Et; [|done]. injection Hf as <-.
  split_and!; try done. cbn [snd]. intros r' n' [Hin| ->]%elem_snoc Hty Hn''.
  - destruct (Ht r' n' Hin Hty Hn'') as (t'&?&?). exists t'. split; [done|].
    rewrite lookup_insert_ne; [done|]. intros ->. apply Hnew. apply list_elem_of_fmap. by exists r'.
  - exists t. split; [done|]. rewrite En in Hn''. injection Hn'' as <-. by rewrite lookup_insert_eq.
Qed.

Definition dns_inv (site : Site) (owned : gset string) (rs : list DNSRecord)
    (s : gset string * gmap string string) : Prop :=
  names_ok site owned rs ∧ (∀ n, is_Some (s.2 !! n) ↔ Ok n ∈ map (record_name site) rs)
  ∧ ∀ r, r ∈ rs → r_Type r ∈ ["A"; "CNAME"]
      ∧ ∃ n, record_name site r = Ok n ∧ record_value_check site n r = Ok tt.

Lemma dns_records_ok site owned rs s :
  foldM (record_step site owned) (∅, ∅) rs = Ok s → dns_inv site owned rs s.
Proof.
  apply foldM_inv.
  { split_and!; [split; [constructor|set_solver]|cbn|set_solver].
    intros n. rewrite lookup_empty. split; [by intros []|set_solver]. }
  intros dn r [seen names] s2 (Hn&Hs&Hr) _ Hf. cbn [fst snd] in *. unfold record_step in Hf.
  change (canonicalName (r_Name r) (n_Domain (s_Network site))) with (record_name site r) in Hf.
  destruct (record_name site r) as [n|e] eqn:En; [|done]. inv_ok. bools.
  destruct (names !! n) eqn:Enm; [done|]. inv_ok. bools. cbn [snd].
  assert (Ok n ∉ map (record_name site) dn) as Hnew.
  { rewrite <- Hs, Enm. by intros []. }
  split_and!.
  - by eapply names_ok_snoc.
  - intros m. rewrite map_app. cbn. rewrite En, elem_of_app, list_elem_of_singleton, <- Hs.
    destruct (decide (m = n)) as [->|]; [rewrite lookup_insert_eq|rewrite lookup_insert_ne by done];
      naive_solver.
  - intros r' [?| ->]%elem_snoc; [by apply Hr|]. split; [|by exists n].
    rewrite andb_false_iff in E. destruct E; bools; set_solver.
Qed.
End dns.

(** ** Properties *)

(** Checking CNAME chains always finishes with a verdict: on any alias table,
    cyclic ones included, the walk never needs more steps than there are
    aliases plus one. *)
Theorem walk_terminates `{GoUnicode} dns dhcp site :
  validateSharedNames dns dhcp site ≠ Err WalkFuel.
Proof.
  unfold validateSharedNames. destruct (foldM _ _ _) as [[seen targets]|e] eqn:E; cbn.
  - apply walk_all_fuel.
  - intros [= ->]. revert E. generalize (base_names (h_Reservations dhcp) site, ∅ : gmap string string).
    induction (d_Records dns) as [|r rs IH]; intros [seen t]; cbn; [done|].
    destruct (canonicalName (r_Name r) _) as [n|e']; cbn; [|done].
    destruct (bool_decide (n ∈ seen)); cbn; [done|].
    unfold fail_if. case_bool_decide; cbn; [apply IH|].
    destruct (canonicalName (r_Value r) _); cbn; [apply IH|done].
Qed.

(** Validated names do not collide and every alias leads somewhere: the
    canonical names of the records are distinct, none is a platform name or a
    reservation's name, and from every CNAME the chain of aliases reaches,
    without ever returning, a name that exists and is not an alias. *)
Theorem validateSharedNames_sound `{GoUnicode} dns dhcp site :
  validateSharedNames dns dhcp site = Ok tt →
  names_ok site (base_names (h_Reservations dhcp) site) (d_Records dns)
  ∧ ∃ targets, targets_of site (d_Records dns) targets
    ∧ ∀ r n, r ∈ d_Records dns → r_Type r ≠ "A" → record_name site r = Ok n →
        (∃ m, rtc (alias_step targets) n m ∧ targets !! m = None ∧
           (m ∈ base_names (h_Reservations dhcp) site ∨ Ok m ∈ map (record_name site) (d_Records dns)))
        ∧ ¬ tc (alias_step targets) n n.
Proof.
  unfold validateSharedNames. intros Hv. apply bind_ok in Hv as ([seen targets] & Hf & Hw).
  apply shared_records_ok in Hf as (Hn&Ht&Hs). cbn [fst snd] in *. split; [done|].
  exists targets. split; [done|]. intros r n Hr Hty Hrn.
  destruct (Ht r n Hr Hty Hrn) as (t&_&Hlk). unfold walk_all in Hw. apply eachM_ok in Hw.
  rewrite Forall_forall in Hw. specialize (Hw n).
  rewrite list_elem_of_fmap in Hw. apply walk_ok in Hw;
    [|exists (n, t); split; [done|by apply elem_of_map_to_list]].
  destruct Hw as (m&Hc&Hm). split; [|by eapply chain_end_acyclic].
  destruct Hc as [??]. exists m. by rewrite <- Hs.
Qed.

(** A validated resolver configuration only uses the encrypted upstreams
    (canonical IPv4, port 853, the Quad9 certificate name, no client subnet), and
    each record has a distinct name that no platform component owns, and either an
    address in one of the site's zones or an alias target other than itself. *)
Theorem validateDNS_sound `{GoUnicode} c site :
  validateDNS c site = Ok tt → Enabled (d_Enabled c) = true →
  d_Upstreams c ≠ []
  ∧ Forall (fun u => canonical_ipv4 (u_Address u) = true ∧ u_Port u = 853
                     ∧ u_TLSName u = "dns.quad9.net" ∧ u_ECS u = false) (d_Upstreams c)
  ∧ names_ok site (platform_names_from site ∅) (d_Records c)
  ∧ ∀ r, r ∈ d_Records c →
      (r_Type r = "A" ∧ ∃ a, parse_addr (r_Value r) = Some a ∧ addressInZone a site = true)
      ∨ (r_Type r = "CNAME" ∧ ∃ t, canonicalName (r_Value r) (n_Domain (s_Network site)) = Ok t
           ∧ record_name site r ≠ Ok t).
Proof.
  intros Hv He. unfold validateDNS in Hv. rewrite He in Hv. cbn in Hv. inv_ok.
  apply dns_records_ok in E1 as (Hn&_&Hr). apply eachM_ok in E0. split_and!; try done.
  - intros Hnil. by rewrite Hnil in E.
  - eapply Forall_impl; [exact E0|]. intros u Hu. unfold upstream_check in Hu. inv_ok. bools. done.
  - intros rd Hin. destruct (Hr rd Hin) as (Hty&n&Hname&Hval). unfold record_value_check in Hval.
    destruct (r_Type rd == "A") eqn:Et; bools.
    + left. split; [done|]. destruct (parse_to4 _) as [a|] eqn:Ea; [|done]. inv_ok. bools.
      eauto using parse_to4_canonical.
    + right. split; [set_solver|]. destruct (canonicalName (r_Value rd) _) as [t|] eqn:Ev; [|done].
      inv_ok. bools. exists t. split; [done|]. rewrite Hname. congruence.
Qed.

Definition sample_dns : DNSConfig :=
  normalize_dns (mkDNS (Some true) [] [
    mkRecord "nas" "A" "10.10.20.40"; mkRecord "files" "CNAME" "nas";
    mkRecord "Docs.lab.home.arpa." "CNAME" "files.lab.home.arpa"; mkRecord "tv" "CNAME" "lab-media-01"] []).
Definition sample_dhcp : DHCPConfig :=
  normalize_dhcp (mkDHCP (Some true) "" []
    [mkReservation "lab-media-01" "SERVERS" "02:00:00:00:20:e6" "10.10.20.230"] (mkTime [] None)).

Theorem validateSharedNames_sound_witness :
  @names_ok ascii_only (NewSite "i" "age1" "vm") (@base_names ascii_only (h_Reservations sample_dhcp) (NewSite "i" "age1" "vm"))
    (d_Records sample_dns).
Proof.
  apply (validateSharedNames_sound (H := ascii_only) sample_dns sample_dhcp (NewSite "i" "age1" "vm")). by vm_compute.
Defined.

Theorem validateDNS_sound_witness : d_Upstreams sample_dns ≠ [].
Proof. apply (validateDNS_sound (H := ascii_only) sample_dns (NewSite "i" "age1" "vm")); by vm_compute. Defined.

(** A cycle is refused with its own error. *)
Example cycle_ex (U := ascii_only) : validateSharedNames
    (mkDNS (Some true) [] [mkRecord "a" "CNAME" "b"; mkRecord "b" "CNAME" "a"] []) sample_dhcp (NewSite "i" "age1" "vm")
  = Err (AliasCycle "a.lab.home.arpa").
Proof. by vm_compute. Qed.
End CsDns.
