(* ===== verification/CsValidate.v ===== *)
(** * Client services: the whole validator ([Validate], [validateSystems],
    [systemReservedDNSNames], [validateObservability]) *)

From S2P Require Export CsDhcp CsVpn CsDns.

Open Scope Z_scope.

Module CsValidate.
Import Model CsConfig CsNames CsDhcp CsVpn CsDns.

(** The budgets' bounds as binary64 values. *)
Definition f64_0 : spec_float := S754_zero false.
Definition f64_2 : spec_float := S754_finite false 4503599627370496 (-51).
Definition f64_quarter : spec_float := S754_finite false 4503599627370496 (-54).

Section validate.
Context `{GoUnicode, GoURL}.

(** ** Registered systems *)

Definition media_aliases (a : MediaAliases) : list string :=
  [ma_Radarr a; ma_Sonarr a; ma_Bazarr a; ma_Prowlarr a; ma_Trailarr a].

Definition systemReservedDNSNames (site : Site) (modules : Modules) : gset string :=
  let media : gset string :=
    match m_Media modules with
    | Some m =>
        if md_Enabled m then
          let domain := to_lower (trim_suffix (md_ApplicationDomain m) ".") in
          list_to_set (map (fun alias => alias +:+ "." +:+ domain)
            (media_aliases (md_Aliases m) ++ ["qbittorrent"; "jellyfin"; "jellyseerr"]))
        else ∅
    | None => ∅
    end in
  let observability : gset string :=
    match m_Observability modules with
    | Some o =>
        if Enabled (os_Enabled o) && ValidPublicDomain (os_PublicDomain o) then
          let domain := to_lower (trim_suffix (os_PublicDomain o) ".") in
          list_to_set (map (fun prefix => prefix +:+ "." +:+ domain)
            ["observability"; "status"; "lab"; "labviewer"; "ingest"; "metrics"])
        else ∅
    | None => ∅
    end in
  let platform := set_map (fun name => trim_suffix name ".") (platform_names_from site ∅) in
  media ∪ observability ∪ platform.

Definition dns_enabled (modules : Modules) : bool :=
  match m_DNS modules with Some d => Enabled (d_Enabled d) | None => false end.
Definition dhcp_enabled (modules : Modules) : bool :=
  match m_DHCP modules with Some h => Enabled (h_Enabled h) | None => false end.
Definition observability_enabled (modules : Modules) : bool :=
  match m_Observability modules with Some o => Enabled (os_Enabled o) | None => false end.

Record SysState := mkSysState { homePorts : gmap Z string; dnsNames : gmap string string }.

Definition home_port_step (s : System) (st : SysState) : result Error SysState :=
  if negb (sy_HomePort s =? 0) then
    match homePorts st !! sy_HomePort s with
    | Some previous => Err (HomePortUsed (sy_HomePort s) previous)
    | None => Ok (mkSysState (<[sy_HomePort s := sy_Name s]> (homePorts st)) (dnsNames st))
    end
  else Ok st.

Definition dns_name_step (site : Site) (modules : Modules) (reserved : gset string) (s : System)
    (st : SysState) : result Error SysState :=
  if sy_DNSName s != "" then
    _ ← fail_if ((sy_DNSName s != to_lower (sy_DNSName s)) || negb (ValidPublicDomain (sy_DNSName s))
                 || has_suffix (sy_DNSName s) ".") (SystemDNSNameFormat (sy_Name s));
    let labDomain := to_lower (trim_suffix (n_Domain (s_Network site)) ".") in
    _ ← fail_if ((sy_DNSName s == labDomain) || has_suffix (sy_DNSName s) ("." +:+ labDomain))
          (SystemDNSNameInside (sy_Name s));
    match dnsNames st !! sy_DNSName s with
    | Some previous => Err (SystemDNSNameUsed (sy_DNSName s) previous)
    | None =>
        _ ← fail_if (bool_decide (sy_DNSName s ∈ reserved)) (SystemDNSNameReserved (sy_DNSName s));
        _ ← fail_if (negb (dns_enabled modules)) (SystemDNSNameNoDNS (sy_Name s));
        Ok (mkSysState (homePorts st) (<[sy_DNSName s := sy_Name s]> (dnsNames st)))
    end
  else Ok st.

Definition system_step (site : Site) (modules : Modules) (platformNames reserved : gset string)
    (st : SysState) (s : System) : result Error SysState :=
  let name := trim_space (sy_Name s) in
  _ ← fail_if (negb (IsDNSLabel name) || (name != to_lower name)) (SystemNameInvalid (sy_Name s));
  match canonicalName name (n_Domain (s_Network site)) with
  | Err e => Err (SystemNameUncanonical (sy_Name s) e)
  | Ok canonical =>
      _ ← fail_if (bool_decide (canonical ∈ platformNames)) (SystemNamePlatform (sy_Name s));
      _ ← fail_if ((sy_HomePort s <? 0) || (sy_HomePort s >? 65535) || (sy_HomePort s =? 443))
            (SystemHomePort (sy_Name s));
      st ← home_port_step s st;
      dns_name_step site modules reserved s st
  end.

Definition validateSystems (systems : list System) (site : Site) (modules : Modules) : result Error unit :=
  let reserved := systemReservedDNSNames site modules in
  let platformNames := platform_names_from site ∅ in
  _ ← foldM (system_step site modules platformNames reserved) (mkSysState ∅ ∅) systems;
  Ok tt.

(** ** Observability *)

Definition binding_step (seen : gset string) (address : string) : result Error (gset string) :=
  match parse_addr address with
  | None => Err BindingNotCanonical
  | Some a =>
      _ ← fail_if (addr_string a != address) BindingNotCanonical;
      _ ← fail_if (bool_decide (address ∈ seen)) BindingNotUnique;
      Ok ({[address]} ∪ seen)
  end.

Definition bindings_check (b : ObservabilityCollectionBindings) : result Error unit :=
  if (ob_Controller b != "") || (ob_ProxmoxHost b != "") || (ob_Runtime b != "") then
    _ ← foldM binding_step ∅ [ob_Controller b; ob_ProxmoxHost b; ob_Runtime b];
    Ok tt
  else Ok tt.

(** [x != 0 && (x < lo || x > hi)] *)
Definition set_outside (lo hi x : Z) : bool := negb (x =? 0) && ((x <? lo) || (x >? hi)).

Definition secret_ref_check (u : BifrostUpstream) : result Error unit :=
  fail_if (negb (IsDNSLabel (bu_SecretRef u))) (HolmesSecretRef (bu_Name u)).

Definition holmes_bifrost_config (c : BifrostConfig) : Bifrost.Config :=
  Bifrost.mkConfig Bifrost.DefaultListen (bc_ClientCredential c)
    (map (fun u => Bifrost.mkUpstream (bu_Name u) (bu_BaseURL u) (bu_SecretRef u)) (bc_Upstreams c))
    (map (fun m => Bifrost.mkModel (bm_Alias m) (bm_Upstream m) (bm_Model m)) (bc_Models c)).

Definition holmes_check (h : HolmesConfig) : result Error unit :=
  _ ← fail_if (SFltb (ho_DailyBudgetUSD h) f64_0 || SFltb f64_2 (ho_DailyBudgetUSD h)) HolmesDailyBudget;
  _ ← fail_if (SFltb (ho_InvestigationBudgetUSD h) f64_0 || SFltb f64_quarter (ho_InvestigationBudgetUSD h))
        HolmesInvestigationBudget;
  _ ← fail_if (set_outside 30 300 (ho_InvestigationDeadlineSecs h)) HolmesDeadline;
  _ ← fail_if (set_outside 1 6 (ho_MaxRounds h)) HolmesRounds;
  _ ← fail_if (set_outside 1 100 (ho_MaxQueue h)) HolmesQueue;
  _ ← fail_if (set_outside 1 3650 (ho_RetentionDays h)) HolmesRetention;
  _ ← fail_if (bc_ClientCredential (ho_Bifrost h) != "holmes-client-token") HolmesCredential;
  _ ← eachM secret_ref_check (bc_Upstreams (ho_Bifrost h));
  match Bifrost.Validate (holmes_bifrost_config (ho_Bifrost h)) with
  | Ok _ => Ok tt
  | Err e => Err (HolmesBifrost e)
  end.

Definition pushover_check (p : PushoverConfig) : result Error unit :=
  _ ← fail_if ((po_Priority p =? 2) || (po_Priority p <? -2) || (po_Priority p >? 1)) PushoverPriority;
  fail_if (negb (validPushoverTitle (po_Title p))) PushoverTitle.

Definition validateObservability (modules : Modules) : result Error unit :=
  match m_Observability modules with
  | None => Ok tt
  | Some o =>
      _ ← bindings_check (os_Collection o);
      _ ← fail_if ((os_PublicDomain o != "") && negb (ValidPublicDomain (os_PublicDomain o))) PublicDomainInvalid;
      _ ← fail_if (set_outside 1 3650 (os_LoggingRetentionDays o)) LoggingRetention;
      _ ← fail_if (set_outside 1 3650 (os_MonitoringRetentionDays o)) MonitoringRetention;
      _ ← match os_Pushover o with Some p => pushover_check p | None => Ok tt end;
      match os_Holmes o with
      | Some h =>
          if Enabled (ho_Enabled h) then
            _ ← fail_if (negb (IsDNSLabel (ho_ModelAlias h))) HolmesAlias;
            holmes_check h
          else Ok tt
      | None => Ok tt
      end
  end.

(** ** [Validate] *)

Definition media_alias_step : gset string → string → result Error (gset string) :=
  seen_step (fun a => a) (fun _ => MediaAliasesInvalid)
    (fun a => fail_if (negb (validLabel a)) MediaAliasesInvalid).

Definition is_media_reservation (r : Reservation) : bool :=
  (rv_Name r == "lab-media-01") && (rv_Zone r == "SERVERS") && (rv_Address r == "10.10.20.230")
  && (rv_MAC r == "02:00:00:00:20:e6").
Definition is_media_forward (f : VPNForward) : bool :=
  (f_Name f == "media-qbittorrent") && (f_Reservation f == "lab-media-01") && (1 <=? f_Port f)
  && (f_Protocols f == ["tcp"; "udp"]).

Definition media_check (modules : Modules) : result Error unit :=
  match m_Media modules with
  | None => Ok tt
  | Some media =>
      if negb (md_Enabled media) then Ok tt
      else match m_DHCP modules, m_VPN modules with
           | Some dhcp, Some vpn =>
               _ ← fail_if (negb (dns_enabled modules) || negb (dhcp_enabled modules)) MediaNeedsServices;
               _ ← fail_if (md_MediaGiB media <? 1) MediaGiB;
               _ ← fail_if (negb (ValidPublicDomain (md_ApplicationDomain media))) MediaDomain;
               _ ← foldM media_alias_step ∅ (media_aliases (md_Aliases media));
               _ ← fail_if (negb (existsb is_media_reservation (h_Reservations dhcp))
                            || negb (existsb (String.eqb "lab-media-01") (v_Clients vpn))) MediaReservation;
               fail_if (negb (existsb is_media_forward (v_Forwards vpn))) MediaForward
           | _, _ => Err MediaNeedsServices
           end
  end.

Definition empty_dhcp : DHCPConfig := mkDHCP None "" [] [] (mkTime [] None).

Definition dns_checks (n : Modules) (site : Site) : result Error unit :=
  match m_DNS n with Some d => validateDNS d site | None => Ok tt end.

Definition dhcp_checks (n : Modules) (site : Site) : result Error unit :=
  match m_DHCP n with
  | Some h =>
      _ ← fail_if (Enabled (h_Enabled h) && negb (dns_enabled n)) DHCPNeedsDNS;
      validateDHCP h site
  | None => Ok tt
  end.

Definition vpn_checks (n : Modules) : result Error unit :=
  match m_VPN n with Some v => validateVPN v (m_DHCP n) | None => Ok tt end.

Definition shared_checks (n : Modules) (site : Site) : result Error unit :=
  match m_DNS n with
  | None => Ok tt
  | Some d =>
      _ ← (if negb (dhcp_enabled n) then validateSharedNames d empty_dhcp site else Ok tt);
      match m_DHCP n with
      | Some h => if Enabled (d_Enabled d) && Enabled (h_Enabled h) then validateSharedNames d h site else Ok tt
      | None => Ok tt
      end
  end.

Definition Validate (modules : Modules) (site : Site) : result Error unit :=
  let normalized := Normalize modules in
  _ ← validateSystems (m_Systems normalized) site normalized;
  let normalized := SystemsExpanded normalized in
  _ ← fail_if (negb (length (m_Systems normalized) =? 0)%nat && negb (dhcp_enabled normalized)) SystemsNeedDHCP;
  _ ← fail_if (existsb (fun s => sy_Monitoring s && negb (observability_enabled normalized))
                 (m_Systems normalized)) MonitoredNeedObservability;
  _ ← validateObservability normalized;
  _ ← media_check normalized;
  _ ← fail_if (Enabled (m_Tailnet normalized)
               && (negb (dns_enabled normalized) || negb (dhcp_enabled normalized))) TailnetNeedsServices;
  _ ← dns_checks normalized site;
  _ ← dhcp_checks normalized site;
  _ ← vpn_checks normalized;
  shared_checks normalized site.

(** ** Lemmas *)

(** What the loop over the systems has established. *)
Record systems_good (site : Site) (modules : Modules) (ss : list System) (st : SysState) : Prop := {
  sg_each : ∀ s, s ∈ ss →
    IsDNSLabel (trim_space (sy_Name s)) = true
    ∧ (∃ n, canonicalName (trim_space (sy_Name s)) (n_Domain (s_Network site)) = Ok n
         ∧ n ∉ platform_names_from site ∅)
    ∧ 0 ≤ sy_HomePort s ≤ 65535 ∧ sy_HomePort s ≠ 443
    ∧ (sy_DNSName s ≠ "" → dns_enabled modules = true
         ∧ sy_DNSName s ∉ systemReservedDNSNames site modules
         ∧ has_suffix (sy_DNSName s) ("." +:+ to_lower (trim_suffix (n_Domain (s_Network site)) ".")) = false);
  sg_ports : NoDup (filter (fun p => p ≠ 0) (map sy_HomePort ss));
  sg_names : NoDup (filter (fun n => n ≠ "") (map sy_DNSName ss));
  sg_ports_dom : ∀ p, is_Some (homePorts st !! p) ↔ p ∈ filter (fun p => p ≠ 0) (map sy_HomePort ss);
  sg_names_dom : ∀ n, is_Some (dnsNames st !! n) ↔ n ∈ filter (fun n => n ≠ "") (map sy_DNSName ss);
}.

(** A map that records the used values of a field, extended by one element. *)
Lemma used_snoc {K} `{Countable K} (z : K) (f : System → K) (ss : list System) s (m m' : gmap K string) :
  (∀ p, is_Some (m !! p) ↔ p ∈ filter (fun p => p ≠ z) (map f ss)) →
  NoDup (filter (fun p => p ≠ z) (map f ss)) →
  (f s = z ∧ m' = m ∨ f s ≠ z ∧ m !! f s = None ∧ m' = <[f s := sy_Name s]> m) →
  NoDup (filter (fun p => p ≠ z) (map f (ss ++ [s])))
  ∧ ∀ p, is_Some (m' !! p) ↔ p ∈ filter (fun p => p ≠ z) (map f (ss ++ [s])).
Proof.
  intros Hd Hnd. rewrite map_app, filter_app. intros [(Hz&->)|(Hz&Hn&->)].
  - assert (filter (fun p => p ≠ z) (map f [s]) = []) as ->.
    { change (map f [s]) with [f s]. rewrite filter_cons_False; [done|]. by intros Hne. }
    by rewrite app_nil_r.
  - assert (filter (fun p => p ≠ z) (map f [s]) = [f s]) as ->.
    { change (map f [s]) with [f s]. by rewrite filter_cons_True. }
    split.
    + apply NoDup_snoc; [done|]. rewrite <- Hd, Hn. by intros [].
    + intros p. rewrite elem_snoc, <- Hd. destruct (decide (p = f s)) as [->|].
      * rewrite lookup_insert_eq. naive_solver.
      * rewrite lookup_insert_ne by done. naive_solver.
Qed.

Lemma home_port_step_ok s st st' : home_port_step s st = Ok st' →
  dnsNames st' = dnsNames st ∧
  (sy_HomePort s = 0 ∧ homePorts st' = homePorts st
   ∨ sy_HomePort s ≠ 0 ∧ homePorts st !! sy_HomePort s = None
     ∧ homePorts st' = <[sy_HomePort s := sy_Name s]> (homePorts st)).
Proof.
  unfold home_port_step. destruct (Z.eqb_spec (sy_HomePort s) 0); cbn; [intros [= <-]; auto|].
  destruct (homePorts st !! sy_HomePort s) eqn:E; [done|]. intros [= <-]. auto.
Qed.

Lemma dns_name_step_ok site modules reserved s st st' :
  dns_name_step site modules reserved s st = Ok st' →
  homePorts st' = homePorts st ∧
  (sy_DNSName s = "" ∧ dnsNames st' = dnsNames st
   ∨ sy_DNSName s ≠ "" ∧ dnsNames st !! sy_DNSName s = None
     ∧ dnsNames st' = <[sy_DNSName s := sy_Name s]> (dnsNames st)
     ∧ dns_enabled modules = true ∧ sy_DNSName s ∉ reserved
     ∧ has_suffix (sy_DNSName s) ("." +:+ to_lower (trim_suffix (n_Domain (s_Network site)) ".")) = false).
Proof.
  unfold dns_name_step. case_bool_decide as Hd; cbn; [intros [= <-]; auto|]. intros Hs. inv_ok. bools.
  destruct (dnsNames st !! sy_DNSName s) eqn:El; [done|]. inv_ok. bools. cbn. split; [done|].
  right. split_and!; done.
Qed.

Lemma systems_ok site modules ss st :
  foldM (system_step site modules (platform_names_from site ∅) (systemReservedDNSNames site modules))
    (mkSysState ∅ ∅) ss = Ok st → systems_good site modules ss st.
Proof.
  apply foldM_inv.
  { constructor; try constructor; cbn; try set_solver; by rewrite ?lookup_empty; intros []. }
  intros dn s s1 s2 [Heach Hp Hn Hpd Hnd] _ Hf. unfold system_step in Hf. inv_ok. bools.
  destruct (canonicalName _ _) as [n|] eqn:En; [|done]. inv_ok. bools.
  apply home_port_step_ok in E1 as (Ed&Hport). apply dns_name_step_ok in Hf as (Eh&Hname).
  rewrite <- Eh in Hport. rewrite Ed in Hname.
  destruct (used_snoc 0 sy_HomePort dn s (homePorts s1) (homePorts s2)) as [A1 A2]; [done..|].
  destruct (used_snoc "" sy_DNSName dn s (dnsNames s1) (dnsNames s2)) as [B1 B2]; [done..|naive_solver|].
  constructor; try done. intros s' [?| ->]%elem_snoc; [by apply Heach|].
  split_and!; try done; try lia; [by exists n|naive_solver].
Qed.

Lemma validateDHCP_good c site : validateDHCP c site = Ok tt → Enabled (h_Enabled c) = true →
  ∃ seen, reservations_good (zoneMap site) (h_Scopes c) (h_Reservations c) seen.
Proof.
  intros Hv He. unfold validateDHCP in Hv. rewrite He in Hv. cbn in Hv. inv_ok.
  eexists. by apply reservations_ok.
Qed.

Lemma existsb_In {A} (f : A → bool) l : existsb f l = true → ∃ x, x ∈ l ∧ f x = true.
Proof. rewrite existsb_exists. intros (x&?%list_elem_of_In&?). eauto. Qed.

Lemma expanded_fields m : let n := SystemsExpanded m in
  m_Systems n = m_Systems m ∧ m_Tailnet n = m_Tailnet m ∧ m_DNS n = m_DNS m ∧ m_VPN n = m_VPN m
  ∧ m_Media n = m_Media m ∧ dns_enabled n = dns_enabled m
  ∧ observability_enabled n = observability_enabled m ∧ dhcp_enabled n = dhcp_enabled m.
Proof. destruct m as [a b c [h|] d e f g]; cbn; split_and!; reflexivity. Qed.

Lemma media_check_ok n media : media_check n = Ok tt → m_Media n = Some media → md_Enabled media = true →
  dns_enabled n = true ∧ dhcp_enabled n = true ∧ 1 ≤ md_MediaGiB media
  ∧ ValidPublicDomain (md_ApplicationDomain media) = true
  ∧ NoDup (media_aliases (md_Aliases media))
  ∧ ∃ vpn f, m_VPN n = Some vpn ∧ "lab-media-01" ∈ v_Clients vpn ∧ f ∈ v_Forwards vpn
      ∧ f_Reservation f = "lab-media-01" ∧ f_Protocols f = ["tcp"; "udp"].
Proof.
  unfold media_check. intros Hc Hm He. rewrite Hm, He in Hc. cbn [negb] in Hc.
  destruct (m_DHCP n) as [h|]; [|done]. destruct (m_VPN n) as [vpn|]; [|done].
  inv_ok. bools. apply seen_loop in E2 as (Hnd&_&_). rewrite list_fmap_id in Hnd.
  apply existsb_In in H2 as (c&Hc'&<-%String.eqb_eq). apply existsb_In in Hc as (f&Hf&Ef).
  unfold is_media_forward in Ef. bools. split_and!; try done. by exists vpn, f.
Qed.

(** The reservation a registered system gets. *)
Definition system_reservation (s : System) : Reservation :=
  mkReservation (to_lower (sy_Name s)) "SERVERS" (sy_MAC s) (sy_Address s).

Lemma expanded_dhcp m h : m_DHCP m = Some h → ∃ h', m_DHCP (SystemsExpanded m) = Some h'
  ∧ h_Reservations h' = h_Reservations h ++ map system_reservation (m_Systems m)
  ∧ h_Enabled h' = h_Enabled h ∧ h_Scopes h' = h_Scopes h.
Proof. unfold SystemsExpanded. cbn. intros ->. eexists. done. Qed.
End validate.

(** ** Properties *)

Section systems_lemmas.
Context `{GoUnicode, GoURL}.

Lemma system_reservations m site s : Validate m site = Ok tt → s ∈ m_Systems m →
  ∃ seen rs scopes, reservations_good (zoneMap site) scopes rs seen ∧ system_reservation s ∈ rs
    ∧ ∃ own, rs = own ++ map system_reservation (m_Systems m).
Proof.
  unfold Validate. intros Hv Hs. remember (Normalize m) as n eqn:En. inv_ok.
  assert (m_Systems n = m_Systems m) as Esys by (by subst n).
  destruct (expanded_fields n) as (Es&_&_&_&_&_&_&Eh). rewrite Es, Esys, Eh in E0.
  assert (dhcp_enabled n = true) as Hd.
  { destruct (m_Systems m); [set_solver|]. cbn in E0. by bools. }
  unfold dhcp_enabled in Hd. destruct (m_DHCP n) as [h|] eqn:Eho; [|done].
  destruct (expanded_dhcp n h Eho) as (h'&Eh'&Er&Een&_).
  unfold dhcp_checks in E6. rewrite Eh' in E6. inv_ok.
  apply validateDHCP_good in E6 as [seen Hg]; [|congruence].
  exists seen, (h_Reservations h'), (h_Scopes h'). rewrite Er, Esys in *. split_and!; [done| |by eexists].
  apply elem_of_app. right. apply list_elem_of_fmap. eauto.
Qed.
End systems_lemmas.

(** Validation judges the normalised intent: filling in the defaults first
    never changes the verdict or the error. *)
Theorem Validate_Normalize `{GoUnicode, GoURL} m site : Validate (Normalize m) site = Validate m site.
Proof. unfold Validate. by rewrite Normalize_idemp. Qed.

(** Validated services are closed under their dependencies: DHCP and a
    tailnet need the local DNS, a tailnet and registered systems need DHCP,
    monitored systems need observability, and an enabled media stack comes with
    DNS, DHCP, its fixed reservation, its VPN client and its TCP/UDP forward. *)
Theorem Validate_dependencies `{GoUnicode, GoURL} m site :
  Validate m site = Ok tt → let n := Normalize m in
  (dhcp_enabled n = true → dns_enabled n = true)
  ∧ (m_Systems n ≠ [] → dhcp_enabled n = true)
  ∧ (∀ s, s ∈ m_Systems n → sy_Monitoring s = true → observability_enabled n = true)
  ∧ (Enabled (m_Tailnet n) = true → dns_enabled n = true ∧ dhcp_enabled n = true)
  ∧ ∀ media, m_Media n = Some media → md_Enabled media = true →
      dns_enabled n = true ∧ dhcp_enabled n = true ∧ 1 ≤ md_MediaGiB media
      ∧ ValidPublicDomain (md_ApplicationDomain media) = true
      ∧ NoDup (media_aliases (md_Aliases media))
      ∧ ∃ vpn f, m_VPN n = Some vpn ∧ "lab-media-01" ∈ v_Clients vpn ∧ f ∈ v_Forwards vpn
          ∧ f_Reservation f = "lab-media-01" ∧ f_Protocols f = ["tcp"; "udp"].
Proof.
  unfold Validate. intros Hv. cbn zeta. remember (Normalize m) as n eqn:En. clear En.
  destruct (expanded_fields n) as (Es&Et&Ed&Ev&Em&Edn&Eo&Eh). cbn zeta in *. inv_ok.
  rewrite ?Es, ?Et, ?Edn, ?Eo, ?Eh in *. split_and!.
  - intros Hd. rewrite <- Eh in Hd. unfold dhcp_enabled, dhcp_checks in *.
    destruct (m_DHCP (SystemsExpanded n)) as [h|]; [|done]. inv_ok. rewrite Hd, Edn in E8.
    cbn in E8. by bools.
  - intros Hne. destruct (m_Systems n); [done|]. cbn in E0. by bools.
  - intros s Hs Hm. apply existsb_false in E1. rewrite Forall_forall in E1. specialize (E1 s Hs).
    rewrite Hm in E1. cbn in E1. by bools.
  - intros Ht. rewrite Ht in E4. cbn in E4. by bools.
  - intros media Hmd Hen. destruct (media_check_ok _ media E3) as (A1&A2&A3&A4&A5&A6); [congruence|done|].
    rewrite Edn in A1. rewrite Eh in A2. rewrite Ev in A6. done.
Qed.

(** Registered systems get resources of their own: every system of a
    validated intent has a canonical name outside the platform's, a usable
    address of the SERVERS zone and an Ethernet address; no two systems share a
    name, an address, a hardware address, a home port or an external DNS name;
    and external names stay outside the LAB domain and the reserved names. *)
Theorem Validate_systems `{GoUnicode, GoURL} m site :
  Validate m site = Ok tt → let ss := m_Systems m in
  (∀ s, s ∈ ss →
     (∃ zone p a, zoneMap site !! to_upper "SERVERS" = Some zone ∧ parse_prefix (z_Network zone) = Some p
        ∧ parse_addr (sy_Address s) = Some a ∧ prefix_contains p a = true
        ∧ sy_Address s ≠ z_Gateway zone ∧ ¬ probe_address a)
     ∧ is_ok (canonicalMAC (sy_MAC s)) = true
     ∧ (∃ n, canonicalName (trim_space (sy_Name s)) (n_Domain (s_Network site)) = Ok n
          ∧ n ∉ platform_names_from site ∅)
     ∧ 0 ≤ sy_HomePort s ≤ 65535 ∧ sy_HomePort s ≠ 443
     ∧ (sy_DNSName s ≠ "" → sy_DNSName s ∉ systemReservedDNSNames site (Normalize m)))
  ∧ NoDup (map (fun s => reservation_key (to_lower (sy_Name s))) ss)
  ∧ NoDup (map sy_Address ss) ∧ NoDup (map (fun s => canonicalMAC (sy_MAC s)) ss)
  ∧ NoDup (filter (fun p => p ≠ 0) (map sy_HomePort ss))
  ∧ NoDup (filter (fun n => n ≠ "") (map sy_DNSName ss)).
Proof.
  intros Hv. cbn zeta. pose proof (system_reservations m site) as Hres.
  pose proof Hv as Hsys. unfold Validate in Hsys. apply bind_ok in Hsys as ([] & Hsys & _).
  unfold validateSystems in Hsys. apply bind_ok in Hsys as (st & Hsys%systems_ok & _).
  change (m_Systems (Normalize m)) with (m_Systems m) in Hsys. destruct Hsys as [Heach Hp Hn _ _].
  split_and!; [|..|done|done].
  - intros s Hs. destruct (Hres s Hv Hs) as (seen&rs&scopes&Hg&Hin&_). destruct Hg as [Hg _ _ _ _ _ _].
    rewrite Forall_forall in Hg. destruct (Hg _ Hin) as (zone&a&mac&[_ Hz Ha Hu Hpr Hm _]).
    cbn in Hz, Ha, Hm. destruct (Heach s Hs) as (_&?&?&?&Hd).
    split_and!; try done; [| |naive_solver..].
    + apply usableAddress_ok in Hu as (p&?&?&Hgw&_). rewrite (parse_addr_canonical _ _ Ha) in Hgw.
      by exists zone, p, a.
    + by rewrite Hm.
  - destruct (m_Systems m) as [|s ss] eqn:E; [constructor|]. rewrite <- E in *.
    destruct (Hres s Hv) as (seen&rs&scopes&[_ Hk _ _ _ _ _]&_&own&->); [rewrite E; set_solver|].
    rewrite map_app, map_map in Hk. by apply NoDup_app in Hk as (_&_&?).
  - destruct (m_Systems m) as [|s ss] eqn:E; [constructor|]. rewrite <- E in *.
    destruct (Hres s Hv) as (seen&rs&scopes&[_ _ _ Hk _ _ _]&_&own&->); [rewrite E; set_solver|].
    rewrite fmap_app in Hk. apply NoDup_app in Hk as (_&_&Hk). by rewrite <- list_fmap_compose in Hk.
  - destruct (m_Systems m) as [|s ss] eqn:E; [constructor|]. rewrite <- E in *.
    destruct (Hres s Hv) as (seen&rs&scopes&[_ _ Hk _ _ _ _]&_&own&->); [rewrite E; set_solver|].
    rewrite map_app, map_map in Hk. by apply NoDup_app in Hk as (_&_&?).
Qed.

(** A validated observability intent stays in its bounds: bindings are absent
    or three distinct IPv4 addresses, retention is unset or 1 to 3650 days, and
    an enabled investigator has its counters in range, budgets that no comparison
    places outside 0 to 2 and 0 to 0.25 dollars, and a routing table the model
    router accepts. *)
Theorem validateObservability_sound `{GoUnicode, GoURL} m o :
  validateObservability m = Ok tt → m_Observability m = Some o →
  set_outside 1 3650 (os_LoggingRetentionDays o) = false
  ∧ set_outside 1 3650 (os_MonitoringRetentionDays o) = false
  ∧ (let b := os_Collection o in let l := [ob_Controller b; ob_ProxmoxHost b; ob_Runtime b] in
     l = [""; ""; ""] ∨ NoDup l ∧ Forall (fun a => is_Some (parse_addr a)) l)
  ∧ (∀ p, os_Pushover o = Some p → -2 ≤ po_Priority p ≤ 1)
  ∧ ∀ h, os_Holmes o = Some h → Enabled (ho_Enabled h) = true →
      SFltb f64_2 (ho_DailyBudgetUSD h) = false ∧ SFltb (ho_DailyBudgetUSD h) f64_0 = false
      ∧ SFltb f64_quarter (ho_InvestigationBudgetUSD h) = false
      ∧ (ho_MaxRounds h = 0 ∨ 1 ≤ ho_MaxRounds h ≤ 6) ∧ (ho_MaxQueue h = 0 ∨ 1 ≤ ho_MaxQueue h ≤ 100)
      ∧ (ho_InvestigationDeadlineSecs h = 0 ∨ 30 ≤ ho_InvestigationDeadlineSecs h ≤ 300)
      ∧ Bifrost.Validate (holmes_bifrost_config (ho_Bifrost h)) = Ok tt.
Proof.
  unfold validateObservability. intros Hv Ho. rewrite Ho in Hv. inv_ok. split_and!; try done.
  - unfold bindings_check in E. destruct (_ || _) eqn:Eb; bools.
    + right. apply bind_ok in E as (s & E & _).
      assert (∀ ls s, foldM binding_step ∅ ls = Ok s →
        NoDup ls ∧ Forall (fun a => is_Some (parse_addr a)) ls ∧ s = list_to_set ls) as Hl; [|naive_solver].
      clear. intros ls s. apply (foldM_inv _ (fun ls s =>
        NoDup ls ∧ Forall (fun a => is_Some (parse_addr a)) ls ∧ s = list_to_set ls)).
      { split_and!; constructor. }
      intros dn x s1 s2 (Hnd&Hall&->) _ Hf. unfold binding_step in Hf.
      destruct (parse_addr x) as [a|] eqn:Ex; [|done]. inv_ok. bools. split_and!.
      * apply NoDup_snoc; [done|]. set_solver.
      * apply Forall_app. split; [done|]. by apply Forall_singleton.
      * rewrite list_to_set_app_L. set_solver.
    + left. congruence.
  - intros p Hp. rewrite Hp in E3. unfold pushover_check in E3. inv_ok. bools. lia.
  - intros h Hh He. rewrite Hh, He in Hv. apply bind_ok in Hv as ([] & _ & Hv). unfold holmes_check in Hv.
    inv_ok. destruct (Bifrost.Validate _) as [[]|] eqn:Eb; [|done]. unfold set_outside in *. bools.
    assert (∀ lo hi x, negb (x =? 0) && ((x <? lo) || (x >? hi)) = false → x = 0 ∨ lo ≤ x ≤ hi) as Hin.
    { intros lo hi x Hx. destruct (Z.eqb_spec x 0); [by left|right]. cbn in Hx. bools. lia. }
    split_and!; try done; by apply Hin.
Qed.

(** A budget that is not a number passes both comparisons, so "between 0 and 2"
    does not exclude it. *)
Lemma holmes_budget_nan `{GoUnicode, GoURL} h :
  ho_DailyBudgetUSD h = S754_nan → ho_InvestigationBudgetUSD h = S754_nan →
  holmes_check h ≠ Err HolmesDailyBudget ∧ holmes_check h ≠ Err HolmesInvestigationBudget.
Proof.
  intros Hd Hi. unfold holmes_check. rewrite Hd, Hi. cbn -[Bifrost.Validate].
  split; intros Hc;
    repeat (match type of Hc with
            | (fail_if ?b _ ≫= _) = _ => destruct b; cbn -[Bifrost.Validate] in Hc; [done|]
            end);
    (destruct (eachM secret_ref_check _) as [[]|e] eqn:Ee; cbn -[Bifrost.Validate] in Hc;
      [by destruct (Bifrost.Validate _)|]);
    injection Hc as ->; apply eachM_err in Ee as (u & _ & Hu);
    unfold secret_ref_check, fail_if in Hu; by destruct (negb _).
Qed.

(** ** Witnesses *)

Definition reference_modules : Modules :=
  mkModules
    [mkSystem "nas" 0 "physical" "" "02:00:00:00:20:28" "10.10.20.40" 443 8443 "nas.example.org" true]
    None (Some (mkDNS (Some true) [] [mkRecord "files" "CNAME" "nas"] []))
    (Some media_dhcp) (Some media_vpn)
    (Some (mkObservability (Some true) "example.com"
      (mkBindings "10.10.20.5" "10.10.99.5" "10.10.10.20") 30 0
      (Some (mkHolmes (Some true) "gpt" f64_2 f64_quarter 120 3 0 0
        (mkBifrostConfig "holmes-client-token"
          [mkBifrostUpstream "openrouter" "https://openrouter.ai/api" "openrouter-key"]
          [mkBifrostModel "gpt" "openrouter" "openai/gpt-4o"])))
      (Some (mkPushover None "Lab alerts" 0))))
    (Some (mkMediaConfig true 0 "media.example.net" (mkMediaAliases "radarr" "sonarr" "bazarr" "prowlarr" "trailarr")))
    None.
Definition site0 : Site := NewSite "i" "age1" "vm".

Theorem Validate_dependencies_witness :
  dns_enabled (Normalize reference_modules) = true.
Proof.
  destruct (Validate_dependencies (H := ascii_only) (H0 := plain_url) reference_modules site0) as [Hd _];
    [by vm_compute|]. apply Hd. by vm_compute.
Defined.

Theorem Validate_systems_witness : NoDup (map sy_Address (m_Systems reference_modules)).
Proof.
  apply (Validate_systems (H := ascii_only) (H0 := plain_url) reference_modules site0). by vm_compute.
Defined.

Theorem validateObservability_sound_witness : ∃ o, m_Observability reference_modules = Some o
  ∧ set_outside 1 3650 (os_LoggingRetentionDays o) = false.
Proof.
  eexists. split; [reflexivity|].
  apply (validateObservability_sound (H := ascii_only) (H0 := plain_url) reference_modules); by vm_compute.
Defined.
End CsValidate.
