(* ===== verification/FwSection.v ===== *)
(** * Firewall module: native sections and their names
    ([Section] of desired.go, [openwrt.UCISection], the naming helpers of
    services.go, reconcile.go and vpn.go) *)

From S2P Require Export Model.

Open Scope Z_scope.

Module FwSection.

(** A Go map literal. *)
Definition opts (l : list (string * string)) : gmap string string := list_to_map l.
Definition lists (l : list (string * list string)) : gmap string (list string) := list_to_map l.

Record Section_ := mkSection {
  sec_Name : string; sec_Type : string;
  sec_Options : gmap string string; sec_Lists : gmap string (list string);
}.
Record UCISection := mkUCI {
  uci_Type : string; uci_Options : gmap string string; uci_Lists : gmap string (list string);
}.
(** One UCI package. *)
Abbreviation Package := (gmap string UCISection).

#[export] Instance Section_eq_dec : EqDecision Section_.
Proof. solve_decision. Defined.
#[export] Instance UCISection_eq_dec : EqDecision UCISection.
Proof. solve_decision. Defined.

(** Indexing a Go map: the zero value when the key is absent. *)
Definition get (m : gmap string string) (k : string) : string := default "" (m !! k).
Definition getl (m : gmap string (list string)) (k : string) : list string := default [] (m !! k).

(** ** Escaped names *)

(** One rune of [nativeIdentifier]. *)
Definition identifier_rune (r : Z) : string :=
  if ((97 <=? r) && (r <=? 122)) || ((65 <=? r) && (r <=? 90)) || ((48 <=? r) && (r <=? 57))
  then String (byte_of r) ""
  else if r =? 95 then "_u" else if r =? 45 then "_h" else if r =? 46 then "_d" else "_x".
Definition nativeIdentifier (name : string) : string :=
  foldr (fun r s => identifier_rune r +:+ s) "" (runes name).

(** One rune of [nativeRecordSuffix]: capitals are not kept. *)
Definition suffix_rune (r : Z) : string :=
  if ((97 <=? r) && (r <=? 122)) || ((48 <=? r) && (r <=? 57)) then String (byte_of r) ""
  else if r =? 45 then "_h" else if r =? 46 then "_d" else "_x".
Definition nativeRecordSuffix (name : string) : string :=
  "n" +:+ foldr (fun r s => suffix_rune r +:+ s) "" (runes name).

Definition nativeHostSectionName (name : string) : string := "boetticher_host_" +:+ nativeIdentifier name.
Definition nativeResolverSectionName (address : string) : string :=
  "boetticher_resolver_" +:+ replace_all address "." "_".
Definition nativeRecordSectionName (name : string) : string :=
  "boetticher_record_" +:+ nativeRecordSuffix (trim_suffix name ".").
Definition systemDNSSectionName (cname target : string) : string :=
  "boetticher_system_dns_" +:+ nativeRecordSuffix (trim_suffix cname ".") +:+ "_to_"
  +:+ nativeRecordSuffix (trim_suffix target ".").
Definition nativeVPNClientMTUSectionName (address : string) : string :=
  "boetticher_vpn_client_mtu_" +:+ nativeRecordSuffix address.
Definition nativeVPNForwardSectionName (name : string) : string :=
  "boetticher_vpn_forward_" +:+ nativeRecordSuffix name.

Definition sortedSectionNames (sections : list Section_) : list string :=
  sort_strings (map sec_Name sections).

(** ** Lemmas *)

(** On ASCII text every byte is a rune. *)
Lemma runes_ascii s : sall is_ascii_byte s = true →
  runes s = map byte_val (String.list_ascii_of_string s).
Proof.
  unfold runes. induction s as [|c s IH]; [done|]. cbn. intros [Hc Hs]%andb_true_iff.
  unfold is_ascii_byte in Hc. unfold decode_rune. rewrite Hc. cbn. by rewrite IH.
Qed.

Fixpoint escape (f : Z → string) (s : string) : string :=
  match s with EmptyString => "" | String c s => f (byte_val c) +:+ escape f s end.

Lemma escape_runes f s : sall is_ascii_byte s = true →
  foldr (fun r s => f r +:+ s) "" (runes s) = escape f s.
Proof.
  intros Hs. rewrite runes_ascii by done. clear Hs. induction s; [done|]. cbn. by rewrite IHs.
Qed.

(** Codes of which none begins another one. *)
Definition prefix_free (f : Z → string) (p : ascii → bool) : Prop :=
  ∀ c d, p c = true → p d = true → has_prefix (f (byte_val d)) (f (byte_val c)) = true → c = d.

Lemma app_eq_prefix (a b x y : string) : a +:+ x = b +:+ y →
  has_prefix b a = true ∨ has_prefix a b = true.
Proof.
  revert b. induction a as [|c a IH]; intros [|d b]; rewrite ?app_cons_s, ?app_nil_l_s; intros E.
  1-2: by left. 1: by right. injection E as -> E. unfold has_prefix in *. cbn. rewrite Ascii.eqb_refl. by apply IH.
Qed.

Lemma escape_inj f p s t : prefix_free f p → (∀ c, p c = true → f (byte_val c) ≠ "") →
  sall p s = true → sall p t = true → escape f s = escape f t → s = t.
Proof.
  intros Hf Hne. revert t. induction s as [|c s IH]; intros [|d t]; cbn; try done.
  - intros _ [Hd _]%andb_true_iff E. exfalso. apply (Hne d Hd). by destruct (f (byte_val d)).
  - intros [Hc _]%andb_true_iff _ E. exfalso. apply (Hne c Hc). by destruct (f (byte_val c)).
  - intros [Hc Hs]%andb_true_iff [Hd Ht]%andb_true_iff E.
    assert (c = d) as ->.
    { destruct (app_eq_prefix _ _ _ _ E) as [Hp|Hp]; [by apply Hf|symmetry; by apply Hf]. }
    f_equal. apply IH; [done..|]. by apply app_inj_s in E.
Qed.

Lemma prefix_free_dec f p :
  forallb (fun n => forallb (fun m => negb (p (byte_of n) && p (byte_of m) && has_prefix (f m) (f n)) || (n =? m))
    (Z.of_nat <$> seq 0 256)) (Z.of_nat <$> seq 0 256) = true → prefix_free f p.
Proof.
  intros Hall c d Hc Hd Hp. rewrite forallb_forall in Hall.
  assert (∀ b, In (byte_val b) (Z.of_nat <$> seq 0 256)) as Hin.
  { intros b. apply list_elem_of_In, list_elem_of_fmap. pose proof (byte_val_range b).
    exists (Z.to_nat (byte_val b)). rewrite elem_of_seq. lia. }
  specialize (Hall _ (Hin c)). rewrite forallb_forall in Hall. specialize (Hall _ (Hin d)).
  rewrite !byte_of_val, Hc, Hd, Hp in Hall. cbn in Hall. by apply Z.eqb_eq, byte_val_inj in Hall.
Qed.

(** Letters, digits, dash, dot and underscore; the same without capitals and underscore. *)
Definition identifier_byte (c : ascii) : bool := Model.alnum c || contains_byte "-._" c.
Definition suffix_byte (c : ascii) : bool := Model.alnum_lower c || contains_byte "-." c.

Lemma identifier_prefix_free : prefix_free identifier_rune identifier_byte.
Proof. apply prefix_free_dec. by vm_compute. Qed.
Lemma suffix_prefix_free : prefix_free suffix_rune suffix_byte.
Proof. apply prefix_free_dec. by vm_compute. Qed.

Lemma identifier_rune_nonempty r : identifier_rune r ≠ "".
Proof. unfold identifier_rune. repeat case_match; done. Qed.
Lemma suffix_rune_nonempty r : suffix_rune r ≠ "".
Proof. unfold suffix_rune. repeat case_match; done. Qed.

Lemma identifier_byte_ascii c : identifier_byte c = true → is_ascii_byte c = true.
Proof.
  intros Hc. pose proof (byte_cases (fun c => negb (identifier_byte c) || is_ascii_byte c) ltac:(by vm_compute) c) as E.
  cbn beta in E. by rewrite Hc in E.
Qed.
Lemma suffix_byte_ascii c : suffix_byte c = true → is_ascii_byte c = true.
Proof.
  intros Hc. pose proof (byte_cases (fun c => negb (suffix_byte c) || is_ascii_byte c) ltac:(by vm_compute) c) as E.
  cbn beta in E. by rewrite Hc in E.
Qed.

Lemma nativeIdentifier_inj s t : sall identifier_byte s = true → sall identifier_byte t = true →
  nativeIdentifier s = nativeIdentifier t → s = t.
Proof.
  intros Hs Ht. unfold nativeIdentifier.
  rewrite !escape_runes by (eapply sall_mono; [apply identifier_byte_ascii|done]).
  apply (escape_inj _ identifier_byte); auto using identifier_prefix_free, identifier_rune_nonempty.
Qed.

Lemma nativeRecordSuffix_inj s t : sall suffix_byte s = true → sall suffix_byte t = true →
  nativeRecordSuffix s = nativeRecordSuffix t → s = t.
Proof.
  intros Hs Ht. unfold nativeRecordSuffix. intros E%app_inj_s. revert E.
  rewrite !escape_runes by (eapply sall_mono; [apply suffix_byte_ascii|done]).
  apply (escape_inj _ suffix_byte); auto using suffix_prefix_free, suffix_rune_nonempty.
Qed.

(** ** Properties *)

(** Escaped section names are faithful: two host names made of letters, digits,
    dash, dot and underscore, or two record names made of lower-case letters,
    digits, dash and dot, have the same native section name only if they are equal. *)
Theorem section_names_injective :
  (∀ s t, sall identifier_byte s = true → sall identifier_byte t = true →
     nativeHostSectionName s = nativeHostSectionName t → s = t)
  ∧ (∀ s t, sall suffix_byte s = true → sall suffix_byte t = true →
     nativeVPNForwardSectionName s = nativeVPNForwardSectionName t
     ∨ nativeVPNClientMTUSectionName s = nativeVPNClientMTUSectionName t → s = t).
Proof.
  split; intros s t Hs Ht.
  - intros E%app_inj_s. by apply nativeIdentifier_inj.
  - intros [E|E]; apply app_inj_s in E; by apply nativeRecordSuffix_inj.
Qed.

Theorem section_names_injective_witness : nativeHostSectionName "a-b" ≠ nativeHostSectionName "a_hb".
Proof. intros E. by apply (proj1 section_names_injective) in E. Defined.
End FwSection.
