(* ===== verification/FwSafety.v ===== *)
(** * Firewall module: the permanent safety sets
    ([internal/firewallmodule/safety.go]) *)

From S2P Require Export FwSection.

Open Scope Z_scope.

Module FwSafety.
Import FwSection.

Definition SafetyProtectedSet : string := "boetticher_vpn_protected4".
Definition SafetyClientSet : string := "boetticher_vpn_clients4".
Definition SafetyForwardTCPSet : string := "boetticher_vpn_forwards_tcp4".
Definition SafetyForwardUDPSet : string := "boetticher_vpn_forwards_udp4".
Definition SafetyHomeSet : string := "boetticher_home4".
Definition SafetyLabSet : string := "boetticher_lab4".

Definition safetyAssetPaths : list string := [
  "/usr/share/nftables.d/chain-pre/input/10-boetticher-safety.nft";
  "/usr/share/nftables.d/chain-pre/forward/10-boetticher-safety.nft";
  "/usr/share/nftables.d/chain-pre/output/10-boetticher-safety.nft"].

(** [ft_Port] is a [uint16]. *)
Record ForwardTuple := mkTuple { ft_Address : string; ft_Protocol : string; ft_Port : Z }.

Record SafetyConfig := mkSafety {
  ProtectedIPv4 : list string; ClientIPv4 : list string; HomeIPv4 : list string;
  LabIPv4 : list string; ForwardTuples : list ForwardTuple;
}.

Definition DefaultSafetyConfig : SafetyConfig := mkSafety
  ["10.10.10.224/28"; "10.10.20.224/28"; "10.10.30.224/28"; "10.10.40.224/28"] [] ["192.168.4.0/22"]
  ["10.10.5.0/24"; "10.10.10.0/24"; "10.10.20.0/24"; "10.10.30.0/24"; "10.10.40.0/24"; "10.10.99.0/24"] [].

Inductive SafetyError :=
| SetsEmpty | ProtectedNotCanonical (raw : string) | ProtectedOverlap (existing raw : string)
| PrefixNotCanonical (raw : string) | ClientNotCanonical (raw : string) | ClientOutside (raw : string)
| ForwardNotCanonical (a : string) | ForwardNotClient (a : string)
| ForwardBadProtocol (a p : string) | ForwardBadPort (a : string).
#[export] Instance SafetyError_eq_dec : EqDecision SafetyError.
Proof. solve_decision. Defined.

Definition containsString (values : list string) (value : string) : bool := existsb (String.eqb value) values.
Definition containsAddress (prefixes : list Prefix) (address : Addr) : bool :=
  existsb (fun prefix => prefix_contains prefix address) prefixes.

(** ** [Validate] *)

Definition canonical_prefix (raw : string) : option Prefix :=
  prefix ← parse_prefix raw;
  if (prefix != masked prefix) || (prefix_string prefix != raw) then None else Some prefix.

Definition protected_step (protected : list Prefix) (raw : string) : result SafetyError (list Prefix) :=
  match canonical_prefix raw with
  | None => Err (ProtectedNotCanonical raw)
  | Some prefix =>
      _ ← fail_if (negb (p_bits prefix =? 28)) (ProtectedNotCanonical raw);
      match List.find (fun existing => overlaps existing prefix) protected with
      | Some existing => Err (ProtectedOverlap (prefix_string existing) raw)
      | None => Ok (protected ++ [prefix])
      end
  end.

Definition prefix_check (raw : string) : result SafetyError unit :=
  match canonical_prefix raw with None => Err (PrefixNotCanonical raw) | Some _ => Ok tt end.

Definition client_check (protected : list Prefix) (raw : string) : result SafetyError unit :=
  match parse_addr raw with
  | None => Err (ClientNotCanonical raw)
  | Some address =>
      _ ← fail_if (addr_string address != raw) (ClientNotCanonical raw);
      fail_if (negb (containsAddress protected address)) (ClientOutside raw)
  end.

Definition tuple_check (clients : list string) (t : ForwardTuple) : result SafetyError unit :=
  match parse_addr (ft_Address t) with
  | None => Err (ForwardNotCanonical (ft_Address t))
  | Some address =>
      _ ← fail_if (addr_string address != ft_Address t) (ForwardNotCanonical (ft_Address t));
      _ ← fail_if (negb (containsString clients (ft_Address t))) (ForwardNotClient (ft_Address t));
      _ ← fail_if ((ft_Protocol t != "tcp") && (ft_Protocol t != "udp"))
            (ForwardBadProtocol (ft_Address t) (ft_Protocol t));
      fail_if (ft_Port t =? 0) (ForwardBadPort (ft_Address t))
  end.

Definition Validate (c : SafetyConfig) : result SafetyError unit :=
  _ ← fail_if ((length (ProtectedIPv4 c) =? 0)%nat || (length (HomeIPv4 c) =? 0)%nat
               || (length (LabIPv4 c) =? 0)%nat) SetsEmpty;
  protected ← foldM protected_step [] (ProtectedIPv4 c);
  _ ← eachM prefix_check (HomeIPv4 c);
  _ ← eachM prefix_check (LabIPv4 c);
  _ ← eachM (client_check protected) (ClientIPv4 c);
  eachM (tuple_check (ClientIPv4 c)) (ForwardTuples c).

(** ** Sections and their rendering *)

Definition ipset (name : string) (matches entries : list string) : Section_ :=
  mkSection name "ipset" (opts [("name", name); ("family", "ipv4")])
    (lists [("match", matches); ("entry", entries)]).

Definition tuple_entry (t : ForwardTuple) : string := ft_Address t +:+ " " +:+ itoa (ft_Port t).

Definition SafetySections (c : SafetyConfig) : result SafetyError (list Section_) :=
  _ ← Validate c;
  let tcp := map tuple_entry (List.filter (fun t => ft_Protocol t == "tcp") (ForwardTuples c)) in
  let udp := map tuple_entry (List.filter (fun t => ft_Protocol t != "tcp") (ForwardTuples c)) in
  Ok [ipset SafetyProtectedSet ["src_net"] (ProtectedIPv4 c);
      ipset SafetyClientSet ["src_ip"] (ClientIPv4 c);
      ipset SafetyHomeSet ["dest_net"] (HomeIPv4 c);
      ipset SafetyLabSet ["dest_net"] (LabIPv4 c);
      ipset SafetyForwardTCPSet ["dest_ip"; "dest_port"] (sort_strings tcp);
      ipset SafetyForwardUDPSet ["dest_ip"; "dest_port"] (sort_strings udp)].

Definition nl : string := String "010" "".
Definition tab : string := String "009" "".

Definition render_section (s : Section_) : string :=
  "config ipset '" +:+ sec_Name s +:+ "'" +:+ nl
  +:+ tab +:+ "option name '" +:+ get (sec_Options s) "name" +:+ "'" +:+ nl
  +:+ tab +:+ "option family '" +:+ get (sec_Options s) "family" +:+ "'" +:+ nl
  +:+ foldr (fun m r => tab +:+ "list match '" +:+ m +:+ "'" +:+ nl +:+ r) "" (getl (sec_Lists s) "match")
  +:+ foldr (fun e r => tab +:+ "list entry '" +:+ e +:+ "'" +:+ nl +:+ r) "" (getl (sec_Lists s) "entry")
  +:+ nl.

Definition RenderSafetyUCI (c : SafetyConfig) : result SafetyError string :=
  sections ← SafetySections c;
  Ok (foldr (fun s r => render_section s +:+ r) "" sections).

Definition RenderSafetyAssetManifest : string := join safetyAssetPaths nl +:+ nl.

(** ** Lemmas *)

Lemma canonical_prefix_ok raw p : canonical_prefix raw = Some p →
  parse_prefix raw = Some p ∧ valid_prefix p ∧ masked p = p.
Proof.
  unfold canonical_prefix. intros (q & Hq & Hc)%bind_Some. destruct (_ || _) eqn:E; [done|].
  injection Hc as <-. bools. pose proof (parse_prefix_sound _ _ Hq) as [? _]. done.
Qed.

Definition protected_good (raws : list string) (ps : list Prefix) : Prop :=
  Forall2 (fun raw p => canonical_prefix raw = Some p ∧ p_bits p = 28) raws ps
  ∧ ∀ i j p q, (i < j)%nat → ps !! i = Some p → ps !! j = Some q → overlaps p q = false.

Lemma find_none {A} (f : A → bool) l : List.find f l = None → ∀ x, x ∈ l → f x = false.
Proof. intros Hf x Hx%list_elem_of_In. by eapply List.find_none. Qed.

Lemma protected_ok raws ps : foldM protected_step [] raws = Ok ps → protected_good raws ps.
Proof.
  apply foldM_inv; [split; [constructor|by intros ????? H; destruct i]|].
  intros dn raw p1 p2 [Hall Hdis] _ Hf. unfold protected_step in Hf.
  destruct (canonical_prefix raw) as [p|] eqn:Ep; [|done]. inv_ok. bools.
  destruct (List.find _ p1) eqn:Ef; [done|]. inv_ok. split.
  - apply Forall2_app; [done|]. by repeat constructor.
  - intros i j x y Hij Hx Hy. apply lookup_app_Some in Hy as [Hy|[Hlen Hy]].
    + rewrite lookup_app_l in Hx by (apply lookup_lt_Some in Hy; lia). by eapply Hdis.
    + apply list_lookup_singleton_Some in Hy as [Hj ->]. rewrite lookup_app_l in Hx by lia.
      eapply (find_none _ _ Ef). by eapply list_elem_of_lookup_2.
Qed.

Lemma containsAddress_ok ps a : containsAddress ps a = true ↔ ∃ p, p ∈ ps ∧ prefix_contains p a = true.
Proof.
  unfold containsAddress. rewrite existsb_exists. split; intros (p&?&?); exists p;
    (split; [by apply list_elem_of_In|done]).
Qed.

(** ** Properties *)

(** The safety sets say what they mean: the protected ranges are canonical
    /28 networks of which no two share an address, every VPN client is in exactly
    one of them, and every forward goes to a declared client with a TCP or UDP
    port other than 0. *)
Theorem SafetyConfig_Validate_sound c :
  Validate c = Ok tt → ∃ ps,
    Forall2 (fun raw p => parse_prefix raw = Some p ∧ masked p = p ∧ p_bits p = 28) (ProtectedIPv4 c) ps
    ∧ (∀ i j p q a, i ≠ j → ps !! i = Some p → ps !! j = Some q →
         prefix_contains p a = true → prefix_contains q a = false)
    ∧ (∀ raw, raw ∈ ClientIPv4 c → ∃ a i p, parse_addr raw = Some a ∧ ps !! i = Some p
         ∧ prefix_contains p a = true
         ∧ ∀ j q, ps !! j = Some q → prefix_contains q a = true → j = i)
    ∧ ∀ t, t ∈ ForwardTuples c →
        ft_Address t ∈ ClientIPv4 c ∧ ft_Protocol t ∈ ["tcp"; "udp"] ∧ ft_Port t ≠ 0.
Proof.
  unfold Validate. intros Hv. inv_ok. apply protected_ok in E0 as [Hall Hdis].
  apply eachM_ok in E3, Hv. rewrite Forall_forall in E3. rewrite Forall_forall in Hv. exists r.
  assert (∀ i p, r !! i = Some p → valid_prefix p) as Hvalid.
  { intros i p Hp. eapply Forall2_lookup_r in Hall as (raw&_&Hc&_); [|done].
    by apply canonical_prefix_ok in Hc as (_&?&_). }
  assert (∀ i j p q a, i ≠ j → r !! i = Some p → r !! j = Some q →
    prefix_contains p a = true → prefix_contains q a = false) as Hd.
  { intros i j p q a Hne Hp Hq Hpa. destruct (prefix_contains q a) eqn:Hqa; [|done]. exfalso.
    destruct (decide (i < j)%nat) as [Hij|Hij].
    - by eapply (overlaps_disjoint p q a); eauto.
    - assert (j < i)%nat by lia. by eapply (overlaps_disjoint q p a); eauto. }
  split_and!; [|done| |].
  - eapply Forall2_impl; [exact Hall|]. intros raw p [Hc Hb]. apply canonical_prefix_ok in Hc. tauto.
  - intros raw Hin. specialize (E3 raw Hin). unfold client_check in E3.
    destruct (parse_addr raw) as [a|]; [|done]. inv_ok. bools.
    apply containsAddress_ok in E3 as (p&Hp&Hpa). apply list_elem_of_lookup_1 in Hp as [i Hi].
    exists a, i, p. split_and!; try done. intros j q Hq Hqa. destruct (decide (j = i)); [done|].
    exfalso. pose proof (Hd j i q p a ltac:(done) Hq Hi Hqa). congruence.
  - intros t Hin. specialize (Hv t Hin). unfold tuple_check in Hv.
    destruct (parse_addr _) as [a|]; [|done]. inv_ok. bools.
    apply existsb_exists in E4 as (x&Hx%list_elem_of_In&<-%String.eqb_eq). split_and!; [done| |done].
    rewrite andb_false_iff in E5. destruct E5; bools; set_solver.
Qed.

Definition sample_safety : SafetyConfig := mkSafety (ProtectedIPv4 DefaultSafetyConfig)
  ["10.10.20.230"] (HomeIPv4 DefaultSafetyConfig) (LabIPv4 DefaultSafetyConfig)
  [mkTuple "10.10.20.230" "udp" 51413; mkTuple "10.10.20.230" "tcp" 51413].

Theorem SafetyConfig_Validate_sound_witness : ∃ ps : list Prefix,
  Forall2 (fun raw p => parse_prefix raw = Some p ∧ masked p = p ∧ p_bits p = 28) (ProtectedIPv4 sample_safety) ps.
Proof.
  destruct (SafetyConfig_Validate_sound sample_safety) as (ps&Hps&_); [by vm_compute|]. exists ps. exact Hps.
Defined.

(** The packaged baseline is valid. *)
Example default_ok : Validate DefaultSafetyConfig = Ok tt.
Proof. by vm_compute. Qed.
End FwSafety.
