(* ===== verification/FwServices.v ===== *)
(** * Firewall module: the shared DNS, DHCP and time services
    ([internal/firewallmodule/services.go]) *)

From S2P Require Export FwSection CsValidate.

Open Scope Z_scope.

Module FwServices.
Import Model CsConfig CsNames CsValidate FwSection.

(** [internal/tailnet/contract.go] *)
Definition TailnetGuestName : string := "lab-tailnet-01".
Definition TailnetGuestAddress : string := "10.10.5.10".
Definition TailnetGateway : string := "10.10.5.1".
Definition TailnetGuestMAC : string := "02:00:00:00:05:10".

Definition StubbyListenAddress : string := "127.0.0.1#5453".
Definition LeaseFilePath : string := "/etc/boetticher/dhcp.leases".

Inductive ServiceError :=
| Intent (e : CsNames.Error)
| BindingMalformedAddress (host a : string) | BindingMalformedGateway (zone a : string)
| BindingNameCollides (n previous ip : string) | BindingAliasCollides (n previous ip : string)
| UserRecordOwnedName (n : string) | UserRecordOwnedAddress (n a owner : string)
| CollectionIncomplete | ObservabilityZoneMissing (z : string) | BindingOutside (role z : string)
| TrustedZoneMissing
| UnownedDnsmasq (n : string) | UnownedScope (n : string) | UnownedResolver (n : string)
| ResolverPinned (n : string) | UnownedStubby (n : string) | UnownedTimeSource (n : string)
| StubbyNeedsDnsmasq.

Record ServiceState := mkServiceState {
  ss_DHCP : list Section_; ss_Stubby : list Section_;
  ss_System : list Section_; ss_Firewall : list Section_;
}.

Definition rule (name : string) (options : list (string * string)) : Section_ :=
  mkSection name "rule" (opts options) ∅.
Definition cname (section name target : string) : Section_ :=
  mkSection section "cname" (opts [("cname", name); ("target", target)]) ∅.

Section services.
Context `{GoUnicode}.

Definition zoneByName (site : Site) (name : string) : option Zone :=
  List.find (fun zone => equal_fold (z_Name zone) name) (n_Zones (s_Network site)).

(** ** Checks on a provider's packages *)

Definition service_package_check (packageName : string) (wanted : gset string) (item : string * UCISection)
    : result ServiceError unit :=
  let '(name, s) := item in
  if packageName == "dhcp" then
    _ ← fail_if ((uci_Type s == "dnsmasq") && (name != "boetticher_dnsmasq")) (UnownedDnsmasq name);
    fail_if ((uci_Type s == "dhcp") && (name != "boetticher_home") && negb (has_prefix name "boetticher_dhcp_")
             && (get (uci_Options s) "ignore" != "1")) (UnownedScope name)
  else if packageName == "stubby" then
    _ ← (if uci_Type s == "resolver" then
           _ ← fail_if (bool_decide (name ∉ wanted)) (UnownedResolver name);
           fail_if (negb (length (getl (uci_Lists s) "spki") =? 0)%nat) (ResolverPinned name)
         else Ok tt);
    fail_if ((uci_Type s == "stubby") && (name != "global")) (UnownedStubby name)
  else if packageName == "system" then
    fail_if ((uci_Type s == "timeserver") && (name != "ntp") && (get (uci_Options s) "enabled" != "0"))
      (UnownedTimeSource name)
  else Ok tt.

(** Go's map order decides which of several conflicts is reported. *)
Definition ValidateServicePackage (packageName : string) (current : Package) (desired : list Section_)
    : result ServiceError unit :=
  eachM (service_package_check packageName (list_to_set (map sec_Name desired))) (map_to_list current).

(** ** DNS names of systems, media and observability *)

Definition systemDNSSection (site : Site) (system : System) : list Section_ :=
  if sy_DNSName system == "" then []
  else match canonicalName (sy_Name system) (n_Domain (s_Network site)) with
       | Err _ => []
       | Ok target =>
           let name := to_lower (trim_suffix (sy_DNSName system) ".") in
           [cname (systemDNSSectionName name target) name target]
       end.
Definition systemDNSSections (site : Site) (systems : list System) : list Section_ :=
  flat_map (systemDNSSection site) systems.

Definition mediaDNSSections (site : Site) (config : MediaConfig) : list Section_ :=
  if negb (md_Enabled config) then []
  else map (fun alias => cname ("boetticher_media_cname_" +:+ alias)
              (alias +:+ "." +:+ md_ApplicationDomain config) ("lab-media-01." +:+ n_Domain (s_Network site)))
         (media_aliases (md_Aliases config) ++ ["qbittorrent"; "jellyfin"; "jellyseerr"]).

Definition observabilityDNSSections (publicDomain : string) : list Section_ :=
  map (fun name =>
    let fqdn := name +:+ "." +:+ publicDomain in
    mkSection ("boetticher_observability_record_" +:+ nativeRecordSuffix fqdn) "hostrecord"
      (opts [("name", fqdn); ("ip", "10.10.10.20")]) ∅)
    ["observability"; "status"; "lab"; "labviewer"; "ingest"; "metrics"].

(** ** Observability firewall *)

Definition hasExactTailnetReservation (modules : Modules) : bool :=
  match m_DHCP modules with
  | None => false
  | Some dhcp =>
      existsb (fun r => (rv_Name r == TailnetGuestName) && (rv_Zone r == "TRANSIT")
                        && equal_fold (rv_MAC r) TailnetGuestMAC && (rv_Address r == TailnetGuestAddress))
        (h_Reservations dhcp)
  end.

Definition role_check (site : Site) (role : string * string * string) : result ServiceError unit :=
  let '(name, address, zone) := role in
  match zoneByName site zone with
  | None => Err (ObservabilityZoneMissing zone)
  | Some z =>
      match parse_addr address, parse_prefix (z_Network z) with
      | Some a, Some p => fail_if (negb (prefix_contains p a)) (BindingOutside name zone)
      | _, _ => Err (BindingOutside name zone)
      end
  end.

Definition observability_rule (id src srcIP dest destIP port : string) : Section_ :=
  rule ("boetticher_observability_" +:+ id)
    [("name", "Boetticher Observability " +:+ id); ("src", src); ("src_ip", srcIP);
     ("dest", dest); ("dest_ip", destIP); ("proto", "tcp"); ("dest_port", port);
     ("family", "ipv4"); ("target", "ACCEPT")].

Definition host_prefix (value : string) : string := value +:+ "/32".

Definition observabilityFirewallSections (site : Site) (modules : Modules) : result ServiceError (list Section_) :=
  match m_Observability modules with
  | None => Ok []
  | Some o =>
      if negb (Enabled (os_Enabled o)) then Ok []
      else
        let b := os_Collection o in
        _ ← fail_if ((ob_Controller b == "") || (ob_ProxmoxHost b == "") || (ob_Runtime b == "")) CollectionIncomplete;
        _ ← eachM (role_check site)
              [("controller", ob_Controller b, "SERVERS"); ("proxmox host", ob_ProxmoxHost b, "MGMT");
               ("runtime", ob_Runtime b, "INFRA")];
        let controller := host_prefix (ob_Controller b) in
        let host := host_prefix (ob_ProxmoxHost b) in
        let runtime := host_prefix (ob_Runtime b) in
        match zoneByName site "TRUSTED" with
        | None => Err TrustedZoneMissing
        | Some trusted =>
            let sections :=
              [observability_rule "controller_exporter" "infra" runtime "servers" controller "9100";
               observability_rule "controller_portal" "infra" runtime "servers" controller "8090";
               observability_rule "host_exporter" "infra" runtime "mgmt" host "9100";
               observability_rule "controller_ingress" "servers" controller "infra" runtime "443";
               observability_rule "host_ingress" "mgmt" host "infra" runtime "443";
               observability_rule "runtime_ingress" "infra" runtime "infra" runtime "443";
               observability_rule "trusted_ingress" "trusted" (z_Network trusted) "infra" runtime "443"] in
            let tailnet := observability_rule "tailnet_ingress" "transit" (host_prefix TailnetGuestAddress)
                             "infra" runtime "443" in
            if Enabled (m_Tailnet modules) && hasExactTailnetReservation modules
            then Ok (sections ++ [mkSection (sec_Name tailnet) (sec_Type tailnet)
                                    (<["src_mac" := TailnetGuestMAC]> (sec_Options tailnet)) (sec_Lists tailnet)])
            else Ok sections
        end
  end.

(** ** dnsmasq *)

Definition iface_name (zone : Zone) : string := "boetticher_iface_" +:+ to_lower (z_Name zone).

Definition dnsmasq_main (site : Site) (dnsEnabled dhcpEnabled : bool) : Section_ :=
  let options := opts [
    ("disabled", "1"); ("port", "0"); ("domainneeded", "1"); ("boguspriv", "1"); ("noresolv", "1");
    ("localservice", "1"); ("rebind_protection", "1"); ("leasefile", LeaseFilePath);
    ("domain", n_Domain (s_Network site))] in
  let options :=
    if dnsEnabled then
      let options := <["port" := "53"]> (<["local" := "/" +:+ n_Domain (s_Network site) +:+ "/"]>
                       (<["disabled" := "0"]> options)) in
      if dhcpEnabled then <["extraconftext" := "dhcp-ignore-names=tag:boetticher_sandbox"]> options else options
    else options in
  let options := if dhcpEnabled then <["port" := "53"]> (<["disabled" := "0"]> options) else options in
  let interfaces := map iface_name (n_Zones (s_Network site)) in
  let lists :=
    if dnsEnabled then
      match interfaces with
      | [] => lists [("server", [StubbyListenAddress])]
      | _ => lists [("server", [StubbyListenAddress]); ("interface", interfaces)]
      end
    else ∅ in
  mkSection "boetticher_dnsmasq" "dnsmasq" options lists.

Definition dnsmasq_home : Section_ :=
  mkSection "boetticher_home" "dhcp"
    (opts [("interface", "boetticher_home"); ("ignore", "1"); ("ra", "disabled");
           ("dhcpv6", "disabled"); ("ndp", "disabled")]) ∅.

(** The range of a pool scope.  The count is computed on bytes, so it wraps at 256. *)
Definition pool_options (scope : DHCPScope) (options : gmap string string) : gmap string string :=
  if sc_Mode scope == ScopePool then
    match parse_to4 (sc_PoolStart scope), parse_to4 (sc_PoolEnd scope) with
    | Some start, Some end_ =>
        <["dynamicdhcp" := "1"]>
          (<["limit" := itoa ((octet end_ 3 - octet start 3 + 1) mod 256)]>
            (<["start" := itoa (octet start 3)]> options))
    | _, _ => options
    end
  else options.

Definition dhcp_scope_section (site : Site) (dhcp : DHCPConfig) (scope : DHCPScope) : list Section_ :=
  match zoneByName site (sc_Zone scope) with
  | None => []
  | Some zone =>
      let name := to_lower (z_Name zone) in
      let options := opts [("interface", "boetticher_iface_" +:+ name); ("leasetime", h_LeaseDuration dhcp);
                           ("start", "2"); ("limit", "253"); ("dynamicdhcp", "0"); ("force", "1")] in
      let lists := lists [("dhcp_option",
        ["3," +:+ z_Gateway zone;
         "121,10.10.0.0/16," +:+ z_Gateway zone +:+ ",0.0.0.0/0," +:+ z_Gateway zone;
         "6," +:+ z_Gateway zone; "15," +:+ n_Domain (s_Network site); "42," +:+ z_Gateway zone])] in
      let options := pool_options scope options in
      let options :=
        match sc_PublishNames scope with
        | Some false => if z_Type zone == ZoneTypeSandbox then <["networkid" := "boetticher_sandbox"]> options else options
        | _ => options
        end in
      [mkSection ("boetticher_dhcp_" +:+ name) "dhcp" options lists]
  end.

Definition reservation_section (r : Reservation) : Section_ :=
  let name := to_lower (rv_Name r) in
  mkSection (nativeHostSectionName name) "host"
    (opts [("name", name); ("mac", rv_MAC r); ("ip", rv_Address r); ("dns", "1")]) ∅.

Definition dnsmasqSections (site : Site) (modules : Modules) : list Section_ :=
  let dhcpEnabled := dhcp_enabled modules in
  [dnsmasq_main site (dns_enabled modules) dhcpEnabled; dnsmasq_home]
  ++ match m_DHCP modules with
     | Some dhcp =>
         if dhcpEnabled then
           flat_map (dhcp_scope_section site dhcp) (h_Scopes dhcp) ++ map reservation_section (h_Reservations dhcp)
         else []
     | None => []
     end.

(** ** Infrastructure names *)

Record dnsBinding := mkBinding { db_name : string; db_ip : string; db_role : Z; db_aliases : list string }.

(** The sort's order: role, then address text, then name. *)
Definition binding_le (a b : dnsBinding) : Prop :=
  db_role a < db_role b
  ∨ db_role a = db_role b ∧
    (db_ip a ≠ db_ip b ∧ String.le (db_ip a) (db_ip b)
     ∨ db_ip a = db_ip b ∧ String.le (db_name a) (db_name b)).
#[export] Instance binding_le_dec : RelDecision binding_le.
Proof. intros a b. unfold binding_le. apply _. Defined.

Definition blank (s : string) : bool := trim_space s == "".

Definition component_bindings (cs : list Component) : result ServiceError (list dnsBinding) :=
  foldM (fun bs c =>
    if blank (c_Hostname c) || blank (c_Address c) then Ok bs
    else
      _ ← fail_if (negb (canonical_ipv4 (c_Address c))) (BindingMalformedAddress (c_Hostname c) (c_Address c));
      Ok (bs ++ [mkBinding (c_Hostname c) (c_Address c) 0 (c_DNSAliases c)])) [] cs.

Definition gateway_bindings (zones : list Zone) : result ServiceError (list dnsBinding) :=
  foldM (fun bs z =>
    if blank (z_Name z) || blank (z_Gateway z) then Ok bs
    else
      _ ← fail_if (negb (canonical_ipv4 (z_Gateway z))) (BindingMalformedGateway (z_Name z) (z_Gateway z));
      Ok (bs ++ [mkBinding (to_lower (z_Name z) +:+ "-gateway") (z_Gateway z) 1 []])) [] zones.

Definition home_binding (site : Site) : list dnsBinding :=
  let a := gw_ManagementAddress (s_Gateway site) in
  if canonical_ipv4 a then [mkBinding "home-gateway" a 2 []] else [].

Definition dns_bindings (site : Site) : result ServiceError (list dnsBinding) :=
  own ← component_bindings (s_Components site);
  gateways ← gateway_bindings (n_Zones (s_Network site));
  Ok (stable_sort binding_le (own ++ gateways ++ home_binding site)).

Definition canonicalBindingTarget (ip : string) (bindings : list dnsBinding) (domain : string) : string :=
  default "" (first_some (fun item =>
    if db_ip item == ip then
      match canonicalName (db_name item) domain with Ok n => Some n | Err _ => None end
    else None) bindings).

Record BindState := mkBindState {
  bs_sections : list Section_; bs_seenName : gmap string string; bs_seenAddress : gset string;
}.

Definition binding_cname (name target : string) : Section_ :=
  cname ("boetticher_binding_cname_" +:+ nativeRecordSuffix (trim_suffix name ".")) name target.

Definition alias_step (domain name ip : string) (st : BindState) (alias : string) : result ServiceError BindState :=
  match canonicalName alias domain with
  | Err _ => Ok st
  | Ok aliasName =>
      if aliasName == name then Ok st
      else match bs_seenName st !! aliasName with
           | Some previous => if previous != ip then Err (BindingAliasCollides aliasName previous ip) else Ok st
           | None => Ok (mkBindState (bs_sections st ++ [binding_cname aliasName name])
                           (<[aliasName := ip]> (bs_seenName st)) (bs_seenAddress st))
           end
  end.

Definition binding_step (domain : string) (bindings : list dnsBinding) (st : BindState) (item : dnsBinding)
    : result ServiceError BindState :=
  match canonicalName (db_name item) domain with
  | Err _ => Ok st
  | Ok name =>
      match bs_seenName st !! name with
      | Some previous => if previous != db_ip item then Err (BindingNameCollides name previous (db_ip item)) else Ok st
      | None =>
          let seenName := <[name := db_ip item]> (bs_seenName st) in
          if bool_decide (db_ip item ∈ bs_seenAddress st) then
            Ok (mkBindState (bs_sections st ++ [binding_cname name (canonicalBindingTarget (db_ip item) bindings domain)])
                  seenName (bs_seenAddress st))
          else
            let record := mkSection ("boetticher_binding_record_" +:+ nativeRecordSuffix (trim_suffix name "."))
                            "hostrecord" (opts [("name", name); ("ip", db_ip item)]) ∅ in
            foldM (alias_step domain name (db_ip item))
              (mkBindState (bs_sections st ++ [record]) seenName ({[db_ip item]} ∪ bs_seenAddress st))
              (db_aliases item)
      end
  end.

Definition bindingDNSSections (site : Site) : result ServiceError (list Section_) :=
  bindings ← dns_bindings site;
  st ← foldM (binding_step (n_Domain (s_Network site)) bindings) (mkBindState [] ∅ ∅) bindings;
  Ok (bs_sections st).

(** [model.DNSRecord] *)
Record InfraRecord := mkInfra { ir_Name : string; ir_Type : string; ir_Address : string; ir_Owner : string }.

Definition infra_record (s : Section_) : list InfraRecord :=
  if sec_Type s == "hostrecord" then
    [mkInfra (get (sec_Options s) "name") "A" (get (sec_Options s) "ip") "infrastructure"]
  else if sec_Type s == "cname" then
    [mkInfra (get (sec_Options s) "cname") "CNAME" (get (sec_Options s) "target") "infrastructure"]
  else [].

Definition InfrastructureDNSRecords (site : Site) : result ServiceError (list InfraRecord) :=
  sections ← bindingDNSSections site;
  Ok (flat_map infra_record sections).

(** ** User records *)

Definition owned_names (sections : list Section_) : gset string :=
  list_to_set (List.filter (fun n => n != "")
    (flat_map (fun s => [get (sec_Options s) "name"; get (sec_Options s) "cname"]) sections)).

Definition owned_addresses (sections : list Section_) : gmap string string :=
  fold_insert (fun s => get (sec_Options s) "ip") (fun s => get (sec_Options s) "name") ∅
    (List.filter (fun s => sec_Type s == "hostrecord") sections).

Definition user_record_step (site : Site) (ownedNames : gset string) (ownedAddresses : gmap string string)
    (sections : list Section_) (record : DNSRecord) : result ServiceError (list Section_) :=
  match canonicalName (r_Name record) (n_Domain (s_Network site)) with
  | Err _ => Ok sections
  | Ok name =>
      _ ← fail_if (bool_decide (name ∈ ownedNames)) (UserRecordOwnedName name);
      if r_Type record == "A" then
        let safe := trim_prefix (nativeRecordSectionName name) "boetticher_record_" in
        let owner := canonical ← parse_to4 (r_Value record); ownedAddresses !! addr_string canonical in
        match owner with
        | Some o => Err (UserRecordOwnedAddress name (r_Value record) o)
        | None => Ok (sections ++ [mkSection ("boetticher_record_" +:+ safe) "hostrecord"
                                     (opts [("name", name); ("ip", r_Value record)]) ∅])
        end
      else if r_Type record == "CNAME" then
        match canonicalName (r_Value record) (n_Domain (s_Network site)) with
        | Err _ => Ok sections
        | Ok target =>
            Ok (sections ++ [cname ("boetticher_cname_" +:+ nativeRecordSuffix (trim_suffix name ".")) name target])
        end
      else Ok sections
  end.

Definition dnsRecordSections (site : Site) (records : list DNSRecord) : result ServiceError (list Section_) :=
  bindingSections ← bindingDNSSections site;
  foldM (user_record_step site (owned_names bindingSections) (owned_addresses bindingSections))
    bindingSections records.

(** ** Stubby and NTP *)

Definition stubbySections (upstreams : list DNSUpstream) : list Section_ :=
  mkSection "global" "stubby"
    (opts [("manual", "0"); ("trigger", "boetticher_home"); ("tls_authentication", "1");
           ("tls_min_version", "1.2"); ("edns_client_subnet_private", "1"); ("round_robin_upstreams", "1");
           ("appdata_dir", "/var/lib/stubby"); ("tls_query_padding_blocksize", "128"); ("idle_timeout", "10000")])
    (lists [("listen_address", ["127.0.0.1@5453"]); ("dns_transport", ["GETDNS_TRANSPORT_TLS"])])
  :: map (fun u =>
       let safe := trim_prefix (nativeResolverSectionName (u_Address u)) "boetticher_resolver_" in
       mkSection ("boetticher_resolver_" +:+ safe) "resolver"
         (opts [("address", u_Address u); ("tls_auth_name", u_TLSName u); ("tls_port", itoa (u_Port u))]) ∅) upstreams.

Definition ntpSections (upstreams : list string) (serve : option bool) : list Section_ :=
  [mkSection "ntp" "timeserver"
     (opts [("enabled", "1"); ("use_dhcp", "0"); ("enable_server", if Enabled serve then "1" else "0")])
     (lists [("server", upstreams)])].

(** ** Service firewall rules *)

(** One rule of a zone: name suffix, label suffix and the options after [name] and [src]. *)
Definition zone_rule (verb : string) (zone : Zone) (suffix label : string) (options : list (string * string)) : Section_ :=
  rule ("boetticher_" +:+ verb +:+ "_" +:+ to_lower (z_Name zone) +:+ suffix)
    ([("name", "Boetticher " +:+ z_Name zone +:+ label); ("src", to_lower (z_Name zone))] ++ options
     ++ [("family", "ipv4"); ("target", if verb == "allow" then "ACCEPT" else "DROP")]).

Definition external_dns_rules (zone : Zone) (vpnEnabled : bool) : list Section_ :=
  flat_map (fun item : string * string * string =>
    let '(suffix, protocol, port) := item in
    zone_rule "deny" zone ("_external_" +:+ suffix) (" deny external " +:+ suffix)
      [("dest", "home_wan"); ("proto", protocol); ("dest_port", port)]
    :: (if vpnEnabled then
          [zone_rule "deny" zone ("_external_" +:+ suffix +:+ "_vpn") (" deny external " +:+ suffix +:+ " via VPN")
             [("dest", "vpn"); ("proto", protocol); ("dest_port", port)]]
        else []))
    [("dns_udp", "udp", "53"); ("dns_tcp", "tcp", "53"); ("dot_tcp", "tcp", "853")].

Definition zone_service_rules (dnsEnabled dhcpEnabled vpnEnabled : bool) (zone : Zone) : list Section_ :=
  (if dhcpEnabled then
     [zone_rule "allow" zone "_dhcp" " DHCP" [("proto", "udp"); ("src_port", "68"); ("dest_port", "67")];
      zone_rule "deny" zone "_external_dhcp" " deny external DHCP"
        [("dest", "home_wan"); ("proto", "udp"); ("dest_port", "67")]]
   else [])
  ++ (if dnsEnabled then
        map (fun protocol => zone_rule "allow" zone ("_dns_" +:+ protocol) (" DNS " +:+ protocol)
               [("proto", protocol); ("dest_port", "53")]) ["tcp"; "udp"]
        ++ external_dns_rules zone vpnEnabled
      else [])
  ++ (if dhcpEnabled then
        [zone_rule "allow" zone "_ntp" " NTP" [("proto", "udp"); ("dest_port", "123")];
         zone_rule "deny" zone "_external_ntp" " deny external NTP"
           [("dest", "home_wan"); ("proto", "udp"); ("dest_port", "123")]]
        ++ (if vpnEnabled then
              [zone_rule "deny" zone "_external_ntp_vpn" " deny external NTP via VPN"
                 [("dest", "vpn"); ("proto", "udp"); ("dest_port", "123")]]
            else [])
      else []).

Definition serviceFirewallSections (site : Site) (dnsEnabled dhcpEnabled vpnEnabled : bool) : list Section_ :=
  if negb dnsEnabled && negb dhcpEnabled then []
  else flat_map (zone_service_rules dnsEnabled dhcpEnabled vpnEnabled) (n_Zones (s_Network site)).

Definition system_rules (system : System) : list Section_ :=
  let id := nativeIdentifier (to_lower (sy_Name system)) in
  let section name source extra :=
    rule ("boetticher_system_" +:+ id +:+ "_" +:+ name)
      ([("name", "Boetticher system " +:+ sy_Name system +:+ " " +:+ name); ("src", source); ("dest", "servers");
        ("dest_ip", sy_Address system); ("proto", "tcp"); ("dest_port", itoa (sy_Port system));
        ("family", "ipv4"); ("target", "ACCEPT")] ++ extra) in
  section "trusted" "trusted" []
  :: (if sy_Monitoring system then [section "monitoring" "infra" [("src_ip", "10.10.10.20")]] else []).
Definition systemFirewallSections (systems : list System) : list Section_ := flat_map system_rules systems.

Definition home_publication (homeNetwork : string) (system : System) : list Section_ :=
  if sy_HomePort system =? 0 then []
  else
    let id := nativeIdentifier (to_lower (sy_Name system)) in
    [mkSection ("boetticher_system_" +:+ id +:+ "_home_publication") "redirect"
       (opts [("name", "Boetticher system " +:+ sy_Name system +:+ " HOME publication"); ("src", "home_wan");
              ("src_ip", homeNetwork); ("src_dport", itoa (sy_HomePort system)); ("dest", "servers");
              ("dest_ip", sy_Address system); ("dest_port", itoa (sy_Port system)); ("target", "DNAT");
              ("family", "ipv4"); ("reflection", "0")])
       (lists [("proto", ["tcp"])])].
Definition systemHomePublicationSections (site : Site) (systems : list System) : list Section_ :=
  let homeNetwork := if gw_ManagementNetwork (s_Gateway site) == "" then GatewayManagementNetwork
                     else gw_ManagementNetwork (s_Gateway site) in
  flat_map (home_publication homeNetwork) systems.

Definition mediaMonitoringFirewallSections (modules : Modules) : list Section_ :=
  match m_Media modules with
  | Some media =>
      if md_Enabled media && observability_enabled modules then
        [rule "boetticher_media_monitoring"
           [("name", "Boetticher media monitoring"); ("src", "infra"); ("src_ip", "10.10.10.20/32");
            ("dest", "servers"); ("dest_ip", "10.10.20.230/32"); ("proto", "tcp"); ("dest_port", "9110");
            ("family", "ipv4"); ("target", "ACCEPT")]]
      else []
  | None => []
  end.

(** ** The composed service state *)

Definition vpn_enabled (modules : Modules) : bool :=
  match m_VPN modules with Some v => Enabled (v_Enabled v) | None => false end.

Definition dns_dhcp_sections (site : Site) (n : Modules) : result ServiceError (list Section_ * list Section_) :=
  match m_DNS n with
  | None => Ok ([], [])
  | Some d =>
      generated ← dnsRecordSections site (d_Records d);
      Ok (generated ++ systemDNSSections site (m_Systems n)
          ++ match m_Media n with Some media => mediaDNSSections site media | None => [] end,
          stubbySections (or_default (d_Upstreams d) DefaultDNSUpstreams))
  end.

Definition ntp_settings (n : Modules) : list string * option bool :=
  match m_DHCP n with
  | Some h =>
      if negb (length (t_Upstreams (h_Time h)) =? 0)%nat then
        (t_Upstreams (h_Time h), if Enabled (h_Enabled h) then t_Serve (h_Time h) else Some false)
      else (DefaultTimeUpstreams, None)
  | None => (DefaultTimeUpstreams, None)
  end.

Definition intent (r : result CsNames.Error unit) : result ServiceError unit :=
  match r with Ok _ => Ok tt | Err e => Err (Intent e) end.

Definition ServiceStateFromModules `{GoURL} (site : Site) (modules : Modules) : result ServiceError ServiceState :=
  let normalized := Normalize modules in
  _ ← intent (CsValidate.Validate normalized site);
  let normalized := SystemsExpanded normalized in
  '(dhcp, stubby) ← dns_dhcp_sections site normalized;
  let observabilityDNS :=
    match m_Observability normalized with
    | Some o => if ValidPublicDomain (os_PublicDomain o) then observabilityDNSSections (os_PublicDomain o) else []
    | None => []
    end in
  let '(ntpUpstreams, ntpServe) := ntp_settings normalized in
  observabilityFirewall ← observabilityFirewallSections site normalized;
  Ok (mkServiceState
        (dnsmasqSections site normalized ++ dhcp ++ observabilityDNS)
        stubby
        (ntpSections ntpUpstreams ntpServe)
        (serviceFirewallSections site (dns_enabled normalized) (dhcp_enabled normalized) (vpn_enabled normalized)
         ++ systemFirewallSections (m_Systems normalized)
         ++ systemHomePublicationSections site (m_Systems normalized)
         ++ mediaMonitoringFirewallSections normalized
         ++ observabilityFirewall)).

Definition ValidateServiceState (state : ServiceState) : result ServiceError unit :=
  fail_if ((0 <? length (ss_Stubby state))%nat && (length (ss_DHCP state) =? 0)%nat) StubbyNeedsDnsmasq.
End services.

(** ** Lemmas: infrastructure names *)

(** The name a DNS section publishes, and the address of a host record. *)
Definition dns_name (s : Section_) : string :=
  if sec_Type s == "hostrecord" then get (sec_Options s) "name" else get (sec_Options s) "cname".
Definition record_ips (ss : list Section_) : list string :=
  map (fun s => get (sec_Options s) "ip") (List.filter (fun s => sec_Type s == "hostrecord") ss).

Record bind_good (st : BindState) : Prop := {
  bg_names : NoDup (map dns_name (bs_sections st));
  bg_seen : ∀ n, n ∈ map dns_name (bs_sections st) ↔ is_Some (bs_seenName st !! n);
  bg_ips : NoDup (record_ips (bs_sections st));
  bg_addresses : ∀ a, a ∈ record_ips (bs_sections st) ↔ a ∈ bs_seenAddress st;
  bg_types : Forall (fun s => sec_Type s ∈ ["hostrecord"; "cname"]) (bs_sections st);
}.

Lemma record_ips_app ss s : record_ips (ss ++ [s]) =
  record_ips ss ++ (if sec_Type s == "hostrecord" then [get (sec_Options s) "ip"] else []).
Proof. unfold record_ips. rewrite List.filter_app, map_app. cbn. by case_bool_decide. Qed.

(** Publishing one more name. *)
Lemma bind_good_snoc st s ip addresses n :
  bind_good st → dns_name s = n → bs_seenName st !! n = None →
  (sec_Type s = "cname" ∧ addresses = bs_seenAddress st
   ∨ sec_Type s = "hostrecord" ∧ get (sec_Options s) "ip" = ip ∧ (ip ∉ bs_seenAddress st)
     ∧ addresses = {[ip]} ∪ bs_seenAddress st) →
  bind_good (mkBindState (bs_sections st ++ [s]) (<[n := ip]> (bs_seenName st)) addresses).
Proof.
  intros [Hn Hs Hi Ha Ht] <- Hnew Hcase. constructor; cbn [bs_sections bs_seenName bs_seenAddress].
  - rewrite map_app. apply NoDup_snoc; [done|]. rewrite Hs, Hnew. by intros [].
  - intros m. rewrite map_app. cbn [map]. rewrite elem_snoc, Hs. destruct (decide (m = dns_name s)) as [->|].
    + rewrite lookup_insert_eq. naive_solver.
    + rewrite lookup_insert_ne by done. naive_solver.
  - rewrite record_ips_app. destruct Hcase as [[-> _]|(->&->&Hip&_)]; cbn.
    + by rewrite app_nil_r.
    + apply NoDup_snoc; [done|]. by rewrite Ha.
  - intros a. rewrite record_ips_app. destruct Hcase as [[-> ->]|(->&->&Hip&->)].
    + cbn. by rewrite app_nil_r.
    + rewrite bool_decide_eq_true_2 by done. rewrite elem_snoc, Ha. set_solver.
  - apply Forall_app. split; [done|]. apply Forall_singleton. destruct Hcase as [[-> _]|(->&_)]; set_solver.
Qed.

Section binding_lemmas.
Context `{GoUnicode}.

Lemma alias_step_ok domain name ip st alias st' :
  bind_good st → alias_step domain name ip st alias = Ok st' → bind_good st'.
Proof.
  intros Hg. unfold alias_step. destruct (canonicalName alias domain) as [a|]; [|by intros [= <-]].
  case_bool_decide; [by intros [= <-]|]. destruct (bs_seenName st !! a) eqn:Ea.
  - destruct (_ != _); [done|]. by intros [= <-].
  - intros [= <-]. apply bind_good_snoc; [done|done|done|]. by left.
Qed.

Lemma binding_step_ok domain bindings st item st' :
  bind_good st → binding_step domain bindings st item = Ok st' → bind_good st'.
Proof.
  intros Hg. unfold binding_step. destruct (canonicalName (db_name item) domain) as [n|]; [|by intros [= <-]].
  destruct (bs_seenName st !! n) eqn:En.
  { destruct (_ != _); [done|]. by intros [= <-]. }
  case_bool_decide as Hip.
  { intros [= <-]. apply bind_good_snoc; [done|done|done|]. by left. }
  apply (foldM_inv _ (fun _ st => bind_good st)).
  - apply bind_good_snoc; [done|done|done|]. by right.
  - intros dn a s1 s2 Hs1 _. by apply alias_step_ok.
Qed.
End binding_lemmas.

(** ** Properties *)

(** Infrastructure names are unambiguous: in the generated DNS sections every
    name is published once, and every address has exactly one host record, that
    is, one owner of its reverse name. *)
Theorem bindingDNSSections_unique `{GoUnicode} site ss :
  bindingDNSSections site = Ok ss → NoDup (map dns_name ss) ∧ NoDup (record_ips ss).
Proof.
  unfold bindingDNSSections. intros Hb. apply bind_ok in Hb as (bs & _ & Hb).
  apply bind_ok in Hb as (st & Hst & Hb). injection Hb as <-.
  assert (bind_good st) as [? _ ? _ _]; [|done].
  revert Hst. apply (foldM_inv _ (fun _ st => bind_good st)).
  - constructor; cbn; try constructor; try (rewrite lookup_empty; intros H'; inversion H'); set_solver.
  - intros dn item s1 s2 Hs1 _. by apply binding_step_ok.
Qed.

Definition sample_site : Site :=
  let s := NewSite "i" "age1" "vm" in
  with_components s
    (s_Components s ++ map (fun c => mkComponent (c_Name c) 1 "proxmox-alias" (c_Zone c) (c_Address c) "" ["pve"] "" "" 0
       false false [] false false false true "" false "") (s_Components s)).

Lemma sample_bindings_ok :
  (ss ← @bindingDNSSections ascii_only sample_site; Ok (map dns_name ss)) = Ok
    ["lab-proxmox-01.lab.home.arpa"; "proxmox-alias.lab.home.arpa"; "infra-gateway.lab.home.arpa";
     "servers-gateway.lab.home.arpa"; "trusted-gateway.lab.home.arpa"; "sandbox-gateway.lab.home.arpa";
     "transit-gateway.lab.home.arpa"; "mgmt-gateway.lab.home.arpa"; "home-gateway.lab.home.arpa"].
Proof. by vm_compute. Qed.

Theorem bindingDNSSections_unique_witness : ∃ ss, @bindingDNSSections ascii_only sample_site = Ok ss
  ∧ NoDup (record_ips ss).
Proof.
  destruct (@bindingDNSSections ascii_only sample_site) as [ss|e] eqn:E.
  - exists ss. split; [reflexivity|]. exact (proj2 (@bindingDNSSections_unique ascii_only sample_site ss E)).
  - pose proof sample_bindings_ok as Hs. rewrite E in Hs. discriminate Hs.
Defined.

(** The reverse-name owner is only protected for infrastructure addresses: two
    user records for one address are accepted and both become host records. *)
Lemma two_owners :
  (ss ← @dnsRecordSections ascii_only (NewSite "i" "age1" "vm")
     [mkRecord "a" "A" "10.10.20.40"; mkRecord "b" "A" "10.10.20.40"];
   Ok (length (List.filter (fun ip => String.eqb ip "10.10.20.40") (record_ips ss)))) = Ok 2%nat
  ∧ @CsDns.validateDNS ascii_only (normalize_dns (mkDNS (Some true) []
      [mkRecord "a" "A" "10.10.20.40"; mkRecord "b" "A" "10.10.20.40"] [])) (NewSite "i" "age1" "vm") = Ok tt.
Proof. split; by vm_compute. Qed.
End FwServices.
