(* ===== verification/FwDesired.v ===== *)
(** * Firewall module: the desired gateway configuration
    ([internal/firewallmodule/desired.go], vpn.go, the sections of tailnet.go) *)

From S2P Require Export FwServices.

Open Scope Z_scope.

Module FwDesired.
Import Model CsConfig CsNames FwSection FwServices.

Definition zoneOrder : list ZoneType :=
  [ZoneTypeTransit; ZoneTypeInfrastructure; ZoneTypeServers; ZoneTypeTrusted; ZoneTypeSandbox; ZoneTypeManagement].

Record FwZone := mkFwZone {
  fz_Name : string; fz_Type : ZoneType; fz_VLAN : Z; fz_Subnet : string; fz_Gateway : string;
}.

Record DesiredState := mkDesired {
  ds_ManagementAddress : string; ds_ManagementNetwork : string; ds_ManagementNetmask : string;
  ds_ManagementGateway : string; ds_ControllerAddress : string;
  ds_Zones : list FwZone; ds_Network : list Section_; ds_Firewall : list Section_;
}.

(** [CompositionPolicy] of composer.go; [None] is Go's nil slice. *)
Record CompositionPolicy := mkPolicy {
  cp_ProtectedIPv4 : option (list string); cp_ControllerLABAddress : string; cp_ControllerLABMAC : string;
}.

(** [VPNProfile] of composer.go. *)
Record VPNProfile := mkProfile {
  vp_PrivateKey : string; vp_Address : string; vp_PeerPublicKey : string; vp_PresharedKey : string;
  vp_EndpointHost : string; vp_EndpointPort : Z; vp_MTU : Z; vp_PersistentKeepalive : Z;
}.

Inductive DesiredError :=
| ManagementNetworkInvalid | ManagementAddressInvalid | ManagementAddressNotHome | ManagementAddressReserved
| ManagementGatewayInvalid | ControllerAddressInvalid
| DuplicateZoneType (t : ZoneType) | ZoneMalformedSubnet (z : string) | ZoneGatewayOutside (z : string)
| SharedVLAN (previous z : string) | SharedSubnet (previous z : string) | ZoneMissing (t : ZoneType)
| ControllerLABIncomplete | ControllerLABInvalid | ControllerLABOutside | ControllerLABUnreserved
| Services (e : ServiceError).

Definition or_const (value dflt : string) : string := if value == "" then dflt else value.

(** ** Addresses *)

(** The last address of a network: host bits all ones. *)
Definition last_addr (p : Prefix) : Addr := Z.lor (p_addr (masked p)) (2 ^ (32 - p_bits p) - 1).

Definition prefixNetmask (p : Prefix) : string := addr_string (mask_bits (p_bits p) (2 ^ 32 - 1)).

Definition a4 (o0 o1 o2 o3 : Z) : Addr := addr_of o0 o1 o2 o3.

Record Management := mkManagement {
  mg_Address : string; mg_Network : string; mg_Netmask : string; mg_Gateway : string; mg_Controller : string;
}.

(** The HOME binding: the part of [DesiredFromSiteWithServices] before the zones. *)
Definition management_binding (g : Gateway) : result DesiredError Management :=
  let management := or_const (gw_ManagementAddress g) GatewayManagementAddress in
  let network := or_const (gw_ManagementNetwork g) GatewayManagementNetwork in
  let gateway := or_const (gw_ManagementGateway g) GatewayManagementGateway in
  let controller := or_const (gw_ControllerAddress g) GatewayControllerAddress in
  match parse_prefix network with
  | None => Err ManagementNetworkInvalid
  | Some prefix =>
      _ ← fail_if (prefix_string prefix != network) ManagementNetworkInvalid;
      match parse_addr management with
      | None => Err ManagementAddressInvalid
      | Some ip =>
          _ ← fail_if (addr_string ip != management) ManagementAddressInvalid;
          _ ← fail_if (negb (is_private ip) || negb (prefix_contains prefix ip)) ManagementAddressNotHome;
          _ ← fail_if ((ip =? p_addr (masked prefix)) || (ip =? last_addr prefix)
                       || (ip =? a4 192 168 4 1) || (ip =? a4 192 168 4 6) || (ip =? a4 192 168 4 5))
                ManagementAddressReserved;
          _ ← fail_if (match parse_addr gateway with
                       | Some gip => negb (prefix_contains prefix gip) || (gip =? ip)
                       | None => true
                       end) ManagementGatewayInvalid;
          _ ← fail_if (match parse_addr controller with
                       | Some cip => negb (prefix_contains prefix cip)
                       | None => true
                       end) ControllerAddressInvalid;
          Ok (mkManagement management network (prefixNetmask prefix) gateway controller)
      end
  end.

(** ** Zones *)

(** The loop's maps; [zs_byType] keeps the accepted zones. *)
Record ZoneState := mkZoneState {
  zs_byType : list Zone; zs_VLAN : gmap Z string; zs_Subnet : gmap string string;
}.

Definition zone_step (st : ZoneState) (zone : Zone) : result DesiredError ZoneState :=
  _ ← fail_if (existsb (fun z => z_Type z == z_Type zone) (zs_byType st)) (DuplicateZoneType (z_Type zone));
  match parse_prefix (z_Network zone) with
  | None => Err (ZoneMalformedSubnet (z_Name zone))
  | Some prefix =>
      _ ← fail_if (negb (p_bits prefix =? 24) || (prefix_string prefix != z_Network zone)) (ZoneMalformedSubnet (z_Name zone));
      _ ← fail_if (match parse_addr (z_Gateway zone) with
                   | Some gateway => negb (prefix_contains prefix gateway)
                   | None => true
                   end) (ZoneGatewayOutside (z_Name zone));
      match zs_VLAN st !! z_VLAN zone with
      | Some previous => Err (SharedVLAN previous (z_Name zone))
      | None =>
          match zs_Subnet st !! z_Network zone with
          | Some previous => Err (SharedSubnet previous (z_Name zone))
          | None => Ok (mkZoneState (zs_byType st ++ [zone]) (<[z_VLAN zone := z_Name zone]> (zs_VLAN st))
                          (<[z_Network zone := z_Name zone]> (zs_Subnet st)))
          end
      end
  end.

Definition required_zone (byType : list Zone) (zones : list FwZone) (typ : ZoneType) : result DesiredError (list FwZone) :=
  match List.find (fun z => z_Type z == typ) byType with
  | None => Err (ZoneMissing typ)
  | Some zone => Ok (zones ++ [mkFwZone (z_Name zone) (z_Type zone) (z_VLAN zone) (z_Network zone) (z_Gateway zone)])
  end.

Definition desired_zones (site : Site) : result DesiredError (list FwZone) :=
  st ← foldM zone_step (mkZoneState [] ∅ ∅) (n_Zones (s_Network site));
  foldM (required_zone (zs_byType st)) [] zoneOrder.

(** ** Sections *)

Definition forwarding (name src dest : string) : Section_ :=
  mkSection name "forwarding" (opts [("src", src); ("dest", dest); ("family", "ipv4")]) ∅.

Section sections.
Context `{GoUnicode}.

Definition zone_network_sections (zone : FwZone) : list Section_ :=
  let name := to_lower (fz_Name zone) in
  [mkSection ("boetticher_vlan_" +:+ name) "bridge-vlan"
     (opts [("device", "br-lab"); ("vlan", itoa (fz_VLAN zone))]) (lists [("ports", ["eth1:t"])]);
   mkSection ("boetticher_iface_" +:+ name) "interface"
     (opts [("device", "br-lab." +:+ itoa (fz_VLAN zone)); ("proto", "static"); ("ipaddr", fz_Gateway zone);
            ("netmask", "255.255.255.0"); ("delegate", "0"); ("ipv6", "0")]) ∅].

Definition networkSections (zones : list FwZone) (m : Management) : list Section_ :=
  [mkSection "boetticher_home" "interface"
     (opts [("device", "eth0"); ("proto", "static"); ("ipaddr", mg_Address m); ("netmask", mg_Netmask m);
            ("gateway", mg_Gateway m); ("delegate", "0"); ("ipv6", "0")]) ∅;
   mkSection "boetticher_lab_trunk" "device"
     (opts [("name", "br-lab"); ("type", "bridge"); ("ipv6", "0")]) (lists [("ports", ["eth1"])])]
  ++ flat_map zone_network_sections zones.

Definition zone_base_sections (zone : FwZone) : list Section_ :=
  let name := to_lower (fz_Name zone) in
  [mkSection ("boetticher_zone_" +:+ name) "zone"
     (opts [("name", name); ("input", "DROP"); ("output", "ACCEPT"); ("forward", "DROP"); ("family", "ipv4")])
     (lists [("network", ["boetticher_iface_" +:+ name])]);
   rule ("boetticher_allow_" +:+ name +:+ "_ping")
     [("name", "Boetticher " +:+ fz_Name zone +:+ " gateway ping"); ("src", name); ("proto", "icmp");
      ("icmp_type", "echo-request"); ("family", "ipv4"); ("target", "ACCEPT")]].

(** [model.TrustedRoutedDestinations()]: zone and subnet. *)
Definition TrustedRoutedDestinations : list (string * string) := [("SERVERS", "10.10.20.0/24")].

Definition zone_policy_sections (zones : list FwZone) (managementNetwork : string) (zone : FwZone) : list Section_ :=
  let name := to_lower (fz_Name zone) in
  (if fz_Type zone != ZoneTypeTransit then
     [rule ("boetticher_deny_" +:+ name +:+ "_home_management")
        [("name", "Boetticher " +:+ fz_Name zone +:+ " deny HOME management"); ("src", name);
         ("dest", "home_wan"); ("dest_ip", managementNetwork); ("family", "ipv4"); ("target", "DROP")];
      forwarding ("boetticher_forward_" +:+ name +:+ "_home_wan") name "home_wan"]
   else [])
  ++ (if fz_Type zone == ZoneTypeTrusted then
        rule "boetticher_allow_trusted_proxmox_ssh"
          [("name", "Boetticher TRUSTED Proxmox SSH"); ("src", name); ("dest", "mgmt");
           ("dest_ip", ProxmoxManagementAddress +:+ "/32"); ("proto", "tcp"); ("dest_port", "22");
           ("family", "ipv4"); ("target", "ACCEPT")]
        :: map (fun target => forwarding ("boetticher_forward_trusted_" +:+ to_lower target.1) name (to_lower target.1))
             TrustedRoutedDestinations
      else [])
  ++ (if fz_Type zone == ZoneTypeManagement then
        flat_map (fun target =>
          if fz_Type target == fz_Type zone then []
          else [forwarding ("boetticher_forward_mgmt_" +:+ to_lower (fz_Name target)) name (to_lower (fz_Name target))])
          zones
      else []).

Definition firewallSections (zones : list FwZone) (managementNetwork controllerAddress : string) : list Section_ :=
  [mkSection "boetticher_home_wan" "zone"
     (opts [("name", "home_wan"); ("input", "DROP"); ("output", "ACCEPT"); ("forward", "DROP"); ("family", "ipv4");
            ("masq", "1"); ("mtu_fix", "1")]) (lists [("network", ["boetticher_home"])])]
  ++ flat_map zone_base_sections zones
  ++ flat_map (zone_policy_sections zones managementNetwork) zones
  ++ [rule "boetticher_allow_home_api"
        [("name", "Boetticher Controller management API"); ("src", "home_wan");
         ("src_ip", controllerAddress +:+ "/32"); ("proto", "tcp"); ("dest_port", "443");
         ("family", "ipv4"); ("target", "ACCEPT")]].

(** ** The tailnet guest's rules *)

(** [strings.Split(tailnet.NonPublicIPv4, ", ")] *)
Definition NonPublicIPv4 : list string := [
  "0.0.0.0/8"; "10.0.0.0/8"; "100.64.0.0/10"; "127.0.0.0/8"; "169.254.0.0/16"; "172.16.0.0/12"; "192.0.0.0/24";
  "192.0.2.0/24"; "192.168.0.0/16"; "198.18.0.0/15"; "198.51.100.0/24"; "203.0.113.0/24"; "224.0.0.0/4"; "240.0.0.0/4"].

(** The given values override the shared ones. *)
Definition tailnet_rule (id : string) (values : list (string * string)) (ls : list (string * list string)) : Section_ :=
  mkSection ("boetticher_tailnet_" +:+ id) "rule"
    (opts values ∪ opts [("name", "Boetticher Tailnet " +:+ id); ("src", "transit");
                         ("src_ip", TailnetGuestAddress +:+ "/32"); ("src_mac", TailnetGuestMAC);
                         ("family", "ipv4"); ("target", "ACCEPT")]) (lists ls).

Definition tailnetFirewallSections (home : string) : list Section_ :=
  [tailnet_rule "deny_home" [("dest", "home_wan"); ("dest_ip", home); ("target", "DROP"); ("proto", "all")] [];
   tailnet_rule "deny_nonpublic" [("dest", "home_wan"); ("target", "DROP"); ("proto", "all")] [("dest_ip", NonPublicIPv4)];
   tailnet_rule "transport_tcp" [("dest", "home_wan"); ("proto", "tcp"); ("dest_port", "80 443")] [];
   tailnet_rule "transport_udp" [("dest", "home_wan"); ("proto", "udp")] [];
   tailnet_rule "dns" [("dest_ip", TailnetGateway); ("proto", "tcp udp"); ("dest_port", "53")] [];
   tailnet_rule "ntp" [("dest_ip", TailnetGateway); ("proto", "udp"); ("dest_port", "123")] [];
   tailnet_rule "trusted" [("dest", "trusted"); ("proto", "all")] [];
   tailnet_rule "proxmox_ssh" [("dest", "mgmt"); ("dest_ip", ProxmoxManagementAddress +:+ "/32"); ("proto", "tcp"); ("dest_port", "22")] []]
  ++ map (fun d => tailnet_rule (to_lower d.1) [("dest", to_lower d.1); ("proto", "all")] []) TrustedRoutedDestinations.

(** ** The Controller's LAB binding *)

Definition proxmox_https (mgmt : FwZone) : Section_ :=
  mkSection "boetticher_allow_trusted_proxmox_https" "rule"
    (opts [("name", "Boetticher TRUSTED Proxmox HTTPS"); ("src", "mgmt");
           ("src_ip", ProxmoxManagementAddress +:+ "/32"); ("dest_ip", fz_Gateway mgmt +:+ "/32");
           ("proto", "tcp"); ("dest_port", "443"); ("target", "ACCEPT")]) ∅.

Definition controller_ssh (ip mac : string) : Section_ :=
  mkSection "boetticher_allow_controller_lab_ssh" "rule"
    (opts [("name", "Boetticher Controller LAB SSH"); ("src", "servers"); ("src_ip", ip +:+ "/32");
           ("src_mac", to_lower mac); ("dest", "mgmt"); ("dest_ip", ProxmoxManagementAddress +:+ "/32");
           ("proto", "tcp"); ("dest_port", "22"); ("target", "ACCEPT")]) ∅.

Definition controller_reserved (services : Modules) (ip mac : string) : bool :=
  match m_DHCP services with
  | None => false
  | Some dhcp => existsb (fun r => (rv_Zone r == "SERVERS") && (rv_Address r == ip) && equal_fold (rv_MAC r) mac)
                   (h_Reservations dhcp)
  end.

(** [zones] holds the six zones in [zoneOrder]: index 2 is SERVERS and 5 is MGMT. *)
Definition policy_sections (zones : list FwZone) (services : Modules) (p : CompositionPolicy) : result DesiredError (list Section_) :=
  _ ← fail_if (negb (bool_decide (cp_ControllerLABAddress p = "" ↔ cp_ControllerLABMAC p = ""))) ControllerLABIncomplete;
  match zones !! 5%nat, zones !! 2%nat with
  | Some mgmt, Some servers =>
      if cp_ControllerLABAddress p == "" then Ok [proxmox_https mgmt]
      else match parse_to4 (cp_ControllerLABAddress p), parse_mac (cp_ControllerLABMAC p) with
           | Some ip, Some mac =>
               _ ← fail_if (negb (length mac =? 6)%nat) ControllerLABInvalid;
               _ ← fail_if (match parse_prefix (fz_Subnet servers) with
                            | Some subnet => negb (prefix_contains subnet ip)
                            | None => true
                            end) ControllerLABOutside;
               _ ← fail_if (negb (controller_reserved services (addr_string ip) (cp_ControllerLABMAC p))) ControllerLABUnreserved;
               Ok [proxmox_https mgmt; controller_ssh (addr_string ip) (cp_ControllerLABMAC p)]
           | _, _ => Err ControllerLABInvalid
           end
  | _, _ => Err ControllerLABInvalid      (* unreachable: there are six zones *)
  end.

Definition service_result {A} (r : result ServiceError A) : result DesiredError A :=
  match r with Ok a => Ok a | Err e => Err (Services e) end.

Definition DesiredFromSiteWithServices `{GoURL} (site : Site) (services : Modules) (policy : option CompositionPolicy)
    : result DesiredError DesiredState :=
  m ← management_binding (s_Gateway site);
  zones ← desired_zones site;
  policySections ← match policy with Some p => policy_sections zones services p | None => Ok [] end;
  serviceState ← service_result (ServiceStateFromModules site services);
  Ok (mkDesired (mg_Address m) (mg_Network m) (mg_Netmask m) (mg_Gateway m) (mg_Controller m) zones
        (networkSections zones m)
        (firewallSections zones (mg_Network m) (mg_Controller m) ++ policySections ++ ss_Firewall serviceState
         ++ (if Enabled (m_Tailnet services) then tailnetFirewallSections (mg_Network m) else []))).

Definition no_services : Modules := mkModules [] None None None None None None None.
Definition DesiredFromSite `{GoURL} (site : Site) : result DesiredError DesiredState :=
  DesiredFromSiteWithServices site no_services None.

(** ** The VPN's sections *)

Definition vpn_clients (modules : Modules) (vpn : VPNConfig) : list (string * string) :=
  flat_map (fun name => match ResolveReservation modules name with
                        | Some r => [(rv_Address r, to_lower (rv_Zone r))]
                        | None => []
                        end) (v_Clients vpn).

Definition vpn_client_sections (profile : VPNProfile) (index : nat) (client : string * string) : list Section_ :=
  let '(address, zone) := client in
  let i := Z.of_nat index in
  [rule ("boetticher_vpn_rule_" +:+ itoa i)
     [("src", address +:+ "/32"); ("lookup", "51820"); ("priority", itoa (10000 + i))];
   rule ("boetticher_vpn_block_" +:+ itoa i)
     [("src", address +:+ "/32"); ("action", "unreachable"); ("priority", itoa (10100 + i))];
   mkSection (nativeVPNClientMTUSectionName address) "route"
     (opts [("interface", "boetticher_iface_" +:+ zone); ("target", address); ("netmask", "255.255.255.255");
            ("mtu", itoa (vp_MTU profile))]) ∅].

Definition vpn_forward_sections (site : Site) (modules : Modules) (f : VPNForward) : list Section_ :=
  match ResolveReservation modules (f_Reservation f) with
  | None => []
  | Some r =>
      (* the last matching zone *)
      match List.find (fun z => equal_fold (z_Name z) (rv_Zone r)) (reverse (n_Zones (s_Network site))) with
      | None => []
      | Some z =>
          let zoneName := to_lower (z_Name z) in
          if zoneName == "" then []
          else [mkSection (nativeVPNForwardSectionName (f_Name f)) "redirect"
                  (opts [("name", "Boetticher VPN " +:+ f_Name f); ("src", "vpn"); ("dest", zoneName);
                         ("dest_ip", rv_Address r); ("src_dport", itoa (f_Port f)); ("dest_port", itoa (f_Port f));
                         ("target", "DNAT"); ("family", "ipv4"); ("reflection", "0")])
                  (lists [("proto", f_Protocols f)])]
      end
  end.

(** [vpn] is [modules.VPN], which every caller has checked to be present. *)
Definition vpnSections (site : Site) (modules : Modules) (vpn : VPNConfig) (profile : VPNProfile)
    : list Section_ * list Section_ :=
  let clients := vpn_clients modules vpn in
  let network :=
    [mkSection "airvpn" "interface"
       (opts [("proto", "wireguard"); ("private_key", vp_PrivateKey profile); ("fwmark", "51820");
              ("mtu", itoa (vp_MTU profile)); ("force_link", "1"); ("ipv6", "0"); ("delegate", "0")])
       (lists [("addresses", [vp_Address profile])]);
     mkSection "boetticher_vpn_peer" "wireguard_airvpn"
       (opts [("public_key", vp_PeerPublicKey profile); ("preshared_key", vp_PresharedKey profile);
              ("endpoint_host", vp_EndpointHost profile); ("endpoint_port", itoa (vp_EndpointPort profile));
              ("persistent_keepalive", itoa (vp_PersistentKeepalive profile)); ("route_allowed_ips", "0")])
       (lists [("allowed_ips", ["0.0.0.0/0"])]);
     mkSection "boetticher_vpn_default" "route"
       (opts [("interface", "airvpn"); ("target", "0.0.0.0"); ("netmask", "0.0.0.0"); ("table", "51820")]) ∅]
    ++ map (fun zone =>
         let name := to_lower (z_Name zone) in
         mkSection ("boetticher_vpn_lab_" +:+ name) "route"
           (opts [("interface", "boetticher_iface_" +:+ name);
                  ("target", default "" (head (split (z_Network zone) "/"))); ("netmask", "255.255.255.0");
                  ("table", "51820")]) ∅) (n_Zones (s_Network site))
    ++ concat (imap (vpn_client_sections profile) clients) in
  let firewall :=
    [mkSection "boetticher_zone_vpn" "zone"
       (opts [("name", "vpn"); ("input", "DROP"); ("output", "ACCEPT"); ("forward", "DROP"); ("family", "ipv4");
              ("masq", "1"); ("mtu_fix", "1")]) (lists [("network", ["airvpn"])])]
    ++ flat_map (fun zone =>
         let name := to_lower (z_Name zone) in
         if (z_Type zone == ZoneTypeTransit) || (z_Type zone == ZoneTypeManagement) then []
         else [forwarding ("boetticher_forward_" +:+ name +:+ "_vpn") name "vpn"]) (n_Zones (s_Network site))
    ++ flat_map (vpn_forward_sections site modules) (v_Forwards vpn) in
  (network, firewall).

Definition DesiredFromSiteWithServicesAndVPN `{GoURL} (site : Site) (services : Modules) (profile : VPNProfile)
    (policy : option CompositionPolicy) : result DesiredError DesiredState :=
  state ← DesiredFromSiteWithServices site services policy;
  match m_VPN services with
  | Some vpn =>
      if Enabled (v_Enabled vpn) then
        let '(network, firewall) := vpnSections site services vpn profile in
        Ok (mkDesired (ds_ManagementAddress state) (ds_ManagementNetwork state) (ds_ManagementNetmask state)
              (ds_ManagementGateway state) (ds_ControllerAddress state) (ds_Zones state)
              (ds_Network state ++ network) (ds_Firewall state ++ firewall))
      else Ok state
  | None => Ok state
  end.
End sections.

(** ** Lemmas *)

Lemma management_ok g m : management_binding g = Ok m →
  ∃ p ip gw ctl, parse_prefix (mg_Network m) = Some p ∧ parse_addr (mg_Address m) = Some ip
    ∧ parse_addr (mg_Gateway m) = Some gw ∧ parse_addr (mg_Controller m) = Some ctl
    ∧ is_private ip = true ∧ prefix_contains p ip = true
    ∧ ip ≠ p_addr (masked p) ∧ ip ≠ last_addr p ∧ ip ≠ a4 192 168 4 1 ∧ ip ≠ a4 192 168 4 6 ∧ ip ≠ a4 192 168 4 5
    ∧ prefix_contains p gw = true ∧ gw ≠ ip ∧ prefix_contains p ctl = true
    ∧ mg_Netmask m = prefixNetmask p.
Proof.
  unfold management_binding. intros Hm.
  destruct (parse_prefix _) as [p|] eqn:Ep; [|done]. inv_ok.
  destruct (parse_addr (or_const (gw_ManagementAddress g) _)) as [ip|] eqn:Eip; [|done]. inv_ok.
  destruct (parse_addr (or_const (gw_ManagementGateway g) _)) as [gw|] eqn:Egw; [|done].
  destruct (parse_addr (or_const (gw_ControllerAddress g) _)) as [ctl|] eqn:Ectl; [|done]. bools.
  exists p, ip, gw, ctl. split_and!; done.
Qed.

Lemma management_network g m : management_binding g = Ok m → mg_Network m = or_const (gw_ManagementNetwork g) GatewayManagementNetwork.
Proof.
  unfold management_binding. intros Hm. destruct (parse_prefix _) as [p|]; [|done]. apply bind_ok in Hm as ([] & _ & Hm).
  destruct (parse_addr _) as [ip|]; [|done]. do 4 apply bind_ok in Hm as ([] & _ & Hm). by apply bind_ok in Hm as ([] & _ & [= <-]).
Qed.

Record zones_good (zs : list Zone) (st : ZoneState) : Prop := {
  zg_all : zs_byType st = zs;
  zg_types : NoDup (map z_Type zs);
  zg_vlans : NoDup (map z_VLAN zs);
  zg_subnets : NoDup (map z_Network zs);
  zg_each : Forall (fun z => ∃ p gw, parse_prefix (z_Network z) = Some p ∧ p_bits p = 24
              ∧ parse_addr (z_Gateway z) = Some gw ∧ prefix_contains p gw = true) zs;
  zg_vlan_dom : ∀ v, is_Some (zs_VLAN st !! v) ↔ v ∈ map z_VLAN zs;
  zg_subnet_dom : ∀ n, is_Some (zs_Subnet st !! n) ↔ n ∈ map z_Network zs;
}.

Lemma seen_map_snoc {K V A} `{Countable K} (f : A → K) (v : V) (m : gmap K V) dn x :
  (∀ k, is_Some (m !! k) ↔ k ∈ map f dn) → ∀ k, is_Some (<[f x := v]> m !! k) ↔ k ∈ map f (dn ++ [x]).
Proof.
  intros Hm k. rewrite map_app. cbn [map]. rewrite elem_snoc, <- Hm. destruct (decide (k = f x)) as [->|].
  - rewrite lookup_insert_eq. naive_solver.
  - rewrite lookup_insert_ne by done. naive_solver.
Qed.

Lemma zones_ok zs st : foldM zone_step (mkZoneState [] ∅ ∅) zs = Ok st → zones_good zs st.
Proof.
  apply foldM_inv.
  { constructor; try constructor; cbn; try set_solver; rewrite lookup_empty; by intros []. }
  intros dn z s1 s2 [Ha Ht Hv Hs He Hvd Hsd] _ Hf. unfold zone_step in Hf. inv_ok.
  destruct (parse_prefix (z_Network z)) as [p|] eqn:Ep; [|done]. inv_ok.
  destruct (parse_addr (z_Gateway z)) as [gw|] eqn:Egw; [|done].
  destruct (zs_VLAN s1 !! z_VLAN z) eqn:Ev; [done|]. destruct (zs_Subnet s1 !! z_Network z) eqn:Es; [done|].
  inv_ok. bools. constructor; cbn; rewrite ?map_app; try done.
  - apply NoDup_snoc; [done|]. intros (z'&Ez&Hz)%list_elem_of_fmap.
    apply existsb_false in E. rewrite Forall_forall in E. specialize (E z' Hz). by bools.
  - apply NoDup_snoc; [done|]. rewrite <- Hvd, Ev. by intros [].
  - apply NoDup_snoc; [done|]. rewrite <- Hsd, Es. by intros [].
  - apply Forall_app. split; [done|]. apply Forall_singleton. by exists p, gw.
  - intros v. rewrite <- (map_app z_VLAN _ [z]). by apply seen_map_snoc.
  - intros n. rewrite <- (map_app z_Network _ [z]). by apply seen_map_snoc.
Qed.

Definition fw_zone (z : Zone) : FwZone := mkFwZone (z_Name z) (z_Type z) (z_VLAN z) (z_Network z) (z_Gateway z).

Lemma required_ok byType types acc zones : foldM (required_zone byType) acc types = Ok zones →
  ∃ zs, zones = acc ++ map fw_zone zs ∧ map z_Type zs = types ∧ Forall (fun z => z ∈ byType) zs.
Proof.
  revert acc. induction types as [|t types IH]; intros acc; cbn.
  { intros [= ->]. exists []. by rewrite app_nil_r. }
  intros (zones1 & Hz & Hrest)%bind_ok. unfold required_zone in Hz.
  destruct (List.find _ byType) as [z|] eqn:Ef; [|done]. injection Hz as <-.
  apply List.find_some in Ef as [Hin Ht]. bools.
  apply IH in Hrest as (zs&->&<-&Hall). exists (z :: zs).
  rewrite <- app_assoc. split_and!; [done|by cbn; rewrite Ht|].
  constructor; [by apply list_elem_of_In|done].
Qed.

(** The six zones of the gateway, in order, each from the site's zones. *)
Lemma desired_zones_ok site zones : desired_zones site = Ok zones →
  ∃ zs, zones = map fw_zone zs ∧ map z_Type zs = zoneOrder
    ∧ Forall (fun z => z ∈ n_Zones (s_Network site)) zs
    ∧ ∃ st, zones_good (n_Zones (s_Network site)) st.
Proof.
  unfold desired_zones. intros Hd. inv_ok. apply zones_ok in E.
  apply required_ok in Hd as (zs&->&?&Hall). rewrite (zg_all _ _ E) in Hall. exists zs. eauto.
Qed.

(** Forwarding allowed between zones: everything but TRANSIT to HOME, TRUSTED to
    SERVERS, and MGMT to every zone. *)
Definition forward_allowed `{GoUnicode} (zones : list FwZone) (src dest : string) : Prop :=
  ∃ z, z ∈ zones ∧ src = to_lower (fz_Name z)
    ∧ (fz_Type z ≠ ZoneTypeTransit ∧ dest = "home_wan"
       ∨ fz_Type z = ZoneTypeTrusted ∧ dest = to_lower "SERVERS"
       ∨ fz_Type z = ZoneTypeManagement ∧ ∃ z', z' ∈ zones ∧ fz_Type z' ≠ ZoneTypeManagement ∧ dest = to_lower (fz_Name z')).

(** What a firewall section speaks of: where traffic comes from (zone, addresses,
    hardware address), where it goes (zone, addresses; no zone is the gateway
    itself) and what it is (protocol, ports, ICMP type). *)
Definition source_of (s : Section_) : string * string * string :=
  (get (sec_Options s) "src", get (sec_Options s) "src_ip", get (sec_Options s) "src_mac").
Definition target_of (s : Section_) : string * string := (get (sec_Options s) "dest", get (sec_Options s) "dest_ip").
Definition kind_of (s : Section_) : string * string * string :=
  (get (sec_Options s) "proto", get (sec_Options s) "dest_port", get (sec_Options s) "icmp_type").

(** What every zone may ask of the gateway: ping, DHCP, DNS and NTP. *)
Definition gateway_services : list (string * string * string) := [
  ("icmp", "", "echo-request"); ("udp", "67", ""); ("tcp", "53", ""); ("udp", "53", ""); ("udp", "123", "")].

(** What the tailnet's guest may reach. *)
Definition tailnet_targets : list (string * string * (string * string * string)) := [
  ("home_wan", "", ("tcp", "80 443", "")); ("home_wan", "", ("udp", "", ""));
  ("", "10.10.5.1", ("tcp udp", "53", "")); ("", "10.10.5.1", ("udp", "123", ""));
  ("trusted", "", ("all", "", "")); ("servers", "", ("all", "", ""));
  ("mgmt", "10.10.99.5/32", ("tcp", "22", ""))].

(** The readings of the observability runtime and the ways to its pages. *)
Definition observability_flows (controller host runtime trusted : string)
    : list (string * string * string * (string * string) * string) := [
  ("infra", runtime, "", ("servers", controller), "9100"); ("infra", runtime, "", ("servers", controller), "8090");
  ("infra", runtime, "", ("mgmt", host), "9100");
  ("servers", controller, "", ("infra", runtime), "443"); ("mgmt", host, "", ("infra", runtime), "443");
  ("infra", runtime, "", ("infra", runtime), "443"); ("trusted", trusted, "", ("infra", runtime), "443")].

(** Everything an accepting rule may be. *)
Inductive admitted `{GoUnicode} (site : Site) (services : Modules) (policy : option CompositionPolicy) (controller : string)
    (zones : list FwZone) (s : Section_) : Prop :=
| admitted_gateway z :
    z ∈ n_Zones (s_Network site) → source_of s = (to_lower (z_Name z), "", "") → target_of s = ("", "") →
    kind_of s ∈ gateway_services → admitted site services policy controller zones s
| admitted_api :
    source_of s = ("home_wan", host_prefix controller, "") → target_of s = ("", "") → kind_of s = ("tcp", "443", "") →
    admitted site services policy controller zones s
| admitted_trusted_ssh z :
    z ∈ zones → fz_Type z = ZoneTypeTrusted → source_of s = (to_lower (fz_Name z), "", "") →
    target_of s = ("mgmt", "10.10.99.5/32") → kind_of s = ("tcp", "22", "") → admitted site services policy controller zones s
| admitted_host_https p mgmt :
    policy = Some p → zones !! 5%nat = Some mgmt → source_of s = ("mgmt", "10.10.99.5/32", "") →
    target_of s = ("", host_prefix (fz_Gateway mgmt)) → kind_of s = ("tcp", "443", "") →
    admitted site services policy controller zones s
| admitted_controller_ssh p ip :
    policy = Some p → parse_to4 (cp_ControllerLABAddress p) = Some ip →
    controller_reserved services (addr_string ip) (cp_ControllerLABMAC p) = true →
    source_of s = ("servers", host_prefix (addr_string ip), to_lower (cp_ControllerLABMAC p)) →
    target_of s = ("mgmt", "10.10.99.5/32") → kind_of s = ("tcp", "22", "") → admitted site services policy controller zones s
| admitted_tailnet :
    Enabled (m_Tailnet services) = true → source_of s = ("transit", "10.10.5.10/32", TailnetGuestMAC) →
    (target_of s, kind_of s) ∈ tailnet_targets → admitted site services policy controller zones s
| admitted_system system :
    system ∈ m_Systems (SystemsExpanded (Normalize services)) →
    source_of s = ("trusted", "", "") ∨ sy_Monitoring system = true ∧ source_of s = ("infra", "10.10.10.20", "") →
    target_of s = ("servers", sy_Address system) → kind_of s = ("tcp", itoa (sy_Port system), "") →
    admitted site services policy controller zones s
| admitted_media media :
    m_Media (SystemsExpanded (Normalize services)) = Some media → md_Enabled media = true →
    source_of s = ("infra", "10.10.10.20/32", "") → target_of s = ("servers", "10.10.20.230/32") →
    kind_of s = ("tcp", "9110", "") → admitted site services policy controller zones s
| admitted_observability o trusted port :
    m_Observability (SystemsExpanded (Normalize services)) = Some o → Enabled (os_Enabled o) = true →
    let b := os_Collection o in
    Forall (fun role => role_check site role = Ok tt)
      [("controller", ob_Controller b, "SERVERS"); ("proxmox host", ob_ProxmoxHost b, "MGMT"); ("runtime", ob_Runtime b, "INFRA")] →
    zoneByName site "TRUSTED" = Some trusted →
    (source_of s, target_of s, port) ∈ observability_flows (host_prefix (ob_Controller b)) (host_prefix (ob_ProxmoxHost b))
                                         (host_prefix (ob_Runtime b)) (z_Network trusted) →
    kind_of s = ("tcp", port, "") → admitted site services policy controller zones s
| admitted_tailnet_pages o :
    m_Observability (SystemsExpanded (Normalize services)) = Some o → Enabled (os_Enabled o) = true →
    Enabled (m_Tailnet (SystemsExpanded (Normalize services))) = true →
    hasExactTailnetReservation (SystemsExpanded (Normalize services)) = true →
    source_of s = ("transit", "10.10.5.10/32", TailnetGuestMAC) →
    target_of s = ("infra", host_prefix (ob_Runtime (os_Collection o))) → kind_of s = ("tcp", "443", "") →
    admitted site services policy controller zones s.

(** Everything a section of the firewall may be. *)
Inductive section_safe `{GoUnicode} (site : Site) (services : Modules) (policy : option CompositionPolicy) (home controller : string)
    (zones : list FwZone) (s : Section_) : Prop :=
| safe_zone : sec_Type s = "zone" → get (sec_Options s) "input" = "DROP" → get (sec_Options s) "forward" = "DROP" →
    section_safe site services policy home controller zones s
| safe_forwarding : sec_Type s = "forwarding" →
    forward_allowed zones (get (sec_Options s) "src") (get (sec_Options s) "dest") →
    section_safe site services policy home controller zones s
| safe_drop : sec_Type s = "rule" → get (sec_Options s) "target" = "DROP" →
    section_safe site services policy home controller zones s
| safe_accept : sec_Type s = "rule" → get (sec_Options s) "target" = "ACCEPT" → sec_Lists s = ∅ →
    admitted site services policy controller zones s → section_safe site services policy home controller zones s
| safe_publication system : sec_Type s = "redirect" → get (sec_Options s) "target" = "DNAT" →
    system ∈ m_Systems (SystemsExpanded (Normalize services)) → sy_HomePort system ≠ 0 →
    source_of s = ("home_wan", home, "") → target_of s = ("servers", sy_Address system) →
    get (sec_Options s) "src_dport" = itoa (sy_HomePort system) → get (sec_Options s) "dest_port" = itoa (sy_Port system) →
    getl (sec_Lists s) "proto" = ["tcp"] → section_safe site services policy home controller zones s.

(** The zones carry the names of the contract. *)
Definition zone_label (t : ZoneType) : string :=
  match t with
  | ZoneTypeTransit => "transit" | ZoneTypeInfrastructure => "infra" | ZoneTypeServers => "servers"
  | ZoneTypeTrusted => "trusted" | ZoneTypeSandbox => "sandbox" | ZoneTypeManagement => "mgmt" | ZoneTypeOther s => s
  end.
Definition named_by_type `{GoUnicode} (zones : list FwZone) : Prop :=
  Forall (fun z => to_lower (fz_Name z) = zone_label (fz_Type z)) zones.

(** What a section lets through from SANDBOX and into MGMT. *)
Definition contained (s : Section_) : Prop :=
  get (sec_Options s) "target" ≠ "DROP" → sec_Type s ≠ "zone" →
  ((source_of s).1.1 = "sandbox" → (target_of s).1 ∈ [""; "home_wan"])
  ∧ ((target_of s).1 = "mgmt" →
      sec_Type s = "rule" ∧
      ((source_of s).1.1 ∈ ["trusted"; "transit"; "servers"] ∧ (target_of s).2 = "10.10.99.5/32" ∧ kind_of s = ("tcp", "22", "")
       ∨ (source_of s).1.1 = "infra" ∧ kind_of s = ("tcp", "9100", ""))).

Section safe_lemmas.
Context `{GoUnicode} (site : Site) (services : Modules) (policy : option CompositionPolicy) (home controller : string)
  (zones : list FwZone).
Notation safe := (section_safe site services policy home controller zones).
Notation expanded := (SystemsExpanded (Normalize services)).

Lemma gateway_rule_safe z s : z ∈ n_Zones (s_Network site) → sec_Type s = "rule" → get (sec_Options s) "target" = "ACCEPT" →
  sec_Lists s = ∅ → source_of s = (to_lower (z_Name z), "", "") → target_of s = ("", "") → kind_of s ∈ gateway_services → safe s.
Proof. intros. apply safe_accept; [done..|]. by eapply admitted_gateway. Qed.

(** Rules of a zone: those without a destination zone are for the gateway, the
    others drop. *)
Lemma zone_service_rules_safe d h v z : z ∈ n_Zones (s_Network site) → Forall safe (zone_service_rules d h v z).
Proof.
  intros Hz. unfold zone_service_rules, external_dns_rules. destruct d, h, v; cbn;
    repeat first [apply Forall_nil_2 | apply Forall_cons_2; [first [by apply safe_drop
      | apply (gateway_rule_safe z); [done..|]; unfold gateway_services; set_solver]|]].
Qed.

Lemma system_rules_safe system : system ∈ m_Systems expanded → Forall safe (system_rules system).
Proof.
  intros Hs. unfold system_rules. destruct (sy_Monitoring system) eqn:Em; repeat apply Forall_cons_2; try apply Forall_nil_2;
    (apply safe_accept; [done..|]; apply (admitted_system _ _ _ _ _ _ system); [done| |done..]).
  - by left.
  - by right.
  - by left.
Qed.

Lemma home_publication_safe system : system ∈ m_Systems expanded → Forall safe (home_publication home system).
Proof.
  intros Hs. unfold home_publication. destruct (Z.eqb_spec (sy_HomePort system) 0); [constructor|].
  apply Forall_singleton. by apply (safe_publication _ _ _ _ _ _ _ system).
Qed.

Lemma media_safe : Forall safe (mediaMonitoringFirewallSections expanded).
Proof.
  unfold mediaMonitoringFirewallSections. destruct (m_Media _) as [md|] eqn:Em; [|constructor].
  destruct (md_Enabled md) eqn:Ee; cbn; [|constructor]. destruct (CsValidate.observability_enabled _); [|constructor].
  apply Forall_singleton, safe_accept; [done..|]. by apply (admitted_media _ _ _ _ _ _ md).
Qed.

Lemma observability_safe l : observabilityFirewallSections site expanded = Ok l → Forall safe l.
Proof.
  unfold observabilityFirewallSections. intros Hobs. destruct (m_Observability _) as [o|] eqn:Eo; [|injection Hobs as <-; constructor].
  destruct (Enabled (os_Enabled o)) eqn:Ee; cbn [negb] in Hobs; [|injection Hobs as <-; constructor].
  apply bind_ok in Hobs as ([] & _ & Hobs). apply bind_ok in Hobs as ([] & Hroles%eachM_ok & Hobs).
  destruct (zoneByName site "TRUSTED") as [trusted|] eqn:Et; [|done].
  assert (∀ s port, sec_Type s = "rule" → get (sec_Options s) "target" = "ACCEPT" → sec_Lists s = ∅ →
    (source_of s, target_of s, port) ∈ observability_flows (host_prefix (ob_Controller (os_Collection o)))
      (host_prefix (ob_ProxmoxHost (os_Collection o))) (host_prefix (ob_Runtime (os_Collection o))) (z_Network trusted) →
    kind_of s = ("tcp", port, "") → safe s) as Hflow.
  { intros s port ? ? ? Hin Hk. apply safe_accept; [done..|]. exact (admitted_observability _ _ _ _ _ _ o trusted port Eo Ee Hroles Et Hin Hk). }
  match type of Hobs with context [if _ then Ok (?l ++ _) else _] => assert (Forall safe l) as Hsafe end.
  { repeat apply Forall_cons_2; [| | |..|apply Forall_nil_2];
      [apply (Hflow _ "9100")|apply (Hflow _ "8090")|apply (Hflow _ "9100")|apply (Hflow _ "443")..]; try done;
      unfold observability_flows; repeat first [by apply list_elem_of_here|apply list_elem_of_further]. }
  destruct (Enabled (m_Tailnet _)) eqn:En; [|by injection Hobs as <-].
  destruct (hasExactTailnetReservation _) eqn:Er; [|by injection Hobs as <-].
  injection Hobs as <-. refine (Forall_app_2 _ _ _ Hsafe _). apply Forall_singleton, safe_accept; [done..|].
  by apply (admitted_tailnet_pages _ _ _ _ _ _ o).
Qed.

Lemma service_firewall_safe `{GoURL} st : home = or_const (gw_ManagementNetwork (s_Gateway site)) GatewayManagementNetwork →
  ServiceStateFromModules site services = Ok st → Forall safe (ss_Firewall st).
Proof.
  intros Hh Hs. unfold ServiceStateFromModules in Hs. apply bind_ok in Hs as ([] & _ & Hs).
  apply bind_ok in Hs as ([dhcp stubby] & _ & Hs). destruct (ntp_settings _). apply bind_ok in Hs as (obs & Hobs & Hs).
  injection Hs as <-. cbn [ss_Firewall]. rewrite !Forall_app. split_and!.
  - unfold serviceFirewallSections. destruct (_ && _); [constructor|]. apply Forall_flat_map_2. intros z. apply zone_service_rules_safe.
  - apply Forall_flat_map_2. intros s. apply system_rules_safe.
  - unfold systemHomePublicationSections. unfold or_const in Hh. rewrite <- Hh. apply Forall_flat_map_2. intros s. apply home_publication_safe.
  - apply media_safe.
  - by apply observability_safe.
Qed.

Lemma policy_safe p l : policy = Some p → policy_sections zones services p = Ok l → Forall safe l.
Proof.
  unfold policy_sections. intros Hp Hl. apply bind_ok in Hl as ([] & _ & Hl).
  destruct (zones !! 5%nat) as [mgmt|] eqn:E5; [|done]. destruct (zones !! 2%nat); [|done].
  assert (safe (proxmox_https mgmt)) as Hs by (apply safe_accept; [done..|]; by apply (admitted_host_https _ _ _ _ _ _ p mgmt)).
  destruct (cp_ControllerLABAddress p == ""); [injection Hl as <-; by apply Forall_singleton|].
  destruct (parse_to4 _) as [ip|] eqn:Eip; [|done]. destruct (parse_mac _); [|done].
  apply bind_ok in Hl as ([] & _ & Hl). apply bind_ok in Hl as ([] & _ & Hl). apply bind_ok in Hl as ([] & Hr%fail_if_ok & [= <-]).
  apply negb_false_iff in Hr. apply Forall_cons_2; [done|]. apply Forall_singleton, safe_accept; [done..|].
  by apply (admitted_controller_ssh _ _ _ _ _ _ p ip).
Qed.

Lemma tailnet_safe : Enabled (m_Tailnet services) = true → Forall safe (tailnetFirewallSections home).
Proof.
  intros He. assert (∀ s, sec_Type s = "rule" → get (sec_Options s) "target" = "ACCEPT" → sec_Lists s = ∅ →
    source_of s = ("transit", "10.10.5.10/32", TailnetGuestMAC) → (target_of s, kind_of s) ∈ tailnet_targets → safe s) as Hs.
  { intros. apply safe_accept; [done..|]. by apply admitted_tailnet. }
  unfold tailnetFirewallSections. cbn [app map TrustedRoutedDestinations].
  do 2 (apply Forall_cons_2; [by apply safe_drop|]).
  repeat apply Forall_cons_2; try apply Forall_nil_2; (apply Hs; [done..|]);
    unfold tailnet_targets; repeat first [by apply list_elem_of_here|apply list_elem_of_further].
Qed.

Lemma zone_policy_safe z : z ∈ zones → Forall safe (zone_policy_sections zones home z).
Proof.
  intros Hz. assert (∀ name dest, forward_allowed zones (to_lower (fz_Name z)) dest → safe (forwarding name (to_lower (fz_Name z)) dest)) as Hf
    by (intros; by apply safe_forwarding).
  unfold zone_policy_sections. rewrite !Forall_app. split_and!.
  - case_bool_decide; cbn [negb]; [constructor|]. apply Forall_cons_2; [by apply safe_drop|]. apply Forall_singleton, Hf.
    exists z. split_and!; [done..|]. by left.
  - case_bool_decide; [|constructor]. apply Forall_cons_2.
    + apply safe_accept; [done..|]. by apply (admitted_trusted_ssh _ _ _ _ _ _ z).
    + apply Forall_singleton, Hf. exists z. split_and!; [done..|]. right. by left.
  - case_bool_decide as Hm; [|constructor]. apply Forall_flat_map_2. intros z' Hz'.
    case_bool_decide; [constructor|]. apply Forall_singleton, Hf. exists z. split_and!; [done..|]. do 2 right. split; [done|].
    exists z'. rewrite <- Hm. done.
Qed.

Lemma firewall_base_safe : (∀ z, z ∈ zones → ∃ z0, z0 ∈ n_Zones (s_Network site) ∧ fz_Name z = z_Name z0) →
  Forall safe (firewallSections zones home controller).
Proof.
  intros Hz. unfold firewallSections. rewrite !Forall_app. split_and!.
  - apply Forall_singleton. by apply safe_zone.
  - apply Forall_flat_map_2. intros z (z0&Hz0&E)%Hz. unfold zone_base_sections. rewrite E.
    apply Forall_cons_2; [by apply safe_zone|]. apply Forall_singleton, (gateway_rule_safe z0); [done..|]. unfold gateway_services. set_solver.
  - apply Forall_flat_map_2, zone_policy_safe.
  - apply Forall_singleton, safe_accept; [done..|]. by apply admitted_api.
Qed.
End safe_lemmas.

(** From the cases to the zones that matter: on the names of the contract nothing
    leads from SANDBOX but to the gateway and HOME, and into MGMT only
    administration of the host and its exporter. *)
Lemma forward_contained `{GoUnicode} zones src dest : named_by_type zones → map fz_Type zones = zoneOrder →
  forward_allowed zones src dest → (src = "sandbox" → dest = "home_wan") ∧ dest ≠ "mgmt".
Proof.
  intros Hn Ht (z&Hz&->&Hd). unfold named_by_type in Hn. rewrite Forall_forall in Hn.
  assert (∀ z', z' ∈ zones → fz_Type z' ∈ zoneOrder) as Hin by (intros; rewrite <- Ht; by apply list_elem_of_fmap_2).
  rewrite (Hn z Hz). destruct Hd as [[_ ->]|[[Et ->]|[Et (z'&Hz'&Hne&->)]]]; [done|rewrite Et; by vm_compute|].
  rewrite Et, (Hn z' Hz'). split; [done|]. specialize (Hin z' Hz'). unfold zoneOrder in Hin. rewrite !elem_of_cons in Hin.
  by destruct Hin as [->|[->|[->|[->|[->|[E|?%elem_of_nil]]]]]].
Qed.

Lemma admitted_contained `{GoUnicode} site services policy controller zones s :
  named_by_type zones → map fz_Type zones = zoneOrder → sec_Type s = "rule" → admitted site services policy controller zones s → contained s.
Proof.
  intros Hn Ht Hty Ha _ _. unfold named_by_type in Hn. rewrite Forall_forall in Hn. rewrite Hty.
  destruct Ha as [z _ -> -> _ | -> -> _ | z Hz Et -> -> ->|p mgmt _ _ -> -> _|p ip _ _ _ -> -> ->|_ -> Hin|system _ [->|[_ ->]] -> _
    |media _ _ -> -> _|o trusted port _ _ b _ _ Hin ->|o _ _ _ _ -> -> _]; cbn [fst snd]; try (by split).
  - split; [by left|done].
  - rewrite (Hn z Hz), Et. split; [done|]. intros _. split; [done|]. left. split_and!; [by left|done..].
  - split; [done|]. intros _. split; [done|]. left. split_and!; [by do 2 right; left|done..].
  - split; [done|]. intros Hm. split; [done|]. left. revert Hm Hin. generalize (target_of s) (kind_of s). intros [dest ip] kind. cbn [fst snd].
    unfold tailnet_targets. rewrite !elem_of_cons. intros -> [E|[E|[E|[E|[E|[E|[E|?%elem_of_nil]]]]]]]; try done.
    injection E as -> ->. split_and!; [by right; left|done..].
  - revert Hin. generalize (source_of s) (target_of s). intros src dest. unfold observability_flows. rewrite !elem_of_cons.
    intros [E|[E|[E|[E|[E|[E|[E|?%elem_of_nil]]]]]]]; [..|done]; injection E as -> -> ->; cbn [fst snd]; try (by split).
    split; [done|]. intros _. split; [done|]. by right.
Qed.

Lemma safe_contained `{GoUnicode} site services policy home controller zones s :
  named_by_type zones → map fz_Type zones = zoneOrder → section_safe site services policy home controller zones s → contained s.
Proof.
  intros Hn Ht [Hty _ _|Hty Hf|_ Hd|Hty _ _ Ha|system Hty _ _ _ Es Et _ _ _].
  - intros _ Hz. done.
  - intros _ _. destruct (forward_contained _ _ _ Hn Ht Hf) as [Hs Hm]. split; [|intros E; by contradict Hm].
    intros E. cbn in E |- *. rewrite Hs by done. by right; left.
  - by intros ?.
  - by eapply admitted_contained.
  - intros _ _. rewrite Es, Et. by split.
Qed.

(** ** Properties *)

(** A gateway configuration is only composed for a sound HOME binding: a
    private management address inside the HOME network that is neither the
    network nor the broadcast address nor one of the reserved bindings, a
    distinct gateway and a Controller in the same network. *)
Theorem DesiredFromSiteWithServices_management `{GoUnicode, GoURL} site services policy d :
  DesiredFromSiteWithServices site services policy = Ok d →
  ∃ p ip gw ctl, parse_prefix (ds_ManagementNetwork d) = Some p ∧ parse_addr (ds_ManagementAddress d) = Some ip
    ∧ parse_addr (ds_ManagementGateway d) = Some gw ∧ parse_addr (ds_ControllerAddress d) = Some ctl
    ∧ is_private ip = true ∧ prefix_contains p ip = true
    ∧ ip ≠ p_addr (masked p) ∧ ip ≠ last_addr p
    ∧ (∀ reserved, reserved ∈ ["192.168.4.1"; "192.168.4.5"; "192.168.4.6"] → ds_ManagementAddress d ≠ reserved)
    ∧ prefix_contains p gw = true ∧ gw ≠ ip ∧ prefix_contains p ctl = true.
Proof.
  unfold DesiredFromSiteWithServices. intros Hd. apply bind_ok in Hd as (m & Hm%management_ok & Hd). inv_ok.
  destruct Hm as (p&ip&gw&ctl&Ep&Eip&Egw&Ectl&?&?&?&?&N1&N6&N5&?&?&?&_). cbn.
  exists p, ip, gw, ctl. split_and!; try done.
  intros reserved Hr Er. rewrite Er in Eip. set_unfold. destruct Hr as [->|[->|[->|[]]]];
    vm_compute in Eip; injection Eip as <-; [by apply N1|by apply N5|by apply N6].
Qed.

(** C31. The gateway denies by default and forwards only along the reference
    matrix: it has the six reference zones in order, from site zones with
    pairwise distinct types, VLANs and subnets and a gateway inside each /24; and
    every section of its firewall is of a kind [section_safe] lists.  It is a zone
    that drops input and forwarded traffic; a forwarding from a zone other than
    TRANSIT to HOME, from TRUSTED to SERVERS, or from MGMT to another zone; a rule
    that drops; a rule that accepts one of the flows [admitted] spells out with its
    zones, addresses, protocol and port; or the publication of a declared system's
    one port to HOME.  So, where the zones carry the names of the contract, nothing
    leads from SANDBOX but to the gateway itself and to HOME, and into MGMT lead
    only SSH to the Proxmox host from TRUSTED, the tailnet's guest and the
    Controller, and the runtime's reading of the host's exporter. *)
Theorem DesiredFromSiteWithServices_isolated `{GoUnicode, GoURL} site services policy d :
  DesiredFromSiteWithServices site services policy = Ok d →
  map fz_Type (ds_Zones d) = zoneOrder
  ∧ (NoDup (map z_Type (n_Zones (s_Network site))) ∧ NoDup (map z_VLAN (n_Zones (s_Network site)))
     ∧ NoDup (map z_Network (n_Zones (s_Network site))))
  ∧ Forall (fun z => ∃ p gw, parse_prefix (fz_Subnet z) = Some p ∧ p_bits p = 24
              ∧ parse_addr (fz_Gateway z) = Some gw ∧ prefix_contains p gw = true) (ds_Zones d)
  ∧ Forall (section_safe site services policy (ds_ManagementNetwork d) (ds_ControllerAddress d) (ds_Zones d)) (ds_Firewall d)
  ∧ (named_by_type (ds_Zones d) → Forall contained (ds_Firewall d)).
Proof.
  unfold DesiredFromSiteWithServices. intros Hd. apply bind_ok in Hd as (m & Hm%management_network & Hd).
  apply bind_ok in Hd as (zones & Hz%desired_zones_ok & Hd). apply bind_ok in Hd as (pol & Hpol & Hd).
  apply bind_ok in Hd as (st & Hst & Hd).
  match type of Hd with Ok ?x = Ok _ => assert (x = d) as <- by congruence end.
  cbn [ds_Zones ds_Firewall ds_ManagementNetwork ds_ControllerAddress].
  destruct Hz as (zs&->&Ht&Hin&st'&[_ N1 N2 N3 Heach _ _]). rewrite Forall_forall in Hin.
  assert (map fz_Type (map fw_zone zs) = zoneOrder) as Ho by (rewrite map_map; exact Ht).
  match goal with |- _ ∧ _ ∧ _ ∧ ?G ∧ _ => assert G as Hsafe end.
  { rewrite !Forall_app. split_and!.
    - apply firewall_base_safe. intros fz (z&->&Hzs)%list_elem_of_fmap. exists z. auto.
    - destruct policy as [p|]; [by eapply policy_safe|]. injection Hpol as <-. constructor.
    - unfold service_result in Hst. destruct (ServiceStateFromModules _ _) eqn:E; [|done].
      injection Hst as <-. by eapply service_firewall_safe.
    - destruct (Enabled _) eqn:E; [by apply tailnet_safe|constructor]. }
  refine (conj Ho (conj (conj N1 (conj N2 N3)) (conj _ (conj Hsafe _)))).
  - rewrite Forall_forall in Heach. apply Forall_forall. intros fz (z&->&Hzs)%list_elem_of_fmap. cbn. auto.
  - intros Hn. eapply Forall_impl; [exact Hsafe|]. intros s. by apply safe_contained.
Qed.

Definition reference_site : Site := NewSite "scope" "age1" "managed".
Definition reference_desired : result DesiredError DesiredState :=
  @DesiredFromSiteWithServices ascii_only plain_url reference_site CsValidate.reference_modules None.

Lemma reference_named :
  match reference_desired with
  | Ok d => bool_decide (Forall (fun z => @to_lower ascii_only (fz_Name z) = zone_label (fz_Type z)) (ds_Zones d))
  | Err _ => false
  end = true.
Proof. by vm_compute. Qed.

Lemma reference_ok : is_ok reference_desired = true.
Proof. by vm_compute. Qed.

Theorem DesiredFromSiteWithServices_management_witness : ∃ d, reference_desired = Ok d
  ∧ ∃ p ip, parse_prefix (ds_ManagementNetwork d) = Some p ∧ parse_addr (ds_ManagementAddress d) = Some ip
      ∧ prefix_contains p ip = true.
Proof.
  destruct reference_desired as [d|e] eqn:E; [|pose proof reference_ok as Hr; rewrite E in Hr; discriminate Hr]. exists d. split; [reflexivity|].
  destruct (DesiredFromSiteWithServices_management (H := ascii_only) (H0 := plain_url)
      reference_site CsValidate.reference_modules None d E)
    as (p&ip&_&_&Hp&Hip&_&_&_&Hc&_).
  exists p, ip. exact (conj Hp (conj Hip Hc)).
Defined.

Theorem DesiredFromSiteWithServices_isolated_witness : ∃ d, reference_desired = Ok d
  ∧ map fz_Type (ds_Zones d) = zoneOrder ∧ named_by_type (H := ascii_only) (ds_Zones d) ∧ Forall contained (ds_Firewall d).
Proof.
  destruct reference_desired as [d|e] eqn:E; [|pose proof reference_ok as Hr; rewrite E in Hr; discriminate Hr]. exists d. split; [reflexivity|].
  destruct (DesiredFromSiteWithServices_isolated (H := ascii_only) (H0 := plain_url)
      reference_site CsValidate.reference_modules None d E) as (Ho&_&_&_&Hc).
  assert (named_by_type (H := ascii_only) (ds_Zones d)) as Hn; [|exact (conj Ho (conj Hn (Hc Hn)))].
  pose proof reference_named as Hr. rewrite E in Hr. exact (bool_decide_eq_true_1 _ Hr).
Defined.
End FwDesired.
