(* ===== verification/FwCompose.v ===== *)
(** * Firewall module: the complete appliance composition
    ([internal/firewallmodule/composer.go]) *)

From S2P Require Export FwSafety FwDesired.

Open Scope Z_scope.

Module FwCompose.
Import Model CsConfig FwSection FwServices FwDesired.
Import FwSafety(SafetyConfig, mkSafety, ForwardTuple, mkTuple, ft_Address, ft_Protocol, ft_Port,
  ProtectedIPv4, ClientIPv4, HomeIPv4, LabIPv4, ForwardTuples, SafetyError).

Record Ownership := mkOwnership { ow_Sections : gmap string (list string); ow_SafetySets : list string }.
Record VPNDeclaration := mkDeclaration { vd_Clients : list string; vd_Forwards : list VPNForward }.

(** [ApplianceComposition]: the embedded [DesiredState] is [ac_Desired]. *)
Record ApplianceComposition := mkComposition {
  ac_Desired : DesiredState;
  ac_DHCP : list Section_; ac_Stubby : list Section_; ac_System : list Section_;
  ac_Safety : SafetyConfig; ac_DeclaredVPN : VPNDeclaration; ac_Ownership : Ownership;
}.

Inductive ComposeError :=
| Desired (e : DesiredError) | ServicesE (e : ServiceError) | SafetyE (e : SafetyError)
| ClientUnreserved (name : string) | ForwardUnreserved (name : string)
| ProfileKeys | ProfileAddress | ProfileEndpoint | ProfileKeepalive.

Definition lift {E A} (f : E → ComposeError) (r : result E A) : result ComposeError A :=
  match r with Ok a => Ok a | Err e => Err (f e) end.

Definition ownershipFor (network firewall dhcp stubby system : list Section_) : Ownership :=
  mkOwnership
    (list_to_map (map (fun p : string * list Section_ => (p.1, sortedSectionNames p.2))
       [("network", network); ("firewall", firewall); ("dhcp", dhcp); ("stubby", stubby); ("system", system)]))
    [FwSafety.SafetyProtectedSet; FwSafety.SafetyClientSet; FwSafety.SafetyForwardTCPSet;
     FwSafety.SafetyForwardUDPSet; FwSafety.SafetyHomeSet; FwSafety.SafetyLabSet].

Section compose.
Context `{GoUnicode}.

Definition client_step (modules : Modules) (addresses : list string) (name : string) : result ComposeError (list string) :=
  match ResolveReservation modules name with
  | None => Err (ClientUnreserved name)
  | Some r => Ok (addresses ++ [rv_Address r])
  end.

(** [uint16(forward.Port)] wraps. *)
Definition forward_step (modules : Modules) (tuples : list ForwardTuple) (f : VPNForward) : result ComposeError (list ForwardTuple) :=
  match ResolveReservation modules (f_Reservation f) with
  | None => Err (ForwardUnreserved (f_Name f))
  | Some r => Ok (tuples ++ map (fun p => mkTuple (rv_Address r) p (f_Port f mod 65536)) (f_Protocols f))
  end.

Definition declaration (modules : Modules) : VPNDeclaration :=
  match m_VPN modules with
  | Some v => mkDeclaration (v_Clients v) (v_Forwards v)
  | None => mkDeclaration [] []
  end.

Definition protected_ranges (policy : option CompositionPolicy) : list string :=
  match policy with
  | Some p => match cp_ProtectedIPv4 p with Some l => l | None => ProtectedIPv4 FwSafety.DefaultSafetyConfig end
  | None => ProtectedIPv4 FwSafety.DefaultSafetyConfig
  end.

Definition with_firewall (d : DesiredState) (network firewall : list Section_) : DesiredState :=
  mkDesired (ds_ManagementAddress d) (ds_ManagementNetwork d) (ds_ManagementNetmask d) (ds_ManagementGateway d)
    (ds_ControllerAddress d) (ds_Zones d) network firewall.

Definition ComposeAppliance `{GoURL} (site : Site) (modules : Modules) (policy : option CompositionPolicy)
    : result ComposeError ApplianceComposition :=
  desired ← lift Desired (DesiredFromSiteWithServices site modules policy);
  services ← lift ServicesE (ServiceStateFromModules site modules);
  let decl := declaration modules in
  clients ← (if vpn_enabled modules then foldM (client_step modules) [] (vd_Clients decl) else Ok []);
  tuples ← (if vpn_enabled modules then foldM (forward_step modules) [] (vd_Forwards decl) else Ok []);
  let safety := mkSafety (protected_ranges policy) clients [ds_ManagementNetwork desired]
                  (map fz_Subnet (ds_Zones desired)) tuples in
  _ ← lift SafetyE (FwSafety.Validate safety);
  safetySections ← lift SafetyE (FwSafety.SafetySections safety);
  let desired := with_firewall desired (ds_Network desired) (ds_Firewall desired ++ safetySections) in
  Ok (mkComposition desired (ss_DHCP services) (ss_Stubby services) (ss_System services) safety decl
        (ownershipFor (ds_Network desired) (ds_Firewall desired) (ss_DHCP services) (ss_Stubby services)
           (ss_System services))).

Definition ValidateVPNProfile (p : VPNProfile) : result ComposeError unit :=
  _ ← fail_if ((vp_PrivateKey p == "") || (vp_PeerPublicKey p == "") || (vp_PresharedKey p == "")) ProfileKeys;
  _ ← fail_if ((vp_Address p == "") || contains_byte (vp_Address p) ":") ProfileAddress;
  _ ← fail_if ((vp_EndpointHost p == "") || (vp_EndpointPort p <=? 0) || (vp_MTU p <? 576) || (vp_MTU p >? 9000)) ProfileEndpoint;
  fail_if ((vp_PersistentKeepalive p <? 0) || (vp_PersistentKeepalive p >? 120)) ProfileKeepalive.

Definition ComposeApplianceWithVPN `{GoURL} (site : Site) (modules : Modules) (policy : option CompositionPolicy)
    (profile : VPNProfile) : result ComposeError ApplianceComposition :=
  match m_VPN modules with
  | Some vpn =>
      if Enabled (v_Enabled vpn) then
        _ ← ValidateVPNProfile profile;
        c ← ComposeAppliance site modules policy;
        let '(vpnNetwork, vpnFirewall) := vpnSections site modules vpn profile in
        let d := ac_Desired c in
        let d := with_firewall d (ds_Network d ++ vpnNetwork) (ds_Firewall d ++ vpnFirewall) in
        Ok (mkComposition d (ac_DHCP c) (ac_Stubby c) (ac_System c) (ac_Safety c) (ac_DeclaredVPN c)
              (ownershipFor (ds_Network d) (ds_Firewall d) (ac_DHCP c) (ac_Stubby c) (ac_System c)))
      else ComposeAppliance site modules policy
  | None => ComposeAppliance site modules policy
  end.
End compose.

(** ** Lemmas *)

Lemma lift_ok {E A} (f : E → ComposeError) (r : result E A) a : lift f r = Ok a → r = Ok a.
Proof. destruct r; [by intros [= ->]|done]. Qed.

Section compose_lemmas.
Context `{GoUnicode}.

Lemma clients_resolved modules names l : foldM (client_step modules) [] names = Ok l →
  map (fun n => rv_Address <$> ResolveReservation modules n) names = map Some l.
Proof.
  apply (foldM_inv _ (fun names l => map (fun n => rv_Address <$> ResolveReservation modules n) names = map Some l)).
  { done. }
  intros dn n s1 s2 IH _ Hf. unfold client_step in Hf.
  destruct (ResolveReservation modules n) as [r|] eqn:Er; [|done]. injection Hf as <-.
  rewrite !map_app, IH. cbn. by rewrite Er.
Qed.

Lemma tuples_resolved modules fs ts : foldM (forward_step modules) [] fs = Ok ts →
  Forall (fun t => ∃ f r, f ∈ fs ∧ ResolveReservation modules (f_Reservation f) = Some r
            ∧ ft_Address t = rv_Address r ∧ ft_Protocol t ∈ f_Protocols f ∧ ft_Port t = f_Port f mod 65536) ts.
Proof.
  apply (foldM_inv _ (fun fs ts => Forall (fun t => ∃ f r, f ∈ fs ∧ ResolveReservation modules (f_Reservation f) = Some r
            ∧ ft_Address t = rv_Address r ∧ ft_Protocol t ∈ f_Protocols f ∧ ft_Port t = f_Port f mod 65536) ts)).
  { constructor. }
  intros dn f s1 s2 IH _ Hf. unfold forward_step in Hf.
  destruct (ResolveReservation modules (f_Reservation f)) as [r|] eqn:Er; [|done]. injection Hf as <-.
  apply Forall_app. split.
  - eapply Forall_impl; [exact IH|]. intros t (f'&r'&?&?). exists f', r'. rewrite elem_snoc. tauto.
  - apply Forall_forall. intros t (p&->&Hp)%list_elem_of_fmap. exists f, r. rewrite elem_snoc. cbn. auto.
Qed.
End compose_lemmas.

(** ** Properties *)

(** The composed safety state matches the declared intent: it is valid, its
    sections close the firewall package, its client set is exactly the resolved
    addresses of the declared clients and its forwards come from declared
    forwards while the VPN is enabled, and both are empty while it is not. *)
Theorem ComposeAppliance_safety `{GoUnicode, GoURL} site modules policy c :
  ComposeAppliance site modules policy = Ok c →
  FwSafety.Validate (ac_Safety c) = Ok tt
  ∧ (∃ base sections, FwSafety.SafetySections (ac_Safety c) = Ok sections
       ∧ ds_Firewall (ac_Desired c) = base ++ sections)
  ∧ (if vpn_enabled modules then
       map (fun n => rv_Address <$> ResolveReservation modules n) (vd_Clients (ac_DeclaredVPN c))
         = map Some (ClientIPv4 (ac_Safety c))
       ∧ Forall (fun t => ∃ f r, f ∈ vd_Forwards (ac_DeclaredVPN c)
                   ∧ ResolveReservation modules (f_Reservation f) = Some r ∧ ft_Address t = rv_Address r
                   ∧ ft_Protocol t ∈ f_Protocols f ∧ ft_Port t = f_Port f mod 65536) (ForwardTuples (ac_Safety c))
     else ClientIPv4 (ac_Safety c) = [] ∧ ForwardTuples (ac_Safety c) = [])
  ∧ LabIPv4 (ac_Safety c) = map fz_Subnet (ds_Zones (ac_Desired c))
  ∧ HomeIPv4 (ac_Safety c) = [ds_ManagementNetwork (ac_Desired c)].
Proof.
  unfold ComposeAppliance. intros Hc. apply bind_ok in Hc as (d & _ & Hc). apply bind_ok in Hc as (sv & _ & Hc).
  apply bind_ok in Hc as (clients & Hcl & Hc). apply bind_ok in Hc as (tuples & Htu & Hc).
  apply bind_ok in Hc as ([] & Hv%lift_ok & Hc). apply bind_ok in Hc as (secs & Hsec%lift_ok & Hc).
  injection Hc as <-. cbn [ac_Safety ac_Desired ac_DeclaredVPN ds_Firewall with_firewall ds_Zones ds_ManagementNetwork
    ClientIPv4 ForwardTuples LabIPv4 HomeIPv4].
  refine (conj Hv (conj _ (conj _ (conj eq_refl eq_refl)))).
  - exists (ds_Firewall d), secs. done.
  - destruct (vpn_enabled modules).
    + split; [by apply clients_resolved|by apply tuples_resolved].
    + by injection Hcl as <-; injection Htu as <-.
Qed.

Definition reference_composition : result ComposeError ApplianceComposition :=
  @ComposeAppliance ascii_only plain_url reference_site CsValidate.reference_modules None.
Lemma composition_ok : is_ok reference_composition = true.
Proof. by vm_compute. Qed.

Theorem ComposeAppliance_safety_witness : ∃ c, reference_composition = Ok c
  ∧ FwSafety.Validate (ac_Safety c) = Ok tt.
Proof.
  destruct reference_composition as [c|e] eqn:E; [|pose proof composition_ok as Hr; rewrite E in Hr; discriminate Hr].
  exists c. split; [reflexivity|].
  exact (proj1 (ComposeAppliance_safety (H := ascii_only) (H0 := plain_url)
    reference_site CsValidate.reference_modules None c E)).
Defined.
End FwCompose.
