(* ===== verification/FwReconcile.v ===== *)
(** * Firewall module: which sections are ours, and the minimal change
    ([internal/firewallmodule/reconcile.go], [FirewallScope] and
    [managedVPNFirewallSection] of tailnet.go) *)

From S2P Require Export FwDesired.

Open Scope Z_scope.

Module FwReconcile.
Import Model FwSection FwServices FwDesired.

Inductive MutationKind := MutationCreate | MutationUpdate | MutationDelete.
#[export] Instance MutationKind_eq_dec : EqDecision MutationKind.
Proof. solve_decision. Defined.

Record Mutation := mkMutation { mu_Kind : MutationKind; mu_Section : Section_ }.
#[export] Instance Mutation_eq_dec : EqDecision Mutation.
Proof. solve_decision. Defined.

Inductive DiffError :=
| DNSNameConflict (cname : string) | PortConflict (port : string)
| TypeConflict (name : string) | IdentityConflict (name : string).
#[export] Instance DiffError_eq_dec : EqDecision DiffError.
Proof. solve_decision. Defined.

(** A section as it reads once stored under its name. *)
Definition as_uci (s : Section_) : UCISection := mkUCI (sec_Type s) (sec_Options s) (sec_Lists s).
Definition removed (name : string) : Section_ := mkSection name "" ∅ ∅.

Definition dest_is (o : gmap string string) (l : list (string * string)) : bool :=
  forallb (fun kv : string * string => get o kv.1 == kv.2) l.

(** ** Identities of managed sections *)

Definition managedVPNFirewallSection (name : string) (s : UCISection) : bool :=
  let o := uci_Options s in
  if name == "boetticher_zone_vpn" then
    (uci_Type s == "zone") && dest_is o [("name", "vpn"); ("family", "ipv4"); ("masq", "1")]
  else if has_prefix name "boetticher_forward_" && has_suffix name "_vpn" then
    (uci_Type s == "forwarding") && dest_is o [("dest", "vpn"); ("family", "ipv4")]
  else if has_prefix name "boetticher_vpn_forward_" then
    (uci_Type s == "redirect") && has_prefix (get o "name") "Boetticher VPN "
    && dest_is o [("src", "vpn"); ("target", "DNAT"); ("family", "ipv4"); ("reflection", "0")]
    && (0 <? length (getl (uci_Lists s) "proto"))%nat
  else false.

Section identities.
Context `{GoUnicode}.

Definition publication_options : list string :=
  ["name"; "src"; "src_ip"; "src_dport"; "dest"; "dest_ip"; "dest_port"; "target"; "family"; "reflection"].

Definition home_label (o : gmap string string) : string :=
  trim_suffix (trim_prefix (get o "name") "Boetticher system ") " HOME publication".

Definition homePublicationIdentity (name : string) (o : gmap string string) (ls : gmap string (list string)) : bool :=
  if negb (has_prefix name "boetticher_system_") || negb (has_suffix name "_home_publication") then false
  else
    let label := home_label o in
    if (label == "") || (name != ("boetticher_system_" +:+ nativeIdentifier (to_lower label) +:+ "_home_publication"))
    then false
    else if negb (forallb (fun kv : string * string => bool_decide (kv.1 ∈ publication_options)) (map_to_list o)) then false
    else (size o =? 10)%nat
         && dest_is o [("src", "home_wan"); ("dest", "servers"); ("target", "DNAT"); ("family", "ipv4"); ("reflection", "0")]
         && (get o "src_ip" != "") && (get o "src_dport" != "") && (get o "dest_ip" != "") && (get o "dest_port" != "")
         && (size ls =? 1)%nat && (getl ls "proto" == ["tcp"]).

(** The identity checks of the per-zone rules: name, label, source and protocol. *)
Definition zone_rule_checks (zone label : string) : list (string * (string * string * string)) :=
  let b := "Boetticher " +:+ label in
  [("boetticher_allow_" +:+ zone +:+ "_ping", (b +:+ " gateway ping", zone, "icmp"));
   ("boetticher_allow_" +:+ zone +:+ "_dhcp", (b +:+ " DHCP", zone, "udp"));
   ("boetticher_deny_" +:+ zone +:+ "_external_dhcp", (b +:+ " deny external DHCP", zone, "udp"));
   ("boetticher_allow_" +:+ zone +:+ "_ntp", (b +:+ " NTP", zone, "udp"));
   ("boetticher_deny_" +:+ zone +:+ "_external_ntp", (b +:+ " deny external NTP", zone, "udp"))]
  ++ map (fun p => ("boetticher_allow_" +:+ zone +:+ "_dns_" +:+ p, (b +:+ " DNS " +:+ p, zone, p))) ["tcp"; "udp"]
  ++ flat_map (fun item : string * string =>
       let '(suffix, proto) := item in
       [("boetticher_deny_" +:+ zone +:+ "_external_" +:+ suffix, (b +:+ " deny external " +:+ suffix, zone, proto));
        ("boetticher_deny_" +:+ zone +:+ "_external_" +:+ suffix +:+ "_vpn",
         (b +:+ " deny external " +:+ suffix +:+ " via VPN", zone, proto))])
       [("dns_udp", "udp"); ("dns_tcp", "tcp"); ("dot_tcp", "tcp")]
  ++ [("boetticher_deny_" +:+ zone +:+ "_external_ntp_vpn", (b +:+ " deny external NTP via VPN", zone, "udp"))].

Definition rule_zones : list (string * string) :=
  [("transit", "TRANSIT"); ("infra", "INFRA"); ("servers", "SERVERS"); ("trusted", "TRUSTED");
   ("sandbox", "SANDBOX"); ("mgmt", "MGMT")].

Definition all_zone_checks : list (string * (string * string * string)) :=
  flat_map (fun z : string * string => zone_rule_checks z.1 z.2) rule_zones.

Definition system_rule_identity (name : string) (o : gmap string string) : bool :=
  let parts := split name "_" in
  let suffix := default "" (last parts) in
  if (length parts <? 4)%nat || ((suffix != "trusted") && (suffix != "monitoring")) then false
  else
    let systemName := trim_suffix (trim_prefix (get o "name") "Boetticher system ") (" " +:+ suffix) in
    let encoded := trim_prefix (trim_suffix name ("_" +:+ suffix)) "boetticher_system_" in
    if (get o "name" == "") || negb (has_prefix (get o "name") "Boetticher system ")
       || (nativeIdentifier (to_lower systemName) != encoded)
       || negb (dest_is o [("dest", "servers"); ("proto", "tcp"); ("family", "ipv4"); ("target", "ACCEPT")])
       || (get o "dest_ip" == "") || (get o "dest_port" == "")
    then false
    else if suffix == "trusted" then dest_is o [("src", "trusted"); ("src_ip", "")]
    else dest_is o [("src", "infra"); ("src_ip", "10.10.10.20")].

Definition tailnet_ids : list string :=
  ["deny_home"; "deny_nonpublic"; "transport_tcp"; "transport_udp"; "dns"; "ntp"; "trusted"; "servers"; "proxmox_ssh"].

Definition managedRuleIdentity (name : string) (o : gmap string string) : bool :=
  if has_prefix name "boetticher_system_" then system_rule_identity name o
  else if has_prefix name "boetticher_tailnet_" then
    let id := trim_prefix name "boetticher_tailnet_" in
    bool_decide (id ∈ tailnet_ids)
    && dest_is o [("name", "Boetticher Tailnet " +:+ id); ("src", "transit");
                  ("src_ip", TailnetGuestAddress +:+ "/32"); ("src_mac", TailnetGuestMAC); ("family", "ipv4")]
  else match List.find (fun c : string * (string * string * string) => c.1 == name) all_zone_checks with
       | Some (_, (label, src, proto)) =>
           dest_is o [("name", label); ("src", src); ("proto", proto); ("family", "ipv4")]
       | None =>
           if name == "boetticher_allow_trusted_proxmox_ssh" then
             dest_is o [("name", "Boetticher TRUSTED Proxmox SSH"); ("src", "trusted"); ("dest", "mgmt");
                        ("dest_ip", ProxmoxManagementAddress +:+ "/32"); ("proto", "tcp"); ("dest_port", "22");
                        ("family", "ipv4")]
           else (name == "boetticher_allow_home_api")
                && dest_is o [("name", "Boetticher Controller management API"); ("src", "home_wan");
                              ("proto", "tcp"); ("family", "ipv4")]
       end.

Definition forwarding_pairs : list (string * (string * string)) :=
  ("boetticher_forward_trusted_servers", ("trusted", "servers"))
  :: map (fun zone => ("boetticher_forward_" +:+ zone +:+ "_home_wan", (zone, "home_wan")))
       ["transit"; "infra"; "servers"; "trusted"; "sandbox"; "mgmt"].

(** The tests from the host record kinds on: each kind of section whose name
    encodes what it holds, then rules and forwardings. *)
Definition managed_named_section (name : string) (s : UCISection) : bool :=
  let o := uci_Options s in
  if (uci_Type s == "resolver") && has_prefix name "boetticher_resolver_" then
    (nativeResolverSectionName (get o "address") == name) && (get o "address" != "")
  else if (uci_Type s == "hostrecord") && has_prefix name "boetticher_record_" then
    (nativeRecordSectionName (get o "name") == name) && (get o "name" != "")
  else if (uci_Type s == "hostrecord") && has_prefix name "boetticher_binding_record_" then
    (("boetticher_binding_record_" +:+ nativeRecordSuffix (trim_suffix (get o "name") ".")) == name) && (get o "name" != "")
  else if (uci_Type s == "hostrecord") && has_prefix name "boetticher_observability_record_" then
    (("boetticher_observability_record_" +:+ nativeRecordSuffix (get o "name")) == name) && (get o "name" != "")
  else if (uci_Type s == "cname") && has_prefix name "boetticher_cname_" then
    (("boetticher_cname_" +:+ nativeRecordSuffix (trim_suffix (get o "cname") ".")) == name) && (get o "cname" != "")
  else if (uci_Type s == "cname") && has_prefix name "boetticher_binding_cname_" then
    (("boetticher_binding_cname_" +:+ nativeRecordSuffix (trim_suffix (get o "cname") ".")) == name) && (get o "cname" != "")
  else if uci_Type s == "rule" then managedRuleIdentity name o
  else if (uci_Type s == "forwarding") && has_prefix name "boetticher_forward_" then
    match List.find (fun p : string * (string * string) => p.1 == name) forwarding_pairs with
    | Some (_, (src, dest)) => dest_is o [("src", src); ("dest", dest); ("family", "ipv4")]
    | None => false
    end
  else false.

Definition managedStaleSection (name : string) (s : UCISection) : bool :=
  let o := uci_Options s in
  if (uci_Type s == "redirect") && has_prefix name "boetticher_system_" then
    let id := trim_prefix name "boetticher_system_" in
    if negb (has_suffix id "_home_publication") || (get o "name" == "") then false
    else homePublicationIdentity name o (uci_Lists s) && (home_label o != "")
  else if (uci_Type s == "cname") && has_prefix name "boetticher_system_dns_" then
    (get o "cname" != "") && (get o "target" != "") && (size o =? 2)%nat
    && (name == systemDNSSectionName (get o "cname") (get o "target"))
  else if (uci_Type s == "route") && has_prefix name "boetticher_vpn_client_mtu_" then
    (get o "target" != "") && has_prefix (get o "interface") "boetticher_iface_"
    && (get o "netmask" == "255.255.255.255") && (name == nativeVPNClientMTUSectionName (get o "target"))
    && (get o "mtu" != "")
  else if (uci_Type s == "redirect") && has_prefix name "boetticher_vpn_forward_" then
    let label := trim_prefix (get o "name") "Boetticher VPN " in
    if (label == "") || (label == get o "name") then false
    else (name == nativeVPNForwardSectionName label) || (name == ("boetticher_vpn_forward_" +:+ label))
  else if managedVPNFirewallSection name s then true
  else if (name == "airvpn") && (uci_Type s == "interface") then true
  else if has_prefix name "boetticher_vpn_"
          && bool_decide (uci_Type s ∈ ["interface"; "wireguard_airvpn"; "rule"; "zone"; "forwarding"]) then true
  else if uci_Type s == "host" then (nativeHostSectionName (get o "name") == name) && (get o "name" != "")
  else if (uci_Type s == "dhcp") && has_prefix name "boetticher_dhcp_"
          && bool_decide (name ∈ map (fun zone => "boetticher_dhcp_" +:+ zone)
               ["transit"; "infrastructure"; "servers"; "trusted"; "sandbox"; "management"; "mgmt"]) then true
  else managed_named_section name s.

Definition compatibleIdentity (name : string) (observed : UCISection) (desired : Section_) : bool :=
  let t := uci_Type observed in
  let o := uci_Options observed in
  if (t == "cname") && has_prefix name "boetticher_system_dns_" then
    managedStaleSection name observed && (sec_Type desired == "cname") && (sec_Name desired == name)
  else if (t == "redirect") && has_prefix name "boetticher_system_" && has_suffix name "_home_publication" then
    homePublicationIdentity name o (uci_Lists observed) && (sec_Type desired == "redirect") && (sec_Name desired == name)
  else if (t == "hostrecord") && has_prefix name "boetticher_observability_record_" then
    (get o "name" == get (sec_Options desired) "name") && (get o "ip" == "10.10.10.20")
  else if name == "airvpn" then get o "proto" == "wireguard"
  else if t == "host" then get o "name" == get (sec_Options desired) "name"
  else if (t == "hostrecord") || (t == "cname") || (t == "resolver") then
    let key := if t == "cname" then "cname" else "name" in
    get o key == get (sec_Options desired) key
  else if (t == "rule") || (t == "forwarding") then
    if (t == "rule") && has_prefix name "boetticher_tailnet_" then managedRuleIdentity name o
    else if negb (managedStaleSection name observed) then true
    else managedStaleSection name observed
  else true.

(** ** Comparing sections *)

Definition sameSection (observed : UCISection) (desired : Section_) : bool :=
  if (uci_Type observed != sec_Type desired) || negb (size (uci_Options observed) =? size (sec_Options desired))%nat then false
  else forallb (fun kv : string * string => get (uci_Options observed) kv.1 == kv.2) (map_to_list (sec_Options desired))
       && forallb (fun kv : string * list string => getl (uci_Lists observed) kv.1 == kv.2) (map_to_list (sec_Lists desired))
       && forallb (fun kv : string * list string =>
            bool_decide (is_Some (sec_Lists desired !! kv.1)) || (length kv.2 =? 0)%nat) (map_to_list (uci_Lists observed)).

(** ** [DiffOwned] *)

Definition wanted_map (desired : list Section_) : gmap string Section_ :=
  fold_insert sec_Name (fun s => s) ∅ desired.

(** Go's map order decides which provider section an error names; the error
    itself carries the desired name or port. *)
Definition dns_conflict (current : Package) (s : Section_) : bool :=
  existsb (fun item : string * UCISection =>
    let '(name, observed) := item in
    (name != sec_Name s) && (uci_Type observed == "cname")
    && (get (uci_Options observed) "cname" == get (sec_Options s) "cname")
    && negb (managedStaleSection name observed)) (map_to_list current).

Definition port_conflict (current : Package) (s : Section_) : bool :=
  existsb (fun item : string * UCISection =>
    let '(name, observed) := item in
    negb ((name == sec_Name s) || (uci_Type observed != "redirect") || (get (uci_Options observed) "src" != "home_wan")
          || (get (uci_Options observed) "src_dport" != get (sec_Options s) "src_dport"))
    && negb (managedStaleSection name observed)) (map_to_list current).

Definition conflict_check (current : Package) (s : Section_) : result DiffError unit :=
  _ ← fail_if ((sec_Type s == "cname") && has_prefix (sec_Name s) "boetticher_system_dns_" && dns_conflict current s)
        (DNSNameConflict (get (sec_Options s) "cname"));
  if (sec_Type s != "redirect") || (get (sec_Options s) "src" != "home_wan") || (get (sec_Options s) "src_dport" == "")
  then Ok tt
  else fail_if (port_conflict current s) (PortConflict (get (sec_Options s) "src_dport")).

Definition diff_one (current : Package) (wanted : gmap string Section_) (name : string) : result DiffError (list Mutation) :=
  let section := default (removed name) (wanted !! name) in
  match current !! name with
  | None => Ok [mkMutation MutationCreate section]
  | Some observed =>
      _ ← fail_if (uci_Type observed != sec_Type section) (TypeConflict name);
      _ ← fail_if (negb (compatibleIdentity name observed section)) (IdentityConflict name);
      if sameSection observed section then Ok []
      else if (uci_Type observed == "hostrecord") && (get (uci_Options observed) "ip" != get (sec_Options section) "ip")
      then Ok [mkMutation MutationDelete (removed name); mkMutation MutationCreate section]
      else Ok [mkMutation MutationUpdate section]
  end.

Definition stale_names (current : Package) (wanted : gmap string Section_) : list string :=
  sort_strings (List.filter (fun name =>
    bool_decide (wanted !! name = None)
    && match current !! name with Some s => managedStaleSection name s | None => false end) (map_to_list current).*1).

Definition DiffOwned (current : Package) (desired : list Section_) : result DiffError (list Mutation) :=
  let wanted := wanted_map desired in
  _ ← eachM (conflict_check current) desired;
  mutations ← foldM (fun acc name => ms ← diff_one current wanted name; Ok (acc ++ ms)) [] (sortedSectionNames desired);
  Ok (mutations ++ map (fun name => mkMutation MutationDelete (removed name)) (stale_names current wanted)).

(** ** The firewall package's scope *)

Definition scope_names : list string :=
  map sec_Name (tailnetFirewallSections "192.168.4.0/22")
  ++ map sec_Name (serviceFirewallSections (NewSite "scope" "age1" "managed") true true true)
  ++ map (fun id => "boetticher_observability_" +:+ id)
       ["controller_exporter"; "host_exporter"; "controller_portal"]
  ++ ["boetticher_media_monitoring"]
  ++ map (fun id => "boetticher_observability_" +:+ id)
       ["controller_ingress"; "host_ingress"; "runtime_ingress"; "trusted_ingress"; "tailnet_ingress"].

Definition in_scope (desired : list Section_) (name : string) (s : UCISection) : bool :=
  bool_decide (name ∈ map sec_Name desired ++ scope_names)
  || managedVPNFirewallSection name s
  || (has_prefix name "boetticher_system_" && managedRuleIdentity name (uci_Options s)).

Definition FirewallScope (current : Package) (desired : list Section_) : Package :=
  filter (fun item : string * UCISection => in_scope desired item.1 item.2 = true) current.

Definition DiffFirewall (current : Package) (desired : list Section_) : result DiffError (list Mutation) :=
  DiffOwned (FirewallScope current desired) desired.
End identities.

(** ** The abstract effect of a change *)

(** What the package holds once a mutation has been applied. *)
Definition apply_mutation (st : Package) (m : Mutation) : Package :=
  let s := mu_Section m in
  match mu_Kind m with
  | MutationCreate | MutationUpdate => <[sec_Name s := as_uci s]> st
  | MutationDelete => delete (sec_Name s) st
  end.
Definition apply_mutations (st : Package) (ms : list Mutation) : Package := foldl apply_mutation st ms.

Section diff_lemmas.
Context `{GoUnicode}.

(** The specification of a reconciled package, name by name. *)
Definition reconciled (current : Package) (desired : list Section_) (name : string) : option UCISection :=
  match wanted_map desired !! name, current !! name with
  | Some s, Some observed => if sameSection observed s then Some observed else Some (as_uci s)
  | Some s, None => Some (as_uci s)
  | None, Some observed => if managedStaleSection name observed then None else Some observed
  | None, None => None
  end.

Lemma sameSection_as_uci s : sameSection (as_uci s) s = true.
Proof.
  unfold sameSection, as_uci. cbn. rewrite bool_decide_eq_true_2, Nat.eqb_refl by done. cbn.
  rewrite !andb_true_iff, !forallb_forall. split_and!.
  - intros [k v] Hin%list_elem_of_In. apply elem_of_map_to_list in Hin. cbn. unfold get. by rewrite Hin, bool_decide_eq_true_2.
  - intros [k v] Hin%list_elem_of_In. apply elem_of_map_to_list in Hin. cbn. unfold getl. by rewrite Hin, bool_decide_eq_true_2.
  - intros [k v] Hin%list_elem_of_In. apply elem_of_map_to_list in Hin. cbn. rewrite bool_decide_eq_true_2; [done|by eexists].
Qed.

Lemma wanted_lookup desired s : NoDup (map sec_Name desired) → s ∈ desired → wanted_map desired !! sec_Name s = Some s.
Proof. intros. by apply (fold_insert_lookup sec_Name (fun s => s)). Qed.

Lemma wanted_inv desired name s : wanted_map desired !! name = Some s → s ∈ desired ∧ sec_Name s = name.
Proof. intros [(x&?&?&->)|?]%fold_insert_inv; [done|]. by rewrite lookup_empty in *. Qed.

Lemma wanted_iff desired name : is_Some (wanted_map desired !! name) → name ∈ sortedSectionNames desired.
Proof.
  intros (s&(?&<-)%wanted_inv). apply elem_of_sort_strings, list_elem_of_fmap. eauto.
Qed.

(** An update is proposed only for a section of the same type that says something else. *)
Lemma diff_one_updates current wanted name ms m : diff_one current wanted name = Ok ms → m ∈ ms → mu_Kind m = MutationUpdate →
  mu_Section m = default (removed name) (wanted !! name)
  ∧ ∃ o, current !! name = Some o ∧ uci_Type o = sec_Type (mu_Section m) ∧ sameSection o (mu_Section m) = false.
Proof.
  unfold diff_one. destruct (current !! name) as [o|]; [|intros [= <-] ->%list_elem_of_singleton; done].
  intros Hd Hm Hk. inv_ok. bools. destruct (sameSection o _) eqn:Es; [simplify_eq; by apply not_elem_of_nil in Hm|].
  case_match; simplify_eq.
  - apply elem_of_cons in Hm as [->|Hm]; [done|]. by apply list_elem_of_singleton in Hm as ->.
  - apply list_elem_of_singleton in Hm as ->. eauto.
Qed.

Lemma DiffOwned_updates current desired ms m : DiffOwned current desired = Ok ms → m ∈ ms → mu_Kind m = MutationUpdate →
  (mu_Section m ∈ desired ∨ sec_Options (mu_Section m) = ∅)
  ∧ ∃ o, current !! sec_Name (mu_Section m) = Some o ∧ uci_Type o = sec_Type (mu_Section m) ∧ sameSection o (mu_Section m) = false.
Proof.
  unfold DiffOwned. intros Hd Hm Hk. apply bind_ok in Hd as ([] & _ & Hd). apply bind_ok in Hd as (ms1 & H1 & [= <-]).
  apply elem_of_app in Hm as [Hm|(n&->&_)%list_elem_of_fmap]; [|done].
  assert (Forall (fun m => mu_Kind m = MutationUpdate → ∃ name, mu_Section m = default (removed name) (wanted_map desired !! name)
    ∧ ∃ o, current !! name = Some o ∧ uci_Type o = sec_Type (mu_Section m) ∧ sameSection o (mu_Section m) = false) ms1) as Hall.
  { refine (foldM_inv _ (fun _ acc => Forall _ acc) _ _ _ (Forall_nil_2 _) _ H1).
    intros dn name s1 s2 Hs1 _ (one & Hone & [= <-])%bind_ok. apply Forall_app_2; [done|]. apply Forall_forall.
    intros m' Hm' Hk'. exists name. by apply (diff_one_updates current (wanted_map desired) name one m'). }
  rewrite Forall_forall in Hall. destruct (Hall m Hm Hk) as (name & Es & o & Ho & Hty & Hsame).
  destruct (wanted_map desired !! name) as [d|] eqn:Ew; cbn in Es.
  - apply wanted_inv in Ew as [Hin <-]. rewrite Es in *. split; [by left|eauto].
  - rewrite Es in *. split; [by right|]. by exists o.
Qed.

(** One name: its mutations name it alone and bring about its specification. *)
Lemma diff_one_ok current desired name ms st : name ∈ sortedSectionNames desired → NoDup (map sec_Name desired) →
  diff_one current (wanted_map desired) name = Ok ms → st !! name = current !! name →
  (∀ m, m ∈ ms → sec_Name (mu_Section m) = name)
  ∧ apply_mutations st ms !! name = reconciled current desired name
  ∧ ∀ n, n ≠ name → apply_mutations st ms !! n = st !! n.
Proof.
  intros (s&->&Hs)%elem_of_sort_strings%list_elem_of_fmap Hnd Hd Hst. unfold diff_one, reconciled in *.
  rewrite (wanted_lookup _ _ Hnd Hs) in *.
  change (default (removed (sec_Name s)) (Some s)) with s in Hd.
  destruct (current !! sec_Name s) as [o|] eqn:Eo.
  - inv_ok. bools. destruct (sameSection o s); [|case_match]; simplify_eq; cbn.
    + split_and!; [apply Forall_forall, Forall_nil_2|done|done].
    + split_and!; [apply Forall_forall; repeat (apply Forall_cons_iff; split; [done|]); apply Forall_nil_2|by rewrite lookup_insert_eq|].
      intros n Hn. by rewrite lookup_insert_ne, lookup_delete_ne.
    + split_and!; [apply Forall_forall; repeat (apply Forall_cons_iff; split; [done|]); apply Forall_nil_2|by rewrite lookup_insert_eq|].
      intros n Hn. by rewrite lookup_insert_ne.
  - simplify_eq. cbn. split_and!; [apply Forall_forall; repeat (apply Forall_cons_iff; split; [done|]); apply Forall_nil_2|by rewrite lookup_insert_eq|].
    intros n Hn. by rewrite lookup_insert_ne.
Qed.

Lemma apply_mutations_app st a b : apply_mutations st (a ++ b) = apply_mutations (apply_mutations st a) b.
Proof. apply foldl_app. Qed.

Lemma diff_names_ok current desired ns ms : NoDup (map sec_Name desired) → NoDup ns → ns ⊆ sortedSectionNames desired →
  foldM (fun acc name => ms ← diff_one current (wanted_map desired) name; Ok (acc ++ ms)) [] ns = Ok ms →
  (∀ m, m ∈ ms → sec_Name (mu_Section m) ∈ ns)
  ∧ (∀ n, n ∈ ns → apply_mutations current ms !! n = reconciled current desired n)
  ∧ ∀ n, n ∉ ns → apply_mutations current ms !! n = current !! n.
Proof.
  intros Hnd. revert ms. induction ns as [|name ns IH] using rev_ind; intros ms Hns Hsub.
  { intros [= <-]. set_solver. }
  intros (acc & Hacc & Hf)%foldM_snoc. apply NoDup_app in Hns as (Hns&Hfresh&_).
  assert (name ∉ ns) by set_solver.
  destruct (IH acc) as (A&B&C); [done|set_solver|done|].
  apply bind_ok in Hf as (one & Hone & Hf). injection Hf as <-.
  destruct (diff_one_ok _ _ _ _ (apply_mutations current acc) (Hsub name ltac:(set_solver)) Hnd Hone) as (A1&B1&C1); [by apply C|].
  setoid_rewrite apply_mutations_app. split_and!.
  - intros m [?|?]%elem_of_app; [set_solver|]. rewrite (A1 m) by done. set_solver.
  - intros n [?| ->]%elem_snoc; [|done]. rewrite C1 by set_solver. by apply B.
  - intros n Hn. rewrite C1 by set_solver. apply C. set_solver.
Qed.

Lemma apply_deletes st ns n :
  apply_mutations st (map (fun name => mkMutation MutationDelete (removed name)) ns) !! n
  = if decide (n ∈ ns) then None else st !! n.
Proof.
  revert st. induction ns as [|x ns IH]; intros st; [done|]. cbn. fold (apply_mutations (delete x st)
    (map (fun name => mkMutation MutationDelete (removed name)) ns)). rewrite IH.
  destruct (decide (n ∈ ns)); [rewrite decide_True by set_solver; done|].
  destruct (decide (n = x)) as [->|].
  - rewrite decide_True by set_solver. apply lookup_delete_eq.
  - rewrite decide_False by set_solver. by apply lookup_delete_ne.
Qed.

Lemma elem_of_stale current wanted n : n ∈ stale_names current wanted ↔
  wanted !! n = None ∧ ∃ o, current !! n = Some o ∧ managedStaleSection n o = true.
Proof.
  unfold stale_names. rewrite elem_of_sort_strings, list_elem_of_In, List.filter_In, <- list_elem_of_In, andb_true_iff.
  split.
  - intros (_&Hw&Hm). bools. split; [done|]. destruct (current !! n) as [o|]; [|done]. by exists o.
  - intros (Hw&o&Ho&Hm). rewrite Ho, Hm. split_and!; [|by apply bool_decide_eq_true_2|done].
    apply list_elem_of_fmap. exists (n, o). split; [done|]. by apply elem_of_map_to_list.
Qed.

Lemma DiffOwned_effect current desired ms : NoDup (map sec_Name desired) → DiffOwned current desired = Ok ms →
  (∀ m, m ∈ ms → sec_Name (mu_Section m) ∈ map sec_Name desired
                 ∨ ∃ o, current !! sec_Name (mu_Section m) = Some o ∧ managedStaleSection (sec_Name (mu_Section m)) o = true)
  ∧ ∀ n, apply_mutations current ms !! n = reconciled current desired n.
Proof.
  unfold DiffOwned. intros Hnd Hd. apply bind_ok in Hd as ([] & _ & Hd).
  apply bind_ok in Hd as (ms1 & H1 & Hd). injection Hd as <-.
  assert (NoDup (sortedSectionNames desired)) as Hns by (unfold sortedSectionNames; by rewrite sort_strings_perm).
  destruct (diff_names_ok _ _ _ _ Hnd Hns (reflexivity _) H1) as (A&B&C). split.
  - intros m [Hm|Hm]%elem_of_app.
    + left. exact (proj1 (elem_of_sort_strings _ _) (A m Hm)).
    + right. apply list_elem_of_fmap in Hm as (n&->&Hn). cbn. apply elem_of_stale in Hn as (_&o&?&?). eauto.
  - intros n. rewrite apply_mutations_app, apply_deletes.
    destruct (decide (n ∈ stale_names current (wanted_map desired))) as [Hst|Hst].
    + apply elem_of_stale in Hst as (Hw&o&Ho&Hm). unfold reconciled. by rewrite Hw, Ho, Hm.
    + destruct (decide (n ∈ sortedSectionNames desired)) as [Hin|Hin]; [by apply B|].
      rewrite C by done. unfold reconciled.
      destruct (wanted_map desired !! n) eqn:Ew; [exfalso; apply Hin, wanted_iff; by rewrite Ew|].
      destruct (current !! n) as [o|] eqn:Eo; [|done].
      destruct (managedStaleSection n o) eqn:Em; [|done]. exfalso. apply Hst, elem_of_stale. eauto.
Qed.
End diff_lemmas.

(** ** Properties *)

(** C28. [DiffOwned] computes exactly the change that reconciles a package: every
    desired section is stored as desired (or kept, if it already says the same),
    every other section that is provably ours is removed, and everything else is
    left alone; the mutations name only desired and provably stale sections. *)
Theorem DiffOwned_reconciles `{GoUnicode} current desired ms :
  NoDup (map sec_Name desired) → DiffOwned current desired = Ok ms →
  (∀ n, apply_mutations current ms !! n =
     match wanted_map desired !! n, current !! n with
     | Some s, Some observed => if sameSection observed s then Some observed else Some (as_uci s)
     | Some s, None => Some (as_uci s)
     | None, Some observed => if managedStaleSection n observed then None else Some observed
     | None, None => None
     end)
  ∧ (∀ s, s ∈ desired → wanted_map desired !! sec_Name s = Some s)
  ∧ ∀ m, m ∈ ms → sec_Name (mu_Section m) ∈ map sec_Name desired
      ∨ ∃ o, current !! sec_Name (mu_Section m) = Some o ∧ managedStaleSection (sec_Name (mu_Section m)) o = true.
Proof.
  intros Hnd Hd. destruct (DiffOwned_effect _ _ _ Hnd Hd) as [Hm He].
  split_and!; [exact He|intros s Hs; by apply wanted_lookup|exact Hm].
Qed.

(** Reconciliation converges: on the package that the first change produced, a
    second comparison that passes the conflict and identity checks finds nothing to
    do. *)
Theorem DiffOwned_converges `{GoUnicode} current desired ms ms' :
  NoDup (map sec_Name desired) → DiffOwned current desired = Ok ms →
  DiffOwned (apply_mutations current ms) desired = Ok ms' → ms' = [].
Proof.
  intros Hnd Hd Hd'. destruct (DiffOwned_effect _ _ _ Hnd Hd) as [_ He].
  set (st := apply_mutations current ms) in *. unfold DiffOwned in Hd'.
  apply bind_ok in Hd' as ([] & _ & Hd'). apply bind_ok in Hd' as (ms1 & H1 & Hd'). injection Hd' as <-.
  assert (stale_names st (wanted_map desired) = []) as ->.
  { destruct (stale_names st (wanted_map desired)) as [|n ns] eqn:Es; [done|].
    assert (n ∈ stale_names st (wanted_map desired)) as Hn by (rewrite Es; set_solver).
    apply elem_of_stale in Hn as (Hw&o&Ho&Hm). rewrite He in Ho. unfold reconciled in Ho. rewrite Hw in Ho.
    destruct (current !! n) as [o'|]; [|done]. destruct (managedStaleSection n o') eqn:Em; [done|]. congruence. }
  cbn. rewrite app_nil_r. revert H1.
  assert (∀ n, n ∈ sortedSectionNames desired → n ∈ map sec_Name desired) as Hin
    by (intros n; apply elem_of_sort_strings).
  revert Hin. generalize (sortedSectionNames desired) as ns. intros ns Hin.
  apply (foldM_inv _ (fun _ acc => acc = [])); [done|].
  intros dn n s1 s2 -> Hn Hf. apply bind_ok in Hf as (one & Hone & Hf). injection Hf as <-. cbn.
  apply Hin, list_elem_of_fmap in Hn as (s&->&Hs). unfold diff_one in Hone.
  rewrite (wanted_lookup _ _ Hnd Hs) in Hone. change (default (removed (sec_Name s)) (Some s)) with s in Hone.
  rewrite He in Hone. unfold reconciled in Hone. rewrite (wanted_lookup _ _ Hnd Hs) in Hone.
  destruct (current !! sec_Name s) as [o|]; [destruct (sameSection o s) eqn:Eo|]; inv_ok;
    rewrite ?Eo, ?sameSection_as_uci in Hone; by injection Hone as <-.
Qed.

(** The identity test of a rule or forwarding that is already in the package
    decides nothing: both of its branches accept (unless it is a tailnet rule). *)
Lemma compatible_rule_vacuous `{GoUnicode} name observed desired :
  uci_Type observed = "rule" ∨ uci_Type observed = "forwarding" → name ≠ "airvpn" →
  has_prefix name "boetticher_tailnet_" = false → compatibleIdentity name observed desired = true.
Proof.
  intros Ht Hn Hp. unfold compatibleIdentity. rewrite Hp.
  destruct Ht as [-> | ->]; rewrite (bool_decide_eq_false_2 (name = "airvpn")) by done;
    repeat match goal with
    | |- context [bool_decide (?a = ?b :> string)] =>
        let v := eval vm_compute in (bool_decide (a = b)) in
        match v with true => change (bool_decide (a = b)) with true
                   | false => change (bool_decide (a = b)) with false end
    end; cbn -[managedStaleSection];
    by destruct (managedStaleSection name observed).
Qed.

(** A package with a stale VPN forward, a foreign rule and an outdated HOME rule. *)
Definition sample_current : Package := {[
  "boetticher_vpn_forward_old" := mkUCI "redirect"
    (opts [("name", "Boetticher VPN old"); ("src", "vpn"); ("target", "DNAT"); ("family", "ipv4"); ("reflection", "0")])
    (lists [("proto", ["tcp"])]);
  "operator_rule" := mkUCI "rule" (opts [("name", "mine"); ("src", "lan")]) ∅;
  "boetticher_allow_home_api" := mkUCI "rule"
    (opts [("name", "Boetticher Controller management API"); ("src", "home_wan"); ("proto", "tcp"); ("family", "ipv4");
           ("src_ip", "192.168.4.9/32"); ("dest_port", "443"); ("target", "ACCEPT")]) ∅ ]}.
Definition sample_desired : list Section_ := @firewallSections ascii_only [] "192.168.4.0/22" "192.168.4.6".

Definition sample_kinds : list (MutationKind * string) :=
  [(MutationUpdate, "boetticher_allow_home_api"); (MutationCreate, "boetticher_home_wan");
   (MutationDelete, "boetticher_vpn_forward_old")].
Lemma sample_diff_ok :
  (ms ← @DiffOwned ascii_only sample_current sample_desired;
   Ok (map (fun m => (mu_Kind m, sec_Name (mu_Section m))) ms)) = Ok sample_kinds.
Proof. by vm_compute. Qed.
Lemma sample_again_ok :
  (ms ← @DiffOwned ascii_only sample_current sample_desired;
   @DiffOwned ascii_only (apply_mutations sample_current ms) sample_desired) = Ok [].
Proof. by vm_compute. Qed.
Lemma sample_names : NoDup (map sec_Name sample_desired).
Proof. apply (bool_decide_unpack _). by vm_compute. Qed.

Theorem DiffOwned_reconciles_witness : ∃ ms, @DiffOwned ascii_only sample_current sample_desired = Ok ms
  ∧ ∀ s, s ∈ sample_desired → wanted_map sample_desired !! sec_Name s = Some s.
Proof.
  destruct (@DiffOwned ascii_only sample_current sample_desired) as [ms|e] eqn:E;
    [|pose proof sample_diff_ok as Hs; rewrite E in Hs; discriminate Hs].
  exists ms. split; [reflexivity|].
  exact (proj1 (proj2 (@DiffOwned_reconciles ascii_only sample_current sample_desired ms sample_names E))).
Defined.

Theorem DiffOwned_converges_witness : ∃ ms ms', @DiffOwned ascii_only sample_current sample_desired = Ok ms
  ∧ @DiffOwned ascii_only (apply_mutations sample_current ms) sample_desired = Ok ms' ∧ ms' = [].
Proof.
  destruct (@DiffOwned ascii_only sample_current sample_desired) as [ms|e] eqn:E;
    [|pose proof sample_diff_ok as Hs; rewrite E in Hs; discriminate Hs].
  pose proof sample_again_ok as Ha. rewrite E in Ha. exists ms, []. split; [reflexivity|]. split; [exact Ha|].
  exact (@DiffOwned_converges ascii_only sample_current sample_desired ms [] sample_names E Ha).
Defined.
End FwReconcile.
