(* ===== verification/FwStage.v ===== *)
(** * Firewall module: writing a change to the provider
    ([StageOwned], [writeSection], [ReconcileOwned] of reconcile.go)

    The provider is the interface [UciWriter]: operations on an unknown state that
    may fail at any point.  [UciWriterLaws] says what a successful call does to the
    packages; [mem_writer] is a writer that satisfies it. *)

From S2P Require Export FwReconcile.

Open Scope Z_scope.

Module FwStage.
Import FwSection FwReconcile.

(** ** Errors *)

Inductive StageError :=
| DiffFailed (e : DiffError)
| CreateFailed (name msg : string) | UnexpectedName (name created : string)
| SectionType (name observed desired : string)
| DeleteFailed (name msg : string) | RemoveOptionFailed (name option msg : string)
| RemoveListFailed (name list msg : string) | SetOptionFailed (name option msg : string)
| ResetListFailed (name list msg : string) | SetListFailed (name list msg : string)
| ApplyFailed (msg : string).

(** ** The provider *)

Class UciWriter (S : Type) := {
  UCIAddNamed : string → string → string → S → S * result string string;
  UCISet : string → string → string → string → S → S * result string unit;
  UCISetList : string → string → string → list string → S → S * result string unit;
  UCIDelete : string → string → string → S → S * result string unit;
  UCIApply : Z → S → S * result string unit;
}.

(** A provider call whose error is wrapped. *)
Definition call {S A} (wrap : string → StageError) (op : S → S * result string A) : M S StageError A :=
  wrap_err wrap op.

(** ** [writeSection]: one provider call per edit *)

Inductive Op := OpSet (value : string) | OpSetList (values : list string) | OpDelete.
Record Edit := mkEdit { ed_Key : string; ed_Op : Op; ed_Wrap : string → StageError }.

Definition sorted_keys {A} (m : gmap string A) : list string := sort_strings (map_to_list m).*1.

Definition remove_edits (name : string) (desired : Section_) (o : UCISection) : list Edit :=
  map (fun k => mkEdit k OpDelete (RemoveOptionFailed name k))
    (List.filter (fun k => bool_decide (sec_Options desired !! k = None)) (map_to_list (uci_Options o)).*1)
  ++ map (fun k => mkEdit k OpDelete (RemoveListFailed name k))
    (List.filter (fun k => bool_decide (sec_Lists desired !! k = None)) (map_to_list (uci_Lists o)).*1).

Definition option_edits (name : string) (desired : Section_) (observed : option UCISection) (k : string) : list Edit :=
  let v := get (sec_Options desired) k in
  match observed with
  | Some o => if get (uci_Options o) k == v then [] else [mkEdit k (OpSet v) (SetOptionFailed name k)]
  | None => [mkEdit k (OpSet v) (SetOptionFailed name k)]
  end.

Definition list_edits (name : string) (desired : Section_) (observed : option UCISection) (k : string) : list Edit :=
  let vs := getl (sec_Lists desired) k in
  let set := if (length vs =? 0)%nat then [] else [mkEdit k (OpSetList vs) (SetListFailed name k)] in
  match observed with
  | Some o =>
      if getl (uci_Lists o) k == vs then []
      else (if (0 <? length (getl (uci_Lists o) k))%nat then [mkEdit k OpDelete (ResetListFailed name k)] else []) ++ set
  | None => set
  end.

Definition section_edits (desired : Section_) (observed : option UCISection) : list Edit :=
  let name := sec_Name desired in
  match observed with Some o => remove_edits name desired o | None => [] end
  ++ flat_map (option_edits name desired observed) (sorted_keys (sec_Options desired))
  ++ flat_map (list_edits name desired observed) (sorted_keys (sec_Lists desired)).

Section stage.
Context {S : Type} `{UciWriter S}.

Definition run_edit (pkg name : string) (e : Edit) : M S StageError unit :=
  call (ed_Wrap e)
    match ed_Op e with
    | OpSet v => UCISet pkg name (ed_Key e) v
    | OpSetList vs => UCISetList pkg name (ed_Key e) vs
    | OpDelete => UCIDelete pkg name (ed_Key e)
    end.

Definition writeSection (pkg : string) (desired : Section_) (observed : option UCISection) : M S StageError unit :=
  _ ← match observed with
      | Some o => if uci_Type o != sec_Type desired then fail (SectionType (sec_Name desired) (uci_Type o) (sec_Type desired))
                  else mret tt
      | None => mret tt
      end;
  forM_ (run_edit pkg (sec_Name desired)) (section_edits desired observed).

Definition stage_mutation (pkg : string) (current : Package) (m : Mutation) : M S StageError unit :=
  let section := mu_Section m in
  let name := sec_Name section in
  match mu_Kind m with
  | MutationCreate =>
      created ← call (CreateFailed name) (UCIAddNamed pkg (sec_Type section) name);
      if created != name then fail (UnexpectedName name created) else writeSection pkg section None
  | MutationUpdate => writeSection pkg section (Some (default (mkUCI "" ∅ ∅) (current !! name)))
  | MutationDelete => call (DeleteFailed name) (UCIDelete pkg name "")
  end.

Definition scoped `{GoUnicode} (pkg : string) (current : Package) (desired : list Section_) : Package :=
  if pkg == "firewall" then FirewallScope current desired else current.

Definition StageOwned `{GoUnicode} (pkg : string) (current : Package) (desired : list Section_) : M S StageError Z :=
  let current := scoped pkg current desired in
  mutations ← of_result DiffFailed (DiffOwned current desired);
  _ ← forM_ (stage_mutation pkg current) mutations;
  mret (Z.of_nat (length mutations)).

Definition ReconcileOwned `{GoUnicode} (pkg : string) (current : Package) (desired : list Section_) : M S StageError Z :=
  let current := scoped pkg current desired in
  _ ← of_result DiffFailed (DiffOwned current desired);
  changed ← StageOwned pkg current desired;
  if changed =? 0 then mret changed
  else _ ← call ApplyFailed (UCIApply 30); mret changed.
End stage.

(** ** What a provider promises *)

(** In UCI an option and a list of a section share one name space. *)
Definition set_option (k v : string) (s : UCISection) : UCISection :=
  mkUCI (uci_Type s) (<[k := v]> (uci_Options s)) (delete k (uci_Lists s)).
Definition set_list (k : string) (vs : list string) (s : UCISection) : UCISection :=
  mkUCI (uci_Type s) (delete k (uci_Options s)) (<[k := vs]> (uci_Lists s)).
Definition remove_key (k : string) (s : UCISection) : UCISection :=
  mkUCI (uci_Type s) (delete k (uci_Options s)) (delete k (uci_Lists s)).

Class UciWriterLaws (S : Type) `{UciWriter S} (view : S → string → Package) := {
  add_view pkg ty name s s' created : UCIAddNamed pkg ty name s = (s', Ok created) → created = name →
    view s' pkg = <[name := mkUCI ty ∅ ∅]> (view s pkg);
  set_view pkg name k v s s' : UCISet pkg name k v s = (s', Ok tt) → k ≠ "" → v ≠ "" →
    view s' pkg = alter (set_option k v) name (view s pkg);
  setlist_view pkg name k vs s s' : UCISetList pkg name k vs s = (s', Ok tt) → k ≠ "" → vs ≠ [] →
    view s' pkg = alter (set_list k vs) name (view s pkg);
  delete_view pkg name k s s' : UCIDelete pkg name k s = (s', Ok tt) → k ≠ "" →
    view s' pkg = alter (remove_key k) name (view s pkg);
  delete_section_view pkg name s s' : UCIDelete pkg name "" s = (s', Ok tt) →
    view s' pkg = delete name (view s pkg);
}.

(** ** The effect of an edit on a section, key by key *)

Definition apply_edit (s : UCISection) (e : Edit) : UCISection :=
  match ed_Op e with
  | OpSet v => set_option (ed_Key e) v s
  | OpSetList vs => set_list (ed_Key e) vs s
  | OpDelete => remove_key (ed_Key e) s
  end.
Definition apply_edits (s : UCISection) (es : list Edit) : UCISection := foldl apply_edit s es.

(** What a section says about one key. *)
Definition at_key (k : string) (s : UCISection) : option string * option (list string) :=
  (uci_Options s !! k, uci_Lists s !! k).
Definition edit_at (v : option string * option (list string)) (e : Edit) : option string * option (list string) :=
  match ed_Op e with OpSet v => (Some v, None) | OpSetList vs => (None, Some vs) | OpDelete => (None, None) end.

Definition at_edits (k : string) (es : list Edit) : list Edit := List.filter (fun e => ed_Key e == k) es.

Lemma apply_edits_type s es : uci_Type (apply_edits s es) = uci_Type s.
Proof.
  unfold apply_edits. revert s. induction es as [|e es IH]; intros s; [done|]. cbn. rewrite IH.
  unfold apply_edit. by destruct (ed_Op e).
Qed.

(** Edits of other keys do not matter. *)
Lemma at_key_edits k s es : at_key k (apply_edits s es) = foldl edit_at (at_key k s) (at_edits k es).
Proof.
  unfold apply_edits. revert s. induction es as [|e es IH]; intros s; [done|]. cbn. rewrite IH.
  case_bool_decide as Hk; cbn; f_equal; unfold apply_edit, at_key, edit_at; [subst k|];
    destruct (ed_Op e); cbn; rewrite ?lookup_insert_eq, ?lookup_delete_eq, ?lookup_insert_ne, ?lookup_delete_ne by done; done.
Qed.

Lemma at_edits_app k a b : at_edits k (a ++ b) = at_edits k a ++ at_edits k b.
Proof. apply List.filter_app. Qed.

(** Edits generated per key from a duplicate-free list of keys. *)
Lemma at_edits_flat_map k (f : string → list Edit) ks :
  (∀ k', Forall (fun e => ed_Key e = k') (f k')) → NoDup ks →
  at_edits k (flat_map f ks) = if decide (k ∈ ks) then f k else [].
Proof.
  intros Hf. induction ks as [|x ks IH]; intros Hnd; [done|]. apply NoDup_cons in Hnd as [Hx Hnd].
  change (flat_map f (x :: ks)) with (f x ++ flat_map f ks). rewrite at_edits_app, IH by done.
  assert (at_edits k (f x) = if decide (k = x) then f x else []) as ->.
  { specialize (Hf x). unfold at_edits. induction Hf as [|e es He Hes IHf]; [by destruct (decide (k = x))|].
    cbn [List.filter]. rewrite IHf, He. case_bool_decide; destruct (decide (k = x)); try congruence; done. }
  destruct (decide (k = x)) as [->|]; [rewrite decide_False, decide_True by set_solver; by rewrite app_nil_r|].
  cbn. destruct (decide (k ∈ ks)); [rewrite decide_True by set_solver|rewrite decide_False by set_solver]; done.
Qed.

Lemma NoDup_filter_list {A} (f : A → bool) l : NoDup l → NoDup (List.filter f l).
Proof.
  induction l as [|x l IH]; cbn; [done|]. rewrite NoDup_cons. intros [Hx Hl].
  destruct (f x); [apply NoDup_cons; split; [|auto]|auto].
  rewrite list_elem_of_In, List.filter_In, <- list_elem_of_In. tauto.
Qed.

Lemma at_edits_removes {A} k (m : gmap string A) (keep : string → bool) wrap :
  at_edits k (map (fun k => mkEdit k OpDelete (wrap k)) (List.filter keep (map_to_list m).*1))
  = match m !! k with Some _ => if keep k then [mkEdit k OpDelete (wrap k)] else [] | None => [] end.
Proof.
  assert (∀ ks, map (fun k => mkEdit k OpDelete (wrap k)) ks = flat_map (fun k => [mkEdit k OpDelete (wrap k)]) ks) as ->.
  { induction ks; cbn; congruence. }
  rewrite (at_edits_flat_map _ (fun k => [mkEdit k OpDelete (wrap k)])); [|by intros; repeat constructor|].
  2:{ apply NoDup_filter_list, NoDup_fst_map_to_list. }
  assert (k ∈ List.filter keep (map_to_list m).*1 ↔ is_Some (m !! k) ∧ keep k = true) as Hiff.
  { rewrite list_elem_of_In, List.filter_In, <- list_elem_of_In, list_elem_of_fmap. f_equiv.
    split; [intros ([k' v]&->&Hin%elem_of_map_to_list); by exists v|intros [v Hv]].
    exists (k, v). split; [done|by apply elem_of_map_to_list]. }
  destruct (m !! k) as [v|] eqn:Em; [destruct (keep k) eqn:Ek|].
  - rewrite decide_True; [done|]. apply Hiff. eauto.
  - rewrite decide_False; [done|]. rewrite Hiff. naive_solver.
  - rewrite decide_False; [done|]. rewrite Hiff. intros [[] _]. done.
Qed.

Lemma sorted_keys_NoDup {A} (m : gmap string A) : NoDup (sorted_keys m).
Proof. unfold sorted_keys. rewrite sort_strings_perm. apply NoDup_fst_map_to_list. Qed.
Lemma elem_of_sorted_keys {A} (m : gmap string A) k : k ∈ sorted_keys m ↔ is_Some (m !! k).
Proof.
  unfold sorted_keys. rewrite elem_of_sort_strings, list_elem_of_fmap. split.
  - intros ([k' v]&->&Hin%elem_of_map_to_list). by exists v.
  - intros [v Hv]. exists (k, v). split; [done|by apply elem_of_map_to_list].
Qed.

Lemma option_edits_key name d o k : Forall (fun e => ed_Key e = k) (option_edits name d o k).
Proof. unfold option_edits. destruct o; [case_bool_decide|]; repeat constructor. Qed.
Lemma list_edits_key name d o k : Forall (fun e => ed_Key e = k) (list_edits name d o k).
Proof.
  unfold list_edits. destruct o; [case_bool_decide; [constructor|]|];
    repeat (destruct (_ : bool); cbn); repeat constructor.
Qed.

Lemma at_section_edits k d o :
  at_edits k (section_edits d o) =
    match o with
    | Some o => match uci_Options o !! k with
                | Some _ => if bool_decide (sec_Options d !! k = None) then [mkEdit k OpDelete (RemoveOptionFailed (sec_Name d) k)] else []
                | None => [] end
                ++ match uci_Lists o !! k with
                   | Some _ => if bool_decide (sec_Lists d !! k = None) then [mkEdit k OpDelete (RemoveListFailed (sec_Name d) k)] else []
                   | None => [] end
    | None => [] end
    ++ (if decide (is_Some (sec_Options d !! k)) then option_edits (sec_Name d) d o k else [])
    ++ (if decide (is_Some (sec_Lists d !! k)) then list_edits (sec_Name d) d o k else []).
Proof.
  unfold section_edits. rewrite !at_edits_app.
  rewrite !at_edits_flat_map by (apply sorted_keys_NoDup || (intros; apply option_edits_key || apply list_edits_key)).
  f_equal; [destruct o; [|done]; unfold remove_edits; by rewrite at_edits_app, !at_edits_removes|].
  f_equal; apply decide_ext, elem_of_sorted_keys.
Qed.

(** ** Sections that say the same *)

(** Empty lists are as good as absent. *)
Definition uci_equiv (a b : UCISection) : Prop :=
  uci_Type a = uci_Type b ∧ uci_Options a = uci_Options b ∧ ∀ k, getl (uci_Lists a) k = getl (uci_Lists b) k.
#[export] Instance uci_equiv_equiv : Equiv UCISection := uci_equiv.
#[export] Instance uci_equiv_equivalence : Equivalence (≡@{UCISection}).
Proof.
  split.
  - by intros a.
  - intros a b (?&?&Hl). split_and!; [done..|]. intros k. by rewrite Hl.
  - intros a b c (?&?&Hl) (?&?&Hl'). split_and!; [congruence..|]. intros k. by rewrite Hl.
Qed.

(** What the theorems ask of sections: values and list keys that UCI can hold. *)
Record well_formed (options : gmap string string) (ls : gmap string (list string)) : Prop := {
  wf_disjoint : ∀ k, is_Some (options !! k) → ls !! k = None;
  wf_keys : options !! "" = None ∧ ls !! "" = None;
}.
Record section_wf (s : Section_) : Prop := {
  swf : well_formed (sec_Options s) (sec_Lists s);
  swf_values : ∀ k v, sec_Options s !! k = Some v → v ≠ "";
}.

(** Contradictory presence facts, and empty lists. *)
Ltac finish_edits := try match goal with
  | H : ¬ is_Some (Some _) |- _ => by destruct H
  | H : is_Some None |- _ => by destruct H
  | vs : list string, vs' : list string |- _ => by destruct vs, vs'
  | vs : list string |- _ => by destruct vs
  end.

(** The edits of an update, and of a create, reach the desired section. *)
Lemma section_edits_final d o :
  section_wf d → uci_Type o = sec_Type d → well_formed (uci_Options o) (uci_Lists o) →
  apply_edits o (section_edits d (Some o)) ≡ as_uci d.
Proof.
  intros [[Hdis _] Hval] Hty [Hodis _].
  assert (∀ k, at_key k (apply_edits o (section_edits d (Some o))) =
    (sec_Options d !! k, match sec_Lists d !! k with
                         | Some vs => if getl (uci_Lists o) k == vs then uci_Lists o !! k
                                      else if (length vs =? 0)%nat then None else Some vs
                         | None => None end)) as Hk.
  { intros k. rewrite at_key_edits, at_section_edits. unfold at_key, option_edits, list_edits, get, getl.
    destruct (sec_Options d !! k) as [v|] eqn:Eo; [rewrite (Hdis k) by eauto|];
      [pose proof (Hval _ _ Eo)|destruct (sec_Lists d !! k) as [vs|] eqn:El];
      (destruct (uci_Options o !! k) as [v'|] eqn:Eoo; [rewrite (Hodis k) by eauto|destruct (uci_Lists o !! k) as [vs'|] eqn:Eol]);
      cbn; repeat (case_bool_decide || case_decide || case_match); cbn in *; simplify_eq; try done; finish_edits. }
  split_and!; [by rewrite apply_edits_type|..].
  - apply map_eq. intros k. specialize (Hk k). unfold at_key in Hk. by injection Hk.
  - intros k. specialize (Hk k). unfold at_key in Hk. injection Hk as _ Hk. unfold getl in *. rewrite Hk. cbn.
    destruct (sec_Lists d !! k) as [vs|]; [|done]. case_bool_decide; [done|].
    destruct vs; done.
Qed.

Lemma section_edits_create d : section_wf d → apply_edits (mkUCI (sec_Type d) ∅ ∅) (section_edits d None) ≡ as_uci d.
Proof.
  intros [[Hdis _] Hval].
  assert (∀ k, at_key k (apply_edits (mkUCI (sec_Type d) ∅ ∅) (section_edits d None)) =
    (sec_Options d !! k, match sec_Lists d !! k with
                         | Some vs => if (length vs =? 0)%nat then None else Some vs
                         | None => None end)) as Hk.
  { intros k. rewrite at_key_edits, at_section_edits. unfold at_key, option_edits, list_edits, get, getl. cbn.
    rewrite !lookup_empty.
    destruct (sec_Options d !! k) as [v|] eqn:Eo; [rewrite (Hdis k) by eauto|destruct (sec_Lists d !! k) as [vs|] eqn:El];
      cbn; repeat (case_bool_decide || case_decide || case_match); cbn in *; simplify_eq; try done; finish_edits. }
  split_and!; [by rewrite apply_edits_type|..].
  - apply map_eq. intros k. specialize (Hk k). unfold at_key in Hk. by injection Hk.
  - intros k. specialize (Hk k). unfold at_key in Hk. injection Hk as _ Hk. unfold getl. rewrite Hk. cbn.
    destruct (sec_Lists d !! k) as [[|]|]; done.
Qed.

(** A section that needs no edit already says the same. *)
Lemma section_edits_none d o : (∀ k v, sec_Options d !! k = Some v → v ≠ "") → uci_Type o = sec_Type d →
  section_edits d (Some o) = [] → sameSection o d = true.
Proof.
  intros Hval Hty Hnone. assert (∀ k, at_edits k (section_edits d (Some o)) = []) as Hk by by rewrite Hnone.
  assert (∀ k, uci_Options o !! k = sec_Options d !! k ∧ (∀ vs, sec_Lists d !! k = Some vs → getl (uci_Lists o) k = vs)
    ∧ (is_Some (uci_Lists o !! k) → is_Some (sec_Lists d !! k))) as Hsame.
  { intros k. specialize (Hk k). rewrite at_section_edits in Hk. unfold option_edits, list_edits, get, getl in *.
    destruct (sec_Options d !! k) as [v|] eqn:Eo; [pose proof (Hval _ _ Eo)|]; destruct (sec_Lists d !! k) as [vs|] eqn:El;
      destruct (uci_Options o !! k) as [v'|] eqn:Eoo; destruct (uci_Lists o !! k) as [vs'|] eqn:Eol; cbn in *;
      repeat (case_bool_decide || case_decide || case_match); cbn in *; simplify_eq; split_and!;
      intros; simplify_eq; eauto; try done; finish_edits. }
  assert (uci_Options o = sec_Options d) as Eopts by (apply map_eq; intros k; apply Hsame).
  unfold sameSection. rewrite Hty, bool_decide_eq_true_2, Eopts, Nat.eqb_refl by done. cbn.
  rewrite !andb_true_iff, !forallb_forall. split_and!.
  - intros [k v] Hin%list_elem_of_In. apply elem_of_map_to_list in Hin. cbn. unfold get. by rewrite Hin, bool_decide_eq_true_2.
  - intros [k vs] Hin%list_elem_of_In. apply elem_of_map_to_list in Hin. cbn. apply bool_decide_eq_true_2. by apply Hsame.
  - intros [k vs] Hin%list_elem_of_In. apply elem_of_map_to_list in Hin. cbn. rewrite bool_decide_eq_true_2; [done|].
    apply Hsame. eauto.
Qed.

(** ** Running edits on a provider *)

Definition edit_ok (e : Edit) : Prop :=
  ed_Key e ≠ "" ∧ match ed_Op e with OpSet v => v ≠ "" | OpSetList vs => vs ≠ [] | OpDelete => True end.

Lemma removes_ok {A} (m : gmap string A) keep wrap : m !! "" = None →
  Forall edit_ok (map (fun k => mkEdit k OpDelete (wrap k)) (List.filter keep (map_to_list m).*1)).
Proof.
  intros Hm. apply Forall_fmap, Forall_forall. intros k Hk. split; [|done]. cbn. intros ->.
  rewrite list_elem_of_In, List.filter_In, <- list_elem_of_In, list_elem_of_fmap in Hk.
  destruct Hk as [([k v]&Ek&Hin%elem_of_map_to_list) _]. cbn in *. subst. congruence.
Qed.

Lemma Forall_flat_map_sorted {A} (P : Edit → Prop) f (m : gmap string A) :
  (∀ k v, m !! k = Some v → Forall P (f k)) → Forall P (flat_map f (sorted_keys m)).
Proof.
  intros Hf. apply Forall_forall. intros e He. apply list_elem_of_In, in_flat_map in He.
  destruct He as (k&Hk&He). apply list_elem_of_In in Hk, He.
  apply elem_of_sorted_keys in Hk as [v Hv]. specialize (Hf _ _ Hv). rewrite Forall_forall in Hf. auto.
Qed.

Lemma section_edits_ok d o : section_wf d →
  match o with Some o => well_formed (uci_Options o) (uci_Lists o) | None => True end →
  Forall edit_ok (section_edits d o).
Proof.
  intros [[Hdis [Hk1 Hk2]] Hval] Ho. unfold section_edits. rewrite !Forall_app. split_and!.
  - destruct o as [o|]; [|constructor]. destruct Ho as [_ [? ?]]. apply Forall_app; split; by apply removes_ok.
  - apply Forall_flat_map_sorted. intros k v Hv. assert (edit_ok (mkEdit k (OpSet (get (sec_Options d) k)) (SetOptionFailed (sec_Name d) k))).
    { split; cbn; [intros ->; congruence|]. unfold get. rewrite Hv. by apply (Hval k). }
    unfold option_edits. destruct o; [case_bool_decide; [apply Forall_nil_2|]|]; by apply Forall_singleton.
  - apply Forall_flat_map_sorted. intros k vs Hv. unfold list_edits, getl. rewrite Hv.
    change (default [] (Some vs)) with vs.
    assert (k ≠ "") by (intros ->; congruence).
    assert (Forall edit_ok (if (length vs =? 0)%nat then [] else [mkEdit k (OpSetList vs) (SetListFailed (sec_Name d) k)])).
    { destruct vs; [apply Forall_nil_2|by apply Forall_singleton; split]. }
    destruct o; [case_bool_decide; [apply Forall_nil_2|]; apply Forall_app; split; [|done]|done].
    destruct (0 <? _)%nat; [by apply Forall_singleton; split|apply Forall_nil_2].
Qed.

Lemma call_ok {S A} wrap (op : S → S * result string A) s s' a : call wrap op s = (s', Ok a) → op s = (s', Ok a).
Proof. apply wrap_err_ok. Qed.

(** ** Mutation sequences that can be staged *)

Definition names (ms : list Mutation) : list string := map (fun m => sec_Name (mu_Section m)) ms.

(** Creates find their name free, updates find the observed section. *)
Definition stage_ok (current : Package) (before : list Mutation) (m : Mutation) : Prop :=
  match mu_Kind m with
  | MutationCreate => section_wf (mu_Section m)
      ∧ apply_mutations current before !! sec_Name (mu_Section m) = None
  | MutationUpdate => section_wf (mu_Section m) ∧ sec_Name (mu_Section m) ∉ names before
      ∧ ∃ o, current !! sec_Name (mu_Section m) = Some o ∧ uci_Type o = sec_Type (mu_Section m)
          ∧ well_formed (uci_Options o) (uci_Lists o)
  | MutationDelete => is_Some (apply_mutations current before !! sec_Name (mu_Section m))
  end.
Fixpoint stageable (current : Package) (before ms : list Mutation) : Prop :=
  match ms with [] => True | m :: ms => stage_ok current before m ∧ stageable current (before ++ [m]) ms end.

Lemma stageable_app current before a b :
  stageable current before (a ++ b) ↔ stageable current before a ∧ stageable current (before ++ a) b.
Proof.
  revert before. induction a as [|m a IH]; intros before; cbn; [rewrite app_nil_r; tauto|].
  rewrite IH, <- app_assoc. cbn. tauto.
Qed.

Lemma apply_mutations_fresh st ms n : n ∉ names ms → apply_mutations st ms !! n = st !! n.
Proof.
  revert st. induction ms as [|m ms IH]; intros st Hn; [done|].
  cbn. fold (apply_mutations (apply_mutation st m) ms). cbn in Hn. rewrite IH by set_solver.
  assert (n ≠ sec_Name (mu_Section m)) by set_solver.
  unfold apply_mutation. destruct (mu_Kind m); rewrite ?lookup_insert_ne, ?lookup_delete_ne by done; done.
Qed.

Section provider.
Context {S : Type} {W : UciWriter S} (view : S → string → Package) {L : UciWriterLaws S view}.

Lemma run_edit_ok pkg name e s s' : edit_ok e → run_edit pkg name e s = (s', Ok tt) →
  view s' pkg = alter (fun o => apply_edit o e) name (view s pkg).
Proof.
  intros [Hk Hv] Hr%call_ok. unfold apply_edit. destruct (ed_Op e).
  - by apply set_view.
  - by apply setlist_view.
  - by apply delete_view.
Qed.

Lemma run_edits_ok pkg name es s s' : Forall edit_ok es → forM_ (run_edit pkg name) es s = (s', Ok tt) →
  view s' pkg = alter (fun o => apply_edits o es) name (view s pkg).
Proof.
  intros He. revert s. induction He as [|e es He Hes IH]; intros s.
  - intros [= ->]. symmetry. apply map_eq. intros n. rewrite lookup_alter. case_decide; [subst|done].
    by destruct (view s' pkg !! _).
  - intros (s1&[]&H1&H2)%M_bind_ok. rewrite (IH _ H2), (run_edit_ok _ _ _ _ _ He H1).
    apply map_eq. intros n. rewrite !lookup_alter. case_decide; [subst|done]. rewrite decide_True by done. by destruct (view s pkg !! _).
Qed.

Lemma writeSection_ok pkg d o s s' : section_wf d →
  match o with Some o => well_formed (uci_Options o) (uci_Lists o) | None => True end →
  view s pkg !! sec_Name d = Some (default (mkUCI (sec_Type d) ∅ ∅) o) →
  writeSection pkg d o s = (s', Ok tt) →
  view s' pkg !! sec_Name d ≡ Some (as_uci d) ∧ ∀ n, n ≠ sec_Name d → view s' pkg !! n = view s pkg !! n.
Proof.
  intros Hd Ho Hv (s1&[]&H1&H2)%M_bind_ok.
  assert (s1 = s ∧ match o with Some o => uci_Type o = sec_Type d | None => True end) as [-> Hty].
  { destruct o; [case_bool_decide|]; cbn in H1; unfold fail, mret, M_ret in H1; by simplify_eq. }
  apply run_edits_ok in H2; [|by apply section_edits_ok]. rewrite H2. split.
  - rewrite lookup_alter_eq, Hv. cbn. constructor. destruct o; [by apply section_edits_final|by apply section_edits_create].
  - intros n Hn. by apply lookup_alter_ne.
Qed.

(** One mutation is staged faithfully: where its section is ([stage_pre]), the
    provider then holds what [apply_mutation] says. *)
Definition stage_pre (current st : Package) (m : Mutation) : Prop :=
  match mu_Kind m with
  | MutationCreate => section_wf (mu_Section m) ∧ st !! sec_Name (mu_Section m) = None
  | MutationUpdate => section_wf (mu_Section m) ∧ ∃ o, current !! sec_Name (mu_Section m) = Some o
      ∧ st !! sec_Name (mu_Section m) = Some o ∧ uci_Type o = sec_Type (mu_Section m)
      ∧ well_formed (uci_Options o) (uci_Lists o)
  | MutationDelete => is_Some (st !! sec_Name (mu_Section m))
  end.

Lemma stage_mutation_ok pkg current m s s' : stage_pre current (view s pkg) m →
  stage_mutation pkg current m s = (s', Ok tt) →
  view s' pkg !! sec_Name (mu_Section m) ≡ apply_mutation (view s pkg) m !! sec_Name (mu_Section m)
  ∧ ∀ n, n ≠ sec_Name (mu_Section m) → view s' pkg !! n = view s pkg !! n.
Proof.
  unfold stage_pre, stage_mutation, apply_mutation. destruct m as [[] d]; cbn.
  - intros [Hd Hfree] (s1&created&Ha%call_ok&Hw)%M_bind_ok.
    destruct (decide (created = sec_Name d)) as [->|]; [|by rewrite bool_decide_eq_false_2 in Hw].
    rewrite bool_decide_eq_true_2 in Hw by done. cbn in Hw.
    eapply add_view in Ha; [|done..].
    destruct (writeSection_ok _ _ None _ _ Hd I ltac:(rewrite Ha; apply lookup_insert_eq) Hw) as [A B].
    rewrite lookup_insert_eq. split; [done|]. intros n Hn. rewrite B, Ha by done. by apply lookup_insert_ne.
  - intros (Hd&o&Hc&Hv&_&Ho) Hw. rewrite Hc in Hw. change (default (mkUCI "" ∅ ∅) (Some o)) with o in Hw.
    destruct (writeSection_ok _ _ (Some o) _ _ Hd Ho Hv Hw) as [A B]. by rewrite lookup_insert_eq.
  - intros _ Hw%call_ok. eapply delete_section_view in Hw. rewrite Hw. split; [done|].
    intros n Hn. by apply lookup_delete_ne.
Qed.

Lemma stage_pre_of (P : string → Prop) current before st m :
  (∀ n, P n → st !! n ≡ apply_mutations current before !! n) →
  (∀ n, P n → n ∉ names before → st !! n = current !! n) →
  P (sec_Name (mu_Section m)) → stage_ok current before m → stage_pre current st m.
Proof.
  intros He Hu HP Hm. unfold stage_pre, stage_ok in *. specialize (He _ HP). destruct (mu_Kind m).
  - destruct Hm as [Hd Hn]. split; [done|]. rewrite Hn in He. by inversion He.
  - destruct Hm as (Hd&Hn&o&Ho&?&?). split; [done|]. exists o. by rewrite Hu.
  - destruct Hm as [o Ho]. rewrite Ho in He. inversion He. eauto.
Qed.

(** The names that the observed package [current] speaks of. *)
Lemma stage_all_ok (P : string → Prop) pkg current ms s s' before :
  (∀ n, P n → view s pkg !! n ≡ apply_mutations current before !! n) →
  (∀ n, P n → n ∉ names before → view s pkg !! n = current !! n) →
  (∀ m, m ∈ ms → P (sec_Name (mu_Section m))) →
  stageable current before ms → forM_ (stage_mutation pkg current) ms s = (s', Ok tt) →
  (∀ n, P n → view s' pkg !! n ≡ apply_mutations current (before ++ ms) !! n)
  ∧ (∀ n, P n → n ∉ names (before ++ ms) → view s' pkg !! n = current !! n)
  ∧ ∀ n, ¬ P n → view s' pkg !! n = view s pkg !! n.
Proof.
  revert s before. induction ms as [|m ms IH]; intros s before He Hu Hc Hst.
  { intros [= <-]. by rewrite app_nil_r. }
  intros (s1&[]&H1&H2)%M_bind_ok. destruct Hst as [Hm Hms].
  assert (P (sec_Name (mu_Section m))) as HP by (apply Hc; set_solver).
  apply stage_mutation_ok in H1 as [A B].
  2:{ by apply (stage_pre_of P current before). }
  change (before ++ m :: ms) with (before ++ [m] ++ ms). rewrite app_assoc.
  destruct (IH s1 (before ++ [m])) as (C&E&D); [..|done|done|].
  - intros n Hn. rewrite apply_mutations_app. cbn. specialize (He n Hn).
    destruct (decide (n = sec_Name (mu_Section m))) as [->|].
    + rewrite A. unfold apply_mutation. destruct (mu_Kind m); rewrite ?lookup_insert_eq, ?lookup_delete_eq; done.
    + rewrite B by done. unfold apply_mutation.
      destruct (mu_Kind m); rewrite ?lookup_insert_ne, ?lookup_delete_ne by done; done.
  - unfold names. intros n Hn. rewrite map_app. cbn. intros Hf. rewrite B by set_solver. apply Hu; set_solver.
  - set_solver.
  - split_and!; [done..|]. intros n Hn. rewrite D, B by congruence. done.
Qed.
End provider.

(** ** What [DiffOwned] proposes can be staged *)

Section staging.
Context `{GoUnicode} (current : Package) (desired : list Section_)
  (Hnd : NoDup (map sec_Name desired)) (Hwf : Forall section_wf desired)
  (Hcur : ∀ n o, current !! n = Some o → well_formed (uci_Options o) (uci_Lists o)).

Lemma diff_one_stageable before name ms : name ∉ names before → name ∈ sortedSectionNames desired →
  diff_one current (wanted_map desired) name = Ok ms →
  stageable current before ms ∧ ∀ m, m ∈ ms → sec_Name (mu_Section m) = name.
Proof.
  intros Hb Hn Hd. split; [|by eapply (diff_one_ok current desired name ms current)].
  apply elem_of_sort_strings, list_elem_of_fmap in Hn as (d&->&Hd').
  unfold diff_one in Hd. rewrite (wanted_lookup _ _ Hnd Hd') in Hd.
  change (default (removed (sec_Name d)) (Some d)) with d in Hd.
  assert (section_wf d) by (rewrite Forall_forall in Hwf; auto).
  destruct (current !! sec_Name d) as [o|] eqn:Eo.
  - inv_ok. destruct (sameSection o d); [|destruct (_ && _)]; simplify_eq; cbn; unfold stage_ok; cbn; split_and?; try done.
    + by rewrite apply_mutations_fresh, Eo by done.
    + rewrite apply_mutations_app. apply lookup_delete_eq.
    + bools. exists o. split_and!; [done..|]. by eapply Hcur.
  - simplify_eq. cbn. unfold stage_ok. cbn. split_and?; [done| |done].
    by rewrite apply_mutations_fresh.
Qed.

Lemma deletes_stageable before ns : NoDup ns →
  (∀ n, n ∈ ns → n ∉ names before ∧ is_Some (current !! n)) →
  stageable current before (map (fun name => mkMutation MutationDelete (removed name)) ns).
Proof.
  intros Hns. revert before. induction ns as [|n ns IH]; intros before Hb; cbn; [done|].
  apply NoDup_cons in Hns as [Hn Hns]. split.
  - unfold stage_ok. cbn. destruct (Hb n) as [? ?]; [set_solver|]. by rewrite apply_mutations_fresh.
  - apply IH; [done|]. intros n' Hn'. destruct (Hb n') as [? ?]; [set_solver|]. split; [|done].
    unfold names in *. rewrite map_app. cbn. set_solver.
Qed.

Lemma DiffOwned_stageable ms : DiffOwned current desired = Ok ms → stageable current [] ms.
Proof.
  unfold DiffOwned. intros Hd. apply bind_ok in Hd as ([] & _ & Hd).
  apply bind_ok in Hd as (ms1 & H1 & Hd). injection Hd as <-.
  assert (stageable current [] ms1 ∧ ∀ m, m ∈ ms1 → sec_Name (mu_Section m) ∈ map sec_Name desired) as [Hst Hin].
  2:{ apply stageable_app. split; [done|]. apply deletes_stageable.
      - unfold stale_names. rewrite sort_strings_perm. apply NoDup_filter_list, NoDup_fst_map_to_list.
      - intros n (Hw&o&Ho&_)%elem_of_stale. split; [|eauto]. cbn. intros (m&->&Hm)%list_elem_of_fmap.
        apply Hin, list_elem_of_fmap in Hm as (d&Ed&Hd). rewrite Ed, (wanted_lookup _ _ Hnd Hd) in Hw. done. }
  setoid_rewrite <- (elem_of_sort_strings _ (map sec_Name desired)). change (sort_strings (map sec_Name desired)) with (sortedSectionNames desired).
  assert (NoDup (sortedSectionNames desired)) as Hns by (unfold sortedSectionNames; by rewrite sort_strings_perm).
  assert (sortedSectionNames desired ⊆ sortedSectionNames desired) as Hsub by done.
  revert Hns Hsub H1. generalize (sortedSectionNames desired) at 1 2 4 5 as ns. intros ns Hns Hsub.
  revert ms1. induction ns as [|name ns IH] using rev_ind; intros ms1.
  { intros [= <-]. split; [done|set_solver]. }
  intros (acc & Hacc & Hf)%foldM_snoc. apply NoDup_app in Hns as (Hns&Hfresh&_).
  apply bind_ok in Hf as (one & Hone & Hf). injection Hf as <-.
  destruct (IH Hns ltac:(set_solver) _ Hacc) as [A B].
  destruct (diff_one_stageable acc name one) as [A1 B1]; [|set_solver|done|].
  - unfold names. rewrite list_elem_of_fmap. intros (m&->&Hm). by apply (Hfresh _ (B _ Hm)), list_elem_of_singleton.
  - split; [by apply stageable_app|]. intros m [Hm|Hm]%elem_of_app; apply elem_snoc; [left; auto|right; auto].
Qed.
End staging.

Lemma scoped_lookup `{GoUnicode} pkg current desired n :
  scoped pkg current desired !! n
  = match current !! n with
    | Some o => if (pkg == "firewall") && negb (in_scope desired n o) then None else Some o
    | None => None end.
Proof.
  unfold scoped, FirewallScope. case_bool_decide; [|by destruct (current !! n)].
  rewrite map_lookup_filter. destruct (current !! n) as [o|]; [|done]. cbn.
  destruct (in_scope desired n o); cbn; done.
Qed.

Lemma scoped_desired `{GoUnicode} pkg current desired d : d ∈ desired →
  scoped pkg current desired !! sec_Name d = current !! sec_Name d.
Proof.
  intros Hd. rewrite scoped_lookup. destruct (current !! sec_Name d) as [o|]; [|done].
  assert (in_scope desired (sec_Name d) o = true) as ->; [|by rewrite andb_false_r].
  unfold in_scope. rewrite bool_decide_eq_true_2; [done|]. apply elem_of_app. left. apply list_elem_of_fmap. eauto.
Qed.

(** ** The specification of a staged package *)

(** What a package holds once its desired sections are staged: each desired section
    (kept if it already says the same); no managed section in scope that is no longer
    desired; everything else as it was.  The scope limits the firewall package only. *)
Definition target `{GoUnicode} (pkg : string) (whole : Package) (desired : list Section_) (name : string) : option UCISection :=
  match wanted_map desired !! name, whole !! name with
  | Some d, Some o => if sameSection o d then Some o else Some (as_uci d)
  | Some d, None => Some (as_uci d)
  | None, Some o => if ((pkg != "firewall") || in_scope desired name o) && managedStaleSection name o then None else Some o
  | None, None => None
  end.

Lemma target_scoped `{GoUnicode} pkg whole desired name :
  target pkg whole desired name =
    if decide (scoped pkg whole desired !! name = whole !! name) then reconciled (scoped pkg whole desired) desired name
    else whole !! name.
Proof.
  pose proof (scoped_lookup pkg whole desired name) as Hsc. unfold target, reconciled.
  destruct (decide (scoped pkg whole desired !! name = whole !! name)) as [Hn|Hn].
  - rewrite Hn in *. destruct (wanted_map desired !! name); [done|]. destruct (whole !! name) as [o|]; [|done].
    assert ((pkg != "firewall") || in_scope desired name o = true) as ->; [|done].
    destruct (pkg == "firewall"), (in_scope desired name o); done.
  - assert (wanted_map desired !! name = None) as ->.
    { destruct (wanted_map desired !! name) eqn:Ew; [|done]. apply wanted_inv in Ew as [Hd <-].
      destruct Hn. by apply scoped_desired. }
    destruct (whole !! name) as [o|]; [|done].
    assert ((pkg != "firewall") || in_scope desired name o = false) as ->; [|done].
    destruct (pkg == "firewall"), (in_scope desired name o); cbn in *; congruence.
Qed.

Lemma target_unchanged `{GoUnicode} pkg whole desired name : NoDup (map sec_Name desired) →
  DiffOwned (scoped pkg whole desired) desired = Ok [] → target pkg whole desired name = whole !! name.
Proof.
  intros Hnd Ed. destruct (DiffOwned_effect _ _ _ Hnd Ed) as [_ He]. rewrite target_scoped.
  destruct (decide (scoped pkg whole desired !! name = whole !! name)) as [Hn|Hn]; [|done].
  by rewrite <- He, <- Hn.
Qed.

(** The change computed on the package in scope can be staged on the whole one. *)
Lemma stage_plan `{GoUnicode} pkg (whole : Package) desired ms :
  NoDup (map sec_Name desired) → Forall section_wf desired →
  (∀ name o, whole !! name = Some o → well_formed (uci_Options o) (uci_Lists o)) →
  DiffOwned (scoped pkg whole desired) desired = Ok ms →
  stageable (scoped pkg whole desired) [] ms
  ∧ ∀ m, m ∈ ms → scoped pkg whole desired !! sec_Name (mu_Section m) = whole !! sec_Name (mu_Section m).
Proof.
  intros Hnd Hwf Hcur Ed. split.
  - eapply (DiffOwned_stageable (scoped pkg whole desired) desired); [done..| |done].
    intros m o Ho. rewrite scoped_lookup in Ho. destruct (whole !! m) as [o'|] eqn:E; [|done].
    case_match; [done|]. injection Ho as <-. by eapply Hcur.
  - destruct (DiffOwned_effect _ _ _ Hnd Ed) as [Hnames _]. intros m [Hm|(o&Ho&_)]%Hnames.
    + apply list_elem_of_fmap in Hm as (d&->&Hd). by apply scoped_desired.
    + rewrite Ho. rewrite scoped_lookup in Ho. destruct (whole !! _); [|done]. by case_match.
Qed.

(** ** A provider whose calls succeed *)

Class UciWriterLive (S : Type) `{UciWriter S} (view : S → string → Package) := {
  add_live pkg ty name s : view s pkg !! name = None → ∃ s', UCIAddNamed pkg ty name s = (s', Ok name);
  set_live pkg name k v s : is_Some (view s pkg !! name) → ∃ s', UCISet pkg name k v s = (s', Ok tt);
  setlist_live pkg name k vs s : is_Some (view s pkg !! name) → ∃ s', UCISetList pkg name k vs s = (s', Ok tt);
  delete_live pkg name k s : is_Some (view s pkg !! name) → ∃ s', UCIDelete pkg name k s = (s', Ok tt);
}.

Section live.
Context {S : Type} {W : UciWriter S} (view : S → string → Package)
  {L : UciWriterLaws S view} {V : UciWriterLive S view}.

Lemma run_edits_live pkg name es s : Forall edit_ok es → is_Some (view s pkg !! name) →
  ∃ s', forM_ (run_edit pkg name) es s = (s', Ok tt).
Proof.
  intros He. revert s. induction He as [|e es He Hes IH]; intros s Hs; [by exists s|].
  assert (∃ s1, run_edit pkg name e s = (s1, Ok tt)) as [s1 H1].
  { unfold run_edit, call, wrap_err. destruct (ed_Op e).
    - destruct (set_live pkg name (ed_Key e) value s Hs) as [s1 ->]. eauto.
    - destruct (setlist_live pkg name (ed_Key e) values s Hs) as [s1 ->]. eauto.
    - destruct (delete_live pkg name (ed_Key e) s Hs) as [s1 ->]. eauto. }
  destruct (IH s1) as [s2 H2].
  { rewrite (run_edit_ok _ _ _ _ _ _ He H1), lookup_alter_eq. by apply fmap_is_Some. }
  exists s2. cbn. unfold mbind, M_bind. by rewrite H1.
Qed.

Lemma stage_mutation_live pkg current m s : stage_pre current (view s pkg) m →
  ∃ s', stage_mutation pkg current m s = (s', Ok tt).
Proof.
  unfold stage_pre, stage_mutation. destruct m as [[] d]; cbn.
  - intros [Hd Hn]. destruct (add_live pkg (sec_Type d) (sec_Name d) s Hn) as [s1 H1].
    destruct (run_edits_live pkg (sec_Name d) (section_edits d None) s1) as [s2 H2].
    { by apply section_edits_ok. }
    { erewrite add_view by done. rewrite lookup_insert_eq. eauto. }
    exists s2. unfold mbind, M_bind, call, wrap_err. rewrite H1, bool_decide_eq_true_2 by done. exact H2.
  - intros (Hd&o&Ho&Hv&Ht&Hwf). rewrite Ho. change (default (mkUCI "" ∅ ∅) (Some o)) with o.
    destruct (run_edits_live pkg (sec_Name d) (section_edits d (Some o)) s) as [s2 H2].
    { by apply section_edits_ok. }
    { eauto. }
    exists s2. unfold writeSection, mbind, M_bind. rewrite bool_decide_eq_true_2 by done. exact H2.
  - intros Hs. destruct (delete_live pkg (sec_Name d) "" s Hs) as [s1 H1].
    exists s1. unfold call, wrap_err. by rewrite H1.
Qed.

Lemma forM_snoc_live {A} (f : A → M S StageError unit) xs x s s1 s2 : forM_ f xs s = (s1, Ok tt) → f x s1 = (s2, Ok tt) →
  forM_ f (xs ++ [x]) s = (s2, Ok tt).
Proof.
  revert s. induction xs as [|y xs IH]; intros s.
  - intros [= <-] Hx. cbn. unfold mbind, M_bind. by rewrite Hx.
  - intros (s'&[]&Hy&Hr)%M_bind_ok Hx. cbn. unfold mbind, M_bind. rewrite Hy. by apply IH.
Qed.

Lemma stage_all_live (P : string → Prop) pkg current ms s :
  (∀ n, P n → view s pkg !! n = current !! n) →
  (∀ m, m ∈ ms → P (sec_Name (mu_Section m))) →
  stageable current [] ms → ∃ s', forM_ (stage_mutation pkg current) ms s = (s', Ok tt).
Proof.
  intros Hu. induction ms as [|m ms IH] using rev_ind; intros HP Hst; [by exists s|].
  apply stageable_app in Hst as [Hms [Hm _]]. destruct IH as [s1 H1]; [|done|].
  { intros m' Hm'. apply HP, elem_snoc. by left. }
  assert (∀ n, P n → view s pkg !! n ≡ apply_mutations current [] !! n) as HP1 by (intros n Hn; by rewrite <- Hu).
  assert (∀ n, P n → n ∉ names [] → view s pkg !! n = current !! n) as HP2 by auto.
  assert (∀ m', m' ∈ ms → P (sec_Name (mu_Section m'))) as HP3 by (intros m' Hm'; apply HP, elem_snoc; by left).
  destruct (stage_all_ok view P _ _ _ _ _ _ HP1 HP2 HP3 Hms H1) as (A&C&B).
  destruct (stage_mutation_live pkg current m s1) as [s2 H2].
  { apply (stage_pre_of P current ms); [done|done| |done]. apply HP, elem_snoc. by right. }
  exists s2. by eapply forM_snoc_live.
Qed.
End live.

(** ** Properties *)

(** C29. Staging refines the abstract change: whenever [StageOwned] succeeds on any
    lawful provider, starting from what the provider held, the provider then holds
    every desired section exactly as desired (empty lists counted as absent), has
    lost every managed section in scope that is no longer desired, and holds
    everything else as before; the returned count is that of [DiffOwned]. *)
Theorem StageOwned_refines `{GoUnicode} {S : Type} {W : UciWriter S} (view : S → string → Package)
    {L : UciWriterLaws S view} pkg desired s s' n :
  NoDup (map sec_Name desired) → Forall section_wf desired →
  (∀ name o, view s pkg !! name = Some o → well_formed (uci_Options o) (uci_Lists o)) →
  StageOwned pkg (view s pkg) desired s = (s', Ok n) →
  (∃ ms, DiffOwned (scoped pkg (view s pkg) desired) desired = Ok ms ∧ n = Z.of_nat (length ms))
  ∧ ∀ name, view s' pkg !! name ≡ target pkg (view s pkg) desired name.
Proof.
  intros Hnd Hwf Hcur (s1&ms&H1&H2)%M_bind_ok. apply M_bind_ok in H2 as (s2&[]&H2&H3).
  unfold of_result in H1. destruct (DiffOwned _ _) as [ms'|] eqn:Ed; [|done]. injection H1 as <- <-. injection H3 as <- <-.
  split; [by exists ms'|].
  destruct (stage_plan _ _ _ _ Hnd Hwf Hcur Ed) as [Hst HP].
  destruct (DiffOwned_effect _ _ _ Hnd Ed) as [_ He]. intros name.
  set (P n := scoped pkg (view s pkg) desired !! n = view s pkg !! n) in *.
  set (current := scoped pkg (view s pkg) desired) in *.
  assert (∀ n, P n → view s pkg !! n ≡ apply_mutations current [] !! n) as HP1 by (intros n Hn; by rewrite <- Hn).
  assert (∀ n, P n → n ∉ names [] → view s pkg !! n = current !! n) as HP2 by done.
  destruct (stage_all_ok view P _ _ _ _ _ _ HP1 HP2 HP Hst H2) as (A&_&B).
  rewrite target_scoped. fold current.
  destruct (decide (current !! name = view s pkg !! name)) as [Hn|Hn]; [rewrite (A name Hn); by rewrite He|by rewrite (B name Hn)].
Qed.

(** Staging never gets stuck half way: on a lawful provider whose calls on
    existing sections succeed (and that creates a section only under a free name),
    every change that [DiffOwned] accepts is staged to its end. *)
Theorem StageOwned_succeeds `{GoUnicode} {S : Type} {W : UciWriter S} (view : S → string → Package)
    {L : UciWriterLaws S view} {V : UciWriterLive S view} pkg desired s ms :
  NoDup (map sec_Name desired) → Forall section_wf desired →
  (∀ name o, view s pkg !! name = Some o → well_formed (uci_Options o) (uci_Lists o)) →
  DiffOwned (scoped pkg (view s pkg) desired) desired = Ok ms →
  ∃ s', StageOwned pkg (view s pkg) desired s = (s', Ok (Z.of_nat (length ms))).
Proof.
  intros Hnd Hwf Hcur Ed. destruct (stage_plan _ _ _ _ Hnd Hwf Hcur Ed) as [Hst HP].
  destruct (stage_all_live view (fun n => scoped pkg (view s pkg) desired !! n = view s pkg !! n)
    pkg (scoped pkg (view s pkg) desired) ms s) as [s' Hs']; [by intros|done..|].
  exists s'. unfold StageOwned, mbind, M_bind. rewrite Ed. cbn -[forM_]. by rewrite Hs'.
Qed.

(** ** A provider in memory *)

Abbreviation MemStore := (gmap string Package).
Definition mem_view (s : MemStore) (pkg : string) : Package := default ∅ (s !! pkg).
Definition mem_update (f : UCISection → UCISection) (pkg name : string) (s : MemStore) : MemStore * result string unit :=
  match mem_view s pkg !! name with
  | Some _ => (<[pkg := alter f name (mem_view s pkg)]> s, Ok tt)
  | None => (s, Err "Not found")
  end.

#[export] Instance mem_writer : UciWriter MemStore := {
  UCIAddNamed pkg ty name s :=
    match mem_view s pkg !! name with
    | Some _ => (s, Err "Invalid argument")
    | None => (<[pkg := <[name := mkUCI ty ∅ ∅]> (mem_view s pkg)]> s, Ok name)
    end;
  UCISet pkg name k v := mem_update (set_option k v) pkg name;
  UCISetList pkg name k vs := mem_update (set_list k vs) pkg name;
  UCIDelete pkg name k s :=
    if k == "" then match mem_view s pkg !! name with
                    | Some _ => (<[pkg := delete name (mem_view s pkg)]> s, Ok tt)
                    | None => (s, Err "Not found") end
    else mem_update (remove_key k) pkg name s;
  UCIApply _ s := (s, Ok tt);
}.

Lemma mem_view_insert s pkg p : mem_view (<[pkg := p]> s) pkg = p.
Proof. unfold mem_view. by rewrite lookup_insert_eq. Qed.
Lemma mem_update_ok f pkg name s s' : mem_update f pkg name s = (s', Ok tt) → mem_view s' pkg = alter f name (mem_view s pkg).
Proof. unfold mem_update. case_match; [|done]. intros [= <-]. apply mem_view_insert. Qed.
Lemma mem_update_live f pkg name s : is_Some (mem_view s pkg !! name) → ∃ s', mem_update f pkg name s = (s', Ok tt).
Proof. intros [o Ho]. unfold mem_update. rewrite Ho. eauto. Qed.

#[export] Instance mem_writer_laws : UciWriterLaws MemStore mem_view.
Proof.
  split; cbn.
  - intros pkg ty name s s' created. case_match; [done|]. intros [= <- <-] _. apply mem_view_insert.
  - intros. by apply mem_update_ok.
  - intros. by apply mem_update_ok.
  - intros pkg name k s s'. case_bool_decide; [done|]. intros ? _. by apply mem_update_ok.
  - intros pkg name s s'. rewrite bool_decide_eq_true_2 by done. case_match; [|done]. intros [= <-]. apply mem_view_insert.
Qed.

#[export] Instance mem_writer_live : UciWriterLive MemStore mem_view.
Proof.
  split; cbn.
  - intros pkg ty name s ->. eauto.
  - intros. by apply mem_update_live.
  - intros. by apply mem_update_live.
  - intros pkg name k s Hs. case_bool_decide; [|by apply mem_update_live]. destruct Hs as [o ->]. eauto.
Qed.

(** The sample change of the reconciler, staged. *)
Definition sample_store : MemStore := {[ "firewall" := sample_current ]}.

Definition well_formedb (options : gmap string string) (ls : gmap string (list string)) : bool :=
  forallb (fun kv : string * string => bool_decide (ls !! kv.1 = None)) (map_to_list options)
  && bool_decide (options !! "" = None) && bool_decide (ls !! "" = None).
Definition section_wfb (s : Section_) : bool :=
  well_formedb (sec_Options s) (sec_Lists s)
  && forallb (fun kv : string * string => kv.2 != "") (map_to_list (sec_Options s)).

Lemma well_formedb_ok o l : well_formedb o l = true → well_formed o l.
Proof.
  unfold well_formedb. intros. bools. split; [|done]. intros k [v Hv]. rewrite forallb_forall in *.
  apply elem_of_map_to_list, list_elem_of_In in Hv. specialize (H _ Hv). by bools.
Qed.
Lemma section_wfb_ok s : section_wfb s = true → section_wf s.
Proof.
  unfold section_wfb. intros. bools. split; [by apply well_formedb_ok|]. intros k v Hv. rewrite forallb_forall in *.
  apply elem_of_map_to_list, list_elem_of_In in Hv. specialize (H0 _ Hv). by bools.
Qed.

Lemma sample_desired_wf : Forall section_wf sample_desired.
Proof.
  assert (forallb section_wfb sample_desired = true) as H by by vm_compute.
  rewrite forallb_forall in H. apply Forall_forall. intros s Hs. apply section_wfb_ok, H. by apply list_elem_of_In.
Qed.
Lemma sample_current_wf name o : mem_view sample_store "firewall" !! name = Some o → well_formed (uci_Options o) (uci_Lists o).
Proof.
  assert (forallb (fun kv : string * UCISection => well_formedb (uci_Options kv.2) (uci_Lists kv.2))
    (map_to_list (mem_view sample_store "firewall")) = true) as H by by vm_compute.
  rewrite forallb_forall in H. intros Hv. apply elem_of_map_to_list, list_elem_of_In in Hv.
  apply well_formedb_ok, (H _ Hv).
Qed.
Definition sample_run : MemStore * result StageError Z :=
  @StageOwned _ mem_writer ascii_only "firewall" (mem_view sample_store "firewall") sample_desired sample_store.
Lemma sample_run_ok : sample_run.2 = Ok 3.
Proof. by vm_compute. Qed.
Lemma sample_diff_scoped : is_ok (@DiffOwned ascii_only
  (@scoped ascii_only "firewall" (mem_view sample_store "firewall") sample_desired) sample_desired) = true.
Proof. by vm_compute. Qed.

Theorem StageOwned_refines_witness : ∃ s', sample_run = (s', Ok 3)
  ∧ ∃ ms, @DiffOwned ascii_only (@scoped ascii_only "firewall" (mem_view sample_store "firewall") sample_desired)
      sample_desired = Ok ms ∧ 3 = Z.of_nat (length ms).
Proof.
  pose proof sample_run_ok as Hok. destruct sample_run as [s' r] eqn:E. exists s'.
  cbn in Hok. subst r. split; [reflexivity|].
  exact (proj1 (@StageOwned_refines ascii_only MemStore mem_writer mem_view mem_writer_laws "firewall" sample_desired
    sample_store s' 3 sample_names sample_desired_wf sample_current_wf E)).
Defined.

Theorem StageOwned_succeeds_witness : ∃ ms s',
  @DiffOwned ascii_only (@scoped ascii_only "firewall" (mem_view sample_store "firewall") sample_desired) sample_desired = Ok ms
  ∧ sample_run = (s', Ok (Z.of_nat (length ms))).
Proof.
  destruct (@DiffOwned ascii_only (@scoped ascii_only "firewall" (mem_view sample_store "firewall") sample_desired)
    sample_desired) as [ms|e] eqn:E; [|pose proof sample_diff_scoped as Hs; rewrite E in Hs; discriminate Hs].
  destruct (@StageOwned_succeeds ascii_only MemStore mem_writer mem_view mem_writer_laws mem_writer_live "firewall"
    sample_desired sample_store ms sample_names sample_desired_wf sample_current_wf E) as [s' Hs].
  exists ms, s'. split; [reflexivity|exact Hs].
Defined.
End FwStage.
