(* ===== verification/FwAppliance.v ===== *)
(** * Firewall module: the ordered appliance change ([appliance_reconcile.go])

    [ReconcileAppliance] reads five packages, and writes, commits and activates them
    in dependency order around the caller's verification gates.  The order is the
    safety property; it is stated with a log of the calls ([logged]) and an
    automaton of the allowed orders ([next]). *)

From S2P Require Export FwStage FwCompose.

Open Scope Z_scope.

Module FwAppliance.
Import FwSection FwDesired FwReconcile FwStage FwCompose.

(** ** The provider and the verification gates *)

Class ApplianceProvider (S : Type) := {
  ap_writer :: UciWriter S;
  UCIGet : string → S → S * result string Package;
  UCICommit : string → S → S * result string unit;
  ServiceConfigChange : string → S → S * result string unit;
  ReloadFirewall : S → S * result string unit;
}.

(** A callback may act on the state; [None] is Go's nil. *)
Record ApplianceVerifyCallbacks (S : Type) := mkVerify {
  SafetyBeforeNetwork : option (S → S * result string unit);
  NetworkReady : option (S → S * result string unit);
  SafetyAfterNetwork : option (S → S * result string unit);
  RuntimeReapply : option (S → S * result string unit);
}.
Arguments mkVerify {S}.
Arguments SafetyBeforeNetwork {S}. Arguments NetworkReady {S}.
Arguments SafetyAfterNetwork {S}. Arguments RuntimeReapply {S}.

Inductive ApplianceError :=
| MissingCallbacks | ReadFailed (pkg msg : string)
| DefaultsConflict | DefaultsCount (found : Z)
| PrepareFailed (pkg : string) (e : DiffError)
| StageFailed (e : StageError) | CommitFailed (pkg msg : string) | ActivateFailed (pkg msg : string)
| VerifyFailed (label msg : string) | ReapplyFailed (label msg apply : string) | RetryFailed (label msg : string)
| ReloadFailed (msg : string).

(** Go returns the changes counted so far next to the error. *)
Definition Error : Type := Z * ApplianceError.

(** ** [validateFirewallDefaults] *)

Definition required_defaults : list (string * string) :=
  [("auto_includes", "1"); ("flow_offloading", "0"); ("flow_offloading_hw", "0")].

Definition defaults_conflict (s : UCISection) : bool :=
  (uci_Type s == "defaults")
  && existsb (fun kv : string * string =>
       match uci_Options s !! kv.1 with Some got => got != kv.2 | None => false end) required_defaults.

(** Both errors can apply; a conflict is met first, in whatever order the map is walked. *)
Definition validateFirewallDefaults (current : Package) : result ApplianceError unit :=
  let count := Z.of_nat (length (List.filter (fun kv : string * UCISection => uci_Type kv.2 == "defaults") (map_to_list current))) in
  _ ← fail_if (existsb (fun kv : string * UCISection => defaults_conflict kv.2) (map_to_list current)) DefaultsConflict;
  fail_if (count != 1) (DefaultsCount count).

Definition totalMutations (all : gmap string (list Mutation)) : Z :=
  map_fold (fun _ changes total => Z.of_nat (length changes) + total) 0 all.

Definition sectionFor (composition : ApplianceComposition) (name : string) : list Section_ :=
  if name == "system" then ac_System composition
  else if name == "stubby" then ac_Stubby composition
  else if name == "dhcp" then ac_DHCP composition
  else [].

Definition packages (c : ApplianceComposition) : list (string * list Section_) :=
  [("firewall", ds_Firewall (ac_Desired c)); ("network", ds_Network (ac_Desired c));
   ("system", ac_System c); ("stubby", ac_Stubby c); ("dhcp", ac_DHCP c)].

Section appliance.
Context {S : Type} `{ApplianceProvider S} `{GoUnicode}.

(** [if err := f(ctx); err != nil { return changed, wrap(err) }] *)
Definition check (changed : Z) (wrap : string → ApplianceError) (op : S → S * result string unit) : M S Error unit :=
  wrap_err (fun msg => (changed, wrap msg)) op.

Definition verifyRuntime (verify : S → S * result string unit) (reapply : option (S → S * result string unit))
    (label : string) : M S Error unit := fun s =>
  match verify s with
  | (s1, Ok _) => (s1, Ok tt)
  | (s1, Err err) =>
      match reapply with
      | None => (s1, Err (0, VerifyFailed label err))
      | Some reapply =>
          (_ ← check 0 (ReapplyFailed label err) reapply; check 0 (RetryFailed label) verify) s1
      end
  end.

Definition prepare (name : string) (observed : Package) (desired : list Section_) : result DiffError (list Mutation) :=
  if name == "firewall" then DiffFirewall observed desired else DiffOwned observed desired.

Definition read_package (acc : gmap string Package * gmap string (list Mutation)) (item : string * list Section_)
    : M S Error (gmap string Package * gmap string (list Mutation)) :=
  let '(current, changes) := acc in
  let '(name, desired) := item in
  observed ← wrap_err (fun msg => (0, ReadFailed name msg)) (UCIGet name);
  _ ← (if name == "firewall" then of_result (fun e => (0, e)) (validateFirewallDefaults observed) else mret tt);
  mutations ← of_result (fun e => (0, PrepareFailed name e)) (prepare name observed desired);
  mret (<[name := observed]> current, <[name := mutations]> changes).

(** Stage, commit and activate one package, if it changes. *)
Definition apply_package (current : gmap string Package) (changes : gmap string (list Mutation))
    (activate : S → S * result string unit) (desired : list Section_) (changed : Z) (name : string) : M S Error Z :=
  let n := default [] (changes !! name) in
  if (length n =? 0)%nat then mret changed
  else
    _ ← wrap_err (fun e => (changed, StageFailed e)) (StageOwned name (default ∅ (current !! name)) desired);
    _ ← check changed (CommitFailed name) (UCICommit name);
    _ ← check changed (ActivateFailed name) activate;
    mret (changed + Z.of_nat (length n)).

Definition ReconcileAppliance (composition : ApplianceComposition) (verify : ApplianceVerifyCallbacks S) : M S Error Z :=
  match SafetyBeforeNetwork verify, NetworkReady verify, SafetyAfterNetwork verify with
  | Some safetyBefore, Some networkReady, Some safetyAfter =>
      '(current, changes) ← foldS read_package (∅, ∅) (packages composition);
      if totalMutations changes =? 0 then
        _ ← verifyRuntime safetyBefore (RuntimeReapply verify) "existing firewall safety";
        _ ← check 0 (VerifyFailed "existing network readiness") networkReady;
        _ ← check 0 (VerifyFailed "existing firewall safety after network") safetyAfter;
        mret 0
      else
        changed ← apply_package current changes ReloadFirewall (ds_Firewall (ac_Desired composition)) 0 "firewall";
        _ ← check changed (VerifyFailed "firewall safety before network") safetyBefore;
        changed ← apply_package current changes (ServiceConfigChange "network") (ds_Network (ac_Desired composition)) changed "network";
        _ ← check changed (VerifyFailed "network readiness") networkReady;
        _ ← check changed ReloadFailed ReloadFirewall;
        _ ← check changed (VerifyFailed "firewall safety after network") safetyAfter;
        foldS (fun changed name =>
            apply_package current changes (ServiceConfigChange name) (sectionFor composition name) changed name)
          changed ["system"; "stubby"; "dhcp"]
  | _, _, _ => fail (0, MissingCallbacks)
  end.
End appliance.

(** ** The log of the calls *)

Inductive Gate := GateSafetyBefore | GateNetworkReady | GateSafetyAfter | GateReapply.
#[export] Instance Gate_eq_dec : EqDecision Gate.
Proof. solve_decision. Defined.

Inductive Call :=
| CallRead (pkg : string) | CallWrite (pkg : string) | CallCommit (pkg : string)
| CallActivate (service : string) | CallReload | CallVerify (g : Gate) | CallApply.
(** What was called and whether it succeeded. *)
Record Event := mkEvent { ev_call : Call; ev_ok : bool }.

(** Any provider can be run with a log beside its state. *)
Definition log_call {S A} (c : Call) (op : S → S * result string A) (st : S * list Event)
    : (S * list Event) * result string A :=
  let '(s, log) := st in
  let '(s', r) := op s in ((s', log ++ [mkEvent c (is_ok r)]), r).

#[export] Instance logged_writer (S : Type) `{UciWriter S} : UciWriter (S * list Event) := {
  UCIAddNamed pkg ty name := log_call (CallWrite pkg) (UCIAddNamed pkg ty name);
  UCISet pkg name k v := log_call (CallWrite pkg) (UCISet pkg name k v);
  UCISetList pkg name k vs := log_call (CallWrite pkg) (UCISetList pkg name k vs);
  UCIDelete pkg name k := log_call (CallWrite pkg) (UCIDelete pkg name k);
  UCIApply t := log_call CallApply (UCIApply t);
}.
#[export] Instance logged (S : Type) `{ApplianceProvider S} : ApplianceProvider (S * list Event) := {
  ap_writer := logged_writer S;
  UCIGet pkg := log_call (CallRead pkg) (UCIGet pkg);
  UCICommit pkg := log_call (CallCommit pkg) (UCICommit pkg);
  ServiceConfigChange service := log_call (CallActivate service) (ServiceConfigChange service);
  ReloadFirewall := log_call CallReload ReloadFirewall;
}.
Definition log_verify {S} (v : ApplianceVerifyCallbacks S) : ApplianceVerifyCallbacks (S * list Event) :=
  mkVerify (log_call (CallVerify GateSafetyBefore) <$> SafetyBeforeNetwork v)
           (log_call (CallVerify GateNetworkReady) <$> NetworkReady v)
           (log_call (CallVerify GateSafetyAfter) <$> SafetyAfterNetwork v)
           (log_call (CallVerify GateReapply) <$> RuntimeReapply v).

(** ** The allowed orders *)

Inductive Phase :=
| Reading | Staging (pkg : string) | Committed (pkg : string) | FirewallActive
| Unsafe | Reapplied | Safe | NetworkActive | Ready | Reloaded | Guarded | Stopped.
#[export] Instance Phase_eq_dec : EqDecision Phase.
Proof. solve_decision. Defined.

(** Where staging a package may start, and where its activation leads. *)
Definition stages_from (pkg : string) : Phase :=
  if pkg == "firewall" then Reading else if pkg == "network" then Safe else Guarded.
Definition activated (pkg : string) : Phase :=
  if pkg == "firewall" then FirewallActive else if pkg == "network" then NetworkActive else Guarded.

(** [changing] tells a run that found something to change from one that did not.
    A failed call ends the run, but for the safety gate of an unchanged appliance. *)
Definition next (changing : bool) (p : Phase) (e : Event) : option Phase :=
  match ev_call e, ev_ok e with
  | CallRead _, ok => if p == Reading then Some (if ok then Reading else Stopped) else None
  | CallWrite pkg, ok =>
      if changing && ((p == stages_from pkg) || (p == Staging pkg)) then Some (if ok then Staging pkg else Stopped) else None
  | CallCommit pkg, ok =>
      if changing && ((p == stages_from pkg) || (p == Staging pkg)) then Some (if ok then Committed pkg else Stopped) else None
  | CallActivate pkg, ok =>
      if (p == Committed pkg) && (pkg != "firewall") then Some (if ok then activated pkg else Stopped) else None
  | CallReload, ok =>
      if p == Committed "firewall" then Some (if ok then FirewallActive else Stopped)
      else if changing && (p == Ready) then Some (if ok then Reloaded else Stopped) else None
  | CallVerify GateSafetyBefore, ok =>
      match p with
      | Reading => Some (if ok then Safe else if changing then Stopped else Unsafe)
      | FirewallActive | Reapplied => Some (if ok then Safe else Stopped)
      | _ => None
      end
  | CallVerify GateReapply, ok => if p == Unsafe then Some (if ok then Reapplied else Stopped) else None
  | CallVerify GateNetworkReady, ok =>
      match p with Safe | NetworkActive => Some (if ok then Ready else Stopped) | _ => None end
  | CallVerify GateSafetyAfter, ok =>
      match p with
      | Ready => if changing then None else Some (if ok then Guarded else Stopped)
      | Reloaded => Some (if ok then Guarded else Stopped)
      | _ => None
      end
  | CallApply, _ => None
  end.

Definition accepts (changing : bool) (log : list Event) : option Phase :=
  foldl (fun p e => p ← p; next changing p e) (Some Reading) log.

Lemma accepts_snoc c log e : accepts c (log ++ [e]) = (p ← accepts c log; next c p e).
Proof. unfold accepts. by rewrite foldl_snoc. Qed.

(** ** Lemmas: counting *)

Lemma totalMutations_insert k ms all : all !! k = None →
  totalMutations (<[k := ms]> all) = Z.of_nat (length ms) + totalMutations all.
Proof. intros Hk. unfold totalMutations. rewrite map_fold_insert_L; [done| |done]. intros. lia. Qed.

Lemma totalMutations_nonneg all : 0 ≤ totalMutations all.
Proof.
  induction all as [|k ms all Hk _ IH] using map_first_key_ind; [by unfold totalMutations; rewrite map_fold_empty|].
  rewrite totalMutations_insert by done. lia.
Qed.

(** ** Lemmas: runs of logged code *)

Section runs.
Context {S : Type} `{ApplianceProvider S} `{GoUnicode}.

(** From a log that reaches [p], [m] only makes allowed calls; when it succeeds,
    the result and the phase it reaches satisfy [Q]. *)
Definition runs {E A} (c : bool) (p : Phase) (m : M (S * list Event) E A) (Q : A → Phase → Prop) : Prop :=
  ∀ s log, accepts c log = Some p →
    match m (s, log) with
    | ((_, log'), Ok a) => ∃ p', accepts c log' = Some p' ∧ Q a p'
    | ((_, log'), Err _) => is_Some (accepts c log')
    end.

Lemma runs_ret {E A} c p (a : A) (Q : A → Phase → Prop) : Q a p → runs c p (mret a : M _ E A) Q.
Proof. intros HQ s log Hl. exists p. done. Qed.

Lemma runs_bind {E A B} c p (m : M (S * list Event) E A) (f : A → M _ E B) Q R :
  runs c p m Q → (∀ a p', Q a p' → runs c p' (f a) R) → runs c p (m ≫= f) R.
Proof.
  intros Hm Hf s log Hl. specialize (Hm s log Hl). unfold mbind, M_bind.
  destruct (m (s, log)) as [[s1 log1] [a|e]]; [|done]. destruct Hm as (p1&Hl1&HQ). by apply (Hf a p1 HQ s1 log1).
Qed.

Lemma runs_weaken {E A} c p (m : M (S * list Event) E A) (Q R : A → Phase → Prop) :
  runs c p m Q → (∀ a p', Q a p' → R a p') → runs c p m R.
Proof.
  intros Hm HQ s log Hl. specialize (Hm s log Hl). destruct (m (s, log)) as [[s1 log1] [a|e]]; [|done].
  destruct Hm as (p1&?&?). eauto.
Qed.

Lemma runs_wrap {E1 E2 A} c p (f : E1 → E2) (m : M (S * list Event) E1 A) Q : runs c p m Q → runs c p (wrap_err f m) Q.
Proof.
  intros Hm s log Hl. specialize (Hm s log Hl). unfold wrap_err. by destruct (m (s, log)) as [[s1 log1] [a|e]].
Qed.

Lemma runs_fail {E A} c p (e : E) Q : runs c p (fail e : M _ E A) Q.
Proof. intros s log Hl. cbn. eauto. Qed.

Lemma runs_result {E1 E2 A} c p (f : E1 → E2) (r : result E1 A) (Q : A → Phase → Prop) :
  (∀ a, r = Ok a → Q a p) → runs c p (of_result f r : M _ E2 A) Q.
Proof. intros HQ. destruct r as [a|e]; cbn; [apply runs_ret; auto|apply runs_fail]. Qed.

Lemma runs_call {A} c p k (op : S → S * result string A) p' :
  next c p (mkEvent k true) = Some p' → is_Some (next c p (mkEvent k false)) →
  runs c p (log_call k op) (fun _ q => q = p').
Proof.
  intros Hok Herr s log Hl. unfold log_call. destruct (op s) as [s1 [a|e]]; cbn; rewrite accepts_snoc, Hl; eauto.
Qed.

Lemma runs_forM {E A} c (I : Phase → Prop) (f : A → M (S * list Event) E unit) xs p :
  I p → (∀ x p', x ∈ xs → I p' → runs c p' (f x) (fun _ => I)) → runs c p (forM_ f xs) (fun _ => I).
Proof.
  intros Hp Hf. revert p Hp. induction xs as [|x xs IH]; intros p Hp; [by apply runs_ret|].
  cbn. eapply runs_bind; [apply Hf; [set_solver|done]|]. intros [] p' Hp'. apply IH; [|done].
  intros; apply Hf; [set_solver|done].
Qed.

(** Staging keeps to its package. *)
Definition staging (pkg : string) (p : Phase) : Prop := p = stages_from pkg ∨ p = Staging pkg.

Lemma runs_write {A} pkg p (op : S → S * result string A) : staging pkg p →
  runs true p (log_call (CallWrite pkg) op) (fun _ => staging pkg).
Proof.
  intros Hp. assert ((p == stages_from pkg) || (p == Staging pkg) = true) as Hb.
  { apply orb_true_iff. by rewrite !bool_decide_eq_true. }
  eapply runs_weaken; [eapply (runs_call _ _ _ _ (Staging pkg)); cbn; rewrite Hb; eauto|].
  intros _ q ->. by right.
Qed.

Lemma runs_writeSection pkg d o p : staging pkg p → runs true p (writeSection pkg d o) (fun _ => staging pkg).
Proof.
  intros Hp. unfold writeSection. eapply (runs_bind _ _ _ _ (fun _ => staging pkg)).
  - destruct o; [destruct (_ != _)|]; (apply runs_fail || by apply runs_ret).
  - intros _ p' Hp'. apply (runs_forM true (staging pkg)); [done|]. intros e q _ Hq.
    unfold run_edit, call. apply runs_wrap. destruct (ed_Op e); by apply runs_write.
Qed.

Lemma runs_stage pkg current desired p : staging pkg p →
  runs true p (StageOwned pkg current desired) (fun _ => staging pkg).
Proof.
  intros Hp. unfold StageOwned. eapply (runs_bind _ _ _ _ (fun _ => staging pkg)); [apply runs_result; by intros|].
  intros ms p1 Hp1. eapply (runs_bind _ _ _ _ (fun _ => staging pkg)); [|intros [] q Hq; by apply runs_ret].
  apply (runs_forM true (staging pkg)); [done|]. intros m q _ Hq. unfold stage_mutation. destruct (mu_Kind m).
  - eapply (runs_bind _ _ _ _ (fun _ => staging pkg)); [by apply runs_wrap, runs_write|].
    intros created p2 Hp2. destruct (_ != _); [apply runs_fail|by apply runs_writeSection].
  - by apply runs_writeSection.
  - by apply runs_wrap, runs_write.
Qed.

Lemma runs_apply current changes activate desired changed name :
  runs true (Committed name) activate (fun _ q => q = activated name) →
  runs true (stages_from name) (apply_package current changes activate desired changed name)
    (fun a q => a = changed + Z.of_nat (length (default [] (changes !! name)))
                ∧ (q = activated name ∨ q = stages_from name)).
Proof.
  intros Ha. unfold apply_package. destruct (default [] (changes !! name)) as [|m ms] eqn:En.
  { cbn. apply runs_ret. split; [lia|by right]. }
  cbn [length Nat.eqb]. eapply runs_bind; [by apply runs_wrap, runs_stage; left|]. cbn. intros _ p1 Hp.
  eapply (runs_bind _ _ _ _ (fun _ q => q = Committed name)).
  { apply runs_wrap. apply runs_call; cbn;
      assert ((p1 == stages_from name) || (p1 == Staging name) = true) as ->; eauto;
      apply orb_true_iff; by rewrite !bool_decide_eq_true. }
  intros _ q ->. eapply runs_bind; [by apply runs_wrap|]. intros _ q ->.
  apply runs_ret. split; [done|by left].
Qed.
End runs.

(** ** Lemmas: reading *)

Section reading.
Context {S : Type} `{ApplianceProvider S} `{GoUnicode}.

Definition names_total (names : list string) (changes : gmap string (list Mutation)) : Z :=
  foldr (fun name total => Z.of_nat (length (default [] (changes !! name))) + total) 0 names.

(** What was read of one package: the observation and its change. *)
Definition read_ok (Good : string → Package → Prop) (current : gmap string Package)
    (changes : gmap string (list Mutation)) (item : string * list Section_) : Prop :=
  ∃ observed ms, current !! item.1 = Some observed ∧ changes !! item.1 = Some ms ∧ Good item.1 observed
    ∧ prepare item.1 observed item.2 = Ok ms
    ∧ (item.1 = "firewall" → validateFirewallDefaults observed = Ok tt).

Lemma read_package_ok current changes item s s' acc :
  read_package (current, changes) item s = (s', Ok acc) →
  ∃ observed ms, UCIGet item.1 s = (s', Ok observed) ∧ prepare item.1 observed item.2 = Ok ms
    ∧ (item.1 = "firewall" → validateFirewallDefaults observed = Ok tt)
    ∧ acc = (<[item.1 := observed]> current, <[item.1 := ms]> changes).
Proof.
  destruct item as [name desired]. cbn. intros (s1&o&H1%wrap_err_ok&H2)%M_bind_ok.
  apply M_bind_ok in H2 as (s2&[]&H2&H3). apply M_bind_ok in H3 as (s3&ms&H3&H4). injection H4 as <- <-.
  destruct (prepare name o desired) as [ms'|] eqn:Ep; [|done]. injection H3 as <- <-.
  assert (s2 = s1 ∧ (name = "firewall" → validateFirewallDefaults o = Ok tt)) as [-> Hv].
  { case_bool_decide; [|by injection H2 as <-]. destruct (validateFirewallDefaults o) as [[]|]; [|done].
    by injection H2 as <-. }
  eauto 10.
Qed.

Lemma read_all_ok (Good : string → Package → Prop) (R : S → Prop) items s s' current changes :
  (∀ name s s' o, R s → UCIGet name s = (s', Ok o) → R s' ∧ Good name o) → R s → NoDup items.*1 →
  foldS read_package (∅, ∅) items s = (s', Ok (current, changes)) →
  R s' ∧ Forall (read_ok Good current changes) items ∧ totalMutations changes = names_total items.*1 changes.
Proof.
  intros HR Hs Hnd Hf.
  set (I dn acc s := NoDup dn.*1 → R s ∧ Forall (read_ok Good acc.1 acc.2) dn
    ∧ (∀ n, n ∉ dn.*1 → acc.2 !! n = None) ∧ totalMutations acc.2 = names_total dn.*1 acc.2).
  enough (I items (current, changes) s') as HI by (destruct (HI Hnd) as (?&?&_&?); done).
  revert Hf. apply (foldS_inv _ I); unfold I; clear I.
  - intros _. split_and!; [done|constructor|done|]. apply map_fold_empty.
  - intros dn [name d] [cur ch] s1 acc s2 IH _ (o&ms&Hg&Hp&Hv&->)%read_package_ok Hnd'. cbn in *.
    rewrite fmap_app in Hnd'. apply NoDup_app in Hnd' as (Hnd'&Hfr&_). assert (name ∉ dn.*1) as Hn by set_solver.
    destruct (IH Hnd') as (Hs1&Hall&Hno&Htot). destruct (HR _ _ _ _ Hs1 Hg) as [Hs2 HG].
    split_and!; [done|..].
    + apply Forall_app; split.
      * rewrite Forall_forall in *. intros [n d'] Hin. destruct (Hall _ Hin) as (o'&ms'&Ho&Hm&?&?&?). exists o', ms'.
        assert (name ≠ n). { intros ->. apply Hn, list_elem_of_fmap. by exists (n, d'). }
        cbn in *. by rewrite !lookup_insert_ne.
      * apply Forall_singleton. exists o, ms. cbn. by rewrite !lookup_insert_eq.
    + intros n. rewrite fmap_app. intros Hn'. rewrite lookup_insert_ne by set_solver. apply Hno. set_solver.
    + rewrite totalMutations_insert by auto. rewrite Htot. unfold names_total. rewrite fmap_app, foldr_app. cbn.
      rewrite lookup_insert_eq. cbn. clear -Hn. induction dn as [|[n d'] dn IH]; cbn in *; [lia|].
      rewrite lookup_insert_ne by set_solver. rewrite <- IH by set_solver. lia.
Qed.
End reading.

(** ** Lemmas: the whole run *)

Lemma packages_names c : (packages c).*1 = ["firewall"; "network"; "system"; "stubby"; "dhcp"].
Proof. done. Qed.
Lemma packages_NoDup c : NoDup (packages c).*1.
Proof. rewrite packages_names. apply (bool_decide_unpack _). by vm_compute. Qed.

Section order.
Context {S : Type} `{ApplianceProvider S} `{GoUnicode}.

Lemma runs_foldS {E B A} c p (f : B → A → M (S * list Event) E B) b xs :
  (∀ b x, x ∈ xs → runs c p (f b x) (fun _ q => q = p)) → runs c p (foldS f b xs) (fun _ q => q = p).
Proof.
  revert b. induction xs as [|x xs IH]; intros b Hf; [by apply runs_ret|].
  cbn. eapply runs_bind; [apply Hf; by left|]. intros b' q ->. apply IH. intros; apply Hf; by right.
Qed.

Lemma runs_read c items acc : runs c Reading (foldS (read_package (S:=S * list Event)) acc items) (fun _ q => q = Reading).
Proof.
  apply runs_foldS. intros [cur ch] [name d] _. unfold read_package.
  eapply runs_bind; [apply runs_wrap, (runs_call _ _ _ _ Reading); cbn; eauto|]. intros o q ->.
  eapply (runs_bind _ _ _ _ (fun _ q => q = Reading)).
  { destruct (name == "firewall"); [by apply runs_result|by apply runs_ret]. }
  intros _ q ->. eapply (runs_bind _ _ _ _ (fun _ q => q = Reading)); [by apply runs_result|].
  intros ms q ->. by apply runs_ret.
Qed.

Lemma runs_check c p changed wrap k (op : S → S * result string unit) p' :
  next c p (mkEvent k true) = Some p' → is_Some (next c p (mkEvent k false)) →
  runs c p (check changed wrap (log_call k op)) (fun _ q => q = p').
Proof. intros. by apply runs_wrap, runs_call. Qed.

(** Nothing to change: the gates, and the runtime reapply if the first fails. *)
Lemma runs_verify (before : S → S * result string unit) (reapply : option (S → S * result string unit)) label :
  runs false Reading (verifyRuntime (log_call (CallVerify GateSafetyBefore) before)
    (log_call (CallVerify GateReapply) <$> reapply) label) (fun _ q => q = Safe).
Proof.
  intros s log Hl. unfold verifyRuntime, log_call at 1. destruct (before s) as [s1 [[]|e]]; cbn.
  { rewrite accepts_snoc, Hl. by exists Safe. }
  assert (accepts false (log ++ [mkEvent (CallVerify GateSafetyBefore) false]) = Some Unsafe) as Hl1
    by by rewrite accepts_snoc, Hl.
  destruct reapply as [re|]; cbn [fmap option_fmap option_map]; [|rewrite Hl1; eauto].
  apply (runs_bind false Unsafe _ _ (fun _ q => q = Reapplied)); [by apply runs_check| |done].
  intros _ q ->. by apply runs_check.
Qed.

Lemma runs_unchanged (before ready after : S → S * result string unit) (reapply : option (S → S * result string unit)) :
  runs false Reading
    (_ ← verifyRuntime (log_call (CallVerify GateSafetyBefore) before) (log_call (CallVerify GateReapply) <$> reapply)
           "existing firewall safety";
     _ ← check 0 (VerifyFailed "existing network readiness") (log_call (CallVerify GateNetworkReady) ready);
     _ ← check 0 (VerifyFailed "existing firewall safety after network") (log_call (CallVerify GateSafetyAfter) after);
     mret 0 : M (S * list Event) Error Z) (fun a q => a = 0 ∧ q = Guarded).
Proof.
  eapply runs_bind; [apply runs_verify|]. intros _ q ->.
  eapply runs_bind; [by apply (runs_check _ _ _ _ _ _ Ready)|]. intros _ q ->.
  eapply runs_bind; [by apply (runs_check _ _ _ _ _ _ Guarded)|]. intros _ q ->. by apply runs_ret.
Qed.

Lemma activate_reload : runs true (Committed "firewall") (ReloadFirewall (S:=S * list Event)) (fun _ q => q = activated "firewall").
Proof. by apply runs_call. Qed.
Lemma activate_service name : name ≠ "firewall" →
  runs true (Committed name) (ServiceConfigChange (S:=S * list Event) name) (fun _ q => q = activated name).
Proof. intros Hn. apply runs_call; cbn; rewrite !bool_decide_eq_true_2, bool_decide_eq_false_2 by done; cbn; eauto. Qed.

Definition count (changes : gmap string (list Mutation)) (name : string) : Z :=
  Z.of_nat (length (default [] (changes !! name))).

Lemma runs_services current changes comp changed :
  runs true Guarded
    (foldS (fun changed name =>
        apply_package (S:=S * list Event) current changes (ServiceConfigChange name) (sectionFor comp name) changed name)
      changed ["system"; "stubby"; "dhcp"])
    (fun a q => a = changed + count changes "system" + count changes "stubby" + count changes "dhcp" ∧ q = Guarded).
Proof.
  cbn [foldS].
  eapply runs_bind; [by apply (runs_apply _ _ _ _ _ "system"), activate_service|]. intros a p [-> Hp].
  assert (p = Guarded) as -> by (by destruct Hp).
  eapply runs_bind; [by apply (runs_apply _ _ _ _ _ "stubby"), activate_service|]. intros a p [-> Hp'].
  assert (p = Guarded) as -> by (by destruct Hp').
  eapply runs_bind; [by apply (runs_apply _ _ _ _ _ "dhcp"), activate_service|]. intros a p [-> Hp''].
  assert (p = Guarded) as -> by (by destruct Hp''). apply runs_ret. unfold count. split; [lia|done].
Qed.

Lemma runs_changed current changes comp (before ready after : S → S * result string unit) :
  runs true Reading
    (changed ← apply_package (S:=S * list Event) current changes ReloadFirewall (ds_Firewall (ac_Desired comp)) 0 "firewall";
     _ ← check changed (VerifyFailed "firewall safety before network") (log_call (CallVerify GateSafetyBefore) before);
     changed ← apply_package current changes (ServiceConfigChange "network") (ds_Network (ac_Desired comp)) changed "network";
     _ ← check changed (VerifyFailed "network readiness") (log_call (CallVerify GateNetworkReady) ready);
     _ ← check changed ReloadFailed ReloadFirewall;
     _ ← check changed (VerifyFailed "firewall safety after network") (log_call (CallVerify GateSafetyAfter) after);
     foldS (fun changed name =>
         apply_package current changes (ServiceConfigChange name) (sectionFor comp name) changed name)
       changed ["system"; "stubby"; "dhcp"])
    (fun a q => a = names_total ["firewall"; "network"; "system"; "stubby"; "dhcp"] changes ∧ q = Guarded).
Proof.
  eapply runs_bind; [apply (runs_apply _ _ _ _ _ "firewall"), activate_reload|]. intros a p [-> Hp].
  eapply (runs_bind _ _ _ _ (fun _ q => q = Safe)); [destruct Hp as [-> | ->]; by apply runs_check|]. intros _ q ->.
  eapply runs_bind; [by apply (runs_apply _ _ _ _ _ "network"), activate_service|]. intros a p' [-> Hp'].
  eapply (runs_bind _ _ _ _ (fun _ q => q = Ready)); [destruct Hp' as [-> | ->]; by apply runs_check|]. intros _ q ->.
  eapply (runs_bind _ _ _ _ (fun _ q => q = Reloaded)); [by apply runs_wrap, runs_call|]. intros _ q ->.
  eapply (runs_bind _ _ _ _ (fun _ q => q = Guarded)); [by apply runs_check|]. intros _ q ->.
  eapply runs_weaken; [apply runs_services|]. intros a q [-> ->]. split; [|done]. unfold names_total, count. cbn [foldr]. lia.
Qed.
End order.

(** ** What a successful run leaves in the log *)

Definition wrote (pkg : string) (log : list Event) : Prop := mkEvent (CallWrite pkg) true ∈ log.
Definition committed (pkg : string) (log : list Event) : Prop := mkEvent (CallCommit pkg) true ∈ log.

(** The calls of a package that changes: it is written, and committed. *)
Definition changed_in (n : Z) (valued : Prop) (pkg : string) (log : list Event) : Prop :=
  0 < n → committed pkg log ∧ (valued → wrote pkg log).

(** No option of a desired section has an empty value. *)
Definition valued (desired : list Section_) : Prop :=
  ∀ d k v, d ∈ desired → sec_Options d !! k = Some v → v ≠ "".

Section leaving.
Context {S : Type} `{ApplianceProvider S} `{GoUnicode}.

(** The triple of a successful run of logged code, over the log. *)
Definition leaves {E A} (P : list Event → Prop) (m : M (S * list Event) E A) (Q : A → list Event → Prop) : Prop :=
  ∀ s log s' log' a, P log → m (s, log) = ((s', log'), Ok a) → Q a log'.
Definition lasting (P : list Event → Prop) : Prop := ∀ log e, P log → P (log ++ [e]).

Lemma wrote_lasting pkg : lasting (wrote pkg).
Proof. intros log e Hin. apply elem_snoc. by left. Qed.
Lemma committed_lasting pkg : lasting (committed pkg).
Proof. intros log e Hin. apply elem_snoc. by left. Qed.
Lemma changed_in_lasting n v pkg : lasting (changed_in n v pkg).
Proof.
  intros log e Hc Hn. destruct (Hc Hn) as [Hcom Hw]. split; [by apply committed_lasting|]. intros Hv. by apply wrote_lasting, Hw.
Qed.
Lemma and_lasting P Q : lasting P → lasting Q → lasting (fun log => P log ∧ Q log).
Proof. intros HP HQ log e []. split; auto. Qed.

Lemma leaves_ret {E A} P (a : A) : leaves P (mret a : M _ E A) (fun b log => P log ∧ b = a).
Proof. intros s log s' log' b HP [= <- <- <-]. done. Qed.

Lemma leaves_bind {E A B} P (m : M (S * list Event) E A) (f : A → M _ E B) Q R :
  leaves P m Q → (∀ a, leaves (Q a) (f a) R) → leaves P (m ≫= f) R.
Proof.
  intros Hm Hf s log s' log' b HP Hr. apply M_bind_ok in Hr as ([s1 log1] & a & Ha & Hb). eapply Hf; [by eapply Hm|exact Hb].
Qed.

Lemma leaves_weaken {E A} P (m : M (S * list Event) E A) (Q R : A → list Event → Prop) :
  leaves P m Q → (∀ a log, Q a log → R a log) → leaves P m R.
Proof. intros Hm HQ s log s' log' a HP Hr. eapply HQ, Hm; [exact HP|exact Hr]. Qed.

Lemma leaves_wrap {E1 E2 A} P (f : E1 → E2) (m : M (S * list Event) E1 A) Q : leaves P m Q → leaves P (wrap_err f m) Q.
Proof. intros Hm s log s' log' a HP Hr%wrap_err_ok. by eapply Hm. Qed.

Lemma leaves_fail {E A} P (e : E) Q : leaves (A:=A) P (fail e) Q.
Proof. by intros s log s' log' a HP Hr. Qed.

Lemma leaves_result {E1 E2 A} P (f : E1 → E2) (r : result E1 A) :
  leaves P (of_result f r : M _ E2 A) (fun a log => P log ∧ r = Ok a).
Proof. intros s log s' log' a HP. destruct r; [by intros [= <- <- <-]|done]. Qed.

Lemma leaves_call {A} P k (op : S → S * result string A) : lasting P →
  leaves P (log_call k op) (fun _ log => P log ∧ mkEvent k true ∈ log).
Proof.
  intros HP s log s' log' a Hl. unfold log_call. destruct (op s) as [s1 [b|e]]; [|done]. intros [= <- <- <-].
  split; [by apply HP|]. apply elem_snoc. by right.
Qed.

(** Every one of some steps writes, so that one is enough. *)
Lemma leaves_forM {E A} P pkg (f : A → M (S * list Event) E unit) xs : lasting P →
  (∀ x P, x ∈ xs → lasting P → leaves P (f x) (fun _ log => P log ∧ wrote pkg log)) →
  leaves P (forM_ f xs) (fun _ log => P log ∧ (xs ≠ [] → wrote pkg log)).
Proof.
  intros HP Hf. revert P HP. induction xs as [|x xs IH]; intros P HP.
  { eapply leaves_weaken; [apply leaves_ret|]. by intros _ log [? _]. }
  cbn. eapply leaves_bind; [apply Hf; [by left|done]|]. intros [].
  eapply leaves_weaken; [apply IH; [intros; apply Hf; [by right|done]|by apply and_lasting, wrote_lasting]|].
  by intros _ log [[? ?] _].
Qed.

Lemma leaves_writeSection P pkg d o : lasting P →
  leaves P (writeSection pkg d o) (fun _ log => P log ∧ (section_edits d o ≠ [] → wrote pkg log)).
Proof.
  intros HP. unfold writeSection. eapply (leaves_bind _ _ _ (fun _ => P)).
  - destruct o; [destruct (_ != _); [apply leaves_fail|]|]; (eapply leaves_weaken; [apply leaves_ret|]; by intros _ log [? _]).
  - intros []. apply leaves_forM; [done|]. intros e P' _ HP'. unfold run_edit, call. apply leaves_wrap.
    destruct (ed_Op e); by apply leaves_call.
Qed.

(** Staging a proposed change writes. *)
Lemma leaves_mutation P pkg current desired ms m : lasting P → valued desired →
  DiffOwned current desired = Ok ms → m ∈ ms →
  leaves P (stage_mutation pkg current m) (fun _ log => P log ∧ wrote pkg log).
Proof.
  intros HP Hv Hd Hm. unfold stage_mutation. destruct (mu_Kind m) eqn:Ek.
  - eapply leaves_bind; [by apply leaves_wrap, (leaves_call P)|]. intros created. cbn beta.
    destruct (_ != _); [apply leaves_fail|].
    eapply leaves_weaken; [apply leaves_writeSection, and_lasting; [done|apply wrote_lasting]|]. by intros _ log [[? ?] _].
  - destruct (DiffOwned_updates _ _ _ _ Hd Hm Ek) as (Hsec & o & Ho & Hty & Hsame). rewrite Ho.
    change (default (mkUCI "" ∅ ∅) (Some o)) with o.
    eapply leaves_weaken; [by apply leaves_writeSection|]. intros _ log [HPl Hw]. split; [done|]. apply Hw. intros Hnone.
    apply section_edits_none in Hnone; [congruence| |done].
    destruct Hsec as [Hin| ->]; [intros; by eapply Hv|]. intros k v. by rewrite lookup_empty.
  - apply leaves_wrap. by apply leaves_call.
Qed.

Lemma leaves_mutation_any P pkg current m : lasting P → leaves P (stage_mutation pkg current m) (fun _ => P).
Proof.
  intros HP. unfold stage_mutation. destruct (mu_Kind m).
  - eapply leaves_bind; [by apply leaves_wrap, (leaves_call P)|]. intros created. cbn beta. destruct (_ != _); [apply leaves_fail|].
    eapply leaves_weaken; [apply leaves_writeSection, and_lasting; [done|apply wrote_lasting]|]. by intros _ log [[? ?] _].
  - eapply leaves_weaken; [by apply leaves_writeSection|]. by intros _ log [? _].
  - eapply leaves_weaken; [by apply leaves_wrap, leaves_call|]. by intros _ log [? _].
Qed.

Lemma leaves_forM_any {E A} P (f : A → M (S * list Event) E unit) xs :
  (∀ x, leaves P (f x) (fun _ => P)) → leaves P (forM_ f xs) (fun _ => P).
Proof.
  intros Hf. induction xs as [|x xs IH]; cbn; [eapply leaves_weaken; [apply leaves_ret|]; by intros _ log [? _]|].
  eapply leaves_bind; [apply Hf|]. by intros [].
Qed.

Lemma leaves_stage P pkg current desired : lasting P →
  leaves P (StageOwned pkg current desired)
    (fun n log => P log ∧ (valued desired → 0 < n → wrote pkg log)
       ∧ ∃ ms, DiffOwned (scoped pkg current desired) desired = Ok ms ∧ n = Z.of_nat (length ms)).
Proof.
  intros HP s log s' log' n Hl Hr. unfold StageOwned in Hr.
  apply M_bind_ok in Hr as ([s1 log1] & ms & H1 & Hr). apply (leaves_result P _ _ _ _ _ _ _ Hl) in H1 as [Hl1 Ed].
  apply M_bind_ok in Hr as ([s2 log2] & [] & H2 & [= <- <- <-]). split_and!.
  - eapply leaves_forM_any; [|exact Hl1|exact H2]. intros m. by apply leaves_mutation_any.
  - intros Hv Hn. eapply (leaves_forM (fun _ => True)) in H2; [|done| |done]; [apply H2; by destruct ms|].
    intros m P' Hm HP'. by eapply leaves_mutation.
  - by exists ms.
Qed.

Lemma prepare_scoped name observed desired :
  prepare name observed desired = DiffOwned (scoped name observed desired) desired.
Proof. unfold prepare, scoped, DiffFirewall. by case_bool_decide. Qed.

Lemma leaves_apply P current changes activate desired changed name observed ms : lasting P →
  current !! name = Some observed → changes !! name = Some ms → prepare name observed desired = Ok ms →
  (∀ Q, lasting Q → leaves Q activate (fun _ => Q)) →
  leaves P (apply_package current changes activate desired changed name)
    (fun _ log => P log ∧ changed_in (count changes name) (valued desired) name log).
Proof.
  intros HP Hc Hch Hp Ha. unfold apply_package, changed_in, count. rewrite Hch. change (default [] (Some ms)) with ms.
  destruct (length ms =? 0)%nat eqn:En.
  { apply Nat.eqb_eq in En. eapply leaves_weaken; [apply leaves_ret|]. intros a log [? _]. split; [done|]. cbn. lia. }
  apply Nat.eqb_neq in En. rewrite Hc. change (default ∅ (Some observed)) with observed.
  set (Q log := P log ∧ (valued desired → wrote name log)).
  assert (lasting Q) as HQ by (apply and_lasting; [done|]; intros log e Hw Hv; by apply wrote_lasting, Hw).
  eapply (leaves_bind _ _ _ (fun _ => Q)).
  { apply leaves_wrap. eapply leaves_weaken; [by apply leaves_stage|]. intros n log (HPl & Hw & ms' & Ed & ->). split; [done|].
    intros Hv. apply Hw; [done|]. rewrite <- prepare_scoped, Hp in Ed. injection Ed as <-. lia. }
  intros _. eapply (leaves_bind _ _ _ (fun _ log => Q log ∧ committed name log)); [by apply leaves_wrap, leaves_call|].
  intros []. eapply (leaves_bind _ _ _ (fun _ log => Q log ∧ committed name log)).
  { apply leaves_wrap, Ha, and_lasting; [done|apply committed_lasting]. }
  intros []. eapply leaves_weaken; [apply leaves_ret|]. cbn. intros a log [[[? ?] ?] _]. done.
Qed.

Lemma leaves_check P changed wrap k (op : S → S * result string unit) : lasting P →
  leaves P (check changed wrap (log_call k op)) (fun _ => P).
Proof. intros HP. apply leaves_wrap. eapply leaves_weaken; [by apply leaves_call|]. by intros _ log [? _]. Qed.

Lemma leaves_activate P k (op : S → S * result string unit) : lasting P → leaves P (log_call k op) (fun _ => P).
Proof. intros HP. eapply leaves_weaken; [by apply leaves_call|]. by intros _ log [? _]. Qed.

(** Every package that changes is written and committed. *)
Lemma leaves_changed current changes comp (before ready after : S → S * result string unit) :
  Forall (read_ok (fun _ _ => True) current changes) (packages comp) →
  leaves (fun _ => True)
    (changed ← apply_package (S:=S * list Event) current changes ReloadFirewall (ds_Firewall (ac_Desired comp)) 0 "firewall";
     _ ← check changed (VerifyFailed "firewall safety before network") (log_call (CallVerify GateSafetyBefore) before);
     changed ← apply_package current changes (ServiceConfigChange "network") (ds_Network (ac_Desired comp)) changed "network";
     _ ← check changed (VerifyFailed "network readiness") (log_call (CallVerify GateNetworkReady) ready);
     _ ← check changed ReloadFailed ReloadFirewall;
     _ ← check changed (VerifyFailed "firewall safety after network") (log_call (CallVerify GateSafetyAfter) after);
     foldS (fun changed name =>
         apply_package current changes (ServiceConfigChange name) (sectionFor comp name) changed name)
       changed ["system"; "stubby"; "dhcp"])
    (fun _ log => Forall (fun item => changed_in (count changes item.1) (valued item.2) item.1 log) (packages comp)).
Proof.
  intros Hreads. set (I items log := Forall (fun item => changed_in (count changes item.1) (valued item.2) item.1 log) items).
  assert (∀ items, lasting (I items)) as HI.
  { intros items log e Hi. eapply Forall_impl; [exact Hi|]. intros item. apply changed_in_lasting. }
  assert (∀ dn name desired activate changed, (name, desired) ∈ packages comp →
    (∀ Q, lasting Q → leaves Q activate (fun _ => Q)) →
    leaves (I dn) (apply_package current changes activate desired changed name) (fun _ => I (dn ++ [(name, desired)]))) as Happly.
  { intros dn name desired activate changed Hin Ha. rewrite Forall_forall in Hreads.
    destruct (Hreads _ Hin) as (o & ms & Hc & Hch & _ & Hp & _). cbn in *.
    eapply leaves_weaken; [by eapply (leaves_apply (I dn))|]. intros _ log [Hi Hone]. apply Forall_app_2; [done|]. by apply Forall_singleton. }
  eapply (leaves_bind _ _ _ (fun _ => I ([] ++ [("firewall", ds_Firewall (ac_Desired comp))]))).
  { intros s log s' log' a _ Hr. eapply (Happly [] "firewall"); [by left| |by constructor|exact Hr].
    intros Q HQ. by apply leaves_activate. }
  intros c1. eapply leaves_bind; [by apply leaves_check|]. intros [].
  eapply leaves_bind; [apply (Happly _ "network"); [by right; left|]; intros Q HQ; by apply leaves_activate|]. intros c2.
  eapply leaves_bind; [by apply leaves_check|]. intros []. eapply leaves_bind; [by apply leaves_check|]. intros [].
  eapply leaves_bind; [by apply leaves_check|]. intros []. cbn [foldS].
  eapply leaves_bind; [apply (Happly _ "system"); [by do 2 right; left|]; intros Q HQ; by apply leaves_activate|]. intros c3.
  eapply leaves_bind; [apply (Happly _ "stubby"); [by do 3 right; left|]; intros Q HQ; by apply leaves_activate|]. intros c4.
  eapply leaves_bind; [apply (Happly _ "dhcp"); [by do 4 right; left|]; intros Q HQ; by apply leaves_activate|]. intros c5.
  eapply leaves_weaken; [apply leaves_ret|]. by intros _ log [? _].
Qed.
End leaving.

(** ** What an accepted log says *)

Definition verified (g : Gate) (log : list Event) : Prop := mkEvent (CallVerify g) true ∈ log.

(** The facts a phase stands for. *)
Definition phase_facts (p : Phase) (log : list Event) : Prop :=
  match p with
  | Safe | NetworkActive | Ready | Reloaded => verified GateSafetyBefore log
  | Guarded => verified GateSafetyBefore log ∧ verified GateSafetyAfter log
  | Staging pkg | Committed pkg =>
      pkg ≠ "firewall" → verified GateSafetyBefore log ∧ (pkg ≠ "network" → verified GateSafetyAfter log)
  | _ => True
  end.

Lemma verified_snoc g log e : verified g log → verified g (log ++ [e]).
Proof. intros. apply elem_snoc. by left. Qed.
Lemma phase_facts_snoc p log e : phase_facts p log → phase_facts p (log ++ [e]).
Proof. destruct p; cbn; try done; intros; try (by apply verified_snoc); naive_solver eauto using verified_snoc. Qed.

Lemma stages_from_facts pkg log : phase_facts (stages_from pkg) log →
  pkg ≠ "firewall" → verified GateSafetyBefore log ∧ (pkg ≠ "network" → verified GateSafetyAfter log).
Proof. unfold stages_from. intros Hf Hn. rewrite bool_decide_eq_false_2 in Hf by done. case_bool_decide; cbn in Hf; naive_solver. Qed.

Lemma next_facts c p e p' log : next c p e = Some p' → phase_facts p log → phase_facts p' (log ++ [e]).
Proof.
  intros Hn Hp. assert (ev_ok e = true → ∀ g, ev_call e = CallVerify g → verified g (log ++ [e])) as Hv.
  { intros Hok g Hg. destruct e. cbn in *. subst. apply elem_snoc. by right. }
  apply (phase_facts_snoc _ _ e) in Hp. unfold next in Hn. destruct (ev_ok e) eqn:Ok, (ev_call e) eqn:Ek;
    try specialize (Hv eq_refl _ eq_refl).
  all: repeat match goal with
    | H : (if ?b then _ else _) = Some _ |- _ => let E := fresh "E" in destruct b eqn:E; [|try discriminate H]; bools; subst
    | H : match ?g with GateSafetyBefore => _ | _ => _ end = Some _ |- _ => destruct g
    | H : match ?q with Reading => _ | _ => _ end = Some _ |- _ => destruct q; try discriminate H
    | H : Some _ = Some _ |- _ => injection H as <-
    end; try done; cbn in *; try tauto.
  - apply orb_true_iff in H0 as [H0|H0]; bools; subst; [by apply stages_from_facts|done].
  - apply orb_true_iff in H0 as [H0|H0]; bools; subst; [by apply stages_from_facts|done].
  - unfold activated. rewrite bool_decide_eq_false_2 by done. case_bool_decide; cbn; naive_solver.
  - by destruct c.
Qed.

Lemma accepts_facts c log p : accepts c log = Some p → phase_facts p log.
Proof.
  revert p. induction log as [|e log IH] using rev_ind; intros p; [by intros [= <-]|].
  rewrite accepts_snoc. destruct (accepts c log) as [q|] eqn:Eq; [|done]. cbn. intros Hn.
  eapply next_facts; [done|by apply IH].
Qed.

Lemma accepts_prefix c pre post : is_Some (accepts c (pre ++ post)) → is_Some (accepts c pre).
Proof.
  induction post as [|e post IH] using rev_ind; [by rewrite app_nil_r|].
  rewrite app_assoc, accepts_snoc. intros [p Hp]. apply IH.
  destruct (accepts c (pre ++ post)); [eauto|done].
Qed.

(** The package a call writes, commits or activates. *)
Definition touches (e : Event) : option string :=
  match ev_call e with CallWrite pkg | CallCommit pkg | CallActivate pkg => Some pkg | _ => None end.

Lemma next_touches c p e p' pkg log : next c p e = Some p' → touches e = Some pkg → phase_facts p log →
  pkg ≠ "firewall" → verified GateSafetyBefore log ∧ (pkg ≠ "network" → verified GateSafetyAfter log).
Proof.
  unfold next, touches. destruct (ev_call e); intros Hn [= ->] Hp Hne;
    match type of Hn with (if ?b then _ else _) = _ => destruct b eqn:E; [|done] end; bools; subst.
  - apply orb_true_iff in H0 as [H0|H0]; bools; subst; [by apply stages_from_facts|by apply Hp].
  - apply orb_true_iff in H0 as [H0|H0]; bools; subst; [by apply stages_from_facts|by apply Hp].
  - by apply Hp.
Qed.

Lemma accepts_guard c log pre e post pkg : is_Some (accepts c log) → log = pre ++ e :: post →
  touches e = Some pkg → pkg ≠ "firewall" →
  verified GateSafetyBefore pre ∧ (pkg ≠ "network" → verified GateSafetyAfter pre).
Proof.
  intros Ha -> Ht Hne. change (pre ++ e :: post) with (pre ++ [e] ++ post) in Ha. rewrite app_assoc in Ha.
  apply accepts_prefix in Ha as [p' Hp]. rewrite accepts_snoc in Hp. destruct (accepts c pre) as [p|] eqn:Ep; [|done].
  eapply next_touches; [exact Hp|exact Ht|by eapply accepts_facts|done].
Qed.

(** ** What the provider promises *)

(** A call on one package leaves the others alone, and only the writing calls
    change what a package holds. *)
Class ApplianceLaws (S : Type) `{ApplianceProvider S} (view : S → string → Package) := {
  al_writer :: UciWriterLaws S view;
  add_frame pkg ty name s s' r pkg' : UCIAddNamed pkg ty name s = (s', r) → pkg' ≠ pkg → view s' pkg' = view s pkg';
  set_frame pkg name k v s s' r pkg' : UCISet pkg name k v s = (s', r) → pkg' ≠ pkg → view s' pkg' = view s pkg';
  setlist_frame pkg name k vs s s' r pkg' : UCISetList pkg name k vs s = (s', r) → pkg' ≠ pkg → view s' pkg' = view s pkg';
  delete_frame pkg name k s s' r pkg' : UCIDelete pkg name k s = (s', r) → pkg' ≠ pkg → view s' pkg' = view s pkg';
  get_view pkg s s' o : UCIGet pkg s = (s', Ok o) → o = view s pkg ∧ ∀ pkg', view s' pkg' = view s pkg';
  commit_frame pkg s s' pkg' : UCICommit pkg s = (s', Ok tt) → view s' pkg' = view s pkg';
  service_frame service s s' pkg' : ServiceConfigChange service s = (s', Ok tt) → view s' pkg' = view s pkg';
  reload_frame s s' pkg' : ReloadFirewall s = (s', Ok tt) → view s' pkg' = view s pkg';
}.

(** A verification gate only looks. *)
Definition keeps {S} (view : S → string → Package) (op : S → S * result string unit) : Prop :=
  ∀ s s' r pkg, op s = (s', r) → view s' pkg = view s pkg.
Definition gates_keep {S} (view : S → string → Package) (v : ApplianceVerifyCallbacks S) : Prop :=
  ∀ op, Some op ∈ [SafetyBeforeNetwork v; NetworkReady v; SafetyAfterNetwork v; RuntimeReapply v] → keeps view op.

Section functional.
Context {S : Type} {P : ApplianceProvider S} (view : S → string → Package) {L : ApplianceLaws S view} `{GoUnicode}.

Lemma run_edit_frame pkg name e s s' pkg' : run_edit pkg name e s = (s', Ok tt) → pkg' ≠ pkg → view s' pkg' = view s pkg'.
Proof.
  intros Hr%call_ok. destruct (ed_Op e); [by eapply set_frame|by eapply setlist_frame|by eapply delete_frame].
Qed.

Lemma writeSection_frame pkg d o s s' pkg' : writeSection pkg d o s = (s', Ok tt) → pkg' ≠ pkg → view s' pkg' = view s pkg'.
Proof.
  intros (s1&[]&H1&H2)%M_bind_ok Hne.
  assert (s1 = s) as -> by (destruct o; [destruct (_ != _)|]; unfold fail, mret, M_ret in H1; by simplify_eq).
  revert H2. apply (forM_inv _ (fun s1 => view s1 pkg' = view s pkg')); [done|].
  intros e s2 s3 _ <- Hr. by eapply run_edit_frame.
Qed.

Lemma StageOwned_frame pkg cur desired s s' n pkg' : StageOwned pkg cur desired s = (s', Ok n) → pkg' ≠ pkg →
  view s' pkg' = view s pkg'.
Proof.
  intros (s1&ms&H1&H2)%M_bind_ok Hne. apply M_bind_ok in H2 as (s2&[]&H2&H3). injection H3 as <- <-.
  assert (s1 = s) as -> by (unfold of_result in H1; destruct (DiffOwned _ _); [by injection H1|done]).
  revert H2. apply (forM_inv _ (fun s1 => view s1 pkg' = view s pkg')); [done|].
  intros m s1 s3 _ <- Hr. unfold stage_mutation in Hr. destruct (mu_Kind m).
  - apply M_bind_ok in Hr as (s4&created&H4%call_ok&Hw). eapply add_frame in H4; [|done]. rewrite <- H4.
    destruct (_ != _); [done|]. by eapply writeSection_frame.
  - by eapply writeSection_frame.
  - apply call_ok in Hr. by eapply delete_frame.
Qed.

Lemma check_ok changed wrap (op : S → S * result string unit) s s' u : check changed wrap op s = (s', Ok u) → op s = (s', Ok tt).
Proof. destruct u. apply wrap_err_ok. Qed.

(** What the desired sections and the provider's packages must satisfy. *)
Definition item_wf (s : S) (item : string * list Section_) : Prop :=
  NoDup (map sec_Name item.2) ∧ Forall section_wf item.2
  ∧ ∀ name o, view s item.1 !! name = Some o → well_formed (uci_Options o) (uci_Lists o).

Definition package_done (s0 s : S) (item : string * list Section_) : Prop :=
  ∀ name, view s item.1 !! name ≡ target item.1 (view s0 item.1) item.2 name.

Lemma apply_package_ok s0 current changes activate item changed s s' a :
  item_wf s0 item → view s item.1 = view s0 item.1 →
  read_ok (fun name o => o = view s0 name) current changes item →
  (∀ s s' pkg, activate s = (s', Ok tt) → view s' pkg = view s pkg) →
  apply_package current changes activate item.2 changed item.1 s = (s', Ok a) →
  package_done s0 s' item ∧ ∀ pkg, pkg ≠ item.1 → view s' pkg = view s pkg.
Proof.
  intros (Hnd&Hwf&Hcur) Hv (o&ms&Ho&Hms&->&Hp&_) Hact. unfold apply_package. rewrite Ho, Hms.
  change (default ∅ (Some (view s0 item.1))) with (view s0 item.1). change (default [] (Some ms)) with ms.
  rewrite prepare_scoped in Hp. destruct ms as [|m ms].
  - cbn. intros [= <- <-]. split; [|done]. intros name. by rewrite Hv, target_unchanged.
  - cbn [length Nat.eqb]. intros (s1&n&H1%wrap_err_ok&H2)%M_bind_ok.
    apply M_bind_ok in H2 as (s2&u2&H2%check_ok&H3). apply M_bind_ok in H3 as (s3&u3&H3%check_ok&H4).
    injection H4 as <- _. split.
    + rewrite <- Hv in Hcur, H1. apply StageOwned_refines in H1 as [_ Ht]; [|apply _|done..].
      intros name. rewrite (Hact _ _ _ H3), (commit_frame _ _ _ _ H2), Ht, Hv. done.
    + intros pkg Hne. rewrite (Hact _ _ _ H3), (commit_frame _ _ _ _ H2). by eapply StageOwned_frame.
Qed.

(** How far a run is: the packages done, the others as they were. *)
Definition progress (composition : ApplianceComposition) (s0 s : S) (dn : list string) : Prop :=
  ∀ item, item ∈ packages composition →
    (item.1 ∈ dn → package_done s0 s item) ∧ (item.1 ∉ dn → view s item.1 = view s0 item.1).

Lemma progress_keep composition s0 s s' dn : progress composition s0 s dn →
  (∀ pkg, view s' pkg = view s pkg) → progress composition s0 s' dn.
Proof.
  intros Hp Hk item Hi. destruct (Hp item Hi) as [A B]. split.
  - intros Hd name. rewrite Hk. by apply A.
  - intros Hd. rewrite Hk. by apply B.
Qed.

Lemma progress_done composition s0 s : progress composition s0 s (packages composition).*1 →
  ∀ item, item ∈ packages composition → package_done s0 s item.
Proof. intros Hp item Hi. apply (Hp item Hi). apply list_elem_of_fmap. eauto. Qed.

Lemma progress_apply composition s0 s s' dn current changes activate item changed a :
  progress composition s0 s dn → item ∈ packages composition → item.1 ∉ dn →
  Forall (item_wf s0) (packages composition) →
  Forall (read_ok (fun name o => o = view s0 name) current changes) (packages composition) →
  (∀ s s' pkg, activate s = (s', Ok tt) → view s' pkg = view s pkg) →
  apply_package current changes activate item.2 changed item.1 s = (s', Ok a) →
  progress composition s0 s' (item.1 :: dn).
Proof.
  intros Hp Hi Hn Hwf Hrd Hact Ha. rewrite Forall_forall in Hwf. rewrite Forall_forall in Hrd.
  destruct (apply_package_ok s0 _ _ _ _ _ _ _ _ (Hwf _ Hi) (proj2 (Hp _ Hi) Hn) (Hrd _ Hi) Hact Ha) as [Hd Hf].
  intros item' Hi'. destruct (decide (item'.1 = item.1)) as [E|Hne].
  - assert (item' = item) as ->; [|split; [done|set_solver]].
    by apply (NoDup_map_inj fst (packages composition) _ _ (packages_NoDup _)).
  - destruct (Hp _ Hi') as [A B]. rewrite elem_of_cons. split.
    + intros [?|Hd']; [done|]. intros name. rewrite Hf by done. by apply A.
    + intros Hd'. rewrite Hf by done. apply B. tauto.
Qed.

Lemma verifyRuntime_keep verify reapply label s s' u : keeps view verify → (∀ op, reapply = Some op → keeps view op) →
  verifyRuntime verify reapply label s = (s', Ok u) → ∀ pkg, view s' pkg = view s pkg.
Proof.
  intros Hv Hr. unfold verifyRuntime. destruct (verify s) as [s1 [[]|e]] eqn:E1.
  { intros [= <-] pkg. by eapply Hv. }
  destruct reapply as [re|]; [|done]. intros (s2&u2&H2%check_ok&H3%check_ok)%M_bind_ok pkg.
  rewrite (Hv _ _ _ _ H3), (Hr _ eq_refl _ _ _ _ H2). by eapply Hv.
Qed.

Lemma names_total_zero names changes name : names_total names changes = 0 → name ∈ names →
  default [] (changes !! name) = [].
Proof.
  assert (∀ l, 0 ≤ names_total l changes) as Hnn by (unfold names_total; induction l; cbn in *; lia).
  induction names as [|n names IH]; [set_solver|]. cbn. fold (names_total names changes). intros Ht.
  specialize (Hnn names). intros [->|Hn]%elem_of_cons; [|apply IH; [lia|done]].
  destruct (default [] (changes !! n)); [done|cbn in *; lia].
Qed.

Lemma unchanged_done composition s0 s current changes item :
  Forall (item_wf s0) (packages composition) →
  Forall (read_ok (fun name o => o = view s0 name) current changes) (packages composition) →
  totalMutations changes = names_total (packages composition).*1 changes → totalMutations changes = 0 →
  (∀ pkg, view s pkg = view s0 pkg) → item ∈ packages composition → package_done s0 s item.
Proof.
  intros Hwf Hrd Htot Hz Hv Hi. rewrite Htot in Hz. rewrite Forall_forall in Hwf. rewrite Forall_forall in Hrd.
  destruct (Hrd _ Hi) as (o&ms&_&Hms&->&Hp&_). destruct (Hwf _ Hi) as (Hnd&_).
  assert (ms = []) as ->.
  { apply (names_total_zero _ _ item.1) in Hz; [by rewrite Hms in Hz|]. apply list_elem_of_fmap. eauto. }
  rewrite prepare_scoped in Hp. intros name. by rewrite Hv, target_unchanged.
Qed.

Lemma changed_done composition s0 s s' current changes (before ready after : S → S * result string unit) a item :
  Forall (item_wf s0) (packages composition) →
  Forall (read_ok (fun name o => o = view s0 name) current changes) (packages composition) →
  (∀ pkg, view s pkg = view s0 pkg) → keeps view before → keeps view ready → keeps view after →
  (changed ← apply_package current changes ReloadFirewall (ds_Firewall (ac_Desired composition)) 0 "firewall";
   _ ← check changed (VerifyFailed "firewall safety before network") before;
   changed ← apply_package current changes (ServiceConfigChange "network") (ds_Network (ac_Desired composition)) changed "network";
   _ ← check changed (VerifyFailed "network readiness") ready;
   _ ← check changed ReloadFailed ReloadFirewall;
   _ ← check changed (VerifyFailed "firewall safety after network") after;
   foldS (fun changed name =>
       apply_package current changes (ServiceConfigChange name) (sectionFor composition name) changed name)
     changed ["system"; "stubby"; "dhcp"]) s = (s', Ok a) →
  item ∈ packages composition → package_done s0 s' item.
Proof.
  intros Hwf Hrd Hv Kb Kr Ka Hrun.
  assert (progress composition s0 s []) as Hp by (intros i _; split; [set_solver|auto]).
  assert (∀ s s' pkg, ReloadFirewall s = (s', Ok tt) → view s' pkg = view s pkg) as Hrl by (intros; by apply reload_frame).
  assert (∀ name s s' pkg, ServiceConfigChange name s = (s', Ok tt) → view s' pkg = view s pkg) as Hsv
    by (intros; by eapply service_frame).
  apply M_bind_ok in Hrun as (s1&c1&H1&Hrun).
  eapply (progress_apply _ _ _ _ _ _ _ _ ("firewall", _)) in H1; [|done| |set_solver|done..]; [|by left].
  apply M_bind_ok in Hrun as (s2&[]&H2%check_ok&Hrun). eapply progress_keep in H1; [|intros; by eapply Kb].
  apply M_bind_ok in Hrun as (s3&c3&H3&Hrun).
  eapply (progress_apply _ _ _ _ _ _ _ _ ("network", _)) in H3; [|done| |set_solver|done..|apply Hsv]; [|by right; left].
  apply M_bind_ok in Hrun as (s4&[]&H4%check_ok&Hrun). eapply progress_keep in H3; [|intros; by eapply Kr].
  apply M_bind_ok in Hrun as (s5&[]&H5%check_ok&Hrun). eapply progress_keep in H3; [|intros; by eapply Hrl].
  apply M_bind_ok in Hrun as (s6&[]&H6%check_ok&Hrun). eapply progress_keep in H3; [|intros; by eapply Ka].
  apply M_bind_ok in Hrun as (s7&c7&H7&Hrun).
  eapply (progress_apply _ _ _ _ _ _ _ _ ("system", _)) in H7; [|done| |set_solver|done..|apply Hsv]; [|by do 2 right; left].
  apply M_bind_ok in Hrun as (s8&c8&H8&Hrun).
  eapply (progress_apply _ _ _ _ _ _ _ _ ("stubby", _)) in H8; [|done| |set_solver|done..|apply Hsv]; [|by do 3 right; left].
  apply M_bind_ok in Hrun as (s9&c9&H9&Hrun). injection Hrun as <- _.
  eapply (progress_apply _ _ _ _ _ _ _ _ ("dhcp", _)) in H9; [|done| |set_solver|done..|apply Hsv]; [|by do 4 right; left].
  intros Hi. apply (H9 item Hi). cbn in Hi. set_solver.
Qed.
End functional.

(** The call order of a run, from which the two properties below follow. *)
Lemma run_accepted {S : Type} `{ApplianceProvider S} `{GoUnicode}
    (composition : ApplianceComposition) (verify : ApplianceVerifyCallbacks S) s :
  match ReconcileAppliance composition (log_verify verify) (s, []) with
  | ((_, log), Ok changed) => ∃ changing, accepts changing log = Some Guarded ∧ changing = (0 <? changed)
  | ((_, log), Err _) => ∃ changing, is_Some (accepts changing log)
  end.
Proof.
  unfold ReconcileAppliance, log_verify. cbn [SafetyBeforeNetwork NetworkReady SafetyAfterNetwork RuntimeReapply].
  destruct (SafetyBeforeNetwork verify) as [before|]; [|by exists true; eexists].
  destruct (NetworkReady verify) as [ready|]; [|by exists true; eexists].
  destruct (SafetyAfterNetwork verify) as [after|]; [|by exists true; eexists].
  cbn [fmap option_fmap option_map]. unfold mbind at 1, M_bind at 1.
  pose proof (runs_read (S:=S)) as Hr.
  destruct (foldS read_package (∅, ∅) (packages composition) (s, [])) as [[s1 log1] [[current changes]|e]] eqn:Er.
  2:{ exists true. specialize (Hr true (packages composition) (∅, ∅) s [] eq_refl). by rewrite Er in Hr. }
  assert (∀ c, accepts c log1 = Some Reading) as Hl.
  { intros c. specialize (Hr c (packages composition) (∅, ∅) s [] eq_refl). rewrite Er in Hr. by destruct Hr as (?&?&->). }
  destruct (read_all_ok (S:=S * list Event) (fun _ _ => True) (fun _ => True) _ _ _ _ _ ltac:(done) I (packages_NoDup _) Er) as (_&_&Htot).
  destruct (totalMutations changes =? 0) eqn:Ht.
  - pose proof (runs_unchanged (S:=S) before ready after (RuntimeReapply verify) s1 log1 (Hl false)) as Hu.
    revert Hu. match goal with |- (match ?x with _ => _ end) → _ => destruct x as [[s2 log2] [a|e]] end; [|intros; by exists false].
    intros Hu. destruct Hu as (q&Hq&->&->). by exists false.
  - pose proof (runs_changed (S:=S) current changes composition before ready after s1 log1 (Hl true)) as Hu.
    revert Hu. match goal with |- (match ?x with _ => _ end) → _ => destruct x as [[s2 log2] [a|e]] end; [|intros; by exists true].
    intros Hu. destruct Hu as (q&Hq&->&->). exists true. split; [done|]. rewrite <- (packages_names composition), <- Htot.
    bools. pose proof (totalMutations_nonneg changes). symmetry. apply Z.ltb_lt. lia.
Qed.


(** A run without a change neither writes nor commits. *)
Lemma accepts_changing c log p e : accepts c log = Some p → e ∈ log →
  match ev_call e with CallWrite _ | CallCommit _ => true | _ => false end = true → c = true.
Proof.
  intros Ha (l1 & l2 & ->)%list_elem_of_split He.
  assert (is_Some (accepts c (l1 ++ [e]))) as [q Hq].
  { apply (accepts_prefix c _ l2). rewrite <- app_assoc. cbn. eauto. }
  rewrite accepts_snoc in Hq. destruct (accepts c l1) as [p1|]; [|done]. cbn in Hq. unfold next in Hq.
  destruct (ev_call e); try discriminate He; by destruct c.
Qed.

Lemma names_total_pos names changes : 0 ≤ names_total names changes
  ∧ (0 < names_total names changes → ∃ name, name ∈ names ∧ 0 < count changes name).
Proof.
  unfold names_total, count. induction names as [|name names [IH1 IH2]]; [by split|]. cbn [foldr]. split; [lia|]. intros Hpos.
  destruct (decide (0 < Z.of_nat (length (default [] (changes !! name))))) as [Hn|Hn]; [exists name; split; [by left|done]|].
  destruct IH2 as (n & Hin & Hc); [lia|]. exists n. split; [by right|done].
Qed.

(** A successful run that reports a change has committed a package, and written it. *)
Lemma run_changes {S : Type} `{ApplianceProvider S} `{GoUnicode}
    (composition : ApplianceComposition) (verify : ApplianceVerifyCallbacks S) s :
  match ReconcileAppliance composition (log_verify verify) (s, []) with
  | ((_, log), Ok changed) => 0 ≤ changed ∧ (0 < changed → ∃ pkg desired, (pkg, desired) ∈ packages composition
      ∧ committed pkg log ∧ (valued desired → wrote pkg log))
  | _ => True
  end.
Proof.
  destruct (ReconcileAppliance _ _ _) as [[s' log] [changed|e]] eqn:Hr; [|done]. revert Hr.
  unfold ReconcileAppliance, log_verify. cbn [SafetyBeforeNetwork NetworkReady SafetyAfterNetwork RuntimeReapply].
  destruct (SafetyBeforeNetwork verify) as [before|]; [|done]. destruct (NetworkReady verify) as [ready|]; [|done].
  destruct (SafetyAfterNetwork verify) as [after|]; [|done]. cbn [fmap option_fmap option_map].
  intros ([s1 log1] & [current changes] & Hread & Hrun)%M_bind_ok.
  assert (∀ c, accepts c log1 = Some Reading) as Hl.
  { intros c. pose proof (runs_read (S:=S) c (packages composition) (∅, ∅) s [] eq_refl) as Hq. rewrite Hread in Hq. by destruct Hq as (?&?&->). }
  destruct (read_all_ok (S:=S * list Event) (fun _ _ => True) (fun _ => True) _ _ _ _ _ ltac:(done) I (packages_NoDup _) Hread) as (_&Hall&Htot).
  destruct (totalMutations changes =? 0).
  { pose proof (runs_unchanged (S:=S) before ready after (RuntimeReapply verify) s1 log1 (Hl false)) as Hu. rewrite Hrun in Hu.
    destruct Hu as (q & _ & -> & _). by split. }
  pose proof (runs_changed (S:=S) current changes composition before ready after s1 log1 (Hl true)) as Hu. rewrite Hrun in Hu.
  destruct Hu as (q & _ & -> & _). rewrite <- (packages_names composition). destruct (names_total_pos (packages composition).*1 changes) as [Hnn Hpos].
  split; [done|]. intros (name & ([n desired] & -> & Hin)%list_elem_of_fmap & Hc)%Hpos. exists n, desired. split; [done|].
  pose proof (leaves_changed current changes composition before ready after Hall _ _ _ _ _ I Hrun) as Hlog.
  rewrite Forall_forall in Hlog. by apply (Hlog _ Hin).
Qed.

(** ** Properties *)

(** C27. Every run of [ReconcileAppliance], failed ones included, makes its calls in
    an allowed order: all packages are read first; the firewall is staged, committed
    and reloaded, and its safety verified, before the network package is written;
    the network is activated and ready, the firewall reloaded and verified again,
    before any other service is written; each package is committed after its writes
    and activated after its commit; nothing follows a failed call (but the runtime
    reapply of an unchanged appliance).  A success ends fully verified.  It reports a
    change exactly if it committed a package; without a change it calls no writing
    operation; and with one it has written, if no desired option has an empty value
    (an update to such a value is counted, but needs no call). *)
Theorem ReconcileAppliance_order {S : Type} `{ApplianceProvider S} `{GoUnicode}
    (composition : ApplianceComposition) (verify : ApplianceVerifyCallbacks S) s :
  match ReconcileAppliance composition (log_verify verify) (s, []) with
  | ((_, log), Ok changed) =>
      (∃ changing, accepts changing log = Some Guarded ∧ changing = (0 <? changed))
      ∧ 0 ≤ changed
      ∧ (0 < changed ↔ ∃ pkg, mkEvent (CallCommit pkg) true ∈ log)
      ∧ (changed = 0 → ∀ pkg ok, mkEvent (CallWrite pkg) ok ∉ log)
      ∧ ((∀ item, item ∈ packages composition → valued item.2) →
         0 < changed → ∃ pkg, mkEvent (CallWrite pkg) true ∈ log)
  | ((_, log), Err _) => ∃ changing, is_Some (accepts changing log)
  end.
Proof.
  pose proof (run_accepted composition verify s) as Ha. pose proof (run_changes composition verify s) as Hc.
  destruct (ReconcileAppliance _ _ _) as [[s' log] [changed|e]]; [|done]. destruct Ha as (c & Ha & ->). destruct Hc as [Hnn Hc].
  split_and!; [by eexists|done| | |].
  - split; [intros Hpos; destruct (Hc Hpos) as (pkg & desired & _ & Hcom & _); by exists pkg|].
    intros [pkg Hin]. apply (accepts_changing _ _ _ _ Ha) in Hin; [by apply Z.ltb_lt|]. cbn. eauto.
  - intros -> pkg ok Hin. apply (accepts_changing _ _ _ _ Ha) in Hin; [done|]. cbn. eauto.
  - intros Hv Hpos. destruct (Hc Hpos) as (pkg & desired & Hin & _ & Hw). exists pkg. apply Hw. by apply (Hv (pkg, desired)).
Qed.

(** No service is ever touched on an unverified firewall: whatever the provider
    answers and wherever a run stops, the log of a write, commit or activation of
    the network package starts with a successful safety verification, and that of
    any later package also with the successful verification after the network. *)
Theorem ReconcileAppliance_guarded {S : Type} `{ApplianceProvider S} `{GoUnicode}
    (composition : ApplianceComposition) (verify : ApplianceVerifyCallbacks S) s s' log r pre e post pkg :
  ReconcileAppliance composition (log_verify verify) (s, []) = ((s', log), r) →
  log = pre ++ e :: post → touches e = Some pkg → pkg ≠ "firewall" →
  mkEvent (CallVerify GateSafetyBefore) true ∈ pre
  ∧ (pkg ≠ "network" → mkEvent (CallVerify GateSafetyAfter) true ∈ pre).
Proof.
  intros Hr. pose proof (run_accepted composition verify s) as Ha. rewrite Hr in Ha.
  destruct r as [n|err]; [destruct Ha as (c&Ha&_)|destruct Ha as (c&Ha)]; by eapply accepts_guard.
Qed.

(** A successful run, package by package. *)
Lemma reconciles_packages {S : Type} {P : ApplianceProvider S} (view : S → string → Package)
    {L : ApplianceLaws S view} `{GoUnicode} (composition : ApplianceComposition) (verify : ApplianceVerifyCallbacks S) s s' changed :
  Forall (item_wf view s) (packages composition) → gates_keep view verify →
  ReconcileAppliance composition verify s = (s', Ok changed) →
  (∀ pkg desired name, (pkg, desired) ∈ packages composition →
     view s' pkg !! name ≡ target pkg (view s pkg) desired name)
  ∧ validateFirewallDefaults (view s "firewall") = Ok tt.
Proof.
  intros Hwf Hg. unfold ReconcileAppliance.
  destruct (SafetyBeforeNetwork verify) as [before|] eqn:Eb; [|done].
  destruct (NetworkReady verify) as [ready|] eqn:Er; [|done].
  destruct (SafetyAfterNetwork verify) as [after|] eqn:Ea; [|done].
  assert (keeps view before ∧ keeps view ready ∧ keeps view after ∧ ∀ op, RuntimeReapply verify = Some op → keeps view op) as (Kb&Kr&Ka&Ky).
  { split_and!; [..|intros op Hop]; apply Hg; rewrite ?Eb, ?Er, ?Ea, ?Hop; repeat (apply elem_of_cons; (left; done) || right). }
  intros (s1&[current changes]&Hread&Hrun)%M_bind_ok.
  apply (read_all_ok (fun name o => o = view s name) (fun s1 => ∀ pkg, view s1 pkg = view s pkg)) in Hread
    as (Hv1&Hall&Htot); [|..|done|apply packages_NoDup].
  2:{ intros name s2 s3 o H2 [-> H3]%get_view. split; [intros pkg; by rewrite H3|done]. }
  assert (validateFirewallDefaults (view s "firewall") = Ok tt) as Hdef.
  { rewrite Forall_forall in Hall. destruct (Hall ("firewall", ds_Firewall (ac_Desired composition))) as (o&ms&_&_&->&_&Hd); [by left|].
    by apply Hd. }
  split; [|done]. intros pkg desired name Hin.
  enough (package_done view s s' (pkg, desired)) as Hd by apply Hd.
  destruct (totalMutations changes =? 0) eqn:Ht.
  - apply M_bind_ok in Hrun as (s2&u2&H2&Hrun). apply M_bind_ok in Hrun as (s3&u3&H3%check_ok&Hrun).
    apply M_bind_ok in Hrun as (s4&u4&H4%check_ok&Hrun). injection Hrun as <- <-.
    eapply (unchanged_done view composition s s4); [done..|by apply Z.eqb_eq| |done].
    intros p. rewrite (Ka _ _ _ _ H4), (Kr _ _ _ _ H3), (verifyRuntime_keep view _ _ _ _ _ _ Kb Ky H2). done.
  - eapply (changed_done view composition s s1 _ current changes before ready after); [done..|exact Hrun|done].
Qed.

(** C30. A successful run reconciles the whole appliance: on a lawful provider, with
    gates that only look, every package of the composition then holds what its
    specification says ([target]), whatever had to change, and the firewall package
    has exactly one defaults section, without a conflicting option. *)
Theorem ReconcileAppliance_reconciles {S : Type} {P : ApplianceProvider S} (view : S → string → Package)
    {L : ApplianceLaws S view} `{GoUnicode} (composition : ApplianceComposition) (verify : ApplianceVerifyCallbacks S) s s' changed :
  Forall (item_wf view s) (packages composition) → gates_keep view verify →
  ReconcileAppliance composition verify s = (s', Ok changed) →
  (∀ pkg desired name, (pkg, desired) ∈ packages composition →
     view s' pkg !! name ≡ target pkg (view s pkg) desired name)
  ∧ validateFirewallDefaults (view s "firewall") = Ok tt.
Proof. exact (reconciles_packages view composition verify s s' changed). Qed.

(** ** A provider in memory *)

#[export] Instance mem_provider : ApplianceProvider MemStore := {
  ap_writer := mem_writer;
  UCIGet pkg s := (s, Ok (mem_view s pkg));
  UCICommit _ s := (s, Ok tt);
  ServiceConfigChange _ s := (s, Ok tt);
  ReloadFirewall s := (s, Ok tt);
}.

Lemma mem_view_other s pkg pkg' p : pkg' ≠ pkg → mem_view (<[pkg := p]> s) pkg' = mem_view s pkg'.
Proof. intros. unfold mem_view. by rewrite lookup_insert_ne. Qed.
Lemma mem_update_frame f pkg name s s' r pkg' : mem_update f pkg name s = (s', r) → pkg' ≠ pkg →
  mem_view s' pkg' = mem_view s pkg'.
Proof. unfold mem_update. case_match; intros [= <- <-] ?; [by apply mem_view_other|done]. Qed.

#[export] Instance mem_provider_laws : ApplianceLaws MemStore mem_view.
Proof.
  split; [apply mem_writer_laws|..]; cbn.
  - intros pkg ty name s s' r pkg'. case_match; intros [= <- <-] ?; [done|by apply mem_view_other].
  - intros. by eapply mem_update_frame.
  - intros. by eapply mem_update_frame.
  - intros pkg name k s s' r pkg'. case_bool_decide; [|intros; by eapply mem_update_frame].
    case_match; intros [= <- <-] ?; [by apply mem_view_other|done].
  - by intros pkg s s' o [= <- <-].
  - by intros pkg s s' pkg' [= <-].
  - by intros service s s' pkg' [= <-].
  - by intros s s' pkg' [= <-].
Qed.

Definition pass : option (MemStore → MemStore * result string unit) := Some (fun s => (s, Ok tt)).
Definition sample_gates : ApplianceVerifyCallbacks MemStore := mkVerify pass pass pass None.
Lemma sample_gates_keep : gates_keep mem_view sample_gates.
Proof.
  assert (∀ op, Some op = pass → keeps mem_view op) as Hp by (intros op [= ->] s s' r pkg [= <- <-]; done).
  intros op. cbn. rewrite !elem_of_cons, elem_of_nil. naive_solver.
Qed.

(** A router with its stock defaults section and one foreign rule. *)
Definition router : MemStore := {[ "firewall" := {[
  "cfg01" := mkUCI "defaults" (opts [("input", "REJECT"); ("auto_includes", "1")]) ∅;
  "operator_rule" := mkUCI "rule" (opts [("name", "mine")]) ∅ ]} ]}.

Definition item_wfb (s : MemStore) (item : string * list Section_) : bool :=
  bool_decide (NoDup (map sec_Name item.2)) && forallb section_wfb item.2
  && forallb (fun kv : string * UCISection => well_formedb (uci_Options kv.2) (uci_Lists kv.2)) (map_to_list (mem_view s item.1)).
Lemma item_wfb_ok s item : item_wfb s item = true → item_wf mem_view s item.
Proof.
  unfold item_wfb. intros. bools. split_and!; [done|..].
  - rewrite forallb_forall in *. apply Forall_forall. intros d Hd. apply section_wfb_ok. apply list_elem_of_In in Hd. auto.
  - intros name o Ho. rewrite forallb_forall in *. apply elem_of_map_to_list, list_elem_of_In in Ho.
    apply well_formedb_ok, (H0 _ Ho).
Qed.

Definition run_of (c : result ComposeError ApplianceComposition) : option (MemStore * result Error Z) :=
  match c with Ok c => Some (@ReconcileAppliance _ mem_provider ascii_only c sample_gates router) | Err _ => None end.
Definition outcome_of (r : option (MemStore * result Error Z)) : option Z :=
  match r with Some (_, Ok n) => Some n | _ => None end.
Lemma router_run : outcome_of (run_of reference_composition) = Some 178.
Proof. by vm_compute. Qed.
Lemma router_wf : match reference_composition with Ok c => forallb (item_wfb router) (packages c) | Err _ => false end = true.
Proof. by vm_compute. Qed.

Theorem ReconcileAppliance_reconciles_witness : ∃ c s', reference_composition = Ok c
  ∧ @ReconcileAppliance _ mem_provider ascii_only c sample_gates router = (s', Ok 178)
  ∧ ∀ pkg desired name, (pkg, desired) ∈ packages c →
      mem_view s' pkg !! name ≡ @target ascii_only pkg (mem_view router pkg) desired name.
Proof.
  pose proof router_run as Hrun. pose proof router_wf as Hwf.
  destruct reference_composition as [c|e] eqn:Ec; [|discriminate Hrun].
  unfold run_of in Hrun. destruct (@ReconcileAppliance _ mem_provider ascii_only c sample_gates router) as [s' r] eqn:Er.
  destruct r as [n|e]; [|discriminate Hrun]. injection Hrun as ->.
  exists c, s'. split; [reflexivity|]. split; [exact Er|].
  assert (Forall (item_wf mem_view router) (packages c)) as Hall.
  { apply Forall_forall. intros item Hi. apply item_wfb_ok. rewrite forallb_forall in Hwf. apply Hwf. by apply list_elem_of_In. }
  exact (proj1 (@ReconcileAppliance_reconciles MemStore mem_provider mem_view mem_provider_laws ascii_only c sample_gates
    router s' 178 Hall sample_gates_keep Er)).
Defined.

(** One network section on the same router. *)
Definition tiny : ApplianceComposition :=
  mkComposition (mkDesired "" "" "" "" "" [] [mkSection "boetticher_home_wan" "interface" (opts [("proto", "dhcp")]) ∅] [])
    [] [] [] FwSafety.DefaultSafetyConfig (mkDeclaration [] []) (mkOwnership ∅ []).
Definition tiny_run := @ReconcileAppliance _ (@logged MemStore mem_provider) ascii_only tiny (log_verify sample_gates) (router, []).
Definition tiny_pre : list Event :=
  map (fun c => mkEvent c true) (map CallRead ["firewall"; "network"; "system"; "stubby"; "dhcp"] ++ [CallVerify GateSafetyBefore]).
Definition tiny_post : list Event :=
  map (fun c => mkEvent c true)
    [CallWrite "network"; CallCommit "network"; CallActivate "network"; CallVerify GateNetworkReady; CallReload;
     CallVerify GateSafetyAfter].
Lemma tiny_log : (tiny_run.1.2, tiny_run.2) = (tiny_pre ++ mkEvent (CallWrite "network") true :: tiny_post, Ok 1).
Proof. by vm_compute. Qed.

Lemma tiny_valued item : item ∈ packages tiny → valued item.2.
Proof.
  change (packages tiny) with ([("firewall", []);
    ("network", [mkSection "boetticher_home_wan" "interface" (opts [("proto", "dhcp")]) ∅]); ("system", []); ("stubby", []); ("dhcp", [])]).
  intros Hin d k v Hd Hk. rewrite !elem_of_cons, elem_of_nil in Hin.
  destruct Hin as [->|[->|[->|[->|[->|[]]]]]]; cbn [snd] in Hd; try by apply not_elem_of_nil in Hd.
  apply list_elem_of_singleton in Hd as ->. cbn in Hk. apply lookup_insert_Some in Hk as [[_ <-]|[_ Hk]]; [done|].
  by rewrite lookup_empty in Hk.
Qed.

(** The one network section is valued, so its run has written. *)
Theorem ReconcileAppliance_order_witness : ∃ s' log, tiny_run = ((s', log), Ok 1) ∧ ∃ pkg, mkEvent (CallWrite pkg) true ∈ log.
Proof.
  pose proof tiny_log as Hl. destruct tiny_run as [[s' log] r] eqn:E. injection Hl as _ ->. exists s', log. split; [reflexivity|].
  pose proof (@ReconcileAppliance_order MemStore mem_provider ascii_only tiny sample_gates router) as Ho. unfold tiny_run in E. rewrite E in Ho.
  destruct Ho as (_ & _ & _ & _ & Hw). exact (Hw tiny_valued eq_refl).
Defined.

Theorem ReconcileAppliance_guarded_witness : ∃ s', tiny_run = ((s', tiny_pre ++ mkEvent (CallWrite "network") true :: tiny_post), Ok 1)
  ∧ mkEvent (CallVerify GateSafetyBefore) true ∈ tiny_pre.
Proof.
  pose proof tiny_log as Hl. destruct tiny_run as [[s' log] r] eqn:E. injection Hl as -> ->. exists s'. split; [reflexivity|].
  exact (proj1 (@ReconcileAppliance_guarded MemStore mem_provider ascii_only tiny sample_gates router s' _ _ tiny_pre _ tiny_post
    "network" E eq_refl eq_refl ltac:(done))).
Defined.
End FwAppliance.
