(* ===== verification/SvcCommands.v ===== *)
(** * The client service commands ([internal/cli/client_services.go],
    management_policy.go; the lab configuration of
    [internal/controller/host])

    Planning, applying and taking down DNS and DHCP, and adding and removing
    their records and reservations: what is composed, counted, confirmed,
    saved and changed, and in which order.  The provider is the one of
    [FwAppliance] with the calls the commands add; the file of the lab
    configuration is a second component of the state.  Printing is left out, but
    for what a command reports. *)

From S2P Require Export FwAppliance.
From Stdlib Require Import Floats.SpecFloat.

Open Scope Z_scope.

Module SvcCommands.
Import Model CsConfig CsNames FwSection FwServices FwReconcile FwStage FwCompose FwAppliance.
Import FwDesired(DesiredState, ds_Zones, ds_Network, ds_Firewall, ds_ManagementGateway, FwZone, fz_Name, fz_Gateway,
  CompositionPolicy, mkPolicy, VPNProfile).

(** ** The lab configuration *)

Record ProxmoxConfig := mkProxmox { px_Address : string; px_ConnectionAddress : string; px_User : string; px_Node : string; px_Repository : string }.
Record StorageConfig := mkStorage { st_Profile : string; st_Device : string; st_GuestStorage : string }.
Record VLANConfig := mkVLANs { vl_Transit : Z; vl_Infra : Z; vl_Servers : Z; vl_Trusted : Z; vl_Sandbox : Z; vl_Mgmt : Z }.
Record ProtectedRanges := mkRanges { pr_Infra : string; pr_Servers : string; pr_Trusted : string; pr_Sandbox : string }.
Record NetworkConfig := mkNet {
  nc_InternalBridge : string; nc_PhysicalTrunk : string; nc_PhysicalTrunkMAC : string; nc_VLANs : VLANConfig;
  nc_Domain : string; nc_ProtectedRanges : option ProtectedRanges;
}.
(** [lc_Gateway]: the management address of the gateway section. *)
Record LabConfig := mkLabConfig {
  lc_Name : string; lc_Proxmox : ProxmoxConfig; lc_Storage : option StorageConfig; lc_Network : option NetworkConfig;
  lc_Gateway : option string; lc_Modules : Modules;
}.

Definition InternalBridge : string := "vmbr1".
Definition DefaultNetworkConfig : NetworkConfig :=
  mkNet InternalBridge "" "" (mkVLANs 5 10 20 30 40 99) DefaultDomain None.

Inductive ConfigError :=
| NameRequired | ProxmoxAddress | ConnectionNotCanonical | ConnectionUnsupported | ProxmoxUser | ProxmoxNode | ProxmoxRepository
| StorageSelection | BridgeName | DomainUnsupported | TrunkUnsafe | TrunkIncomplete | TrunkMAC | VLANs | RangeMissing | RangeNotCanonical
| ServicesIntent (e : CsNames.Error).

Definition safe_char (c : ascii) : bool := contains_byte "._-" c || is_lower c || is_upper c || is_digit c.
Definition safeIdentifier (value : string) : bool := (value != "") && sall safe_char value.

Definition vlan_step (seen : gset Z) (value : Z) : result ConfigError (gset Z) :=
  _ ← fail_if ((value <? 1) || (4094 <? value) || bool_decide (value ∈ seen)) VLANs;
  Ok ({[ value ]} ∪ seen).

(** The zones are visited in no fixed order; the errors do not tell them apart here. *)
Definition range_check (value_want : string * string) : result ConfigError unit :=
  _ ← fail_if (value_want.1 == "") RangeMissing;
  fail_if (value_want.1 != value_want.2) RangeNotCanonical.
Definition range_items (r : ProtectedRanges) : list (string * string) :=
  [(pr_Infra r, "10.10.10.224/28"); (pr_Servers r, "10.10.20.224/28");
   (pr_Trusted r, "10.10.30.224/28"); (pr_Sandbox r, "10.10.40.224/28")]%string.

Definition ValidateNetworkConfig (config : NetworkConfig) : result ConfigError unit :=
  _ ← fail_if (nc_InternalBridge config != InternalBridge) BridgeName;
  _ ← fail_if ((nc_Domain config != "") && (nc_Domain config != DefaultDomain)) DomainUnsupported;
  _ ← fail_if ((nc_PhysicalTrunk config != "") && negb (safeIdentifier (nc_PhysicalTrunk config))) TrunkUnsafe;
  _ ← fail_if (negb (Bool.eqb (nc_PhysicalTrunk config == "") (nc_PhysicalTrunkMAC config == ""))) TrunkIncomplete;
  _ ← fail_if ((nc_PhysicalTrunkMAC config != "")
        && negb (match parse_mac (nc_PhysicalTrunkMAC config) with Some mac => (length mac =? 6)%nat | None => false end)) TrunkMAC;
  let v := nc_VLANs config in
  _ ← foldM vlan_step ∅ [vl_Transit v; vl_Infra v; vl_Servers v; vl_Trusted v; vl_Sandbox v; vl_Mgmt v];
  match nc_ProtectedRanges config with Some r => eachM range_check (range_items r) | None => Ok tt end.

(** [model.NewSite] with the management address and the domain of the configuration. *)
Definition site_of (name management domain : string) : Site :=
  let s := NewSite name "controller-local" "managed" in
  let g := s_Gateway s in {|
  s_APIVersion := s_APIVersion s; s_PlatformVersion := s_PlatformVersion s; s_SchemaVersion := s_SchemaVersion s;
  s_StorageProfile := s_StorageProfile s; s_StorageDevice := s_StorageDevice s;
  s_Gateway := mkGateway (gw_Mode g) (gw_UpstreamMode g) (gw_UpstreamMAC g) management (gw_ManagementNetwork g)
    (gw_ManagementGateway g) (gw_ControllerAddress g) (gw_Publish g);
  s_LogicalProxmoxIdentity := s_LogicalProxmoxIdentity s; s_BootstrapAddress := s_BootstrapAddress s;
  s_SSHIdentityFile := s_SSHIdentityFile s; s_PhysicalNetwork := s_PhysicalNetwork s; s_TestedGateway := s_TestedGateway s;
  s_Network := mkNetwork domain (n_Zones (s_Network s));
  s_PKI := s_PKI s; s_SecretMetadata := s_SecretMetadata s; s_Ownership := s_Ownership s;
  s_Components := s_Components s; s_Modules := s_Modules s; s_ModuleConfig := s_ModuleConfig s;
  s_Companion := s_Companion s; s_Declarations := s_Declarations s; s_USBExports := s_USBExports s;
  s_RetainedModules := s_RetainedModules s; s_DHCPReservations := s_DHCPReservations s; s_DNSRecords := s_DNSRecords s;
  s_UserFirewallRules := s_UserFirewallRules s; s_PendingDNSDeletions := s_PendingDNSDeletions s;
|}.
Definition management_of (config : LabConfig) : string :=
  match lc_Gateway config with Some m => if m == "" then GatewayManagementAddress else m | None => GatewayManagementAddress end.

Definition with_modules (config : LabConfig) (modules : Modules) : LabConfig :=
  mkLabConfig (lc_Name config) (lc_Proxmox config) (lc_Storage config) (lc_Network config) (lc_Gateway config) modules.

Definition labConfigDomain (config : LabConfig) : string :=
  match lc_Network config with Some n => if nc_Domain n == "" then DefaultDomain else nc_Domain n | None => DefaultDomain end.

Definition ensureClientNetworkIntent (config : LabConfig) : LabConfig :=
  let net := default DefaultNetworkConfig (lc_Network config) in
  let net := if nc_Domain net == "" then mkNet (nc_InternalBridge net) (nc_PhysicalTrunk net) (nc_PhysicalTrunkMAC net) (nc_VLANs net) DefaultDomain (nc_ProtectedRanges net) else net in
  mkLabConfig (lc_Name config) (lc_Proxmox config) (lc_Storage config) (Some net) (lc_Gateway config) (lc_Modules config).

(** ** JSON of the provider

    The members of an object are distinct and visited in any order; what is
    asked of them does not depend on it. *)
Inductive Json :=
| JBool (b : bool) | JNumber (n : spec_float) | JString (s : string)
| JArray (items : list Json) | JObject (members : list (string * Json)) | JNull.

Definition member (j : list (string * Json)) (key : string) : option Json :=
  snd <$> List.find (fun kv : string * Json => kv.1 == key) j.
Definition text_at (j : list (string * Json)) (key : string) : string :=
  match member j key with Some (JString s) => s | _ => "" end.
Definition f64_24 : spec_float := S754_finite false 6755399441055744 (-48).
Definition f64_zero : spec_float := S754_zero false.

Definition address_ready (wanted : string) (item : Json) : bool :=
  match item with
  | JObject address =>
      match member address "address", member address "mask" with
      | Some (JString a), Some (JNumber m) => (a == wanted) && SFeqb m f64_24
      | _, _ => false
      end
  | _ => false
  end.
Fixpoint interfaceReady (wantedName wantedAddress : string) (value : Json) : bool :=
  match value with
  | JObject typed =>
      ((text_at typed "interface" == wantedName)
       && match member typed "up" with Some (JBool up) => up | _ => false end
       && match member typed "ipv4-address" with Some (JArray addresses) => existsb (address_ready wantedAddress) addresses | _ => false end)
      || existsb (fun kv : string * Json => let '(_, item) := kv in interfaceReady wantedName wantedAddress item) typed
  | JArray items => existsb (interfaceReady wantedName wantedAddress) items
  | _ => false
  end.

Fixpoint defaultRouteValue (expectedGateway : string) (value : Json) : bool :=
  match value with
  | JObject typed =>
      let children := existsb (fun kv : string * Json => let '(_, item) := kv in defaultRouteValue expectedGateway item) typed in
      if (text_at typed "target" == "0.0.0.0") && SFeqb (match member typed "mask" with Some (JNumber m) => m | _ => f64_zero end) f64_zero then
        if text_at typed "nexthop" != "" then (expectedGateway == "") || (text_at typed "nexthop" == expectedGateway)
        else if text_at typed "gateway" != "" then (expectedGateway == "") || (text_at typed "gateway" == expectedGateway)
        else children
      else children
  | JArray items => existsb (defaultRouteValue expectedGateway) items
  | _ => false
  end.

(** The number of instances in a description of a service, and whether one runs. *)
Fixpoint serviceInstancesValue (value : Json) : Z * bool :=
  match value with
  | JObject typed =>
      let own := match member typed "running" with Some (JBool running) => (1, running) | _ => (0, false) end in
      foldr (fun (kv : string * Json) (acc : Z * bool) =>
          let '(key, child) := kv in
          if key == "running" then acc else let '(n, r) := serviceInstancesValue child in (acc.1 + n, acc.2 || r)) own typed
  | JArray items => foldr (fun child (acc : Z * bool) => let '(n, r) := serviceInstancesValue child in (acc.1 + n, acc.2 || r)) (0, false) items
  | _ => (0, false)
  end.

(** ** The provider and the host *)

Class ClientProvider (S : Type) := {
  cp_appliance :: ApplianceProvider S;
  InterfaceDump : S → S * result string string;
  ServiceList : S → S * result string string;
  FirewallSafetyStatusViaHost : S → S * result string bool;
  EnsureVPNIPv6DisabledViaHost : S → S * result string unit;
}.
(** [json.Unmarshal] into [any], and into a map of raw values. *)
Class ProviderJSON := { unmarshal_value : string → option Json; unmarshal_services : string → option (option (gmap string string)) }.
(** [reflect.DeepEqual]: it also tells a nil slice from an empty one, which are the
    same list here, so equal values may differ for it. *)
Class DeepEqual := { same_modules : Modules → Modules → bool; same_records : list DNSRecord → list DNSRecord → bool }.
Class DeepEqualLaws `{DeepEqual} := {
  same_modules_eq a b : same_modules a b = true → a = b;
  same_records_eq a b : same_records a b = true → a = b;
}.

Inductive CmdError :=
| Config (e : ConfigError) | RangesNotAdopted | NoBinding | BindingInvalid | BindingAmbiguous | InterfacesUnread (msg : string)
| MaterialMissing | Composing (e : ComposeError) | Services (e : ServiceError) | Reading (msg : string) | Diffing (e : DiffError)
| Reconciling (e : FwAppliance.Error) | Drift (pkg : string) | DisabledDrift (pkg : string)
| ServiceListMalformed | DnsmasqDown | StubbyDown | TimeDown
| DHCPNeedsDNS | Invalid (e : CsNames.Error)
| NeedsYes | PromptFailed (msg : string) | CancelledByOperator | WriteFailed (msg : string)
| ApplicationFailed (saved : bool) (e : CmdError) | TailnetEnabled | DHCPEnabled
| NotConfigured | AddressNotCanonical | SystemConflict (name : string) | DefinitionConflict (name : string) | Unknown (name : string) | OwnedBySystem (name : string)
| TailnetReservationHeld | BadName (e : NameError).

(** What a command reports when it succeeds. *)
Inductive Report := NoChangesRequired | Applied | Planned (changes : Z) | Pending | Passed.

Inductive Capability := DNS | DHCP.
#[export] Instance Capability_eq_dec : EqDecision Capability.
Proof. solve_decision. Defined.

Record ControllerLABBinding := mkLABBinding { lb_Address : string; lb_MAC : string }.

(** The provider, and the file of the lab configuration. *)
Record Lab (S : Type) := mkLab { lab_provider : S; lab_file : LabConfig }.
Arguments mkLab {S}. Arguments lab_provider {S}. Arguments lab_file {S}.

Definition on_provider {S A} (op : M S CmdError A) : M (Lab S) CmdError A := fun l =>
  let '(s, r) := op (lab_provider l) in (mkLab s (lab_file l), r).
Definition lift_result {S E A} (f : E → CmdError) (r : result E A) : M S CmdError A := of_result f r.
Definition refuse {S} (bad : bool) (e : CmdError) : M S CmdError unit := if bad then fail e else mret tt.

Record clientServiceContext := mkContext {
  sx_Config : LabConfig; sx_Site : Site; sx_HomeRecovery : bool; sx_VPNProfile : option VPNProfile;
}.
Record clientServiceOptions := mkOptions { co_yes : bool; co_plan : bool }.

Section commands.
Context {S : Type} `{provider : ClientProvider S} `{unicode : GoUnicode, url : GoURL, json : ProviderJSON, equal : DeepEqual}.
(** The hardware addresses of the controller's interfaces. *)
Context (interfaces : result string (list (list Z))).
(** The text of an error. *)
Context (text : CmdError → string).

(** ** The configuration on disk *)

Definition ValidateConfig (config : LabConfig) : result ConfigError unit :=
  let p := lc_Proxmox config in
  _ ← fail_if (lc_Name config == "") NameRequired;
  _ ← fail_if (negb (bool_decide (is_Some (parse_to4 (px_Address p))))) ProxmoxAddress;
  _ ← (if px_ConnectionAddress p == "" then Ok tt
       else
         _ ← fail_if (negb (canonical_ipv4 (px_ConnectionAddress p))) ConnectionNotCanonical;
         fail_if (px_ConnectionAddress p != ProxmoxManagementAddress) ConnectionUnsupported);
  _ ← fail_if (px_User p != "root") ProxmoxUser;
  _ ← fail_if ((px_Node p != "") && negb (safeIdentifier (px_Node p))) ProxmoxNode;
  _ ← fail_if (px_Repository p != "no-subscription") ProxmoxRepository;
  _ ← match lc_Storage config with
      | Some st => fail_if ((st_Profile st != "dedicated-data-disk") || (st_GuestStorage st != "boetticher-data")
                            || negb (has_prefix (st_Device st) "/dev/disk/by-id/")) StorageSelection
      | None => Ok tt
      end;
  _ ← match lc_Network config with Some n => ValidateNetworkConfig n | None => Ok tt end;
  match CsValidate.Validate (lc_Modules config) (site_of (lc_Name config) (management_of config) (labConfigDomain config)) with
  | Ok _ => Ok tt
  | Err e => Err (ServicesIntent e)
  end.

(** The file is replaced by a rename, so a failed write leaves it as it was;
    [write] is how the write ends. *)
Definition SaveConfig (write : result string unit) (config : LabConfig) : M (Lab S) CmdError unit := fun l =>
  match ValidateConfig config with
  | Err e => (l, Err (Config e))
  | Ok _ => match write with Ok _ => (mkLab (lab_provider l) config, Ok tt) | Err msg => (l, Err (WriteFailed msg)) end
  end.

(** ** Composition *)

Definition servers_zone (site : Site) : option Zone :=
  List.find (fun z => z_Type z == ZoneTypeServers) (n_Zones (s_Network site)).

Definition binding_step (prefix : option Prefix) (mac : list Z) (found : option ControllerLABBinding) (r : Reservation)
    : result CmdError (option ControllerLABBinding) :=
  if (rv_Zone r != "SERVERS") || negb (equal_fold (rv_MAC r) (mac_string mac)) then Ok found
  else match parse_addr (rv_Address r), prefix with
  | Some ip, Some p =>
      _ ← fail_if (negb (prefix_contains p ip) || bool_decide (ip = p_addr (masked p))) BindingInvalid;
      _ ← fail_if (bool_decide (is_Some found)) BindingAmbiguous;
      Ok (Some (mkLABBinding (addr_string ip) (to_lower (mac_string mac))))
  | _, _ => Err BindingInvalid
  end.

Definition interface_step (prefix : option Prefix) (reservations : list Reservation) (found : option ControllerLABBinding) (mac : list Z)
    : result CmdError (option ControllerLABBinding) :=
  if negb (length mac =? 6)%nat || negb (Z.land (hd 0 mac) 1 =? 0) then Ok found
  else foldM (binding_step prefix mac) found reservations.

Definition ResolveControllerLABBinding (config : LabConfig) (hardware : list (list Z)) : result CmdError ControllerLABBinding :=
  match m_DHCP (lc_Modules config) with
  | None => Err NoBinding
  | Some dhcp =>
      match servers_zone (NewSite (lc_Name config) "local" "managed") with
      | None => Err BindingInvalid
      | Some zone =>
          found ← foldM (interface_step (parse_prefix (z_Network zone)) (h_Reservations dhcp)) None hardware;
          match found with Some b => Ok b | None => Err NoBinding end
      end
  end.
Definition LocalControllerLABBinding (config : LabConfig) : result CmdError ControllerLABBinding :=
  match interfaces with Ok hardware => ResolveControllerLABBinding config hardware | Err msg => Err (InterfacesUnread msg) end.

Definition managementCompositionPolicy (config : LabConfig) (homeRecovery : bool) : result CmdError CompositionPolicy :=
  let ranges := match lc_Network config with
                | Some n => (fun r => [pr_Infra r; pr_Servers r; pr_Trusted r; pr_Sandbox r]) <$> nc_ProtectedRanges n
                | None => None
                end in
  match LocalControllerLABBinding config with
  | Ok b => Ok (mkPolicy ranges (lb_Address b) (lb_MAC b))
  | Err NoBinding =>
      if homeRecovery && (px_ConnectionAddress (lc_Proxmox config) == "") then Ok (mkPolicy ranges "" "") else Err NoBinding
  | Err e => Err e
  end.

Definition composing {A} (r : result ComposeError A) : result CmdError A :=
  match r with Ok a => Ok a | Err e => Err (Composing e) end.

Definition composeClientAppliance (sc : clientServiceContext) (modules : Modules) : result CmdError ApplianceComposition :=
  match lc_Network (sx_Config sc) ≫= nc_ProtectedRanges with
  | None => Err RangesNotAdopted
  | Some _ =>
      policy ← managementCompositionPolicy (with_modules (sx_Config sc) modules) (sx_HomeRecovery sc);
      if vpn_enabled modules then
        match sx_VPNProfile sc with
        | Some profile => composing (ComposeApplianceWithVPN (sx_Site sc) modules (Some policy) profile)
        | None => Err MaterialMissing
        end
      else composing (ComposeAppliance (sx_Site sc) modules (Some policy))
  end.

(** ** Reconciliation *)

Definition reading {A} (op : S → S * result string A) : M S CmdError A := wrap_err Reading op.

Definition verifyComposedFirewall (desired : list Section_) : M S CmdError unit :=
  current ← reading (UCIGet "firewall");
  changes ← lift_result Diffing (DiffFirewall current desired);
  refuse (negb (length changes =? 0)%nat) (Drift "firewall").

Definition GatewayCount (runtime : string) (desired : DesiredState) : Z :=
  match unmarshal_value runtime with
  | None => 0
  | Some payload =>
      Z.of_nat (length (List.filter (fun z => interfaceReady ("boetticher_iface_" +:+ to_lower (fz_Name z)) (fz_Gateway z) payload) (ds_Zones desired)))
  end.
Definition DefaultRouteVia (runtime expectedGateway : string) : bool :=
  (expectedGateway != "") && match unmarshal_value runtime with Some payload => defaultRouteValue expectedGateway payload | None => false end.

Definition safety_gate (modules : Modules) (composed : ApplianceComposition) : M S CmdError unit :=
  _ ← (if vpn_enabled modules then reading EnsureVPNIPv6DisabledViaHost else mret tt);
  _ ← verifyComposedFirewall (ds_Firewall (ac_Desired composed));
  ok ← reading FirewallSafetyStatusViaHost;
  refuse (negb ok) (Reading "provider firewall safety status failed").
Definition network_gate (composed : ApplianceComposition) : M S CmdError unit :=
  dump ← reading InterfaceDump;
  _ ← refuse (negb (GatewayCount dump (ac_Desired composed) =? Z.of_nat (length (ds_Zones (ac_Desired composed)))))
        (Reading "provider gateway interfaces are not ready");
  refuse (negb (DefaultRouteVia dump (ds_ManagementGateway (ac_Desired composed)))) (Reading "provider default route is not ready").

(** A gate reports its error as a text. *)
Definition gate (m : M S CmdError unit) : S → S * result string unit := fun s =>
  let '(s', r) := m s in (s', match r with Ok _ => Ok tt | Err e => Err (text e) end).
Definition service_gates (modules : Modules) (composed : ApplianceComposition) : ApplianceVerifyCallbacks S :=
  mkVerify (Some (gate (safety_gate modules composed))) (Some (gate (network_gate composed)))
    (Some (gate (safety_gate modules composed))) (Some ReloadFirewall).

Definition reconcileClientServices (sc : clientServiceContext) (modules : Modules) : M S CmdError (ServiceState * Z) :=
  state ← lift_result Services (ServiceStateFromModules (sx_Site sc) modules);
  _ ← lift_result Services (ValidateServiceState state);
  composed ← of_result id (composeClientAppliance sc modules);
  changes ← wrap_err Reconciling (ReconcileAppliance composed (service_gates modules composed));
  mret (state, changes).

(** ** Counting and verifying *)

Definition owned_items (state : ServiceState) : list (string * list Section_) :=
  [("system", ss_System state); ("stubby", ss_Stubby state); ("dhcp", ss_DHCP state)].

(** Read a package, check it, and compare it with the owned sections. *)
Definition owned_changes (item : string * list Section_) : M S CmdError (list Mutation) :=
  observed ← reading (UCIGet item.1);
  _ ← lift_result Services (ValidateServicePackage item.1 observed item.2);
  lift_result Diffing (DiffOwned observed item.2).

Definition firewall_changes (desired : list Section_) : M S CmdError (list Mutation) :=
  observed ← reading (UCIGet "firewall");
  lift_result Diffing (DiffFirewall observed desired).

Definition clientServiceChangeCount (sc : clientServiceContext) (modules : Modules) : M S CmdError Z :=
  composed ← of_result id (composeClientAppliance sc modules);
  state ← lift_result Services (ServiceStateFromModules (sx_Site sc) modules);
  changes ← foldS (fun changes item => itemChanges ← owned_changes item; mret (changes + Z.of_nat (length itemChanges)))
      0 (owned_items state ++ [("network", ds_Network (ac_Desired composed))]);
  itemChanges ← firewall_changes (ds_Firewall (ac_Desired composed));
  mret (changes + Z.of_nat (length itemChanges)).

Definition service_ready (services : gmap string string) (name : string) : bool :=
  match services !! name with
  | Some raw =>
      let '(instances, running) := match unmarshal_value raw with Some value => serviceInstancesValue value | None => (0, false) end in
      running && negb (instances =? 0)
  | None => false
  end.

(** [verifyClientServices] without sections to ignore. *)
Definition verifyClientServices (state : ServiceState) (capability : Capability) : M S CmdError unit :=
  _ ← forM_ (fun item => changes ← owned_changes item; refuse (negb (length changes =? 0)%nat) (Drift item.1)) (owned_items state);
  services ← reading ServiceList;
  match unmarshal_services services with
  | Some (Some observed) =>
      _ ← refuse (negb (service_ready observed "dnsmasq")) DnsmasqDown;
      _ ← refuse (bool_decide (capability = DNS) && negb (service_ready observed "stubby")) StubbyDown;
      refuse (negb (service_ready observed "sysntpd")) TimeDown
  | _ => fail ServiceListMalformed
  end.

Definition benign (m : Mutation) : bool :=
  bool_decide (mu_Kind m = MutationCreate)
  && (has_prefix (sec_Name (mu_Section m)) "boetticher_record_" || has_prefix (sec_Name (mu_Section m)) "boetticher_observability_record_"
      || has_prefix (sec_Name (mu_Section m)) "boetticher_host_").
Definition benignDHCPAdditions (desired : list Section_) : M S CmdError bool :=
  observed ← reading (UCIGet "dhcp");
  mutations ← lift_result Diffing (DiffOwned observed desired);
  mret (negb (length mutations =? 0)%nat && forallb benign mutations).

Definition verifyDisabledClientServices (state : ServiceState) : M S CmdError unit :=
  forM_ (fun item => changes ← owned_changes item; refuse (negb (length changes =? 0)%nat) (DisabledDrift item.1)) (owned_items state).

(** ** Intent *)

Definition with_dns (m : Modules) (d : option DNSConfig) : Modules :=
  mkModules (m_Systems m) (m_Tailnet m) d (m_DHCP m) (m_VPN m) (m_Observability m) (m_Media m) (m_Arrstack m).
Definition with_dhcp (m : Modules) (h : option DHCPConfig) : Modules :=
  mkModules (m_Systems m) (m_Tailnet m) (m_DNS m) h (m_VPN m) (m_Observability m) (m_Media m) (m_Arrstack m).
Definition new_dns : DNSConfig := mkDNS (Some true) [] [] [].
Definition new_dhcp : DHCPConfig := mkDHCP (Some true) "" [] [] (mkTime [] None).
Definition set_dns (d : DNSConfig) (enable : bool) : DNSConfig := mkDNS (Some enable) (d_Upstreams d) (d_Records d) (d_Infrastructure d).
Definition set_dhcp (h : DHCPConfig) (enable : bool) : DHCPConfig :=
  mkDHCP (Some enable) (h_LeaseDuration h) (h_Scopes h) (h_Reservations h) (h_Time h).

Definition prepareClientModules (current : Modules) (capability : Capability) (enable : bool) (serviceSite : Site)
    : result CmdError (Modules * bool) :=
  let proposed := Clone current in
  let section :=
    match capability with
    | DNS => match m_DNS proposed with
             | None => if enable then Some (with_dns proposed (Some new_dns)) else None
             | Some d => Some (with_dns proposed (Some (set_dns d enable)))
             end
    | DHCP => match m_DHCP proposed with
              | None => if enable then Some (with_dhcp proposed (Some new_dhcp)) else None
              | Some h => Some (with_dhcp proposed (Some (set_dhcp h enable)))
              end
    end in
  match section with
  | None => Ok (proposed, false)
  | Some proposed =>
      let proposed := if enable then Normalize proposed else proposed in
      _ ← fail_if (enable && bool_decide (capability = DHCP) && negb (CsValidate.dns_enabled proposed)) DHCPNeedsDNS;
      match CsValidate.Validate proposed serviceSite with
      | Err e => Err (Invalid e)
      | Ok _ => Ok (proposed, negb (same_modules current proposed))
      end
  end.

Definition infrastructureRecordsForModules (records : list InfraRecord) : list DNSRecord :=
  map (fun r => mkRecord (ir_Name r) (ir_Type r) (ir_Address r)) records.

(** [lines]: what [readConfigureLine] returns, line by line. *)
Fixpoint prompt_attempts (attempts : nat) (lines : list (result string string)) (defaultValue : bool) : result string bool :=
  match attempts with
  | O => Err "too many invalid yes/no responses"%string
  | Datatypes.S attempts =>
      match lines with
      | [] => Err "EOF"%string
      | Err msg :: _ => Err msg
      | Ok line :: lines =>
          if line == "" then Ok defaultValue
          else if bool_decide (to_lower line ∈ ["y"; "yes"]%string) then Ok true
          else if bool_decide (to_lower line ∈ ["n"; "no"]%string) then Ok false
          else prompt_attempts attempts lines defaultValue
      end
  end.
Definition promptYesNo (lines : list (result string string)) (defaultValue : bool) : result string bool :=
  prompt_attempts 3 lines defaultValue.

Definition confirm (yes : bool) (input : option (list (result string string))) : M (Lab S) CmdError unit :=
  if yes then mret tt
  else match input with
  | None => fail NeedsYes
  | Some lines =>
      match promptYesNo lines false with
      | Err msg => fail (PromptFailed msg)
      | Ok answer => refuse (negb answer) CancelledByOperator
      end
  end.

(** An error after the confirmation: whether the configuration had been saved. *)
Definition after_save {A} (saved : bool) (m : M (Lab S) CmdError A) : M (Lab S) CmdError A := wrap_err (ApplicationFailed saved) m.

(** ** The commands *)

Definition infrastructure (sc : clientServiceContext) (proposed : Modules) : result CmdError (Modules * bool) :=
  match m_DNS proposed with
  | None => Ok (proposed, false)
  | Some d =>
      match InfrastructureDNSRecords (sx_Site sc) with
      | Err e => Err (Services e)
      | Ok records =>
          let desired := infrastructureRecordsForModules records in
          Ok (with_dns proposed (Some (mkDNS (d_Enabled d) (d_Upstreams d) (d_Records d) desired)),
              negb (same_records (d_Infrastructure d) desired))
      end
  end.

Definition runClientServiceApply (write : result string unit) (input : option (list (result string string))) (options : clientServiceOptions)
    (capability : Capability) (sc : clientServiceContext) : M (Lab S) CmdError Report :=
  '(proposed, configChanged) ← of_result id (prepareClientModules (lc_Modules (sx_Config sc)) capability true (sx_Site sc));
  '(proposed, infrastructureChanged) ← of_result id (infrastructure sc proposed);
  state ← lift_result Services (ServiceStateFromModules (sx_Site sc) proposed);
  changes ← on_provider (clientServiceChangeCount sc proposed);
  if (changes =? 0) && negb configChanged && negb infrastructureChanged then
    _ ← on_provider (verifyClientServices state capability);
    mret NoChangesRequired
  else
    _ ← confirm (co_yes options) input;
    let config := ensureClientNetworkIntent (with_modules (sx_Config sc) proposed) in
    let sc := mkContext config (sx_Site sc) (sx_HomeRecovery sc) (sx_VPNProfile sc) in
    _ ← SaveConfig write config;
    _ ← after_save true (on_provider (reconcileClientServices sc proposed));
    _ ← after_save true (on_provider (verifyClientServices state capability));
    mret Applied.

Definition runClientServiceTeardown (write : result string unit) (input : option (list (result string string))) (options : clientServiceOptions)
    (capability : Capability) (sc : clientServiceContext) : M (Lab S) CmdError Report :=
  let modules := lc_Modules (sx_Config sc) in
  _ ← refuse (Enabled (m_Tailnet modules)) TailnetEnabled;
  _ ← refuse (bool_decide (capability = DNS) && CsValidate.dhcp_enabled modules) DHCPEnabled;
  '(proposed, configChanged) ← of_result id (prepareClientModules modules capability false (sx_Site sc));
  state ← lift_result Services (ServiceStateFromModules (sx_Site sc) proposed);
  changes ← on_provider (clientServiceChangeCount sc proposed);
  if co_plan options then mret (Planned changes)
  else if negb configChanged && (changes =? 0) then
    _ ← on_provider (verifyDisabledClientServices state);
    mret NoChangesRequired
  else
    _ ← confirm (co_yes options) input;
    let config := if configChanged then ensureClientNetworkIntent (with_modules (sx_Config sc) proposed) else sx_Config sc in
    let sc := mkContext config (sx_Site sc) (sx_HomeRecovery sc) (sx_VPNProfile sc) in
    _ ← (if configChanged then SaveConfig write config else mret tt);
    _ ← after_save configChanged (on_provider (reconcileClientServices sc proposed));
    _ ← after_save configChanged (on_provider (verifyDisabledClientServices state));
    mret Applied.

Definition plan_changes (item : string * list Section_) : M S CmdError (list Mutation) :=
  current ← reading (UCIGet item.1);
  lift_result Diffing (if item.1 == "firewall" then DiffFirewall current item.2 else DiffOwned current item.2).

(** A plan without changes reports whether the services are ready. *)
Definition report_plan (state : ServiceState) (capability : Capability) : M S CmdError Report := fun s =>
  match verifyClientServices state capability s with
  | (s', Ok _) => (s', Ok NoChangesRequired)
  | (s', Err _) => (s', Ok Pending)
  end.

(** The plan only reads; it reports the number of changes it lists, or that
    nothing is required. *)
Definition runClientServicePlan (capability : Capability) (sc : clientServiceContext) : M S CmdError Report :=
  '(modules, configChanged) ← of_result id (prepareClientModules (lc_Modules (sx_Config sc)) capability true (sx_Site sc));
  state ← lift_result Services (ServiceStateFromModules (sx_Site sc) modules);
  composed ← of_result id (composeClientAppliance sc modules);
  changes ← foldS (fun changes item => packageChanges ← plan_changes item; mret (changes + Z.of_nat (length packageChanges)))
      0 (owned_items state ++ [("firewall", ds_Firewall (ac_Desired composed))]);
  if negb configChanged && (changes =? 0) then report_plan state capability else mret (Planned changes).

(** A failed verification is pending when DHCP only lacks additions. *)
Definition report_status (state : ServiceState) (capability : Capability) : M S CmdError Report := fun s =>
  match verifyClientServices state capability s with
  | (s1, Ok _) => (s1, Ok Passed)
  | (s1, Err e) =>
      match benignDHCPAdditions (ss_DHCP state) s1 with
      | (s2, Ok true) => (s2, if contains (text e) "not at the desired state" then Ok Pending else Err e)
      | (s2, _) => (s2, Err e)
      end
  end.

Definition runClientServiceStatus (capability : Capability) (sc : clientServiceContext) : M S CmdError Report :=
  let modules := lc_Modules (sx_Config sc) in
  _ ← refuse (negb (match capability with DNS => CsValidate.dns_enabled modules | DHCP => CsValidate.dhcp_enabled modules end)) NotConfigured;
  state ← lift_result Services (ServiceStateFromModules (sx_Site sc) modules);
  report_status state capability.

(** ** Records and reservations *)

Definition applyClientResourceMutation (write : result string unit) (input : option (list (result string string))) (yes : bool)
    (capability : Capability) (configChanged : bool) (sc : clientServiceContext) : M (Lab S) CmdError Report :=
  let modules := lc_Modules (sx_Config sc) in
  changes ← on_provider (clientServiceChangeCount sc modules);
  if (changes =? 0) && negb configChanged then
    state ← lift_result Services (ServiceStateFromModules (sx_Site sc) modules);
    _ ← on_provider (verifyClientServices state capability);
    mret NoChangesRequired
  else
    _ ← confirm yes input;
    let config := ensureClientNetworkIntent (sx_Config sc) in
    let sc := mkContext config (sx_Site sc) (sx_HomeRecovery sc) (sx_VPNProfile sc) in
    _ ← (if configChanged then SaveConfig write config else mret tt);
    _ ← after_save configChanged (on_provider (reconcileClientServices sc modules));
    mret Applied.

Definition with_config (sc : clientServiceContext) (modules : Modules) : clientServiceContext :=
  mkContext (with_modules (sx_Config sc) modules) (sx_Site sc) (sx_HomeRecovery sc) (sx_VPNProfile sc).

(** The first element of a list that [p] picks, with what is around it. *)
Fixpoint remove_first {A} (p : A → bool) (l : list A) : option (list A) :=
  match l with
  | [] => None
  | x :: l => if p x then Some l else cons x <$> remove_first p l
  end.

(** The loop over the existing definitions: an identical one ends it, another of
    the name is a conflict. *)
Fixpoint existing {A} (named same : A → bool) (e : CmdError) (l : list A) : result CmdError bool :=
  match l with
  | [] => Ok false
  | x :: l => if named x then (if same x then Ok true else Err e) else existing named same e l
  end.

Definition addReservation (name zone mac address : string) (sc : clientServiceContext) : result CmdError (clientServiceContext * bool) :=
  let modules := lc_Modules (sx_Config sc) in
  match m_DHCP modules with
  | None => Err NotConfigured
  | Some dhcp =>
      _ ← fail_if (negb (Enabled (h_Enabled dhcp))) NotConfigured;
      match canonicalMAC mac, parse_to4 (trim_space address) with
      | Err e, _ => Err (Invalid e)
      | Ok _, None => Err AddressNotCanonical
      | Ok mac, Some ip =>
          let r := mkReservation (to_lower (trim_space name)) (to_upper (trim_space zone)) mac (addr_string ip) in
          _ ← eachM (fun s => fail_if (equal_fold (sy_Name s) (rv_Name r) || equal_fold (sy_MAC s) (rv_MAC r) || (sy_Address s == rv_Address r))
                                (SystemConflict (sy_Name s))) (m_Systems modules);
          identical ← existing (fun e => equal_fold (rv_Name e) (rv_Name r))
            (fun e => equal_fold (rv_Zone e) (rv_Zone r) && (rv_Address e == rv_Address r) && equal_fold (rv_MAC e) (rv_MAC r))
            (DefinitionConflict (rv_Name r)) (h_Reservations dhcp);
          let reservations := if (identical : bool) then h_Reservations dhcp else h_Reservations dhcp ++ [r] in
          let modules := with_dhcp modules (Some (mkDHCP (h_Enabled dhcp) (h_LeaseDuration dhcp) (h_Scopes dhcp) reservations (h_Time dhcp))) in
          match CsValidate.Validate modules (sx_Site sc) with
          | Err e => Err (Invalid e)
          | Ok _ => Ok (with_config sc modules, negb identical)
          end
      end
  end.

Definition tailnetReservation : Reservation := mkReservation TailnetGuestName "TRANSIT" TailnetGuestMAC TailnetGuestAddress.

Definition removeReservation (name : string) (sc : clientServiceContext) : result CmdError clientServiceContext :=
  let modules := lc_Modules (sx_Config sc) in
  let name := to_lower (trim_space name) in
  match m_DHCP modules with
  | None => Err NotConfigured
  | Some dhcp =>
      _ ← fail_if (negb (Enabled (h_Enabled dhcp))) NotConfigured;
      match remove_first (fun r => equal_fold (rv_Name r) name) (h_Reservations dhcp) with
      | None => Err (Unknown name)
      | Some reservations =>
          _ ← fail_if (existsb (fun s => equal_fold (sy_Name s) name) (m_Systems modules)) (OwnedBySystem name);
          _ ← fail_if (Enabled (m_Tailnet modules)
                && existsb (fun r => equal_fold (rv_Name r) name && bool_decide (r = tailnetReservation)) (h_Reservations dhcp)) TailnetReservationHeld;
          Ok (with_config sc (with_dhcp modules (Some (mkDHCP (h_Enabled dhcp) (h_LeaseDuration dhcp) (h_Scopes dhcp) reservations (h_Time dhcp)))))
      end
  end.

Definition canonical_or_empty (name domain : string) : string := match canonicalName name domain with Ok n => n | Err _ => "" end.

(** The record that the arguments describe. *)
Definition record_of (name recordType value domain : string) : result CmdError DNSRecord :=
  let recordType := to_upper (trim_space recordType) in
  let value := to_lower (trim_suffix (trim_space value) ".") in
  value ← (if recordType == "A" then (_ ← fail_if (negb (canonical_ipv4 value)) AddressNotCanonical; Ok value)
           else if recordType == "CNAME" then (match canonicalName value domain with Ok target => Ok target | Err e => Err (BadName e) end)
           else Ok value);
  match canonicalName (to_lower (trim_space name)) domain with
  | Ok canonical => Ok (mkRecord canonical recordType value)
  | Err e => Err (BadName e)
  end.

Definition addRecord (name recordType value : string) (sc : clientServiceContext) : result CmdError (clientServiceContext * bool) :=
  let modules := lc_Modules (sx_Config sc) in
  let domain := labConfigDomain (sx_Config sc) in
  match m_DNS modules with
  | None => Err NotConfigured
  | Some dns =>
      _ ← fail_if (negb (Enabled (d_Enabled dns))) NotConfigured;
      record ← record_of name recordType value domain;
      identical ← existing (fun e => canonical_or_empty (r_Name e) domain == r_Name record)
        (fun e => (r_Type e == r_Type record) && (r_Value e == r_Value record)) (DefinitionConflict (r_Name record)) (d_Records dns);
      let records := if (identical : bool) then d_Records dns else d_Records dns ++ [record] in
      let modules := with_dns modules (Some (mkDNS (d_Enabled dns) (d_Upstreams dns) records (d_Infrastructure dns))) in
      match CsValidate.Validate modules (sx_Site sc) with
      | Err e => Err (Invalid e)
      | Ok _ => Ok (with_config sc modules, negb identical)
      end
  end.

Definition removeRecord (name : string) (sc : clientServiceContext) : result CmdError clientServiceContext :=
  let modules := lc_Modules (sx_Config sc) in
  let domain := labConfigDomain (sx_Config sc) in
  match m_DNS modules with
  | None => Err NotConfigured
  | Some dns =>
      _ ← fail_if (negb (Enabled (d_Enabled dns))) NotConfigured;
      match canonicalName name domain with
      | Err e => Err (BadName e)
      | Ok canonical =>
          match remove_first (fun e => canonical_or_empty (r_Name e) domain == canonical) (d_Records dns) with
          | None => Err (Unknown canonical)
          | Some records =>
              Ok (with_config sc (with_dns modules (Some (mkDNS (d_Enabled dns) (d_Upstreams dns) records (d_Infrastructure dns)))))
          end
      end
  end.

(** ** The dispatch

    The changing actions with their arguments parsed; [options] for apply and
    teardown are as [parseClientServiceOptions] leaves them. *)
Inductive Command :=
| CmdApply (capability : Capability) | CmdTeardown (capability : Capability) (options_plan : bool)
| CmdAddReservation (name zone mac address : string) | CmdRemoveReservation (name : string)
| CmdAddRecord (name recordType value : string) | CmdRemoveRecord (name : string).

Definition runDHCPAddReservation (write : result string unit) (input : option (list (result string string))) (yes : bool)
    (name zone mac address : string) (sc : clientServiceContext) : M (Lab S) CmdError Report :=
  '(sc, changed) ← of_result id (addReservation name zone mac address sc);
  applyClientResourceMutation write input yes DHCP changed sc.
Definition runDHCPRemoveReservation (write : result string unit) (input : option (list (result string string))) (yes : bool)
    (name : string) (sc : clientServiceContext) : M (Lab S) CmdError Report :=
  sc ← of_result id (removeReservation name sc);
  applyClientResourceMutation write input yes DHCP true sc.
Definition runDNSAddRecord (write : result string unit) (input : option (list (result string string))) (yes : bool)
    (name recordType value : string) (sc : clientServiceContext) : M (Lab S) CmdError Report :=
  '(sc, changed) ← of_result id (addRecord name recordType value sc);
  applyClientResourceMutation write input yes DNS changed sc.
Definition runDNSRemoveRecord (write : result string unit) (input : option (list (result string string))) (yes : bool)
    (name : string) (sc : clientServiceContext) : M (Lab S) CmdError Report :=
  sc ← of_result id (removeRecord name sc);
  applyClientResourceMutation write input yes DNS true sc.

Definition run_command (write : result string unit) (input : option (list (result string string))) (yes : bool) (c : Command)
    (sc : clientServiceContext) : M (Lab S) CmdError Report :=
  match c with
  | CmdApply capability => runClientServiceApply write input (mkOptions yes false) capability sc
  | CmdTeardown capability plan => runClientServiceTeardown write input (mkOptions yes plan) capability sc
  | CmdAddReservation name zone mac address => runDHCPAddReservation write input yes name zone mac address sc
  | CmdRemoveReservation name => runDHCPRemoveReservation write input yes name sc
  | CmdAddRecord name recordType value => runDNSAddRecord write input yes name recordType value sc
  | CmdRemoveRecord name => runDNSRemoveRecord write input yes name sc
  end.

End commands.

(** ** What a provider promises *)

(** Reading, reloading and the checks of the runtime leave the packages as they
    are, however they end. *)
Class ClientLaws (S : Type) `{ClientProvider S} (view : S → string → Package) := {
  cl_laws :: ApplianceLaws S view;
  get_keep pkg s s' r p : UCIGet pkg s = (s', r) → view s' p = view s p;
  reload_keep s s' r p : ReloadFirewall s = (s', r) → view s' p = view s p;
  dump_keep s s' r p : InterfaceDump s = (s', r) → view s' p = view s p;
  services_keep s s' r p : ServiceList s = (s', r) → view s' p = view s p;
  status_keep s s' r p : FirewallSafetyStatusViaHost s = (s', r) → view s' p = view s p;
  ipv6_keep s s' r p : EnsureVPNIPv6DisabledViaHost s = (s', r) → view s' p = view s p;
}.

(** What a command is to make of the configuration, and whether it saves it. *)
Definition intended `{GoUnicode, GoURL, DeepEqual} (c : Command) (sc : clientServiceContext) : result CmdError (Modules * bool) :=
  let modules := lc_Modules (sx_Config sc) in
  match c with
  | CmdApply capability =>
      '(proposed, _) ← prepareClientModules modules capability true (sx_Site sc);
      '(proposed, _) ← infrastructure sc proposed;
      Ok (proposed, true)
  | CmdTeardown capability _ => prepareClientModules modules capability false (sx_Site sc)
  | CmdAddReservation name zone mac address =>
      '(sc, changed) ← addReservation name zone mac address sc; Ok (lc_Modules (sx_Config sc), changed)
  | CmdRemoveReservation name => sc ← removeReservation name sc; Ok (lc_Modules (sx_Config sc), true)
  | CmdAddRecord name recordType value =>
      '(sc, changed) ← addRecord name recordType value sc; Ok (lc_Modules (sx_Config sc), changed)
  | CmdRemoveRecord name => sc ← removeRecord name sc; Ok (lc_Modules (sx_Config sc), true)
  end.

Definition consented `{GoUnicode} (yes : bool) (input : option (list (result string string))) : Prop :=
  yes = true ∨ ∃ lines, input = Some lines ∧ promptYesNo lines false = Ok true.
Definition saved_config (sc : clientServiceContext) (modules : Modules) : LabConfig :=
  ensureClientNetworkIntent (with_modules (sx_Config sc) modules).

Section effects.
Context {S : Type} `{provider : ClientProvider S} (view : S → string → Package) {laws : ClientLaws S view}
  `{unicode : GoUnicode, url : GoURL, json : ProviderJSON, equal : DeepEqual}.
Context (interfaces : result string (list (list Z))) (text : CmdError → string).

Definition untouched (l l' : Lab S) : Prop :=
  lab_file l' = lab_file l ∧ ∀ p, view (lab_provider l') p = view (lab_provider l) p.

(** Every package of the composition holds what its specification says. *)
Definition reconciled (s s' : S) (composition : ApplianceComposition) : Prop :=
  Forall (item_wf view s) (packages composition) →
  ∀ pkg desired name, (pkg, desired) ∈ packages composition → view s' pkg !! name ≡ target pkg (view s pkg) desired name.

(** The change was confirmed, the file saved (where it changes), and the
    appliance reconciled, unless an error after the confirmation says otherwise. *)
Definition carried_out (yes : bool) (input : option (list (result string string))) (sc : clientServiceContext) (modules : Modules)
    (save : bool) (l l' : Lab S) (r : result CmdError Report) : Prop :=
  consented yes input
  ∧ lab_file l' = (if save then saved_config sc modules else lab_file l)
  ∧ (save = true → ValidateConfig (saved_config sc modules) = Ok tt)
  ∧ ((∃ e, r = Err (ApplicationFailed save e))
     ∨ r = Ok Applied ∧ ∃ composition, composeClientAppliance interfaces sc modules = Ok composition
         ∧ reconciled (lab_provider l) (lab_provider l') composition).
Definition outcome yes input sc modules save l l' r : Prop :=
  (untouched l l' ∧ r ≠ Ok Applied) ∨ carried_out yes input sc modules save l l' r.

Definition keepsM {E A} (m : M S E A) : Prop := ∀ s s' r, m s = (s', r) → ∀ p, view s' p = view s p.
Definition calm {A} (m : M (Lab S) CmdError A) : Prop := ∀ l l' r, m l = (l', r) → untouched l l'.

Lemma keeps_ret {E A} (a : A) : keepsM (mret a : M S E A).
Proof. by intros s s' r [= <- _]. Qed.
Lemma keeps_fail {E A} (e : E) : keepsM (fail e : M S E A).
Proof. by intros s s' r [= <- _]. Qed.
Lemma keeps_result {E1 E2 A} (f : E1 → E2) (x : result E1 A) : keepsM (of_result f x : M S E2 A).
Proof. intros s s' r. unfold of_result. destruct x; by intros [= <- _]. Qed.
Lemma keeps_refuse b e : keepsM (refuse b e : M S CmdError unit).
Proof. destruct b; [apply keeps_fail|apply keeps_ret]. Qed.
Lemma keeps_bind {E A B} (m : M S E A) (f : A → M S E B) : keepsM m → (∀ a, keepsM (f a)) → keepsM (m ≫= f).
Proof.
  intros Hm Hf s s' r. unfold mbind, M_bind. destruct (m s) as [s1 [a|e]] eqn:Em.
  - intros En p. by rewrite (Hf _ _ _ _ En), (Hm _ _ _ Em).
  - intros [= <- _]. by apply (Hm _ _ _ Em).
Qed.
Lemma keeps_wrap {E1 E2 A} (f : E1 → E2) (m : M S E1 A) : keepsM m → keepsM (wrap_err f m).
Proof. intros Hm s s' r. unfold wrap_err. destruct (m s) as [s1 [a|e]] eqn:Em; intros [= <- _]; by apply (Hm _ _ _ Em). Qed.
Lemma keeps_foldS {E B A} (f : B → A → M S E B) b xs : (∀ b x, keepsM (f b x)) → keepsM (foldS f b xs).
Proof.
  intros Hf. revert b. induction xs as [|x xs IH]; intros b; [apply keeps_ret|]. cbn. apply keeps_bind; [apply Hf|]. intros; apply IH.
Qed.
Lemma keeps_forM {E A} (f : A → M S E unit) xs : (∀ x, keepsM (f x)) → keepsM (forM_ f xs).
Proof. intros Hf. induction xs as [|x xs IH]; [apply keeps_ret|]. cbn. apply keeps_bind; auto. Qed.
Lemma keeps_get pkg : keepsM (reading (UCIGet pkg)).
Proof. apply keeps_wrap. intros s s' r H p. by eapply get_keep. Qed.
Lemma keeps_dump : keepsM (reading InterfaceDump).
Proof. apply keeps_wrap. intros s s' r H p. by eapply dump_keep. Qed.
Lemma keeps_services : keepsM (reading ServiceList).
Proof. apply keeps_wrap. intros s s' r H p. by eapply services_keep. Qed.
Lemma keeps_status : keepsM (reading FirewallSafetyStatusViaHost).
Proof. apply keeps_wrap. intros s s' r H p. by eapply status_keep. Qed.
Lemma keeps_ipv6 : keepsM (reading EnsureVPNIPv6DisabledViaHost).
Proof. apply keeps_wrap. intros s s' r H p. by eapply ipv6_keep. Qed.
Hint Resolve keeps_ret keeps_fail keeps_result keeps_refuse keeps_get keeps_dump keeps_services keeps_status keeps_ipv6 : core.
Ltac keeps := repeat first
  [ progress intros | solve [auto] | apply keeps_bind | apply keeps_foldS | apply keeps_forM
  | match goal with |- keepsM (match ?x with _ => _ end) => destruct x end ].

Lemma keeps_owned item : keepsM (owned_changes item).
Proof. unfold owned_changes, lift_result. keeps. Qed.
Hint Resolve keeps_owned : core.
Lemma keeps_count sc modules : keepsM (clientServiceChangeCount interfaces sc modules).
Proof. unfold clientServiceChangeCount, firewall_changes, lift_result. keeps. Qed.
Lemma keeps_verify state capability : keepsM (verifyClientServices state capability).
Proof. unfold verifyClientServices. keeps. Qed.
Lemma keeps_disabled state : keepsM (verifyDisabledClientServices state).
Proof. unfold verifyDisabledClientServices. keeps. Qed.
Lemma keeps_safety modules composed : keepsM (safety_gate modules composed).
Proof. unfold safety_gate, verifyComposedFirewall, lift_result. keeps. Qed.
Lemma keeps_network composed : keepsM (network_gate composed).
Proof. unfold network_gate. keeps. Qed.

Lemma gate_keeps m : keepsM m → FwAppliance.keeps view (gate text m).
Proof. intros Hm s s' r p. unfold gate. destruct (m s) as [s1 x] eqn:Em. intros [= <- _]. by apply (Hm _ _ _ Em). Qed.
Lemma service_gates_keep modules composed : gates_keep view (service_gates text modules composed).
Proof.
  intros op. cbn. rewrite !elem_of_cons, elem_of_nil. pose proof (keeps_safety modules composed). pose proof (keeps_network composed).
  intros [[= ->]|[[= ->]|[[= ->]|[[= ->]|[]]]]]; [by apply gate_keeps..|]. intros s s' r p Hr. by eapply reload_keep.
Qed.

(** ** The phases of a command *)

Lemma untouched_refl l : untouched l l.
Proof. done. Qed.
Lemma untouched_trans l1 l2 l3 : untouched l1 l2 → untouched l2 l3 → untouched l1 l3.
Proof. intros [F1 V1] [F2 V2]. split; [by rewrite F2|]. intros p. by rewrite V2. Qed.
Lemma calm_provider {A} (m : M S CmdError A) : keepsM m → calm (on_provider m).
Proof. intros Hm l l' r. unfold on_provider. destruct (m _) as [s1 x] eqn:Em. intros [= <- _]. split; [done|]. by apply (Hm _ _ _ Em). Qed.
Lemma calm_result {E A} (f : E → CmdError) (x : result E A) : calm (of_result f x).
Proof. intros l l' r. unfold of_result. destruct x; by intros [= <- _]. Qed.
Lemma calm_ret {A} (a : A) : calm (mret a).
Proof. by intros l l' r [= <- _]. Qed.
Lemma calm_refuse b e : calm (refuse b e).
Proof. intros l l' r. destruct b; by intros [= <- _]. Qed.
Lemma calm_confirm yes input : calm (confirm yes input).
Proof.
  intros l l' r. unfold confirm. destruct yes; [by intros [= <- _]|]. destruct input as [lines|]; [|by intros [= <- _]].
  destruct (promptYesNo _ _); [apply calm_refuse|by intros [= <- _]].
Qed.

(** A calm step that succeeds leads on; one that fails ends the command. *)
Lemma calm_step {A B} (m : M (Lab S) CmdError A) (f : A → M (Lab S) CmdError B) l l' r : calm m → (m ≫= f) l = (l', r) →
  (untouched l l' ∧ ∃ e, r = Err e) ∨ ∃ l1 a, m l = (l1, Ok a) ∧ untouched l l1 ∧ f a l1 = (l', r).
Proof.
  intros Hm. unfold mbind, M_bind. destruct (m l) as [l1 [a|e]] eqn:Em.
  - intros Hf. right. exists l1, a. split; [done|]. split; [by eapply Hm|done].
  - intros [= <- <-]. left. split; [by eapply Hm|eauto].
Qed.

Lemma result_step {E A B} (g : E → CmdError) (x : result E A) (f : A → M (Lab S) CmdError B) l l' r :
  (of_result g x ≫= f) l = (l', r) → (untouched l l' ∧ ∃ e, r = Err e) ∨ ∃ a, x = Ok a ∧ f a l = (l', r).
Proof. unfold of_result. destruct x as [a|e]; cbn; [eauto|]. intros [= <- <-]. left. split; [done|eauto]. Qed.

Lemma carried_before yes input sc modules save l l1 l' r : untouched l l1 →
  carried_out yes input sc modules save l1 l' r → carried_out yes input sc modules save l l' r.
Proof.
  intros [F V] (Hc&Hf&Hs&Hr). split; [done|]. split; [by rewrite Hf; destruct save|]. split; [done|].
  destruct Hr as [?|(->&composition&Hco&Hre)]; [by left|right]. split; [done|]. exists composition. split; [done|].
  intros Hwf pkg desired name Hin. rewrite <- V. apply Hre; [|done].
  eapply Forall_impl; [exact Hwf|]. intros item (H1&H2&H3). unfold item_wf. rewrite V. done.
Qed.
Lemma outcome_before yes input sc modules save l l1 l' r : untouched l l1 →
  outcome yes input sc modules save l1 l' r → outcome yes input sc modules save l l' r.
Proof.
  intros Hu [[Hu' Hr]|Hc]; [left; split; [by eapply untouched_trans|done]|right]. by eapply carried_before.
Qed.

Lemma confirm_ok yes input (l : Lab S) l' u : confirm yes input l = (l', Ok u) → consented yes input.
Proof.
  unfold confirm, consented. destruct yes; [by left|]. destruct input as [lines|]; [|done].
  destruct (promptYesNo _ _) as [[]|] eqn:Ep; [|done..]. right. eauto.
Qed.

(** What the network section of the configuration adds does not change the composition. *)
Lemma compose_saved sc modules config : (∃ modules', config = saved_config sc modules') ∨ config = sx_Config sc →
  composeClientAppliance interfaces (mkContext config (sx_Site sc) (sx_HomeRecovery sc) (sx_VPNProfile sc)) modules
  = composeClientAppliance interfaces sc modules.
Proof.
  destruct sc as [[name px st net gw mods] site home vpn]. intros [[modules' ->]| ->]; [|done]. cbn.
  unfold composeClientAppliance, saved_config, ensureClientNetworkIntent, managementCompositionPolicy. cbn.
  destruct net as [n|]; cbn; [|done]. by destruct (nc_Domain n == "").
Qed.

Lemma SaveConfig_ok write config (l : Lab S) l' u : SaveConfig write config l = (l', Ok u) →
  l' = mkLab (lab_provider l) config ∧ ValidateConfig config = Ok tt.
Proof. unfold SaveConfig. destruct (ValidateConfig _) as [[]|]; [|done]. destruct write; [|done]. by intros [= <- _]. Qed.
Lemma SaveConfig_err write config (l : Lab S) l' e : SaveConfig write config l = (l', Err e) → l' = l.
Proof. unfold SaveConfig. destruct (ValidateConfig _) as [[]|]; [|by intros [= <- _]]. destruct write; [done|by intros [= <- _]]. Qed.

Lemma of_result_ok {E1 E2 A} (f : E1 → E2) (x : result E1 A) (s s' : S) a : of_result f x s = (s', Ok a) → x = Ok a ∧ s' = s.
Proof. unfold of_result. destruct x; [|done]. by intros [= <- ->]. Qed.
Lemma reconcile_ok sc modules s s' x : reconcileClientServices interfaces text sc modules s = (s', Ok x) →
  ∃ composition, composeClientAppliance interfaces sc modules = Ok composition ∧ reconciled s s' composition.
Proof.
  intros (s1&state&H1&H)%M_bind_ok. apply M_bind_ok in H as (s2&u2&H2&H). apply M_bind_ok in H as (s3&composition&H3&H).
  apply M_bind_ok in H as (s4&n&H4%wrap_err_ok&H). injection H as <- _.
  apply of_result_ok in H1 as [_ ->], H2 as [_ ->], H3 as [Hc ->].
  exists composition. split; [done|]. intros Hwf.
  exact (proj1 (reconciles_packages view _ _ _ _ n Hwf (service_gates_keep _ _) H4)).
Qed.

(** The part of a command that changes something. *)
Lemma change_outcome yes input write save config sc modules (v : M (Lab S) CmdError unit) l l' r :
  calm v → (save = true → config = saved_config sc modules) → (save = false → (∃ modules', config = saved_config sc modules') ∨ config = sx_Config sc) →
  (_ ← confirm yes input;
   _ ← (if save then SaveConfig write config else mret tt);
   _ ← after_save save (on_provider (reconcileClientServices interfaces text
         (mkContext config (sx_Site sc) (sx_HomeRecovery sc) (sx_VPNProfile sc)) modules));
   _ ← after_save save v;
   mret Applied) l = (l', r) → outcome yes input sc modules save l l' r.
Proof.
  intros Hv Hc1 Hc2 H. apply calm_step in H as [[Hu [e ->]]|(l1&u1&Hy%confirm_ok&Hu1&H)]; [by left|..|apply calm_confirm].
  apply (outcome_before _ _ _ _ _ l l1); [done|]. clear Hu1 l. revert H. rename l1 into l.
  unfold mbind, M_bind at 1. destruct ((if save then SaveConfig write config else mret tt) l) as [l2 [u|e]] eqn:Es.
  2:{ intros [= <- <-]. left. split; [|done]. destruct save; [|done]. by apply SaveConfig_err in Es as ->. }
  assert (lab_provider l2 = lab_provider l ∧ lab_file l2 = (if save then saved_config sc modules else lab_file l)
    ∧ (save = true → ValidateConfig (saved_config sc modules) = Ok tt)) as (Hp&Hf&Hs).
  { destruct save; [|by injection Es as <- _]. specialize (Hc1 eq_refl) as ->. by apply SaveConfig_ok in Es as [-> ?]. }
  unfold M_bind at 1. unfold after_save at 1, wrap_err, on_provider.
  destruct (reconcileClientServices _ _ _ _ _) as [s3 [x|e]] eqn:Er.
  2:{ intros [= <- <-]. right. split_and!; [done|done|done|]. left. eauto. }
  apply reconcile_ok in Er as (composition&Hco&Hre). rewrite Hp in Hre.
  rewrite compose_saved in Hco by (destruct save; [left; eexists; by apply Hc1|by apply Hc2]).
  unfold M_bind, after_save, wrap_err. destruct (v _) as [l4 [u4|e]] eqn:Ev; intros [= <- <-]; right.
  all: apply Hv in Ev as [Fv Vv]; cbn in Fv, Vv; split_and!; [done|by rewrite Fv|done|].
  - right. split; [done|]. exists composition. split; [done|]. intros Hwf pkg desired name Hin. rewrite Vv. by apply Hre.
  - left. eauto.
Qed.

Lemma addReservation_context name zone mac address sc sc1 changed :
  addReservation name zone mac address sc = Ok (sc1, changed) → ∃ modules, sc1 = with_config sc modules.
Proof.
  unfold addReservation. destruct (m_DHCP _); [|done]. intros (u&H1&H)%bind_ok. destruct (canonicalMAC _); [|done].
  destruct (parse_to4 _); [|done]. apply bind_ok in H as (u2&H2&H). apply bind_ok in H as (same&H3&H).
  destruct (CsValidate.Validate _ _); [|done]. injection H as <- _. eauto.
Qed.
Lemma removeReservation_context name sc sc1 : removeReservation name sc = Ok sc1 → ∃ modules, sc1 = with_config sc modules.
Proof.
  unfold removeReservation. destruct (m_DHCP _); [|done]. intros (u&H1&H)%bind_ok. destruct (remove_first _ _); [|done].
  apply bind_ok in H as (u2&H2&H). apply bind_ok in H as (u3&H3&H). injection H as <-. eauto.
Qed.
Lemma addRecord_context name recordType value sc sc1 changed :
  addRecord name recordType value sc = Ok (sc1, changed) → ∃ modules, sc1 = with_config sc modules.
Proof.
  unfold addRecord. destruct (m_DNS _); [|done]. intros (u&H1&H)%bind_ok. apply bind_ok in H as (record&H2&H).
  apply bind_ok in H as (same&H3&H). destruct (CsValidate.Validate _ _); [|done]. injection H as <- _. eauto.
Qed.
Lemma removeRecord_context name sc sc1 : removeRecord name sc = Ok sc1 → ∃ modules, sc1 = with_config sc modules.
Proof.
  unfold removeRecord. destruct (m_DNS _); [|done]. intros (u&H1&H)%bind_ok. destruct (canonicalName _ _); [|done].
  destruct (remove_first _ _); [|done]. injection H as <-. eauto.
Qed.

(** A step that changes nothing, before the rest. *)
Ltac quiet H l1 Hl a := apply calm_step in H as [[?Hu [?e ->]]|(l1&a&_&Hl&H)];
  [by left|apply (outcome_before _ _ _ _ _ _ l1 _ _ Hl)
  |solve [apply calm_result|apply calm_ret|apply calm_refuse|apply calm_provider; auto using keeps_count, keeps_verify, keeps_disabled]].

Lemma mutation_outcome write input yes capability save sc modules l l' r :
  applyClientResourceMutation interfaces text write input yes capability save (with_config sc modules) l = (l', r) →
  outcome yes input sc modules save l l' r.
Proof.
  unfold applyClientResourceMutation. intros H. quiet H l1 Hl changes. destruct ((changes =? 0) && negb save).
  - quiet H l2 Hl2 state. quiet H l3 Hl3 u. injection H as <- <-. by left.
  - refine (change_outcome yes input write save (saved_config sc modules) sc modules (mret tt) l1 l' r (calm_ret _) (fun _ => eq_refl)
      (fun _ => or_introl (ex_intro _ modules eq_refl)) H).
Qed.

Lemma apply_outcome write input yes capability sc l l' r :
  runClientServiceApply interfaces text write input (mkOptions yes false) capability sc l = (l', r) →
  (untouched l l' ∧ r ≠ Ok Applied) ∨ ∃ modules, intended (CmdApply capability) sc = Ok (modules, true) ∧ outcome yes input sc modules true l l' r.
Proof.
  unfold runClientServiceApply. intros H. apply result_step in H as [[Hu [e ->]]|([m1 configChanged]&Hp&H)]; [by left|].
  apply result_step in H as [[Hu [e ->]]|([proposed infra]&Hi&H)]; [by left|]. right. exists proposed. split.
  { cbn. rewrite Hp. cbn. by rewrite Hi. }
  quiet H l1 Hl1 state. quiet H l2 Hl2 changes. destruct (_ && _).
  - quiet H l3 Hl3 u. injection H as <- <-. by left.
  - refine (change_outcome yes input write true (saved_config sc proposed) sc proposed (on_provider (verifyClientServices state capability)) l2 l' r
      (calm_provider _ (keeps_verify _ _)) (fun _ => eq_refl) _ H). by intros.
Qed.

Lemma teardown_outcome write input yes plan capability sc l l' r :
  runClientServiceTeardown interfaces text write input (mkOptions yes plan) capability sc l = (l', r) →
  (untouched l l' ∧ r ≠ Ok Applied) ∨ ∃ modules save, intended (CmdTeardown capability plan) sc = Ok (modules, save)
    ∧ outcome yes input sc modules save l l' r.
Proof.
  unfold runClientServiceTeardown. intros H.
  apply calm_step in H as [[Hu [e ->]]|(l1&u1&_&Hl1&H)]; [by left| |apply calm_refuse].
  apply calm_step in H as [[Hu [e ->]]|(l2&u2&_&Hl2&H)]; [left; split; [by eapply untouched_trans|done]| |apply calm_refuse].
  assert (untouched l l2) as Hl by by eapply untouched_trans.
  apply result_step in H as [[Hu [e ->]]|([proposed save]&Hp&H)]; [left; split; [by eapply untouched_trans|done]|].
  right. exists proposed, save. split; [done|]. apply (outcome_before _ _ _ _ _ _ l2 _ _ Hl).
  quiet H l3 Hl3 state. quiet H l4 Hl4 changes. cbn [co_plan] in H. destruct plan; [injection H as <- <-; by left|].
  destruct (negb save && _).
  - quiet H l5 Hl5 u. injection H as <- <-. by left.
  - refine (change_outcome yes input write save _ sc proposed (on_provider (verifyDisabledClientServices state)) l4 l' r
      (calm_provider _ (keeps_disabled _)) _ _ H); intros ->; [done|by right].
Qed.
End effects.

(** C6. A command that changes the lab acts only with the operator's consent: either
    the configuration file and every package of the provider are left as they were
    and it does not report success, or the operator agreed and the file is the
    intended configuration, validated, where the intent changes it (and untouched
    where not); then it either fails, saying that the application failed and whether
    the file had been saved, or every package of the appliance composed from the
    intent holds what its specification says. *)
Theorem run_command_outcome {S : Type} `{provider : ClientProvider S} (view : S → string → Package) {laws : ClientLaws S view}
    `{unicode : GoUnicode, url : GoURL, json : ProviderJSON, equal : DeepEqual}
    interfaces text write input yes (c : Command) (sc : clientServiceContext) (l l' : Lab S) r :
  run_command interfaces text write input yes c sc l = (l', r) →
  (untouched view l l' ∧ r ≠ Ok Applied)
  ∨ ∃ modules save, intended c sc = Ok (modules, save) ∧ carried_out view interfaces yes input sc modules save l l' r.
Proof.
  intros H.
  enough ((untouched view l l' ∧ r ≠ Ok Applied)
    ∨ ∃ modules save, intended c sc = Ok (modules, save) ∧ outcome view interfaces yes input sc modules save l l' r) as Ho.
  { destruct Ho as [?|(modules&save&?&[?|?])]; [by left|by left|right; eauto]. }
  destruct c; cbn [run_command] in H.
  - apply (apply_outcome view) in H as [?|(modules&?&?)]; [by left|right; eauto].
  - apply (teardown_outcome view) in H as [?|?]; [by left|by right].
  - apply (result_step view) in H as [[? [e ->]]|([sc1 save]&Ha&H)]; [by left|]. right.
    destruct (addReservation_context _ _ _ _ _ _ _ Ha) as [modules ->]. exists modules, save. split.
    + cbn. by rewrite Ha.
    + by eapply mutation_outcome.
  - apply (result_step view) in H as [[? [e ->]]|(sc1&Ha&H)]; [by left|]. right.
    destruct (removeReservation_context _ _ _ Ha) as [modules ->]. exists modules, true. split.
    + cbn. by rewrite Ha.
    + by eapply mutation_outcome.
  - apply (result_step view) in H as [[? [e ->]]|([sc1 save]&Ha&H)]; [by left|]. right.
    destruct (addRecord_context _ _ _ _ _ _ Ha) as [modules ->]. exists modules, save. split.
    + cbn. by rewrite Ha.
    + by eapply mutation_outcome.
  - apply (result_step view) in H as [[? [e ->]]|(sc1&Ha&H)]; [by left|]. right.
    destruct (removeRecord_context _ _ _ Ha) as [modules ->]. exists modules, true. split.
    + cbn. by rewrite Ha.
    + by eapply mutation_outcome.
Qed.

(** The number of changes a plan reports. *)
Definition planned (r : Report) : Z := match r with Planned n => n | _ => 0 end.

Section planning.
Context {S : Type} `{provider : ClientProvider S} (view : S → string → Package) {laws : ClientLaws S view}
  `{unicode : GoUnicode, url : GoURL, json : ProviderJSON, equal : DeepEqual}.
Context (interfaces : result string (list (list Z))) (text : CmdError → string).

Lemma reading_get pkg s s' o : reading (UCIGet pkg) s = (s', Ok o) → o = view s pkg ∧ ∀ p, view s' p = view s p.
Proof. intros H%wrap_err_ok. by eapply get_view. Qed.

Lemma lift_result_ok {A E} (f : E → CmdError) (x : result E A) (s s' : S) a : lift_result f x s = (s', Ok a) → x = Ok a ∧ s' = s.
Proof. apply of_result_ok. Qed.

(** The sizes of the owned differences of [items], added up. *)
Definition owned_total (s : S) (items : list (string * list Section_)) (n : Z) : Prop :=
  ∃ ns, Forall2 (fun item k => ∃ ms, DiffOwned (view s item.1) item.2 = Ok ms ∧ k = Z.of_nat (length ms)) items ns ∧ n = foldr Z.add 0 ns.

Lemma owned_total_fold (f : Z → string * list Section_ → M S CmdError Z) s items :
  (∀ item n s1 s2 m, item ∈ items → (∀ p, view s1 p = view s p) → f n item s1 = (s2, Ok m) →
     (∀ p, view s2 p = view s p) ∧ ∃ ms, DiffOwned (view s item.1) item.2 = Ok ms ∧ m = n + Z.of_nat (length ms)) →
  ∀ n s1 s2 m, (∀ p, view s1 p = view s p) → foldS f n items s1 = (s2, Ok m) →
  (∀ p, view s2 p = view s p) ∧ owned_total s items (m - n).
Proof.
  induction items as [|item items IH]; intros Hf n s1 s2 m Hv; cbn.
  { intros [= <- <-]. split; [done|]. exists []. split; [constructor|cbn; lia]. }
  intros (s3&k&H1&H2)%M_bind_ok. apply Hf in H1 as (Hv1&ms&Hd&->); [|by left|done].
  apply IH in H2 as (Hv2&ns&Hns&Hm); [|intros; eapply Hf; eauto; by right|done]. split; [done|].
  exists (Z.of_nat (length ms) :: ns). split; [by constructor; eauto|cbn; lia].
Qed.

Lemma owned_total_app s a b n : owned_total s (a ++ b) n ↔ ∃ n1 n2, owned_total s a n1 ∧ owned_total s b n2 ∧ n = n1 + n2.
Proof.
  split.
  - intros (ns&H&->). apply Forall2_app_inv_l in H as (n1&n2&H1&H2&->). exists (foldr Z.add 0 n1), (foldr Z.add 0 n2).
    split_and!; [by exists n1|by exists n2|]. clear. induction n1; cbn; lia.
  - intros (m1&m2&(n1&H1&->)&(n2&H2&->)&->). exists (n1 ++ n2). split; [by apply Forall2_app|]. clear. induction n1; cbn; lia.
Qed.
Lemma owned_total_fun s items n m : owned_total s items n → owned_total s items m → n = m.
Proof.
  intros (ns&H1&->) (ks&H2&->). revert ks H2. induction H1 as [|item k items ns (ms&Hd&->) H IH]; intros ks H2; inversion H2; subst; [done|].
  destruct H3 as (ms'&Hd'&->). rewrite Hd in Hd'. injection Hd' as <-. cbn. f_equal. by apply IH.
Qed.

Lemma owned_changes_ok item s s' ms : owned_changes item s = (s', Ok ms) → DiffOwned (view s item.1) item.2 = Ok ms ∧ ∀ p, view s' p = view s p.
Proof.
  intros (s1&o&[-> Hv]%reading_get&H)%M_bind_ok. apply M_bind_ok in H as (s2&u&[_ ->]%lift_result_ok&H).
  apply lift_result_ok in H as [? ->]. done.
Qed.
End planning.

(** ** Planning and counting *)

Section planning_counts.
Context {S : Type} `{provider : ClientProvider S} (view : S → string → Package) {laws : ClientLaws S view}
  `{unicode : GoUnicode, url : GoURL, json : ProviderJSON, equal : DeepEqual}.
Context (interfaces : result string (list (list Z))).

(** The infrastructure records of the intent are not read: they come from the site. *)
Lemma services_ignore_infrastructure site m d i : m_DNS m = Some d →
  ServiceStateFromModules site (with_dns m (Some (mkDNS (d_Enabled d) (d_Upstreams d) (d_Records d) i))) = ServiceStateFromModules site m.
Proof. destruct m as [sy t dns h v o md ar], d; cbn. intros ->. destruct h, v, o, md, ar; reflexivity. Qed.
Lemma compose_ignores_infrastructure sc m d i : m_DNS m = Some d →
  composeClientAppliance interfaces sc (with_dns m (Some (mkDNS (d_Enabled d) (d_Upstreams d) (d_Records d) i)))
  = composeClientAppliance interfaces sc m.
Proof. destruct m as [sy t dns h v o md ar], d; cbn. intros ->. destruct h, v, o, md, ar; reflexivity. Qed.

Lemma infrastructure_same sc modules proposed infra : infrastructure sc modules = Ok (proposed, infra) →
  ServiceStateFromModules (sx_Site sc) proposed = ServiceStateFromModules (sx_Site sc) modules
  ∧ composeClientAppliance interfaces sc proposed = composeClientAppliance interfaces sc modules.
Proof.
  unfold infrastructure. destruct (m_DNS modules) as [d|] eqn:Ed; [|by intros [= <- _]].
  destruct (InfrastructureDNSRecords _); [|done]. intros [= <- _].
  split; [by apply services_ignore_infrastructure|by apply compose_ignores_infrastructure].
Qed.

Lemma count_ok sc modules s s' n : clientServiceChangeCount interfaces sc modules s = (s', Ok n) →
  ∃ composition state firewall, composeClientAppliance interfaces sc modules = Ok composition
    ∧ ServiceStateFromModules (sx_Site sc) modules = Ok state
    ∧ DiffFirewall (view s "firewall") (ds_Firewall (ac_Desired composition)) = Ok firewall
    ∧ owned_total view s (owned_items state ++ [("network", ds_Network (ac_Desired composition))]) (n - Z.of_nat (length firewall)).
Proof.
  intros (s1&composition&[Hc ->]%of_result_ok&H)%M_bind_ok. apply M_bind_ok in H as (s2&state&[Hs ->]%lift_result_ok&H).
  apply M_bind_ok in H as (s3&k&H1&H2). apply (owned_total_fold view _ s) in H1 as [Hv Ht]; [|..|done].
  - apply M_bind_ok in H2 as (s4&fw&H2&H3). injection H3 as <- <-.
    apply M_bind_ok in H2 as (s5&o&[-> Hv5]%(reading_get view)&H2). apply lift_result_ok in H2 as [H2 ->]. rewrite Hv in H2.
    exists composition, state, fw. split_and!; [done..|]. by replace (k + Z.of_nat (length fw) - Z.of_nat (length fw)) with (k - 0) by lia.
  - intros item m s4 s5 m' _ Hv4 (s6&ms&[Hd Hv6]%(owned_changes_ok view)&H)%M_bind_ok. injection H as <- <-.
    split; [intros p; by rewrite Hv6|]. exists ms. by rewrite Hv4 in Hd.
Qed.
Lemma plan_changes_ok item s s' ms : plan_changes item s = (s', Ok ms) →
  (if item.1 == "firewall" then DiffFirewall (view s item.1) item.2 else DiffOwned (view s item.1) item.2) = Ok ms
  ∧ ∀ p, view s' p = view s p.
Proof. intros (s1&o&[-> Hv]%(reading_get view)&H)%M_bind_ok. apply lift_result_ok in H as [? ->]. done. Qed.
Lemma foldS_snoc_ok {E B A} (f : B → A → M S E B) b xs x s s' b' : foldS f b (xs ++ [x]) s = (s', Ok b') →
  ∃ s1 b1, foldS f b xs s = (s1, Ok b1) ∧ f b1 x s1 = (s', Ok b').
Proof.
  revert b s. induction xs as [|y xs IH]; intros b s; cbn.
  - intros (s1&b1&H1&H2)%M_bind_ok. injection H2 as <- <-. eauto.
  - intros (s1&b1&H1&(s2&b2&H2&H3)%IH)%M_bind_ok. exists s2, b2. split; [|done]. unfold mbind, M_bind. by rewrite H1.
Qed.
Lemma plan_reports (state : ServiceState) capability (changed : bool) n s s' report :
  (if negb changed && (n =? 0) then report_plan state capability else mret (Planned n)) s = (s', Ok report) → planned report = n.
Proof.
  destruct (negb changed && (n =? 0)) eqn:Eb; [|by intros [= _ <-]]. apply andb_prop in Eb as [_ ->%Z.eqb_eq].
  unfold report_plan. destruct (verifyClientServices _ _ _) as [s1 []]; by intros [= _ <-].
Qed.

Lemma plan_ok capability sc s s' report : runClientServicePlan interfaces capability sc s = (s', Ok report) →
  ∃ modules changed composition state firewall,
    prepareClientModules (lc_Modules (sx_Config sc)) capability true (sx_Site sc) = Ok (modules, changed)
    ∧ composeClientAppliance interfaces sc modules = Ok composition
    ∧ ServiceStateFromModules (sx_Site sc) modules = Ok state
    ∧ DiffFirewall (view s "firewall") (ds_Firewall (ac_Desired composition)) = Ok firewall
    ∧ owned_total view s (owned_items state) (planned report - Z.of_nat (length firewall)).
Proof.
  intros (s1&[modules changed]&[Hp ->]%of_result_ok&H)%M_bind_ok. apply M_bind_ok in H as (s2&state&[Hs ->]%lift_result_ok&H).
  apply M_bind_ok in H as (s3&composition&[Hc ->]%of_result_ok&H). apply M_bind_ok in H as (s4&n&H&Hrest).
  apply foldS_snoc_ok in H as (s5&k&H1&(s6&fw&H2&H3)%M_bind_ok). injection H3 as <- <-.
  apply (owned_total_fold view _ s) in H1 as [Hv Ht]; [|..|done].
  - apply plan_changes_ok in H2 as [Hd _]. cbn in Hd. rewrite Hv in Hd. exists modules, changed, composition, state, fw. split_and!; [done..|].
    assert (planned report = k + Z.of_nat (length fw)) as -> by (by eapply plan_reports).
    by replace (k + Z.of_nat (length fw) - Z.of_nat (length fw)) with (k - 0) by lia.
  - intros item m s7 s8 m' Hi Hv7 (s9&ms&[Hd Hv9]%plan_changes_ok&H)%M_bind_ok. injection H as <- <-.
    split; [intros p; by rewrite Hv9|]. exists ms. split; [|done]. rewrite Hv7 in Hd.
    unfold owned_items in Hi. rewrite !elem_of_cons, elem_of_nil in Hi. by destruct Hi as [->|[->|[->|[]]]].
Qed.
End planning_counts.

(** C7. A plan leaves the network package out: on the same provider, what apply counts
    (and then asks to confirm) is what the plan reported and the differences of the
    network package besides; the infrastructure records that apply also renews do
    not change the count. *)
Theorem plan_leaves_out_network {S : Type} `{provider : ClientProvider S} (view : S → string → Package) {laws : ClientLaws S view}
    `{unicode : GoUnicode, url : GoURL, json : ProviderJSON, equal : DeepEqual}
    interfaces capability (sc : clientServiceContext) (s s1 s2 : S) report proposed counted :
  runClientServicePlan interfaces capability sc s = (s1, Ok report) →
  intended (CmdApply capability) sc = Ok (proposed, true) →
  clientServiceChangeCount interfaces sc proposed s = (s2, Ok counted) →
  ∃ composition network, composeClientAppliance interfaces sc proposed = Ok composition
    ∧ DiffOwned (view s "network") (ds_Network (ac_Desired composition)) = Ok network
    ∧ counted = planned report + Z.of_nat (length network).
Proof.
  intros (m1&changed&c1&st1&fw1&Hp1&Hc1&Hs1&Hf1&Ht1)%(plan_ok view) Hi (c2&st2&fw2&Hc2&Hs2&Hf2&Ht2)%(count_ok view).
  cbn in Hi. rewrite Hp1 in Hi. cbn in Hi. apply bind_ok in Hi as ([p2 infra]&Hi&H). injection H as ->.
  destruct (infrastructure_same interfaces _ _ _ _ Hi) as [Es Ec]. rewrite Es, Hs1 in Hs2. injection Hs2 as <-.
  rewrite Ec, Hc1 in Hc2. injection Hc2 as <-. rewrite Hf1 in Hf2. injection Hf2 as <-.
  apply owned_total_app in Ht2 as (n1&n2&Hn1&(ns&Hns&->)&Hn). pose proof (owned_total_fun view _ _ _ _ Ht1 Hn1) as <-.
  inversion Hns as [|item k items ks (network&Hd&->) Hks]; subst. inversion Hks; subst. cbn [foldr fst snd] in *.
  exists c1, network. split; [by rewrite Ec|]. split; [done|lia].
Qed.

(** A configuration read from its file has no [Arrstack] alias, and normalising a
    media section sets it: preparing a service then always reports a change. *)
Lemma prepare_media_changed `{unicode : GoUnicode, url : GoURL, equal : DeepEqual} {laws : DeepEqualLaws} current capability site media proposed changed :
  m_Arrstack current = None → m_Media current = Some media →
  prepareClientModules current capability true site = Ok (proposed, changed) → changed = true.
Proof.
  intros Ha Hm. unfold prepareClientModules.
  assert (∀ p, m_Media p = m_Media current → m_Arrstack (Normalize p) ≠ None) as Hn.
  { intros p Hp. unfold Normalize. cbn. rewrite Hp, Hm. done. }
  match goal with |- match ?x with _ => _ end = _ → _ => destruct x as [p|] eqn:Ep; [|by destruct capability; cbn in Ep; [destruct (m_DNS current)|destruct (m_DHCP current)]] end.
  assert (m_Media p = m_Media current) as Hp.
  { destruct capability; cbn in Ep; [destruct (m_DNS current)|destruct (m_DHCP current)]; by injection Ep as <-. }
  cbn [andb]. intros (u&_&Hv)%bind_ok. destruct (CsValidate.Validate _ _); [|done]. injection Hv as <- <-.
  destruct (same_modules _ _) eqn:Es; [|done]. apply same_modules_eq in Es. exfalso. apply (Hn p Hp). by rewrite <- Es.
Qed.

(** ** A lab in memory *)

#[export] Instance DNSConfig_eq_dec : EqDecision DNSConfig.
Proof. solve_decision. Defined.

(** Modules with nothing but DNS are compared; others count as different. *)
Definition same_dns_modules (a b : Modules) : bool :=
  match a, b with
  | mkModules [] None d None None None None None, mkModules [] None d' None None None None None => bool_decide (d = d')
  | _, _ => false
  end.
#[export] Instance sample_equal : DeepEqual := {| same_modules := same_dns_modules; same_records a b := bool_decide (a = b) |}.
Lemma sample_equal_laws : DeepEqualLaws.
Proof.
  split; cbn; [|intros a b; by case_bool_decide].
  intros [sy t d h v o md ar] [sy' t' d' h' v' o' md' ar']. cbn.
  destruct sy; [|done]. destruct t; [done|]. destruct h; [done|]. destruct v; [done|]. destruct o; [done|]. destruct md; [done|].
  destruct ar; [done|]. destruct sy'; [|done]. destruct t'; [done|]. destruct h'; [done|]. destruct v'; [done|]. destruct o'; [done|].
  destruct md'; [done|]. destruct ar'; [done|]. by case_bool_decide; subst.
Qed.

Definition sample_interface (name address : string) : Json :=
  JObject [("interface", JString name); ("up", JBool true);
           ("ipv4-address", JArray [JObject [("address", JString address); ("mask", JNumber f64_24)]])]%string.
Definition sample_dump : Json :=
  JObject [("interface", JArray
    ([JObject [("interface", JString "boetticher_home"); ("route", JArray
        [JObject [("target", JString "0.0.0.0"); ("mask", JNumber f64_zero); ("nexthop", JString "192.168.4.1")]])]]
     ++ map (fun z => sample_interface ("boetticher_iface_" +:+ to_lower (H:=ascii_only) (z_Name z)) (z_Gateway z)) (n_Zones (s_Network FwDesired.reference_site))))]%string.
Definition sample_services : gmap string string :=
  {[ "dnsmasq" := "up"; "stubby" := "up"; "sysntpd" := "up" ]}%string.
#[export] Instance sample_json : ProviderJSON := {|
  unmarshal_value t := if t == "dump" then Some sample_dump
    else if t == "up" then Some (JObject [("instances", JObject [("instance1", JObject [("running", JBool true)])])]%string) else None;
  unmarshal_services t := if t == "services" then Some (Some sample_services) else None;
|}.
#[export] Instance mem_client : ClientProvider MemStore := {|
  cp_appliance := mem_provider;
  InterfaceDump s := (s, Ok "dump"%string);
  ServiceList s := (s, Ok "services"%string);
  FirewallSafetyStatusViaHost s := (s, Ok true);
  EnsureVPNIPv6DisabledViaHost s := (s, Ok tt);
|}.
#[export] Instance mem_client_laws : ClientLaws MemStore mem_view.
Proof. split; [apply mem_provider_laws|..]; intros; cbn in *; by simplify_eq. Qed.

Definition sample_lab_config : LabConfig :=
  mkLabConfig "scope" (mkProxmox "192.168.1.10" "" "root" "" "no-subscription") None
    (Some (mkNet InternalBridge "" "" (mkVLANs 5 10 20 30 40 99) "" (Some (mkRanges "10.10.10.224/28" "10.10.20.224/28" "10.10.30.224/28" "10.10.40.224/28"))))
    None (mkModules [] None None None None None None None).
Definition sample_context : clientServiceContext := mkContext sample_lab_config FwDesired.reference_site true None.
Definition sample_text (_ : CmdError) : string := "failed".
Definition sample_command (yes : bool) (c : Command) (sc : clientServiceContext) (l : Lab MemStore) : Lab MemStore * result CmdError Report :=
  @run_command MemStore mem_client ascii_only plain_url sample_json sample_equal (Ok []) sample_text (Ok tt)
    (Some [Ok "what?"; Ok "n"]%string) yes c sc l.
Definition sample_lab : Lab MemStore := mkLab router sample_lab_config.

Definition context_of (l : Lab MemStore) : clientServiceContext := mkContext (lab_file l) FwDesired.reference_site true None.
(** The provider without the interface of the servers' network. *)
Definition drifted (l : Lab MemStore) : MemStore :=
  <[ "network" := delete "boetticher_iface_servers" (mem_view (lab_provider l) "network") ]> (lab_provider l).
Definition sample_plan (sc : clientServiceContext) (s : MemStore) : MemStore * result CmdError Report :=
  @runClientServicePlan MemStore mem_client ascii_only plain_url sample_json sample_equal (Ok []) DNS sc s.
Definition sample_intent (sc : clientServiceContext) : result CmdError (Modules * bool) :=
  @intended ascii_only plain_url sample_equal (CmdApply DNS) sc.
Definition sample_count (sc : clientServiceContext) (s : MemStore) : result CmdError Z :=
  match sample_intent sc with
  | Ok (modules, _) => (@clientServiceChangeCount MemStore mem_client ascii_only plain_url (Ok []) sc modules s).2
  | Err e => Err e
  end.

(** DNS is applied with [--yes]; applying it again changes nothing; then an interface
    is lost on the provider: the plan requires nothing, and apply counts it. *)
Definition applied_lab : Lab MemStore := (sample_command true (CmdApply DNS) sample_context sample_lab).1.
Definition story (run : Lab MemStore * result CmdError Report) :=
  let l := run.1 in
  (run.2, (sample_command false (CmdApply DNS) (context_of l) l).2, (sample_plan (context_of l) (drifted l)).2,
   sample_count (context_of l) (drifted l)).
Lemma sample_story : story (sample_command true (CmdApply DNS) sample_context sample_lab)
  = (Ok Applied, Ok NoChangesRequired, Ok NoChangesRequired, Ok 1).
Proof. vm_compute. reflexivity. Qed.

(** Refused at the prompt, after an answer that is not understood, and without an input. *)
Example sample_refused : (sample_command false (CmdApply DNS) sample_context sample_lab).2 = Err CancelledByOperator.
Proof. by vm_compute. Qed.

Lemma pair4_inj {A B C D : Type} (a a' : A) (b b' : B) (c c' : C) (d d' : D) :
  (a, b, c, d) = (a', b', c', d') → a = a' ∧ c = c' ∧ d = d'.
Proof. by intros [= -> _ -> ->]. Qed.
Lemma sample_applied : (sample_command true (CmdApply DNS) sample_context sample_lab).2 = Ok Applied.
Proof. exact (proj1 (pair4_inj _ _ _ _ _ _ _ _ sample_story)). Qed.
Lemma sample_planned : (sample_plan (context_of applied_lab) (drifted applied_lab)).2 = Ok NoChangesRequired.
Proof. exact (proj1 (proj2 (pair4_inj _ _ _ _ _ _ _ _ sample_story))). Qed.
Lemma sample_counted : sample_count (context_of applied_lab) (drifted applied_lab) = Ok 1.
Proof. exact (proj2 (proj2 (pair4_inj _ _ _ _ _ _ _ _ sample_story))). Qed.

Theorem run_command_outcome_witness : ∃ modules save,
  sample_intent sample_context = Ok (modules, save)
  ∧ lab_file applied_lab = (if save then saved_config sample_context modules else sample_lab_config).
Proof.
  assert (sample_command true (CmdApply DNS) sample_context sample_lab = (applied_lab, Ok Applied)) as Hrun.
  { exact (eq_trans (surjective_pairing _) (f_equal (pair applied_lab) sample_applied)). }
  unfold sample_command in Hrun.
  destruct (@run_command_outcome MemStore mem_client mem_view mem_client_laws ascii_only plain_url sample_json sample_equal
    (Ok []) sample_text (Ok tt) _ true (CmdApply DNS) sample_context sample_lab applied_lab (Ok Applied) Hrun)
    as [[_ Hne]|(modules&save&Hi&_&Hf&_)]; [exact (False_ind _ (Hne eq_refl))|].
  exists modules, save. split; [exact Hi|exact Hf].
Defined.

Lemma sample_count_ok sc s n : sample_count sc s = Ok n → ∃ modules s2, sample_intent sc = Ok (modules, true)
  ∧ @clientServiceChangeCount MemStore mem_client ascii_only plain_url (Ok []) sc modules s = (s2, Ok n).
Proof.
  unfold sample_count, sample_intent. cbn [intended].
  destruct (prepareClientModules _ _ _ _) as [[m changed]|]; cbn; [|done]. destruct (infrastructure _ _) as [[m' infra]|]; cbn; [|done].
  intros Hn. exists m', (@clientServiceChangeCount MemStore mem_client ascii_only plain_url (Ok []) sc m' s).1. split; [done|].
  rewrite <- Hn. by destruct (clientServiceChangeCount _ _ _ _).
Qed.

Theorem plan_leaves_out_network_witness : ∃ composition network modules,
  @composeClientAppliance ascii_only plain_url (Ok []) (context_of applied_lab) modules = Ok composition
  ∧ @DiffOwned ascii_only (mem_view (drifted applied_lab) "network") (ds_Network (ac_Desired composition)) = Ok network
  ∧ 1 = 0 + Z.of_nat (length network).
Proof.
  assert (∃ s1, sample_plan (context_of applied_lab) (drifted applied_lab) = (s1, Ok NoChangesRequired)) as [s1 Hplan].
  { eexists. exact (eq_trans (surjective_pairing _) (f_equal (pair _) sample_planned)). }
  assert (∃ modules s2, sample_intent (context_of applied_lab) = Ok (modules, true)
    ∧ @clientServiceChangeCount MemStore mem_client ascii_only plain_url (Ok []) (context_of applied_lab) modules (drifted applied_lab) = (s2, Ok 1))
    as (modules&s2&Hi&Hcount).
  { exact (sample_count_ok _ _ _ sample_counted). }
  destruct (@plan_leaves_out_network MemStore mem_client mem_view mem_client_laws ascii_only plain_url sample_json sample_equal
    (Ok []) DNS _ _ _ _ _ _ _ Hplan Hi Hcount) as (composition&network&Hc&Hd&Hn).
  exists composition, network, modules. split; [exact Hc|]. split; [exact Hd|exact Hn].
Defined.

End SvcCommands.
